(* ===== verification/_CoqProject ===== *)
-Q . S2P
Prelude.v
Bitmap.v
Interrupt.v
Hardware.v
Syscall.v
Klist.v
Cstring.v
Stdio.v
Paging.v
Seqlock.v
Memory.v
Kpages.v
Procmem.v
Bothviews.v
Addrspace.v
Forkmem.v
Userpages.v
Release.v
Usermem.v
Arena.v
Heap.v
Heapimpl.v
Sched.v
Wait.v
Sync.v
Ioqueue.v
Keyboard.v
Path.v
Disk.v
Ide.v
Identify.v
Fsdata.v
Inode.v
Blocks.v
File.v
Filewrite.v
Fileread.v
Dir.v
Partscan.v
Dirlookup.v
Dirinsert.v
Fs.v
Fork.v
Process.v
Threadinit.v
Exit.v
Exec.v
Format.v
Fsinit.v
Fsprops.v
Pathwalk.v
Cwd.v
Shell.v
Uprog.v
Ps.v
Commands.v
Shellrun.v
Shellsafe.v
Shelltext.v
Userprogs.v
