(* ===== verification/Prelude.v ===== *)
(** * x86_os: a verification of the kernel's C code

    The program under [src/] is a small 32-bit x86 operating system: physical
    and virtual memory management with paging, threads and user processes under
    a round-robin scheduler, locks, a keyboard and an IDE disk driver, a file
    system with inodes and directories, pipes, and a shell.  This library models
    the C code of these parts as executable definitions and proves what makes
    them correct.  This file is the root: after this description it holds what
    the other files share.

    ** The parts and how they meet

    - Memory.  [Paging] is the two-level page table in physical memory with its
      recursive slot, walked by an MMU ([kernel/memory.c], [pte_ptr] to
      [page_table_add]); [Memory] the pools and [malloc_page], [mfree_page] and
      their relatives; [Arena] is [sys_malloc] and [sys_free] over an interface
      to a page allocator (class [PageAlloc]); [Heap] proves them against that
      interface; [Heapimpl] discharges it with [Memory] and states the result as
      a refinement of an abstract heap.
    - Threads.  [Interrupt] has the interrupt flag and descriptor table
      ([kernel/interrupt.c]); [Klist] the intrusive linked lists
      ([lib/kernel/list.c]); [Sched] threads, pids, the scheduler and the timer
      interrupt ([thread/thread.c], [device/timer.c]); [Wait] [sys_wait] and
      [sys_exit] ([userprog/wait_exit.c]); [Sync] semaphores and locks with
      interleavings ([thread/sync.c]).  [Seqlock] is the contract of a lock that
      the sequential models use; [Sync] shows that the code implements it.
    - Character devices.  [Ioqueue] is the ring buffer with its sleeping threads
      and the transfer through pipes ([device/ioqueue.c], [shell/pipe.c]);
      [Keyboard] the scan-code decoder ([device/keyboard.c]), against a
      description of a keyboard.
    - Disk.  [Ide] is the driver against an ATA controller with one block of
      data and one interrupt per sector ([device/ide.c]); [Disk]
      the contract on which the file system is built.  The driver implements it
      for drives that have the next sector of a command ready at once, and for
      requests of one sector; it does not wait between the sectors of a command.
    - File system.  [Fsdata] has its state, the bitmaps on disk and the
      descriptor tables ([fs/file.c], the headers of [fs/]); [Inode]
      [fs/inode.c]; [Blocks] the invariant of a partition and block allocation;
      [File], [Filewrite], [Fileread] reading and writing ([fs/file.c]);
      [Dir], [Dirlookup], [Dirinsert] directories ([fs/dir.c]); [Path] path
      strings; [Fs] the calls from [sys_open] to [sys_stat] ([fs/fs.c]);
      [Format] [partition_format] and [mount_partition]; [Fsprops] properties
      of the calls.
    - Libraries and shell.  [Bitmap] ([lib/kernel/bitmap.c]), [Cstring]
      ([lib/string.c]), [Stdio] ([lib/stdio.c]), [Shell] ([shell/shell.c]).
    - Processes.  [Procmem] is the making and switching of address spaces and
      the copy of a process's pages ([userprog/process.c], [userprog/fork.c]);
      [Fork] the rest of [fork]; [Process] the creation of a process up to its
      first instruction ([process_execute], [start_process]); [Release] and
      [Exit] what [sys_exit] gives back ([userprog/wait_exit.c]); [Usermem] and
      [Exec] the loading of a program ([userprog/exec.c]); [Threadinit] the first
      threads ([thread_init]).  They run on the
      state [kst] of [Fork], which holds the states of [Memory], [Sched] and
      [Fsdata] and what a PCB has besides.  [Kpages] (the frames of kernel
      pages), [Bothviews] (one memory seen through two page directories),
      [Addrspace], [Forkmem] and [Userpages] hold the lemmas about memory they
      share.
    - User programs.  [Uprog] has programs that make system calls, with their
      histories, and [printf]; [Commands] the built-in commands
      ([shell/buildin_cmd.c]); [Shellrun] the rest of [shell/shell.c], on
      [Shell], which edits and parses a line.  [Shellsafe] and [Shelltext] prove
      what holds of all histories of the shell, and what one line does.
      [Userprogs] has programs from [command/]; [Ps] the listing of [sys_ps],
      [Identify] what [identify_disk] reports.
    - Paths on the disk.  [Pathwalk] says what a path means on a file system and
      that [search_file] computes it; [Cwd] goes up and down the tree with
      [sys_chdir] and [sys_getcwd].
    ** How code is rendered

    A C integer is a [Z] with its conversions written out ([u8] .. [i32] below).
    A function that can stop the machine returns an [outcome]: [Done], or [Halt]
    with the reason (a failed [ASSERT], [PANIC], a page fault, an access outside
    an array, division by zero, waiting that cannot end, or fuel used up).
    Stateful code is in the monad [M S]: a function from the state to an
    [outcome] of a result and the state after.  [wp] is its weakest
    precondition: [wp m Q s] says that [m] run in [s] returns, with [Q], so
    every theorem stated with it is a statement of total correctness.  A
    function that puts its thread to sleep is given up to that point; what
    happens between is an interleaving of [Sched]'s and [Sync]'s steps.

    ** Fuel and bounds

    Loops that the code bounds recurse on the number of iterations.  Searches
    for a terminator run on one more than the number of bytes that are mapped;
    loops over a path on one more than its length ([path_fuel]); the sector
    loops of the driver on the number of sectors.  The theorems about them state
    that they return, so the fuel is enough.  A drive is busy for a number of
    accesses by the driver, a parameter of [Ide] that has to be less than the
    polls [busy_wait] makes.  [delete_dir_entry] takes its fuel as an
    argument, because its loop over the indirect blocks does not end:
    [delete_dir_entry_diverges] holds for every fuel.  [sys_getcwd] takes the
    depth of the tree, [sys_execv] one more than the number of arguments, and
    [buildin_ls] more than the number of entries it reads, [cat] more than the
    length of its file.
    Theorems about the disk are for drives of the 163840
    sectors the driver accepts; [format_mount_roundtrip] is for partitions of at
    least 640 sectors, enough for the metadata and one block.

    ** What the theorems show

    - Memory: translations after mapping and unmapping ([page_table_add_correct],
      [recursive_mapping]), allocation and its inverse with the invariant of the
      pools ([malloc_page_correct], [malloc_mfree_roundtrip]), set-up
      ([mem_pool_init_correct]), the heap ([sys_malloc_refines],
      [sys_free_refines]).
    - Threads: safety and fairness of the scheduler ([scheduler_safe],
      [round_robin]), mutual exclusion under all interleavings
      ([lock_mutual_exclusion]), the lock contract ([lock_refines_seqlock]),
      wait and exit, with no wake-up lost except for [init]
      ([wait_exit_correct], [init_not_woken]), lists ([list_simulation]).
    - Devices: [ide_refines_disk] and its limit [ide_read_torn],
      [ioqueue_refines_fifo], [pipe_transfer], [keyboard_decodes] and its limit
      [second_shift_lost].
    - Files: [inode_sync_correct], [inode_open_close], [file_write_appends],
      [file_read_correct], [search_dir_entry_correct], [dir_insert_search],
      [format_mount_roundtrip], [session_correct], and the failures
      [delete_dir_entry_diverges] and [turn_round_correct].
    - Strings and text: [wash_path_correct], [path_depth_cnt_correct],
      [vsprintf_renders], [itoa_roundtrip], [strcmp_correct],
      and the bitmap searches.
    - Processes: [sys_fork_correct], [process_execute_correct],
      [sys_execv_correct], [sys_exit_correct] and [release_memory_correct]:
      each says what the call does to the scheduler, to the tables of files and
      to memory, and that the invariants of [Sched] and [Memory] hold
      afterwards, for the views of both processes where there are two.
    - Paths: [search_file_correct] (for a tree that is sound, with the inodes and
      directories given back), [chdir_getcwd_roundtrip].
    - The shell: [shell_line_correct], [ls_correct], and over all histories
      [shell_paths] and [shell_balanced]; [cat_correct].
    - Boot: [thread_init_correct], where the histories of the scheduler begin,
      and [filesys_init_correct], where those of the file system do, at a first
      boot or a later one.
    - Output: [sys_ps_correct], [identify_disk_correct].
    Where the code does not do what it means to, the theorem states what it
    does: examples are the bit past the end of a bitmap that a multi-bit search
    examines, the inode number and the exit status that go through a byte, the
    16-bit page counts, and the bit that formatting clears too much.

    ** Not modelled

    Output: the console and [printk], and the echo of the keys that are typed.
    The sequences of calls in [kernel/init.c] and [kernel/main.c], the loop of
    [ide_init] over the channels, and the demonstration programs that end in
    endless loops.
    Assembly: the boot sectors, the interrupt stubs, [switch_to] (its effect is
    the switch of the running thread in [Sched] and [Process]), and the jump to
    [intr_exit], which is the result of [start_process] and [sys_execv].  The
    TLB: translations are those of the tables in memory.  Concurrency inside the
    file system: its calls are modelled as running to completion.
    Plan: what is left is the loop of [ide_init], with which the drives that [Fsinit]
    starts from would be the result of a scan, and the sequence of [init_all]. *)

From stdpp Require Import base numbers list gmap.

Local Open Scope Z_scope.

(** ** Machine-width integers

    A C integer of width [w] is a [Z]; [u8], [u16], [u32] are the conversions
    to the unsigned types of [lib/stdint.h] and [i8], [i16], [i32] the
    conversions to the signed ones (two's complement, as gcc does). *)
Definition u8 (x : Z) : Z := x mod 256.
Definition u16 (x : Z) : Z := x mod 65536.
Definition u32 (x : Z) : Z := x mod 4294967296.
Definition i8 (x : Z) : Z := (x + 128) mod 256 - 128.
Definition i16 (x : Z) : Z := (x + 32768) mod 65536 - 32768.
Definition i32 (x : Z) : Z := (x + 2147483648) mod 4294967296 - 2147483648.

Definition is_u8 (x : Z) : Prop := 0 <= x < 256.
Definition is_u32 (x : Z) : Prop := 0 <= x < 4294967296.

(** [DIV_ROUND_UP(X, STEP)] of [kernel/global.h], on [uint32_t] operands. *)
Definition DIV_ROUND_UP (x step : Z) : Z := u32 (u32 (x + step) - 1) / step.

Definition PG_SIZE : Z := 4096.

(** ** Outcomes

    A kernel function returns ([Done]) or stops the machine ([Halt]): a failed
    [ASSERT] or a [PANIC] spins for ever with interrupts off
    ([kernel/debug.c]), an access outside the modelled memory is a fault. *)
Inductive stop : Type :=
  | Assert_failed      (** a false [ASSERT(...)] *)
  | Panicked           (** a [PANIC(...)] or a deliberate [while(1);] *)
  | Page_fault         (** an access the MMU refuses *)
  | Out_of_bounds      (** an access outside the object the pointer points into *)
  | Would_block        (** the thread would be put to sleep (sequential models only) *)
  | Out_of_fuel.       (** the modelled loop did not finish within its fuel *)

Inductive outcome (A : Type) : Type :=
  | Done (a : A)
  | Halt (w : stop).
Arguments Done {A} a.
Arguments Halt {A} w.

#[export] Instance stop_eq_dec : EqDecision stop.
Proof. solve_decision. Defined.

Definition obind {A B} (m : outcome A) (f : A -> outcome B) : outcome B :=
  match m with Done a => f a | Halt w => Halt w end.

Definition oassert (b : bool) : outcome unit :=
  if b then Done tt else Halt Assert_failed.

Definition oget {A} (o : option A) (w : stop) : outcome A :=
  match o with Some a => Done a | None => Halt w end.

Declare Scope kernel_scope.
Delimit Scope kernel_scope with kernel.

Notation "'olet' x ':=' c 'in' k" := (obind c (fun x => k))
  (at level 10, x pattern, c at level 100, k at level 200)
  : kernel_scope.
Notation "'ASSERT' c 'in' k" := (obind (oassert c) (fun _ => k))
  (at level 10, c at level 100, k at level 200)
  : kernel_scope.

(** ** The kernel's state monad *)
Definition M (S A : Type) : Type := S -> outcome (A * S).

Definition ret {S A} (a : A) : M S A := fun s => Done (a, s).
Definition bind {S A B} (m : M S A) (f : A -> M S B) : M S B :=
  fun s => match m s with Done (a, s') => f a s' | Halt w => Halt w end.
Definition halt {S A} (w : stop) : M S A := fun _ => Halt w.
Definition gets {S A} (f : S -> A) : M S A := fun s => Done (f s, s).
Definition modify {S} (f : S -> S) : M S unit := fun s => Done (tt, f s).
Definition lift {S A} (o : outcome A) : M S A :=
  fun s => match o with Done a => Done (a, s) | Halt w => Halt w end.
Definition assertM {S} (b : bool) : M S unit := lift (oassert b).

Notation "'let!' x ':=' c 'in' k" := (bind c (fun x => k))
  (at level 10, x pattern, c at level 100, k at level 200)
  : kernel_scope.
Notation "c ';;;' k" := (bind c (fun _ => k))
  (at level 199, right associativity) : kernel_scope.

(** A loop: the body maps the loop's local variables either to their next
    values ([inl]: another iteration) or to the loop's result ([inr]: the
    condition is false, [break] or [return]). *)
Fixpoint loop {S L B} (fuel : nat) (body : L -> M S (L + B)) (l : L) : M S B :=
  match fuel with
  | O => halt Out_of_fuel
  | S fuel =>
      bind (body l) (fun r =>
        match r with inl l' => loop fuel body l' | inr b => ret b end)
  end.

(** Total-correctness weakest precondition: [m] returns, and what it returns
    satisfies [Q]. *)
Definition wp {S A} (m : M S A) (Q : A -> S -> Prop) (s : S) : Prop :=
  match m s with Done (a, s') => Q a s' | Halt _ => False end.

Create HintDb wp.

Section wp.
Context {S : Type}.

Lemma wp_ret {A} (a : A) (Q : A -> S -> Prop) s : Q a s -> wp (ret a) Q s.
Proof. done. Qed.

Lemma wp_gets {A} (f : S -> A) (Q : A -> S -> Prop) s : Q (f s) s -> wp (gets f) Q s.
Proof. done. Qed.

Lemma wp_modify (f : S -> S) (Q : unit -> S -> Prop) s : Q tt (f s) -> wp (modify f) Q s.
Proof. done. Qed.

Lemma wp_assert b (Q : unit -> S -> Prop) s : b = true -> Q tt s -> wp (assertM b) Q s.
Proof. by intros ->. Qed.

Lemma wp_lift {A} (o : outcome A) a (Q : A -> S -> Prop) s :
  o = Done a -> Q a s -> wp (lift o) Q s.
Proof. by intros ->. Qed.

Lemma wp_bind {A B} (m : M S A) (f : A -> M S B) Q s :
  wp m (fun a s' => wp (f a) Q s') s -> wp (bind m f) Q s.
Proof. unfold wp, bind. destruct (m s) as [[a s']|w]; done. Qed.

Lemma bind_done {A B} (m : M S A) (f : A -> M S B) s a s' : m s = Done (a, s') -> bind m f s = f a s'.
Proof. intros E. unfold bind. by rewrite E. Qed.
Lemma bind_halt {A B} (m : M S A) (f : A -> M S B) s w : m s = Halt w -> bind m f s = Halt w.
Proof. intros E. unfold bind. by rewrite E. Qed.
Lemma bind_result {A B} (m : M S A) (f : A -> M S B) s r s' : bind m f s = Done (r, s') ->
  exists a s1, m s = Done (a, s1) /\ f a s1 = Done (r, s').
Proof. unfold bind. destruct (m s) as [[a s1]|]; [|done]. eauto. Qed.

(** The result of a computation, without naming the state it leaves. *)
Lemma run_result {A} (m : M S A) (s : S) (r : A) :
  match m s with Done (a, _) => Some a | Halt _ => None end = Some r -> exists s', m s = Done (r, s').
Proof. destruct (m s) as [[a s']|w]; [|done]. intros [= ->]. by exists s'. Qed.

Lemma wp_mono {A} (m : M S A) (Q Q' : A -> S -> Prop) s :
  wp m Q s -> (forall a s', Q a s' -> Q' a s') -> wp m Q' s.
Proof. unfold wp. destruct (m s) as [[a s']|w]; eauto. Qed.

Lemma wp_done {A} (m : M S A) Q s :
  wp m Q s <-> exists a s', m s = Done (a, s') /\ Q a s'.
Proof.
  unfold wp. destruct (m s) as [[a s']|w]; split; [eauto| |done|].
  - by intros (? & ? & [= <- <-] & ?).
  - by intros (? & ? & ? & _).
Qed.

(** The loop rule: an invariant on locals and state, and a measure that the
    fuel bounds. *)
Lemma wp_loop {L B} (I : L -> S -> Prop) (mu : L -> S -> nat)
    (body : L -> M S (L + B)) (Q : B -> S -> Prop) :
  (forall l s, I l s ->
     wp (body l) (fun r s' => match r with
                              | inl l' => I l' s' /\ (mu l' s' < mu l s)%nat
                              | inr b => Q b s' end) s) ->
  forall fuel l s, I l s -> (mu l s < fuel)%nat -> wp (loop fuel body l) Q s.
Proof.
  intros Hbody fuel. induction fuel as [|fuel IH]; intros l s HI Hmu; [lia|].
  cbn [loop]. apply wp_bind. eapply wp_mono; [by apply Hbody|].
  intros [l'|b] s' H; cbn in H; [|done]. destruct H. apply IH; [done|lia].
Qed.
End wp.

#[export] Hint Resolve wp_ret wp_gets wp_modify : wp.

(** One step of a weakest-precondition proof on the head of the program. *)
Ltac wp_step :=
  lazymatch goal with
  | |- wp (bind _ _) _ _ => apply wp_bind
  | |- wp (ret _) _ _ => apply wp_ret
  | |- wp (gets _) _ _ => apply wp_gets
  | |- wp (modify _) _ _ => apply wp_modify
  | |- wp (assertM _) _ _ => apply wp_assert
  end.
Ltac wp_steps := repeat (wp_step; cbn beta).

(** ** Arrays

    [arr_get] and [arr_set] are C's [a[i]] and [a[i] = x] on an array of known
    extent: an index outside it is not an access of the array. *)
Definition arr_get {A} (l : list A) (i : Z) : option A :=
  if decide (0 <= i) then l !! Z.to_nat i else None.
Definition arr_set {A} (l : list A) (i : Z) (x : A) : option (list A) :=
  if decide (0 <= i < Z.of_nat (length l)) then Some (<[Z.to_nat i := x]> l) else None.

Section arrays.
Context {A : Type}.
Implicit Types (l : list A).

Lemma arr_get_lt l i : 0 <= i < Z.of_nat (length l) -> is_Some (arr_get l i).
Proof.
  intros Hi. unfold arr_get. rewrite decide_True by lia.
  apply lookup_lt_is_Some. lia.
Qed.

Lemma arr_get_Some_lt l i x : arr_get l i = Some x -> 0 <= i < Z.of_nat (length l).
Proof.
  unfold arr_get. case_decide; [|done]. intros ?%lookup_lt_Some. lia.
Qed.

Lemma arr_get_ge l i : Z.of_nat (length l) <= i -> arr_get l i = None.
Proof.
  intros Hi. unfold arr_get. case_decide; [|done]. apply lookup_ge_None. lia.
Qed.

Lemma arr_set_length l i x l' : arr_set l i x = Some l' -> length l' = length l.
Proof. unfold arr_set. case_decide; [|done]. intros [= <-]. apply length_insert. Qed.

Lemma arr_set_lt l i x : 0 <= i < Z.of_nat (length l) -> is_Some (arr_set l i x).
Proof. intros. unfold arr_set. rewrite decide_True by lia. eauto. Qed.

Lemma arr_get_set l i j x l' :
  arr_set l i x = Some l' ->
  arr_get l' j = if decide (i = j) then Some x else arr_get l j.
Proof.
  unfold arr_set, arr_get. case_decide as Hi; [|done]. intros [= <-].
  destruct (decide (i = j)) as [->|Hij].
  - rewrite decide_True by lia. apply list_lookup_insert_eq. lia.
  - case_decide; [|done]. rewrite list_lookup_insert_ne; [done|lia].
Qed.

Lemma arr_get_Forall (P : A -> Prop) l i x :
  Forall P l -> arr_get l i = Some x -> P x.
Proof.
  unfold arr_get. case_decide; [|done]. intros HF Hl.
  eapply Forall_lookup_1; eauto.
Qed.

Lemma arr_set_Forall (P : A -> Prop) l i x l' :
  Forall P l -> P x -> arr_set l i x = Some l' -> Forall P l'.
Proof.
  unfold arr_set. case_decide; [|done]. intros HF Hx [= <-].
  by apply Forall_insert.
Qed.
End arrays.

#[export] Hint Resolve arr_set_length arr_get_Some_lt : core.

(** ** Integer lemmas *)
Lemma u32_id x : is_u32 x -> u32 x = x.
Proof. unfold is_u32, u32. intros. apply Z.mod_small. lia. Qed.

Lemma u8_id x : is_u8 x -> u8 x = x.
Proof. unfold is_u8, u8. intros. apply Z.mod_small. lia. Qed.

Lemma u32_range x : is_u32 (u32 x).
Proof. apply Z.mod_pos_bound. lia. Qed.

Lemma u8_range x : is_u8 (u8 x).
Proof. apply Z.mod_pos_bound. lia. Qed.

Lemma i32_id x : -2147483648 <= x < 2147483648 -> i32 x = x.
Proof. unfold i32. intros. rewrite Z.mod_small; lia. Qed.

#[export] Hint Resolve u32_range u8_range : core.

(** Exhaustive check over an integer interval, for facts on a byte or a bit
    index that evaluation decides. *)
Definition forallZ (n : nat) (f : Z -> bool) : bool :=
  forallb (fun k => f (Z.of_nat k)) (seq 0 n).

Lemma forallZ_spec n f : forallZ n f = true -> forall x, 0 <= x < Z.of_nat n -> f x = true.
Proof.
  unfold forallZ. rewrite forallb_forall. intros H x Hx.
  specialize (H (Z.to_nat x)). rewrite Z2Nat.id in H by lia.
  apply H, in_seq. lia.
Qed.

(** ** Counting: two filters of one list *)
Section counting.
Context {A : Type} (P Q : A -> Prop).
Context `{!forall x, Decision (P x), !forall x, Decision (Q x)}.

Lemma filter_same (l : list A) :
  (forall x, x ∈ l -> (P x <-> Q x)) -> length (filter P l) = length (filter Q l).
Proof.
  induction l as [|x l IH]; intros Hiff; [done|]. rewrite !filter_cons.
  pose proof (Hiff x ltac:(left)) as Hx.
  assert (length (filter P l) = length (filter Q l)) as E
    by (apply IH; intros y Hy; apply Hiff; by right).
  destruct (decide (P x)), (decide (Q x)); try tauto; cbn; by rewrite E.
Qed.

Lemma filter_flip (l : list A) (a : A) :
  NoDup l -> a ∈ l -> P a -> ~ Q a -> (forall x, x ∈ l -> x <> a -> (P x <-> Q x)) ->
  length (filter P l) = S (length (filter Q l)).
Proof.
  intros Hnd Ha HP HQ Hiff. induction l as [|x l IH]; [by apply not_elem_of_nil in Ha|].
  apply NoDup_cons in Hnd as [Hx Hnd]. rewrite !filter_cons.
  apply elem_of_cons in Ha as [<-|Ha].
  - rewrite decide_True, decide_False by done. cbn. f_equal.
    apply filter_same. intros y Hy. apply Hiff; [by right|]. by intros ->.
  - assert (length (filter P l) = S (length (filter Q l))) as E.
    { apply IH; [done|done|]. intros y Hy. apply Hiff. by right. }
    assert (x <> a) as Hne by (intros ->; done).
    specialize (Hiff x ltac:(left) Hne) as Hy.
    destruct (decide (P x)), (decide (Q x)); try tauto; cbn; by rewrite E.
Qed.
End counting.

Lemma filter_everything {A} (P : A -> Prop) `{forall x, Decision (P x)} (l : list A) :
  (forall x, x ∈ l -> P x) -> filter P l = l.
Proof.
  induction l as [|x l IH]; intros HP; [done|]. rewrite filter_cons_True by (apply HP; by left).
  f_equal. apply IH. intros y Hy. apply HP. by right.
Qed.
