(* ===== verification/Bitmap.v ===== *)
(** * Bitmap: [lib/kernel/bitmap.c]

    The bitmap behind every allocator of the kernel: physical pages, virtual
    pages, pids, inodes, disk blocks.  [bits] is the memory the C pointer
    [btmp->bits] points to; it may be longer than [btmp_bytes_len], because the
    bytes after the bitmap are memory too and the code reads one of them. *)

From stdpp Require Import base numbers list.
From S2P Require Import Prelude.

Local Open Scope Z_scope.
Local Open Scope kernel_scope.

Definition BITMAP_MASK : Z := 1.

Record bitmap : Type := mk_bitmap {
  btmp_bytes_len : Z;
  bits : list Z
}.

(** ** Operations *)

(** [bitmap_init]: [memset(btmp->bits, 0, btmp->btmp_bytes_len)]. *)
Definition bitmap_init (b : bitmap) : outcome bitmap :=
  let n := Z.to_nat (btmp_bytes_len b) in
  if decide (n <= length (bits b))%nat
  then Done (mk_bitmap (btmp_bytes_len b) (replicate n 0 ++ drop n (bits b)))
  else Halt Out_of_bounds.

(** [bitmap_scan_test]: the value of the [&] expression, non-zero for a used bit. *)
Definition bitmap_scan_test (b : bitmap) (bit_idx : Z) : outcome Z :=
  let byte_idx := bit_idx / 8 in
  let bit_odd := bit_idx mod 8 in
  olet byte := oget (arr_get (bits b) byte_idx) Out_of_bounds in
  Done (Z.land byte (Z.shiftl BITMAP_MASK bit_odd)).

(** First loop of [bitmap_scan]: skip the full bytes.  The byte is read
    before the index is compared with the length. *)
Fixpoint scan_bytes (b : bitmap) (fuel : nat) (idx_byte : Z) : outcome Z :=
  match fuel with
  | O => Halt Out_of_fuel
  | S fuel =>
      olet byte := oget (arr_get (bits b) idx_byte) Out_of_bounds in
      if (255 =? byte) && (idx_byte <? btmp_bytes_len b)
      then scan_bytes b fuel (idx_byte + 1)
      else Done idx_byte
  end.

(** Second loop: the first clear bit of the byte found. *)
Fixpoint scan_bits (byte : Z) (fuel : nat) (idx_bit : Z) : outcome Z :=
  match fuel with
  | O => Halt Out_of_fuel
  | S fuel =>
      if Z.land (u8 (Z.shiftl BITMAP_MASK idx_bit)) byte =? 0
      then Done idx_bit
      else scan_bits byte fuel (idx_bit + 1)
  end.

(** Third loop: [bit_left] iterations over the following bits, counting the
    current run of clear bits. *)
Fixpoint scan_run (b : bitmap) (cnt : Z) (bit_left : nat) (next_bit count : Z)
    : outcome Z :=
  match bit_left with
  | O => Done (-1)
  | S bit_left =>
      olet t := bitmap_scan_test b next_bit in
      let count := if t =? 0 then u32 (count + 1) else 0 in
      if count =? cnt
      then Done (i32 (next_bit - cnt + 1))
      else scan_run b cnt bit_left (u32 (next_bit + 1)) count
  end.

Definition bitmap_scan (b : bitmap) (cnt : Z) : outcome Z :=
  olet idx_byte := scan_bytes b (S (length (bits b))) 0 in
  ASSERT (idx_byte <? btmp_bytes_len b) in
  if idx_byte =? btmp_bytes_len b then Done (-1) else
  olet byte := oget (arr_get (bits b) idx_byte) Out_of_bounds in
  olet idx_bit := scan_bits byte 9 0 in
  let bit_idx_start := i32 (idx_byte * 8 + idx_bit) in
  if cnt =? 1 then Done bit_idx_start else
  let bit_left := u32 (btmp_bytes_len b * 8 - bit_idx_start) in
  let next_bit := u32 (bit_idx_start + 1) in
  scan_run b cnt (Z.to_nat bit_left) next_bit 1.

Definition bitmap_set (b : bitmap) (bit_idx value : Z) : outcome bitmap :=
  ASSERT ((value =? 0) || (value =? 1)) in
  let byte_idx := bit_idx / 8 in
  let bit_odd := bit_idx mod 8 in
  olet byte := oget (arr_get (bits b) byte_idx) Out_of_bounds in
  let byte' :=
    if negb (value =? 0)
    then u8 (Z.lor byte (Z.shiftl BITMAP_MASK bit_odd))
    else u8 (Z.land byte (Z.lnot (Z.shiftl BITMAP_MASK bit_odd))) in
  olet bits' := oget (arr_set (bits b) byte_idx byte') Out_of_bounds in
  Done (mk_bitmap (btmp_bytes_len b) bits').

(** The allocators' loop [while (cnt < n) bitmap_set(b, start + cnt++, v)]. *)
Fixpoint bitmap_set_range (b : bitmap) (start : Z) (n : nat) (value : Z) : outcome bitmap :=
  match n with
  | O => Done b
  | S n => olet b := bitmap_set b start value in bitmap_set_range b (start + 1) n value
  end.

(** ** Abstract view: a bitmap is the set of its used bits *)
Definition used (b : bitmap) (i : Z) : bool :=
  Z.testbit (default 0 (arr_get (bits b) (i / 8))) (i mod 8).

Record bitmap_wf (b : bitmap) : Prop := {
  wf_len : 0 <= btmp_bytes_len b <= Z.of_nat (length (bits b));
  wf_bytes : Forall is_u8 (bits b);
  wf_small : btmp_bytes_len b < 2 ^ 27
}.

Definition nbits (b : bitmap) : Z := btmp_bytes_len b * 8.

(** [cnt] clear bits from [s]. *)
Definition free_run (b : bitmap) (s cnt : Z) : Prop :=
  forall i, s <= i < s + cnt -> used b i = false.

(** ** Bit-level lemmas *)
Lemma land_bit byte k :
  0 <= k -> (Z.land byte (Z.shiftl BITMAP_MASK k) =? 0) = negb (Z.testbit byte k).
Proof.
  intros Hk. unfold BITMAP_MASK. rewrite Z.shiftl_1_l.
  destruct (Z.testbit byte k) eqn:E; cbn.
  - apply Z.eqb_neq. intros H0.
    apply (f_equal (fun z => Z.testbit z k)) in H0.
    rewrite Z.land_spec, E, Z.pow2_bits_true, Z.bits_0 in H0; done.
  - apply Z.eqb_eq, Z.bits_inj'. intros n Hn.
    rewrite Z.land_spec, Z.bits_0, Z.pow2_bits_eqb by done.
    destruct (Z.eqb_spec k n) as [->|]; [by rewrite E|by rewrite andb_false_r].
Qed.

Lemma byte_full byte :
  is_u8 byte -> byte = 255 <-> forall k, 0 <= k < 8 -> Z.testbit byte k = true.
Proof.
  intros Hb. split.
  - intros -> k Hk. revert k Hk.
    refine (forallZ_spec 8 (fun k => Z.testbit 255 k) _). by vm_compute.
  - intros H.
    assert (Hall : forallZ 256 (fun b => implb (forallZ 8 (Z.testbit b)) (b =? 255)) = true)
      by by vm_compute.
    specialize (forallZ_spec _ _ Hall byte ltac:(unfold is_u8 in *; lia)) as Hx.
    cbn beta in Hx.
    assert (forallZ 8 (Z.testbit byte) = true) as E.
    { apply forallb_forall. intros k Hk%in_seq. apply H. lia. }
    rewrite E in Hx. by apply Z.eqb_eq in Hx.
Qed.

Lemma setbit_byte byte k j :
  is_u8 byte -> 0 <= k < 8 -> 0 <= j < 8 ->
  Z.testbit (u8 (Z.lor byte (Z.shiftl BITMAP_MASK k))) j
  = (Z.testbit byte j || (k =? j)).
Proof.
  intros Hb Hk Hj. unfold u8, BITMAP_MASK. change 256 with (2 ^ 8).
  rewrite Z.mod_pow2_bits_low, Z.lor_spec, Z.shiftl_1_l, Z.pow2_bits_eqb by lia.
  done.
Qed.

Lemma clearbit_byte byte k j :
  is_u8 byte -> 0 <= k < 8 -> 0 <= j < 8 ->
  Z.testbit (u8 (Z.land byte (Z.lnot (Z.shiftl BITMAP_MASK k)))) j
  = (Z.testbit byte j && negb (k =? j)).
Proof.
  intros Hb Hk Hj. unfold u8, BITMAP_MASK. change 256 with (2 ^ 8).
  rewrite Z.mod_pow2_bits_low, Z.land_spec, Z.lnot_spec, Z.shiftl_1_l,
    Z.pow2_bits_eqb by lia.
  done.
Qed.

Lemma bit_split i : 0 <= i -> i = 8 * (i / 8) + i mod 8 /\ 0 <= i mod 8 < 8 /\ 0 <= i / 8.
Proof. intros. pose proof (Z.div_mod i 8). pose proof (Z.mod_pos_bound i 8). lia. Qed.

Lemma div_mod_8 q k : 0 <= k < 8 -> (q * 8 + k) / 8 = q /\ (q * 8 + k) mod 8 = k.
Proof.
  intros. split.
  - rewrite Z.div_add_l, Z.div_small by lia. lia.
  - rewrite Z.add_comm, Z.mod_add, Z.mod_small by lia. lia.
Qed.

(** ** Reading a bit *)
Lemma byte_at b i :
  bitmap_wf b -> 0 <= i -> i / 8 < Z.of_nat (length (bits b)) ->
  exists byte, arr_get (bits b) (i / 8) = Some byte /\ is_u8 byte
               /\ used b i = Z.testbit byte (i mod 8).
Proof.
  intros Hwf Hi Hlt. destruct (bit_split i Hi) as (_ & _ & Hq).
  destruct (arr_get_lt (bits b) (i / 8)) as [byte Hbyte]; [lia|].
  exists byte. split_and!; [done| |].
  - eapply (arr_get_Forall is_u8); [apply (wf_bytes b Hwf)|done].
  - unfold used. by rewrite Hbyte.
Qed.

Lemma bitmap_scan_test_spec b i :
  bitmap_wf b -> 0 <= i -> i / 8 < Z.of_nat (length (bits b)) ->
  exists t, bitmap_scan_test b i = Done t /\ (t =? 0) = negb (used b i).
Proof.
  intros Hwf Hi Hlt. destruct (byte_at b i Hwf Hi Hlt) as (byte & Hb & _ & Hu).
  unfold bitmap_scan_test. rewrite Hb. cbn. eexists; split; [done|].
  rewrite Hu. apply land_bit. destruct (bit_split i Hi) as (_ & ? & _). lia.
Qed.

(** ** Writing bits *)
Definition same_shape (b b' : bitmap) : Prop :=
  btmp_bytes_len b' = btmp_bytes_len b /\ length (bits b') = length (bits b).

Lemma same_shape_trans b1 b2 b3 : same_shape b1 b2 -> same_shape b2 b3 -> same_shape b1 b3.
Proof. unfold same_shape. intuition congruence. Qed.

Lemma bitmap_set_spec b i v :
  bitmap_wf b -> 0 <= i -> i / 8 < Z.of_nat (length (bits b)) -> v = 0 \/ v = 1 ->
  exists b', bitmap_set b i v = Done b' /\ bitmap_wf b' /\ same_shape b b' /\
    forall j, 0 <= j -> used b' j = if decide (j = i) then (v =? 1) else used b j.
Proof.
  intros Hwf Hi Hlt Hv. destruct (byte_at b i Hwf Hi Hlt) as (byte & Hb & Hu8 & Hu).
  destruct (bit_split i Hi) as (Hsplit & Hm & Hq).
  unfold bitmap_set.
  replace ((v =? 0) || (v =? 1)) with true by (destruct Hv as [->| ->]; done).
  cbn [oassert obind oget]. rewrite Hb. cbn [obind oget].
  match goal with |- context [arr_set _ _ ?x] => set (byte' := x) end.
  destruct (arr_set_lt (bits b) (i / 8) byte') as [bits' Hset]; [lia|].
  rewrite Hset. cbn [obind oget]. eexists; split; [done|].
  assert (is_u8 byte') as Hb'.
  { unfold byte'. destruct (negb (v =? 0)); apply u8_range. }
  split_and!.
  - destruct Hwf as [? ? ?]. split; cbn; [|by eapply (arr_set_Forall is_u8)|done].
    by rewrite (arr_set_length _ _ _ _ Hset).
  - split; cbn; eauto.
  - intros j Hj. unfold used. cbn [bits].
    rewrite (arr_get_set _ _ (j / 8) _ _ Hset).
    destruct (bit_split j Hj) as (Hsj & Hmj & Hqj).
    destruct (decide (i / 8 = j / 8)) as [Heq|Hne].
    + cbn [from_option id]. rewrite <- Heq, Hb. cbn [from_option id].
      unfold byte'. destruct Hv as [-> | ->]; cbn [Z.eqb negb].
      * rewrite clearbit_byte by done. case_decide.
        -- subst. by rewrite Z.eqb_refl, andb_false_r.
        -- replace (i mod 8 =? j mod 8) with false by (symmetry; apply Z.eqb_neq; lia).
           by rewrite andb_true_r.
      * rewrite setbit_byte by done. case_decide.
        -- subst. by rewrite Z.eqb_refl, orb_true_r.
        -- replace (i mod 8 =? j mod 8) with false by (symmetry; apply Z.eqb_neq; lia).
           by rewrite orb_false_r.
    + rewrite decide_False by (intros ->; done). done.
Qed.

Lemma bitmap_set_range_spec b n v : forall start,
  bitmap_wf b -> 0 <= start -> v = 0 \/ v = 1 ->
  start + Z.of_nat n <= 8 * Z.of_nat (length (bits b)) ->
  exists b', bitmap_set_range b start n v = Done b' /\ bitmap_wf b' /\ same_shape b b' /\
    forall j, 0 <= j ->
      used b' j = if decide (start <= j < start + Z.of_nat n) then (v =? 1) else used b j.
Proof.
  revert b. induction n as [|n IH]; intros b start Hwf Hs Hv Hle.
  - exists b. split_and!; [done|done|by split|]. intros j Hj.
    by rewrite decide_False by lia.
  - destruct (bitmap_set_spec b start v) as (b1 & E1 & Hwf1 & Hsh1 & Hu1); [done|done| |done|].
    { apply Z.div_lt_upper_bound; lia. }
    destruct (IH b1 (start + 1)) as (b2 & E2 & Hwf2 & Hsh2 & Hu2); [done|lia|done| |].
    { destruct Hsh1 as [_ ->]. lia. }
    exists b2. split_and!; [|done|by eapply same_shape_trans|].
    + cbn [bitmap_set_range]. rewrite E1. done.
    + intros j Hj. rewrite Hu2, Hu1 by done.
      repeat case_decide; try lia; done.
Qed.

(** ** Scanning *)
Lemma scan_bytes_to b r : forall fuel idx,
  0 <= idx <= r -> r < Z.of_nat (length (bits b)) ->
  (forall j, idx <= j < r -> arr_get (bits b) j = Some 255) ->
  r <= btmp_bytes_len b ->
  (r = btmp_bytes_len b \/ arr_get (bits b) r <> Some 255) ->
  (Z.to_nat (r - idx) < fuel)%nat ->
  scan_bytes b fuel idx = Done r.
Proof.
  induction fuel as [|fuel IH]; intros idx Hidx Hr Hfull Hlen Hstop Hfuel; [lia|].
  cbn [scan_bytes].
  destruct (decide (idx = r)) as [->|Hne].
  - destruct (arr_get_lt (bits b) r) as [byte Hb]; [lia|]. rewrite Hb. cbn [oget obind].
    destruct (Z.eqb_spec 255 byte) as [<-|]; cbn [andb]; [|done].
    destruct Hstop as [->|]; [|done]. by rewrite Z.ltb_irrefl.
  - rewrite Hfull by lia. cbn [oget obind]. rewrite Z.eqb_refl.
    replace (idx <? btmp_bytes_len b) with true by (symmetry; apply Z.ltb_lt; lia).
    cbn [andb]. apply IH; try lia; [|done]. intros. apply Hfull. lia.
Qed.

Lemma scan_bits_to byte k : forall fuel idx,
  0 <= idx <= k -> k < 8 -> Z.testbit byte k = false ->
  (forall j, idx <= j < k -> Z.testbit byte j = true) ->
  (Z.to_nat (k - idx) < fuel)%nat ->
  scan_bits byte fuel idx = Done k.
Proof.
  induction fuel as [|fuel IH]; intros idx Hidx Hk Hfree Hused Hfuel; [lia|].
  cbn [scan_bits].
  assert (u8 (Z.shiftl BITMAP_MASK idx) = Z.shiftl BITMAP_MASK idx) as ->.
  { unfold u8, BITMAP_MASK. rewrite Z.shiftl_1_l. apply Z.mod_small.
    split; [apply Z.pow_nonneg; lia|]. change 256 with (2 ^ 8).
    apply Z.pow_lt_mono_r; lia. }
  rewrite Z.land_comm, land_bit by lia.
  destruct (decide (idx = k)) as [->|Hne].
  - by rewrite Hfree.
  - rewrite Hused by lia. cbn [negb]. apply IH; try lia; [done|].
    intros. apply Hused. lia.
Qed.

(** The first clear bit of the bitmap. *)
Definition first_free (b : bitmap) (i : Z) : Prop :=
  0 <= i < nbits b /\ used b i = false /\ forall j, 0 <= j < i -> used b j = true.

Lemma first_free_exists b i :
  0 <= i < nbits b -> used b i = false -> exists i0, first_free b i0 /\ i0 <= i.
Proof.
  intros [Hpos Hlt]. revert Hlt. pattern i. revert i Hpos. apply Zlt_0_ind.
  intros i IH Hpos Hlt Hfree.
  destruct (decide (Exists (fun j => used b j = false) (seqZ 0 i))) as [Hex|Hno].
  - apply Exists_exists in Hex as (j & Hj%elem_of_seqZ & Hju).
    destruct (IH j) as (i0 & ? & ?); [lia|lia|done|]. exists i0. split; [done|lia].
  - exists i. split; [|lia]. split_and!; [lia|lia|done|]. intros j Hj.
    destruct (used b j) eqn:E; [done|]. exfalso. apply Hno, Exists_exists.
    exists j. split; [apply elem_of_seqZ; lia|done].
Qed.

(** What both branches of [bitmap_scan] do after the first two loops. *)
Lemma bitmap_scan_start b cnt i :
  bitmap_wf b -> first_free b i ->
  bitmap_scan b cnt =
    if cnt =? 1 then Done i
    else scan_run b cnt (Z.to_nat (nbits b - i)) (i + 1) 1.
Proof.
  intros Hwf (Hi & Hfree & Hused). unfold nbits in *.
  destruct (bit_split i) as (Hsp & Hm & Hq); [lia|].
  destruct (wf_len b Hwf) as [Hl1 Hl2]. pose proof (wf_small b Hwf) as Hsm.
  assert (i / 8 < btmp_bytes_len b) as Hbl by (apply Z.div_lt_upper_bound; lia).
  destruct (byte_at b i Hwf) as (byte & Hb & Hu8 & Hu); [lia|lia|].
  assert (scan_bytes b (S (length (bits b))) 0 = Done (i / 8)) as E1.
  { apply scan_bytes_to; try lia.
    - intros j Hj.
      destruct (byte_at b (j * 8) Hwf) as (bj & Hbj & Hbj8 & _); [lia| |].
      { rewrite Z.div_mul; lia. }
      rewrite Z.div_mul in Hbj by lia.
      rewrite Hbj. f_equal. apply byte_full; [done|]. intros k Hk.
      destruct (div_mod_8 j k Hk) as [Hd Hmd].
      specialize (Hused (j * 8 + k) ltac:(lia)). unfold used in Hused.
      rewrite Hd, Hmd, Hbj in Hused. done.
    - right. rewrite Hb. intros [= ->].
      rewrite Hfree in Hu. symmetry in Hu.
      rewrite (proj1 (byte_full 255 Hu8) eq_refl (i mod 8) Hm) in Hu. done. }
  assert (scan_bits byte 9 0 = Done (i mod 8)) as E2.
  { apply scan_bits_to; try lia; [congruence|]. intros j Hj.
    specialize (Hused (i / 8 * 8 + j) ltac:(lia)). unfold used in Hused.
    destruct (div_mod_8 (i / 8) j) as [Hd Hmd]; [lia|].
    by rewrite Hd, Hmd, Hb in Hused. }
  unfold bitmap_scan. rewrite E1. cbn [obind].
  replace (i / 8 <? btmp_bytes_len b) with true by (symmetry; apply Z.ltb_lt; lia).
  cbn [oassert obind].
  replace (i / 8 =? btmp_bytes_len b) with false by (symmetry; apply Z.eqb_neq; lia).
  rewrite Hb. cbn [oget obind]. rewrite E2. cbn [obind].
  replace (i32 (i / 8 * 8 + i mod 8)) with i by (rewrite i32_id; lia).
  rewrite !u32_id by (unfold is_u32; lia). done.
Qed.

(** The outcome of a first-fit search for [cnt] clear bits.  The search reads
    one bit beyond the bitmap, hence the [+ 1]. *)
Definition first_fit (b : bitmap) (cnt r : Z) : Prop :=
  (r = -1 /\ forall s, 0 <= s -> s + cnt <= nbits b + 1 -> ~ free_run b s cnt)
  \/ (0 <= r /\ r + cnt <= nbits b + 1 /\ free_run b r cnt
      /\ forall s, 0 <= s < r -> ~ free_run b s cnt).

Lemma scan_run_spec b cnt :
  bitmap_wf b -> btmp_bytes_len b < Z.of_nat (length (bits b)) -> 2 <= cnt ->
  forall left n c,
  1 <= n -> n + Z.of_nat left = nbits b + 1 -> 0 <= c < cnt -> c <= n ->
  free_run b (n - c) c -> (n - c = 0 \/ used b (n - c - 1) = true) ->
  (forall s, 0 <= s -> s + cnt <= n -> ~ free_run b s cnt) ->
  exists r, scan_run b cnt left n c = Done r /\ first_fit b cnt r.
Proof.
  intros Hwf Hlen Hcnt. pose proof (wf_small b Hwf) as Hsm. unfold nbits.
  induction left as [|left IH]; intros n c Hn Hleft Hc Hcn Hrun Hmax Hno.
  - exists (-1). split; [done|]. left. split; [done|]. intros s ??. apply Hno; [done|].
    unfold nbits in *. lia.
  - cbn [scan_run].
    destruct (bitmap_scan_test_spec b n Hwf) as (t & -> & Ht); [lia| |].
    { apply Z.div_lt_upper_bound; lia. }
    cbn [obind]. rewrite Ht. destruct (used b n) eqn:Eu; cbn [negb].
    + replace (0 =? cnt) with false by (symmetry; apply Z.eqb_neq; lia).
      rewrite u32_id by (unfold is_u32; lia).
      apply IH; try lia.
      * intros i Hi. lia.
      * right. by replace (n + 1 - 0 - 1) with n by lia.
      * intros s Hs Hle Hfr. destruct (decide (s + cnt <= n)); [by eapply Hno|].
        specialize (Hfr n ltac:(lia)). congruence.
    + rewrite (u32_id (c + 1)) by (unfold is_u32; lia).
      destruct (Z.eqb_spec (c + 1) cnt) as [Heq|Hne].
      * eexists; split; [done|]. right. rewrite i32_id by lia. unfold nbits.
        split_and!; try lia.
        -- intros i Hi. destruct (decide (i = n)) as [->|]; [done|]. apply Hrun. lia.
        -- intros s Hs. apply Hno; lia.
      * rewrite u32_id by (unfold is_u32; lia). apply IH; try lia.
        -- intros i Hi. destruct (decide (i = n)) as [->|]; [done|]. apply Hrun. lia.
        -- destruct Hmax as [|Hu]; [left; lia|right].
           by replace (n + 1 - (c + 1) - 1) with (n - c - 1) by lia.
        -- intros s Hs Hle Hfr. destruct (decide (s + cnt <= n)); [by eapply Hno|].
           destruct Hmax as [|Hu]; [lia|].
           specialize (Hfr (n - c - 1) ltac:(lia)). congruence.
Qed.

Lemma bitmap_scan_many b cnt :
  bitmap_wf b -> btmp_bytes_len b < Z.of_nat (length (bits b)) -> 2 <= cnt ->
  (exists i, 0 <= i < nbits b /\ used b i = false) ->
  exists r, bitmap_scan b cnt = Done r /\ first_fit b cnt r.
Proof.
  intros Hwf Hlen Hcnt (i & Hi & Hfree).
  destruct (first_free_exists b i Hi Hfree) as (i0 & Hff & _).
  rewrite (bitmap_scan_start b cnt i0 Hwf Hff).
  replace (cnt =? 1) with false by (symmetry; apply Z.eqb_neq; lia).
  destruct Hff as (Hi0 & Hf0 & Hu0).
  apply scan_run_spec; try done; try lia.
  - intros j Hj. by replace j with i0 by lia.
  - destruct (decide (i0 = 0)) as [->|]; [left; lia|right]. apply Hu0. lia.
  - intros s Hs Hle Hfr. specialize (Hfr s ltac:(lia)).
    rewrite Hu0 in Hfr by lia. done.
Qed.

(** When a run fits inside the bitmap, so does the one that is found. *)
Lemma bitmap_scan_fits b cnt s0 :
  bitmap_wf b -> btmp_bytes_len b < Z.of_nat (length (bits b)) -> 1 <= cnt ->
  0 <= s0 -> s0 + cnt <= nbits b -> free_run b s0 cnt ->
  exists r, bitmap_scan b cnt = Done r /\ 0 <= r <= s0 /\ free_run b r cnt.
Proof.
  intros Hwf Hlen Hcnt Hs Hfit Hrun.
  destruct (decide (cnt = 1)) as [->|Hne].
  - destruct (first_free_exists b s0) as (i & Hff & Hle); [lia|apply Hrun; lia|].
    exists i. rewrite (bitmap_scan_start b 1 i Hwf Hff). destruct Hff as (Hi & Hu & _).
    split; [done|split; [lia|]]. intros j Hj. by replace j with i by lia.
  - destruct (bitmap_scan_many b cnt) as (r & E & [[_ Hno]|(Hr & _ & Hfr & Hleast)]); [done|done|lia| | |].
    + exists s0. split; [lia|]. apply Hrun. lia.
    + exfalso. by apply (Hno s0); [lia..|].
    + exists r. split; [done|split; [|done]].
      destruct (decide (r <= s0)); [lia|]. exfalso. apply (Hleast s0); [lia|done].
Qed.

(** ** Correctness *)

(** [bitmap_scan(b, 1)] returns, whenever the bitmap has a clear bit, the
    index of the first one: every bit before it is used.  This is the call
    every single-page, pid, inode and block allocation makes. *)
Theorem bitmap_scan_one_correct b :
  bitmap_wf b -> (exists i, 0 <= i < nbits b /\ used b i = false) ->
  exists i, bitmap_scan b 1 = Done i /\ first_free b i.
Proof.
  intros Hwf (i & Hi & Hfree).
  destruct (first_free_exists b i Hi Hfree) as (i0 & Hff & _).
  exists i0. split; [|done]. by rewrite (bitmap_scan_start b 1 i0 Hwf Hff).
Qed.

Definition demo_bitmap : bitmap := mk_bitmap 2 [255; 11; 0].

Lemma demo_bitmap_wf : bitmap_wf demo_bitmap.
Proof. split; cbn; [lia| |lia]. repeat constructor; unfold is_u8; lia. Qed.

Lemma bitmap_scan_one_correct_witness :
  exists i, bitmap_scan demo_bitmap 1 = Done i /\ first_free demo_bitmap i.
Proof.
  apply (bitmap_scan_one_correct demo_bitmap demo_bitmap_wf).
  exists 10. split; [unfold nbits; cbn; lia|reflexivity].
Defined.

(** C38: [bitmap_scan(b, cnt)] for [cnt >= 2] is a first-fit search: it returns
    the least [s] such that the [cnt] bits from [s] are clear, or -1 when there
    is no such run.  The search covers the bits [0 .. nbits], one more than the
    bitmap has (see [bitmap_scan_overruns]). *)
Theorem bitmap_scan_first_fit b cnt :
  bitmap_wf b -> btmp_bytes_len b < Z.of_nat (length (bits b)) -> 2 <= cnt ->
  (exists i, 0 <= i < nbits b /\ used b i = false) ->
  exists r, bitmap_scan b cnt = Done r /\ first_fit b cnt r.
Proof. apply bitmap_scan_many. Qed.

Lemma bitmap_scan_first_fit_witness :
  exists r, bitmap_scan demo_bitmap 4 = Done r /\ first_fit demo_bitmap 4 r.
Proof.
  apply (bitmap_scan_first_fit demo_bitmap 4 demo_bitmap_wf); [cbn; lia|lia|].
  exists 10. split; [unfold nbits; cbn; lia|reflexivity].
Defined.

(** C40: When every bit is used, [bitmap_scan] does not return the -1 its comment
    promises: the [ASSERT(idx_byte < btmp_bytes_len)] before the test stops the
    machine, so no caller ever sees "no free bit" for a full bitmap. *)
Theorem bitmap_scan_full_panics b cnt :
  bitmap_wf b -> btmp_bytes_len b < Z.of_nat (length (bits b)) ->
  (forall i, 0 <= i < nbits b -> used b i = true) ->
  bitmap_scan b cnt = Halt Assert_failed.
Proof.
  intros Hwf Hlen Hall. unfold nbits in Hall.
  destruct (wf_len b Hwf) as [Hl1 Hl2]. pose proof (wf_small b Hwf).
  assert (scan_bytes b (S (length (bits b))) 0 = Done (btmp_bytes_len b)) as E.
  { apply scan_bytes_to; try lia. intros j Hj.
    destruct (byte_at b (j * 8) Hwf) as (bj & Hbj & Hbj8 & _); [lia| |].
    { rewrite Z.div_mul; lia. }
    rewrite Z.div_mul in Hbj by lia. rewrite Hbj. f_equal.
    apply byte_full; [done|]. intros k Hk. destruct (div_mod_8 j k Hk) as [Hd Hmd].
    specialize (Hall (j * 8 + k) ltac:(lia)). unfold used in Hall.
    by rewrite Hd, Hmd, Hbj in Hall. }
  unfold bitmap_scan. rewrite E. cbn [obind]. by rewrite Z.ltb_irrefl.
Qed.

Lemma bitmap_scan_full_panics_witness :
  bitmap_scan (mk_bitmap 1 [255; 0]) 1 = Halt Assert_failed.
Proof.
  apply (bitmap_scan_full_panics (mk_bitmap 1 [255; 0]) 1).
  - split; cbn; [lia| |lia]. repeat constructor; unfold is_u8; lia.
  - cbn; lia.
  - apply (forallZ_spec 8). reflexivity.
Defined.

(** A multi-bit search can hand out a bit the bitmap does not have: on a
    one-byte bitmap whose last bit is free and whose next byte in memory is 0,
    a request for two bits is granted at bit 7, that is bits 7 and 8 of 8. *)
Theorem bitmap_scan_overruns :
  exists b, bitmap_wf b /\ bitmap_scan b 2 = Done (nbits b - 1) /\ nbits b = 8.
Proof.
  exists (mk_bitmap 1 [127; 0]). split_and!; [|reflexivity|reflexivity].
  split; cbn; [lia| |lia]. repeat constructor; unfold is_u8; lia.
Qed.

(** [bitmap_set(b, i, v)] changes bit [i] to [v] and no other bit, and keeps
    the bitmap well formed; on a value other than 0 and 1 it panics. *)
Theorem bitmap_set_correct b i v :
  bitmap_wf b -> 0 <= i < nbits b ->
  (v = 0 \/ v = 1 ->
   exists b', bitmap_set b i v = Done b' /\ bitmap_wf b' /\ nbits b' = nbits b /\
     forall j, 0 <= j -> used b' j = if decide (j = i) then (v =? 1) else used b j)
  /\ (v <> 0 -> v <> 1 -> bitmap_set b i v = Halt Assert_failed).
Proof.
  intros Hwf Hi. unfold nbits in *. destruct (wf_len b Hwf). split.
  - intros Hv. destruct (bitmap_set_spec b i v) as (b' & ? & ? & [? _] & ?); try done; try lia.
    { apply Z.div_lt_upper_bound; lia. }
    exists b'. split_and!; try done. congruence.
  - intros ??. unfold bitmap_set.
    destruct (Z.eqb_spec v 0), (Z.eqb_spec v 1); done.
Qed.

Lemma bitmap_set_correct_witness :
  exists b', bitmap_set demo_bitmap 10 1 = Done b' /\ used b' 10 = true /\ used b' 12 = false.
Proof.
  destruct (bitmap_set_correct demo_bitmap 10 1 demo_bitmap_wf ltac:(unfold nbits; cbn; lia))
    as [Hok _].
  destruct (Hok (or_intror eq_refl)) as (b' & E & _ & _ & Hu).
  exists b'. split_and!; [exact E| |]; rewrite Hu by lia; reflexivity.
Defined.
