(* ===== verification/Interrupt.v ===== *)
(** * Interrupt: interrupt status and descriptor table ([kernel/interrupt.c])

    The interrupt flag is a bit of the machine state; the components whose
    state carries it say so with an instance of [HasIF], and the four status
    functions are written once, over that interface. *)

From stdpp Require Import base numbers list.
From S2P Require Import Prelude.

Local Open Scope Z_scope.
Local Open Scope kernel_scope.

Inductive intr_status : Type := INTR_OFF | INTR_ON.

#[export] Instance intr_status_eq_dec : EqDecision intr_status.
Proof. solve_decision. Defined.

(** The interface: a state with an eflags register. *)
Class HasIF (S : Type) := {
  eflags : S -> Z;
  set_eflags : Z -> S -> S;
  eflags_set : forall z s, eflags (set_eflags z s) = z;
  set_eflags_set : forall z z' s, set_eflags z (set_eflags z' s) = set_eflags z s;
  set_eflags_id : forall s, set_eflags (eflags s) s = s
}.

Definition EFLAGS_IF : Z := 512.

Section status.
Context {S : Type} `{!HasIF S}.

(** [cli] and [sti]. *)
Definition cli : M S unit := modify (fun s => set_eflags (Z.clearbit (eflags s) 9) s).
Definition sti : M S unit := modify (fun s => set_eflags (Z.setbit (eflags s) 9) s).

Definition intr_get_status : M S intr_status :=
  let! fl := gets eflags in
  ret (if Z.land EFLAGS_IF fl =? 0 then INTR_OFF else INTR_ON).

Definition intr_enable : M S intr_status :=
  let! st := intr_get_status in
  if decide (INTR_ON = st) then ret INTR_ON
  else sti ;;; ret INTR_OFF.

Definition intr_disable : M S intr_status :=
  let! st := intr_get_status in
  if decide (INTR_ON = st) then cli ;;; ret INTR_ON
  else ret INTR_OFF.

Definition intr_set_status (status : intr_status) : M S intr_status :=
  match status with INTR_ON => intr_enable | INTR_OFF => intr_disable end.

Definition if_set (s : S) : bool := Z.testbit (eflags s) 9.

Lemma intr_get_status_eq (s : S) :
  intr_get_status s = Done (if if_set s then INTR_ON else INTR_OFF, s).
Proof.
  unfold intr_get_status, if_set, bind, gets, ret.
  assert ((Z.land EFLAGS_IF (eflags s) =? 0) = negb (Z.testbit (eflags s) 9)) as ->.
  { rewrite Z.land_comm. unfold EFLAGS_IF. change 512 with (2 ^ 9).
    destruct (Z.testbit (eflags s) 9) eqn:E; cbn [negb].
    - apply Z.eqb_neq. intros H0. apply (f_equal (fun z => Z.testbit z 9)) in H0.
      by rewrite Z.land_spec, E, Z.pow2_bits_true, Z.bits_0 in H0.
    - apply Z.eqb_eq, Z.bits_inj'. intros n Hn.
      rewrite Z.land_spec, Z.bits_0, Z.pow2_bits_eqb by lia.
      destruct (Z.eqb_spec 9 n) as [<-|]; [by rewrite E|by rewrite andb_false_r]. }
  by destruct (Z.testbit (eflags s) 9).
Qed.

Lemma clearbit_off z : Z.testbit z 9 = false -> Z.clearbit z 9 = z.
Proof.
  intros Hz. apply Z.bits_inj'. intros n Hn. rewrite Z.clearbit_eqb.
  destruct (Z.eqb_spec 9 n) as [<-|]; [by rewrite Hz|by rewrite andb_true_r].
Qed.

Lemma setbit_on z : Z.testbit z 9 = true -> Z.setbit z 9 = z.
Proof.
  intros Hz. apply Z.bits_inj'. intros n Hn. rewrite Z.setbit_eqb by lia.
  destruct (Z.eqb_spec 9 n) as [<-|]; [by rewrite Hz|done].
Qed.

Lemma setbit_clearbit z : Z.testbit z 9 = true -> Z.setbit (Z.clearbit z 9) 9 = z.
Proof.
  intros Hz. apply Z.bits_inj'. intros n Hn. rewrite Z.setbit_eqb, Z.clearbit_eqb by lia.
  destruct (Z.eqb_spec 9 n) as [<-|]; [by rewrite Hz|by rewrite andb_true_r].
Qed.

(** [intr_disable] leaves IF clear and returns the status it found. *)
Lemma intr_disable_eq (s : S) :
  intr_disable s = Done (if if_set s then INTR_ON else INTR_OFF,
                         set_eflags (Z.clearbit (eflags s) 9) s).
Proof.
  unfold intr_disable, bind. rewrite intr_get_status_eq.
  unfold if_set. destruct (Z.testbit (eflags s) 9) eqn:E; cbn; [done|].
  by rewrite clearbit_off, set_eflags_id.
Qed.

Lemma intr_enable_eq (s : S) :
  intr_enable s = Done (if if_set s then INTR_ON else INTR_OFF,
                        set_eflags (Z.setbit (eflags s) 9) s).
Proof.
  unfold intr_enable, bind. rewrite intr_get_status_eq.
  unfold if_set. destruct (Z.testbit (eflags s) 9) eqn:E; cbn; [|done].
  by rewrite setbit_on, set_eflags_id.
Qed.

(** A critical section: [old = intr_disable(); m; intr_set_status(old)]. *)
Definition critical {A} (m : M S A) : M S A :=
  let! old_status := intr_disable in
  let! a := m in
  let! _ := intr_set_status old_status in
  ret a.

(** The section runs with interrupts off, and the flag is afterwards what it
    was before, whatever the body does to the rest of the state. *)
Lemma wp_critical {A} (m : M S A) (Q : A -> S -> Prop) s :
  (forall s0, s0 = set_eflags (Z.clearbit (eflags s) 9) s ->
    wp m (fun a s' => eflags s' = eflags s0 /\ Q a (set_eflags (eflags s) s')) s0) ->
  wp (critical m) Q s.
Proof.
  intros H. unfold critical. apply wp_bind. unfold wp at 1. rewrite intr_disable_eq.
  apply wp_bind. eapply wp_mono; [by apply H|]. intros a s' [Hfl HQ].
  rewrite eflags_set in Hfl.
  apply wp_bind. unfold wp at 1. unfold if_set.
  destruct (Z.testbit (eflags s) 9) eqn:E; cbn [intr_set_status].
  - rewrite intr_enable_eq, Hfl, setbit_clearbit by done. by apply wp_ret.
  - rewrite intr_disable_eq, Hfl, clearbit_off by (by rewrite clearbit_off).
    rewrite clearbit_off by done. by apply wp_ret.
Qed.
End status.

(** ** Gate descriptors *)
Record gate_desc : Type := mk_gate {
  func_offset_low_word : Z;
  selector : Z;
  dcount : Z;
  attribute : Z;
  func_offset_high_word : Z
}.

(** Constants of [kernel/global.h]. *)
Definition SELECTOR_K_CODE : Z := Z.shiftl 1 3 + Z.shiftl 0 2 + 0.
Definition IDT_DESC_ATTR_DPL0 : Z := Z.shiftl 1 7 + Z.shiftl 0 5 + 14.
Definition IDT_DESC_ATTR_DPL3 : Z := Z.shiftl 1 7 + Z.shiftl 3 5 + 14.
Definition IDT_DESC_CNT : nat := 129.

Definition make_idt_desc (attr function : Z) : gate_desc :=
  mk_gate (u16 (Z.land function 65535)) SELECTOR_K_CODE 0 (u8 attr)
          (u16 (Z.shiftr (Z.land function 4294901760) 16)).

(** [idt_desc_init]: every vector gets its assembly entry with DPL 0, then the
    last one (0x80) is overwritten with the system-call entry and DPL 3. *)
Definition idt_desc_init (intr_entry_table : list Z) (syscall_handler : Z) : list gate_desc :=
  let idt := map (make_idt_desc IDT_DESC_ATTR_DPL0) (take IDT_DESC_CNT intr_entry_table) in
  <[ (IDT_DESC_CNT - 1)%nat := make_idt_desc IDT_DESC_ATTR_DPL3 syscall_handler ]> idt.

(** The handler address the processor assembles from a gate. *)
Definition gate_target (g : gate_desc) : Z :=
  Z.lor (func_offset_low_word g) (Z.shiftl (func_offset_high_word g) 16).
(** The privilege level required to raise the vector with [int]. *)
Definition gate_dpl (g : gate_desc) : Z := Z.land (Z.shiftr (attribute g) 5) 3.

Lemma make_idt_desc_target attr f : is_u32 f -> gate_target (make_idt_desc attr f) = f.
Proof.
  unfold is_u32, gate_target, make_idt_desc, u16. cbn. intros Hf.
  change 65535 with (Z.ones 16).
  replace 4294901760 with (Z.shiftl (Z.ones 16) 16) by done.
  rewrite Z.land_ones, Z.mod_mod by lia.
  apply Z.bits_inj'. intros n Hn. rewrite Z.lor_spec, Z.shiftl_spec by done.
  change 65536 with (2 ^ 16).
  destruct (Z.lt_ge_cases n 16).
  - rewrite Z.mod_pow2_bits_low by lia. rewrite (Z.testbit_neg_r _ (n - 16)) by lia.
    by rewrite orb_false_r.
  - rewrite Z.mod_pow2_bits_high by lia. cbn [orb].
    destruct (Z.lt_ge_cases n 32).
    + rewrite Z.mod_pow2_bits_low, Z.shiftr_spec, Z.land_spec, Z.shiftl_spec by lia.
      replace (n - 16 + 16) with n by lia.
      rewrite Z.ones_spec_low by lia. apply andb_true_r.
    + rewrite Z.mod_pow2_bits_high by lia.
      symmetry. apply Z.bits_above_log2; [lia|].
      destruct (decide (f = 0)) as [->|]; [cbn; lia|].
      apply Z.log2_lt_pow2; [lia|]. apply Z.lt_le_trans with (2 ^ 32); [lia|].
      apply Z.pow_le_mono_r; lia.
Qed.

(** The interrupt descriptor table the kernel loads: of the 0x81 vectors,
    the one of [int 0x80] leads to [syscall_handler] and may be raised from
    ring 3; every other vector leads to its own assembly entry and may only be
    raised from ring 0. *)
Theorem idt_desc_init_correct entries sys v g :
  length entries = IDT_DESC_CNT -> Forall is_u32 entries -> is_u32 sys ->
  idt_desc_init entries sys !! v = Some g ->
  if decide (v = 128%nat)
  then gate_target g = sys /\ gate_dpl g = 3
  else entries !! v = Some (gate_target g) /\ gate_dpl g = 0.
Proof.
  unfold idt_desc_init. intros Hlen Hent Hsys. rewrite <- Hlen, take_ge by done.
  change (IDT_DESC_CNT - 1)%nat with 128%nat. rewrite Hlen.
  destruct (decide (v = 128%nat)) as [->|Hv].
  - rewrite list_lookup_insert_eq by (rewrite length_map, Hlen; unfold IDT_DESC_CNT; lia).
    intros [= <-]. split; [by apply make_idt_desc_target|reflexivity].
  - rewrite list_lookup_insert_ne by (unfold IDT_DESC_CNT; cbn; lia).
    intros Hg. change @map with @list_fmap in Hg. rewrite list_lookup_fmap in Hg.
    destruct (entries !! v) as [f|] eqn:E; [|done]. injection Hg as <-.
    split; [|reflexivity]. f_equal. symmetry. apply make_idt_desc_target.
    by eapply Forall_lookup_1.
Qed.

Lemma idt_desc_init_correct_witness :
  exists g, idt_desc_init (replicate 129 3221231552) 3221231889 !! 128%nat = Some g
    /\ gate_target g = 3221231889 /\ gate_dpl g = 3.
Proof.
  eexists. split; [reflexivity|].
  apply (idt_desc_init_correct (replicate 129 3221231552) 3221231889 128%nat
    (make_idt_desc IDT_DESC_ATTR_DPL3 3221231889)).
  - reflexivity.
  - apply Forall_replicate. unfold is_u32; lia.
  - unfold is_u32; lia.
  - reflexivity.
Defined.
