(* ===== verification/Hardware.v ===== *)
(** * Hardware: programming the interrupt controllers, the timer and the
      descriptor table ([kernel/interrupt.c] [pic_init], [register_handler],
      [exception_init]; [device/timer.c] [frequency_set], [mtime_sleep];
      [userprog/tss.c])

    What the code does to a device is the sequence of bytes it sends to ports.
    The two 8259A interrupt controllers and the counter 0 of the 8253 are given
    as their data sheets describe them: a controller takes four initialisation
    words and then masks; a counter in the mode used takes the low byte of its
    value and then the high one. *)

From stdpp Require Import base numbers list.
From S2P Require Import Prelude.
From S2P Require Import Interrupt.

Local Open Scope Z_scope.
Local Open Scope kernel_scope.

(** ** Port writes *)
Definition outs : Type := list (Z * Z).

Definition PIC_M_CTRL : Z := 0x20.
Definition PIC_M_DATA : Z := 0x21.
Definition PIC_S_CTRL : Z := 0xa0.
Definition PIC_S_DATA : Z := 0xa1.

Definition pic_init : outs :=
  [(PIC_M_CTRL, 0x11); (PIC_M_DATA, 0x20); (PIC_M_DATA, 0x04); (PIC_M_DATA, 0x01);
   (PIC_S_CTRL, 0x11); (PIC_S_DATA, 0x28); (PIC_S_DATA, 0x02); (PIC_S_DATA, 0x01);
   (PIC_M_DATA, 0xf8); (PIC_S_DATA, 0xbf)].

(** A controller: how many initialisation words it still waits for, the first
    vector, the cascade word and the mask. *)
Record pic : Type := mk_pic { icw : nat; vector_base : Z; cascade : Z; mask : Z }.
Definition pic_ctrl (b : Z) (p : pic) : pic :=
  if Z.testbit b 4 then mk_pic 3 (vector_base p) (cascade p) 0 else p.
Definition pic_data (b : Z) (p : pic) : pic :=
  match icw p with
  | 3%nat => mk_pic 2 (Z.land b 0xf8) (cascade p) (mask p)
  | 2%nat => mk_pic 1 (vector_base p) b (mask p)
  | S _ => mk_pic 0 (vector_base p) (cascade p) (mask p)
  | O => mk_pic 0 (vector_base p) (cascade p) b
  end.
Definition pic_out (ps : pic * pic) (w : Z * Z) : pic * pic :=
  let '(m, s) := ps in
  let '(port, b) := w in
  if port =? PIC_M_CTRL then (pic_ctrl b m, s) else if port =? PIC_M_DATA then (pic_data b m, s)
  else if port =? PIC_S_CTRL then (m, pic_ctrl b s) else if port =? PIC_S_DATA then (m, pic_data b s) else (m, s).

(** The vector the processor gets when the line [irq] is raised: lines 8 to 15
    are the slave's, which is behind the line of the master that the cascade
    words name. *)
Definition raise (ps : pic * pic) (irq : Z) : option Z :=
  let '(m, s) := ps in
  if irq <? 8 then
    if Z.testbit (mask m) irq then None else Some (vector_base m + irq)
  else if Z.testbit (mask s) (irq - 8) then None
  else if Z.testbit (mask m) (cascade s) then None
  else if Z.testbit (cascade m) (cascade s) then Some (vector_base s + (irq - 8)) else None.

(** ** The table of handlers *)
(** [exception_init] fills the table with the general handler. *)
Definition exception_init (general_intr_handler : Z) : list Z := replicate IDT_DESC_CNT general_intr_handler.
Definition register_handler (idt_table : list Z) (vector_no function : Z) : outcome (list Z) :=
  oget (arr_set idt_table vector_no function) Out_of_bounds.
(** Vectors that have a handler of their own: [timer_init], [keyboard_init],
    [ide_init] for the first and for a second channel. *)
Definition register_all (t : list Z) (timer keyboard hd : Z) : outcome (list Z) :=
  olet t := register_handler t 0x20 timer in
  olet t := register_handler t 0x21 keyboard in
  register_handler t (0x20 + 14) hd.

(** Interrupts reach their drivers.  After [pic_init] the timer, the keyboard
    and the first disk channel raise vectors 0x20, 0x21 and 0x2e, and every other
    line of the two controllers but the cascade is masked; the table of handlers
    has the driver's function at each of these three vectors and the general
    handler everywhere else. *)
Theorem interrupts_reach_drivers (m s : pic) (general timer keyboard hd : Z) (irq : Z) (Hirq : 0 <= irq < 16) (Hc : irq <> 2) :
  let ps := foldl pic_out (m, s) pic_init in
  exists t, register_all (exception_init general) timer keyboard hd = Done t /\
    (raise ps irq = if decide (irq = 0 \/ irq = 1 \/ irq = 14) then Some (0x20 + irq) else None) /\
    (forall v, 0 <= v < 129 -> arr_get t v =
       Some (if v =? 0x20 then timer else if v =? 0x21 then keyboard else if v =? 0x2e then hd else general)).
Proof.
  cbn zeta. destruct m as [mi mv mc mm], s as [si sv sc sm].
  assert (is_Some (arr_set (exception_init general) 0x20 timer)) as [t1 E1] by (apply arr_set_lt; cbn; lia).
  assert (is_Some (arr_set t1 0x21 keyboard)) as [t2 E2] by (apply arr_set_lt; erewrite arr_set_length by done; cbn; lia).
  assert (is_Some (arr_set t2 0x2e hd)) as [t3 E3].
  { apply arr_set_lt. erewrite arr_set_length by done. erewrite arr_set_length by done. cbn; lia. }
  exists t3. split; [|split].
  - unfold register_all, register_handler. rewrite E1. cbn [oget obind]. rewrite E2. cbn [oget obind]. change (0x20 + 14) with 0x2e. by rewrite E3.
  - assert (irq = 0 \/ irq = 1 \/ irq = 3 \/ irq = 4 \/ irq = 5 \/ irq = 6 \/ irq = 7 \/ irq = 8 \/ irq = 9 \/ irq = 10 \/
      irq = 11 \/ irq = 12 \/ irq = 13 \/ irq = 14 \/ irq = 15) as H by lia.
    repeat destruct H as [->|H]; try subst irq; vm_compute; reflexivity.
  - intros v Hv. rewrite (arr_get_set _ _ _ _ _ E3), (arr_get_set _ _ _ _ _ E2), (arr_get_set _ _ _ _ _ E1).
    destruct (Z.eqb_spec v 0x20), (Z.eqb_spec v 0x21), (Z.eqb_spec v 0x2e); subst; repeat case_decide; try lia; try done.
    unfold arr_get, exception_init. rewrite decide_True by lia. apply lookup_replicate_2. unfold IDT_DESC_CNT. lia.
Qed.

Lemma interrupts_reach_drivers_witness :
  exists t, register_all (exception_init 1) 2 3 4 = Done t /\
    raise (foldl pic_out (mk_pic 0 8 0 0, mk_pic 0 0x70 0 0) pic_init) 14 = Some 0x2e.
Proof.
  destruct (interrupts_reach_drivers (mk_pic 0 8 0 0) (mk_pic 0 0x70 0 0) 1 2 3 4 14) as (t & E & Hr & _); [lia|lia|].
  exists t. split; [exact E|]. exact Hr.
Defined.

(** ** The timer *)
Definition PIT_CONTROL_PORT : Z := 0x43.
Definition CONTRER0_PORT : Z := 0x40.
Definition COUNTER0_NO : Z := 0.
Definition COUNTER_MODE : Z := 2.
Definition READ_WRITE_LATCH : Z := 3.
Definition IRQ0_FREQUENCY : Z := 100.
Definition INPUT_FREQUENCY : Z := 1193180.
Definition COUNTER0_VALUE : Z := INPUT_FREQUENCY / IRQ0_FREQUENCY.
Definition mil_seconds_per_intr : Z := 1000 / IRQ0_FREQUENCY.

(** The cast binds tighter than the shift. *)
Definition frequency_set (counter_port counter_no rwl counter_mode counter_value : Z) : outs :=
  [(PIT_CONTROL_PORT, u8 (Z.lor (Z.lor (Z.shiftl counter_no 6) (Z.shiftl rwl 4)) (Z.shiftl counter_mode 1)));
   (counter_port, u8 counter_value);
   (counter_port, u8 (Z.shiftr (u8 counter_value) 8))].
Definition timer_init : outs := frequency_set CONTRER0_PORT COUNTER0_NO READ_WRITE_LATCH COUNTER_MODE (u16 COUNTER0_VALUE).

(** Counter 0: its mode, the low byte once it was written, and the reload value;
    a reload value of 0 counts 65536. *)
Record pit : Type := mk_pit { pit_mode : Z; low_byte : option Z; reload : Z }.
Definition pit_out (p : pit) (w : Z * Z) : pit :=
  let '(port, b) := w in
  if port =? PIT_CONTROL_PORT then
    if (Z.shiftr b 6 =? 0) && (Z.land (Z.shiftr b 4) 3 =? 3) then mk_pit (Z.land (Z.shiftr b 1) 7) None (reload p) else p
  else if port =? CONTRER0_PORT then
    match low_byte p with
    | None => mk_pit (pit_mode p) (Some b) (reload p)
    | Some l => let v := l + 256 * b in mk_pit (pit_mode p) None (if v =? 0 then 65536 else v)
    end
  else p.
(** Interrupts in a second. *)
Definition pit_frequency (p : pit) : Z := INPUT_FREQUENCY / reload p.

(** [ticks_to_sleep]: [now] are the values of [ticks] that the test of the loop
    sees, one after each time the thread has given the processor away; the
    result is the number of times it did. *)
Fixpoint ticks_to_sleep (now : list Z) (start_tick sleep_ticks : Z) : option nat :=
  match now with
  | [] => None
  | t :: now =>
      if u32 (t - start_tick) <? sleep_ticks then S <$> ticks_to_sleep now start_tick sleep_ticks
      else Some O
  end.
Definition mtime_sleep (now : list Z) (start_tick m_seconds : Z) : outcome (option nat) :=
  let sleep_ticks := DIV_ROUND_UP m_seconds mil_seconds_per_intr in
  ASSERT 0 <? sleep_ticks in
  Done (ticks_to_sleep now start_tick sleep_ticks).

(** The timer does not run at the frequency it is set to.  [frequency_set]
    sends the low byte of the value twice as it were: the byte meant to be the
    high one is always 0, so the counter is loaded with the value modulo 256
    (256 times 256 when that is 0).  [timer_init] therefore programs 7697
    interrupts a second, where [IRQ0_FREQUENCY] is 100. *)
Theorem frequency_set_low_byte (v : Z) (p : pit) (Hv : 0 <= v < 65536) :
  reload (foldl pit_out p (frequency_set CONTRER0_PORT COUNTER0_NO READ_WRITE_LATCH COUNTER_MODE v)) =
    (if v mod 256 =? 0 then 65536 else v mod 256) /\
  pit_mode (foldl pit_out p (frequency_set CONTRER0_PORT COUNTER0_NO READ_WRITE_LATCH COUNTER_MODE v)) = COUNTER_MODE /\
  pit_frequency (foldl pit_out p timer_init) = 7697.
Proof.
  assert (u8 (Z.shiftr (u8 v) 8) = 0) as E.
  { rewrite Z.shiftr_div_pow2 by lia. unfold u8. rewrite Z.div_small; [done|]. apply Z.mod_pos_bound. lia. }
  assert (forall q, foldl pit_out q (frequency_set CONTRER0_PORT COUNTER0_NO READ_WRITE_LATCH COUNTER_MODE v) =
    mk_pit 2 None (if v mod 256 =? 0 then 65536 else v mod 256)) as H.
  { intros q. unfold frequency_set. rewrite E.
    transitivity (mk_pit 2 None (if u8 v + 256 * 0 =? 0 then 65536 else u8 v + 256 * 0)); [reflexivity|].
    rewrite Z.mul_0_r, Z.add_0_r. done. }
  rewrite !H. split; [done|]. split; [done|]. by destruct p as [pm [l|] pr].
Qed.

Lemma frequency_set_low_byte_witness :
  reload (foldl pit_out (mk_pit 3 None 65536) (frequency_set CONTRER0_PORT COUNTER0_NO READ_WRITE_LATCH COUNTER_MODE 11931)) = 155.
Proof.
  destruct (frequency_set_low_byte 11931 (mk_pit 3 None 65536)) as [H _]; [lia|]. exact H.
Defined.

(** ** Sleeping *)
Lemma u32_diff start e : 0 <= e < 4294967296 -> u32 (u32 (start + e) - start) = e.
Proof.
  intros He. unfold u32. rewrite Zminus_mod_idemp_l. replace (start + e - start) with e by lia. by apply Z.mod_small.
Qed.

Lemma ticks_to_sleep_spec start n elapsed : Forall (fun e => 0 <= e < 4294967296) elapsed ->
  ticks_to_sleep ((fun e => u32 (start + e)) <$> elapsed) start n = fst <$> list_find (fun e => n <= e) elapsed.
Proof.
  induction 1 as [|e l He Hl IH]; [done|]. cbn [fmap list_fmap ticks_to_sleep list_find]. rewrite u32_diff by done.
  destruct (Z.ltb_spec e n); [rewrite decide_False by lia|by rewrite decide_True by lia].
  change (ticks_to_sleep (_ <$> l) start n) with (ticks_to_sleep ((fun e => u32 (start + e)) <$> l) start n).
  rewrite IH. by destruct (list_find _ l) as [[i x]|].
Qed.

(** [mtime_sleep] sleeps long enough, also when the tick counter wraps.  If
    [elapsed] are the numbers of ticks since the call at which its loop looks at
    the counter, it returns the first time the number is at least the
    milliseconds divided by ten, rounded up; for 0 milliseconds its assertion
    fails. *)
Theorem mtime_sleep_correct (start ms : Z) (elapsed : list Z) (Hms : 0 <= ms < 4294967286)
    (He : Forall (fun e => 0 <= e < 4294967296) elapsed) :
  mtime_sleep ((fun e => u32 (start + e)) <$> elapsed) start ms =
    if ms =? 0 then Halt Assert_failed else Done (fst <$> list_find (fun e => (ms + 9) / 10 <= e) elapsed).
Proof.
  unfold mtime_sleep, DIV_ROUND_UP. change mil_seconds_per_intr with 10.
  replace (u32 (u32 (ms + 10) - 1)) with (ms + 9).
  2: { rewrite (u32_id (ms + 10)) by (unfold is_u32; lia). rewrite u32_id by (unfold is_u32; lia). lia. }
  destruct (Z.eqb_spec ms 0) as [->|Hne]; [done|].
  rewrite (proj2 (Z.ltb_lt 0 _)) by (apply Z.div_str_pos; lia). cbn [oassert obind]. by rewrite ticks_to_sleep_spec.
Qed.

Lemma mtime_sleep_correct_witness :
  mtime_sleep ((fun e => u32 (4294967295 + e)) <$> [0; 1; 1; 3; 4]) 4294967295 25 = Done (Some 3%nat).
Proof.
  rewrite (mtime_sleep_correct 4294967295 25 [0; 1; 1; 3; 4]); [reflexivity|lia|]. repeat constructor; lia.
Defined.

(** ** Segment descriptors *)
Record gdt_desc : Type := mk_gdt {
  limit_low_word : Z; base_low_word : Z; base_mid_byte : Z; attr_low_byte : Z; limit_high_attr_high : Z; base_high_byte : Z
}.
Definition make_gdt_desc (desc_addr limit attr_low attr_high : Z) : gdt_desc :=
  mk_gdt (u16 (Z.land limit 0x0000ffff)) (u16 (Z.land desc_addr 0x0000ffff)) (u8 (Z.shiftr (Z.land desc_addr 0x00ff0000) 16))
    (u8 attr_low) (u8 (Z.shiftr (Z.land limit 0x000f0000) 16 + u8 attr_high)) (u8 (Z.shiftr desc_addr 24)).

(** What the processor reads out of a descriptor. *)
Definition seg_base (d : gdt_desc) : Z := base_low_word d + 65536 * base_mid_byte d + 16777216 * base_high_byte d.
Definition seg_dpl (d : gdt_desc) : Z := Z.land (Z.shiftr (attr_low_byte d) 5) 3.
Definition seg_limit_field (d : gdt_desc) : Z := limit_low_word d + 65536 * (limit_high_attr_high d mod 16).
Definition seg_granular (d : gdt_desc) : bool := Z.testbit (limit_high_attr_high d) 7.
(** The last byte of the segment, relative to its base *)
Definition seg_limit (d : gdt_desc) : Z :=
  if seg_granular d then seg_limit_field d * 4096 + 4095 else seg_limit_field d.

(** Attributes of [kernel/global.h] *)
Definition GDT_ATTR_HIGH : Z := Z.shiftl 1 7 + Z.shiftl 1 6 + Z.shiftl 0 5 + Z.shiftl 0 4.
Definition GDT_CODE_ATTR_LOW_DPL3 : Z := Z.shiftl 1 7 + Z.shiftl 3 5 + Z.shiftl 1 4 + 8.
Definition GDT_DATA_ATTR_LOW_DPL3 : Z := Z.shiftl 1 7 + Z.shiftl 3 5 + Z.shiftl 1 4 + 2.
Definition TSS_ATTR_HIGH : Z := Z.shiftl 1 7 + Z.shiftl 0 6 + Z.shiftl 0 5 + Z.shiftl 0 4 + 0.
Definition TSS_ATTR_LOW : Z := Z.shiftl 1 7 + Z.shiftl 0 5 + Z.shiftl 0 4 + 9.

(** [struct tss] as far as it is used; the other words are 0. *)
Record tss : Type := mk_tss { esp0 : Z; ss0 : Z; io_base : Z }.
Definition tss_size : Z := 108.
Definition SELECTOR_K_STACK : Z := Z.shiftl 2 3 + Z.shiftl 0 2 + 0.
Definition update_tss_esp (pthread : Z) (t : tss) : tss := mk_tss (u32 (pthread + PG_SIZE)) (ss0 t) (io_base t).

(** The segment, the three descriptors with their addresses, and the operand of
    [lgdt]; [g_tss] is the address of the segment. *)
Definition tss_init (g_tss : Z) : tss * list (Z * gdt_desc) * Z :=
  (mk_tss 0 SELECTOR_K_STACK tss_size,
   [(0xc0000920, make_gdt_desc g_tss (tss_size - 1) TSS_ATTR_LOW TSS_ATTR_HIGH);
    (0xc0000928, make_gdt_desc 0 0xfffff GDT_CODE_ATTR_LOW_DPL3 GDT_ATTR_HIGH);
    (0xc0000930, make_gdt_desc 0 0xfffff GDT_DATA_ATTR_LOW_DPL3 GDT_ATTR_HIGH)],
   Z.lor (8 * 7 - 1) (Z.shiftl 0xc0000900 16)).
(** The descriptor that a selector names, in the table of the operand. *)
Definition selector_addr (operand sel : Z) : Z := Z.shiftr operand 16 + 8 * Z.shiftr sel 3.
Definition SELECTOR_TSS : Z := Z.shiftl 4 3 + Z.shiftl 0 2 + 0.
Definition SELECTOR_U_CODE : Z := Z.shiftl 5 3 + Z.shiftl 0 2 + 3.
Definition SELECTOR_U_DATA : Z := Z.shiftl 6 3 + Z.shiftl 0 2 + 3.

Lemma mask_field x k n : 0 <= k -> 0 <= n -> Z.shiftr (Z.land x (Z.shiftl (Z.ones n) k)) k = x / 2 ^ k mod 2 ^ n.
Proof.
  intros Hk Hn. rewrite Z.shiftr_land, Z.shiftr_shiftl_l, Z.sub_diag, Z.shiftl_0_r by lia.
  by rewrite Z.land_ones, Z.shiftr_div_pow2 by done.
Qed.

Lemma make_gdt_desc_fields base limit attr_low attr_high : is_u32 base -> 0 <= limit < 1048576 -> is_u8 attr_low ->
  0 <= attr_high < 256 -> attr_high mod 16 = 0 ->
  let d := make_gdt_desc base limit attr_low attr_high in
  seg_base d = base /\ seg_limit_field d = limit /\ attr_low_byte d = attr_low /\ seg_granular d = Z.testbit attr_high 7.
Proof.
  unfold is_u32, is_u8. intros Hb Hl Ha Hh H16. unfold make_gdt_desc. cbn zeta.
  change 0x0000ffff with (Z.ones 16). change 0x00ff0000 with (Z.shiftl (Z.ones 8) 16). change 0x000f0000 with (Z.shiftl (Z.ones 4) 16).
  rewrite !Z.land_ones, !mask_field, Z.shiftr_div_pow2 by lia. unfold u8, u16.
  change (2 ^ 16) with 65536. change (2 ^ 8) with 256. change (2 ^ 4) with 16. change (2 ^ 24) with 16777216.
  rewrite !Z.mod_mod by lia. rewrite (Z.mod_small attr_high), (Z.mod_small attr_low) by lia.
  assert (0 <= limit / 65536 < 16) as Hlim by (split; [apply Z.div_pos; lia|apply Z.div_lt_upper_bound; lia]).
  rewrite (Z.mod_small (limit / 65536) 16) by lia.
  assert (0 <= attr_high / 16 < 16) as Hah by (split; [apply Z.div_pos; lia|apply Z.div_lt_upper_bound; lia]).
  pose proof (Z.div_mod attr_high 16 ltac:(lia)) as Eh. rewrite H16, Z.add_0_r in Eh.
  rewrite (Z.mod_small (limit / 65536 + attr_high)) by lia.
  unfold seg_base, seg_limit_field, seg_granular.
  cbn [base_low_word base_mid_byte base_high_byte limit_low_word limit_high_attr_high attr_low_byte]. split_and!.
  - assert (0 <= base / 16777216 < 256) by (split; [apply Z.div_pos; lia|apply Z.div_lt_upper_bound; lia]).
    rewrite (Z.mod_small (base / 16777216)) by lia. pose proof (Z.div_mod base 65536 ltac:(lia)).
    pose proof (Z.div_mod (base / 65536) 256 ltac:(lia)) as E. rewrite Z.div_div in E by lia. change (65536 * 256) with 16777216 in E. lia.
  - rewrite Eh. replace (limit / 65536 + 16 * (attr_high / 16)) with (limit / 65536 + attr_high / 16 * 16) by lia.
    rewrite Z_mod_plus_full, (Z.mod_small (limit / 65536) 16) by lia. pose proof (Z.div_mod limit 65536). lia.
  - done.
  - rewrite !Z.testbit_odd, !Z.shiftr_div_pow2 by lia. change (2 ^ 7) with (16 * 8). rewrite <- !Z.div_div by lia.
    do 2 f_equal. rewrite Eh at 1. replace (limit / 65536 + 16 * (attr_high / 16)) with (attr_high / 16 * 16 + limit / 65536) by lia.
    rewrite Z.div_add_l by lia. rewrite (Z.div_small (limit / 65536)) by lia. lia.
Qed.

(** Segment descriptors.  [make_gdt_desc] packs base, limit and attributes so
    that the processor reads them back.  Of the descriptors of [tss_init], those
    of the selectors for user code and data are flat segments of 4 GiB at ring 3,
    and that of the task segment has its base; but it is marked as counted in
    pages, so its limit, 107, means 442367 bytes, and the offset of the I/O
    bitmap, 108, lies inside the segment instead of beyond it. *)
Theorem tss_init_correct (base limit attr_low attr_high : Z) (Hb : is_u32 base) (Hl : 0 <= limit < 1048576)
    (Ha : is_u8 attr_low) (Hh : 0 <= attr_high < 256) (H16 : attr_high mod 16 = 0) :
  let d := make_gdt_desc base limit attr_low attr_high in
  seg_base d = base /\ seg_limit_field d = limit /\ attr_low_byte d = attr_low /\
  seg_granular d = Z.testbit attr_high 7 /\
  let '(t, ds, operand) := tss_init base in
  exists dt dc dd, ds = [(selector_addr operand SELECTOR_TSS, dt); (selector_addr operand SELECTOR_U_CODE, dc);
                         (selector_addr operand SELECTOR_U_DATA, dd)] /\
    seg_base dt = base /\ seg_limit dt = 442367 /\ io_base t <= seg_limit dt /\
    seg_base dc = 0 /\ seg_limit dc = 4294967295 /\ seg_dpl dc = 3 /\
    seg_base dd = 0 /\ seg_limit dd = 4294967295 /\ seg_dpl dd = 3.
Proof.
  destruct (make_gdt_desc_fields base limit attr_low attr_high Hb Hl Ha Hh H16) as (H1 & H2 & H3 & H4). cbn zeta.
  split; [done|]. split; [done|]. split; [done|]. split; [done|].
  destruct (make_gdt_desc_fields base 107 TSS_ATTR_LOW TSS_ATTR_HIGH Hb) as (T1 & T2 & _ & T4); [lia|by unfold is_u8|done|done|].
  unfold tss_init. eexists _, _, _. split; [reflexivity|]. split; [exact T1|].
  assert (seg_limit (make_gdt_desc base (tss_size - 1) TSS_ATTR_LOW TSS_ATTR_HIGH) = 442367) as ->.
  { unfold seg_limit. change (tss_size - 1) with 107. by rewrite T2, T4. }
  split; [done|]. split; [cbn; unfold tss_size; lia|]. done.
Qed.

Lemma tss_init_correct_witness :
  exists dt, (tss_init 0xc0009000).1.2 !! 0%nat = Some (0xc0000920, dt) /\ seg_base dt = 0xc0009000 /\ seg_limit dt = 442367.
Proof.
  destruct (tss_init_correct 0xc0009000 107 TSS_ATTR_LOW TSS_ATTR_HIGH) as (_ & _ & _ & _ & dt & dc & dd & E & H1 & H2 & _);
    [unfold is_u32; lia|lia|by unfold is_u8|done|done|].
  exists dt. split; [|by split]. injection E as <- _ _. reflexivity.
Defined.
