(* ===== verification/Syscall.v ===== *)
(** * Syscall: how a system call reaches the kernel ([lib/user/syscall.c],
      [userprog/syscall-init.c], [kernel/kernel.S] [syscall_handler])

    A stub of the C library puts the number of the call in [eax] and its
    arguments in [ebx], [ecx] and [edx], and executes [int 0x80]; the handler
    pushes the three registers, whatever the number of arguments, and calls the
    function at the number's index of the table.  A register that a stub does
    not set keeps what it held. *)

From stdpp Require Import base numbers list.
From S2P Require Import Prelude.

Local Open Scope Z_scope.
Local Open Scope kernel_scope.

(** [enum SYSCALL_NR] *)
Inductive SYSCALL_NR : Type :=
  | SYS_GETPID | SYS_WRITE | SYS_MALLOC | SYS_FREE | SYS_FORK | SYS_READ | SYS_PUTCHAR | SYS_CLEAR | SYS_GETCWD
  | SYS_OPEN | SYS_CLOSE | SYS_LSEEK | SYS_UNLINK | SYS_MKDIR | SYS_OPENDIR | SYS_CLOSEDIR | SYS_CHDIR | SYS_RMDIR
  | SYS_READDIR | SYS_REWINDDIR | SYS_STAT | SYS_PS | SYS_EXECV | SYS_EXIT | SYS_WAIT | SYS_PIPE | SYS_FD_REDIRECT
  | SYS_HELP.
Definition all_numbers : list SYSCALL_NR :=
  [SYS_GETPID; SYS_WRITE; SYS_MALLOC; SYS_FREE; SYS_FORK; SYS_READ; SYS_PUTCHAR; SYS_CLEAR; SYS_GETCWD;
   SYS_OPEN; SYS_CLOSE; SYS_LSEEK; SYS_UNLINK; SYS_MKDIR; SYS_OPENDIR; SYS_CLOSEDIR; SYS_CHDIR; SYS_RMDIR;
   SYS_READDIR; SYS_REWINDDIR; SYS_STAT; SYS_PS; SYS_EXECV; SYS_EXIT; SYS_WAIT; SYS_PIPE; SYS_FD_REDIRECT; SYS_HELP].
#[export] Instance SYSCALL_NR_eq_dec : EqDecision SYSCALL_NR.
Proof. solve_decision. Defined.

Fixpoint index_of (n : SYSCALL_NR) (l : list SYSCALL_NR) (i : Z) : Z :=
  match l with [] => i | m :: l => if decide (m = n) then i else index_of n l (i + 1) end.
(** The value of an enumerator. *)
Definition nr (n : SYSCALL_NR) : Z := index_of n all_numbers 0.

(** The kernel's functions, with the number of their parameters. *)
Inductive sysfn : Type :=
  | sys_getpid | sys_write | sys_malloc | sys_free | sys_fork | sys_read | sys_putchar | cls_screen | sys_getcwd
  | sys_open | sys_close | sys_lseek | sys_unlink | sys_mkdir | sys_opendir | sys_closedir | sys_chdir | sys_rmdir
  | sys_readdir | sys_rewinddir | sys_stat | sys_ps | sys_execv | sys_exit | sys_wait | sys_pipe | sys_fd_redirect
  | sys_help.
Definition arity (f : sysfn) : nat :=
  match f with
  | sys_getpid | sys_fork | cls_screen | sys_ps | sys_help => 0
  | sys_malloc | sys_free | sys_putchar | sys_close | sys_unlink | sys_mkdir | sys_opendir | sys_closedir | sys_chdir
  | sys_rmdir | sys_readdir | sys_rewinddir | sys_exit | sys_wait | sys_pipe => 1
  | sys_getcwd | sys_open | sys_stat | sys_execv | sys_fd_redirect => 2
  | sys_write | sys_read | sys_lseek => 3
  end.

(** [syscall_init]: the assignments in their order; [None] is [NULL]. *)
Definition syscall_nr : nat := 32.
Definition assignments : list (SYSCALL_NR * sysfn) :=
  [(SYS_GETPID, sys_getpid); (SYS_WRITE, sys_write); (SYS_MALLOC, sys_malloc); (SYS_FREE, sys_free); (SYS_FORK, sys_fork);
   (SYS_READ, sys_read); (SYS_PUTCHAR, sys_putchar); (SYS_CLEAR, cls_screen); (SYS_GETCWD, sys_getcwd); (SYS_OPEN, sys_open);
   (SYS_CLOSE, sys_close); (SYS_LSEEK, sys_lseek); (SYS_UNLINK, sys_unlink); (SYS_MKDIR, sys_mkdir);
   (SYS_OPENDIR, sys_opendir); (SYS_CLOSEDIR, sys_closedir); (SYS_CHDIR, sys_chdir); (SYS_RMDIR, sys_rmdir);
   (SYS_READDIR, sys_readdir); (SYS_REWINDDIR, sys_rewinddir); (SYS_STAT, sys_stat); (SYS_PS, sys_ps);
   (SYS_EXECV, sys_execv); (SYS_EXIT, sys_exit); (SYS_WAIT, sys_wait); (SYS_PIPE, sys_pipe);
   (SYS_FD_REDIRECT, sys_fd_redirect); (SYS_HELP, sys_help)].
Definition syscall_init (table : list (option sysfn)) : list (option sysfn) :=
  foldl (fun t '(n, f) => <[Z.to_nat (nr n) := Some f]> t) table assignments.
Definition zero_table : list (option sysfn) := replicate syscall_nr None.

(** ** Stubs *)
Record regs : Type := mk_regs { eax : Z; ebx : Z; ecx : Z; edx : Z }.
Definition _syscall0 (r : regs) (n : SYSCALL_NR) : regs := mk_regs (nr n) (ebx r) (ecx r) (edx r).
Definition _syscall1 (r : regs) (n : SYSCALL_NR) (a : Z) : regs := mk_regs (nr n) a (ecx r) (edx r).
Definition _syscall2 (r : regs) (n : SYSCALL_NR) (a b : Z) : regs := mk_regs (nr n) a b (edx r).
Definition _syscall3 (r : regs) (n : SYSCALL_NR) (a b c : Z) : regs := mk_regs (nr n) a b c.

(** The functions of the library, with their arguments. *)
Inductive user_call : Type :=
  | getpid | write (fd buf count : Z) | malloc (size : Z) | free (ptr : Z) | fork | read (fd buf count : Z)
  | putchar (char_asci : Z) | clear | getcwd (buf size : Z) | open (pathname flag : Z) | close (fd : Z)
  | lseek (fd offset whence : Z) | unlink (pathname : Z) | mkdir (pathname : Z) | opendir (name : Z) | closedir (dir : Z)
  | rmdir (pathname : Z) | readdir (dir : Z) | rewinddir (dir : Z) | stat (path buf : Z) | chdir (path : Z) | ps
  | execv (pathname argv : Z) | exit (status : Z) | wait (status : Z) | pipe (pipefd : Z)
  | fd_redirect (old_local_fd new_local_fd : Z) | help.

(** The registers at [int 0x80]; [r] are those before the call. *)
Definition stub (r : regs) (c : user_call) : regs :=
  match c with
  | getpid => _syscall0 r SYS_GETPID
  | write fd buf count => _syscall3 r SYS_WRITE fd buf count
  | malloc size => _syscall1 r SYS_MALLOC size
  | free ptr => _syscall1 r SYS_FREE ptr
  | fork => _syscall0 r SYS_FORK
  | read fd buf count => _syscall3 r SYS_READ fd buf count
  | putchar c => _syscall1 r SYS_PUTCHAR c
  | clear => _syscall0 r SYS_CLEAR
  | getcwd buf size => _syscall2 r SYS_GETCWD buf size
  | open pathname flag => _syscall2 r SYS_OPEN pathname flag
  | close fd => _syscall1 r SYS_CLOSE fd
  | lseek fd offset whence => _syscall3 r SYS_LSEEK fd offset whence
  | unlink pathname => _syscall1 r SYS_UNLINK pathname
  | mkdir pathname => _syscall1 r SYS_MKDIR pathname
  | opendir name => _syscall1 r SYS_OPENDIR name
  | closedir dir => _syscall1 r SYS_CLOSEDIR dir
  | rmdir pathname => _syscall1 r SYS_RMDIR pathname
  | readdir dir => _syscall1 r SYS_READDIR dir
  | rewinddir dir => _syscall1 r SYS_REWINDDIR dir
  | stat path buf => _syscall2 r SYS_STAT path buf
  | chdir path => _syscall1 r SYS_CHDIR path
  | ps => _syscall0 r SYS_PS
  | execv pathname argv => _syscall2 r SYS_EXECV pathname argv
  | exit status => _syscall1 r SYS_EXIT status
  | wait status => _syscall1 r SYS_WAIT status
  | pipe pipefd => _syscall1 r SYS_PIPE pipefd
  | fd_redirect o n => _syscall2 r SYS_FD_REDIRECT o n
  | help => _syscall0 r SYS_HELP
  end.

(** ** The handler

    The function called and the parameters it sees: the first ones of the three
    words pushed.  [eax] is not compared with the length of the table. *)
Definition syscall_handler (table : list (option sysfn)) (r : regs) : outcome (sysfn * list Z) :=
  olet entry := oget (arr_get table (eax r)) Out_of_bounds in
  olet f := oget entry Page_fault in
  Done (f, take (arity f) [ebx r; ecx r; edx r]).

(** What each function of the library asks for. *)
Definition meant (c : user_call) : sysfn * list Z :=
  match c with
  | getpid => (sys_getpid, [])
  | write fd buf count => (sys_write, [fd; buf; count])
  | malloc size => (sys_malloc, [size])
  | free ptr => (sys_free, [ptr])
  | fork => (sys_fork, [])
  | read fd buf count => (sys_read, [fd; buf; count])
  | putchar c => (sys_putchar, [c])
  | clear => (cls_screen, [])
  | getcwd buf size => (sys_getcwd, [buf; size])
  | open pathname flag => (sys_open, [pathname; flag])
  | close fd => (sys_close, [fd])
  | lseek fd offset whence => (sys_lseek, [fd; offset; whence])
  | unlink pathname => (sys_unlink, [pathname])
  | mkdir pathname => (sys_mkdir, [pathname])
  | opendir name => (sys_opendir, [name])
  | closedir dir => (sys_closedir, [dir])
  | rmdir pathname => (sys_rmdir, [pathname])
  | readdir dir => (sys_readdir, [dir])
  | rewinddir dir => (sys_rewinddir, [dir])
  | stat path buf => (sys_stat, [path; buf])
  | chdir path => (sys_chdir, [path])
  | ps => (sys_ps, [])
  | execv pathname argv => (sys_execv, [pathname; argv])
  | exit status => (sys_exit, [status])
  | wait status => (sys_wait, [status])
  | pipe pipefd => (sys_pipe, [pipefd])
  | fd_redirect o n => (sys_fd_redirect, [o; n])
  | help => (sys_help, [])
  end.

Lemma table_length t : length (syscall_init t) = length t.
Proof.
  unfold syscall_init. generalize assignments as l. intros l. revert t.
  induction l as [|[n f] l IH]; intros t; cbn [foldl]; [done|]. by rewrite IH, length_insert.
Qed.

(** Every system call reaches its function.  Whatever the registers held,
    the stub of a library function makes the handler call the kernel function of
    that name with exactly the arguments given to the stub.  A number outside
    the 28 in use is not refused: up to 31 the handler calls the null pointer,
    and from 32 on whatever follows the table. *)
Theorem syscall_reaches (r : regs) :
  (forall c, syscall_handler (syscall_init zero_table) (stub r c) = Done (meant c)) /\
  (28 <= eax r < 32 -> syscall_handler (syscall_init zero_table) r = Halt Page_fault) /\
  (32 <= eax r -> syscall_handler (syscall_init zero_table) r = Halt Out_of_bounds).
Proof.
  split; [by intros []|]. split; intros Hr; unfold syscall_handler.
  - assert (eax r = 28 \/ eax r = 29 \/ eax r = 30 \/ eax r = 31) as [->|[->|[->| ->]]] by lia; done.
  - by rewrite arr_get_ge by (rewrite table_length; cbn; lia).
Qed.
