(* ===== verification/Klist.v ===== *)
(** * Klist: the kernel's intrusive doubly linked list ([lib/kernel/list.c])

    The nodes live in memory: [nodes] maps the address of a [struct list_elem]
    to its two pointers, and every operation is a sequence of pointer reads and
    writes on that memory, run with interrupts off where the code does so.  A
    [struct list] at address [l] has its [head] at [l] and its [tail] at
    [l + 8].  The rest of the kernel reasons about the abstract sequence of
    elements; the theorems here are the simulation between the two. *)

From stdpp Require Import base numbers list gmap.
From S2P Require Import Prelude Interrupt.

Local Open Scope Z_scope.
Local Open Scope kernel_scope.

Record list_elem : Type := mk_elem { prev : Z; next : Z }.

Record lmem : Type := mk_lmem { lm_eflags : Z; nodes : gmap Z list_elem }.

#[export] Program Instance lmem_HasIF : HasIF lmem := {|
  eflags := lm_eflags;
  set_eflags z s := mk_lmem z (nodes s)
|}.
Solve Obligations with by intros; destruct_all lmem.

(** ** Pointer accesses *)
Definition rd (a : Z) : M lmem list_elem :=
  let! m := gets nodes in lift (oget (m !! a) Page_fault).
Definition wr (a : Z) (f : list_elem -> list_elem) : M lmem unit :=
  let! e := rd a in
  modify (fun s => mk_lmem (lm_eflags s) (<[a := f e]> (nodes s))).
Definition rd_prev (a : Z) : M lmem Z := let! e := rd a in ret (prev e).
Definition rd_next (a : Z) : M lmem Z := let! e := rd a in ret (next e).
Definition set_prev (a v : Z) : M lmem unit := wr a (fun e => mk_elem v (next e)).
Definition set_next (a v : Z) : M lmem unit := wr a (fun e => mk_elem (prev e) v).

Definition head_of (l : Z) : Z := l.
Definition tail_of (l : Z) : Z := l + 8.

(** ** Operations *)
Definition list_init (l : Z) : M lmem unit :=
  set_prev (head_of l) 0 ;;;
  set_next (head_of l) (tail_of l) ;;;
  set_prev (tail_of l) (head_of l) ;;;
  set_next (tail_of l) 0.

Definition list_insert_before (before elem : Z) : M lmem unit :=
  critical (
    let! bp := rd_prev before in
    set_next bp elem ;;;
    let! bp := rd_prev before in
    set_prev elem bp ;;;
    set_next elem before ;;;
    set_prev before elem).

Definition list_push (plist elem : Z) : M lmem unit :=
  let! first := rd_next (head_of plist) in
  list_insert_before first elem.

Definition list_append (plist elem : Z) : M lmem unit :=
  list_insert_before (tail_of plist) elem.

Definition list_remove (pelem : Z) : M lmem unit :=
  critical (
    let! p := rd_prev pelem in
    let! n := rd_next pelem in
    set_next p n ;;;
    let! n := rd_next pelem in
    let! p := rd_prev pelem in
    set_prev n p).

Definition list_pop (plist : Z) : M lmem Z :=
  let! elem := rd_next (head_of plist) in
  list_remove elem ;;;
  ret elem.

Definition list_empty (plist : Z) : M lmem bool :=
  let! n := rd_next (head_of plist) in ret (n =? tail_of plist).

(** The three traversals; a cyclic list would not end, hence the fuel. *)
Definition elem_find (fuel : nat) (plist obj_elem : Z) : M lmem bool :=
  let! elem := rd_next (head_of plist) in
  loop fuel (fun elem =>
    if elem =? tail_of plist then ret (inr false)
    else if elem =? obj_elem then ret (inr true)
    else let! n := rd_next elem in ret (inl n)) elem.

Definition list_traversal (fuel : nat) (plist : Z) (func : Z -> Z -> M lmem bool) (arg : Z)
    : M lmem Z :=
  let! elem := rd_next (head_of plist) in
  let! e := list_empty plist in
  if e then ret 0 else
  loop fuel (fun elem =>
    if elem =? tail_of plist then ret (inr 0)
    else
      let! hit := func elem arg in
      if hit then ret (inr elem)
      else let! n := rd_next elem in ret (inl n)) elem.

Definition list_len (fuel : nat) (plist : Z) : M lmem Z :=
  let! elem := rd_next (head_of plist) in
  loop fuel (fun '(elem, length) =>
    if elem =? tail_of plist then ret (inr length)
    else let! n := rd_next elem in ret (inl (n, u32 (length + 1)))) (elem, 0).

(** ** Representation: a chain of nodes linked both ways *)
Definition nxt (m : gmap Z list_elem) (a : Z) : option Z := next <$> m !! a.
Definition prv (m : gmap Z list_elem) (a : Z) : option Z := prev <$> m !! a.

Fixpoint chain (m : gmap Z list_elem) (a : Z) (path : list Z) : Prop :=
  match path with
  | [] => True
  | b :: path => nxt m a = Some b /\ prv m b = Some a /\ chain m b path
  end.

(** The list at [l] holds exactly the elements [xs], in order. *)
Definition dlist (m : gmap Z list_elem) (l : Z) (xs : list Z) : Prop :=
  chain m (head_of l) (xs ++ [tail_of l]) /\ NoDup (head_of l :: xs ++ [tail_of l]).

Fixpoint lastZ (a : Z) (path : list Z) : Z :=
  match path with [] => a | b :: path => lastZ b path end.

Lemma lastZ_cons a b p : lastZ a (b :: p) = lastZ b p.
Proof. done. Qed.

Lemma lastZ_elem a p : lastZ a p ∈ a :: p.
Proof.
  revert a. induction p as [|b p IH]; intros a; [cbn; set_solver|].
  rewrite lastZ_cons. specialize (IH b). set_solver.
Qed.

Lemma chain_app m a p q : chain m a (p ++ q) <-> chain m a p /\ chain m (lastZ a p) q.
Proof.
  revert a. induction p as [|b p IH]; intros a; cbn [chain app]; [cbn; tauto|].
  rewrite IH, lastZ_cons. tauto.
Qed.

(** A chain only depends on the [next] of all its nodes but the last and on the
    [prev] of all but the first. *)
Lemma chain_frame m m' a p :
  chain m a p ->
  (forall x, x ∈ a :: p -> x <> lastZ a p -> nxt m' x = nxt m x) ->
  (forall x, x ∈ p -> prv m' x = prv m x) ->
  NoDup (a :: p) ->
  chain m' a p.
Proof.
  revert a. induction p as [|b p IH]; intros a Hc Hn Hp Hnd; [done|].
  destruct Hc as (H1 & H2 & Hc). apply NoDup_cons in Hnd as [Hnin Hnd].
  rewrite lastZ_cons in Hn. cbn [chain]. split_and!.
  - rewrite Hn; [done|set_solver|]. intros ->.
    pose proof (lastZ_elem b p). done.
  - rewrite Hp; [done|set_solver].
  - apply IH; [done| | |done].
    + intros x Hx. apply Hn. set_solver.
    + intros x Hx. apply Hp. set_solver.
Qed.

Lemma nxt_dom m a b : nxt m a = Some b -> is_Some (m !! a).
Proof. unfold nxt. destruct (m !! a); [eauto|done]. Qed.
Lemma prv_dom m a b : prv m a = Some b -> is_Some (m !! a).
Proof. unfold prv. destruct (m !! a); [eauto|done]. Qed.

(** ** Accesses as weakest preconditions *)
Lemma wp_rd_prev a p (Q : Z -> lmem -> Prop) s :
  prv (nodes s) a = Some p -> Q p s -> wp (rd_prev a) Q s.
Proof.
  unfold prv, wp, rd_prev, rd, bind, gets, lift, ret, oget.
  by destruct (nodes s !! a) as [e|]; [intros [= <-]|].
Qed.

Lemma wp_rd_next a n (Q : Z -> lmem -> Prop) s :
  nxt (nodes s) a = Some n -> Q n s -> wp (rd_next a) Q s.
Proof.
  unfold nxt, wp, rd_next, rd, bind, gets, lift, ret, oget.
  by destruct (nodes s !! a) as [e|]; [intros [= <-]|].
Qed.

(** [s'] is [s] with the [next] (or [prev]) pointer of [a] set to [v]. *)
Definition upd_next (a v : Z) (s s' : lmem) : Prop :=
  lm_eflags s' = lm_eflags s /\
  (forall x, nxt (nodes s') x = if decide (x = a) then Some v else nxt (nodes s) x) /\
  (forall x, prv (nodes s') x = prv (nodes s) x).
Definition upd_prev (a v : Z) (s s' : lmem) : Prop :=
  lm_eflags s' = lm_eflags s /\
  (forall x, prv (nodes s') x = if decide (x = a) then Some v else prv (nodes s) x) /\
  (forall x, nxt (nodes s') x = nxt (nodes s) x).

Lemma wp_set_next a v (Q : unit -> lmem -> Prop) s :
  is_Some (nodes s !! a) -> (forall s', upd_next a v s s' -> Q tt s') ->
  wp (set_next a v) Q s.
Proof.
  intros [e He] HQ. unfold wp, set_next, wr, rd, bind, gets, lift, modify, oget.
  rewrite He. apply HQ. unfold upd_next, nxt, prv. cbn. split_and!; [done| |];
    intros x; rewrite lookup_insert; repeat case_decide; subst; try done.
  by rewrite He.
Qed.

Lemma wp_set_prev a v (Q : unit -> lmem -> Prop) s :
  is_Some (nodes s !! a) -> (forall s', upd_prev a v s s' -> Q tt s') ->
  wp (set_prev a v) Q s.
Proof.
  intros [e He] HQ. unfold wp, set_prev, wr, rd, bind, gets, lift, modify, oget.
  rewrite He. apply HQ. unfold upd_prev, nxt, prv. cbn. split_and!; [done| |];
    intros x; rewrite lookup_insert; repeat case_decide; subst; try done.
  by rewrite He.
Qed.

Lemma nxt_set_eflags z (s : lmem) : nodes (set_eflags z s) = nodes s.
Proof. done. Qed.

(** Outside [P] no pointer changed. *)
Definition same_outside (P : Z -> Prop) (s s' : lmem) : Prop :=
  lm_eflags s' = lm_eflags s /\
  forall x, ~ P x -> nxt (nodes s') x = nxt (nodes s) x /\ prv (nodes s') x = prv (nodes s) x.

Lemma dlist_frame P s s' l xs :
  same_outside P s s' -> (forall x, x ∈ head_of l :: xs ++ [tail_of l] -> ~ P x) ->
  dlist (nodes s) l xs -> dlist (nodes s') l xs.
Proof.
  intros [_ Hs] HP [Hc Hnd]. split; [|done]. eapply chain_frame; [done| | |done].
  - intros x Hx _. by apply Hs, HP.
  - intros x Hx. apply Hs, HP. set_solver.
Qed.

Lemma insert_before_chain a p b q e s :
  chain (nodes s) a (p ++ b :: q) -> NoDup (a :: p ++ b :: q) ->
  e ∉ a :: p ++ b :: q -> is_Some (nodes s !! e) ->
  wp (list_insert_before b e) (fun _ s' =>
    chain (nodes s') a (p ++ e :: b :: q) /\
    same_outside (fun x => x ∈ a :: p ++ b :: q \/ x = e) s s') s.
Proof.
  intros Hc Hnd He Hdom. apply chain_app in Hc as [Hc1 Hc2].
  set (bp := lastZ a p) in *. destruct Hc2 as (Hbn & Hbp & Hc2).
  assert (bp ∈ a :: p) as Hbpin by apply lastZ_elem.
  rewrite app_comm_cons in Hnd. apply NoDup_app in Hnd as (Hnd1 & Hdis & Hnd2).
  assert (bp ∉ b :: q) as Hbpq by (by apply Hdis).
  apply wp_critical. intros s0 ->. rewrite app_comm_cons in He.
  assert (bp <> b) by set_solver. assert (bp <> e) by set_solver. assert (b <> e) by set_solver.
  apply wp_bind. eapply wp_rd_prev; [exact Hbp|].
  apply wp_bind. apply wp_set_next; [by eapply nxt_dom|]. intros s1 (F1 & N1 & P1).
  apply wp_bind. eapply wp_rd_prev; [rewrite P1; exact Hbp|].
  apply wp_bind. apply wp_set_prev.
  { destruct Hdom as [el Hel]. apply (nxt_dom _ _ (next el)). rewrite N1.
    rewrite decide_False by done. unfold nxt. cbn. by rewrite Hel. }
  intros s2 (F2 & P2 & N2).
  apply wp_bind. apply wp_set_next.
  { apply (prv_dom _ _ bp). by rewrite P2, decide_True. }
  intros s3 (F3 & N3 & P3).
  apply wp_set_prev.
  { apply (prv_dom _ _ bp). rewrite P3, P2, decide_False, P1 by done. exact Hbp. }
  intros s4 (F4 & P4 & N4).
  assert (forall x, nxt (nodes s4) x = if decide (x = e) then Some b
            else if decide (x = bp) then Some e else nxt (nodes s) x) as HN.
  { intros x. by rewrite N4, N3, N2, N1. }
  assert (forall x, prv (nodes s4) x = if decide (x = b) then Some e
            else if decide (x = e) then Some bp else prv (nodes s) x) as HP.
  { intros x. by rewrite P4, P3, P2, P1. }
  split; [cbn in *; congruence|]. rewrite !nxt_set_eflags. split.
  - apply chain_app. split; [|fold bp; cbn [chain]; split_and!].
    + eapply chain_frame; [exact Hc1| | |done].
      * intros x Hx Hne. rewrite HN, !decide_False; [done|done|]. intros ->. set_solver.
      * intros x Hx. rewrite HP, !decide_False; [done| |].
        -- intros ->. set_solver.
        -- intros ->. specialize (Hdis b). set_solver.
    + rewrite HN, decide_False, decide_True; done.
    + rewrite HP, decide_False, decide_True; done.
    + by rewrite HN, decide_True.
    + by rewrite HP, decide_True.
    + eapply chain_frame; [exact Hc2| | |done].
      * intros x Hx Hne. rewrite HN, !decide_False; [done| |]; intros ->; set_solver.
      * apply NoDup_cons in Hnd2 as [Hbq _].
        intros x Hx. rewrite HP, !decide_False; [done| |]; intros ->; set_solver.
  - split; [done|]. rewrite app_comm_cons. intros x Hx.
    rewrite !nxt_set_eflags, HN, HP, !decide_False; [done|set_solver..].
Qed.

Lemma remove_chain a p e b q s :
  chain (nodes s) a (p ++ e :: b :: q) -> NoDup (a :: p ++ e :: b :: q) ->
  wp (list_remove e) (fun _ s' =>
    chain (nodes s') a (p ++ b :: q) /\
    same_outside (fun x => x ∈ a :: p ++ b :: q) s s' /\
    nodes s' !! e = nodes s !! e) s.
Proof.
  intros Hc Hnd. apply chain_app in Hc as [Hc1 Hc2].
  set (bp := lastZ a p) in *. destruct Hc2 as (Hn1 & Hp1 & Hn2 & Hp2 & Hc2).
  assert (bp ∈ a :: p) as Hbpin by apply lastZ_elem.
  rewrite app_comm_cons in Hnd. apply NoDup_app in Hnd as (Hnd1 & Hdis & Hnd2).
  assert (bp ∉ e :: b :: q) as Hbpq by (by apply Hdis).
  apply NoDup_cons in Hnd2 as [Heq Hnd2].
  apply wp_critical. intros s0 ->.
  assert (bp <> b) by set_solver. assert (bp <> e) by set_solver. assert (b <> e) by set_solver.
  apply wp_bind. eapply wp_rd_prev; [exact Hp1|].
  apply wp_bind. eapply wp_rd_next; [exact Hn2|].
  apply wp_bind. unfold set_next.
  assert (is_Some (nodes s !! bp)) as [ebp Hebp] by (by eapply nxt_dom).
  assert (is_Some (nodes s !! b)) as [eb Heb] by (by eapply prv_dom).
  assert (is_Some (nodes s !! e)) as [ee Hee] by (by eapply prv_dom).
  unfold prv, nxt in Hp1, Hn2. rewrite Hee in Hp1, Hn2. injection Hp1 as Hpe. injection Hn2 as Hne.
  unfold wp at 1, wr, rd, bind at 1, gets, lift, modify, oget. cbn. rewrite Hebp.
  apply wp_bind. eapply wp_rd_next.
  { unfold nxt. cbn. rewrite lookup_insert_ne, Hee by done. cbn. by rewrite Hne. }
  apply wp_bind. eapply wp_rd_prev.
  { unfold prv. cbn. rewrite lookup_insert_ne, Hee by done. cbn. by rewrite Hpe. }
  unfold wp, set_prev, wr, rd, bind, gets, lift, modify, oget. cbn.
  rewrite lookup_insert_ne, Heb by done.
  split; [done|]. cbn [nodes].
  set (m' := <[b := _]> (<[bp := _]> (nodes s))).
  assert (forall x, nxt m' x = if decide (x = bp) then Some b else nxt (nodes s) x) as HN.
  { intros x. unfold m', nxt. rewrite !lookup_insert. repeat case_decide; subst; try done.
    by rewrite Heb. }
  assert (forall x, prv m' x = if decide (x = b) then Some bp else prv (nodes s) x) as HP.
  { intros x. unfold m', prv. rewrite !lookup_insert. repeat case_decide; subst; try done.
    by rewrite Hebp. }
  split_and!.
  - apply chain_app. split; [|fold bp; cbn [chain]; split_and!].
    + eapply chain_frame; [exact Hc1| | |done].
      * intros x Hx Hne'. rewrite HN, !decide_False; done.
      * intros x Hx. rewrite HP, !decide_False; [done|]. intros ->.
        specialize (Hdis b). set_solver.
    + by rewrite HN, decide_True.
    + by rewrite HP, decide_True.
    + eapply chain_frame; [exact Hc2| | |done].
      * intros x Hx Hne'. rewrite HN, !decide_False; [done|]; intros ->; set_solver.
      * apply NoDup_cons in Hnd2 as [Hbq _].
        intros x Hx. rewrite HP, !decide_False; [done|]; intros ->; set_solver.
  - split; [done|]. rewrite app_comm_cons. intros x Hx. cbn [nodes].
    rewrite HN, HP, !decide_False; [done|set_solver..].
  - cbn [nodes]. unfold m'. by rewrite !lookup_insert_ne by done.
Qed.

(** ** The operations on a represented list *)
Lemma dlist_split l p e q m :
  dlist m l (p ++ e :: q) ->
  exists b q', q ++ [tail_of l] = b :: q' /\
    chain m (head_of l) (p ++ e :: b :: q') /\ NoDup (head_of l :: p ++ e :: b :: q').
Proof.
  intros [Hc Hnd]. destruct (q ++ [tail_of l]) as [|b q'] eqn:E.
  { by destruct q. }
  exists b, q'. rewrite <- app_assoc in Hc, Hnd. cbn in Hc, Hnd. rewrite E in Hc, Hnd. done.
Qed.

Lemma NoDup_insert_mid {A} (e : A) p q : NoDup (p ++ q) -> e ∉ p ++ q -> NoDup (p ++ e :: q).
Proof. intros. rewrite <- Permutation_middle. by apply NoDup_cons. Qed.

Lemma list_append_spec l xs e s :
  dlist (nodes s) l xs -> e ∉ head_of l :: xs ++ [tail_of l] -> is_Some (nodes s !! e) ->
  wp (list_append l e) (fun _ s' => dlist (nodes s') l (xs ++ [e]) /\
    same_outside (fun x => x ∈ head_of l :: xs ++ [tail_of l] \/ x = e) s s') s.
Proof.
  intros [Hc Hnd] He Hdom. unfold list_append.
  eapply wp_mono; [by apply (insert_before_chain (head_of l) xs (tail_of l) [])|].
  cbn beta. intros _ s' [Hc' Hs]. split; [|done]. unfold dlist. rewrite <- app_assoc. split; [done|].
  cbn [app]. rewrite app_comm_cons. by apply NoDup_insert_mid.
Qed.

Lemma list_push_spec l xs e s :
  dlist (nodes s) l xs -> e ∉ head_of l :: xs ++ [tail_of l] -> is_Some (nodes s !! e) ->
  wp (list_push l e) (fun _ s' => dlist (nodes s') l (e :: xs) /\
    same_outside (fun x => x ∈ head_of l :: xs ++ [tail_of l] \/ x = e) s s') s.
Proof.
  intros [Hc Hnd] He Hdom. unfold list_push.
  destruct (xs ++ [tail_of l]) as [|b q] eqn:E; [by destruct xs|].
  apply wp_bind. eapply wp_rd_next; [apply Hc|].
  eapply wp_mono; [by apply (insert_before_chain (head_of l) [] b q)|].
  cbn beta. intros _ s' [Hc' Hs]. split; [|done]. unfold dlist. cbn [app]. rewrite E. split; [done|].
  by apply (NoDup_insert_mid e [head_of l]).
Qed.

Lemma list_remove_spec l p e q s :
  dlist (nodes s) l (p ++ e :: q) ->
  wp (list_remove e) (fun _ s' => dlist (nodes s') l (p ++ q) /\
    same_outside (fun x => x ∈ head_of l :: p ++ q ++ [tail_of l]) s s' /\
    nodes s' !! e = nodes s !! e) s.
Proof.
  intros (b & q' & E & Hc & Hnd)%dlist_split.
  eapply wp_mono; [by apply remove_chain|]. cbn beta. intros _ s' (Hc' & Hs & He).
  unfold dlist. rewrite <- app_assoc, E. split_and!; try done.
  rewrite app_comm_cons in Hnd |- *. rewrite <- Permutation_middle in Hnd.
  by apply NoDup_cons in Hnd as [_ ?].
Qed.

Lemma list_pop_spec l x xs s :
  dlist (nodes s) l (x :: xs) ->
  wp (list_pop l) (fun r s' => r = x /\ dlist (nodes s') l xs /\
    same_outside (fun y => y ∈ head_of l :: xs ++ [tail_of l]) s s' /\
    nodes s' !! x = nodes s !! x) s.
Proof.
  intros Hd. unfold list_pop. apply wp_bind. eapply wp_rd_next; [apply Hd|].
  apply wp_bind. eapply wp_mono; [by apply (list_remove_spec l [] x xs)|].
  cbn beta. intros _ s' ?. by apply wp_ret.
Qed.

Lemma list_empty_spec l xs s (Q : bool -> lmem -> Prop) :
  dlist (nodes s) l xs -> Q (bool_decide (xs = [])) s -> wp (list_empty l) Q s.
Proof.
  intros [Hc Hnd] HQ. unfold list_empty. apply wp_bind. destruct xs as [|x xs].
  - eapply wp_rd_next; [apply Hc|]. apply wp_ret. by rewrite Z.eqb_refl.
  - eapply wp_rd_next; [apply Hc|]. apply wp_ret.
    replace (x =? tail_of l) with false; [done|]. symmetry. apply Z.eqb_neq. intros ->.
    apply NoDup_cons in Hnd as [_ Hnd]. apply NoDup_cons in Hnd as [Hnin _]. set_solver.
Qed.

(** Walking the rest of a represented list. *)
Lemma tail_notin l xs : NoDup (xs ++ [tail_of l]) -> tail_of l ∉ xs.
Proof. intros (_ & H & _)%NoDup_app Hin. by apply (H _ Hin), list_elem_of_singleton. Qed.

Lemma walk_step l xs elem rest m :
  xs ++ [tail_of l] = elem :: rest -> chain m elem rest -> tail_of l ∉ xs ->
  (xs = [] /\ (elem =? tail_of l) = true) \/
  exists xs' n rest', xs = elem :: xs' /\ (elem =? tail_of l) = false /\ tail_of l ∉ xs' /\
    xs' ++ [tail_of l] = n :: rest' /\ nxt m elem = Some n /\ chain m n rest'.
Proof.
  intros E Hc Hnin. destruct xs as [|x xs]; injection E as <- <-.
  - left. by rewrite Z.eqb_refl.
  - right. destruct (xs ++ [tail_of l]) as [|n rest'] eqn:E'; [by destruct xs|].
    exists xs, n, rest'. split_and!; try done; [|set_solver|apply Hc|apply Hc].
    apply Z.eqb_neq. set_solver.
Qed.

Lemma elem_find_loop l e s : forall fuel xs elem rest (Q : bool -> lmem -> Prop),
  xs ++ [tail_of l] = elem :: rest -> chain (nodes s) elem rest -> tail_of l ∉ xs ->
  (length xs < fuel)%nat -> Q (bool_decide (e ∈ xs)) s ->
  wp (loop fuel (fun elem =>
    if elem =? tail_of l then ret (inr false)
    else if elem =? e then ret (inr true)
    else let! n := rd_next elem in ret (inl n)) elem) Q s.
Proof.
  induction fuel as [|fuel IH]; intros xs elem rest Q E Hc Hnin Hf HQ; [lia|]. cbn [loop].
  destruct (walk_step _ _ _ _ _ E Hc Hnin)
    as [[-> Ht]|(xs' & n & rest' & -> & Ht & Hnin' & E' & Hn & Hc')]; rewrite Ht; apply wp_bind.
  - apply wp_ret, wp_ret. by rewrite bool_decide_eq_false_2 in HQ by set_solver.
  - destruct (Z.eqb_spec elem e) as [->|Hne].
    + apply wp_ret, wp_ret. by rewrite bool_decide_eq_true_2 in HQ by set_solver.
    + apply wp_bind. eapply wp_rd_next; [exact Hn|]. apply wp_ret.
      eapply IH; try done; [cbn in Hf; lia|].
      erewrite bool_decide_ext; [exact HQ|]. set_solver.
Qed.

Lemma list_len_loop l s : forall fuel xs elem rest k (Q : Z -> lmem -> Prop),
  xs ++ [tail_of l] = elem :: rest -> chain (nodes s) elem rest -> tail_of l ∉ xs ->
  (length xs < fuel)%nat -> 0 <= k -> Q (u32 (k + Z.of_nat (length xs))) s ->
  wp (loop fuel (fun '(elem, length) =>
    if elem =? tail_of l then ret (inr length)
    else let! n := rd_next elem in ret (inl (n, u32 (length + 1)))) (elem, u32 k)) Q s.
Proof.
  induction fuel as [|fuel IH]; intros xs elem rest k Q E Hc Hnin Hf Hk HQ; [lia|]. cbn [loop].
  destruct (walk_step _ _ _ _ _ E Hc Hnin)
    as [[-> Ht]|(xs' & n & rest' & -> & Ht & Hnin' & E' & Hn & Hc')]; rewrite Ht; apply wp_bind.
  - apply wp_ret, wp_ret. cbn in HQ. by rewrite Z.add_0_r in HQ.
  - apply wp_bind. eapply wp_rd_next; [exact Hn|]. apply wp_ret.
    replace (u32 (u32 k + 1)) with (u32 (k + 1)) by (unfold u32; by rewrite Zplus_mod_idemp_l).
    eapply IH; try done; [cbn in Hf; lia|lia|].
    replace (k + 1 + Z.of_nat (length xs')) with (k + Z.of_nat (length (elem :: xs')))
      by (cbn; lia). done.
Qed.

(** The first element a side-effect-free callback accepts. *)
Fixpoint first_hit (f : Z -> bool) (xs : list Z) : Z :=
  match xs with [] => 0 | x :: xs => if f x then x else first_hit f xs end.

Lemma traversal_loop l f arg s (func : Z -> Z -> M lmem bool) :
  (forall x, func x arg s = Done (f x, s)) ->
  forall fuel xs elem rest (Q : Z -> lmem -> Prop),
  xs ++ [tail_of l] = elem :: rest -> chain (nodes s) elem rest -> tail_of l ∉ xs ->
  (length xs < fuel)%nat -> Q (first_hit f xs) s ->
  wp (loop fuel (fun elem =>
    if elem =? tail_of l then ret (inr 0)
    else
      let! hit := func elem arg in
      if hit then ret (inr elem)
      else let! n := rd_next elem in ret (inl n)) elem) Q s.
Proof.
  intros Hf. induction fuel as [|fuel IH]; intros xs elem rest Q E Hc Hnin Hfl HQ; [lia|].
  cbn [loop].
  destruct (walk_step _ _ _ _ _ E Hc Hnin)
    as [[-> Ht]|(xs' & n & rest' & -> & Ht & Hnin' & E' & Hn & Hc')]; rewrite Ht; apply wp_bind.
  - by apply wp_ret, wp_ret.
  - apply wp_bind. unfold wp at 1. rewrite Hf. cbn [first_hit] in HQ.
    destruct (f elem); [by apply wp_ret, wp_ret|].
    apply wp_bind. eapply wp_rd_next; [exact Hn|]. apply wp_ret.
    eapply IH; try done. cbn in Hfl. lia.
Qed.

(** The head of a represented list, as the traversals see it. *)
Lemma dlist_first l xs s : dlist (nodes s) l xs ->
  exists n rest, xs ++ [tail_of l] = n :: rest /\ nxt (nodes s) (head_of l) = Some n /\
    chain (nodes s) n rest /\ tail_of l ∉ xs.
Proof.
  intros [Hc Hnd]. destruct (xs ++ [tail_of l]) as [|n rest] eqn:E; [by destruct xs|].
  exists n, rest. split_and!; [done|apply Hc|apply Hc|]. apply tail_notin. rewrite E.
  by apply NoDup_cons in Hnd as [_ ?].
Qed.

Lemma chain_mapped m a p x : chain m a p -> x ∈ p -> is_Some (m !! x).
Proof.
  revert a. induction p as [|b p IH]; intros a H Hx; [set_solver|].
  destruct H as (_ & Hp & H). apply elem_of_cons in Hx as [->|Hx]; [by eapply prv_dom|eauto].
Qed.

(** The nodes of a well-formed list are mapped and distinct, so as many
    iterations as there are mapped nodes are enough for every traversal. *)
Lemma dlist_length l xs m : dlist m l xs -> (length xs < size m)%nat.
Proof.
  intros [Hc Hnd].
  apply NoDup_cons in Hnd as [_ Hnd].
  assert (list_to_set (xs ++ [tail_of l]) ⊆ dom m) as Hsub.
  { intros x. rewrite elem_of_list_to_set, elem_of_dom. by eapply chain_mapped. }
  apply subseteq_size in Hsub. rewrite size_list_to_set, length_app, size_dom in Hsub by done.
  cbn in Hsub. lia.
Qed.

Lemma elem_find_spec l xs e s (Q : bool -> lmem -> Prop) :
  dlist (nodes s) l xs -> Q (bool_decide (e ∈ xs)) s ->
  wp (elem_find (size (nodes s)) l e) Q s.
Proof.
  intros Hd HQ. destruct (dlist_first l xs s Hd) as (n & rest & E & Hn & Hc & Hnin).
  apply wp_bind. eapply wp_rd_next; [exact Hn|].
  eapply elem_find_loop; try done. by eapply dlist_length.
Qed.

Lemma list_len_spec l xs s (Q : Z -> lmem -> Prop) :
  dlist (nodes s) l xs -> Q (u32 (Z.of_nat (length xs))) s ->
  wp (list_len (size (nodes s)) l) Q s.
Proof.
  intros Hd HQ. destruct (dlist_first l xs s Hd) as (n & rest & E & Hn & Hc & Hnin).
  apply wp_bind. eapply wp_rd_next; [exact Hn|].
  eapply (list_len_loop l s _ xs n rest 0); try done. by eapply dlist_length.
Qed.

Lemma list_traversal_spec l xs f func arg s (Q : Z -> lmem -> Prop) :
  dlist (nodes s) l xs -> (forall x, func x arg s = Done (f x, s)) ->
  Q (first_hit f xs) s -> wp (list_traversal (size (nodes s)) l func arg) Q s.
Proof.
  intros Hd Hf HQ. destruct (dlist_first l xs s Hd) as (n & rest & E & Hn & Hc & Hnin).
  apply wp_bind. eapply wp_rd_next; [exact Hn|].
  apply wp_bind. eapply list_empty_spec; [done|]. case_bool_decide as Hx.
  - subst xs. by apply wp_ret.
  - eapply traversal_loop; try done. by eapply dlist_length.
Qed.

(** ** The abstract queue and the simulation *)

(** What the rest of the kernel does with a list. *)
Inductive lop : Type :=
  | Push (e : Z) | Append (e : Z) | Remove (e : Z) | Pop
  | Empty | Find (e : Z) | Len.

Definition exec_op (l : Z) (o : lop) : M lmem Z :=
  let! fuel := gets (fun s => size (nodes s)) in
  match o with
  | Push e => list_push l e ;;; ret 0
  | Append e => list_append l e ;;; ret 0
  | Remove e => list_remove e ;;; ret 0
  | Pop => list_pop l
  | Empty => let! b := list_empty l in ret (Z.b2z b)
  | Find e => let! b := elem_find fuel l e in ret (Z.b2z b)
  | Len => list_len fuel l
  end.

Fixpoint exec_ops (l : Z) (os : list lop) : M lmem (list Z) :=
  match os with
  | [] => ret []
  | o :: os => let! r := exec_op l o in let! rs := exec_ops l os in ret (r :: rs)
  end.

(** The contract: a sequence of distinct elements.  [None]: the caller broke
    the contract (inserting an element that is already in the list, or no
    element at all; removing from where it is not; popping an empty list). *)
Definition abs_op (D : gset Z) (l : Z) (o : lop) (xs : list Z) : option (Z * list Z) :=
  match o with
  | Push e => if decide (e ∈ D /\ e ∉ head_of l :: xs ++ [tail_of l])
              then Some (0, e :: xs) else None
  | Append e => if decide (e ∈ D /\ e ∉ head_of l :: xs ++ [tail_of l])
                then Some (0, xs ++ [e]) else None
  | Remove e => if decide (e ∈ xs) then Some (0, filter (fun x => x <> e) xs) else None
  | Pop => match xs with x :: xs => Some (x, xs) | [] => None end
  | Empty => Some (Z.b2z (bool_decide (xs = [])), xs)
  | Find e => Some (Z.b2z (bool_decide (e ∈ xs)), xs)
  | Len => Some (u32 (Z.of_nat (length xs)), xs)
  end.

Fixpoint abs_ops (D : gset Z) (l : Z) (os : list lop) (xs : list Z) : option (list Z * list Z) :=
  match os with
  | [] => Some ([], xs)
  | o :: os =>
      match abs_op D l o xs with
      | None => None
      | Some (r, xs) =>
          match abs_ops D l os xs with
          | None => None
          | Some (rs, xs) => Some (r :: rs, xs)
          end
      end
  end.

(** The simulation relation: the nodes in [D] are mapped and the list at [l]
    represents [xs]. *)
Definition lrel (D : gset Z) (l : Z) (xs : list Z) (s : lmem) : Prop :=
  dlist (nodes s) l xs /\ forall x, x ∈ D -> is_Some (nodes s !! x).

Lemma is_Some_nxt m m' x : nxt m' x = nxt m x -> is_Some (m !! x) -> is_Some (m' !! x).
Proof. unfold nxt. destruct (m !! x), (m' !! x); naive_solver. Qed.

Lemma dlist_mapped l xs m x :
  dlist m l xs -> x ∈ head_of l :: xs ++ [tail_of l] -> is_Some (m !! x).
Proof.
  intros [Hc _] [->|Hx]%elem_of_cons; [|by eapply chain_mapped].
  destruct xs; eapply nxt_dom; apply Hc.
Qed.

(** The nodes an operation may touch are, before it, on the list or the element
    itself; afterwards everything in [D] is still mapped. *)
Lemma lrel_after D l xs xs' P s s' :
  lrel D l xs s -> dlist (nodes s') l xs' -> same_outside P s s' ->
  (forall x, P x -> x ∈ head_of l :: xs' ++ [tail_of l] \/ is_Some (nodes s' !! x)) ->
  lrel D l xs' s' /\ lm_eflags s' = lm_eflags s.
Proof.
  intros [Hd HD] Hd' [Hfl Hs] HP. split; [|done]. split; [done|]. intros x Hx.
  destruct (decide (is_Some (nodes s' !! x))) as [|Hno]; [done|].
  eapply is_Some_nxt; [apply Hs|by apply HD]. intros Hpx.
  destruct (HP x Hpx) as [Hin|]; [|done]. by apply Hno, (dlist_mapped l xs').
Qed.

Lemma filter_notin (e : Z) (p : list Z) : e ∉ p -> filter (fun x => x <> e) p = p.
Proof.
  induction p as [|x p IH]; intros Hp; [done|].
  rewrite filter_cons_True by set_solver. f_equal. apply IH. set_solver.
Qed.

Lemma filter_split (e : Z) (p q : list Z) :
  e ∉ p -> e ∉ q -> filter (fun x => x <> e) (p ++ e :: q) = p ++ q.
Proof.
  intros Hp Hq. rewrite filter_app, filter_cons_False by naive_solver.
  by rewrite !filter_notin.
Qed.

Lemma exec_op_sim D l o xs r xs' s :
  lrel D l xs s -> abs_op D l o xs = Some (r, xs') ->
  wp (exec_op l o) (fun r' s' => r' = r /\ lrel D l xs' s' /\ lm_eflags s' = lm_eflags s) s.
Proof.
  intros Hrel Habs. pose proof Hrel as [Hd HD]. unfold exec_op. apply wp_bind, wp_gets.
  destruct o; cbn [abs_op] in Habs;
    [case_decide as H; [|done]..| | | |]; try injection Habs as <- <-.
  - destruct_and!. apply wp_bind. eapply wp_mono; [by apply list_push_spec; auto|].
    cbn beta. intros _ s' [Hd' Hs]. apply wp_ret. split; [done|].
    eapply lrel_after; try done. intros x Hx. set_solver.
  - destruct_and!. apply wp_bind. eapply wp_mono; [by apply list_append_spec; auto|].
    cbn beta. intros _ s' [Hd' Hs]. apply wp_ret. split; [done|].
    eapply lrel_after; try done. intros x Hx. set_solver.
  - apply list_elem_of_split in H as (p & q & ->).
    assert (e ∉ p /\ e ∉ q) as [Hp Hq].
    { destruct Hd as [_ Hnd]. apply NoDup_cons in Hnd as [_ Hnd].
      apply NoDup_app in Hnd as (Hnd & _). rewrite <- Permutation_middle in Hnd.
      apply NoDup_cons in Hnd as [Hnd _]. set_solver. }
    apply wp_bind. eapply wp_mono; [by apply list_remove_spec|].
    cbn beta. intros _ s' (Hd' & Hs & _). apply wp_ret. split; [done|].
    rewrite filter_split by done. eapply lrel_after; try done. intros x Hx.
    rewrite <- app_assoc. by left.
  - destruct xs as [|x xs]; [done|]. injection Habs as <- <-.
    eapply wp_mono; [by apply list_pop_spec|]. cbn beta. intros ? s' (-> & Hd' & Hs & _).
    split; [done|]. eapply lrel_after; try done. intros y Hy. by left.
  - apply wp_bind. eapply list_empty_spec; [done|]. by apply wp_ret.
  - apply wp_bind. eapply elem_find_spec; [done|]. by apply wp_ret.
  - by eapply list_len_spec.
Qed.

(** C17: Every sequence of list operations that respects the contract runs
    without fault on the pointer representation, returns what the abstract
    sequence returns (insertion at either end, removal from the middle, pop,
    emptiness, membership, length), leaves the nodes representing the abstract
    result, and restores the interrupt flag. *)
Theorem list_simulation D l os xs rs xs' s :
  lrel D l xs s -> abs_ops D l os xs = Some (rs, xs') ->
  wp (exec_ops l os) (fun rs' s' => rs' = rs /\ lrel D l xs' s' /\ lm_eflags s' = lm_eflags s) s.
Proof.
  revert xs rs xs' s. induction os as [|o os IH]; intros xs rs xs' s Hrel Habs; cbn in Habs.
  - injection Habs as <- <-. by apply wp_ret.
  - destruct (abs_op D l o xs) as [[r xs1]|] eqn:E1; [|done].
    destruct (abs_ops D l os xs1) as [[rs1 xs2]|] eqn:E2; [|done]. injection Habs as <- <-.
    cbn [exec_ops]. apply wp_bind. eapply wp_mono; [by eapply exec_op_sim|].
    cbn beta. intros r' s1 (-> & Hrel1 & Hfl1).
    apply wp_bind. eapply wp_mono; [by eapply IH|].
    cbn beta. intros rs' s2 (-> & Hrel2 & Hfl2). apply wp_ret. split_and!; [done|done|congruence].
Qed.

Definition demo_lmem : lmem :=
  mk_lmem 512 (list_to_map [(100, mk_elem 0 108); (108, mk_elem 100 0);
                            (200, mk_elem 7 7); (300, mk_elem 7 7); (400, mk_elem 7 7)]).

Lemma list_simulation_witness :
  wp (exec_ops 100 [Append 200; Append 300; Push 400; Remove 200; Len; Find 300; Pop; Empty])
    (fun rs s' => rs = [0; 0; 0; 0; 2; 1; 400; 0] /\
      lrel {[200; 300; 400]} 100 [300] s' /\ lm_eflags s' = 512) demo_lmem.
Proof.
  apply (list_simulation {[200; 300; 400]} 100
    [Append 200; Append 300; Push 400; Remove 200; Len; Find 300; Pop; Empty]
    [] [0; 0; 0; 0; 2; 1; 400; 0] [300] demo_lmem).
  - split.
    + split; [done|]. by apply (bool_decide_unpack _).
    + intros x Hx. assert (x = 200 \/ x = 300 \/ x = 400) as Hx' by set_solver.
      destruct Hx' as [->|[->| ->]]; eauto.
  - reflexivity.
Defined.
