(* ===== verification/Cstring.v ===== *)
(** * Cstring: [lib/string.c]

    Byte memory is a finite map from addresses to bytes (0..255); every access
    outside it is a page fault.  [char] is gcc's signed char, so comparisons of
    characters go through [i8].  Loops that search for a terminator run on a
    fuel of one more than the number of mapped bytes, which they cannot exceed
    without leaving the mapped memory. *)

From stdpp Require Import base numbers list gmap.
From S2P Require Import Prelude.

Local Open Scope Z_scope.
Local Open Scope kernel_scope.

Abbreviation mem := (gmap Z Z).

(** [assert(cond)] of [lib/user/assert.h] spins when it fails. *)
Definition load (m : mem) (a : Z) : outcome Z := oget (m !! a) Page_fault.
Definition store (m : mem) (a v : Z) : outcome mem :=
  olet _ := load m a in Done (<[a := u8 v]> m).

(** ** Block operations *)
Fixpoint memset_loop (m : mem) (dst value : Z) (size : nat) : outcome mem :=
  match size with
  | O => Done m
  | S size => olet m := store m dst value in memset_loop m (dst + 1) value size
  end.
Definition memset (m : mem) (dst_ value size : Z) : outcome mem :=
  ASSERT (negb (dst_ =? 0)) in memset_loop m dst_ (u8 value) (Z.to_nat size).

Fixpoint memcpy_loop (m : mem) (dst src : Z) (size : nat) : outcome mem :=
  match size with
  | O => Done m
  | S size =>
      olet b := load m src in
      olet m := store m dst b in
      memcpy_loop m (dst + 1) (src + 1) size
  end.
Definition memcpy (m : mem) (dst_ src_ size : Z) : outcome mem :=
  ASSERT (negb (dst_ =? 0) && negb (src_ =? 0)) in memcpy_loop m dst_ src_ (Z.to_nat size).

Fixpoint memcmp_loop (m : mem) (a b : Z) (size : nat) : outcome Z :=
  match size with
  | O => Done 0
  | S size =>
      olet x := load m a in
      olet y := load m b in
      if negb (i8 x =? i8 y) then Done (if i8 y <? i8 x then 1 else -1)
      else memcmp_loop m (a + 1) (b + 1) size
  end.
Definition memcmp (m : mem) (a_ b_ size : Z) : outcome Z :=
  ASSERT (negb (a_ =? 0) || negb (b_ =? 0)) in memcmp_loop m a_ b_ (Z.to_nat size).

(** ** Strings *)
Fixpoint strcpy_loop (fuel : nat) (m : mem) (dst src : Z) : outcome mem :=
  match fuel with
  | O => Halt Out_of_fuel
  | S fuel =>
      olet c := load m src in
      olet m := store m dst c in
      if c =? 0 then Done m else strcpy_loop fuel m (dst + 1) (src + 1)
  end.
Definition strcpy (m : mem) (dst_ src_ : Z) : outcome (mem * Z) :=
  ASSERT (negb (dst_ =? 0) && negb (src_ =? 0)) in
  olet m' := strcpy_loop (S (size m)) m dst_ src_ in Done (m', dst_).

(** The empty loop on [p++] leaves [p] one past the terminator. *)
Fixpoint skip_string (fuel : nat) (m : mem) (p : Z) : outcome Z :=
  match fuel with
  | O => Halt Out_of_fuel
  | S fuel =>
      olet c := load m p in
      if c =? 0 then Done (p + 1) else skip_string fuel m (p + 1)
  end.
Definition strlen (m : mem) (str : Z) : outcome Z :=
  ASSERT (negb (str =? 0)) in
  olet p := skip_string (S (size m)) m str in Done (u32 (p - str - 1)).

Fixpoint strcmp_loop (fuel : nat) (m : mem) (a b : Z) : outcome Z :=
  match fuel with
  | O => Halt Out_of_fuel
  | S fuel =>
      olet x := load m a in
      if x =? 0 then
        olet y := load m b in
        Done (if i8 x <? i8 y then -1 else Z.b2z (i8 y <? i8 x))
      else
        olet y := load m b in
        if i8 x =? i8 y then strcmp_loop fuel m (a + 1) (b + 1)
        else Done (if i8 x <? i8 y then -1 else Z.b2z (i8 y <? i8 x))
  end.
Definition strcmp (m : mem) (a b : Z) : outcome Z :=
  ASSERT (negb (a =? 0) && negb (b =? 0)) in strcmp_loop (S (size m)) m a b.

Fixpoint strchr_loop (fuel : nat) (m : mem) (str ch : Z) : outcome Z :=
  match fuel with
  | O => Halt Out_of_fuel
  | S fuel =>
      olet c := load m str in
      if c =? 0 then Done 0
      else if i8 c =? ch then Done str
      else strchr_loop fuel m (str + 1) ch
  end.
Definition strchr (m : mem) (str ch : Z) : outcome Z :=
  ASSERT (negb (str =? 0)) in strchr_loop (S (size m)) m str (u8 ch).

Fixpoint strrchr_loop (fuel : nat) (m : mem) (str ch last_char : Z) : outcome Z :=
  match fuel with
  | O => Halt Out_of_fuel
  | S fuel =>
      olet c := load m str in
      if c =? 0 then Done last_char
      else strrchr_loop fuel m (str + 1) ch (if i8 c =? ch then str else last_char)
  end.
Definition strrchr (m : mem) (str ch : Z) : outcome Z :=
  ASSERT (negb (str =? 0)) in strrchr_loop (S (size m)) m str (u8 ch) 0.

Definition strcat (m : mem) (dst_ src_ : Z) : outcome (mem * Z) :=
  ASSERT (negb (dst_ =? 0) && negb (src_ =? 0)) in
  olet p := skip_string (S (size m)) m dst_ in
  olet m' := strcpy_loop (S (size m)) m (p - 1) src_ in Done (m', dst_).

Fixpoint strchrs_loop (fuel : nat) (m : mem) (p ch ch_cnt : Z) : outcome Z :=
  match fuel with
  | O => Halt Out_of_fuel
  | S fuel =>
      olet c := load m p in
      if c =? 0 then Done ch_cnt
      else strchrs_loop fuel m (p + 1) ch (if i8 c =? ch then u32 (ch_cnt + 1) else ch_cnt)
  end.
Definition strchrs (m : mem) (str ch : Z) : outcome Z :=
  ASSERT (negb (str =? 0)) in strchrs_loop (S (size m)) m str (u8 ch) 0.

(** ** Memory predicates *)

(** The bytes [l] from address [a]. *)
Fixpoint bytes_at (m : mem) (a : Z) (l : list Z) : Prop :=
  match l with
  | [] => True
  | b :: l => m !! a = Some b /\ bytes_at m (a + 1) l
  end.

(** A C string [s]: non-zero bytes followed by a terminator. *)
Definition is_char (c : Z) : Prop := 0 < c < 256.
Definition cstr (m : mem) (a : Z) (s : list Z) : Prop :=
  bytes_at m a (s ++ [0]) /\ Forall is_char s.

(** Outside [[a, a + n)] the two memories agree. *)
Definition same_except (a n : Z) (m m' : mem) : Prop :=
  forall x, ~ (a <= x < a + n) -> m' !! x = m !! x.

Lemma bytes_at_app m a l1 l2 :
  bytes_at m a (l1 ++ l2) <-> bytes_at m a l1 /\ bytes_at m (a + Z.of_nat (length l1)) l2.
Proof.
  revert a. induction l1 as [|b l1 IH]; intros a; cbn [bytes_at app length].
  - rewrite Z.add_0_r. tauto.
  - rewrite IH. replace (a + 1 + Z.of_nat (length l1)) with (a + Z.of_nat (S (length l1))) by lia.
    tauto.
Qed.

Lemma bytes_at_frame m m' a l :
  (forall x, a <= x < a + Z.of_nat (length l) -> m' !! x = m !! x) ->
  bytes_at m a l -> bytes_at m' a l.
Proof.
  revert a. induction l as [|b l IH]; intros a Hs; [done|]. cbn [bytes_at length] in *.
  intros [H1 H2]. split.
  - rewrite Hs; [done|lia].
  - apply IH; [|done]. intros x Hx. apply Hs. lia.
Qed.

Lemma bytes_at_size m a l : bytes_at m a l -> (length l <= size m)%nat.
Proof.
  intros H. set (ks := (fun i : nat => a + Z.of_nat i) <$> seq 0 (length l)).
  assert (NoDup ks) as Hnd.
  { apply NoDup_fmap_2; [intros i j Hij; lia|apply NoDup_seq]. }
  assert (list_to_set ks ⊆ dom m) as Hsub.
  { intros x. rewrite elem_of_list_to_set, elem_of_dom. unfold ks.
    intros (i & -> & Hi%elem_of_seq)%list_elem_of_fmap.
    clear ks Hnd. revert a i H Hi. induction l as [|b l IH]; intros a i H Hi; cbn in Hi; [lia|].
    destruct H as [H1 H2]. destruct i as [|i]; [rewrite Z.add_0_r; eauto|].
    replace (a + Z.of_nat (S i)) with (a + 1 + Z.of_nat i) by lia. apply IH; [done|lia]. }
  apply subseteq_size in Hsub. rewrite size_list_to_set in Hsub by done.
  unfold ks in Hsub. by rewrite length_fmap, length_seq, size_dom in Hsub.
Qed.

Lemma cstr_size m a s : cstr m a s -> (length s < size m)%nat.
Proof. intros [H _]. apply bytes_at_size in H. rewrite length_app in H. cbn in H. lia. Qed.

Lemma cstr_nil m a : cstr m a [] <-> m !! a = Some 0.
Proof. unfold cstr. cbn. split; [tauto|]. intros. by repeat constructor. Qed.

Lemma cstr_cons m a c s : cstr m a (c :: s) <-> m !! a = Some c /\ is_char c /\ cstr m (a + 1) s.
Proof. unfold cstr. cbn. rewrite Forall_cons. tauto. Qed.

Lemma cstr_frame m m' a s :
  (forall x, a <= x <= a + Z.of_nat (length s) -> m' !! x = m !! x) ->
  cstr m a s -> cstr m' a s.
Proof.
  intros Hs [H1 H2]. split; [|done]. eapply bytes_at_frame; [|done].
  intros x Hx. apply Hs. rewrite length_app in Hx. cbn in Hx. lia.
Qed.

Lemma char_eqb0 c : is_char c -> (c =? 0) = false.
Proof. intros []. apply Z.eqb_neq. lia. Qed.

Lemma load_eq m a c : m !! a = Some c -> load m a = Done c.
Proof. unfold load. by intros ->. Qed.

Lemma store_eq m a v : is_Some (m !! a) -> store m a v = Done (<[a := u8 v]> m).
Proof. intros [c Hc]. unfold store, load. by rewrite Hc. Qed.

(** [i8] is injective on bytes, so [==] on chars is equality of bytes. *)
Lemma i8_inj x y : is_u8 x -> is_u8 y -> i8 x = i8 y -> x = y.
Proof.
  unfold is_u8, i8. intros Hx Hy H.
  assert ((x + 128) mod 256 = (y + 128) mod 256) as H' by lia.
  pose proof (Z.div_mod (x + 128) 256). pose proof (Z.div_mod (y + 128) 256). lia.
Qed.

Lemma i8_ascii c : 0 <= c < 128 -> i8 c = c.
Proof. unfold i8. intros. rewrite Z.mod_small; lia. Qed.

Definition mapped (m : mem) (a n : Z) : Prop := forall x, a <= x < a + n -> is_Some (m !! x).

(** The byte ranges [[a, a+n)] and [[b, b+k)] do not meet. *)
Definition disjoint_ranges (a n b k : Z) : Prop := a + n <= b \/ b + k <= a.

Lemma same_except_insert a n (m : mem) x v :
  a <= x < a + n -> same_except a n m (<[x := v]> m).
Proof. intros Hx y Hy. rewrite lookup_insert_ne; [done|]. intros ->. done. Qed.

Lemma same_except_trans a n m1 m2 m3 :
  same_except a n m1 m2 -> same_except a n m2 m3 -> same_except a n m1 m3.
Proof. intros H1 H2 x Hx. by rewrite H2, H1. Qed.

Lemma same_except_weaken a n a' n' m m' :
  same_except a n m m' -> a' <= a -> a + n <= a' + n' -> same_except a' n' m m'.
Proof. intros H ?? x Hx. apply H. lia. Qed.

Lemma mapped_insert m a n x v : mapped m a n -> mapped (<[x := v]> m) a n.
Proof. intros H y Hy. rewrite lookup_insert. case_decide; eauto. Qed.

(** One byte written at [a], then [n - 1] more after it. *)
Lemma same_except_step a n v m m' n' :
  same_except (a + 1) n' (<[a := v]> m) m' -> 0 <= n' -> n' + 1 <= n -> same_except a n m m'.
Proof.
  intros H ?? x Hx. rewrite H by lia. rewrite lookup_insert_ne; [done|lia].
Qed.

#[export] Hint Resolve same_except_trans mapped_insert : core.

Lemma memset_loop_spec v n : forall m a,
  mapped m a (Z.of_nat n) -> is_u8 v ->
  exists m', memset_loop m a v n = Done m' /\ bytes_at m' a (replicate n v) /\
    same_except a (Z.of_nat n) m m'.
Proof.
  induction n as [|n IH]; intros m a Hm Hv.
  - exists m. split_and!; [done|done|]. by intros x Hx.
  - cbn [memset_loop]. rewrite store_eq by (apply Hm; lia). cbn [obind].
    rewrite u8_id by done.
    destruct (IH (<[a := v]> m) (a + 1)) as (m' & E & Hb & Hs); [|done|].
    { intros x Hx. rewrite lookup_insert. case_decide; [eauto|]. apply Hm. lia. }
    exists m'. split_and!; [done| |].
    + cbn [replicate bytes_at]. split; [|done]. rewrite Hs by lia. apply lookup_insert_eq.
    + eapply same_except_step; [exact Hs|lia..].
Qed.

Lemma memcpy_loop_spec : forall l m dst src,
  bytes_at m src l -> Forall is_u8 l -> mapped m dst (Z.of_nat (length l)) ->
  (dst <= src \/ src + Z.of_nat (length l) <= dst) ->
  exists m', memcpy_loop m dst src (length l) = Done m' /\ bytes_at m' dst l /\
    same_except dst (Z.of_nat (length l)) m m'.
Proof.
  induction l as [|b l IH]; intros m dst src Hb Hu Hm Hd.
  - exists m. split_and!; [done|done|]. by intros x Hx.
  - cbn [length memcpy_loop bytes_at] in *. destruct Hb as [Hb0 Hb].
    apply Forall_cons in Hu as [Hu0 Hu].
    rewrite (load_eq _ _ b) by done. cbn [obind].
    rewrite store_eq by (apply Hm; lia). cbn [obind]. rewrite u8_id by done.
    destruct (IH (<[dst := b]> m) (dst + 1) (src + 1)) as (m' & E & Hb' & Hs); [|done| |lia|].
    { destruct (decide (dst = src)) as [->|].
      - by rewrite insert_id.
      - eapply bytes_at_frame; [|done]. intros x Hx. rewrite lookup_insert_ne; [done|lia]. }
    { apply mapped_insert. intros x Hx. apply Hm. lia. }
    exists m'. split; [done|split].
    + split; [|done]. rewrite Hs by lia. apply lookup_insert_eq.
    + eapply same_except_step; [exact Hs|lia..].
Qed.

Lemma skip_string_spec m : forall s a fuel,
  cstr m a s -> (length s < fuel)%nat ->
  skip_string fuel m a = Done (a + Z.of_nat (length s) + 1).
Proof.
  induction s as [|c s IH]; intros a fuel Hs Hf; (destruct fuel as [|fuel]; [lia|]); cbn [skip_string].
  - apply cstr_nil in Hs. rewrite (load_eq _ _ 0) by done. cbn. f_equal. lia.
  - apply cstr_cons in Hs as (H1 & Hc & Hs). rewrite (load_eq _ _ c) by done. cbn [obind].
    rewrite char_eqb0 by done. rewrite IH by (cbn in Hf; auto with lia). f_equal. cbn [length]. lia.
Qed.

Lemma strlen_spec m a s :
  cstr m a s -> a <> 0 -> Z.of_nat (length s) < 4294967296 ->
  strlen m a = Done (Z.of_nat (length s)).
Proof.
  intros Hs Ha Hl. unfold strlen. rewrite (proj2 (Z.eqb_neq a 0)) by done. cbn [negb oassert obind].
  rewrite (skip_string_spec m s) by (try done; apply cstr_size in Hs; lia). cbn [obind].
  rewrite u32_id; [f_equal; lia|unfold is_u32; lia].
Qed.

Lemma strcpy_loop_spec : forall s m dst src fuel,
  cstr m src s -> mapped m dst (Z.of_nat (length s) + 1) ->
  disjoint_ranges dst (Z.of_nat (length s) + 1) src (Z.of_nat (length s) + 1) ->
  (length s < fuel)%nat ->
  exists m', strcpy_loop fuel m dst src = Done m' /\ cstr m' dst s /\
    same_except dst (Z.of_nat (length s) + 1) m m'.
Proof.
  unfold disjoint_ranges.
  induction s as [|c s IH]; intros m dst src fuel Hs Hm Hd Hf;
    (destruct fuel as [|fuel]; [lia|]); cbn [strcpy_loop].
  - apply cstr_nil in Hs. rewrite (load_eq _ _ 0) by done. cbn [obind].
    rewrite store_eq by (apply Hm; cbn; lia). cbn.
    eexists. split_and!; [done| |apply same_except_insert; lia].
    apply cstr_nil, lookup_insert_eq.
  - apply cstr_cons in Hs as (H1 & Hc & Hs). cbn [length] in *.
    rewrite (load_eq _ _ c) by done. cbn [obind].
    rewrite store_eq by (apply Hm; lia). cbn [obind]. rewrite char_eqb0 by done.
    rewrite u8_id by (unfold is_char, is_u8 in *; lia).
    destruct (IH (<[dst := c]> m) (dst + 1) (src + 1) fuel) as (m' & E & Hs' & Hsame);
      [|intros x Hx; rewrite lookup_insert; case_decide; [eauto|apply Hm; lia]|lia|lia|].
    { eapply cstr_frame; [|done]. intros x Hx. rewrite lookup_insert_ne; [done|lia]. }
    exists m'. split_and!; [done| |].
    + apply cstr_cons. split_and!; [|done|done]. rewrite Hsame by lia. apply lookup_insert_eq.
    + eapply same_except_step; [exact Hsame|lia..].
Qed.

(** Reference comparison: lexicographic on signed chars, a proper prefix being
    compared through its terminator. *)
Fixpoint str_cmp (s t : list Z) : Z :=
  match s, t with
  | [], [] => 0
  | [], d :: _ => if 0 <? i8 d then -1 else 1
  | c :: _, [] => if i8 c <? 0 then -1 else 1
  | c :: s, d :: t => if c =? d then str_cmp s t else if i8 c <? i8 d then -1 else 1
  end.

Lemma i8_char_nonzero c : is_char c -> i8 c <> 0.
Proof.
  intros Hc H0. assert (i8 c = i8 0) as H by (rewrite H0; done).
  apply i8_inj in H; unfold is_char, is_u8 in *; lia.
Qed.

Lemma i8_eqb c d : is_char c -> is_char d -> (i8 c =? i8 d) = (c =? d).
Proof.
  intros Hc Hd. destruct (Z.eqb_spec c d) as [->|Hne]; [by rewrite Z.eqb_refl|].
  apply Z.eqb_neq. intros H. apply Hne, i8_inj; unfold is_char, is_u8 in *; (done || lia).
Qed.

Lemma strcmp_loop_spec m : forall s t a b fuel,
  cstr m a s -> cstr m b t -> (length s < fuel)%nat ->
  strcmp_loop fuel m a b = Done (str_cmp s t).
Proof.
  assert (i8 0 = 0) as E0 by done.
  induction s as [|c s IH]; intros t a b fuel Hs Ht Hf;
    (destruct fuel as [|fuel]; [lia|]); cbn [strcmp_loop].
  - apply cstr_nil in Hs. rewrite (load_eq _ _ 0) by done. cbn [obind Z.eqb].
    destruct t as [|d t].
    + apply cstr_nil in Ht. by rewrite (load_eq _ _ 0).
    + apply cstr_cons in Ht as (Hb & Hd & _). rewrite (load_eq _ _ d) by done. cbn [obind str_cmp].
      rewrite E0. pose proof (i8_char_nonzero d Hd).
      destruct (Z.ltb_spec 0 (i8 d)), (Z.ltb_spec (i8 d) 0); (done || lia).
  - apply cstr_cons in Hs as (Ha & Hc & Hs). rewrite (load_eq _ _ c) by done. cbn [obind].
    rewrite char_eqb0 by done. destruct t as [|d t].
    + apply cstr_nil in Ht. rewrite (load_eq _ _ 0) by done. cbn [obind str_cmp].
      rewrite E0. pose proof (i8_char_nonzero c Hc).
      rewrite (proj2 (Z.eqb_neq (i8 c) 0)) by done.
      destruct (Z.ltb_spec 0 (i8 c)), (Z.ltb_spec (i8 c) 0); (done || lia).
    + apply cstr_cons in Ht as (Hb & Hd & Ht). rewrite (load_eq _ _ d) by done. cbn [obind str_cmp].
      rewrite i8_eqb by done. destruct (Z.eqb_spec c d) as [->|Hne].
      * apply IH; [done|done|cbn in Hf; lia].
      * assert (i8 c <> i8 d) by (intros H; apply Hne, i8_inj; unfold is_char, is_u8 in *; (done || lia)).
        destruct (Z.ltb_spec (i8 c) (i8 d)), (Z.ltb_spec (i8 d) (i8 c)); (done || lia).
Qed.

Lemma str_cmp_eq s t : Forall is_char s -> Forall is_char t -> str_cmp s t = 0 <-> s = t.
Proof.
  revert t. induction s as [|c s IH]; intros [|d t] Hs Ht; cbn [str_cmp].
  - done.
  - split; [|done]. destruct (_ <? _); done.
  - split; [|done]. destruct (_ <? _); done.
  - apply Forall_cons in Hs as [Hc Hs]. apply Forall_cons in Ht as [Hd Ht].
    destruct (Z.eqb_spec c d) as [->|Hne].
    + rewrite IH by done. split; congruence.
    + split; [destruct (_ <? _); done|congruence].
Qed.

(** Address of the first (last) occurrence of the 7-bit character [ch]. *)
Fixpoint first_at (a ch : Z) (s : list Z) : Z :=
  match s with
  | [] => 0
  | c :: s => if c =? ch then a else first_at (a + 1) ch s
  end.
Fixpoint last_at (a ch dflt : Z) (s : list Z) : Z :=
  match s with
  | [] => dflt
  | c :: s => last_at (a + 1) ch (if c =? ch then a else dflt) s
  end.

Lemma i8_eqb_ascii c ch : is_char c -> 0 < ch < 128 -> (i8 c =? ch) = (c =? ch).
Proof.
  intros Hc Hch. rewrite <- (i8_ascii ch) at 1 by lia. apply i8_eqb; [done|unfold is_char; lia].
Qed.

Lemma strchr_loop_spec m ch : 0 < ch < 128 -> forall s a fuel,
  cstr m a s -> (length s < fuel)%nat -> strchr_loop fuel m a ch = Done (first_at a ch s).
Proof.
  intros Hch. induction s as [|c s IH]; intros a fuel Hs Hf;
    (destruct fuel as [|fuel]; [lia|]); cbn [strchr_loop first_at].
  - apply cstr_nil in Hs. by rewrite (load_eq _ _ 0).
  - apply cstr_cons in Hs as (Ha & Hc & Hs). rewrite (load_eq _ _ c) by done. cbn [obind].
    rewrite char_eqb0, i8_eqb_ascii by done. destruct (c =? ch); [done|].
    apply IH; [done|cbn in Hf; lia].
Qed.

Lemma strrchr_loop_spec m ch : 0 < ch < 128 -> forall s a fuel dflt,
  cstr m a s -> (length s < fuel)%nat -> strrchr_loop fuel m a ch dflt = Done (last_at a ch dflt s).
Proof.
  intros Hch. induction s as [|c s IH]; intros a fuel dflt Hs Hf;
    (destruct fuel as [|fuel]; [lia|]); cbn [strrchr_loop last_at].
  - apply cstr_nil in Hs. by rewrite (load_eq _ _ 0).
  - apply cstr_cons in Hs as (Ha & Hc & Hs). rewrite (load_eq _ _ c) by done. cbn [obind].
    rewrite char_eqb0, i8_eqb_ascii by done. apply IH; [done|cbn in Hf; lia].
Qed.

Lemma strcat_spec m dst src s t :
  dst <> 0 -> src <> 0 -> cstr m dst s -> cstr m src t ->
  mapped m (dst + Z.of_nat (length s)) (Z.of_nat (length t) + 1) ->
  disjoint_ranges dst (Z.of_nat (length s + length t) + 1) src (Z.of_nat (length t) + 1) ->
  exists m', strcat m dst src = Done (m', dst) /\ cstr m' dst (s ++ t) /\
    same_except (dst + Z.of_nat (length s)) (Z.of_nat (length t) + 1) m m'.
Proof.
  intros Hd0 Hs0 Hs Ht Hm Hd. unfold strcat, disjoint_ranges in *.
  rewrite (proj2 (Z.eqb_neq dst 0)), (proj2 (Z.eqb_neq src 0)) by done. cbn [negb andb oassert obind].
  pose proof (cstr_size _ _ _ Hs). pose proof (cstr_size _ _ _ Ht).
  rewrite (skip_string_spec m s) by (done || lia). cbn [obind].
  replace (dst + Z.of_nat (length s) + 1 - 1) with (dst + Z.of_nat (length s)) by lia.
  destruct (strcpy_loop_spec t m (dst + Z.of_nat (length s)) src (S (size m)))
    as (m' & E & Ht' & Hsame); [done|done|unfold disjoint_ranges; lia|lia|].
  rewrite E. cbn [obind]. exists m'. split_and!; [done| |done].
  destruct Ht' as [Ht1 Ht2]. destruct Hs as [Hs1 Hs2]. split.
  - rewrite <- app_assoc. apply bytes_at_app. split; [|done].
    apply bytes_at_app in Hs1 as [Hs1 _]. eapply bytes_at_frame; [|done].
    intros x Hx. apply Hsame. lia.
  - by apply Forall_app.
Qed.

(** ** Correctness *)

(** [strcmp] on two C strings returns, and its result is the lexicographic
    comparison of their signed characters; in particular it is 0 exactly when
    the strings are equal, which is what every name lookup of the file system
    and the shell relies on. *)
Theorem strcmp_correct m a b s t :
  a <> 0 -> b <> 0 -> cstr m a s -> cstr m b t ->
  exists r, strcmp m a b = Done r /\ r = str_cmp s t /\ (r = 0 <-> s = t).
Proof.
  intros Ha Hb Hs Ht. exists (str_cmp s t). unfold strcmp.
  rewrite (proj2 (Z.eqb_neq a 0)), (proj2 (Z.eqb_neq b 0)) by done. cbn [negb andb oassert obind].
  split_and!; [|done|].
  - apply strcmp_loop_spec; [done|done|]. apply cstr_size in Hs. lia.
  - apply str_cmp_eq; [apply Hs|apply Ht].
Qed.

Definition demo_mem : mem :=
  list_to_map (zip (seqZ 16 12) [97; 98; 0; 97; 99; 0; 200; 0; 0; 0; 0; 0]).

Lemma strcmp_correct_witness :
  exists r, strcmp demo_mem 16 19 = Done r /\ r = -1 /\ (r = 0 <-> [97; 98] = [97; 99]).
Proof.
  apply (strcmp_correct demo_mem 16 19 [97; 98] [97; 99]); [lia|lia| |];
    (split; [repeat split; reflexivity|repeat constructor; unfold is_char; lia]).
Defined.

(** A character of 128 or more is never found: [*str] is a signed [char] while
    [ch] is a [uint8_t], so the two sides of [*str == ch] never meet. *)
Lemma strchr_misses_high_chars m ch : 128 <= ch < 256 -> forall s a fuel,
  cstr m a s -> (length s < fuel)%nat -> strchr_loop fuel m a ch = Done 0.
Proof.
  intros Hch. induction s as [|c s IH]; intros a fuel Hs Hf;
    (destruct fuel as [|fuel]; [lia|]); cbn [strchr_loop].
  - apply cstr_nil in Hs. by rewrite (load_eq _ _ 0).
  - apply cstr_cons in Hs as (Ha & Hc & Hs). rewrite (load_eq _ _ c) by done. cbn [obind].
    rewrite char_eqb0 by done.
    assert (i8 c < 128) by (unfold i8; pose proof (Z.mod_pos_bound (c + 128) 256); lia).
    rewrite (proj2 (Z.eqb_neq (i8 c) ch)) by lia. apply IH; [done|cbn in Hf; lia].
Qed.

Example strchr_misses_200 : strchr demo_mem 22 200 = Done 0 /\ demo_mem !! 22 = Some 200.
Proof. done. Qed.
