(* ===== verification/Stdio.v ===== *)
(** * Stdio: number and format conversion ([lib/stdio.c]) *)

From stdpp Require Import base numbers list gmap.
From S2P Require Import Prelude Cstring.

Local Open Scope Z_scope.
Local Open Scope kernel_scope.

(** [itoa]: the recursion writes the higher digits first.  The depth is the
    number of digits, at most 32 for a [uint32_t] in base 2 or more; a base of
    0 would divide by zero. *)
Definition digit_char (m : Z) : Z := if m <? 10 then m + 48 else m - 10 + 65.

Fixpoint itoa (fuel : nat) (mm : mem) (value buf base : Z) : outcome (mem * Z) :=
  match fuel with
  | O => Halt Out_of_fuel
  | S fuel =>
      if base =? 0 then Halt Panicked else
      let m := value mod base in
      let i := value / base in
      olet (mm, buf) := (if negb (i =? 0) then itoa fuel mm i buf base else Done (mm, buf)) in
      olet mm := store mm buf (digit_char m) in
      Done (mm, buf + 1)
  end.

Definition itoa_fuel : nat := 33.

(** The [%d] case: a negative number is negated (in [int32_t]) after its sign. *)
Definition put_sign (mm : mem) (buf_ptr arg_int : Z) : outcome (mem * Z * Z) :=
  if arg_int <? 0
  then olet mm := store mm buf_ptr 45 in Done (mm, buf_ptr + 1, i32 (0 - arg_int))
  else Done (mm, buf_ptr, arg_int).

(** [vsprintf]: [ap] is the list of the 32-bit argument words that follow the
    format on the stack.  Reading an argument past the last one given reads
    whatever is on the stack; it is a fault here. *)
Fixpoint vsprintf_loop (fuel : nat) (mm : mem) (buf_ptr index_ptr index_char : Z) (ap : list Z)
    : outcome (mem * Z) :=
  match fuel with
  | O => Halt Out_of_fuel
  | S fuel =>
      if index_char =? 0 then Done (mm, buf_ptr) else
      if negb (index_char =? 37) then
        olet mm := store mm buf_ptr index_char in
        olet c := load mm (index_ptr + 1) in
        vsprintf_loop fuel mm (buf_ptr + 1) (index_ptr + 1) c ap
      else
        let index_ptr := index_ptr + 1 in
        olet index_char := load mm index_ptr in
        if index_char =? 115 (* s *) then
          match ap with
          | [] => Halt Out_of_bounds
          | arg_str :: ap =>
              olet (mm, _) := strcpy mm buf_ptr arg_str in
              olet n := strlen mm arg_str in
              olet c := load mm (index_ptr + 1) in
              vsprintf_loop fuel mm (buf_ptr + n) (index_ptr + 1) c ap
          end
        else if index_char =? 99 (* c *) then
          match ap with
          | [] => Halt Out_of_bounds
          | arg :: ap =>
              olet mm := store mm buf_ptr arg in
              olet c := load mm (index_ptr + 1) in
              vsprintf_loop fuel mm (buf_ptr + 1) (index_ptr + 1) c ap
          end
        else if index_char =? 100 (* d *) then
          match ap with
          | [] => Halt Out_of_bounds
          | arg :: ap =>
              let arg_int := i32 arg in
              olet (mm, buf_ptr, arg_int) := put_sign mm buf_ptr arg_int in
              olet (mm, buf_ptr) := itoa itoa_fuel mm (u32 arg_int) buf_ptr 10 in
              olet c := load mm (index_ptr + 1) in
              vsprintf_loop fuel mm buf_ptr (index_ptr + 1) c ap
          end
        else if index_char =? 120 (* x *) then
          match ap with
          | [] => Halt Out_of_bounds
          | arg :: ap =>
              olet (mm, buf_ptr) := itoa itoa_fuel mm (u32 arg) buf_ptr 16 in
              olet c := load mm (index_ptr + 1) in
              vsprintf_loop fuel mm buf_ptr (index_ptr + 1) c ap
          end
        else (* no case of the switch: the character after % is seen again *)
          vsprintf_loop fuel mm buf_ptr index_ptr index_char ap
  end.

(** Two iterations per format character are enough. *)
Definition vsprintf (mm : mem) (str format : Z) (ap : list Z) : outcome (mem * Z) :=
  olet c := load mm format in
  olet (mm, _) := vsprintf_loop (2 * size mm) mm str format c ap in
  olet n := strlen mm str in
  Done (mm, n).

(** [sprintf]: the same, the arguments being those of the call. *)
Definition sprintf (mm : mem) (buf format : Z) (args : list Z) : outcome (mem * Z) :=
  vsprintf mm buf format args.

(** ** Reference: the digits of a number *)
Fixpoint digits (fuel : nat) (value base : Z) : list Z :=
  match fuel with
  | O => []
  | S fuel =>
      (if value / base =? 0 then [] else digits fuel (value / base) base)
      ++ [digit_char (value mod base)]
  end.

Definition undigit (c : Z) : Z := if c <? 65 then c - 48 else c - 65 + 10.
Definition parse (base : Z) (ds : list Z) : Z :=
  fold_left (fun acc c => acc * base + undigit c) ds 0.

Lemma parse_snoc base ds c : parse base (ds ++ [c]) = parse base ds * base + undigit c.
Proof. unfold parse. by rewrite fold_left_app. Qed.

Lemma undigit_digit m : 0 <= m -> undigit (digit_char m) = m.
Proof.
  unfold undigit, digit_char. intros Hm.
  destruct (Z.ltb_spec m 10);
    match goal with |- context [?x <? 65] => destruct (Z.ltb_spec x 65) end; lia.
Qed.

Lemma parse_digits base : 2 <= base -> forall fuel v,
  0 <= v < base ^ Z.of_nat fuel -> parse base (digits fuel v base) = v.
Proof.
  intros Hb. induction fuel as [|fuel IH]; intros v Hv; cbn [digits].
  - cbn in Hv. assert (v = 0) as -> by lia. done.
  - rewrite parse_snoc, undigit_digit by (apply Z.mod_pos_bound; lia).
    pose proof (Z.div_mod v base ltac:(lia)).
    destruct (Z.eqb_spec (v / base) 0) as [E|E].
    + rewrite E in *. cbn. lia.
    + rewrite IH; [lia|]. split; [apply Z.div_pos; lia|].
      apply Z.div_lt_upper_bound; [lia|].
      rewrite Nat2Z.inj_succ, Z.pow_succ_r in Hv by lia. lia.
Qed.

Lemma digit_char_char m : 0 <= m < 36 -> is_char (digit_char m).
Proof. unfold digit_char, is_char. destruct (Z.ltb_spec m 10); lia. Qed.

Lemma digits_chars base fuel : 2 <= base <= 16 -> forall v, 0 <= v ->
  Forall is_char (digits fuel v base).
Proof.
  intros Hb. induction fuel as [|fuel IH]; intros v Hv; cbn [digits]; [done|].
  apply Forall_app. split.
  - destruct (_ =? 0); [done|]. apply IH. apply Z.div_pos; lia.
  - apply Forall_singleton, digit_char_char. pose proof (Z.mod_pos_bound v base). lia.
Qed.

Lemma digits_length base fuel v : (length (digits fuel v base) <= fuel)%nat.
Proof.
  revert v. induction fuel as [|fuel IH]; intros v; cbn [digits]; [done|].
  rewrite length_app. cbn. destruct (_ =? 0); cbn; [lia|]. specialize (IH (v / base)). lia.
Qed.

(** [itoa] writes exactly the digits. *)
Lemma itoa_spec base : 2 <= base <= 16 -> forall fuel v mm buf,
  0 <= v < base ^ Z.of_nat fuel -> (0 < fuel)%nat ->
  mapped mm buf (Z.of_nat (length (digits fuel v base))) ->
  exists mm', itoa fuel mm v buf base
      = Done (mm', buf + Z.of_nat (length (digits fuel v base))) /\
    bytes_at mm' buf (digits fuel v base) /\
    same_except buf (Z.of_nat (length (digits fuel v base))) mm mm'.
Proof.
  intros Hb. induction fuel as [|fuel IH]; intros v mm buf Hv Hf Hm; [lia|].
  cbn [itoa digits] in *. rewrite (proj2 (Z.eqb_neq base 0)) by lia.
  set (d := digit_char (v mod base)) in *.
  assert (is_char d) as Hd.
  { apply digit_char_char. pose proof (Z.mod_pos_bound v base). lia. }
  assert (u8 d = d) as Hd8 by (apply u8_id; unfold is_char, is_u8 in *; lia).
  rewrite length_app, Nat2Z.inj_add in *. cbn [length] in *.
  destruct (Z.eqb_spec (v / base) 0) as [E|E]; cbn [negb app length obind] in *.
  - rewrite store_eq by (apply Hm; lia). cbn [obind]. rewrite Hd8.
    eexists. split; [f_equal; f_equal; lia|]. split.
    + split; [apply lookup_insert_eq|done].
    + apply same_except_insert. lia.
  - set (ds := digits fuel (v / base) base) in *.
    destruct (IH (v / base) mm buf) as (m1 & E1 & Hb1 & Hs1).
    + split; [apply Z.div_pos; lia|]. apply Z.div_lt_upper_bound; [lia|].
      rewrite Nat2Z.inj_succ, Z.pow_succ_r in Hv by lia. lia.
    + destruct fuel; [|lia]. cbn in Hv. exfalso. apply E. apply Z.div_small. lia.
    + intros x Hx. apply Hm. fold ds in Hx. lia.
    + fold ds in E1, Hb1, Hs1. rewrite E1. cbn [obind].
      rewrite store_eq.
      2: { rewrite Hs1 by lia. apply Hm. lia. }
      cbn [obind]. rewrite Hd8. eexists. split_and!; [f_equal; f_equal; lia| |].
      * apply bytes_at_app. cbn [bytes_at]. split_and!; [|apply lookup_insert_eq|done].
        eapply bytes_at_frame; [|exact Hb1]. intros x Hx. rewrite lookup_insert_ne; [done|lia].
      * intros x Hx. rewrite lookup_insert_ne, Hs1 by lia. done.
Qed.

(** ** Reference: rendering a format *)
Inductive fmt_arg : Type := FStr (s : list Z) | FInt (v : Z).

Definition dec (v : Z) : list Z :=
  if i32 v <? 0 then 45 :: digits itoa_fuel (- i32 v) 10 else digits itoa_fuel (i32 v) 10.
Definition hex (v : Z) : list Z := digits itoa_fuel (u32 v) 16.

Definition render_arg (k : Z) (a : fmt_arg) : option (list Z) :=
  match a with
  | FStr s => if k =? 115 then Some s else None
  | FInt v => if k =? 100 then Some (dec v) else if k =? 120 then Some (hex v)
              else if k =? 99 then Some [u8 v] else None
  end.

Definition is_conv (k : Z) : bool := (k =? 115) || (k =? 99) || (k =? 100) || (k =? 120).

(** [None]: a conversion without an argument of its kind. *)
Fixpoint render (fmt : list Z) (args : list fmt_arg) : option (list Z) :=
  match fmt with
  | [] => Some []
  | c :: fmt =>
      if negb (c =? 37) then option_map (cons c) (render fmt args)
      else match fmt with
           | [] => Some []
           | k :: fmt' =>
               if is_conv k then
                 match args with
                 | [] => None
                 | a :: args =>
                     match render_arg k a, render fmt' args with
                     | Some o, Some o' => Some (o ++ o')
                     | _, _ => None
                     end
                 end
               else render fmt args
           end
  end.

(** The argument word [w] stands for [a], and a string argument does not
    overlap the [n] bytes of output from [b]. *)
Definition arg_ok (m : mem) (b n w : Z) (a : fmt_arg) : Prop :=
  match a with
  | FStr s => w <> 0 /\ cstr m w s /\ disjoint_ranges b n w (Z.of_nat (length s) + 1)
              /\ Z.of_nat (length s) < 4294967296
  | FInt v => w = v
  end.

Lemma cstr_same_except a n m m' p s :
  same_except a n m m' -> disjoint_ranges a n p (Z.of_nat (length s) + 1) ->
  cstr m p s -> cstr m' p s.
Proof. unfold disjoint_ranges. intros Hs Hd. apply cstr_frame. intros x Hx. apply Hs. lia. Qed.

(** What is left to do after [k] bytes of output: the smaller output window. *)
Lemma disjoint_ranges_shrink a n k p l :
  0 <= k <= n -> disjoint_ranges a n p l -> disjoint_ranges (a + k) (n - k) p l.
Proof. unfold disjoint_ranges. lia. Qed.

Lemma args_ok_step m m' b n k ap args :
  0 <= k <= n -> same_except b n m m' ->
  Forall2 (arg_ok m b n) ap args -> Forall2 (arg_ok m' (b + k) (n - k)) ap args.
Proof.
  intros Hk Hs HF. eapply Forall2_impl; [exact HF|]. intros w [s|v]; cbn; [|done].
  intros (? & ? & ? & ?). split_and!; try done.
  - by eapply cstr_same_except.
  - by apply disjoint_ranges_shrink.
Qed.

Lemma mapped_same_except a n m m' b k :
  same_except a n m m' -> mapped m' a n -> mapped m b k -> mapped m' b k.
Proof.
  intros Hs Hm Hb x Hx. destruct (decide (a <= x < a + n)); [by apply Hm|].
  rewrite Hs by done. by apply Hb.
Qed.

Lemma bytes_at_mapped m a l : bytes_at m a l -> mapped m a (Z.of_nat (length l)).
Proof.
  revert a. induction l as [|b l IH]; intros a; cbn [bytes_at length]; intros H x Hx; [lia|].
  destruct H as [H1 H2]. destruct (decide (x = a)) as [->|]; [eauto|]. apply (IH (a + 1)); [done|lia].
Qed.

(** The conversions write their rendering and nothing else but, for [%s], one
    terminator after it. *)
Lemma itoa_digits mm v buf base :
  0 <= v < 4294967296 -> 2 <= base <= 16 ->
  mapped mm buf (Z.of_nat (length (digits itoa_fuel v base))) ->
  exists mm', itoa itoa_fuel mm v buf base
      = Done (mm', buf + Z.of_nat (length (digits itoa_fuel v base))) /\
    bytes_at mm' buf (digits itoa_fuel v base) /\
    same_except buf (Z.of_nat (length (digits itoa_fuel v base))) mm mm'.
Proof.
  intros Hv Hb Hm. apply itoa_spec; [done| |unfold itoa_fuel; lia|done].
  split; [lia|]. apply Z.lt_le_trans with (2 ^ 33); [lia|].
  change (Z.of_nat itoa_fuel) with 33. apply Z.pow_le_mono_l. lia.
Qed.

Lemma put_dec_spec mm v b :
  mapped mm b (Z.of_nat (length (dec v))) ->
  exists mm1 b1 n mm', put_sign mm b (i32 v) = Done (mm1, b1, n) /\
    itoa itoa_fuel mm1 (u32 n) b1 10 = Done (mm', b + Z.of_nat (length (dec v))) /\
    bytes_at mm' b (dec v) /\ same_except b (Z.of_nat (length (dec v))) mm mm'.
Proof.
  unfold dec, put_sign. intros Hm.
  assert (-2147483648 <= i32 v < 2147483648) as Hr.
  { unfold i32. pose proof (Z.mod_pos_bound (v + 2147483648) 4294967296). lia. }
  destruct (Z.ltb_spec (i32 v) 0) as [Hneg|Hpos].
  - cbn [length] in *. rewrite store_eq by (apply Hm; lia). cbn [obind].
    assert (u32 (i32 (0 - i32 v)) = - i32 v) as Hn.
    { unfold u32, i32 at 1. destruct (decide (i32 v = -2147483648)) as [->|]; [done|].
      rewrite (Z.mod_small (0 - i32 v + 2147483648)) by lia. rewrite Z.mod_small; lia. }
    destruct (itoa_digits (<[b := u8 45]> mm) (- i32 v) (b + 1) 10) as (m' & E & Hb & Hs);
      [lia|lia| |].
    { apply mapped_insert. intros x Hx. apply Hm. lia. }
    do 4 eexists. split; [done|]. rewrite Hn, E. split_and!.
    + f_equal. f_equal. lia.
    + split; [|done]. rewrite Hs by lia. apply lookup_insert_eq.
    + eapply same_except_step; [exact Hs|lia|lia].
  - assert (u32 (i32 v) = i32 v) as Hn by (apply u32_id; unfold is_u32; lia).
    destruct (itoa_digits mm (i32 v) b 10) as (m' & E & Hb & Hs); [lia|lia|done|].
    do 4 eexists. split; [done|]. rewrite Hn, E. done.
Qed.

(** What one conversion does to the memory: its rendering [o] is written from
    [b], and the byte after it is untouched or a terminator. *)
Definition wrote (mm : mem) (b : Z) (o : list Z) (mm1 : mem) : Prop :=
  bytes_at mm1 b o /\ same_except b (Z.of_nat (length o) + 1) mm mm1 /\
  (mm1 !! (b + Z.of_nat (length o)) = mm !! (b + Z.of_nat (length o)) \/
   mm1 !! (b + Z.of_nat (length o)) = Some 0).

Lemma wrote_exact mm b o mm1 :
  bytes_at mm1 b o -> same_except b (Z.of_nat (length o)) mm mm1 -> wrote mm b o mm1.
Proof.
  intros Hb Hs. split_and!; [done| |left; apply Hs; lia].
  eapply same_except_weaken; [done|lia..].
Qed.

Lemma wrote_nil mm b : wrote mm b [] mm.
Proof. by apply wrote_exact. Qed.

(** The loop's invariant: what is left of the format and of the arguments,
    clear of the window that the rest of the output [out] will fill. *)
Record vinv (mm : mem) (b ip : Z) (fmt : list Z) (ap : list Z) (args : list fmt_arg)
    (out : list Z) : Prop := {
  vinv_fmt : cstr mm ip fmt;
  vinv_args : Forall2 (arg_ok mm b (Z.of_nat (length out) + 1)) ap args;
  vinv_disj : disjoint_ranges b (Z.of_nat (length out) + 1) ip (Z.of_nat (length fmt) + 1);
  vinv_mapped : mapped mm b (Z.of_nat (length out) + 1);
  vinv_end : mm !! (b + Z.of_nat (length out)) = Some 0;
  vinv_pos : 0 < b;
}.

Lemma vinv_step mm b ip pre fmt ap0 ap args0 args o out mm1 :
  vinv mm b ip (pre ++ fmt) (ap0 ++ ap) (args0 ++ args) (o ++ out) ->
  length ap0 = length args0 -> wrote mm b o mm1 ->
  vinv mm1 (b + Z.of_nat (length o)) (ip + Z.of_nat (length pre)) fmt ap args out.
Proof.
  intros [Hf Ha Hd Hm He Hp] Hl (Hb & Hs & Hz). rewrite !length_app, !Nat2Z.inj_add in *.
  assert (same_except b (Z.of_nat (length o) + Z.of_nat (length out) + 1) mm mm1) as Hs'.
  { eapply same_except_weaken; [exact Hs|lia..]. }
  assert (cstr mm1 ip (pre ++ fmt)) as [Hf1 Hf2].
  { eapply cstr_same_except; [exact Hs'| |done]. by rewrite length_app, Nat2Z.inj_add. }
  rewrite <- app_assoc, bytes_at_app in Hf1. destruct Hf1 as [_ Hf1]. apply Forall_app in Hf2 as [_ Hf2].
  apply Forall2_app_inv in Ha as [_ Ha]; [|done].
  split.
  - by split.
  - replace (Z.of_nat (length out) + 1)
      with (Z.of_nat (length o) + Z.of_nat (length out) + 1 - Z.of_nat (length o)) by lia.
    eapply args_ok_step; [lia|exact Hs'|done].
  - unfold disjoint_ranges in *. lia.
  - intros x Hx. destruct (decide (x = b + Z.of_nat (length o))) as [->|].
    + destruct Hz as [->| ->]; [apply Hm; lia|eauto].
    + rewrite Hs by lia. apply Hm. lia.
  - rewrite <- He. destruct out as [|d out]; cbn [length] in *.
    + rewrite !Z.add_0_r in *. destruct Hz as [->| ->]; [done|by rewrite He].
    + rewrite Hs by lia. f_equal. lia.
  - lia.
Qed.

(** What the invariant says at the end of the loop, carried back over a step. *)
Definition vpost (mm : mem) (b : Z) (out : list Z) (r : outcome (mem * Z)) : Prop :=
  exists mm', r = Done (mm', b + Z.of_nat (length out)) /\ bytes_at mm' b out /\
    mm' !! (b + Z.of_nat (length out)) = Some 0 /\
    same_except b (Z.of_nat (length out) + 1) mm mm'.

Lemma vpost_step mm b o out mm1 r :
  wrote mm b o mm1 -> vpost mm1 (b + Z.of_nat (length o)) out r -> vpost mm b (o ++ out) r.
Proof.
  intros (Hb & Hs & _) (mm' & -> & Hb' & He & Hs'). exists mm'.
  rewrite length_app, Nat2Z.inj_add. split_and!.
  - f_equal. f_equal. lia.
  - apply bytes_at_app. split; [|done]. eapply bytes_at_frame; [|exact Hb].
    intros x Hx. apply Hs'. lia.
  - rewrite <- He. f_equal. lia.
  - intros x Hx. rewrite Hs', Hs by lia. done.
Qed.

Definition fmt_head (fmt : list Z) : Z := match fmt with [] => 0 | c :: _ => c end.

Lemma load_fmt_head mm ip fmt : cstr mm ip fmt -> load mm ip = Done (fmt_head fmt).
Proof.
  destruct fmt; [intros ?%cstr_nil|intros (? & _)%cstr_cons]; by apply load_eq.
Qed.

Lemma wrote_char mm b c :
  is_Some (mm !! b) -> exists mm1, store mm b c = Done mm1 /\ wrote mm b [u8 c] mm1.
Proof.
  intros H. eexists. rewrite store_eq by done. split; [done|]. apply wrote_exact.
  - split; [apply lookup_insert_eq|done].
  - apply same_except_insert. cbn. lia.
Qed.

Lemma wrote_string mm b w s n :
  arg_ok mm b n w (FStr s) -> Z.of_nat (length s) + 1 <= n -> 0 < b -> mapped mm b n ->
  exists mm1, strcpy mm b w = Done (mm1, b) /\ strlen mm1 w = Done (Z.of_nat (length s)) /\
    wrote mm b s mm1.
Proof.
  intros (Hw & Hs & Hd & Hl) Hn Hb Hm.
  assert (disjoint_ranges b (Z.of_nat (length s) + 1) w (Z.of_nat (length s) + 1)) as Hd'.
  { unfold disjoint_ranges in *. lia. }
  destruct (strcpy_loop_spec s mm b w (S (size mm))) as (m1 & E & [Hc1 Hc2] & Hsame); try done.
  { intros x Hx. apply Hm. lia. }
  { apply cstr_size in Hs. lia. }
  exists m1. unfold strcpy. rewrite !(proj2 (Z.eqb_neq _ 0)) by lia.
  cbn [negb andb oassert obind]. rewrite E. apply bytes_at_app in Hc1 as (Hc1 & Hz & _).
  split_and!; [done| |].
  - apply strlen_spec; [|done|done]. by eapply cstr_same_except.
  - split_and!; [done..|by right].
Qed.

(** A conversion [%k] of an integer argument writes its rendering. *)
Definition put_arg (k : Z) (mm : mem) (b arg : Z) : outcome (mem * Z) :=
  if k =? 99 then olet mm := store mm b arg in Done (mm, b + 1)
  else if k =? 100 then
    olet (mm, b, arg_int) := put_sign mm b (i32 arg) in itoa itoa_fuel mm (u32 arg_int) b 10
  else itoa itoa_fuel mm (u32 arg) b 16.

Lemma put_arg_spec k mm b v o :
  is_conv k = true -> render_arg k (FInt v) = Some o -> mapped mm b (Z.of_nat (length o)) ->
  exists mm1, put_arg k mm b v = Done (mm1, b + Z.of_nat (length o)) /\ wrote mm b o mm1.
Proof.
  unfold is_conv, put_arg. cbn [render_arg]. intros Hk Hr Hm.
  destruct (Z.eqb_spec k 115) as [->|]; [done|]. cbn [orb] in Hk.
  destruct (Z.eqb_spec k 99) as [->|]; cbn [Z.eqb Pos.eqb] in *.
  - simplify_eq. destruct (wrote_char mm b v) as (m1 & -> & Hw); [apply Hm; cbn; lia|].
    exists m1. done.
  - destruct (Z.eqb_spec k 100) as [->|].
    + simplify_eq. destruct (put_dec_spec mm v b Hm) as (m0 & b1 & av & m1 & -> & E & ? & ?).
      exists m1. cbn [obind]. split; [done|by apply wrote_exact].
    + destruct (Z.eqb_spec k 120) as [->|]; [|done]. simplify_eq.
      destruct (itoa_digits mm (u32 v) b 16) as (m1 & E & ? & ?);
        [apply u32_range|lia|done|].
      exists m1. split; [done|by apply wrote_exact].
Qed.

(** The four conversions of the loop, folded. *)
Lemma vsprintf_loop_conv fuel mm b ip k w ap :
  is_conv k = true -> load mm (ip + 1) = Done k ->
  vsprintf_loop (S fuel) mm b ip 37 (w :: ap) =
    (olet (mm, b) := (if k =? 115
                      then olet (mm, _) := strcpy mm b w in
                           olet n := strlen mm w in Done (mm, b + n)
                      else put_arg k mm b w) in
     olet c := load mm (ip + 1 + 1) in vsprintf_loop fuel mm b (ip + 1 + 1) c ap).
Proof.
  intros Hk E. cbn [vsprintf_loop Z.eqb Pos.eqb negb]. rewrite E. cbn [obind].
  unfold is_conv, put_arg in *.
  destruct (k =? 115).
  { destruct (strcpy mm b w) as [[m1 ?]|]; [|done]. cbn [obind].
    by destruct (strlen m1 w). }
  destruct (k =? 99); [by destruct (store mm b w)|].
  destruct (k =? 100); [by destruct (put_sign mm b (i32 w)) as [[[]]|]|].
  by destruct (k =? 120).
Qed.

Lemma conv_spec k mm b w a o n :
  is_conv k = true -> render_arg k a = Some o -> arg_ok mm b n w a ->
  Z.of_nat (length o) + 1 <= n -> 0 < b -> mapped mm b n ->
  exists mm1, (if k =? 115
               then olet (mm, _) := strcpy mm b w in
                    olet n := strlen mm w in Done (mm, b + n)
               else put_arg k mm b w) = Done (mm1, b + Z.of_nat (length o)) /\
    wrote mm b o mm1.
Proof.
  intros Hk Hr Ha Hn Hb Hm. destruct a as [s|v].
  - cbn in Hr. destruct (k =? 115); [|done]. simplify_eq.
    destruct (wrote_string mm b w o n) as (m1 & -> & E & Hw); try done.
    cbn [obind]. rewrite E. cbn [obind]. eauto.
  - cbn in Ha. subst w. destruct (put_arg_spec k mm b v o) as (m1 & E & Hw); try done.
    { intros x Hx. apply Hm. lia. }
    exists m1. split; [|done]. cbn in Hr. by destruct (Z.eqb_spec k 115) as [->|].
Qed.

Lemma render_conv k fmt args out :
  is_conv k = true -> render (37 :: k :: fmt) args = Some out ->
  exists a args' o out', args = a :: args' /\ render_arg k a = Some o /\
    render fmt args' = Some out' /\ out = o ++ out'.
Proof.
  intros Hk. cbn [render Z.eqb Pos.eqb negb]. rewrite Hk.
  destruct args as [|a args]; [done|].
  destruct (render_arg k a) eqn:E1, (render fmt args) eqn:E2; try done.
  intros [= <-]. eauto 10.
Qed.

Lemma vsprintf_loop_spec : forall fuel fmt args out ap mm b ip,
  (length fmt < fuel)%nat -> render fmt args = Some out ->
  vinv mm b ip fmt ap args out ->
  vpost mm b out (vsprintf_loop fuel mm b ip (fmt_head fmt) ap).
Proof.
  induction fuel as [|fuel IH]; intros fmt args out ap mm b ip Hf Hr Hi; [lia|].
  destruct fmt as [|c fmt]; cbn [fmt_head].
  { injection Hr as <-. exists mm. destruct Hi. cbn in *. rewrite Z.add_0_r in *.
    split_and!; try done. }
  pose proof (vinv_fmt _ _ _ _ _ _ _ Hi) as (_ & Hc & Hs)%cstr_cons.
  cbn [length] in Hf.
  destruct (Z.eqb_spec c 37) as [->|Hne].
  2: { cbn [vsprintf_loop]. rewrite char_eqb0 by done.
    rewrite (proj2 (Z.eqb_neq c 37)) by done. cbn [negb].
    cbn [render] in Hr. rewrite (proj2 (Z.eqb_neq c 37)) in Hr by done. cbn [negb] in Hr.
    destruct (render fmt args) as [out'|] eqn:Hr'; [|done]. injection Hr as <-.
    destruct (wrote_char mm b c) as (m1 & E & Hw).
    { apply (vinv_mapped _ _ _ _ _ _ _ Hi). cbn [length]. lia. }
    rewrite u8_id in Hw by (unfold is_char, is_u8 in *; lia).
    rewrite E. cbn [obind].
    pose proof (vinv_step _ _ _ [c] _ [] _ [] _ [c] out' m1 Hi eq_refl Hw) as Hi'.
    rewrite (load_fmt_head _ _ fmt) by apply Hi'. cbn [obind].
    eapply (vpost_step mm b [c] out'); [done|]. by eapply IH; [lia| |]. }
  destruct fmt as [|k fmt].
  { cbn in Hr. injection Hr as <-. cbn [vsprintf_loop Z.eqb Pos.eqb negb].
    rewrite (load_fmt_head _ _ []) by done. cbn [obind fmt_head Z.eqb].
    exists mm. destruct Hi. destruct fuel; [cbn in Hf; lia|]. cbn [vsprintf_loop Z.eqb].
    cbn in *. rewrite Z.add_0_r in *. split_and!; done. }
  destruct (is_conv k) eqn:Hk.
  - apply render_conv in Hr as (a & args' & o & out' & -> & Ho & Hr & ->); [|done].
    pose proof (vinv_args _ _ _ _ _ _ _ Hi) as Hargs.
    destruct ap as [|w ap]; [by apply Forall2_nil_cons_inv in Hargs|].
    apply Forall2_cons_1 in Hargs as [Ha _].
    rewrite (vsprintf_loop_conv _ _ _ _ k) by (done || by apply load_fmt_head with (fmt := k :: fmt)).
    destruct (conv_spec k mm b w a o (Z.of_nat (length (o ++ out')) + 1))
      as (m1 & -> & Hw); try done.
    { rewrite length_app. lia. }
    { apply Hi. }
    { apply Hi. }
    cbn [obind].
    pose proof (vinv_step _ _ _ [37; k] fmt [w] ap [a] args' o out' m1 Hi eq_refl Hw) as Hi'.
    cbn [length] in Hi'. replace (ip + Z.of_nat 2) with (ip + 1 + 1) in Hi' by lia.
    rewrite (load_fmt_head _ _ fmt) by apply Hi'. cbn [obind].
    eapply vpost_step; [done|]. eapply IH; [cbn in Hf; lia|done|done].
  - cbn [vsprintf_loop Z.eqb Pos.eqb negb].
    rewrite (load_fmt_head _ _ (k :: fmt)) by done. cbn [obind fmt_head].
    assert (render (k :: fmt) args = Some out) as Hr'.
    { rewrite <- Hr. cbn [render Z.eqb Pos.eqb negb]. by rewrite Hk. }
    unfold is_conv in Hk. rewrite !orb_false_iff in Hk. destruct Hk as [[[-> ->] ->] ->].
    apply (IH (k :: fmt) args); [cbn in *; lia|done|].
    pose proof (vinv_step mm b ip [37] (k :: fmt) [] ap [] args [] out mm Hi eq_refl (wrote_nil mm b))
      as Hi'. cbn [length] in Hi'. by rewrite Z.add_0_r in Hi'.
Qed.

(** [vsprintf] renders its format.  Given the format string, the argument
    words it asks for, and an output buffer that is clear of both and has a zero
    byte where the output will end, [vsprintf] returns (no fault, no endless
    loop), the buffer holds the rendering of the format as a C string, the
    return value is its length, and no byte outside the buffer changes. *)
Theorem vsprintf_renders (mm : mem) (str format : Z) (fmt out ap : list Z) (args : list fmt_arg)
    (Hfmt : cstr mm format fmt)
    (Hargs : Forall2 (arg_ok mm str (Z.of_nat (length out) + 1)) ap args)
    (Hrender : render fmt args = Some out)
    (Hchars : Forall is_char out)
    (Hdisj : disjoint_ranges str (Z.of_nat (length out) + 1) format (Z.of_nat (length fmt) + 1))
    (Hbuf : mapped mm str (Z.of_nat (length out) + 1))
    (Hzero : mm !! (str + Z.of_nat (length out)) = Some 0)
    (Hstr : 0 < str) (Hlen : Z.of_nat (length out) < 4294967296) :
  exists mm', vsprintf mm str format ap = Done (mm', Z.of_nat (length out)) /\
    cstr mm' str out /\ same_except str (Z.of_nat (length out) + 1) mm mm'.
Proof.
  unfold vsprintf. rewrite (load_fmt_head _ _ fmt) by done. cbn [obind].
  destruct (vsprintf_loop_spec (2 * size mm) fmt args out ap mm str format)
    as (m' & E & Hb & He & Hs); [apply cstr_size in Hfmt; lia|done|by constructor|].
  rewrite E. cbn [obind].
  assert (cstr m' str out) as Hc by (split; [by apply bytes_at_app|done]).
  rewrite (strlen_spec _ _ out) by (try done; lia). cbn [obind]. eauto.
Qed.

(** ** Concrete runs *)
Definition bytes_map (a : Z) (l : list Z) : mem :=
  list_to_map (imap (fun i c => (a + Z.of_nat i, c)) l).

(** "x=%d %s%x\0", the string "ab\0", and a zeroed buffer. *)
Definition ex_fmt : list Z := [120; 61; 37; 100; 32; 37; 115; 37; 120].
Definition ex_mem : mem :=
  bytes_map 100 (ex_fmt ++ [0]) ∪ bytes_map 200 [97; 98; 0] ∪ bytes_map 300 (replicate 20 0).
Definition ex_out : list Z := [120; 61; 45; 52; 50; 32; 97; 98; 70; 70].

(** [mapped] of a concrete memory, byte by byte. *)
Fixpoint mappedb (m : mem) (a : Z) (n : nat) : bool :=
  match n with
  | O => true
  | S n => bool_decide (is_Some (m !! a)) && mappedb m (a + 1) n
  end.

Lemma mappedb_spec m n : forall a, mappedb m a n = true -> mapped m a (Z.of_nat n).
Proof.
  induction n as [|n IH]; intros a H x Hx; [lia|]. cbn [mappedb] in H.
  apply andb_true_iff in H as [H1%bool_decide_eq_true H2].
  destruct (decide (x = a)) as [->|]; [done|]. apply (IH (a + 1)); [done|lia].
Qed.

Lemma vsprintf_renders_witness :
  exists mm', vsprintf ex_mem 300 100 [4294967254; 200; 255] = Done (mm', 10) /\
    cstr mm' 300 ex_out /\ same_except 300 11 ex_mem mm'.
Proof.
  apply (vsprintf_renders ex_mem 300 100 ex_fmt ex_out [4294967254; 200; 255]
           [FInt 4294967254; FStr [97; 98]; FInt 255]).
  - split; [|repeat constructor; unfold is_char; lia]. repeat split.
  - repeat constructor; cbn; unfold is_char; try lia; try (left; cbn; lia); try (right; cbn; lia); done.
  - reflexivity.
  - repeat constructor; unfold is_char; lia.
  - right. cbn. lia.
  - apply (mappedb_spec _ 11). reflexivity.
  - reflexivity.
  - lia.
  - cbn. lia.
Defined.

(** [itoa] and reading the number back.  For every [uint32_t] and every base
    from 2 to 16, [itoa] returns, the characters it wrote (at most 33) are
    digits whose positional value in that base is the number, the buffer
    pointer has moved past them, and no other byte has changed. *)
Theorem itoa_roundtrip (mm : mem) (v buf base : Z)
    (Hv : is_u32 v) (Hb : 2 <= base <= 16) (Hm : mapped mm buf 33) :
  exists mm' ds, itoa itoa_fuel mm v buf base = Done (mm', buf + Z.of_nat (length ds)) /\
    bytes_at mm' buf ds /\ same_except buf (Z.of_nat (length ds)) mm mm' /\
    parse base ds = v /\ (length ds <= 33)%nat.
Proof.
  pose proof (digits_length base itoa_fuel v) as Hl.
  assert (itoa_fuel = 33%nat) as H33 by reflexivity.
  destruct (itoa_digits mm v buf base) as (m' & E & ? & ?); [done|done| |].
  { intros x Hx. apply Hm. lia. }
  exists m', (digits itoa_fuel v base). split_and!; [done|done|done| |lia].
  apply parse_digits; [lia|]. unfold is_u32 in Hv. split; [lia|].
  apply Z.lt_le_trans with (2 ^ 33); [lia|]. rewrite H33. apply Z.pow_le_mono_l. lia.
Qed.

Lemma itoa_roundtrip_witness :
  exists mm' ds, itoa itoa_fuel (bytes_map 300 (replicate 40 0)) 48879 300 16
      = Done (mm', 300 + Z.of_nat (length ds)) /\
    bytes_at mm' 300 ds /\
    same_except 300 (Z.of_nat (length ds)) (bytes_map 300 (replicate 40 0)) mm' /\
    parse 16 ds = 48879 /\ (length ds <= 33)%nat.
Proof.
  apply itoa_roundtrip.
  - unfold is_u32. lia.
  - lia.
  - apply (mappedb_spec _ 33). reflexivity.
Defined.
