(* ===== verification/Paging.v ===== *)
(** * Paging: two-level page tables and the recursive mapping ([kernel/memory.c])

    The MMU walks the page directory at [cr3] and one page table, as the x86
    does; physical memory is a map from the physical addresses of 32-bit words
    to their values (a word never written is 0).  The kernel runs in ring 0
    with [CR0.WP] clear, so only the present bits decide whether an access
    succeeds.  The TLB is not modelled: an access sees the tables as
    they are in memory.  The one place where a present entry loses its present
    bit, [page_table_pte_remove], issues [invlpg] for the address of its own
    parameter instead of the page. *)

From stdpp Require Import base numbers list gmap.
From S2P Require Import Prelude.

Local Open Scope Z_scope.
Local Open Scope kernel_scope.

Definition PG_P_1 : Z := 1.
Definition PG_RW_W : Z := 2.
Definition PG_US_U : Z := 4.
(** Where the kernel's heap begins. *)
Definition K_HEAP_START : Z := 0xc0100000.

Definition PDE_IDX (addr : Z) : Z := Z.shiftr (Z.land addr 0xffc00000) 22.
Definition PTE_IDX (addr : Z) : Z := Z.shiftr (Z.land addr 0x003ff000) 12.

(** ** The machine *)
Record mmu : Type := mk_mmu { cr3 : Z; ram : gmap Z Z }.

Definition rd_ram (m : mmu) (pa : Z) : Z := u32 (default 0 (ram m !! pa)).
Definition wr_ram (m : mmu) (pa x : Z) : mmu := mk_mmu (cr3 m) (<[pa := u32 x]> (ram m)).

Definition frame (e : Z) : Z := Z.land e 0xfffff000.
Definition present (e : Z) : bool := negb (Z.land e 0x00000001 =? 0).

(** The page walk of the processor. *)
Definition pde_of (m : mmu) (va : Z) : Z := rd_ram m (cr3 m + PDE_IDX va * 4).
Definition pte_loc (m : mmu) (va : Z) : Z := frame (pde_of m va) + PTE_IDX va * 4.
Definition translate (m : mmu) (va : Z) : outcome Z :=
  if present (pde_of m va) then
    let pte := rd_ram m (pte_loc m va) in
    if present pte then Done (frame pte + Z.land va 0xfff) else Halt Page_fault
  else Halt Page_fault.

(** A load or a store of an aligned word at a virtual address. *)
Definition vload (m : mmu) (va : Z) : outcome Z :=
  olet pa := translate m va in Done (rd_ram m pa).
Definition vstore (m : mmu) (va x : Z) : outcome mmu :=
  olet pa := translate m va in Done (wr_ram m pa x).

(** [memset(va, 0, 4 * n)] at an aligned address. *)
Fixpoint vzero (m : mmu) (va : Z) (n : nat) : outcome mmu :=
  match n with
  | O => Done m
  | S n => olet m := vstore m va 0 in vzero m (va + 4) n
  end.

(** ** The kernel's page-table accessors *)
Definition pte_ptr (vaddr : Z) : Z :=
  u32 (0xffc00000 + Z.shiftr (Z.land vaddr 0xffc00000) 10 + PTE_IDX vaddr * 4).
Definition pde_ptr (vaddr : Z) : Z := u32 (0xfffff000 + PDE_IDX vaddr * 4).

Definition addr_v2p (m : mmu) (vaddr : Z) : outcome Z :=
  olet pte := vload m (pte_ptr vaddr) in
  Done (u32 (Z.land pte 0xfffff000 + Z.land vaddr 0x00000fff)).

Definition page_table_pte_remove (m : mmu) (vaddr : Z) : outcome mmu :=
  let pte := pte_ptr vaddr in
  olet v := vload m pte in
  vstore m pte (Z.land v (Z.lnot PG_P_1)).

(** [page_table_add], with the allocation of a page-table frame
    ([palloc(&kernel_pool)], whose result is used unchecked) as an argument so
    that the caller threads the pool: [alloc] is only run when it is needed. *)
Definition page_table_add {P : Type} (alloc : P -> outcome (P * Z)) (m : mmu) (p : P)
    (vaddr page_phyaddr : Z) : outcome (mmu * P) :=
  let pde := pde_ptr vaddr in
  let pte := pte_ptr vaddr in
  let entry a := Z.lor (Z.lor (Z.lor a PG_US_U) PG_RW_W) PG_P_1 in
  olet d := vload m pde in
  if negb (Z.land d 0x00000001 =? 0) then
    olet t := vload m pte in
    ASSERT (Z.land t 0x00000001 =? 0) in
    olet t := vload m pte in
    if Z.land t 0x00000001 =? 0 then
      olet m := vstore m pte (entry page_phyaddr) in Done (m, p)
    else Halt Panicked
  else
    olet (p, pde_phyaddr) := alloc p in
    olet m := vstore m pde (entry pde_phyaddr) in
    olet m := vzero m (Z.land pte 0xfffff000) (Z.to_nat (PG_SIZE / 4)) in
    olet t := vload m pte in
    ASSERT (Z.land t 0x00000001 =? 0) in
    olet m := vstore m pte (entry page_phyaddr) in
    Done (m, p).

(** ** Address arithmetic *)
Lemma land_mask_shift a n k :
  0 <= n -> 0 <= k -> Z.shiftr (Z.land a (Z.shiftl (Z.ones n) k)) k = (a / 2 ^ k) mod 2 ^ n.
Proof.
  intros. rewrite Z.shiftr_land, Z.shiftr_shiftl_l, Z.sub_diag, Z.shiftl_0_r by lia.
  by rewrite Z.land_ones, Z.shiftr_div_pow2 by lia.
Qed.

Lemma land_high a : Z.land a 0xfffff000 = (a / 4096) mod 1048576 * 4096.
Proof.
  change 0xfffff000 with (Z.shiftl (Z.ones 20) 12).
  pose proof (land_mask_shift a 20 12 ltac:(lia) ltac:(lia)) as E.
  change (2 ^ 12) with 4096 in E. change (2 ^ 20) with 1048576 in E. rewrite <- E.
  change 4096 with (2 ^ 12). rewrite <- Z.shiftl_mul_pow2 by lia. apply Z.bits_inj'. intros n Hn.
  rewrite Z.shiftl_spec by done. destruct (decide (n < 12)).
  - rewrite (Z.testbit_neg_r _ (n - 12)) by lia.
    rewrite Z.land_spec, Z.shiftl_spec_low, andb_false_r by lia. done.
  - rewrite Z.shiftr_spec by lia. f_equal. lia.
Qed.

Lemma land_low a : Z.land a 0xfff = a mod 4096.
Proof. change 0xfff with (Z.ones 12). by rewrite Z.land_ones. Qed.

Lemma land_high_eq a : is_u32 a -> Z.land a 0xfffff000 = a - a mod 4096.
Proof.
  unfold is_u32. intros Ha. rewrite land_high, Z.mod_small.
  - pose proof (Z.div_mod a 4096). lia.
  - split; [apply Z.div_pos; lia|apply Z.div_lt_upper_bound; lia].
Qed.

Lemma PDE_IDX_eq a : is_u32 a -> PDE_IDX a = a / 4194304.
Proof.
  unfold is_u32, PDE_IDX. intros Ha.
  change 0xffc00000 with (Z.shiftl (Z.ones 10) 22). rewrite land_mask_shift by lia.
  rewrite Z.mod_small; [done|].
  split; [apply Z.div_pos; lia|apply Z.div_lt_upper_bound; lia].
Qed.

Lemma PTE_IDX_eq a : PTE_IDX a = (a / 4096) mod 1024.
Proof.
  unfold PTE_IDX. change 0x003ff000 with (Z.shiftl (Z.ones 10) 12).
  by rewrite land_mask_shift by lia.
Qed.

Lemma PDE_IDX_range a : is_u32 a -> 0 <= PDE_IDX a < 1024.
Proof.
  intros Ha. rewrite PDE_IDX_eq by done. unfold is_u32 in Ha.
  split; [apply Z.div_pos; lia|apply Z.div_lt_upper_bound; lia].
Qed.

Lemma PTE_IDX_range a : 0 <= PTE_IDX a < 1024.
Proof. rewrite PTE_IDX_eq. apply Z.mod_pos_bound. lia. Qed.

(** A virtual address from its three fields, and back. *)
Definition mk_va (d t o : Z) : Z := d * 4194304 + t * 4096 + o.

Lemma mk_va_fields d t o :
  0 <= d < 1024 -> 0 <= t < 1024 -> 0 <= o < 4096 ->
  is_u32 (mk_va d t o) /\ PDE_IDX (mk_va d t o) = d /\ PTE_IDX (mk_va d t o) = t /\
  Z.land (mk_va d t o) 0xfff = o.
Proof.
  intros Hd Ht Ho. unfold mk_va.
  assert (is_u32 (d * 4194304 + t * 4096 + o)) as Hu by (unfold is_u32; lia).
  split; [done|]. rewrite PDE_IDX_eq, PTE_IDX_eq, land_low by done. split_and!.
  - symmetry. apply Z.div_unique with (t * 4096 + o); lia.
  - replace ((d * 4194304 + t * 4096 + o) / 4096) with (d * 1024 + t).
    + rewrite Z.add_comm, Z.mod_add by lia. apply Z.mod_small. lia.
    + apply Z.div_unique with o; lia.
  - replace (d * 4194304 + t * 4096 + o) with (o + (d * 1024 + t) * 4096) by lia.
    rewrite Z.mod_add by lia. apply Z.mod_small. lia.
Qed.

Lemma va_split a : is_u32 a -> a = mk_va (PDE_IDX a) (PTE_IDX a) (a mod 4096).
Proof.
  intros Ha. rewrite PDE_IDX_eq, PTE_IDX_eq by done. unfold mk_va.
  pose proof (Z.div_mod a 4096). pose proof (Z.div_mod (a / 4096) 1024).
  rewrite Z.div_div in * by lia. change (4096 * 1024) with 4194304 in *. lia.
Qed.

Lemma pte_ptr_eq v : is_u32 v -> pte_ptr v = mk_va 1023 (PDE_IDX v) (PTE_IDX v * 4).
Proof.
  intros Hv. pose proof (PDE_IDX_range v Hv). pose proof (PTE_IDX_range v).
  unfold pte_ptr.
  assert (Z.shiftr (Z.land v 0xffc00000) 10 = PDE_IDX v * 4096) as ->.
  { unfold PDE_IDX. change 0xffc00000 with (Z.shiftl (Z.ones 10) 22).
    rewrite land_mask_shift by lia. change 4096 with (2 ^ 12). rewrite <- Z.shiftl_mul_pow2 by lia.
    apply Z.bits_inj'. intros n Hn. rewrite Z.shiftr_spec, Z.land_spec, (Z.shiftl_spec _ 12) by lia.
    destruct (decide (n < 12)).
    - rewrite (Z.shiftl_spec_low _ 22), andb_false_r by lia.
      by rewrite (Z.testbit_neg_r _ (n - 12)) by lia.
    - rewrite (Z.shiftl_spec _ 22) by lia. rewrite <- Z.shiftr_div_pow2, <- Z.land_ones by lia.
      rewrite Z.land_spec, Z.shiftr_spec by lia. f_equal; f_equal; lia. }
  rewrite u32_id; unfold mk_va, is_u32; lia.
Qed.

Lemma pde_ptr_eq v : is_u32 v -> pde_ptr v = mk_va 1023 1023 (PDE_IDX v * 4).
Proof.
  intros Hv. pose proof (PDE_IDX_range v Hv). unfold pde_ptr.
  rewrite u32_id; unfold mk_va, is_u32; lia.
Qed.

(** ** The recursive mapping

    Entry 1023 of the page directory points to the directory itself
    ([boot/loader.S] sets it up, and [create_page_dir] for every process). *)
Record self_mapped (m : mmu) : Prop := {
  cr3_aligned : frame (cr3 m) = cr3 m;
  self_entry : present (rd_ram m (cr3 m + 4092)) = true;
  self_frame : frame (rd_ram m (cr3 m + 4092)) = cr3 m
}.

Lemma pde_of_mk m d t o :
  0 <= d < 1024 -> 0 <= t < 1024 -> 0 <= o < 4096 ->
  pde_of m (mk_va d t o) = rd_ram m (cr3 m + d * 4).
Proof. intros. unfold pde_of. by destruct (mk_va_fields d t o) as (_ & -> & _). Qed.

Lemma translate_pde_ptr m v :
  self_mapped m -> is_u32 v -> translate m (pde_ptr v) = Done (cr3 m + PDE_IDX v * 4).
Proof.
  intros [Ha Hp Hf] Hv. pose proof (PDE_IDX_range v Hv).
  rewrite pde_ptr_eq by done. unfold translate, pte_loc. rewrite pde_of_mk by lia.
  destruct (mk_va_fields 1023 1023 (PDE_IDX v * 4)) as (_ & _ & -> & ->); [lia..|].
  change (1023 * 4) with 4092. rewrite Hp, Hf, Hp, Hf. done.
Qed.

Lemma translate_pte_ptr m v :
  self_mapped m -> is_u32 v -> present (pde_of m v) = true ->
  translate m (pte_ptr v) = Done (pte_loc m v).
Proof.
  intros [Ha Hp Hf] Hv Hd. pose proof (PDE_IDX_range v Hv). pose proof (PTE_IDX_range v).
  rewrite pte_ptr_eq by done. unfold translate, pte_loc at 1 2. rewrite pde_of_mk by lia.
  destruct (mk_va_fields 1023 (PDE_IDX v) (PTE_IDX v * 4)) as (_ & _ & -> & ->); [lia..|].
  change (1023 * 4) with 4092. rewrite Hp, Hf. fold (pde_of m v). rewrite Hd. done.
Qed.

Lemma translate_pte_ptr_fault m v :
  self_mapped m -> is_u32 v -> present (pde_of m v) = false ->
  translate m (pte_ptr v) = Halt Page_fault.
Proof.
  intros [Ha Hp Hf] Hv Hd. pose proof (PDE_IDX_range v Hv). pose proof (PTE_IDX_range v).
  rewrite pte_ptr_eq by done. unfold translate, pte_loc at 1 2. rewrite pde_of_mk by lia.
  destruct (mk_va_fields 1023 (PDE_IDX v) (PTE_IDX v * 4)) as (_ & _ & -> & ->); [lia..|].
  change (1023 * 4) with 4092. rewrite Hp, Hf. fold (pde_of m v). by rewrite Hd.
Qed.

(** ** Frames and entries *)
Definition aligned (a : Z) : Prop := frame a = a.
Definition mk_entry (a : Z) : Z := Z.lor (Z.lor (Z.lor a PG_US_U) PG_RW_W) PG_P_1.

Lemma frame_eq e : frame e = (e / 4096) mod 1048576 * 4096.
Proof. apply land_high. Qed.

Lemma frame_aligned e : aligned (frame e).
Proof.
  unfold aligned. rewrite !frame_eq, Z.div_mul, Z.mod_mod by lia. done.
Qed.

Lemma aligned_range a : aligned a -> 0 <= a <= 0xfffff000 /\ a mod 4096 = 0.
Proof.
  unfold aligned. rewrite frame_eq. intros <-.
  pose proof (Z.mod_pos_bound (a / 4096) 1048576). rewrite Z.mod_mul by lia. lia.
Qed.

Lemma aligned_mult a : 0 <= a < 4294967296 -> a mod 4096 = 0 -> aligned a.
Proof. intros Ha Hm. unfold aligned, frame. rewrite land_high_eq by done. lia. Qed.

Lemma frame_page g o : aligned g -> 0 <= o < 4096 -> frame (g + o) = g.
Proof.
  intros Hg Ho. destruct (aligned_range g Hg) as [? Hm]. unfold frame.
  rewrite land_high_eq by (unfold is_u32; lia).
  rewrite Z.add_mod, Hm, Z.add_0_l, Z.mod_mod, Z.mod_small by lia. lia.
Qed.

(** Words of different frames, or different words of a frame, are different. *)
Lemma frame_word_inj f g i j :
  aligned f -> aligned g -> 0 <= i < 1024 -> 0 <= j < 1024 ->
  f + i * 4 = g + j * 4 -> f = g /\ i = j.
Proof.
  intros Hf%aligned_range Hg%aligned_range Hi Hj E.
  pose proof (Z.div_mod f 4096). pose proof (Z.div_mod g 4096). lia.
Qed.

Lemma mk_entry_spec a : aligned a ->
  frame (mk_entry a) = a /\ present (mk_entry a) = true /\ u32 (mk_entry a) = mk_entry a.
Proof.
  intros Ha. unfold mk_entry, PG_US_U, PG_RW_W, PG_P_1.
  assert (Z.lor (Z.lor (Z.lor a 4) 2) 1 = Z.lor a 7) as ->.
  { rewrite <- !Z.lor_assoc. done. }
  destruct (aligned_range a Ha) as [Hr Hm].
  rewrite <- Z.add_nocarry_lor.
  2: { change 7 with (Z.ones 3). rewrite Z.land_ones by lia. change (2 ^ 3) with 8.
       pose proof (Z.div_mod a 4096). rewrite Hm in *.
       replace a with (a / 4096 * 512 * 8) by lia. apply Z.mod_mul. lia. }
  split_and!.
  - unfold frame. rewrite land_high_eq by (unfold is_u32; lia).
    rewrite Z.add_mod, Hm by lia. change ((0 + 7 mod 4096) mod 4096) with 7. lia.
  - unfold present. change 1 with (Z.ones 1). rewrite Z.land_ones by lia. change (2 ^ 1) with 2.
    pose proof (Z.div_mod a 4096). rewrite Hm in *.
    replace (a + 7) with (1 + (a / 4096 * 2048 + 3) * 2) by lia. rewrite Z.mod_add by lia. done.
  - apply u32_id. unfold is_u32. lia.
Qed.

(** ** Writes to physical memory *)
Lemma rd_wr_ram m pa x pb :
  rd_ram (wr_ram m pa x) pb = if decide (pa = pb) then u32 x else rd_ram m pb.
Proof.
  unfold rd_ram, wr_ram. cbn [ram]. rewrite lookup_insert. case_decide; [|done].
  apply u32_id, u32_range.
Qed.

Lemma rd_ram_u32 m pa : u32 (rd_ram m pa) = rd_ram m pa.
Proof. apply u32_id, u32_range. Qed.

Lemma cr3_wr_ram m pa x : cr3 (wr_ram m pa x) = cr3 m.
Proof. done. Qed.

(** The well-formed address space: recursively mapped, and no other directory
    entry points at the directory. *)
Record pt_wf (m : mmu) : Prop := {
  wf_self : self_mapped m;
  wf_tables : forall d, 0 <= d < 1023 -> present (rd_ram m (cr3 m + d * 4)) = true ->
                frame (rd_ram m (cr3 m + d * 4)) <> cr3 m
}.

(** Below the recursive window. *)
Definition low_va (va : Z) : Prop := 0 <= va < 0xffc00000.

Lemma low_va_u32 va : low_va va -> is_u32 va.
Proof. unfold low_va, is_u32. lia. Qed.
#[export] Hint Resolve low_va_u32 frame_aligned : core.

Lemma low_va_idx va : low_va va -> 0 <= PDE_IDX va < 1023.
Proof.
  intros Hv. rewrite PDE_IDX_eq by auto. unfold low_va in Hv.
  split; [apply Z.div_pos; lia|apply Z.div_lt_upper_bound; lia].
Qed.

Lemma wf_pde m va : pt_wf m -> low_va va -> present (pde_of m va) = true ->
  frame (pde_of m va) <> cr3 m.
Proof. intros [_ H] Hv%low_va_idx. by apply H. Qed.

(** A write to the page-table entry of [v] changes no directory entry. *)
Lemma wr_pte_pde m v e d :
  pt_wf m -> low_va v -> present (pde_of m v) = true -> 0 <= d < 1024 ->
  rd_ram (wr_ram m (pte_loc m v) e) (cr3 m + d * 4) = rd_ram m (cr3 m + d * 4).
Proof.
  intros Hwf Hv Hp Hd. rewrite rd_wr_ram, decide_False; [done|]. intros E.
  unfold pte_loc in E. apply frame_word_inj in E as [E _];
    [|auto|apply Hwf|apply PTE_IDX_range|done].
  by apply (wf_pde m v).
Qed.

Lemma wr_pte_pde_of m v e va :
  pt_wf m -> low_va v -> present (pde_of m v) = true -> is_u32 va ->
  pde_of (wr_ram m (pte_loc m v) e) va = pde_of m va.
Proof. intros. unfold pde_of. rewrite cr3_wr_ram. apply wr_pte_pde; auto using PDE_IDX_range. Qed.

Lemma wr_pte_wf m v e :
  pt_wf m -> low_va v -> present (pde_of m v) = true -> pt_wf (wr_ram m (pte_loc m v) e).
Proof.
  intros Hwf Hv Hp. pose proof (wr_pte_pde m v e) as H.
  split.
  - destruct Hwf as [[? ? ?] ?] eqn:?. change 4092 with (1023 * 4) in *.
    split; rewrite cr3_wr_ram; change 4092 with (1023 * 4); rewrite ?H by (done || lia); done.
  - intros d Hd. rewrite cr3_wr_ram, H by (done || lia). by apply Hwf.
Qed.

(** What the MMU sees after such a write. *)
Lemma wr_pte_translate m v e va :
  pt_wf m -> low_va v -> is_u32 va -> present (pde_of m v) = true ->
  translate (wr_ram m (pte_loc m v) e) va =
    if decide (present (pde_of m va) = true /\ pte_loc m va = pte_loc m v)
    then (if present (u32 e) then Done (frame (u32 e) + Z.land va 0xfff) else Halt Page_fault)
    else translate m va.
Proof.
  intros Hwf Hv Hva Hp. unfold translate.
  assert (pde_of (wr_ram m (pte_loc m v) e) va = pde_of m va) as Hpde.
  { by apply wr_pte_pde_of. }
  assert (pte_loc (wr_ram m (pte_loc m v) e) va = pte_loc m va) as Hloc.
  { unfold pte_loc at 1. by rewrite Hpde. }
  rewrite Hpde, Hloc, rd_wr_ram.
  destruct (present (pde_of m va)); [|by rewrite decide_False by (intros []; done)].
  destruct (decide (pte_loc m v = pte_loc m va)) as [E|E].
  - by rewrite decide_True by done.
  - rewrite decide_False by (intros []; congruence). done.
Qed.

(** [m'] differs from [m] at most inside frame [f]. *)
Definition only_frame (f : Z) (m m' : mmu) : Prop :=
  cr3 m' = cr3 m /\
  forall pa, (forall j, 0 <= j < 1024 -> pa <> f + j * 4) -> rd_ram m' pa = rd_ram m pa.

Lemma only_frame_refl f m : only_frame f m m.
Proof. by split. Qed.

Lemma only_frame_trans f m1 m2 m3 : only_frame f m1 m2 -> only_frame f m2 m3 -> only_frame f m1 m3.
Proof.
  intros [H1 H2] [H3 H4]. split; [congruence|]. intros pa Hpa. by rewrite H4, H2.
Qed.

Lemma only_frame_wr f m j x : 0 <= j < 1024 -> only_frame f m (wr_ram m (f + j * 4) x).
Proof.
  intros Hj. split; [done|]. intros pa Hpa. rewrite rd_wr_ram, decide_False; [done|].
  intros <-. by apply (Hpa j).
Qed.

Lemma only_frame_other f g m m' i :
  only_frame f m m' -> aligned f -> aligned g -> f <> g -> 0 <= i < 1024 ->
  rd_ram m' (g + i * 4) = rd_ram m (g + i * 4).
Proof.
  intros [_ H] Hf Hg Hne Hi. apply H. intros j Hj E.
  apply frame_word_inj in E as [E _]; [|done..]. congruence.
Qed.

(** Zeroing [n] words of a page whose translation the writes do not disturb. *)
Lemma vzero_spec f n : forall m va i,
  aligned f -> 0 <= i -> i + Z.of_nat n <= 1024 ->
  (forall m', only_frame f m m' -> forall k, 0 <= k < Z.of_nat n ->
     translate m' (va + 4 * k) = Done (f + (i + k) * 4)) ->
  exists m', vzero m va n = Done m' /\ only_frame f m m' /\
    (forall j, 0 <= j < 1024 ->
      rd_ram m' (f + j * 4) = if decide (i <= j < i + Z.of_nat n) then 0 else rd_ram m (f + j * 4)).
Proof.
  induction n as [|n IH]; intros m va i Hf Hi Hn Ht.
  - exists m. split_and!; [done|apply only_frame_refl|]. intros j Hj. by rewrite decide_False by lia.
  - cbn [vzero]. unfold vstore.
    pose proof (Ht m (only_frame_refl f m) 0 ltac:(lia)) as E0.
    rewrite Z.mul_0_r, !Z.add_0_r in E0. rewrite E0. cbn [obind].
    assert (only_frame f m (wr_ram m (f + i * 4) 0)) as Ho by (apply only_frame_wr; lia).
    destruct (IH (wr_ram m (f + i * 4) 0) (va + 4) (i + 1)) as (m' & E & Ho' & Hz);
      [done|lia|lia| |].
    { intros m' Hm' k Hk. replace (va + 4 + 4 * k) with (va + 4 * (k + 1)) by lia.
      rewrite Ht by (lia || by eapply only_frame_trans). f_equal. lia. }
    exists m'. split_and!; [done|by eapply only_frame_trans|].
    intros j Hj. rewrite Hz, rd_wr_ram by done. repeat case_decide; try lia; done.
Qed.

(** A new page table: entry [PDE_IDX v] is set to the fresh frame [f] and the
    frame is cleared through the recursive window. *)
Definition fresh_frame (m : mmu) (f : Z) : Prop :=
  aligned f /\ f <> cr3 m /\
  forall d, 0 <= d < 1023 -> present (rd_ram m (cr3 m + d * 4)) = true ->
    frame (rd_ram m (cr3 m + d * 4)) <> f.

Section new_table.
Context (m : mmu) (v f : Z).
Context (Hwf : pt_wf m) (Hv : low_va v) (Hf : fresh_frame m f).

Let m1 : mmu := wr_ram m (cr3 m + PDE_IDX v * 4) (mk_entry f).

Lemma new_table_pde d : 0 <= d < 1024 ->
  rd_ram m1 (cr3 m + d * 4) = if decide (d = PDE_IDX v) then mk_entry f else rd_ram m (cr3 m + d * 4).
Proof.
  intros Hd. unfold m1. rewrite rd_wr_ram. destruct (mk_entry_spec f) as (_ & _ & ->); [apply Hf|].
  repeat case_decide; try done; lia.
Qed.

Lemma new_table_wf : pt_wf m1.
Proof.
  pose proof (low_va_idx v Hv). destruct (mk_entry_spec f) as (Hfr & Hpr & _); [apply Hf|].
  pose proof (new_table_pde 1023 ltac:(lia)) as H1023. change (1023 * 4) with 4092 in H1023.
  rewrite decide_False in H1023 by lia.
  split; [split; change (cr3 m1) with (cr3 m); rewrite ?H1023; apply Hwf|].
  intros d Hd. change (cr3 m1) with (cr3 m). rewrite new_table_pde by lia. case_decide.
  - intros _. rewrite Hfr. apply Hf.
  - by apply Hwf.
Qed.

Lemma new_table_pde_of va : is_u32 va ->
  pde_of m1 va = if decide (PDE_IDX va = PDE_IDX v) then mk_entry f else pde_of m va.
Proof. intros Hva. by apply new_table_pde, PDE_IDX_range. Qed.

(** Writes inside the new table keep the directory, hence the window. *)
Lemma new_table_window m' k :
  only_frame f m1 m' -> 0 <= k < 1024 ->
  translate m' (mk_va 1023 (PDE_IDX v) 0 + 4 * k) = Done (f + k * 4).
Proof.
  intros Ho Hk. pose proof (low_va_idx v Hv). pose proof Hf as (Hal & Hne & _).
  assert (forall d, 0 <= d < 1024 -> rd_ram m' (cr3 m + d * 4) = rd_ram m1 (cr3 m + d * 4)) as Hd.
  { intros d Hd. eapply only_frame_other; [exact Ho|done| |done|done].
    apply (cr3_aligned m), Hwf. }
  assert (cr3 m' = cr3 m) as Hc by (destruct Ho as [-> _]; done).
  destruct (mk_entry_spec f Hal) as (Hfr & Hpr & _).
  pose proof (wf_self m Hwf) as [_ Hsp Hsf].
  replace (mk_va 1023 (PDE_IDX v) 0 + 4 * k) with (mk_va 1023 (PDE_IDX v) (4 * k))
    by (unfold mk_va; lia).
  unfold translate, pte_loc. rewrite pde_of_mk, Hc, Hd, new_table_pde, decide_False by lia.
  change (1023 * 4) with 4092. rewrite Hsp, Hsf.
  destruct (mk_va_fields 1023 (PDE_IDX v) (4 * k)) as (_ & _ & -> & ->); [lia..|].
  rewrite Hd, new_table_pde, decide_True, Hpr, Hfr by (done || lia). f_equal. lia.
Qed.

Lemma new_table_zero :
  exists m2, vzero m1 (Z.land (pte_ptr v) 0xfffff000) (Z.to_nat (PG_SIZE / 4)) = Done m2 /\
    only_frame f m1 m2 /\ forall j, 0 <= j < 1024 -> rd_ram m2 (f + j * 4) = 0.
Proof.
  pose proof (low_va_idx v Hv). pose proof (PTE_IDX_range v).
  assert (Z.land (pte_ptr v) 0xfffff000 = mk_va 1023 (PDE_IDX v) 0) as ->.
  { rewrite pte_ptr_eq by auto.
    destruct (mk_va_fields 1023 (PDE_IDX v) (PTE_IDX v * 4)) as (Hu & _ & _ & Ho); [lia..|].
    rewrite land_high_eq by done. rewrite land_low in Ho. rewrite Ho. unfold mk_va. lia. }
  change (Z.to_nat (PG_SIZE / 4)) with 1024%nat.
  destruct (vzero_spec f 1024 m1 (mk_va 1023 (PDE_IDX v) 0) 0) as (m2 & E & Ho & Hz);
    [apply Hf|lia|lia| |].
  - intros m' Hm' k Hk. by apply new_table_window.
  - exists m2. split_and!; [done|done|]. intros j Hj. by rewrite Hz, decide_True by lia.
Qed.

Lemma new_table_frame_wf m2 : only_frame f m1 m2 ->
  pt_wf m2 /\ forall va, is_u32 va -> pde_of m2 va = pde_of m1 va.
Proof.
  intros Ho. pose proof Hf as (Hal & Hne & _).
  assert (aligned (cr3 m)) as Hca by (apply Hwf).
  assert (cr3 m2 = cr3 m) as Hc by (destruct Ho as [-> _]; done).
  assert (forall d, 0 <= d < 1024 -> rd_ram m2 (cr3 m + d * 4) = rd_ram m1 (cr3 m + d * 4)) as Hd.
  { intros d Hd. by eapply only_frame_other. }
  pose proof new_table_wf as [[Ha Hb He] Ht].
  change 4092 with (1023 * 4) in *. change (cr3 m1) with (cr3 m) in *.
  split; [split; [split|]|].
  - by rewrite Hc.
  - change 4092 with (1023 * 4). by rewrite Hc, Hd by lia.
  - change 4092 with (1023 * 4). by rewrite Hc, Hd by lia.
  - intros d Hdr. rewrite Hc, Hd by lia. by apply Ht.
  - intros va Hva. unfold pde_of. rewrite Hc. by apply Hd, PDE_IDX_range.
Qed.
End new_table.

(** ** [page_table_add] *)

(** The frames that hold the directory and the page tables. *)
Definition table_frame (m : mmu) (g : Z) : Prop :=
  g = cr3 m \/
  exists d, 0 <= d < 1023 /\ present (rd_ram m (cr3 m + d * 4)) = true /\
            frame (rd_ram m (cr3 m + d * 4)) = g.

(** The entry that maps [va] is the one that maps [v]. *)
Definition shares_entry (m : mmu) (va v : Z) : Prop :=
  present (pde_of m va) = true /\ pte_loc m va = pte_loc m v.

#[export] Instance shares_entry_dec m va v : Decision (shares_entry m va v).
Proof. unfold shares_entry. apply _. Defined.

Definition unmapped (m : mmu) (va : Z) : Prop := translate m va = Halt Page_fault.

Lemma unmapped_pte m va :
  unmapped m va -> present (pde_of m va) = true -> present (rd_ram m (pte_loc m va)) = false.
Proof.
  unfold unmapped, translate. intros H Hp. rewrite Hp in H.
  by destruct (present (rd_ram m (pte_loc m va))).
Qed.

(** After the call: what the address space has gained. *)
Record page_added (m m' : mmu) (v phy : Z) (new_table : Z -> Prop) : Prop := {
  pa_wf : pt_wf m';
  pa_cr3 : cr3 m' = cr3 m;
  pa_translate : forall va, low_va va ->
    translate m' va = if decide (shares_entry m' va v)
                      then Done (phy + va mod 4096) else translate m va;
  pa_here : shares_entry m' v v;
  pa_pde : forall va, low_va va ->
    pde_of m' va = pde_of m va \/
    (PDE_IDX va = PDE_IDX v /\ fresh_frame m (frame (pde_of m' va)) /\ present (pde_of m va) = false);
  pa_tables : forall g, table_frame m' g -> table_frame m g \/ new_table g;
  pa_data : forall g i, aligned g -> ~ table_frame m' g -> 0 <= i < 1024 ->
    rd_ram m' (g + i * 4) = rd_ram m (g + i * 4);
  (** only the directory entry and the table of [v] are written *)
  pa_words : forall pa, pa <> cr3 m + PDE_IDX v * 4 ->
    (forall j, 0 <= j < 1024 -> pa <> frame (pde_of m' v) + j * 4) -> rd_ram m' pa = rd_ram m pa
}.

Lemma table_frame_pde m va : low_va va -> present (pde_of m va) = true ->
  table_frame m (frame (pde_of m va)).
Proof. intros Hva Hp. right. exists (PDE_IDX va). split_and!; try done; by apply low_va_idx. Qed.

Lemma wr_pte_table_frame m v e g :
  pt_wf m -> low_va v -> present (pde_of m v) = true ->
  table_frame (wr_ram m (pte_loc m v) e) g <-> table_frame m g.
Proof.
  intros Hwf Hv Hp. unfold table_frame. rewrite cr3_wr_ram. f_equiv.
  apply exist_proper. intros d.
  split; intros (Hd & H); (split; [done|]); by rewrite wr_pte_pde in * by (done || lia).
Qed.

Lemma wr_pte_added m v phy N :
  pt_wf m -> low_va v -> present (pde_of m v) = true -> aligned phy ->
  page_added m (wr_ram m (pte_loc m v) (mk_entry phy)) v phy N.
Proof.
  intros Hwf Hv Hp Hphy. destruct (mk_entry_spec phy Hphy) as (Hfr & Hpr & Hu).
  assert (forall va, is_u32 va -> pde_of (wr_ram m (pte_loc m v) (mk_entry phy)) va = pde_of m va) as Hpde.
  { intros va Hva. by apply wr_pte_pde_of. }
  assert (forall va, is_u32 va -> pte_loc (wr_ram m (pte_loc m v) (mk_entry phy)) va = pte_loc m va) as Hloc.
  { intros va Hva. unfold pte_loc at 1. by rewrite Hpde. }
  split.
  - by apply wr_pte_wf.
  - done.
  - intros va Hva. rewrite wr_pte_translate by auto. rewrite Hu, Hpr, Hfr, land_low.
    assert (shares_entry (wr_ram m (pte_loc m v) (mk_entry phy)) va v <->
            present (pde_of m va) = true /\ pte_loc m va = pte_loc m v) as Hiff.
    { unfold shares_entry. rewrite !Hloc, Hpde by auto. done. }
    repeat case_decide; tauto.
  - split; [by rewrite Hpde by auto|done].
  - intros va Hva. left. by apply Hpde, low_va_u32.
  - intros g Hg. left. by rewrite wr_pte_table_frame in Hg.
  - intros g i Hg Hn Hi. rewrite rd_wr_ram, decide_False; [done|]. intros E.
    apply frame_word_inj in E as [E _]; [|auto|done|apply PTE_IDX_range|done].
    apply Hn. rewrite wr_pte_table_frame by done. rewrite <- E. by apply (table_frame_pde m v).
  - intros pa _ Hpa. rewrite Hpde in Hpa by auto. rewrite rd_wr_ram, decide_False; [done|].
    intros <-. apply (Hpa (PTE_IDX v)); [apply PTE_IDX_range|done].
Qed.

Lemma vload_pde m v : self_mapped m -> is_u32 v -> vload m (pde_ptr v) = Done (pde_of m v).
Proof. intros Hs Hv. unfold vload. by rewrite translate_pde_ptr. Qed.

Lemma vload_pte m v : self_mapped m -> is_u32 v -> present (pde_of m v) = true ->
  vload m (pte_ptr v) = Done (rd_ram m (pte_loc m v)).
Proof. intros Hs Hv Hp. unfold vload. by rewrite translate_pte_ptr. Qed.

Lemma vstore_pte m v x : self_mapped m -> is_u32 v -> present (pde_of m v) = true ->
  vstore m (pte_ptr v) x = Done (wr_ram m (pte_loc m v) x).
Proof. intros Hs Hv Hp. unfold vstore. by rewrite translate_pte_ptr. Qed.

Lemma present_false e : present e = false -> (Z.land e 1 =? 0) = true.
Proof. unfold present. by destruct (Z.land e 1 =? 0). Qed.

(** The directory entry was absent: the new table, then the entry in it. *)
Lemma new_table_added m v phy f m2 (N : Z -> Prop) :
  pt_wf m -> low_va v -> fresh_frame m f -> present (pde_of m v) = false -> aligned phy -> N f ->
  only_frame f (wr_ram m (cr3 m + PDE_IDX v * 4) (mk_entry f)) m2 ->
  (forall j, 0 <= j < 1024 -> rd_ram m2 (f + j * 4) = 0) ->
  present (pde_of m2 v) = true /\ pte_loc m2 v = f + PTE_IDX v * 4 /\ pt_wf m2 /\
  page_added m (wr_ram m2 (pte_loc m2 v) (mk_entry phy)) v phy N.
Proof.
  intros Hwf Hv Hf Hp Hphy HN Ho Hz.
  destruct (new_table_frame_wf m v f Hwf Hv Hf m2 Ho) as [Hwf2 Hpde2].
  destruct (mk_entry_spec f) as (Hfr & Hpr & _); [apply Hf|].
  assert (pde_of m2 v = mk_entry f) as Hpv.
  { rewrite Hpde2, new_table_pde_of, decide_True by auto. done. }
  assert (present (pde_of m2 v) = true) as Hp2 by (by rewrite Hpv).
  assert (pte_loc m2 v = f + PTE_IDX v * 4) as Hloc by (unfold pte_loc; by rewrite Hpv, Hfr).
  split_and!; [done|done|done|].
  pose proof (wr_pte_added m2 v phy N Hwf2 Hv Hp2 Hphy) as [Qwf Qcr Qtr Qh Qp Qt Qd _].
  assert (cr3 m2 = cr3 m) as Hc2 by (by destruct Ho as [-> _]).
  assert (forall va, low_va va -> PDE_IDX va <> PDE_IDX v -> pde_of m2 va = pde_of m va) as Hother.
  { intros va Hva Hne. rewrite Hpde2, new_table_pde_of, decide_False by auto. done. }
  assert (forall g i, aligned g -> g <> f -> g <> cr3 m -> 0 <= i < 1024 ->
            rd_ram m2 (g + i * 4) = rd_ram m (g + i * 4)) as Hkeep.
  { intros g i Hg Hgf Hgc Hi. erewrite only_frame_other; [|exact Ho|apply Hf|done|done|done].
    rewrite rd_wr_ram, decide_False; [done|]. intros E.
    apply frame_word_inj in E as [E _];
      [congruence|apply Hwf|done|by apply PDE_IDX_range, low_va_u32|done]. }
  assert (forall g, table_frame m2 g -> table_frame m g \/ g = f) as Htab.
  { intros g [->|(d & Hd & Hpd & Hg)]; [left; by left|]. rewrite Hc2 in *.
    assert (rd_ram m2 (cr3 m + d * 4) =
            if decide (d = PDE_IDX v) then mk_entry f else rd_ram m (cr3 m + d * 4)) as E.
    { erewrite only_frame_other; [|exact Ho|apply Hf|apply Hwf|apply Hf|lia].
      apply new_table_pde; [done..|lia]. }
    rewrite E in *. case_decide; [right; congruence|]. left. right. eauto. }
  split.
  - done.
  - by rewrite Qcr.
  - intros va Hva. rewrite Qtr by done. case_decide as Hs; [done|].
    assert (is_u32 va) as Hu by auto.
    destruct (decide (PDE_IDX va = PDE_IDX v)) as [E|E].
    + (* the new table: nothing but [v]'s entry is present *)
      assert (pde_of m2 va = mk_entry f) as Hpva by (unfold pde_of in *; by rewrite E).
      assert (pde_of m va = pde_of m v) as Hpm by (unfold pde_of; by rewrite E).
      unfold translate. rewrite Hpva, Hpr, Hpm, Hp.
      assert (pte_loc m2 va = f + PTE_IDX va * 4) as -> by (unfold pte_loc; by rewrite Hpva, Hfr).
      rewrite Hz by apply PTE_IDX_range. done.
    + pose proof (Hother va Hva E) as Epde. unfold translate. rewrite Epde.
      destruct (present (pde_of m va)) eqn:Epv; [|done].
      assert (rd_ram m2 (pte_loc m2 va) = rd_ram m (pte_loc m va)) as ->; [|done].
      unfold pte_loc. rewrite Epde. apply Hkeep; [auto| | |apply PTE_IDX_range].
      * destruct Hf as (_ & _ & Hf). apply Hf; [by apply low_va_idx|done].
      * by apply wf_pde.
  - done.
  - intros va Hva. rewrite wr_pte_pde_of, Hpde2, new_table_pde_of by auto.
    case_decide as E; [right; rewrite Hfr|by left].
    split_and!; [done|done|]. unfold pde_of in *. by rewrite E.
  - intros g Hg. apply Qt in Hg as [Hg|Hg]; [|by right]. apply Htab in Hg as [Hg| ->]; auto.
  - intros g i Hg Hn Hi. rewrite Qd by done. apply Hkeep; [done| | |done].
    + intros ->. apply Hn. apply (wr_pte_table_frame m2); try done.
      rewrite <- Hfr, <- Hpv. by apply table_frame_pde.
    + intros ->. apply Hn. left. by rewrite cr3_wr_ram.
  - intros pa Hpd Hpa. rewrite wr_pte_pde_of, Hpv, Hfr in Hpa by auto.
    rewrite rd_wr_ram, decide_False, (proj2 Ho), rd_wr_ram, decide_False; try done.
    rewrite Hloc. intros <-. apply (Hpa (PTE_IDX v)); [apply PTE_IDX_range|done].
Qed.

Lemma page_table_add_spec {P} (alloc : P -> outcome (P * Z)) m p v phy :
  pt_wf m -> low_va v -> unmapped m v -> aligned phy ->
  (present (pde_of m v) = false -> exists p' f, alloc p = Done (p', f) /\ fresh_frame m f) ->
  exists m' p', page_table_add alloc m p v phy = Done (m', p') /\
    page_added m m' v phy (fun g => present (pde_of m v) = false /\ alloc p = Done (p', g)) /\
    (present (pde_of m v) = true -> p' = p).
Proof.
  intros Hwf Hv Hun Hphy Halloc. assert (is_u32 v) as Hu by auto.
  pose proof (wf_self m Hwf) as Hself.
  unfold page_table_add. rewrite vload_pde by done. cbn [obind].
  change (negb (Z.land (pde_of m v) 1 =? 0)) with (present (pde_of m v)).
  change (Z.lor (Z.lor (Z.lor phy PG_US_U) PG_RW_W) PG_P_1) with (mk_entry phy).
  destruct (present (pde_of m v)) eqn:Hp.
  - rewrite vload_pte by done. cbn [obind].
    rewrite (present_false _ (unmapped_pte m v Hun Hp)). cbn [oassert obind].
    rewrite vstore_pte by done. cbn [obind]. do 2 eexists. split_and!; [done| |done].
    by apply wr_pte_added.
  - destruct Halloc as (p' & f & -> & Hf); [done|]. cbn [obind].
    unfold vstore at 1. rewrite translate_pde_ptr by done. cbn [obind].
    fold (mk_entry f).
    destruct (new_table_zero m v f Hwf Hv Hf) as (m2 & -> & Ho & Hz). cbn [obind].
    destruct (new_table_added m v phy f m2 (fun g => false = false /\ Done (p', f) = Done (p', g)))
      as (Hp2 & Hloc & Hwf2 & Hadd); try done.
    rewrite vload_pte by (done || apply Hwf2). cbn [obind].
    rewrite Hloc, Hz by apply PTE_IDX_range. change (Z.land 0 1 =? 0) with true.
    cbn [oassert obind]. rewrite vstore_pte by (done || apply Hwf2). cbn [obind].
    do 2 eexists. split_and!; [done|exact Hadd|done].
Qed.

(** Clearing the present bit: the page is unmapped, nothing else moves. *)
Lemma clear_present e : present (u32 (Z.land e (Z.lnot PG_P_1))) = false.
Proof.
  unfold present, u32, PG_P_1.
  change 4294967296 with (2 ^ 32). rewrite <- (Z.land_ones _ 32), <- !Z.land_assoc by lia.
  change (Z.land (Z.lnot 1) _) with 0. by rewrite Z.land_0_r.
Qed.

Lemma pte_remove_spec m v :
  pt_wf m -> low_va v -> present (pde_of m v) = true ->
  exists m', page_table_pte_remove m v = Done m' /\ pt_wf m' /\ cr3 m' = cr3 m /\
    (forall va, is_u32 va -> translate m' va = if decide (shares_entry m va v)
                                           then Halt Page_fault else translate m va) /\
    (forall g, table_frame m' g <-> table_frame m g) /\
    (forall va, is_u32 va -> pde_of m' va = pde_of m va) /\
    (forall g i, aligned g -> ~ table_frame m g -> 0 <= i < 1024 ->
       rd_ram m' (g + i * 4) = rd_ram m (g + i * 4)).
Proof.
  intros Hwf Hv Hp. assert (is_u32 v) as Hu by auto. pose proof (wf_self m Hwf) as Hself.
  unfold page_table_pte_remove. rewrite vload_pte by done. cbn [obind].
  rewrite vstore_pte by done. eexists. split_and!; [done|by apply wr_pte_wf|done| | | |].
  - intros va Hva. rewrite wr_pte_translate by done. by rewrite clear_present.
  - intros g. by apply wr_pte_table_frame.
  - intros va Hva. by apply wr_pte_pde_of.
  - intros g i Hg Hn Hi. rewrite rd_wr_ram, decide_False; [done|]. intros E.
    apply frame_word_inj in E as [E _]; [|auto|done|apply PTE_IDX_range|done].
    apply Hn. rewrite <- E. by apply (table_frame_pde m v).
Qed.

Lemma addr_v2p_spec m v pa :
  self_mapped m -> is_u32 v -> translate m v = Done pa -> addr_v2p m v = Done pa.
Proof.
  intros Hs Hv Ht. unfold translate in Ht. destruct (present (pde_of m v)) eqn:Hp; [|done].
  unfold addr_v2p. rewrite vload_pte by done. cbn [obind].
  destruct (present (rd_ram m (pte_loc m v))); [|done]. injection Ht as <-.
  f_equal. change (Z.land (rd_ram m (pte_loc m v)) 0xfffff000) with (frame (rd_ram m (pte_loc m v))).
  destruct (aligned_range (frame (rd_ram m (pte_loc m v))) (frame_aligned _)) as [? ?].
  rewrite land_low. pose proof (Z.mod_pos_bound v 4096). apply u32_id. unfold is_u32. lia.
Qed.

(** The recursive mapping is right.  In a recursively mapped address space
    the pointers computed by [pde_ptr] and [pte_ptr] are the virtual addresses
    at which the MMU finds exactly the directory entry and (when the page table
    exists) the table entry of [vaddr]; without the table, using [pte_ptr]
    faults; and [addr_v2p] computes the address the MMU computes. *)
Theorem recursive_mapping (m : mmu) (v : Z) (Hself : self_mapped m) (Hv : is_u32 v) :
  translate m (pde_ptr v) = Done (cr3 m + PDE_IDX v * 4) /\
  translate m (pte_ptr v) =
    (if present (pde_of m v) then Done (pte_loc m v) else Halt Page_fault) /\
  (forall pa, translate m v = Done pa -> addr_v2p m v = Done pa).
Proof.
  split_and!.
  - by apply translate_pde_ptr.
  - destruct (present (pde_of m v)) eqn:E;
      [by apply translate_pte_ptr|by apply translate_pte_ptr_fault].
  - intros pa. by apply addr_v2p_spec.
Qed.

(** A directory at 0x100000 with the recursive entry and the first table, and
    one page mapped: 0xc0000000 and 0 at 0x5000. *)
Definition ex_mmu : mmu := mk_mmu 0x100000
  (<[0x100ffc := 0x100007]> (<[0x100c00 := 0x101007]> (<[0x100000 := 0x101007]>
    (<[0x101000 := 0x5007]> ∅)))).

(** What the example directory and its table hold. *)
Lemma ex_mmu_pde d : 0 <= d < 1023 ->
  rd_ram ex_mmu (0x100000 + d * 4) = if (d =? 0) || (d =? 768) then 0x101007 else 0.
Proof.
  intros Hd. apply Z.eqb_eq. revert d Hd.
  refine (forallZ_spec 1023 (fun d => rd_ram ex_mmu (0x100000 + d * 4) =?
            if (d =? 0) || (d =? 768) then 0x101007 else 0) _). by vm_compute.
Qed.

Lemma ex_mmu_pte t : 0 <= t < 1024 ->
  rd_ram ex_mmu (0x101000 + t * 4) = if t =? 0 then 0x5007 else 0.
Proof.
  intros Ht. apply Z.eqb_eq. revert t Ht.
  refine (forallZ_spec 1024 (fun t => rd_ram ex_mmu (0x101000 + t * 4) =?
            if t =? 0 then 0x5007 else 0) _). by vm_compute.
Qed.

Lemma ex_mmu_tables d : 0 <= d < 1023 -> present (rd_ram ex_mmu (cr3 ex_mmu + d * 4)) = true ->
  frame (rd_ram ex_mmu (cr3 ex_mmu + d * 4)) = 0x101000.
Proof.
  intros Hd. change (cr3 ex_mmu) with 0x100000. rewrite ex_mmu_pde by done.
  by destruct (_ || _).
Qed.

Lemma ex_mmu_wf : pt_wf ex_mmu.
Proof.
  split; [by repeat split|]. intros d Hd Hp. rewrite ex_mmu_tables by done. by vm_compute.
Qed.

Lemma ex_mmu_translate va : low_va va ->
  translate ex_mmu va =
    if ((PDE_IDX va =? 0) || (PDE_IDX va =? 768)) && (PTE_IDX va =? 0)
    then Done (0x5000 + va mod 4096) else Halt Page_fault.
Proof.
  intros Hva. unfold translate, pte_loc, pde_of. change (cr3 ex_mmu) with 0x100000.
  rewrite ex_mmu_pde by (by apply low_va_idx).
  destruct (_ || _); cbn [andb]; [|done]. change (present 0x101007) with true.
  change (frame 0x101007) with 0x101000. rewrite ex_mmu_pte by apply PTE_IDX_range.
  destruct (_ =? 0); [|done]. change (present 0x5007) with true. cbn iota.
  change (frame 0x5007) with 0x5000. by rewrite land_low.
Qed.

Lemma recursive_mapping_witness :
  translate ex_mmu (pde_ptr 0xc0000123) = Done 0x100c00 /\
  translate ex_mmu (pte_ptr 0xc0000123) = Done 0x101000 /\
  addr_v2p ex_mmu 0xc0000123 = Done 0x5123.
Proof.
  destruct (recursive_mapping ex_mmu 0xc0000123) as (H1 & H2 & H3).
  - by repeat split.
  - unfold is_u32. lia.
  - split_and!; [exact H1|exact H2|]. by apply H3.
Defined.

(** C5: [page_table_add] maps exactly one page.  In a well-formed address
    space, for an unmapped page and a page-aligned frame, and with [palloc]
    giving an unused frame when a page table has to be created,
    [page_table_add] returns (neither its [ASSERT] nor a fault stops it), the
    page is translated to the frame, every other page below the recursive
    window translates as before (unless it shares the very table entry, as the
    two boot mappings of low memory do), the address space stays well-formed,
    the only new table frame is the one allocated, and no word outside the
    table frames changes. *)
Theorem page_table_add_correct {P : Type} (alloc : P -> outcome (P * Z)) (m : mmu) (p : P)
    (v phy : Z) (Hwf : pt_wf m) (Hv : low_va v) (Hun : unmapped m v) (Hphy : aligned phy)
    (Halloc : present (pde_of m v) = false ->
              exists p' f, alloc p = Done (p', f) /\ fresh_frame m f) :
  exists m' p', page_table_add alloc m p v phy = Done (m', p') /\ pt_wf m' /\
    translate m' v = Done (phy + v mod 4096) /\
    (forall va, low_va va -> ~ shares_entry m' va v -> translate m' va = translate m va) /\
    (forall g, table_frame m' g -> table_frame m g \/ alloc p = Done (p', g)) /\
    (forall g i, aligned g -> ~ table_frame m' g -> 0 <= i < 1024 ->
       rd_ram m' (g + i * 4) = rd_ram m (g + i * 4)).
Proof.
  destruct (page_table_add_spec alloc m p v phy) as (m' & p' & E & [] & _); try done.
  exists m', p'. split_and!; try done.
  - by rewrite pa_translate0, decide_True.
  - intros va Hva Hn. by rewrite pa_translate0, decide_False.
  - intros g Hg. apply pa_tables0 in Hg as [?|[_ ?]]; auto.
Qed.

Lemma page_table_add_correct_witness :
  exists m' p', page_table_add (fun p => Done (tt, 0x200000)) ex_mmu tt 0x08048000 0x300000
      = Done (m', p') /\ pt_wf m' /\
    translate m' 0x08048000 = Done (0x300000 + 0x08048000 mod 4096) /\
    (forall va, low_va va -> ~ shares_entry m' va 0x08048000 -> translate m' va = translate ex_mmu va) /\
    (forall g, table_frame m' g -> table_frame ex_mmu g \/ Done (tt, 0x200000) = Done (p', g)) /\
    (forall g i, aligned g -> ~ table_frame m' g -> 0 <= i < 1024 ->
       rd_ram m' (g + i * 4) = rd_ram ex_mmu (g + i * 4)).
Proof.
  apply (page_table_add_correct (fun p => Done (tt, 0x200000))).
  - apply ex_mmu_wf.
  - unfold low_va. lia.
  - by vm_compute.
  - by vm_compute.
  - intros _. exists tt, 0x200000. split; [done|]. split_and!; [by vm_compute|done|].
    intros d Hd Hp. rewrite ex_mmu_tables by done. lia.
Defined.
