(* ===== verification/Seqlock.v ===== *)
(** * Seqlock: what [struct lock] promises to code run by one thread

    The memory manager and the file system take locks around their critical
    sections.  Their models run one thread at a time; for them a lock is its
    holder, the value of its semaphore and the repeat count, and acquiring a
    lock that another thread holds is [Would_block].  [Sync] models the lock
    with its wait queue and the scheduler and shows that, uncontended, it
    behaves as here. *)

From stdpp Require Import base numbers.
From S2P Require Import Prelude.

Local Open Scope Z_scope.
Local Open Scope kernel_scope.

(** [holder] is the address of a PCB, 0 for [NULL]. *)
Record slock : Type := mk_slock { sl_holder : Z; sl_value : Z; sl_repeat : Z }.

Definition slock_init : slock := mk_slock 0 1 0.

Definition slock_acquire (cur : Z) (l : slock) : outcome slock :=
  if negb (sl_holder l =? cur) then
    if sl_value l =? 0 then Halt Would_block else
    ASSERT (u8 (sl_value l - 1) =? 0) in
    ASSERT (sl_repeat l =? 0) in
    Done (mk_slock cur (u8 (sl_value l - 1)) 1)
  else Done (mk_slock (sl_holder l) (sl_value l) (u32 (sl_repeat l + 1))).

Definition slock_release (cur : Z) (l : slock) : outcome slock :=
  ASSERT (sl_holder l =? cur) in
  if 1 <? sl_repeat l then Done (mk_slock (sl_holder l) (sl_value l) (sl_repeat l - 1)) else
  ASSERT (sl_repeat l =? 1) in
  ASSERT (sl_value l =? 0) in
  Done (mk_slock 0 (u8 (sl_value l + 1)) 0).

(** Either free, or held with a positive count below the counter's limit. *)
Definition slock_ok (cur : Z) (l : slock) : Prop :=
  (l = slock_init) \/ (sl_holder l = cur /\ sl_value l = 0 /\ 1 <= sl_repeat l < 4294967295).

Lemma slock_roundtrip cur l :
  cur <> 0 -> slock_ok cur l ->
  exists l', slock_acquire cur l = Done l' /\ sl_holder l' = cur /\ sl_value l' = 0 /\
    1 <= sl_repeat l' < 4294967296 /\ slock_release cur l' = Done l.
Proof.
  intros Hc [->|(Hh & Hv & Hr)]; unfold slock_acquire, slock_release.
  - cbn [slock_init sl_holder sl_value sl_repeat]. rewrite (proj2 (Z.eqb_neq 0 cur)) by done.
    cbn. eexists. split_and!; [done|done|done|cbn; lia..|]. cbn. by rewrite Z.eqb_refl.
  - rewrite Hh, Z.eqb_refl. cbn [negb]. rewrite (u32_id (sl_repeat l + 1)) by (unfold is_u32; lia).
    eexists. split_and!; [done|done|done|cbn; lia..|]. cbn [sl_holder sl_value sl_repeat].
    rewrite Z.eqb_refl. cbn [oassert obind]. rewrite (proj2 (Z.ltb_lt 1 (sl_repeat l + 1))) by lia.
    f_equal. destruct l. cbn in *. subst. f_equal. lia.
Qed.
