(* ===== verification/Memory.v ===== *)
(** * Memory: the page allocator of [kernel/memory.c]

    Two physical pools and two virtual address pools (the kernel's and the
    running process's), each a bitmap with one bit per page; [malloc_page] and
    [mfree_page] tie them together through the page tables of [Paging]. *)

From stdpp Require Import base numbers list gmap.
From S2P Require Import Prelude Bitmap Paging Seqlock.

Local Open Scope Z_scope.
Local Open Scope kernel_scope.

Inductive pool_flags : Type := PF_KERNEL | PF_USER.

Record pool : Type := mk_pool {
  pool_bitmap : bitmap;
  phy_addr_start : Z;
  pool_size : Z;
  pool_lock : slock
}.

Record virtual_addr : Type := mk_vaddr {
  vaddr_bitmap : bitmap;
  vaddr_start : Z
}.

(** The globals of [memory.c] and what it reads of the running thread. *)
Record mst : Type := mk_mst {
  machine : mmu;
  kernel_pool : pool;
  user_pool : pool;
  kernel_vaddr : virtual_addr;
  cur : Z;                        (** [running_thread()] *)
  cur_pgdir : Z;                  (** [running_thread()->pgdir], 0 for [NULL] *)
  userprog_vaddr : virtual_addr   (** [running_thread()->userprog_vaddr] *)
}.

#[export] Instance pool_flags_eq_dec : EqDecision pool_flags.
Proof. solve_decision. Defined.

Definition MEM_BITMAP_BASE : Z := 0xc009a000.

(** [pf & PF_KERNEL ? &kernel_pool : &user_pool] *)
Definition pool_of (pf : pool_flags) (st : mst) : pool :=
  match pf with PF_KERNEL => kernel_pool st | PF_USER => user_pool st end.
Definition set_pool (pf : pool_flags) (p : pool) (st : mst) : mst :=
  match pf with
  | PF_KERNEL => mk_mst (machine st) p (user_pool st) (kernel_vaddr st) (cur st) (cur_pgdir st) (userprog_vaddr st)
  | PF_USER => mk_mst (machine st) (kernel_pool st) p (kernel_vaddr st) (cur st) (cur_pgdir st) (userprog_vaddr st)
  end.
Definition vaddr_of (pf : pool_flags) (st : mst) : virtual_addr :=
  match pf with PF_KERNEL => kernel_vaddr st | PF_USER => userprog_vaddr st end.
Definition set_vaddr (pf : pool_flags) (v : virtual_addr) (st : mst) : mst :=
  match pf with
  | PF_KERNEL => mk_mst (machine st) (kernel_pool st) (user_pool st) v (cur st) (cur_pgdir st) (userprog_vaddr st)
  | PF_USER => mk_mst (machine st) (kernel_pool st) (user_pool st) (kernel_vaddr st) (cur st) (cur_pgdir st) v
  end.
Definition set_machine (m : mmu) (st : mst) : mst :=
  mk_mst m (kernel_pool st) (user_pool st) (kernel_vaddr st) (cur st) (cur_pgdir st) (userprog_vaddr st).

Definition set_pool_bitmap (b : bitmap) (p : pool) : pool :=
  mk_pool b (phy_addr_start p) (pool_size p) (pool_lock p).
Definition set_pool_lock (l : slock) (p : pool) : pool :=
  mk_pool (pool_bitmap p) (phy_addr_start p) (pool_size p) l.

Definition NULL : Z := 0.

(** ** Virtual and physical pages *)
Definition vaddr_get (pf : pool_flags) (pg_cnt : Z) : M mst Z := fun st =>
  let v := vaddr_of pf st in
  olet bit_idx_start := bitmap_scan (vaddr_bitmap v) pg_cnt in
  if bit_idx_start =? -1 then Done (NULL, st) else
  olet b := bitmap_set_range (vaddr_bitmap v) bit_idx_start (Z.to_nat pg_cnt) 1 in
  let st := set_vaddr pf (mk_vaddr b (vaddr_start v)) st in
  let start := u32 (vaddr_start v + bit_idx_start * PG_SIZE) in
  match pf with
  | PF_KERNEL => Done (start, st)
  | PF_USER => ASSERT (start <? 0xc0000000 - PG_SIZE) in Done (start, st)
  end.

Definition palloc (m_pool : pool) : outcome (pool * Z) :=
  olet bit_idx := bitmap_scan (pool_bitmap m_pool) 1 in
  if bit_idx =? -1 then Done (m_pool, NULL) else
  olet b := bitmap_set (pool_bitmap m_pool) bit_idx 1 in
  Done (set_pool_bitmap b m_pool, u32 (bit_idx * PG_SIZE + phy_addr_start m_pool)).

Definition palloc_from (pf : pool_flags) : M mst Z := fun st =>
  olet (p, a) := palloc (pool_of pf st) in Done (a, set_pool pf p st).

(** The page table's own frames always come from the kernel pool. *)
Definition page_table_add_st (vaddr page_phyaddr : Z) : M mst unit := fun st =>
  olet (m, p) := page_table_add palloc (machine st) (kernel_pool st) vaddr page_phyaddr in
  Done (tt, set_machine m (set_pool PF_KERNEL p st)).

(** The loop of [malloc_page]: [true] when all the pages were mapped. *)
Fixpoint map_pages (pf : pool_flags) (cnt : nat) (vaddr : Z) : M mst bool :=
  match cnt with
  | O => ret true
  | S cnt =>
      let! page_phyaddr := palloc_from pf in
      if page_phyaddr =? NULL then ret false else
      page_table_add_st vaddr page_phyaddr ;;;
      map_pages pf cnt (u32 (vaddr + PG_SIZE))
  end.

Definition malloc_page (pf : pool_flags) (pg_cnt : Z) : M mst Z :=
  assertM ((0 <? pg_cnt) && (pg_cnt <? 3840)) ;;;
  let! vaddr_start := vaddr_get pf pg_cnt in
  if vaddr_start =? NULL then ret NULL else
  let! ok := map_pages pf (Z.to_nat pg_cnt) vaddr_start in
  ret (if ok then vaddr_start else NULL).

Definition lock_acquire (pf : pool_flags) : M mst unit := fun st =>
  olet l := slock_acquire (cur st) (pool_lock (pool_of pf st)) in
  Done (tt, set_pool pf (set_pool_lock l (pool_of pf st)) st).
Definition lock_release (pf : pool_flags) : M mst unit := fun st =>
  olet l := slock_release (cur st) (pool_lock (pool_of pf st)) in
  Done (tt, set_pool pf (set_pool_lock l (pool_of pf st)) st).

(** [memset(vaddr, 0, size)] for an aligned address and a size in whole words. *)
Definition memset0 (vaddr size : Z) : M mst unit := fun st =>
  olet m := vzero (machine st) vaddr (Z.to_nat (size / 4)) in Done (tt, set_machine m st).

Definition get_pages (pf : pool_flags) (pg_cnt : Z) : M mst Z :=
  lock_acquire pf ;;;
  let! vaddr := malloc_page pf pg_cnt in
  (if negb (vaddr =? NULL) then memset0 vaddr (pg_cnt * PG_SIZE) else ret tt) ;;;
  lock_release pf ;;;
  ret vaddr.
Definition get_kernel_pages (pg_cnt : Z) : M mst Z := get_pages PF_KERNEL pg_cnt.
Definition get_user_pages (pg_cnt : Z) : M mst Z := get_pages PF_USER pg_cnt.

Definition set_vaddr_bit (pf : pool_flags) (bit_idx value : Z) : M mst unit := fun st =>
  olet b := bitmap_set (vaddr_bitmap (vaddr_of pf st)) bit_idx value in
  Done (tt, set_vaddr pf (mk_vaddr b (vaddr_start (vaddr_of pf st))) st).

Definition get_a_page (pf : pool_flags) (vaddr : Z) : M mst Z :=
  lock_acquire pf ;;;
  let! st := gets id in
  (if negb (cur_pgdir st =? NULL) && bool_decide (pf = PF_USER) then
     let bit_idx := i32 (u32 (vaddr - vaddr_start (userprog_vaddr st)) / PG_SIZE) in
     assertM (0 <=? bit_idx) ;;;
     set_vaddr_bit PF_USER bit_idx 1
   else if (cur_pgdir st =? NULL) && bool_decide (pf = PF_KERNEL) then
     let bit_idx := i32 (u32 (vaddr - vaddr_start (kernel_vaddr st)) / PG_SIZE) in
     assertM (0 <? bit_idx) ;;;
     set_vaddr_bit PF_KERNEL bit_idx 1
   else halt Panicked) ;;;
  let! page_phyaddr := palloc_from pf in
  if page_phyaddr =? NULL then lock_release pf ;;; ret NULL else
  page_table_add_st vaddr page_phyaddr ;;;
  lock_release pf ;;;
  ret vaddr.

Definition get_a_page_without_opvaddrbitmap (pf : pool_flags) (vaddr : Z) : M mst Z :=
  lock_acquire pf ;;;
  let! page_phyaddr := palloc_from pf in
  if page_phyaddr =? NULL then lock_release pf ;;; ret NULL else
  page_table_add_st vaddr page_phyaddr ;;;
  lock_release pf ;;;
  ret vaddr.

(** ** Freeing *)
Definition pfree (pg_phy_addr : Z) : M mst unit := fun st =>
  let pf := if phy_addr_start (user_pool st) <=? pg_phy_addr then PF_USER else PF_KERNEL in
  let p := pool_of pf st in
  let bit_idx := u32 (pg_phy_addr - phy_addr_start p) / PG_SIZE in
  olet b := bitmap_set (pool_bitmap p) bit_idx 0 in
  Done (tt, set_pool pf (set_pool_bitmap b p) st).

(** [free_a_phy_page] has the same body. *)
Definition free_a_phy_page (pg_phy_addr : Z) : M mst unit := fun st =>
  let pf := if phy_addr_start (user_pool st) <=? pg_phy_addr then PF_USER else PF_KERNEL in
  let p := pool_of pf st in
  let bit_idx := u32 (pg_phy_addr - phy_addr_start p) / PG_SIZE in
  olet b := bitmap_set (pool_bitmap p) bit_idx 0 in
  Done (tt, set_pool pf (set_pool_bitmap b p) st).

Definition pte_remove_st (vaddr : Z) : M mst unit := fun st =>
  olet m := page_table_pte_remove (machine st) vaddr in Done (tt, set_machine m st).

Definition vaddr_remove (pf : pool_flags) (vaddr pg_cnt : Z) : M mst unit := fun st =>
  let v := vaddr_of pf st in
  let bit_idx_start := u32 (vaddr - vaddr_start v) / PG_SIZE in
  olet b := bitmap_set_range (vaddr_bitmap v) bit_idx_start (Z.to_nat pg_cnt) 0 in
  Done (tt, set_vaddr pf (mk_vaddr b (vaddr_start v)) st).

(** The loops of [mfree_page]; [low] and [high] are the bounds that the
    branch's [ASSERT] checks ([high] is [None] for the user pool). *)
Fixpoint unmap_pages (low : Z) (high : option Z) (cnt : nat) (vaddr : Z) : M mst unit :=
  match cnt with
  | O => ret tt
  | S cnt =>
      let! st := gets id in
      let! pg_phy_addr := lift (addr_v2p (machine st) vaddr) in
      assertM ((pg_phy_addr mod PG_SIZE =? 0) && (low <=? pg_phy_addr)
               && match high with Some h => pg_phy_addr <? h | None => true end) ;;;
      pfree pg_phy_addr ;;;
      pte_remove_st vaddr ;;;
      unmap_pages low high cnt (u32 (vaddr + PG_SIZE))
  end.

Definition mfree_page (pf : pool_flags) (_vaddr pg_cnt : Z) : M mst unit :=
  assertM ((1 <=? pg_cnt) && (_vaddr mod PG_SIZE =? 0)) ;;;
  let! st := gets id in
  let! pg_phy_addr := lift (addr_v2p (machine st) _vaddr) in
  assertM ((pg_phy_addr mod PG_SIZE =? 0) && (0x102000 <=? pg_phy_addr)) ;;;
  (if phy_addr_start (user_pool st) <=? pg_phy_addr
   then unmap_pages (phy_addr_start (user_pool st)) None (Z.to_nat pg_cnt) _vaddr
   else unmap_pages (phy_addr_start (kernel_pool st)) (Some (phy_addr_start (user_pool st)))
          (Z.to_nat pg_cnt) _vaddr) ;;;
  vaddr_remove pf _vaddr pg_cnt.

(** ** Initialisation

    [low] is the memory from [MEM_BITMAP_BASE], where the three bitmaps are
    laid one after the other; the console output is left out. *)
Definition mem_pool_init (low : list Z) (all_mem : Z) (st : mst) : outcome mst :=
  let page_table_size := PG_SIZE * 256 in
  let used_mem := page_table_size + 0x100000 in
  let free_mem := u32 (all_mem - used_mem) in
  let all_free_pages := u16 (free_mem / PG_SIZE) in
  let kernel_free_pages := u16 (all_free_pages / 2) in
  let user_free_pages := u16 (all_free_pages - kernel_free_pages) in
  let kbm_length := kernel_free_pages / 8 in
  let ubm_length := user_free_pages / 8 in
  let kp_start := used_mem in
  let up_start := u32 (kp_start + kernel_free_pages * PG_SIZE) in
  olet kb := bitmap_init (mk_bitmap kbm_length low) in
  let low_u := drop (Z.to_nat kbm_length) (bits kb) in
  olet ub := bitmap_init (mk_bitmap ubm_length low_u) in
  let low_v := drop (Z.to_nat ubm_length) (bits ub) in
  olet vb := bitmap_init (mk_bitmap kbm_length low_v) in
  let kbits := take (Z.to_nat kbm_length) (bits kb) ++ take (Z.to_nat ubm_length) (bits ub) ++ bits vb in
  Done (mk_mst (machine st)
          (mk_pool (mk_bitmap kbm_length kbits) kp_start (kernel_free_pages * PG_SIZE) slock_init)
          (mk_pool (mk_bitmap ubm_length (drop (Z.to_nat kbm_length) kbits)) up_start
             (user_free_pages * PG_SIZE) slock_init)
          (mk_vaddr (mk_bitmap kbm_length (bits vb)) K_HEAP_START)
          (cur st) (cur_pgdir st) (userprog_vaddr st)).

(** ** Free pages of a bitmap *)
Definition free_bits (b : bitmap) : nat :=
  length (filter (fun i => used b i = false) (seqZ 0 (nbits b))).

Lemma free_bits_pos b : (0 < free_bits b)%nat -> exists i, 0 <= i < nbits b /\ used b i = false.
Proof.
  unfold free_bits. intros H.
  destruct (filter (fun i => used b i = false) (seqZ 0 (nbits b))) as [|i l] eqn:E; [cbn in H; lia|].
  assert (i ∈ filter (fun i => used b i = false) (seqZ 0 (nbits b))) as Hi
    by (rewrite E; left).
  apply list_elem_of_filter in Hi as [? Hi%elem_of_seqZ]. exists i. split; [lia|done].
Qed.

(** Setting one clear bit leaves one free bit fewer. *)
Lemma free_bits_set b b' i :
  same_shape b b' -> 0 <= i < nbits b -> used b i = false ->
  (forall j, 0 <= j -> used b' j = if decide (j = i) then true else used b j) ->
  free_bits b = S (free_bits b').
Proof.
  intros [Hs _] Hi Hf Hu. unfold free_bits, nbits in *. rewrite Hs.
  apply (filter_flip _ _ _ i).
  - apply NoDup_seqZ.
  - apply elem_of_seqZ. lia.
  - done.
  - rewrite Hu, decide_True by lia. done.
  - intros x Hx%elem_of_seqZ Hne. rewrite Hu, decide_False by (done || lia). done.
Qed.

(** ** Well-formed pools *)
Definition pframe (p : pool) (i : Z) : Z := phy_addr_start p + i * PG_SIZE.

Definition pused (p : pool) (i : Z) : bool := used (pool_bitmap p) i.
Definition psize (p : pool) : Z := nbits (pool_bitmap p).

Record pool_wf (p : pool) : Prop := {
  pw_bitmap : bitmap_wf (pool_bitmap p);
  pw_aligned : phy_addr_start p mod PG_SIZE = 0;
  pw_range : PG_SIZE <= phy_addr_start p /\ pframe p (psize p) <= 4294967296
}.

Lemma pframe_aligned p i : pool_wf p -> 0 <= i < psize p -> aligned (pframe p i).
Proof.
  intros [Hb Ha Hr] Hi. unfold pframe, PG_SIZE in *. apply aligned_mult; [lia|].
  rewrite Z.mod_add by lia. done.
Qed.

(** The pool after frame [i] changed to [v] ([true]: taken). *)
Record pool_upd (p p' : pool) (i : Z) (v : bool) : Prop := {
  pu_wf : pool_wf p';
  pu_start : phy_addr_start p' = phy_addr_start p;
  pu_psize : psize p' = psize p;
  pu_size : pool_size p' = pool_size p;
  pu_lock : pool_lock p' = pool_lock p;
  pu_used : forall j, 0 <= j -> pused p' j = if decide (j = i) then v else pused p j
}.

Lemma bitmap_upd_pool p b i v :
  pool_wf p -> bitmap_wf b -> same_shape (pool_bitmap p) b ->
  (forall j, 0 <= j -> used b j = if decide (j = i) then v else pused p j) ->
  pool_upd p (set_pool_bitmap b p) i v.
Proof.
  intros [Hb Ha Hr] Hb' [Hl1 Hl2] Hu.
  assert (psize (set_pool_bitmap b p) = psize p) as Hs by (unfold psize, nbits; cbn; by rewrite Hl1).
  split; try done. split; [done|done|]. rewrite Hs. done.
Qed.

Lemma palloc_spec p :
  pool_wf p -> (0 < free_bits (pool_bitmap p))%nat ->
  exists i p', palloc p = Done (p', pframe p i) /\ 0 <= i < psize p /\ pused p i = false /\
    pool_upd p p' i true /\ free_bits (pool_bitmap p) = S (free_bits (pool_bitmap p')).
Proof.
  intros Hp Hfree. pose proof Hp as [Hb Ha Hr].
  destruct (free_bits_pos _ Hfree) as (k & Hk & Hku).
  destruct (first_free_exists _ k Hk Hku) as (i & Hff & _).
  unfold palloc. rewrite (bitmap_scan_start _ 1 i Hb Hff). cbn [Z.eqb Pos.eqb obind].
  destruct Hff as (Hi & Hiu & _).
  rewrite (proj2 (Z.eqb_neq i (-1))) by lia.
  pose proof (wf_len _ Hb) as Hlen.
  destruct (bitmap_set_spec (pool_bitmap p) i 1) as (b' & -> & Hb' & Hsh & Hu); [done|lia| |auto|].
  { apply Z.div_lt_upper_bound; unfold nbits in *; lia. }
  cbn [obind]. exists i, (set_pool_bitmap b' p).
  assert (pool_upd p (set_pool_bitmap b' p) i true) as Hupd by (by apply bitmap_upd_pool).
  split_and!; try done; [|lia|unfold psize; lia|].
  - f_equal. f_equal. unfold pframe, psize, PG_SIZE, nbits in *. rewrite u32_id; [lia|].
    unfold is_u32. lia.
  - by apply free_bits_set with i.
Qed.

(** ** The invariant of the page allocator *)
Definition vpage (v : virtual_addr) (i : Z) : Z := vaddr_start v + i * PG_SIZE.
Definition vused (v : virtual_addr) (i : Z) : bool := used (vaddr_bitmap v) i.
Definition vsize (v : virtual_addr) : Z := nbits (vaddr_bitmap v).

(** [va] belongs to a page that one of the two virtual pools hands out. *)
Definition managed (st : mst) (va : Z) : Prop :=
  exists pf i, 0 <= i < vsize (vaddr_of pf st) /\
    vpage (vaddr_of pf st) i <= va < vpage (vaddr_of pf st) i + PG_SIZE.

Record vaddr_wf (v : virtual_addr) : Prop := {
  vw_bitmap : bitmap_wf (vaddr_bitmap v);
  vw_aligned : vaddr_start v mod PG_SIZE = 0;
  vw_range : 0 <= vaddr_start v /\ vpage v (vsize v) <= 0xffc00000;
  vw_null : 0 < vsize v -> PG_SIZE <= vaddr_start v
}.

Record mem_wf (st : mst) : Prop := {
  mw_pt : pt_wf (machine st);
  mw_pool : forall pf, pool_wf (pool_of pf st);
  mw_order : pframe (kernel_pool st) (psize (kernel_pool st)) <= phy_addr_start (user_pool st);
  mw_vaddr : forall pf, vaddr_wf (vaddr_of pf st);
  mw_vsep : 0 < vsize (userprog_vaddr st) ->
    vpage (userprog_vaddr st) (vsize (userprog_vaddr st)) <= vaddr_start (kernel_vaddr st);
  (** the directory and the tables are taken frames *)
  mw_tables : forall pf i, 0 <= i < psize (pool_of pf st) ->
    table_frame (machine st) (pframe (pool_of pf st) i) -> pused (pool_of pf st) i = true;
  (** so is every frame something is mapped to *)
  mw_mapped : forall pf i va pa, 0 <= i < psize (pool_of pf st) -> low_va va ->
    translate (machine st) va = Done pa -> frame pa = pframe (pool_of pf st) i ->
    pused (pool_of pf st) i = true;
  (** no frame backs two pages, but for aliases of one table entry *)
  mw_sole : forall pf i va1 va2 pa1 pa2, 0 <= i < psize (pool_of pf st) ->
    low_va va1 -> low_va va2 ->
    translate (machine st) va1 = Done pa1 -> translate (machine st) va2 = Done pa2 ->
    frame pa1 = pframe (pool_of pf st) i -> frame pa2 = pframe (pool_of pf st) i ->
    shares_entry (machine st) va1 va2;
  (** a page that the virtual pool has to give is not mapped *)
  mw_unmapped : forall pf i va, 0 <= i < vsize (vaddr_of pf st) -> vused (vaddr_of pf st) i = false ->
    vpage (vaddr_of pf st) i <= va < vpage (vaddr_of pf st) i + PG_SIZE ->
    unmapped (machine st) va;
  (** different managed pages have different table entries *)
  mw_noalias : forall va1 va2, managed st va1 -> managed st va2 ->
    shares_entry (machine st) va1 va2 -> shares_entry (machine st) va2 va1 ->
    va1 / PG_SIZE = va2 / PG_SIZE
}.

Lemma pframe_apart st pf pf' i i' :
  pframe (kernel_pool st) (psize (kernel_pool st)) <= phy_addr_start (user_pool st) ->
  0 <= i < psize (pool_of pf st) -> 0 <= i' < psize (pool_of pf' st) ->
  pframe (pool_of pf st) i = pframe (pool_of pf' st) i' -> pf = pf' /\ i = i'.
Proof.
  intros Ho Hi Hi' E. unfold pframe, PG_SIZE in *.
  destruct pf, pf'; cbn [pool_of] in *; split; (done || lia).
Qed.

Lemma pframe_inj st pf pf' i i' :
  mem_wf st -> 0 <= i < psize (pool_of pf st) -> 0 <= i' < psize (pool_of pf' st) ->
  pframe (pool_of pf st) i = pframe (pool_of pf' st) i' -> pf = pf' /\ i = i'.
Proof. intros Hwf. apply pframe_apart, Hwf. Qed.

(** A pool in which some more frames may be taken. *)
Record pool_grow (p p' : pool) : Prop := {
  pg_wf : pool_wf p';
  pg_start : phy_addr_start p' = phy_addr_start p;
  pg_psize : psize p' = psize p;
  pg_size : pool_size p' = pool_size p;
  pg_lock : pool_lock p' = pool_lock p;
  pg_used : forall j, 0 <= j -> pused p j = true -> pused p' j = true
}.

Lemma pool_grow_refl p : pool_wf p -> pool_grow p p.
Proof. by split. Qed.

Lemma pool_grow_trans p1 p2 p3 : pool_grow p1 p2 -> pool_grow p2 p3 -> pool_grow p1 p3.
Proof. intros [] []. split; try congruence; auto. Qed.

Lemma pool_upd_grow p p' i : pool_upd p p' i true -> pool_grow p p'.
Proof.
  intros []. split; try done. intros j Hj Hu. rewrite pu_used0 by done. by case_decide.
Qed.

Lemma pool_grow_pframe p p' i : pool_grow p p' -> pframe p' i = pframe p i.
Proof. intros []. unfold pframe. congruence. Qed.

(** What allocation leaves alone, and that it only takes frames. *)
Record st_grow (st st' : mst) : Prop := {
  sg_pool : forall pf, pool_grow (pool_of pf st) (pool_of pf st');
  sg_vaddr : forall pf, vaddr_of pf st' = vaddr_of pf st;
  sg_cur : cur st' = cur st;
  sg_pgdir : cur_pgdir st' = cur_pgdir st;
  sg_cr3 : cr3 (machine st') = cr3 (machine st);
  sg_kept : forall va pa, low_va va -> translate (machine st) va = Done pa ->
              translate (machine st') va = Done pa;
  (** a new page table is in a frame that was free *)
  sg_tables : forall g, table_frame (machine st') g -> table_frame (machine st) g \/
    exists j, 0 <= j < psize (kernel_pool st) /\ g = pframe (kernel_pool st) j /\
              pused (kernel_pool st) j = false;
  sg_tmono : forall g, table_frame (machine st) g -> table_frame (machine st') g
}.

Lemma st_grow_trans st1 st2 st3 : st_grow st1 st2 -> st_grow st2 st3 -> st_grow st1 st3.
Proof.
  intros G1 G2. pose proof (sg_pool _ _ G1 PF_KERNEL) as K. cbn [pool_of] in K.
  split; try (destruct G1, G2; congruence); try (destruct G1, G2; by auto).
  - intros pf. eapply pool_grow_trans; [apply G1|apply G2].
  - intros g [Hg|(j & Hj & -> & Hu)]%(sg_tables _ _ G2); [by apply (sg_tables _ _ G1)|].
    rewrite (pg_psize _ _ K) in Hj. rewrite (pool_grow_pframe _ _ _ K).
    right. exists j. split_and!; [lia|lia|done|].
    destruct (pused (kernel_pool st1) j) eqn:E; [|done].
    apply (pg_used _ _ K) in E; [congruence|lia].
Qed.

Lemma managed_grow st st' va :
  (forall pf, vaddr_of pf st' = vaddr_of pf st) -> managed st' va -> managed st va.
Proof. intros H. unfold managed. setoid_rewrite H. done. Qed.

Lemma pool_of_set pf pf' p st :
  pool_of pf' (set_pool pf p st) = if decide (pf' = pf) then p else pool_of pf' st.
Proof. by destruct pf, pf'. Qed.

Lemma palloc_from_spec pf st :
  mem_wf st -> (0 < free_bits (pool_bitmap (pool_of pf st)))%nat ->
  exists i st', palloc_from pf st = Done (pframe (pool_of pf st) i, st') /\
    0 <= i < psize (pool_of pf st) /\ pused (pool_of pf st) i = false /\
    pused (pool_of pf st') i = true /\
    mem_wf st' /\ st_grow st st' /\ machine st' = machine st /\
    (forall pf', pf' <> pf -> pool_of pf' st' = pool_of pf' st) /\
    free_bits (pool_bitmap (pool_of pf st)) = S (free_bits (pool_bitmap (pool_of pf st'))) /\
    (forall j, 0 <= j -> pused (pool_of pf st') j = true -> pused (pool_of pf st) j = true \/ j = i).
Proof.
  intros Hwf Hfree.
  destruct (palloc_spec (pool_of pf st)) as (i & p' & E & Hi & Hu & Hupd & Hcnt);
    [by apply mw_pool|done|].
  exists i, (set_pool pf p' st). unfold palloc_from. rewrite E. cbn [obind].
  assert (forall pf', pool_of pf' (set_pool pf p' st) = if decide (pf' = pf) then p' else pool_of pf' st)
    as Hpo by (intros; apply pool_of_set).
  assert (forall pf', pool_grow (pool_of pf' st) (pool_of pf' (set_pool pf p' st))) as Hgrow.
  { intros pf'. rewrite Hpo. case_decide as Hd; [subst; by eapply pool_upd_grow|].
    apply pool_grow_refl, Hwf. }
  assert (machine (set_pool pf p' st) = machine st) as Hm by (by destruct pf).
  assert (forall pf', vaddr_of pf' (set_pool pf p' st) = vaddr_of pf' st) as Hv by (by destruct pf, pf').
  assert (st_grow st (set_pool pf p' st)) as Hsg.
  { split; [done|done|by destruct pf|by destruct pf|by rewrite Hm|by rewrite Hm| |by rewrite Hm].
    rewrite Hm. by left. }
  split_and!; [done|lia|lia|done| | |done|done| | |].
  - rewrite Hpo, decide_True by done. rewrite (pu_used _ _ _ _ Hupd), decide_True by lia. done.
  - destruct Hwf. split; rewrite ?Hm; try done.
    + intros pf'. apply Hgrow.
    + pose proof (Hgrow PF_KERNEL) as G1. pose proof (Hgrow PF_USER) as G2. cbn [pool_of] in G1, G2.
      rewrite (pool_grow_pframe _ _ _ G1), (pg_psize _ _ G1), (pg_start _ _ G2). done.
    + intros pf'. by rewrite Hv.
    + by destruct pf.
    + intros pf' j Hj Ht. rewrite (pg_psize _ _ (Hgrow pf')) in Hj.
      rewrite (pool_grow_pframe _ _ _ (Hgrow pf')) in Ht. apply (pg_used _ _ (Hgrow pf')); [lia|by apply mw_tables0].
    + intros pf' j va pa Hj Hva Ht Hf. rewrite (pg_psize _ _ (Hgrow pf')) in Hj.
      rewrite (pool_grow_pframe _ _ _ (Hgrow pf')) in Hf. apply (pg_used _ _ (Hgrow pf')); [lia|by eapply (mw_mapped0 pf')].
    + intros pf' j va1 va2 pa1 pa2 Hj. rewrite (pg_psize _ _ (Hgrow pf')) in Hj.
      rewrite (pool_grow_pframe _ _ _ (Hgrow pf')). by apply (mw_sole0 pf').
    + intros pf' j va. rewrite Hv. apply mw_unmapped0.
    + intros va1 va2 H1 H2. apply mw_noalias0; by apply (managed_grow st _ _ Hv).
  - intros pf' Hne. by rewrite Hpo, decide_False.
  - rewrite Hpo, decide_True by done. lia.
  - intros j Hj. rewrite Hpo, decide_True by done. rewrite (pu_used _ _ _ _ Hupd) by done.
    case_decide; auto.
Qed.

(** Addresses of one page have the same entry. *)
Lemma same_page_idx v va :
  is_u32 v -> is_u32 va -> v / 4096 = va / 4096 -> PDE_IDX va = PDE_IDX v /\ PTE_IDX va = PTE_IDX v.
Proof.
  intros Hv Hva E. rewrite !PDE_IDX_eq, !PTE_IDX_eq, E by done. split; [|done].
  change 4194304 with (4096 * 1024). rewrite <- !Z.div_div by lia. by rewrite E.
Qed.

Lemma same_page_entry m v va :
  is_u32 v -> is_u32 va -> v / 4096 = va / 4096 ->
  pde_of m va = pde_of m v /\ pte_loc m va = pte_loc m v.
Proof.
  intros Hv Hva E. destruct (same_page_idx v va Hv Hva E) as [E1 E2].
  assert (pde_of m va = pde_of m v) as Ep by (unfold pde_of; by rewrite E1).
  split; [done|]. unfold pte_loc. by rewrite Ep, E2.
Qed.

Lemma in_page v va : v mod 4096 = 0 -> v <= va < v + 4096 -> v / 4096 = va / 4096.
Proof.
  intros Hm Hr. pose proof (Z.div_mod v 4096). apply Z.div_unique with (va - v); lia.
Qed.

Lemma managed_low st va : mem_wf st -> managed st va -> low_va va.
Proof.
  intros Hwf (pf & i & Hi & Hr). destruct (mw_vaddr st Hwf pf) as [_ _ [? ?] _].
  unfold low_va, vpage, PG_SIZE in *. lia.
Qed.

Lemma vpage_mod v i : vaddr_wf v -> vpage v i mod 4096 = 0.
Proof. intros [_ Ha _ _]. unfold vpage, PG_SIZE in *. by rewrite Z.mod_add by lia. Qed.

Lemma vpage_managed st pf k va :
  0 <= k < vsize (vaddr_of pf st) ->
  vpage (vaddr_of pf st) k <= va < vpage (vaddr_of pf st) k + PG_SIZE -> managed st va.
Proof. intros. exists pf, k. split; [lia|done]. Qed.

(** A page is in one pool at one index. *)
Lemma vpage_inj st pf pf' k k' :
  mem_wf st -> 0 <= k < vsize (vaddr_of pf st) -> 0 <= k' < vsize (vaddr_of pf' st) ->
  vpage (vaddr_of pf st) k / PG_SIZE = vpage (vaddr_of pf' st) k' / PG_SIZE -> pf = pf' /\ k = k'.
Proof.
  intros Hwf Hk Hk' E.
  assert (vpage (vaddr_of pf st) k = vpage (vaddr_of pf' st) k') as E'.
  { pose proof (vpage_mod _ k (mw_vaddr st Hwf pf)). pose proof (vpage_mod _ k' (mw_vaddr st Hwf pf')).
    unfold PG_SIZE in E. pose proof (Z.div_mod (vpage (vaddr_of pf st) k) 4096).
    pose proof (Z.div_mod (vpage (vaddr_of pf' st) k') 4096). lia. }
  pose proof (mw_vsep st Hwf) as Hs. unfold vpage, PG_SIZE in *.
  destruct pf, pf'; cbn [vaddr_of] in *; split; (done || lia).
Qed.

Lemma fresh_palloc st i :
  mem_wf st -> 0 <= i < psize (kernel_pool st) -> pused (kernel_pool st) i = false ->
  fresh_frame (machine st) (pframe (kernel_pool st) i).
Proof.
  intros Hwf Hi Hu.
  assert (~ table_frame (machine st) (pframe (kernel_pool st) i)) as Hn.
  { intros Ht. apply (mw_tables st Hwf PF_KERNEL) in Ht; [|done]. cbn in Ht. congruence. }
  split_and!.
  - apply pframe_aligned; [apply (mw_pool st Hwf PF_KERNEL)|done].
  - intros E. apply Hn. left. done.
  - intros d Hd Hp E. apply Hn. right. eauto.
Qed.

(** Sharing an entry after the call was sharing it before, or is being in
    the new table. *)
Lemma shares_entry_added m m' v phy N va1 va2 :
  page_added m m' v phy N -> low_va va1 -> low_va va2 ->
  shares_entry m' va1 va2 -> shares_entry m' va2 va1 ->
  (shares_entry m va1 va2 /\ shares_entry m va2 va1) \/ va1 / 4096 = va2 / 4096.
Proof.
  intros Ha H1 H2 [P1 L1] [P2 _]. unfold shares_entry.
  assert (is_u32 va1 /\ is_u32 va2) as [U1 U2] by auto.
  assert (frame (pde_of m' va1) = frame (pde_of m' va2) /\ PTE_IDX va1 = PTE_IDX va2) as [Ef Et].
  { unfold pte_loc in L1. apply frame_word_inj in L1; auto using PTE_IDX_range. }
  destruct (pa_pde _ _ _ _ _ Ha va1 H1) as [E1|(I1 & F1 & _)],
           (pa_pde _ _ _ _ _ Ha va2 H2) as [E2|(I2 & F2 & _)].
  - left. unfold pte_loc in *. by rewrite <- !E1, <- !E2.
  - exfalso. rewrite <- Ef, E1 in F2. destruct F2 as (_ & _ & F2).
    apply (F2 (PDE_IDX va1)); [by apply low_va_idx|rewrite E1 in P1; exact P1|done].
  - exfalso. rewrite Ef, E2 in F1. destruct F1 as (_ & _ & F1).
    apply (F1 (PDE_IDX va2)); [by apply low_va_idx|rewrite E2 in P2; exact P2|done].
  - right. rewrite (va_split va1), (va_split va2), I1, I2, Et by done. unfold mk_va.
    pose proof (Z.mod_pos_bound va1 4096). pose proof (Z.mod_pos_bound va2 4096).
    replace (PDE_IDX v * 4194304 + PTE_IDX va2 * 4096 + va1 mod 4096)
      with (va1 mod 4096 + (PDE_IDX v * 1024 + PTE_IDX va2) * 4096) by lia.
    replace (PDE_IDX v * 4194304 + PTE_IDX va2 * 4096 + va2 mod 4096)
      with (va2 mod 4096 + (PDE_IDX v * 1024 + PTE_IDX va2) * 4096) by lia.
    rewrite !Z.div_add, !Z.div_small by lia. done.
Qed.

Lemma translate_present m va pa : translate m va = Done pa -> present (pde_of m va) = true.
Proof. unfold translate. by destruct (present (pde_of m va)). Qed.

Lemma shares_entry_keep m m' v phy N va1 va2 pa2 :
  page_added m m' v phy N -> low_va va1 -> low_va va2 -> translate m va2 = Done pa2 ->
  shares_entry m va1 va2 -> shares_entry m' va1 va2.
Proof.
  intros Ha H1 H2 P2%translate_present [P1 L1].
  assert (forall va, low_va va -> present (pde_of m va) = true -> pde_of m' va = pde_of m va) as Hp.
  { intros va Hva Hp. destruct (pa_pde _ _ _ _ _ Ha va Hva) as [|(_ & _ & E)]; [done|congruence]. }
  unfold shares_entry, pte_loc in *. by rewrite !Hp by done.
Qed.

Lemma table_frame_mono m m' v phy N g :
  page_added m m' v phy N -> table_frame m g -> table_frame m' g.
Proof.
  intros Ha [->|(d & Hd & Hp & <-)]; [left; symmetry; apply Ha|].
  destruct (mk_va_fields d 0 0) as (_ & Hi & _); [lia..|].
  assert (low_va (mk_va d 0 0)) as Hl by (unfold low_va, mk_va; lia).
  assert (pde_of m (mk_va d 0 0) = rd_ram m (cr3 m + d * 4)) as E by (unfold pde_of; by rewrite Hi).
  rewrite <- E in *.
  destruct (pa_pde _ _ _ _ _ Ha _ Hl) as [E'|(_ & _ & ?)]; [|congruence].
  rewrite <- E' in *. by apply table_frame_pde.
Qed.

(** The frame taken for a new table is a table. *)
Lemma new_table_is_table m m' v phy (N : Z -> Prop) :
  page_added m m' v phy N -> low_va v -> present (pde_of m v) = false ->
  exists g, N g /\ table_frame m' g.
Proof.
  intros Ha Hl Hp. pose proof (pa_here _ _ _ _ _ Ha) as [Hpv _].
  destruct (pa_pde _ _ _ _ _ Ha v Hl) as [E|(_ & (Hal & Hc & Hf) & _)]; [congruence|].
  pose proof (table_frame_pde m' v Hl Hpv) as Ht.
  exists (frame (pde_of m' v)). split; [|done].
  apply (pa_tables _ _ _ _ _ Ha) in Ht as [[?|(d & Hd & Hpd & E)]|]; [done| |done].
  exfalso. by apply (Hf d).
Qed.

(** What was mapped stays mapped to the same place. *)
Lemma page_added_kept m m' v phy N va pa :
  page_added m m' v phy N -> unmapped m v -> low_va v -> low_va va ->
  translate m va = Done pa -> translate m' va = Done pa.
Proof.
  intros Ha Hun Hv Hva Ht. rewrite (pa_translate _ _ _ _ _ Ha) by done.
  rewrite decide_False; [done|]. intros [P1 L1].
  assert (is_u32 va /\ is_u32 v) as [U1 U2] by auto.
  unfold translate in Ht. destruct (present (pde_of m va)) eqn:Ep; [|done].
  destruct (present (rd_ram m (pte_loc m va))) eqn:Et; [|done].
  assert (frame (pde_of m' va) = frame (pde_of m' v) /\ PTE_IDX va = PTE_IDX v) as [Ef Ei].
  { unfold pte_loc in L1. apply frame_word_inj in L1; auto using PTE_IDX_range. }
  destruct (pa_pde _ _ _ _ _ Ha va Hva) as [E1|(I1 & F1 & _)],
           (pa_pde _ _ _ _ _ Ha v Hv) as [E2|(I2 & F2 & _)].
  - pose proof (pa_here _ _ _ _ _ Ha) as [Pv _]. rewrite E2 in Pv.
    pose proof (unmapped_pte m v Hun Pv) as Hf.
    unfold pte_loc in Et, Hf. rewrite <- E2, <- Ef, E1, <- Ei in Hf. congruence.
  - rewrite <- Ef, E1 in F2. destruct F2 as (_ & _ & F2).
    apply (F2 (PDE_IDX va)); [by apply low_va_idx|done|done].
  - assert (pde_of m v = pde_of m va) as Ev by (unfold pde_of; by rewrite I1).
    rewrite Ef, E2, Ev in F1. destruct F1 as (_ & _ & F1).
    apply (F1 (PDE_IDX va)); [by apply low_va_idx|done|done].
  - assert (pde_of m v = pde_of m va) as Ev by (unfold pde_of; by rewrite I1).
    rewrite <- Ev in Ep. pose proof (unmapped_pte m v Hun Ep) as Hf.
    unfold pte_loc in Et, Hf. rewrite <- Ev, Ei in Et. congruence.
Qed.

Section map_one.
Context (st : mst) (v : Z) (pf : pool_flags) (k : Z) (pf2 : pool_flags) (i : Z).
Context (Hwf : mem_wf st).
Context (Hk : 0 <= k < vsize (vaddr_of pf st)) (Hku : vused (vaddr_of pf st) k = true).
Context (Hv : v = vpage (vaddr_of pf st) k) (Hun : unmapped (machine st) v).
Context (Hi : 0 <= i < psize (pool_of pf2 st)) (Hiu : pused (pool_of pf2 st) i = true).

Let f : Z := pframe (pool_of pf2 st) i.
Context (Hfm : forall va pa, low_va va -> translate (machine st) va = Done pa -> frame pa <> f).

Local Lemma v_managed va : v <= va < v + PG_SIZE -> managed st va.
Proof. rewrite Hv. by apply vpage_managed. Qed.

Local Lemma v_low : low_va v.
Proof. apply (managed_low st); [done|]. apply v_managed. unfold PG_SIZE. lia. Qed.

Local Lemma v_mod : v mod 4096 = 0.
Proof. rewrite Hv. apply vpage_mod, Hwf. Qed.

Context (m' : mmu) (kp' : pool) (N : Z -> Prop).
Context (Hadd : page_added (machine st) m' v f N).
Context (Hgk : pool_grow (kernel_pool st) kp').
Context (HN : forall g, N g -> exists i2, 0 <= i2 < psize (kernel_pool st) /\
           g = pframe (kernel_pool st) i2 /\ pused (kernel_pool st) i2 = false /\
           pused kp' i2 = true).

Let st' : mst := set_machine m' (set_pool PF_KERNEL kp' st).

Local Lemma grow_st' pf' : pool_grow (pool_of pf' st) (pool_of pf' st').
Proof.
  destruct pf'; cbn; [exact Hgk|]. apply pool_grow_refl, (mw_pool st Hwf PF_USER).
Qed.

Lemma map_one_page va : v <= va < v + PG_SIZE -> translate m' va = Done (f + va mod 4096).
Proof.
  intros Hr. rewrite (pa_translate _ _ _ _ _ Hadd) by (eapply managed_low, v_managed; done).
  rewrite decide_True; [done|].
  destruct (same_page_entry m' v va) as [E1 E2].
  - apply low_va_u32, v_low.
  - apply low_va_u32. eapply managed_low, v_managed; done.
  - apply in_page; [apply v_mod|done].
  - destruct (pa_here _ _ _ _ _ Hadd) as [Hp _]. split; [by rewrite E1|done].
Qed.

Lemma map_one_others va :
  managed st va -> ~ (v <= va < v + PG_SIZE) -> translate m' va = translate (machine st) va.
Proof.
  intros Hm Hn. assert (low_va va) as Hl by (by apply (managed_low st)).
  rewrite (pa_translate _ _ _ _ _ Hadd) by done. rewrite decide_False; [done|]. intros Hs.
  assert (managed st v) as Hmv by (apply v_managed; unfold PG_SIZE; lia).
  assert (va / 4096 = v / 4096) as E.
  { assert (shares_entry m' v va) as Hs'.
    { destruct (pa_here _ _ _ _ _ Hadd) as [Hp _]. destruct Hs. by split. }
    destruct (shares_entry_added _ _ _ _ _ va v Hadd Hl v_low Hs Hs') as [[S1 S2]|]; [|done].
    by apply (mw_noalias st Hwf). }
  apply Hn. pose proof v_mod. pose proof (Z.div_mod v 4096). pose proof (Z.div_mod va 4096).
  pose proof (Z.mod_pos_bound va 4096). unfold PG_SIZE. lia.
Qed.

Lemma map_one_grow : st_grow st st'.
Proof.
  split; [exact grow_st'|by destruct pf0|done|done|apply Hadd| | |].
  - intros va pa Hva Ht. by eapply page_added_kept; [exact Hadd|exact Hun|exact v_low| |].
  - intros g [Hg|(j & Hj & -> & Hu & _)%HN]%(pa_tables _ _ _ _ _ Hadd); [by left|right; eauto].
  - intros g. by apply (table_frame_mono _ _ _ _ _ _ Hadd).
Qed.

Lemma map_one_wf : mem_wf st'.
Proof.
  assert (aligned f) as Hf by (apply pframe_aligned; [apply Hwf|done]).
  assert (forall pf', vaddr_of pf' st' = vaddr_of pf' st) as Hva by (by intros []).
  split.
  - apply Hadd.
  - intros pf'. apply (grow_st' pf').
  - cbn. rewrite (pool_grow_pframe _ _ _ Hgk), (pg_psize _ _ Hgk). apply Hwf.
  - intros pf'. rewrite Hva. apply Hwf.
  - apply Hwf.
  - intros pf' j Hj Ht. pose proof (grow_st' pf') as G.
    rewrite (pg_psize _ _ G) in Hj. rewrite (pool_grow_pframe _ _ _ G) in Ht.
    apply (pa_tables _ _ _ _ _ Hadd) in Ht as [Ht|(i2 & Hi2 & E & _ & Hu2)%HN].
    + apply (pg_used _ _ G); [lia|]. by apply (mw_tables st Hwf).
    + destruct (pframe_inj st pf' PF_KERNEL j i2 Hwf Hj Hi2 E) as [-> ->]. done.
  - intros pf' j va pa Hj Hl Ht Ef. pose proof (grow_st' pf') as G.
    rewrite (pg_psize _ _ G) in Hj. rewrite (pool_grow_pframe _ _ _ G) in Ef.
    apply (pg_used _ _ G); [lia|]. cbn [machine st' set_machine] in Ht.
    rewrite (pa_translate _ _ _ _ _ Hadd) in Ht by done. case_decide.
    + injection Ht as <-. rewrite frame_page in Ef by (done || apply Z.mod_pos_bound; lia).
      by destruct (pframe_inj st pf2 pf' i j Hwf Hi Hj Ef) as [<- <-].
    + by eapply (mw_mapped st Hwf pf').
  - intros pf' j va1 va2 pa1 pa2 Hj L1 L2. pose proof (grow_st' pf') as G.
    rewrite (pg_psize _ _ G) in Hj. rewrite (pool_grow_pframe _ _ _ G).
    cbn [machine st' set_machine]. rewrite !(pa_translate _ _ _ _ _ Hadd) by done.
    destruct (decide (shares_entry m' va1 v)) as [Hs|], (decide (shares_entry m' va2 v)) as [Hs1|].
    + intros _ _ _ _. destruct Hs as [? E1], Hs1 as [? E2]. split; [done|congruence].
    + intros [= <-] T2 F1 F2. rewrite frame_page in F1 by (done || apply Z.mod_pos_bound; lia).
      destruct (Hfm va2 pa2); [done|done|congruence].
    + intros T1 [= <-] F1 F2. rewrite frame_page in F2 by (done || apply Z.mod_pos_bound; lia).
      destruct (Hfm va1 pa1); [done|done|congruence].
    + intros T1 T2 F1 F2. eapply (shares_entry_keep _ _ _ _ _ _ _ _ Hadd); [done|done|exact T2|].
      by eapply (mw_sole st Hwf pf').
  - intros pf' j va Hj Hu Hr. rewrite Hva in *. unfold unmapped. cbn [machine st' set_machine].
    rewrite map_one_others; [by eapply (mw_unmapped st Hwf pf')|by eapply vpage_managed|].
    intros Hr'. assert (v / 4096 = vpage (vaddr_of pf' st) j / 4096) as E.
    { pose proof (in_page v va v_mod Hr') as ->. symmetry. apply in_page; [apply vpage_mod, Hwf|done]. }
    rewrite Hv in E. destruct (vpage_inj st pf pf' k j Hwf Hk Hj E) as [<- <-]. congruence.
  - intros va1 va2 M1%(managed_grow st _ _ Hva) M2%(managed_grow st _ _ Hva) S1 S2.
    pose proof (managed_low st va1 Hwf M1) as L1. pose proof (managed_low st va2 Hwf M2) as L2.
    destruct (shares_entry_added _ _ _ _ _ _ _ Hadd L1 L2 S1 S2) as [[? ?]|]; [|done].
    by apply (mw_noalias st Hwf).
Qed.
End map_one.

(** Mapping a taken frame at a reserved page. *)
Lemma page_table_add_st_spec st v pf k pf2 i :
  mem_wf st -> 0 <= k < vsize (vaddr_of pf st) -> vused (vaddr_of pf st) k = true ->
  v = vpage (vaddr_of pf st) k -> unmapped (machine st) v ->
  0 <= i < psize (pool_of pf2 st) -> pused (pool_of pf2 st) i = true ->
  (forall va pa, low_va va -> translate (machine st) va = Done pa ->
     frame pa <> pframe (pool_of pf2 st) i) ->
  (0 < free_bits (pool_bitmap (kernel_pool st)))%nat ->
  exists st', page_table_add_st v (pframe (pool_of pf2 st) i) st = Done (tt, st') /\
    mem_wf st' /\ st_grow st st' /\ user_pool st' = user_pool st /\
    (free_bits (pool_bitmap (kernel_pool st)) <= S (free_bits (pool_bitmap (kernel_pool st'))))%nat /\
    (forall va, v <= va < v + PG_SIZE ->
       translate (machine st') va = Done (pframe (pool_of pf2 st) i + va mod 4096)) /\
    (forall va, managed st va -> ~ (v <= va < v + PG_SIZE) ->
       translate (machine st') va = translate (machine st) va) /\
    (forall j, 0 <= j -> pused (kernel_pool st') j = true -> pused (kernel_pool st) j = true \/
       table_frame (machine st') (pframe (kernel_pool st) j)) /\
    exists N, page_added (machine st) (machine st') v (pframe (pool_of pf2 st) i) N.
Proof.
  intros Hwf Hk Hku Hv Hun Hi Hiu Hfm Hfree.
  assert (low_va v) as Hlow by (eapply v_low; eauto).
  destruct (palloc_spec (kernel_pool st)) as (i2 & kp & Ep & Hi2 & Hu2 & Hupd & Hcnt);
    [apply (mw_pool st Hwf PF_KERNEL)|done|].
  destruct (page_table_add_spec palloc (machine st) (kernel_pool st) v (pframe (pool_of pf2 st) i))
    as (m' & kp' & E & Hadd & Hsame); [apply Hwf|done|done| |intros _; eauto using fresh_palloc|].
  { apply pframe_aligned; [apply Hwf|done]. }
  assert (pool_grow (kernel_pool st) kp' /\
    (forall g, present (pde_of (machine st) v) = false /\ palloc (kernel_pool st) = Done (kp', g) ->
       exists i2, 0 <= i2 < psize (kernel_pool st) /\ g = pframe (kernel_pool st) i2 /\
         pused (kernel_pool st) i2 = false /\ pused kp' i2 = true) /\
    (free_bits (pool_bitmap (kernel_pool st)) <= S (free_bits (pool_bitmap kp')))%nat /\
    (forall j, 0 <= j -> pused kp' j = true -> pused (kernel_pool st) j = true \/
       table_frame m' (pframe (kernel_pool st) j)))
    as (Hgk & HN & Hle & Htk).
  { destruct (present (pde_of (machine st) v)) eqn:Hp.
    - rewrite Hsame by done.
      split_and!; [apply pool_grow_refl, (mw_pool st Hwf PF_KERNEL)|by intros g []|lia|by auto].
    - unfold page_table_add in E. rewrite vload_pde in E by (auto; apply Hwf). cbn [obind] in E.
      change (negb (Z.land (pde_of (machine st) v) 1 =? 0)) with (present (pde_of (machine st) v)) in E.
      rewrite Hp, Ep in E. cbn [obind] in E.
      assert (kp' = kp) as ->.
      { repeat match type of E with (obind ?x _ = _) => destruct x; cbn [obind] in E; [|done] end.
        by injection E. }
      split_and!; [by eapply pool_upd_grow| |lia|].
      2: { intros j Hj. rewrite (pu_used _ _ _ _ Hupd) by done. case_decide as Hd; [subst j|by left].
           intros _. right. destruct (new_table_is_table _ _ _ _ _ Hadd Hlow Hp) as (g & [_ Eg] & Hg).
           rewrite Ep in Eg. by injection Eg as ->. }
      intros g [_ [= <-]%(eq_trans (eq_sym Ep))]. exists i2. split_and!; [lia|lia|done|done|].
      rewrite (pu_used _ _ _ _ Hupd), decide_True by lia. done. }
  eexists. unfold page_table_add_st. rewrite E. cbn [obind]. split; [done|]. split_and!.
  - by eapply map_one_wf.
  - by eapply map_one_grow.
  - done.
  - done.
  - intros va Hr. by eapply map_one_page.
  - intros va Hm Hr. by eapply map_one_others.
  - exact Htk.
  - eauto.
Qed.

(** ** [malloc_page] *)
Definition kfree (st : mst) : nat := free_bits (pool_bitmap (kernel_pool st)).
Definition ufree (st : mst) : nat := free_bits (pool_bitmap (user_pool st)).

(** Enough frames for [n] pages, allowing one page table per page. *)
Definition enough (pf : pool_flags) (n : nat) (st : mst) : Prop :=
  match pf with
  | PF_KERNEL => (2 * n <= kfree st)%nat
  | PF_USER => (n <= ufree st)%nat /\ (n <= kfree st)%nat
  end.

(** The frames [ids] of pool [pf] were free and now back the pages from [v]. *)
Record pages_mapped (pf : pool_flags) (st st' : mst) (v : Z) (ids : list Z) : Prop := {
  pm_wf : mem_wf st';
  pm_grow : st_grow st st';
  pm_nodup : NoDup ids;
  pm_fresh : forall i, i ∈ ids -> 0 <= i < psize (pool_of pf st) /\ pused (pool_of pf st) i = false;
  pm_map : forall j i va, ids !! j = Some i ->
    v + Z.of_nat j * PG_SIZE <= va < v + Z.of_nat j * PG_SIZE + PG_SIZE ->
    translate (machine st') va = Done (pframe (pool_of pf st) i + va mod 4096);
  pm_others : forall va, managed st va -> ~ (v <= va < v + Z.of_nat (length ids) * PG_SIZE) ->
    translate (machine st') va = translate (machine st) va;
  pm_tables : forall i, i ∈ ids -> ~ table_frame (machine st') (pframe (pool_of pf st) i);
  pm_taken : forall pf' j, 0 <= j -> pused (pool_of pf' st') j = true ->
    pused (pool_of pf' st) j = true \/ (pf' = pf /\ j ∈ ids) \/
    (pf' = PF_KERNEL /\ table_frame (machine st') (pframe (pool_of pf' st) j));
  pm_kfree : (kfree st <= kfree st' + 2 * length ids)%nat;
  pm_user : pf = PF_KERNEL -> user_pool st' = user_pool st;
  pm_data : forall g w, aligned g -> ~ table_frame (machine st') g -> 0 <= w < 1024 ->
    rd_ram (machine st') (g + w * 4) = rd_ram (machine st) (g + w * 4)
}.

Lemma st_grow_refl st : mem_wf st -> st_grow st st.
Proof. intros Hwf. split; try done; [|by left]. intros pf. apply pool_grow_refl, Hwf. Qed.

Lemma vpage_low st pf k : mem_wf st -> 0 <= k < vsize (vaddr_of pf st) -> low_va (vpage (vaddr_of pf st) k).
Proof.
  intros Hwf Hk. apply (managed_low st); [done|]. eapply vpage_managed; [done|]. unfold PG_SIZE. lia.
Qed.

(** One more page in front. *)
Lemma pages_mapped_cons pf st st1 st2 v i ids :
  mem_wf st1 -> low_va v -> ~ table_frame (machine st1) (pframe (pool_of pf st) i) ->
  st_grow st st1 -> 0 <= i < psize (pool_of pf st) ->
  pused (pool_of pf st) i = false -> pused (pool_of pf st1) i = true ->
  (forall va, v <= va < v + PG_SIZE -> low_va va /\
     translate (machine st1) va = Done (pframe (pool_of pf st) i + va mod 4096)) ->
  (forall va, managed st va -> ~ (v <= va < v + PG_SIZE) ->
     translate (machine st1) va = translate (machine st) va) ->
  (forall pf' j, 0 <= j -> pused (pool_of pf' st1) j = true ->
    pused (pool_of pf' st) j = true \/ (pf' = pf /\ j = i) \/
    (pf' = PF_KERNEL /\ table_frame (machine st1) (pframe (pool_of pf' st) j))) ->
  (kfree st <= kfree st1 + 2)%nat -> (pf = PF_KERNEL -> user_pool st1 = user_pool st) ->
  (forall g w, aligned g -> ~ table_frame (machine st1) g -> 0 <= w < 1024 ->
    rd_ram (machine st1) (g + w * 4) = rd_ram (machine st) (g + w * 4)) ->
  pages_mapped pf st1 st2 (v + PG_SIZE) ids -> pages_mapped pf st st2 v (i :: ids).
Proof.
  intros Hwf1 Hv Hnt Hg Hi Hu Hu1 Hp Ho Htk Hkf Hus Hd [Qw Qg Qn Qf Qm Qo Qt Qk Qkf Qus Qd].
  pose proof (sg_pool _ _ Hg pf) as G.
  split.
  - done.
  - by eapply st_grow_trans.
  - apply NoDup_cons. split; [|done]. intros Hin%Qf. destruct Hin. congruence.
  - intros j [->|Hj]%elem_of_cons; [done|]. apply Qf in Hj as [Hr Hj].
    rewrite (pg_psize _ _ G) in Hr. split; [done|].
    destruct (pused (pool_of pf st) j) eqn:E; [|done].
    apply (pg_used _ _ G) in E; [congruence|lia].
  - intros [|j] i' va Hj Hr; cbn in Hj.
    + injection Hj as <-. apply (sg_kept _ _ Qg); [|]; apply Hp; lia.
    + rewrite (Qm j i' va Hj) by lia. by rewrite (pool_grow_pframe _ _ _ G).
  - intros va Hm Hn. cbn [length] in Hn. unfold PG_SIZE in *. rewrite Qo; [apply Ho; [done|lia]| |lia].
    destruct Hm as (pf' & j & Hj & Hr). exists pf', j. by rewrite (sg_vaddr _ _ Hg).
  - intros j [->|Hj]%elem_of_cons.
    + intros [?|(j & Hj & E & Huj)]%(sg_tables _ _ Qg); [done|].
      rewrite <- (pool_grow_pframe _ _ _ G) in E.
      apply (pframe_inj st1 pf PF_KERNEL) in E as [-> ->]; [cbn in *; congruence|done| |done].
      by rewrite (pg_psize _ _ G).
    + rewrite <- (pool_grow_pframe _ _ _ G). by apply Qt.
  - intros pf' j Hj [H1|[[-> Hin]|[-> Ht]]]%Qk; [|right; left; by split; [|right]| |done].
    + apply Htk in H1 as [?|[[-> ->]|[-> Ht]]]; [by left|right; left; by split; [|left]| |done].
      right; right. split; [done|]. by apply (sg_tmono _ _ Qg).
    + right; right. split; [done|]. by rewrite (pool_grow_pframe _ _ _ (sg_pool _ _ Hg PF_KERNEL)) in Ht.
  - cbn [length]. lia.
  - intros E. by rewrite Qus, Hus.
  - intros g w Hgal Hn Hw. rewrite Qd by done. apply Hd; [done| |done].
    intros Ht. by apply Hn, (sg_tmono _ _ Qg).
Qed.

Lemma map_pages_spec pf n : forall v k st,
  mem_wf st -> v = vpage (vaddr_of pf st) k -> 0 <= k -> k + Z.of_nat n <= vsize (vaddr_of pf st) ->
  (forall j, k <= j < k + Z.of_nat n -> vused (vaddr_of pf st) j = true /\
     unmapped (machine st) (vpage (vaddr_of pf st) j)) ->
  enough pf n st ->
  exists ids st', map_pages pf n v st = Done (true, st') /\ length ids = n /\
    pages_mapped pf st st' v ids.
Proof.
  induction n as [|n IH]; intros v k st Hwf Hv Hk Hn Hpages Hen.
  { exists [], st. split; [done|split; [done|]]. split; try done.
    - by apply st_grow_refl.
    - constructor.
    - by intros i Hi%not_elem_of_nil.
    - by intros i Hi%not_elem_of_nil.
    - by left.
    - cbn [length]. lia. }
  destruct (palloc_from_spec pf st) as (i & s1 & E1 & Hi & Hu & Hu1 & Hwf1 & Hg1 & Hm1 & Hp1 & Hc1 & Hx1);
    [done|destruct pf; cbn in *; unfold kfree, ufree in *; lia|].
  destruct (Hpages k) as [Hku Hkun]; [lia|].
  assert (pool_grow (pool_of pf st) (pool_of pf s1)) as G1 by apply Hg1.
  destruct (page_table_add_st_spec s1 v pf k pf i) as (s2 & E2 & Hwf2 & Hg2 & Hus & Hle & Hpg & Hoth & Htk & N & Hadd).
  { done. }
  { rewrite (sg_vaddr _ _ Hg1). lia. }
  { by rewrite (sg_vaddr _ _ Hg1). }
  { by rewrite (sg_vaddr _ _ Hg1). }
  { by rewrite Hm1, Hv. }
  { by rewrite (pg_psize _ _ G1). }
  { done. }
  { intros va pa Hva. rewrite Hm1, (pool_grow_pframe _ _ _ G1). intros Ht Hf.
    rewrite (mw_mapped st Hwf pf i va pa) in Hu; done. }
  { destruct pf; cbn in *; unfold kfree, ufree in *; [lia|]. pose proof (Hp1 PF_KERNEL ltac:(done)) as E.
    cbn in E. rewrite E. lia. }
  assert (st_grow st s2) as Hg by (by eapply st_grow_trans).
  rewrite (pool_grow_pframe _ _ _ G1) in E2, Hpg. rewrite Hm1 in Hoth.
  assert (low_va v) as Hlv by (rewrite Hv; apply vpage_low; [done|lia]).
  destruct (mw_vaddr st Hwf pf) as [_ _ [Hs1 Hs2] _].
  assert (u32 (v + PG_SIZE) = v + PG_SIZE) as Hu32.
  { apply u32_id. unfold is_u32, vpage, PG_SIZE in *. lia. }
  assert (forall va, managed st va -> ~ (v <= va < v + PG_SIZE) ->
     translate (machine s2) va = translate (machine st) va) as Hoth'.
  { intros va (pf' & j & Hj & Hr). apply Hoth. exists pf', j. by rewrite (sg_vaddr _ _ Hg1). }
  destruct (IH (v + PG_SIZE) (k + 1) s2) as (ids & s3 & E3 & Hl & Hpm).
  { done. }
  { rewrite (sg_vaddr _ _ Hg), Hv. unfold vpage. lia. }
  { lia. }
  { rewrite (sg_vaddr _ _ Hg). lia. }
  { intros j Hj. rewrite (sg_vaddr _ _ Hg). destruct (Hpages j) as [? Hun]; [lia|]. split; [done|].
    unfold unmapped. rewrite Hoth'; [done| |].
    - apply (vpage_managed st pf j); unfold PG_SIZE; lia.
    - rewrite Hv. unfold vpage, PG_SIZE. lia. }
  { pose proof (Hp1 PF_KERNEL) as E. destruct pf; cbn in *; unfold kfree, ufree in *; [lia|].
    rewrite Hus. split; [lia|]. rewrite E in Hle by done. lia. }
  exists (i :: ids), s3. split; [|split; [cbn; lia|]].
  - cbn [map_pages]. unfold bind at 1. rewrite E1.
    rewrite (proj2 (Z.eqb_neq _ NULL)).
    2: { destruct (mw_pool st Hwf pf) as [_ _ [? _]]. unfold pframe, NULL, PG_SIZE in *. lia. }
    unfold bind at 1. rewrite E2, Hu32. done.
  - eapply pages_mapped_cons; try done.
    + intros [Ht|(j & Hj & E & Huj)]%(sg_tables _ _ Hg2).
      * rewrite Hm1 in Ht. apply (mw_tables st Hwf) in Ht; [congruence|done].
      * rewrite <- (pool_grow_pframe _ _ _ G1) in E.
        apply (pframe_inj s1 pf PF_KERNEL) in E as [-> ->]; [cbn in *; congruence|done| |done].
        by rewrite (pg_psize _ _ G1).
    + apply (pg_used _ _ (sg_pool _ _ Hg2 pf)); [lia|done].
    + intros va Hr. split; [|by apply Hpg].
      apply (managed_low st); [done|]. apply (vpage_managed st pf k); [lia|]. by rewrite <- Hv.
    + intros pf' j Hj Hu'.
      assert (pused (pool_of pf' s1) j = true \/
              (pf' = PF_KERNEL /\ table_frame (machine s2) (pframe (pool_of pf' s1) j))) as [H1|[-> Ht]].
      { destruct pf'; cbn [pool_of] in *; [|rewrite Hus in Hu'; by left].
        apply Htk in Hu' as [?|?]; [by left|by right|done]. }
      * destruct (decide (pf' = pf)) as [->|Hne]; [|left; by rewrite Hp1 in H1].
        apply Hx1 in H1 as [?| ->]; [by left|by right; left|done].
      * right; right. split; [done|].
        by rewrite (pool_grow_pframe _ _ _ (sg_pool _ _ Hg1 PF_KERNEL)) in Ht.
    + pose proof (Hp1 PF_KERNEL) as E. destruct pf; cbn in *; unfold kfree in *; [lia|]. rewrite E in Hle by done. lia.
    + intros ->. rewrite Hus. by apply (Hp1 PF_USER).
    + rewrite <- Hm1. apply Hadd.
Qed.

Definition set_bits_true (v v' : virtual_addr) (r n : Z) : Prop :=
  vaddr_start v' = vaddr_start v /\ vsize v' = vsize v /\
  forall j, 0 <= j -> vused v' j = if decide (r <= j < r + n) then true else vused v j.

Lemma vaddr_of_set pf pf' v st :
  vaddr_of pf' (set_vaddr pf v st) = if decide (pf' = pf) then v else vaddr_of pf' st.
Proof. by destruct pf, pf'. Qed.

(** More pages of a virtual pool may be marked as used. *)
Lemma mem_wf_reserve pf v' st :
  mem_wf st -> bitmap_wf (vaddr_bitmap v') -> vaddr_start v' = vaddr_start (vaddr_of pf st) ->
  vsize v' = vsize (vaddr_of pf st) ->
  (forall j, 0 <= j -> vused v' j = false -> vused (vaddr_of pf st) j = false) ->
  mem_wf (set_vaddr pf v' st).
Proof.
  intros Hwf Hb Hs Hz Hu.
  assert (forall pf', vaddr_start (vaddr_of pf' (set_vaddr pf v' st)) = vaddr_start (vaddr_of pf' st)
            /\ vsize (vaddr_of pf' (set_vaddr pf v' st)) = vsize (vaddr_of pf' st)
            /\ bitmap_wf (vaddr_bitmap (vaddr_of pf' (set_vaddr pf v' st)))
            /\ forall j, 0 <= j -> vused (vaddr_of pf' (set_vaddr pf v' st)) j = false ->
                 vused (vaddr_of pf' st) j = false) as Hv.
  { intros pf'. rewrite vaddr_of_set. case_decide as Hd; [by subst pf'|split_and!; try done; apply Hwf]. }
  assert (forall va, managed (set_vaddr pf v' st) va -> managed st va) as Hman.
  { intros va (pf' & j & Hj & Hr'). destruct (Hv pf') as (Hvs' & Hvz & _).
    exists pf', j. unfold vpage in *. by rewrite Hvs', Hvz in *. }
  destruct Hwf. split.
  + by destruct pf.
  + intros pf'. replace (pool_of pf' _) with (pool_of pf' st) by (by destruct pf, pf'). done.
  + by destruct pf.
  + intros pf'. destruct (Hv pf') as (Hvs' & Hvz & Hbw & _). destruct (mw_vaddr0 pf') as [_ ? ? ?].
    split; [done|by rewrite Hvs'| |by rewrite Hvs', Hvz]. unfold vpage in *. by rewrite Hvs', Hvz.
  + pose proof (Hv PF_USER) as (V1 & V2 & _). pose proof (Hv PF_KERNEL) as (V3 & _).
    cbn [vaddr_of] in *. unfold vpage in *. by rewrite V1, V2, V3.
  + intros pf' j. replace (pool_of pf' _) with (pool_of pf' st) by (by destruct pf, pf').
    replace (machine _) with (machine st) by (by destruct pf). apply mw_tables0.
  + intros pf' j. replace (pool_of pf' _) with (pool_of pf' st) by (by destruct pf, pf').
    replace (machine _) with (machine st) by (by destruct pf). apply mw_mapped0.
  + intros pf' j va1 va2. replace (pool_of pf' _) with (pool_of pf' st) by (by destruct pf, pf').
    replace (machine _) with (machine st) by (by destruct pf). apply mw_sole0.
  + intros pf' j va. replace (machine _) with (machine st) by (by destruct pf).
    destruct (Hv pf') as (Hvs' & Hvz & _ & Hvu). unfold vpage. rewrite Hvs', Hvz.
    intros Hj Hju%Hvu; [|lia]. by apply mw_unmapped0.
  + intros va1 va2 M1%Hman M2%Hman. replace (machine _) with (machine st) by (by destruct pf). auto.
Qed.

Lemma vaddr_get_spec pf cnt s0 st :
  mem_wf st -> 1 <= cnt -> 0 <= s0 -> s0 + cnt <= vsize (vaddr_of pf st) ->
  btmp_bytes_len (vaddr_bitmap (vaddr_of pf st)) < Z.of_nat (length (bits (vaddr_bitmap (vaddr_of pf st)))) ->
  free_run (vaddr_bitmap (vaddr_of pf st)) s0 cnt ->
  (pf = PF_USER -> vpage (vaddr_of pf st) s0 < 0xc0000000 - PG_SIZE) ->
  exists r st', vaddr_get pf cnt st = Done (vpage (vaddr_of pf st) r, st') /\ 0 <= r <= s0 /\
    free_run (vaddr_bitmap (vaddr_of pf st)) r cnt /\ mem_wf st' /\
    set_bits_true (vaddr_of pf st) (vaddr_of pf st') r cnt /\
    machine st' = machine st /\ (forall pf', pool_of pf' st' = pool_of pf' st) /\
    (forall pf', pf' <> pf -> vaddr_of pf' st' = vaddr_of pf' st).
Proof.
  intros Hwf Hc Hs0 Hfit Hlen Hrun Huser.
  pose proof (mw_vaddr st Hwf pf) as [Hb Ha [Hr1 Hr2] _].
  destruct (bitmap_scan_fits _ cnt s0 Hb Hlen Hc Hs0 Hfit Hrun) as (r & E & Hr & Hfr).
  pose proof (wf_len _ Hb) as Hl.
  destruct (bitmap_set_range_spec (vaddr_bitmap (vaddr_of pf st)) (Z.to_nat cnt) 1 r)
    as (b' & E2 & Hb' & [Hsh1 Hsh2] & Hu); [done|lia|auto|unfold vsize, nbits in *; lia|].
  rewrite Z2Nat.id in Hu by lia. set (v' := mk_vaddr b' (vaddr_start (vaddr_of pf st))).
  assert (vsize v' = vsize (vaddr_of pf st)) as Hvs by (unfold vsize, nbits; cbn; by rewrite Hsh1).
  assert (u32 (vaddr_start (vaddr_of pf st) + r * PG_SIZE) = vpage (vaddr_of pf st) r) as Hu32.
  { apply u32_id. unfold is_u32, vpage, PG_SIZE in *. lia. }
  exists r, (set_vaddr pf v' st).
  split; [|split_and!].
  - unfold vaddr_get. rewrite E. cbn [obind]. rewrite (proj2 (Z.eqb_neq r (-1))) by lia.
    rewrite E2. cbn [obind]. rewrite Hu32. fold v'. destruct pf; [done|].
    rewrite (proj2 (Z.ltb_lt _ _)); [done|]. specialize (Huser eq_refl). unfold vpage, PG_SIZE in *. lia.
  - lia.
  - lia.
  - done.
  - apply mem_wf_reserve; try done. intros j Hj. unfold vused. cbn. rewrite Hu by done. by case_decide.
  - rewrite vaddr_of_set, decide_True by done. split_and!; [done|done|]. intros j Hj.
    unfold vused at 1. cbn. rewrite Hu by done. by repeat case_decide.
  - by destruct pf.
  - intros pf'. by destruct pf, pf'.
  - intros pf' Hne. by rewrite vaddr_of_set, decide_False.
Qed.

(** ** [mfree_page] *)
Lemma pfree_frame st pf i :
  (forall pf, pool_wf (pool_of pf st)) -> pframe (kernel_pool st) (psize (kernel_pool st)) <= phy_addr_start (user_pool st) ->
  0 <= i < psize (pool_of pf st) ->
  exists p', pfree (pframe (pool_of pf st) i) st = Done (tt, set_pool pf p' st) /\
    pool_upd (pool_of pf st) p' i false.
Proof.
  intros Hps Ho Hi. pose proof (Hps pf) as Hp. pose proof Hp as [Hb Ha [Hr1 Hr2]].
  pose proof (wf_len _ Hb) as Hl. pose proof (Hps PF_KERNEL) as [_ _ [Hk1 Hk2]]. cbn [pool_of] in Hk1, Hk2.
  unfold pfree.
  assert ((if phy_addr_start (user_pool st) <=? pframe (pool_of pf st) i then PF_USER else PF_KERNEL) = pf) as ->.
  { unfold pframe, PG_SIZE in *. destruct pf; cbn [pool_of] in *.
    - by rewrite (proj2 (Z.leb_gt _ _)) by lia.
    - by rewrite (proj2 (Z.leb_le _ _)) by lia. }
  assert (u32 (pframe (pool_of pf st) i - phy_addr_start (pool_of pf st)) / PG_SIZE = i) as ->.
  { unfold pframe, PG_SIZE in *. rewrite u32_id by (unfold is_u32; lia).
    replace (phy_addr_start (pool_of pf st) + i * 4096 - phy_addr_start (pool_of pf st))
      with (i * 4096) by lia. apply Z.div_mul. lia. }
  destruct (bitmap_set_spec (pool_bitmap (pool_of pf st)) i 0) as (b' & -> & Hb' & Hsh & Hu);
    [done|lia| |auto|].
  { apply Z.div_lt_upper_bound; unfold psize, nbits in *; lia. }
  cbn [obind]. eexists. split; [done|]. by apply bitmap_upd_pool.
Qed.

Lemma pfree_spec st pf i :
  mem_wf st -> 0 <= i < psize (pool_of pf st) ->
  exists p', pfree (pframe (pool_of pf st) i) st = Done (tt, set_pool pf p' st) /\
    pool_upd (pool_of pf st) p' i false.
Proof. intros Hwf. apply pfree_frame; apply Hwf. Qed.

(** Frames [ids] of pool [pf2] given back, pages from [v] unmapped. *)
Record pages_freed (pf2 : pool_flags) (st st' : mst) (v : Z) (ids : list Z) : Prop := {
  pf_wf : mem_wf st';
  pf_vaddr : forall pf, vaddr_of pf st' = vaddr_of pf st;
  pf_cur : cur st' = cur st /\ cur_pgdir st' = cur_pgdir st;
  pf_pool : forall pf, phy_addr_start (pool_of pf st') = phy_addr_start (pool_of pf st) /\
    psize (pool_of pf st') = psize (pool_of pf st) /\ pool_size (pool_of pf st') = pool_size (pool_of pf st) /\
    pool_lock (pool_of pf st') = pool_lock (pool_of pf st);
  pf_used : forall pf j, 0 <= j -> pused (pool_of pf st') j =
    if decide (pf = pf2 /\ j ∈ ids) then false else pused (pool_of pf st) j;
  pf_unmapped : forall va, v <= va < v + Z.of_nat (length ids) * PG_SIZE -> unmapped (machine st') va;
  pf_others : forall va, managed st va -> ~ (v <= va < v + Z.of_nat (length ids) * PG_SIZE) ->
    translate (machine st') va = translate (machine st) va;
  pf_tables : forall g, table_frame (machine st') g <-> table_frame (machine st) g;
  pf_cr3 : cr3 (machine st') = cr3 (machine st);
  pf_dir : forall va, is_u32 va -> pde_of (machine st') va = pde_of (machine st) va;
  pf_data : forall g w, aligned g -> ~ table_frame (machine st) g -> 0 <= w < 1024 ->
    rd_ram (machine st') (g + w * 4) = rd_ram (machine st) (g + w * 4)
}.

Section unmap_one.
Context (st : mst) (v : Z) (pf : pool_flags) (k : Z) (pf2 : pool_flags) (i : Z).
Context (Hwf : mem_wf st).
Context (Hk : 0 <= k < vsize (vaddr_of pf st)).
Context (Hv : v = vpage (vaddr_of pf st) k).
Context (Hi : 0 <= i < psize (pool_of pf2 st)).
Context (Ht : translate (machine st) v = Done (pframe (pool_of pf2 st) i)).
Context (Hnt : ~ table_frame (machine st) (pframe (pool_of pf2 st) i)).

Let f : Z := pframe (pool_of pf2 st) i.

Local Lemma u_managed va : v <= va < v + PG_SIZE -> managed st va.
Proof. rewrite Hv. by apply vpage_managed. Qed.

Local Lemma u_low : low_va v.
Proof. apply (managed_low st); [done|]. apply u_managed. unfold PG_SIZE. lia. Qed.

Local Lemma u_mod : v mod 4096 = 0.
Proof. rewrite Hv. apply vpage_mod, Hwf. Qed.

Local Lemma u_shares va : managed st va ->
  shares_entry (machine st) va v <-> v <= va < v + PG_SIZE.
Proof.
  intros Hm. assert (low_va va) as Hl by (by apply (managed_low st)). split.
  - intros [P L].
    assert (va / 4096 = v / 4096) as E.
    { apply (mw_noalias st Hwf); [done|apply u_managed; unfold PG_SIZE; lia|by split|].
      split; [by eapply translate_present|done]. }
    pose proof u_mod. pose proof (Z.div_mod v 4096). pose proof (Z.div_mod va 4096).
    pose proof (Z.mod_pos_bound va 4096). unfold PG_SIZE. lia.
  - intros Hr. destruct (same_page_entry (machine st) v va) as [E1 E2];
      [apply low_va_u32, u_low|by apply low_va_u32|by apply in_page; [apply u_mod|]|].
    split; [rewrite E1; by eapply translate_present|done].
Qed.

Context (m' : mmu) (p' : pool).
Context (Hpt : pt_wf m').
Context (Htr : forall va, is_u32 va -> translate m' va =
           if decide (shares_entry (machine st) va v) then Halt Page_fault else translate (machine st) va).
Context (Htab : forall g, table_frame m' g <-> table_frame (machine st) g).
Context (Hpde : forall va, is_u32 va -> pde_of m' va = pde_of (machine st) va).
Context (Hcr : cr3 m' = cr3 (machine st)).
Context (Hdata : forall g w, aligned g -> ~ table_frame (machine st) g -> 0 <= w < 1024 ->
           rd_ram m' (g + w * 4) = rd_ram (machine st) (g + w * 4)).
Context (Hupd : pool_upd (pool_of pf2 st) p' i false).

Let st' : mst := set_machine m' (set_pool pf2 p' st).

Local Lemma u_pool pf' : pool_of pf' st' = if decide (pf' = pf2) then p' else pool_of pf' st.
Proof. by destruct pf', pf2. Qed.

Local Lemma u_shape pf' : phy_addr_start (pool_of pf' st') = phy_addr_start (pool_of pf' st) /\
  psize (pool_of pf' st') = psize (pool_of pf' st) /\ pool_size (pool_of pf' st') = pool_size (pool_of pf' st) /\
  pool_lock (pool_of pf' st') = pool_lock (pool_of pf' st).
Proof. rewrite u_pool. case_decide as E; [subst; by destruct Hupd|done]. Qed.

Local Lemma u_used pf' j : 0 <= j -> pused (pool_of pf' st') j =
  if decide (pf' = pf2 /\ j ∈ [i]) then false else pused (pool_of pf' st) j.
Proof.
  intros Hj. rewrite u_pool. case_decide as E; [subst|by rewrite decide_False by (intros []; done)].
  rewrite (pu_used _ _ _ _ Hupd) by done.
  destruct (decide (j = i)) as [->|].
  - rewrite decide_True; [done|]. split; [done|by left].
  - rewrite decide_False; [done|]. intros [_ ?%list_elem_of_singleton]. done.
Qed.

Local Lemma u_pframe pf' j : pframe (pool_of pf' st') j = pframe (pool_of pf' st) j.
Proof. unfold pframe. by destruct (u_shape pf') as [-> _]. Qed.

Local Lemma u_entry va1 va2 : is_u32 va1 -> is_u32 va2 ->
  shares_entry m' va1 va2 <-> shares_entry (machine st) va1 va2.
Proof. intros. unfold shares_entry, pte_loc. by rewrite !Hpde. Qed.

Local Lemma u_translate va pa : low_va va -> translate m' va = Done pa ->
  translate (machine st) va = Done pa /\ ~ shares_entry (machine st) va v.
Proof. intros Hl. rewrite Htr by auto. by case_decide. Qed.

Lemma unmap_one_wf : mem_wf st'.
Proof.
  assert (forall pf', vaddr_of pf' st' = vaddr_of pf' st) as Hva by (intros pf'; by destruct pf', pf2).
  split.
  - done.
  - intros pf'. rewrite u_pool. case_decide; [apply Hupd|apply Hwf].
  - destruct (u_shape PF_KERNEL) as (E1 & E2 & _), (u_shape PF_USER) as (E3 & _).
    pose proof (u_pframe PF_KERNEL (psize (pool_of PF_KERNEL st))) as E4. cbn [pool_of] in *.
    rewrite E2, E3, E4. apply Hwf.
  - intros pf'. rewrite Hva. apply Hwf.
  - pose proof (Hva PF_KERNEL) as E1. pose proof (Hva PF_USER) as E2. cbn [vaddr_of] in E1, E2.
    rewrite E1, E2. apply Hwf.
  - intros pf' j Hj. destruct (u_shape pf') as (_ & -> & _) in Hj. rewrite u_pframe.
    cbn [machine st' set_machine]. rewrite Htab. intros Htf. rewrite u_used by lia.
    rewrite decide_False; [by apply (mw_tables st Hwf)|]. intros [-> ->%list_elem_of_singleton]. done.
  - intros pf' j va pa Hj Hl. destruct (u_shape pf') as (_ & -> & _) in Hj. rewrite u_pframe.
    cbn [machine st' set_machine]. intros [T1 Hns]%u_translate Ef; [|done].
    rewrite u_used by lia. rewrite decide_False; [by eapply (mw_mapped st Hwf pf')|].
    intros [-> ->%list_elem_of_singleton]. apply Hns.
    eapply (mw_sole st Hwf pf2 i); eauto using u_low.
    apply pframe_aligned; [apply Hwf|done].
  - intros pf' j va1 va2 pa1 pa2 Hj L1 L2. destruct (u_shape pf') as (_ & -> & _) in Hj. rewrite u_pframe.
    cbn [machine st' set_machine]. intros [T1 _]%u_translate [T2 _]%u_translate F1 F2; [|done..].
    apply u_entry; auto. by eapply (mw_sole st Hwf pf' j).
  - intros pf' j va. rewrite Hva. intros Hj Hu Hr. unfold unmapped. cbn [machine st' set_machine].
    assert (low_va va) by (eapply managed_low, vpage_managed; eauto).
    rewrite Htr by auto. case_decide; [done|]. by eapply (mw_unmapped st Hwf pf').
  - intros va1 va2 M1%(managed_grow st _ _ Hva) M2%(managed_grow st _ _ Hva).
    cbn [machine st' set_machine].
    rewrite !u_entry by (apply low_va_u32; by apply (managed_low st)). by apply (mw_noalias st Hwf).
Qed.

Lemma unmap_one_freed : pages_freed pf2 st st' v [i].
Proof.
  split.
  - apply unmap_one_wf.
  - intros pf'; by destruct pf', pf2.
  - by destruct pf2.
  - apply u_shape.
  - apply u_used.
  - intros va Hr. cbn in Hr. assert (managed st va) as Hm by (apply u_managed; lia).
    unfold unmapped. cbn [machine st' set_machine].
    rewrite Htr, decide_True; [done|apply u_shares; [done|lia]|].
    by apply low_va_u32, (managed_low st).
  - intros va Hm Hn. cbn in Hn. cbn [machine st' set_machine].
    rewrite Htr, decide_False; [done|rewrite u_shares by done; lia|].
    by apply low_va_u32, (managed_low st).
  - apply Htab.
  - done.
  - done.
  - done.
Qed.
End unmap_one.

Lemma pages_freed_cons pf2 st st1 st2 v i ids :
  pages_freed pf2 st st1 v [i] -> pages_freed pf2 st1 st2 (v + PG_SIZE) ids ->
  (forall va, v <= va < v + PG_SIZE -> managed st va) ->
  pages_freed pf2 st st2 v (i :: ids).
Proof.
  intros [A1 A2 A3 A4 A5 A6 A7 A8 A9 A10 A11] [B1 B2 B3 B4 B5 B6 B7 B8 B9 B10 B11] Hm.
  assert (forall va, managed st va -> managed st1 va) as Hman.
  { intros va (pf' & j & Hj & Hr). exists pf', j. by rewrite A2. }
  cbn [length] in *. unfold PG_SIZE in *. split.
  - done.
  - intros pf. by rewrite B2.
  - intuition congruence.
  - intros pf. destruct (A4 pf) as (?&?&?&?), (B4 pf) as (?&?&?&?). split_and!; congruence.
  - intros pf j Hj. rewrite B5, A5 by done. destruct (decide (pf = pf2)) as [->|Hne].
    + destruct (decide (j = i)) as [->|Hji].
      * rewrite (decide_True (P := pf2 = pf2 /\ i ∈ i :: ids)) by (split; [done|left]).
        case_decide; [done|]. rewrite decide_True; [done|]. split; [done|left].
      * rewrite (decide_False (P := pf2 = pf2 /\ j ∈ [i]))
          by (intros [_ ?%list_elem_of_singleton]; done).
        destruct (decide (j ∈ ids)).
        -- rewrite !decide_True; [done|split; [done|by right]|done].
        -- rewrite !decide_False; [done| |tauto]. intros [_ [|]%elem_of_cons]; done.
    + by rewrite !decide_False by tauto.
  - intros va Hr. cbn [length] in Hr. unfold PG_SIZE in Hr. destruct (decide (v <= va < v + 4096)).
    + unfold unmapped. rewrite B7; [by apply A6; lia|by apply Hman, Hm|lia].
    + apply B6. lia.
  - intros va Hmv Hn. cbn [length] in Hn. unfold PG_SIZE in Hn.
    rewrite B7, A7; try done; [lia|by apply Hman|lia].
  - intros g. by rewrite B8.
  - congruence.
  - intros va Hva. by rewrite B10, A10.
  - intros g w Hg Hn Hw. rewrite B11, A11; try done. by rewrite A8.
Qed.

(** Pages [k ..] of pool [pf] mapped to the frames [ids] of pool [pf2]. *)
Definition backed_by (pf : pool_flags) (k : Z) (pf2 : pool_flags) (ids : list Z) (st : mst) : Prop :=
  forall j i, ids !! j = Some i -> 0 <= i < psize (pool_of pf2 st) /\
    translate (machine st) (vpage (vaddr_of pf st) (k + Z.of_nat j)) = Done (pframe (pool_of pf2 st) i) /\
    ~ table_frame (machine st) (pframe (pool_of pf2 st) i).

Definition free_bounds (pf2 : pool_flags) (st : mst) : Z * option Z :=
  match pf2 with
  | PF_USER => (phy_addr_start (user_pool st), None)
  | PF_KERNEL => (phy_addr_start (kernel_pool st), Some (phy_addr_start (user_pool st)))
  end.

Lemma pframe_mod p i : pool_wf p -> pframe p i mod PG_SIZE = 0.
Proof. intros [_ Ha _]. unfold pframe, PG_SIZE in *. by rewrite Z.mod_add by lia. Qed.

Lemma unmap_pages_spec pf pf2 : forall ids v k st,
  mem_wf st -> v = vpage (vaddr_of pf st) k -> 0 <= k ->
  k + Z.of_nat (length ids) <= vsize (vaddr_of pf st) -> backed_by pf k pf2 ids st ->
  exists st', unmap_pages (fst (free_bounds pf2 st)) (snd (free_bounds pf2 st)) (length ids) v st
      = Done (tt, st') /\ pages_freed pf2 st st' v ids.
Proof.
  induction ids as [|i ids IH]; intros v k st Hwf Hv Hk Hn Hb.
  { exists st. split; [done|]. split; try done.
    - intros pf' j Hj. rewrite decide_False; [done|]. intros [_ ?%not_elem_of_nil]. done.
    - intros va Hr. cbn in Hr. lia. }
  cbn [length] in *.
  destruct (Hb 0%nat i eq_refl) as (Hi & Ht & Hnt). cbn in Ht. rewrite Z.add_0_r, <- Hv in Ht.
  assert (low_va v) as Hlv by (rewrite Hv; apply vpage_low; [done|lia]).
  assert (0 <= k < vsize (vaddr_of pf st)) as Hk' by lia.
  destruct (mw_vaddr st Hwf pf) as [_ _ [Hs1 Hs2] _].
  destruct (pfree_spec st pf2 i Hwf Hi) as (p' & Ef & Hupd).
  destruct (pte_remove_spec (machine st) v) as (m' & Em & Hpt & Hcr & Htr & Htab & Hpde & Hdata);
    [apply Hwf|done|by eapply translate_present|].
  pose proof (unmap_one_freed st v pf k pf2 i Hwf Hk' Hv Hi Ht Hnt m' p' Hpt Htr Htab Hpde Hcr Hdata Hupd) as H1.
  set (s1 := set_machine m' (set_pool pf2 p' st)) in *.
  assert (u32 (v + PG_SIZE) = v + PG_SIZE) as Hu32.
  { apply u32_id. unfold is_u32, vpage, PG_SIZE in *. lia. }
  destruct (IH (v + PG_SIZE) (k + 1) s1) as (s2 & E2 & H2).
  { apply H1. }
  { rewrite (pf_vaddr _ _ _ _ _ H1), Hv. unfold vpage. lia. }
  { lia. }
  { rewrite (pf_vaddr _ _ _ _ _ H1). lia. }
  { intros j i' Hj. destruct (Hb (S j) i' Hj) as (Hi' & Ht' & Hnt').
    destruct (pf_pool _ _ _ _ _ H1 pf2) as (P1 & P2 & _).
    assert (pframe (pool_of pf2 s1) i' = pframe (pool_of pf2 st) i') as -> by (unfold pframe; congruence).
    rewrite P2, (pf_vaddr _ _ _ _ _ H1), (pf_tables _ _ _ _ _ H1). split_and!; [lia|lia| |done].
    apply lookup_lt_Some in Hj.
    replace (k + 1 + Z.of_nat j) with (k + Z.of_nat (S j)) by lia.
    rewrite (pf_others _ _ _ _ _ H1); [done| |].
    - apply (vpage_managed st pf (k + Z.of_nat (S j))); unfold PG_SIZE; lia.
    - rewrite Hv. unfold vpage, PG_SIZE. cbn [length]. lia. }
  exists s2. split.
  - assert (free_bounds pf2 s1 = free_bounds pf2 st) as Hfb.
    { destruct (pf_pool _ _ _ _ _ H1 PF_KERNEL) as (P1 & _), (pf_pool _ _ _ _ _ H1 PF_USER) as (P2 & _).
      cbn [pool_of] in *. destruct pf2; cbn [free_bounds]; congruence. }
    rewrite Hfb in E2. cbn [unmap_pages]. unfold bind at 1, gets, id. unfold bind at 1, lift.
    rewrite (addr_v2p_spec _ _ _ (wf_self _ (mw_pt _ Hwf)) (low_va_u32 _ Hlv) Ht).
    unfold bind at 1, assertM, lift. rewrite (pframe_mod _ i (mw_pool st Hwf pf2)).
    assert (forall A B C, A = true -> B = true -> C = true -> oassert (A && B && C) = Done tt) as Has
      by (by intros ??? -> -> ->).
    rewrite Has; [|done| |].
    + unfold bind at 1. rewrite Ef. unfold bind at 1, pte_remove_st.
      replace (machine (set_pool pf2 p' st)) with (machine st) by (by destruct pf2).
      rewrite Em. cbn [obind]. by rewrite Hu32.
    + apply Z.leb_le. unfold pframe, PG_SIZE. destruct pf2; cbn [free_bounds fst pool_of]; lia.
    + pose proof (mw_order st Hwf). unfold pframe, PG_SIZE in *.
      destruct pf2; cbn [free_bounds snd pool_of] in *; [apply Z.ltb_lt; lia|done].
  - eapply pages_freed_cons; [exact H1|exact H2|].
    intros va Hr. apply (vpage_managed st pf k); [done|by rewrite <- Hv].
Qed.

(** The request [pf, cnt] fits: there is a run of free virtual pages (and, for
    a process, below the stack page), and there are frames. *)
Record can_alloc (pf : pool_flags) (cnt s0 : Z) (st : mst) : Prop := {
  ca_cnt : 0 < cnt < 3840;
  ca_fit : 0 <= s0 /\ s0 + cnt <= vsize (vaddr_of pf st);
  ca_tail : btmp_bytes_len (vaddr_bitmap (vaddr_of pf st))
            < Z.of_nat (length (bits (vaddr_bitmap (vaddr_of pf st))));
  ca_run : free_run (vaddr_bitmap (vaddr_of pf st)) s0 cnt;
  ca_user : pf = PF_USER -> vpage (vaddr_of pf st) s0 < 0xc0000000 - PG_SIZE;
  ca_frames : enough pf (Z.to_nat cnt) st
}.

Lemma malloc_page_spec pf cnt s0 st :
  mem_wf st -> can_alloc pf cnt s0 st ->
  exists r ids st1 st2,
    vaddr_get pf cnt st = Done (vpage (vaddr_of pf st) r, st1) /\
    malloc_page pf cnt st = Done (vpage (vaddr_of pf st) r, st2) /\
    0 <= r <= s0 /\ free_run (vaddr_bitmap (vaddr_of pf st)) r cnt /\
    set_bits_true (vaddr_of pf st) (vaddr_of pf st1) r cnt /\
    machine st1 = machine st /\ (forall pf', pool_of pf' st1 = pool_of pf' st) /\
    (forall pf', pf' <> pf -> vaddr_of pf' st1 = vaddr_of pf' st) /\
    length ids = Z.to_nat cnt /\
    pages_mapped pf st1 st2 (vpage (vaddr_of pf st) r) ids.
Proof.
  intros Hwf [Hc [Hs Hf] Ht Hr Hu He].
  destruct (vaddr_get_spec pf cnt s0 st) as (r & st1 & E1 & Hrr & Hfr & Hwf1 & Hb & Hm & Hp & Hv);
    try done; [lia|].
  pose proof Hb as (Hb1 & Hb2 & Hb3).
  destruct (map_pages_spec pf (Z.to_nat cnt) (vpage (vaddr_of pf st) r) r st1)
    as (ids & st2 & E2 & Hl & Hpm).
  - done.
  - unfold vpage. by rewrite Hb1.
  - lia.
  - rewrite Hb2. lia.
  - intros j Hj. rewrite Z2Nat.id in Hj by lia. split.
    + rewrite Hb3, decide_True by lia. done.
    + rewrite Hm. unfold vpage. rewrite Hb1. apply (mw_unmapped st Hwf pf j); [lia|apply Hfr; lia|].
      unfold vpage, PG_SIZE. lia.
  - pose proof (Hp PF_KERNEL) as Ek. pose proof (Hp PF_USER) as Eu. cbn in Ek, Eu.
    destruct pf; cbn in *; unfold kfree, ufree in *; by rewrite ?Ek, ?Eu.
  - exists r, ids, st1, st2. split_and!; try done; try lia.
    unfold malloc_page, bind, assertM, lift.
    rewrite (proj2 (Z.ltb_lt 0 cnt)), (proj2 (Z.ltb_lt cnt 3840)) by lia. cbn [andb oassert].
    rewrite E1, (proj2 (Z.eqb_neq _ NULL)), E2; [done|].
    pose proof (vw_null _ (mw_vaddr st Hwf pf) ltac:(lia)). unfold vpage, NULL, PG_SIZE in *. lia.
Qed.

(** C1: [malloc_page] allocates pages that are the caller's alone.  When the
    request fits, [malloc_page] returns the address of the first run of [cnt]
    free virtual pages; its pages are marked used and no other virtual page is;
    each page is mapped to a frame of the right pool, all different, that was
    free and that no address was mapped to; whatever was mapped before still
    translates to the same place; and the invariant of the allocator holds
    again. *)
Theorem malloc_page_correct (pf : pool_flags) (cnt s0 : Z) (st : mst)
    (Hwf : mem_wf st) (Hca : can_alloc pf cnt s0 st) :
  exists r ids st', malloc_page pf cnt st = Done (vpage (vaddr_of pf st) r, st') /\
    0 <= r <= s0 /\ free_run (vaddr_bitmap (vaddr_of pf st)) r cnt /\
    set_bits_true (vaddr_of pf st) (vaddr_of pf st') r cnt /\
    length ids = Z.to_nat cnt /\ NoDup ids /\
    (forall i, i ∈ ids -> 0 <= i < psize (pool_of pf st) /\ pused (pool_of pf st) i = false /\
       (forall va pa, low_va va -> translate (machine st) va = Done pa ->
          frame pa <> pframe (pool_of pf st) i)) /\
    (forall j i va, ids !! j = Some i ->
       vpage (vaddr_of pf st) (r + Z.of_nat j) <= va < vpage (vaddr_of pf st) (r + Z.of_nat j) + PG_SIZE ->
       translate (machine st') va = Done (pframe (pool_of pf st) i + va mod 4096)) /\
    (forall va pa, low_va va -> translate (machine st) va = Done pa -> translate (machine st') va = Done pa) /\
    mem_wf st'.
Proof.
  destruct (malloc_page_spec pf cnt s0 st Hwf Hca)
    as (r & ids & st1 & st2 & _ & E & Hr & Hfr & Hb & Hm & Hp & _ & Hl & [Q1 Q2 Q3 Q4 Q5 Q6 _ _ _ _ _]).
  exists r, ids, st2. split; [done|]. split; [done|]. split; [done|]. split_and!; try done.
  - by rewrite (sg_vaddr _ _ Q2).
  - intros i [Hi Hu]%Q4. rewrite Hp in *. split; [done|]. split; [done|].
    intros va pa Hva Ht Hf. rewrite (mw_mapped st Hwf pf i va pa) in Hu; done.
  - intros j i va Hj Hva. rewrite <- (Hp pf). apply (Q5 j); [done|]. unfold vpage in *. lia.
  - intros va pa Hva Ht. apply (sg_kept _ _ Q2); [done|]. by rewrite Hm.
Qed.

(** ** A concrete allocator state

    The address space of [Paging.ex_mmu]; eight frames in each pool, eight
    kernel pages from [K_HEAP_START] and eight pages of a process. *)
Definition ex_bitmap : bitmap := mk_bitmap 1 [0; 0].
Definition ex_mst : mst :=
  mk_mst ex_mmu (mk_pool ex_bitmap 0x200000 0x8000 slock_init) (mk_pool ex_bitmap 0x300000 0x8000 slock_init)
    (mk_vaddr ex_bitmap K_HEAP_START) 0xc009e000 0 (mk_vaddr ex_bitmap 0x08048000).

Lemma ex_bitmap_wf : bitmap_wf ex_bitmap.
Proof. split; cbn; [lia| |lia]. repeat constructor; unfold is_u8; lia. Qed.

Lemma ex_mapped va pa : low_va va -> translate ex_mmu va = Done pa -> frame pa = 0x5000.
Proof.
  intros Hva. rewrite ex_mmu_translate by done. destruct (_ && _); [|done]. intros [= <-].
  apply frame_page; [done|]. apply Z.mod_pos_bound. lia.
Qed.

Lemma ex_managed va : managed ex_mst va ->
  low_va va /\ (PDE_IDX va = 768 \/ PDE_IDX va = 32) /\ 72 <= PTE_IDX va < 264.
Proof.
  intros (pf & i & Hi & Hr).
  assert (vsize (vaddr_of pf ex_mst) = 8) as Hs by (by destruct pf). rewrite Hs in Hi.
  assert (low_va va) as Hl.
  { destruct pf; unfold low_va, vpage, PG_SIZE in *; cbn in Hr; unfold K_HEAP_START in *; lia. }
  split; [done|]. rewrite PDE_IDX_eq, PTE_IDX_eq by auto.
  assert (va / 4096 = vpage (vaddr_of pf ex_mst) i / 4096) as E.
  { symmetry. apply in_page; [|done]. unfold vpage, PG_SIZE. rewrite Z.mod_add by lia. by destruct pf. }
  change 4194304 with (4096 * 1024). rewrite <- Z.div_div, E by lia.
  assert (i = 0 \/ i = 1 \/ i = 2 \/ i = 3 \/ i = 4 \/ i = 5 \/ i = 6 \/ i = 7) as Hc by lia.
  destruct pf; repeat destruct Hc as [->|Hc]; try subst i; vm_compute; intuition congruence.
Qed.

Lemma ex_mst_wf : mem_wf ex_mst.
Proof.
  assert (forall pf i, 0 <= i < psize (pool_of pf ex_mst) -> 0x200000 <= pframe (pool_of pf ex_mst) i) as Hp.
  { intros pf i Hi. destruct pf; unfold pframe, PG_SIZE; cbn in *; lia. }
  split; cbn [machine ex_mst].
  - apply ex_mmu_wf.
  - intros pf. split; [destruct pf; apply ex_bitmap_wf|by destruct pf|].
    destruct pf; unfold PG_SIZE, pframe; vm_compute; intuition congruence.
  - vm_compute. congruence.
  - intros pf. split; [destruct pf; apply ex_bitmap_wf|by destruct pf| |].
    + destruct pf; vm_compute; intuition congruence.
    + destruct pf; vm_compute; intuition congruence.
  - vm_compute. congruence.
  - intros pf i Hi%Hp [E|(d & Hd & Hpr & E)]; exfalso.
    + rewrite E in Hi. cbn in Hi. lia.
    + rewrite ex_mmu_tables in E by done. lia.
  - intros pf i va pa Hi%Hp Hva Ht%ex_mapped E; [|done]. exfalso. lia.
  - intros pf i va1 va2 pa1 pa2 Hi%Hp Hva _ Ht%ex_mapped _ E; [|done]. exfalso. lia.
  - intros pf i va Hi _ Hr. unfold unmapped.
    destruct (ex_managed va) as (Hl & _ & Hx); [by eapply (vpage_managed ex_mst)|].
    rewrite ex_mmu_translate by done. rewrite (proj2 (Z.eqb_neq (PTE_IDX va) 0)) by lia.
    by rewrite andb_false_r.
  - intros va1 va2 M1%ex_managed M2%ex_managed [P1 L1] [P2 _].
    destruct M1 as (Hl1 & Hd1 & Ht1), M2 as (Hl2 & Hd2 & Ht2).
    assert (forall va, low_va va -> PDE_IDX va = 768 \/ PDE_IDX va = 32 ->
              present (pde_of ex_mmu va) = true -> PDE_IDX va = 768 /\ pde_of ex_mmu va = 0x101007) as Hpd.
    { intros va Hl [E|E]; unfold pde_of; change (cr3 ex_mmu) with 0x100000;
        rewrite ex_mmu_pde, E by (by apply low_va_idx); done. }
    destruct (Hpd va1) as [E1 F1], (Hpd va2) as [E2 F2]; try done.
    unfold pte_loc in L1. rewrite F1, F2 in L1.
    rewrite (va_split va1), (va_split va2), E1, E2 by auto. replace (PTE_IDX va1) with (PTE_IDX va2) by lia.
    unfold mk_va, PG_SIZE. rewrite !(Z.add_comm _ (_ mod 4096)).
    pose proof (Z.mod_pos_bound va1 4096). pose proof (Z.mod_pos_bound va2 4096).
    replace (768 * 4194304 + PTE_IDX va2 * 4096) with ((768 * 1024 + PTE_IDX va2) * 4096) by lia.
    rewrite !Z.div_add, !Z.div_small by lia. done.
Qed.

Lemma ex_can_alloc : can_alloc PF_KERNEL 3 0 ex_mst.
Proof.
  split.
  - lia.
  - vm_compute. intuition congruence.
  - by vm_compute.
  - intros i Hi. assert (i = 0 \/ i = 1 \/ i = 2) as [->|[->| ->]] by lia; by vm_compute.
  - done.
  - vm_compute. lia.
Qed.

Lemma malloc_page_correct_witness :
  exists r (ids : list Z) st', malloc_page PF_KERNEL 3 ex_mst = Done (vpage (vaddr_of PF_KERNEL ex_mst) r, st') /\
    0 <= r <= 0 /\ length ids = 3%nat /\ NoDup ids /\ mem_wf st'.
Proof.
  destruct (malloc_page_correct PF_KERNEL 3 0 ex_mst ex_mst_wf ex_can_alloc)
    as (r & ids & st' & E & Hr & _ & _ & Hl & Hnd & _ & _ & _ & Hwf).
  exists r, ids, st'. split; [exact E|]. split; [exact Hr|]. split; [exact Hl|]. split; [exact Hnd|exact Hwf].
Defined.

(** Clearing the virtual bits of unmapped pages. *)
Lemma vaddr_remove_spec pf k n st :
  mem_wf st -> 0 <= k -> 0 < n -> k + n <= vsize (vaddr_of pf st) ->
  (forall va, vpage (vaddr_of pf st) k <= va < vpage (vaddr_of pf st) k + n * PG_SIZE ->
     unmapped (machine st) va) ->
  exists v', vaddr_remove pf (vpage (vaddr_of pf st) k) n st = Done (tt, set_vaddr pf v' st) /\
    mem_wf (set_vaddr pf v' st) /\ vaddr_start v' = vaddr_start (vaddr_of pf st) /\
    vsize v' = vsize (vaddr_of pf st) /\
    forall j, 0 <= j -> vused v' j = if decide (k <= j < k + n) then false else vused (vaddr_of pf st) j.
Proof.
  intros Hwf Hk Hn Hfit Hun. pose proof (mw_vaddr st Hwf pf) as [Hb Ha [Hr1 Hr2] Hnull].
  pose proof (wf_len _ Hb) as Hl. unfold vaddr_remove.
  assert (u32 (vpage (vaddr_of pf st) k - vaddr_start (vaddr_of pf st)) / PG_SIZE = k) as ->.
  { unfold vpage, PG_SIZE in *. rewrite u32_id by (unfold is_u32; lia).
    replace (vaddr_start (vaddr_of pf st) + k * 4096 - vaddr_start (vaddr_of pf st)) with (k * 4096) by lia.
    apply Z.div_mul. lia. }
  destruct (bitmap_set_range_spec (vaddr_bitmap (vaddr_of pf st)) (Z.to_nat n) 0 k)
    as (b' & -> & Hb' & [Hsh1 Hsh2] & Hu); [done|lia|auto|unfold vsize, nbits in *; lia|].
  rewrite Z2Nat.id in Hu by lia. cbn [obind]. set (v' := mk_vaddr b' (vaddr_start (vaddr_of pf st))).
  assert (vsize v' = vsize (vaddr_of pf st)) as Hvs by (unfold vsize, nbits; cbn; by rewrite Hsh1).
  exists v'. split; [done|]. split; [|split_and!; [done|done|]; intros j Hj; apply Hu; done].
  assert (forall pf', vaddr_start (vaddr_of pf' (set_vaddr pf v' st)) = vaddr_start (vaddr_of pf' st)
            /\ vsize (vaddr_of pf' (set_vaddr pf v' st)) = vsize (vaddr_of pf' st)
            /\ vaddr_wf (vaddr_of pf' (set_vaddr pf v' st))) as Hv.
  { intros pf'. rewrite vaddr_of_set. case_decide as Hd; [subst pf'|split_and!; try done; apply Hwf].
    split_and!; try done. split; [done|done| |by rewrite Hvs]. unfold vpage in *. by rewrite Hvs. }
  assert (forall va, managed (set_vaddr pf v' st) va -> managed st va) as Hman.
  { intros va (pf' & j & Hj & Hr'). destruct (Hv pf') as (Hvs' & Hvz & _).
    exists pf', j. unfold vpage in *. by rewrite Hvs', Hvz in *. }
  assert (machine (set_vaddr pf v' st) = machine st) as Hm by (by destruct pf).
  assert (forall pf', pool_of pf' (set_vaddr pf v' st) = pool_of pf' st) as Hp by (intros pf'; by destruct pf, pf').
  destruct Hwf. split; rewrite ?Hm.
  - done.
  - intros pf'. by rewrite Hp.
  - by destruct pf.
  - intros pf'. apply Hv.
  - pose proof (Hv PF_USER) as (V1 & V2 & _). pose proof (Hv PF_KERNEL) as (V3 & _).
    cbn [vaddr_of] in *. unfold vpage in *. by rewrite V1, V2, V3.
  - intros pf'. rewrite Hp. apply mw_tables0.
  - intros pf'. rewrite Hp. apply mw_mapped0.
  - intros pf'. rewrite Hp. apply mw_sole0.
  - intros pf' j va Hj Hju Hr. destruct (Hv pf') as (Hvs' & Hvz & _).
    rewrite Hvz in Hj. unfold vpage in Hr. rewrite Hvs' in Hr.
    destruct (decide (pf' = pf)) as [->|Hne].
    + rewrite vaddr_of_set, decide_True in Hju by done. unfold vused in Hju. cbn in Hju.
      rewrite Hu in Hju by lia. case_decide.
      * apply Hun. unfold vpage, PG_SIZE in *. nia.
      * by apply (mw_unmapped0 pf j).
    + rewrite vaddr_of_set, decide_False in Hju by done. by apply (mw_unmapped0 pf' j).
  - intros va1 va2 M1%Hman M2%Hman. auto.
Qed.

Lemma mfree_page_spec pf k pf2 ids st :
  mem_wf st -> 0 <= k -> k + Z.of_nat (length ids) <= vsize (vaddr_of pf st) ->
  backed_by pf k pf2 ids st -> ids <> [] -> 0x102000 <= phy_addr_start (pool_of pf2 st) ->
  exists st1 st', mfree_page pf (vpage (vaddr_of pf st) k) (Z.of_nat (length ids)) st = Done (tt, st') /\
    pages_freed pf2 st st1 (vpage (vaddr_of pf st) k) ids /\ mem_wf st' /\
    machine st' = machine st1 /\ (forall pf', pool_of pf' st' = pool_of pf' st1) /\
    (forall pf', pf' <> pf -> vaddr_of pf' st' = vaddr_of pf' st) /\
    vaddr_start (vaddr_of pf st') = vaddr_start (vaddr_of pf st) /\
    vsize (vaddr_of pf st') = vsize (vaddr_of pf st) /\
    (forall j, 0 <= j -> vused (vaddr_of pf st') j =
       if decide (k <= j < k + Z.of_nat (length ids)) then false else vused (vaddr_of pf st) j) /\
    cur st' = cur st /\ cur_pgdir st' = cur_pgdir st.
Proof.
  intros Hwf Hk Hfit Hb Hne Hlow.
  destruct ids as [|i0 ids0]; [done|]. set (ids := i0 :: ids0) in *.
  destruct (Hb 0%nat i0 eq_refl) as (Hi & Ht & _). cbn in Ht. rewrite Z.add_0_r in Ht.
  assert (low_va (vpage (vaddr_of pf st) k)) as Hlv by (apply vpage_low; [done|cbn in Hfit; lia]).
  destruct (unmap_pages_spec pf pf2 ids (vpage (vaddr_of pf st) k) k st) as (st1 & E1 & Hf); try done.
  destruct (vaddr_remove_spec pf k (Z.of_nat (length ids)) st1) as (v' & E2 & Hwf' & V1 & V2 & V3).
  { apply Hf. }
  { done. }
  { cbn. lia. }
  { by rewrite (pf_vaddr _ _ _ _ _ Hf). }
  { intros va Hr. rewrite (pf_vaddr _ _ _ _ _ Hf) in Hr. by apply (pf_unmapped _ _ _ _ _ Hf). }
  rewrite (pf_vaddr _ _ _ _ _ Hf) in *.
  exists st1, (set_vaddr pf v' st1). split.
  - unfold mfree_page, bind, assertM, lift, gets, id.
    rewrite (vpage_mod _ k (mw_vaddr st Hwf pf) : _ mod PG_SIZE = 0).
    rewrite (proj2 (Z.leb_le 1 (Z.of_nat (length ids)))) by (cbn; lia). cbn [andb Z.eqb oassert].
    rewrite (addr_v2p_spec _ _ _ (wf_self _ (mw_pt _ Hwf)) (low_va_u32 _ Hlv) Ht).
    rewrite (pframe_mod _ i0 (mw_pool st Hwf pf2)).
    rewrite (proj2 (Z.leb_le 0x102000 _)) by (unfold pframe, PG_SIZE; lia). cbn [andb Z.eqb oassert].
    rewrite Nat2Z.id.
    destruct (mw_pool st Hwf pf2) as [_ _ [? ?]]. pose proof (mw_order st Hwf) as Ho.
    unfold pframe, PG_SIZE in Ho. unfold pframe, PG_SIZE.
    destruct pf2; cbn [pool_of free_bounds fst snd] in *.
    + rewrite (proj2 (Z.leb_gt _ _)) by lia. by rewrite E1.
    + rewrite (proj2 (Z.leb_le _ _)) by lia. by rewrite E1.
  - split; [done|]. split; [done|]. split_and!.
    + by destruct pf.
    + intros pf'; by destruct pf, pf'.
    + intros pf' Hn. rewrite vaddr_of_set, decide_False by done. apply Hf.
    + by rewrite vaddr_of_set, decide_True.
    + by rewrite vaddr_of_set, decide_True.
    + intros j Hj. rewrite vaddr_of_set, decide_True by done. by apply V3.
    + destruct (pf_cur _ _ _ _ _ Hf) as [<- _]. by destruct pf.
    + destruct (pf_cur _ _ _ _ _ Hf) as [_ <-]. by destruct pf.
Qed.

(** Pages of a free run are not mapped. *)
Lemma free_run_unmapped pf st r cnt va : mem_wf st -> free_run (vaddr_bitmap (vaddr_of pf st)) r cnt ->
  0 <= r -> r + cnt <= vsize (vaddr_of pf st) ->
  vpage (vaddr_of pf st) r <= va < vpage (vaddr_of pf st) r + cnt * PG_SIZE ->
  translate (machine st) va = Halt Page_fault.
Proof.
  intros Hwf Hfr Hr Hs Hin.
  assert (r <= (va - vaddr_start (vaddr_of pf st)) / PG_SIZE < r + cnt) as Hk.
  { unfold vpage, PG_SIZE in *. split; [apply Z.div_le_lower_bound|apply Z.div_lt_upper_bound]; lia. }
  apply (mw_unmapped st Hwf pf ((va - vaddr_start (vaddr_of pf st)) / PG_SIZE)); [lia|apply Hfr; lia|].
  unfold vpage, PG_SIZE in *. pose proof (Z.div_mod (va - vaddr_start (vaddr_of pf st)) 4096).
  pose proof (Z.mod_pos_bound (va - vaddr_start (vaddr_of pf st)) 4096). lia.
Qed.

(** Pages just mapped are backed by the frames they were mapped to. *)
Lemma mapped_backed pf st st' r ids : pages_mapped pf st st' (vpage (vaddr_of pf st') r) ids ->
  backed_by pf r pf ids st'.
Proof.
  intros Q j i Hj. pose proof (sg_pool _ _ (pm_grow _ _ _ _ _ Q) pf) as Gp.
  assert (i ∈ ids) as Hin by (by eapply list_elem_of_lookup_2).
  destruct (pm_fresh _ _ _ _ _ Q i Hin) as [Hi _]. rewrite (pg_psize _ _ Gp). split; [done|].
  rewrite (pool_grow_pframe _ _ _ Gp). split; [|by apply (pm_tables _ _ _ _ _ Q)].
  assert (vpage (vaddr_of pf st') (r + Z.of_nat j) = vpage (vaddr_of pf st') r + Z.of_nat j * PG_SIZE) as Ev
    by (unfold vpage; lia).
  rewrite (pm_map _ _ _ _ _ Q j i) by (done || rewrite Ev; unfold PG_SIZE; lia).
  rewrite (vpage_mod _ _ (mw_vaddr _ (pm_wf _ _ _ _ _ Q) pf)). f_equal. lia.
Qed.

(** A frame that a mapping took and its removal gave back is as before. *)
Lemma mapped_freed_used pf pf' st st1 st2 v v' ids j : pages_mapped pf st st1 v ids -> pages_freed pf st1 st2 v' ids ->
  0 <= j -> pused (pool_of pf' st2) j = pused (pool_of pf' st) j \/
    (pf' = PF_KERNEL /\ table_frame (machine st2) (pframe (kernel_pool st) j)).
Proof.
  intros Q F Hj. rewrite (pf_used _ _ _ _ _ F) by done. case_decide as Hin.
  - destruct Hin as [-> Hin]. apply (pm_fresh _ _ _ _ _ Q) in Hin as [_ Hu]. by left.
  - destruct (pused (pool_of pf' st1) j) eqn:Eu.
    + apply (pm_taken _ _ _ _ _ Q) in Eu as [Eu|[?|[-> Ht]]]; [by left|done| |done].
      right. split; [done|]. by rewrite (pf_tables _ _ _ _ _ F).
    + left. destruct (pused (pool_of pf' st) j) eqn:Es; [|done].
      apply (pg_used _ _ (sg_pool _ _ (pm_grow _ _ _ _ _ Q) pf')) in Es; [congruence|done].
Qed.

(** C2: allocate, then free, and the allocator is as it was.  After
    [malloc_page] of a request that fits, [mfree_page] of the same pages
    returns (none of its assertions stops it) and: every bit of the two virtual
    pools is what it was before the allocation; so is every bit of the two
    physical pools, except for the kernel frames that have become page tables;
    every page of the two virtual pools translates as before; and the invariant
    holds.  No page is lost and none is freed twice. *)
Theorem malloc_mfree_roundtrip (pf : pool_flags) (cnt s0 : Z) (st : mst)
    (Hwf : mem_wf st) (Hca : can_alloc pf cnt s0 st)
    (Hlow : 0x102000 <= phy_addr_start (pool_of pf st)) :
  exists va st1 st2, malloc_page pf cnt st = Done (va, st1) /\ mfree_page pf va cnt st1 = Done (tt, st2) /\
    mem_wf st2 /\
    (forall pf' j, 0 <= j -> vused (vaddr_of pf' st2) j = vused (vaddr_of pf' st) j) /\
    (forall pf' j, 0 <= j -> pused (pool_of pf' st2) j = pused (pool_of pf' st) j \/
       (pf' = PF_KERNEL /\ table_frame (machine st2) (pframe (kernel_pool st) j))) /\
    (forall va', managed st va' -> translate (machine st2) va' = translate (machine st) va').
Proof.
  destruct (malloc_page_spec pf cnt s0 st Hwf Hca)
    as (r & ids & sA & sB & _ & E & Hr & Hfr & Hb & Hm & Hp & Hv & Hl & Q).
  pose proof Hca as [Hc [Hs Hf] _ _ _ _]. pose proof Hb as (Hb1 & Hb2 & Hb3).
  pose proof (pm_grow _ _ _ _ _ Q) as G. pose proof (sg_pool _ _ G pf) as Gp.
  assert (vpage (vaddr_of pf sB) r = vpage (vaddr_of pf st) r) as Hvp.
  { rewrite (sg_vaddr _ _ G). unfold vpage. by rewrite Hb1. }
  destruct (mfree_page_spec pf r pf ids sB)
    as (sC & sD & E2 & F & Hwf2 & Hm2 & Hp2 & Hv2 & _ & _ & Hvu & _).
  { apply Q. }
  { lia. }
  { rewrite (sg_vaddr _ _ G), Hb2. lia. }
  { apply mapped_backed with (st := sA). by rewrite Hvp. }
  { intros ->. cbn in Hl. lia. }
  { by rewrite (pg_start _ _ Gp), Hp. }
  rewrite Hvp in E2. rewrite Hl, Z2Nat.id in E2, Hvu by lia.
  exists (vpage (vaddr_of pf st) r), sB, sD. split_and!; [done|done|done| | |].
  - intros pf' j Hj. destruct (decide (pf' = pf)) as [->|Hne].
    + rewrite Hvu, (sg_vaddr _ _ G), Hb3 by done. case_decide; [|done].
      symmetry. apply Hfr. lia.
    + by rewrite Hv2, (sg_vaddr _ _ G), Hv.
  - intros pf' j Hj. rewrite Hp2, Hm2. rewrite <- (Hp pf'), <- (Hp PF_KERNEL : kernel_pool sA = kernel_pool st).
    by eapply mapped_freed_used.
  - intros va Hva. rewrite Hm2.
    destruct (decide (vpage (vaddr_of pf st) r <= va < vpage (vaddr_of pf st) r + cnt * PG_SIZE)) as [Hin|Hout].
    + rewrite (pf_unmapped _ _ _ _ _ F va) by (rewrite Hvp, Hl; lia). symmetry.
      apply (free_run_unmapped pf st r cnt); (done || lia).
    + assert (managed sA va) as HvA.
      { destruct Hva as (pf' & j & Hj & Hr'). exists pf', j.
        destruct (decide (pf' = pf)) as [->|]; [|by rewrite Hv]. unfold vpage in *. by rewrite Hb1, Hb2. }
      rewrite (pf_others _ _ _ _ _ F).
      * rewrite (pm_others _ _ _ _ _ Q), Hm; [done|done|]. rewrite Hl. lia.
      * apply (managed_grow _ sA); [intros pf'; symmetry; apply G|done].
      * rewrite Hvp, Hl. lia.
Qed.

Lemma malloc_mfree_roundtrip_witness :
  exists va st1 st2, malloc_page PF_KERNEL 3 ex_mst = Done (va, st1) /\
    mfree_page PF_KERNEL va 3 st1 = Done (tt, st2) /\ mem_wf st2.
Proof.
  destruct (malloc_mfree_roundtrip PF_KERNEL 3 0 ex_mst ex_mst_wf ex_can_alloc)
    as (va & st1 & st2 & E1 & E2 & Hwf & _).
  - cbn. lia.
  - exists va, st1, st2. split; [exact E1|]. split; [exact E2|exact Hwf].
Defined.

(** ** Initialisation *)
Lemma bitmap_init_spec len mem :
  0 <= len <= Z.of_nat (length mem) ->
  bitmap_init (mk_bitmap len mem) =
    Done (mk_bitmap len (replicate (Z.to_nat len) 0 ++ drop (Z.to_nat len) mem)).
Proof. intros Hl. unfold bitmap_init. cbn. by rewrite decide_True by lia. Qed.

Lemma used_zeros len rest i :
  0 <= i < len * 8 -> used (mk_bitmap len (replicate (Z.to_nat len) 0 ++ rest)) i = false.
Proof.
  intros Hi. unfold used, arr_get. cbn [bits].
  assert (0 <= i / 8 < len) as Hq by (split; [apply Z.div_pos|apply Z.div_lt_upper_bound]; lia).
  rewrite decide_True, lookup_app_l, lookup_replicate_2 by (rewrite ?length_replicate; lia).
  apply Z.bits_0.
Qed.

(** The three bitmaps, one after the other. *)
Lemma mem_pool_init_eq low all_mem st n :
  u16 (u32 (all_mem - 0x200000) / PG_SIZE) = n -> Z.of_nat (length low) = 16384 ->
  let k := n / 2 in let u := n - n / 2 in let kb := k / 8 in let ub := u / 8 in
  exists rest, mem_pool_init low all_mem st =
    Done (mk_mst (machine st)
      (mk_pool (mk_bitmap kb (replicate (Z.to_nat kb) 0 ++ replicate (Z.to_nat ub) 0 ++
                              replicate (Z.to_nat kb) 0 ++ rest)) 0x200000 (k * PG_SIZE) slock_init)
      (mk_pool (mk_bitmap ub (replicate (Z.to_nat ub) 0 ++ replicate (Z.to_nat kb) 0 ++ rest))
         (u32 (0x200000 + k * PG_SIZE)) (u * PG_SIZE) slock_init)
      (mk_vaddr (mk_bitmap kb (replicate (Z.to_nat kb) 0 ++ rest)) K_HEAP_START)
      (cur st) (cur_pgdir st) (userprog_vaddr st)).
Proof.
  intros Hn Hlow k u kb ub.
  assert (0 <= n < 65536) as Hr by (rewrite <- Hn; apply Z.mod_pos_bound; lia).
  assert (0 <= k <= 32767 /\ k <= n) as Hk.
  { unfold k. pose proof (Z.div_mod n 2). pose proof (Z.mod_pos_bound n 2). lia. }
  assert (0 <= u <= 32768) as Hu.
  { unfold u. pose proof (Z.div_mod n 2). pose proof (Z.mod_pos_bound n 2). lia. }
  assert (0 <= kb <= 4096) as Hkb by (unfold kb; split; [apply Z.div_pos|apply Z.div_le_upper_bound]; lia).
  assert (0 <= ub <= 4096) as Hub by (unfold ub; split; [apply Z.div_pos|apply Z.div_le_upper_bound]; lia).
  exists (drop (Z.to_nat kb) (drop (Z.to_nat ub) (drop (Z.to_nat kb) low))).
  unfold mem_pool_init. change (PG_SIZE * 256 + 0x100000) with 0x200000. rewrite Hn.
  assert (u16 (n / 2) = k) as Ek by (unfold u16; apply Z.mod_small; unfold k in *; lia).
  rewrite Ek. assert (u16 (n - k) = u) as Eu by (unfold u16; apply Z.mod_small; unfold u, k in *; lia).
  rewrite Eu. fold kb ub.
  rewrite bitmap_init_spec by lia. cbn [obind bits].
  rewrite (drop_app_length' (replicate (Z.to_nat kb) 0)) by (by rewrite length_replicate).
  rewrite bitmap_init_spec by (rewrite length_drop; lia). cbn [obind bits].
  rewrite (drop_app_length' (replicate (Z.to_nat ub) 0)) by (by rewrite length_replicate).
  rewrite bitmap_init_spec by (rewrite !length_drop; lia). cbn [obind bits].
  rewrite (take_app_length' (replicate (Z.to_nat kb) 0)) by (by rewrite length_replicate).
  rewrite (take_app_length' (replicate (Z.to_nat ub) 0)) by (by rewrite length_replicate).
  rewrite (drop_app_length' (replicate (Z.to_nat kb) 0)) by (by rewrite length_replicate).
  done.
Qed.

(** C39: the pools that [mem_pool_init] sets up fit into the memory of the
    machine.  For less than 258 MiB of memory (where the page count still fits
    its [uint16_t]) and at least the 2 MiB already used, the kernel pool starts
    right after the used memory, the user pool right after the kernel pool,
    every frame either pool's bitmap can hand out lies inside the installed
    memory, no frame is in both pools, and all of them start free. *)
Theorem mem_pool_init_correct (low : list Z) (all_mem : Z) (st : mst)
    (Hmem : 0x200000 <= all_mem < 0x10200000) (Hlow : Z.of_nat (length low) = 16384) :
  exists st', mem_pool_init low all_mem st = Done st' /\
    phy_addr_start (kernel_pool st') = 0x200000 /\
    phy_addr_start (user_pool st') = 0x200000 + pool_size (kernel_pool st') /\
    pframe (kernel_pool st') (psize (kernel_pool st')) <= phy_addr_start (user_pool st') /\
    pframe (user_pool st') (psize (user_pool st')) <= all_mem /\
    (forall pf i, 0 <= i < psize (pool_of pf st') -> pused (pool_of pf st') i = false) /\
    vaddr_start (kernel_vaddr st') = K_HEAP_START /\
    vsize (kernel_vaddr st') = psize (kernel_pool st') /\
    (forall i, 0 <= i < vsize (kernel_vaddr st') -> vused (kernel_vaddr st') i = false).
Proof.
  set (n := (all_mem - 0x200000) / 4096).
  assert (0 <= n < 65536) as Hn.
  { unfold n. split; [apply Z.div_pos|apply Z.div_lt_upper_bound]; lia. }
  assert (n * 4096 <= all_mem - 0x200000) as Hle.
  { unfold n. pose proof (Z.div_mod (all_mem - 0x200000) 4096).
    pose proof (Z.mod_pos_bound (all_mem - 0x200000) 4096). lia. }
  destruct (mem_pool_init_eq low all_mem st n) as [rest E]; [|done|].
  { rewrite u32_id by (unfold is_u32; lia). by apply Z.mod_small. }
  cbv zeta in E. rewrite E. eexists. split; [done|]. cbn [kernel_pool user_pool kernel_vaddr].
  set (k := n / 2) in *. set (u := n - k) in *.
  assert (0 <= k <= n) as Hk.
  { unfold k. pose proof (Z.div_mod n 2). pose proof (Z.mod_pos_bound n 2). lia. }
  assert (k / 8 * 8 <= k /\ u / 8 * 8 <= u) as [Hk8 Hu8].
  { pose proof (Z.div_mod k 8). pose proof (Z.mod_pos_bound k 8).
    pose proof (Z.div_mod u 8). pose proof (Z.mod_pos_bound u 8). lia. }
  assert (u32 (0x200000 + k * PG_SIZE) = 0x200000 + k * PG_SIZE) as Hst.
  { apply u32_id. unfold is_u32, PG_SIZE. lia. }
  unfold pframe, psize, nbits, PG_SIZE in *. cbn. rewrite Hst. split_and!; try done; try lia.
  - intros [] i Hi; apply used_zeros; exact Hi.
  - intros i Hi. apply used_zeros. exact Hi.
Qed.

Lemma mem_pool_init_correct_witness :
  exists st', mem_pool_init (replicate 16384 7) 0x2000000 ex_mst = Done st' /\
    phy_addr_start (kernel_pool st') = 0x200000.
Proof.
  destruct (mem_pool_init_correct (replicate 16384 7) 0x2000000 ex_mst) as (st' & E & H & _).
  - lia.
  - by rewrite length_replicate.
  - exists st'. split; [exact E|exact H].
Defined.

(** At 258 MiB the page count wraps.  [all_free_pages] is a [uint16_t]; a
    machine with exactly 258 MiB has 65536 free pages, which is 0, and both
    pools come out empty although the comment at the top of the file says that
    512 MiB are supported. *)
Theorem mem_pool_init_wraps (low : list Z) (st : mst) (Hlow : Z.of_nat (length low) = 16384) :
  exists st', mem_pool_init low 0x10200000 st = Done st' /\
    psize (kernel_pool st') = 0 /\ psize (user_pool st') = 0.
Proof.
  destruct (mem_pool_init_eq low 0x10200000 st 0) as [rest E]; [done|done|].
  cbv zeta in E. rewrite E. eexists. split; [done|]. done.
Qed.

Lemma mem_pool_init_wraps_witness :
  exists st', mem_pool_init (replicate 16384 0) 0x10200000 ex_mst = Done st' /\
    psize (kernel_pool st') = 0 /\ psize (user_pool st') = 0.
Proof. apply mem_pool_init_wraps. by rewrite length_replicate. Defined.
