(* ===== verification/Kpages.v ===== *)
(** * Kpages: pages handed to the kernel and to processes, cleared ([kernel/memory.c])

    [get_pages] takes the pool's lock, allocates pages with [malloc_page], clears
    them through their new mapping and releases the lock.  The lemmas say on
    what part of memory the allocator's invariant depends (the page tables), so
    that clearing and copying pages keeps it. *)

From stdpp Require Import base numbers list gmap.
From S2P Require Import Prelude.
From S2P Require Import Bitmap.
From S2P Require Import Paging.
From S2P Require Import Seqlock.
From S2P Require Import Memory.

Local Open Scope Z_scope.
Local Open Scope kernel_scope.

(** ** The page tables a view depends on *)
Record same_tables (m m' : mmu) : Prop := {
  st_cr3 : cr3 m' = cr3 m;
  st_words : forall g i, table_frame m g -> 0 <= i < 1024 -> rd_ram m' (g + i * 4) = rd_ram m (g + i * 4)
}.

Lemma same_tables_refl m : same_tables m m.
Proof. by split. Qed.

Lemma table_frame_cr3 m : table_frame m (cr3 m).
Proof. by left. Qed.
#[export] Hint Resolve table_frame_cr3 same_tables_refl : core.

Section same_tables.
Context (m m' : mmu) (H : same_tables m m').

Lemma st_pde d : 0 <= d < 1024 -> rd_ram m' (cr3 m' + d * 4) = rd_ram m (cr3 m + d * 4).
Proof. intros Hd. rewrite (st_cr3 _ _ H). apply (st_words _ _ H); auto. Qed.

Lemma st_pde_of va : is_u32 va -> pde_of m' va = pde_of m va.
Proof. intros Hva. by apply st_pde, PDE_IDX_range. Qed.

Lemma st_pte_loc va : is_u32 va -> pte_loc m' va = pte_loc m va.
Proof. intros Hva. unfold pte_loc. by rewrite st_pde_of. Qed.

Lemma st_table_frame g : table_frame m' g <-> table_frame m g.
Proof.
  unfold table_frame. rewrite (st_cr3 _ _ H). f_equiv. apply exist_proper. intros d.
  split; intros (Hd & Hp & E); pose proof (st_pde d ltac:(lia)) as W; rewrite (st_cr3 _ _ H) in W;
    (split; [done|]); by rewrite W in *.
Qed.

Lemma st_translate va : low_va va -> translate m' va = translate m va.
Proof.
  intros Hva. unfold translate. rewrite st_pde_of, st_pte_loc by auto.
  destruct (present (pde_of m va)) eqn:E; [|done]. unfold pte_loc.
  rewrite (st_words _ _ H); [done|by apply table_frame_pde|apply PTE_IDX_range].
Qed.

Lemma st_shares va1 va2 : is_u32 va1 -> is_u32 va2 -> shares_entry m' va1 va2 <-> shares_entry m va1 va2.
Proof. intros H1 H2. unfold shares_entry. by rewrite st_pde_of, !st_pte_loc. Qed.

Lemma st_pt_wf : pt_wf m -> pt_wf m'.
Proof.
  intros [[A B C] T]. pose proof (st_pde 1023 ltac:(lia)) as E. change (1023 * 4) with 4092 in E.
  split; [split; rewrite ?E; try done; rewrite ?(st_cr3 _ _ H); done|].
  intros d Hd. rewrite st_pde by lia. rewrite (st_cr3 _ _ H). by apply T.
Qed.
End same_tables.

Lemma same_tables_trans m1 m2 m3 : same_tables m1 m2 -> same_tables m2 m3 -> same_tables m1 m3.
Proof.
  intros H1 H2. split; [by rewrite (st_cr3 _ _ H2), (st_cr3 _ _ H1)|].
  intros g i Hg Hi. rewrite (st_words _ _ H2), (st_words _ _ H1); try done. by apply (st_table_frame _ _ H1).
Qed.

(** Pools in which frames may have been taken and the lock may have changed. *)
Record pool_more (p p' : pool) : Prop := {
  pr_wf : pool_wf p';
  pr_start : phy_addr_start p' = phy_addr_start p;
  pr_psize : psize p' = psize p;
  pr_used : forall j, 0 <= j -> pused p j = true -> pused p' j = true
}.

Lemma pool_grow_more p p' : pool_grow p p' -> pool_more p p'.
Proof. by intros []. Qed.

Lemma pool_more_pframe p p' i : pool_more p p' -> pframe p' i = pframe p i.
Proof. intros []. unfold pframe. congruence. Qed.

(** The invariant of the allocator only reads the tables: it survives writes
    elsewhere and frames being taken. *)
Lemma mem_wf_same st st' :
  mem_wf st -> same_tables (machine st) (machine st') ->
  (forall pf, pool_more (pool_of pf st) (pool_of pf st')) -> (forall pf, vaddr_of pf st' = vaddr_of pf st) ->
  mem_wf st'.
Proof.
  intros Hwf Ht Hg Hv. pose proof (managed_grow st st') as Hm.
  assert (forall va, low_va va -> translate (machine st') va = translate (machine st) va) as Htr
    by (intros; by apply st_translate).
  split.
  - by apply (st_pt_wf _ _ Ht), Hwf.
  - intros pf. apply Hg.
  - pose proof (Hg PF_KERNEL) as K. pose proof (Hg PF_USER) as U. cbn [pool_of] in K, U.
    rewrite (pool_more_pframe _ _ _ K), (pr_psize _ _ K), (pr_start _ _ U). apply Hwf.
  - intros pf. rewrite Hv. apply Hwf.
  - pose proof (Hv PF_KERNEL) as K. pose proof (Hv PF_USER) as U. cbn [vaddr_of] in K, U.
    rewrite K, U. apply Hwf.
  - intros pf i Hi Hf. rewrite (pr_psize _ _ (Hg pf)) in Hi.
    rewrite (pool_more_pframe _ _ _ (Hg pf)), (st_table_frame _ _ Ht) in Hf.
    apply (pr_used _ _ (Hg pf)); [lia|by apply (mw_tables st Hwf)].
  - intros pf i va pa Hi Hva Hp Hf. rewrite (pr_psize _ _ (Hg pf)) in Hi.
    rewrite (pool_more_pframe _ _ _ (Hg pf)) in Hf. rewrite Htr in Hp by done.
    apply (pr_used _ _ (Hg pf)); [lia|by eapply (mw_mapped st Hwf)].
  - intros pf i va1 va2 pa1 pa2 Hi L1 L2. rewrite (pr_psize _ _ (Hg pf)) in Hi.
    rewrite (pool_more_pframe _ _ _ (Hg pf)), !Htr, (st_shares _ _ Ht) by auto. by apply (mw_sole st Hwf pf i).
  - intros pf i va. rewrite Hv. intros Hi Hu Hr. unfold unmapped. rewrite Htr; [by eapply (mw_unmapped st Hwf pf i)|].
    apply (managed_low st); [done|by eapply vpage_managed].
  - intros va1 va2 M1%(Hm va1 Hv) M2%(Hm va2 Hv). pose proof (managed_low st va1 Hwf M1). pose proof (managed_low st va2 Hwf M2).
    rewrite !(st_shares _ _ Ht) by auto. by apply (mw_noalias st Hwf).
Qed.

(** ** One page from the user pool *)
Definition relock (pf : pool_flags) (l : slock) (st : mst) : mst :=
  set_pool pf (set_pool_lock l (pool_of pf st)) st.

Lemma relock_more pf l st pf' : mem_wf st -> pool_more (pool_of pf' st) (pool_of pf' (relock pf l st)).
Proof.
  intros Hwf. unfold relock. rewrite pool_of_set. pose proof (mw_pool st Hwf pf') as [? ? ?].
  case_decide; [subst|]; by split.
Qed.

Lemma relock_machine pf l st : machine (relock pf l st) = machine st.
Proof. by destruct pf. Qed.
Lemma relock_vaddr pf l st pf' : vaddr_of pf' (relock pf l st) = vaddr_of pf' st.
Proof. by destruct pf, pf'. Qed.

Lemma relock_wf pf l st : mem_wf st -> mem_wf (relock pf l st).
Proof.
  intros Hwf. apply (mem_wf_same st); [done|by rewrite relock_machine|intros pf'; by apply relock_more|].
  intros pf'. apply relock_vaddr.
Qed.

Lemma table_frame_aligned m g : pt_wf m -> table_frame m g -> aligned g.
Proof. intros Hwf [->|(d & _ & _ & <-)]; [apply Hwf|auto]. Qed.

(** Writes inside a frame that is not a table. *)
Lemma only_frame_tables f m m' :
  pt_wf m -> aligned f -> ~ table_frame m f -> only_frame f m m' -> same_tables m m'.
Proof.
  intros Hwf Hf Hn Ho. split; [apply Ho|]. intros g i Hg Hi.
  apply (only_frame_other f g m m' i Ho); [done|by eapply table_frame_aligned|congruence|done].
Qed.

(** A page-aligned virtual page below the window that is mapped to a frame. *)
Definition page_at (m : mmu) (va f : Z) : Prop :=
  0 <= va /\ va + 4096 <= 0xffc00000 /\ aligned f /\
  forall o, 0 <= o < 4096 -> translate m (va + o) = Done (f + o).

Lemma page_at_same m m' va f : same_tables m m' -> page_at m va f -> page_at m' va f.
Proof.
  intros S (A & B & C & D). split_and!; [done..|]. intros o Ho.
  rewrite (st_translate _ _ S) by (unfold low_va; lia). by apply D.
Qed.

Lemma page_at_inj m va f f' : page_at m va f -> page_at m va f' -> f = f'.
Proof.
  intros (_ & _ & _ & H1) (_ & _ & _ & H2). specialize (H1 0 ltac:(lia)). specialize (H2 0 ltac:(lia)).
  rewrite H1 in H2. injection H2. lia.
Qed.

(** ** Clearing pages *)
Lemma vzero_app n1 : forall n2 m va, vzero m va (n1 + n2) = olet m := vzero m va n1 in vzero m (va + 4 * Z.of_nat n1) n2.
Proof.
  induction n1 as [|n1 IH]; intros n2 m va; [by rewrite Z.add_0_r|].
  cbn [vzero plus]. destruct (vstore m va 0) as [m1|]; [|done]. cbn [obind]. rewrite IH.
  destruct (vzero m1 (va + 4) n1) as [m2|]; [|done]. cbn [obind]. f_equal. lia.
Qed.

Lemma vzero_page m va f :
  pt_wf m -> page_at m va f -> ~ table_frame m f ->
  exists m', vzero m va 1024 = Done m' /\ only_frame f m m' /\ same_tables m m' /\
    forall w, 0 <= w < 1024 -> rd_ram m' (f + w * 4) = 0.
Proof.
  intros Hwf (A & B & C & D) Hn.
  destruct (vzero_spec f 1024 m va 0) as (m' & E & Ho & Hz); try done; try lia.
  - intros m' Ho k Hk. change (Z.of_nat 1024) with 1024 in Hk.
    rewrite (st_translate _ _ (only_frame_tables f m m' Hwf C Hn Ho)) by (unfold low_va; lia).
    rewrite D by lia. f_equal. lia.
  - exists m'. split_and!; [done|done|by apply (only_frame_tables f)|].
    intros w Hw. by rewrite Hz, decide_True by lia.
Qed.

Lemma vzero_pages fs : forall m va,
  pt_wf m ->
  (forall j f, fs !! j = Some f -> page_at m (va + Z.of_nat j * PG_SIZE) f /\ ~ table_frame m f) ->
  exists m', vzero m va (length fs * 1024) = Done m' /\ same_tables m m' /\
    (forall g w, aligned g -> g ∉ fs -> 0 <= w < 1024 -> rd_ram m' (g + w * 4) = rd_ram m (g + w * 4)) /\
    (forall g w, g ∈ fs -> 0 <= w < 1024 -> rd_ram m' (g + w * 4) = 0).
Proof.
  induction fs as [|f fs IH]; intros m va Hwf Hfs.
  { exists m. split_and!; [done|done|done|]. by intros g w Hg%not_elem_of_nil. }
  destruct (Hfs 0%nat f eq_refl) as [Hpg Hnt]. cbn in Hpg. rewrite Z.add_0_r in Hpg.
  destruct (vzero_page m va f Hwf Hpg Hnt) as (m1 & E1 & Ho & S1 & Z1).
  destruct (IH m1 (va + 4096)) as (m2 & E2 & S2 & K2 & Z2).
  { by apply (st_pt_wf _ _ S1). }
  { intros j f' Hj. destruct (Hfs (S j) f' Hj) as [Hp Hn]. rewrite (st_table_frame _ _ S1). split; [|done].
    apply (page_at_same _ _ _ _ S1). by replace (va + 4096 + Z.of_nat j * PG_SIZE) with (va + Z.of_nat (S j) * PG_SIZE) by (unfold PG_SIZE; lia). }
  assert (aligned f) as Hf by apply Hpg.
  exists m2. split_and!.
  - replace (length (f :: fs) * 1024)%nat with (1024 + length fs * 1024)%nat by (cbn [length]; lia).
    rewrite vzero_app, E1. exact E2.
  - by eapply same_tables_trans.
  - intros g w Hg [Hne Hnin]%not_elem_of_cons Hw. rewrite K2 by done.
    by apply (only_frame_other f g _ _ w Ho).
  - intros g w [->|Hg]%elem_of_cons Hw; [|by apply Z2].
    destruct (decide (f ∈ fs)); [by apply Z2|]. rewrite K2 by done. by apply Z1.
Qed.

(** ** [get_pages] *)
Record got_pages (pf : pool_flags) (st st' : mst) (r cnt : Z) (ids : list Z) : Prop := {
  gp_wf : mem_wf st';
  gp_bits : set_bits_true (vaddr_of pf st) (vaddr_of pf st') r cnt;
  gp_vaddr : forall pf', pf' <> pf -> vaddr_of pf' st' = vaddr_of pf' st;
  gp_cur : cur st' = cur st /\ cur_pgdir st' = cur_pgdir st;
  gp_cr3 : cr3 (machine st') = cr3 (machine st);
  gp_pool : forall pf', pool_grow (pool_of pf' st) (pool_of pf' st');
  gp_len : length ids = Z.to_nat cnt;
  gp_fresh : forall i, i ∈ ids -> 0 <= i < psize (pool_of pf st) /\ pused (pool_of pf st) i = false;
  gp_map : forall j i, ids !! j = Some i ->
    page_at (machine st') (vpage (vaddr_of pf st) (r + Z.of_nat j)) (pframe (pool_of pf st) i);
  gp_zero : forall i w, i ∈ ids -> 0 <= w < 1024 -> rd_ram (machine st') (pframe (pool_of pf st) i + w * 4) = 0;
  gp_nt : forall i, i ∈ ids -> ~ table_frame (machine st') (pframe (pool_of pf st) i);
  gp_kept : forall va pa, low_va va -> translate (machine st) va = Done pa -> translate (machine st') va = Done pa;
  gp_others : forall va, managed st va -> ~ (vpage (vaddr_of pf st) r <= va < vpage (vaddr_of pf st) (r + cnt)) ->
    translate (machine st') va = translate (machine st) va;
  gp_tables : forall g, table_frame (machine st') g -> table_frame (machine st) g \/
    exists j, 0 <= j < psize (kernel_pool st) /\ g = pframe (kernel_pool st) j /\ pused (kernel_pool st) j = false;
  gp_tmono : forall g, table_frame (machine st) g -> table_frame (machine st') g;
  gp_words : forall g w, aligned g -> ~ table_frame (machine st') g -> (forall i, i ∈ ids -> g <> pframe (pool_of pf st) i) ->
    0 <= w < 1024 -> rd_ram (machine st') (g + w * 4) = rd_ram (machine st) (g + w * 4);
  gp_kfree : (kfree st <= kfree st' + 2 * Z.to_nat cnt)%nat;
  gp_user : pf = PF_KERNEL -> user_pool st' = user_pool st;
  gp_shape : same_shape (vaddr_bitmap (vaddr_of pf st)) (vaddr_bitmap (vaddr_of pf st'))
}.

Lemma bitmap_set_range_shape n v : forall b i b', bitmap_set_range b i n v = Done b' -> same_shape b b'.
Proof.
  induction n as [|n IH]; intros b i b'; cbn [bitmap_set_range]; [by intros [= <-]|].
  unfold bitmap_set. destruct ((v =? 0) || (v =? 1)); [|done]. cbn [oassert obind].
  destruct (arr_get (bits b) (i / 8)) as [byte|]; [|done]. cbn [oget obind].
  destruct (arr_set (bits b) (i / 8) _) as [l|] eqn:E; [|done]. cbn [oget obind]. intros [H1 H2]%IH.
  split; [done|]. rewrite H2. exact (arr_set_length _ _ _ _ E).
Qed.

Lemma vaddr_get_shape pf cnt st v st' : vaddr_get pf cnt st = Done (v, st') ->
  same_shape (vaddr_bitmap (vaddr_of pf st)) (vaddr_bitmap (vaddr_of pf st')).
Proof.
  unfold vaddr_get. destruct (bitmap_scan _ _) as [b|]; [|done]. cbn [obind]. destruct (b =? -1); [by intros [= _ <-]|].
  destruct (bitmap_set_range _ _ _ _) as [b'|] eqn:E; [|done]. cbn [obind].
  assert (forall x, st' = x -> x = set_vaddr pf (mk_vaddr b' (vaddr_start (vaddr_of pf st))) st ->
    same_shape (vaddr_bitmap (vaddr_of pf st)) (vaddr_bitmap (vaddr_of pf st'))) as H.
  { intros x -> ->. rewrite vaddr_of_set, decide_True by done. by eapply bitmap_set_range_shape. }
  destruct pf; [by intros [= _ E']; eapply H|]. destruct (_ <? _); [|done]. cbn [oassert obind].
  by intros [= _ E']; eapply H.
Qed.

Lemma vaddr_get_cur pf cnt st v st' : vaddr_get pf cnt st = Done (v, st') -> cur st' = cur st /\ cur_pgdir st' = cur_pgdir st.
Proof.
  unfold vaddr_get. destruct (bitmap_scan _ _) as [b|]; [|done]. cbn [obind]. destruct (b =? -1); [by intros [= _ <-]|].
  destruct (bitmap_set_range _ _ _ _); [|done]. cbn [obind]. destruct pf; [by intros [= _ <-]|].
  destruct (_ <? _); [|done]. by intros [= _ <-].
Qed.

Lemma relock_can_alloc pf l cnt s0 st : can_alloc pf cnt s0 st -> can_alloc pf cnt s0 (relock pf l st).
Proof. intros []. by destruct pf; split. Qed.

(** The lock around a body that leaves it alone. *)
Lemma relock_roundtrip pf st :
  cur st <> 0 -> slock_ok (cur st) (pool_lock (pool_of pf st)) ->
  exists l, lock_acquire pf st = Done (tt, relock pf l st) /\
    forall s2, cur s2 = cur st -> pool_lock (pool_of pf s2) = l ->
      lock_release pf s2 = Done (tt, relock pf (pool_lock (pool_of pf st)) s2).
Proof.
  intros Hc Hl. destruct (slock_roundtrip (cur st) _ Hc Hl) as (l & Eacq & _ & _ & _ & Erel).
  exists l. split.
  - unfold lock_acquire. by rewrite Eacq.
  - intros s2 E1 E2. unfold lock_release. by rewrite E1, E2, Erel.
Qed.

(** [relock] restores what a growing body started from. *)
Lemma relock_grow pf l st s2 :
  mem_wf s2 -> (forall pf', pool_grow (pool_of pf' (relock pf l st)) (pool_of pf' s2)) ->
  forall pf', pool_grow (pool_of pf' st) (pool_of pf' (relock pf (pool_lock (pool_of pf st)) s2)).
Proof.
  intros Hwf G pf'. destruct (G pf') as [Q1 Q2 Q3 Q4 Q5 Q6]. destruct (relock_more pf (pool_lock (pool_of pf st)) s2 pf' Hwf) as [W _ _ _].
  destruct pf, pf'; split; done.
Qed.

Lemma got_pages_intro pf st cnt r ids l s1 s2 m :
  let s0 := relock pf l st in let st' := relock pf (pool_lock (pool_of pf st)) (set_machine m s2) in
  machine s1 = machine st -> (forall pf', pool_of pf' s1 = pool_of pf' s0) ->
  (forall pf', pf' <> pf -> vaddr_of pf' s1 = vaddr_of pf' st) ->
  set_bits_true (vaddr_of pf st) (vaddr_of pf s1) r cnt ->
  same_shape (vaddr_bitmap (vaddr_of pf st)) (vaddr_bitmap (vaddr_of pf s1)) -> cur s1 = cur st /\ cur_pgdir s1 = cur_pgdir st ->
  0 <= cnt -> length ids = Z.to_nat cnt -> pages_mapped pf s1 s2 (vpage (vaddr_of pf st) r) ids -> same_tables (machine s2) m ->
  (forall j i, ids !! j = Some i -> page_at (machine s2) (vpage (vaddr_of pf st) (r + Z.of_nat j)) (pframe (pool_of pf st) i)) ->
  (forall g w, aligned g -> g ∉ (pframe (pool_of pf st) <$> ids) -> 0 <= w < 1024 ->
     rd_ram m (g + w * 4) = rd_ram (machine s2) (g + w * 4)) ->
  (forall g w, g ∈ (pframe (pool_of pf st) <$> ids) -> 0 <= w < 1024 -> rd_ram m (g + w * 4) = 0) ->
  got_pages pf st st' r cnt ids.
Proof.
  intros s0 st' Hm1 Hp1 Hv1 Hb1 Hsh1 Hc1 Hcnt Hlen PM S Hpg Hk Hz.
  pose proof PM as [Qw Qg Qn Qf Qm Qo Qt Qk Qkf Qus Qd].
  assert (forall pf' j, pframe (pool_of pf' s1) j = pframe (pool_of pf' st) j) as Epf.
  { intros pf' j. rewrite Hp1. by destruct pf, pf'. }
  assert (forall pf', psize (pool_of pf' s1) = psize (pool_of pf' st)) as Eps.
  { intros pf'. rewrite Hp1. by destruct pf, pf'. }
  assert (forall pf' j, pused (pool_of pf' s1) j = pused (pool_of pf' st) j) as Epu.
  { intros pf' j. rewrite Hp1. by destruct pf, pf'. }
  assert (machine st' = m) as Em by (by destruct pf).
  assert (forall pf', vaddr_of pf' st' = vaddr_of pf' s1) as Ev.
  { intros pf'. unfold st'. rewrite relock_vaddr, <- (sg_vaddr _ _ Qg pf'). by destruct pf'. }
  assert (mem_wf (set_machine m s2)) as Hwf.
  { apply (mem_wf_same s2); [done|done| |by intros []]. intros pf'.
    destruct pf'; split; try done; [apply (mw_pool s2 Qw PF_KERNEL)|apply (mw_pool s2 Qw PF_USER)]. }
  split.
  - by apply relock_wf.
  - by rewrite Ev.
  - intros pf' Hne. rewrite Ev. by apply Hv1.
  - destruct Hc1 as [<- <-]. split; [rewrite <- (sg_cur _ _ Qg)|rewrite <- (sg_pgdir _ _ Qg)]; by destruct pf.
  - by rewrite Em, (st_cr3 _ _ S), (sg_cr3 _ _ Qg), Hm1.
  - apply (relock_grow pf l); [done|]. intros pf'. pose proof (sg_pool _ _ Qg pf') as G. rewrite Hp1 in G.
    by destruct pf'.
  - done.
  - intros i Hi%Qf. by rewrite Eps, Epu in Hi.
  - intros j i Hj. rewrite Em. by apply (page_at_same _ _ _ _ S), Hpg.
  - intros i w Hi Hw. rewrite Em. apply Hz; [|done]. by apply list_elem_of_fmap_2.
  - intros i Hi. rewrite Em, (st_table_frame _ _ S), <- Epf. by apply Qt.
  - intros va pa Hl Ht. rewrite Em, (st_translate _ _ S) by done. apply (sg_kept _ _ Qg); [done|]. by rewrite Hm1.
  - intros va Hmg Hr.
    assert (managed s1 va) as Hmg1.
    { destruct Hmg as (pf' & j & Hj & Hrr). exists pf', j. destruct Hb1 as (B1 & B2 & _).
      destruct (decide (pf' = pf)) as [->|Hne]; [|by rewrite Hv1]. unfold vpage in *. by rewrite B1, B2. }
    rewrite Em, (st_translate _ _ S) by (by apply (managed_low s2); [|by apply (managed_grow s2 s1 va); [intros; symmetry; apply Qg|]]).
    rewrite Qo, Hm1; [done|done|]. rewrite Hlen, Z2Nat.id by done. unfold vpage in *. lia.
  - intros g. rewrite Em, (st_table_frame _ _ S). intros [Hg|(j & Hj & -> & Hu)]%(sg_tables _ _ Qg).
    + left. by rewrite <- Hm1.
    + right. exists j. change (kernel_pool s1) with (pool_of PF_KERNEL s1) in *. rewrite Eps in Hj. rewrite Epf, Epu in *. done.
  - intros g Hg. rewrite Em, (st_table_frame _ _ S). apply (sg_tmono _ _ Qg). by rewrite Hm1.
  - intros g w Hg Hn Hne Hw. rewrite Em, (st_table_frame _ _ S) in Hn. rewrite Em, Hk; [|done| |done].
    + rewrite Qd by done. by rewrite Hm1.
    + intros (i & E & Hi)%list_elem_of_fmap_1. by apply (Hne i).
  - rewrite Hlen in Qkf. replace (kfree st') with (kfree s2) by (by destruct pf).
    replace (kfree s1) with (kfree st) in Qkf; [done|]. unfold kfree.
    change (kernel_pool s1) with (pool_of PF_KERNEL s1). rewrite Hp1. by destruct pf.
  - intros ->. change (user_pool s2 = user_pool st). rewrite Qus by done. exact (Hp1 PF_USER).
  - by rewrite Ev.
Qed.

Lemma get_pages_spec pf cnt s0 st :
  mem_wf st -> cur st <> 0 -> slock_ok (cur st) (pool_lock (pool_of pf st)) -> can_alloc pf cnt s0 st ->
  exists r ids st', get_pages pf cnt st = Done (vpage (vaddr_of pf st) r, st') /\ 0 <= r <= s0 /\
    free_run (vaddr_bitmap (vaddr_of pf st)) r cnt /\ got_pages pf st st' r cnt ids.
Proof.
  intros Hwf Hc Hl Hca. destruct (relock_roundtrip pf st Hc Hl) as (l & Eacq & Erel).
  set (sa := relock pf l st) in *. pose proof (ca_cnt _ _ _ _ Hca) as Hcnt.
  destruct (malloc_page_spec pf cnt s0 sa) as (r & ids & s1 & s2 & Eg & E2 & Hr & Hfr & Hb & Hm & Hp & Hv & Hlen & PM);
    [by apply relock_wf|by apply relock_can_alloc|].
  assert (vaddr_of pf sa = vaddr_of pf st) as Eva by apply relock_vaddr. rewrite Eva in *.
  pose proof PM as [Qw Qg Qn Qf Qm Qo Qt Qk Qkf Qus Qd].
  assert (forall j, pframe (pool_of pf s1) j = pframe (pool_of pf st) j) as Epf.
  { intros j. rewrite Hp. by destruct pf. }
  assert (forall j i, ids !! j = Some i ->
    page_at (machine s2) (vpage (vaddr_of pf st) (r + Z.of_nat j)) (pframe (pool_of pf st) i)) as Hpg.
  { intros j i Hj. pose proof (lookup_lt_Some _ _ _ Hj) as Hjl.
    destruct (mw_vaddr st Hwf pf) as [_ _ [? ?] _]. destruct (ca_fit _ _ _ _ Hca).
    assert (i ∈ ids) as [Hi _]%Qf by (by apply list_elem_of_lookup_2 in Hj).
    assert (vpage (vaddr_of pf st) (r + Z.of_nat j) mod 4096 = 0) as Hmod by (apply vpage_mod, Hwf).
    split_and!; [unfold vpage, PG_SIZE in *; lia..| |].
    - rewrite <- Epf. apply pframe_aligned; [|done]. rewrite Hp. apply (relock_wf pf l st Hwf).
    - intros o Ho. rewrite (Qm j i) by (done || unfold vpage, PG_SIZE in *; lia). rewrite Epf. do 2 f_equal.
      rewrite Z.add_mod, Hmod, Z.add_0_l, Z.mod_mod, Z.mod_small by lia. done. }
  destruct (vzero_pages (pframe (pool_of pf st) <$> ids) (machine s2) (vpage (vaddr_of pf st) r)) as (m & Ez & S & Hk & Hz).
  { apply Qw. }
  { intros j f. rewrite list_lookup_fmap. intros (i & Hi & ->)%fmap_Some_1. split.
    - specialize (Hpg j i Hi). unfold vpage in *. by replace (vaddr_start (vaddr_of pf st) + r * PG_SIZE + Z.of_nat j * PG_SIZE)
        with (vaddr_start (vaddr_of pf st) + (r + Z.of_nat j) * PG_SIZE) by lia.
    - rewrite <- Epf. apply Qt. by apply list_elem_of_lookup_2 in Hi. }
  pose proof (vaddr_get_cur _ _ _ _ _ Eg) as Hcur.
  assert (cur sa = cur st /\ cur_pgdir sa = cur_pgdir st) as Hcs by (by destruct pf).
  exists r, ids, (relock pf (pool_lock (pool_of pf st)) (set_machine m s2)). split_and!; try lia; try done.
  - unfold get_pages, bind at 1. rewrite Eacq. unfold bind at 1. rewrite E2.
    rewrite (proj2 (Z.eqb_neq _ NULL)).
    2: { pose proof (vw_null _ (mw_vaddr st Hwf pf)). destruct (ca_fit _ _ _ _ Hca).
         unfold vpage, NULL, PG_SIZE in *. lia. }
    cbn [negb]. unfold bind at 1, memset0. unfold PG_SIZE at 1.
    replace (Z.to_nat (cnt * 4096 / 4)) with (length (pframe (pool_of pf st) <$> ids) * 1024)%nat.
    2: { rewrite length_fmap, Hlen. replace (cnt * 4096 / 4) with (cnt * 1024) by (apply Z.div_unique with 0; lia). lia. }
    rewrite Ez. cbn [obind]. unfold bind. rewrite Erel; [done|..].
    + cbn [cur set_machine]. rewrite (sg_cur _ _ Qg). destruct Hcur as [-> _]. apply Hcs.
    + pose proof (pg_lock _ _ (sg_pool _ _ Qg pf)) as E. rewrite Hp in E. by destruct pf.
  - apply (got_pages_intro pf st cnt r ids l s1 s2 m); try done; try lia.
    + rewrite Hm. apply relock_machine.
    + intros pf' Hne. rewrite Hv by done. apply relock_vaddr.
    + rewrite <- Eva. by apply (vaddr_get_shape _ _ _ _ _ Eg).
Qed.
