(* ===== verification/Procmem.v ===== *)
(** * Procmem: the address spaces of processes ([userprog/process.c],
      [userprog/fork.c])

    A process has a page directory of its own whose entries from 768 are the
    kernel's.  [create_page_dir] makes one, [copy_body_stack3] fills the lower
    part with a copy of the parent's pages, going back and forth between the two
    directories.  The state is the page allocator's of [Memory]; a view of it
    through another directory is the same state with another [cr3]. *)

From stdpp Require Import base numbers list gmap.
From S2P Require Import Prelude.
From S2P Require Import Bitmap.
From S2P Require Import Paging.
From S2P Require Import Seqlock.
From S2P Require Import Memory.
From S2P Require Import Kpages.

Local Open Scope Z_scope.
Local Open Scope kernel_scope.

Definition USER_VADDR_START : Z := 0x8048000.

Definition with_cr3 (c : Z) (m : mmu) : mmu := mk_mmu c (ram m).
Definition set_cr3 (c : Z) (st : mst) : mst := set_machine (with_cr3 c (machine st)) st.

(** [memcpy(dst, src, 4 * n)] at aligned addresses, a word at a time. *)
Fixpoint vcopy (m : mmu) (dst src : Z) (n : nat) : outcome mmu :=
  match n with
  | O => Done m
  | S n =>
      olet x := vload m src in
      olet m := vstore m dst x in
      vcopy m (dst + 4) (src + 4) n
  end.
Definition memcpy (dst src size : Z) : M mst unit := fun st =>
  olet m := vcopy (machine st) dst src (Z.to_nat (size / 4)) in Done (tt, set_machine m st).

(** [page_dir_activate] of a thread whose [pgdir] is the argument. *)
Definition page_dir_activate (pgdir : Z) : M mst unit :=
  let! st := gets id in
  let! pagedir_phy_addr := (if negb (pgdir =? NULL) then lift (addr_v2p (machine st) pgdir) else ret 0x100000) in
  modify (set_cr3 pagedir_phy_addr).

Definition create_page_dir : M mst Z :=
  let! page_dir_vaddr := get_kernel_pages 1 in
  if page_dir_vaddr =? NULL then ret NULL else
  memcpy (u32 (page_dir_vaddr + 0x300 * 4)) (0xfffff000 + 0x300 * 4) 1024 ;;;
  let! st := gets id in
  let! new_page_dir_phy_addr := lift (addr_v2p (machine st) page_dir_vaddr) in
  let! m := lift (vstore (machine st) (u32 (page_dir_vaddr + 1023 * 4))
                    (Z.lor (Z.lor (Z.lor new_page_dir_phy_addr PG_US_U) PG_RW_W) PG_P_1)) in
  modify (set_machine m) ;;;
  ret page_dir_vaddr.

(** ** [copy_body_stack3]: the parent is the running process *)
Definition copy_page (child_pgdir parent_pgdir buf_page prog_vaddr : Z) : M mst unit :=
  memcpy buf_page prog_vaddr PG_SIZE ;;;
  page_dir_activate child_pgdir ;;;
  let! _ := get_a_page_without_opvaddrbitmap PF_USER prog_vaddr in
  memcpy prog_vaddr buf_page PG_SIZE ;;;
  page_dir_activate parent_pgdir.

Fixpoint copy_bits (n : nat) (idx_byte idx_bit byte vaddr_start child_pgdir parent_pgdir buf_page : Z) : M mst unit :=
  match n with
  | O => ret tt
  | S n =>
      (if negb (Z.land (Z.shiftl BITMAP_MASK idx_bit) byte =? 0) then
         let prog_vaddr := u32 ((idx_byte * 8 + idx_bit) * PG_SIZE + vaddr_start) in
         copy_page child_pgdir parent_pgdir buf_page prog_vaddr
       else ret tt) ;;;
      copy_bits n idx_byte (idx_bit + 1) byte vaddr_start child_pgdir parent_pgdir buf_page
  end.

Fixpoint copy_bytes (n : nat) (idx_byte : Z) (v : virtual_addr) (child_pgdir parent_pgdir buf_page : Z) : M mst unit :=
  match n with
  | O => ret tt
  | S n =>
      let! byte := lift (oget (arr_get (bits (vaddr_bitmap v)) idx_byte) Out_of_bounds) in
      (if negb (byte =? 0)
       then copy_bits 8 idx_byte 0 byte (vaddr_start v) child_pgdir parent_pgdir buf_page
       else ret tt) ;;;
      copy_bytes n (idx_byte + 1) v child_pgdir parent_pgdir buf_page
  end.

Definition copy_body_stack3 (child_pgdir buf_page : Z) : M mst unit :=
  let! st := gets id in
  let v := userprog_vaddr st in
  copy_bytes (Z.to_nat (btmp_bytes_len (vaddr_bitmap v))) 0 v child_pgdir (cur_pgdir st) buf_page.

(** ** Copying a page *)
Lemma vcopy_spec f f' n : forall m dst src i,
  aligned f -> aligned f' -> f <> f' -> 0 <= i -> i + Z.of_nat n <= 1024 ->
  (forall m', only_frame f m m' -> forall k, 0 <= k < Z.of_nat n ->
     translate m' (dst + 4 * k) = Done (f + (i + k) * 4) /\
     translate m' (src + 4 * k) = Done (f' + (i + k) * 4)) ->
  exists m', vcopy m dst src n = Done m' /\ only_frame f m m' /\
    (forall j, 0 <= j < 1024 ->
      rd_ram m' (f + j * 4) = if decide (i <= j < i + Z.of_nat n)
                              then rd_ram m (f' + j * 4) else rd_ram m (f + j * 4)).
Proof.
  induction n as [|n IH]; intros m dst src i Hf Hf' Hne Hi Hn Ht.
  - exists m. split_and!; [done|apply only_frame_refl|]. intros j Hj. by rewrite decide_False by lia.
  - cbn [vcopy]. unfold vload, vstore.
    destruct (Ht m (only_frame_refl f m) 0 ltac:(lia)) as [E0 E1].
    rewrite Z.mul_0_r, !Z.add_0_r in E0, E1. rewrite E1. cbn [obind]. rewrite E0. cbn [obind].
    set (m1 := wr_ram m (f + i * 4) (rd_ram m (f' + i * 4))).
    assert (only_frame f m m1) as Ho by (apply only_frame_wr; lia).
    destruct (IH m1 (dst + 4) (src + 4) (i + 1)) as (m' & E & Ho' & Hz); [done|done|done|lia|lia| |].
    { intros m' Hm' k Hk. replace (dst + 4 + 4 * k) with (dst + 4 * (k + 1)) by lia.
      replace (src + 4 + 4 * k) with (src + 4 * (k + 1)) by lia.
      destruct (Ht m' (only_frame_trans _ _ _ _ Ho Hm') (k + 1) ltac:(lia)) as [-> ->].
      split; f_equal; lia. }
    exists m'. split_and!; [done|by eapply only_frame_trans|].
    intros j Hj. rewrite Hz, (only_frame_other f f' m m1 j Ho) by done.
    unfold m1. rewrite rd_wr_ram. repeat case_decide; try lia; try done. rewrite rd_ram_u32. do 3 f_equal. lia.
Qed.

Lemma vcopy_page m dst src f f' :
  pt_wf m -> page_at m dst f -> page_at m src f' -> f <> f' -> ~ table_frame m f ->
  exists m', vcopy m dst src (Z.to_nat (PG_SIZE / 4)) = Done m' /\ only_frame f m m' /\ same_tables m m' /\
    forall j, 0 <= j < 1024 -> rd_ram m' (f + j * 4) = rd_ram m (f' + j * 4).
Proof.
  intros Hwf (D1 & D2 & Df & Dt) (S1 & S2 & Sf & St) Hne Hn.
  change (Z.to_nat (PG_SIZE / 4)) with 1024%nat.
  destruct (vcopy_spec f f' 1024 m dst src 0) as (m' & E & Ho & Hw); try done; try lia.
  - intros m' Ho k Hk. change (Z.of_nat 1024) with 1024 in Hk.
    pose proof (only_frame_tables f m m' Hwf Df Hn Ho) as Ht.
    rewrite !(st_translate _ _ Ht) by (unfold low_va; lia). rewrite Dt, St by lia.
    split; f_equal; lia.
  - exists m'. split_and!; [done|done|by apply (only_frame_tables f)|].
    intros j Hj. by rewrite Hw, decide_True by lia.
Qed.

(** [get_a_page_without_opvaddrbitmap] at a reserved page of the process. *)
Lemma get_a_user_page_spec st v k :
  mem_wf st -> cur st <> 0 -> slock_ok (cur st) (pool_lock (user_pool st)) ->
  0 <= k < vsize (userprog_vaddr st) -> vused (userprog_vaddr st) k = true ->
  v = vpage (userprog_vaddr st) k -> unmapped (machine st) v ->
  (0 < ufree st)%nat -> (0 < kfree st)%nat ->
  exists i st', get_a_page_without_opvaddrbitmap PF_USER v st = Done (v, st') /\
    mem_wf st' /\ st_grow st st' /\
    0 <= i < psize (user_pool st) /\ pused (user_pool st) i = false /\ pused (user_pool st') i = true /\
    (exists N, page_added (machine st) (machine st') v (pframe (user_pool st) i) N) /\
    (forall va, v <= va < v + PG_SIZE -> translate (machine st') va = Done (pframe (user_pool st) i + va mod 4096)) /\
    (forall va, managed st va -> ~ (v <= va < v + PG_SIZE) ->
       translate (machine st') va = translate (machine st) va) /\
    ufree st = S (ufree st') /\ (kfree st <= S (kfree st'))%nat.
Proof.
  intros Hwf Hc Hl Hk Hku Hv Hun Huf Hkf.
  destruct (slock_roundtrip (cur st) (pool_lock (user_pool st)) Hc Hl) as (l & Eacq & _ & _ & _ & Erel).
  set (s0 := relock PF_USER l st).
  assert (mem_wf s0) as Hwf0 by (by apply relock_wf).
  destruct (palloc_from_spec PF_USER s0) as (i & s1 & E1 & Hi & Hu & Hu1 & Hwf1 & Hg1 & Hm1 & Hp1 & Hc1 & Hx1);
    [done|done|].
  assert (pool_grow (pool_of PF_USER s0) (pool_of PF_USER s1)) as G1 by apply Hg1.
  assert (kernel_pool s1 = kernel_pool st) as Hkp by (exact (Hp1 PF_KERNEL ltac:(done))).
  assert (userprog_vaddr s1 = userprog_vaddr st) as Hva1 by (exact (sg_vaddr _ _ Hg1 PF_USER)).
  change (pframe (pool_of PF_USER s0) i) with (pframe (user_pool st) i) in *.
  change (psize (pool_of PF_USER s0)) with (psize (user_pool st)) in Hi.
  assert (pframe (pool_of PF_USER s1) i = pframe (user_pool st) i) as Hpf
    by (by rewrite (pool_grow_pframe _ _ _ G1)).
  destruct (page_table_add_st_spec s1 v PF_USER k PF_USER i)
    as (s2 & E2 & Hwf2 & Hg2 & Hus & Hle & Hpg & Hoth & _ & Hadd); try done.
  { cbn [vaddr_of]. by rewrite Hva1. }
  { cbn [vaddr_of]. by rewrite Hva1. }
  { cbn [vaddr_of]. by rewrite Hva1. }
  { by rewrite Hm1. }
  { by rewrite (pg_psize _ _ G1). }
  { intros va pa Hva. rewrite Hm1, Hpf. intros Ht Hf.
    rewrite (mw_mapped s0 Hwf0 PF_USER i va pa) in Hu; done. }
  { by rewrite Hkp. }
  rewrite Hpf in *. rewrite Hm1 in *.
  assert (st_grow s0 s2) as Hg by (by eapply st_grow_trans).
  assert (pool_lock (user_pool s2) = l) as Hl2
    by (exact (pg_lock _ _ (sg_pool _ _ Hg PF_USER))).
  set (s3 := relock PF_USER (pool_lock (user_pool st)) s2).
  exists i, s3. split_and!.
  - unfold get_a_page_without_opvaddrbitmap. unfold bind at 1, lock_acquire. cbn [pool_of].
    rewrite Eacq. cbn [obind]. change (set_pool PF_USER (set_pool_lock l (user_pool st)) st) with s0. unfold bind at 1. rewrite E1.
    rewrite (proj2 (Z.eqb_neq _ NULL)).
    2: { destruct (mw_pool st Hwf PF_USER) as [_ _ [? _]]. cbn [pool_of] in *.
         unfold pframe, NULL, PG_SIZE in *. cbn in Hi. lia. }
    unfold bind at 1. rewrite E2. unfold bind, lock_release. cbn [pool_of].
    rewrite Hl2, (sg_cur _ _ Hg). change (cur s0) with (cur st). rewrite Erel. done.
  - by apply relock_wf.
  - pose proof (relock_more PF_USER (pool_lock (user_pool st)) s2) as R.
    split.
    + intros pf. pose proof (sg_pool _ _ Hg pf) as [Q1 Q2 Q3 Q4 Q5 Q6]. destruct (R pf Hwf2) as [W _ _ _].
      destruct pf; split; done.
    + intros pf. rewrite <- (relock_vaddr PF_USER l st pf). rewrite <- (sg_vaddr _ _ Hg). apply relock_vaddr.
    + apply (sg_cur _ _ Hg).
    + apply (sg_pgdir _ _ Hg).
    + apply (sg_cr3 _ _ Hg).
    + apply (sg_kept _ _ Hg).
    + apply (sg_tables _ _ Hg).
    + apply (sg_tmono _ _ Hg).
  - lia.
  - lia.
  - done.
  - apply (pg_used _ _ (sg_pool _ _ Hg2 PF_USER)); [lia|done].
  - done.
  - done.
  - intros va Hm Hr. change (machine s3) with (machine s2). rewrite Hoth; [done| |done].
    destruct Hm as (pf & j & Hj & Hrr). exists pf, j. by rewrite (sg_vaddr _ _ Hg1).
  - change (ufree s3) with (ufree s2). unfold ufree in *. rewrite Hus. exact Hc1.
  - change (kfree s3) with (kfree s2). unfold kfree in *. by rewrite Hkp in Hle.
Qed.

(** ** Two directories over the same memory

    [p] is the frame of the running process's directory and [c] that of the
    new one's.  They share the kernel's tables; the tables below belong to the
    new process alone and are in frames of the kernel pool. *)
Definition view (c : Z) (st : mst) : mmu := with_cr3 c (machine st).

Record two_views (p c : Z) (st : mst) : Prop := {
  tv_par : mem_wf (set_cr3 p st);
  tv_chi : mem_wf (set_cr3 c st);
  tv_dir : exists j, 0 <= j < psize (kernel_pool st) /\ c = pframe (kernel_pool st) j;
  tv_sep : ~ table_frame (view p st) c;
  tv_kern : forall d, 768 <= d < 1023 -> rd_ram (machine st) (c + d * 4) = rd_ram (machine st) (p + d * 4);
  tv_own : forall d, 0 <= d < 768 -> present (rd_ram (machine st) (c + d * 4)) = true ->
    ~ table_frame (view p st) (frame (rd_ram (machine st) (c + d * 4))) /\
    exists j, 0 <= j < psize (kernel_pool st) /\ frame (rd_ram (machine st) (c + d * 4)) = pframe (kernel_pool st) j;
  (** page tables are never in the user pool *)
  tv_user : forall i, 0 <= i < psize (user_pool st) -> ~ table_frame (view p st) (pframe (user_pool st) i)
}.

Definition kernel_va (va : Z) : Prop := 0xc0000000 <= va < 0xffc00000.
Definition user_va (va : Z) : Prop := 0 <= va < 0xc0000000.

Lemma kernel_va_low va : kernel_va va -> low_va va.
Proof. unfold kernel_va, low_va. lia. Qed.
Lemma user_va_low va : user_va va -> low_va va.
Proof. unfold user_va, low_va. lia. Qed.
#[export] Hint Resolve kernel_va_low user_va_low : core.

Lemma kernel_va_idx va : kernel_va va -> 768 <= PDE_IDX va < 1023.
Proof.
  intros H. rewrite PDE_IDX_eq by auto. unfold kernel_va in H.
  split; [apply Z.div_le_lower_bound; lia|apply Z.div_lt_upper_bound; lia].
Qed.
Lemma user_va_idx va : user_va va -> 0 <= PDE_IDX va < 768.
Proof.
  intros H. rewrite PDE_IDX_eq by auto. unfold user_va in H.
  split; [apply Z.div_pos; lia|apply Z.div_lt_upper_bound; lia].
Qed.

Lemma view_wf p c st : two_views p c st -> pt_wf (view p st) /\ pt_wf (view c st).
Proof. intros H. split; [apply (mw_pt _ (tv_par _ _ _ H))|apply (mw_pt _ (tv_chi _ _ _ H))]. Qed.

(** The kernel's addresses mean the same in both. *)
Lemma view_kernel p c st va : two_views p c st -> kernel_va va -> translate (view c st) va = translate (view p st) va.
Proof.
  intros H Hva. pose proof (kernel_va_idx va Hva) as Hi.
  assert (pde_of (view c st) va = pde_of (view p st) va) as E by (exact (tv_kern _ _ _ H _ Hi)).
  unfold translate, pte_loc. by rewrite E.
Qed.

(** The new directory's tables: itself, its own and the kernel's. *)
Lemma view_tables p c st g : two_views p c st -> table_frame (view c st) g ->
  g = c \/ (~ table_frame (view p st) g /\ exists j, 0 <= j < psize (kernel_pool st) /\ g = pframe (kernel_pool st) j) \/
  table_frame (view p st) g.
Proof.
  intros H [->|(d & Hd & Hp & <-)]; [by left|]. right.
  change (rd_ram (view c st) (cr3 (view c st) + d * 4)) with (rd_ram (machine st) (c + d * 4)) in *.
  destruct (decide (d < 768)); [left; apply (tv_own _ _ _ H); [lia|done]|right].
  rewrite (tv_kern _ _ _ H) in * by lia. right. exists d. exact (conj Hd (conj Hp eq_refl)).
Qed.

(** Data written to a frame that is a table of neither. *)
Lemma two_views_same p c st m :
  two_views p c st -> same_tables (view p st) (with_cr3 p m) -> same_tables (view c st) (with_cr3 c m) ->
  two_views p c (set_machine m st).
Proof.
  intros H Sp Sc.
  assert (forall pf, pool_more (pool_of pf st) (pool_of pf st)) as Hm.
  { intros pf. split; try done. exact (mw_pool _ (tv_par _ _ _ H) pf). }
  pose proof (fun d Hd => st_pde _ _ Sc d Hd) as Wc. pose proof (fun d Hd => st_pde _ _ Sp d Hd) as Wp.
  change (forall d, 0 <= d < 1024 -> rd_ram m (c + d * 4) = rd_ram (machine st) (c + d * 4)) in Wc.
  change (forall d, 0 <= d < 1024 -> rd_ram m (p + d * 4) = rd_ram (machine st) (p + d * 4)) in Wp.
  split; cbn [machine set_machine kernel_pool].
  - apply (mem_wf_same (set_cr3 p st)); [apply H|done|exact Hm|by intros []].
  - apply (mem_wf_same (set_cr3 c st)); [apply H|done|exact Hm|by intros []].
  - apply H.
  - intros Ht. apply (tv_sep _ _ _ H). by apply (st_table_frame _ _ Sp).
  - intros d Hd. rewrite Wc, Wp by lia. by apply H.
  - intros d Hd. rewrite Wc by lia. intros Hp. destruct (tv_own _ _ _ H d Hd Hp) as [Hn Hj].
    split; [|done]. intros Ht. apply Hn. by apply (st_table_frame _ _ Sp).
  - intros i Hi Ht. apply (tv_user _ _ _ H i Hi). by apply (st_table_frame _ _ Sp).
Qed.

Lemma with_cr3_id c m : cr3 m = c -> with_cr3 c m = m.
Proof. by destruct m; intros <-. Qed.
Lemma set_cr3_id c st : cr3 (machine st) = c -> set_cr3 c st = st.
Proof. intros E. unfold set_cr3. rewrite with_cr3_id by done. by destruct st. Qed.

Lemma view_kpool p c st pf i j : two_views p c st -> 0 <= i < psize (pool_of pf st) -> 0 <= j < psize (kernel_pool st) ->
  pframe (pool_of pf st) i = pframe (kernel_pool st) j -> pf = PF_KERNEL /\ i = j.
Proof. intros H Hi Hj E. by apply (pframe_inj (set_cr3 p st) pf PF_KERNEL i j (tv_par _ _ _ H)). Qed.

(** No frame of the user pool is a table of the new process either. *)
Lemma view_user_tables p c st i : two_views p c st -> 0 <= i < psize (user_pool st) ->
  ~ table_frame (view c st) (pframe (user_pool st) i).
Proof.
  intros H Hi Ht. destruct (view_tables p c st _ H Ht) as [E|[(_ & j & Hj & E)|Hp]].
  - destruct (tv_dir _ _ _ H) as (j & Hj & Ec). rewrite Ec in E. by destruct (view_kpool p c st PF_USER i j H Hi Hj E).
  - by destruct (view_kpool p c st PF_USER i j H Hi Hj E).
  - by apply (tv_user _ _ _ H i).
Qed.

(** The new process gains a page: its parent's tables are not written. *)
Section child_page.
Context (p c : Z) (st st' : mst) (v phy : Z) (N : Z -> Prop).
Context (H : two_views p c st) (Hv : user_va v).
Context (Hwf : mem_wf st') (Hg : st_grow (set_cr3 c st) st') (Hadd : page_added (view c st) (machine st') v phy N).

Let T : Z := frame (pde_of (machine st') v).

Local Lemma cp_cr3 : cr3 (machine st') = c.
Proof. apply (sg_cr3 _ _ Hg). Qed.

Local Lemma cp_present : present (pde_of (machine st') v) = true.
Proof. apply (pa_here _ _ _ _ _ Hadd). Qed.

Local Lemma cp_table_dir : T <> c.
Proof.
  rewrite <- cp_cr3. apply wf_pde; [apply Hwf|auto|apply cp_present].
Qed.

Local Lemma cp_table : ~ table_frame (view p st) T /\
  exists j, 0 <= j < psize (kernel_pool st) /\ T = pframe (kernel_pool st) j.
Proof.
  pose proof (user_va_idx v Hv) as Hi.
  destruct (pa_pde _ _ _ _ _ Hadd v ltac:(auto)) as [E|(_ & (Hal & Hc & Hf) & _)].
  - pose proof cp_present as Hp. unfold T. rewrite E in *. by apply (tv_own _ _ _ H).
  - assert (table_frame (machine st') T) as Ht by (apply table_frame_pde; [auto|apply cp_present]).
    apply (sg_tables _ _ Hg) in Ht as [[?|(d & Hd & Hp & E)]|(j & Hj & E & Hu)].
    + done.
    + by destruct (Hf d).
    + split; [|by exists j]. intros Ht. rewrite E in Ht.
      apply (mw_tables _ (tv_par _ _ _ H) PF_KERNEL) in Ht; [|done]. cbn in *. congruence.
Qed.

Local Lemma cp_words pa : pa <> c + PDE_IDX v * 4 -> (forall j, 0 <= j < 1024 -> pa <> T + j * 4) ->
  rd_ram (machine st') pa = rd_ram (machine st) pa.
Proof. intros. by apply (pa_words _ _ _ _ _ Hadd). Qed.

Lemma child_page_parent : same_tables (view p st) (view p st').
Proof.
  destruct (view_wf _ _ _ H) as [Wp Wc]. split; [done|]. intros g i Hgt Hi.
  pose proof (table_frame_aligned _ _ Wp Hgt) as Ha. pose proof (user_va_idx v Hv).
  apply cp_words.
  - intros E. apply frame_word_inj in E as [-> _]; [|done|apply Wc|done|lia]. by apply (tv_sep _ _ _ H).
  - intros j Hj E. apply frame_word_inj in E as [-> _]; [|done|apply frame_aligned|done|done]. by apply cp_table.
Qed.

Local Lemma cp_dir d : 0 <= d < 1024 -> d <> PDE_IDX v ->
  rd_ram (machine st') (c + d * 4) = rd_ram (machine st) (c + d * 4).
Proof.
  intros Hd Hne. destruct (view_wf _ _ _ H) as [_ Wc]. apply cp_words; [lia|]. intros j Hj E.
  apply frame_word_inj in E as [E _]; [|apply Wc|apply frame_aligned|done|done]. by apply cp_table_dir.
Qed.

Lemma child_page_views : two_views p c st'.
Proof.
  pose proof child_page_parent as Sp. pose proof (user_va_idx v Hv) as Hi.
  pose proof (sg_pool _ _ Hg PF_KERNEL) as K. pose proof (sg_pool _ _ Hg PF_USER) as U. cbn [pool_of] in K, U.
  assert (forall g, (exists j, 0 <= j < psize (kernel_pool st) /\ g = pframe (kernel_pool st) j) ->
    exists j, 0 <= j < psize (kernel_pool st') /\ g = pframe (kernel_pool st') j) as Hj.
  { intros g (j & Hj & ->). exists j. rewrite (pg_psize _ _ K), (pool_grow_pframe _ _ _ K). done. }
  split.
  - apply (mem_wf_same (set_cr3 p st)); [apply H|exact Sp| |].
    + intros pf. exact (pool_grow_more _ _ (sg_pool _ _ Hg pf)).
    + intros pf. exact (sg_vaddr _ _ Hg pf).
  - rewrite set_cr3_id; [done|apply cp_cr3].
  - apply Hj, H.
  - intros Ht. apply (tv_sep _ _ _ H). by apply (st_table_frame _ _ Sp).
  - intros d Hd. rewrite cp_dir by lia.
    pose proof (st_pde _ _ Sp d ltac:(lia)) as E. change (rd_ram (machine st') (p + d * 4) = rd_ram (machine st) (p + d * 4)) in E.
    rewrite E. by apply H.
  - intros d Hd Hp. rewrite (st_table_frame _ _ Sp). destruct (decide (d = PDE_IDX v)) as [->|Hne].
    + assert (frame (rd_ram (machine st') (c + PDE_IDX v * 4)) = T) as -> by (unfold T, pde_of; by rewrite cp_cr3).
      destruct cp_table as [? ?]. auto.
    + rewrite cp_dir in * by lia. destruct (tv_own _ _ _ H d Hd Hp) as [? ?]. auto.
  - intros i Hui. rewrite (pg_psize _ _ U) in Hui. rewrite (st_table_frame _ _ Sp), (pool_grow_pframe _ _ _ U).
    by apply H.
Qed.
End child_page.

(** Changing [cr3] changes neither view. *)
Lemma two_views_cr3 p c x st : two_views p c st -> two_views p c (set_cr3 x st).
Proof. intros []. split; assumption. Qed.

Lemma activate_spec st d y :
  pt_wf (machine st) -> kernel_va d -> translate (machine st) d = Done y ->
  page_dir_activate d st = Done (tt, set_cr3 y st).
Proof.
  intros Hwf Hd Ht. unfold page_dir_activate, bind, gets. cbn [id].
  rewrite (proj2 (Z.eqb_neq d NULL)) by (unfold NULL, kernel_va in *; lia). cbn [negb]. unfold lift.
  rewrite (addr_v2p_spec (machine st) d y); [done|apply Hwf|auto|done].
Qed.

(** A page copied while one of the two directories is active. *)
Lemma memcpy_views p c x st dst src f f' :
  two_views p c st -> cr3 (machine st) = x -> x = p \/ x = c ->
  page_at (machine st) dst f -> page_at (machine st) src f' -> f <> f' ->
  ~ table_frame (view p st) f -> ~ table_frame (view c st) f ->
  exists m, memcpy dst src PG_SIZE st = Done (tt, set_machine m st) /\ cr3 m = x /\
    two_views p c (set_machine m st) /\
    same_tables (view p st) (with_cr3 p m) /\ same_tables (view c st) (with_cr3 c m) /\
    (forall g i, aligned g -> g <> f -> 0 <= i < 1024 -> rd_ram m (g + i * 4) = rd_ram (machine st) (g + i * 4)) /\
    (forall j, 0 <= j < 1024 -> rd_ram m (f + j * 4) = rd_ram (machine st) (f' + j * 4)).
Proof.
  intros H Hx Hpc Hd Hs Hne Np Nc. destruct (view_wf _ _ _ H) as [Wp Wc].
  assert (machine st = view x st) as Em by (symmetry; by apply with_cr3_id).
  destruct (vcopy_page (machine st) dst src f f') as (m & E & Ho & _ & Hw); try done.
  { rewrite Em. by destruct Hpc as [-> | ->]. }
  { rewrite Em. by destruct Hpc as [-> | ->]. }
  assert (aligned f) as Hf by apply Hd.
  assert (forall y, only_frame f (view y st) (with_cr3 y m)) as Hoy by (intros y; split; [done|apply Ho]).
  pose proof (only_frame_tables _ _ _ Wp Hf Np (Hoy p)) as Sp.
  pose proof (only_frame_tables _ _ _ Wc Hf Nc (Hoy c)) as Sc.
  exists m. split_and!; [| |by apply two_views_same|done|done| |done].
  - unfold memcpy. by rewrite E.
  - destruct Ho as [-> _]. done.
  - intros g i Hg Hgf Hi. by apply (only_frame_other f g _ _ i Ho).
Qed.

(** ** One page of the parent given to the child *)
Record forking (p c pd cd buf jb : Z) (st : mst) : Prop := {
  fk_views : two_views p c st;
  fk_cr3 : cr3 (machine st) = p;
  fk_cur : cur st <> 0;
  fk_lock : slock_ok (cur st) (pool_lock (user_pool st));
  fk_pd : kernel_va pd /\ translate (view p st) pd = Done p;
  fk_cd : kernel_va cd /\ translate (view p st) cd = Done c;
  fk_jb : 0 <= jb < psize (kernel_pool st);
  fk_buf : 0xc0000000 <= buf /\ page_at (view p st) buf (pframe (kernel_pool st) jb);
  fk_nbuf : ~ table_frame (view p st) (pframe (kernel_pool st) jb) /\
            ~ table_frame (view c st) (pframe (kernel_pool st) jb);
  fk_user : vpage (userprog_vaddr st) (vsize (userprog_vaddr st)) <= 0xc0000000
}.

Lemma page_at_kernel p c st va f : two_views p c st -> 0xc0000000 <= va -> page_at (view p st) va f -> page_at (view c st) va f.
Proof.
  intros H Hva (A & B & C & D). split_and!; [done..|]. intros o Ho.
  rewrite (view_kernel _ _ _ _ H) by (unfold kernel_va; lia). by apply D.
Qed.

(** The buffer's frame is a taken one. *)
Lemma buffer_used p c pd cd buf jb st : forking p c pd cd buf jb st -> pused (kernel_pool st) jb = true.
Proof.
  intros F. destruct (fk_buf _ _ _ _ _ _ _ F) as (Hb & B1 & B2 & B3 & B4).
  apply (mw_mapped _ (tv_par _ _ _ (fk_views _ _ _ _ _ _ _ F)) PF_KERNEL jb buf (pframe (kernel_pool st) jb)).
  - apply F.
  - unfold low_va. lia.
  - change (translate (view p st) buf = Done (pframe (kernel_pool st) jb)).
    specialize (B4 0 ltac:(lia)). by rewrite !Z.add_0_r in B4.
  - apply B3.
Qed.

(** Frame [i] of the user pool now backs the child's page [va] and holds what
    frame [f0] held. *)
Record page_copied (p c : Z) (st st' : mst) (va f0 i : Z) : Prop := {
  pc_par : same_tables (view p st) (view p st');
  pc_grow : forall pf, pool_grow (pool_of pf st) (pool_of pf st');
  pc_vaddr : forall pf, vaddr_of pf st' = vaddr_of pf st;
  pc_cur : cur st' = cur st /\ cur_pgdir st' = cur_pgdir st;
  pc_frame : 0 <= i < psize (user_pool st) /\ pused (user_pool st) i = false /\ pused (user_pool st') i = true;
  pc_page : page_at (view c st') va (pframe (user_pool st) i);
  pc_others : forall va', managed st va' -> ~ (va <= va' < va + PG_SIZE) ->
    translate (view c st') va' = translate (view c st) va';
  pc_words : forall j w, 0 <= j < psize (user_pool st) -> j <> i -> 0 <= w < 1024 ->
    rd_ram (machine st') (pframe (user_pool st) j + w * 4) = rd_ram (machine st) (pframe (user_pool st) j + w * 4);
  pc_copy : forall w, 0 <= w < 1024 ->
    rd_ram (machine st') (pframe (user_pool st) i + w * 4) = rd_ram (machine st) (f0 + w * 4);
  pc_ufree : ufree st = S (ufree st');
  pc_kfree : (kfree st <= S (kfree st'))%nat
}.

Section copy_page.
Context (p c pd cd buf jb : Z).

Lemma forking_same st m :
  forking p c pd cd buf jb st -> cr3 m = p -> two_views p c (set_machine m st) ->
  same_tables (view p st) (with_cr3 p m) -> same_tables (view c st) (with_cr3 c m) ->
  forking p c pd cd buf jb (set_machine m st).
Proof.
  intros F Hm H Sp Sc. split; try apply F; try done.
  - destruct (fk_pd _ _ _ _ _ _ _ F) as [K E]. split; [done|]. rewrite <- E. apply (st_translate _ _ Sp); auto.
  - destruct (fk_cd _ _ _ _ _ _ _ F) as [K E]. split; [done|]. rewrite <- E. apply (st_translate _ _ Sp); auto.
  - destruct (fk_buf _ _ _ _ _ _ _ F) as [B1 B2]. split; [done|]. by apply (page_at_same _ _ _ _ Sp).
  - destruct (fk_nbuf _ _ _ _ _ _ _ F) as [B1 B2].
    split; intros Ht; [apply B1; by apply (st_table_frame _ _ Sp)|apply B2; by apply (st_table_frame _ _ Sc)].
Qed.

(** Steps a and b: the page into the buffer, then the child's directory. *)
Lemma fetch_page st va i0 :
  forking p c pd cd buf jb st -> 0 <= i0 < psize (user_pool st) ->
  page_at (view p st) va (pframe (user_pool st) i0) ->
  exists m, memcpy buf va PG_SIZE st = Done (tt, set_machine m st) /\
    page_dir_activate cd (set_machine m st) = Done (tt, set_cr3 c (set_machine m st)) /\
    forking p c pd cd buf jb (set_machine m st) /\
    same_tables (view p st) (with_cr3 p m) /\ same_tables (view c st) (with_cr3 c m) /\
    (forall j w, 0 <= j < psize (user_pool st) -> 0 <= w < 1024 ->
       rd_ram m (pframe (user_pool st) j + w * 4) = rd_ram (machine st) (pframe (user_pool st) j + w * 4)) /\
    (forall w, 0 <= w < 1024 -> rd_ram m (pframe (kernel_pool st) jb + w * 4) =
       rd_ram (machine st) (pframe (user_pool st) i0 + w * 4)).
Proof.
  intros F Hi0 Hsrc. pose proof (fk_views _ _ _ _ _ _ _ F) as H. pose proof (fk_jb _ _ _ _ _ _ _ F) as Hjb.
  pose proof (fk_cr3 _ _ _ _ _ _ _ F) as Hcr.
  assert (forall j, 0 <= j < psize (user_pool st) -> pframe (user_pool st) j <> pframe (kernel_pool st) jb) as Hne.
  { intros j Hj E. by destruct (view_kpool p c st PF_USER j jb H Hj Hjb E). }
  destruct (fk_buf _ _ _ _ _ _ _ F) as [Hb1 Hb2]. destruct (fk_nbuf _ _ _ _ _ _ _ F) as [Hn1 Hn2].
  assert (view p st = machine st) as Em by (by apply with_cr3_id).
  destruct (memcpy_views p c p st buf va (pframe (kernel_pool st) jb) (pframe (user_pool st) i0))
    as (m & E & Hm & H' & Sp & Sc & Ho & Hw); [done|done|by left|by rewrite <- Em|by rewrite <- Em|
      by apply not_eq_sym, Hne|done|done|].
  assert (forking p c pd cd buf jb (set_machine m st)) as F' by (by apply forking_same).
  exists m. split_and!; try done.
  - assert (view p (set_machine m st) = m) as Em' by (by apply with_cr3_id).
    apply activate_spec; cbn [machine set_machine].
    + rewrite <- Em'. apply (view_wf _ _ _ H').
    + apply F'.
    + rewrite <- Em'. apply F'.
  - intros j w Hj Hw'. apply Ho; [|by apply Hne|done].
    apply pframe_aligned; [exact (mw_pool _ (tv_par _ _ _ H) PF_USER)|done].
Qed.

Lemma forking_child_page s1 s3 v phy N :
  forking p c pd cd buf jb s1 -> user_va v -> mem_wf s3 -> st_grow (set_cr3 c s1) s3 ->
  page_added (view c s1) (machine s3) v phy N ->
  forking p c pd cd buf jb (set_cr3 p s3) /\ same_tables (view p s1) (view p s3) /\
  forall w, 0 <= w < 1024 -> rd_ram (machine s3) (pframe (kernel_pool s1) jb + w * 4) =
    rd_ram (machine s1) (pframe (kernel_pool s1) jb + w * 4).
Proof.
  intros F Hv Hwf Hg Hadd. pose proof (fk_views _ _ _ _ _ _ _ F) as H.
  pose proof (child_page_parent p c s1 s3 v phy N H Hv Hg Hadd) as Sp.
  pose proof (child_page_views p c s1 s3 v phy N H Hv Hwf Hg Hadd) as H3.
  pose proof (sg_pool _ _ Hg PF_KERNEL) as K. pose proof (sg_pool _ _ Hg PF_USER) as U. cbn [pool_of] in K, U.
  change (kernel_pool (set_cr3 c s1)) with (kernel_pool s1) in K.
  change (user_pool (set_cr3 c s1)) with (user_pool s1) in U.
  destruct (fk_nbuf _ _ _ _ _ _ _ F) as [Hn1 Hn2]. pose proof (fk_jb _ _ _ _ _ _ _ F) as Hjb.
  assert (~ table_frame (machine s3) (pframe (kernel_pool s1) jb)) as Hn3.
  { intros [Ht|(j & Hj & E & Hu)]%(sg_tables _ _ Hg); [done|].
    destruct (view_kpool p c s1 PF_KERNEL jb j H Hjb Hj E) as [_ <-].
    pose proof (buffer_used _ _ _ _ _ _ _ F) as Hb. change (pused (kernel_pool s1) jb = false) in Hu. congruence. }
  assert (with_cr3 c (machine s3) = machine s3) as E3 by (apply with_cr3_id, (sg_cr3 _ _ Hg)).
  split_and!; [|done|].
  - split.
    + by apply two_views_cr3.
    + done.
    + change (cur s3 <> 0). rewrite (sg_cur _ _ Hg). apply F.
    + change (slock_ok (cur s3) (pool_lock (user_pool s3))). rewrite (sg_cur _ _ Hg), (pg_lock _ _ U). apply F.
    + destruct (fk_pd _ _ _ _ _ _ _ F) as [Q E]. split; [done|]. rewrite <- E. apply (st_translate _ _ Sp); auto.
    + destruct (fk_cd _ _ _ _ _ _ _ F) as [Q E]. split; [done|]. rewrite <- E. apply (st_translate _ _ Sp); auto.
    + change (0 <= jb < psize (kernel_pool s3)). by rewrite (pg_psize _ _ K).
    + destruct (fk_buf _ _ _ _ _ _ _ F) as [B1 B2]. split; [done|].
      change (page_at (view p s3) buf (pframe (kernel_pool s3) jb)). rewrite (pool_grow_pframe _ _ _ K).
      by apply (page_at_same _ _ _ _ Sp).
    + change (~ table_frame (view p s3) (pframe (kernel_pool s3) jb) /\ ~ table_frame (view c s3) (pframe (kernel_pool s3) jb)).
      rewrite (pool_grow_pframe _ _ _ K), (st_table_frame _ _ Sp). unfold view at 2. by rewrite E3.
    + change (vpage (userprog_vaddr s3) (vsize (userprog_vaddr s3)) <= 0xc0000000).
      pose proof (sg_vaddr _ _ Hg PF_USER) as Ev. cbn [vaddr_of] in Ev. rewrite Ev. apply F.
  - intros w Hw. apply (pa_data _ _ _ _ _ Hadd); [|done|done]. apply pframe_aligned; [|done].
    exact (mw_pool _ (tv_par _ _ _ H) PF_KERNEL).
Qed.

(** Steps c, d and e: a page for the child, the copy, the parent's directory. *)
Lemma store_page s1 va k :
  forking p c pd cd buf jb s1 -> 0 <= k < vsize (userprog_vaddr s1) -> vused (userprog_vaddr s1) k = true ->
  va = vpage (userprog_vaddr s1) k -> unmapped (view c s1) va -> (0 < ufree s1)%nat -> (0 < kfree s1)%nat ->
  exists i s', (let! _ := get_a_page_without_opvaddrbitmap PF_USER va in
                memcpy va buf PG_SIZE ;;; page_dir_activate pd) (set_cr3 c s1) = Done (tt, s') /\
    forking p c pd cd buf jb s' /\ page_copied p c s1 s' va (pframe (kernel_pool s1) jb) i.
Proof.
  intros F Hk Hku Hva Hun Huf Hkf. pose proof (fk_views _ _ _ _ _ _ _ F) as H.
  destruct (get_a_user_page_spec (set_cr3 c s1) va k)
    as (i & s3 & E3 & Hwf3 & Hg3 & Hi & Hiu & Hiu3 & (N & Hadd) & Hpg & Hoth & Hcu & Hck); try done.
  { apply H. } { apply F. } { apply F. }
  cbn [user_pool set_cr3 set_machine] in Hi, Hiu, Hpg, Hadd.
  pose proof (mw_vaddr _ (tv_par _ _ _ H) PF_USER) as Hvw. cbn [vaddr_of] in Hvw.
  assert (user_va va /\ va + 4096 <= 0xc0000000 /\ va mod 4096 = 0) as (Huva & Hva2 & Hva3).
  { pose proof (fk_user _ _ _ _ _ _ _ F). pose proof (vw_range _ Hvw).
    split_and!; [..|rewrite Hva; by apply vpage_mod]; unfold user_va, vpage, PG_SIZE in *; cbn in *; lia. }
  destruct (forking_child_page s1 s3 va _ N F Huva Hwf3 Hg3 Hadd) as (F3 & Sp3 & Hbuf3).
  assert (two_views p c s3) as H3 by (by eapply child_page_views).
  pose proof (sg_pool _ _ Hg3 PF_KERNEL) as K. pose proof (sg_pool _ _ Hg3 PF_USER) as U. cbn [pool_of] in K, U.
  change (kernel_pool (set_cr3 c s1)) with (kernel_pool s1) in K.
  change (user_pool (set_cr3 c s1)) with (user_pool s1) in U.
  assert (view c s3 = machine s3) as Em3 by (apply with_cr3_id, (sg_cr3 _ _ Hg3)).
  set (f := pframe (user_pool s1) i) in *.
  assert (aligned f) as Hf by (apply pframe_aligned; [exact (mw_pool _ (tv_par _ _ _ H) PF_USER)|done]).
  assert (f = pframe (user_pool s3) i) as Hf3 by (by rewrite (pool_grow_pframe _ _ _ U)).
  assert (page_at (machine s3) va f) as Hdst.
  { split_and!; [unfold user_va in *; lia..|done|]. intros o Ho. rewrite Hpg by (unfold PG_SIZE; lia).
    do 2 f_equal. rewrite Z.add_mod, Hva3, Z.add_0_l, Z.mod_mod, Z.mod_small by lia. done. }
  assert (page_at (machine s3) buf (pframe (kernel_pool s1) jb)) as Hsrc.
  { destruct (fk_buf _ _ _ _ _ _ _ F3) as [B1 B2]. rewrite <- Em3. apply (page_at_kernel p c s3); [done|done|].
    by rewrite <- (pool_grow_pframe _ _ _ K). }
  destruct (memcpy_views p c c s3 va buf f (pframe (kernel_pool s1) jb))
    as (m4 & E4 & Hm4 & H4 & Sp4 & Sc4 & Ho4 & Hw4); try done.
  { apply (sg_cr3 _ _ Hg3). } { by right. }
  { intros E. by destruct (view_kpool p c s1 PF_USER i jb H Hi (fk_jb _ _ _ _ _ _ _ F) E). }
  { rewrite Hf3. apply (tv_user _ _ _ H3). by rewrite (pg_psize _ _ U). }
  { rewrite Hf3. apply (view_user_tables p c s3 i H3). by rewrite (pg_psize _ _ U). }
  set (s4 := set_machine m4 s3) in *.
  assert (page_dir_activate pd s4 = Done (tt, set_cr3 p s4)) as E5.
  { assert (view c s4 = machine s4) as Em4 by (by apply with_cr3_id).
    destruct (fk_pd _ _ _ _ _ _ _ F3) as [Q E].
    apply activate_spec; [rewrite <- Em4; apply (view_wf _ _ _ H4)|done|].
    rewrite <- Em4, (view_kernel _ _ _ _ H4) by done. rewrite <- E. apply (st_translate _ _ Sp4); auto. }
  exists i, (set_cr3 p s4). split_and!.
  - unfold bind. by rewrite E3, E4.
  - apply (forking_same (set_cr3 p s3) (with_cr3 p m4)); [done|done|by apply (two_views_cr3 _ _ p) in H4|done|done].
  - assert (forall va', low_va va' -> translate (view c (set_cr3 p s4)) va' = translate (machine s3) va') as Ht.
    { intros va' Hl. rewrite <- Em3. by apply (st_translate _ _ Sc4). }
    split.
    + by eapply same_tables_trans.
    + apply Hg3.
    + apply Hg3.
    + split; [apply (sg_cur _ _ Hg3)|apply (sg_pgdir _ _ Hg3)].
    + done.
    + apply (page_at_same (view c s3)); [done|by rewrite Em3].
    + intros va' Hm Hr. rewrite Ht; [by apply Hoth|]. apply (managed_low (set_cr3 c s1)); [apply H|done].
    + intros j w Hj Hji Hw. change (rd_ram m4 (pframe (user_pool s1) j + w * 4) = rd_ram (view c s1) (pframe (user_pool s1) j + w * 4)).
      assert (aligned (pframe (user_pool s1) j)) as Hja
        by (apply pframe_aligned; [exact (mw_pool _ (tv_par _ _ _ H) PF_USER)|done]).
      rewrite Ho4; [|done|intros E; unfold f, pframe, PG_SIZE in E; lia|done].
      apply (pa_data _ _ _ _ _ Hadd); [done| |done].
      rewrite <- Em3, <- (pool_grow_pframe _ _ _ U). apply (view_user_tables p c s3 j H3). by rewrite (pg_psize _ _ U).
    + intros w Hw. change (rd_ram m4 (f + w * 4) = rd_ram (machine s1) (pframe (kernel_pool s1) jb + w * 4)).
      rewrite Hw4 by done. by rewrite Hbuf3.
    + exact Hcu.
    + exact Hck.
Qed.

Lemma copy_page_spec st va k i0 :
  forking p c pd cd buf jb st -> 0 <= k < vsize (userprog_vaddr st) -> vused (userprog_vaddr st) k = true ->
  va = vpage (userprog_vaddr st) k -> unmapped (view c st) va -> (0 < ufree st)%nat -> (0 < kfree st)%nat ->
  0 <= i0 < psize (user_pool st) -> page_at (view p st) va (pframe (user_pool st) i0) ->
  exists i st', copy_page cd pd buf va st = Done (tt, st') /\ forking p c pd cd buf jb st' /\
    page_copied p c st st' va (pframe (user_pool st) i0) i.
Proof.
  intros F Hk Hku Hva Hun Huf Hkf Hi0 Hsrc. pose proof (fk_views _ _ _ _ _ _ _ F) as H.
  destruct (fetch_page st va i0 F Hi0 Hsrc) as (m & E1 & E2 & F1 & Sp & Sc & Hu & Hb).
  assert (forall va', low_va va' -> translate (with_cr3 c m) va' = translate (view c st) va') as Ht
    by (intros; by apply (st_translate _ _ Sc)).
  destruct (store_page (set_machine m st) va k) as (i & s' & E3 & F3 & [Q1 Q2 Q3 Q4 Q5 Q6 Q7 Q8 Q9 Q10 Q11]); try done.
  { unfold unmapped. rewrite Ht; [done|]. rewrite Hva. exact (vpage_low (set_cr3 p st) PF_USER k (tv_par _ _ _ H) Hk). }
  exists i, s'. split_and!; [|done|].
  - unfold copy_page, bind. rewrite E1, E2. exact E3.
  - split; try done.
    + by eapply same_tables_trans.
    + intros va' Hm Hr. rewrite Q7 by done. apply Ht. exact (managed_low (set_cr3 p st) va' (tv_par _ _ _ H) Hm).
    + intros j w Hj Hji Hw. rewrite Q8 by done. by apply Hu.
    + intros w Hw. rewrite Q9 by done. cbn [machine set_machine kernel_pool]. by apply Hb.
Qed.
End copy_page.

(** ** The loop over the parent's pages *)
Definition pages_from (v : virtual_addr) (K : Z) : nat :=
  length (filter (fun k => vused v k = true) (seqZ K (vsize v - K))).

Lemma pages_from_step v K : 0 <= K < vsize v ->
  pages_from v K = ((if vused v K then 1 else 0) + pages_from v (K + 1))%nat.
Proof.
  intros HK. unfold pages_from. rewrite (seqZ_cons K) by lia.
  replace (Z.pred (vsize v - K)) with (vsize v - (K + 1)) by lia. change (Z.succ K) with (K + 1).
  rewrite filter_cons. destruct (vused v K); [by rewrite decide_True|by rewrite decide_False].
Qed.

(** Every page the process has reserved is mapped to a frame of the user pool. *)
Definition all_backed (m : mmu) (st : mst) : Prop :=
  forall k, 0 <= k < vsize (userprog_vaddr st) -> vused (userprog_vaddr st) k = true ->
    exists i, 0 <= i < psize (user_pool st) /\ page_at m (vpage (userprog_vaddr st) k) (pframe (user_pool st) i).

(** The child's page [k] is in a frame that was free and equals the parent's. *)
Definition child_page (p c : Z) (st0 st : mst) (k : Z) : Prop :=
  exists i, 0 <= i < psize (user_pool st0) /\ pused (user_pool st0) i = false /\ pused (user_pool st) i = true /\
    page_at (view c st) (vpage (userprog_vaddr st0) k) (pframe (user_pool st0) i) /\
    forall f w, page_at (view p st0) (vpage (userprog_vaddr st0) k) f -> 0 <= w < 1024 ->
      rd_ram (machine st) (pframe (user_pool st0) i + w * 4) = rd_ram (machine st0) (f + w * 4).

Record copied_upto (p c : Z) (st0 st : mst) (K : Z) : Prop := {
  cu_par : same_tables (view p st0) (view p st);
  cu_grow : forall pf, pool_grow (pool_of pf st0) (pool_of pf st);
  cu_vaddr : forall pf, vaddr_of pf st = vaddr_of pf st0;
  cu_cur : cur st = cur st0 /\ cur_pgdir st = cur_pgdir st0;
  cu_done : forall k, 0 <= k < K -> vused (userprog_vaddr st0) k = true -> child_page p c st0 st k;
  cu_todo : forall k, K <= k < vsize (userprog_vaddr st0) -> unmapped (view c st) (vpage (userprog_vaddr st0) k);
  cu_words : forall j w, 0 <= j < psize (user_pool st0) -> pused (user_pool st0) j = true -> 0 <= w < 1024 ->
    rd_ram (machine st) (pframe (user_pool st0) j + w * 4) = rd_ram (machine st0) (pframe (user_pool st0) j + w * 4);
  cu_ufree : (pages_from (userprog_vaddr st0) K <= ufree st)%nat;
  cu_kfree : (pages_from (userprog_vaddr st0) K <= kfree st)%nat
}.

Section loop.
Context (p c pd cd buf jb : Z) (st0 : mst).
Context (F0 : forking p c pd cd buf jb st0) (Hback : all_backed (view p st0) st0).

Let uv : virtual_addr := userprog_vaddr st0.
Let up : pool := user_pool st0.

Lemma copied_skip st K : copied_upto p c st0 st K -> 0 <= K < vsize uv -> vused uv K = false ->
  copied_upto p c st0 st (K + 1).
Proof.
  intros [Q1 Q2 Q3 Q4 Q5 Q6 Q7 Q8 Q9] HK Hu.
  pose proof (pages_from_step uv K HK) as E. rewrite Hu in E. cbn [plus] in E.
  split; try done; try (unfold uv in *; by rewrite <- E).
  - intros k Hk Hku. apply Q5; [|done]. assert (k <> K) by (intros ->; unfold uv in *; congruence). lia.
  - intros k Hk. apply Q6. lia.
Qed.

(** The pages copied before are not disturbed. *)
Lemma child_page_kept st st' K f i k :
  copied_upto p c st0 st K -> page_copied p c st st' (vpage uv K) f i -> 0 <= k < K -> K < vsize uv ->
  child_page p c st0 st k -> child_page p c st0 st' k.
Proof.
  intros C [Q1 Q2 Q3 Q4 Q5 Q6 Q7 Q8 Q9 Q10 Q11] Hk HK (i' & Hi' & Hf' & Hu' & (A1 & A2 & A3 & A4) & Hw').
  pose proof (cu_grow _ _ _ _ _ C PF_USER) as G. cbn [pool_of] in G.
  pose proof (cu_vaddr _ _ _ _ _ C) as V.
  assert (i' <> i) as Hne by (destruct Q5 as (_ & ? & _); congruence).
  exists i'. split; [done|]. split; [done|]. split; [|split; [split_and!; try done|]].
  - apply (pg_used _ _ (Q2 PF_USER)); [lia|done].
  - intros o Ho. rewrite Q7; [by apply A4| |].
    + apply (vpage_managed st PF_USER k); rewrite V; cbn [vaddr_of]; [unfold uv in *; lia|unfold PG_SIZE; lia].
    + unfold vpage, uv, PG_SIZE in *. lia.
  - intros f' w Hf Hw. rewrite <- (pool_grow_pframe _ _ _ G), Q8 by (rewrite ?(pg_psize _ _ G); done).
    rewrite (pool_grow_pframe _ _ _ G). by apply Hw'.
Qed.

Lemma copied_page st K :
  forking p c pd cd buf jb st -> copied_upto p c st0 st K -> 0 <= K < vsize uv -> vused uv K = true ->
  exists st', copy_page cd pd buf (vpage uv K) st = Done (tt, st') /\ forking p c pd cd buf jb st' /\
    copied_upto p c st0 st' (K + 1).
Proof.
  intros F C HK Hu. pose proof C as [R1 R2 R3 R4 R5 R6 R7 R8 R9].
  pose proof (R2 PF_USER) as G. cbn [pool_of] in G. pose proof (R3 PF_USER) as V. cbn [vaddr_of] in V.
  pose proof (pages_from_step uv K HK) as E. rewrite Hu in E.
  destruct (Hback K HK Hu) as (i0 & Hi0 & Hsrc). fold uv up in Hsrc.
  assert (pframe (user_pool st) i0 = pframe up i0) as Ei0 by apply (pool_grow_pframe _ _ _ G).
  destruct (copy_page_spec p c pd cd buf jb st (vpage uv K) K i0) as (i & st' & Ec & F' & PC); try done.
  { by rewrite V. } { by rewrite V. } { by rewrite V. }
  { apply R6. unfold uv in *. lia. }
  { unfold uv in *. lia. } { unfold uv in *. lia. }
  { by rewrite (pg_psize _ _ G). }
  { rewrite Ei0. by apply (page_at_same _ _ _ _ R1). }
  exists st'. split_and!; [done|done|]. pose proof PC as [Q1 Q2 Q3 Q4 Q5 Q6 Q7 Q8 Q9 Q10 Q11].
  rewrite Ei0 in Q9. rewrite !(pool_grow_pframe _ _ _ G) in *.
  assert (forall j, 0 <= j < psize up -> pused up j = true -> j <> i) as Hnew.
  { intros j Hj Hju ->. destruct Q5 as (_ & Hf & _). rewrite (pg_used _ _ G) in Hf; [done|lia|done]. }
  split.
  - by eapply same_tables_trans.
  - intros pf. by eapply pool_grow_trans.
  - intros pf. by rewrite Q3.
  - destruct Q4 as [-> ->]. done.
  - intros k Hk Hku. destruct (decide (k = K)) as [->|Hne].
    2: { eapply child_page_kept; [exact C|exact PC|lia|lia|]. apply R5; [lia|done]. }
    destruct Q5 as (Hi & Hif & Hit). rewrite (pg_psize _ _ G) in Hi.
    exists i. split_and!; try done; try lia.
    + destruct (pused up i) eqn:Eu; [|done]. by destruct (Hnew i).
    + intros f w Hf Hw. rewrite (page_at_inj _ _ _ _ Hf Hsrc), Q9 by done. apply R7; [done| |done].
      apply (mw_mapped _ (tv_par _ _ _ (fk_views _ _ _ _ _ _ _ F0)) PF_USER i0 (vpage uv K) (pframe up i0));
        [done|exact (vpage_low (set_cr3 p st0) PF_USER K (tv_par _ _ _ (fk_views _ _ _ _ _ _ _ F0)) HK)| |].
      * destruct Hsrc as (_ & _ & _ & Hs). specialize (Hs 0 ltac:(lia)). by rewrite !Z.add_0_r in Hs.
      * apply Hsrc.
  - intros k Hk. unfold unmapped. rewrite Q7.
    + apply R6. lia.
    + apply (vpage_managed st PF_USER k); cbn [vaddr_of]; rewrite V; [unfold uv in *; lia|unfold PG_SIZE; lia].
    + unfold vpage, uv, PG_SIZE in *. lia.
  - intros j w Hj Hju Hw. rewrite <- R7 by done. rewrite <- (pool_grow_pframe _ _ _ G). apply Q8; [|by apply Hnew|done].
    by rewrite (pg_psize _ _ G).
  - unfold uv in *. lia.
  - unfold uv in *. lia.
Qed.

Let pass (r : M mst unit) (st : mst) (K' : Z) : Prop :=
  exists st', r st = Done (tt, st') /\ forking p c pd cd buf jb st' /\ copied_upto p c st0 st' K'.

Lemma copy_bits_spec n : forall st idx_byte idx_bit byte,
  forking p c pd cd buf jb st -> copied_upto p c st0 st (idx_byte * 8 + idx_bit) ->
  0 <= idx_byte -> 0 <= idx_bit -> idx_bit + Z.of_nat n <= 8 -> idx_byte * 8 + 8 <= vsize uv ->
  (forall b, 0 <= b < 8 -> vused uv (idx_byte * 8 + b) = Z.testbit byte b) ->
  pass (copy_bits n idx_byte idx_bit byte (vaddr_start uv) cd pd buf) st (idx_byte * 8 + idx_bit + Z.of_nat n).
Proof.
  induction n as [|n IH]; intros st idx_byte idx_bit byte F C Hby Hbi Hn Hsz Hb.
  { exists st. rewrite Z.add_0_r. done. }
  set (K := idx_byte * 8 + idx_bit) in *. assert (0 <= K < vsize uv) as HK by lia.
  assert (negb (Z.land (Z.shiftl BITMAP_MASK idx_bit) byte =? 0) = vused uv K) as Et.
  { rewrite Z.land_comm, land_bit, negb_involutive by lia. symmetry. apply Hb. lia. }
  assert (pass (if vused uv K then copy_page cd pd buf (vpage uv K) else ret tt) st (K + 1)) as (s1 & E1 & F1 & C1).
  { destruct (vused uv K) eqn:Hu; [by apply copied_page|]. exists st. split_and!; [done|done|by apply copied_skip]. }
  assert (u32 (K * PG_SIZE + vaddr_start uv) = vpage uv K) as Eva.
  { destruct (mw_vaddr _ (tv_par _ _ _ (fk_views _ _ _ _ _ _ _ F0)) PF_USER) as [_ _ [? ?] _]. cbn in H, H0. fold uv in H, H0.
    rewrite u32_id; unfold vpage, is_u32, PG_SIZE in *; lia. }
  destruct (IH s1 idx_byte (idx_bit + 1) byte) as (s2 & E2 & F2 & C2); try done; try lia.
  { by replace (idx_byte * 8 + (idx_bit + 1)) with (K + 1) by lia. }
  exists s2. split_and!; [|done|by replace (K + Z.of_nat (S n)) with (idx_byte * 8 + (idx_bit + 1) + Z.of_nat n) by lia].
  cbn [copy_bits]. fold K. rewrite Et, Eva. unfold bind. by rewrite E1.
Qed.

Lemma copied_skip_byte n : forall st K, copied_upto p c st0 st K -> 0 <= K -> K + Z.of_nat n <= vsize uv ->
  (forall k, K <= k < K + Z.of_nat n -> vused uv k = false) -> copied_upto p c st0 st (K + Z.of_nat n).
Proof.
  induction n as [|n IH]; intros st K C HK Hn Hu; [by rewrite Z.add_0_r|].
  replace (K + Z.of_nat (S n)) with (K + 1 + Z.of_nat n) by lia.
  apply IH; [|lia|lia|intros k Hk; apply Hu; lia]. apply copied_skip; [done|lia|apply Hu; lia].
Qed.

Lemma copy_bytes_spec n : forall st idx_byte,
  forking p c pd cd buf jb st -> copied_upto p c st0 st (idx_byte * 8) -> 0 <= idx_byte ->
  idx_byte + Z.of_nat n = btmp_bytes_len (vaddr_bitmap uv) ->
  pass (copy_bytes n idx_byte uv cd pd buf) st (vsize uv).
Proof.
  pose proof (vw_bitmap _ (mw_vaddr _ (tv_par _ _ _ (fk_views _ _ _ _ _ _ _ F0)) PF_USER)) as Hbm. cbn in Hbm. fold uv in Hbm.
  pose proof (wf_len _ Hbm) as Hlen.
  induction n as [|n IH]; intros st idx_byte F C Hby Hn.
  { exists st. unfold vsize, nbits. rewrite <- Hn, Z.add_0_r. done. }
  destruct (arr_get_lt (bits (vaddr_bitmap uv)) idx_byte) as [byte Ebyte]; [lia|].
  assert (forall b, 0 <= b < 8 -> vused uv (idx_byte * 8 + b) = Z.testbit byte b) as Hb.
  { intros b Hb. unfold vused, used. rewrite Z.add_comm, Z.div_add, Z.div_small, Z.mod_add, Z.mod_small by lia.
    by rewrite Z.add_0_l, Ebyte. }
  assert (idx_byte * 8 + 8 <= vsize uv) as Hsz by (unfold vsize, nbits; lia).
  assert (pass (if negb (byte =? 0) then copy_bits 8 idx_byte 0 byte (vaddr_start uv) cd pd buf else ret tt)
            st ((idx_byte + 1) * 8)) as (s1 & E1 & F1 & C1).
  { replace ((idx_byte + 1) * 8) with (idx_byte * 8 + 0 + Z.of_nat 8) by lia.
    destruct (byte =? 0) eqn:E0; cbn [negb].
    - exists st. split_and!; [done|done|]. rewrite Z.add_0_r. apply Z.eqb_eq in E0 as ->.
      apply copied_skip_byte; [done|lia|lia|]. intros k Hk.
      replace k with (idx_byte * 8 + (k - idx_byte * 8)) by lia. rewrite Hb by lia. apply Z.testbit_0_l.
    - apply copy_bits_spec; try done; try lia. by rewrite Z.add_0_r. }
  destruct (IH s1 (idx_byte + 1)) as (s2 & E2 & F2 & C2); try done; try lia.
  exists s2. split_and!; [|done|done]. cbn [copy_bytes]. unfold bind at 1, lift. rewrite Ebyte. cbn [oget obind].
  unfold bind. by rewrite E1.
Qed.
End loop.

(** What the child's space must be before: nothing of it is mapped yet. *)
Lemma copied_start p c pd cd buf jb st :
  forking p c pd cd buf jb st ->
  (forall k, 0 <= k < vsize (userprog_vaddr st) -> unmapped (view c st) (vpage (userprog_vaddr st) k)) ->
  (pages_from (userprog_vaddr st) 0 <= ufree st)%nat -> (pages_from (userprog_vaddr st) 0 <= kfree st)%nat ->
  copied_upto p c st st 0.
Proof.
  intros F Hun Hu Hk. split; try done.
  - intros pf. apply pool_grow_refl. exact (mw_pool _ (tv_par _ _ _ (fk_views _ _ _ _ _ _ _ F)) pf).
  - intros k Hk'. lia.
Qed.

Lemma copy_body_stack3_spec p c cd buf jb st :
  forking p c (cur_pgdir st) cd buf jb st -> all_backed (view p st) st ->
  (forall k, 0 <= k < vsize (userprog_vaddr st) -> unmapped (view c st) (vpage (userprog_vaddr st) k)) ->
  (pages_from (userprog_vaddr st) 0 <= ufree st)%nat -> (pages_from (userprog_vaddr st) 0 <= kfree st)%nat ->
  exists st', copy_body_stack3 cd buf st = Done (tt, st') /\ forking p c (cur_pgdir st) cd buf jb st' /\
    copied_upto p c st st' (vsize (userprog_vaddr st)).
Proof.
  intros F Hb Hun Hu Hk. pose proof (copied_start _ _ _ _ _ _ _ F Hun Hu Hk) as C.
  pose proof (vw_bitmap _ (mw_vaddr _ (tv_par _ _ _ (fk_views _ _ _ _ _ _ _ F)) PF_USER)) as Hbm. cbn in Hbm.
  pose proof (wf_len _ Hbm) as Hlen.
  destruct (copy_bytes_spec p c (cur_pgdir st) cd buf jb st F Hb (Z.to_nat (btmp_bytes_len (vaddr_bitmap (userprog_vaddr st)))) st 0)
    as (st' & E & F' & C'); try done; [lia|].
  exists st'. done.
Qed.
