(* ===== verification/Bothviews.v ===== *)
(** * Bothviews: one operation through two page directories

    Freeing kernel pages has the same effect on the pools, on the kernel's
    bitmap and on memory whichever of two directories is active, as long as they
    share the kernel's entries.  [both F G m s Q]: if [m] succeeds in the view
    [F] of [s] it succeeds in the view [G], with the same result and two views
    of one state. *)

From stdpp Require Import base numbers list gmap.
From S2P Require Import Prelude.
From S2P Require Import Bitmap.
From S2P Require Import Paging.
From S2P Require Import Memory.
From S2P Require Import Kpages.
From S2P Require Import Procmem.

Local Open Scope Z_scope.
Local Open Scope kernel_scope.

(** A view of the allocator's state: another directory, and perhaps another
    running process. *)
Class ViewChange (F : mst -> mst) (x : Z) : Prop := {
  vc_machine : forall s, machine (F s) = with_cr3 x (machine s);
  vc_pool : forall pf s, pool_of pf (F s) = pool_of pf s;
  vc_kva : forall s, kernel_vaddr (F s) = kernel_vaddr s;
  vc_set_machine : forall m s, F (set_machine m s) = set_machine (with_cr3 x m) (F s);
  vc_set_pool : forall pf q s, F (set_pool pf q s) = set_pool pf q (F s);
  vc_set_kva : forall v s, F (set_vaddr PF_KERNEL v s) = set_vaddr PF_KERNEL v (F s)
}.

#[export] Instance set_cr3_view x : ViewChange (set_cr3 x) x.
Proof. split; try done; by intros []. Qed.

(** Another process becomes the running one. *)
Definition entered (c t d : Z) (v : virtual_addr) (st : mst) : mst :=
  mk_mst (with_cr3 c (machine st)) (kernel_pool st) (user_pool st) (kernel_vaddr st) t d v.

#[export] Instance entered_view x t d v : ViewChange (entered x t d v) x.
Proof. split; try done; by intros []. Qed.

Definition both (F G : mst -> mst) {A} (m : M mst A) (s : mst) (Q : A -> mst -> Prop) : Prop :=
  forall a s1, m (F s) = Done (a, s1) -> exists s', s1 = F s' /\ m (G s) = Done (a, G s') /\ Q a s'.

(** The two directories share the kernel's half. *)
Record agree (F G : mst -> mst) (x y : Z) (s : mst) : Prop := {
  ag_wf : pt_wf (machine (F s)) /\ pt_wf (machine (G s));
  ag_kern : forall d, 768 <= d < 1023 -> rd_ram (machine s) (y + d * 4) = rd_ram (machine s) (x + d * 4)
}.

Section both.
Context (F G : mst -> mst) (x y : Z) {HF : ViewChange F x} {HG : ViewChange G y}.

Lemma both_ret {A} (a : A) s (Q : A -> mst -> Prop) : Q a s -> both F G (ret a) s Q.
Proof. intros HQ b s1 [= <- <-]. by exists s. Qed.

Lemma both_assert b s (Q : unit -> mst -> Prop) : Q tt s -> both F G (assertM b) s Q.
Proof. intros HQ a s1. unfold assertM, lift. destruct (oassert b) as [[]|]; [|done]. intros [= <- <-]. by exists s. Qed.

Lemma both_bind {A B} (m : M mst A) (f : A -> M mst B) s Q :
  both F G m s (fun a s' => both F G (f a) s' Q) -> both F G (bind m f) s Q.
Proof.
  intros Hm b s1. unfold bind at 1. destruct (m (F s)) as [[a s2]|] eqn:E; [|done].
  intros E2. destruct (Hm a s2 E) as (s' & -> & E' & Hf). destruct (Hf b s1 E2) as (s'' & -> & E'' & HQ).
  exists s''. split_and!; [done| |done]. unfold bind. by rewrite E'.
Qed.

Lemma both_pfree f s (Q : unit -> mst -> Prop) :
  (forall s', machine s' = machine s -> kernel_vaddr s' = kernel_vaddr s -> Q tt s') -> both F G (pfree f) s Q.
Proof.
  intros HQ a s1. unfold pfree.
  pose proof (vc_pool (F := F) PF_USER s) as UF. pose proof (vc_pool (F := G) PF_USER s) as UG. cbn [pool_of] in UF, UG.
  rewrite UF, UG. set (pf := if _ <=? f then PF_USER else PF_KERNEL). rewrite !vc_pool.
  destruct (bitmap_set _ _ _) as [b|]; [|done]. cbn [obind]. intros [= <- <-].
  exists (set_pool pf (set_pool_bitmap b (pool_of pf s)) s). rewrite !vc_set_pool. split_and!; [done..|].
  apply HQ; by destruct pf.
Qed.

Lemma both_vaddr_remove v n s (Q : unit -> mst -> Prop) :
  (forall s', machine s' = machine s -> Q tt s') -> both F G (vaddr_remove PF_KERNEL v n) s Q.
Proof.
  intros HQ a s1. unfold vaddr_remove. cbn [vaddr_of]. rewrite !vc_kva.
  destruct (bitmap_set_range _ _ _ _) as [b|]; [|done]. cbn [obind]. intros [= <- <-].
  exists (set_vaddr PF_KERNEL (mk_vaddr b (vaddr_start (kernel_vaddr s))) s). rewrite !vc_set_kva. split_and!; [done..|].
  by apply HQ.
Qed.

Lemma agree_same s s' : machine s' = machine s -> agree F G x y s -> agree F G x y s'.
Proof. intros E [[A B] C]. split; [|by rewrite E]. rewrite !vc_machine in *. by rewrite E. Qed.

Section kernel.
Context (s : mst) (HA : agree F G x y s) (v : Z) (Hv : kernel_va v).

Local Lemma agree_pde : pde_of (machine (G s)) v = pde_of (machine (F s)) v.
Proof. rewrite !vc_machine. exact (ag_kern _ _ _ _ _ HA _ (kernel_va_idx v Hv)). Qed.

Local Lemma agree_vload : vload (machine (G s)) (pte_ptr v) = vload (machine (F s)) (pte_ptr v).
Proof.
  destruct (ag_wf _ _ _ _ _ HA) as [[WF _] [WG _]]. pose proof agree_pde as E. unfold vload.
  destruct (present (pde_of (machine (F s)) v)) eqn:Hp.
  - rewrite !translate_pte_ptr by (done || auto || by rewrite E). cbn [obind]. unfold pte_loc. by rewrite E, !vc_machine.
  - by rewrite !translate_pte_ptr_fault by (done || auto || by rewrite E).
Qed.

Lemma both_v2p {A} (h : mst -> Z -> M mst A) (h' : Z -> M mst A) Q :
  (forall f, h (F s) f = h' f /\ h (G s) f = h' f) -> (forall f, both F G (h' f) s Q) ->
  both F G (let! st := gets id in let! a := lift (addr_v2p (machine st) v) in h st a) s Q.
Proof.
  intros Eh Hh a s1. unfold bind, gets, lift, id, addr_v2p. rewrite agree_vload.
  destruct (vload _ _) as [e|]; [|done]. cbn [obind]. destruct (Eh (u32 (Z.land e 4294963200 + Z.land v 4095))) as [-> ->]. apply Hh.
Qed.

(** Clearing an entry of a shared table leaves both directories as they are. *)
Lemma both_pte_remove (Q : unit -> mst -> Prop) :
  (forall s', agree F G x y s' -> Q tt s') -> both F G (pte_remove_st v) s Q.
Proof.
  intros HQ a s1. destruct (ag_wf _ _ _ _ _ HA) as [WF WG]. pose proof agree_pde as E.
  unfold pte_remove_st, page_table_pte_remove. rewrite agree_vload. unfold vload, vstore.
  destruct (present (pde_of (machine (F s)) v)) eqn:Hp.
  2: { by rewrite translate_pte_ptr_fault by (apply WF || auto). }
  rewrite !translate_pte_ptr by (apply WF || apply WG || auto || by rewrite E). cbn [obind]. intros [= <- <-].
  assert (pte_loc (machine (G s)) v = pte_loc (machine (F s)) v) as El by (unfold pte_loc; by rewrite E). rewrite El.
  set (pa := pte_loc (machine (F s)) v). set (e := Z.land _ _).
  exists (set_machine (wr_ram (machine s) pa e) s). rewrite !vc_set_machine, !vc_machine. split_and!; [done..|]. apply HQ.
  assert (forall z, z = x \/ z = y -> forall d, 0 <= d < 1024 ->
    rd_ram (wr_ram (machine s) pa e) (z + d * 4) = rd_ram (machine s) (z + d * 4)) as Hdir.
  { intros z Hz d Hd. rewrite rd_wr_ram, decide_False; [done|]. intros Epa. unfold pa, pte_loc in Epa.
    pose proof (PTE_IDX_range v) as Hi.
    assert (aligned z /\ frame (pde_of (machine (F s)) v) <> z) as [Haz Hne].
    { destruct Hz as [-> | ->]; split.
      - rewrite vc_machine in WF. apply WF.
      - pose proof (wf_pde _ v WF ltac:(auto) Hp) as Hn. by rewrite vc_machine in Hn at 2.
      - rewrite vc_machine in WG. apply WG.
      - rewrite <- E in Hp. pose proof (wf_pde _ v WG ltac:(auto) Hp) as Hn. rewrite E in Hn. by rewrite (vc_machine (F := G)) in Hn. }
    apply frame_word_inj in Epa as [Ez _]; [congruence|apply frame_aligned|done|done|done]. }
  assert (forall z, z = x \/ z = y -> pt_wf (with_cr3 z (machine s)) -> pt_wf (with_cr3 z (wr_ram (machine s) pa e))) as Hwf.
  { intros z Hz [[A1 A2 A3] T]. pose proof (Hdir z Hz) as Hd.
    change (forall d, 0 <= d < 1024 -> rd_ram (with_cr3 z (wr_ram (machine s) pa e)) (z + d * 4) = rd_ram (with_cr3 z (machine s)) (z + d * 4)) in Hd.
    cbn [cr3 with_cr3] in *. pose proof (Hd 1023 ltac:(lia)) as E23. change (1023 * 4) with 4092 in E23.
    split; [split; cbn [cr3 with_cr3]; rewrite ?E23; done|]. intros d Hdd. cbn [cr3 with_cr3]. rewrite Hd by lia. by apply T. }
  split.
  - rewrite !vc_set_machine. cbn [machine set_machine]. rewrite vc_machine in WF. rewrite vc_machine in WG. auto.
  - intros d Hd. cbn [machine set_machine]. rewrite !Hdir by (auto || lia). by apply HA.
Qed.
End kernel.

Lemma both_unmap low high n : forall v s, agree F G x y s -> 0xc0000000 <= v -> v + Z.of_nat n * PG_SIZE <= 0xffc00000 ->
  both F G (unmap_pages low high n v) s (fun _ s' => agree F G x y s').
Proof.
  induction n as [|n IH]; intros v s HA Hv He; [by apply both_ret|]. unfold PG_SIZE in *.
  assert (kernel_va v) as Hk by (unfold kernel_va; lia). cbn [unmap_pages].
  eapply (both_v2p s HA v Hk); [by split|]. intros f. apply both_bind, both_assert.
  apply both_bind, both_pfree. intros s1 E1 _. apply (agree_same s s1 E1) in HA.
  apply both_bind, (both_pte_remove s1 HA v Hk). intros s2 HA2. rewrite u32_id by (unfold is_u32, PG_SIZE; lia).
  apply IH; [done|unfold PG_SIZE; lia|unfold PG_SIZE; lia].
Qed.

Lemma both_mfree v n s : agree F G x y s -> 0xc0000000 <= v -> 1 <= n -> v + n * PG_SIZE <= 0xffc00000 ->
  both F G (mfree_page PF_KERNEL v n) s (fun _ s' => agree F G x y s').
Proof.
  intros HA Hv Hn He. unfold PG_SIZE in *. assert (kernel_va v) as Hk by (unfold kernel_va; lia).
  unfold mfree_page. apply both_bind, both_assert.
  assert (forall low high, both F G (unmap_pages low high (Z.to_nat n) v) s
    (fun _ s' => both F G (vaddr_remove PF_KERNEL v n) s' (fun _ s'' => agree F G x y s''))) as Hun.
  { intros low high a s1 E. destruct (both_unmap low high (Z.to_nat n) v s HA Hv ltac:(unfold PG_SIZE; lia) a s1 E)
      as (s' & -> & E' & HA'). exists s'. split_and!; [done..|]. apply both_vaddr_remove. intros s'' Em. by apply (agree_same s'). }
  pose proof (vc_pool (F := F) PF_USER s) as UF. pose proof (vc_pool (F := G) PF_USER s) as UG.
  pose proof (vc_pool (F := F) PF_KERNEL s) as KF. pose proof (vc_pool (F := G) PF_KERNEL s) as KG. cbn [pool_of] in UF, UG, KF, KG.
  eapply (both_v2p s HA v Hk); [intros f; cbv beta; rewrite UF, UG, KF, KG; by split|].
  intros f. apply both_bind, both_assert, both_bind. by destruct (_ <=? f).
Qed.
End both.
