(* ===== verification/Addrspace.v ===== *)
(** * Addrspace: a new address space ([userprog/process.c], [create_page_dir])

    The new directory has the kernel's entries of the running one, the
    recursive entry to itself and nothing below.  Seen through it the
    allocator's invariant holds, and the two directories are the two views that
    [Procmem] copies pages between. *)

From stdpp Require Import base numbers list gmap.
From S2P Require Import Prelude.
From S2P Require Import Bitmap.
From S2P Require Import Paging.
From S2P Require Import Seqlock.
From S2P Require Import Memory.
From S2P Require Import Kpages.
From S2P Require Import Procmem.
From S2P Require Import Bothviews.

Local Open Scope Z_scope.
Local Open Scope kernel_scope.

(** ** The contents of a new directory *)
Definition new_dir (m : mmu) (p c : Z) : Prop :=
  forall d, 0 <= d < 1024 ->
    rd_ram m (c + d * 4) = if decide (d < 768) then 0 else if decide (d < 1023) then rd_ram m (p + d * 4) else mk_entry c.

Lemma window_word m d : pt_wf m -> 0 <= d < 1024 -> translate m (0xfffff000 + d * 4) = Done (cr3 m + d * 4).
Proof.
  intros Hwf Hd. destruct (mk_va_fields d 0 0) as (Hu & Hi & _); [lia..|].
  assert (0xfffff000 + d * 4 = pde_ptr (mk_va d 0 0)) as ->.
  { rewrite pde_ptr_eq, Hi by done. unfold mk_va. lia. }
  rewrite translate_pde_ptr by (done || apply Hwf). by rewrite Hi.
Qed.

(** What [create_page_dir] writes once it has its page. *)
Lemma fill_page_dir m v c :
  pt_wf m -> page_at m v c -> ~ table_frame m c -> (forall w, 0 <= w < 1024 -> rd_ram m (c + w * 4) = 0) ->
  exists m1 m2, vcopy m (u32 (v + 0x300 * 4)) (0xfffff000 + 0x300 * 4) (Z.to_nat (1024 / 4)) = Done m1 /\
    addr_v2p m1 v = Done c /\ vstore m1 (u32 (v + 1023 * 4)) (mk_entry c) = Done m2 /\
    only_frame c m m2 /\ new_dir m2 (cr3 m) c.
Proof.
  intros Hwf Hpg Hn Hz. pose proof Hpg as (A & B & C & D).
  assert (cr3 m <> c) as Hne by (intros <-; apply Hn; by left).
  rewrite !u32_id by (unfold is_u32; lia). change (Z.to_nat (1024 / 4)) with 256%nat.
  destruct (vcopy_spec c (cr3 m) 256 m (v + 0x300 * 4) (0xfffff000 + 0x300 * 4) 768) as (m1 & E1 & O1 & W1);
    [done|apply Hwf|done|lia|lia| |].
  { intros m' Ho k Hk. pose proof (only_frame_tables c m m' Hwf C Hn Ho) as S.
    pose proof (page_at_same _ _ _ _ S Hpg) as (_ & _ & _ & D').
    replace (v + 0x300 * 4 + 4 * k) with (v + (768 + k) * 4) by lia. rewrite D' by lia.
    replace (0xfffff000 + 0x300 * 4 + 4 * k) with (0xfffff000 + (768 + k) * 4) by lia.
    rewrite window_word by (lia || by apply (st_pt_wf _ _ S)). by rewrite (st_cr3 _ _ S). }
  change (Z.of_nat 256) with 256 in W1.
  pose proof (only_frame_tables c m m1 Hwf C Hn O1) as S1. pose proof (st_pt_wf _ _ S1 Hwf) as Hwf1.
  pose proof (page_at_same _ _ _ _ S1 Hpg) as (_ & _ & _ & D1).
  destruct (mk_entry_spec c C) as (_ & _ & Ec).
  assert (only_frame c m1 (wr_ram m1 (c + 1023 * 4) (mk_entry c))) as O2 by (apply only_frame_wr; lia).
  exists m1, (wr_ram m1 (c + 1023 * 4) (mk_entry c)). split_and!.
  - exact E1.
  - apply addr_v2p_spec; [apply Hwf1|unfold is_u32; lia|]. specialize (D1 0 ltac:(lia)). by rewrite !Z.add_0_r in D1.
  - unfold vstore. by rewrite D1 by lia.
  - by eapply only_frame_trans.
  - intros d Hd.
    rewrite (only_frame_other c (cr3 m) m _ d (only_frame_trans _ _ _ _ O1 O2)) by (done || apply Hwf).
    rewrite rd_wr_ram, W1 by done. repeat case_decide; try lia; try done. by apply Hz.
Qed.

(** ** The new directory as a second view *)
Record new_space (p c : Z) (st : mst) : Prop := {
  ns_wf : mem_wf st;
  ns_cr3 : cr3 (machine st) = p;
  ns_nt : ~ table_frame (machine st) c;
  ns_frame : exists j, 0 <= j < psize (kernel_pool st) /\ c = pframe (kernel_pool st) j /\ pused (kernel_pool st) j = true;
  ns_dir : new_dir (machine st) p c;
  ns_user : forall i, 0 <= i < psize (user_pool st) -> ~ table_frame (machine st) (pframe (user_pool st) i);
  ns_kva : 0xc0000000 <= vaddr_start (kernel_vaddr st);
  ns_uva : vpage (userprog_vaddr st) (vsize (userprog_vaddr st)) <= 0xc0000000
}.

Lemma low_user_or_kernel va : low_va va -> user_va va \/ kernel_va va.
Proof. unfold low_va, user_va, kernel_va. lia. Qed.

Section new_space.
Context (p c : Z) (st : mst) (N : new_space p c st).

Local Lemma ns_view : view p st = machine st.
Proof. apply with_cr3_id, N. Qed.

Local Lemma ns_aligned : aligned c.
Proof.
  destruct (ns_frame _ _ _ N) as (j & Hj & -> & _).
  apply pframe_aligned; [apply (mw_pool _ (ns_wf _ _ _ N) PF_KERNEL)|done].
Qed.

Lemma ns_pde_user va : user_va va -> present (pde_of (view c st) va) = false.
Proof.
  intros Hva. pose proof (user_va_idx va Hva). unfold pde_of.
  change (rd_ram (view c st) (cr3 (view c st) + PDE_IDX va * 4)) with (rd_ram (machine st) (c + PDE_IDX va * 4)).
  rewrite (ns_dir _ _ _ N), decide_True by lia. done.
Qed.

Lemma ns_pde_kernel va : kernel_va va -> pde_of (view c st) va = pde_of (machine st) va.
Proof.
  intros Hva. pose proof (kernel_va_idx va Hva). unfold pde_of.
  change (rd_ram (view c st) (cr3 (view c st) + PDE_IDX va * 4)) with (rd_ram (machine st) (c + PDE_IDX va * 4)).
  rewrite (ns_dir _ _ _ N), decide_False, decide_True, (ns_cr3 _ _ _ N) by lia. done.
Qed.

Lemma ns_translate va : low_va va ->
  translate (view c st) va = if decide (user_va va) then Halt Page_fault else translate (machine st) va.
Proof.
  intros Hl. case_decide as Hu.
  - unfold translate. by rewrite ns_pde_user.
  - assert (kernel_va va) as Hk by (by destruct (low_user_or_kernel va Hl)).
    unfold translate, pte_loc. by rewrite ns_pde_kernel.
Qed.

Lemma ns_mapped va pa : low_va va -> translate (view c st) va = Done pa -> kernel_va va /\ translate (machine st) va = Done pa.
Proof.
  intros Hl. rewrite ns_translate by done. case_decide; [done|]. by destruct (low_user_or_kernel va Hl).
Qed.

Lemma ns_shares va1 va2 : kernel_va va1 -> kernel_va va2 -> shares_entry (view c st) va1 va2 <-> shares_entry (machine st) va1 va2.
Proof. intros H1 H2. unfold shares_entry, pte_loc. by rewrite !ns_pde_kernel. Qed.

Lemma ns_pt_wf : pt_wf (view c st).
Proof.
  destruct (mk_entry_spec c ns_aligned) as (Hf & Hp & _).
  assert (rd_ram (view c st) (cr3 (view c st) + 4092) = mk_entry c) as E.
  { change (rd_ram (machine st) (c + 1023 * 4) = mk_entry c). by rewrite (ns_dir _ _ _ N), !decide_False by lia. }
  split; [split; rewrite ?E; auto using ns_aligned; apply ns_aligned|].
  intros d Hd. change (rd_ram (view c st) (cr3 (view c st) + d * 4)) with (rd_ram (machine st) (c + d * 4)).
  change (cr3 (view c st)) with c. rewrite (ns_dir _ _ _ N) by lia. case_decide; [done|]. rewrite decide_True by lia.
  intros Hpr Ec. apply (ns_nt _ _ _ N). right. exists d. by rewrite (ns_cr3 _ _ _ N).
Qed.

Lemma ns_tables g : table_frame (view c st) g -> g = c \/ table_frame (machine st) g.
Proof.
  intros [->|(d & Hd & Hp & E)]; [by left|]. right.
  change (rd_ram (view c st) (cr3 (view c st) + d * 4)) with (rd_ram (machine st) (c + d * 4)) in *.
  rewrite (ns_dir _ _ _ N) in Hp, E by lia. case_decide; [done|]. rewrite decide_True in Hp, E by lia.
  right. exists d. by rewrite (ns_cr3 _ _ _ N).
Qed.

Lemma ns_mem_wf : mem_wf (set_cr3 c st).
Proof.
  pose proof (ns_wf _ _ _ N) as Hwf.
  split.
  - apply ns_pt_wf.
  - intros pf. exact (mw_pool st Hwf pf).
  - exact (mw_order st Hwf).
  - intros pf. exact (mw_vaddr st Hwf pf).
  - exact (mw_vsep st Hwf).
  - intros pf i Hi [E|Ht]%ns_tables; [|exact (mw_tables st Hwf pf i Hi Ht)].
    destruct (ns_frame _ _ _ N) as (j & Hj & Ec & Hu). rewrite Ec in E.
    destruct (pframe_inj st pf PF_KERNEL i j Hwf Hi Hj E) as [-> ->]. exact Hu.
  - intros pf i va pa Hi Hl [_ Ht]%ns_mapped Hf; [|done]. exact (mw_mapped st Hwf pf i va pa Hi Hl Ht Hf).
  - intros pf i va1 va2 pa1 pa2 Hi L1 L2 [K1 T1]%ns_mapped [K2 T2]%ns_mapped F1 F2; [|done..].
    apply ns_shares; [done|done|]. exact (mw_sole st Hwf pf i va1 va2 pa1 pa2 Hi L1 L2 T1 T2 F1 F2).
  - intros pf i va Hi Hu Hr. unfold unmapped. change (machine (set_cr3 c st)) with (view c st).
    rewrite ns_translate; [|apply (managed_low st va Hwf); exact (vpage_managed st pf i va Hi Hr)].
    case_decide; [done|]. exact (mw_unmapped st Hwf pf i va Hi Hu Hr).
  - intros va1 va2 M1 M2 S1 S2.
    assert (forall va va', low_va va -> shares_entry (view c st) va va' -> kernel_va va) as HK.
    { intros va va' Hl [Hp _]. destruct (low_user_or_kernel va Hl) as [Hu|]; [|done]. by rewrite ns_pde_user in Hp. }
    pose proof (HK va1 va2 (managed_low st va1 Hwf M1) S1) as K1. pose proof (HK va2 va1 (managed_low st va2 Hwf M2) S2) as K2.
    apply (mw_noalias st Hwf va1 va2 M1 M2); by apply ns_shares.
Qed.

Lemma new_space_views : two_views p c st.
Proof.
  split.
  - rewrite set_cr3_id by apply N. apply N.
  - apply ns_mem_wf.
  - destruct (ns_frame _ _ _ N) as (j & Hj & Ec & _). eauto.
  - rewrite ns_view. apply N.
  - intros d Hd. by rewrite (ns_dir _ _ _ N), decide_False, decide_True by lia.
  - intros d Hd. by rewrite (ns_dir _ _ _ N), decide_True by lia.
  - intros i Hi. rewrite ns_view. by apply N.
Qed.

Lemma new_space_empty k : 0 <= k < vsize (userprog_vaddr st) -> unmapped (view c st) (vpage (userprog_vaddr st) k).
Proof.
  intros Hk. pose proof (ns_uva _ _ _ N). destruct (mw_vaddr st (ns_wf _ _ _ N) PF_USER) as [_ _ [? _] _].
  unfold unmapped, translate. rewrite ns_pde_user; [done|]. unfold user_va, vpage, PG_SIZE in *. cbn in *. lia.
Qed.
End new_space.

(** ** Allocations of kernel pages, as the running process sees them *)
Record kernel_room (n : Z) (x : nat) (st : mst) : Prop := {
  kr_wf : mem_wf st;
  kr_cur : cur st <> 0;
  kr_lock : forall pf, slock_ok (cur st) (pool_lock (pool_of pf st));
  kr_run : exists s0, 0 <= s0 /\ s0 + n <= vsize (kernel_vaddr st) /\ free_run (vaddr_bitmap (kernel_vaddr st)) s0 n;
  kr_tail : btmp_bytes_len (vaddr_bitmap (kernel_vaddr st)) < Z.of_nat (length (bits (vaddr_bitmap (kernel_vaddr st))));
  kr_frames : (2 * Z.to_nat n + x <= kfree st)%nat;
  kr_user : forall i, 0 <= i < psize (user_pool st) -> ~ table_frame (machine st) (pframe (user_pool st) i);
  kr_kva : 0xc0000000 <= vaddr_start (kernel_vaddr st);
  kr_uva : vpage (userprog_vaddr st) (vsize (userprog_vaddr st)) <= 0xc0000000
}.

(** Nothing of the process changed, and frames were only taken. *)
Record kept (st st' : mst) : Prop := {
  kt_cr3 : cr3 (machine st') = cr3 (machine st);
  kt_cur : cur st' = cur st /\ cur_pgdir st' = cur_pgdir st;
  kt_uva : userprog_vaddr st' = userprog_vaddr st;
  kt_upool : user_pool st' = user_pool st;
  kt_kpool : pool_grow (kernel_pool st) (kernel_pool st');
  kt_kva : vaddr_start (kernel_vaddr st') = vaddr_start (kernel_vaddr st) /\ vsize (kernel_vaddr st') = vsize (kernel_vaddr st) /\
    forall j, 0 <= j -> vused (kernel_vaddr st) j = true -> vused (kernel_vaddr st') j = true;
  kt_kept : forall va pa, low_va va -> translate (machine st) va = Done pa -> translate (machine st') va = Done pa;
  kt_user : forall k o, 0 <= k < vsize (userprog_vaddr st) -> 0 <= o < 4096 ->
    translate (machine st') (vpage (userprog_vaddr st) k + o) = translate (machine st) (vpage (userprog_vaddr st) k + o);
  kt_tables : forall g, table_frame (machine st') g -> table_frame (machine st) g \/
    exists j, 0 <= j < psize (kernel_pool st) /\ g = pframe (kernel_pool st) j /\ pused (kernel_pool st) j = false;
  kt_words : forall i w, 0 <= i < psize (user_pool st) -> 0 <= w < 1024 ->
    rd_ram (machine st') (pframe (user_pool st) i + w * 4) = rd_ram (machine st) (pframe (user_pool st) i + w * 4)
}.

Lemma kept_trans st1 st2 st3 : kept st1 st2 -> kept st2 st3 -> kept st1 st3.
Proof.
  intros [A1 A2 A3 A4 A5 A6 A7 A8 A9 A10] [B1 B2 B3 B4 B5 B6 B7 B8 B9 B10]. split.
  - congruence.
  - destruct A2, B2. split; congruence.
  - congruence.
  - congruence.
  - by eapply pool_grow_trans.
  - destruct A6 as (? & ? & ?), B6 as (? & ? & ?). split_and!; [congruence..|auto].
  - auto.
  - intros k o Hk Ho. rewrite <- A8 by done. rewrite <- A3. apply B8; [by rewrite A3|done].
  - intros g [Hg|(j & Hj & -> & Hu)]%B9; [by apply A9|]. right. exists j.
    rewrite (pg_psize _ _ A5) in Hj. split_and!; [lia|lia|by rewrite (pool_grow_pframe _ _ _ A5)|].
    destruct (pused (kernel_pool st1) j) eqn:E; [|done]. apply (pg_used _ _ A5) in E; [congruence|lia].
  - intros i w Hi Hw. rewrite <- A10 by done. rewrite <- A4. apply B10; [by rewrite A4|done].
Qed.

Lemma got_pages_user st st' r cnt ids :
  mem_wf st -> got_pages PF_KERNEL st st' r cnt ids ->
  (forall i, 0 <= i < psize (user_pool st) -> ~ table_frame (machine st) (pframe (user_pool st) i)) ->
  forall i, 0 <= i < psize (user_pool st) -> ~ table_frame (machine st') (pframe (user_pool st) i).
Proof.
  intros Hwf G Hn i Hi [Ht|(j & Hj & E & Hu)]%(gp_tables _ _ _ _ _ _ G); [by apply (Hn i)|].
  by destruct (pframe_inj st PF_USER PF_KERNEL i j Hwf Hi Hj E).
Qed.

Lemma got_pages_kept st st' r cnt ids :
  mem_wf st -> got_pages PF_KERNEL st st' r cnt ids -> 0 <= r -> r + cnt <= vsize (kernel_vaddr st) ->
  (forall i, 0 <= i < psize (user_pool st) -> ~ table_frame (machine st) (pframe (user_pool st) i)) ->
  kept st st'.
Proof.
  intros Hwf G Hr Hrc Hn. pose proof (got_pages_user st st' r cnt ids Hwf G Hn) as Hn'.
  destruct G as [Q1 Q2 Q3 Q4 Q5 Q6 Q7 Q8 Q9 Q10 Q11 Q12 Q13 Q14 Q15 Q16 Q17 Q18 Q19].
  split.
  - done.
  - done.
  - exact (Q3 PF_USER ltac:(done)).
  - by apply Q18.
  - exact (Q6 PF_KERNEL).
  - destruct Q2 as (B1 & B2 & B3). split_and!; [done|done|]. intros j Hj Hu.
    change (kernel_vaddr st') with (vaddr_of PF_KERNEL st'). rewrite B3 by done. by case_decide.
  - done.
  - intros k o Hk Ho. apply Q13; [exists PF_USER, k; cbn [vaddr_of]; unfold PG_SIZE; lia|].
    pose proof (mw_vsep st Hwf ltac:(lia)). cbn [vaddr_of]. unfold vpage, PG_SIZE in *. lia.
  - done.
  - intros i w Hi Hw. apply Q16; [|by apply Hn'| |done].
    + apply pframe_aligned; [apply (mw_pool st Hwf PF_USER)|done].
    + intros j [Hj _]%Q8 E. by destruct (pframe_inj st PF_USER PF_KERNEL i j Hwf Hi Hj E).
Qed.

Lemma room_alloc cnt n x st :
  kernel_room (cnt + n) x st -> 0 < cnt < 3840 -> 0 <= n ->
  exists r ids st', get_kernel_pages cnt st = Done (vpage (kernel_vaddr st) r, st') /\
    0 <= r /\ r + cnt <= vsize (kernel_vaddr st) /\ (forall j, r <= j < r + cnt -> vused (kernel_vaddr st) j = false) /\
    got_pages PF_KERNEL st st' r cnt ids /\ kernel_room n x st' /\ kept st st'.
Proof.
  intros [R1 R2 R3 (s0 & Hs0 & Hfit & Hrun) R5 R6 R7 R8 R9] Hc Hn.
  destruct (get_pages_spec PF_KERNEL cnt s0 st) as (r & ids & st' & E & Hr & Hfr & G); try done.
  { split; cbn [vaddr_of]; try done; [lia|intros i Hi; apply Hrun; lia|]. unfold enough. lia. }
  cbn [vaddr_of] in E, Hfr.
  pose proof (got_pages_kept st st' r cnt ids R1 G ltac:(lia) ltac:(lia) R7) as K.
  exists r, ids, st'. split_and!; try done; try lia.
  - destruct G as [Q1 (B1 & B2 & B3) Q3 Q4 Q5 Q6 Q7 Q8 Q9 Q10 Q11 Q12 Q13 Q14 Q15 Q16 Q17 Q18 (S1 & S2)].
    cbn [vaddr_of] in *. split.
    + done.
    + by rewrite (proj1 Q4).
    + intros pf. rewrite (proj1 Q4), (pg_lock _ _ (Q6 pf)). apply R3.
    + exists (s0 + cnt). split_and!; [lia|rewrite B2; lia|]. intros i Hi.
      change (vused (kernel_vaddr st') i = false). rewrite B3, decide_False by lia. apply Hrun. lia.
    + by rewrite S1, S2.
    + rewrite Z2Nat.inj_add in R6 by lia. lia.
    + rewrite (kt_upool _ _ K). by eapply got_pages_user.
    + by rewrite B1.
    + by rewrite (kt_uva _ _ K).
Qed.

(** Writing to a frame of the kernel pool that is not a table. *)
Lemma kept_write n x st m j :
  kernel_room n x st -> 0 <= j < psize (kernel_pool st) -> ~ table_frame (machine st) (pframe (kernel_pool st) j) ->
  only_frame (pframe (kernel_pool st) j) (machine st) m ->
  kernel_room n x (set_machine m st) /\ kept st (set_machine m st).
Proof.
  intros R Hj Hn Ho. pose proof (kr_wf _ _ _ R) as Hwf.
  assert (aligned (pframe (kernel_pool st) j)) as Ha by (apply pframe_aligned; [apply (mw_pool st Hwf PF_KERNEL)|done]).
  pose proof (only_frame_tables _ _ _ (mw_pt st Hwf) Ha Hn Ho) as S.
  assert (forall i, 0 <= i < psize (user_pool st) -> pframe (kernel_pool st) j <> pframe (user_pool st) i) as Hne.
  { intros i Hi E. by destruct (pframe_inj st PF_KERNEL PF_USER j i Hwf Hj Hi E). }
  split.
  - destruct R as [R1 R2 R3 R4 R5 R6 R7 R8 R9]. split; try done.
    + apply (mem_wf_same st); try done. intros pf. split; try done.
      exact (mw_pool st R1 pf).
    + intros i Hi Ht. apply (R7 i Hi). by apply (st_table_frame _ _ S).
  - split; try done.
    + apply (st_cr3 _ _ S).
    + apply pool_grow_refl, (mw_pool st Hwf PF_KERNEL).
    + intros va pa Hl Ht. by rewrite (st_translate _ _ S).
    + intros k o Hk Hoo. apply (st_translate _ _ S). apply (managed_low st); [done|].
      exists PF_USER, k. cbn [vaddr_of]. unfold PG_SIZE. lia.
    + intros g Hg. left. by apply (st_table_frame _ _ S).
    + intros i w Hi Hw. apply (only_frame_other _ _ _ _ w Ho); [done| |by apply Hne|done].
      apply pframe_aligned; [apply (mw_pool st Hwf PF_USER)|done].
Qed.

Lemma got_one st st' r ids : got_pages PF_KERNEL st st' r 1 ids -> exists i, ids = [i].
Proof.
  intros G. pose proof (gp_len _ _ _ _ _ _ G) as E. destruct ids as [|i [|? ?]]; try done. eauto.
Qed.

(** A page of the kernel's own: where it is, and its frame. *)
Record kernel_page (st st' : mst) (v j : Z) : Prop := {
  pg_va : exists k, 0 <= k < vsize (kernel_vaddr st) /\ v = vpage (kernel_vaddr st) k /\
            vused (kernel_vaddr st) k = false /\ vused (kernel_vaddr st') k = true;
  pg_frame : 0 <= j < psize (kernel_pool st) /\ pused (kernel_pool st) j = false /\ pused (kernel_pool st') j = true;
  pg_at : page_at (machine st') v (pframe (kernel_pool st) j);
  pg_nt : ~ table_frame (machine st') (pframe (kernel_pool st) j)
}.

(** [get_kernel_pages(1)]. *)
Lemma room_page n x st :
  kernel_room (1 + n) x st -> 0 <= n ->
  exists v j st', get_kernel_pages 1 st = Done (v, st') /\ kernel_page st st' v j /\ 0xc0000000 <= v /\
    kernel_room n x st' /\ kept st st' /\
    forall w, 0 <= w < 1024 -> rd_ram (machine st') (pframe (kernel_pool st) j + w * 4) = 0.
Proof.
  intros R Hn. destruct (room_alloc 1 n x st R ltac:(lia) Hn) as (r & ids & st' & E & Hr & Hrc & Hfree & G & R' & K).
  destruct (got_one _ _ _ _ G) as [j ->]. pose proof (kr_kva _ _ _ R) as Hkva.
  destruct G as [Q1 (B1 & B2 & B3) Q3 Q4 Q5 Q6 Q7 Q8 Q9 Q10 Q11 Q12 Q13 Q14 Q15 Q16 Q17 Q18 Q19].
  cbn [vaddr_of pool_of] in *. pose proof (Q9 0%nat j eq_refl) as Hp. cbn in Hp. rewrite Z.add_0_r in Hp.
  destruct (Q8 j ltac:(by left)) as [Hj Hju]. pose proof (Q6 PF_KERNEL) as GK. cbn [pool_of] in GK.
  exists (vpage (kernel_vaddr st) r), j, st'. split_and!; try done.
  - split; [|split_and!; try done; try lia|done|apply Q11; by left].
    + exists r. split_and!; [lia|lia|done|by apply Hfree; lia|]. rewrite B3, decide_True by lia. done.
    + apply (mw_mapped st' Q1 PF_KERNEL j (vpage (kernel_vaddr st) r) (pframe (kernel_pool st) j)); cbn [pool_of].
      * by rewrite (pg_psize _ _ GK).
      * destruct Hp as (? & ? & _). unfold low_va. lia.
      * destruct Hp as (_ & _ & _ & Hp). specialize (Hp 0 ltac:(lia)). by rewrite !Z.add_0_r in Hp.
      * rewrite (pool_grow_pframe _ _ _ GK). apply Hp.
  - unfold vpage, PG_SIZE. lia.
  - intros w Hw. apply Q10; [by left|done].
Qed.

Lemma create_page_dir_spec n x st :
  kernel_room (1 + n) x st -> 0 <= n ->
  exists v j st', create_page_dir st = Done (v, st') /\ kernel_page st st' v j /\ 0xc0000000 <= v /\
    kernel_room n x st' /\ kept st st' /\ new_space (cr3 (machine st)) (pframe (kernel_pool st) j) st'.
Proof.
  intros R Hn. destruct (room_page n x st R Hn) as (v & j & s1 & E1 & [(k & Hk & -> & Hku & Hku1) Pf Pa Pn] & Hv & R1 & K1 & Hz).
  set (v := vpage (kernel_vaddr st) k) in *. set (c := pframe (kernel_pool st) j) in *.
  pose proof (kt_kpool _ _ K1) as G1.
  assert (c = pframe (kernel_pool s1) j) as Ec by (by rewrite (pool_grow_pframe _ _ _ G1)).
  assert (0 <= j < psize (kernel_pool s1)) as Hj by (rewrite (pg_psize _ _ G1); apply Pf).
  destruct (fill_page_dir (machine s1) v c) as (m1 & m2 & F1 & F2 & F3 & F4 & F5); try done; [apply R1|].
  destruct (kept_write n x s1 m2 j R1 Hj) as [R2 K2]; rewrite <- ?Ec; try done.
  assert (same_tables (machine s1) m2) as S by (apply (only_frame_tables c); [apply R1|apply Pa|done|done]).
  rewrite (kt_cr3 _ _ K1) in F5.
  exists v, j, (set_machine m2 s1). split_and!; try done.
  - unfold create_page_dir, bind at 1. rewrite E1. rewrite (proj2 (Z.eqb_neq v NULL)) by (unfold NULL; lia).
    unfold bind at 1, memcpy. rewrite F1. cbn [obind]. unfold bind, gets, lift. cbn [id machine set_machine].
    rewrite F2. fold (mk_entry c). rewrite F3. done.
  - split; [by exists k|done|by apply (page_at_same _ _ _ _ S)|]. by rewrite (st_table_frame _ _ S).
  - by eapply kept_trans.
  - split.
    + apply R2.
    + rewrite (kt_cr3 _ _ K2). apply (kt_cr3 _ _ K1).
    + by rewrite (st_table_frame _ _ S).
    + exists j. split_and!; [apply Hj..|done|]. apply Pf.
    + exact F5.
    + apply R2.
    + apply R2.
    + apply R2.
Qed.

(** ** Giving back a kernel page: the same through both directories *)
Section free_page.
Context (p c : Z) (st : mst) (H : two_views p c st) (Hcr : cr3 (machine st) = p).
Context (k j : Z) (Hk : 0 <= k < vsize (kernel_vaddr st)) (Hj : 0 <= j < psize (kernel_pool st)).
Context (Hkva : 0xc0000000 <= vaddr_start (kernel_vaddr st)) (Hlow : 0x102000 <= phy_addr_start (kernel_pool st)).

Let v : Z := vpage (kernel_vaddr st) k.
Let f : Z := pframe (kernel_pool st) j.
Context (Hat : page_at (view p st) v f) (Hnp : ~ table_frame (view p st) f) (Hnc : ~ table_frame (view c st) f).

Local Lemma fp_kernel : kernel_va v.
Proof. destruct Hat as (? & ? & _). unfold kernel_va, v, vpage, PG_SIZE in *. lia. Qed.

Local Lemma fp_translate : translate (view p st) v = Done f.
Proof. destruct Hat as (_ & _ & _ & Ht). specialize (Ht 0 ltac:(lia)). by rewrite !Z.add_0_r in Ht. Qed.

Lemma views_agree : agree (set_cr3 p) (set_cr3 c) p c st.
Proof. split; [by apply view_wf|]. apply (tv_kern _ _ _ H). Qed.

(** The page is unmapped for both processes and nothing else changes. *)
Lemma free_page_spec :
  exists st' s1 s2, mfree_page PF_KERNEL v 1 st = Done (tt, st') /\ two_views p c st' /\ cr3 (machine st') = p /\
    pages_freed PF_KERNEL st s1 v [j] /\ view p st' = machine s1 /\ (forall pf, pool_of pf st' = pool_of pf s1) /\
    pages_freed PF_KERNEL (set_cr3 c st) s2 v [j] /\ view c st' = machine s2 /\
    userprog_vaddr st' = userprog_vaddr st /\
    (forall i, 0 <= i -> vused (kernel_vaddr st') i = if decide (i = k) then false else vused (kernel_vaddr st) i) /\
    cur st' = cur st /\ cur_pgdir st' = cur_pgdir st.
Proof.
  destruct (view_wf _ _ _ H) as [Wp Wc].
  assert (set_cr3 p st = st) as Est by (by apply set_cr3_id).
  assert (forall x, x = p \/ x = c -> mem_wf (set_cr3 x st)) as Hx by (intros x [-> | ->]; apply H).
  assert (forall x, x = p \/ x = c -> exists s1 st', mfree_page PF_KERNEL v 1 (set_cr3 x st) = Done (tt, st') /\
    pages_freed PF_KERNEL (set_cr3 x st) s1 v [j] /\ mem_wf st' /\
    machine st' = machine s1 /\ (forall pf', pool_of pf' st' = pool_of pf' s1) /\
    (forall pf', pf' <> PF_KERNEL -> vaddr_of pf' st' = vaddr_of pf' st) /\
    (forall i, 0 <= i -> vused (kernel_vaddr st') i = if decide (i = k) then false else vused (kernel_vaddr st) i) /\
    cur st' = cur st /\ cur_pgdir st' = cur_pgdir st) as Hfree.
  { intros x Hxx.
    destruct (mfree_page_spec PF_KERNEL k PF_KERNEL [j] (set_cr3 x st)) as (s1 & st' & E & Pf & Hwf & Em & Ep & Ev & _ & _ & Eu & Ecu).
    - by apply Hx.
    - lia.
    - change (k + 1 <= vsize (kernel_vaddr st)). lia.
    - intros [|n] i Hi; [|done]. injection Hi as <-. split; [done|].
      change (translate (view x st) (vpage (kernel_vaddr st) (k + 0)) = Done f /\ ~ table_frame (view x st) f).
      rewrite Z.add_0_r. destruct Hxx as [-> | ->]; (split; [|done]); [apply fp_translate|].
      rewrite (view_kernel _ _ _ _ H) by apply fp_kernel. apply fp_translate.
    - done.
    - done.
    - exists s1, st'. split_and!; try done; try apply Ecu. intros i Hi. pose proof (Eu i Hi) as Ei. cbn [vaddr_of] in Ei. rewrite Ei.
      change (Z.of_nat (length [j])) with 1. repeat case_decide; try lia; done. }
  destruct (Hfree p ltac:(by left)) as (s1 & st' & E & Pf & Hwf & Em & Ep & Ev & Eu & Ecu).
  destruct (Hfree c ltac:(by right)) as (s2 & stc & Ec & Pfc & Hwfc & Emc & _).
  destruct (both_mfree (set_cr3 p) (set_cr3 c) p c v 1 st views_agree) with (a := tt) (s1 := st') as (s' & -> & Ec' & _);
    [pose proof fp_kernel; unfold kernel_va, PG_SIZE in *; lia|lia|destruct Hat as (_ & ? & _); unfold PG_SIZE; lia|exact E|]. rewrite Ec' in Ec. injection Ec as <-.
  rewrite Est in E, Pf.
  exists (set_cr3 p s'), s1, s2. split_and!; try done.
  - assert (forall g, table_frame (view p s') g <-> table_frame (view p st) g) as Ht.
    { intros g. change (view p s') with (machine (set_cr3 p s')). rewrite Em, (pf_tables _ _ _ _ _ Pf).
      unfold view. by rewrite with_cr3_id. }
    destruct (pf_pool _ _ _ _ _ Pf PF_KERNEL) as (K1 & K2 & _). destruct (pf_pool _ _ _ _ _ Pf PF_USER) as (U1 & U2 & _).
    pose proof (Ep PF_KERNEL) as EK. pose proof (Ep PF_USER) as EU. cbn [pool_of] in *.
    change (kernel_pool (set_cr3 p s')) with (kernel_pool s') in EK. change (user_pool (set_cr3 p s')) with (user_pool s') in EU.
    assert (forall i, pframe (kernel_pool s') i = pframe (kernel_pool st) i) as Kf by (intros; unfold pframe; congruence).
    assert (forall i, pframe (user_pool s') i = pframe (user_pool st) i) as Uf by (intros; unfold pframe; congruence).
    assert (forall d, 0 <= d < 1024 -> rd_ram (machine s') (c + d * 4) = rd_ram (machine st) (c + d * 4)) as Wcw.
    { intros d Hd. change (rd_ram (view p s') (c + d * 4) = rd_ram (machine st) (c + d * 4)).
      change (view p s') with (machine (set_cr3 p s')). rewrite Em. apply (pf_data _ _ _ _ _ Pf); [apply Wc| |done].
      intros Htc. apply (tv_sep _ _ _ H). unfold view. by rewrite with_cr3_id. }
    apply two_views_cr3. split.
    + done.
    + done.
    + destruct (tv_dir _ _ _ H) as (i & Hi & E'). exists i. rewrite EK, K2, <- EK, Kf. done.
    + rewrite Ht. apply H.
    + intros d Hd. rewrite Wcw by lia. rewrite (tv_kern _ _ _ H) by done. symmetry.
      destruct (mk_va_fields d 0 0) as (Hu & Hi & _); [lia..|].
      pose proof (pf_dir _ _ _ _ _ Pf _ Hu) as Ed. rewrite <- Em in Ed. unfold pde_of in Ed.
      rewrite Hi, Hcr in Ed. exact Ed.
    + intros d Hd. rewrite Wcw by lia. intros Hp. destruct (tv_own _ _ _ H d Hd Hp) as (Hn & i & Hi & E').
      rewrite Ht. split; [done|]. exists i. rewrite EK, K2, <- EK, Kf. done.
    + intros i Hi. rewrite EU, U2 in Hi. rewrite Ht, Uf. by apply H.
  - exact (Ev PF_USER ltac:(done)).
  - apply Ecu.
  - apply Ecu.
Qed.
End free_page.
