(* ===== verification/Forkmem.v ===== *)
(** * Forkmem: what [fork] does to memory ([userprog/fork.c])

    The allocations of [sys_fork] in their order: the child's PCB, the transfer
    buffer, the child's bitmap, its page directory, the copies of the parent's
    pages, and the release of the buffer. *)

From stdpp Require Import base numbers list gmap.
From S2P Require Import Prelude.
From S2P Require Import Bitmap.
From S2P Require Import Paging.
From S2P Require Import Seqlock.
From S2P Require Import Memory.
From S2P Require Import Kpages.
From S2P Require Import Procmem.
From S2P Require Import Addrspace.

Local Open Scope Z_scope.
Local Open Scope kernel_scope.

(** What the parent must have: room in the kernel for [n] pages, a frame for
    each of its pages and for a table each, its pages in the user pool, and its
    directory mapped where [pgdir] says. *)
Record fork_room (n : Z) (st : mst) : Prop := {
  fo_room : kernel_room n (pages_from (userprog_vaddr st) 0) st;
  fo_ufree : (pages_from (userprog_vaddr st) 0 <= ufree st)%nat;
  fo_back : all_backed (machine st) st;
  fo_pgdir : kernel_va (cur_pgdir st) /\ translate (machine st) (cur_pgdir st) = Done (cr3 (machine st));
  fo_low : 0x102000 <= phy_addr_start (kernel_pool st)
}.

(** What it has afterwards, and what the child has.  [c] is the frame of the
    child's directory and [d] its kernel address. *)
Record child_space (c d : Z) (st st' : mst) : Prop := {
  cs_views : two_views (cr3 (machine st)) c st';
  cs_cr3 : cr3 (machine st') = cr3 (machine st);
  cs_uva : userprog_vaddr st' = userprog_vaddr st;
  cs_cur : cur st' = cur st /\ cur_pgdir st' = cur_pgdir st;
  (** the parent's pages are where they were, with what they held *)
  cs_parent : forall k o, 0 <= k < vsize (userprog_vaddr st) -> 0 <= o < 4096 ->
    translate (machine st') (vpage (userprog_vaddr st) k + o) = translate (machine st) (vpage (userprog_vaddr st) k + o);
  cs_words : forall j w, 0 <= j < psize (user_pool st) -> pused (user_pool st) j = true -> 0 <= w < 1024 ->
    rd_ram (machine st') (pframe (user_pool st) j + w * 4) = rd_ram (machine st) (pframe (user_pool st) j + w * 4);
  (** each has a copy in the child, in a frame that was free *)
  cs_child : forall k, 0 <= k < vsize (userprog_vaddr st) -> vused (userprog_vaddr st) k = true ->
    child_page (cr3 (machine st)) c st st' k;
  (** and the child has no other page *)
  cs_none : forall k, 0 <= k < vsize (userprog_vaddr st) -> vused (userprog_vaddr st) k = false ->
    unmapped (view c st') (vpage (userprog_vaddr st) k);
  (** activating the child's directory loads [c] *)
  cs_dir : kernel_va d /\ translate (machine st') d = Done c
}.

(** A page allocated at [s] stays where it is, and is never a table. *)
Lemma kernel_page_kept st s1 s2 v j :
  kernel_page st s1 v j -> kept st s1 -> kept s1 s2 -> mem_wf s1 ->
  page_at (machine s2) v (pframe (kernel_pool st) j) /\ ~ table_frame (machine s2) (pframe (kernel_pool st) j) /\
  pused (kernel_pool s2) j = true.
Proof.
  intros [_ (Hj & _ & Hu) (A & B & C & D) Hn] K1 K2 Hwf. pose proof (kt_kpool _ _ K1) as G1.
  split; [split; [done|split; [done|split; [done|]]]|split].
  - intros o Ho. apply (kt_kept _ _ K2); [unfold low_va; lia|by apply D].
  - intros [Ht|(i & Hi & E & Hi2)]%(kt_tables _ _ K2); [done|].
    rewrite <- (pool_grow_pframe _ _ _ G1) in E.
    destruct (pframe_inj s1 PF_KERNEL PF_KERNEL j i Hwf) as [_ <-]; [by cbn; rewrite (pg_psize _ _ G1)|done|done|]. congruence.
  - apply (pg_used _ _ (kt_kpool _ _ K2)); [lia|done].
Qed.

(** The state in which the pages are copied. *)
Record fork_prepared (st s : mst) (buf d jb : Z) (c : Z) : Prop := {
  fp_forking : forking (cr3 (machine st)) c (cur_pgdir st) d buf jb s;
  fp_kept : kept st s;
  fp_empty : forall k, 0 <= k < vsize (userprog_vaddr s) -> unmapped (view c s) (vpage (userprog_vaddr s) k);
  fp_kfree : (pages_from (userprog_vaddr st) 0 <= kfree s)%nat;
  fp_buf : exists k, 0 <= k < vsize (kernel_vaddr s) /\ buf = vpage (kernel_vaddr s) k;
  fp_dir : exists k, 0 <= k < vsize (kernel_vaddr s) /\ d = vpage (kernel_vaddr s) k;
  fp_kva : 0xc0000000 <= vaddr_start (kernel_vaddr s)
}.

Lemma fork_setup cnt st :
  fork_room (1 + (1 + (cnt + (1 + 0)))) st -> 0 < cnt < 3840 ->
  exists t buf btmp d s1 s2 s3 s4 jb c,
    get_kernel_pages 1 st = Done (t, s1) /\ get_kernel_pages 1 s1 = Done (buf, s2) /\
    get_kernel_pages cnt s2 = Done (btmp, s3) /\ create_page_dir s3 = Done (d, s4) /\
    (exists k, 0 <= k < vsize (kernel_vaddr st) /\ vused (kernel_vaddr st) k = false /\ t = vpage (kernel_vaddr st) k) /\
    0xc0000000 <= t /\ 0xc0000000 <= buf /\ 0xc0000000 <= btmp /\ 0xc0000000 <= d /\
    userprog_vaddr s2 = userprog_vaddr st /\ fork_prepared st s4 buf d jb c.
Proof.
  intros [R Hu Hb [Hpd Htp] Hlow] Hc.
  destruct (room_page _ _ st R ltac:(lia)) as (t & jt & s1 & E1 & [(kt & Hkt & Et & Hktu & _) _ _ _] & Ht & R1 & K1 & _).
  destruct (room_page _ _ s1 R1 ltac:(lia)) as (buf & jb & s2 & E2 & P2 & Hbuf & R2 & K2 & _).
  destruct (room_alloc cnt _ _ s2 R2 Hc ltac:(lia)) as (r & ids & s3 & E3 & Hr & Hrc & _ & _ & R3 & K3).
  destruct (create_page_dir_spec _ _ s3 R3 ltac:(lia)) as (d & jd & s4 & E4 & P4 & Hd & R4 & K4 & N4).
  pose proof (kr_kva _ _ _ R2) as Hkva2.
  assert (kept st s2) as K02 by (by eapply kept_trans). assert (kept s2 s4) as K24 by (by eapply kept_trans).
  assert (kept st s4) as K04 by (by eapply kept_trans). assert (kept s1 s4) as K14 by (by eapply kept_trans).
  assert (cr3 (machine s3) = cr3 (machine st)) as Ecr by (by rewrite (kt_cr3 _ _ K3), (kt_cr3 _ _ K02)).
  rewrite Ecr in N4. set (p := cr3 (machine st)) in *. set (c := pframe (kernel_pool s3) jd) in *.
  assert (view p s4 = machine s4) as Em by (apply with_cr3_id, N4).
  destruct (kernel_page_kept s1 s2 s4 buf jb P2 K2 K24 (kr_wf _ _ _ R2)) as (Ba & Bn & Bu).
  assert (pframe (kernel_pool s4) jb = pframe (kernel_pool s1) jb) as Epf by (apply pool_grow_pframe, K14).
  destruct P2 as [(kb & Hkb & Eb & _) (Hjb & _ & Hjb2) _ _].
  exists t, buf, (vpage (kernel_vaddr s2) r), d, s1, s2, s3, s4, jb, c. split_and!; try done.
  { exists kt. done. }
  { unfold vpage, PG_SIZE. lia. }
  { apply K02. }
  destruct P4 as [(kd & Hkd & Ed & _) (Hjd & Hjdu & _) Da _]. fold c in Da.
  split.
  - fold p. split.
    + by apply new_space_views.
    + apply N4.
    + apply R4.
    + exact (kr_lock _ _ _ R4 PF_USER).
    + split; [done|]. rewrite Em. apply (kt_kept _ _ K04); [auto|done].
    + destruct Da as (? & ? & _ & Da). specialize (Da 0 ltac:(lia)). rewrite !Z.add_0_r in Da.
      split; [unfold kernel_va; lia|by rewrite Em].
    + by rewrite (pg_psize _ _ (kt_kpool _ _ K14)).
    + split; [done|]. by rewrite Em, Epf.
    + rewrite Em, Epf. split; [done|]. intros [E|Ht']%(ns_tables p c s4 N4); [|done].
      pose proof (kt_kpool _ _ K2) as G2. pose proof (kt_kpool _ _ K3) as G3. pose proof (pool_grow_trans _ _ _ G2 G3) as G13.
      unfold c in E. rewrite <- (pool_grow_pframe _ _ _ G13) in E.
      destruct (pframe_inj s3 PF_KERNEL PF_KERNEL jb jd (kr_wf _ _ _ R3)) as [_ ->];
        [by cbn; rewrite (pg_psize _ _ G13)|done|done|].
      rewrite (pg_used _ _ G3) in Hjdu; [done|lia|done].
    + apply R4.
  - done.
  - by apply new_space_empty with p.
  - pose proof (kr_frames _ _ _ R4). lia.
  - exists kb. destruct (kt_kva _ _ K14) as (V1 & V2 & _). rewrite V2. split; [done|]. rewrite Eb. unfold vpage. by rewrite V1.
  - exists kd. destruct (kt_kva _ _ K4) as (V1 & V2 & _). rewrite V2. split; [done|]. rewrite Ed. unfold vpage. by rewrite V1.
  - apply R4.
Qed.

Lemma all_backed_kept st s : all_backed (machine st) st -> kept st s -> all_backed (machine s) s.
Proof.
  intros Hb K k. rewrite (kt_uva _ _ K), (kt_upool _ _ K). intros Hk Hu. destruct (Hb k Hk Hu) as (i & Hi & A & B & C & D).
  exists i. split; [done|]. split; [done|split; [done|split; [done|]]]. intros o Ho. rewrite (kt_user _ _ K) by done. by apply D.
Qed.

(** The copies, seen from the state before the call. *)
Lemma child_page_kept_from st s s' c k :
  kept st s -> all_backed (machine st) st -> 0 <= k < vsize (userprog_vaddr st) -> vused (userprog_vaddr st) k = true ->
  child_page (cr3 (machine st)) c s s' k -> child_page (cr3 (machine st)) c st s' k.
Proof.
  intros K Hb Hk Hu (i & Hi & Hf & Ht & Hat & Hw). rewrite (kt_uva _ _ K), (kt_upool _ _ K) in *.
  exists i. split_and!; try done; try lia.
  intros f w Hat0 Hwr.
  assert (view (cr3 (machine st)) st = machine st) as Em by (by apply with_cr3_id). rewrite Em in Hat0.
  destruct (Hb k Hk Hu) as (i0 & Hi0 & Hat1). rewrite (page_at_inj _ _ _ _ Hat0 Hat1).
  rewrite (Hw (pframe (user_pool st) i0)); [|unfold view; rewrite with_cr3_id by apply K|done].
  - by rewrite (kt_words _ _ K).
  - destruct Hat1 as (A & B & C & D). split; [done|split; [done|split; [done|]]]. intros o Ho.
    rewrite (kt_user _ _ K) by done. by apply D.
Qed.

(** Releasing the buffer. *)
Lemma fork_release st s buf d jb c s5 :
  fork_prepared st s buf d jb c -> all_backed (machine st) st ->
  0x102000 <= phy_addr_start (kernel_pool st) ->
  forking (cr3 (machine st)) c (cur_pgdir st) d buf jb s5 ->
  copied_upto (cr3 (machine st)) c s s5 (vsize (userprog_vaddr s)) ->
  exists s6, mfree_page PF_KERNEL buf 1 s5 = Done (tt, s6) /\ child_space c d st s6.
Proof.
  intros [F K _ _ (kb & Hkb & Eb) (kd & Hkd & Ed) Hkva] Hback Hlow F5 C. set (p := cr3 (machine st)) in *.
  pose proof (fk_views _ _ _ _ _ _ _ F5) as H5. pose proof (fk_cr3 _ _ _ _ _ _ _ F5) as Hcr5.
  destruct C as [C1 C2 C3 C4 C5 C6 C7 C8 C9].
  pose proof (C3 PF_KERNEL) as Vk. pose proof (C3 PF_USER) as Vu. cbn [vaddr_of] in Vk, Vu.
  pose proof (C2 PF_KERNEL) as Gk. pose proof (C2 PF_USER) as Gu. cbn [pool_of] in Gk, Gu.
  destruct (fk_buf _ _ _ _ _ _ _ F5) as [_ Bat]. destruct (fk_nbuf _ _ _ _ _ _ _ F5) as [Bnp Bnc].
  pose proof (kt_uva _ _ K) as Eu. pose proof (kt_upool _ _ K) as Eup.
  assert (buf = vpage (kernel_vaddr s5) kb) as Eb5 by (by rewrite Vk).
  destruct (free_page_spec p c s5 H5 Hcr5 kb jb) as (s6 & t1 & t2 & E6 & H6 & Hcr6 & Pf1 & Em1 & Ep1 & Pf2 & Em2 & Eu6 & _ & Ecu6).
  { by rewrite Vk. } { apply F5. } { by rewrite Vk. }
  { by rewrite (pg_start _ _ Gk), (pg_start _ _ (kt_kpool _ _ K)). }
  { by rewrite <- Eb5. } { done. } { done. }
  rewrite <- Eb5 in *. exists s6. split; [done|].
  assert (view p s5 = machine s5) as Ev5 by (by apply with_cr3_id).
  assert (forall k o, 0 <= k < vsize (userprog_vaddr st) -> 0 <= o < 4096 ->
    managed s5 (vpage (userprog_vaddr st) k + o) /\
    ~ (buf <= vpage (userprog_vaddr st) k + o < buf + Z.of_nat (length [jb]) * PG_SIZE)) as Hman.
  { intros k o Hk Ho. split.
    - exists PF_USER, k. cbn [vaddr_of]. rewrite Vu, Eu. split; [done|]. unfold PG_SIZE. lia.
    - pose proof (fk_user _ _ _ _ _ _ _ F5) as Hus. rewrite Vu, Eu in Hus. destruct (fk_buf _ _ _ _ _ _ _ F5) as [Hb5 _].
      unfold vpage, PG_SIZE in *. cbn [length]. lia. }
  assert (forall j w, 0 <= j < psize (user_pool st) -> 0 <= w < 1024 ->
    rd_ram (machine s6) (pframe (user_pool st) j + w * 4) = rd_ram (machine s5) (pframe (user_pool st) j + w * 4)) as Hdat.
  { intros j w Hj Hw. change (rd_ram (view p s6) (pframe (user_pool st) j + w * 4) = rd_ram (machine s5) (pframe (user_pool st) j + w * 4)).
    rewrite Em1. rewrite <- Eup, <- (pool_grow_pframe _ _ _ Gu) in *. rewrite <- (pg_psize _ _ Gu) in Hj. apply (pf_data _ _ _ _ _ Pf1); [| |done].
    - apply pframe_aligned; [exact (mw_pool _ (tv_par _ _ _ H5) PF_USER)|done].
    - rewrite <- Ev5. by apply (tv_user _ _ _ H5). }
  assert (forall j w, 0 <= j < psize (user_pool st) -> pused (user_pool st) j = true -> 0 <= w < 1024 ->
    rd_ram (machine s6) (pframe (user_pool st) j + w * 4) = rd_ram (machine st) (pframe (user_pool st) j + w * 4)) as Hpar.
  { intros j w Hj Hju Hw. rewrite Hdat by done. rewrite <- (kt_words _ _ K) by done. rewrite <- Eup in *. by apply C7. }
  split.
  - done.
  - done.
  - by rewrite Eu6, Vu, Eu.
  - destruct Ecu6 as [-> ->], C4 as [-> ->]. apply (kt_cur _ _ K).
  - intros k o Hk Ho. destruct (Hman k o Hk Ho) as [M1 M2].
    assert (view p s6 = machine s6) as Ev6 by (by apply with_cr3_id).
    rewrite <- Ev6, Em1, (pf_others _ _ _ _ _ Pf1) by done. rewrite <- (kt_user _ _ K) by done.
    rewrite <- Ev5, (st_translate _ _ C1); [unfold view; by rewrite with_cr3_id by apply K|].
    apply (managed_low s5); [|done]. rewrite <- (set_cr3_id p s5) by done. apply H5.
  - done.
  - intros k Hk Hku. apply (child_page_kept_from st s); try done.
    destruct (C5 k) as (i & Hi & Hif & Hit & (A & B & C & D) & Hw); [rewrite Eu; lia|by rewrite Eu|].
    exists i. rewrite Eup in Hi, Hif, C, D, Hw. rewrite Eu in A, B, D, Hw. rewrite Eup, Eu.
    split; [exact Hi|]. split; [done|]. split; [|split].
    + change (pused (pool_of PF_USER s6) i = true). rewrite Ep1, (pf_used _ _ _ _ _ Pf1), decide_False by (lia || by intros []). done.
    + split; [done|split; [done|split; [done|]]]. intros o Ho. destruct (Hman k o Hk Ho) as [M1 M2].
      rewrite Em2, (pf_others _ _ _ _ _ Pf2) by done. by apply D.
    + intros f w Hf Hw'. rewrite Hdat by done. by apply Hw.
  - intros k Hk Hku. apply (mw_unmapped _ (tv_chi _ _ _ H6) PF_USER k).
    + change (0 <= k < vsize (userprog_vaddr s6)). by rewrite Eu6, Vu, Eu.
    + change (vused (userprog_vaddr s6) k = false). by rewrite Eu6, Vu, Eu.
    + change (vpage (userprog_vaddr s6) k <= vpage (userprog_vaddr st) k < vpage (userprog_vaddr s6) k + PG_SIZE).
      rewrite Eu6, Vu, Eu. unfold PG_SIZE. lia.
  - destruct (fk_cd _ _ _ _ _ _ _ F5) as [Hkd5 Ht5]. split; [done|]. rewrite Ev5 in Ht5.
    assert (view p s6 = machine s6) as Ev6 by (by apply with_cr3_id).
    rewrite <- Ev6, Em1, (pf_others _ _ _ _ _ Pf1); [done| |].
    + exists PF_KERNEL, kd. cbn [vaddr_of]. rewrite Vk, Ed. split; [done|]. unfold PG_SIZE. lia.
    + cbn [length]. intros Hr. assert (d = buf) as Edb.
      { rewrite Ed, Eb in *. unfold vpage, PG_SIZE in *. lia. }
      destruct Bat as (_ & _ & _ & Bat). specialize (Bat 0 ltac:(lia)). rewrite !Z.add_0_r, Ev5 in Bat.
      rewrite Edb, Bat in Ht5. injection Ht5 as E. apply Bnc. left. exact E.
Qed.

(** The whole sequence. *)
Lemma fork_memory cnt st :
  fork_room (1 + (1 + (cnt + (1 + 0)))) st -> 0 < cnt < 3840 ->
  exists t buf btmp d s1 s2 s3 s4 s5 s6 c,
    get_kernel_pages 1 st = Done (t, s1) /\ get_kernel_pages 1 s1 = Done (buf, s2) /\
    get_kernel_pages cnt s2 = Done (btmp, s3) /\ create_page_dir s3 = Done (d, s4) /\
    copy_body_stack3 d buf s4 = Done (tt, s5) /\ mfree_page PF_KERNEL buf 1 s5 = Done (tt, s6) /\
    (exists k, 0 <= k < vsize (kernel_vaddr st) /\ vused (kernel_vaddr st) k = false /\ t = vpage (kernel_vaddr st) k) /\
    0xc0000000 <= t /\ 0xc0000000 <= buf /\ 0xc0000000 <= btmp /\ 0xc0000000 <= d /\
    userprog_vaddr s2 = userprog_vaddr st /\ child_space c d st s6.
Proof.
  intros R Hc. destruct (fork_setup cnt st R Hc)
    as (t & buf & btmp & d & s1 & s2 & s3 & s4 & jb & c & E1 & E2 & E3 & E4 & Ht & H1 & H2 & H3 & H4 & Eu2 & P).
  pose proof P as [F K Hem Hkf _ _ _]. destruct R as [R Hu Hb _ Hlow].
  pose proof (kt_uva _ _ K) as Eu. pose proof (kt_upool _ _ K) as Eup. destruct (kt_cur _ _ K) as [_ Epd].
  rewrite <- Epd in F.
  destruct (copy_body_stack3_spec (cr3 (machine st)) c d buf jb s4) as (s5 & E5 & F5 & C5); try done.
  { unfold view. rewrite with_cr3_id by apply K. by apply (all_backed_kept st). }
  { unfold ufree in *. by rewrite Eu, Eup. }
  { by rewrite Eu. }
  rewrite Epd in F5.
  destruct (fork_release st s4 buf d jb c s5 P Hb Hlow F5 C5) as (s6 & E6 & CS).
  exists t, buf, btmp, d, s1, s2, s3, s4, s5, s6, c. done.
Qed.

(** ** A process with one page

    Its directory at 0x100000 has the kernel's table at 768, in which
    0xc0100000 maps the directory itself, and a table of its own at 32, in the
    kernel pool's first frame, which maps the first page of the program to the
    user pool's first frame. *)
Definition ex_fork_mmu : mmu := mk_mmu 0x100000
  (<[0x100ffc := 0x100007]> (<[0x100c00 := 0x101007]> (<[0x101400 := 0x100007]>
    (<[0x100080 := 0x200007]> (<[0x200120 := 0x300007]> ∅))))).

Definition first_used (len : Z) (n : nat) : bitmap := mk_bitmap len (1 :: replicate n 0).

Definition ex_fork_mst : mst :=
  mk_mst ex_fork_mmu (mk_pool (first_used 16 15) 0x200000 0x80000 slock_init)
    (mk_pool (first_used 1 1) 0x300000 0x8000 slock_init) (mk_vaddr (first_used 8 8) K_HEAP_START) 0xc009e000 0xc0100000
    (mk_vaddr (first_used 94199 (Z.to_nat 94207)) USER_VADDR_START).

Lemma first_used_used len n i : 0 <= i -> used (first_used len n) i = (i =? 0).
Proof.
  intros Hi. unfold used, first_used, arr_get. cbn [bits].
  rewrite decide_True by (apply Z.div_pos; lia). pose proof (Z.mod_pos_bound i 8).
  destruct (decide (i < 8)).
  - rewrite Z.div_small, Z.mod_small by lia. cbn [Z.to_nat lookup list_lookup default].
    assert (i = 0 \/ i = 1 \/ i = 2 \/ i = 3 \/ i = 4 \/ i = 5 \/ i = 6 \/ i = 7) as Hc by lia.
    repeat destruct Hc as [->|Hc]; done.
  - assert (1 <= i / 8) by (apply Z.div_le_lower_bound; lia).
    destruct (Z.to_nat (i / 8)) as [|m] eqn:E; [lia|]. cbn [lookup list_lookup].
    rewrite (proj2 (Z.eqb_neq i 0)) by lia.
    destruct (replicate n 0 !! m) as [y|] eqn:Ey.
    + apply lookup_replicate in Ey as [-> _]. cbn. apply Z.testbit_0_l.
    + apply Z.testbit_0_l.
Qed.

Lemma first_used_wf len n : 0 <= len <= Z.of_nat n + 1 -> len < 2 ^ 27 -> bitmap_wf (first_used len n).
Proof.
  intros Hl Hs. split; cbn [btmp_bytes_len bits first_used]; [|apply Forall_cons; split; [unfold is_u8; lia|]|done].
  - cbn [length]. rewrite length_replicate. lia.
  - apply Forall_replicate. unfold is_u8. lia.
Qed.

Lemma ex_fork_dir d : 0 <= d < 1023 ->
  rd_ram ex_fork_mmu (0x100000 + d * 4) = if d =? 32 then 0x200007 else if d =? 768 then 0x101007 else 0.
Proof.
  intros Hd. apply Z.eqb_eq. revert d Hd.
  refine (forallZ_spec 1023 (fun d => rd_ram ex_fork_mmu (0x100000 + d * 4) =?
            if d =? 32 then 0x200007 else if d =? 768 then 0x101007 else 0) _). by vm_compute.
Qed.
Lemma ex_fork_kernel t : 0 <= t < 1024 -> rd_ram ex_fork_mmu (0x101000 + t * 4) = if t =? 256 then 0x100007 else 0.
Proof.
  intros Ht. apply Z.eqb_eq. revert t Ht.
  refine (forallZ_spec 1024 (fun t => rd_ram ex_fork_mmu (0x101000 + t * 4) =? if t =? 256 then 0x100007 else 0) _). by vm_compute.
Qed.
Lemma ex_fork_user t : 0 <= t < 1024 -> rd_ram ex_fork_mmu (0x200000 + t * 4) = if t =? 72 then 0x300007 else 0.
Proof.
  intros Ht. apply Z.eqb_eq. revert t Ht.
  refine (forallZ_spec 1024 (fun t => rd_ram ex_fork_mmu (0x200000 + t * 4) =? if t =? 72 then 0x300007 else 0) _). by vm_compute.
Qed.

Lemma ex_fork_pde va : low_va va ->
  pde_of ex_fork_mmu va = if PDE_IDX va =? 32 then 0x200007 else if PDE_IDX va =? 768 then 0x101007 else 0.
Proof. intros Hl. unfold pde_of. change (cr3 ex_fork_mmu) with 0x100000. by apply ex_fork_dir, low_va_idx. Qed.

Lemma va_page va : is_u32 va -> va / 4096 = PDE_IDX va * 1024 + PTE_IDX va.
Proof.
  intros Hu. rewrite PDE_IDX_eq, PTE_IDX_eq by done. pose proof (Z.div_mod (va / 4096) 1024).
  rewrite Z.div_div in * by lia. change (4096 * 1024) with 4194304 in *. lia.
Qed.

Lemma ex_fork_translate va : low_va va ->
  translate ex_fork_mmu va = if va / 4096 =? 0xc0100 then Done (0x100000 + va mod 4096)
    else if va / 4096 =? 0x8048 then Done (0x300000 + va mod 4096) else Halt Page_fault.
Proof.
  intros Hl. assert (is_u32 va) as Hu by auto. pose proof (va_page va Hu) as Ep.
  pose proof (PTE_IDX_range va). pose proof (low_va_idx va Hl). unfold translate, pte_loc.
  rewrite ex_fork_pde by done. destruct (PDE_IDX va =? 32) eqn:E32; [apply Z.eqb_eq in E32|apply Z.eqb_neq in E32].
  - change (present 0x200007) with true. change (frame 0x200007) with 0x200000. cbn iota. rewrite ex_fork_user by done.
    rewrite (proj2 (Z.eqb_neq (va / 4096) 0xc0100)) by lia.
    destruct (PTE_IDX va =? 72) eqn:E72; [apply Z.eqb_eq in E72|apply Z.eqb_neq in E72].
    + rewrite (proj2 (Z.eqb_eq (va / 4096) 0x8048)) by lia. change (present 0x300007) with true. cbn iota.
      change (frame 0x300007) with 0x300000. by rewrite land_low.
    + by rewrite (proj2 (Z.eqb_neq (va / 4096) 0x8048)) by lia.
  - destruct (PDE_IDX va =? 768) eqn:E768; [apply Z.eqb_eq in E768|apply Z.eqb_neq in E768].
    + change (present 0x101007) with true. change (frame 0x101007) with 0x101000. cbn iota. rewrite ex_fork_kernel by done.
      destruct (PTE_IDX va =? 256) eqn:E256; [apply Z.eqb_eq in E256|apply Z.eqb_neq in E256].
      * rewrite (proj2 (Z.eqb_eq (va / 4096) 0xc0100)) by lia. change (present 0x100007) with true. cbn iota.
        change (frame 0x100007) with 0x100000. by rewrite land_low.
      * by rewrite (proj2 (Z.eqb_neq (va / 4096) 0xc0100)), (proj2 (Z.eqb_neq (va / 4096) 0x8048)) by lia.
    + change (present 0) with false. by rewrite (proj2 (Z.eqb_neq (va / 4096) 0xc0100)), (proj2 (Z.eqb_neq (va / 4096) 0x8048)) by lia.
Qed.

Lemma ex_fork_tables g : table_frame ex_fork_mmu g -> g = 0x100000 \/ g = 0x101000 \/ g = 0x200000.
Proof.
  intros [->|(d & Hd & Hp & <-)]; [by left|]. change (cr3 ex_fork_mmu) with 0x100000 in *. rewrite ex_fork_dir in * by done.
  destruct (d =? 32); [by right; right|]. destruct (d =? 768); [by right; left|done].
Qed.

Lemma ex_fork_mapped va pa : low_va va -> translate ex_fork_mmu va = Done pa ->
  (va / 4096 = 0xc0100 /\ frame pa = 0x100000) \/ (va / 4096 = 0x8048 /\ frame pa = 0x300000).
Proof.
  intros Hl. rewrite ex_fork_translate by done. pose proof (Z.mod_pos_bound va 4096).
  destruct (va / 4096 =? 0xc0100) eqn:E1; [apply Z.eqb_eq in E1|].
  - intros [= <-]. left. split; [done|]. apply frame_page; [done|lia].
  - destruct (va / 4096 =? 0x8048) eqn:E2; [apply Z.eqb_eq in E2|done].
    intros [= <-]. right. split; [done|]. apply frame_page; [done|lia].
Qed.

(** The managed pages, by number: the kernel's and the process's. *)
Lemma ex_fork_page pf i va : 0 <= i < vsize (vaddr_of pf ex_fork_mst) ->
  vpage (vaddr_of pf ex_fork_mst) i <= va < vpage (vaddr_of pf ex_fork_mst) i + PG_SIZE ->
  low_va va /\ va / 4096 = (match pf with PF_KERNEL => 0xc0100 | PF_USER => 0x8048 end) + i.
Proof.
  intros Hi Hr.
  assert (vaddr_start (vaddr_of pf ex_fork_mst) = (match pf with PF_KERNEL => 0xc0100 | PF_USER => 0x8048 end) * 4096 /\
    vsize (vaddr_of pf ex_fork_mst) = match pf with PF_KERNEL => 64 | PF_USER => 753592 end) as [E1 E2] by (by destruct pf).
  unfold vpage, PG_SIZE in Hr. rewrite E1 in Hr. rewrite E2 in Hi. split.
  - unfold low_va. destruct pf; lia.
  - symmetry. apply Z.div_unique with (va - ((match pf with PF_KERNEL => 0xc0100 | PF_USER => 0x8048 end) + i) * 4096); lia.
Qed.

Lemma ex_fork_wf : mem_wf ex_fork_mst.
Proof.
  assert (forall pf i, 0 <= i < psize (pool_of pf ex_fork_mst) ->
    pframe (pool_of pf ex_fork_mst) i = (match pf with PF_KERNEL => 0x200000 | PF_USER => 0x300000 end) + i * 4096 /\
    i < 128 /\ pused (pool_of pf ex_fork_mst) i = (i =? 0)) as Hp.
  { intros pf i Hi. split; [by destruct pf|]. split; [|destruct pf; apply first_used_used; lia].
    assert (psize (pool_of pf ex_fork_mst) <= 128) by (destruct pf; by vm_compute). lia. }
  split; cbn [machine ex_fork_mst].
  - split; [by repeat split|]. intros d Hd Hpr. change (cr3 ex_fork_mmu) with 0x100000 in *.
    rewrite ex_fork_dir in * by done. destruct (d =? 32); [done|]. by destruct (d =? 768).
  - intros pf. split; [destruct pf; apply first_used_wf; lia|by destruct pf|].
    destruct pf; vm_compute; intuition congruence.
  - vm_compute. congruence.
  - intros pf. split; [destruct pf; apply first_used_wf; lia|by destruct pf| |].
    + destruct pf; vm_compute; intuition congruence.
    + destruct pf; vm_compute; intuition congruence.
  - vm_compute. congruence.
  - intros pf i Hi Ht. destruct (Hp pf i Hi) as (E & Hlt & ->). apply ex_fork_tables in Ht. rewrite E in Ht.
    apply Z.eqb_eq. destruct pf; lia.
  - intros pf i va pa Hi Hl Ht Hf. destruct (Hp pf i Hi) as (E & Hlt & ->). rewrite E in Hf. apply Z.eqb_eq.
    destruct (ex_fork_mapped va pa Hl Ht) as [[_ E2]|[_ E2]]; destruct pf; lia.
  - intros pf i va1 va2 pa1 pa2 Hi L1 L2 T1 T2 F1 F2. destruct (Hp pf i Hi) as (E & Hlt & _). rewrite E in F1, F2.
    destruct (ex_fork_mapped va1 pa1 L1 T1) as [[P1 E1]|[P1 E1]]; [destruct pf; lia|].
    destruct (ex_fork_mapped va2 pa2 L2 T2) as [[P2 E2]|[P2 E2]]; [destruct pf; lia|].
    destruct (same_page_entry ex_fork_mmu va2 va1) as [S1 S2]; [auto|auto|congruence|].
    split; [by eapply translate_present|done].
  - intros pf i va Hi Hu Hr. destruct (ex_fork_page pf i va Hi Hr) as [Hl Ev].
    assert (i <> 0) as Hne.
    { intros ->. destruct pf; unfold vused in Hu; cbn [vaddr_of ex_fork_mst kernel_vaddr userprog_vaddr vaddr_bitmap] in Hu;
        rewrite first_used_used in Hu by lia; done. }
    unfold unmapped. rewrite ex_fork_translate by done.
    assert (vsize (vaddr_of pf ex_fork_mst) <= 753592) by (destruct pf; by vm_compute).
    rewrite (proj2 (Z.eqb_neq (va / 4096) 0xc0100)), (proj2 (Z.eqb_neq (va / 4096) 0x8048)); [done|destruct pf; lia..].
  - intros va1 va2 (pf1 & i1 & Hi1 & Hr1) (pf2 & i2 & Hi2 & Hr2) [P1 L1] [P2 _].
    destruct (ex_fork_page pf1 i1 va1 Hi1 Hr1) as [Hl1 _]. destruct (ex_fork_page pf2 i2 va2 Hi2 Hr2) as [Hl2 _].
    assert (PTE_IDX va1 = PTE_IDX va2 /\ frame (pde_of ex_fork_mmu va1) = frame (pde_of ex_fork_mmu va2)) as [Et Ef].
    { unfold pte_loc in L1. apply frame_word_inj in L1; auto using PTE_IDX_range. by destruct L1. }
    unfold PG_SIZE. rewrite !va_page, Et by auto. do 2 f_equal.
    rewrite !ex_fork_pde in * by done.
    destruct (PDE_IDX va1 =? 32) eqn:A1, (PDE_IDX va2 =? 32) eqn:A2; try lia.
    + destruct (PDE_IDX va2 =? 768) eqn:B2; done.
    + destruct (PDE_IDX va1 =? 768) eqn:B1; done.
    + destruct (PDE_IDX va1 =? 768) eqn:B1, (PDE_IDX va2 =? 768) eqn:B2; try done. lia.
Qed.

Lemma pages_from_none v K : 0 <= K -> (forall k, K <= k -> vused v k = false) -> pages_from v K = 0%nat.
Proof.
  intros HK Hn. unfold pages_from.
  assert (filter (fun k => vused v k = true) (seqZ K (vsize v - K)) = []) as ->; [|done].
  destruct (filter _ _) as [|k l] eqn:E; [done|].
  assert (k ∈ filter (fun k => vused v k = true) (seqZ K (vsize v - K))) as Hin by (rewrite E; by left).
  apply list_elem_of_filter in Hin as [Hu Hk%elem_of_seqZ]. rewrite Hn in Hu by lia. done.
Qed.

Lemma ex_fork_used k : 0 <= k -> vused (userprog_vaddr ex_fork_mst) k = (k =? 0).
Proof. intros Hk. by apply first_used_used. Qed.

Lemma ex_fork_pages : pages_from (userprog_vaddr ex_fork_mst) 0 = 1%nat.
Proof.
  rewrite pages_from_step by (by vm_compute). rewrite ex_fork_used by done. change (0 =? 0) with true. cbn iota.
  rewrite pages_from_none; [done|lia|]. intros k Hk. rewrite ex_fork_used by lia. by apply Z.eqb_neq; lia.
Qed.

Lemma ex_fork_ok : fork_room 26 ex_fork_mst.
Proof.
  pose proof ex_fork_used as Hu. pose proof ex_fork_pages as Hpages.
  split.
  - split.
    + apply ex_fork_wf.
    + done.
    + intros pf. destruct pf; by left.
    + exists 1. split_and!; [done|by vm_compute|]. intros i Hi. cbn [kernel_vaddr ex_fork_mst vaddr_bitmap].
      rewrite first_used_used by lia. by apply Z.eqb_neq; lia.
    + by vm_compute.
    + rewrite Hpages. vm_compute. lia.
    + intros i Hi [E|[E|E]]%ex_fork_tables; unfold pframe, PG_SIZE in E; cbn in E; lia.
    + done.
    + by vm_compute.
  - rewrite Hpages. vm_compute. lia.
  - intros k Hk Hku. rewrite Hu in Hku by lia. apply Z.eqb_eq in Hku as ->. exists 0. split; [by vm_compute|].
    change (page_at ex_fork_mmu 0x8048000 0x300000). split_and!; [lia|lia|done|]. intros o Ho.
    rewrite ex_fork_translate by (unfold low_va; lia).
    assert ((0x8048000 + o) / 4096 = 0x8048) as -> by (symmetry; apply Z.div_unique with o; lia).
    change (0x8048 =? 0xc0100) with false. change (0x8048 =? 0x8048) with true. cbn iota. do 2 f_equal.
    symmetry. apply Z.mod_unique with 0x8048; lia.
  - split; [unfold kernel_va; cbn; lia|]. change (translate ex_fork_mmu 0xc0100000 = Done 0x100000).
    by rewrite ex_fork_translate by (unfold low_va; lia).
  - by vm_compute.
Qed.
