(* ===== verification/Userpages.v ===== *)
(** * Userpages: pages a process takes at a given address ([kernel/memory.c])

    [get_a_page] reserves a page of the running process in its bitmap, takes a
    frame and maps it.  [entered] is the allocator's state when another process
    has become the running one, with its own directory and bitmap. *)

From stdpp Require Import base numbers list gmap.
From S2P Require Import Prelude.
From S2P Require Import Bitmap.
From S2P Require Import Paging.
From S2P Require Import Seqlock.
From S2P Require Import Memory.
From S2P Require Import Kpages.
From S2P Require Import Procmem.
From S2P Require Import Bothviews.
From S2P Require Import Addrspace.

Local Open Scope Z_scope.
Local Open Scope kernel_scope.

(** The bitmap of the process after page [k] was taken. *)
Definition reserved (v v' : virtual_addr) (k : Z) : Prop :=
  bitmap_wf (vaddr_bitmap v') /\ vaddr_start v' = vaddr_start v /\ vsize v' = vsize v /\
  forall j, 0 <= j -> vused v' j = if decide (j = k) then true else vused v j.

Lemma reserve_spec v k :
  vaddr_wf v -> 0 <= k < vsize v ->
  exists b, bitmap_set (vaddr_bitmap v) k 1 = Done b /\ reserved v (mk_vaddr b (vaddr_start v)) k.
Proof.
  intros [Hb _ _ _] Hk. pose proof (wf_len _ Hb) as Hl.
  destruct (bitmap_set_spec (vaddr_bitmap v) k 1) as (b & E & Hb' & [Hsh _] & Hu); [done|lia| |auto|].
  { apply Z.div_lt_upper_bound; unfold vsize, nbits in *; lia. }
  exists b. split; [done|]. split_and!; [done|done|by unfold vsize, nbits; cbn; rewrite Hsh|].
  intros j Hj. unfold vused at 1. cbn. by rewrite Hu.
Qed.

(** [get_a_page] is the bit and then what [get_a_page_without_opvaddrbitmap] does. *)
Lemma get_a_page_split st k b :
  mem_wf st -> cur_pgdir st <> 0 -> 0 <= k < vsize (userprog_vaddr st) ->
  bitmap_set (vaddr_bitmap (userprog_vaddr st)) k 1 = Done b ->
  get_a_page PF_USER (vpage (userprog_vaddr st) k) st =
  get_a_page_without_opvaddrbitmap PF_USER (vpage (userprog_vaddr st) k)
    (set_vaddr PF_USER (mk_vaddr b (vaddr_start (userprog_vaddr st))) st).
Proof.
  intros Hwf Hp Hk E. destruct (mw_vaddr st Hwf PF_USER) as [_ _ [R1 R2] _]. cbn [vaddr_of] in *.
  assert (i32 (u32 (vpage (userprog_vaddr st) k - vaddr_start (userprog_vaddr st)) / PG_SIZE) = k) as Ei.
  { unfold vpage, PG_SIZE in *. rewrite u32_id by (unfold is_u32; lia).
    replace (vaddr_start (userprog_vaddr st) + k * 4096 - vaddr_start (userprog_vaddr st)) with (k * 4096) by lia.
    rewrite Z.div_mul by lia. apply i32_id. lia. }
  set (s0 := set_vaddr PF_USER (mk_vaddr b (vaddr_start (userprog_vaddr st))) st).
  unfold get_a_page, get_a_page_without_opvaddrbitmap.
  destruct (lock_acquire PF_USER st) as [[[] s1]|h] eqn:El.
  - assert (lock_acquire PF_USER s0 = Done (tt, set_vaddr PF_USER (userprog_vaddr s0) s1) /\ cur_pgdir s1 = cur_pgdir st /\
      userprog_vaddr s1 = userprog_vaddr st) as (El0 & Ep & Eu).
    { unfold lock_acquire in *. change (pool_of PF_USER s0) with (pool_of PF_USER st). change (cur s0) with (cur st).
      destruct (slock_acquire _ _); [|done]. by injection El as <-. }
    rewrite (bind_done _ _ _ _ _ El), (bind_done _ _ _ _ _ El0). rewrite (bind_done _ _ s1 s1 s1 eq_refl).
    rewrite Ep, Eu, (proj2 (Z.eqb_neq (cur_pgdir st) NULL)), bool_decide_eq_true_2 by done. cbn [negb andb]. cbv zeta.
    rewrite Ei, (proj2 (Z.leb_le 0 k)) by lia.
    erewrite bind_done; [done|]. erewrite bind_done; [|done]. unfold set_vaddr_bit. cbn [vaddr_of]. by rewrite Eu, E.
  - assert (lock_acquire PF_USER s0 = Halt h) as El0.
    { unfold lock_acquire in *. change (pool_of PF_USER s0) with (pool_of PF_USER st). change (cur s0) with (cur st).
      by destruct (slock_acquire _ _). }
    unfold bind. by rewrite El, El0.
Qed.

(** What taking page [k] in frame [i] does. *)
Record page_taken (st st' : mst) (k i : Z) : Prop := {
  pt_mem : mem_wf st';
  pt_uva : reserved (userprog_vaddr st) (userprog_vaddr st') k;
  pt_kva : kernel_vaddr st' = kernel_vaddr st;
  pt_cur : cur st' = cur st /\ cur_pgdir st' = cur_pgdir st;
  pt_cr3 : cr3 (machine st') = cr3 (machine st);
  pt_pool : forall pf, pool_grow (pool_of pf st) (pool_of pf st');
  pt_frame : 0 <= i < psize (user_pool st) /\ pused (user_pool st) i = false /\ pused (user_pool st') i = true;
  pt_page : page_at (machine st') (vpage (userprog_vaddr st) k) (pframe (user_pool st) i);
  pt_others : forall va, managed st va -> ~ (vpage (userprog_vaddr st) k <= va < vpage (userprog_vaddr st) k + PG_SIZE) ->
    translate (machine st') va = translate (machine st) va;
  pt_kept : forall va pa, low_va va -> translate (machine st) va = Done pa -> translate (machine st') va = Done pa;
  pt_tables : forall g, table_frame (machine st') g -> table_frame (machine st) g \/
    exists j, 0 <= j < psize (kernel_pool st) /\ g = pframe (kernel_pool st) j /\ pused (kernel_pool st) j = false;
  pt_data : forall g w, aligned g -> ~ table_frame (machine st') g -> 0 <= w < 1024 ->
    rd_ram (machine st') (g + w * 4) = rd_ram (machine st) (g + w * 4);
  pt_free : ufree st = S (ufree st') /\ (kfree st <= S (kfree st'))%nat
}.

Lemma get_a_page_spec st k :
  mem_wf st -> cur st <> 0 -> cur_pgdir st <> 0 -> slock_ok (cur st) (pool_lock (user_pool st)) ->
  0 <= k < vsize (userprog_vaddr st) -> vused (userprog_vaddr st) k = false ->
  (0 < ufree st)%nat -> (0 < kfree st)%nat ->
  exists i st', get_a_page PF_USER (vpage (userprog_vaddr st) k) st = Done (vpage (userprog_vaddr st) k, st') /\ page_taken st st' k i.
Proof.
  intros Hwf Hc Hp Hl Hk Hku Hu Hkf.
  destruct (reserve_spec (userprog_vaddr st) k) as (b & Eb & R); [exact (mw_vaddr st Hwf PF_USER)|done|].
  pose proof R as (Rb & Rs & Rz & Ru). set (v' := mk_vaddr b (vaddr_start (userprog_vaddr st))) in *.
  set (s0 := set_vaddr PF_USER v' st).
  assert (mem_wf s0) as Hwf0.
  { apply mem_wf_reserve; try done. intros j Hj. rewrite Ru by done. by case_decide. }
  assert (vpage v' k = vpage (userprog_vaddr st) k) as Ev by done.
  pose proof (vpage_low s0 PF_USER k Hwf0 ltac:(cbn [vaddr_of s0 set_vaddr userprog_vaddr]; lia)) as Hlow.
  change (vpage (vaddr_of PF_USER s0) k) with (vpage (userprog_vaddr st) k) in Hlow.
  pose proof (vpage_mod (userprog_vaddr st) k (mw_vaddr st Hwf PF_USER)) as Hmod.
  destruct (get_a_user_page_spec s0 (vpage (userprog_vaddr st) k) k)
    as (i & st' & E & W & G & Hi & Hi0 & Hi1 & [N Hadd] & Htr & Hoth & Hf1 & Hf2); try done.
  { cbn [s0 set_vaddr userprog_vaddr]. lia. }
  { cbn [s0 set_vaddr userprog_vaddr]. rewrite Ru, decide_True by lia. done. }
  { change (unmapped (machine st) (vpage (userprog_vaddr st) k)). apply (mw_unmapped st Hwf PF_USER k); [done|done|].
    cbn [vaddr_of]. unfold PG_SIZE. lia. }
  exists i, st'. split; [rewrite (get_a_page_split st k b) by done; exact E|].
  pose proof (sg_vaddr _ _ G PF_USER) as Vu. pose proof (sg_vaddr _ _ G PF_KERNEL) as Vk. cbn [vaddr_of] in Vu, Vk.
  change (pframe (user_pool s0) i) with (pframe (user_pool st) i) in *.
  split; try done.
  - by rewrite Vu.
  - split; [exact (sg_cur _ _ G)|exact (sg_pgdir _ _ G)].
  - exact (sg_cr3 _ _ G).
  - exact (sg_pool _ _ G).
  - assert (aligned (pframe (user_pool st) i)) as Ha by (apply pframe_aligned; [exact (mw_pool st Hwf PF_USER)|done]).
    unfold low_va in Hlow. split; [lia|].
    assert (vpage (userprog_vaddr st) k + 4096 <= 0xffc00000) as Hend.
    { destruct (mw_vaddr st Hwf PF_USER) as [_ _ [_ ?] _]. cbn [vaddr_of] in *. unfold vpage, PG_SIZE in *. lia. }
    split; [lia|]. split; [done|]. intros o Ho. rewrite Htr by (unfold PG_SIZE; lia). do 2 f_equal.
    rewrite Z.add_mod, Hmod by lia. rewrite Z.add_0_l, Z.mod_mod by lia. by apply Z.mod_small.
  - intros va (pf & j & Hj & Hr) Hn. apply Hoth; [|done]. exists pf, j.
    destruct pf; [done|]. cbn [vaddr_of s0 set_vaddr userprog_vaddr] in *. unfold vpage in *. rewrite Rs. by rewrite Rz.
  - exact (sg_kept _ _ G).
  - exact (sg_tables _ _ G).
  - exact (pa_data _ _ _ _ _ Hadd).
Qed.

(** ** Another process becomes the running one *)
(** In a new address space with a bitmap of its own. *)
Lemma new_space_entered p c t d v st :
  new_space p c st -> vaddr_wf v -> vpage v (vsize v) <= 0xc0000000 ->
  mem_wf (entered c t d v st).
Proof.
  intros N Hv Hend. pose proof (ns_mem_wf p c st N) as Hwf. pose proof (ns_kva _ _ _ N) as Hkva.
  assert (forall k va, 0 <= k < vsize v -> vpage v k <= va < vpage v k + PG_SIZE -> user_va va) as Huser.
  { intros k va Hk Hr. destruct Hv as [_ _ [? _] _]. unfold user_va, vpage, PG_SIZE in *. lia. }
  assert (forall va, managed (entered c t d v st) va -> user_va va \/ managed (set_cr3 c st) va) as Hman.
  { intros va (pf & k & Hk & Hr). destruct pf; cbn [vaddr_of entered kernel_vaddr userprog_vaddr] in *.
    - right. by exists PF_KERNEL, k.
    - left. by apply (Huser k). }
  assert (forall va va', user_va va -> ~ shares_entry (view c st) va va') as Hno.
  { intros va va' Hva [Hp _]. by rewrite (ns_pde_user p c st N) in Hp. }
  destruct Hwf as [W1 W2 W3 W4 W5 W6 W7 W8 W9 W10]. split; try assumption.
  - intros []; [exact (W4 PF_KERNEL)|done].
  - intros _. cbn. lia.
  - intros [] k va Hk Hu Hr; [exact (W9 PF_KERNEL k va Hk Hu Hr)|].
    unfold unmapped. change (machine (entered c t d v st)) with (view c st).
    assert (user_va va) as Hva by (by apply (Huser k)).
    rewrite (ns_translate p c st N) by auto. by rewrite decide_True.
  - intros va1 va2 [M1|M1]%Hman [M2|M2]%Hman S1 S2.
    + by destruct (Hno va1 va2 M1).
    + by destruct (Hno va1 va2 M1).
    + by destruct (Hno va2 va1 M2).
    + by apply W10.
Qed.

(** A bitmap with nothing used. *)
Lemma empty_vaddr_wf n m s :
  0 < n -> (Z.to_nat n <= m)%nat -> s mod PG_SIZE = 0 -> PG_SIZE <= s -> s + n * 8 * PG_SIZE <= 0xffc00000 ->
  vaddr_wf (mk_vaddr (mk_bitmap n (replicate m 0)) s).
Proof.
  intros Hn Hm Ha Hs Hr. split; cbn.
  - unfold PG_SIZE in *. split; cbn; [rewrite length_replicate; lia| |lia]. apply Forall_replicate. unfold is_u8. lia.
  - done.
  - unfold vpage, vsize, nbits, PG_SIZE in *. cbn. lia.
  - lia.
Qed.

Lemma empty_unused n m s k : vused (mk_vaddr (mk_bitmap n (replicate m 0)) s) k = false.
Proof.
  unfold vused, used. cbn [vaddr_bitmap bits]. destruct (arr_get (replicate m 0) (k / 8)) as [x|] eqn:E; cbn [default]; [|apply Z.testbit_0_l].
  rewrite (arr_get_Forall (fun x => x = 0) _ _ _) with (2 := E) by (by apply Forall_replicate). apply Z.testbit_0_l.
Qed.
