(* ===== verification/Release.v ===== *)
(** * Release: giving back the memory of a process ([userprog/wait_exit.c])

    The first two parts of [release_prog_resource]: the frames of the user
    half, found by walking the page tables, and the pages of the bitmap.  The
    process is still running on its directory.  What counts afterwards is how
    the other processes see memory: a peer is another directory with the bitmap
    of its own process. *)

From stdpp Require Import base numbers list gmap.
From S2P Require Import Prelude.
From S2P Require Import Bitmap.
From S2P Require Import Paging.
From S2P Require Import Seqlock.
From S2P Require Import Memory.
From S2P Require Import Kpages.
From S2P Require Import Procmem.
From S2P Require Import Bothviews.
From S2P Require Import Addrspace.
From S2P Require Import Forkmem.
From S2P Require Import Userpages.

Local Open Scope Z_scope.
Local Open Scope kernel_scope.

Fixpoint release_ptes (n : nat) (first_pte_vaddr_in_pde pte_idx : Z) : M mst unit :=
  match n with
  | O => ret tt
  | S n =>
      let! st := gets id in
      let! pte := lift (vload (machine st) (u32 (first_pte_vaddr_in_pde + 4 * pte_idx))) in
      (if negb (Z.land pte 1 =? 0) then free_a_phy_page (Z.land pte 0xfffff000) else ret tt) ;;;
      release_ptes n first_pte_vaddr_in_pde (pte_idx + 1)
  end.

(** [pde_idx * 0x400000] is an [int] multiplication; from index 512 on it
    overflows, and the value taken is the one reduced to 32 bits. *)
Fixpoint release_pdes (n : nat) (pgdir_vaddr pde_idx : Z) : M mst unit :=
  match n with
  | O => ret tt
  | S n =>
      let! st := gets id in
      let! pde := lift (vload (machine st) (u32 (pgdir_vaddr + 4 * pde_idx))) in
      (if negb (Z.land pde 1 =? 0) then
         release_ptes 1024 (pte_ptr (u32 (pde_idx * 0x400000))) 0 ;;;
         free_a_phy_page (Z.land pde 0xfffff000)
       else ret tt) ;;;
      release_pdes n pgdir_vaddr (pde_idx + 1)
  end.

Definition release_memory (pgdir_vaddr user_vaddr_pool_bitmap : Z) : M mst unit :=
  release_pdes 768 pgdir_vaddr 0 ;;;
  let! st := gets id in
  let bitmap_pg_cnt := btmp_bytes_len (vaddr_bitmap (userprog_vaddr st)) / PG_SIZE in
  mfree_page PF_KERNEL user_vaddr_pool_bitmap bitmap_pg_cnt.

(** ** Frames given back *)
Record cleared (F : Z -> Prop) (st st' : mst) : Prop := {
  cl_machine : machine st' = machine st;
  cl_vaddr : forall pf, vaddr_of pf st' = vaddr_of pf st;
  cl_cur : cur st' = cur st /\ cur_pgdir st' = cur_pgdir st;
  cl_pool : forall pf, pool_wf (pool_of pf st') /\ phy_addr_start (pool_of pf st') = phy_addr_start (pool_of pf st) /\
    psize (pool_of pf st') = psize (pool_of pf st) /\ pool_lock (pool_of pf st') = pool_lock (pool_of pf st);
  cl_less : forall pf i, 0 <= i -> pused (pool_of pf st') i = true -> pused (pool_of pf st) i = true;
  cl_gone : forall pf i, 0 <= i < psize (pool_of pf st) -> F (pframe (pool_of pf st) i) -> pused (pool_of pf st') i = false;
  cl_same : forall pf i, 0 <= i < psize (pool_of pf st) -> ~ F (pframe (pool_of pf st) i) ->
    pused (pool_of pf st') i = pused (pool_of pf st) i
}.

Definition in_pools (st : mst) (f : Z) : Prop := exists pf i, 0 <= i < psize (pool_of pf st) /\ f = pframe (pool_of pf st) i.

(** The two pools, well-formed and apart. *)
Definition pools_wf (st : mst) : Prop :=
  (forall pf, pool_wf (pool_of pf st)) /\ pframe (kernel_pool st) (psize (kernel_pool st)) <= phy_addr_start (user_pool st).

Lemma mem_wf_pools st : mem_wf st -> pools_wf st.
Proof. intros H. split; apply H. Qed.

Section cleared.
Context (F : Z -> Prop) (st st' : mst) (C : cleared F st st').

Lemma cleared_pframe pf i : pframe (pool_of pf st') i = pframe (pool_of pf st) i.
Proof. destruct (cl_pool _ _ _ C pf) as (_ & E & _). unfold pframe. by rewrite E. Qed.

Lemma cleared_psize pf : psize (pool_of pf st') = psize (pool_of pf st).
Proof. apply (cl_pool _ _ _ C pf). Qed.

Lemma cleared_pools : pools_wf st -> pools_wf st'.
Proof.
  intros [_ H]. split; [intros pf; apply (cl_pool _ _ _ C pf)|].
  change (pframe (pool_of PF_KERNEL st') (psize (pool_of PF_KERNEL st')) <= phy_addr_start (pool_of PF_USER st')).
  rewrite cleared_pframe, cleared_psize. destruct (cl_pool _ _ _ C PF_USER) as (_ & -> & _). exact H.
Qed.

Lemma cleared_in f : in_pools st f -> in_pools st' f.
Proof. intros (pf & i & Hi & ->). exists pf, i. by rewrite cleared_psize, cleared_pframe. Qed.
End cleared.

Lemma cleared_none st : pools_wf st -> cleared (fun _ => False) st st.
Proof. intros [Hp _]. by split. Qed.

Lemma cleared_weaken (F G : Z -> Prop) st st' : (forall f, F f <-> G f) -> cleared F st st' -> cleared G st st'.
Proof.
  intros HFG [C1 C2 C3 C4 C5 C6 C7]. split; try done.
  - intros pf i Hi HG. apply C6; [done|by apply HFG].
  - intros pf i Hi HG. apply C7; [done|by rewrite HFG].
Qed.

Lemma cleared_trans F G st st1 st2 : cleared F st st1 -> cleared G st1 st2 -> cleared (fun f => F f \/ G f) st st2.
Proof.
  intros C D. split.
  - by rewrite (cl_machine _ _ _ D), (cl_machine _ _ _ C).
  - intros pf. by rewrite (cl_vaddr _ _ _ D), (cl_vaddr _ _ _ C).
  - destruct (cl_cur _ _ _ C), (cl_cur _ _ _ D). split; congruence.
  - intros pf. destruct (cl_pool _ _ _ C pf) as (_ & ? & ? & ?), (cl_pool _ _ _ D pf) as (? & ? & ? & ?). split_and!; [done|congruence..].
  - intros pf i Hi Hu. by apply (cl_less _ _ _ C), (cl_less _ _ _ D).
  - intros pf i Hi [HF|HG].
    + destruct (pused (pool_of pf st2) i) eqn:E; [|done]. apply (cl_less _ _ _ D) in E; [|lia].
      by rewrite (cl_gone _ _ _ C pf i Hi HF) in E.
    + apply (cl_gone _ _ _ D); [by rewrite (cleared_psize _ _ _ C)|by rewrite (cleared_pframe _ _ _ C)].
  - intros pf i Hi Hn. rewrite (cl_same _ _ _ D), (cl_same _ _ _ C); try done; [tauto| |].
    + by rewrite (cleared_psize _ _ _ C).
    + rewrite (cleared_pframe _ _ _ C). tauto.
Qed.

Lemma free_a_phy_page_spec st f :
  pools_wf st -> in_pools st f -> exists st', free_a_phy_page f st = Done (tt, st') /\ cleared (fun g => g = f) st st'.
Proof.
  intros [Hp Ho] (pf & i & Hi & ->).
  destruct (pfree_frame st pf i Hp Ho Hi) as (p' & E & [U1 U2 U3 U4 U5 U6]).
  exists (set_pool pf p' st). split; [exact E|].
  assert (forall pf', pool_of pf' (set_pool pf p' st) = if decide (pf' = pf) then p' else pool_of pf' st) as Hpool
    by (intros; apply pool_of_set).
  split.
  - by destruct pf.
  - intros pf'. by destruct pf, pf'.
  - by destruct pf.
  - intros pf'. rewrite Hpool. case_decide; [subst pf'; by split_and!|split_and!; [apply Hp|done|done|done]].
  - intros pf' j Hj. rewrite Hpool. case_decide; [subst pf'|done]. rewrite U6 by done. by case_decide.
  - intros pf' j Hj Hf. destruct (pframe_apart st pf' pf j i Ho Hj Hi Hf) as [-> ->].
    rewrite Hpool, decide_True, U6, decide_True by (done || lia). done.
  - intros pf' j Hj Hf. rewrite Hpool. case_decide; [subst pf'|done]. rewrite U6 by lia. case_decide; [by subst j|done].
Qed.

(** ** The walk *)
Definition pde_at (m : mmu) (d : Z) : Z := rd_ram m (cr3 m + d * 4).
Definition pte_at (m : mmu) (d e : Z) : Z := rd_ram m (frame (pde_at m d) + e * 4).

(** Frames of the pages of table [d] from entry [lo] on, and frames of the pages
    and the tables of the user half from entry [lo] on. *)
Definition table_pages (m : mmu) (d lo f : Z) : Prop :=
  exists e, lo <= e < 1024 /\ present (pte_at m d e) = true /\ f = frame (pte_at m d e).
Definition user_frames (m : mmu) (lo f : Z) : Prop :=
  exists d, lo <= d < 768 /\ present (pde_at m d) = true /\ (f = frame (pde_at m d) \/ table_pages m d 0 f).

Lemma load_pte m d e :
  self_mapped m -> 0 <= d < 768 -> 0 <= e < 1024 -> present (pde_at m d) = true ->
  vload m (u32 (pte_ptr (u32 (d * 0x400000)) + 4 * e)) = Done (pte_at m d e).
Proof.
  intros Hs Hd He Hp. rewrite (u32_id (d * 0x400000)) by (unfold is_u32; lia).
  destruct (mk_va_fields d 0 0) as (U0 & I0 & J0 & _); [lia..|]. destruct (mk_va_fields d e 0) as (U & I & J & _); [lia..|].
  assert (u32 (pte_ptr (d * 0x400000) + 4 * e) = pte_ptr (mk_va d e 0)) as ->.
  { replace (d * 0x400000) with (mk_va d 0 0) by (unfold mk_va; lia). rewrite !pte_ptr_eq, I0, J0, I, J by done.
    unfold mk_va. rewrite u32_id by (unfold is_u32; lia). lia. }
  assert (pde_of m (mk_va d e 0) = pde_at m d) as E by (unfold pde_of; by rewrite I).
  rewrite vload_pte by (done || by rewrite E). unfold pte_loc, pte_at. by rewrite E, J.
Qed.

Lemma table_pages_step m d lo f : 0 <= lo < 1024 ->
  table_pages m d lo f <-> (present (pte_at m d lo) = true /\ f = frame (pte_at m d lo)) \/ table_pages m d (lo + 1) f.
Proof.
  intros Hlo. split.
  - intros (e & He & Hp & ->). destruct (decide (e = lo)) as [->|]; [by left|right]. exists e. split; [lia|done].
  - intros [[Hp ->]|(e & He & Hp & ->)]; [exists lo|exists e]; (split; [lia|done]).
Qed.

Lemma user_frames_step m lo f : 0 <= lo < 768 ->
  user_frames m lo f <->
  (present (pde_at m lo) = true /\ (f = frame (pde_at m lo) \/ table_pages m lo 0 f)) \/ user_frames m (lo + 1) f.
Proof.
  intros Hlo. split.
  - intros (d & Hd & Hp & Hf). destruct (decide (d = lo)) as [->|]; [by left|right]. exists d. split; [lia|done].
  - intros [[Hp Hf]|(d & Hd & Hp & Hf)]; [exists lo|exists d]; (split; [lia|done]).
Qed.

Lemma release_ptes_spec m d n : forall idx st,
  self_mapped m -> 0 <= d < 768 -> present (pde_at m d) = true -> 0 <= idx -> idx + Z.of_nat n = 1024 ->
  pools_wf st -> machine st = m -> (forall f, table_pages m d idx f -> in_pools st f) ->
  exists st', release_ptes n (pte_ptr (u32 (d * 0x400000))) idx st = Done (tt, st') /\ cleared (table_pages m d idx) st st'.
Proof.
  induction n as [|n IH]; intros idx st Hs Hd Hp Hi Hn Hw Em Hin.
  - exists st. split; [done|]. eapply cleared_weaken; [|by apply cleared_none]. intros f. split; [done|]. intros (e & He & _). lia.
  - cbn [release_ptes]. erewrite bind_done; [|done]. erewrite bind_done; [|unfold lift; cbn [id]; rewrite Em, load_pte by (done || lia); done].
    assert (exists st1, (if negb (Z.land (pte_at m d idx) 1 =? 0) then free_a_phy_page (Z.land (pte_at m d idx) 0xfffff000) else ret tt) st
      = Done (tt, st1) /\ cleared (fun f => present (pte_at m d idx) = true /\ f = frame (pte_at m d idx)) st st1) as (st1 & E1 & C1).
    { fold (present (pte_at m d idx)). destruct (present (pte_at m d idx)) eqn:Hpt.
      - destruct (free_a_phy_page_spec st (frame (pte_at m d idx))) as (st1 & E1 & C1); [done| |].
        { apply Hin. apply table_pages_step; [lia|]. by left. }
        exists st1. split; [done|]. eapply cleared_weaken; [|done]. tauto.
      - exists st. split; [done|]. eapply cleared_weaken; [|by apply cleared_none]. split; [done|]. by intros []. }
    rewrite (bind_done _ _ _ _ _ E1).
    destruct (IH (idx + 1) st1) as (st2 & E2 & C2); try done; try lia.
    { by eapply cleared_pools. } { by rewrite (cl_machine _ _ _ C1). }
    { intros f Hf. eapply cleared_in; [done|]. apply Hin. apply table_pages_step; [lia|]. by right. }
    exists st2. split; [done|]. eapply cleared_weaken; [|by eapply cleared_trans].
    intros f. symmetry. apply table_pages_step. lia.
Qed.

Lemma release_pdes_spec m pgdir n : forall idx st,
  self_mapped m -> page_at m pgdir (cr3 m) -> 0 <= idx -> idx + Z.of_nat n = 768 ->
  pools_wf st -> machine st = m -> (forall f, user_frames m idx f -> in_pools st f) ->
  exists st', release_pdes n pgdir idx st = Done (tt, st') /\ cleared (user_frames m idx) st st'.
Proof.
  induction n as [|n IH]; intros idx st Hs Hat Hi Hn Hw Em Hin.
  - exists st. split; [done|]. eapply cleared_weaken; [|by apply cleared_none]. intros f. split; [done|]. intros (e & He & _). lia.
  - pose proof Hat as (P1 & P2 & P3 & P4).
    assert (vload m (u32 (pgdir + 4 * idx)) = Done (pde_at m idx)) as El.
    { rewrite u32_id by (unfold is_u32; lia). unfold vload, pde_at. replace (pgdir + 4 * idx) with (pgdir + idx * 4) by lia.
      by rewrite P4 by lia. }
    cbn [release_pdes]. erewrite bind_done; [|done]. erewrite bind_done; [|unfold lift; cbn [id]; rewrite Em, El; done].
    assert (exists st1, (if negb (Z.land (pde_at m idx) 1 =? 0)
        then release_ptes 1024 (pte_ptr (u32 (idx * 0x400000))) 0 ;;; free_a_phy_page (Z.land (pde_at m idx) 0xfffff000) else ret tt) st
      = Done (tt, st1) /\ cleared (fun f => present (pde_at m idx) = true /\ (f = frame (pde_at m idx) \/ table_pages m idx 0 f)) st st1)
      as (st1 & E1 & C1).
    { fold (present (pde_at m idx)). destruct (present (pde_at m idx)) eqn:Hp.
      - destruct (release_ptes_spec m idx 1024 0 st) as (st0 & E0 & C0); try done; try lia.
        { intros f Hf. apply Hin. apply user_frames_step; [lia|]. left. auto. }
        rewrite (bind_done _ _ _ _ _ E0).
        destruct (free_a_phy_page_spec st0 (frame (pde_at m idx))) as (st1 & E1 & C1).
        { by eapply cleared_pools. }
        { eapply cleared_in; [done|]. apply Hin. apply user_frames_step; [lia|]. left. auto. }
        exists st1. split; [done|]. eapply cleared_weaken; [|by eapply cleared_trans]. cbn beta. tauto.
      - exists st. split; [done|]. eapply cleared_weaken; [|by apply cleared_none]. split; [done|]. by intros []. }
    rewrite (bind_done _ _ _ _ _ E1).
    destruct (IH (idx + 1) st1) as (st2 & E2 & C2); try done; try lia.
    { by eapply cleared_pools. } { by rewrite (cl_machine _ _ _ C1). }
    { intros f Hf. eapply cleared_in; [done|]. apply Hin. apply user_frames_step; [lia|]. by right. }
    exists st2. split; [done|]. eapply cleared_weaken; [|by eapply cleared_trans].
    intros f. symmetry. apply user_frames_step. lia.
Qed.

(** ** The other processes *)

(** The process that is running and about to go: it runs on its directory,
    everything the user half refers to is in the pools, and its bitmap is in
    the kernel pages from [kb]. *)
Record dying (st : mst) (kb : Z) (ids : list Z) : Prop := {
  dy_pt : pt_wf (machine st);
  dy_dir : page_at (machine st) (cur_pgdir st) (cr3 (machine st));
  dy_frames : forall f, user_frames (machine st) 0 f -> in_pools st f;
  dy_cnt : Z.of_nat (length ids) = btmp_bytes_len (vaddr_bitmap (userprog_vaddr st)) / PG_SIZE /\ ids <> [];
  dy_range : 0 <= kb /\ kb + Z.of_nat (length ids) <= vsize (kernel_vaddr st);
  dy_kva : 0xc0000000 <= vaddr_start (kernel_vaddr st) /\ 0x102000 <= phy_addr_start (kernel_pool st)
}.

(** Another process, with directory [p] and bitmap [v]: its view of memory is
    well-formed, it shares the kernel's half, none of the frames of the user
    half of the dying process is its own, and it sees the bitmap's pages. *)
Record peer (p t d : Z) (v : virtual_addr) (st : mst) (kb : Z) (ids : list Z) : Prop := {
  pe_wf : mem_wf (entered p t d v st);
  pe_kern : forall i, 768 <= i < 1023 -> rd_ram (machine st) (cr3 (machine st) + i * 4) = rd_ram (machine st) (p + i * 4);
  pe_tables : forall f, user_frames (machine st) 0 f -> ~ table_frame (view p st) f;
  pe_pages : forall f va pa, user_frames (machine st) 0 f -> low_va va -> translate (view p st) va = Done pa -> frame pa <> f;
  pe_bitmap : backed_by PF_KERNEL kb PF_KERNEL ids (entered p t d v st)
}.

Lemma peer_cleared p t d v st st' kb ids :
  peer p t d v st kb ids -> cleared (user_frames (machine st) 0) st st' -> mem_wf (entered p t d v st').
Proof.
  intros [[W1 W2 W3 W4 W5 W6 W7 W8 W9 W10] _ P1 P2 _] C. pose proof (cl_machine _ _ _ C) as Em.
  pose proof (cleared_pframe _ _ _ C) as Ef. pose proof (cleared_psize _ _ _ C) as Es.
  pose proof (cl_vaddr _ _ _ C PF_KERNEL) as Ek. cbn [vaddr_of] in Ek.
  assert (forall pf s, pool_of pf (entered p t d v s) = pool_of pf s) as Hp by (by intros []).
  assert (machine (entered p t d v st') = machine (entered p t d v st)) as Em' by (cbn; by rewrite Em).
  assert (forall pf, vaddr_of pf (entered p t d v st') = vaddr_of pf (entered p t d v st)) as Hv by (intros []; [exact Ek|done]).
  assert (forall va, managed (entered p t d v st') va -> managed (entered p t d v st) va) as Hm
    by (intros va; by apply managed_grow).
  split; rewrite ?Em'; try done.
  - intros pf. rewrite Hp. apply (cl_pool _ _ _ C pf).
  - change (pframe (pool_of PF_KERNEL st') (psize (pool_of PF_KERNEL st')) <= phy_addr_start (pool_of PF_USER st')).
    rewrite Ef, Es. destruct (cl_pool _ _ _ C PF_USER) as (_ & -> & _). exact W3.
  - intros pf. rewrite Hv. apply W4.
  - cbn [userprog_vaddr entered kernel_vaddr] in *. by rewrite Ek.
  - intros pf i. rewrite Hp, Es, Ef. intros Hi Ht. rewrite (cl_same _ _ _ C) by (done || by intros Hf; apply (P1 _ Hf)).
    specialize (W6 pf i). rewrite Hp in W6. by apply W6.
  - intros pf i va pa. rewrite Hp, Es, Ef. intros Hi Hl Ht Hf.
    rewrite (cl_same _ _ _ C); [specialize (W7 pf i va pa); rewrite Hp in W7; by apply W7|done|].
    intros Hu. by apply (P2 _ va pa Hu Hl Ht).
  - intros pf i va1 va2 pa1 pa2. rewrite Hp, Es, Ef. specialize (W8 pf i va1 va2 pa1 pa2). rewrite Hp in W8. exact W8.
  - intros pf i va. rewrite Hv. apply W9.
  - intros va1 va2 M1%Hm M2%Hm. by apply W10.
Qed.

(** What the call leaves, as far as the pools and the kernel's bitmap go. *)
Record given_back (st st' : mst) (kb : Z) (ids : list Z) : Prop := {
  gb_gone : forall pf i, 0 <= i < psize (pool_of pf st) ->
    user_frames (machine st) 0 (pframe (pool_of pf st) i) \/ (pf = PF_KERNEL /\ i ∈ ids) -> pused (pool_of pf st') i = false;
  gb_same : forall pf i, 0 <= i < psize (pool_of pf st) ->
    ~ user_frames (machine st) 0 (pframe (pool_of pf st) i) -> ~ (pf = PF_KERNEL /\ i ∈ ids) ->
    pused (pool_of pf st') i = pused (pool_of pf st) i;
  gb_pool : forall pf, phy_addr_start (pool_of pf st') = phy_addr_start (pool_of pf st) /\
    psize (pool_of pf st') = psize (pool_of pf st) /\ pool_lock (pool_of pf st') = pool_lock (pool_of pf st);
  gb_kva : forall j, 0 <= j -> vused (kernel_vaddr st') j =
    if decide (kb <= j < kb + Z.of_nat (length ids)) then false else vused (kernel_vaddr st) j;
  gb_own : cr3 (machine st') = cr3 (machine st) /\ cur st' = cur st /\ cur_pgdir st' = cur_pgdir st /\ userprog_vaddr st' = userprog_vaddr st
}.

(** Freeing kernel pages changes nothing of the running process. *)
Definition own (st : mst) : Z * Z * Z * virtual_addr := (cr3 (machine st), cur st, cur_pgdir st, userprog_vaddr st).

Lemma pte_remove_own v s a s' : pte_remove_st v s = Done (a, s') -> own s' = own s.
Proof.
  unfold pte_remove_st, page_table_pte_remove, vstore.
  destruct (vload _ _) as [e|]; [|done]. cbn [obind]. destruct (translate _ _); [|done]. by intros [= _ <-].
Qed.

Lemma unmap_own low high n : forall v s a s', unmap_pages low high n v s = Done (a, s') -> own s' = own s.
Proof.
  induction n as [|n IH]; intros v s a s'; [by intros [= _ <-]|]. cbn [unmap_pages]. unfold bind, gets, lift.
  destruct (addr_v2p _ _) as [f|]; [|done]. cbn [obind]. unfold assertM, lift. destruct (oassert _); [|done]. cbn [obind].
  unfold pfree. destruct (bitmap_set _ _ _) as [b|]; [|done]. cbn [obind].
  destruct (pte_remove_st v _) as [[[] s1]|] eqn:E1; [|done]. intros E2. rewrite (IH _ _ _ _ E2), (pte_remove_own _ _ _ _ E1).
  by destruct (_ <=? f).
Qed.

Lemma mfree_own v n s a s' : mfree_page PF_KERNEL v n s = Done (a, s') -> own s' = own s.
Proof.
  unfold mfree_page, bind, gets, assertM, lift, id. destruct (oassert _); [|done]. cbn [obind].
  destruct (addr_v2p _ _) as [f|]; [|done]. cbn [obind]. destruct (oassert _); [|done]. cbn [obind].
  destruct (_ <=? f); (destruct (unmap_pages _ _ _ _ s) as [[[] s1]|] eqn:E1; [|done]);
    rewrite <- (unmap_own _ _ _ _ _ _ _ E1); unfold vaddr_remove; (destruct (bitmap_set_range _ _ _ _); [|done]); by intros [= _ <-].
Qed.

(** What a peer sees: its invariant, and its pages as before but for the
    bitmap's. *)
Definition undisturbed (p t d : Z) (v : virtual_addr) (st st' : mst) (kb : Z) (ids : list Z) : Prop :=
  mem_wf (entered p t d v st') /\
  forall va, managed (entered p t d v st) va ->
    ~ (vpage (kernel_vaddr st) kb <= va < vpage (kernel_vaddr st) kb + Z.of_nat (length ids) * PG_SIZE) ->
    translate (view p st') va = translate (view p st) va.

Lemma release_peer st kb ids p t d v :
  dying st kb ids -> peer p t d v st kb ids ->
  exists st', release_memory (cur_pgdir st) (vpage (kernel_vaddr st) kb) st = Done (tt, st') /\
    given_back st st' kb ids /\ undisturbed p t d v st st' kb ids.
Proof.
  intros [D1 D2 D3 [D4 D4'] [D5 D5'] [D6 D7]] P.
  destruct (release_pdes_spec (machine st) (cur_pgdir st) 768 0 st) as (s1 & E1 & C); try done; try lia.
  { apply D1. } { exact (mem_wf_pools _ (pe_wf _ _ _ _ _ _ _ P)). }
  pose proof (peer_cleared _ _ _ _ _ _ _ _ P C) as W1. pose proof (cl_machine _ _ _ C) as Em.
  pose proof (cl_vaddr _ _ _ C PF_KERNEL) as Ek. pose proof (cl_vaddr _ _ _ C PF_USER) as Eu. cbn [vaddr_of] in Ek, Eu.
  set (c := cr3 (machine st)) in *. set (F := entered p t d v) in *.
  assert (set_cr3 c s1 = s1) as Ec by (apply set_cr3_id; by rewrite Em).
  destruct (mfree_page_spec PF_KERNEL kb PF_KERNEL ids (F s1)) as (q1 & q2 & E2 & Pf & W2 & Em2 & Ep2 & _ & Vs & Vz & Vu & Ecu); try done.
  { change (kb + Z.of_nat (length ids) <= vsize (kernel_vaddr s1)). by rewrite Ek. }
  { intros j i Hi. destruct (pe_bitmap _ _ _ _ _ _ _ P j i Hi) as (B1 & B2 & B3).
    change (pool_of PF_KERNEL (F s1)) with (pool_of PF_KERNEL s1). rewrite (cleared_psize _ _ _ C), (cleared_pframe _ _ _ C).
    change (vaddr_of PF_KERNEL (F s1)) with (kernel_vaddr s1). rewrite Ek.
    change (machine (F s1)) with (with_cr3 p (machine s1)). rewrite Em. split; [done|]. by split. }
  { change (phy_addr_start (pool_of PF_KERNEL (F s1))) with (phy_addr_start (pool_of PF_KERNEL s1)).
    destruct (cl_pool _ _ _ C PF_KERNEL) as (_ & -> & _). exact D7. }
  change (vaddr_of PF_KERNEL (F s1)) with (kernel_vaddr s1) in *. rewrite Ek in *.
  assert (agree F (set_cr3 c) p c s1) as HA.
  { split; [split|].
    - apply W1.
    - rewrite Ec, Em. exact D1.
    - rewrite Em. exact (pe_kern _ _ _ _ _ _ _ P). }
  destruct (both_mfree F (set_cr3 c) p c (vpage (kernel_vaddr st) kb) (Z.of_nat (length ids)) s1 HA) with (a := tt) (s1 := q2)
    as (s' & -> & E3 & _).
  { unfold vpage, PG_SIZE. lia. }
  { destruct ids; [done|]. cbn. lia. }
  { destruct (mw_vaddr _ W1 PF_KERNEL) as [_ _ [_ R] _]. change (vaddr_of PF_KERNEL (F s1)) with (kernel_vaddr s1) in R.
    rewrite Ek in R. unfold vpage, PG_SIZE in *. lia. }
  { exact E2. }
  rewrite Ec in E3. exists (set_cr3 c s'). pose proof (mfree_own _ _ _ _ _ E3) as Eo.
  injection Eo as _ O2 O3 O4. destruct (cl_cur _ _ _ C) as [O2' O3'].
  assert (forall pf, pool_of pf (set_cr3 c s') = pool_of pf q1) as Hpool by (intros pf; rewrite <- Ep2; by destruct pf).
  assert (forall pf, pool_of pf (F s1) = pool_of pf s1) as HpF by (by intros []).
  split; [|split; [split|split]].
  - unfold release_memory. rewrite (bind_done _ _ _ _ _ E1). erewrite bind_done; [|done]. cbn [id]. rewrite Eu, <- D4. exact E3.
  - intros pf i Hi Hf. rewrite Hpool, (pf_used _ _ _ _ _ Pf), HpF by lia.
    case_decide as Hd; [done|]. destruct Hf as [Hf|Hf]; [by apply (cl_gone _ _ _ C)|done].
  - intros pf i Hi Hf Hn. rewrite Hpool, (pf_used _ _ _ _ _ Pf), HpF, decide_False by (done || lia). by apply (cl_same _ _ _ C).
  - intros pf. rewrite Hpool. destruct (pf_pool _ _ _ _ _ Pf pf) as (-> & -> & _ & ->). rewrite HpF. apply (cl_pool _ _ _ C pf).
  - intros j Hj. exact (Vu j Hj).
  - split_and!; [done|exact (eq_trans O2 O2')|exact (eq_trans O3 O3')|exact (eq_trans O4 Eu)].
  - exact W2.
  - intros va Hm Hn. change (view p (set_cr3 c s')) with (machine (F s')). rewrite Em2, (pf_others _ _ _ _ _ Pf); [| |done].
    2: { revert Hm. apply managed_grow. intros []; [exact (eq_sym Ek)|done]. }
    change (machine (F s1)) with (with_cr3 p (machine s1)). by rewrite Em.
Qed.

Lemma release_all_peers st kb ids p t d v :
  dying st kb ids -> peer p t d v st kb ids ->
  exists st', release_memory (cur_pgdir st) (vpage (kernel_vaddr st) kb) st = Done (tt, st') /\ given_back st st' kb ids /\
    forall p' t' d' v', peer p' t' d' v' st kb ids -> undisturbed p' t' d' v' st st' kb ids.
Proof.
  intros Hdying Hpeer. destruct (release_peer st kb ids p t d v Hdying Hpeer) as (st' & E & G & _). exists st'. split_and!; [done..|].
  intros p' t' d' v' Hp. destruct (release_peer st kb ids p' t' d' v' Hdying Hp) as (st'' & E' & _ & U).
  rewrite E in E'. by injection E' as <-.
Qed.

(** C10: the memory of an exiting process goes back, and nothing else.  Seen by
    any other process that shares the kernel's half and no frame, the call
    leaves the allocator's invariant and every other page where it was; exactly
    the frames of the user half, pages and page tables, and those of the first
    pages of the bitmap become free, and the bitmap's kernel pages with them;
    the process still runs on its directory, with its bitmap in its PCB. *)
Theorem release_memory_correct (st : mst) (kb : Z) (ids : list Z) (p t d : Z) (v : virtual_addr)
  (Hdying : dying st kb ids) (Hpeer : peer p t d v st kb ids) :
  exists st', release_memory (cur_pgdir st) (vpage (kernel_vaddr st) kb) st = Done (tt, st') /\ given_back st st' kb ids /\
    forall p' t' d' v', peer p' t' d' v' st kb ids -> undisturbed p' t' d' v' st st' kb ids.
Proof.
  by apply (release_all_peers st kb ids p t d v).
Qed.

(** ** A process with one page and a peer

    The process of [Forkmem]'s example takes 22 pages for a bitmap and makes a
    directory for another process, at frame 0x217000. *)
Definition ex_bits_dir : M mst (Z * Z) := let! b := get_kernel_pages 22 in let! d := create_page_dir in ret (b, d).
Definition ex_exit_run : outcome ((Z * Z) * mst) := ex_bits_dir ex_fork_mst.
Definition state_of {A} (o : outcome (A * mst)) (s0 : mst) : mst := match o with Done (_, s) => s | Halt _ => s0 end.
Definition value_of {A} (o : outcome (A * mst)) (a0 : A) : A := match o with Done (a, _) => a | Halt _ => a0 end.
Definition ex_exit_mst : mst := state_of ex_exit_run ex_fork_mst.
Definition ex_ids : list Z := seqZ 1 22.

(** What is computed of that run, once. *)
Definition leads (m : mmu) (va pa : Z) : bool := match translate m va with Done x => x =? pa | Halt _ => false end.
Definition ex_facts (st : mst) : list bool :=
  [ forallZ 1023 (fun d => negb (present (pde_at (machine st) d)) ||
      ((d =? 32) && (frame (pde_at (machine st) d) =? 0x200000)) || ((d =? 768) && (frame (pde_at (machine st) d) =? 0x101000)));
    forallZ 1024 (fun e => negb (present (pte_at (machine st) 32 e)) || (frame (pte_at (machine st) 32 e) =? 0x300000));
    forallZ 1024 (fun e => negb (present (pte_at (machine st) 768 e)) ||
      (negb (frame (pte_at (machine st) 768 e) =? 0x200000) && negb (frame (pte_at (machine st) 768 e) =? 0x300000)));
    forallZ 22 (fun j => leads (machine st) (0xc0101000 + j * 4096) (0x201000 + j * 4096));
    leads (machine st) 0xc0100000 0x100000; cur_pgdir st =? 0xc0100000;
    vaddr_start (kernel_vaddr st) =? 0xc0100000; vsize (kernel_vaddr st) =? 64;
    phy_addr_start (kernel_pool st) =? 0x200000; psize (kernel_pool st) =? 128;
    phy_addr_start (user_pool st) =? 0x300000; psize (user_pool st) =? 8;
    btmp_bytes_len (vaddr_bitmap (userprog_vaddr st)) =? 94199;
    leads (machine st) 0xc0117000 0x217000 ].
Definition ex_run_facts (o : outcome ((Z * Z) * mst)) : bool :=
  match o with Done ((_, d), st) => (d =? 0xc0117000) && forallb id (ex_facts st) | Halt _ => false end.
Lemma ex_exit_facts : ex_run_facts ex_exit_run = true.
Proof. vm_compute. reflexivity. Qed.

Lemma ex_run_facts_state o s0 : ex_run_facts o = true -> forallb id (ex_facts (state_of o s0)) = true.
Proof. destruct o as [[[b d] st]|]; [|done]. intros [_ X]%andb_true_iff. exact X. Qed.

Lemma leads_done m va pa : leads m va pa = true -> translate m va = Done pa.
Proof. unfold leads. destruct (translate m va); [|done]. by intros ->%Z.eqb_eq. Qed.

Lemma ex_exit_space : new_space 0x100000 0x217000 ex_exit_mst.
Proof.
  pose proof (fo_room _ _ ex_fork_ok) as R. rewrite ex_fork_pages in R.
  destruct (room_alloc 22 (1 + 3) 1 ex_fork_mst R ltac:(lia) ltac:(lia)) as (r & ids & s1 & E1 & _ & _ & _ & _ & R1 & K1).
  destruct (create_page_dir_spec 3 1 s1 R1 ltac:(lia)) as (d & j & s2 & E2 & [_ _ Da _] & _ & _ & _ & N).
  rewrite (kt_cr3 _ _ K1) in N. change (cr3 (machine ex_fork_mst)) with 0x100000 in N.
  assert (ex_exit_run = Done (vpage (kernel_vaddr ex_fork_mst) r, d, s2)) as E.
  { unfold ex_exit_run, ex_bits_dir. rewrite (bind_done _ _ _ _ _ E1), (bind_done _ _ _ _ _ E2). done. }
  assert (ex_exit_mst = s2) as Es by (unfold ex_exit_mst; by rewrite E).
  pose proof ex_exit_facts as X. rewrite E in X. cbn [ex_run_facts] in X. apply andb_true_iff in X as [Ed%Z.eqb_eq X].
  destruct Da as (_ & _ & _ & Da). specialize (Da 0 ltac:(lia)). rewrite Ed, !Z.add_0_r in Da.
  assert (translate (machine s2) 0xc0117000 = Done 0x217000) as X'.
  { apply leads_done. rewrite forallb_forall in X. apply X. unfold ex_facts. cbn. tauto. }
  rewrite X' in Da. injection Da as Ej. rewrite <- Ej in N. by rewrite Es.
Qed.

(** A page from the translation of its first byte. *)
Lemma page_at_start m va f : 0 <= va -> va + 4096 <= 0xffc00000 -> va mod 4096 = 0 -> translate m va = Done f -> page_at m va f.
Proof.
  intros H0 H1 Ha Ht. pose proof (Z.div_mod va 4096 ltac:(lia)) as Ed. rewrite Ha in Ed.
  assert (forall o, 0 <= o < 4096 -> PDE_IDX (va + o) = PDE_IDX va /\ PTE_IDX (va + o) = PTE_IDX va /\ Z.land (va + o) 0xfff = o) as Hi.
  { intros o Ho. assert ((va + o) / 4096 = va / 4096) as E by (symmetry; apply Z.div_unique with o; lia).
    rewrite !PDE_IDX_eq, !PTE_IDX_eq, land_low by (unfold is_u32; lia). change 4194304 with (4096 * 1024).
    rewrite <- !Z.div_div by lia. rewrite E. split_and!; [done..|]. symmetry. apply Z.mod_unique with (va / 4096); lia. }
  destruct (Hi 0 ltac:(lia)) as (_ & _ & L0). rewrite Z.add_0_r in L0.
  unfold translate, pte_loc, pde_of in Ht. destruct (present (rd_ram m (cr3 m + _))) eqn:P1; [|done].
  destruct (present (rd_ram m (frame _ + _))) eqn:P2; [|done]. injection Ht as Hf. rewrite L0, Z.add_0_r in Hf.
  split; [done|]. split; [done|]. split; [rewrite <- Hf; apply frame_aligned|]. intros o Ho. destruct (Hi o Ho) as (E1 & E2 & E3).
  unfold translate, pte_loc, pde_of. rewrite E1, E2, P1, P2, E3. by rewrite Hf.
Qed.

Section example.
Context (st : mst) (N : new_space 0x100000 0x217000 st).
Context (Hpdes : forallZ 1023 (fun d => negb (present (pde_at (machine st) d)) ||
  ((d =? 32) && (frame (pde_at (machine st) d) =? 0x200000)) || ((d =? 768) && (frame (pde_at (machine st) d) =? 0x101000))) = true).
Context (Hptes : forallZ 1024 (fun e => negb (present (pte_at (machine st) 32 e)) || (frame (pte_at (machine st) 32 e) =? 0x300000)) = true).
Context (Hkern : forallZ 1024 (fun e => negb (present (pte_at (machine st) 768 e)) ||
  (negb (frame (pte_at (machine st) 768 e) =? 0x200000) && negb (frame (pte_at (machine st) 768 e) =? 0x300000))) = true).
Context (Hbits : forallZ 22 (fun j => leads (machine st) (0xc0101000 + j * 4096) (0x201000 + j * 4096)) = true).
Context (Hdir : translate (machine st) 0xc0100000 = Done 0x100000 /\ cur_pgdir st = 0xc0100000).
Context (Hk : vaddr_start (kernel_vaddr st) = 0xc0100000 /\ vsize (kernel_vaddr st) = 64).
Context (Hp : phy_addr_start (kernel_pool st) = 0x200000 /\ psize (kernel_pool st) = 128).
Context (Hu : phy_addr_start (user_pool st) = 0x300000 /\ psize (user_pool st) = 8).
Context (Hlen : btmp_bytes_len (vaddr_bitmap (userprog_vaddr st)) = 94199).

Local Lemma ex_pdes d : 0 <= d < 1023 -> present (pde_at (machine st) d) = true ->
  (d = 32 /\ frame (pde_at (machine st) d) = 0x200000) \/ (d = 768 /\ frame (pde_at (machine st) d) = 0x101000).
Proof. intros Hd Hpr. pose proof (forallZ_spec _ _ Hpdes d Hd) as Hx. cbv beta in Hx. rewrite Hpr in Hx. lia. Qed.

Local Lemma ex_frames f : user_frames (machine st) 0 f -> f = 0x200000 \/ f = 0x300000.
Proof.
  intros (d & Hd & Hpr & Hf). destruct (ex_pdes d ltac:(lia) Hpr) as [[-> E]|[-> _]]; [|lia].
  destruct Hf as [->|(e & He & Hpe & ->)]; [by left|right].
  pose proof (forallZ_spec _ _ Hptes e He) as Hx. cbv beta in Hx. rewrite Hpe in Hx. lia.
Qed.

Local Lemma ex_tables f : table_frame (view 0x217000 st) f -> f = 0x217000 \/ f = 0x101000.
Proof.
  intros [->|(d & Hd & Hpr & <-)]; [by left|right].
  change (rd_ram (view 0x217000 st) (cr3 (view 0x217000 st) + d * 4)) with (rd_ram (machine st) (0x217000 + d * 4)) in *.
  rewrite (ns_dir _ _ _ N) in * by lia. case_decide; [done|]. rewrite decide_True in * by lia.
  rewrite <- (ns_cr3 _ _ _ N) in *. fold (pde_at (machine st) d) in *.
  destruct (ex_pdes d ltac:(lia) Hpr) as [[-> _]|[_ E]]; [lia|done].
Qed.

Local Lemma ex_id j i : ex_ids !! j = Some i -> i = 1 + Z.of_nat j /\ (j < 22)%nat.
Proof. unfold ex_ids. intros [-> Hj]%lookup_seqZ. split; [done|lia]. Qed.

Lemma ex_peer : peer 0x217000 0xc0020000 0xc0117000 (mk_vaddr (mk_bitmap 0 []) 0) st 1 ex_ids.
Proof.
  split.
  - apply (new_space_entered 0x100000); [done| |by vm_compute].
    split; [split; cbn; [lia|by constructor|lia]|done|by vm_compute|by vm_compute].
  - intros i Hi. rewrite (ns_cr3 _ _ _ N). rewrite (ns_dir _ _ _ N), decide_False, decide_True by lia. done.
  - intros f Hf%ex_frames Ht%ex_tables. lia.
  - intros f va pa Hf%ex_frames Hl Ht. destruct (ns_mapped _ _ _ N va pa Hl Ht) as [Hkv Htr].
    unfold translate in Htr. destruct (present (pde_of _ va)) eqn:Hpr; [|done].
    pose proof (kernel_va_idx va Hkv) as Hi. change (pde_of (machine st) va) with (pde_at (machine st) (PDE_IDX va)) in Hpr.
    destruct (ex_pdes (PDE_IDX va) ltac:(lia) Hpr) as [[E _]|[E _]]; [lia|].
    assert (rd_ram (machine st) (pte_loc (machine st) va) = pte_at (machine st) 768 (PTE_IDX va)) as El.
    { unfold pte_loc, pte_at. change (pde_of (machine st) va) with (pde_at (machine st) (PDE_IDX va)). by rewrite E. }
    rewrite El in Htr. destruct (present (pte_at _ _ _)) eqn:Hpt; [|done]. injection Htr as <-.
    rewrite frame_page; [|apply frame_aligned|rewrite land_low; apply Z.mod_pos_bound; lia].
    pose proof (forallZ_spec _ _ Hkern _ (PTE_IDX_range va)) as Hx. cbv beta in Hx. rewrite Hpt in Hx. lia.
  - intros j i Hji. apply ex_id in Hji as [-> Hj].
    pose proof (forallZ_spec _ _ Hbits (Z.of_nat j) ltac:(lia)) as Hx. cbv beta in Hx.
    assert (vpage (kernel_vaddr st) (1 + Z.of_nat j) = 0xc0101000 + Z.of_nat j * 4096) as Ev by (unfold vpage, PG_SIZE; lia).
    assert (pframe (kernel_pool st) (1 + Z.of_nat j) = 0x201000 + Z.of_nat j * 4096) as Ef by (unfold pframe, PG_SIZE; lia).
    cbn [pool_of vaddr_of entered kernel_pool kernel_vaddr machine]. fold (view 0x217000 st). split; [lia|]. rewrite Ev, Ef. split.
    + rewrite (ns_translate _ _ _ N) by (unfold low_va; lia). rewrite decide_False by (unfold user_va; lia).
      by apply leads_done.
    + intros Ht%ex_tables. lia.
Qed.

Lemma ex_dying : dying st 1 ex_ids.
Proof.
  destruct Hdir as [Hd1 Hd2]. split.
  - exact (mw_pt _ (ns_wf _ _ _ N)).
  - rewrite (ns_cr3 _ _ _ N), Hd2. by apply page_at_start.
  - intros f [-> | ->]%ex_frames; [exists PF_KERNEL, 0|exists PF_USER, 0]; cbn [pool_of]; unfold pframe; split; lia.
  - rewrite Hlen. done.
  - change (length ex_ids) with 22%nat. lia.
  - lia.
Qed.
End example.

Lemma ex_exit_all : dying ex_exit_mst 1 ex_ids /\ peer 0x217000 0xc0020000 0xc0117000 (mk_vaddr (mk_bitmap 0 []) 0) ex_exit_mst 1 ex_ids /\
  cur_pgdir ex_exit_mst = 0xc0100000 /\ vpage (kernel_vaddr ex_exit_mst) 1 = 0xc0101000.
Proof.
  pose proof (ex_run_facts_state ex_exit_run ex_fork_mst ex_exit_facts : forallb id (ex_facts ex_exit_mst) = true) as F.
  generalize (ex_dying ex_exit_mst ex_exit_space), (ex_peer ex_exit_mst ex_exit_space). revert F. generalize ex_exit_mst. intros st F Hdy Hpe.
  unfold ex_facts in F. cbn [forallb id] in F. unfold id in F. rewrite !andb_true_iff, !Z.eqb_eq in F.
  destruct F as (F1 & F2 & F3 & F4 & F5%leads_done & F6 & F7 & F8 & F9 & F10 & F11 & F12 & F13 & _). split_and!.
  - by apply Hdy.
  - by apply Hpe.
  - done.
  - unfold vpage. by rewrite F7.
Qed.
Lemma ex_exit_dying : dying ex_exit_mst 1 ex_ids.
Proof. apply ex_exit_all. Qed.
Lemma ex_exit_peer : peer 0x217000 0xc0020000 0xc0117000 (mk_vaddr (mk_bitmap 0 []) 0) ex_exit_mst 1 ex_ids.
Proof. apply ex_exit_all. Qed.
Lemma ex_exit_values : cur_pgdir ex_exit_mst = 0xc0100000 /\ vpage (kernel_vaddr ex_exit_mst) 1 = 0xc0101000.
Proof. apply ex_exit_all. Qed.

Lemma release_memory_correct_witness :
  exists st', release_memory (cur_pgdir ex_exit_mst) (vpage (kernel_vaddr ex_exit_mst) 1) ex_exit_mst = Done (tt, st') /\
    given_back ex_exit_mst st' 1 ex_ids /\
    forall p' t' d' v', peer p' t' d' v' ex_exit_mst 1 ex_ids -> undisturbed p' t' d' v' ex_exit_mst st' 1 ex_ids.
Proof.
  exact (release_memory_correct ex_exit_mst 1 ex_ids 0x217000 0xc0020000 0xc0117000 (mk_vaddr (mk_bitmap 0 []) 0) ex_exit_dying ex_exit_peer).
Defined.
