(* ===== verification/Usermem.v ===== *)
(** * Usermem: the pages of a program and their bytes ([userprog/exec.c])

    [load_pages] is the loop of [segment_load] that makes sure every page of a
    segment is there; [put_bytes] is how the bytes that [sys_read] delivers get
    to their virtual addresses.  Memory is kept in words: a byte is part of the
    word it lies in. *)

From stdpp Require Import base numbers list gmap.
From S2P Require Import Prelude.
From S2P Require Import Bitmap.
From S2P Require Import Paging.
From S2P Require Import Seqlock.
From S2P Require Import Memory.
From S2P Require Import Kpages.
From S2P Require Import Procmem.
From S2P Require Import Bothviews.
From S2P Require Import Addrspace.
From S2P Require Import Userpages.

Local Open Scope Z_scope.
Local Open Scope kernel_scope.

(** How many pages a segment touches. *)
Definition occupy_pages (filesz vaddr : Z) : Z :=
  let size_in_first_page := u32 (PG_SIZE - Z.land vaddr 0x00000fff) in
  if size_in_first_page <? filesz then
    let left_size := u32 (filesz - size_in_first_page) in
    u32 (DIV_ROUND_UP left_size PG_SIZE + 1)
  else 1.

(** [!( *pde & 1) || !( *pte & 1)] *)
Definition page_missing (m : mmu) (vaddr_page : Z) : outcome bool :=
  olet pde := vload m (pde_ptr vaddr_page) in
  if Z.land pde 1 =? 0 then Done true else
  olet pte := vload m (pte_ptr vaddr_page) in
  Done (Z.land pte 1 =? 0).

Fixpoint load_pages (n : nat) (vaddr_page : Z) : M mst bool :=
  match n with
  | O => ret true
  | S n =>
      let! st := gets id in
      let! missing := lift (page_missing (machine st) vaddr_page) in
      let! ok :=
        (if missing : bool then
           let! r := get_a_page PF_USER vaddr_page in ret (negb (r =? NULL))
         else ret true) in
      if negb ok then ret false else load_pages n (u32 (vaddr_page + PG_SIZE))
  end.

(** ** Bytes of memory *)
Definition byte_of (w j : Z) : Z := Z.land (Z.shiftr w (8 * j)) 255.
Definition with_byte (w j b : Z) : Z := Z.lor (Z.land w (Z.lnot (Z.shiftl 255 (8 * j)))) (Z.shiftl b (8 * j)).

Definition get_byte (m : mmu) (va : Z) : outcome Z :=
  olet pa := translate m va in Done (byte_of (rd_ram m (pa / 4 * 4)) (pa mod 4)).
Definition put_byte (m : mmu) (va b : Z) : outcome mmu :=
  olet pa := translate m va in
  Done (wr_ram m (pa / 4 * 4) (with_byte (rd_ram m (pa / 4 * 4)) (pa mod 4) b)).

Fixpoint put_bytes (m : mmu) (va : Z) (data : list Z) : outcome mmu :=
  match data with
  | [] => Done m
  | b :: data => olet m := put_byte m va b in put_bytes m (u32 (va + 1)) data
  end.

(** ** A byte in a word *)
Lemma byte_of_bits w j n : 0 <= j -> 0 <= n -> Z.testbit (byte_of w j) n = if decide (n < 8) then Z.testbit w (n + 8 * j) else false.
Proof.
  intros Hj Hn. unfold byte_of. rewrite Z.land_spec, Z.shiftr_spec by lia. change 255 with (Z.ones 8).
  rewrite Z.testbit_ones by lia. case_decide.
  - rewrite (proj2 (Z.ltb_lt n 8)), (proj2 (Z.leb_le 0 n)) by lia. by rewrite andb_true_r.
  - rewrite (proj2 (Z.ltb_ge n 8)) by lia. by rewrite !andb_false_r.
Qed.

Lemma u8_high b n : is_u8 b -> 8 <= n -> Z.testbit b n = false.
Proof.
  intros Hb Hn. unfold is_u8 in Hb. destruct (decide (b = 0)) as [->|]; [apply Z.testbit_0_l|].
  apply Z.bits_above_log2; [lia|]. apply Z.log2_lt_pow2; [lia|]. apply Z.lt_le_trans with (2 ^ 8); [lia|].
  apply Z.pow_le_mono_r; lia.
Qed.

Lemma with_byte_bits w j b n : 0 <= j -> 0 <= n -> is_u8 b ->
  Z.testbit (with_byte w j b) n = if decide (8 * j <= n < 8 * j + 8) then Z.testbit b (n - 8 * j) else Z.testbit w n.
Proof.
  intros Hj Hn Hb. unfold with_byte. rewrite Z.lor_spec, Z.land_spec, Z.lnot_spec, !Z.shiftl_spec by lia.
  change 255 with (Z.ones 8). case_decide as Hd.
  - rewrite Z.testbit_ones by lia. rewrite (proj2 (Z.leb_le 0 (n - 8 * j))), (proj2 (Z.ltb_lt (n - 8 * j) 8)) by lia.
    by rewrite andb_false_r.
  - rewrite Z.testbit_ones by lia. destruct (decide (n < 8 * j)).
    + rewrite (proj2 (Z.leb_gt 0 (n - 8 * j))) by lia. rewrite (Z.testbit_neg_r b) by lia. by rewrite andb_true_r, orb_false_r.
    + rewrite (proj2 (Z.ltb_ge (n - 8 * j) 8)), andb_false_r by lia. rewrite (u8_high b) by (done || lia). by rewrite andb_true_r, orb_false_r.
Qed.

Lemma byte_of_with w i j b : 0 <= i -> 0 <= j -> is_u8 b -> byte_of (with_byte w j b) i = if decide (i = j) then b else byte_of w i.
Proof.
  intros Hi Hj Hb. apply Z.bits_inj'. intros n Hn. rewrite byte_of_bits by done. destruct (decide (i = j)) as [Hij|Hij].
  - subst i. case_decide; [|symmetry; apply u8_high; [done|lia]]. rewrite with_byte_bits, decide_True by (done || lia). f_equal. lia.
  - rewrite byte_of_bits by done. case_decide; [|done]. rewrite with_byte_bits, decide_False by (done || lia). done.
Qed.

Lemma with_byte_u32 w j b : is_u32 w -> 0 <= j < 4 -> is_u8 b -> u32 (with_byte w j b) = with_byte w j b.
Proof.
  intros Hw Hj Hb. unfold u32. change 4294967296 with (2 ^ 32). rewrite <- Z.land_ones by lia.
  apply Z.bits_inj'. intros n Hn. rewrite Z.land_spec, Z.testbit_ones by lia. rewrite with_byte_bits by (done || lia).
  destruct (decide (n < 32)).
  - by rewrite (proj2 (Z.ltb_lt n 32)), (proj2 (Z.leb_le 0 n)), andb_true_r by lia.
  - rewrite (proj2 (Z.ltb_ge n 32)), !andb_false_r by lia. rewrite decide_False by lia. symmetry.
    unfold is_u32 in Hw. destruct (decide (w = 0)) as [->|]; [apply Z.testbit_0_l|].
    apply Z.bits_above_log2; [lia|]. apply Z.log2_lt_pow2; [lia|]. apply Z.lt_le_trans with (2 ^ 32); [lia|]. apply Z.pow_le_mono_r; lia.
Qed.

(** What page sizes amount to: the pages counted are just enough. *)
Lemma occupy_pages_covers filesz vaddr : is_u32 vaddr -> 0 <= filesz -> vaddr + filesz <= 0xffc00000 ->
  let first := vaddr - vaddr mod 4096 in
  1 <= occupy_pages filesz vaddr /\
  vaddr + filesz <= first + occupy_pages filesz vaddr * 4096 /\
  (0 < filesz -> first + (occupy_pages filesz vaddr - 1) * 4096 < vaddr + filesz).
Proof.
  intros Hv Hf He. cbv zeta. unfold is_u32 in Hv. unfold occupy_pages. cbv zeta. unfold PG_SIZE. rewrite land_low.
  pose proof (Z.mod_pos_bound vaddr 4096 ltac:(lia)) as Hm. rewrite (u32_id (4096 - _)) by (unfold is_u32; lia).
  destruct (Z.ltb_spec (4096 - vaddr mod 4096) filesz); [|lia].
  rewrite (u32_id (filesz - _)) by (unfold is_u32; lia).
  set (l := filesz - (4096 - vaddr mod 4096)) in *. unfold DIV_ROUND_UP.
  rewrite (u32_id (l + 4096)) by (unfold is_u32; lia). rewrite (u32_id (l + 4096 - 1)) by (unfold is_u32; lia).
  pose proof (Z.div_mod (l + 4096 - 1) 4096 ltac:(lia)). pose proof (Z.mod_pos_bound (l + 4096 - 1) 4096 ltac:(lia)).
  rewrite u32_id by (unfold is_u32; lia). lia.
Qed.

(** ** The pages of a segment *)

(** A process whose pages are in order: what it has reserved is mapped to
    frames of the user pool, and page tables are elsewhere. *)
Record in_order (st : mst) : Prop := {
  io_wf : mem_wf st;
  io_cur : cur st <> 0 /\ cur_pgdir st <> 0;
  io_lock : slock_ok (cur st) (pool_lock (user_pool st));
  io_back : all_backed (machine st) st;
  io_user : forall i, 0 <= i < psize (user_pool st) -> ~ table_frame (machine st) (pframe (user_pool st) i)
}.

Record pages_there (st st' : mst) (k n : Z) : Prop := {
  th_order : in_order st';
  th_uva : vaddr_start (userprog_vaddr st') = vaddr_start (userprog_vaddr st) /\ vsize (userprog_vaddr st') = vsize (userprog_vaddr st);
  th_used : forall j, 0 <= j -> vused (userprog_vaddr st') j = vused (userprog_vaddr st) j || ((k <=? j) && (j <? k + n));
  th_kva : kernel_vaddr st' = kernel_vaddr st;
  th_cr3 : cr3 (machine st') = cr3 (machine st) /\ cur st' = cur st /\ cur_pgdir st' = cur_pgdir st;
  th_pool : forall pf, pool_grow (pool_of pf st) (pool_of pf st');
  th_kept : forall va pa, low_va va -> translate (machine st) va = Done pa -> translate (machine st') va = Done pa;
  th_data : forall i w, 0 <= i < psize (user_pool st) -> 0 <= w < 1024 ->
    rd_ram (machine st') (pframe (user_pool st) i + w * 4) = rd_ram (machine st) (pframe (user_pool st) i + w * 4)
}.

Lemma pages_there_none st k : in_order st -> pages_there st st k 0.
Proof.
  intros H. split; try done.
  - intros j Hj. destruct (vused (userprog_vaddr st) j); lia.
  - intros pf. apply pool_grow_refl. exact (mw_pool st (io_wf _ H) pf).
Qed.

Lemma pages_there_trans st st1 st2 k n : 0 <= n ->
  pages_there st st1 k 1 -> pages_there st1 st2 (k + 1) n -> pages_there st st2 k (n + 1).
Proof.
  intros Hn [A1 [A2 A2'] A3 A4 (A5 & A5' & A5'') A6 A7 A8] [B1 [B2 B2'] B3 B4 (B5 & B5' & B5'') B6 B7 B8].
  pose proof (A6 PF_USER) as G. cbn [pool_of] in G. split; try congruence.
  - split; congruence.
  - intros j Hj. rewrite B3, A3 by done.
    destruct (vused (userprog_vaddr st) j); [done|]. cbn [orb]. lia.
  - split_and!; congruence.
  - intros pf. by eapply pool_grow_trans.
  - auto.
  - intros i w Hi Hw. rewrite <- A8 by done. rewrite <- (pool_grow_pframe _ _ _ G). apply B8; [by rewrite (pg_psize _ _ G)|done].
Qed.

Lemma page_missing_spec m v : self_mapped m -> low_va v ->
  page_missing m v = Done (match translate m v with Done _ => false | Halt _ => true end).
Proof.
  intros Hs Hl. unfold page_missing. unfold vload at 1. rewrite translate_pde_ptr by auto. cbn [obind].
  change (rd_ram m (cr3 m + PDE_IDX v * 4)) with (pde_of m v).
  assert (forall e, (Z.land e 1 =? 0) = negb (present e)) as Hn by (intros; unfold present; by rewrite negb_involutive).
  rewrite Hn. unfold translate. destruct (present (pde_of m v)) eqn:Hp; [|done]. cbn [negb].
  rewrite vload_pte by auto. cbn [obind]. rewrite Hn. cbv zeta. by destruct (present (rd_ram m (pte_loc m v))).
Qed.

(** One page: it is there already, or it is taken. *)
Lemma load_page_spec st k :
  in_order st -> 0 <= k < vsize (userprog_vaddr st) -> (0 < ufree st)%nat -> (0 < kfree st)%nat ->
  exists st', (let! missing := lift (page_missing (machine st) (vpage (userprog_vaddr st) k)) in
      if missing : bool then let! r := get_a_page PF_USER (vpage (userprog_vaddr st) k) in ret (negb (r =? NULL)) else ret true) st
    = Done (true, st') /\ pages_there st st' k 1 /\ (ufree st <= S (ufree st'))%nat /\ (kfree st <= S (kfree st'))%nat.
Proof.
  intros H Hk Hu Hkf. pose proof (io_wf _ H) as Hwf. pose proof (vpage_low st PF_USER k Hwf Hk) as Hl. cbn [vaddr_of] in Hl.
  unfold bind at 1, lift. rewrite page_missing_spec by (done || apply Hwf). cbn [obind].
  destruct (vused (userprog_vaddr st) k) eqn:Hku.
  - destruct (io_back _ H k Hk Hku) as (i & Hi & P1 & P2 & P3 & P4). specialize (P4 0 ltac:(lia)). rewrite Z.add_0_r in P4. rewrite P4.
    exists st. split; [done|]. split; [|lia]. destruct (pages_there_none st k H) as [A1 A2 A3 A4 A5 A6 A7 A8]. split; try done.
    intros j Hj. destruct (decide (j = k)) as [->|]; [by rewrite Hku|].
    destruct (vused (userprog_vaddr st) j); lia.
  - pose proof (mw_unmapped st Hwf PF_USER k (vpage (userprog_vaddr st) k) Hk Hku) as Hun. cbn [vaddr_of] in Hun.
    unfold unmapped in Hun. rewrite Hun by (unfold PG_SIZE; lia).
    destruct (get_a_page_spec st k) as (i & st' & E & P); try apply H; try done.
    unfold bind. rewrite E. rewrite (proj2 (Z.eqb_neq (vpage (userprog_vaddr st) k) NULL)).
    2: { destruct (mw_vaddr st Hwf PF_USER) as [_ _ _ V]. cbn [vaddr_of] in V. specialize (V ltac:(lia)). unfold vpage, PG_SIZE, NULL in *. lia. }
    exists st'. split; [done|]. destruct P as [Q1 (R1 & R2 & R3 & R4) Q3 Q4 Q5 Q6 Q7 Q8 Q9 Q10 Q11 Q12 [Q13 Q14]].
    pose proof (Q6 PF_USER) as GU. cbn [pool_of] in GU.
    assert (forall i, 0 <= i < psize (user_pool st) -> ~ table_frame (machine st') (pframe (user_pool st) i)) as Hnt.
    { intros j Hj [Ht|(j' & Hj' & E' & _)]%Q11; [by apply (io_user _ H j)|].
      by destruct (pframe_inj st PF_USER PF_KERNEL j j' Hwf Hj Hj' E'). }
    split; [|lia]. split; try done.
    + split.
      * done.
      * destruct Q4 as [-> ->]. apply H.
      * destruct Q4 as [-> _]. rewrite (pg_lock _ _ GU). apply H.
      * intros j. rewrite R3, (pg_psize _ _ GU). intros Hj. rewrite R4 by lia.
        assert (vpage (userprog_vaddr st') j = vpage (userprog_vaddr st) j) as -> by (unfold vpage; by rewrite R2).
        case_decide as Hjk; [subst j; intros _|intros Hju].
        -- exists i. rewrite (pool_grow_pframe _ _ _ GU). by destruct Q7.
        -- destruct (io_back _ H j Hj Hju) as (i' & Hi' & P1 & P2 & P3 & P4). exists i'. split; [done|]. rewrite (pool_grow_pframe _ _ _ GU).
           split; [done|]. split; [done|]. split; [done|]. intros o Ho. apply Q10; [unfold low_va; lia|by apply P4].
      * intros j. rewrite (pg_psize _ _ GU), (pool_grow_pframe _ _ _ GU). apply Hnt.
    + intros j Hj. rewrite R4 by done. case_decide as Hjk.
      * subst j. destruct (vused (userprog_vaddr st) k); lia.
      * destruct (vused (userprog_vaddr st) j); lia.
    + intros j w Hj Hw. apply Q12; [|by apply Hnt|done]. apply pframe_aligned; [exact (mw_pool st Hwf PF_USER)|done].
Qed.

Lemma load_pages_spec n : forall st k,
  in_order st -> 0 <= k -> k + Z.of_nat n <= vsize (userprog_vaddr st) -> (n <= ufree st)%nat -> (n <= kfree st)%nat ->
  exists st', load_pages n (vpage (userprog_vaddr st) k) st = Done (true, st') /\ pages_there st st' k (Z.of_nat n) /\
    (ufree st <= n + ufree st')%nat /\ (kfree st <= n + kfree st')%nat.
Proof.
  induction n as [|n IH]; intros st k H Hk Hn Hu Hkf.
  - exists st. split; [done|]. split; [by apply pages_there_none|lia].
  - destruct (load_page_spec st k) as (st1 & E1 & T1 & U1 & K1); [done|lia|lia|lia|].
    destruct (th_uva _ _ _ _ T1) as [V1 V2].
    destruct (IH st1 (k + 1)) as (st2 & E2 & T2 & U2 & K2); [apply T1|lia|lia|lia|lia|].
    exists st2. split; [|split; [replace (Z.of_nat (S n)) with (Z.of_nat n + 1) by lia; by eapply pages_there_trans; [lia| |]|lia]].
    cbn [load_pages]. unfold bind at 1, gets. cbn [id].
    assert (u32 (vpage (userprog_vaddr st) k + PG_SIZE) = vpage (userprog_vaddr st1) (k + 1)) as Ev.
    { destruct (mw_vaddr st (io_wf _ H) PF_USER) as [_ _ [? ?] _]. cbn [vaddr_of] in *. unfold vpage, PG_SIZE in *. rewrite V1.
      rewrite u32_id by (unfold is_u32; lia). lia. }
    unfold bind at 1 in E1. unfold bind at 1. destruct (lift _ st) as [[b s0]|] eqn:El; [|done].
    unfold bind at 1. rewrite E1. cbn [negb]. by rewrite Ev.
Qed.

(** ** The bytes of a segment *)
Definition load_bytes (vaddr : Z) (data : list Z) : M mst unit := fun st =>
  olet m := put_bytes (machine st) vaddr data in Done (tt, set_machine m st).

(** [va] lies in a frame that is not a page table. *)
Definition data_at (m : mmu) (va pa : Z) : Prop :=
  low_va va /\ translate m va = Done pa /\ exists f o, aligned f /\ ~ table_frame m f /\ 0 <= o < 4096 /\ pa = f + o.

Lemma aligned_4 f : aligned f -> f mod 4 = 0.
Proof.
  intros Hf. destruct (aligned_range f Hf) as [_ Hm]. pose proof (Z.div_mod f 4096 ltac:(lia)).
  apply Z.mod_divide; [lia|]. exists (f / 4096 * 1024). lia.
Qed.

Lemma word_in_frame f o : aligned f -> 0 <= o < 4096 -> (f + o) / 4 * 4 = f + o / 4 * 4 /\ (f + o) mod 4 = o mod 4.
Proof.
  intros Hf Ho. pose proof (aligned_4 f Hf) as Hm. pose proof (Z.div_mod f 4 ltac:(lia)) as Ed. rewrite Hm in Ed.
  replace (f + o) with (o + f / 4 * 4) by lia. rewrite Z.div_add, Z.mod_add by lia. lia.
Qed.

Lemma put_byte_spec m va pa b : pt_wf m -> data_at m va pa -> is_u8 b ->
  exists m', put_byte m va b = Done m' /\ same_tables m m' /\
    forall va' pa', low_va va' -> translate m va' = Done pa' -> get_byte m' va' = if decide (pa' = pa) then Done b else get_byte m va'.
Proof.
  intros Hwf (Hl & Ht & f & o & Hf & Hn & Ho & ->) Hb. unfold put_byte. rewrite Ht. cbn [obind].
  destruct (word_in_frame f o Hf Ho) as [Ew Em]. rewrite Ew, Em.
  set (m' := wr_ram m (f + o / 4 * 4) _). exists m'.
  assert (0 <= o / 4 < 1024) as Hw by (split; [apply Z.div_pos; lia|apply Z.div_lt_upper_bound; lia]).
  assert (only_frame f m m') as Hof by (apply only_frame_wr; lia).
  pose proof (only_frame_tables f m m' Hwf Hf Hn Hof) as Hst. split; [done|]. split; [done|].
  intros va' pa' Hl' Ht'. unfold get_byte. rewrite (st_translate _ _ Hst), Ht' by done. cbn [obind].
  unfold m'. rewrite rd_wr_ram. pose proof (Z.mod_pos_bound pa' 4 ltac:(lia)). pose proof (Z.mod_pos_bound o 4 ltac:(lia)).
  pose proof (Z.div_mod pa' 4 ltac:(lia)). pose proof (Z.div_mod o 4 ltac:(lia)). pose proof (aligned_4 f Hf) as Hf4.
  destruct (decide (f + o / 4 * 4 = pa' / 4 * 4)) as [E|E].
  - rewrite with_byte_u32; [|unfold is_u32; rewrite <- rd_ram_u32; apply u32_range|lia|done].
    rewrite byte_of_with by (done || lia). destruct (decide (pa' = f + o)) as [->|Hne].
    + by rewrite decide_True by (rewrite Em; done).
    + rewrite decide_False by lia. by rewrite E.
  - rewrite decide_False; [done|]. intros ->. by rewrite Ew in E.
Qed.

Lemma data_at_same m m' va pa : same_tables m m' -> data_at m va pa -> data_at m' va pa.
Proof.
  intros S (Hl & Ht & f & o & Hf & Hn & Ho & E). split; [done|]. split; [by rewrite (st_translate _ _ S)|].
  exists f, o. by rewrite (st_table_frame _ _ S).
Qed.

(** The bytes are stored one after the other at different places, and no other
    byte changes. *)
Lemma put_bytes_spec data : forall m va (P : Z -> Z),
  pt_wf m -> 0 <= va -> va + Z.of_nat (length data) <= 0xffc00000 -> Forall is_u8 data ->
  (forall j, 0 <= j < Z.of_nat (length data) -> data_at m (va + j) (P j)) ->
  (forall i j, 0 <= i < Z.of_nat (length data) -> 0 <= j < Z.of_nat (length data) -> P i = P j -> i = j) ->
  exists m', put_bytes m va data = Done m' /\ same_tables m m' /\
    (forall (j : nat) b, data !! j = Some b -> get_byte m' (va + Z.of_nat j) = Done b) /\
    (forall va' pa', low_va va' -> translate m va' = Done pa' -> (forall j, 0 <= j < Z.of_nat (length data) -> P j <> pa') ->
       get_byte m' va' = get_byte m va').
Proof.
  induction data as [|b data IH]; intros m va P Hwf Hv He HF Hd Hinj.
  - exists m. split_and!; try done.
  - cbn [length] in *. apply Forall_cons in HF as [Hb HF].
    pose proof (Hd 0 ltac:(lia)) as H0. rewrite Z.add_0_r in H0.
    destruct (put_byte_spec m va (P 0) b Hwf H0 Hb) as (m1 & E1 & S1 & G1).
    destruct (IH m1 (va + 1) (fun j => P (j + 1))) as (m2 & E2 & S2 & G2 & O2); try done; try lia.
    { by apply (st_pt_wf _ _ S1). }
    { intros j Hj. replace (va + 1 + j) with (va + (j + 1)) by lia. apply (data_at_same m); [done|]. apply Hd. lia. }
    { intros i j Hi Hj Eij. apply Hinj in Eij; lia. }
    exists m2. split_and!.
    + cbn [put_bytes]. rewrite E1. cbn [obind]. rewrite u32_id by (unfold is_u32; lia). done.
    + by eapply same_tables_trans.
    + intros [|j] b'; cbn [lookup list_lookup].
      * intros [= <-]. rewrite Z.add_0_r. destruct H0 as (L0 & T0 & _).
        rewrite (O2 va (P 0)); [by rewrite (G1 va (P 0)), decide_True| done|by rewrite (st_translate _ _ S1)|].
        intros j Hj Ej. apply Hinj in Ej; lia.
      * intros Hj. replace (va + Z.of_nat (S j)) with (va + 1 + Z.of_nat j) by lia. by apply G2.
    + intros va' pa' L' T' Hn. rewrite (O2 va' pa'); [|done|by rewrite (st_translate _ _ S1)|].
      * rewrite (G1 va' pa') by done. rewrite decide_False; [done|]. intros ->. by apply (Hn 0); [lia|].
      * intros j Hj. apply Hn. lia.
Qed.

Lemma in_order_same st m : in_order st -> same_tables (machine st) m -> in_order (set_machine m st).
Proof.
  intros [A B C D E] S. split; try done.
  - apply (mem_wf_same st); try done. intros pf. split; try done. exact (mw_pool st A pf).
  - intros k Hk Hu. destruct (D k Hk Hu) as (i & Hi & Hp). exists i. split; [done|]. by apply (page_at_same _ _ _ _ S).
  - intros i Hi Ht. apply (E i Hi). by apply (st_table_frame _ _ S).
Qed.

(** An address in a page the process has. *)
Definition user_at (st : mst) (va : Z) : Prop :=
  exists k, 0 <= k < vsize (userprog_vaddr st) /\ vused (userprog_vaddr st) k = true /\
    vpage (userprog_vaddr st) k <= va < vpage (userprog_vaddr st) k + PG_SIZE.

Definition phys (m : mmu) (va : Z) : Z := match translate m va with Done pa => pa | Halt _ => 0 end.

Lemma user_at_data st va : in_order st -> user_at st va ->
  data_at (machine st) va (phys (machine st) va) /\
  exists i o, 0 <= i < psize (user_pool st) /\ 0 <= o < 4096 /\ va mod 4096 = o /\ phys (machine st) va = pframe (user_pool st) i + o.
Proof.
  intros H (k & Hk & Hu & Hr). destruct (io_back _ H k Hk Hu) as (i & Hi & P1 & P2 & P3 & P4). unfold PG_SIZE in Hr.
  specialize (P4 (va - vpage (userprog_vaddr st) k) ltac:(lia)).
  replace (vpage (userprog_vaddr st) k + (va - vpage (userprog_vaddr st) k)) with va in P4 by lia.
  pose proof (vpage_mod (userprog_vaddr st) k (mw_vaddr st (io_wf _ H) PF_USER)) as Hm.
  assert (va mod 4096 = va - vpage (userprog_vaddr st) k) as Hva.
  { symmetry. apply Z.mod_unique with (vpage (userprog_vaddr st) k / 4096); [lia|].
    pose proof (Z.div_mod (vpage (userprog_vaddr st) k) 4096 ltac:(lia)). lia. }
  unfold phys. rewrite P4. split.
  - split; [unfold low_va; lia|]. split; [done|]. exists (pframe (user_pool st) i), (va - vpage (userprog_vaddr st) k).
    split_and!; try done; try lia. by apply (io_user _ H).
  - exists i, (va - vpage (userprog_vaddr st) k). split_and!; (done || lia).
Qed.

Lemma user_at_managed st va : user_at st va -> managed st va.
Proof. intros (k & Hk & _ & Hr). by exists PF_USER, k. Qed.

(** Different addresses of a process are different places. *)
Lemma user_at_inj st va1 va2 : in_order st -> user_at st va1 -> user_at st va2 ->
  phys (machine st) va1 = phys (machine st) va2 -> va1 = va2.
Proof.
  intros H U1 U2 E. pose proof (io_wf _ H) as Hwf.
  destruct (user_at_data st va1 H U1) as ((L1 & T1 & _) & i1 & o1 & Hi1 & Ho1 & M1 & E1).
  destruct (user_at_data st va2 H U2) as ((L2 & T2 & _) & i2 & o2 & Hi2 & Ho2 & M2 & E2).
  assert (forall i, 0 <= i < psize (user_pool st) -> aligned (pframe (user_pool st) i)) as Ha
    by (intros; apply pframe_aligned; [exact (mw_pool st Hwf PF_USER)|done]).
  assert (frame (phys (machine st) va1) = pframe (user_pool st) i1) as F1 by (rewrite E1; by apply frame_page; [apply Ha|]).
  assert (frame (phys (machine st) va2) = pframe (user_pool st) i1) as F2 by (by rewrite <- E).
  assert (o1 = o2) as ->.
  { rewrite E2 in F2. rewrite frame_page in F2 by (done || by apply Ha). rewrite E1, E2, F2 in E. lia. }
  pose proof (mw_sole st Hwf PF_USER i1 va1 va2 _ _ Hi1 L1 L2 T1 T2 F1 F2) as S12.
  pose proof (mw_sole st Hwf PF_USER i1 va2 va1 _ _ Hi1 L2 L1 T2 T1 F2 F1) as S21.
  pose proof (mw_noalias st Hwf va1 va2 (user_at_managed st va1 U1) (user_at_managed st va2 U2) S12 S21) as Ed.
  unfold PG_SIZE in Ed. rewrite (Z.div_mod va1 4096), (Z.div_mod va2 4096) by lia. congruence.
Qed.

Lemma user_at_grow st st' k n va : pages_there st st' k n -> user_at st va -> user_at st' va.
Proof.
  intros [_ [V1 V2] V3 _ _ _ _ _] (j & Hj & Hu & Hr). exists j. unfold vpage. rewrite V1, V2, V3, Hu by lia. done.
Qed.

(** The memory of a segment: its pages and its bytes are there, and the other
    bytes of the process are as they were. *)
Record segment_there (st st' : mst) (vaddr : Z) (data : list Z) (k n : Z) : Prop := {
  sm_order : in_order st';
  sm_pages : exists st1 m, pages_there st st1 k n /\ same_tables (machine st1) m /\ st' = set_machine m st1;
  sm_there : forall j, 0 <= j < Z.of_nat (length data) -> user_at st' (vaddr + j);
  sm_bytes : forall (j : nat) b, data !! j = Some b -> get_byte (machine st') (vaddr + Z.of_nat j) = Done b;
  sm_others : forall va, user_at st va -> ~ (vaddr <= va < vaddr + Z.of_nat (length data)) ->
    get_byte (machine st') va = get_byte (machine st) va
}.

Lemma get_byte_there st st1 k n va : in_order st -> pages_there st st1 k n -> user_at st va ->
  get_byte (machine st1) va = get_byte (machine st) va.
Proof.
  intros H T U. destruct (user_at_data st va H U) as ((L & Tr & _) & i & o & Hi & Ho & _ & E).
  unfold get_byte. rewrite (th_kept _ _ _ _ T va _ L Tr), Tr. cbn [obind]. do 2 f_equal. rewrite E.
  assert (aligned (pframe (user_pool st) i)) as Ha by (apply pframe_aligned; [exact (mw_pool st (io_wf _ H) PF_USER)|done]).
  destruct (word_in_frame _ o Ha Ho) as [-> _]. apply (th_data _ _ _ _ T); [done|].
  split; [apply Z.div_pos; lia|apply Z.div_lt_upper_bound; lia].
Qed.

Lemma load_bytes_spec st st1 vaddr data k n :
  in_order st -> pages_there st st1 k n -> 0 <= vaddr -> vaddr + Z.of_nat (length data) <= 0xffc00000 -> Forall is_u8 data ->
  (forall j, 0 <= j < Z.of_nat (length data) -> user_at st1 (vaddr + j)) ->
  exists st', load_bytes vaddr data st1 = Done (tt, st') /\ segment_there st st' vaddr data k n.
Proof.
  intros H T Hv He HF HU. pose proof (th_order _ _ _ _ T) as H1.
  destruct (put_bytes_spec data (machine st1) vaddr (fun j => phys (machine st1) (vaddr + j))) as (m & E & S & B & O); try done.
  { apply (io_wf _ H1). }
  { intros j Hj. apply (user_at_data st1 _ H1). by apply HU. }
  { intros i j Hi Hj Ep. apply (user_at_inj st1) in Ep; [lia|done|by apply HU|by apply HU]. }
  exists (set_machine m st1). split; [unfold load_bytes; by rewrite E|]. split.
  - by apply in_order_same.
  - by exists st1, m.
  - exact HU.
  - done.
  - intros va U Hn. rewrite <- (get_byte_there st st1 k n va H T U).
    pose proof (user_at_grow _ _ _ _ _ T U) as U1. destruct (user_at_data st1 va H1 U1) as ((L & Tr & _) & _).
    apply (O va (phys (machine st1) va)); [done|done|]. intros j Hj Ep.
    apply (user_at_inj st1) in Ep; [lia|done|by apply HU|done].
Qed.

Lemma page_of_addr v va : vaddr_wf v -> vaddr_start v <= va -> va < 0xffc00000 ->
  Z.land va 0xfffff000 = vpage v ((va - vaddr_start v) / PG_SIZE) /\ va - va mod 4096 = vpage v ((va - vaddr_start v) / PG_SIZE).
Proof.
  intros [_ Ha [Hs _] _] Hv He. unfold vpage, PG_SIZE in *.
  assert (va - va mod 4096 = vaddr_start v + (va - vaddr_start v) / 4096 * 4096) as E.
  { pose proof (Z.div_mod (vaddr_start v) 4096 ltac:(lia)) as Ed. rewrite Ha in Ed.
    assert ((va - vaddr_start v) / 4096 = va / 4096 - vaddr_start v / 4096) as ->.
    { replace (va - vaddr_start v) with (va + (- (vaddr_start v / 4096)) * 4096) by lia. rewrite Z.div_add by lia. lia. }
    pose proof (Z.div_mod va 4096 ltac:(lia)). lia. }
  split; [|done]. rewrite <- E. fold (frame va). rewrite frame_eq.
  assert (0 <= va / 4096 < 1048576) by (split; [apply Z.div_pos; lia|apply Z.div_lt_upper_bound; lia]).
  rewrite Z.mod_small by lia. pose proof (Z.div_mod va 4096 ltac:(lia)). lia.
Qed.

Lemma segment_memory st vaddr filesz data :
  let v := userprog_vaddr st in
  let k := (vaddr - vaddr_start v) / PG_SIZE in
  let n := occupy_pages filesz vaddr in
  in_order st -> vaddr_start v <= vaddr -> vaddr < vpage v (vsize v) -> 0 <= filesz -> vaddr + filesz <= vpage v (vsize v) ->
  (Z.to_nat n <= ufree st)%nat -> (Z.to_nat n <= kfree st)%nat -> Z.of_nat (length data) <= filesz -> Forall is_u8 data ->
  exists st1 st', load_pages (Z.to_nat n) (Z.land vaddr 0xfffff000) st = Done (true, st1) /\
    load_bytes vaddr data st1 = Done (tt, st') /\ segment_there st st' vaddr data k n /\
    (ufree st <= Z.to_nat n + ufree st')%nat /\ (kfree st <= Z.to_nat n + kfree st')%nat.
Proof.
  intros v k n H Hs Hlt Hf Hend Hu Hk Hd HF. pose proof (mw_vaddr st (io_wf _ H) PF_USER) as Hv. cbn [vaddr_of] in Hv. fold v in Hv.
  pose proof Hv as [_ _ [Hs0 Htop] _].
  destruct (page_of_addr v vaddr Hv Hs ltac:(lia)) as [E1 E2]. fold k in E1, E2.
  destruct (occupy_pages_covers filesz vaddr) as (N1 & N2 & N3); [unfold is_u32; lia|done|lia|]. fold n in N1, N2, N3. rewrite E2 in N2, N3.
  assert (0 <= k) as Hk0 by (apply Z.div_pos; [lia|done]).
  pose proof (Z.mod_pos_bound vaddr 4096 ltac:(lia)) as Hm.
  assert (k + n <= vsize v) as Hfit.
  { unfold vpage, PG_SIZE in *. destruct (decide (filesz = 0)) as [->|].
    - assert (n = 1) as -> by (unfold n, occupy_pages; cbv zeta; unfold PG_SIZE; rewrite land_low, u32_id by (unfold is_u32; lia);
        rewrite (proj2 (Z.ltb_ge _ _)) by lia; done). lia.
    - specialize (N3 ltac:(lia)). lia. }
  destruct (load_pages_spec (Z.to_nat n) st k) as (st1 & El & T & U & K); [done|done|fold v; lia|done|done|].
  rewrite Z2Nat.id in T by lia.
  destruct (load_bytes_spec st st1 vaddr data k n) as (st' & Eb & S); try done; [lia|lia| |].
  { intros j Hj. destruct (th_uva _ _ _ _ T) as [V1 V2]. fold v in V1, V2.
    exists ((vaddr + j - vaddr_start v) / PG_SIZE).
    destruct (page_of_addr v (vaddr + j) Hv ltac:(lia) ltac:(lia)) as [_ Ej].
    assert (vpage (userprog_vaddr st1) ((vaddr + j - vaddr_start v) / PG_SIZE) = vpage v ((vaddr + j - vaddr_start v) / PG_SIZE)) as Ev
      by (unfold vpage; by rewrite V1). rewrite Ev, <- Ej.
    pose proof (Z.mod_pos_bound (vaddr + j) 4096 ltac:(lia)).
    assert (k <= (vaddr + j - vaddr_start v) / PG_SIZE < k + n) as Hkj by (unfold vpage, PG_SIZE in *; lia).
    split; [lia|]. split; [rewrite (th_used _ _ _ _ T) by lia; lia|unfold PG_SIZE; lia]. }
  exists st1, st'. split; [rewrite E1; exact El|]. split; [done|]. split; [done|].
  unfold load_bytes in Eb. destruct (put_bytes _ _ _); [|done]. injection Eb as <-. done.
Qed.
