(* ===== verification/Arena.v ===== *)
(** * Arena: the small-block allocator ([kernel/memory.c]: [sys_malloc],
      [sys_free], [arena2block], [block2arena], [block_desc_init])

    A request of up to 1024 bytes is rounded to one of seven block sizes and
    served from a page (an arena) that begins with a 12-byte header and is cut
    into blocks of that size; the free blocks of each size are in a list.  A
    larger request gets pages of its own behind the same header.

    Pages come from the page allocator through the interface [PageAlloc]; the
    allocator of [Memory] implements it (file [Heapimpl]).  Headers are the map
    [arenas] from page addresses; the free lists are sequences, which is what
    [Klist] shows the linked nodes inside the free blocks to be.  The contents
    of blocks (cleared by [memset]) are not part of the state. *)

From stdpp Require Import base numbers list gmap.
From S2P Require Import Prelude.
From S2P Require Import Seqlock.
From S2P Require Import Paging.

Local Open Scope Z_scope.
Local Open Scope kernel_scope.

(** ** What the page allocator promises

    [pg_runs p m]: the state [p] is in order and [m] are the runs of pages handed
    out, from the address of the first page to their number. *)
Definition run_free (m : gmap Z Z) (a cnt : Z) : Prop :=
  forall a' cnt', m !! a' = Some cnt' -> a + cnt * PG_SIZE <= a' \/ a' + cnt' * PG_SIZE <= a.

Class PageAlloc (P : Type) : Type := {
  pg_alloc : Z -> P -> outcome (Z * P);     (* malloc_page(PF, cnt) *)
  pg_free : Z -> Z -> P -> outcome P;       (* mfree_page(PF, a, cnt) *)
  pg_low : Z;                               (* the lowest address of the pool *)
  pg_runs : P -> gmap Z Z -> Prop;
  pg_can : Z -> P -> Prop;                  (* a run of so many pages can be had *)
  pg_alloc_ok : forall p m cnt, pg_runs p m -> 0 < cnt -> pg_can cnt p ->
    exists a p', pg_alloc cnt p = Done (a, p') /\ pg_runs p' (<[a := cnt]> m) /\
      a mod PG_SIZE = 0 /\ PG_SIZE <= a /\ pg_low <= a /\ a + cnt * PG_SIZE <= 4294967296 /\ run_free m a cnt;
  pg_free_ok : forall p m a cnt, pg_runs p m -> m !! a = Some cnt ->
    exists p', pg_free a cnt p = Done p' /\ pg_runs p' (delete a m)
}.

(** ** Data *)
Record mem_block_desc : Type := mk_desc { block_size : Z; blocks_per_arena : Z; free_list : list Z }.
(** [desc]: the index of the descriptor the pointer points to, [None] for
    [NULL]. *)
Record arena : Type := mk_arena { a_desc : option nat; a_cnt : Z; large : bool }.
Definition arena_size : Z := 12.
Definition DESC_CNT : nat := 7.

Record hst (P : Type) : Type := mk_hst {
  descs : list mem_block_desc;     (* the descriptors of the thread's kind *)
  arenas : gmap Z arena;
  pages : P;
  hlock : slock;                   (* the lock of the pool *)
  pool_bytes : Z;                  (* pool_size of the pool *)
  kernel_thread : bool;            (* the running thread's pgdir is NULL *)
  hcur : Z                         (* the running thread *)
}.
Arguments mk_hst {P}.
Arguments descs {P}.
Arguments arenas {P}.
Arguments pages {P}.
Arguments hlock {P}.
Arguments pool_bytes {P}.
Arguments kernel_thread {P}.
Arguments hcur {P}.

Fixpoint init_descs (n : nat) (bs : Z) : list mem_block_desc :=
  match n with
  | O => []
  | S n => mk_desc bs ((PG_SIZE - arena_size) / bs) [] :: init_descs n (u16 (bs * 2))
  end.
Definition block_desc_init : list mem_block_desc := init_descs DESC_CNT 16.

Definition arena2block (a idx bs : Z) : Z := u32 (a + arena_size + idx * bs).
Definition block2arena (b : Z) : Z := Z.land b 0xfffff000.

Section allocator.
Context {P : Type} `{PageAlloc P}.

Definition upd_descs (f : list mem_block_desc -> list mem_block_desc) (s : hst P) : hst P :=
  mk_hst (f (descs s)) (arenas s) (pages s) (hlock s) (pool_bytes s) (kernel_thread s) (hcur s).
Definition upd_arenas (f : gmap Z arena -> gmap Z arena) (s : hst P) : hst P :=
  mk_hst (descs s) (f (arenas s)) (pages s) (hlock s) (pool_bytes s) (kernel_thread s) (hcur s).
Definition set_pages (p : P) (s : hst P) : hst P :=
  mk_hst (descs s) (arenas s) p (hlock s) (pool_bytes s) (kernel_thread s) (hcur s).
Definition set_hlock (l : slock) (s : hst P) : hst P :=
  mk_hst (descs s) (arenas s) (pages s) l (pool_bytes s) (kernel_thread s) (hcur s).

Definition acquire : M (hst P) unit := fun s =>
  olet l := slock_acquire (hcur s) (hlock s) in Done (tt, set_hlock l s).
Definition release : M (hst P) unit := fun s =>
  olet l := slock_release (hcur s) (hlock s) in Done (tt, set_hlock l s).
Definition malloc_pages (cnt : Z) : M (hst P) Z := fun s =>
  olet (a, p) := pg_alloc cnt (pages s) in Done (a, set_pages p s).
(** The pages go away, and with them the header. *)
Definition mfree_pages (a cnt : Z) : M (hst P) unit := fun s =>
  olet p := pg_free a cnt (pages s) in Done (tt, upd_arenas (delete a) (set_pages p s)).

Definition get_desc (i : nat) : M (hst P) mem_block_desc := fun s =>
  olet d := oget (descs s !! i) Out_of_bounds in Done (d, s).
Definition set_free_list (i : nat) (f : list Z -> list Z) : M (hst P) unit :=
  modify (upd_descs (alter (fun d => mk_desc (block_size d) (blocks_per_arena d) (f (free_list d))) i)).
Definition get_arena (a : Z) : M (hst P) arena := fun s =>
  olet x := oget (arenas s !! a) Out_of_bounds in Done (x, s).
Definition put_arena (a : Z) (x : arena) : M (hst P) unit := modify (upd_arenas (<[a := x]>)).

(** The first descriptor whose blocks are large enough. *)
Fixpoint find_desc (ds : list mem_block_desc) (size : Z) (desc_idx : nat) : nat :=
  match ds with
  | [] => desc_idx
  | d :: ds => if size <=? block_size d then desc_idx else find_desc ds size (S desc_idx)
  end.

(** Cutting the arena into blocks. *)
Fixpoint add_blocks (n : nat) (a block_idx : Z) (desc_idx : nat) : M (hst P) unit :=
  match n with
  | O => ret tt
  | S n =>
      let! d := get_desc desc_idx in
      let b := arena2block a block_idx (block_size d) in
      assertM (negb (bool_decide (b ∈ free_list d))) ;;;
      set_free_list desc_idx (fun l => l ++ [b]) ;;;
      add_blocks n a (block_idx + 1) desc_idx
  end.

Definition sys_malloc (size : Z) : M (hst P) Z :=
  let! s := gets id in
  if negb ((0 <? size) && (size <? pool_bytes s)) then ret 0 else
  acquire ;;;
  if 1024 <? size then
    let page_cnt := DIV_ROUND_UP (u32 (size + arena_size)) PG_SIZE in
    let! a := malloc_pages page_cnt in
    if negb (a =? 0) then
      put_arena a (mk_arena None page_cnt true) ;;;
      release ;;;
      ret (u32 (a + arena_size))
    else release ;;; ret 0
  else
    let! ds := gets descs in
    let desc_idx := find_desc ds size 0 in
    let! d := get_desc desc_idx in
    let! ok :=
      (if bool_decide (free_list d = []) then
         let! a := malloc_pages 1 in
         if a =? 0 then ret false else
         put_arena a (mk_arena (Some desc_idx) (blocks_per_arena d) false) ;;;
         add_blocks (Z.to_nat (blocks_per_arena d)) a 0 desc_idx ;;;
         ret true
       else ret true) in
    if negb ok then release ;;; ret 0 else
    let! d := get_desc desc_idx in
    match free_list d with
    | [] => halt Out_of_bounds      (* list_pop of an empty list *)
    | b :: _ =>
        set_free_list desc_idx (fun l => tail l) ;;;
        let! x := get_arena (block2arena b) in
        put_arena (block2arena b) (mk_arena (a_desc x) (u32 (a_cnt x - 1)) (large x)) ;;;
        release ;;;
        ret b
    end.

(** Taking all blocks of the arena off the free list. *)
Fixpoint remove_blocks (n : nat) (a block_idx : Z) (desc_idx : nat) : M (hst P) unit :=
  match n with
  | O => ret tt
  | S n =>
      let! d := get_desc desc_idx in
      let b := arena2block a block_idx (block_size d) in
      assertM (bool_decide (b ∈ free_list d)) ;;;
      set_free_list desc_idx (filter (fun x => x <> b)) ;;;
      remove_blocks n a (block_idx + 1) desc_idx
  end.

Definition sys_free (ptr : Z) : M (hst P) unit :=
  assertM (negb (ptr =? 0)) ;;;
  let! s := gets id in
  (if kernel_thread s then assertM (K_HEAP_START <=? ptr) else ret tt) ;;;
  acquire ;;;
  let a := block2arena ptr in
  let! x := get_arena a in
  (match a_desc x with
   | None => if large x then mfree_pages a (a_cnt x) else halt Out_of_bounds
   | Some i =>
       set_free_list i (fun l => l ++ [ptr]) ;;;
       let! d := get_desc i in
       let cnt := u32 (a_cnt x + 1) in
       put_arena a (mk_arena (a_desc x) cnt (large x)) ;;;
       if cnt =? blocks_per_arena d then
         remove_blocks (Z.to_nat (blocks_per_arena d)) a 0 i ;;;
         mfree_pages a 1
       else ret tt
   end) ;;;
  release.
End allocator.
