(* ===== verification/Heap.v ===== *)
(** * Heap: correctness of [sys_malloc] and [sys_free]

    The invariant of the arenas and free lists, the blocks in use that a state
    describes ([in_use]), and: blocks in use never overlap, [sys_malloc] adds
    one that was not in use and is large enough, [sys_free] of a block in use
    removes it and no other.  This is the contract of the heap that the file
    system relies on. *)

From stdpp Require Import base numbers list gmap.
From S2P Require Import Prelude.
From S2P Require Import Seqlock.
From S2P Require Import Paging.
From S2P Require Import Arena.

Local Open Scope Z_scope.
Local Open Scope kernel_scope.

(** Sizes and numbers of blocks of the seven descriptors. *)
Definition bsz (i : nat) : Z := 16 * 2 ^ Z.of_nat i.
Definition bpa (i : nat) : Z := 4084 / bsz i.
(** The address of block [k]. *)
Definition block (a : Z) (i : nat) (k : Z) : Z := a + 12 + k * bsz i.

(** The free blocks of an arena. *)
Definition free_cnt (l : list Z) (a : Z) (i : nat) : Z :=
  Z.of_nat (length (filter (fun k => block a i k ∈ l) (seqZ 0 (bpa i)))).

Definition run_len (x : arena) : Z := if large x then a_cnt x else 1.

Section heap.
Context {P : Type} `{PageAlloc P}.
Implicit Types s : hst P.

Record hinv (s : hst P) : Prop := {
  hi_len : length (descs s) = 7%nat;
  hi_descs : forall i d, descs s !! i = Some d -> block_size d = bsz i /\ blocks_per_arena d = bpa i /\ NoDup (free_list d);
  hi_runs : pg_runs (pages s) (run_len <$> arenas s);
  hi_addr : forall a x, arenas s !! a = Some x ->
    a mod 4096 = 0 /\ 4096 <= a /\ pg_low <= a /\ 0 < run_len x /\ a + run_len x * 4096 <= 4294967296;
  hi_disj : forall a a' x x', arenas s !! a = Some x -> arenas s !! a' = Some x' -> a <> a' ->
    a + run_len x * 4096 <= a' \/ a' + run_len x' * 4096 <= a;
  hi_large : forall a x, arenas s !! a = Some x -> large x = true -> a_desc x = None;
  hi_small : forall a x, arenas s !! a = Some x -> large x = false ->
    exists i d, a_desc x = Some i /\ descs s !! i = Some d /\ a_cnt x = free_cnt (free_list d) a i;
  hi_free : forall i d b, descs s !! i = Some d -> b ∈ free_list d ->
    exists a x k, arenas s !! a = Some x /\ a_desc x = Some i /\ 0 <= k < bpa i /\ b = block a i k;
  hi_low : kernel_thread s = true -> K_HEAP_START <= pg_low
}.

(** A block in use: its address and its capacity. *)
Definition in_use (s : hst P) (p c : Z) : Prop :=
  (exists a x, arenas s !! a = Some x /\ large x = true /\ p = a + 12 /\ c = a_cnt x * 4096 - 12) \/
  (exists a x i d k, arenas s !! a = Some x /\ large x = false /\ a_desc x = Some i /\ descs s !! i = Some d /\
     0 <= k < bpa i /\ p = block a i k /\ (p ∉ free_list d) /\ c = bsz i).

(** ** Arithmetic of blocks *)
Lemma size_table (i : nat) : (i < 7)%nat -> 16 <= bsz i <= 1024 /\ 1 <= bpa i <= 255 /\ bpa i * bsz i <= 4084.
Proof. intros Hi. do 7 (destruct i as [|i]; [vm_compute; split_and!; congruence|]). lia. Qed.

Lemma block_range a i k : (i < 7)%nat -> 0 <= k < bpa i -> a + 12 <= block a i k /\ block a i k + bsz i <= a + 4096.
Proof.
  intros Hi Hk. destruct (size_table i Hi) as (Hs & Hb & Hm). unfold block.
  assert (k * bsz i <= (bpa i - 1) * bsz i) by (apply Z.mul_le_mono_nonneg_r; lia). lia.
Qed.

Lemma block_inj a i k k' : (i < 7)%nat -> block a i k = block a i k' -> k = k'.
Proof.
  intros Hi E. destruct (size_table i Hi) as (Hs & _). unfold block in E.
  assert (k * bsz i = k' * bsz i) as E' by lia. apply Z.mul_cancel_r in E'; lia.
Qed.

Lemma page_of_block a p : a mod 4096 = 0 -> is_u32 p -> a <= p < a + 4096 -> block2arena p = a.
Proof.
  intros Ha Hu Hp. unfold block2arena. rewrite land_high_eq by done.
  assert (p mod 4096 = p - a) as ->; [|lia].
  symmetry. apply Z.mod_unique with (a / 4096); [lia|]. pose proof (Z.div_mod a 4096). lia.
Qed.

(** ** Counting *)
Lemma free_cnt_ext l l' a i : (forall k, 0 <= k < bpa i -> block a i k ∈ l <-> block a i k ∈ l') -> free_cnt l a i = free_cnt l' a i.
Proof.
  intros E. unfold free_cnt. f_equal. apply filter_same. intros k Hk%elem_of_seqZ. apply E. lia.
Qed.

Lemma free_cnt_add l l' a i k : (i < 7)%nat -> 0 <= k < bpa i -> block a i k ∉ l ->
  (forall b, b ∈ l' <-> b = block a i k \/ b ∈ l) -> free_cnt l' a i = free_cnt l a i + 1.
Proof.
  intros Hi Hk Hn Hl'. unfold free_cnt. rewrite (filter_flip (fun k => block a i k ∈ l') (fun k => block a i k ∈ l) _ k); [lia|..].
  - apply NoDup_seqZ.
  - apply elem_of_seqZ. lia.
  - apply Hl'. by left.
  - done.
  - intros x _ Hne. rewrite Hl'. split; [|by right]. intros [E|?]; [|done]. by apply block_inj in E.
Qed.

Lemma free_cnt_le l a i : 0 <= bpa i -> 0 <= free_cnt l a i <= bpa i.
Proof.
  intros Hb. unfold free_cnt. pose proof (length_filter (fun k => block a i k ∈ l) (seqZ 0 (bpa i))) as Hf.
  rewrite length_seqZ in Hf. lia.
Qed.

Lemma free_cnt_full l a i : 0 <= bpa i -> (forall k, 0 <= k < bpa i -> block a i k ∈ l) -> free_cnt l a i = bpa i.
Proof.
  intros Hb Hall. unfold free_cnt. rewrite filter_everything; [rewrite length_seqZ; lia|].
  intros k Hk%elem_of_seqZ. apply Hall. lia.
Qed.

Lemma free_cnt_all l a i k : 0 <= bpa i -> free_cnt l a i = bpa i -> 0 <= k < bpa i -> block a i k ∈ l.
Proof.
  intros Hb Hc Hk. destruct (decide (block a i k ∈ l)) as [|Hn]; [done|]. exfalso. unfold free_cnt in Hc.
  pose proof (length_filter_lt (fun k => block a i k ∈ l) (seqZ 0 (bpa i)) k ltac:(apply elem_of_seqZ; lia) Hn) as Hf.
  rewrite length_seqZ in Hf. lia.
Qed.

(** ** Blocks in use *)
Lemma desc_lt s i d : hinv s -> descs s !! i = Some d -> (i < 7)%nat.
Proof. intros Hs Hd. rewrite <- (hi_len s Hs). by eapply lookup_lt_Some. Qed.

(** A block lies in the run of its arena. *)
Lemma in_use_run s p c : hinv s -> in_use s p c ->
  exists a x, arenas s !! a = Some x /\ a + 12 <= p /\ 0 < c /\ p + c <= a + run_len x * 4096 /\ p < a + 4096.
Proof.
  intros Hs [(a & x & Hx & Hl & -> & ->)|(a & x & i & d & k & Hx & Hl & Hi & Hd & Hk & -> & Hn & ->)]; exists a, x.
  - destruct (hi_addr s Hs a x Hx) as (_ & _ & _ & Hr & _). unfold run_len in *. rewrite Hl in *. split_and!; [done|lia..].
  - pose proof (desc_lt s i d Hs Hd) as Hi7. pose proof (block_range a i k Hi7 Hk). pose proof (size_table i Hi7).
    unfold run_len. rewrite Hl. split_and!; [done|lia..].
Qed.

(** Two blocks in use do not overlap. *)
Lemma in_use_disjoint s p c q c' : hinv s -> in_use s p c -> in_use s q c' -> p <> q -> p + c <= q \/ q + c' <= p.
Proof.
  intros Hs Hp Hq Hne. destruct (in_use_run s p c Hs Hp) as (a & x & Hx & H1 & H2 & H3 & H4).
  destruct (in_use_run s q c' Hs Hq) as (a' & x' & Hx' & H1' & H2' & H3' & H4').
  destruct (decide (a = a')) as [<-|Ha].
  2: { destruct (hi_disj s Hs a a' x x' Hx Hx' Ha); lia. }
  rewrite Hx in Hx'. injection Hx' as <-.
  assert (forall b y, arenas s !! b = Some y -> forall r, b + 12 <= r -> r < b + 4096 -> a + 12 <= r -> r < a + 4096 -> b = a /\ y = x) as Hsame.
  { intros b y Hy r ? ? ? ?. destruct (decide (b = a)) as [->|Hb]; [split; [done|congruence]|].
    pose proof (hi_addr s Hs a x Hx) as (? & ? & ? & ? & ?). pose proof (hi_addr s Hs b y Hy) as (? & ? & ? & ? & ?).
    destruct (hi_disj s Hs b a y x Hy Hx Hb); lia. }
  destruct Hp as [(b & y & Hy & Hl & -> & ->)|(b & y & i & d & k & Hy & Hl & Hi & Hd & Hk & -> & Hn & ->)];
  destruct Hq as [(b' & y' & Hy' & Hl' & -> & ->)|(b' & y' & i' & d' & k' & Hy' & Hl' & Hi' & Hd' & Hk' & -> & Hn' & ->)].
  - destruct (Hsame b y Hy (b + 12)) as [-> ->]; [lia..|]. destruct (Hsame b' y' Hy' (b' + 12)) as [-> ->]; [lia..|]. done.
  - pose proof (block_range b' i' k' (desc_lt s i' d' Hs Hd') Hk').
    destruct (Hsame b y Hy (b + 12)) as [-> ->]; [lia..|]. destruct (Hsame b' y' Hy' (block b' i' k')) as [-> ->]; [lia..|]. congruence.
  - pose proof (block_range b i k (desc_lt s i d Hs Hd) Hk).
    destruct (Hsame b y Hy (block b i k)) as [-> ->]; [lia..|]. destruct (Hsame b' y' Hy' (b' + 12)) as [-> ->]; [lia..|]. congruence.
  - pose proof (block_range b i k (desc_lt s i d Hs Hd) Hk). pose proof (block_range b' i' k' (desc_lt s i' d' Hs Hd') Hk').
    destruct (Hsame b y Hy (block b i k)) as [-> ->]; [lia..|]. destruct (Hsame b' y' Hy' (block b' i' k')) as [-> ->]; [lia..|].
    rewrite Hi in Hi'. injection Hi' as <-. pose proof (size_table i (desc_lt s i d Hs Hd)) as (? & _).
    unfold block in *. destruct (Z.lt_trichotomy k k') as [?|[->|?]]; [left|done|right];
      assert (k * bsz i + bsz i <= k' * bsz i \/ k' * bsz i + bsz i <= k * bsz i) by nia; nia.
Qed.

(** Places in different arenas are different. *)
Lemma arenas_apart s a a' x x' p : hinv s -> arenas s !! a = Some x -> arenas s !! a' = Some x' -> a <> a' ->
  a <= p < a + 4096 -> ~ (a' <= p < a' + 4096).
Proof.
  intros Hs Hx Hx' Hne Hp Hp'. destruct (hi_addr s Hs a x Hx) as (_ & _ & _ & ? & _).
  destruct (hi_addr s Hs a' x' Hx') as (_ & _ & _ & ? & _). destruct (hi_disj s Hs a a' x x' Hx Hx' Hne); lia.
Qed.

Lemma block_in a i k : (i < 7)%nat -> 0 <= k < bpa i -> a <= block a i k < a + 4096.
Proof. intros Hi Hk. pose proof (block_range a i k Hi Hk). pose proof (size_table i Hi) as (? & _). lia. Qed.

(** ** One block changes hands *)
Definition with_list (i : nat) (f : list Z -> list Z) : hst P -> hst P :=
  upd_descs (alter (fun d => mk_desc (block_size d) (blocks_per_arena d) (f (free_list d))) i).

Lemma with_list_lookup i f s j d' : descs (with_list i f s) !! j = Some d' ->
  exists d, descs s !! j = Some d /\ block_size d' = block_size d /\ blocks_per_arena d' = blocks_per_arena d /\
    free_list d' = if decide (j = i) then f (free_list d) else free_list d.
Proof.
  unfold with_list, upd_descs. cbn [descs]. destruct (decide (j = i)) as [->|Hne].
  - rewrite list_lookup_alter_eq. destruct (descs s !! i) as [d|]; [|done]. intros [= <-]. by exists d.
  - rewrite list_lookup_alter_ne by done. intros E. by exists d'.
Qed.

Lemma with_list_same i f s j d : descs s !! j = Some d ->
  descs (with_list i f s) !! j =
    Some (if decide (j = i) then mk_desc (block_size d) (blocks_per_arena d) (f (free_list d)) else d).
Proof.
  unfold with_list, upd_descs. cbn [descs]. intros E. destruct (decide (j = i)) as [->|Hne].
  - by rewrite list_lookup_alter_eq, E.
  - by rewrite list_lookup_alter_ne.
Qed.

Section one_block.
Context (s : hst P) (Hs : hinv s) (a : Z) (x : arena) (i : nat) (d : mem_block_desc) (k : Z) (f : list Z -> list Z).
Context (Hx : arenas s !! a = Some x) (Hi : a_desc x = Some i) (Hl : large x = false) (Hd : descs s !! i = Some d) (Hk : 0 <= k < bpa i).
Abbreviation l' := (f (free_list d)).
Context (Hnd : NoDup l') (Hl' : forall b, b <> block a i k -> b ∈ l' <-> b ∈ free_list d).
Let s' : hst P := upd_arenas (<[a := mk_arena (a_desc x) (free_cnt l' a i) (large x)]>) (with_list i f s).

Lemma ob_arena a' x' : arenas s' !! a' = Some x' ->
  exists x0, arenas s !! a' = Some x0 /\ large x' = large x0 /\ a_desc x' = a_desc x0 /\ run_len x' = run_len x0 /\
    (a' <> a -> x' = x0).
Proof.
  cbn. rewrite lookup_insert_Some. intros [[<- <-]|[Hne E]]; [|by exists x'].
  exists x. unfold run_len. cbn. rewrite Hl. done.
Qed.

Lemma ob_inv : hinv s'.
Proof.
  split.
  - cbn. rewrite length_alter. apply (hi_len s Hs).
  - intros j e He. destruct (with_list_lookup i f s j e He) as (e0 & He0 & -> & -> & E).
    destruct (hi_descs s Hs j e0 He0) as (-> & -> & Hn). split_and!; [done|done|]. rewrite E.
    destruct (decide (j = i)) as [->|]; [|done]. rewrite Hd in He0. injection He0 as <-. done.
  - cbn. rewrite fmap_insert, insert_id; [apply (hi_runs s Hs)|]. rewrite lookup_fmap, Hx. cbn. unfold run_len. cbn. by rewrite Hl.
  - intros a' x' Hx'. destruct (ob_arena a' x' Hx') as (x0 & Hx0 & _ & _ & -> & _). by apply (hi_addr s Hs).
  - intros a1 a2 x1 x2 H1 H2 Hne. destruct (ob_arena a1 x1 H1) as (y1 & ? & _ & _ & -> & _).
    destruct (ob_arena a2 x2 H2) as (y2 & ? & _ & _ & -> & _). by apply (hi_disj s Hs).
  - intros a' x' Hx' Hlg. destruct (ob_arena a' x' Hx') as (x0 & Hx0 & El & -> & _). apply (hi_large s Hs a' x0 Hx0). congruence.
  - intros a' x' Hx' Hsm. destruct (ob_arena a' x' Hx') as (x0 & Hx0 & El & Ed & _ & Esame).
    destruct (decide (a' = a)) as [->|Hne].
    + cbn in Hx'. rewrite lookup_insert_eq in Hx'. injection Hx' as <-. exists i. eexists. cbn.
      split_and!; [done|by apply with_list_same|]. cbn. by rewrite decide_True.
    + rewrite (Esame Hne) in *. destruct (hi_small s Hs a' x0 Hx0 Hsm) as (j & e & Hj & He & Hc).
      exists j. eexists. split_and!; [done|by apply with_list_same|]. destruct (decide (j = i)) as [->|]; [|done].
      rewrite Hd in He. injection He as <-. rewrite Hc. apply free_cnt_ext. intros k' Hk'. cbn.
      rewrite Hl'; [done|]. intros E. pose proof (desc_lt s i d Hs Hd) as Hi7.
      apply (arenas_apart s a' a x0 x (block a i k) Hs Hx0 Hx Hne); [rewrite <- E|]; by apply block_in.
  - intros j e b He Hb. destruct (with_list_lookup i f s j e He) as (e0 & He0 & _ & _ & E). rewrite E in Hb.
    assert (forall a0 x0 k0, arenas s !! a0 = Some x0 /\ a_desc x0 = Some j /\ 0 <= k0 < bpa j /\ b = block a0 j k0 ->
      exists a1 x1 k1, arenas s' !! a1 = Some x1 /\ a_desc x1 = Some j /\ 0 <= k1 < bpa j /\ b = block a1 j k1) as Hkeep.
    { intros a0 x0 k0 (Hx0 & Hrest). destruct (decide (a0 = a)) as [->|Hne].
      - exists a, (mk_arena (a_desc x) (free_cnt l' a i) (large x)), k0. rewrite Hx in Hx0. injection Hx0 as <-.
        split; [cbn; by rewrite lookup_insert_eq|exact Hrest].
      - exists a0, x0, k0. split; [cbn; by rewrite lookup_insert_ne|exact Hrest]. }
    destruct (decide (j = i)) as [->|].
    + rewrite Hd in He0. injection He0 as <-. destruct (decide (b = block a i k)) as [->|Hne].
      * by apply (Hkeep a x k).
      * apply Hl' in Hb; [|done]. destruct (hi_free s Hs i d b Hd Hb) as (a0 & x0 & k0 & ?). eauto.
    + destruct (hi_free s Hs j e0 b He0 Hb) as (a0 & x0 & k0 & ?). eauto.
  - apply (hi_low s Hs).
Qed.

Lemma ob_in_use q c : in_use s' q c <->
  (q <> block a i k /\ in_use s q c) \/ (q = block a i k /\ c = bsz i /\ q ∉ l').
Proof.
  pose proof (desc_lt s i d Hs Hd) as Hi7. split.
  - intros [(a0 & x0 & H0 & Hlg & -> & ->)|(a0 & x0 & j & e & k0 & H0 & Hsm & Hj & He & Hk0 & -> & Hn & ->)].
    + left. destruct (ob_arena a0 x0 H0) as (y & Hy & El & _ & _ & Esame). assert (a0 <> a) as Hne by (intros ->; congruence).
      rewrite (Esame Hne) in *. split; [|left; by exists a0, y].
      intros E. apply (arenas_apart s a0 a y x (block a i k) Hs Hy Hx Hne); [rewrite <- E; lia|by apply block_in].
    + destruct (ob_arena a0 x0 H0) as (y & Hy & El & Ed & _). destruct (with_list_lookup i f s j e He) as (e0 & He0 & _ & _ & Ef).
      destruct (decide (block a0 j k0 = block a i k)) as [Eb|Hneb].
      * right. rewrite Eb. assert (a0 = a) as ->.
        { destruct (decide (a0 = a)) as [|Hne]; [done|]. exfalso.
          apply (arenas_apart s a0 a y x (block a i k) Hs Hy Hx Hne); [rewrite <- Eb|by apply block_in].
          apply block_in; [by apply (desc_lt s j e0)|done]. }
        rewrite Hx in Hy. injection Hy as <-. assert (j = i) as -> by congruence. rewrite decide_True in Ef by done.
        rewrite Hd in He0. injection He0 as <-. by rewrite <- Eb, <- Ef.
      * left. split; [done|]. right. exists a0, y, j, e0, k0. split_and!; [done|congruence|congruence|done|lia|lia|done| |done].
        rewrite Ef in Hn. destruct (decide (j = i)) as [->|]; [|done]. rewrite Hd in He0. injection He0 as <-. by rewrite <- Hl'.
  - assert (forall a0 x0, arenas s !! a0 = Some x0 -> exists x1, arenas s' !! a0 = Some x1 /\ large x1 = large x0 /\ a_desc x1 = a_desc x0 /\ (large x0 = true -> x1 = x0)) as Hup.
    { intros a0 x0 H0. destruct (decide (a0 = a)) as [->|Hne]; [rewrite Hx in H0; injection H0 as <-|].
      - eexists. cbn. rewrite lookup_insert_eq. split_and!; [done|done|done|congruence].
      - exists x0. cbn. by rewrite lookup_insert_ne. }
    intros [[Hne [(a0 & x0 & H0 & Hlg & -> & ->)|(a0 & x0 & j & e & k0 & H0 & Hsm & Hj & He & Hk0 & -> & Hn & ->)]]|(-> & -> & Hn)].
    + left. destruct (Hup a0 x0 H0) as (x1 & ? & ? & ? & E). rewrite (E Hlg) in *. by exists a0, x0.
    + right. destruct (Hup a0 x0 H0) as (x1 & ? & ? & ? & _). eexists a0, x1, j, _, k0.
      split_and!; [done|congruence|congruence|by apply with_list_same|lia|lia|done| |done].
      destruct (decide (j = i)) as [->|]; [|done]. cbn. rewrite Hd in He. injection He as <-. by rewrite Hl'.
    + right. destruct (Hup a x Hx) as (x1 & ? & ? & ? & _). eexists a, x1, i, _, k.
      split_and!; [done|congruence|congruence|by apply with_list_same|lia|lia|done| |done]. by rewrite decide_True.
Qed.
End one_block.

(** ** Taking a block off a free list *)
Definition same_env (s s' : hst P) : Prop :=
  hlock s' = hlock s /\ hcur s' = hcur s /\ pool_bytes s' = pool_bytes s /\ kernel_thread s' = kernel_thread s.
(** [p], of [c] bytes, was not in use and is now; nothing else changed. *)
Definition allocated (s s' : hst P) (p c : Z) : Prop :=
  (forall c', ~ in_use s p c') /\ forall q c', in_use s' q c' <-> in_use s q c' \/ (q = p /\ c' = c).

Lemma wp_get_arena s a x (Q : arena -> hst P -> Prop) : arenas s !! a = Some x -> Q x s -> wp (get_arena a) Q s.
Proof. intros E HQ. unfold wp, get_arena. by rewrite E. Qed.
Lemma wp_get_desc s i d (Q : mem_block_desc -> hst P -> Prop) : descs s !! i = Some d -> Q d s -> wp (get_desc i) Q s.
Proof. intros E HQ. unfold wp, get_desc. by rewrite E. Qed.
Lemma wp_set_free_list s i f (Q : unit -> hst P -> Prop) : Q tt (with_list i f s) -> wp (set_free_list i f) Q s.
Proof. done. Qed.
Lemma wp_put_arena s a x (Q : unit -> hst P -> Prop) : Q tt (upd_arenas (<[a := x]>) s) -> wp (put_arena a x) Q s.
Proof. done. Qed.

(** The arena of a block on a free list. *)
Lemma free_block_arena s i d b : hinv s -> descs s !! i = Some d -> b ∈ free_list d ->
  exists a x k, arenas s !! a = Some x /\ a_desc x = Some i /\ large x = false /\ 0 <= k < bpa i /\ b = block a i k /\
    block2arena b = a /\ a_cnt x = free_cnt (free_list d) a i.
Proof.
  intros Hs Hd Hb. destruct (hi_free s Hs i d b Hd Hb) as (a & x & k & Hx & Hi & Hk & ->). exists a, x, k.
  destruct (large x) eqn:El; [rewrite (hi_large s Hs a x Hx El) in Hi; done|].
  destruct (hi_small s Hs a x Hx El) as (j & e & Hj & He & Hc). rewrite Hi in Hj. injection Hj as <-.
  rewrite Hd in He. injection He as <-. destruct (hi_addr s Hs a x Hx) as (H1 & H2 & _ & _ & H3).
  pose proof (block_in a i k (desc_lt s i d Hs Hd) Hk). unfold run_len in H3. rewrite El in H3.
  split_and!; try done; try lia. apply page_of_block; [done|unfold is_u32; lia|done].
Qed.

Lemma free_not_in_use s i d b c : hinv s -> descs s !! i = Some d -> b ∈ free_list d -> ~ in_use s b c.
Proof.
  intros Hs Hd Hb. destruct (free_block_arena s i d b Hs Hd Hb) as (a & x & k & Hx & Hi & Hlg & Hk & Eb & Ea & Hc).
  pose proof (desc_lt s i d Hs Hd) as Hi7. pose proof (block_in a i k Hi7 Hk) as Hin.
  intros [(a0 & x0 & H0 & Hlg0 & E0 & _)|(a0 & x0 & j & e & k0 & H0 & Hsm & Hj & He & Hk0 & E0 & Hn & _)].
  - destruct (decide (a0 = a)) as [->|Hne]; [congruence|].
    apply (arenas_apart s a0 a x0 x b Hs H0 Hx Hne); rewrite ?Eb; lia.
  - destruct (decide (a0 = a)) as [->|Hne].
    + rewrite Hx in H0. injection H0 as <-. assert (j = i) as -> by congruence. rewrite Hd in He. by injection He as <-.
    + apply (arenas_apart s a0 a x0 x b Hs H0 Hx Hne); [|by rewrite Eb].
      rewrite E0. apply block_in; [by apply (desc_lt s j e)|done].
Qed.

Lemma wp_pop s i d b l K (Q : Z -> hst P -> Prop) :
  hinv s -> descs s !! i = Some d -> free_list d = b :: l ->
  (forall s', hinv s' -> allocated s s' b (bsz i) -> same_env s s' -> wp K Q s') ->
  wp (set_free_list i (fun l => tail l) ;;;
      let! x := get_arena (block2arena b) in
      put_arena (block2arena b) (mk_arena (a_desc x) (u32 (a_cnt x - 1)) (large x)) ;;; K) Q s.
Proof.
  intros Hs Hd Hl HK. destruct (free_block_arena s i d b Hs Hd) as (a & x & k & Hx & Hi & Hlg & Hk & Eb & Ea & Hc); [rewrite Hl; by left|].
  pose proof (desc_lt s i d Hs Hd) as Hi7. destruct (hi_descs s Hs i d Hd) as (_ & _ & Hnd). rewrite Hl in Hnd. apply NoDup_cons in Hnd as [Hnb Hnd].
  wp_steps. apply wp_set_free_list. rewrite Ea. wp_steps. apply (wp_get_arena _ a x); [done|]. wp_steps. apply wp_put_arena.
  assert (u32 (a_cnt x - 1) = free_cnt (tail (free_list d)) a i) as ->.
  { rewrite Hl in Hc |- *. cbn [tail]. pose proof (free_cnt_le l a i) as Hle. pose proof (size_table i Hi7) as (_ & ? & _).
    rewrite (free_cnt_add l (b :: l) a i k Hi7 Hk) in Hc; [|by rewrite <- Eb|intros b'; rewrite elem_of_cons; by rewrite Eb].
    rewrite Hc, u32_id by (unfold is_u32; lia). lia. }
  assert (forall b', b' <> block a i k -> b' ∈ tail (free_list d) <-> b' ∈ free_list d) as Hmem.
  { intros b' Hb'. rewrite Hl. cbn [tail]. rewrite elem_of_cons, Eb. split; [by right|]. by intros [?|?]. }
  apply HK; [|split|done].
  - apply (ob_inv s Hs a x i d k (fun l => tail l)); try done. by rewrite Hl.
  - intros c'. apply (free_not_in_use s i d); [done|done|]. rewrite Hl. by left.
  - intros q c'. rewrite (ob_in_use s Hs a x i d k (fun l => tail l)) by done. rewrite Hl. cbn [tail]. rewrite <- Eb. split.
    + intros [[? ?]|(? & ? & ?)]; [by left|by right].
    + intros [Hu|[-> ->]]; [|by right]. destruct (decide (q = b)) as [->|]; [|by left].
      exfalso. apply (free_not_in_use s i d b c' Hs Hd); [rewrite Hl; by left|done].
Qed.

(** ** A new arena *)
Lemma with_list_twice i f g s : with_list i g (with_list i f s) = with_list i (fun l => g (f l)) s.
Proof.
  unfold with_list, upd_descs. cbn. f_equal. apply list_eq. intros j. destruct (decide (j = i)) as [->|Hne].
  - rewrite !list_lookup_alter_eq. by destruct (descs s !! i).
  - by rewrite !list_lookup_alter_ne.
Qed.

Lemma with_list_id i s : with_list i (fun l => l) s = s.
Proof.
  unfold with_list, upd_descs. destruct s. cbn. f_equal. apply list_eq. intros j. destruct (decide (j = i)) as [->|Hne].
  - rewrite list_lookup_alter_eq. destruct (_ !! i) as [[]|]; done.
  - by rewrite list_lookup_alter_ne.
Qed.

Lemma with_list_ext i f g s : (forall d, descs s !! i = Some d -> f (free_list d) = g (free_list d)) -> with_list i f s = with_list i g s.
Proof.
  intros E. unfold with_list, upd_descs. f_equal. apply list_eq. intros j. destruct (decide (j = i)) as [->|Hne].
  - rewrite !list_lookup_alter_eq. destruct (descs s !! i) as [d|] eqn:Ed; [|done]. cbn. by rewrite (E d).
  - by rewrite !list_lookup_alter_ne.
Qed.

Definition blocks (a : Z) (i : nat) (k : Z) (n : nat) : list Z := block a i <$> seqZ k (Z.of_nat n).

Lemma elem_of_blocks a i k n b : b ∈ blocks a i k n <-> exists j, k <= j < k + Z.of_nat n /\ b = block a i j.
Proof.
  unfold blocks. rewrite list_elem_of_fmap. split.
  - intros (j & -> & Hj%elem_of_seqZ). by exists j.
  - intros (j & Hj & ->). exists j. split; [done|]. by apply elem_of_seqZ.
Qed.

Lemma blocks_NoDup a i k n : (i < 7)%nat -> NoDup (blocks a i k n).
Proof. intros Hi. apply NoDup_fmap_2_strong; [|apply NoDup_seqZ]. intros x y _ _ E. by apply block_inj in E. Qed.

Lemma blocks_cons a i k n : blocks a i k (S n) = block a i k :: blocks a i (k + 1) n.
Proof. unfold blocks. rewrite Nat2Z.inj_succ, seqZ_cons by lia. by rewrite Z.pred_succ, Z.add_1_r. Qed.

Lemma arena2block_eq a i k : (i < 7)%nat -> 0 <= a -> a + 4096 <= 4294967296 -> 0 <= k < bpa i -> arena2block a k (bsz i) = block a i k.
Proof.
  intros Hi H0 Ha Hk. unfold arena2block. pose proof (block_in a i k Hi Hk). unfold block, arena_size in *.
  rewrite u32_id by (unfold is_u32; lia). done.
Qed.

Lemma wp_add_blocks a i : (i < 7)%nat -> 0 <= a -> a + 4096 <= 4294967296 -> forall n k s d,
  descs s !! i = Some d -> block_size d = bsz i -> 0 <= k -> k + Z.of_nat n <= bpa i ->
  (forall b, b ∈ blocks a i k n -> b ∉ free_list d) ->
  wp (add_blocks n a k i) (fun _ s' => s' = with_list i (fun l => l ++ blocks a i k n) s) s.
Proof.
  intros Hi H0 Ha. induction n as [|n IH]; intros k s d Hd Hbs Hk Hn Hnew; cbn [add_blocks].
  - apply wp_ret. rewrite (with_list_ext i _ (fun l => l)), with_list_id; [done|]. intros e _. by rewrite app_nil_r.
  - wp_steps. apply (wp_get_desc _ i d); [done|]. rewrite Hbs, arena2block_eq by (done || lia).
    rewrite blocks_cons in Hnew |- *. wp_steps.
    { rewrite bool_decide_eq_false_2; [done|]. apply Hnew. by left. }
    apply wp_set_free_list. pose proof (with_list_same i (fun l => l ++ [block a i k]) s i d Hd) as Hd1. rewrite decide_True in Hd1 by done.
    eapply wp_mono; [apply (IH (k + 1) _ _ Hd1); [done|lia|lia|]|].
    + cbn. intros b Hb. rewrite elem_of_app, list_elem_of_singleton. intros [Hin|E].
      * by apply (Hnew b); [right|].
      * pose proof (blocks_NoDup a i k (S n) Hi) as Hnd. rewrite blocks_cons in Hnd. apply NoDup_cons in Hnd as [Hnd _]. congruence.
    + cbn beta. intros _ s' ->. rewrite with_list_twice. apply with_list_ext. intros e _. by rewrite <- app_assoc.
Qed.

(** What the page allocator says about a new run. *)
Definition fresh_run (s : hst P) (a cnt : Z) : Prop :=
  a mod 4096 = 0 /\ 4096 <= a /\ pg_low <= a /\ a + cnt * 4096 <= 4294967296 /\
  forall a' x, arenas s !! a' = Some x -> a + cnt * 4096 <= a' \/ a' + run_len x * 4096 <= a.

Lemma fresh_run_none s a cnt : hinv s -> 0 < cnt -> fresh_run s a cnt -> arenas s !! a = None.
Proof.
  intros Hs Hc (_ & _ & _ & _ & Hf). destruct (arenas s !! a) as [x|] eqn:E; [|done]. exfalso.
  destruct (hi_addr s Hs a x E) as (_ & _ & _ & ? & _). destruct (Hf a x E); lia.
Qed.

Lemma wp_malloc_pages s cnt (Q : Z -> hst P -> Prop) :
  hinv s -> 0 < cnt -> pg_can cnt (pages s) ->
  (forall a p', fresh_run s a cnt -> pg_runs p' (<[a := cnt]> (run_len <$> arenas s)) -> Q a (set_pages p' s)) ->
  wp (malloc_pages cnt) Q s.
Proof.
  intros Hs Hc Hcan HQ. destruct (pg_alloc_ok (pages s) _ cnt (hi_runs s Hs) Hc Hcan) as (a & p' & E & Hr & H1 & H2 & H3 & H4 & H5).
  unfold wp, malloc_pages. rewrite E. apply HQ; [|done]. unfold fresh_run, PG_SIZE in *. split_and!; try done.
  intros a' x Hx. apply H5. by rewrite lookup_fmap, Hx.
Qed.

(** Adding a run: the parts of the invariant about addresses. *)
Section new_run.
Context (s : hst P) (Hs : hinv s) (a : Z) (y : arena).
Context (Hlen : 0 < run_len y) (Hfr : fresh_run s a (run_len y)).

Lemma nr_addr a' x : <[a := y]> (arenas s) !! a' = Some x ->
  a' mod 4096 = 0 /\ 4096 <= a' /\ pg_low <= a' /\ 0 < run_len x /\ a' + run_len x * 4096 <= 4294967296.
Proof.
  rewrite lookup_insert_Some. intros [[<- <-]|[_ Hx]]; [|by apply (hi_addr s Hs)].
  destruct Hfr as (? & ? & ? & ? & _). done.
Qed.

Lemma nr_disj a1 a2 x1 x2 : <[a := y]> (arenas s) !! a1 = Some x1 -> <[a := y]> (arenas s) !! a2 = Some x2 -> a1 <> a2 ->
  a1 + run_len x1 * 4096 <= a2 \/ a2 + run_len x2 * 4096 <= a1.
Proof.
  destruct Hfr as (_ & _ & _ & _ & Hf). rewrite !lookup_insert_Some.
  intros [[<- <-]|[? H1]] [[<- <-]|[? H2]] Hne; [done|by apply Hf|destruct (Hf a1 x1 H1); lia|by apply (hi_disj s Hs)].
Qed.
End new_run.

(** An arena of free blocks. *)
Section new_arena.
Context (s : hst P) (Hs : hinv s) (i : nat) (d : mem_block_desc) (a : Z) (p' : P).
Context (Hd : descs s !! i = Some d) (Hempty : free_list d = []) (Hfr : fresh_run s a 1)
  (Hruns : pg_runs p' (<[a := 1]> (run_len <$> arenas s))).
Let y : arena := mk_arena (Some i) (bpa i) false.
Abbreviation bs := (blocks a i 0 (Z.to_nat (bpa i))).
Let s1 : hst P := with_list i (fun l => l ++ bs) (upd_arenas (<[a := y]>) (set_pages p' s)).

Lemma na_lt : (i < 7)%nat.
Proof. by apply (desc_lt s i d). Qed.

Lemma na_mem b : b ∈ bs <-> exists k, 0 <= k < bpa i /\ b = block a i k.
Proof.
  pose proof (size_table i na_lt) as (_ & ? & _). rewrite elem_of_blocks. split; intros (k & Hk & ->); exists k; (split; [lia|done]).
Qed.

Lemma na_desc j e : descs s1 !! j = Some e ->
  exists e0, descs s !! j = Some e0 /\ block_size e = block_size e0 /\ blocks_per_arena e = blocks_per_arena e0 /\
    free_list e = if decide (j = i) then bs else free_list e0.
Proof.
  intros He. destruct (with_list_lookup i _ _ j e He) as (e0 & He0 & E1 & E2 & E3). exists e0. split_and!; [done|done|done|].
  rewrite E3. destruct (decide (j = i)) as [->|]; [|done]. change (descs s !! i = Some e0) in He0. rewrite Hd in He0. injection He0 as <-.
  by rewrite Hempty.
Qed.

(** Blocks of the new arena are no blocks of the old ones. *)
Lemma na_apart a' x' j k : arenas s !! a' = Some x' -> (j < 7)%nat -> 0 <= k < bpa j -> block a' j k ∉ bs.
Proof.
  intros Hx' Hj Hk (k' & Hk' & E)%na_mem. destruct Hfr as (_ & _ & _ & _ & Hf).
  pose proof (block_in a' j k Hj Hk). pose proof (block_in a i k' na_lt Hk').
  destruct (hi_addr s Hs a' x' Hx') as (_ & _ & _ & ? & _). destruct (Hf a' x' Hx'); lia.
Qed.

Lemma na_inv : hinv s1.
Proof.
  pose proof (size_table i na_lt) as (_ & Hb & _). pose proof (fresh_run_none s a 1 Hs ltac:(lia) Hfr) as Hnone.
  split.
  - cbn. rewrite length_alter. apply (hi_len s Hs).
  - intros j e He. destruct (na_desc j e He) as (e0 & He0 & -> & -> & ->). destruct (hi_descs s Hs j e0 He0) as (-> & -> & ?).
    split_and!; [done|done|]. destruct (decide (j = i)); [apply blocks_NoDup, na_lt|done].
  - cbn. by rewrite fmap_insert.
  - apply (nr_addr s Hs a y); [done|apply Hfr].
  - apply (nr_disj s Hs a y). apply Hfr.
  - intros a' x. cbn. rewrite lookup_insert_Some. intros [[<- <-]|[_ Hx]]; [done|by apply (hi_large s Hs a')].
  - intros a' x. change (arenas s1) with (<[a := y]> (arenas s)). rewrite lookup_insert_Some. intros [[<- <-]|[_ Hx]] Hsm.
    + exists i. eexists. split_and!; [done|by apply with_list_same|]. rewrite decide_True by done. cbn. rewrite Hempty. cbn.
      symmetry. apply free_cnt_full; [lia|]. intros k Hk. apply na_mem. by exists k.
    + destruct (hi_small s Hs a' x Hx Hsm) as (j & e & Hj & He & Hc). exists j. eexists.
      split_and!; [done|by apply with_list_same|]. destruct (decide (j = i)) as [->|]; [|done].
      rewrite Hd in He. injection He as <-. rewrite Hc, Hempty. cbn. apply free_cnt_ext. intros k Hk. split; [by intros ?%not_elem_of_nil|].
      intros Hin. exfalso. by apply (na_apart a' x i k Hx na_lt Hk).
  - intros j e b He Hbin. destruct (na_desc j e He) as (e0 & He0 & _ & _ & E). rewrite E in Hbin.
    destruct (decide (j = i)) as [->|].
    + apply na_mem in Hbin as (k & Hk & ->). exists a, y, k. split; [cbn; by rewrite lookup_insert_eq|done].
    + destruct (hi_free s Hs j e0 b He0 Hbin) as (a0 & x0 & k0 & Hx0 & Hr). exists a0, x0, k0. split; [|exact Hr].
      cbn. rewrite lookup_insert_ne by congruence. done.
  - apply (hi_low s Hs).
Qed.

Lemma na_in_use q c : in_use s1 q c <-> in_use s q c.
Proof.
  pose proof (fresh_run_none s a 1 Hs ltac:(lia) Hfr) as Hnone. split.
  - intros [(a0 & x0 & H0 & Hlg & -> & ->)|(a0 & x0 & j & e & k0 & H0 & Hsm & Hj & He & Hk0 & -> & Hn & ->)].
    + cbn in H0. apply lookup_insert_Some in H0 as [[_ <-]|[_ H0]]; [done|]. left. by exists a0, x0.
    + destruct (na_desc j e He) as (e0 & He0 & _ & _ & E). rewrite E in Hn. cbn in H0. apply lookup_insert_Some in H0 as [[<- <-]|[_ H0]].
      * injection Hj as <-. rewrite decide_True in Hn by done. exfalso. apply Hn, na_mem. by exists k0.
      * right. exists a0, x0, j, e0, k0. split_and!; try done; try lia.
        destruct (decide (j = i)) as [->|]; [|done]. rewrite Hd in He0. injection He0 as <-. rewrite Hempty. apply not_elem_of_nil.
  - intros [(a0 & x0 & H0 & Hlg & -> & ->)|(a0 & x0 & j & e & k0 & H0 & Hsm & Hj & He & Hk0 & -> & Hn & ->)].
    + left. exists a0, x0. split_and!; try done. cbn. by rewrite lookup_insert_ne by congruence.
    + pose proof (with_list_same i (fun l => l ++ bs) (upd_arenas (<[a := y]>) (set_pages p' s)) j e He) as He'.
      right. eexists a0, x0, j, _, k0. split; [cbn; by rewrite lookup_insert_ne by congruence|].
      split; [done|]. split; [done|]. split; [exact He'|]. split_and!; [lia|lia|done| |done].
      destruct (decide (j = i)) as [->|]; [|done]. cbn. rewrite Hd in He. injection He as <-. rewrite Hempty. cbn.
      by apply (na_apart a0 x0 i k0 H0 na_lt).
Qed.
End new_arena.

(** ** Pages of their own *)
Section new_large.
Context (s : hst P) (Hs : hinv s) (a cnt : Z) (p' : P) (Hcnt : 0 < cnt).
Context (Hfr : fresh_run s a cnt) (Hruns : pg_runs p' (<[a := cnt]> (run_len <$> arenas s))).
Let y : arena := mk_arena None cnt true.
Let s1 : hst P := upd_arenas (<[a := y]>) (set_pages p' s).

Lemma nl_inv : hinv s1.
Proof.
  pose proof (fresh_run_none s a cnt Hs Hcnt Hfr) as Hnone. split.
  - apply (hi_len s Hs).
  - apply (hi_descs s Hs).
  - cbn. by rewrite fmap_insert.
  - apply (nr_addr s Hs a y); [done|apply Hfr].
  - apply (nr_disj s Hs a y). apply Hfr.
  - intros a' x. cbn. rewrite lookup_insert_Some. intros [[<- <-]|[_ Hx]]; [done|by apply (hi_large s Hs a')].
  - intros a' x. cbn. rewrite lookup_insert_Some. intros [[<- <-]|[_ Hx]]; [done|by apply (hi_small s Hs a')].
  - intros j e b He Hb. destruct (hi_free s Hs j e b He Hb) as (a0 & x0 & k0 & Hx0 & Hr). exists a0, x0, k0.
    split; [cbn; by rewrite lookup_insert_ne by congruence|exact Hr].
  - apply (hi_low s Hs).
Qed.

Lemma nl_in_use : allocated s s1 (a + 12) (cnt * 4096 - 12).
Proof.
  pose proof (fresh_run_none s a cnt Hs Hcnt Hfr) as Hnone. split.
  - intros c' Hu. destruct (in_use_run s _ _ Hs Hu) as (a0 & x0 & Hx0 & ? & ? & ? & ?).
    destruct Hfr as (_ & _ & _ & _ & Hf). destruct (hi_addr s Hs a0 x0 Hx0) as (_ & _ & _ & ? & _). destruct (Hf a0 x0 Hx0); lia.
  - intros q c'. split.
    + intros [(a0 & x0 & H0 & Hlg & -> & ->)|(a0 & x0 & j & e & k0 & H0 & Hsm & Hr)].
      * cbn in H0. apply lookup_insert_Some in H0 as [[<- <-]|[_ H0]]; [by right|]. left. left. by exists a0, x0.
      * cbn in H0. apply lookup_insert_Some in H0 as [[_ <-]|[_ H0]]; [done|]. left. right. by exists a0, x0, j, e, k0.
    + intros [[(a0 & x0 & H0 & Hr)|(a0 & x0 & j & e & k0 & H0 & Hr)]|[-> ->]].
      * left. exists a0, x0. split; [cbn; by rewrite lookup_insert_ne by congruence|done].
      * right. exists a0, x0, j, e, k0. split; [cbn; by rewrite lookup_insert_ne by congruence|done].
      * left. exists a, y. split; [cbn; by rewrite lookup_insert_eq|done].
Qed.
End new_large.

(** ** Giving an arena back *)
Section drop_arena.
Context (s : hst P) (Hs : hinv s) (a : Z) (x : arena) (p' : P).
Context (Hx : arenas s !! a = Some x) (Hruns : pg_runs p' (delete a (run_len <$> arenas s))).
(** The free lists lose exactly the blocks of the arena. *)
Context (ds' : list mem_block_desc) (Hlen : length ds' = 7%nat).
Context (Hds : forall j e', ds' !! j = Some e' -> exists e, descs s !! j = Some e /\ block_size e' = block_size e /\
  blocks_per_arena e' = blocks_per_arena e /\ NoDup (free_list e') /\
  forall b, b ∈ free_list e' <-> b ∈ free_list e /\ (a_desc x = Some j -> forall k, 0 <= k < bpa j -> b <> block a j k)).
Let s1 : hst P := mk_hst ds' (delete a (arenas s)) p' (hlock s) (pool_bytes s) (kernel_thread s) (hcur s).

Lemma da_desc j e : descs s !! j = Some e -> exists e', ds' !! j = Some e'.
Proof. intros He. apply lookup_lt_is_Some_2. rewrite Hlen. by apply (desc_lt s j e). Qed.

(** The blocks of other arenas stay on the lists or off them. *)
Lemma da_other a0 x0 j e e' k : arenas s !! a0 = Some x0 -> a0 <> a -> descs s !! j = Some e -> ds' !! j = Some e' -> 0 <= k < bpa j ->
  block a0 j k ∈ free_list e' <-> block a0 j k ∈ free_list e.
Proof.
  intros Hx0 Hne He He' Hk. destruct (Hds j e' He') as (e0 & He0 & _ & _ & _ & Hf). rewrite He in He0. injection He0 as <-.
  rewrite Hf. split; [by intros [? _]|]. intros Hin. split; [done|]. intros _ k' Hk' E. pose proof (desc_lt s j e Hs He) as Hj.
  apply (arenas_apart s a0 a x0 x (block a0 j k) Hs Hx0 Hx Hne); [by apply block_in|]. rewrite E. by apply block_in.
Qed.

Lemma da_inv : hinv s1.
Proof.
  split.
  - done.
  - intros j e' He'. destruct (Hds j e' He') as (e & He & -> & -> & Hnd & _). destruct (hi_descs s Hs j e He) as (-> & -> & _). done.
  - cbn. by rewrite fmap_delete.
  - intros a' x'. cbn. rewrite lookup_delete_Some. intros [_ ?]. by apply (hi_addr s Hs).
  - intros a1 a2 x1 x2. cbn. rewrite !lookup_delete_Some. intros [_ ?] [_ ?]. by apply (hi_disj s Hs).
  - intros a' x'. cbn. rewrite lookup_delete_Some. intros [_ ?]. by apply (hi_large s Hs a').
  - intros a' x'. cbn. rewrite lookup_delete_Some. intros [Hne Hx'] Hsm.
    destruct (hi_small s Hs a' x' Hx' Hsm) as (j & e & Hj & He & Hc). destruct (da_desc j e He) as (e' & He').
    exists j, e'. split_and!; [done|done|]. rewrite Hc. apply free_cnt_ext. intros k Hk. symmetry. by apply (da_other a' x' j e e' k).
  - intros j e' b He' Hin. destruct (Hds j e' He') as (e & He & _ & _ & _ & Hf). destruct (proj1 (Hf b) Hin) as [Hb Hn].
    destruct (hi_free s Hs j e b He Hb) as (a0 & x0 & k0 & Hx0 & Hd0 & Hk0 & Eb). exists a0, x0, k0. split; [|done].
    cbn. rewrite lookup_delete_ne; [done|]. intros ->. rewrite Hx in Hx0. injection Hx0 as <-. by apply (Hn Hd0 k0 Hk0).
  - apply (hi_low s Hs).
Qed.

Lemma da_in_use q c : in_use s1 q c <-> in_use s q c /\ ~ (a <= q < a + 4096).
Proof.
  split.
  - intros Hu. destruct Hu as [(a0 & x0 & H0 & Hlg & Hq & Hc)|(a0 & x0 & j & e' & k0 & H0 & Hsm & Hj & He' & Hk0 & Eq & Hn & Ec)];
      cbn in H0; apply lookup_delete_Some in H0 as [Hne H0].
    + split; [left; by exists a0, x0|]. apply (arenas_apart s a0 a x0 x q Hs H0 Hx); [done|lia].
    + destruct (Hds j e' He') as (e & He & _ & _ & _ & Hf).
      split; [right; exists a0, x0, j, e, k0; split_and!; try done; try lia|].
      * rewrite Eq in Hn |- *. by rewrite <- (da_other a0 x0 j e e' k0).
      * apply (arenas_apart s a0 a x0 x q Hs H0 Hx); [done|]. rewrite Eq. apply block_in; [by apply (desc_lt s j e)|done].
  - intros [[(a0 & x0 & H0 & Hlg & Hq & Hc)|(a0 & x0 & j & e & k0 & H0 & Hsm & Hj & He & Hk0 & Eq & Hn & Ec)] Hout].
    + left. exists a0, x0. split_and!; try done. cbn. rewrite lookup_delete_ne; [done|]. intros ->. lia.
    + assert (a0 <> a) as Hne. { intros ->. apply Hout. rewrite Eq. apply block_in; [by apply (desc_lt s j e)|done]. }
      destruct (da_desc j e He) as (e' & He'). right. exists a0, x0, j, e', k0. split_and!; try done; try lia.
      * cbn. by rewrite lookup_delete_ne.
      * rewrite Eq in Hn |- *. by rewrite (da_other a0 x0 j e e' k0).
Qed.
End drop_arena.

Lemma wp_mfree_pages s a x (Q : unit -> hst P -> Prop) (s0 : hst P) :
  hinv s0 -> pages s = pages s0 -> arenas s0 !! a = Some x ->
  (forall p', pg_runs p' (delete a (run_len <$> arenas s0)) -> Q tt (upd_arenas (delete a) (set_pages p' s))) ->
  wp (mfree_pages a (run_len x)) Q s.
Proof.
  intros Hs E Hx HQ. destruct (pg_free_ok (pages s0) _ a (run_len x) (hi_runs s0 Hs)) as (p' & E' & Hr).
  { by rewrite lookup_fmap, Hx. }
  unfold wp, mfree_pages. rewrite E, E'. by apply HQ.
Qed.

Lemma wp_remove_blocks a i : (i < 7)%nat -> 0 <= a -> a + 4096 <= 4294967296 -> forall n k s d,
  descs s !! i = Some d -> block_size d = bsz i -> 0 <= k -> k + Z.of_nat n <= bpa i ->
  (forall b, b ∈ blocks a i k n -> b ∈ free_list d) ->
  wp (remove_blocks n a k i) (fun _ s' => s' = with_list i (filter (fun b => b ∉ blocks a i k n)) s) s.
Proof.
  intros Hi H0 Ha. induction n as [|n IH]; intros k s d Hd Hbs Hk Hn Hin; cbn [remove_blocks].
  - apply wp_ret. rewrite (with_list_ext i _ (fun l => l)), with_list_id; [done|]. intros e _. apply filter_everything.
    intros b _. apply not_elem_of_nil.
  - wp_steps. apply (wp_get_desc _ i d); [done|]. rewrite Hbs, arena2block_eq by (done || lia). rewrite blocks_cons in Hin |- *. wp_steps.
    { apply bool_decide_eq_true. apply Hin. by left. }
    apply wp_set_free_list. pose proof (with_list_same i (filter (fun b => b <> block a i k)) s i d Hd) as Hd1. rewrite decide_True in Hd1 by done.
    eapply wp_mono; [apply (IH (k + 1) _ _ Hd1); [done|lia|lia|]|].
    + cbn. intros b Hb. apply list_elem_of_filter. split; [|apply Hin; by right].
      pose proof (blocks_NoDup a i k (S n) Hi) as Hnd. rewrite blocks_cons in Hnd. apply NoDup_cons in Hnd as [Hnd _]. congruence.
    + cbn beta. intros _ s' ->. rewrite with_list_twice. apply with_list_ext. intros e _. rewrite list_filter_filter.
      apply list_filter_iff. intros b. rewrite not_elem_of_cons. tauto.
Qed.

(** ** The lock *)
Lemma hinv_lock s l : hinv s -> hinv (set_hlock l s).
Proof. intros [? ? ? ? ? ? ? ? ?]. by split. Qed.

Lemma wp_acquire s (Q : unit -> hst P -> Prop) :
  hcur s <> 0 -> slock_ok (hcur s) (hlock s) ->
  (forall l, slock_release (hcur s) l = Done (hlock s) -> Q tt (set_hlock l s)) -> wp acquire Q s.
Proof.
  intros Hc Hl HQ. destruct (slock_roundtrip (hcur s) (hlock s) Hc Hl) as (l & E & _ & _ & _ & E').
  unfold wp, acquire. rewrite E. by apply HQ.
Qed.

Lemma wp_release s l (Q : unit -> hst P -> Prop) :
  slock_release (hcur s) (hlock s) = Done l -> Q tt (set_hlock l s) -> wp release Q s.
Proof. intros E HQ. unfold wp, release. by rewrite E. Qed.

(** ** [sys_malloc] *)
Lemma find_desc_spec : forall ds size k, (exists d, d ∈ ds /\ size <= block_size d) ->
  exists j d, find_desc ds size k = (k + j)%nat /\ ds !! j = Some d /\ size <= block_size d.
Proof.
  induction ds as [|d ds IH]; intros size k (d0 & Hin & Hle); [by apply not_elem_of_nil in Hin|]. cbn [find_desc].
  destruct (Z.leb_spec size (block_size d)) as [H1|H1].
  - exists 0%nat, d. split_and!; [lia|done|done].
  - apply elem_of_cons in Hin as [->|Hin]; [lia|]. destruct (IH size (S k) ltac:(by exists d0)) as (j & d1 & -> & ? & ?).
    exists (S j), d1. split_and!; [lia|done|done].
Qed.

Lemma find_desc_fits s size : hinv s -> size <= 1024 ->
  exists i d, find_desc (descs s) size 0 = i /\ descs s !! i = Some d /\ size <= bsz i.
Proof.
  intros Hs Hsz. destruct (lookup_lt_is_Some_2 (descs s) 6) as [d6 H6]; [rewrite (hi_len s Hs); lia|].
  destruct (hi_descs s Hs 6 d6 H6) as (E6 & _). destruct (find_desc_spec (descs s) size 0) as (j & d & -> & Hd & Hle).
  { exists d6. split; [by apply list_elem_of_lookup_2 in H6|]. rewrite E6. change (bsz 6) with 1024. done. }
  exists j, d. destruct (hi_descs s Hs j d Hd) as (E & _). split_and!; [done|done|congruence].
Qed.

(** Enough pages for the request: none when the free list has a block. *)
Definition can_serve (s : hst P) (size : Z) : Prop :=
  if 1024 <? size then pg_can ((size + 12 + 4095) / 4096) (pages s)
  else forall d, descs s !! find_desc (descs s) size 0 = Some d -> free_list d = [] -> pg_can 1 (pages s).

Lemma round_up size : 1024 < size -> size < 4294963188 ->
  DIV_ROUND_UP (u32 (size + arena_size)) PG_SIZE = (size + 12 + 4095) / 4096 /\
  0 < (size + 12 + 4095) / 4096 /\ size <= (size + 12 + 4095) / 4096 * 4096 - 12.
Proof.
  intros H1 H2. unfold DIV_ROUND_UP, PG_SIZE, arena_size. rewrite (u32_id (size + 12)), (u32_id (size + 12 + 4096)), u32_id by (unfold is_u32; lia).
  split; [f_equal; lia|]. pose proof (Z.div_mod (size + 12 + 4095) 4096). pose proof (Z.mod_pos_bound (size + 12 + 4095) 4096).
  assert (1 <= (size + 12 + 4095) / 4096) by (apply Z.div_le_lower_bound; lia). lia.
Qed.

Definition malloced (s : hst P) (size : Z) (p : Z) (s' : hst P) : Prop :=
  hinv s' /\ same_env s s' /\ p <> 0 /\ exists c, size <= c /\ allocated s s' p c.

(** The free list has a block, if need be from a new arena. *)
Lemma wp_refill s i d : hinv s -> descs s !! i = Some d -> (free_list d = [] -> pg_can 1 (pages s)) ->
  wp (if bool_decide (free_list d = []) then
        let! a := malloc_pages 1 in
        if a =? 0 then ret false else
        put_arena a (mk_arena (Some i) (blocks_per_arena d) false) ;;;
        add_blocks (Z.to_nat (blocks_per_arena d)) a 0 i ;;;
        ret true
      else ret true)
    (fun ok s' => ok = true /\ hinv s' /\ (forall q c, in_use s' q c <-> in_use s q c) /\ same_env s s' /\
       exists d' b l, descs s' !! i = Some d' /\ free_list d' = b :: l) s.
Proof.
  intros Hs Hd Hcan. destruct (bool_decide_reflect (free_list d = [])) as [E|E].
  2: { apply wp_ret. split_and!; try done. destruct (free_list d) as [|b l] eqn:El; [done|]. by exists d, b, l. }
  pose proof (desc_lt s i d Hs Hd) as Hi. pose proof (size_table i Hi) as (_ & Hb & _).
  destruct (hi_descs s Hs i d Hd) as (Hbs & Hbpa & _). wp_steps.
  apply (wp_malloc_pages s); [done|lia|by apply Hcan|]. intros a p' Hfr Hr. pose proof Hfr as (_ & ? & _ & ? & _).
  rewrite (proj2 (Z.eqb_neq a 0)) by lia. wp_steps. apply wp_put_arena. wp_steps. rewrite Hbpa.
  eapply wp_mono; [apply (wp_add_blocks a i Hi ltac:(lia) ltac:(lia) _ 0 _ d); try done; [lia|]|].
  { intros b _. rewrite E. apply not_elem_of_nil. }
  cbn beta. intros _ s' ->. apply wp_ret. split_and!; try done.
  - by apply (na_inv s Hs i d).
  - by apply (na_in_use s Hs i d).
  - eexists _, (block a i 0), _. split; [by apply with_list_same|]. rewrite decide_True by done. cbn. rewrite E. cbn.
    replace (Z.to_nat (bpa i)) with (S (Z.to_nat (bpa i) - 1)) by lia. apply blocks_cons.
Qed.

Lemma wp_sys_malloc s size :
  hinv s -> hcur s <> 0 -> slock_ok (hcur s) (hlock s) -> 0 < size < pool_bytes s -> pool_bytes s < 4294963188 -> can_serve s size ->
  wp (sys_malloc size) (malloced s size) s.
Proof.
  intros Hs Hc Hl Hsz Hpb Hcan. unfold sys_malloc, can_serve in *. wp_steps. unfold id.
  rewrite (proj2 (Z.ltb_lt 0 size)), (proj2 (Z.ltb_lt size _)) by lia. cbn [andb negb]. wp_steps.
  apply wp_acquire; [done|done|]. intros l El. set (s0 := set_hlock l s). pose proof (hinv_lock s l Hs : hinv s0) as Hs0.
  destruct (Z.ltb_spec 1024 size) as [Hbig|Hsmall].
  - destruct (round_up size Hbig ltac:(lia)) as (-> & Hpos & Hfit). wp_steps.
    apply (wp_malloc_pages s0); [done|done|done|]. intros a p' Hfr Hr. pose proof Hfr as (_ & ? & _ & Hend & _).
    rewrite (proj2 (Z.eqb_neq a 0)) by lia. cbn [negb]. wp_steps. apply wp_put_arena. wp_steps.
    apply (wp_release _ (hlock s)); [exact El|]. wp_steps. unfold arena_size. rewrite u32_id by (unfold is_u32; lia).
    destruct (nl_in_use s0 Hs0 a ((size + 12 + 4095) / 4096) p' Hpos Hfr) as [A1 A2].
    split; [|split; [done|split; [lia|]]].
    + apply hinv_lock. by apply (nl_inv s0 Hs0).
    + exists ((size + 12 + 4095) / 4096 * 4096 - 12). split; [done|]. split; [exact A1|exact A2].
  - destruct (find_desc_fits s0 size Hs0 Hsmall) as (i & d & Ei & Hd & Hle). wp_steps. rewrite Ei.
    wp_steps. apply (wp_get_desc _ i d); [done|]. wp_steps.
    eapply wp_mono; [apply (wp_refill s0 i d Hs0 Hd)|].
    { intros E. apply (Hcan d); [change (descs s) with (descs s0); by rewrite Ei|done]. }
    cbn beta. intros ok s1 (-> & Hs1 & Hu1 & Henv & d1 & b & bl & Hd1 & Hbl). cbn [negb]. wp_steps.
    apply (wp_get_desc _ i d1); [done|]. rewrite Hbl. apply (wp_pop s1 i d1 b bl); [done|done|done|].
    intros s2 Hs2 [A1 A2] Henv2. destruct Henv as (E1 & E2 & E3 & E4). destruct Henv2 as (F1 & F2 & F3 & F4).
    wp_steps. apply (wp_release _ (hlock s)); [by rewrite F2, E2, F1, E1|]. wp_steps.
    split; [by apply hinv_lock|]. split; [unfold same_env; cbn; by rewrite F2, E2, F3, E3, F4, E4|]. split.
    + assert (in_use s2 b (bsz i)) as Hub by (apply A2; by right). destruct (in_use_run s2 b _ Hs2 Hub) as (a & x & Hx & ? & _).
      destruct (hi_addr s2 Hs2 a x Hx) as (_ & ? & _). lia.
    + exists (bsz i). split; [done|]. split.
      * intros c' Hu. by apply (A1 c'), Hu1.
      * intros q c'. change (in_use s2 q c' <-> in_use s0 q c' \/ q = b /\ c' = bsz i). by rewrite A2, Hu1.
Qed.

(** ** [sys_free] *)
Definition freed (s : hst P) (p : Z) (s' : hst P) : Prop :=
  hinv s' /\ same_env s s' /\ forall q c, in_use s' q c <-> in_use s q c /\ q <> p.

(** A block in use, from its address. *)
Lemma in_use_arena s p c : hinv s -> in_use s p c ->
  is_u32 p /\ p <> 0 /\ pg_low <= p /\ exists x, arenas s !! block2arena p = Some x /\
    ((large x = true /\ p = block2arena p + 12) \/
     (exists i d k, large x = false /\ a_desc x = Some i /\ descs s !! i = Some d /\ 0 <= k < bpa i /\
        p = block (block2arena p) i k /\ p ∉ free_list d)).
Proof.
  intros Hs Hu. destruct (in_use_run s p c Hs Hu) as (a & x & Hx & H1 & H2 & H3 & H4).
  destruct (hi_addr s Hs a x Hx) as (A1 & A2 & A3 & A4 & A5).
  assert (is_u32 p) as Hp by (unfold is_u32; lia). pose proof (page_of_block a p A1 Hp ltac:(lia)) as Ea.
  split_and!; [done|lia|lia|]. rewrite Ea. exists x. split; [done|].
  destruct Hu as [(a0 & x0 & H0 & Hlg & E & _)|(a0 & x0 & j & e & k0 & H0 & Hsm & Hj & He & Hk0 & E & Hn & _)].
  - assert (a0 = a) as ->. { destruct (decide (a0 = a)) as [|Hne]; [done|]. exfalso. apply (arenas_apart s a0 a x0 x p Hs H0 Hx Hne); lia. }
    left. split; [congruence|done].
  - assert (a0 = a) as ->.
    { destruct (decide (a0 = a)) as [|Hne]; [done|]. exfalso. apply (arenas_apart s a0 a x0 x p Hs H0 Hx Hne); [|lia].
      rewrite E. apply block_in; [by apply (desc_lt s j e)|done]. }
    rewrite Hx in H0. injection H0 as <-. right. by exists j, e, k0.
Qed.

Lemma in_use_at s a x p c : hinv s -> arenas s !! a = Some x -> in_use s p c -> a <= p < a + 4096 ->
  (large x = true /\ p = a + 12) \/
  (exists i d k, large x = false /\ a_desc x = Some i /\ descs s !! i = Some d /\ 0 <= k < bpa i /\ p = block a i k /\ p ∉ free_list d).
Proof.
  intros Hs Hx Hu Hp. destruct (in_use_arena s p c Hs Hu) as (Hu32 & _ & _ & x' & Hx' & Hr).
  destruct (hi_addr s Hs a x Hx) as (A1 & _). rewrite (page_of_block a p A1 Hu32 Hp) in Hx', Hr.
  rewrite Hx in Hx'. by injection Hx' as <-.
Qed.

Lemma wp_free_large s a x : hinv s -> arenas s !! a = Some x -> large x = true ->
  wp (mfree_pages a (a_cnt x)) (fun _ s' => freed s (a + 12) s') s.
Proof.
  intros Hs Hx Hlg. replace (a_cnt x) with (run_len x) by (unfold run_len; by rewrite Hlg).
  apply (wp_mfree_pages s a x _ s); [done|done|done|]. intros p' Hr.
  assert (forall j e', descs s !! j = Some e' -> exists e, descs s !! j = Some e /\ block_size e' = block_size e /\
    blocks_per_arena e' = blocks_per_arena e /\ NoDup (free_list e') /\
    forall b, b ∈ free_list e' <-> b ∈ free_list e /\ (a_desc x = Some j -> forall k, 0 <= k < bpa j -> b <> block a j k)) as Hds.
  { intros j e He. exists e. split_and!; try done; [apply (hi_descs s Hs j e He)|]. intros b. split; [|by intros [? _]].
    intros Hb. split; [done|]. intros E. rewrite (hi_large s Hs a x Hx Hlg) in E. done. }
  split; [|split; [done|]].
  - by apply (da_inv s Hs a x p' Hx Hr (descs s) (hi_len s Hs) Hds).
  - intros q c. rewrite (da_in_use s Hs a x p' Hx Hr (descs s) (hi_len s Hs) Hds q c). split; intros [Hu Hq]; (split; [done|]).
    + intros ->. apply Hq. lia.
    + intros Hin. apply Hq. destruct (in_use_at s a x q c Hs Hx Hu Hin) as [[_ ->]|(j & e & k & Hsm & _)]; [done|congruence].
Qed.

(** An arena all of whose blocks are free goes back. *)
Lemma wp_drop_small s a x i d : hinv s -> arenas s !! a = Some x -> large x = false -> a_desc x = Some i -> descs s !! i = Some d ->
  a_cnt x = bpa i ->
  wp (remove_blocks (Z.to_nat (bpa i)) a 0 i ;;; mfree_pages a 1)
     (fun _ s' => hinv s' /\ same_env s s' /\ forall q c, in_use s' q c <-> in_use s q c) s.
Proof.
  intros Hs Hx Hsm Hi Hd Hc. pose proof (desc_lt s i d Hs Hd) as Hi7. pose proof (size_table i Hi7) as (_ & Hb & _).
  destruct (hi_small s Hs a x Hx Hsm) as (i' & d' & Hi' & Hd' & Hc'). rewrite Hi in Hi'. injection Hi' as <-. rewrite Hd in Hd'. injection Hd' as <-.
  destruct (hi_addr s Hs a x Hx) as (A1 & A2 & A3 & A4 & A5). unfold run_len in A4, A5. rewrite Hsm in A4, A5.
  destruct (hi_descs s Hs i d Hd) as (Hbs & _ & Hnd).
  assert (forall k, 0 <= k < bpa i -> block a i k ∈ free_list d) as Hall by (intros k Hk; apply free_cnt_all; [lia|congruence|done]).
  wp_steps. eapply wp_mono; [apply (wp_remove_blocks a i Hi7 ltac:(lia) ltac:(lia) _ 0 s d Hd Hbs); [lia|lia|]|].
  { intros b (k & Hk & ->)%elem_of_blocks. apply Hall. lia. }
  cbn beta. intros _ s1 ->. set (s1 := with_list i _ s).
  replace 1 with (run_len x) by (unfold run_len; by rewrite Hsm). apply (wp_mfree_pages s1 a x _ s); [done|done|done|]. intros p' Hr.
  assert (length (descs s1) = 7%nat) as Hlen by (cbn; rewrite length_alter; apply (hi_len s Hs)).
  assert (forall j e', descs s1 !! j = Some e' -> exists e, descs s !! j = Some e /\ block_size e' = block_size e /\
    blocks_per_arena e' = blocks_per_arena e /\ NoDup (free_list e') /\
    forall b, b ∈ free_list e' <-> b ∈ free_list e /\ (a_desc x = Some j -> forall k, 0 <= k < bpa j -> b <> block a j k)) as Hds.
  { intros j e' He'. destruct (with_list_lookup i _ s j e' He') as (e & He & E1 & E2 & E3). exists e. split; [done|]. split; [done|]. split; [done|].
    rewrite E3. destruct (hi_descs s Hs j e He) as (_ & _ & Hnde). destruct (decide (j = i)) as [->|Hne].
    - split; [by apply list.NoDup_filter|]. intros b. rewrite list_elem_of_filter, elem_of_blocks. split.
      + intros [Hn Hbin]. split; [done|]. intros _ k Hk ->. apply Hn. exists k. split; [lia|done].
      + intros [Hbin Hn]. split; [|done]. intros (k & Hk & ->). apply (Hn Hi k); [lia|done].
    - split; [done|]. intros b. split; [|by intros [? _]]. intros Hbin. split; [done|]. intros E. congruence. }
  split; [|split; [done|]].
  - by apply (da_inv s Hs a x p' Hx Hr (descs s1) Hlen Hds).
  - intros q c. etransitivity; [exact (da_in_use s Hs a x p' Hx Hr (descs s1) Hlen Hds q c)|]. split; [by intros [? _]|]. intros Hu. split; [done|]. intros Hin.
    destruct (in_use_at s a x q c Hs Hx Hu Hin) as [[? _]|(j & e & k & _ & Hj & He & Hk & -> & Hn)]; [congruence|].
    assert (j = i) as -> by congruence. rewrite Hd in He. injection He as <-. by apply Hn, Hall.
Qed.

(** The block goes on its free list. *)
Lemma wp_put_back s p c K (Q : unit -> hst P -> Prop) x i d k :
  hinv s -> in_use s p c -> arenas s !! block2arena p = Some x -> large x = false -> a_desc x = Some i -> descs s !! i = Some d ->
  0 <= k < bpa i -> p = block (block2arena p) i k -> p ∉ free_list d ->
  (forall s' x', freed s p s' -> arenas s' !! block2arena p = Some x' -> large x' = false -> a_desc x' = Some i ->
     a_cnt x' = u32 (a_cnt x + 1) -> wp (K (u32 (a_cnt x + 1)) (bpa i)) Q s') ->
  wp (set_free_list i (fun l => l ++ [p]) ;;;
      let! d := get_desc i in
      let cnt := u32 (a_cnt x + 1) in
      put_arena (block2arena p) (mk_arena (a_desc x) cnt (large x)) ;;; K cnt (blocks_per_arena d)) Q s.
Proof.
  intros Hs Hu Hx Hsm Hi Hd Hk Hp Hn HK. set (a := block2arena p) in *. pose proof (desc_lt s i d Hs Hd) as Hi7.
  destruct (hi_descs s Hs i d Hd) as (_ & Hb & Hnd). wp_steps. apply wp_set_free_list. wp_steps.
  pose proof (with_list_same i (fun l => l ++ [p]) s i d Hd) as Hd1. rewrite decide_True in Hd1 by done.
  apply (wp_get_desc _ i _ _ Hd1). cbn [blocks_per_arena]. rewrite Hb. wp_steps. apply wp_put_arena.
  assert (forall b, b ∈ free_list d ++ [p] <-> b = p \/ b ∈ free_list d) as Hmem.
  { intros b. rewrite elem_of_app, list_elem_of_singleton. tauto. }
  assert (u32 (a_cnt x + 1) = free_cnt (free_list d ++ [p]) a i) as Ec.
  { destruct (hi_small s Hs a x Hx Hsm) as (i' & d' & Hi' & Hd' & Hc). rewrite Hi in Hi'. injection Hi' as <-. rewrite Hd in Hd'. injection Hd' as <-.
    rewrite (free_cnt_add (free_list d) (free_list d ++ [p]) a i k Hi7 Hk), <- Hc; [|by rewrite <- Hp|by rewrite <- Hp].
    pose proof (size_table i Hi7) as (_ & ? & _). pose proof (free_cnt_le (free_list d) a i). apply u32_id. unfold is_u32. lia. }
  assert (NoDup (free_list d ++ [p])) as Hnd'.
  { apply NoDup_app. split_and!; [done| |apply NoDup_singleton]. intros b Hb1 ->%list_elem_of_singleton. done. }
  assert (forall b, b <> block a i k -> b ∈ free_list d ++ [p] <-> b ∈ free_list d) as Hoth.
  { intros b Hne. rewrite Hmem. split; [|by right]. intros [->|?]; [|done]. by rewrite <- Hp in Hne. }
  eapply (HK _ (mk_arena (a_desc x) (u32 (a_cnt x + 1)) (large x))); [|cbn; by rewrite lookup_insert_eq|done..].
  rewrite Ec. split; [|split; [done|]].
  - by apply (ob_inv s Hs a x i d k (fun l => l ++ [p])).
  - intros q c'. etransitivity; [apply (ob_in_use s Hs a x i d k (fun l => l ++ [p])); done|]. rewrite <- Hp. split.
    + intros [[? ?]|(-> & _ & Hq)]; [done|]. exfalso. apply Hq, Hmem. by left.
    + intros [? ?]. by left.
Qed.

Lemma freed_more s p s1 s' : freed s p s1 -> hinv s' -> same_env s1 s' -> (forall q c, in_use s' q c <-> in_use s1 q c) -> freed s p s'.
Proof.
  intros (_ & (E1 & E2 & E3 & E4) & Hu) Hs' (F1 & F2 & F3 & F4) Hu'. split; [done|]. split; [unfold same_env; by rewrite F1, F2, F3, F4|].
  intros q c. by rewrite Hu', Hu.
Qed.

Lemma wp_free_block s p c x : hinv s -> in_use s p c -> arenas s !! block2arena p = Some x ->
  wp (match a_desc x with
      | None => if large x then mfree_pages (block2arena p) (a_cnt x) else halt Out_of_bounds
      | Some i =>
          set_free_list i (fun l => l ++ [p]) ;;;
          let! d := get_desc i in
          let cnt := u32 (a_cnt x + 1) in
          put_arena (block2arena p) (mk_arena (a_desc x) cnt (large x)) ;;;
          if cnt =? blocks_per_arena d then
            remove_blocks (Z.to_nat (blocks_per_arena d)) (block2arena p) 0 i ;;;
            mfree_pages (block2arena p) 1
          else ret tt
      end) (fun _ s' => freed s p s') s.
Proof.
  intros Hs Hu Hx. destruct (in_use_arena s p c Hs Hu) as (_ & _ & _ & x' & Hx' & Hcase). rewrite Hx in Hx'. injection Hx' as <-.
  destruct Hcase as [[Hlg Hp]|(i & d & k & Hsm & Hi & Hd & Hk & Hp & Hn)].
  - rewrite (hi_large s Hs _ x Hx Hlg), Hlg. eapply wp_mono; [by apply (wp_free_large s _ x)|]. cbn beta. intros _ s'. by rewrite <- Hp.
  - rewrite Hi at 1. apply (wp_put_back s p c
      (fun cnt n => if cnt =? n then remove_blocks (Z.to_nat n) (block2arena p) 0 i ;;; mfree_pages (block2arena p) 1 else ret tt) _ x i d k); try done.
    intros s1 x1 Hf Hx1 Hsm1 Hi1 Hc1. destruct (Z.eqb_spec (u32 (a_cnt x + 1)) (bpa i)) as [E|E]; [|by apply wp_ret].
    pose proof Hf as (Hs1 & _ & _). destruct (hi_small s1 Hs1 _ x1 Hx1 Hsm1) as (i1 & d1 & Hi1' & Hd1 & _).
    rewrite Hi1 in Hi1'. injection Hi1' as <-.
    eapply wp_mono; [apply (wp_drop_small s1 _ x1 i d1); try done; congruence|].
    cbn beta. intros _ s' (Hs' & Henv & Hu'). by apply (freed_more s p s1).
Qed.

Lemma wp_sys_free s p c : hinv s -> hcur s <> 0 -> slock_ok (hcur s) (hlock s) -> in_use s p c ->
  wp (sys_free p) (fun _ s' => freed s p s') s.
Proof.
  intros Hs Hc Hl Hu. destruct (in_use_arena s p c Hs Hu) as (Hp32 & Hp0 & Hlow & x & Hx & _).
  unfold sys_free. wp_steps. { by apply negb_true_iff, Z.eqb_neq. }
  unfold id. apply (wp_mono _ (fun _ s' => s' = s)).
  { destruct (kernel_thread s) eqn:Ek; [|by apply wp_ret]. apply wp_assert; [|done]. pose proof (hi_low s Hs Ek). apply Z.leb_le. lia. }
  intros _ ? ->. wp_steps. apply wp_acquire; [done|done|]. intros l El. set (s0 := set_hlock l s).
  wp_steps. apply (wp_get_arena _ _ x); [done|]. wp_steps.
  eapply wp_mono; [apply (wp_free_block s0 p c x (hinv_lock s l Hs) Hu Hx)|].
  cbn beta. intros _ s1 (Hs1 & (E1 & E2 & E3 & E4) & Hu1). apply (wp_release _ (hlock s)); [by rewrite E1, E2|].
  split; [by apply hinv_lock|]. split; [done|]. exact Hu1.
Qed.
End heap.
