(* ===== verification/Heapimpl.v ===== *)
(** * Heapimpl: the heap over the page allocator

    [Memory]'s [malloc_page] and [mfree_page] keep what the heap asks of a page
    allocator ([Arena.PageAlloc]), for the kernel's pool and for a process's.
    With that, [sys_malloc] and [sys_free] refine an abstract heap: a finite map
    from the addresses handed out to the sizes asked for. *)

From stdpp Require Import base numbers list gmap.
From S2P Require Import Prelude.
From S2P Require Import Bitmap.
From S2P Require Import Seqlock.
From S2P Require Import Paging.
From S2P Require Import Memory.
From S2P Require Import Arena.
From S2P Require Import Heap.

Local Open Scope Z_scope.
Local Open Scope kernel_scope.

(** ** The page allocator keeps the interface *)
Definition low_of (pf : pool_flags) : Z := match pf with PF_KERNEL => K_HEAP_START | PF_USER => 0 end.

(** A run handed out: its virtual pages are taken, and mapped to frames of the
    pool. *)
Definition run_ok (pf : pool_flags) (st : mst) (a cnt : Z) : Prop :=
  exists k ids, a = vpage (vaddr_of pf st) k /\ 0 <= k /\ 0 < cnt /\ k + cnt <= vsize (vaddr_of pf st) /\
    length ids = Z.to_nat cnt /\ backed_by pf k pf ids st /\
    forall j, k <= j < k + cnt -> vused (vaddr_of pf st) j = true.

Definition disjoint_runs (m : gmap Z Z) : Prop := forall a cnt a' cnt', m !! a = Some cnt -> m !! a' = Some cnt' -> a <> a' ->
  a + cnt * PG_SIZE <= a' \/ a' + cnt' * PG_SIZE <= a.

Record runs_ok (pf : pool_flags) (st : mst) (m : gmap Z Z) : Prop := {
  ro_wf : mem_wf st;
  ro_low : 0x102000 <= phy_addr_start (pool_of pf st);
  ro_start : low_of pf <= vaddr_start (vaddr_of pf st);
  ro_runs : forall a cnt, m !! a = Some cnt -> run_ok pf st a cnt;
  ro_disj : disjoint_runs m
}.

Definition free_pages (pf : pool_flags) (a cnt : Z) (st : mst) : outcome mst :=
  olet (_, st') := mfree_page pf a cnt st in Done st'.

Section runs.
Context (pf : pool_flags).

(** A frame that backs a page is taken. *)
Lemma backed_used st k ids j i : mem_wf st -> 0 <= k -> k + Z.of_nat (length ids) <= vsize (vaddr_of pf st) ->
  backed_by pf k pf ids st -> ids !! j = Some i -> pused (pool_of pf st) i = true.
Proof.
  intros Hwf Hk Hfit Hb Hj. destruct (Hb j i Hj) as (Hi & Ht & _). pose proof (lookup_lt_Some _ _ _ Hj).
  apply (mw_mapped st Hwf pf i _ _ Hi (vpage_low st pf (k + Z.of_nat j) Hwf ltac:(lia)) Ht).
  pose proof (frame_page (pframe (pool_of pf st) i) 0) as F. rewrite Z.add_0_r in F. apply F; [|lia]. apply pframe_aligned; [apply Hwf|done].
Qed.

(** Runs survive an allocation. *)
Lemma run_ok_grow st st1 st2 a cnt : mem_wf st -> machine st1 = machine st -> (forall pf', pool_of pf' st1 = pool_of pf' st) ->
  vaddr_start (vaddr_of pf st1) = vaddr_start (vaddr_of pf st) -> vsize (vaddr_of pf st1) = vsize (vaddr_of pf st) ->
  (forall j, 0 <= j -> vused (vaddr_of pf st) j = true -> vused (vaddr_of pf st1) j = true) ->
  st_grow st1 st2 -> run_ok pf st a cnt -> run_ok pf st2 a cnt.
Proof.
  intros Hwf Hm Hp Hs Hz Hu G (k & ids & -> & Hk & Hc & Hfit & Hlen & Hb & Hus). exists k, ids. rewrite (sg_vaddr _ _ G).
  pose proof (sg_pool _ _ G pf) as Gp. assert (vpage (vaddr_of pf st1) = vpage (vaddr_of pf st)) as Hvp by (unfold vpage; by rewrite Hs).
  rewrite Hz. split_and!; try done.
  - by rewrite Hvp.
  - intros j i Hj. pose proof (backed_used st k ids j i Hwf Hk ltac:(lia) Hb Hj) as Hi. destruct (Hb j i Hj) as (Hr & Ht & Hnt).
    pose proof (lookup_lt_Some _ _ _ Hj).
    rewrite (pg_psize _ _ Gp), (pool_grow_pframe _ _ i Gp), (sg_vaddr _ _ G), Hvp, Hp. split_and!; [lia|lia| |].
    + apply (sg_kept _ _ G); [apply vpage_low; [done|lia]|by rewrite Hm].
    + intros [Ht'|(j' & Hj' & Ej & Hu')]%(sg_tables _ _ G); [by rewrite Hm in Ht'|].
      change (kernel_pool st1) with (pool_of PF_KERNEL st1) in *. rewrite Hp in *.
      destruct (pframe_inj st pf PF_KERNEL i j' Hwf Hr Hj' Ej) as [-> ->]. congruence.
  - intros j Hj. apply Hu; [lia|by apply Hus].
Qed.

Lemma runs_alloc st m cnt s0 : runs_ok pf st m -> can_alloc pf cnt s0 st ->
  exists a st', malloc_page pf cnt st = Done (a, st') /\ runs_ok pf st' (<[a := cnt]> m) /\
    a mod PG_SIZE = 0 /\ PG_SIZE <= a /\ low_of pf <= a /\ a + cnt * PG_SIZE <= 4294967296 /\ run_free m a cnt.
Proof.
  intros [Hwf Hlow Hst Hruns Hdis] Hca.
  destruct (malloc_page_spec pf cnt s0 st Hwf Hca) as (r & ids & st1 & st2 & _ & E & Hr & Hfr & (B1 & B2 & B3) & Hm & Hp & _ & Hl & Q).
  pose proof Hca as [Hc [Hs0 Hfit] _ _ _ _]. pose proof (pm_grow _ _ _ _ _ Q) as G. pose proof (sg_pool _ _ G pf) as Gp.
  pose proof (mw_vaddr st Hwf pf) as [_ Hal [V1 V2] V3]. specialize (V3 ltac:(lia)).
  exists (vpage (vaddr_of pf st) r), st2. split; [done|].
  assert (run_free m (vpage (vaddr_of pf st) r) cnt) as Hfree.
  { intros a' cnt' (k & ids' & -> & Hk & Hc' & Hf' & _ & _ & Hu')%Hruns.
    destruct (decide (r + cnt <= k)); [left; unfold vpage, PG_SIZE; lia|]. destruct (decide (k + cnt' <= r)); [right; unfold vpage, PG_SIZE; lia|].
    exfalso. assert (vused (vaddr_of pf st) (Z.max r k) = false) as Hfalse by (apply Hfr; lia). rewrite Hu' in Hfalse by lia. done. }
  split_and!; [|by apply vpage_mod, Hwf|unfold vpage, PG_SIZE in *; lia..|done].
  assert (forall a' cnt', m !! a' = Some cnt' -> run_ok pf st2 a' cnt') as Hold.
  { intros a' cnt' Ha'%Hruns. apply (run_ok_grow st st1 st2); try done. intros j Hj Hju. rewrite B3 by done. by case_decide. }
  split; [by apply (pm_wf _ _ _ _ _ Q)|by rewrite (pg_start _ _ Gp), Hp|by rewrite (sg_vaddr _ _ G), B1| |].
  - intros a' cnt'. rewrite lookup_insert_Some. intros [[<- <-]|[_ Ha']]; [|by apply Hold].
    assert (vpage (vaddr_of pf st2) = vpage (vaddr_of pf st)) as Hvp by (rewrite (sg_vaddr _ _ G); unfold vpage; by rewrite B1).
    exists r, ids. rewrite Hvp, (sg_vaddr _ _ G), B2. split_and!; try done; try lia.
    + intros j i Hj. assert (i ∈ ids) as Hin by (by eapply list_elem_of_lookup_2). pose proof (lookup_lt_Some _ _ _ Hj).
      destruct (pm_fresh _ _ _ _ _ Q i Hin) as [Hi _]. rewrite (pg_psize _ _ Gp), (pool_grow_pframe _ _ i Gp), Hvp.
      split; [done|]. split; [|by apply (pm_tables _ _ _ _ _ Q)].
      rewrite (pm_map _ _ _ _ _ Q j i) by (done || unfold vpage, PG_SIZE; lia). rewrite <- Hvp, vpage_mod by apply Q. f_equal. lia.
    + intros j Hj. rewrite B3, decide_True by lia. done.
  - intros a1 c1 a2 c2. rewrite !lookup_insert_Some. intros [[<- <-]|[_ H1]] [[<- <-]|[_ H2]] Hne; [done|by apply Hfree| |by apply Hdis].
    destruct (Hfree a1 c1 H1); lia.
Qed.

Lemma runs_free st m a cnt : runs_ok pf st m -> m !! a = Some cnt ->
  exists st', free_pages pf a cnt st = Done st' /\ runs_ok pf st' (delete a m).
Proof.
  intros [Hwf Hlow Hst Hruns Hdis] Ha. destruct (Hruns a cnt Ha) as (k & ids & Ea & Hk & Hc & Hfit & Hlen & Hb & Hu).
  destruct (mfree_page_spec pf k pf ids st) as (st1 & st' & E & F & Hwf' & Hm & Hp & Hv & V1 & V2 & V3 & _); try done; try lia.
  { intros ->. cbn in Hlen. lia. }
  rewrite Hlen, Z2Nat.id in E, V3 by lia. exists st'. unfold free_pages. rewrite Ea, E. split; [done|].
  destruct (pf_pool _ _ _ _ _ F pf) as (P1 & P2 & _). assert (vpage (vaddr_of pf st') = vpage (vaddr_of pf st)) as Hvp by (unfold vpage; by rewrite V1).
  assert (forall i, pframe (pool_of pf st') i = pframe (pool_of pf st) i) as Hpf by (intros i; unfold pframe; by rewrite Hp, P1).
  split; [done|by rewrite Hp, P1|by rewrite V1| |].
  - intros a' cnt' [Hne Ha']%lookup_delete_Some. destruct (Hruns a' cnt' Ha') as (k' & ids' & Ea' & Hk' & Hc' & Hfit' & Hlen' & Hb' & Hu').
    assert (forall j, k' <= j < k' + cnt' -> ~ (k <= j < k + cnt)) as Hout.
    { intros j Hj Hj'. destruct (Hdis a cnt a' cnt' Ha Ha') as [D|D]; [congruence|..]; rewrite Ea, Ea' in D; unfold vpage, PG_SIZE in D; lia. }
    exists k', ids'. rewrite V2, Hvp. split_and!; try done.
    + intros j i Hj. pose proof (lookup_lt_Some _ _ _ Hj). destruct (Hb' j i Hj) as (Hi & Ht & Hnt).
      rewrite Hp, P2, <- Hp, Hpf, Hvp, Hm. split; [done|]. split; [|by rewrite (pf_tables _ _ _ _ _ F)].
      rewrite (pf_others _ _ _ _ _ F); [done| |].
      * apply (vpage_managed st pf (k' + Z.of_nat j)); [lia|unfold PG_SIZE; lia].
      * specialize (Hout (k' + Z.of_nat j) ltac:(lia)). rewrite Hlen. unfold vpage, PG_SIZE. lia.
    + intros j Hj. rewrite V3, decide_False by (try lia; by apply Hout). by apply Hu'.
  - intros a1 c1 a2 c2 [_ H1]%lookup_delete_Some [_ H2]%lookup_delete_Some. by apply Hdis.
Qed.

Program Definition page_alloc : PageAlloc mst := {|
  pg_alloc := malloc_page pf;
  pg_free := free_pages pf;
  pg_low := low_of pf;
  pg_runs := runs_ok pf;
  pg_can := fun cnt st => exists s0, can_alloc pf cnt s0 st
|}.
Next Obligation. intros st m cnt Hr _ [s0 Hca]. by apply (runs_alloc st m cnt s0). Qed.
Next Obligation. intros st m a cnt. apply runs_free. Qed.
End runs.

(** ** The abstract heap *)
Section refinement.
Context (pf : pool_flags).
#[local] Instance the_pages : PageAlloc mst := page_alloc pf.

(** What the heap promises: a block that was not handed out before and that
    overlaps no other. *)
Definition spec_malloc (h : gmap Z Z) (size p : Z) (h' : gmap Z Z) : Prop :=
  p <> 0 /\ h !! p = None /\ h' = <[p := size]> h /\ forall q n, h !! q = Some n -> p + size <= q \/ q + n <= p.

Record heap_abs (s : hst mst) (h : gmap Z Z) : Prop := {
  ha_inv : hinv s;
  ha_cur : hcur s <> 0;
  ha_lock : slock_ok (hcur s) (hlock s);
  ha_bytes : pool_bytes s < 4294963188;
  ha_used : forall p c, in_use s p c -> exists n, h !! p = Some n /\ 0 < n <= c;
  ha_live : forall p n, h !! p = Some n -> exists c, in_use s p c
}.

Lemma heap_abs_env (s s' : hst mst) : same_env s s' -> hcur s <> 0 -> slock_ok (hcur s) (hlock s) -> pool_bytes s < 4294963188 ->
  hcur s' <> 0 /\ slock_ok (hcur s') (hlock s') /\ pool_bytes s' < 4294963188.
Proof. intros (-> & -> & -> & _). done. Qed.

Lemma malloc_refines (s : hst mst) h size : heap_abs s h -> 0 < size < pool_bytes s -> can_serve s size ->
  exists p s' h', sys_malloc size s = Done (p, s') /\ spec_malloc h size p h' /\ heap_abs s' h'.
Proof.
  intros [Hs Hc Hl Hb Hused Hlive] Hsz Hcan.
  destruct (proj1 (wp_done _ _ _) (wp_sys_malloc s size Hs Hc Hl Hsz Hb Hcan)) as (p & s' & E & Hs' & Henv & Hp & c & Hle & Hnew & Hu).
  exists p, s', (<[p := size]> h). split; [done|].
  assert (h !! p = None) as Hnone.
  { destruct (h !! p) as [n|] eqn:En; [|done]. destruct (Hlive p n En) as [c' Hc']. by destruct (Hnew c'). }
  assert (in_use s' p c) as Hup by (apply Hu; by right).
  split; [split_and!; try done|].
  - intros q n Hq. assert (q <> p) as Hne by congruence. destruct (Hlive q n Hq) as [cq Hcq].
    destruct (Hused q cq Hcq) as (n' & Hn' & Hr). rewrite Hq in Hn'. injection Hn' as <-.
    destruct (in_use_disjoint s' p c q cq Hs' Hup ltac:(apply Hu; by left) (not_eq_sym Hne)); lia.
  - destruct (heap_abs_env s s' Henv Hc Hl Hb) as (? & ? & ?). split; try done.
    + intros q c' [Hq|[-> ->]]%Hu; [|exists size; split; [by rewrite lookup_insert_eq|lia]].
      destruct (Hused q c' Hq) as (n & Hn & Hr). exists n. split; [|done]. rewrite lookup_insert_ne by congruence. done.
    + intros q n. rewrite lookup_insert_Some. intros [[<- <-]|[_ Hq]]; [by exists c|].
      destruct (Hlive q n Hq) as [c' Hc']. exists c'. apply Hu. by left.
Qed.

(** C3: [sys_malloc] implements the abstract heap.  When the free list of the
    size has a block or the page allocator can give the pages, [sys_malloc]
    returns the address of a block of at least [size] bytes that was not
    handed out and overlaps no block that was, and records exactly that; the
    lock is free again.  A size of 0, or one not below the size of the pool,
    gives [NULL] and changes nothing. *)
Theorem sys_malloc_refines (s : hst mst) (h : gmap Z Z) (size : Z) (Hh : heap_abs s h) :
  (0 < size < pool_bytes s -> can_serve s size ->
     exists p s' h', sys_malloc size s = Done (p, s') /\ spec_malloc h size p h' /\ heap_abs s' h' /\ hlock s' = hlock s) /\
  (~ (0 < size < pool_bytes s) -> sys_malloc size s = Done (0, s)).
Proof.
  split.
  - intros Hsz Hcan. destruct (malloc_refines s h size Hh Hsz Hcan) as (p & s' & h' & E & ? & ?).
    exists p, s', h'. split_and!; try done. destruct Hh as [Hs Hc Hl Hb _ _].
    destruct (proj1 (wp_done _ _ _) (wp_sys_malloc s size Hs Hc Hl Hsz Hb Hcan)) as (p1 & s1 & E1 & _ & (El & _) & _). congruence.
  - intros Hsz. unfold sys_malloc, bind, gets, id.
    destruct (Z.ltb_spec 0 size), (Z.ltb_spec size (pool_bytes s)); cbn [andb negb]; (done || lia).
Qed.

(** C4: [sys_free] implements the abstract heap.  For a block that was handed
    out, [sys_free] returns (no assertion stops it, the arena's counter and the
    free list agree), takes exactly that block away, and the lock is free
    again; when it was the last block of its arena, or pages of its own, the
    pages are given back. *)
Theorem sys_free_refines (s : hst mst) (h : gmap Z Z) (p n : Z) (Hh : heap_abs s h) (Hp : h !! p = Some n) :
  exists s', sys_free p s = Done (tt, s') /\ heap_abs s' (delete p h) /\ hlock s' = hlock s.
Proof.
  destruct Hh as [Hs Hc Hl Hb Hused Hlive]. destruct (Hlive p n Hp) as [c Hu].
  destruct (proj1 (wp_done _ _ _) (wp_sys_free s p c Hs Hc Hl Hu)) as ([] & s' & E & Hs' & Henv & Hu').
  exists s'. split; [done|]. pose proof Henv as (El & _). split; [|done].
  destruct (heap_abs_env s s' Henv Hc Hl Hb) as (? & ? & ?). split; try done.
  - intros q c' [Hq Hne]%Hu'. destruct (Hused q c' Hq) as (m & Hm & Hr). exists m. by rewrite lookup_delete_ne.
  - intros q m [Hne Hq]%lookup_delete_Some. destruct (Hlive q m Hq) as [c' Hc']. exists c'. by apply Hu'.
Qed.
End refinement.

(** ** At boot: the heap is empty *)
Lemma heap_abs_init pf st bytes kt cur : runs_ok pf st ∅ -> (kt = true -> pf = PF_KERNEL) -> cur <> 0 -> bytes < 4294963188 ->
  heap_abs pf (mk_hst block_desc_init ∅ st slock_init bytes kt cur) ∅.
Proof.
  intros Hr Hkt Hc Hb. split; cbn; try done; [split; cbn; try done|..].
  - intros i d Hd. do 7 (destruct i as [|i]; [injection Hd as <-; split_and!; [done|done|constructor]|]). done.
  - intros i d b Hd Hb'. exfalso. do 7 (destruct i as [|i]; [injection Hd as <-; by apply not_elem_of_nil in Hb'|]). done.
  - intros ->. rewrite (Hkt eq_refl). done.
  - by left.
  - intros p c [(a & x & Hx & _)|(a & x & i & d & k & Hx & _)]; done.
Qed.

Definition ex_hst : hst mst := mk_hst block_desc_init ∅ ex_mst slock_init 0x8000 true 0xc009e000.

Lemma ex_heap_abs : heap_abs PF_KERNEL ex_hst ∅.
Proof.
  apply heap_abs_init; try done. split; try done. apply ex_mst_wf.
Qed.

Lemma ex_can_serve : @can_serve _ (page_alloc PF_KERNEL) ex_hst 24.
Proof.
  intros d Hd _. exists 0. split.
  - lia.
  - vm_compute. intuition congruence.
  - by vm_compute.
  - intros i Hi. assert (i = 0) as -> by lia. by vm_compute.
  - done.
  - vm_compute. lia.
Qed.

Lemma sys_malloc_refines_witness :
  exists p s' h', @sys_malloc _ (page_alloc PF_KERNEL) 24 ex_hst = Done (p, s') /\ spec_malloc ∅ 24 p h' /\ heap_abs PF_KERNEL s' h'.
Proof.
  destruct (sys_malloc_refines PF_KERNEL ex_hst ∅ 24 ex_heap_abs) as [Hok _].
  destruct Hok as (p & s' & h' & E & Hm & Ha & _); [cbn; lia|apply ex_can_serve|].
  exists p, s', h'. split; [exact E|]. split; [exact Hm|exact Ha].
Defined.

Lemma sys_free_refines_witness :
  exists p s1 s2, @sys_malloc _ (page_alloc PF_KERNEL) 24 ex_hst = Done (p, s1) /\
    @sys_free _ (page_alloc PF_KERNEL) p s1 = Done (tt, s2) /\ heap_abs PF_KERNEL s2 ∅.
Proof.
  destruct (malloc_refines PF_KERNEL ex_hst ∅ 24 ex_heap_abs) as (p & s1 & h1 & E & (_ & _ & -> & _) & Ha); [cbn; lia|apply ex_can_serve|].
  destruct (sys_free_refines PF_KERNEL s1 _ p 24 Ha) as (s2 & E2 & Ha2 & _); [by rewrite lookup_insert_eq|].
  exists p, s1, s2. split; [exact E|]. split; [exact E2|]. by rewrite delete_insert_id in Ha2.
Defined.
