(* ===== verification/Sched.v ===== *)
(** * Sched: threads and the scheduler ([thread/thread.c], [device/timer.c])

    PCBs are records in a map keyed by their addresses; the ready list and the
    list of all threads are lists of PCB addresses ([Klist] shows that the
    kernel's intrusive lists implement such lists).  [switch_to] makes another
    thread the running one.  The frame that a thread leaves on its stack when
    it calls [schedule] ends by restoring the interrupt status: by
    [intr_set_status(old_status)] in [thread_block] and [thread_yield], by
    [iret] in the timer interrupt, by [intr_enable] in a new thread's
    [kernel_thread].  The field [saved] is that status and [resume] runs the
    end of the frame when the thread is on the processor again. *)

From stdpp Require Import base numbers list gmap.
From S2P Require Import Prelude Bitmap Interrupt Seqlock.

Local Open Scope Z_scope.
Local Open Scope kernel_scope.

Inductive task_status : Type :=
  TASK_RUNNING | TASK_READY | TASK_BLOCKED | TASK_WAITING | TASK_HANGING | TASK_DIED.

#[export] Instance task_status_eq_dec : EqDecision task_status.
Proof. solve_decision. Defined.

Record task : Type := mk_task {
  self_kstack : Z;
  pid : Z;
  status : task_status;
  name : list Z;
  priority : Z;
  ticks : Z;
  elapsed_ticks : Z;
  fd_table : list Z;
  pgdir : Z;
  cwd_inode_nr : Z;
  parent_pid : Z;
  exit_status : Z;
  stack_magic : Z;
  saved : intr_status
}.

Record sst : Type := mk_sst {
  tasks : gmap Z task;
  thread_ready_list : list Z;
  thread_all_list : list Z;
  running : Z;                 (** [running_thread()] *)
  idle_thread : Z;
  g_main_thread : Z;
  cpu_eflags : Z;
  pid_bitmap : bitmap;
  pid_start : Z;
  pid_lock : slock;
  cpu_cr3 : Z;
  tss_esp0 : Z;
  sys_ticks : Z;               (** [ticks] of [timer.c] *)
  freed_pages : list Z         (** the kernel pages given to [mfree_page] *)
}.

Definition put_eflags (z : Z) (s : sst) : sst :=
  mk_sst (tasks s) (thread_ready_list s) (thread_all_list s) (running s) (idle_thread s)
    (g_main_thread s) z (pid_bitmap s) (pid_start s) (pid_lock s) (cpu_cr3 s) (tss_esp0 s) (sys_ticks s) (freed_pages s).

#[export] Instance sst_HasIF : HasIF sst.
Proof.
  refine {| eflags := cpu_eflags; set_eflags := put_eflags |}; [done|done|by intros []].
Defined.

(** ** State updates *)
Definition set_tasks (f : gmap Z task -> gmap Z task) (s : sst) : sst :=
  mk_sst (f (tasks s)) (thread_ready_list s) (thread_all_list s) (running s) (idle_thread s)
    (g_main_thread s) (cpu_eflags s) (pid_bitmap s) (pid_start s) (pid_lock s) (cpu_cr3 s) (tss_esp0 s)
    (sys_ticks s) (freed_pages s).
Definition set_ready (f : list Z -> list Z) (s : sst) : sst :=
  mk_sst (tasks s) (f (thread_ready_list s)) (thread_all_list s) (running s) (idle_thread s)
    (g_main_thread s) (cpu_eflags s) (pid_bitmap s) (pid_start s) (pid_lock s) (cpu_cr3 s) (tss_esp0 s)
    (sys_ticks s) (freed_pages s).
Definition set_all (f : list Z -> list Z) (s : sst) : sst :=
  mk_sst (tasks s) (thread_ready_list s) (f (thread_all_list s)) (running s) (idle_thread s)
    (g_main_thread s) (cpu_eflags s) (pid_bitmap s) (pid_start s) (pid_lock s) (cpu_cr3 s) (tss_esp0 s)
    (sys_ticks s) (freed_pages s).
Definition set_running (t : Z) (s : sst) : sst :=
  mk_sst (tasks s) (thread_ready_list s) (thread_all_list s) t (idle_thread s)
    (g_main_thread s) (cpu_eflags s) (pid_bitmap s) (pid_start s) (pid_lock s) (cpu_cr3 s) (tss_esp0 s)
    (sys_ticks s) (freed_pages s).
Definition set_pid_pool (b : bitmap) (l : slock) (s : sst) : sst :=
  mk_sst (tasks s) (thread_ready_list s) (thread_all_list s) (running s) (idle_thread s)
    (g_main_thread s) (cpu_eflags s) b (pid_start s) l (cpu_cr3 s) (tss_esp0 s)
    (sys_ticks s) (freed_pages s).
Definition set_cpu (cr3 esp0 : Z) (s : sst) : sst :=
  mk_sst (tasks s) (thread_ready_list s) (thread_all_list s) (running s) (idle_thread s)
    (g_main_thread s) (cpu_eflags s) (pid_bitmap s) (pid_start s) (pid_lock s) cr3 esp0
    (sys_ticks s) (freed_pages s).
Definition set_sys_ticks (n : Z) (s : sst) : sst :=
  mk_sst (tasks s) (thread_ready_list s) (thread_all_list s) (running s) (idle_thread s)
    (g_main_thread s) (cpu_eflags s) (pid_bitmap s) (pid_start s) (pid_lock s) (cpu_cr3 s) (tss_esp0 s)
    n (freed_pages s).
Definition add_freed (p : Z) (s : sst) : sst :=
  mk_sst (tasks s) (thread_ready_list s) (thread_all_list s) (running s) (idle_thread s)
    (g_main_thread s) (cpu_eflags s) (pid_bitmap s) (pid_start s) (pid_lock s) (cpu_cr3 s) (tss_esp0 s)
    (sys_ticks s) (freed_pages s ++ [p]).

Definition with_status (st : task_status) (x : task) : task :=
  mk_task (self_kstack x) (pid x) st (name x) (priority x) (ticks x) (elapsed_ticks x) (fd_table x)
    (pgdir x) (cwd_inode_nr x) (parent_pid x) (exit_status x) (stack_magic x) (saved x).
Definition with_ticks (n : Z) (x : task) : task :=
  mk_task (self_kstack x) (pid x) (status x) (name x) (priority x) n (elapsed_ticks x) (fd_table x)
    (pgdir x) (cwd_inode_nr x) (parent_pid x) (exit_status x) (stack_magic x) (saved x).
Definition with_elapsed (n : Z) (x : task) : task :=
  mk_task (self_kstack x) (pid x) (status x) (name x) (priority x) (ticks x) n (fd_table x)
    (pgdir x) (cwd_inode_nr x) (parent_pid x) (exit_status x) (stack_magic x) (saved x).
Definition with_saved (i : intr_status) (x : task) : task :=
  mk_task (self_kstack x) (pid x) (status x) (name x) (priority x) (ticks x) (elapsed_ticks x) (fd_table x)
    (pgdir x) (cwd_inode_nr x) (parent_pid x) (exit_status x) (stack_magic x) i.
Definition with_kstack (k : Z) (x : task) : task :=
  mk_task k (pid x) (status x) (name x) (priority x) (ticks x) (elapsed_ticks x) (fd_table x)
    (pgdir x) (cwd_inode_nr x) (parent_pid x) (exit_status x) (stack_magic x) (saved x).

Definition task_at (t : Z) : M sst task := fun s =>
  olet x := oget (tasks s !! t) Page_fault in Done (x, s).
Definition update_task (t : Z) (f : task -> task) : M sst unit :=
  let! x := task_at t in modify (set_tasks (insert t (f x))).

(** ** The scheduler *)
Section scheduler.
(** [addr_v2p] on the kernel's own mappings (see [Paging]). *)
Context (addr_v2p : Z -> Z).

Definition page_dir_activate (p_thread : Z) : M sst Z :=
  let! x := task_at p_thread in
  let pagedir_phy_addr := 0x100000 in
  ret (if negb (pgdir x =? 0) then addr_v2p (pgdir x) else pagedir_phy_addr).

(** The new [cr3], and the new [esp0] of the TSS for a process. *)
Definition process_activate (p_thread : Z) : M sst unit :=
  assertM (negb (p_thread =? 0)) ;;;
  let! cr3 := page_dir_activate p_thread in
  let! x := task_at p_thread in
  modify (fun s => set_cpu cr3 (if negb (pgdir x =? 0) then u32 (p_thread + PG_SIZE) else tss_esp0 s) s).

Definition is_blocked (st : task_status) : bool :=
  match st with TASK_BLOCKED | TASK_WAITING | TASK_HANGING => true | _ => false end.

Definition elem_find_ready (t : Z) : M sst bool :=
  gets (fun s => bool_decide (t ∈ thread_ready_list s)).

Definition thread_unblock (pthread : Z) : M sst unit :=
  let! old_status := intr_disable in
  let! x := task_at pthread in
  assertM (is_blocked (status x)) ;;;
  (if decide (status x <> TASK_READY) then
     let! found := elem_find_ready pthread in
     assertM (negb found) ;;;
     let! found := elem_find_ready pthread in
     (if found : bool then halt Panicked else ret tt) ;;;
     modify (set_ready (cons pthread)) ;;;
     update_task pthread (with_status TASK_READY)
   else ret tt) ;;;
  let! _ := intr_set_status old_status in
  ret tt.

Definition switch_to (cur next : Z) : M sst unit := modify (set_running next).

Definition schedule : M sst unit :=
  let! st := intr_get_status in
  assertM (bool_decide (st = INTR_OFF)) ;;;
  let! cur := gets running in
  let! x := task_at cur in
  (if decide (status x = TASK_RUNNING) then
     let! found := elem_find_ready cur in
     assertM (negb found) ;;;
     modify (set_ready (fun l => l ++ [cur])) ;;;
     update_task cur (fun x => with_ticks (priority x) x) ;;;
     update_task cur (with_status TASK_READY)
   else ret tt) ;;;
  let! r := gets thread_ready_list in
  (if decide (r = []) then let! i := gets idle_thread in thread_unblock i else ret tt) ;;;
  let! r := gets thread_ready_list in
  assertM (negb (bool_decide (r = []))) ;;;
  match r with
  | [] => halt Panicked
  | next :: r =>
      modify (set_ready (fun _ => r)) ;;;
      update_task next (with_status TASK_RUNNING) ;;;
      process_activate next ;;;
      switch_to cur next
  end.

(** What the thread that is now running does on return from [schedule]. *)
Definition resume : M sst unit :=
  let! cur := gets running in
  let! x := task_at cur in
  let! _ := intr_set_status (saved x) in
  ret tt.

Definition thread_block (stat : task_status) : M sst unit :=
  assertM (is_blocked stat) ;;;
  let! old_status := intr_disable in
  let! cur_thread := gets running in
  update_task cur_thread (with_status stat) ;;;
  update_task cur_thread (with_saved old_status) ;;;
  schedule ;;;
  resume.

Definition thread_yield : M sst unit :=
  let! cur := gets running in
  let! old_status := intr_disable in
  let! found := elem_find_ready cur in
  assertM (negb found) ;;;
  modify (set_ready (fun l => l ++ [cur])) ;;;
  update_task cur (with_status TASK_READY) ;;;
  update_task cur (with_saved old_status) ;;;
  schedule ;;;
  resume.

(** The timer interrupt: the processor clears IF on entry and [iret]
    restores it.  It only happens while IF is set. *)
Definition intr_timer_handler : M sst unit :=
  cli ;;;
  let! cur_thread := gets running in
  let! x := task_at cur_thread in
  assertM (stack_magic x =? 0x19870916) ;;;
  update_task cur_thread (fun x => with_elapsed (u32 (elapsed_ticks x + 1)) x) ;;;
  modify (fun s => set_sys_ticks (u32 (sys_ticks s + 1)) s) ;;;
  update_task cur_thread (with_saved INTR_ON) ;;;
  let! x := task_at cur_thread in
  (if ticks x =? 0 then schedule
   else update_task cur_thread (fun x => with_ticks (u8 (ticks x - 1)) x)) ;;;
  resume.

(** ** Pids *)
Definition pid_lock_acquire : M sst unit := fun s =>
  olet l := slock_acquire (running s) (pid_lock s) in Done (tt, set_pid_pool (pid_bitmap s) l s).
Definition pid_lock_release : M sst unit := fun s =>
  olet l := slock_release (running s) (pid_lock s) in Done (tt, set_pid_pool (pid_bitmap s) l s).
Definition set_pid_bit (bit_idx value : Z) : M sst unit := fun s =>
  olet b := bitmap_set (pid_bitmap s) bit_idx value in Done (tt, set_pid_pool b (pid_lock s) s).

Definition allocate_pid : M sst Z :=
  pid_lock_acquire ;;;
  let! b := gets pid_bitmap in
  let! bit_idx := lift (bitmap_scan b 1) in
  set_pid_bit bit_idx 1 ;;;
  pid_lock_release ;;;
  let! start := gets pid_start in
  ret (i16 (bit_idx + start)).

Definition release_pid (pid : Z) : M sst unit :=
  pid_lock_acquire ;;;
  let! start := gets pid_start in
  let bit_idx := i32 (pid - start) in
  set_pid_bit bit_idx 0 ;;;
  pid_lock_release.

Definition fork_pid : M sst Z := allocate_pid.

(** ** Thread creation and exit *)
Definition MAX_FILES_OPEN_PER_PROC : nat := 8.

Definition TASK_NAME_LEN : nat := 16.

(** [strcpy] writes the name and its 0 into [name[TASK_NAME_LEN]]; a longer
    one runs into the fields that follow. *)
Definition init_thread (pthread : Z) (nm : list Z) (prio : Z) : M sst unit :=
  let! p := allocate_pid in
  (if TASK_NAME_LEN <=? length nm then halt Out_of_bounds else ret tt)%nat ;;;
  let! main := gets g_main_thread in
  modify (set_tasks (insert pthread
    (mk_task (u32 (pthread + PG_SIZE)) p
       (if pthread =? main then TASK_RUNNING else TASK_READY) nm (u8 prio) (u8 prio) 0
       ([0; 1; 2] ++ replicate (MAX_FILES_OPEN_PER_PROC - 3) (-1))
       0 0 (-1) 0 0x19870916 INTR_ON))).

(** [self_kstack] is a [uint32_t*], so the two subtractions of [sizeof]s
    (76 and 32 bytes) are scaled by 4. *)
Definition thread_create (pthread : Z) : M sst unit :=
  update_task pthread (fun x => with_kstack (u32 (self_kstack x - 4 * 76)) x) ;;;
  update_task pthread (fun x => with_kstack (u32 (self_kstack x - 4 * 32)) x).

(** [thread] is the page that [get_kernel_pages(1)] returned. *)
Definition thread_start (thread : Z) (nm : list Z) (prio : Z) : M sst Z :=
  init_thread thread nm prio ;;;
  thread_create thread ;;;
  let! found := elem_find_ready thread in
  assertM (negb found) ;;;
  modify (set_ready (fun l => l ++ [thread])) ;;;
  let! all := gets thread_all_list in
  assertM (negb (bool_decide (thread ∈ all))) ;;;
  modify (set_all (fun l => l ++ [thread])) ;;;
  ret thread.

Definition thread_exit (thread_over : Z) (need_schedule : bool) : M sst unit :=
  let! _ := intr_disable in
  update_task thread_over (with_status TASK_DIED) ;;;
  let! x := task_at thread_over in
  modify (set_ready (fun l => if decide (thread_over ∈ l) then filter (fun t => t <> thread_over) l else l)) ;;;
  (if negb (pgdir x =? 0) then modify (add_freed (pgdir x)) else ret tt) ;;;
  modify (set_all (fun l => filter (fun t => t <> thread_over) l)) ;;;
  let! main := gets g_main_thread in
  (if negb (thread_over =? main)
   then modify (add_freed thread_over) ;;; modify (set_tasks (delete thread_over)) else ret tt) ;;;
  (* the pid is read from the PCB after its page was freed *)
  release_pid (pid x) ;;;
  if need_schedule then schedule ;;; halt Panicked else ret tt.

Definition pid_check (s : sst) (p t : Z) : bool :=
  match tasks s !! t with Some x => pid x =? p | None => false end.

(** [list_traversal] returns the first element that the check accepts. *)
Definition pid2thread (p : Z) : M sst Z := fun s =>
  Done (match filter (fun t => pid_check s p t = true) (thread_all_list s) with
        | [] => 0
        | t :: _ => t
        end, s).
End scheduler.

(** ** Rules for the primitive steps *)
Lemma wp_task_at t x (Q : task -> sst -> Prop) s : tasks s !! t = Some x -> Q x s -> wp (task_at t) Q s.
Proof. intros E HQ. unfold wp, task_at. by rewrite E. Qed.

Lemma wp_update_task t x f (Q : unit -> sst -> Prop) s :
  tasks s !! t = Some x -> Q tt (set_tasks (insert t (f x)) s) -> wp (update_task t f) Q s.
Proof. intros E HQ. unfold update_task. apply wp_bind. by apply (wp_task_at _ x). Qed.

Lemma wp_intr_disable {S} `{!HasIF S} (Q : intr_status -> S -> Prop) s :
  Q (if if_set s then INTR_ON else INTR_OFF) (set_eflags (Z.clearbit (eflags s) 9) s) ->
  wp intr_disable Q s.
Proof. intros HQ. unfold wp. by rewrite intr_disable_eq. Qed.

Definition eflags_with (i : intr_status) (z : Z) : Z :=
  match i with INTR_ON => Z.setbit z 9 | INTR_OFF => Z.clearbit z 9 end.

Lemma wp_intr_set_status {S} `{!HasIF S} i (Q : intr_status -> S -> Prop) s :
  (forall a, Q a (set_eflags (eflags_with i (eflags s)) s)) -> wp (intr_set_status i) Q s.
Proof.
  intros HQ. unfold wp. destruct i; cbn [intr_set_status eflags_with].
  - by rewrite intr_disable_eq.
  - by rewrite intr_enable_eq.
Qed.

Lemma wp_intr_get_status {S} `{!HasIF S} (Q : intr_status -> S -> Prop) s :
  Q (if if_set s then INTR_ON else INTR_OFF) s -> wp intr_get_status Q s.
Proof. intros HQ. unfold wp. by rewrite intr_get_status_eq. Qed.

(** Disabling and restoring gives the flags back. *)
Lemma eflags_restore z :
  eflags_with (if Z.testbit z 9 then INTR_ON else INTR_OFF) (Z.clearbit z 9) = z.
Proof.
  destruct (Z.testbit z 9) eqn:E; cbn [eflags_with].
  - by apply setbit_clearbit.
  - by rewrite !clearbit_off by (by rewrite ?clearbit_off).
Qed.

(** ** The invariant *)
Definition stat (s : sst) (t : Z) : option task_status := status <$> tasks s !! t.
Definition pidof (s : sst) (t : Z) : option Z := pid <$> tasks s !! t.

(** Whatever the running thread is about to do. *)
Record sched_inv (s : sst) : Prop := {
  i_nodup : NoDup (thread_ready_list s);
  (** exactly the threads in state READY are queued *)
  i_ready : forall t, t ∈ thread_ready_list s <-> stat s t = Some TASK_READY;
  (** no thread but the running one is in state RUNNING *)
  i_only : forall t, stat s t = Some TASK_RUNNING -> t = running s;
  i_cur : is_Some (tasks s !! running s);
  i_all : NoDup (thread_all_list s) /\ forall t, t ∈ thread_all_list s <-> is_Some (tasks s !! t);
  i_idle : is_Some (tasks s !! idle_thread s);
  i_alive : forall t, stat s t <> Some TASK_DIED;
  i_null : tasks s !! 0 = None;
  i_magic : forall t x, tasks s !! t = Some x -> stack_magic x = 0x19870916;
  (** pids are different, and taken in the pid bitmap *)
  i_pidmap : bitmap_wf (pid_bitmap s) /\ nbits (pid_bitmap s) = 1024 /\ pid_start s = 1 /\
    pid_lock s = slock_init;
  i_pid : forall t p, pidof s t = Some p -> 1 <= p <= 1024 /\ used (pid_bitmap s) (p - 1) = true;
  i_pid_inj : forall t t' p, pidof s t = Some p -> pidof s t' = Some p -> t = t'
}.

(** Between two scheduling decisions the running thread is RUNNING. *)
Definition sched_wf (s : sst) : Prop :=
  sched_inv s /\ stat s (running s) = Some TASK_RUNNING.

Lemma stat_task s t : is_Some (tasks s !! t) -> exists x, tasks s !! t = Some x /\ stat s t = Some (status x).
Proof. intros [x E]. exists x. unfold stat. by rewrite E. Qed.

Lemma stat_lookup s t st : stat s t = Some st -> exists x, tasks s !! t = Some x /\ status x = st.
Proof. unfold stat. intros (x & E & ->)%fmap_Some. eauto. Qed.

Lemma stat_insert s s' t y t' :
  tasks s' = <[t := y]> (tasks s) ->
  stat s' t' = if decide (t' = t) then Some (status y) else stat s t'.
Proof.
  intros E. unfold stat. rewrite E, lookup_insert. repeat case_decide; try congruence; done.
Qed.

(** Two states that differ in the status of one thread, the ready list, the
    running thread and what the invariant does not see. *)
Record restat (s s' : sst) (t : Z) (st : task_status) : Prop := {
  rs_stat : forall t', stat s' t' = if decide (t' = t) then Some st else stat s t';
  rs_some : forall t', is_Some (tasks s' !! t') <-> is_Some (tasks s !! t');
  rs_pid : forall t', pidof s' t' = pidof s t';
  rs_magic : forall t' x', tasks s' !! t' = Some x' -> exists x, tasks s !! t' = Some x /\ stack_magic x' = stack_magic x;
  rs_all : thread_all_list s' = thread_all_list s;
  rs_idle : idle_thread s' = idle_thread s;
  rs_pool : pid_bitmap s' = pid_bitmap s /\ pid_start s' = pid_start s /\ pid_lock s' = pid_lock s
}.

Lemma restat_inv s s' t st :
  sched_inv s -> restat s s' t st -> st <> TASK_DIED -> NoDup (thread_ready_list s') ->
  (forall t', t' ∈ thread_ready_list s' <-> stat s' t' = Some TASK_READY) ->
  (forall t', stat s' t' = Some TASK_RUNNING -> t' = running s') ->
  is_Some (tasks s' !! running s') -> sched_inv s'.
Proof.
  intros [] [] Hd Hnd Hr Ho Hc. destruct rs_pool0 as (P1 & P2 & P3). split; try done.
  - rewrite rs_all0. split; [apply i_all0|]. intros t'. rewrite rs_some0. apply i_all0.
  - rewrite rs_idle0, rs_some0. done.
  - intros t'. rewrite rs_stat0. case_decide; [congruence|done].
  - destruct (tasks s' !! 0) as [x|] eqn:E; [|done].
    destruct (proj1 (rs_some0 0)) as [y Hy]; [by rewrite E|]. congruence.
  - intros t' x' (x & E & ->)%rs_magic0. by eapply i_magic0.
  - by rewrite P1, P2, P3.
  - intros t' p. rewrite rs_pid0, P1. apply i_pid0.
  - intros t1 t2 p. rewrite !rs_pid0. apply i_pid_inj0.
Qed.

Lemma restat_update s t x f s' :
  tasks s !! t = Some x -> pid (f x) = pid x -> stack_magic (f x) = stack_magic x ->
  tasks s' = <[t := f x]> (tasks s) -> thread_all_list s' = thread_all_list s ->
  idle_thread s' = idle_thread s ->
  pid_bitmap s' = pid_bitmap s /\ pid_start s' = pid_start s /\ pid_lock s' = pid_lock s ->
  restat s s' t (status (f x)).
Proof.
  intros E Hp Hm Ht Ha Hi Hpool. split; try done; unfold stat, pidof; rewrite Ht; intros t'.
  - rewrite lookup_insert. repeat case_decide; try congruence; by subst.
  - rewrite lookup_insert. case_decide; [subst; rewrite E; split; eauto|done].
  - rewrite lookup_insert. case_decide; [subst; rewrite E; cbn; congruence|done].
  - intros x' Hx'. rewrite lookup_insert in Hx'. case_decide; [|eauto].
    subst. exists x. split; [done|]. congruence.
Qed.

(** ** [thread_unblock] *)
Lemma elem_find_false (t : Z) (l : list Z) : t ∉ l -> negb (bool_decide (t ∈ l)) = true.
Proof. intros H. by rewrite bool_decide_eq_false_2. Qed.

Lemma wp_thread_unblock t x s (Q : unit -> sst -> Prop) :
  tasks s !! t = Some x -> is_blocked (status x) = true -> t ∉ thread_ready_list s ->
  Q tt (set_tasks (insert t (with_status TASK_READY x)) (set_ready (cons t) s)) ->
  wp (thread_unblock t) Q s.
Proof.
  intros E Hb Hn HQ. unfold thread_unblock, elem_find_ready. apply wp_bind, wp_intr_disable.
  apply wp_bind, (wp_task_at _ x); [done|]. wp_steps; [done|].
  rewrite decide_True by (intros Hx; by rewrite Hx in Hb).
  wp_steps; [by apply elem_find_false|].
  rewrite (bool_decide_eq_false_2 _ Hn). wp_steps.
  apply (wp_update_task _ x); [done|]. wp_step. apply wp_intr_set_status. intros _. apply wp_ret.
  unfold if_set. cbn [eflags set_eflags sst_HasIF put_eflags cpu_eflags set_tasks set_ready].
  rewrite eflags_restore. by destruct s.
Qed.

Lemma unblock_inv t x s :
  sched_inv s -> tasks s !! t = Some x -> is_blocked (status x) = true ->
  sched_inv (set_tasks (insert t (with_status TASK_READY x)) (set_ready (cons t) s)).
Proof.
  intros Hi E Hb.
  assert (stat s t = Some (status x)) as Hst by (unfold stat; by rewrite E).
  assert (t ∉ thread_ready_list s) as Hn.
  { rewrite (i_ready s Hi), Hst. intros [= H]. by rewrite H in Hb. }
  set (s' := set_tasks _ _).
  assert (restat s s' t TASK_READY) as R.
  { change TASK_READY with (status (with_status TASK_READY x)).
    by apply (restat_update s t x (with_status TASK_READY)). }
  apply (restat_inv s s' t TASK_READY); try done.
  - apply NoDup_cons. split; [done|apply Hi].
  - intros t'. rewrite (rs_stat _ _ _ _ R). cbn. rewrite elem_of_cons, (i_ready s Hi).
    case_decide; [subst; tauto|]. split; [intros [|]; done|auto].
  - intros t'. rewrite (rs_stat _ _ _ _ R). case_decide; [done|]. apply (i_only s Hi).
  - apply (rs_some _ _ _ _ R). apply Hi.
Qed.

(** A thread that is neither running nor ready (nor dead) is blocked. *)
Lemma not_ready_blocked s t x :
  sched_inv s -> tasks s !! t = Some x -> t ∉ thread_ready_list s -> status x <> TASK_RUNNING ->
  is_blocked (status x) = true.
Proof.
  intros Hi E Hn Hr. rewrite (i_ready s Hi) in Hn. pose proof (i_alive s Hi t) as Hd.
  unfold stat in *. rewrite E in *. cbn in *. destruct (status x); done.
Qed.

(** ** [schedule] *)
Lemma wp_process_activate v2p t x s (Q : unit -> sst -> Prop) :
  tasks s !! t = Some x -> t <> 0 ->
  (forall c e, Q tt (set_cpu c e s)) -> wp (process_activate v2p t) Q s.
Proof.
  intros E Ht HQ. unfold process_activate, page_dir_activate. wp_steps.
  { by rewrite (proj2 (Z.eqb_neq t 0)). }
  apply (wp_task_at _ x); [done|]. wp_steps.
  apply (wp_task_at _ x); [done|]. wp_steps. apply HQ.
Qed.

(** The second half: the ready list is not empty and its first thread is put
    on the processor. *)
Definition dispatched (s s' : sst) (next : Z) (rest : list Z) : Prop :=
  running s' = next /\ thread_ready_list s' = rest /\
  (forall t, stat s' t = if decide (t = next) then Some TASK_RUNNING else stat s t) /\
  cpu_eflags s' = cpu_eflags s /\ idle_thread s' = idle_thread s.

Lemma wp_dispatch v2p cur s next rest (Q : unit -> sst -> Prop) :
  sched_inv s -> stat s cur <> Some TASK_RUNNING -> running s = cur ->
  thread_ready_list s = next :: rest ->
  (forall s', sched_wf s' -> dispatched s s' next rest -> Q tt s') ->
  wp (modify (set_ready (fun _ => rest)) ;;;
      update_task next (with_status TASK_RUNNING) ;;;
      process_activate v2p next ;;; switch_to cur next) Q s.
Proof.
  intros Hi Hc Hcur Hr HQ.
  assert (stat s next = Some TASK_READY) as Hst by (apply Hi; rewrite Hr; by left).
  destruct (stat_lookup _ _ _ Hst) as (x & E & Hx).
  wp_steps. apply (wp_update_task _ x); [done|]. wp_step.
  apply (wp_process_activate _ _ (with_status TASK_RUNNING x)).
  { cbn. apply lookup_insert_eq. }
  { intros ->. by rewrite (i_null s Hi) in E. }
  intros c e. unfold switch_to. wp_step. apply HQ.
  - assert (restat s (set_running next (set_cpu c e (set_tasks (insert next (with_status TASK_RUNNING x))
              (set_ready (fun _ => rest) s)))) next TASK_RUNNING) as R.
    { change TASK_RUNNING with (status (with_status TASK_RUNNING x)).
      by apply (restat_update s next x (with_status TASK_RUNNING)). }
    pose proof (i_nodup s Hi) as Hnd. rewrite Hr in Hnd. apply NoDup_cons in Hnd as [Hnx Hnd].
    split.
    + apply (restat_inv s _ next TASK_RUNNING); try done.
      * intros t'. rewrite (rs_stat _ _ _ _ R). cbn.
        pose proof (i_ready s Hi t') as Ht. rewrite Hr, elem_of_cons in Ht. case_decide; [|tauto].
        subst. split; [done|]. done.
      * intros t'. rewrite (rs_stat _ _ _ _ R). case_decide; [done|].
        intros Hrun. pose proof (i_only s Hi _ Hrun). congruence.
      * apply (rs_some _ _ _ _ R). eauto.
    + rewrite (rs_stat _ _ _ _ R), decide_True; done.
  - split_and!; try done. intros t. by apply (stat_insert s _ next (with_status TASK_RUNNING x)).
Qed.

(** The queue the next thread is taken from. *)
Definition run_queue (s : sst) : list Z :=
  if decide (stat s (running s) = Some TASK_RUNNING) then thread_ready_list s ++ [running s]
  else if decide (thread_ready_list s = []) then [idle_thread s] else thread_ready_list s.

(** A blocked thread stays blocked, the idle thread apart. *)
Definition keeps_blocked (s s' : sst) : Prop :=
  idle_thread s' = idle_thread s /\
  forall t st, t <> idle_thread s -> stat s t = Some st -> is_blocked st = true -> stat s' t = Some st.

Lemma schedule_keeps s s' next rest :
  sched_inv s -> run_queue s = next :: rest -> idle_thread s' = idle_thread s ->
  (forall t, stat s' t = if decide (t = next) then Some TASK_RUNNING
                         else if decide (t = running s /\ stat s t = Some TASK_RUNNING)
                              then Some TASK_READY
                              else stat s t) ->
  keeps_blocked s s'.
Proof.
  intros Hi Hq Hid Hst. split; [done|]. intros t st Hn Ht Hb. rewrite Hst.
  rewrite decide_False.
  - rewrite decide_False; [done|]. intros [_ Hr]. rewrite Ht in Hr. injection Hr as ->. done.
  - intros ->. unfold run_queue in Hq.
    assert (next ∉ thread_ready_list s) as Hnr.
    { rewrite (i_ready s Hi), Ht. intros [= ->]. done. }
    destruct (decide (stat s (running s) = Some TASK_RUNNING)) as [Hr|Hr].
    + destruct (thread_ready_list s) as [|u l]; cbn in Hq.
      * injection Hq as Hq _. rewrite Hq, Ht in Hr. injection Hr as ->. done.
      * injection Hq as -> _. apply Hnr. by left.
    + destruct (decide (thread_ready_list s = [])); [by injection Hq as <- _|].
      apply Hnr. rewrite Hq. by left.
Qed.

Lemma wp_schedule v2p s (Q : unit -> sst -> Prop) :
  sched_inv s -> if_set s = false ->
  (forall s' next rest, run_queue s = next :: rest -> sched_wf s' ->
     running s' = next -> thread_ready_list s' = rest -> if_set s' = false ->
     idle_thread s' = idle_thread s ->
     (forall t, stat s' t = if decide (t = next) then Some TASK_RUNNING
                            else if decide (t = running s /\ stat s t = Some TASK_RUNNING)
                                 then Some TASK_READY
                                 else stat s t) -> Q tt s') ->
  wp (schedule v2p) Q s.
Proof.
  intros Hi Hoff HQ. unfold schedule, elem_find_ready. apply wp_bind, wp_intr_get_status. rewrite Hoff. wp_steps; [done|].
  destruct (stat_task s (running s) (i_cur s Hi)) as (x & E & Hst).
  apply (wp_task_at _ x); [done|]. unfold run_queue in HQ. rewrite Hst in HQ.
  destruct (decide (status x = TASK_RUNNING)) as [Hrun|Hrun].
  - assert (running s ∉ thread_ready_list s) as Hn.
    { rewrite (i_ready s Hi), Hst, Hrun. done. }
    wp_steps; [by apply elem_find_false|].
    apply (wp_update_task _ x); [done|]. wp_steps.
    apply (wp_update_task _ (with_ticks (priority x) x)); [cbn; apply lookup_insert_eq|]. wp_steps.
    set (y := with_status TASK_READY (with_ticks (priority x) x)).
    match goal with |- wp _ _ ?s0 => set (s1 := s0) end.
    assert (tasks s1 = <[running s := y]> (tasks s)) as Ht1 by (cbn; apply insert_insert_eq).
    assert (restat s s1 (running s) TASK_READY) as R.
    { change TASK_READY with (status y).
      by apply (restat_update s (running s) x (fun x => with_status TASK_READY (with_ticks (priority x) x))). }
    assert (sched_inv s1) as Hi1.
    { apply (restat_inv s s1 (running s) TASK_READY); try done.
      - cbn. apply NoDup_app. split_and!; [apply Hi| |apply NoDup_singleton].
        intros t Ht ->%list_elem_of_singleton. done.
      - intros t. rewrite (rs_stat _ _ _ _ R). cbn. rewrite elem_of_app, list_elem_of_singleton, (i_ready s Hi).
        destruct (decide (t = running s)) as [->|]; [|by intuition]. split; [done|]. intros _. by right.
      - intros t. rewrite (rs_stat _ _ _ _ R). destruct (decide (t = running s)) as [->|]; [done|]. apply (i_only s Hi).
      - rewrite (rs_some _ _ _ _ R). apply Hi. }
    assert (thread_ready_list s1 = thread_ready_list s ++ [running s]) as Hr1 by done.
    rewrite decide_False by (rewrite Hr1; by destruct (thread_ready_list s)).
    wp_steps.
    { rewrite bool_decide_eq_false_2; [done|]. rewrite Hr1. by destruct (thread_ready_list s). }
    destruct (thread_ready_list s1) as [|next rest] eqn:Hq; [by destruct (thread_ready_list s)|].
    apply (wp_dispatch v2p (running s) s1 next rest); try done.
    { rewrite (rs_stat _ _ _ _ R), decide_True by done. done. }
    intros s' Hwf' (D1 & D2 & D3 & D4 & D5). rewrite decide_True in HQ by (by rewrite Hrun).
    apply (HQ s' next rest); try done.
    { unfold if_set in *. change (eflags s') with (cpu_eflags s'). by rewrite D4. }
    intros t. rewrite D3, (rs_stat _ _ _ _ R). destruct (decide (t = next)); [done|].
    destruct (decide (t = running s)) as [->|].
    + rewrite decide_True; [done|]. by rewrite Hst, Hrun.
    + rewrite decide_False; [done|]. by intros [? _].
  - rewrite decide_False in HQ by congruence. wp_steps.
    assert (forall s1, sched_inv s1 -> stat s1 (running s) <> Some TASK_RUNNING -> running s1 = running s ->
      cpu_eflags s1 = cpu_eflags s -> idle_thread s1 = idle_thread s ->
      thread_ready_list s1 <> [] ->
      thread_ready_list s1 = (if decide (thread_ready_list s = []) then [idle_thread s] else thread_ready_list s) ->
      (forall t, t <> idle_thread s \/ thread_ready_list s <> [] -> stat s1 t = stat s t) ->
      wp (let! r := gets thread_ready_list in
          assertM (negb (bool_decide (r = []))) ;;;
          match r with
          | [] => halt Panicked
          | next :: r =>
              modify (set_ready (fun _ => r)) ;;; update_task next (with_status TASK_RUNNING) ;;;
              process_activate v2p next ;;; switch_to (running s) next
          end) Q s1) as Hrest.
    { intros s1 Hi1 Hns Hcur He Hid1 Hne Hl Hother. wp_steps; [by rewrite bool_decide_eq_false_2|].
      destruct (thread_ready_list s1) as [|next rest] eqn:Hq; [done|].
      apply (wp_dispatch v2p (running s) s1 next rest); try done.
      intros s' Hwf' (D1 & D2 & D3 & D4 & D5). apply (HQ s' next rest); try done.
      - unfold if_set in *. change (eflags s') with (cpu_eflags s'). rewrite D4, He. done.
      - by rewrite D5.
      - intros t. rewrite D3. destruct (decide (t = next)) as [|Hd]; [done|].
        rewrite (decide_False (P := t = running s /\ stat s t = Some TASK_RUNNING)).
        2: { intros [-> Hx]. rewrite Hst in Hx. congruence. }
        apply Hother. destruct (decide (thread_ready_list s = [])) as [Hem|]; [left|by right].
        injection Hl as -> _. done. }
    destruct (decide (thread_ready_list s = [])) as [Hem|Hem].
    + destruct (stat_task s (idle_thread s) (i_idle s Hi)) as (xi & Ei & Hsti).
      assert (is_blocked (status xi) = true) as Hb.
      { apply (not_ready_blocked s (idle_thread s)); [done|done|rewrite Hem; apply not_elem_of_nil|].
        intros Hri. assert (idle_thread s = running s) as Heq by (apply (i_only s Hi); congruence).
        rewrite Heq, E in Ei. congruence. }
      assert (idle_thread s ∉ thread_ready_list s) as Hni by (rewrite Hem; apply not_elem_of_nil).
      wp_steps. apply (wp_thread_unblock _ xi); try done.
      assert (forall t, stat (set_tasks (insert (idle_thread s) (with_status TASK_READY xi))
                (set_ready (cons (idle_thread s)) s)) t
              = if decide (t = idle_thread s) then Some TASK_READY else stat s t) as Hs1.
      { intros t. by apply (stat_insert s _ (idle_thread s) (with_status TASK_READY xi)). }
      apply Hrest; try done.
      * by apply unblock_inv.
      * rewrite Hs1. destruct (decide (running s = idle_thread s)); [done|]. congruence.
      * cbn. by rewrite Hem.
      * intros t [Ht|]; [|done]. by rewrite Hs1, decide_False.
    + apply wp_ret. cbn beta. apply Hrest; try done. congruence.
Qed.

(** ** The operations keep the invariant *)
Lemma inv_eflags z s : sched_inv s -> sched_inv (put_eflags z s).
Proof. intros []. by split. Qed.

Lemma wf_eflags z s : sched_wf s -> sched_wf (put_eflags z s).
Proof. intros [Hi Hr]. split; [by apply inv_eflags|done]. Qed.

Lemma inv_update s t x f :
  sched_inv s -> tasks s !! t = Some x -> status (f x) = status x -> pid (f x) = pid x ->
  stack_magic (f x) = stack_magic x -> sched_inv (set_tasks (insert t (f x)) s).
Proof.
  intros Hi E Hs Hp Hm. set (s' := set_tasks _ s).
  assert (restat s s' t (status (f x))) as R by (by apply (restat_update s t x f)).
  assert (forall t', stat s' t' = stat s t') as Hst.
  { intros t'. rewrite (rs_stat _ _ _ _ R). destruct (decide (t' = t)) as [->|]; [|done].
    unfold stat. rewrite E. cbn. by rewrite Hs. }
  apply (restat_inv s s' t (status (f x))); try done.
  - intros Hd. apply (i_alive s Hi t). unfold stat. rewrite E. cbn. congruence.
  - apply Hi.
  - intros t'. rewrite Hst. apply Hi.
  - intros t'. rewrite Hst. apply Hi.
  - apply (rs_some _ _ _ _ R), Hi.
Qed.

Lemma wf_update s t x f :
  sched_wf s -> tasks s !! t = Some x -> status (f x) = status x -> pid (f x) = pid x ->
  stack_magic (f x) = stack_magic x -> sched_wf (set_tasks (insert t (f x)) s).
Proof.
  intros [Hi Hr] E Hs Hp Hm. split; [by apply inv_update|].
  rewrite (stat_insert s _ t (f x)) by done. cbn [running set_tasks].
  destruct (decide (running s = t)) as [Ht|]; [|done]. rewrite Hs. unfold stat in Hr.
  rewrite Ht, E in Hr. done.
Qed.

(** The running thread takes another status. *)
Lemma inv_running_status s x st :
  sched_inv s -> tasks s !! running s = Some x -> running s ∉ thread_ready_list s ->
  is_blocked st = true -> sched_inv (set_tasks (insert (running s) (with_status st x)) s).
Proof.
  intros Hi E Hn Hb. set (s' := set_tasks _ s).
  assert (restat s s' (running s) st) as R by (by apply (restat_update s (running s) x (with_status st))).
  apply (restat_inv s s' (running s) st); try done.
  - by intros ->.
  - apply Hi.
  - intros t. rewrite (rs_stat _ _ _ _ R). cbn. destruct (decide (t = running s)) as [->|]; [|apply Hi].
    split; [done|]. intros [= ->]. done.
  - intros t. rewrite (rs_stat _ _ _ _ R). cbn. destruct (decide (t = running s)) as [->|]; [done|apply Hi].
  - apply (rs_some _ _ _ _ R), Hi.
Qed.

Lemma wp_resume s (Q : unit -> sst -> Prop) :
  sched_inv s -> (forall z, Q tt (put_eflags z s)) -> wp resume Q s.
Proof.
  intros Hi HQ. unfold resume. wp_steps.
  destruct (i_cur s Hi) as [x E]. apply (wp_task_at _ x); [done|]. wp_step.
  apply wp_intr_set_status. intros _. apply wp_ret, HQ.
Qed.

Lemma running_not_ready s : sched_wf s -> running s ∉ thread_ready_list s.
Proof. intros [Hi Hr]. rewrite (i_ready s Hi), Hr. done. Qed.

Lemma if_set_cleared s z : if_set (put_eflags (Z.clearbit z 9) s) = false.
Proof. apply Z.clearbit_eq. Qed.

(** After [thread_block] the thread is in the state it asked for, unless it is
    the idle thread, which is woken again when nothing else is ready. *)
Lemma wp_thread_block_stat v2p st s :
  sched_wf s -> is_blocked st = true ->
  wp (thread_block v2p st) (fun _ s' => sched_wf s' /\
    run_queue (set_tasks (alter (with_status st) (running s)) s) = running s' :: thread_ready_list s' /\
    (stat s' (running s) = Some st \/ (running s' = running s /\ running s = idle_thread s)) /\
    keeps_blocked s s' /\
    forall t, stat s' t = if decide (t = running s') then Some TASK_RUNNING else if decide (t = running s) then Some st else stat s t) s.
Proof.
  intros Hwf Hb. pose proof (running_not_ready s Hwf) as Hn. pose proof Hwf as [Hi Hr].
  destruct (i_cur s Hi) as [x E]. unfold thread_block. wp_steps; [done|]. apply wp_intr_disable. wp_steps.
  apply (wp_update_task _ x); [done|]. wp_steps.
  apply (wp_update_task _ (with_status st x)); [cbn; apply lookup_insert_eq|]. wp_steps.
  match goal with |- wp _ _ ?s0 => set (s1 := s0) end.
  assert (sched_inv s1) as Hi1.
  { apply (inv_update _ (running s) (with_status st x) (with_saved _)); try done;
      [|cbn; apply lookup_insert_eq].
    apply (inv_running_status (put_eflags _ s)); try done. by apply inv_eflags. }
  assert (forall t, stat s1 t = if decide (t = running s) then Some st else stat s t) as Hst1.
  { intros t. apply (stat_insert s s1 (running s)
      (with_saved (if if_set s then INTR_ON else INTR_OFF) (with_status st x))).
    cbn. apply insert_insert_eq. }
  apply wp_schedule; [done|apply if_set_cleared|].
  intros s' next rest Hq Hwf' Hnx Hrest _ Hid' Hst'.
  apply wp_resume; [apply Hwf'|]. intros z. split; [by apply wf_eflags|]. cbn [running thread_ready_list put_eflags].
  pose proof (schedule_keeps s1 s' next rest Hi1 Hq Hid' Hst') as [K1 K2].
  subst next rest. split; [|split; [|split]].
  - rewrite <- Hq. unfold run_queue. cbn [running thread_ready_list idle_thread set_tasks].
    change (running s1) with (running s). rewrite Hst1.
    assert (stat (set_tasks (alter (with_status st) (running s)) s) (running s) = Some st) as ->.
    { unfold stat. cbn. by rewrite lookup_alter_eq, E. }
    by rewrite (decide_True (P := running s = running s)).
  - change (stat (put_eflags z s')) with (stat s'). rewrite Hst', Hst1.
    change (running s1) with (running s) in *.
    destruct (decide (running s = running s')) as [Heq|Hne].
    + right. split; [done|]. unfold run_queue in Hq. change (running s1) with (running s) in Hq.
      rewrite Hst1, (decide_True (P := running s = running s)) in Hq by done.
      rewrite (decide_False (P := Some st = Some TASK_RUNNING)) in Hq by (intros [= ->]; done).
      change (thread_ready_list s1) with (thread_ready_list s) in Hq.
      destruct (decide (thread_ready_list s = [])) as [Hem|Hem].
      * injection Hq as Hq _. by rewrite <- Hq in Heq.
      * exfalso. apply Hn. rewrite Hq, Heq. by left.
    + left. rewrite (decide_True (P := running s = running s)) by done.
      rewrite decide_False; [done|]. intros [_ [= ->]]. done.
  - split; [done|]. intros t st' Hn' Ht Hb'. apply K2; [done| |done]. rewrite Hst1.
    destruct (decide (t = running s)) as [->|]; [|done]. rewrite Hr in Ht. by injection Ht as <-.
  - intros t. change (stat (put_eflags z s')) with (stat s'). rewrite Hst', Hst1. change (running s1) with (running s).
    destruct (decide (t = running s')); [done|]. destruct (decide (t = running s)) as [->|]; [|by rewrite decide_False by (by intros [? _])].
    rewrite decide_False; [done|]. intros [_ [= ->]]. done.
Qed.

Lemma wp_thread_block v2p st s :
  sched_wf s -> is_blocked st = true ->
  wp (thread_block v2p st) (fun _ s' => sched_wf s' /\
    run_queue (set_tasks (alter (with_status st) (running s)) s) = running s' :: thread_ready_list s' /\
    (stat s' (running s) = Some st \/ (running s' = running s /\ running s = idle_thread s)) /\
    keeps_blocked s s') s.
Proof. intros Hwf Hb. eapply wp_mono; [by apply wp_thread_block_stat|]. cbn beta. intros _ s' (? & ? & ? & ? & _). done. Qed.

(** [thread_yield] puts the thread at the end of the queue. *)
Lemma wp_thread_yield v2p s :
  sched_wf s ->
  wp (thread_yield v2p) (fun _ s' => sched_wf s' /\
    thread_ready_list s ++ [running s] = running s' :: thread_ready_list s' /\ keeps_blocked s s') s.
Proof.
  intros Hwf. pose proof (running_not_ready s Hwf) as Hn. pose proof Hwf as [Hi Hr].
  destruct (i_cur s Hi) as [x E]. unfold thread_yield, elem_find_ready. wp_steps. apply wp_intr_disable. wp_steps.
  { by apply elem_find_false. }
  apply (wp_update_task _ x); [done|]. wp_steps.
  apply (wp_update_task _ (with_status TASK_READY x)); [cbn; apply lookup_insert_eq|]. wp_steps.
  match goal with |- wp _ _ ?s0 => set (s1 := s0) end.
  assert (tasks s1 = <[running s := with_saved (if if_set s then INTR_ON else INTR_OFF) (with_status TASK_READY x)]> (tasks s))
    as Ht1 by (cbn; apply insert_insert_eq).
  assert (forall t, stat s1 t = if decide (t = running s) then Some TASK_READY else stat s t) as Hst1.
  { intros t. by apply (stat_insert s s1 (running s) _ t Ht1). }
  assert (sched_inv s1) as Hi1.
  { apply (restat_inv s s1 (running s) TASK_READY); try done.
    - apply (restat_update s (running s) x
        (fun x => with_saved (if if_set s then INTR_ON else INTR_OFF) (with_status TASK_READY x))); try done.
    - cbn. apply NoDup_app. split_and!; [apply Hi| |apply NoDup_singleton].
      intros t Ht ->%list_elem_of_singleton. done.
    - intros t. rewrite Hst1. cbn. rewrite elem_of_app, list_elem_of_singleton, (i_ready s Hi).
      destruct (decide (t = running s)) as [->|]; [|by intuition]. split; [done|]. intros _. by right.
    - intros t. rewrite Hst1. destruct (decide (t = running s)) as [->|]; [done|]. apply (i_only s Hi).
    - rewrite Ht1. cbn. rewrite lookup_insert_eq. eauto. }
  apply wp_schedule; [done|apply if_set_cleared|].
  intros s' next rest Hq Hwf' Hnx Hrest _ Hid' Hst'.
  apply wp_resume; [apply Hwf'|]. intros z. split; [by apply wf_eflags|]. cbn [running thread_ready_list put_eflags].
  pose proof (schedule_keeps s1 s' next rest Hi1 Hq Hid' Hst') as [K1 K2].
  subst next rest. split.
  - rewrite <- Hq. unfold run_queue. change (running s1) with (running s).
    rewrite Hst1, (decide_True (P := running s = running s)), decide_False by done.
    change (thread_ready_list s1) with (thread_ready_list s ++ [running s]).
    rewrite decide_False; [done|]. by destruct (thread_ready_list s).
  - split; [done|]. intros t st' Hn' Ht Hb'. apply K2; [done| |done]. rewrite Hst1.
    destruct (decide (t = running s)) as [->|]; [|done]. rewrite Hr in Ht. by injection Ht as <-.
Qed.

(** [intr_timer_handler]: nothing changes hands until the time slice is over;
    then the thread goes to the end of the queue. *)
Lemma wp_timer v2p s x :
  sched_wf s -> tasks s !! running s = Some x ->
  wp (intr_timer_handler v2p) (fun _ s' => sched_wf s' /\
    if ticks x =? 0
    then thread_ready_list s ++ [running s] = running s' :: thread_ready_list s' /\ keeps_blocked s s'
    else running s' = running s /\ thread_ready_list s' = thread_ready_list s /\
         (ticks <$> tasks s' !! running s) = Some (u8 (ticks x - 1)) /\ keeps_blocked s s') s.
Proof.
  intros Hwf E. pose proof Hwf as [Hi Hr]. unfold intr_timer_handler, cli. wp_steps.
  apply (wp_task_at _ x); [done|]. wp_steps. { by rewrite (i_magic s Hi _ _ E). }
  apply (wp_update_task _ x); [done|]. wp_steps.
  set (x1 := with_elapsed (u32 (elapsed_ticks x + 1)) x).
  apply (wp_update_task _ x1); [cbn; apply lookup_insert_eq|]. wp_step.
  set (x2 := with_saved INTR_ON x1).
  apply (wp_task_at _ x2); [cbn; apply lookup_insert_eq|]. wp_step.
  match goal with |- wp _ _ ?s0 => set (s1 := s0) end.
  assert (tasks s1 = <[running s := x2]> (tasks s)) as Ht1 by (cbn; apply insert_insert_eq).
  assert (sched_wf s1) as Hwf1.
  { apply (wf_update _ (running s) x1 (with_saved INTR_ON)); try done; [|cbn; apply lookup_insert_eq].
    cut (sched_wf (set_tasks (insert (running s) x1) (put_eflags (Z.clearbit (cpu_eflags s) 9) s))).
    { intros [[] ?]. split; [by split|done]. }
    apply (wf_update _ (running s) x (fun x => with_elapsed (u32 (elapsed_ticks x + 1)) x)); try done.
    by apply wf_eflags. }
  change (ticks x2) with (ticks x). destruct (ticks x =? 0).
  - apply wp_schedule; [apply Hwf1|apply if_set_cleared|].
    intros s' next rest Hq Hwf' Hnx Hrest _ Hid' Hst'.
    apply wp_resume; [apply Hwf'|]. intros z. split; [by apply wf_eflags|].
    pose proof (schedule_keeps s1 s' next rest (proj1 Hwf1) Hq Hid' Hst') as [K1 K2].
    cbn [running thread_ready_list put_eflags]. subst next rest. rewrite <- Hq. split.
    { unfold run_queue. rewrite decide_True by apply Hwf1. done. }
    split; [done|]. intros t st' Hn' Ht Hb'. apply K2; [done| |done].
    rewrite (stat_insert s s1 (running s) x2) by done.
    destruct (decide (t = running s)) as [->|]; [|done]. rewrite Hr in Ht. by injection Ht as <-.
  - apply (wp_update_task _ x2); [rewrite Ht1; apply lookup_insert_eq|].
    set (x3 := with_ticks (u8 (ticks x2 - 1)) x2).
    assert (sched_wf (set_tasks (insert (running s) x3) s1)) as Hwf2.
    { apply (wf_update s1 (running s) x2 (fun y => with_ticks (u8 (ticks y - 1)) y)); try done.
      rewrite Ht1. apply lookup_insert_eq. }
    apply wp_resume; [apply Hwf2|]. intros z. split; [by apply wf_eflags|].
    split; [done|]. split; [done|]. split; [cbn; by rewrite lookup_insert_eq|].
    split; [done|]. intros t st' Hn' Ht Hb'.
    change (stat (put_eflags z (set_tasks (insert (running s) x3) s1)) t)
      with (stat (set_tasks (insert (running s) x3) s1) t).
    rewrite (stat_insert s _ (running s) x3) by (cbn; by rewrite !insert_insert_eq).
    destruct (decide (t = running s)) as [->|]; [|done]. rewrite Hr in Ht. by injection Ht as <-.
Qed.

(** [thread_unblock] of a blocked thread: it becomes ready, first in line. *)
Lemma wp_unblock_wf t x s :
  sched_wf s -> tasks s !! t = Some x -> is_blocked (status x) = true ->
  wp (thread_unblock t) (fun _ s' => sched_wf s' /\ running s' = running s /\
    thread_ready_list s' = t :: thread_ready_list s /\ idle_thread s' = idle_thread s /\
    cpu_eflags s' = cpu_eflags s /\
    (forall u, stat s' u = if decide (u = t) then Some TASK_READY else stat s u)) s.
Proof.
  intros [Hi Hr] E Hb. apply (wp_thread_unblock t x); try done.
  { rewrite (i_ready s Hi). unfold stat. rewrite E. cbn. intros [= H]. by rewrite H in Hb. }
  split; [|split_and!; try done; intros u; by apply (stat_insert s _ t (with_status TASK_READY x))].
  split; [by apply unblock_inv|].
  rewrite (stat_insert s _ t (with_status TASK_READY x)) by done. cbn [running set_tasks set_ready].
  destruct (decide (running s = t)) as [<-|]; [|done].
  unfold stat in Hr. rewrite E in Hr. injection Hr as Hr. by rewrite Hr in Hb.
Qed.

(** ** Pids *)
Lemma running_nonzero s : sched_inv s -> running s <> 0.
Proof. intros Hi E. destruct (i_cur s Hi) as [x Hx]. by rewrite E, (i_null s Hi) in Hx. Qed.

Lemma set_pid_bit_spec s i v b' :
  bitmap_set (pid_bitmap s) i v = Done b' -> set_pid_bit i v s = Done (tt, set_pid_pool b' (pid_lock s) s).
Proof. intros E. unfold set_pid_bit. by rewrite E. Qed.

Lemma allocate_pid_spec s :
  running s <> 0 -> bitmap_wf (pid_bitmap s) -> nbits (pid_bitmap s) = 1024 -> pid_start s = 1 -> pid_lock s = slock_init ->
  (exists i, 0 <= i < 1024 /\ used (pid_bitmap s) i = false) ->
  exists i b, allocate_pid s = Done (i + 1, set_pid_pool b slock_init s) /\
    0 <= i < 1024 /\ used (pid_bitmap s) i = false /\ bitmap_wf b /\ nbits b = 1024 /\
    (forall j, 0 <= j -> used b j = if decide (j = i) then true else used (pid_bitmap s) j).
Proof.
  intros Hr Hb Hn Hst Hl (k & Hk & Hku).
  destruct (first_free_exists (pid_bitmap s) k) as (i & Hff & _); [lia|done|].
  pose proof (bitmap_scan_start (pid_bitmap s) 1 i Hb Hff) as Escan. cbn [Z.eqb Pos.eqb] in Escan.
  destruct Hff as (Hir & Hiu & _). pose proof (wf_len _ Hb) as Hlen.
  destruct (bitmap_set_spec (pid_bitmap s) i 1) as (b' & Eset & Hb' & [Hsh _] & Hu); [done|lia| |auto|].
  { apply Z.div_lt_upper_bound; unfold nbits in *; lia. }
  destruct (slock_roundtrip (running s) (pid_lock s)) as (l & Ea & _ & _ & _ & Er); [done|by left|].
  exists i, b'. split_and!; try done; try lia; [|unfold nbits in *; lia].
  unfold allocate_pid, bind, pid_lock_acquire. rewrite Ea. cbn [obind gets].
  unfold lift, gets. cbn [pid_bitmap set_pid_pool]. rewrite Escan.
  erewrite set_pid_bit_spec by (exact Eset). unfold pid_lock_release.
  cbn [running pid_lock set_pid_pool]. rewrite Er, Hl. cbn [obind ret pid_start set_pid_pool].
  rewrite Hst. unfold ret, i16. rewrite Z.mod_small by lia.
  by replace (i + 1 + 32768 - 32768) with (i + 1) by lia.
Qed.

Lemma wp_allocate_pid s (Q : Z -> sst -> Prop) :
  sched_inv s -> (exists i, 0 <= i < 1024 /\ used (pid_bitmap s) i = false) ->
  (forall i b, 0 <= i < 1024 -> used (pid_bitmap s) i = false -> bitmap_wf b -> nbits b = 1024 ->
     (forall j, 0 <= j -> used b j = if decide (j = i) then true else used (pid_bitmap s) j) ->
     Q (i + 1) (set_pid_pool b slock_init s)) ->
  wp allocate_pid Q s.
Proof.
  intros Hi Hfree HQ. destruct (i_pidmap s Hi) as (Hb & Hn & Hst & Hl).
  destruct (allocate_pid_spec s) as (i & b & E & ? & ? & ? & ? & ?); try done; [by apply running_nonzero|].
  unfold wp. rewrite E. by apply HQ.
Qed.

Lemma wp_release_pid s p (Q : unit -> sst -> Prop) :
  running s <> 0 -> bitmap_wf (pid_bitmap s) -> nbits (pid_bitmap s) = 1024 -> pid_start s = 1 ->
  pid_lock s = slock_init -> 1 <= p <= 1024 ->
  (forall b, bitmap_wf b -> nbits b = 1024 ->
     (forall j, 0 <= j -> used b j = if decide (j = p - 1) then false else used (pid_bitmap s) j) ->
     Q tt (set_pid_pool b slock_init s)) ->
  wp (release_pid p) Q s.
Proof.
  intros Hr Hb Hn Hst Hl Hp HQ. pose proof (wf_len _ Hb) as Hlen.
  destruct (bitmap_set_spec (pid_bitmap s) (p - 1) 0) as (b' & Eset & Hb' & [Hsh _] & Hu); [done|lia| |auto|].
  { apply Z.div_lt_upper_bound; unfold nbits in *; lia. }
  destruct (slock_roundtrip (running s) (pid_lock s)) as (l & Ea & _ & _ & _ & Er); [done|by left|].
  unfold release_pid, wp, bind, pid_lock_acquire. rewrite Ea. cbn [obind gets].
  unfold gets. cbn [pid_start set_pid_pool]. rewrite Hst.
  rewrite i32_id by lia. erewrite set_pid_bit_spec by (exact Eset). unfold pid_lock_release.
  cbn [running pid_lock set_pid_pool]. rewrite Er, Hl. cbn [obind].
  apply (HQ b'); try done. unfold nbits in *. lia.
Qed.

(** ** [thread_start] and [thread_exit] *)

(** A new PCB, ready and queued, with a pid that was free. *)
Lemma new_thread_wf s s1 t y i b :
  sched_wf s -> t <> 0 -> tasks s !! t = None -> tasks s1 = <[t := y]> (tasks s) ->
  status y = TASK_READY -> pid y = i + 1 -> stack_magic y = 0x19870916 ->
  running s1 = running s -> idle_thread s1 = idle_thread s ->
  thread_ready_list s1 = thread_ready_list s ++ [t] -> thread_all_list s1 = thread_all_list s ++ [t] ->
  pid_bitmap s1 = b -> pid_start s1 = pid_start s -> pid_lock s1 = slock_init ->
  0 <= i < 1024 -> used (pid_bitmap s) i = false -> bitmap_wf b -> nbits b = 1024 ->
  (forall j, 0 <= j -> used b j = if decide (j = i) then true else used (pid_bitmap s) j) ->
  sched_wf s1 /\ (forall t', pidof s t' <> Some (i + 1)).
Proof.
  intros [Hi Hr] Ht0 Hnone Ht Hsy Hpy Hmy Erun Eidle Eready Eall Ebm Eps El Hir Hiu Hb Hn Hu.
  assert (t ∉ thread_ready_list s) as Hnr.
  { rewrite (i_ready s Hi). unfold stat. by rewrite Hnone. }
  assert (t ∉ thread_all_list s) as Hna.
  { destruct (i_all s Hi) as [_ Ha]. rewrite Ha, Hnone. by intros []. }
  assert (forall t', stat s1 t' = if decide (t' = t) then Some TASK_READY else stat s t') as Hst.
  { intros t'. rewrite <- Hsy. by apply stat_insert. }
  assert (forall t', t' <> t -> tasks s1 !! t' = tasks s !! t') as Hoth.
  { intros t' Hne. rewrite Ht, lookup_insert_ne; done. }
  assert (tasks s1 !! t = Some y) as Hty by (rewrite Ht; apply lookup_insert_eq).
  assert (t <> running s) as Htr.
  { intros ->. destruct (i_cur s Hi) as [x Hx]. congruence. }
  assert (forall t' p, pidof s t' = Some p -> p <> i + 1) as Hfresh.
  { intros t' p Hp ->. destruct (i_pid s Hi _ _ Hp) as [_ Hpu].
    replace (i + 1 - 1) with i in Hpu by lia. congruence. }
  assert (forall t', pidof s1 t' = if decide (t' = t) then Some (i + 1) else pidof s t') as Hpf.
  { intros t'. unfold pidof. destruct (decide (t' = t)) as [->|]; [rewrite Hty; cbn; by rewrite Hpy|].
    by rewrite Hoth. }
  split; [split; [|by rewrite Hst, Erun, decide_False]|intros t' Hp; by destruct (Hfresh _ _ Hp)].
  destruct (i_all s Hi) as [Hall1 Hall2]. split.
  - rewrite Eready. apply NoDup_app. split_and!; [apply Hi| |apply NoDup_singleton].
    by intros t' Ht' ->%list_elem_of_singleton.
  - intros t'. rewrite Hst, Eready, elem_of_app, list_elem_of_singleton, (i_ready s Hi).
    destruct (decide (t' = t)) as [->|]; [|by intuition]. split; [done|]. intros _. by right.
  - intros t'. rewrite Hst, Erun. destruct (decide (t' = t)) as [->|]; [done|]. apply Hi.
  - rewrite Erun, Hoth by done. apply Hi.
  - rewrite Eall. split.
    + apply NoDup_app. split_and!; [done| |apply NoDup_singleton].
      by intros t' Ht' ->%list_elem_of_singleton.
    + intros t'. rewrite elem_of_app, list_elem_of_singleton, Hall2.
      destruct (decide (t' = t)) as [->|]; [rewrite Hty; split; [by eauto|by right]|rewrite Hoth by done].
      split; [by intros [?|?]|by left].
  - rewrite Eidle. destruct (decide (idle_thread s = t)) as [->|]; [by rewrite Hty|].
    rewrite Hoth by done. apply (i_idle s Hi).
  - intros t'. rewrite Hst. destruct (decide (t' = t)) as [->|]; [done|]. apply Hi.
  - rewrite Hoth by done. apply Hi.
  - intros t' x'. destruct (decide (t' = t)) as [->|]; [rewrite Hty; by intros [= <-]|].
    rewrite Hoth by done. apply Hi.
  - rewrite Ebm, Eps, El. split_and!; try done. apply (i_pidmap s Hi).
  - intros t' p. rewrite Hpf, Ebm. destruct (decide (t' = t)) as [->|].
    + intros [= <-]. split; [lia|]. rewrite Hu, decide_True by lia. done.
    + intros Hp. destruct (i_pid s Hi _ _ Hp) as [? Hpu]. split; [done|].
      rewrite Hu by lia. by destruct (decide (p - 1 = i)).
  - intros t1 t2 p. rewrite !Hpf.
    destruct (decide (t1 = t)) as [->|], (decide (t2 = t)) as [->|]; try done.
    + intros [= <-] Hp. by destruct (Hfresh _ _ Hp).
    + intros Hp [= <-]. by destruct (Hfresh _ _ Hp).
    + apply (i_pid_inj s Hi).
Qed.

Lemma wp_thread_start t nm prio s : (length nm < TASK_NAME_LEN)%nat ->
  sched_wf s -> t <> 0 -> tasks s !! t = None -> t <> g_main_thread s ->
  (exists i, 0 <= i < 1024 /\ used (pid_bitmap s) i = false) ->
  wp (thread_start t nm prio) (fun r s' => r = t /\ sched_wf s' /\ running s' = running s /\
    thread_ready_list s' = thread_ready_list s ++ [t] /\ stat s' t = Some TASK_READY /\
    (forall t', t' <> t -> tasks s' !! t' = tasks s !! t') /\
    (forall p, pidof s' t = Some p -> forall t', pidof s t' <> Some p)) s.
Proof.
  intros Hnm Hwf Ht0 Hnone Hmain Hpid. pose proof Hwf as [Hi Hr]. unfold thread_start, init_thread. wp_steps.
  apply wp_allocate_pid; [done|done|]. intros i b Hir Hiu Hb Hn Hu. rewrite (proj2 (Nat.leb_gt _ _) Hnm). wp_steps.
  cbn [g_main_thread set_pid_pool]. rewrite (proj2 (Z.eqb_neq t (g_main_thread s))) by done.
  unfold thread_create. wp_steps.
  eapply wp_update_task; [cbn; apply lookup_insert_eq|]. wp_steps.
  eapply wp_update_task; [cbn; apply lookup_insert_eq|]. unfold elem_find_ready.
  wp_steps; [by apply elem_find_false; rewrite (i_ready s Hi); unfold stat; rewrite Hnone|
    by apply elem_find_false; rewrite (proj2 (i_all s Hi)), Hnone; intros []|].
  match goal with |- _ /\ sched_wf ?s0 /\ _ => set (s1 := s0) end.
  assert (exists y, tasks s1 = <[t := y]> (tasks s) /\ status y = TASK_READY /\ pid y = i + 1 /\
            stack_magic y = 0x19870916) as (y & Ht & Hsy & Hpy & Hmy).
  { eexists. split; [cbn; by rewrite !insert_insert_eq|]. done. }
  destruct (new_thread_wf s s1 t y i b) as [Hwf1 Hfresh]; try done.
  assert (tasks s1 !! t = Some y) as Hty by (rewrite Ht; apply lookup_insert_eq).
  split_and!; try done.
  - unfold stat. rewrite Hty. cbn. by rewrite Hsy.
  - intros t' Hne. by rewrite Ht, lookup_insert_ne.
  - unfold pidof. rewrite Hty. intros p [= <-]. by rewrite Hpy.
Qed.

Lemma filter_ne_elem (t u : Z) (l : list Z) : u ∈ filter (fun v => v <> t) l <-> u <> t /\ u ∈ l.
Proof. by rewrite list_elem_of_filter. Qed.

Lemma filter_ne_id (t : Z) (l : list Z) : t ∉ l -> filter (fun v => v <> t) l = l.
Proof.
  induction l as [|v l IH]; [done|]. intros [Hv Hl]%not_elem_of_cons. rewrite filter_cons.
  rewrite decide_True by congruence. by rewrite IH.
Qed.

(** The PCB is gone, the thread is in no list, its pid is free. *)
Lemma exit_wf s s' t x b :
  sched_wf s -> tasks s !! t = Some x -> t <> running s -> t <> idle_thread s ->
  tasks s' = delete t (tasks s) -> running s' = running s -> idle_thread s' = idle_thread s ->
  thread_ready_list s' = filter (fun u => u <> t) (thread_ready_list s) ->
  thread_all_list s' = filter (fun u => u <> t) (thread_all_list s) ->
  pid_bitmap s' = b -> pid_start s' = 1 -> pid_lock s' = slock_init -> bitmap_wf b -> nbits b = 1024 ->
  (forall j, 0 <= j -> used b j = if decide (j = pid x - 1) then false else used (pid_bitmap s) j) ->
  sched_wf s'.
Proof.
  intros [Hi Hr] E Hnr Hni Ht Hrun Hidle Hready Hall Hbm Hps Hl Hb Hn Hu.
  assert (forall u, tasks s' !! u = if decide (u = t) then None else tasks s !! u) as Htk.
  { intros u. rewrite Ht. destruct (decide (u = t)) as [->|]; [apply lookup_delete_eq|].
    by rewrite lookup_delete_ne. }
  assert (forall u, stat s' u = if decide (u = t) then None else stat s u) as Hst.
  { intros u. unfold stat. rewrite Htk. by destruct (decide (u = t)). }
  assert (forall u, pidof s' u = if decide (u = t) then None else pidof s u) as Hpf.
  { intros u. unfold pidof. rewrite Htk. by destruct (decide (u = t)). }
  destruct (i_all s Hi) as [A1 A2]. split; [split|].
  - rewrite Hready. apply NoDup_filter, Hi.
  - intros u. rewrite Hready, filter_ne_elem, (i_ready s Hi), Hst.
    destruct (decide (u = t)); [|by intuition]. split; [by intros []|done].
  - intros u. rewrite Hst, Hrun. destruct (decide (u = t)); [done|apply Hi].
  - rewrite Htk, Hrun, decide_False by done. apply (i_cur s Hi).
  - rewrite Hall. split; [by apply NoDup_filter|]. intros u. rewrite filter_ne_elem, A2, Htk.
    destruct (decide (u = t)); [split; [by intros []|by intros []]|by intuition].
  - rewrite Hidle, Htk, decide_False by done. apply (i_idle s Hi).
  - intros u. rewrite Hst. destruct (decide (u = t)); [done|apply Hi].
  - rewrite Htk. destruct (decide (0 = t)); [done|apply Hi].
  - intros u y. rewrite Htk. destruct (decide (u = t)); [done|apply Hi].
  - by rewrite Hbm, Hps, Hl.
  - intros u p. rewrite Hpf, Hbm. destruct (decide (u = t)) as [|Hne]; [done|]. intros Hp.
    destruct (i_pid s Hi u p Hp) as [Hpr Hpu]. split; [done|]. rewrite Hu by lia.
    destruct (decide (p - 1 = pid x - 1)) as [Hpx|]; [|done]. exfalso. apply Hne.
    apply (i_pid_inj s Hi u t p); [done|]. unfold pidof. rewrite E. cbn. f_equal. lia.
  - intros u u' p. rewrite !Hpf. destruct (decide (u = t)), (decide (u' = t)); try done. apply Hi.
  - rewrite Hst, Hrun, decide_False; [exact Hr|congruence].
Qed.

Lemma wp_thread_exit v2p t x s :
  sched_wf s -> tasks s !! t = Some x -> t <> running s -> t <> idle_thread s -> t <> g_main_thread s ->
  wp (thread_exit v2p t false) (fun _ s' => sched_wf s' /\ running s' = running s /\
    thread_ready_list s' = filter (fun u => u <> t) (thread_ready_list s) /\
    tasks s' = delete t (tasks s) /\ used (pid_bitmap s') (pid x - 1) = false /\
    freed_pages s' = freed_pages s ++ (if pgdir x =? 0 then [] else [pgdir x]) ++ [t]) s.
Proof.
  intros Hwf E Hnr Hni Hnm. pose proof Hwf as [Hi Hr].
  destruct (i_pidmap s Hi) as (Hb & Hn & Hps & Hl).
  destruct (i_pid s Hi t (pid x)) as [Hp Hpu]; [unfold pidof; by rewrite E|].
  assert ((if decide (t ∈ thread_ready_list s) then filter (fun u => u <> t) (thread_ready_list s)
           else thread_ready_list s) = filter (fun u => u <> t) (thread_ready_list s)) as Hf.
  { destruct (decide (t ∈ thread_ready_list s)) as [|Hnin]; [done|]. symmetry.
    by apply filter_ne_id. }
  unfold thread_exit. wp_steps. apply wp_intr_disable. wp_steps.
  apply (wp_update_task _ x); [done|]. wp_steps.
  apply (wp_task_at _ (with_status TASK_DIED x)); [cbn; apply lookup_insert_eq|]. wp_steps.
  change (pgdir (with_status TASK_DIED x)) with (pgdir x).
  destruct (pgdir x =? 0) eqn:Epg; cbn [negb];
    (wp_steps; cbn [g_main_thread set_all add_freed set_ready set_tasks];
     match goal with |- context [t =? ?m] => rewrite (proj2 (Z.eqb_neq t m)) by done end; cbn [negb]; wp_steps;
     apply wp_release_pid; try done; [exact (running_nonzero s Hi)|];
     intros b Hb' Hn' Hu; wp_steps; split;
       [apply (exit_wf s _ t x b);
          [exact Hwf|exact E|done|done|cbn; apply delete_insert_eq|done|done|exact Hf|done|done|exact Hps
          |done|done|done|exact Hu]
       |split_and!; [done|exact Hf|cbn; apply delete_insert_eq|exact (eq_trans (Hu (pid x - 1) ltac:(lia)) (decide_True _ _ eq_refl))|]]).
  - done.
  - cbn. by rewrite <- app_assoc.
Qed.

(** ** The scheduler as a state machine *)
Inductive sop : Type :=
  | OTick                                  (** a timer interrupt *)
  | OBlock (st : task_status)              (** [thread_block(st)] by the running thread *)
  | OYield                                 (** [thread_yield()] by the running thread *)
  | OUnblock (t : Z)                       (** [thread_unblock(t)] *)
  | OStart (t : Z) (nm : list Z) (prio : Z)  (** [thread_start], PCB page [t] *)
  | OExit (t : Z).                         (** [thread_exit(t, false)] *)

Definition exec_sop (v2p : Z -> Z) (op : sop) : M sst unit :=
  match op with
  | OTick => intr_timer_handler v2p
  | OBlock st => thread_block v2p st
  | OYield => thread_yield v2p
  | OUnblock t => thread_unblock t
  | OStart t nm prio => let! _ := thread_start t nm prio in ret tt
  | OExit t => thread_exit v2p t false
  end.

(** What the callers guarantee. *)
Definition enabled (s : sst) (op : sop) : Prop :=
  match op with
  | OTick => if_set s = true
  | OBlock st => is_blocked st = true
  | OYield => True
  | OUnblock t => exists st, stat s t = Some st /\ is_blocked st = true
  | OStart t nm _ => (length nm < TASK_NAME_LEN)%nat /\ t <> 0 /\ tasks s !! t = None /\ t <> g_main_thread s /\
                    exists i, 0 <= i < 1024 /\ used (pid_bitmap s) i = false
  | OExit t => is_Some (tasks s !! t) /\ t <> running s /\ t <> idle_thread s /\ t <> g_main_thread s
  end.

Inductive sched_step (v2p : Z -> Z) : sst -> sst -> Prop :=
  | sched_step_op s op s' : enabled s op -> exec_sop v2p op s = Done (tt, s') -> sched_step v2p s s'.

Lemma exec_sop_wf v2p op s :
  sched_wf s -> enabled s op -> exists s', exec_sop v2p op s = Done (tt, s') /\ sched_wf s'.
Proof.
  intros Hwf Hen.
  cut (wp (exec_sop v2p op) (fun _ s' => sched_wf s') s).
  { intros ([] & s' & E & H)%wp_done. eauto. }
  destruct op; cbn [exec_sop enabled] in *.
  - destruct (i_cur s (proj1 Hwf)) as [x E]. eapply wp_mono; [by apply (wp_timer v2p s x)|]. by intros ?? [].
  - eapply wp_mono; [by apply wp_thread_block|]. by intros ?? [].
  - eapply wp_mono; [by apply wp_thread_yield|]. by intros ?? [].
  - destruct Hen as (st & (x & E & <-)%stat_lookup & Hb).
    eapply wp_mono; [by apply (wp_unblock_wf t x)|]. by intros ?? [].
  - destruct Hen as (H0 & H1 & H2 & H3 & H4). apply wp_bind.
    eapply wp_mono; [by apply wp_thread_start|]. cbn beta. intros r s' (_ & H & _). by apply wp_ret.
  - destruct Hen as ([x E] & H2 & H3 & H4).
    eapply wp_mono; [by apply (wp_thread_exit v2p t x)|]. by intros ?? [].
Qed.

(** C12: the scheduler never stops and never loses a thread.  From a
    well-formed state, in every state that any sequence of timer interrupts,
    [thread_block], [thread_yield], [thread_unblock], [thread_start] and
    [thread_exit] can reach, exactly one thread is RUNNING and it is the
    current one, exactly the READY threads are in the ready list, once each,
    every live thread is in the list of all threads, and live threads have
    different pids; and from such a state every enabled operation returns: none
    of the assertions and panics in [schedule], [thread_block],
    [thread_unblock], [thread_yield] and [thread_start] can fire, not even when
    the last ready thread blocks.  ([thread_start] is enabled for a name of at
    most 15 characters, which [name[16]] holds.) *)
Theorem scheduler_safe (v2p : Z -> Z) (s0 s : sst)
    (Hwf : sched_wf s0) (Hreach : rtc (sched_step v2p) s0 s) :
  sched_wf s /\
  forall op, enabled s op -> exists s', exec_sop v2p op s = Done (tt, s') /\ sched_wf s'.
Proof.
  assert (sched_wf s) as Hs.
  { induction Hreach as [|s1 s2 s3 Hstep _ IH]; [done|]. apply IH.
    destruct Hstep as [s1 op s2 Hen E]. destruct (exec_sop_wf v2p op s1 Hwf Hen) as (s2' & E' & H).
    congruence. }
  split; [done|]. intros op Hen. by apply exec_sop_wf.
Qed.

(** The running thread gives the processor up but stays ready. *)
Inductive handover (v2p : Z -> Z) : sst -> sst -> Prop :=
  | handover_yield s s' : thread_yield v2p s = Done (tt, s') -> handover v2p s s'
  | handover_slice s s' x : tasks s !! running s = Some x -> ticks x = 0 ->
      intr_timer_handler v2p s = Done (tt, s') -> handover v2p s s'.

Lemma handover_rotates v2p s s' :
  sched_wf s -> handover v2p s s' ->
  sched_wf s' /\ thread_ready_list s ++ [running s] = running s' :: thread_ready_list s'.
Proof.
  intros Hwf Hh. destruct Hh as [s1 s2 E|s1 s2 x Hx Ht E].
  - pose proof (wp_thread_yield v2p s1 Hwf) as H. unfold wp in H. rewrite E in H. by destruct H as (? & ? & _).
  - pose proof (wp_timer v2p s1 x Hwf Hx) as H. unfold wp in H. rewrite E, Ht in H. by destruct H as (? & ? & _).
Qed.

Lemma handovers_rotate v2p n : forall s s',
  sched_wf s -> nsteps (handover v2p) n s s' -> (n <= length (thread_ready_list s))%nat ->
  sched_wf s' /\ running s' :: thread_ready_list s' =
    drop n (running s :: thread_ready_list s) ++ take n (running s :: thread_ready_list s).
Proof.
  induction n as [|n IH]; intros s s' Hwf Hsteps Hn.
  - inversion Hsteps; subst. by rewrite drop_0, take_0, app_nil_r.
  - apply nsteps_inv_r in Hsteps as (s1 & H1 & H2).
    destruct (IH s s1 Hwf H1 ltac:(lia)) as [Hwf1 Hq1].
    destruct (handover_rotates v2p s1 s' Hwf1 H2) as [Hwf' Hq'].
    split; [done|]. rewrite <- Hq'.
    set (q := running s :: thread_ready_list s) in *.
    assert (n < length q)%nat as Hlt by (cbn; lia).
    destruct (lookup_lt_is_Some_2 q n Hlt) as [a Ha].
    rewrite (drop_S _ a) in Hq1 by done. cbn in Hq1. injection Hq1 as -> ->.
    rewrite (take_S_r _ _ a) by done. by rewrite app_assoc.
Qed.

(** C13: round robin.  A thread in the ready list with [k] threads in front
    of it is the running one after exactly [k + 1] time slices or yields (as
    long as no thread is started, blocked or woken in between): no ready thread
    starves, and it waits for at most one slice of each thread before it. *)
Theorem round_robin (v2p : Z -> Z) (s s' : sst) (k : nat) (t : Z)
    (Hwf : sched_wf s) (Hk : thread_ready_list s !! k = Some t)
    (Hsteps : nsteps (handover v2p) (S k) s s') :
  running s' = t /\ sched_wf s'.
Proof.
  pose proof (lookup_lt_Some _ _ _ Hk) as Hlt.
  destruct (handovers_rotate v2p (S k) s s' Hwf Hsteps ltac:(lia)) as [Hwf' Hq].
  split; [|done]. cbn [drop] in Hq. rewrite (drop_S _ t) in Hq by done. by injection Hq.
Qed.

Lemma pid2thread_spec (s : sst) (p : Z) (Hwf : sched_wf s) :
  exists t, pid2thread p s = Done (t, s) /\
    ((t <> 0 /\ pidof s t = Some p /\ forall t', pidof s t' = Some p -> t' = t) \/
     (t = 0 /\ forall t', pidof s t' <> Some p)).
Proof.
  destruct Hwf as [Hi _]. destruct (i_all s Hi) as [_ Hall].
  unfold pid2thread.
  assert (forall t, pid_check s p t = true <-> pidof s t = Some p) as Hchk.
  { intros t. unfold pid_check, pidof. destruct (tasks s !! t) as [x|]; cbn; [|done].
    rewrite Z.eqb_eq. split; [by intros ->|by intros [= ->]]. }
  destruct (filter (fun t => pid_check s p t = true) (thread_all_list s)) as [|t l] eqn:Ef.
  - exists 0. split; [done|]. right. split; [done|]. intros t' Hp.
    assert (t' ∈ filter (fun t => pid_check s p t = true) (thread_all_list s)) as Hin.
    { apply list_elem_of_filter. rewrite Hchk. split; [done|]. apply Hall.
      unfold pidof in Hp. destruct (tasks s !! t'); [eauto|done]. }
    rewrite Ef in Hin. by apply not_elem_of_nil in Hin.
  - assert (t ∈ filter (fun t => pid_check s p t = true) (thread_all_list s)) as Hin by (rewrite Ef; by left).
    apply list_elem_of_filter in Hin as [Hp _]. rewrite Hchk in Hp.
    exists t. split; [done|]. left. split_and!; [|done|].
    + intros ->. unfold pidof in Hp. by rewrite (i_null s Hi) in Hp.
    + intros t' Hp'. by apply (i_pid_inj s Hi t' t p).
Qed.

(** [pid2thread] finds the thread.  In a well-formed state it returns the
    PCB of the one live thread with that pid, and NULL when there is none. *)
Theorem pid2thread_correct (s : sst) (p : Z) (Hwf : sched_wf s) :
  exists t, pid2thread p s = Done (t, s) /\
    ((t <> 0 /\ pidof s t = Some p /\ forall t', pidof s t' = Some p -> t' = t) \/
     (t = 0 /\ forall t', pidof s t' <> Some p)).
Proof. by apply pid2thread_spec. Qed.

(** ** A concrete scheduler state: main running, idle and a process ready *)
Definition ex_task (st : task_status) (p pg : Z) : task :=
  mk_task 0xc0100ffc p st [] 31 31 0 [0; 1; 2; -1; -1; -1; -1; -1] pg 0 (-1) 0 0x19870916 INTR_ON.
Definition ex_sst : sst :=
  mk_sst (<[0xc009e000 := ex_task TASK_RUNNING 2 0]>
          (<[0xc0100000 := ex_task TASK_READY 1 0xc0117000]>
           (<[0xc011a000 := ex_task TASK_READY 3 0]> ∅)))
    [0xc0100000; 0xc011a000] [0xc0100000; 0xc009e000; 0xc011a000] 0xc009e000 0xc011a000 0xc009e000
    0x202 (mk_bitmap 128 (7 :: replicate 127 0)) 1 slock_init 0x100000 0 0 [].

Lemma ex_sst_tasks t x : tasks ex_sst !! t = Some x ->
  (t = 0xc009e000 /\ x = ex_task TASK_RUNNING 2 0) \/
  (t = 0xc0100000 /\ x = ex_task TASK_READY 1 0xc0117000) \/
  (t = 0xc011a000 /\ x = ex_task TASK_READY 3 0).
Proof.
  cbn [tasks ex_sst]. rewrite !lookup_insert, lookup_empty. repeat case_decide; intros [= <-]; auto.
Qed.

Lemma ex_sst_wf : sched_wf ex_sst.
Proof.
  assert (forall t x, tasks ex_sst !! t = Some x -> t ∈ thread_all_list ex_sst) as Hall.
  { intros t x [[-> _]|[[-> _]|[-> _]]]%ex_sst_tasks; cbn; set_solver. }
  split; [split|done].
  - cbn. repeat constructor; set_solver.
  - intros t. split.
    + cbn [thread_ready_list ex_sst]. intros [->|[->|[]%not_elem_of_nil]%elem_of_cons]%elem_of_cons; done.
    + unfold stat. intros (x & E & Hx)%fmap_Some.
      apply ex_sst_tasks in E as [[-> ->]|[[-> ->]|[-> ->]]]; cbn in *; [done|set_solver|set_solver].
  - intros t (x & E & Hx)%stat_lookup. apply ex_sst_tasks in E as [[-> ->]|[[-> ->]|[-> ->]]]; done.
  - by eexists.
  - split; [cbn; repeat constructor; set_solver|]. intros t. split; [|intros [x E]; by eapply Hall].
    cbn [thread_all_list ex_sst].
    intros [->|[->|[->|[]%not_elem_of_nil]%elem_of_cons]%elem_of_cons]%elem_of_cons; by eexists.
  - by eexists.
  - intros t (x & E & Hx)%stat_lookup. apply ex_sst_tasks in E as [[-> ->]|[[-> ->]|[-> ->]]]; done.
  - done.
  - intros t x [[-> ->]|[[-> ->]|[-> ->]]]%ex_sst_tasks; done.
  - split_and!; try done. split; cbn; [lia| |lia].
    repeat constructor; unfold is_u8; lia.
  - intros t p. unfold pidof. intros (x & E & ->)%fmap_Some.
    apply ex_sst_tasks in E as [[-> ->]|[[-> ->]|[-> ->]]]; cbn; by split; [lia|].
  - intros t t' p. unfold pidof. intros (x & E & ->)%fmap_Some (x' & E' & Hp)%fmap_Some.
    apply ex_sst_tasks in E as [[-> ->]|[[-> ->]|[-> ->]]];
      apply ex_sst_tasks in E' as [[-> ->]|[[-> ->]|[-> ->]]]; done.
Qed.

Lemma scheduler_safe_witness :
  exists s, rtc (sched_step id) ex_sst s /\ sched_wf s /\
    exists s', exec_sop id OYield s = Done (tt, s') /\ sched_wf s'.
Proof.
  assert (rtc (sched_step id) ex_sst ex_sst) as Hr by apply rtc_refl.
  exists ex_sst. split; [exact Hr|].
  destruct (scheduler_safe id ex_sst ex_sst ex_sst_wf Hr) as [H1 H2].
  split; [exact H1|]. apply H2. exact I.
Defined.

Lemma round_robin_witness :
  exists s', nsteps (handover id) 2 ex_sst s' /\ running s' = 0xc011a000 /\ sched_wf s'.
Proof.
  destruct (thread_yield id ex_sst) as [[[] s1]|] eqn:E1; [|vm_compute in E1; discriminate].
  destruct (thread_yield id s1) as [[[] s2]|] eqn:E2.
  2: { vm_compute in E1. injection E1 as <-. vm_compute in E2. discriminate. }
  assert (nsteps (handover id) 2 ex_sst s2) as Hn.
  { eapply nsteps_l; [exact (handover_yield id ex_sst s1 E1)|].
    eapply nsteps_l; [exact (handover_yield id s1 s2 E2)|]. apply nsteps_O. }
  exists s2. split; [exact Hn|].
  apply (round_robin id ex_sst s2 1 0xc011a000 ex_sst_wf); [reflexivity|exact Hn].
Defined.

Lemma pid2thread_correct_witness :
  exists t, pid2thread 3 ex_sst = Done (t, ex_sst) /\
    ((t <> 0 /\ pidof ex_sst t = Some 3 /\ forall t', pidof ex_sst t' = Some 3 -> t' = t) \/
     (t = 0 /\ forall t', pidof ex_sst t' <> Some 3)).
Proof. apply (pid2thread_correct ex_sst 3 ex_sst_wf). Defined.
