(* ===== verification/Wait.v ===== *)
(** * Wait: [wait] and [exit] ([userprog/wait_exit.c])

    On the scheduler of [Sched].  [sys_wait] is a loop around
    [thread_block(TASK_WAITING)]; [sys_wait_round] is one pass: it returns the
    result of the call, or [None] when the thread has gone to sleep and will
    make another pass once it is woken.  Giving back the memory and the files
    of a process ([release_prog_resource]) does not touch the scheduler's state;
    [Release] and [Exit] add it to [sys_exit]. *)

From stdpp Require Import base numbers list gmap.
From S2P Require Import Prelude.
From S2P Require Import Interrupt.
From S2P Require Import Seqlock.
From S2P Require Import Bitmap.
From S2P Require Import Sched.

Local Open Scope Z_scope.
Local Open Scope kernel_scope.

Definition with_parent (p : Z) (x : task) : task :=
  mk_task (self_kstack x) (pid x) (status x) (name x) (priority x) (ticks x) (elapsed_ticks x) (fd_table x)
    (pgdir x) (cwd_inode_nr x) p (exit_status x) (stack_magic x) (saved x).
Definition with_exit (st : Z) (x : task) : task :=
  mk_task (self_kstack x) (pid x) (status x) (name x) (priority x) (ticks x) (elapsed_ticks x) (fd_table x)
    (pgdir x) (cwd_inode_nr x) (parent_pid x) st (stack_magic x) (saved x).

(** ** The callbacks *)
Definition find_child (s : sst) (ppid t : Z) : bool :=
  match tasks s !! t with Some x => parent_pid x =? ppid | None => false end.
Definition find_hanging_child (s : sst) (ppid t : Z) : bool :=
  match tasks s !! t with Some x => (parent_pid x =? ppid) && bool_decide (status x = TASK_HANGING) | None => false end.
Definition init_adopt_a_child (ppid : Z) (x : task) : task := if parent_pid x =? ppid then with_parent 1 x else x.

(** [list_traversal(&thread_all_list, ...)]: the first thread accepted. *)
Definition first_of (f : Z -> bool) (s : sst) : option Z := head (filter (fun t => f t = true) (thread_all_list s)).

Section calls.
Context (addr_v2p : Z -> Z).

Definition sys_wait_round : M sst (option (Z * option Z)) :=
  let! parent_thread := gets running in
  let! x := task_at parent_thread in
  let! s := gets id in
  match first_of (find_hanging_child s (pid x)) s with
  | Some c =>
      let! y := task_at c in
      let child_pid := u16 (pid y) in
      thread_exit addr_v2p c false ;;;
      ret (Some (i16 child_pid, Some (exit_status y)))
  | None =>
      match first_of (find_child s (pid x)) s with
      | None => ret (Some (-1, None))
      | Some _ => thread_block addr_v2p TASK_WAITING ;;; ret None
      end
  end.

(** Every thread of the list whose parent is the dying one gets a new parent. *)
Definition adopt_children (ppid : Z) : M sst unit :=
  modify (fun s => set_tasks (fun m => foldl (fun m t => alter (init_adopt_a_child ppid) t m) m (thread_all_list s)) s).

(** The field [exit_status] is an [int8_t]. *)
Definition sys_exit (exit_st : Z) : M sst unit :=
  let! child_thread := gets running in
  update_task child_thread (with_exit (i8 exit_st)) ;;;
  let! x := task_at child_thread in
  (if parent_pid x =? -1 then halt Panicked else ret tt) ;;;
  adopt_children (pid x) ;;;
  let! x := task_at child_thread in
  let! parent_thread := pid2thread (parent_pid x) in
  let! y := task_at parent_thread in
  (if decide (status y = TASK_WAITING) then thread_unblock parent_thread else ret tt) ;;;
  thread_block addr_v2p TASK_HANGING.
End calls.

(** ** What scheduling leaves alone: who is whose child *)
Definition kin (s : sst) (t : Z) : option (Z * Z * Z) := (fun x => (pid x, parent_pid x, exit_status x)) <$> tasks s !! t.
Definition parentof (s : sst) (t : Z) : option Z := parent_pid <$> tasks s !! t.

(** A relation between states that operations on other parts of the state
    respect. *)
Class Frame (R : sst -> sst -> Prop) : Prop := {
  fr_refl : forall s, R s s;
  fr_trans : forall s1 s2 s3, R s1 s2 -> R s2 s3 -> R s1 s3;
  fr_eflags : forall s z, R s (put_eflags z s)
}.

Definition keeps (R : sst -> sst -> Prop) {A} (m : M sst A) : Prop := forall s a s', m s = Done (a, s') -> R s s'.

Section frame.
Context (R : sst -> sst -> Prop) {HR : Frame R}.

Lemma keeps_bind {A B} (m : M sst A) (f : A -> M sst B) : keeps R m -> (forall a, keeps R (f a)) -> keeps R (bind m f).
Proof.
  intros Hm Hf s b s' E. unfold bind in E. destruct (m s) as [[a s1]|] eqn:E1; [|done].
  eapply fr_trans; [by eapply Hm|by eapply Hf].
Qed.
Lemma keeps_ret {A} (a : A) : keeps R (ret a).
Proof. intros s a' s' [= <- <-]. apply fr_refl. Qed.
Lemma keeps_gets {A} (f : sst -> A) : keeps R (gets f).
Proof. intros s a s' [= <- <-]. apply fr_refl. Qed.
Lemma keeps_halt {A} w : keeps R (@halt sst A w).
Proof. by intros s a s'. Qed.
Lemma keeps_lift {A} (o : outcome A) : keeps R (lift o).
Proof. intros s a s' E. unfold lift in E. destruct o; [|done]. injection E as <- <-. apply fr_refl. Qed.
Lemma keeps_assert b : keeps R (assertM b).
Proof. apply keeps_lift. Qed.
Lemma keeps_task_at t : keeps R (task_at t).
Proof. intros s x s' E. unfold task_at in E. destruct (tasks s !! t); [|done]. injection E as <- <-. apply fr_refl. Qed.
Lemma keeps_update t f : (forall s x, tasks s !! t = Some x -> R s (set_tasks (insert t (f x)) s)) -> keeps R (update_task t f).
Proof.
  intros Hf s a s' E. unfold update_task, bind, task_at in E. destruct (tasks s !! t) as [x|] eqn:Ex; [|done]. injection E as _ <-.
  by apply Hf.
Qed.
Lemma keeps_modify (f : sst -> sst) : (forall s, R s (f s)) -> keeps R (modify f).
Proof. intros Hf s a s' [= _ <-]. apply Hf. Qed.
Lemma keeps_intr_disable : keeps R intr_disable.
Proof. intros s a s' E. rewrite intr_disable_eq in E. injection E as _ <-. apply fr_eflags. Qed.
Lemma keeps_intr_set i : keeps R (intr_set_status i).
Proof.
  intros s a s' E. pose proof (wp_intr_set_status i (fun _ s' => R s s') s (fun _ => fr_eflags s _)) as H.
  unfold wp in H. by rewrite E in H.
Qed.
Lemma keeps_intr_get : keeps R intr_get_status.
Proof.
  intros s a s' E. pose proof (wp_intr_get_status (fun _ s' => R s s') s) as H.
  unfold wp in H. rewrite E in H. apply H, fr_refl.
Qed.

Lemma wp_keeps {A} (m : M sst A) Q s : keeps R m -> wp m Q s -> wp m (fun a s' => Q a s' /\ R s s') s.
Proof. intros Hk. unfold wp. destruct (m s) as [[a s']|] eqn:E; [|done]. intros HQ. split; [done|]. by apply (Hk s a). Qed.
End frame.

(** The idle thread and the main thread stay what they are. *)
Definition anchors (s s' : sst) : Prop := idle_thread s' = idle_thread s /\ g_main_thread s' = g_main_thread s.
#[export] Instance anchors_frame : Frame anchors.
Proof. split; [done| |done]. intros s1 s2 s3 [A1 A2] [B1 B2]. split; congruence. Qed.

(** So do pids, parents and exit statuses. *)
Definition same_kin (s s' : sst) : Prop := anchors s s' /\ forall t, kin s' t = kin s t.
#[export] Instance same_kin_frame : Frame same_kin.
Proof.
  split; [done| |done]. intros s1 s2 s3 [A1 A2] [B1 B2]. split; [by eapply fr_trans|]. intros t. by rewrite B2.
Qed.

Lemma same_kin_update t f : (forall x, pid (f x) = pid x /\ parent_pid (f x) = parent_pid x /\ exit_status (f x) = exit_status x) ->
  keeps same_kin (update_task t f).
Proof.
  intros Hf. apply keeps_update. intros s x Ex. split; [done|]. intros u. unfold kin. cbn.
  destruct (decide (u = t)) as [->|Hne]; [|by rewrite lookup_insert_ne].
  rewrite lookup_insert_eq, Ex. cbn. destruct (Hf x) as (-> & -> & ->). done.
Qed.

#[local] Opaque update_task.
Ltac keep :=
  repeat first
    [ apply same_kin_update; done
    | apply keeps_update; done
    | apply keeps_bind; [apply _| |intros ?]
    | apply keeps_ret; apply _ | apply keeps_gets; apply _ | apply keeps_halt | apply keeps_assert; apply _
    | apply keeps_task_at; apply _ | apply keeps_lift; apply _
    | apply keeps_intr_disable; apply _ | apply keeps_intr_set; apply _ | apply keeps_intr_get; apply _
    | apply keeps_modify; done
    | case_decide | case_match ].

Lemma keeps_unblock t : keeps same_kin (thread_unblock t).
Proof. unfold thread_unblock, elem_find_ready. keep. Qed.
Lemma keeps_block v2p st : keeps same_kin (thread_block v2p st).
Proof. unfold thread_block, resume, schedule, elem_find_ready, process_activate, page_dir_activate, switch_to. keep. Qed.
Lemma keeps_exit v2p t b : keeps anchors (thread_exit v2p t b).
Proof.
  unfold thread_exit, release_pid, schedule, elem_find_ready, process_activate, page_dir_activate, switch_to. keep.
  all: intros s x s' E; unfold pid_lock_acquire, set_pid_bit, pid_lock_release, obind in E; case_match; by simplify_eq.
Qed.
#[local] Transparent update_task.

Lemma kin_same s s' : same_kin s s' -> (forall t, pidof s' t = pidof s t) /\ forall t, parentof s' t = parentof s t.
Proof.
  intros [_ H]. split; intros t; specialize (H t); unfold kin, pidof, parentof in *;
    destruct (tasks s' !! t), (tasks s !! t); cbn in *; congruence.
Qed.

(** ** The family invariant

    The main thread, the idle thread and [init] (pid 1) have no parent; the
    parent of any other thread is alive and has not called [exit]; and a thread
    that waits has no child that waits for it to collect its status, [init]
    apart. *)
Record family (s : sst) : Prop := {
  fa_idle : parentof s (idle_thread s) = Some (-1);
  fa_main : forall p, parentof s (g_main_thread s) = Some p -> p = -1;
  fa_init : exists t, pidof s t = Some 1 /\ parentof s t = Some (-1) /\ stat s t <> Some TASK_HANGING;
  fa_parent : forall c p, parentof s c = Some p -> p = -1 \/ exists t, pidof s t = Some p /\ stat s t <> Some TASK_HANGING;
  fa_wait : forall t c p, stat s t = Some TASK_WAITING -> stat s c = Some TASK_HANGING ->
    pidof s t = Some p -> parentof s c = Some p -> p = 1
}.

(** ** [sys_wait] *)
Lemma first_of_Some f s c : first_of f s = Some c -> f c = true /\ c ∈ thread_all_list s.
Proof. unfold first_of. intros H%head_Some_elem_of. by apply list_elem_of_filter in H. Qed.

Lemma first_of_None f s t : first_of f s = None -> t ∈ thread_all_list s -> f t = false.
Proof.
  unfold first_of. intros H Hin. destruct (f t) eqn:E; [|done]. exfalso.
  assert (t ∈ filter (fun t => f t = true) (thread_all_list s)) as Hin' by (by apply list_elem_of_filter).
  apply head_None in H. rewrite H in Hin'. by apply not_elem_of_nil in Hin'.
Qed.

(** What a pass of [sys_wait] by the thread [cur] with pid [p] does. *)
Definition waited (s : sst) (cur p : Z) (r : option (Z * option Z)) (s' : sst) : Prop :=
  match r with
  | Some (cp, Some st) => exists c y, tasks s !! c = Some y /\ status y = TASK_HANGING /\ parent_pid y = p /\ cp = pid y /\
      st = exit_status y /\ tasks s' = delete c (tasks s) /\ used (pid_bitmap s') (pid y - 1) = false
  | Some (cp, None) => cp = -1 /\ s' = s /\ forall c, parentof s c <> Some p
  | None => stat s' cur = Some TASK_WAITING /\ (exists c, parentof s c = Some p) /\
      forall c, parentof s c = Some p -> stat s c <> Some TASK_HANGING
  end.

Lemma child_true s p t : find_child s p t = true <-> parentof s t = Some p.
Proof. unfold find_child, parentof. destruct (tasks s !! t) as [x|]; cbn; [|done]. rewrite Z.eqb_eq. split; [by intros ->|by intros [= ->]]. Qed.
Lemma hanging_true s p t : find_hanging_child s p t = true <-> parentof s t = Some p /\ stat s t = Some TASK_HANGING.
Proof.
  unfold find_hanging_child, parentof, stat. destruct (tasks s !! t) as [x|]; cbn; [|by intuition].
  rewrite andb_true_iff, Z.eqb_eq, bool_decide_eq_true. split; [by intros [-> ->]|by intros [[= ->] [= ->]]].
Qed.

(** Someone's child is neither the main thread nor the idle thread. *)
Lemma child_not_anchor s c p : sched_inv s -> family s -> parentof s c = Some p -> 1 <= p -> c <> idle_thread s /\ c <> g_main_thread s.
Proof.
  intros Hi [F1 F2 _] Hc Hp. split; intros ->; [rewrite F1 in Hc; injection Hc; lia|]. rewrite (F2 p Hc) in Hp. lia.
Qed.

Lemma family_less s s' c : family s -> anchors s s' -> tasks s' = delete c (tasks s) -> c <> idle_thread s ->
  stat s c = Some TASK_HANGING -> family s'.
Proof.
  intros [F1 F2 F4 F5 F3] [A1 A2] Ht Hc Hhang.
  assert (forall u, parentof s' u = if decide (u = c) then None else parentof s u) as Hp.
  { intros u. unfold parentof. rewrite Ht. destruct (decide (u = c)) as [->|]; [by rewrite lookup_delete_eq|by rewrite lookup_delete_ne]. }
  assert (forall u, stat s' u = if decide (u = c) then None else stat s u) as Hst.
  { intros u. unfold stat. rewrite Ht. destruct (decide (u = c)) as [->|]; [by rewrite lookup_delete_eq|by rewrite lookup_delete_ne]. }
  assert (forall u, pidof s' u = if decide (u = c) then None else pidof s u) as Hpid.
  { intros u. unfold pidof. rewrite Ht. destruct (decide (u = c)) as [->|]; [by rewrite lookup_delete_eq|by rewrite lookup_delete_ne]. }
  split.
  - by rewrite A1, Hp, decide_False.
  - intros p. rewrite A2, Hp. destruct (decide (_ = c)); [done|apply F2].
  - destruct F4 as (t & I1 & I2 & I3). assert (t <> c) as Hne by (by intros ->). exists t. by rewrite Hp, Hst, Hpid, !decide_False.
  - intros u p. rewrite Hp. destruct (decide (u = c)); [done|]. intros [?|(t & T1 & T2)]%F5; [by left|right].
    assert (t <> c) as Hne by (by intros ->). exists t. by rewrite Hst, Hpid, !decide_False.
  - intros t u p. rewrite !Hst, Hp, Hpid. destruct (decide (t = c)), (decide (u = c)); try done. apply F3.
Qed.

(** The running thread blocks. *)
Lemma family_block s s' st : sched_wf s -> family s -> same_kin s s' ->
  (forall t, stat s' t = if decide (t = running s') then Some TASK_RUNNING else if decide (t = running s) then Some st else stat s t) ->
  (forall p, st = TASK_WAITING -> pidof s (running s) = Some p -> forall c, parentof s c = Some p -> stat s c <> Some TASK_HANGING) ->
  (forall p, st = TASK_HANGING -> parentof s (running s) = Some p -> forall t, pidof s t = Some p -> stat s t <> Some TASK_WAITING) ->
  (forall p, st = TASK_HANGING -> pidof s (running s) = Some p -> p <> 1 /\ forall c, parentof s c <> Some p) ->
  family s'.
Proof.
  intros [Hi Hr] [F1 F2 F4 F5 F3] HK Hst Hw Hh Hn. pose proof HK as [[A1 A2] _]. destruct (kin_same s s' HK) as [Kp Kq]. split.
  - by rewrite A1, Kq.
  - intros p. rewrite A2, Kq. apply F2.
  - destruct F4 as (t & I1 & I2 & I3). exists t. rewrite Kp, Kq, Hst. split_and!; [done|done|].
    destruct (decide (t = running s')); [done|]. destruct (decide (t = running s)) as [->|]; [|done].
    intros [= ->]. by destruct (Hn 1 eq_refl I1).
  - intros c p. rewrite Kq. intros Hc. destruct (F5 c p Hc) as [?|(t & T1 & T2)]; [by left|right]. exists t. rewrite Kp, Hst. split; [done|].
    destruct (decide (t = running s')); [done|]. destruct (decide (t = running s)) as [->|]; [|done].
    intros [= ->]. destruct (Hn p eq_refl T1) as [_ Hno]. by apply (Hno c).
  - intros t c p Ht Hc Hp Hq. rewrite Kp in Hp. rewrite Kq in Hq. rewrite Hst in Ht, Hc.
    destruct (decide (t = running s')); [done|]. destruct (decide (c = running s')); [done|].
    destruct (decide (t = running s)) as [->|], (decide (c = running s)) as [->|].
    + congruence.
    + injection Ht as ->. exfalso. by apply (Hw p eq_refl Hp c).
    + injection Hc as ->. exfalso. by apply (Hh p eq_refl Hq t).
    + by apply (F3 t c).
Qed.

Lemma wp_sys_wait_round v2p s x : sched_wf s -> family s -> tasks s !! running s = Some x -> running s <> idle_thread s ->
  wp (sys_wait_round v2p) (fun r s' => sched_wf s' /\ family s' /\ waited s (running s) (pid x) r s') s.
Proof.
  intros Hwf Hf Hx Hidle. pose proof Hwf as [Hi Hr]. destruct (i_all s Hi) as [_ Hall].
  assert (pidof s (running s) = Some (pid x)) as Hpid by (unfold pidof; by rewrite Hx).
  destruct (i_pid s Hi _ _ Hpid) as [Hpr _]. unfold sys_wait_round. wp_steps. apply (wp_task_at _ x); [done|]. wp_steps. unfold id.
  destruct (first_of (find_hanging_child s (pid x)) s) as [c|] eqn:Eh.
  - apply first_of_Some in Eh as [[Hpc Hsc]%hanging_true _]. destruct (child_not_anchor s c _ Hi Hf Hpc ltac:(lia)) as [N1 N2].
    destruct (stat_lookup s c _ Hsc) as (y & Hy & Hys). assert (c <> running s) as N3 by congruence.
    wp_steps. apply (wp_task_at _ y); [done|]. wp_steps.
    eapply wp_mono; [apply (wp_keeps anchors); [apply keeps_exit|by apply (wp_thread_exit v2p c y)]|].
    cbn beta. intros _ s' ((Hwf' & _ & _ & Ht & Hu & _) & HA). wp_steps. split; [done|]. split; [by apply (family_less s s' c)|].
    destruct (i_pid s Hi c (pid y)) as [Hyr _]; [unfold pidof; by rewrite Hy|].
    exists c, y. split_and!; try done; [unfold parentof in Hpc; rewrite Hy in Hpc; by injection Hpc|].
    unfold u16, i16. rewrite (Z.mod_small (pid y)), Z.mod_small by lia. lia.
  - assert (forall c, parentof s c = Some (pid x) -> stat s c <> Some TASK_HANGING) as Hnone.
    { intros c Hc Hsc. assert (c ∈ thread_all_list s) as Hin.
      { apply Hall. unfold parentof in Hc. destruct (tasks s !! c); [eauto|done]. }
      pose proof (first_of_None _ _ c Eh Hin) as E. assert (find_hanging_child s (pid x) c = true) as E' by (by apply hanging_true). congruence. }
    destruct (first_of (find_child s (pid x)) s) as [c|] eqn:Ec.
    + apply first_of_Some in Ec as [Hc%child_true _]. wp_steps.
      eapply wp_mono; [apply (wp_keeps same_kin); [apply keeps_block|by apply (wp_thread_block_stat v2p TASK_WAITING s)]|].
      cbn beta. intros _ s' ((Hwf' & _ & Hcur & _ & Hst) & HK). wp_steps. split; [done|]. split.
      * apply (family_block s s' TASK_WAITING); try done. intros p _ Hp. rewrite Hpid in Hp. injection Hp as <-. done.
      * split; [|split; [by exists c|done]]. destruct Hcur as [?|[_ ?]]; [done|congruence].
    + wp_steps. split; [done|]. split; [done|]. split_and!; try done. intros c Hc.
      assert (c ∈ thread_all_list s) as Hin. { apply Hall. unfold parentof in Hc. destruct (tasks s !! c); [eauto|done]. }
      pose proof (first_of_None _ _ c Ec Hin) as E. assert (find_child s (pid x) c = true) as E' by (by apply child_true). congruence.
Qed.

(** ** [sys_exit] *)
Lemma foldl_alter (f : task -> task) (l : list Z) (m : gmap Z task) t : NoDup l ->
  foldl (fun m t => alter f t m) m l !! t = if decide (t ∈ l) then f <$> m !! t else m !! t.
Proof.
  revert m. induction l as [|u l IH]; intros m Hnd; cbn [foldl]; [by rewrite decide_False by apply not_elem_of_nil|].
  apply NoDup_cons in Hnd as [Hu Hnd]. rewrite IH by done. destruct (decide (t = u)) as [->|Hne].
  - rewrite decide_False by done. rewrite decide_True by (by left). apply lookup_alter_eq.
  - rewrite lookup_alter_ne by done. destruct (decide (t ∈ l)); [by rewrite decide_True by (by right)|].
    rewrite decide_False; [done|]. intros [?|?]%elem_of_cons; done.
Qed.

(** Changing what the scheduler does not look at. *)
Lemma wf_tasks s m : sched_wf s ->
  (forall t, (fun x => (status x, pid x, stack_magic x)) <$> m !! t = (fun x => (status x, pid x, stack_magic x)) <$> tasks s !! t) ->
  sched_wf (set_tasks (fun _ => m) s).
Proof.
  intros [Hi Hr] Hm. set (s' := set_tasks _ s).
  assert (forall t, stat s' t = stat s t) as Hst.
  { intros t. unfold stat. cbn. specialize (Hm t). destruct (m !! t), (tasks s !! t); cbn in *; congruence. }
  assert (forall t, pidof s' t = pidof s t) as Hpid.
  { intros t. unfold pidof. cbn. specialize (Hm t). destruct (m !! t), (tasks s !! t); cbn in *; congruence. }
  assert (forall t, is_Some (tasks s' !! t) <-> is_Some (tasks s !! t)) as Hsome.
  { intros t. cbn. specialize (Hm t). destruct (m !! t), (tasks s !! t); cbn in *; try done; split; eauto. }
  split; [split|].
  - apply (i_nodup s Hi).
  - intros t. rewrite Hst. apply (i_ready s Hi).
  - intros t. rewrite Hst. apply (i_only s Hi).
  - apply Hsome, (i_cur s Hi).
  - split; [apply (i_all s Hi)|]. intros t. rewrite Hsome. apply (i_all s Hi).
  - apply Hsome, (i_idle s Hi).
  - intros t. rewrite Hst. apply (i_alive s Hi).
  - specialize (Hm 0). rewrite (i_null s Hi) in Hm. cbn. by destruct (m !! 0).
  - intros t x Hx. cbn in Hx. specialize (Hm t). rewrite Hx in Hm. destruct (tasks s !! t) as [y|] eqn:Ey; [|done]. cbn in Hm.
    injection Hm as _ _ ->. by apply (i_magic s Hi t y).
  - apply (i_pidmap s Hi).
  - intros t p. rewrite Hpid. apply (i_pid s Hi).
  - intros t t' p. rewrite !Hpid. apply (i_pid_inj s Hi).
  - change (stat s' (running s) = Some TASK_RUNNING). by rewrite Hst.
Qed.

(** The parent after the adoption. *)
Definition heir (p q : Z) : Z := if q =? p then 1 else q.
Lemma heir_ne p q : q <> p -> heir p q = q.
Proof. intros H. unfold heir. by rewrite (proj2 (Z.eqb_neq q p)). Qed.
Lemma heir_eq p : heir p p = 1.
Proof. unfold heir. by rewrite Z.eqb_refl. Qed.

(** Between the adoption and the end of [sys_exit]. *)
Record dying (s s' : sst) (x : task) (st : Z) : Prop := {
  dy_wf : sched_wf s';
  dy_env : running s' = running s /\ idle_thread s' = idle_thread s /\ g_main_thread s' = g_main_thread s;
  dy_tasks : forall t, stat s' t = stat s t /\ pidof s' t = pidof s t;
  dy_self : tasks s' !! running s = Some (init_adopt_a_child (pid x) (with_exit st x));
  dy_parent : forall t, parentof s' t = heir (pid x) <$> parentof s t
}.

Lemma adopt_parent p x : parent_pid (init_adopt_a_child p x) = heir p (parent_pid x).
Proof. unfold init_adopt_a_child, heir. by destruct (parent_pid x =? p) eqn:E. Qed.

Lemma dying_now s x st : sched_wf s -> tasks s !! running s = Some x ->
  dying s (set_tasks (fun m => foldl (fun m t => alter (init_adopt_a_child (pid x)) t m) m (thread_all_list s))
             (set_tasks (insert (running s) (with_exit st x)) s)) x st.
Proof.
  intros Hwf Hx. pose proof Hwf as [Hi _]. destruct (i_all s Hi) as [Hnd Hall].
  pose proof (wf_update s (running s) x (with_exit st) Hwf Hx eq_refl eq_refl eq_refl) as Hwf1.
  set (s1 := set_tasks (insert (running s) (with_exit st x)) s) in *.
  assert (forall t, foldl (fun m t => alter (init_adopt_a_child (pid x)) t m) (tasks s1) (thread_all_list s) !! t =
    init_adopt_a_child (pid x) <$> tasks s1 !! t) as Hfold.
  { intros t. rewrite foldl_alter by done. case_decide as Hin; [done|]. rewrite Hall in Hin.
    assert (tasks s1 !! t = None) as ->; [|done]. cbn. rewrite lookup_insert_ne by (intros <-; eauto). by apply eq_None_not_Some. }
  assert (forall y, status (init_adopt_a_child (pid x) y) = status y /\ pid (init_adopt_a_child (pid x) y) = pid y /\
    stack_magic (init_adopt_a_child (pid x) y) = stack_magic y) as Hcore by (intros y; unfold init_adopt_a_child; by destruct (_ =? _)).
  assert (forall t, tasks s1 !! t = if decide (t = running s) then Some (with_exit st x) else tasks s !! t) as H1.
  { intros t. cbn. destruct (decide (t = running s)) as [->|]; [apply lookup_insert_eq|by rewrite lookup_insert_ne]. }
  split.
  - apply (wf_tasks s1); [done|]. intros t. rewrite Hfold. destruct (tasks s1 !! t) as [y|]; [|done]. cbn.
    destruct (Hcore y) as (-> & -> & ->). done.
  - done.
  - intros t. unfold stat, pidof. cbn [tasks set_tasks]. change (<[running s := with_exit st x]> (tasks s)) with (tasks s1). rewrite Hfold, H1.
    destruct (decide (t = running s)) as [->|]; [rewrite Hx; cbn; destruct (Hcore (with_exit st x)) as (-> & -> & _); done|].
    destruct (tasks s !! t) as [y|]; [|done]. cbn. destruct (Hcore y) as (-> & -> & _). done.
  - cbn [tasks set_tasks]. change (<[running s := with_exit st x]> (tasks s)) with (tasks s1). by rewrite Hfold, H1, decide_True.
  - intros t. unfold parentof. cbn [tasks set_tasks]. change (<[running s := with_exit st x]> (tasks s)) with (tasks s1). rewrite Hfold, H1.
    destruct (decide (t = running s)) as [->|]; [rewrite Hx; cbn; by rewrite adopt_parent|].
    destruct (tasks s !! t) as [y|]; [|done]. cbn. by rewrite adopt_parent.
Qed.

Lemma family_adopted s s' x st : family s -> dying s s' x st -> pidof s (running s) = Some (pid x) -> 1 <= pid x -> family s'.
Proof.
  intros [F1 F2 F4 F5 F3] [Hwf (E1 & E2 & E3) Ht _ Hp] Hpid Hpos.
  assert (forall t, stat s' t = stat s t) as Hst by (intros t; apply Ht). assert (forall t, pidof s' t = pidof s t) as Hpf by (intros t; apply Ht).
  destruct F4 as (i & I1 & I2 & I3).
  assert (parentof s' i = Some (-1)) as Hpi by (rewrite Hp, I2; cbn; rewrite heir_ne by lia; done).
  split.
  - rewrite E2, Hp, F1. cbn. by rewrite heir_ne by lia.
  - intros p. rewrite E3, Hp. destruct (parentof s (g_main_thread s)) as [q|] eqn:Eq; [|done]. cbn. rewrite (F2 q eq_refl).
    rewrite heir_ne by lia. by intros [= <-].
  - exists i. by rewrite Hst, Hpf.
  - intros c p. rewrite Hp. destruct (parentof s c) as [q|] eqn:Eq; [|done]. cbn. unfold heir. destruct (Z.eqb_spec q (pid x)) as [->|Hne]; intros [= <-].
    + right. exists i. by rewrite Hst, Hpf.
    + destruct (F5 c q Eq) as [?|(t & T1 & T2)]; [by left|right]. exists t. by rewrite Hst, Hpf.
  - intros t c p. rewrite !Hst, Hpf, Hp. intros H1 H2 H3. destruct (parentof s c) as [q|] eqn:Eq; [|done]. cbn. unfold heir.
    destruct (Z.eqb_spec q (pid x)) as [->|Hne]; intros [= <-]; [done|]. by apply (F3 t c).
Qed.

Lemma family_woken s s' t : family s -> same_kin s s' -> (forall u, stat s' u = if decide (u = t) then Some TASK_READY else stat s u) -> family s'.
Proof.
  intros [F1 F2 F4 F5 F3] HK Hst. pose proof HK as [[A1 A2] _]. destruct (kin_same s s' HK) as [Kp Kq]. split.
  - by rewrite A1, Kq.
  - intros p. rewrite A2, Kq. apply F2.
  - destruct F4 as (i & I1 & I2 & I3). exists i. rewrite Kp, Kq, Hst. by destruct (decide (i = t)).
  - intros c p. rewrite Kq. intros [?|(u & T1 & T2)]%F5; [by left|right]. exists u. rewrite Kp, Hst. by destruct (decide (u = t)).
  - intros u c p. rewrite !Hst, Kp, Kq. destruct (decide (u = t)), (decide (c = t)); try done. apply F3.
Qed.

(** What [sys_exit(st)] by the thread [cur] with PCB [x] leaves. *)
Record exited (s : sst) (cur : Z) (x : task) (st : Z) (s' : sst) : Prop := {
  ex_self : exists y, tasks s' !! cur = Some y /\ status y = TASK_HANGING /\ exit_status y = i8 st /\ pid y = pid x;
  ex_children : forall c, parentof s c = Some (pid x) -> parentof s' c = Some 1;
  ex_woken : forall t p, parentof s' cur = Some p -> pidof s' t = Some p -> stat s' t <> Some TASK_WAITING
}.

(** The parent is found, and woken when it waits. *)
Lemma wp_wake_parent s t y p K (Q : unit -> sst -> Prop) : sched_wf s -> family s -> pidof s t = Some p -> tasks s !! t = Some y ->
  (forall s', sched_wf s' -> family s' -> same_kin s s' -> running s' = running s -> (forall t', pidof s' t' = Some p -> stat s' t' <> Some TASK_WAITING) ->
     wp K Q s') ->
  wp ((if decide (status y = TASK_WAITING) then thread_unblock t else ret tt) ;;; K) Q s.
Proof.
  intros Hwf Hf Hp Hy HK. wp_steps. pose proof Hwf as [Hi _]. destruct (decide (status y = TASK_WAITING)) as [Ew|Ew].
  - eapply wp_mono; [apply (wp_keeps same_kin); [apply keeps_unblock|apply (wp_unblock_wf t y); [done|done|by rewrite Ew]]|].
    cbn beta. intros _ s' ((Hwf' & Er & _ & _ & _ & Hst) & Hk). apply HK; [done|by apply (family_woken s s' t)|done|done|].
    intros t' Hp'. destruct (kin_same s s' Hk) as [Kp _]. rewrite Kp in Hp'. rewrite (i_pid_inj s Hi t' t p Hp' Hp), Hst, decide_True; done.
  - wp_steps. apply HK; try done. intros t' Hp'. rewrite (i_pid_inj s Hi t' t p Hp' Hp). unfold stat. rewrite Hy. cbn. congruence.
Qed.

Lemma wp_sys_exit v2p s x st : sched_wf s -> family s -> tasks s !! running s = Some x -> parent_pid x <> -1 ->
  wp (sys_exit v2p st) (fun _ s' => sched_wf s' /\ family s' /\ exited s (running s) x st s') s.
Proof.
  intros Hwf Hf Hx Hpar. pose proof Hwf as [Hi Hr]. assert (pidof s (running s) = Some (pid x)) as Hpid by (unfold pidof; by rewrite Hx).
  destruct (i_pid s Hi _ _ Hpid) as [Hpr _]. pose proof (dying_now s x (i8 st) Hwf Hx) as Hd.
  assert (parentof s (running s) = Some (parent_pid x)) as Hpx by (unfold parentof; by rewrite Hx).
  assert (pid x <> 1) as Hnot1.
  { intros E. destruct (fa_init s Hf) as (i & I1 & I2 & _). rewrite E in Hpid. rewrite (i_pid_inj s Hi _ _ 1 Hpid I1), I2 in Hpx. congruence. }
  assert (running s <> idle_thread s) as Hnidle by (intros E; rewrite E, (fa_idle s Hf) in Hpx; congruence).
  unfold sys_exit. wp_steps. apply (wp_update_task _ x); [done|]. wp_steps. apply (wp_task_at _ (with_exit (i8 st) x)); [apply lookup_insert_eq|].
  wp_steps. rewrite (proj2 (Z.eqb_neq (parent_pid (with_exit (i8 st) x)) (-1))) by done. wp_steps. unfold adopt_children. wp_steps.
  match goal with |- wp _ _ ?s0 => change s0 with (set_tasks (fun m => foldl (fun m t => alter (init_adopt_a_child (pid x)) t m) m (thread_all_list s))
    (set_tasks (insert (running s) (with_exit (i8 st) x)) s)) end.
  set (s2 := set_tasks _ (set_tasks _ s)) in *.
  pose proof Hd as [Hwf2 (E1 & E2 & E3) Ht2 Hself Hp2]. pose proof (family_adopted s s2 x (i8 st) Hf Hd Hpid ltac:(lia)) as Hf2.
  apply (wp_task_at _ _ _ _ Hself). wp_steps. rewrite adopt_parent. change (parent_pid (with_exit (i8 st) x)) with (parent_pid x).
  set (q := heir (pid x) (parent_pid x)).
  assert (parentof s2 (running s) = Some q) as Hq by (rewrite Hp2, Hpx; done).
  destruct (fa_parent s2 Hf2 _ _ Hq) as [Hq1|(tp & Htp & _)]; [exfalso; unfold q, heir in Hq1; destruct (Z.eqb_spec (parent_pid x) (pid x)); lia|].
  destruct (pid2thread_spec s2 q Hwf2) as (t & Et & [(Ht0 & Htq & _)|(_ & Hno)]); [|by destruct (Hno tp)].
  apply wp_done. change (exists a s', pid2thread q s2 = Done (a, s') /\ wp (let! y := task_at a in (if decide (status y = TASK_WAITING) then thread_unblock a else ret tt) ;;; thread_block v2p TASK_HANGING)
    (fun _ s' => sched_wf s' /\ family s' /\ exited s (running s) x st s') s').
  exists t, s2. split; [done|]. destruct (tasks s2 !! t) as [y|] eqn:Ey; [|unfold pidof in Htq; by rewrite Ey in Htq].
  apply wp_bind, (wp_task_at _ y); [done|]. apply (wp_wake_parent s2 t y q); [done|done|done|done|].
  intros s3 Hwf3 Hf3 HK3 Er3 Hnw. destruct (kin_same s2 s3 HK3) as [Kp Kq].
  eapply wp_mono; [apply (wp_keeps same_kin); [apply keeps_block|by apply (wp_thread_block_stat v2p TASK_HANGING s3)]|].
  cbn beta. intros _ s' ((Hwf' & _ & Hcur & _ & Hst) & HK'). pose proof HK3 as [[A3 _] _]. rewrite Er3, E1 in Hcur, Hst.
  assert (forall c, parentof s3 c <> Some (pid x)) as Hnochild.
  { intros c. rewrite Kq, Hp2. destruct (parentof s c) as [p'|]; [|done]. cbn. unfold heir. destruct (Z.eqb_spec p' (pid x)); intros [= ?]; congruence. }
  assert (stat s' (running s) = Some TASK_HANGING) as Hhang by (destruct Hcur as [?|[_ ?]]; [done|congruence]).
  destruct (kin_same s3 s' HK') as [Kp' Kq'].
  split; [done|]. split.
  - apply (family_block s3 s' TASK_HANGING); try done; rewrite Er3, E1.
    + intros t'. apply Hst.
    + intros p _ Hp t' Ht'. rewrite Kq, Hq in Hp. injection Hp as <-. by apply Hnw.
    + intros p _ Hp. rewrite Kp in Hp. destruct (Ht2 (running s)) as [_ E]. rewrite E, Hpid in Hp. injection Hp as <-. done.
  - split.
    + destruct (stat_lookup s' _ _ Hhang) as (y' & Hy' & Hs'). exists y'. split; [done|]. split; [done|].
      destruct HK' as [_ HK']. destruct HK3 as [_ HK3]. specialize (HK' (running s)). specialize (HK3 (running s)).
      unfold kin in *. rewrite HK3, Hself, Hy' in HK'. cbn in HK'. injection HK' as -> _ ->. unfold init_adopt_a_child. by destruct (_ =? _).
    + intros c Hc. rewrite Kq', Kq, Hp2, Hc. cbn. by rewrite heir_eq.
    + intros t' p Hp Hpt. rewrite Kq', Kq, Hq in Hp. injection Hp as <-. rewrite Kp' in Hpt. rewrite Hst.
      destruct (decide (t' = running s')); [done|]. destruct (decide (t' = running s)); [done|]. by apply Hnw.
Qed.

(** C16: [wait] and [exit] fit together.  In a well-formed state, a pass of
    [sys_wait] either returns the pid and the exit status of a child that has
    exited and frees its PCB and its pid; or returns -1 when there is no child;
    or puts the thread to sleep when it has children of which none has exited.
    [sys_exit] finds its parent, leaves the low byte of the status, as a signed
    number, in the PCB of the thread, now hanging, gives its children to [init],
    and wakes the parent if it waits; without a parent it panics.  Both keep the
    scheduler's invariant and the family's: no thread other than [init] waits
    while it has a child whose status it could collect.  For [init] this fails
    ([init_not_woken]): exited children it inherits do not wake it. *)
Theorem wait_exit_correct (v2p : Z -> Z) (s : sst) (x : task) (Hwf : sched_wf s) (Hf : family s)
    (Hx : tasks s !! running s = Some x) :
  (running s <> idle_thread s ->
     exists r s', sys_wait_round v2p s = Done (r, s') /\ sched_wf s' /\ family s' /\ waited s (running s) (pid x) r s') /\
  (parent_pid x <> -1 -> forall st,
     exists s', sys_exit v2p st s = Done (tt, s') /\ sched_wf s' /\ family s' /\ exited s (running s) x st s') /\
  (parent_pid x = -1 -> forall st, sys_exit v2p st s = Halt Panicked).
Proof.
  split; [|split].
  - intros Hi. by apply wp_done, wp_sys_wait_round.
  - intros Hp st. destruct (proj1 (wp_done _ _ _) (wp_sys_exit v2p s x st Hwf Hf Hx Hp)) as ([] & s' & E & H). by exists s'.
  - intros Hp st. unfold sys_exit. set (s1 := set_tasks (insert (running s) (with_exit (i8 st) x)) s).
    rewrite (bind_done _ _ s (running s) s) by done.
    rewrite (bind_done _ _ s tt s1) by (unfold update_task, bind, task_at; by rewrite Hx).
    rewrite (bind_done _ _ s1 (with_exit (i8 st) x) s1) by (unfold task_at; cbn; by rewrite lookup_insert_eq).
    change (parent_pid (with_exit (i8 st) x)) with (parent_pid x). by rewrite Hp.
Qed.

(** ** A family: [init], a shell that waits, and its child, which is running *)
Definition ex_member (st : task_status) (p par : Z) : task :=
  mk_task 0xc0140ffc p st [] 31 31 0 [0; 1; 2; -1; -1; -1; -1; -1] (if p =? 5 then 0xc0100000 else 0) 0 par 0 0x19870916 INTR_ON.
Definition ex_family : sst :=
  mk_sst (<[0xc0140000 := ex_member TASK_READY 1 (-1)]>
          (<[0xc009e000 := ex_member TASK_READY 2 (-1)]>
           (<[0xc011a000 := ex_member TASK_BLOCKED 3 (-1)]>
            (<[0xc0120000 := ex_member TASK_WAITING 4 1]>
             (<[0xc0130000 := ex_member TASK_RUNNING 5 4]> ∅)))))
    [0xc0140000; 0xc009e000] [0xc0140000; 0xc009e000; 0xc011a000; 0xc0120000; 0xc0130000] 0xc0130000 0xc011a000 0xc009e000
    0x202 (mk_bitmap 128 (31 :: replicate 127 0)) 1 slock_init 0x100000 0 0 [].

Lemma ex_family_tasks t x : tasks ex_family !! t = Some x ->
  (t = 0xc0140000 /\ x = ex_member TASK_READY 1 (-1)) \/ (t = 0xc009e000 /\ x = ex_member TASK_READY 2 (-1)) \/
  (t = 0xc011a000 /\ x = ex_member TASK_BLOCKED 3 (-1)) \/ (t = 0xc0120000 /\ x = ex_member TASK_WAITING 4 1) \/
  (t = 0xc0130000 /\ x = ex_member TASK_RUNNING 5 4).
Proof.
  cbn [tasks ex_family]. rewrite !lookup_insert, lookup_empty. repeat case_decide; intros [= <-]; subst; intuition congruence.
Qed.

Ltac members := repeat match goal with
  | H : tasks ex_family !! _ = Some _ |- _ => apply ex_family_tasks in H as [[-> ->]|[[-> ->]|[[-> ->]|[[-> ->]|[-> ->]]]]]
  end.

Lemma ex_family_stat t st : stat ex_family t = Some st -> exists x, tasks ex_family !! t = Some x /\ status x = st.
Proof. apply stat_lookup. Qed.

Lemma ex_family_wf : sched_wf ex_family.
Proof.
  split; [split|done].
  - cbn. repeat constructor; set_solver.
  - intros t. split.
    + cbn [thread_ready_list ex_family]. intros [->|[->|[]%not_elem_of_nil]%elem_of_cons]%elem_of_cons; done.
    + intros (x & E & Hx)%stat_lookup. members; cbn in *; (done || set_solver).
  - intros t (x & E & Hx)%stat_lookup. members; done.
  - by eexists.
  - split; [cbn; repeat constructor; set_solver|]. intros t. split; [|intros [x E]; members; cbn; set_solver].
    cbn [thread_all_list ex_family].
    intros [->|[->|[->|[->|[->|[]%not_elem_of_nil]%elem_of_cons]%elem_of_cons]%elem_of_cons]%elem_of_cons]%elem_of_cons; by eexists.
  - by eexists.
  - intros t (x & E & Hx)%stat_lookup. members; done.
  - done.
  - intros t x E. members; done.
  - split_and!; try done. split; cbn; [lia| |lia]. repeat constructor; unfold is_u8; lia.
  - intros t p. unfold pidof. intros (x & E & ->)%fmap_Some. members; cbn; by split; [lia|].
  - intros t t' p. unfold pidof. intros (x & E & ->)%fmap_Some (x' & E' & Hp)%fmap_Some. members; done.
Qed.

Lemma ex_family_ok : family ex_family.
Proof.
  split.
  - done.
  - intros p. cbn. by intros [= <-].
  - exists 0xc0140000. done.
  - intros c p (x & E & ->)%fmap_Some. members; cbn; try (by left); right; [by exists 0xc0140000|by exists 0xc0120000].
  - intros t c p _ (x & E & Hx)%stat_lookup. members; done.
Qed.

Lemma wait_exit_correct_witness :
  exists s', sys_exit id 7 ex_family = Done (tt, s') /\ family s' /\ exited ex_family 0xc0130000 (ex_member TASK_RUNNING 5 4) 7 s'.
Proof.
  destruct (wait_exit_correct id ex_family (ex_member TASK_RUNNING 5 4) ex_family_wf ex_family_ok) as (_ & H & _); [reflexivity|].
  destruct (H ltac:(discriminate) 7) as (s' & E & _ & Hf & He).
  exists s'. split; [exact E|]. split; [exact Hf|exact He].
Defined.

(** [init] is not woken for a child it inherits: it can wait while a thread
    that has exited is its child. *)
Definition ex_orphan : sst :=
  set_tasks (fun m => <[0xc0140000 := ex_member TASK_WAITING 1 (-1)]> (<[0xc0120000 := ex_member TASK_HANGING 4 5]>
    (<[0xc0130000 := ex_member TASK_RUNNING 5 1]> m)))
    (set_ready (fun _ => [0xc009e000]) ex_family).
Lemma init_not_woken :
  let s := set_tasks (alter (with_parent 2) 0xc0130000) ex_orphan in
  exists s', sys_exit id 0 s = Done (tt, s') /\ stat s' 0xc0140000 = Some TASK_WAITING /\
    stat s' 0xc0120000 = Some TASK_HANGING /\ parentof s' 0xc0120000 = Some 1.
Proof. vm_compute. eexists. split; [reflexivity|]. done. Qed.
