(* ===== verification/Sync.v ===== *)
(** * Sync: semaphores and locks ([thread/sync.c]), on top of the scheduler

    A lock and the scheduler together.  [sema_down] runs with interrupts off,
    except that it gives the processor away inside its loop; it is modelled by
    the loop's iterations ([sema_down_loop]), which either take the semaphore or
    put the thread on the wait queue and block it.  [lock_acquire] and
    [lock_release] are not atomic: the timer can interrupt them between any two
    of their statements, so they are also given as machines whose states are
    the points where that can happen, and the machine interleaves the threads
    with timer interrupts the way the scheduler does. *)

From stdpp Require Import base numbers list gmap.
From S2P Require Import Prelude Bitmap Interrupt Seqlock Sched.

Local Open Scope Z_scope.
Local Open Scope kernel_scope.

Record semaphore : Type := mk_sema { value : Z; waiters : list Z }.
Record lock : Type := mk_lock { holder : Z; lsema : semaphore; holder_repeat_nr : Z }.

Definition sema_init (v : Z) : semaphore := mk_sema (u8 v) [].
Definition lock_init : lock := mk_lock 0 (sema_init 1) 0.

Record lst : Type := mk_lst { sch : sst; lk : lock }.

Definition on_sch {A} (m : M sst A) : M lst A := fun s =>
  olet (a, s') := m (sch s) in Done (a, mk_lst s' (lk s)).
Definition upd_lock (f : lock -> lock) : M lst unit := modify (fun s => mk_lst (sch s) (f (lk s))).
Definition set_sema (f : semaphore -> semaphore) (l : lock) : lock :=
  mk_lock (holder l) (f (lsema l)) (holder_repeat_nr l).

Section sync.
Context (v2p : Z -> Z).

(** One iteration of the loop in [sema_down], and what follows it: [true]
    when the semaphore was taken, [false] when the thread has blocked itself
    and another thread is running. *)
Definition sema_down_loop (old_status : intr_status) : M lst bool :=
  let! s := gets (fun s => lsema (lk s)) in
  if value s =? 0 then
    let! me := gets (fun s => running (sch s)) in
    assertM (negb (bool_decide (me ∈ waiters s))) ;;;
    (if bool_decide (me ∈ waiters s) then halt Panicked else ret tt) ;;;
    upd_lock (set_sema (fun s => mk_sema (value s) (waiters s ++ [me]))) ;;;
    on_sch (thread_block v2p TASK_BLOCKED) ;;;
    ret false
  else
    upd_lock (set_sema (fun s => mk_sema (u8 (value s - 1)) (waiters s))) ;;;
    let! s := gets (fun s => lsema (lk s)) in
    assertM (value s =? 0) ;;;
    let! _ := on_sch (intr_set_status old_status) in
    ret true.

Definition sema_down : M lst (bool * intr_status) :=
  let! old_status := on_sch intr_disable in
  let! got := sema_down_loop old_status in
  ret (got, old_status).

Definition sema_up : M lst unit :=
  let! old_status := on_sch intr_disable in
  let! s := gets (fun s => lsema (lk s)) in
  assertM (value s =? 0) ;;;
  (match waiters s with
   | [] => ret tt
   | thread_blocked :: ws =>
       upd_lock (set_sema (fun s => mk_sema (value s) ws)) ;;;
       on_sch (thread_unblock thread_blocked)
   end) ;;;
  upd_lock (set_sema (fun s => mk_sema (u8 (value s + 1)) (waiters s))) ;;;
  let! s := gets (fun s => lsema (lk s)) in
  assertM (value s =? 1) ;;;
  let! _ := on_sch (intr_set_status old_status) in
  ret tt.

Definition set_holder (h : Z) : M lst unit :=
  upd_lock (fun l => mk_lock h (lsema l) (holder_repeat_nr l)).
Definition set_repeat (n : Z) : M lst unit :=
  upd_lock (fun l => mk_lock (holder l) (lsema l) n).

(** [lock_acquire] up to the point where it returns ([true]) or the thread
    blocks ([false]). *)
Definition lock_acquire : M lst bool :=
  let! me := gets (fun s => running (sch s)) in
  let! l := gets lk in
  if negb (holder l =? me) then
    let! (got, _) := sema_down in
    if got then
      let! me := gets (fun s => running (sch s)) in
      set_holder me ;;;
      let! l := gets lk in
      assertM (holder_repeat_nr l =? 0) ;;;
      set_repeat 1 ;;;
      ret true
    else ret false
  else set_repeat (u32 (holder_repeat_nr l + 1)) ;;; ret true.

Definition lock_release : M lst unit :=
  let! me := gets (fun s => running (sch s)) in
  let! l := gets lk in
  assertM (holder l =? me) ;;;
  if 1 <? holder_repeat_nr l then set_repeat (holder_repeat_nr l - 1) else
  assertM (holder_repeat_nr l =? 1) ;;;
  set_holder 0 ;;;
  set_repeat 0 ;;;
  sema_up.

(** ** The machine *)
Inductive lpc : Type :=
  | PIdle                          (** does not have the lock and does not want it *)
  | PDown                          (** [holder != running_thread()] was true *)
  | PLoop (old_status : intr_status)  (** in the loop of [sema_down] *)
  | PTake                          (** has the semaphore, before [holder = ...] *)
  | PTake2                         (** before [holder_repeat_nr = 1] *)
  | PCrit                          (** has the lock *)
  | PRel1                          (** in [lock_release], before [holder = NULL] *)
  | PRel2                          (** before [holder_repeat_nr = 0] *)
  | PUp.                           (** before [sema_up] *)

Definition got_pc (got : bool) (old : intr_status) : lpc := if got then PTake else PLoop old.

(** The next statement of a thread inside [lock_acquire] or [lock_release]. *)
Definition exec_pc (pc : lpc) : M lst lpc :=
  let! me := gets (fun s => running (sch s)) in
  match pc with
  | PDown => let! (got, old) := sema_down in ret (got_pc got old)
  | PLoop old => let! got := sema_down_loop old in ret (got_pc got old)
  | PTake => set_holder me ;;; ret PTake2
  | PTake2 =>
      let! l := gets lk in
      assertM (holder_repeat_nr l =? 0) ;;; set_repeat 1 ;;; ret PCrit
  | PRel1 => set_holder 0 ;;; ret PRel2
  | PRel2 => set_repeat 0 ;;; ret PUp
  | PUp => sema_up ;;; ret PIdle
  | PIdle | PCrit => ret pc
  end.

(** The first statement of [lock_acquire] and of [lock_release]. *)
Definition begin_acquire (pc : lpc) : M lst lpc :=
  let! me := gets (fun s => running (sch s)) in
  let! l := gets lk in
  if negb (holder l =? me) then ret PDown
  else set_repeat (u32 (holder_repeat_nr l + 1)) ;;; ret pc.
Definition begin_release (pc : lpc) : M lst lpc :=
  let! me := gets (fun s => running (sch s)) in
  let! l := gets lk in
  assertM (holder l =? me) ;;;
  if 1 <? holder_repeat_nr l then set_repeat (holder_repeat_nr l - 1) ;;; ret pc else
  assertM (holder_repeat_nr l =? 1) ;;; ret PRel1.

(** The statements up to the end of the call, or up to the point where the
    thread has blocked. *)
Fixpoint run_pc (n : nat) (pc : lpc) : M lst lpc :=
  match n with
  | O => ret pc
  | S n => match pc with
           | PIdle | PCrit | PLoop _ => ret pc
           | _ => let! pc := exec_pc pc in run_pc n pc
           end
  end.

(** Run without interruption, the statements are the functions. *)
Lemma lock_acquire_steps s :
  (let! pc := begin_acquire PCrit in
   let! pc := run_pc 3 pc in
   ret (match pc with PCrit => true | _ => false end)) s = lock_acquire s.
Proof.
  unfold begin_acquire, lock_acquire, bind, gets.
  destruct (holder (lk s) =? running (sch s)); [done|]. cbn -[sema_down].
  assert (Hdown : exec_pc PDown s = match sema_down s with
      | Done (got, old, s') => Done (got_pc got old, s') | Halt w => Halt w end)
    by (unfold exec_pc, bind; cbn -[sema_down]; by destruct (sema_down s) as [[[]]|]).
  unfold bind at 1 2. rewrite Hdown. destruct (sema_down s) as [[[[] old] s']|e]; [|done..].
  cbn -[Z.eqb]. unfold bind, assertM. cbn -[Z.eqb]. by destruct (holder_repeat_nr (lk s') =? 0).
Qed.

Lemma lock_release_steps s :
  (let! pc := begin_release PCrit in
   let! _ := run_pc 3 pc in ret tt) s = lock_release s.
Proof.
  assert (Hup : forall s, exec_pc PUp s = match sema_up s with Done (_, s') => Done (PIdle, s') | Halt w => Halt w end).
  { intros x. unfold exec_pc, bind. cbn -[sema_up]. by destruct (sema_up x) as [[]|]. }
  unfold begin_release, lock_release, bind, gets, assertM.
  destruct (holder (lk s) =? running (sch s)); [|done]. cbn -[sema_up exec_pc Z.ltb Z.eqb].
  destruct (1 <? holder_repeat_nr (lk s)); [done|].
  destruct (holder_repeat_nr (lk s) =? 1); [|done]. cbn -[sema_up exec_pc].
  do 3 (unfold bind; try rewrite Hup; cbn -[sema_up exec_pc]; try unfold exec_pc at 1; cbn -[sema_up exec_pc]).
  by destruct (sema_up _) as [[[] ?]|].
Qed.
End sync.

Definition resting (pc : lpc) : bool := match pc with PIdle | PCrit => true | _ => false end.
Definition owns (pc : lpc) : bool :=
  match pc with PTake | PTake2 | PCrit | PRel1 | PRel2 | PUp => true | _ => false end.
Definition named (pc : lpc) : bool := match pc with PTake2 | PCrit | PRel1 => true | _ => false end.

Record lmachine : Type := mk_lmachine { lm : lst; pcs : gmap Z lpc }.
Definition pc_of (x : lmachine) (t : Z) : lpc := default PIdle (pcs x !! t).
Definition me_of (x : lmachine) : Z := running (sch (lm x)).

(** What can happen next: a timer interrupt, the idle thread blocking again, or
    a statement of the running thread. *)
Inductive lact : Type := ATick | AIdle | AAcquire | ARelease | AStep.

Definition exec_lact (v2p : Z -> Z) (a : lact) (x : lmachine) : outcome lmachine :=
  let me := me_of x in
  let run (m : M lst lpc) :=
    olet (pc', s') := m (lm x) in Done (mk_lmachine s' (<[me := pc']> (pcs x))) in
  match a with
  | ATick => olet (_, s') := on_sch (intr_timer_handler v2p) (lm x) in Done (mk_lmachine s' (pcs x))
  | AIdle => olet (_, s') := on_sch (thread_block v2p TASK_BLOCKED) (lm x) in Done (mk_lmachine s' (pcs x))
  | AAcquire => run (begin_acquire (pc_of x me))
  | ARelease => run (begin_release (pc_of x me))
  | AStep => run (exec_pc v2p (pc_of x me))
  end.

Definition lenabled (x : lmachine) (a : lact) : Prop :=
  let me := me_of x in
  match a with
  | ATick => if_set (sch (lm x)) = true
  | AIdle => me = idle_thread (sch (lm x))
  | AAcquire => me <> idle_thread (sch (lm x)) /\ resting (pc_of x me) = true /\
                holder_repeat_nr (lk (lm x)) < 4294967295
  | ARelease => pc_of x me = PCrit
  | AStep => me <> idle_thread (sch (lm x)) /\ resting (pc_of x me) = false
  end.

Inductive lstep (v2p : Z -> Z) : lmachine -> lmachine -> Prop :=
  | lstep_act x a x' : lenabled x a -> exec_lact v2p a x = Done x' -> lstep v2p x x'.

(** ** The invariant *)
Record linv (x : lmachine) : Prop := {
  li_sched : sched_wf (sch (lm x));
  li_idle : pc_of x (idle_thread (sch (lm x))) = PIdle;
  li_value : value (lsema (lk (lm x))) = 0 \/ value (lsema (lk (lm x))) = 1;
  (** at most one thread has the semaphore, and it is 0 exactly then *)
  li_one : forall t u, owns (pc_of x t) = true -> owns (pc_of x u) = true -> t = u;
  li_free : value (lsema (lk (lm x))) = 1 <-> forall t, owns (pc_of x t) = false;
  (** [holder] is the owner from just after it is written until it is cleared *)
  li_holder : forall t, t <> 0 -> holder (lk (lm x)) = t <-> named (pc_of x t) = true;
  li_null : pc_of x 0 = PIdle;
  li_repeat : 0 <= holder_repeat_nr (lk (lm x)) < 4294967296 /\
    (forall t, pc_of x t = PCrit -> 1 <= holder_repeat_nr (lk (lm x))) /\
    (forall t, pc_of x t = PRel1 \/ pc_of x t = PRel2 -> holder_repeat_nr (lk (lm x)) = 1) /\
    ((forall t, pc_of x t <> PCrit /\ pc_of x t <> PRel1 /\ pc_of x t <> PRel2) ->
     holder_repeat_nr (lk (lm x)) = 0);
  (** the wait queue: blocked threads in the loop of [sema_down] *)
  li_nodup : NoDup (waiters (lsema (lk (lm x))));
  li_waiters : forall t, t ∈ waiters (lsema (lk (lm x))) ->
    stat (sch (lm x)) t = Some TASK_BLOCKED /\ t <> idle_thread (sch (lm x)) /\
    exists old, pc_of x t = PLoop old
}.

Lemma wp_on_sch {A} (m : M sst A) (Q : A -> lst -> Prop) s :
  wp m (fun a s' => Q a (mk_lst s' (lk s))) (sch s) -> wp (on_sch m) Q s.
Proof. unfold wp, on_sch. destruct (m (sch s)) as [[a s']|]; done. Qed.

Lemma wp_upd_lock f (Q : unit -> lst -> Prop) s :
  Q tt (mk_lst (sch s) (f (lk s))) -> wp (upd_lock f) Q s.
Proof. done. Qed.

Lemma pc_of_insert s pc x me t :
  pc_of (mk_lmachine s (<[me := pc]> (pcs x))) t = if decide (t = me) then pc else pc_of x t.
Proof.
  unfold pc_of. cbn. rewrite lookup_insert. destruct (decide (t = me)) as [->|];
    [by rewrite decide_True|by rewrite decide_False].
Qed.

Section machine.
Context (v2p : Z -> Z) (x : lmachine) (Hx : linv x).
#[local] Abbreviation me := (me_of x).
#[local] Abbreviation L := (lk (lm x)).

Local Lemma me_nonzero : me <> 0.
Proof. apply running_nonzero, (li_sched x Hx). Qed.

Local Lemma me_running : stat (sch (lm x)) me = Some TASK_RUNNING.
Proof. apply (li_sched x Hx). Qed.

Local Lemma me_not_waiting : me ∉ waiters (lsema L).
Proof. intros Hin. apply (li_waiters x Hx) in Hin as [Hs _]. by rewrite me_running in Hs. Qed.

(** A statement of the owner that touches neither the semaphore nor the
    scheduler. *)
Lemma linv_owner h r pc' :
  owns (pc_of x me) = true -> owns pc' = true ->
  (if named pc' then h = me else h = 0) -> 0 <= r < 4294967296 ->
  (match pc' with PCrit => 1 <= r | PRel1 | PRel2 => r = 1 | _ => r = 0 end) ->
  linv (mk_lmachine (mk_lst (sch (lm x)) (mk_lock h (lsema L) r)) (<[me := pc']> (pcs x))).
Proof.
  intros Ho Ho' Hh Hr Hr'. pose proof me_nonzero as Hme.
  assert (forall t, t <> me -> owns (pc_of x t) = false) as Hoth.
  { intros t Hne. destruct (owns (pc_of x t)) eqn:E; [|done].
    pose proof (li_one x Hx t me E Ho). congruence. }
  split; cbn [lm sch lk lsema holder holder_repeat_nr].
  - apply Hx.
  - rewrite pc_of_insert, decide_False; [apply Hx|]. intros E.
    pose proof (li_idle x Hx) as Hi. rewrite E in Hi. by rewrite Hi in Ho.
  - apply Hx.
  - intros t u. rewrite !pc_of_insert.
    destruct (decide (t = me)) as [->|Ht], (decide (u = me)) as [->|Hu]; try done.
    + by rewrite (Hoth u).
    + by rewrite (Hoth t).
    + apply (li_one x Hx).
  - rewrite (li_free x Hx). split; intros H t.
    + specialize (H me). congruence.
    + specialize (H me). rewrite pc_of_insert, decide_True in H by done. congruence.
  - intros t Ht0. rewrite pc_of_insert. destruct (decide (t = me)) as [->|Ht].
    + destruct (named pc'); [split; auto|]. split; [congruence|done].
    + assert (named (pc_of x t) = false) as ->.
      { pose proof (Hoth t Ht). destruct (pc_of x t); done. }
      split; [|done]. destruct (named pc'); congruence.
  - rewrite pc_of_insert, decide_False by done. apply Hx.
  - split; [done|]. split_and!.
    + intros t. rewrite pc_of_insert. destruct (decide (t = me)) as [->|Ht]; [by intros ->|].
      intros E. pose proof (Hoth t Ht) as F. by rewrite E in F.
    + intros t. rewrite pc_of_insert. destruct (decide (t = me)) as [->|Ht]; [by intros [-> | ->]|].
      intros E. pose proof (Hoth t Ht) as F. destruct E as [E|E]; by rewrite E in F.
    + intros H. specialize (H me). rewrite pc_of_insert, decide_True in H by done.
      destruct H as (H1 & H2 & H3). destruct pc'; done.
  - apply Hx.
  - intros t Hin. rewrite pc_of_insert, decide_False by (intros ->; by apply me_not_waiting).
    by apply (li_waiters x Hx).
Qed.

(** A thread that does not own the semaphore moves, the lock staying as it
    is, and the scheduler's state only changes in ways the lock does not see. *)
Lemma linv_outside sc pc' :
  owns (pc_of x me) = false -> owns pc' = false -> me <> idle_thread (sch (lm x)) ->
  sched_wf sc -> keeps_blocked (sch (lm x)) sc ->
  linv (mk_lmachine (mk_lst sc L) (<[me := pc']> (pcs x))).
Proof.
  intros Ho Ho' Hni Hsc [Hid Hk]. pose proof me_nonzero as Hme.
  assert (forall t, owns (pc_of (mk_lmachine (mk_lst sc L) (<[me := pc']> (pcs x))) t) = owns (pc_of x t)) as Hown.
  { intros t. rewrite pc_of_insert. destruct (decide (t = me)) as [->|]; [congruence|done]. }
  split; cbn [lm sch lk]; try done; try apply Hx.
  - rewrite Hid, pc_of_insert, decide_False by done. apply Hx.
  - intros t u. rewrite !Hown. apply Hx.
  - rewrite (li_free x Hx). split; intros H t; specialize (H t); by rewrite Hown in *.
  - intros t Ht. rewrite (li_holder x Hx t Ht), pc_of_insert.
    destruct (decide (t = me)) as [->|]; [|done].
    destruct (pc_of x me), pc'; done.
  - rewrite pc_of_insert, decide_False by done. apply Hx.
  - pose proof (li_repeat x Hx) as (R0 & R1 & R2 & R3). split; [done|]. split_and!.
    + intros t. rewrite pc_of_insert. destruct (decide (t = me)) as [->|]; [by intros ->|apply R1].
    + intros t. rewrite pc_of_insert. destruct (decide (t = me)) as [->|]; [by intros [-> | ->]|apply R2].
    + intros H. apply R3. intros t. specialize (H t). rewrite pc_of_insert in H.
      destruct (decide (t = me)) as [->|]; [|done]. destruct (pc_of x me); done.
  - intros t Hin. destruct (li_waiters x Hx t Hin) as (Hs & Hn & Hpc).
    rewrite Hid, pc_of_insert. split_and!; [by apply Hk|done|].
    rewrite decide_False; [done|]. intros ->. by apply me_not_waiting.
Qed.

(** The owner of the semaphore is the thread that took it. *)
Lemma linv_take z :
  owns (pc_of x me) = false -> me <> idle_thread (sch (lm x)) -> value (lsema L) = 1 ->
  linv (mk_lmachine (mk_lst (put_eflags z (sch (lm x)))
          (set_sema (fun s => mk_sema (u8 (value s - 1)) (waiters s)) L)) (<[me := PTake]> (pcs x))).
Proof.
  intros Ho Hni Hv. pose proof me_nonzero as Hme.
  pose proof (proj1 (li_free x Hx) Hv) as Hnone.
  split; cbn [lm sch lk set_sema holder lsema holder_repeat_nr value waiters]; try rewrite Hv.
  - by apply wf_eflags, Hx.
  - rewrite pc_of_insert, decide_False by done. apply Hx.
  - by left.
  - intros t u. rewrite !pc_of_insert. destruct (decide (t = me)) as [->|], (decide (u = me)) as [->|]; try done.
    + by rewrite Hnone.
    + by rewrite Hnone.
    + by rewrite Hnone.
  - split; [done|]. intros H. specialize (H me). by rewrite pc_of_insert, decide_True in H.
  - intros t Ht. rewrite (li_holder x Hx t Ht), pc_of_insert. destruct (decide (t = me)) as [->|]; [|done].
    destruct (pc_of x me); done.
  - rewrite pc_of_insert, decide_False by done. apply Hx.
  - pose proof (li_repeat x Hx) as (R0 & R1 & R2 & R3). split; [done|]. split_and!.
    + intros t. rewrite pc_of_insert. destruct (decide (t = me)) as [->|]; [done|apply R1].
    + intros t. rewrite pc_of_insert. destruct (decide (t = me)) as [->|]; [by intros []|apply R2].
    + intros _. apply R3. intros t. specialize (Hnone t). destruct (pc_of x t); done.
  - apply Hx.
  - intros t Hin. destruct (li_waiters x Hx t Hin) as (Hs & Hn & Hpc).
    rewrite pc_of_insert, decide_False by (intros ->; by apply me_not_waiting). done.
Qed.

(** The semaphore is taken: the thread waits. *)
Lemma linv_wait sc old :
  owns (pc_of x me) = false -> me <> idle_thread (sch (lm x)) ->
  sched_wf sc -> keeps_blocked (sch (lm x)) sc -> stat sc me = Some TASK_BLOCKED ->
  linv (mk_lmachine (mk_lst sc (set_sema (fun s => mk_sema (value s) (waiters s ++ [me])) L))
          (<[me := PLoop old]> (pcs x))).
Proof.
  intros Ho Hni Hsc Hkb Hme.
  destruct (linv_outside sc (PLoop old) Ho eq_refl Hni Hsc Hkb). destruct Hkb as [Hid _].
  split; try done; cbn [lm sch lk set_sema lsema waiters].
  - apply NoDup_app. split_and!; [apply Hx| |apply NoDup_singleton].
    intros t Ht ->%list_elem_of_singleton. by apply me_not_waiting.
  - intros t [Hin| ->%list_elem_of_singleton]%elem_of_app; [by apply li_waiters0|].
    rewrite pc_of_insert, decide_True by done. rewrite Hid. eauto.
Qed.

(** The owner gives the semaphore back. *)
Lemma linv_up sc ws :
  pc_of x me = PUp -> value (lsema L) = 0 -> sched_wf sc ->
  idle_thread sc = idle_thread (sch (lm x)) -> NoDup ws ->
  (forall t, t ∈ ws -> t ∈ waiters (lsema L) /\ stat sc t = stat (sch (lm x)) t) ->
  linv (mk_lmachine (mk_lst sc (mk_lock (holder L) (mk_sema 1 ws) (holder_repeat_nr L)))
          (<[me := PIdle]> (pcs x))).
Proof.
  intros Hpc Hv Hsc Hid Hnd Hws. pose proof me_nonzero as Hme.
  assert (owns (pc_of x me) = true) as Ho by (by rewrite Hpc).
  assert (forall t, t <> me -> owns (pc_of x t) = false) as Hoth.
  { intros t Hne. destruct (owns (pc_of x t)) eqn:E; [|done].
    pose proof (li_one x Hx t me E Ho). congruence. }
  assert (me <> idle_thread (sch (lm x))) as Hni.
  { intros E. pose proof (li_idle x Hx) as Hi. rewrite <- E in Hi.  congruence. }
  split; cbn [lm sch lk holder lsema holder_repeat_nr value waiters].
  - done.
  - rewrite Hid, pc_of_insert, decide_False by done. apply Hx.
  - by right.
  - intros t u. rewrite !pc_of_insert. destruct (decide (t = me)) as [->|], (decide (u = me)) as [->|]; try done.
    by rewrite Hoth.
  - split; [|done]. intros _ t. rewrite pc_of_insert. destruct (decide (t = me)) as [->|]; [done|by apply Hoth].
  - intros t Ht. rewrite (li_holder x Hx t Ht), pc_of_insert. destruct (decide (t = me)) as [->|]; [|done].
    by rewrite Hpc.
  - rewrite pc_of_insert, decide_False by done. apply Hx.
  - pose proof (li_repeat x Hx) as (R0 & R1 & R2 & R3).
    assert (holder_repeat_nr L = 0) as Hr0.
    { apply R3. intros t. destruct (decide (t = me)) as [->|Hne]; [by rewrite Hpc|].
      pose proof (Hoth t Hne). destruct (pc_of x t); done. }
    split; [done|]. split_and!; [| |done].
    + intros t. rewrite pc_of_insert. destruct (decide (t = me)) as [->|]; [done|apply R1].
    + intros t. rewrite pc_of_insert. destruct (decide (t = me)) as [->|]; [by intros []|apply R2].
  - done.
  - intros t [Hin Hs]%Hws. destruct (li_waiters x Hx t Hin) as (Hst & Hn & Hlp).
    rewrite Hid, Hs, pc_of_insert, decide_False by (intros ->; by apply me_not_waiting). done.
Qed.
End machine.

(** ** Every action of the machine returns and keeps the invariant *)
Section actions.
Context (v2p : Z -> Z) (x : lmachine) (Hx : linv x).
#[local] Abbreviation me := (me_of x).
#[local] Abbreviation L := (lk (lm x)).

(** The loop of [sema_down], from the states in which it can be entered:
    the machine's scheduler state up to the interrupt flag. *)
Lemma wp_sema_down_loop old z (Q : bool -> lst -> Prop) :
  owns (pc_of x me) = false -> me <> idle_thread (sch (lm x)) ->
  (forall z', linv (mk_lmachine (mk_lst (put_eflags z' (sch (lm x)))
               (set_sema (fun s => mk_sema (u8 (value s - 1)) (waiters s)) L)) (<[me := PTake]> (pcs x))) ->
     Q true (mk_lst (put_eflags z' (sch (lm x))) (set_sema (fun s => mk_sema (u8 (value s - 1)) (waiters s)) L))) ->
  (forall sc, linv (mk_lmachine (mk_lst sc (set_sema (fun s => mk_sema (value s) (waiters s ++ [me])) L))
               (<[me := PLoop old]> (pcs x))) ->
     Q false (mk_lst sc (set_sema (fun s => mk_sema (value s) (waiters s ++ [me])) L))) ->
  wp (sema_down_loop v2p old) Q (mk_lst (put_eflags z (sch (lm x))) L).
Proof.
  intros Ho Hni Htake Hwait. unfold sema_down_loop. wp_steps.
  change (running (sch (mk_lst (put_eflags z (sch (lm x))) L))) with me.
  change (lsema (lk (mk_lst (put_eflags z (sch (lm x))) L))) with (lsema L).
  pose proof (me_not_waiting x Hx) as Hnw.
  destruct (li_value x Hx) as [Hv|Hv]; rewrite Hv; cbn [Z.eqb].
  - wp_steps; [by apply elem_find_false|]. rewrite (bool_decide_eq_false_2 _ Hnw). wp_steps.
    apply wp_upd_lock. wp_steps. apply wp_on_sch. cbn [sch lk].
    eapply wp_mono; [apply (wp_thread_block v2p TASK_BLOCKED (put_eflags z (sch (lm x)))); [|done]|].
    { apply wf_eflags, Hx. }
    cbn beta. intros [] sc (Hsc & _ & Hst & Hkb). apply wp_ret. apply Hwait.
    apply linv_wait; try done. destruct Hst as [Hst|[_ E]]; [done|]. by destruct Hni.
  - wp_steps. apply wp_upd_lock. wp_steps. { cbn [lk lsema set_sema value sch holder]. by rewrite Hv. }
    apply wp_on_sch, wp_intr_set_status. intros _. apply wp_ret. cbn [sch lk set_eflags sst_HasIF].
    apply Htake. by apply linv_take.
Qed.

Lemma act_down : pc_of x me = PDown \/ (exists old, pc_of x me = PLoop old) ->
  me <> idle_thread (sch (lm x)) -> exists x', exec_lact v2p AStep x = Done x' /\ linv x'.
Proof.
  intros Hpc Hni.
  assert (owns (pc_of x me) = false) as Ho by (destruct Hpc as [->|[? ->]]; done).
  cut (wp (exec_pc v2p (pc_of x me)) (fun pc' s' => linv (mk_lmachine s' (<[me := pc']> (pcs x)))) (lm x)).
  { intros (pc' & s' & E & H)%wp_done. cbn [exec_lact]. rewrite E. cbn [obind]. eauto. }
  unfold exec_pc. wp_steps. destruct Hpc as [Hpc|[old Hpc]]; rewrite Hpc.
  - unfold sema_down. wp_steps. apply wp_on_sch, wp_intr_disable. wp_steps.
    apply wp_sema_down_loop; [done|done| |]; intros; by wp_steps.
  - wp_steps.
    replace (lm x) with (mk_lst (put_eflags (cpu_eflags (sch (lm x))) (sch (lm x))) L)
      by (by destruct x as [[[] ?] ?]).
    apply wp_sema_down_loop; [done|done| |]; intros; by wp_steps.
Qed.

Lemma act_up : pc_of x me = PUp -> exists x', exec_lact v2p AStep x = Done x' /\ linv x'.
Proof.
  intros Hpc.
  assert (owns (pc_of x me) = true) as Ho by (by rewrite Hpc).
  assert (value (lsema L) = 0) as Hv.
  { destruct (li_value x Hx) as [|Hv]; [done|]. pose proof (proj1 (li_free x Hx) Hv me). congruence. }
  cut (wp (exec_pc v2p (pc_of x me)) (fun pc' s' => linv (mk_lmachine s' (<[me := pc']> (pcs x)))) (lm x)).
  { intros (pc' & s' & E & H)%wp_done. cbn [exec_lact]. rewrite E. cbn [obind]. eauto. }
  unfold exec_pc. wp_steps. rewrite Hpc. unfold sema_up. wp_steps.
  apply wp_on_sch, wp_intr_disable. wp_steps. { cbn [lk lsema set_sema value sch holder]. by rewrite Hv. }
  cbn [lk lsema sch].
  set (z := Z.clearbit (eflags (sch (lm x))) 9).
  assert (sched_wf (put_eflags z (sch (lm x)))) as Hwf by (apply wf_eflags, Hx).
  destruct (waiters (lsema L)) as [|w ws] eqn:Ew.
  - wp_steps. apply wp_upd_lock. wp_steps. { cbn [lk lsema set_sema value sch holder]. by rewrite Hv. }
    apply wp_on_sch, wp_intr_set_status. intros _. wp_steps.
    unfold set_sema. cbn [sch lk holder lsema holder_repeat_nr value waiters]. rewrite Hv, Ew.
    apply (linv_up x Hx); try done; [by apply wf_eflags|apply NoDup_nil_2|]. by intros t ?%not_elem_of_nil.
  - destruct (li_waiters x Hx w) as (Hst & Hwi & _); [rewrite Ew; by left|].
    destruct (stat_lookup _ _ _ Hst) as (y & Ey & Hy).
    pose proof (li_nodup x Hx) as Hnd. rewrite Ew in Hnd. apply NoDup_cons in Hnd as [Hwn Hnd].
    wp_steps. apply wp_upd_lock. apply wp_on_sch. cbn [sch lk].
    eapply wp_mono; [apply (wp_unblock_wf w y (put_eflags z (sch (lm x)))); [done|done|by rewrite Hy]|].
    cbn beta. intros [] sc (Hsc & _ & _ & Hid & _ & Hstat). wp_steps.
    apply wp_upd_lock. wp_steps. { cbn [lk lsema set_sema value sch holder]. by rewrite Hv. }
    apply wp_on_sch, wp_intr_set_status. intros _. wp_steps.
    unfold set_sema. cbn [sch lk holder lsema holder_repeat_nr value waiters]. rewrite Hv.
    apply (linv_up x Hx); try done; [by apply wf_eflags|].
    intros t Hin. rewrite Ew. split; [by right|].
    change (stat (sch (lm x))) with (stat (put_eflags z (sch (lm x)))).
    change (stat (set_eflags _ sc) t) with (stat sc t).
    rewrite Hstat, decide_False; [done|]. by intros ->.
Qed.

Lemma act_owner : named (pc_of x me) = true \/ pc_of x me = PTake \/ pc_of x me = PRel2 ->
  resting (pc_of x me) = false -> exists x', exec_lact v2p AStep x = Done x' /\ linv x'.
Proof.
  intros Hpc Hre. destruct (li_repeat x Hx) as (R0 & R1 & R2 & R3).
  assert (forall t, t <> me -> owns (pc_of x me) = true -> owns (pc_of x t) = false) as Hoth.
  { intros t Hne Ho. destruct (owns (pc_of x t)) eqn:E; [|done]. pose proof (li_one x Hx t me E Ho). congruence. }
  assert (pc_of x me = PTake \/ pc_of x me = PTake2 -> holder_repeat_nr L = 0) as Hr0.
  { intros Hp. apply R3. intros t. destruct (decide (t = me)) as [->|Hne].
    - by destruct Hp as [-> | ->].
    - assert (owns (pc_of x t) = false) as F by (apply Hoth; [done|]; by destruct Hp as [-> | ->]).
      destruct (pc_of x t); done. }
  cut (wp (exec_pc v2p (pc_of x me)) (fun pc' s' => linv (mk_lmachine s' (<[me := pc']> (pcs x)))) (lm x)).
  { intros (pc' & s' & E & H)%wp_done. cbn [exec_lact]. rewrite E. cbn [obind]. eauto. }
  unfold exec_pc. wp_steps.
  destruct (pc_of x me) eqn:Ep; cbn in Hpc, Hre; try done; try (by destruct Hpc as [|[|]]).
  - unfold set_holder. wp_steps. apply wp_upd_lock. wp_steps.
    apply (linv_owner x Hx); try done; [by rewrite Ep|]. apply Hr0. by left.
  - wp_steps. { apply Z.eqb_eq, Hr0. by right. }
    unfold set_repeat. wp_steps. apply wp_upd_lock. wp_steps.
    apply (linv_owner x Hx); try done; [by rewrite Ep|].
    apply (li_holder x Hx); [by apply me_nonzero|by rewrite Ep].
  - unfold set_holder. wp_steps. apply wp_upd_lock. wp_steps.
    apply (linv_owner x Hx); try done; [by rewrite Ep|]. apply (R2 me). by left.
  - unfold set_repeat. wp_steps. apply wp_upd_lock. wp_steps.
    apply (linv_owner x Hx); try done; [by rewrite Ep|]. cbn.
    destruct (decide (holder L = 0)) as [|Hh]; [done|]. exfalso.
    pose proof (proj1 (li_holder x Hx (holder L) Hh) eq_refl) as Hn.
    assert (holder L = me) as Hm.
    { apply (li_one x Hx); [|by rewrite Ep]. by destruct (pc_of x (holder L)). }
    rewrite Hm, Ep in Hn. done.
Qed.

Lemma act_acquire : lenabled x AAcquire -> exists x', exec_lact v2p AAcquire x = Done x' /\ linv x'.
Proof.
  intros (Hni & Hre & Hlim). destruct (li_repeat x Hx) as (R0 & R1 & R2 & R3).
  cut (wp (begin_acquire (pc_of x me)) (fun pc' s' => linv (mk_lmachine s' (<[me := pc']> (pcs x)))) (lm x)).
  { intros (pc' & s' & E & H)%wp_done. cbn [exec_lact]. rewrite E. cbn [obind]. eauto. }
  unfold begin_acquire. wp_steps. fold (me_of x).
  pose proof (li_holder x Hx me (me_nonzero x Hx)) as Hh.
  destruct (Z.eqb_spec (holder L) me) as [E|E]; cbn [negb].
  - pose proof (proj1 Hh E) as Hn.
    assert (pc_of x me = PCrit) as Hpc by (destruct (pc_of x me); done).
    unfold set_repeat. wp_steps. apply wp_upd_lock. wp_steps.
    specialize (R1 me Hpc). rewrite u32_id by (unfold is_u32; lia).
    apply (linv_owner x Hx); rewrite ?Hpc; try done; lia.
  - assert (pc_of x me = PIdle) as Hpc.
    { destruct (pc_of x me); try done. exfalso. apply E, Hh. done. }
    wp_steps. replace (lm x) with (mk_lst (sch (lm x)) L) by (by destruct (lm x)).
    apply (linv_outside x Hx); rewrite ?Hpc; try done. apply Hx.
Qed.

Lemma act_release : lenabled x ARelease -> exists x', exec_lact v2p ARelease x = Done x' /\ linv x'.
Proof.
  cbn [lenabled]. intros Hpc. destruct (li_repeat x Hx) as (R0 & R1 & R2 & R3).
  cut (wp (begin_release (pc_of x me)) (fun pc' s' => linv (mk_lmachine s' (<[me := pc']> (pcs x)))) (lm x)).
  { intros (pc' & s' & E & H)%wp_done. cbn [exec_lact]. rewrite E. cbn [obind]. eauto. }
  assert (holder L = me) as Hh by (apply (li_holder x Hx); [by apply me_nonzero|by rewrite Hpc]).
  specialize (R1 me Hpc).
  unfold begin_release. wp_steps. { fold (me_of x). by apply Z.eqb_eq. }
  destruct (Z.ltb_spec 1 (holder_repeat_nr L)).
  - unfold set_repeat. wp_steps. apply wp_upd_lock. wp_steps.
    apply (linv_owner x Hx); rewrite ?Hpc; try done; lia.
  - wp_steps. { apply Z.eqb_eq. lia. }
    replace (lm x) with (mk_lst (sch (lm x)) (mk_lock (holder L) (lsema L) (holder_repeat_nr L)))
      by (by destruct (lm x) as [? []]).
    apply (linv_owner x Hx); rewrite ?Hpc; try done; cbn; lia.
Qed.

(** The scheduler acts, the lock and the threads' positions stay. *)
Lemma linv_sched sc :
  sched_wf sc -> keeps_blocked (sch (lm x)) sc -> linv (mk_lmachine (mk_lst sc L) (pcs x)).
Proof.
  intros Hsc [Hid Hk]. destruct Hx. split; try done; cbn [lm sch lk].
  - by rewrite Hid.
  - intros t Hin. destruct (li_waiters0 t Hin) as (Hs & Hn & Hpc). rewrite Hid.
    split_and!; [by apply Hk|done|done].
Qed.

Lemma act_ok a : lenabled x a -> exists x', exec_lact v2p a x = Done x' /\ linv x'.
Proof.
  intros Hen. destruct a.
  - destruct (i_cur _ (proj1 (li_sched x Hx))) as [y E].
    pose proof (wp_timer v2p _ y (li_sched x Hx) E) as Hw. apply wp_done in Hw as ([] & sc & Es & Hsc & H).
    cbn [exec_lact]. unfold on_sch. rewrite Es. cbn [obind]. eexists. split; [done|].
    apply linv_sched; [done|]. destruct (ticks y =? 0); apply H.
  - pose proof (wp_thread_block v2p TASK_BLOCKED _ (li_sched x Hx) eq_refl) as Hw.
    apply wp_done in Hw as ([] & sc & Es & Hsc & _ & _ & Hkb).
    cbn [exec_lact]. unfold on_sch. rewrite Es. cbn [obind]. eexists. split; [done|].
    by apply linv_sched.
  - by apply act_acquire.
  - by apply act_release.
  - destruct Hen as [Hni Hre].
    destruct (pc_of x me) eqn:Ep; try done.
    + apply act_down; [by left|done].
    + apply act_down; [right; eauto|done].
    + apply act_owner; rewrite Ep; auto.
    + apply act_owner; rewrite Ep; auto.
    + apply act_owner; rewrite Ep; auto.
    + apply act_owner; rewrite Ep; auto.
    + by apply act_up.
Qed.
End actions.

(** C14: locks give mutual exclusion.  Start from any state in which the
    invariant holds (for instance: nobody uses the lock) and let threads run
    [lock_acquire] and [lock_release] in any order the scheduler produces, with
    timer interrupts between any two statements where interrupts are on: at no
    time do two threads have the lock, [holder] names the thread that has it,
    and no step stops the machine: the assertions on the semaphore's value, on
    [holder], on [holder_repeat_nr] and on the wait queue in [sema_down],
    [sema_up], [lock_acquire] and [lock_release] always hold. *)
Theorem lock_mutual_exclusion (v2p : Z -> Z) (x0 x : lmachine)
    (Hinv : linv x0) (Hreach : rtc (lstep v2p) x0 x) :
  (forall t u, pc_of x t = PCrit -> pc_of x u = PCrit -> t = u) /\
  (forall t, pc_of x t = PCrit -> holder (lk (lm x)) = t) /\
  (forall a, lenabled x a -> exists x', exec_lact v2p a x = Done x').
Proof.
  assert (linv x) as Hx.
  { induction Hreach as [|x1 x2 x3 Hstep _ IH]; [done|]. apply IH.
    destruct Hstep as [y a y' Hen E]. destruct (act_ok v2p y Hinv a Hen) as (y'' & E' & H). congruence. }
  split_and!.
  - intros t u Ht Hu. apply (li_one x Hx); [by rewrite Ht|by rewrite Hu].
  - intros t Ht. apply (li_holder x Hx); [|by rewrite Ht].
    intros ->. by rewrite (li_null x Hx) in Ht.
  - intros a Hen. destruct (act_ok v2p x Hx a Hen) as (x' & E & _). eauto.
Qed.

Definition ex_lmachine : lmachine := mk_lmachine (mk_lst ex_sst lock_init) ∅.

Lemma ex_linv : linv ex_lmachine.
Proof.
  assert (forall t, pc_of ex_lmachine t = PIdle) as Hp.
  { intros t. unfold pc_of. cbn. by rewrite lookup_empty. }
  split; cbn [lm ex_lmachine sch lk lock_init lsema value waiters holder holder_repeat_nr sema_init].
  - apply ex_sst_wf.
  - apply Hp.
  - by right.
  - intros t u. by rewrite Hp.
  - split; [|done]. intros _ t. by rewrite Hp.
  - intros t Ht. rewrite Hp. split; [|done]. intros E. by destruct Ht.
  - apply Hp.
  - split; [done|]. split_and!; [intros t; by rewrite Hp|intros t; rewrite Hp; by intros []|done].
  - apply NoDup_nil_2.
  - by intros t ?%not_elem_of_nil.
Qed.

Lemma lock_mutual_exclusion_witness :
  exists x, lstep id ex_lmachine x /\
    (forall t u, pc_of x t = PCrit -> pc_of x u = PCrit -> t = u) /\
    (forall t, pc_of x t = PCrit -> holder (lk (lm x)) = t) /\
    (forall a, lenabled x a -> exists x', exec_lact id a x = Done x').
Proof.
  assert (lenabled ex_lmachine AAcquire) as Hen by (split; [done|split; [reflexivity|cbn; lia]]).
  destruct (exec_lact id AAcquire ex_lmachine) as [x|] eqn:E; [|vm_compute in E; discriminate].
  exists x. assert (lstep id ex_lmachine x) as Hs by (exact (lstep_act id _ _ _ Hen E)).
  split; [exact Hs|]. apply (lock_mutual_exclusion id ex_lmachine x ex_linv). apply rtc_once. exact Hs.
Defined.

(** ** The lock implements what [Seqlock] promises *)
Definition slock_of (l : lock) : slock := mk_slock (holder l) (value (lsema l)) (holder_repeat_nr l).

Lemma put_eflags_same s : put_eflags (cpu_eflags s) s = s.
Proof. by destruct s. Qed.

Lemma wp_sema_down_free v2p s (Q : bool * intr_status -> lst -> Prop) :
  value (lsema (lk s)) <> 0 -> u8 (value (lsema (lk s)) - 1) = 0 ->
  (forall i, Q (true, i) (mk_lst (sch s) (set_sema (fun m => mk_sema (u8 (value m - 1)) (waiters m)) (lk s)))) ->
  wp (sema_down v2p) Q s.
Proof.
  intros Hv H0 HQ. unfold sema_down. wp_steps. apply wp_on_sch, wp_intr_disable. unfold sema_down_loop. wp_steps.
  cbn [lk sch]. rewrite (proj2 (Z.eqb_neq _ 0)) by done. wp_steps. apply wp_upd_lock. wp_steps.
  { cbn [lk lsema set_sema value]. by apply Z.eqb_eq. }
  apply wp_on_sch, wp_intr_set_status. intros _. wp_steps. cbn [sch lk].
  unfold if_set. cbn [eflags set_eflags sst_HasIF put_eflags cpu_eflags].
  rewrite eflags_restore. specialize (HQ (if Z.testbit (cpu_eflags (sch s)) 9 then INTR_ON else INTR_OFF)).
  by destruct s as [[] ?].
Qed.

(** *** Uncontended, the steps of the lock are those of [Seqlock] *)
Section uncontended.
Context (v2p : Z -> Z) (s : lst).
Local Abbreviation me := (running (sch s)).

Lemma wp_acquire_again : holder (lk s) = me ->
  wp (lock_acquire v2p) (fun b s' => b = true /\ sch s' = sch s /\
    lk s' = mk_lock (holder (lk s)) (lsema (lk s)) (u32 (holder_repeat_nr (lk s) + 1))) s.
Proof.
  intros Eh. unfold lock_acquire, set_repeat. wp_steps. rewrite (proj2 (Z.eqb_eq _ _) Eh). cbn [negb]. wp_steps.
  apply wp_upd_lock. wp_steps. done.
Qed.

Lemma wp_acquire_free : holder (lk s) <> me -> value (lsema (lk s)) <> 0 -> u8 (value (lsema (lk s)) - 1) = 0 ->
  holder_repeat_nr (lk s) = 0 ->
  wp (lock_acquire v2p) (fun b s' => b = true /\ sch s' = sch s /\
    lk s' = mk_lock me (mk_sema (u8 (value (lsema (lk s)) - 1)) (waiters (lsema (lk s)))) 1) s.
Proof.
  intros Eh Hv H0 Hr.
  unfold lock_acquire, set_holder, set_repeat. wp_steps. rewrite (proj2 (Z.eqb_neq _ _)) by done. cbn [negb].
  wp_steps. apply wp_sema_down_free; [done|done|]. intros i. wp_steps. apply wp_upd_lock. wp_steps.
  { by apply Z.eqb_eq. }
  apply wp_upd_lock. wp_steps. done.
Qed.

Lemma wp_acquire_held : sched_wf (sch s) -> me <> idle_thread (sch s) -> me ∉ waiters (lsema (lk s)) ->
  holder (lk s) <> me -> value (lsema (lk s)) = 0 ->
  wp (lock_acquire v2p) (fun b s' => b = false /\ slock_of (lk s') = slock_of (lk s) /\
    waiters (lsema (lk s')) = waiters (lsema (lk s)) ++ [me] /\ stat (sch s') me = Some TASK_BLOCKED) s.
Proof.
  intros Hwf Hni Hnw Eh Hv.
  unfold lock_acquire, sema_down, sema_down_loop. wp_steps. rewrite (proj2 (Z.eqb_neq _ _)) by done. cbn [negb].
  wp_steps. apply wp_on_sch, wp_intr_disable. wp_steps. cbn [lk sch]. rewrite Hv. cbn [Z.eqb]. wp_steps.
  { by apply elem_find_false. }
  rewrite bool_decide_eq_false_2 by done. wp_steps. apply wp_upd_lock. wp_steps. apply wp_on_sch. cbn [sch lk].
  eapply wp_mono; [apply (wp_thread_block v2p TASK_BLOCKED (put_eflags _ (sch s))); [|done]|].
  { by apply wf_eflags. }
  cbn beta. intros [] sc (_ & _ & Hst & _). wp_steps. split_and!; try done.
  destruct Hst as [Hst|[_ E]]; [done|]. by destruct Hni.
Qed.

Lemma wp_release_again : holder (lk s) = me -> 1 < holder_repeat_nr (lk s) ->
  wp lock_release (fun _ s' => slock_of (lk s') =
    mk_slock (holder (lk s)) (value (lsema (lk s))) (holder_repeat_nr (lk s) - 1) /\ running (sch s') = me) s.
Proof.
  intros Eh Hr. unfold lock_release, set_repeat. wp_steps; [by apply Z.eqb_eq|].
  rewrite (proj2 (Z.ltb_lt _ _)) by done. by apply wp_upd_lock.
Qed.

Lemma wp_release_last : sched_wf (sch s) ->
  (forall t, t ∈ waiters (lsema (lk s)) -> stat (sch s) t = Some TASK_BLOCKED) ->
  holder (lk s) = me -> holder_repeat_nr (lk s) = 1 -> value (lsema (lk s)) = 0 ->
  wp lock_release (fun _ s' => slock_of (lk s') = mk_slock 0 (u8 (value (lsema (lk s)) + 1)) 0 /\
    running (sch s') = me) s.
Proof.
  intros Hwf Hblocked Eh Hr Hv.
  unfold lock_release, set_holder, set_repeat. wp_steps; [by apply Z.eqb_eq|].
  rewrite Hr. cbn [Z.ltb Z.compare Pos.compare Pos.compare_cont]. wp_steps; [done|].
  apply wp_upd_lock. wp_steps. apply wp_upd_lock. unfold sema_up. wp_steps.
  apply wp_on_sch, wp_intr_disable. wp_steps. { cbn [lk lsema value]. by rewrite Hv. }
  cbn [lk lsema sch]. destruct (waiters (lsema (lk s))) as [|w ws] eqn:Ew.
  - wp_steps. apply wp_upd_lock. wp_steps. { cbn [lk lsema set_sema value]. by rewrite Hv. }
    apply wp_on_sch, wp_intr_set_status. intros _. by wp_steps.
  - pose proof (Hblocked w ltac:(by left)) as (y & Ey & Hy)%stat_lookup.
    wp_steps. apply wp_upd_lock. apply wp_on_sch. cbn [sch lk].
    eapply wp_mono; [apply (wp_unblock_wf w y (put_eflags _ (sch s))); [by apply wf_eflags|done|by rewrite Hy]|].
    cbn beta. intros [] sc (_ & Hrun & _). wp_steps. apply wp_upd_lock. wp_steps.
    { cbn [lk lsema set_sema value]. by rewrite Hv. }
    apply wp_on_sch, wp_intr_set_status. intros _. by wp_steps.
Qed.
End uncontended.

(** C15: refinement of the sequential lock.  Where the contract that the other
    components use ([Seqlock]) says that acquiring returns with a lock state
    [l'], [lock_acquire] returns without blocking, leaves the scheduler as it
    was (interrupt flag included) and its lock is [l']; where the contract says
    that the caller would block, the thread is at the end of the wait queue and
    the scheduler has taken it off the processor in state BLOCKED; and where
    releasing gives [l'], [lock_release] returns with [l']. *)
Theorem lock_refines_seqlock (v2p : Z -> Z) (s : lst) (Hwf : sched_wf (sch s))
    (Hni : running (sch s) <> idle_thread (sch s))
    (Hnw : running (sch s) ∉ waiters (lsema (lk s)))
    (Hblocked : forall t, t ∈ waiters (lsema (lk s)) -> stat (sch s) t = Some TASK_BLOCKED) :
  (forall l', slock_acquire (running (sch s)) (slock_of (lk s)) = Done l' ->
     exists lk', lock_acquire v2p s = Done (true, mk_lst (sch s) lk') /\ slock_of lk' = l' /\
       waiters (lsema lk') = waiters (lsema (lk s))) /\
  (slock_acquire (running (sch s)) (slock_of (lk s)) = Halt Would_block ->
     exists s', lock_acquire v2p s = Done (false, s') /\ slock_of (lk s') = slock_of (lk s) /\
       waiters (lsema (lk s')) = waiters (lsema (lk s)) ++ [running (sch s)] /\
       stat (sch s') (running (sch s)) = Some TASK_BLOCKED) /\
  (forall l', slock_release (running (sch s)) (slock_of (lk s)) = Done l' ->
     exists s', lock_release s = Done (tt, s') /\ slock_of (lk s') = l' /\
       running (sch s') = running (sch s)).
Proof.
  split_and!; unfold slock_acquire, slock_release, slock_of; cbn [sl_holder sl_value sl_repeat].
  - intros l'. destruct (Z.eqb_spec (holder (lk s)) (running (sch s))) as [Eh|Eh]; cbn [negb].
    + intros [= <-]. destruct (proj1 (wp_done _ _ _) (wp_acquire_again v2p s Eh)) as (b & [sc lk'] & E & -> & Hs & Hl).
      cbn in Hs, Hl. subst. by eexists.
    + destruct (Z.eqb_spec (value (lsema (lk s))) 0) as [|Hv]; [done|].
      destruct (Z.eqb_spec (u8 (value (lsema (lk s)) - 1)) 0) as [H0|]; [|done].
      destruct (Z.eqb_spec (holder_repeat_nr (lk s)) 0) as [Hr|]; [|done]. cbn [oassert obind]. intros [= <-].
      destruct (proj1 (wp_done _ _ _) (wp_acquire_free v2p s Eh Hv H0 Hr)) as (b & [sc lk'] & E & -> & Hs & Hl).
      cbn in Hs, Hl. subst. by eexists.
  - destruct (Z.eqb_spec (holder (lk s)) (running (sch s))) as [Eh|Eh]; cbn [negb]; [done|].
    destruct (Z.eqb_spec (value (lsema (lk s))) 0) as [Hv|Hv]; [|by destruct (u8 _ =? 0), (holder_repeat_nr _ =? 0)].
    intros _. destruct (proj1 (wp_done _ _ _) (wp_acquire_held v2p s Hwf Hni Hnw Eh Hv)) as (b & s' & E & -> & H1 & H2 & H3).
    eauto 10.
  - intros l'. destruct (Z.eqb_spec (holder (lk s)) (running (sch s))) as [Eh|Eh]; [|done]. cbn [oassert obind].
    destruct (Z.ltb_spec 1 (holder_repeat_nr (lk s))) as [Hr|_].
    + intros [= <-]. destruct (proj1 (wp_done _ _ _) (wp_release_again s Eh Hr)) as ([] & s' & E & H1 & H2). eauto.
    + destruct (Z.eqb_spec (holder_repeat_nr (lk s)) 1) as [Hr|]; [|done]. cbn [oassert obind].
      destruct (Z.eqb_spec (value (lsema (lk s))) 0) as [Hv|]; [|done]. cbn [oassert obind]. intros [= <-].
      destruct (proj1 (wp_done _ _ _) (wp_release_last s Hwf Hblocked Eh Hr Hv)) as ([] & s' & E & H1 & H2). eauto.
Qed.

Lemma lock_refines_seqlock_witness :
  exists lk', lock_acquire id (mk_lst ex_sst lock_init) = Done (true, mk_lst ex_sst lk') /\
    slock_of lk' = mk_slock 0xc009e000 0 1.
Proof.
  destruct (lock_refines_seqlock id (mk_lst ex_sst lock_init)) as (H & _ & _).
  - exact ex_sst_wf.
  - done.
  - apply not_elem_of_nil.
  - by intros t ?%not_elem_of_nil.
  - destruct (H (mk_slock 0xc009e000 0 1)) as (lk' & E & Hl & _); [reflexivity|].
    exists lk'. split; [exact E|exact Hl].
Defined.
