(* ===== verification/Ioqueue.v ===== *)
(** * Ioqueue: the ring buffer of [device/ioqueue.c] and the pipes of [shell/pipe.c]

    The queue and the scheduler together.  [ioq_getchar] and [ioq_putchar] are
    given up to the point where they return ([Some]) or the thread has put
    itself to sleep inside the loop and another thread is running ([None]; the
    thread then goes on with [after_wait] and the loop's test). *)

From stdpp Require Import base numbers list gmap.
From S2P Require Import Prelude Bitmap Interrupt Seqlock Sched.

Local Open Scope Z_scope.
Local Open Scope kernel_scope.

Definition bufsize : Z := 2048.

Record ioqueue : Type := mk_ioq {
  qlock : slock;
  producer : Z;
  consumer : Z;
  buf : list Z;
  head : Z;
  tail : Z
}.

Record ist : Type := mk_ist { isch : sst; ioq : ioqueue }.

#[export] Instance ist_HasIF : HasIF ist.
Proof.
  refine {| eflags s := cpu_eflags (isch s); set_eflags z s := mk_ist (put_eflags z (isch s)) (ioq s) |};
    [done|done|]. by intros [[] ?].
Defined.

Definition on_isch {A} (m : M sst A) : M ist A := fun s =>
  olet (a, s') := m (isch s) in Done (a, mk_ist s' (ioq s)).
Definition upd_ioq (f : ioqueue -> ioqueue) : M ist unit := modify (fun s => mk_ist (isch s) (f (ioq s))).

Definition ioqueue_init (q : ioqueue) : ioqueue := mk_ioq slock_init 0 0 (buf q) 0 0.

Definition next_pos (pos : Z) : Z := (pos + 1) mod bufsize.

Definition assert_off : M ist unit :=
  let! st := intr_get_status in assertM (bool_decide (st = INTR_OFF)).

Definition ioq_full : M ist bool :=
  assert_off ;;; gets (fun s => next_pos (head (ioq s)) =? tail (ioq s)).
Definition ioq_empty : M ist bool :=
  assert_off ;;; gets (fun s => head (ioq s) =? tail (ioq s)).

Inductive who : Type := Producer | Consumer.
Definition waiter (w : who) (q : ioqueue) : Z :=
  match w with Producer => producer q | Consumer => consumer q end.
Definition set_waiter (w : who) (t : Z) (q : ioqueue) : ioqueue :=
  match w with
  | Producer => mk_ioq (qlock q) t (consumer q) (buf q) (head q) (tail q)
  | Consumer => mk_ioq (qlock q) (producer q) t (buf q) (head q) (tail q)
  end.
Definition set_qlock (l : slock) (q : ioqueue) : ioqueue :=
  mk_ioq l (producer q) (consumer q) (buf q) (head q) (tail q).

Section queue.
Context (v2p : Z -> Z).

Definition ioq_wait (w : who) : M ist unit :=
  let! q := gets ioq in
  assertM (waiter w q =? 0) ;;;
  let! me := gets (fun s => running (isch s)) in
  upd_ioq (set_waiter w me) ;;;
  on_isch (thread_block v2p TASK_BLOCKED).

Definition wakeup (w : who) : M ist unit :=
  let! q := gets ioq in
  assertM (negb (waiter w q =? 0)) ;;;
  on_isch (thread_unblock (waiter w q)) ;;;
  upd_ioq (set_waiter w 0).

Definition qlock_acquire : M ist unit := fun s =>
  olet l := slock_acquire (running (isch s)) (qlock (ioq s)) in Done (tt, mk_ist (isch s) (set_qlock l (ioq s))).
Definition qlock_release : M ist unit := fun s =>
  olet l := slock_release (running (isch s)) (qlock (ioq s)) in Done (tt, mk_ist (isch s) (set_qlock l (ioq s))).

(** The rest of the loop's body, run by the thread that was woken. *)
Definition after_wait : M ist unit := qlock_release.

Definition ioq_getchar : M ist (option Z) :=
  assert_off ;;;
  let! e := ioq_empty in
  if e then qlock_acquire ;;; ioq_wait Consumer ;;; ret None else
  let! q := gets ioq in
  let! byte := lift (oget (arr_get (buf q) (tail q)) Out_of_bounds) in
  upd_ioq (fun q => mk_ioq (qlock q) (producer q) (consumer q) (buf q) (head q) (next_pos (tail q))) ;;;
  let! q := gets ioq in
  (if negb (producer q =? 0) then wakeup Producer else ret tt) ;;;
  ret (Some byte).

Definition ioq_putchar (byte : Z) : M ist (option unit) :=
  assert_off ;;;
  let! f := ioq_full in
  if f then qlock_acquire ;;; ioq_wait Producer ;;; ret None else
  let! q := gets ioq in
  let! b := lift (oget (arr_set (buf q) (head q) (i8 byte)) Out_of_bounds) in
  upd_ioq (fun q => mk_ioq (qlock q) (producer q) (consumer q) b (head q) (tail q)) ;;;
  upd_ioq (fun q => mk_ioq (qlock q) (producer q) (consumer q) (buf q) (next_pos (head q)) (tail q)) ;;;
  let! q := gets ioq in
  (if negb (consumer q =? 0) then wakeup Consumer else ret tt) ;;;
  ret (Some tt).

Definition ioq_length : M ist Z :=
  gets (fun s => let q := ioq s in
    if tail q <=? head q then u32 (head q - tail q) else u32 (bufsize - (tail q - head q))).

(** ** Pipes: the loops of [pipe_read] and [pipe_write] over the queue of the
    pipe; [None]: the thread went to sleep inside. *)
Fixpoint pipe_read_loop (n : nat) (acc : list Z) : M ist (option (list Z)) :=
  match n with
  | O => ret (Some acc)
  | S n =>
      let! c := ioq_getchar in
      match c with
      | Some b => pipe_read_loop n (acc ++ [b])
      | None => ret None
      end
  end.
Definition pipe_read (count : Z) : M ist (option (list Z)) :=
  let! ioq_len := ioq_length in
  let size := if count <? ioq_len then count else ioq_len in
  pipe_read_loop (Z.to_nat size) [].

Fixpoint pipe_write_loop (l : list Z) : M ist (option unit) :=
  match l with
  | [] => ret (Some tt)
  | b :: l =>
      let! r := ioq_putchar b in
      match r with
      | Some _ => pipe_write_loop l
      | None => ret None
      end
  end.
(** The number of bytes written, when it returns. *)
Definition pipe_write (buffer : list Z) : M ist (option Z) :=
  let! len := ioq_length in
  let count := Z.of_nat (length buffer) in
  let ioq_left := u32 (bufsize - len) in
  let size := if count <? ioq_left then count else ioq_left in
  let! r := pipe_write_loop (take (Z.to_nat size) buffer) in
  ret (match r with Some _ => Some size | None => None end).
End queue.

(** ** Abstraction: a bounded FIFO *)
Definition ring (q : ioqueue) : list Z :=
  (fun i => default 0 (arr_get (buf q) ((tail q + i) mod bufsize))) <$>
    seqZ 0 ((head q - tail q) mod bufsize).

Definition capacity : nat := 2047.

Record ioq_wf (q : ioqueue) : Prop := {
  qw_buf : Z.of_nat (length (buf q)) = bufsize;
  qw_head : 0 <= head q < bufsize;
  qw_tail : 0 <= tail q < bufsize
}.

Lemma next_pos_eq p : 0 <= p < bufsize -> next_pos p = if p =? 2047 then 0 else p + 1.
Proof.
  unfold next_pos, bufsize. intros Hp. destruct (Z.eqb_spec p 2047) as [->|]; [done|].
  apply Z.mod_small. lia.
Qed.

Lemma ring_length q : ioq_wf q -> Z.of_nat (length (ring q)) = (head q - tail q) mod bufsize.
Proof.
  intros [_ Hh Ht]. unfold ring. rewrite length_fmap, length_seqZ.
  pose proof (Z.mod_pos_bound (head q - tail q) bufsize). unfold bufsize in *. lia.
Qed.

Lemma ring_len_eq q : ioq_wf q ->
  (head q - tail q) mod bufsize = if tail q <=? head q then head q - tail q else bufsize + (head q - tail q).
Proof.
  intros [_ Hh Ht]. unfold bufsize in *. destruct (Z.leb_spec (tail q) (head q)).
  - apply Z.mod_small. lia.
  - rewrite <- (Z.mod_add _ 1), Z.mod_small; lia.
Qed.

Lemma ring_le q : ioq_wf q -> (length (ring q) <= capacity)%nat.
Proof.
  intros Hq. pose proof (ring_length q Hq) as Hl. pose proof (Z.mod_pos_bound (head q - tail q) bufsize).
  unfold capacity, bufsize in *. lia.
Qed.

Lemma ring_empty q : ioq_wf q -> (head q =? tail q) = true <-> ring q = [].
Proof.
  intros Hq. pose proof (ring_length q Hq) as Hl. rewrite (ring_len_eq q Hq) in Hl.
  destruct Hq as [_ Hh Ht]. rewrite Z.eqb_eq. unfold bufsize in *. split.
  - intros E. apply nil_length_inv. destruct (Z.leb_spec (tail q) (head q)); lia.
  - intros E. rewrite E in Hl. cbn in Hl. destruct (Z.leb_spec (tail q) (head q)); lia.
Qed.

Lemma ring_full q : ioq_wf q -> (next_pos (head q) =? tail q) = true <-> length (ring q) = capacity.
Proof.
  intros Hq. pose proof (ring_length q Hq) as Hl. rewrite (ring_len_eq q Hq) in Hl.
  destruct Hq as [_ Hh Ht]. rewrite (next_pos_eq _ Hh), Z.eqb_eq. unfold bufsize, capacity in *.
  destruct (Z.leb_spec (tail q) (head q)), (Z.eqb_spec (head q) 2047); lia.
Qed.

(** Taking from the tail end. *)
Lemma ring_get q b :
  ioq_wf q -> head q <> tail q -> arr_get (buf q) (tail q) = Some b ->
  ring q = b :: ring (mk_ioq (qlock q) (producer q) (consumer q) (buf q) (head q) (next_pos (tail q))).
Proof.
  intros Hq Hne Hb. pose proof Hq as [Hbuf Hh Ht].
  set (q' := mk_ioq (qlock q) (producer q) (consumer q) (buf q) (head q) (next_pos (tail q))).
  assert (ioq_wf q') as Hq'.
  { split; [done|done|]. cbn. rewrite next_pos_eq by done. unfold bufsize in *.
    destruct (Z.eqb_spec (tail q) 2047); lia. }
  pose proof (ring_len_eq q Hq) as E1. pose proof (ring_len_eq q' Hq') as E2.
  change (head q') with (head q) in *. change (tail q') with (next_pos (tail q)) in *.
  rewrite next_pos_eq in E2 by done.
  assert ((head q - tail q) mod bufsize = Z.succ ((head q - next_pos (tail q)) mod bufsize)) as E3.
  { rewrite next_pos_eq by done. rewrite E1, E2. unfold bufsize in *.
    destruct (Z.eqb_spec (tail q) 2047);
      destruct (Z.leb_spec (tail q) (head q));
      match goal with |- context [?a <=? ?b] => destruct (Z.leb_spec a b) | _ => idtac end; lia. }
  unfold ring. change (head q') with (head q). change (tail q') with (next_pos (tail q)).
  change (buf q') with (buf q). rewrite E3.
  rewrite seqZ_cons by (pose proof (Z.mod_pos_bound (head q - next_pos (tail q)) bufsize); unfold bufsize in *; lia).
  rewrite fmap_cons. f_equal.
  - rewrite Z.add_0_r, Z.mod_small, Hb by done. done.
  - rewrite Z.pred_succ. apply list_eq. intros i. rewrite !list_lookup_fmap.
    destruct (decide (Z.of_nat i < (head q - next_pos (tail q)) mod bufsize)) as [Hi|Hi].
    + rewrite !lookup_seqZ_lt by done. cbn. f_equal. f_equal. f_equal.
      unfold next_pos. rewrite Zplus_mod_idemp_l. f_equal. lia.
    + rewrite !lookup_seqZ_ge by lia. done.
Qed.

(** Adding at the head end. *)
Lemma ring_put q c b' :
  ioq_wf q -> next_pos (head q) <> tail q -> arr_set (buf q) (head q) c = Some b' ->
  ring (mk_ioq (qlock q) (producer q) (consumer q) b' (next_pos (head q)) (tail q)) = ring q ++ [c].
Proof.
  intros Hq Hne Hb. pose proof Hq as [Hbuf Hh Ht].
  set (q' := mk_ioq (qlock q) (producer q) (consumer q) b' (next_pos (head q)) (tail q)).
  assert (ioq_wf q') as Hq'.
  { split; cbn; [by rewrite (arr_set_length _ _ _ _ Hb)| |done]. rewrite next_pos_eq by done.
    unfold bufsize in *. destruct (Z.eqb_spec (head q) 2047); lia. }
  pose proof (ring_len_eq q Hq) as E1. pose proof (ring_len_eq q' Hq') as E2.
  change (tail q') with (tail q) in *. change (head q') with (next_pos (head q)) in *.
  assert ((next_pos (head q) - tail q) mod bufsize = (head q - tail q) mod bufsize + 1) as E3.
  { rewrite E1, E2. rewrite next_pos_eq in * by done. unfold bufsize in *.
    destruct (Z.eqb_spec (head q) 2047);
      destruct (Z.leb_spec (tail q) (head q));
      match goal with |- context [?a <=? ?b] => destruct (Z.leb_spec a b) | _ => idtac end; lia. }
  pose proof (Z.mod_pos_bound (head q - tail q) bufsize ltac:(unfold bufsize; lia)) as Hpos.
  unfold ring. change (tail q') with (tail q). change (head q') with (next_pos (head q)).
  change (buf q') with b'. rewrite E3.
  rewrite seqZ_app, fmap_app by lia. f_equal.
  - apply list_fmap_ext. intros i j Hj%list_elem_of_lookup_2%elem_of_seqZ.
    rewrite (arr_get_set _ _ _ _ _ Hb), decide_False; [done|].
    intros E. rewrite E1 in Hj. unfold bufsize in *.
    assert ((tail q + j) mod 2048 = if tail q + j <? 2048 then tail q + j else tail q + j - 2048) as E4.
    { destruct (Z.ltb_spec (tail q + j) 2048); [apply Z.mod_small; lia|].
      rewrite <- (Z.mod_add _ (-1)), Z.mod_small by (destruct (Z.leb_spec (tail q) (head q)); lia). lia. }
    rewrite E4 in E. destruct (Z.ltb_spec (tail q + j) 2048), (Z.leb_spec (tail q) (head q)); lia.
  - set (n := (head q - tail q) mod bufsize) in *. change (seqZ (0 + n) 1) with [Z.of_nat 0 + (0 + n)].
    rewrite list_fmap_singleton. f_equal. unfold n.
    replace (Z.of_nat 0 + (0 + (head q - tail q) mod bufsize)) with ((head q - tail q) mod bufsize) by lia.
    replace ((tail q + (head q - tail q) mod bufsize) mod bufsize) with (head q).
    + by rewrite (arr_get_set _ _ _ _ _ Hb), decide_True.
    + rewrite Z.add_mod_idemp_r by (unfold bufsize; lia).
      replace (tail q + (head q - tail q)) with (head q) by lia. symmetry. apply Z.mod_small. done.
Qed.

(** ** The operations *)

(** The queue and the scheduler agree: interrupts are off, and a recorded
    waiter is a blocked thread. *)
Record qinv (s : ist) : Prop := {
  qi_wf : ioq_wf (ioq s);
  qi_sched : sched_wf (isch s);
  qi_off : if_set (isch s) = false;
  qi_waiter : forall w, waiter w (ioq s) <> 0 -> stat (isch s) (waiter w (ioq s)) = Some TASK_BLOCKED;
  qi_diff : producer (ioq s) <> 0 -> producer (ioq s) <> consumer (ioq s)
}.

Lemma wp_on_isch {A} (m : M sst A) (Q : A -> ist -> Prop) s :
  wp m (fun a s' => Q a (mk_ist s' (ioq s))) (isch s) -> wp (on_isch m) Q s.
Proof. unfold wp, on_isch. destruct (m (isch s)) as [[a s']|]; done. Qed.

Lemma wp_upd_ioq f (Q : unit -> ist -> Prop) s :
  Q tt (mk_ist (isch s) (f (ioq s))) -> wp (upd_ioq f) Q s.
Proof. done. Qed.

Lemma wp_assert_off (Q : unit -> ist -> Prop) s :
  if_set (isch s) = false -> Q tt s -> wp assert_off Q s.
Proof.
  intros Hoff HQ. unfold assert_off. apply wp_bind, wp_intr_get_status.
  assert (if_set s = false) as -> by exact Hoff. by apply wp_assert.
Qed.

(** Waking the waiter, when there is one. *)
Definition woken (w : who) (s s' : ist) : Prop :=
  waiter w (ioq s') = 0 /\
  (waiter w (ioq s) = 0 -> isch s' = isch s) /\
  (waiter w (ioq s) <> 0 ->
     thread_ready_list (isch s') = waiter w (ioq s) :: thread_ready_list (isch s)) /\
  running (isch s') = running (isch s).

Lemma wp_maybe_wakeup w s (Q : unit -> ist -> Prop) :
  qinv s ->
  (forall s', qinv s' -> woken w s s' -> ring (ioq s') = ring (ioq s) -> Q tt s') ->
  wp (if negb (waiter w (ioq s) =? 0) then wakeup w else ret tt) Q s.
Proof.
  intros Hs HQ. destruct (Z.eqb_spec (waiter w (ioq s)) 0) as [E|E]; cbn [negb].
  - apply wp_ret, HQ; [done| |done]. by split_and!.
  - destruct (stat_lookup _ _ _ (qi_waiter s Hs w E)) as (y & Ey & Hy).
    unfold wakeup. wp_steps. { by rewrite (proj2 (Z.eqb_neq _ 0)). }
    apply wp_on_isch.
    eapply wp_mono; [apply (wp_unblock_wf (waiter w (ioq s)) y (isch s)); [apply Hs|done|by rewrite Hy]|].
    cbn beta. intros [] sc (Hsc & Hrun & Hrl & _ & Hfl & Hst). apply wp_upd_ioq. cbn [isch ioq].
    apply HQ.
    + destruct Hs as [[] ? ? Hw Hd]. split; cbn [isch ioq]; try done.
      * by destruct w.
      * unfold if_set in *. change (eflags sc) with (cpu_eflags sc). by rewrite Hfl.
      * intros w' Hw'. assert (waiter w' (set_waiter w 0 (ioq s)) = waiter w' (ioq s) /\ w' <> w) as [-> Hne].
        { destruct w, w'; done. }
        rewrite Hst, decide_False; [apply Hw; by destruct w, w'|].
        destruct w, w'; cbn in *; try done; intros Heq; apply Hd; congruence.
      * destruct w; cbn in *; [done|]. intros Hp. done.
    + split_and!; try done. by destruct w.
    + by destruct w.
Qed.

Lemma wp_ioq_getchar v2p s b rest :
  qinv s -> ring (ioq s) = b :: rest ->
  wp (ioq_getchar v2p) (fun r s' => r = Some b /\ qinv s' /\ ring (ioq s') = rest /\ woken Producer s s') s.
Proof.
  intros Hs Hr. pose proof Hs as [Hwf Hsc Hoff Hw Hd].
  assert (head (ioq s) <> tail (ioq s)) as Hne.
  { intros E. apply Z.eqb_eq, (ring_empty _ Hwf) in E. congruence. }
  destruct (arr_get_lt (buf (ioq s)) (tail (ioq s))) as [c Hc].
  { destruct Hwf as [-> _ ?]. done. }
  pose proof (ring_get _ c Hwf Hne Hc) as Hring. rewrite Hr in Hring. injection Hring as <- Hrest.
  unfold ioq_getchar, ioq_empty. wp_steps. apply wp_assert_off; [done|]. wp_steps. apply wp_assert_off; [done|]. wp_steps.
  rewrite (proj2 (Z.eqb_neq _ _)) by done. wp_steps. apply (wp_lift _ b); [by rewrite Hc|]. wp_steps.
  apply wp_upd_ioq. wp_steps.
  match goal with |- wp _ _ ?s0 => set (s1 := s0) end.
  change (producer (ioq s1)) with (waiter Producer (ioq s1)).
  assert (qinv s1) as Hs1.
  { split; try done. destruct Hwf as [? ? ?]. split; try done. cbn. unfold next_pos.
    apply Z.mod_pos_bound. unfold bufsize. lia. }
  apply wp_maybe_wakeup; [done|]. intros s' Hs' Hwk Hrg. wp_steps.
  split_and!; try done; [|apply Hwk..]. rewrite Hrg. done.
Qed.

Lemma wp_ioq_putchar v2p s c :
  qinv s -> (length (ring (ioq s)) < capacity)%nat ->
  wp (ioq_putchar v2p c) (fun r s' => r = Some tt /\ qinv s' /\ ring (ioq s') = ring (ioq s) ++ [i8 c] /\
    woken Consumer s s') s.
Proof.
  intros Hs Hlt. pose proof Hs as [Hwf Hsc Hoff Hw Hd].
  assert ((next_pos (head (ioq s)) =? tail (ioq s)) = false) as Hnf.
  { destruct (next_pos (head (ioq s)) =? tail (ioq s)) eqn:E; [|done]. apply (ring_full _ Hwf) in E. lia. }
  destruct (arr_set_lt (buf (ioq s)) (head (ioq s)) (i8 c)) as [b' Hb].
  { destruct Hwf as [-> ? _]. done. }
  pose proof (ring_put _ (i8 c) b' Hwf (proj1 (Z.eqb_neq _ _) Hnf) Hb) as Hring.
  unfold ioq_putchar, ioq_full. wp_steps. apply wp_assert_off; [done|]. wp_steps. apply wp_assert_off; [done|]. wp_steps.
  rewrite Hnf. wp_steps. apply (wp_lift _ b'); [by rewrite Hb|]. wp_steps.
  apply wp_upd_ioq. wp_steps. apply wp_upd_ioq. wp_steps.
  match goal with |- wp _ _ ?s0 => set (s1 := s0) end.
  change (consumer (ioq s1)) with (waiter Consumer (ioq s1)).
  assert (qinv s1) as Hs1.
  { split; try done. destruct Hwf as [? ? ?]. split; cbn; [by rewrite (arr_set_length _ _ _ _ Hb)| |done].
    unfold next_pos. apply Z.mod_pos_bound. unfold bufsize. lia. }
  apply wp_maybe_wakeup; [done|]. intros s' Hs' Hwk Hrg. wp_steps.
  split_and!; try done; [|apply Hwk..]. rewrite Hrg. done.
Qed.

Lemma ioq_length_eq s : ioq_wf (ioq s) -> ioq_length s = Done (Z.of_nat (length (ring (ioq s))), s).
Proof.
  intros Hq. unfold ioq_length, gets. rewrite (ring_length _ Hq), (ring_len_eq _ Hq).
  destruct Hq as [_ Hh Ht]. unfold bufsize in *. cbv zeta.
  destruct (Z.leb_spec (tail (ioq s)) (head (ioq s))); rewrite u32_id by (unfold is_u32; lia);
    f_equal; f_equal; lia.
Qed.

(** ** Refinement of a bounded FIFO *)
Inductive qop : Type := QPut (c : Z) | QGet.

(** The specification: [None] where the caller would have to wait. *)
Definition spec_op (op : qop) (l : list Z) : option (list Z * list Z) :=
  match op with
  | QPut c => if decide (length l < capacity)%nat then Some ([], l ++ [i8 c]) else None
  | QGet => match l with [] => None | b :: l => Some ([b], l) end
  end.
Fixpoint spec_ops (ops : list qop) (l : list Z) : option (list Z * list Z) :=
  match ops with
  | [] => Some ([], l)
  | op :: ops =>
      match spec_op op l with
      | None => None
      | Some (o, l) => match spec_ops ops l with None => None | Some (o', l) => Some (o ++ o', l) end
      end
  end.

(** The implementation: the bytes obtained, or [None] when it went to sleep. *)
Fixpoint run_ops (v2p : Z -> Z) (ops : list qop) : M ist (option (list Z)) :=
  match ops with
  | [] => ret (Some [])
  | QPut c :: ops =>
      let! r := ioq_putchar v2p c in
      match r with None => ret None | Some _ => run_ops v2p ops end
  | QGet :: ops =>
      let! r := ioq_getchar v2p in
      match r with
      | None => ret None
      | Some b =>
          let! r := run_ops v2p ops in
          ret (match r with None => None | Some o => Some (b :: o) end)
      end
  end.

Lemma wp_run_ops v2p : forall ops s out l,
  qinv s -> spec_ops ops (ring (ioq s)) = Some (out, l) ->
  wp (run_ops v2p ops) (fun r s' => r = Some out /\ qinv s' /\ ring (ioq s') = l) s.
Proof.
  induction ops as [|[c|] ops IH]; intros s out l Hs Hspec; cbn [spec_ops spec_op run_ops] in *.
  - injection Hspec as <- <-. by apply wp_ret.
  - case_decide as Hlt; [|done]. destruct (spec_ops ops _) as [[o' l']|] eqn:E; [|done].
    injection Hspec as <- <-. apply wp_bind. eapply wp_mono; [by apply wp_ioq_putchar|]. cbn beta.
    intros r s' (-> & Hs' & Hr & _). by apply IH; [|rewrite Hr].
  - destruct (ring (ioq s)) as [|b rest] eqn:Hr; [done|].
    destruct (spec_ops ops rest) as [[o' l']|] eqn:E; [|done]. injection Hspec as <- <-.
    apply wp_bind. eapply wp_mono; [by apply (wp_ioq_getchar v2p s b rest)|]. cbn beta.
    intros r s' (-> & Hs' & Hr' & _). apply wp_bind. eapply wp_mono; [apply (IH s' o' l'); [done|by rewrite Hr']|].
    cbn beta. intros r' s'' (-> & Hs'' & Hl). by apply wp_ret.
Qed.

(** C28: the ring buffer is a bounded FIFO.  Any sequence of [ioq_putchar] and
    [ioq_getchar] that never has to wait in a FIFO queue of 2047 bytes does not
    wait in the implementation either, returns exactly the bytes the FIFO
    returns, in order and none lost or repeated, and leaves the ring holding
    exactly the FIFO's contents, however often the indices wrap around. *)
Theorem ioqueue_refines_fifo (v2p : Z -> Z) (ops : list qop) (s : ist) (out l : list Z)
    (Hs : qinv s) (Hspec : spec_ops ops (ring (ioq s)) = Some (out, l)) :
  exists s', run_ops v2p ops s = Done (Some out, s') /\ ring (ioq s') = l /\ qinv s'.
Proof.
  pose proof (wp_run_ops v2p ops s out l Hs Hspec) as H.
  apply wp_done in H as (r & s' & E & -> & Hs' & Hl). eauto.
Qed.

Definition ex_ioq : ioqueue := mk_ioq slock_init 0 0 (replicate 2048 0) 2046 2046.
Definition ex_ist : ist := mk_ist (put_eflags 2 ex_sst) ex_ioq.

Lemma ex_qinv : qinv ex_ist.
Proof.
  split; cbn [ioq isch ex_ist].
  - by split.
  - apply wf_eflags, ex_sst_wf.
  - done.
  - by intros [].
  - done.
Qed.

Lemma ioqueue_refines_fifo_witness :
  exists s', run_ops id [QPut 1; QPut 2; QGet; QPut 3; QGet; QGet] ex_ist = Done (Some [1; 2; 3], s') /\
    ring (ioq s') = [] /\ qinv s'.
Proof. apply (ioqueue_refines_fifo id _ ex_ist [1; 2; 3] [] ex_qinv). reflexivity. Defined.

(** ** Pipes *)
Lemma wp_pipe_read_loop v2p : forall n s acc,
  qinv s -> (n <= length (ring (ioq s)))%nat ->
  wp (pipe_read_loop v2p n acc) (fun r s' =>
    r = Some (acc ++ take n (ring (ioq s))) /\ ring (ioq s') = drop n (ring (ioq s)) /\ qinv s') s.
Proof.
  induction n as [|n IH]; intros s acc Hs Hn; cbn [pipe_read_loop].
  - apply wp_ret. by rewrite take_0, drop_0, app_nil_r.
  - destruct (ring (ioq s)) as [|b rest] eqn:Hr; [cbn in Hn; lia|].
    apply wp_bind. eapply wp_mono; [by apply (wp_ioq_getchar v2p s b rest)|]. cbn beta.
    intros r s' (-> & Hs' & Hr' & _). cbn in Hn.
    eapply wp_mono; [apply IH; [done|rewrite Hr'; lia]|]. cbn beta.
    intros r s'' (-> & Hd & Hs''). rewrite Hr' in *. cbn [take drop]. by rewrite <- app_assoc.
Qed.

Lemma wp_pipe_write_loop v2p : forall l s,
  qinv s -> (length (ring (ioq s)) + length l <= capacity)%nat ->
  wp (pipe_write_loop v2p l) (fun r s' =>
    r = Some tt /\ ring (ioq s') = ring (ioq s) ++ (i8 <$> l) /\ qinv s') s.
Proof.
  induction l as [|c l IH]; intros s Hs Hn; cbn [pipe_write_loop].
  - apply wp_ret. by rewrite app_nil_r.
  - cbn [length] in Hn. apply wp_bind. eapply wp_mono; [apply wp_ioq_putchar; [done|lia]|]. cbn beta.
    intros r s' (-> & Hs' & Hr & _).
    eapply wp_mono; [apply IH; [done|rewrite Hr, length_app; cbn [length]; lia]|]. cbn beta.
    intros r s'' (-> & Hd & Hs''). rewrite Hd, Hr, fmap_cons, <- app_assoc. done.
Qed.

Lemma wp_ioq_length s (Q : Z -> ist -> Prop) :
  qinv s -> Q (Z.of_nat (length (ring (ioq s)))) s -> wp ioq_length Q s.
Proof. intros Hs HQ. unfold wp. by rewrite (ioq_length_eq s (qi_wf s Hs)). Qed.

Lemma wp_pipe_read v2p s count :
  qinv s -> 0 <= count ->
  wp (pipe_read v2p count) (fun r s' =>
    r = Some (take (Z.to_nat count) (ring (ioq s))) /\
    ring (ioq s') = drop (Z.to_nat count) (ring (ioq s)) /\ qinv s') s.
Proof.
  intros Hs Hc. unfold pipe_read. apply wp_bind, wp_ioq_length; [done|].
  set (len := length (ring (ioq s))).
  assert (Z.to_nat (if count <? Z.of_nat len then count else Z.of_nat len) = Nat.min (Z.to_nat count) len) as ->.
  { destruct (Z.ltb_spec count (Z.of_nat len)); lia. }
  eapply wp_mono; [apply wp_pipe_read_loop; [done|unfold len; lia]|]. cbn beta.
  intros r s' (-> & Hd & Hs'). split_and!; [| |done].
  - cbn [app]. f_equal. unfold len. by rewrite <- take_take, firstn_all.
  - rewrite Hd. unfold len. destruct (decide (Z.to_nat count <= length (ring (ioq s)))%nat).
    + by rewrite Nat.min_l.
    + rewrite Nat.min_r, !drop_ge by lia. done.
Qed.

Lemma wp_pipe_write v2p s buffer :
  qinv s -> (length (ring (ioq s)) + length buffer <= capacity)%nat ->
  wp (pipe_write v2p buffer) (fun r s' =>
    r = Some (Z.of_nat (length buffer)) /\ ring (ioq s') = ring (ioq s) ++ (i8 <$> buffer) /\ qinv s') s.
Proof.
  intros Hs Hfit. unfold pipe_write. apply wp_bind, wp_ioq_length; [done|].
  unfold capacity, bufsize in *. cbv zeta. rewrite u32_id by (unfold is_u32; lia).
  rewrite (proj2 (Z.ltb_lt _ _)) by lia. rewrite Nat2Z.id, firstn_all.
  apply wp_bind. eapply wp_mono; [apply wp_pipe_write_loop; [done|unfold capacity; lia]|]. cbn beta.
  intros r s' (-> & Hr & Hs'). by apply wp_ret.
Qed.

(** Pipe transfer.  When the bytes written fit in the pipe's free space
    (one byte less than the buffer's size), [pipe_write] writes all of them
    without sleeping and returns their number; a following [pipe_read] of any
    count returns, without sleeping, the first [count] bytes of what was in the
    pipe followed by what was written, and leaves the rest in order. *)
Theorem pipe_transfer (v2p : Z -> Z) (buffer : list Z) (count : Z) (s : ist)
    (Hs : qinv s) (Hfit : (length (ring (ioq s)) + length buffer <= capacity)%nat) (Hc : 0 <= count) :
  let all := ring (ioq s) ++ (i8 <$> buffer) in
  exists s1 s2,
    pipe_write v2p buffer s = Done (Some (Z.of_nat (length buffer)), s1) /\
    pipe_read v2p count s1 = Done (Some (take (Z.to_nat count) all), s2) /\
    ring (ioq s2) = drop (Z.to_nat count) all /\ qinv s2.
Proof.
  intros all. pose proof (wp_pipe_write v2p s buffer Hs Hfit) as H.
  apply wp_done in H as (r & s1 & E1 & -> & Hr1 & Hs1).
  pose proof (wp_pipe_read v2p s1 count Hs1 Hc) as H.
  apply wp_done in H as (r & s2 & E2 & -> & Hr2 & Hs2). rewrite Hr1 in *. eauto 10.
Qed.

Lemma pipe_transfer_witness :
  exists s1 s2,
    pipe_write id [104; 105; 255] ex_ist = Done (Some 3, s1) /\
    pipe_read id 2 s1 = Done (Some [104; 105], s2) /\
    ring (ioq s2) = [-1] /\ qinv s2.
Proof. apply (pipe_transfer id [104; 105; 255] 2 ex_ist ex_qinv); [vm_compute; lia|lia]. Defined.

(** [pipe_write] clips the count to [bufsize - ioq_length], "to avoid
    blocking", but the ring holds [bufsize - 1] bytes: writing 2048 bytes to an
    empty pipe puts the writer to sleep as the producer with the ring full. *)
Theorem pipe_write_sleeps :
  exists s', pipe_write id (replicate 2048 7) ex_ist = Done (None, s') /\
    length (ring (ioq s')) = capacity /\
    producer (ioq s') = running (isch ex_ist) /\
    stat (isch s') (running (isch ex_ist)) = Some TASK_BLOCKED.
Proof. vm_compute. eexists. split_and!; reflexivity. Qed.
