(* ===== verification/Keyboard.v ===== *)
(** * Keyboard: the scan-code decoder of [device/keyboard.c]

    The driver's five flags together with [kbd_buf], the ring buffer of
    [Ioqueue].  [intr_keyboard_handler] takes the byte that [inb(0x60)] returns
    and runs with interrupts off, as an interrupt gate leaves them. *)

From Stdlib Require Import Ascii.
From stdpp Require Import base numbers list gmap strings.
From S2P Require Import Prelude Bitmap Interrupt Seqlock Sched Ioqueue.

Local Open Scope Z_scope.
Local Open Scope kernel_scope.

Record kst : Type := mk_kst {
  ctrl_status : bool;
  shift_status : bool;
  alt_status : bool;
  caps_lock_status : bool;
  ext_scancode : bool;
  kbd : ist;               (** [kbd_buf] and the scheduler *)
  screen : list string     (** what the handler printed *)
}.

(** ** The key map, indexed by make code: plain and with shift *)
Definition chr (a : ascii) : Z := Z.of_N (N_of_ascii a).
Arguments chr a%_char_scope.

Definition esc : Z := 27.
Definition backspace : Z := 8.
Definition tab : Z := 9.
Definition enter : Z := 13.
Definition char_invisible : Z := 0.

Definition keymap : list (Z * Z) := [
  (0, 0); (esc, esc);
  (chr "1", chr "!"); (chr "2", chr "@"); (chr "3", chr "#"); (chr "4", chr "$");
  (chr "5", chr "%"); (chr "6", chr "^"); (chr "7", chr "&"); (chr "8", chr "*");
  (chr "9", chr "("); (chr "0", chr ")"); (chr "-", chr "_"); (chr "=", chr "+");
  (backspace, backspace); (tab, tab);
  (chr "q", chr "Q"); (chr "w", chr "W"); (chr "e", chr "E"); (chr "r", chr "R");
  (chr "t", chr "T"); (chr "y", chr "Y"); (chr "u", chr "U"); (chr "i", chr "I");
  (chr "o", chr "O"); (chr "p", chr "P"); (chr "[", chr "{"); (chr "]", chr "}");
  (enter, enter);
  (char_invisible, char_invisible);   (* left ctrl *)
  (chr "a", chr "A"); (chr "s", chr "S"); (chr "d", chr "D"); (chr "f", chr "F");
  (chr "g", chr "G"); (chr "h", chr "H"); (chr "j", chr "J"); (chr "k", chr "K");
  (chr "l", chr "L"); (chr ";", chr ":"); (39, 34); (chr "`", chr "~");
  (char_invisible, char_invisible);   (* left shift *)
  (chr "\", chr "|");
  (chr "z", chr "Z"); (chr "x", chr "X"); (chr "c", chr "C"); (chr "v", chr "V");
  (chr "b", chr "B"); (chr "n", chr "N"); (chr "m", chr "M");
  (chr ",", chr "<"); (chr ".", chr ">"); (chr "/", chr "?");
  (char_invisible, char_invisible);   (* right shift *)
  (chr "*", chr "*");
  (char_invisible, char_invisible);   (* left alt *)
  (chr " ", chr " ");
  (char_invisible, char_invisible)    (* caps lock *)
].

Definition shift_l_make : Z := 0x2a.
Definition shift_r_make : Z := 0x36.
Definition alt_l_make : Z := 0x38.
Definition alt_r_make : Z := 0xe038.
Definition ctrl_l_make : Z := 0x1d.
Definition ctrl_r_make : Z := 0xe01d.
Definition caps_lock_make : Z := 0x3a.

Definition set_ctrl (b : bool) (k : kst) : kst :=
  mk_kst b (shift_status k) (alt_status k) (caps_lock_status k) (ext_scancode k) (kbd k) (screen k).
Definition set_shift (b : bool) (k : kst) : kst :=
  mk_kst (ctrl_status k) b (alt_status k) (caps_lock_status k) (ext_scancode k) (kbd k) (screen k).
Definition set_alt (b : bool) (k : kst) : kst :=
  mk_kst (ctrl_status k) (shift_status k) b (caps_lock_status k) (ext_scancode k) (kbd k) (screen k).
Definition set_caps (b : bool) (k : kst) : kst :=
  mk_kst (ctrl_status k) (shift_status k) (alt_status k) b (ext_scancode k) (kbd k) (screen k).
Definition set_ext (b : bool) (k : kst) : kst :=
  mk_kst (ctrl_status k) (shift_status k) (alt_status k) (caps_lock_status k) b (kbd k) (screen k).
Definition put_str (m : string) (k : kst) : kst :=
  mk_kst (ctrl_status k) (shift_status k) (alt_status k) (caps_lock_status k) (ext_scancode k) (kbd k)
    (screen k ++ [m]).
Definition on_kbd {A} (m : M ist A) : M kst A := fun k =>
  olet (a, q) := m (kbd k) in
  Done (a, mk_kst (ctrl_status k) (shift_status k) (alt_status k) (caps_lock_status k) (ext_scancode k) q (screen k)).

(** The keys that carry two characters. *)
Definition two_chars (scancode : Z) : bool :=
  (scancode <? 0x0e) || (scancode =? 0x29) || (scancode =? 0x1a) || (scancode =? 0x1b) ||
  (scancode =? 0x2b) || (scancode =? 0x27) || (scancode =? 0x28) || (scancode =? 0x33) ||
  (scancode =? 0x34) || (scancode =? 0x35).

(** The column of [keymap] for a key, from the state at the interrupt. *)
Definition use_shift (scancode : Z) (shift_down_last caps_lock_last : bool) : bool :=
  if two_chars scancode then (if shift_down_last then true else false)
  else if shift_down_last && caps_lock_last then false
  else if shift_down_last || caps_lock_last then true
  else false.

Definition intr_keyboard_handler (v2p : Z -> Z) (inb : Z) : M kst unit :=
  let! ctrl_down_last := gets ctrl_status in
  let! shift_down_last := gets shift_status in
  let! caps_lock_last := gets caps_lock_status in
  let scancode := inb in
  if scancode =? 0xe0 then modify (set_ext true) else
  let! ext := gets ext_scancode in
  let! scancode :=
    (if ext then modify (set_ext false) ;;; ret (Z.lor 0xe000 scancode) else ret scancode) in
  let break_code := negb (Z.land scancode 0x80 =? 0) in
  if break_code then
    let make_code := Z.land scancode 0xff7f in
    if (make_code =? ctrl_l_make) || (make_code =? ctrl_r_make) then modify (set_ctrl false)
    else if (make_code =? shift_l_make) || (make_code =? shift_r_make) then modify (set_shift false)
    else if (make_code =? alt_l_make) || (make_code =? alt_r_make) then modify (set_alt false)
    else ret tt
  else if ((0 <? scancode) && (scancode <? 0x3b)) || (scancode =? alt_r_make) || (scancode =? ctrl_r_make) then
    let shift := use_shift scancode shift_down_last caps_lock_last in
    let scancode := Z.land scancode 0xff in
    let index := scancode in
    let! row := lift (oget (arr_get keymap index) Out_of_bounds) in
    let cur_char := if shift then snd row else fst row in
    if negb (cur_char =? 0) then
      let cur_char :=
        if (ctrl_down_last && (cur_char =? chr "l")) || (ctrl_down_last && (cur_char =? chr "u"))
        then i8 (cur_char - chr "a") else cur_char in
      let! full := on_kbd ioq_full in
      if negb full then on_kbd (ioq_putchar v2p cur_char) ;;; ret tt else ret tt
    else if (scancode =? ctrl_l_make) || (scancode =? ctrl_r_make) then modify (set_ctrl true)
    else if (scancode =? shift_l_make) || (scancode =? shift_r_make) then modify (set_shift true)
    else if (scancode =? alt_l_make) || (scancode =? alt_r_make) then modify (set_alt true)
    else if scancode =? caps_lock_make then modify (fun k => set_caps (negb (caps_lock_status k)) k)
    else ret tt
  else modify (put_str "unknown key
").

(** One interrupt per byte the controller delivers. *)
Fixpoint interrupts (v2p : Z -> Z) (bytes : list Z) : M kst unit :=
  match bytes with
  | [] => ret tt
  | b :: bytes => intr_keyboard_handler v2p b ;;; interrupts v2p bytes
  end.

(** ** What a user types

    A keyboard as it is, independent of the driver: keys by the code that stands
    for them in scan-code set 1, some of them "extended".  A key sends its make
    code when it is pressed (and again while it is held down) and the code with
    bit 7 set when it is released, an extended key with [0xe0] before it. *)
Record key : Type := mk_key { k_ext : bool; k_code : Z }.
#[export] Instance key_eq_dec : EqDecision key.
Proof. solve_decision. Defined.

Inductive event : Type := Press (k : key) | Release (k : key).

(** Code 0x60 does not occur: released, it would be the prefix. *)
Definition key_ok (k : key) : bool := (1 <=? k_code k) && (k_code k <=? 0x7f) && negb (k_code k =? 0x60).

Definition event_bytes (e : event) : list Z :=
  match e with
  | Press k => (if k_ext k then [0xe0] else []) ++ [k_code k]
  | Release k => (if k_ext k then [0xe0] else []) ++ [k_code k + 0x80]
  end.

(** *** The keys that carry characters: a US keyboard, row by row, from the code
    of the row's first key, plain and with shift *)
Fixpoint codes (s : string) : list Z :=
  match s with EmptyString => [] | String a s => chr a :: codes s end.
Definition rows : list (Z * list Z * list Z) := [
  (0x01, [27], [27]);
  (0x02, codes "1234567890-=", codes "!@#$%^&*()_+");
  (0x0e, [8], [8]);
  (0x0f, [9], [9]);
  (0x10, codes "qwertyuiop[]", codes "QWERTYUIOP{}");
  (0x1c, [13], [13]);
  (0x1e, codes "asdfghjkl;'`", codes "ASDFGHJKL:" ++ [34] ++ codes "~");
  (0x2b, codes "\zxcvbnm,./", codes "|ZXCVBNM<>?");
  (0x37, codes "*", codes "*");
  (0x39, codes " ", codes " ")
].
Fixpoint key_chars (l : list (Z * list Z * list Z)) (code : Z) : option (Z * Z) :=
  match l with
  | [] => None
  | (first, plain, shifted) :: l =>
      if (first <=? code) && (code <? first + Z.of_nat (length plain)) then
        Some (nth (Z.to_nat (code - first)) plain 0, nth (Z.to_nat (code - first)) shifted 0)
      else key_chars l code
  end.
Definition carries (k : key) : option (Z * Z) := if k_ext k then None else key_chars rows (k_code k).

(** *** The modifiers *)
Inductive modifier : Type := Ctrl | Shift | Alt.
#[export] Instance modifier_eq_dec : EqDecision modifier.
Proof. solve_decision. Defined.

(** There are two keys of each: the right ctrl and alt are extended. *)
Definition modifier_of (k : key) : option modifier :=
  if k_code k =? 0x1d then Some Ctrl
  else if k_code k =? 0x38 then Some Alt
  else if negb (k_ext k) && ((k_code k =? 0x2a) || (k_code k =? 0x36)) then Some Shift
  else None.
Definition caps_key : key := mk_key false 0x3a.

(** The keys held down, and the light of caps lock. *)
Record user : Type := mk_user { held : list key; caps : bool }.
Definition down (m : modifier) (l : list key) : bool := existsb (fun k => bool_decide (modifier_of k = Some m)) l.

Definition type_event (u : user) (e : event) : user :=
  match e with
  | Press k => mk_user (k :: held u) (if bool_decide (k = caps_key) then negb (caps u) else caps u)
  | Release k => mk_user (filter (fun k' => k' <> k) (held u)) (caps u)
  end.

(** What can happen: a key that is released was held; and, of this user, the two
    keys of a modifier are not held down together. *)
Definition event_ok (u : user) (e : event) : bool :=
  match e with
  | Press k => key_ok k &&
      match modifier_of k with
      | Some m => forallb (fun k' => bool_decide (modifier_of k' = Some m -> k' = k)) (held u)
      | None => true
      end
  | Release k => key_ok k && bool_decide (k ∈ held u)
  end.
Fixpoint history_ok (u : user) (es : list event) : bool :=
  match es with [] => true | e :: es => event_ok u e && history_ok (type_event u e) es end.

Record mods : Type := mk_mods { m_ctrl : bool; m_shift : bool; m_alt : bool; m_caps : bool }.
Definition mods_held (u : user) : mods := mk_mods (down Ctrl (held u)) (down Shift (held u)) (down Alt (held u)) (caps u).

(** The character a key means: shift and caps lock change the case of a letter
    (both together cancel); on any other key only shift counts; ctrl turns a
    plain l or u into a control character, its distance from a. *)
Definition meaning (m : mods) (p : Z * Z) : Z :=
  let (plain, shifted) := p in
  if (97 <=? plain) && (plain <=? 122) then
    let c := if xorb (m_shift m) (m_caps m) then shifted else plain in
    if m_ctrl m && ((c =? 108) || (c =? 117)) then c - 97 else c
  else if m_shift m then shifted else plain.

Definition event_chars (u : user) (e : event) : list Z :=
  match e with
  | Press k => match carries k with Some p => [meaning (mods_held u) p] | None => [] end
  | Release _ => []
  end.
Fixpoint typed (u : user) (es : list event) : user * list Z :=
  match es with
  | [] => (u, [])
  | e :: es => let (u', o) := typed (type_event u e) es in (u', event_chars u e ++ o)
  end.

(** ** The decoder against the keyboard *)
Definition mods_of (k : kst) : mods :=
  mk_mods (ctrl_status k) (shift_status k) (alt_status k) (caps_lock_status k).

(** At most one key of each modifier is down. *)
Definition one_each (l : list key) : Prop :=
  forall k k' m, k ∈ l -> k' ∈ l -> modifier_of k = Some m -> modifier_of k' = Some m -> k = k'.

Definition kinv (k : kst) : Prop := qinv (kbd k) /\ ext_scancode k = false.

Lemma wp_on_kbd {A} (m : M ist A) (Q : A -> kst -> Prop) k :
  wp m (fun a q => Q a (mk_kst (ctrl_status k) (shift_status k) (alt_status k) (caps_lock_status k)
                          (ext_scancode k) q (screen k))) (kbd k) -> wp (on_kbd m) Q k.
Proof. unfold wp, on_kbd. destruct (m (kbd k)) as [[a q]|]; done. Qed.

Lemma wp_ioq_full s (Q : bool -> ist -> Prop) :
  qinv s -> (length (ring (ioq s)) < capacity)%nat -> Q false s -> wp ioq_full Q s.
Proof.
  intros Hs Hlt HQ. unfold ioq_full. apply wp_bind, wp_assert_off; [apply Hs|]. apply wp_gets.
  destruct (next_pos (head (ioq s)) =? tail (ioq s)) eqn:E; [|done].
  apply (ring_full _ (qi_wf s Hs)) in E. lia.
Qed.

(** What the handler does with a character key, decided for all 58 of them and
    all modifier states: the table, the list of two-character keys and the case
    rules agree with [meaning], and no character is lost in [int8_t]. *)
Definition char_case (sc : Z) (ctrl shift caps : bool) : bool :=
  match key_chars rows sc with
  | Some p =>
      let row := default (0, 0) (arr_get keymap sc) in
      let c := if use_shift sc shift caps then snd row else fst row in
      let c' := if (ctrl && (c =? chr "l")) || (ctrl && (c =? chr "u")) then i8 (c - chr "a") else c in
      negb (c =? 0) && (i8 c' =? meaning (mk_mods ctrl shift false caps) p)
  | None => true
  end.

Lemma char_case_ok sc ctrl shift caps : 0 <= sc < 128 -> char_case sc ctrl shift caps = true.
Proof.
  intros H. pose proof (forallZ_spec 128 (fun sc =>
    forallb (fun c => forallb (fun s => forallb (fun k => char_case sc c s k) [true; false]) [true; false])
       [true; false]) ltac:(vm_compute; reflexivity) sc ltac:(lia)) as Hc.
  cbv beta in Hc. rewrite forallb_forall in Hc.
  assert (forall b : bool, In b [true; false]) as Hb by (intros []; cbn; tauto).
  specialize (Hc ctrl (Hb _)). rewrite forallb_forall in Hc. specialize (Hc shift (Hb _)).
  rewrite forallb_forall in Hc. exact (Hc caps (Hb _)).
Qed.

(** The way of a code through the handler's conditions: the codes of the
    character keys take the branch for plain make codes; those of the keys that
    are neither these nor modifiers take the last branch; and a break code changes
    nothing unless it is a modifier's. *)
Definition prefixed (ext : bool) (b : Z) : Z := if ext then Z.lor 0xe000 b else b.
Definition plain_code (sc : Z) : bool :=
  (Z.land sc 0x80 =? 0) && ((0 <? sc) && (sc <? 0x3b)) && (Z.land sc 0xff =? sc).
Definition dead_make (ext : bool) (code : Z) : bool :=
  let sc := prefixed ext code in
  (Z.land sc 0x80 =? 0) && negb (((0 <? sc) && (sc <? 0x3b)) || (sc =? alt_r_make) || (sc =? ctrl_r_make)).
Definition idle_break (ext : bool) (code : Z) : bool :=
  let b := prefixed ext (code + 0x80) in
  let m := Z.land b 0xff7f in
  negb (code + 0x80 =? 0xe0) && negb (Z.land b 0x80 =? 0) &&
  negb ((m =? ctrl_l_make) || (m =? ctrl_r_make)) && negb ((m =? shift_l_make) || (m =? shift_r_make)) &&
  negb ((m =? alt_l_make) || (m =? alt_r_make)).

Definition code_facts (code : Z) : bool :=
  forallb (fun ext =>
    let k := mk_key ext code in
    implb (key_ok k)
      match carries k, modifier_of k with
      | Some _, Some _ => false
      | Some _, None => plain_code code && idle_break ext code && negb (bool_decide (k = caps_key))
      | None, None => idle_break ext code && (bool_decide (k = caps_key) || dead_make ext code)
      | None, Some _ => true
      end) [true; false].

Lemma key_facts k : key_ok k = true ->
  match carries k, modifier_of k with
  | Some _, Some _ => false
  | Some _, None => plain_code (k_code k) && idle_break (k_ext k) (k_code k) && negb (bool_decide (k = caps_key))
  | None, None => idle_break (k_ext k) (k_code k) && (bool_decide (k = caps_key) || dead_make (k_ext k) (k_code k))
  | None, Some _ => true
  end = true.
Proof.
  intros H. destruct k as [ext code]. assert (0 <= code < Z.of_nat 128) as Hc by (unfold key_ok in H; cbn [k_code] in H; lia).
  pose proof (forallZ_spec 128 code_facts ltac:(vm_compute; reflexivity) code Hc) as Hf. unfold code_facts in Hf.
  rewrite forallb_forall in Hf. specialize (Hf ext ltac:(destruct ext; cbn; tauto)). cbv zeta in Hf. by rewrite H in Hf.
Qed.

(** *** One key *)
Section handler.
Context (v2p : Z -> Z).

(** After the prefix the next byte is handled as the long code. *)
Lemma wp_prefix ext b k (Q : unit -> kst -> Prop) : ext_scancode k = false ->
  wp (intr_keyboard_handler v2p b) Q (set_ext ext k) ->
  wp (interrupts v2p ((if ext then [0xe0] else []) ++ [b])) Q k.
Proof.
  intros He H. assert (set_ext false k = k) as Hid by (destruct k; cbn in *; by subst).
  assert (forall k', wp (intr_keyboard_handler v2p b) Q k' -> wp (interrupts v2p [b]) Q k') as H1.
  { intros k' H'. cbn [interrupts]. apply wp_bind. eapply wp_mono; [exact H'|]. cbn beta. intros [] k2 H2. by apply wp_ret. }
  destruct ext; cbn [app].
  - apply (H1 (set_ext true k)), H.
  - apply H1. by rewrite Hid in H.
Qed.

Lemma wp_idle_break ext code k :
  kinv k -> idle_break ext code = true ->
  wp (interrupts v2p ((if ext then [0xe0] else []) ++ [code + 0x80])) (fun _ k' => k' = k) k.
Proof.
  intros [Hk Hext] Hp. unfold idle_break in Hp. cbv zeta in Hp.
  apply andb_true_iff in Hp as [[[[H1 H2]%andb_true_iff H3]%andb_true_iff H4]%andb_true_iff H5].
  apply negb_true_iff in H1, H3, H4, H5. apply wp_prefix; [done|].
  assert (set_ext false (set_ext ext k) = k /\ (ext = false -> set_ext ext k = k)) as [Hid Hid'] by (destruct k; cbn in *; subst; split; [done|by intros ->]).
  unfold intr_keyboard_handler. wp_steps. rewrite H1. wp_steps. cbn [ext_scancode set_ext].
  destruct ext; cbn [prefixed] in *; wp_steps; rewrite H2; cbv zeta; rewrite H3, H4, H5; wp_steps; [exact Hid|by apply Hid'].
Qed.

Lemma wp_dead_make ext code k :
  kinv k -> key_ok (mk_key ext code) = true -> dead_make ext code = true ->
  wp (interrupts v2p ((if ext then [0xe0] else []) ++ [code]))
    (fun _ k' => kinv k' /\ mods_of k' = mods_of k /\ ring (ioq (kbd k')) = ring (ioq (kbd k))) k.
Proof.
  intros [Hk Hext] Hok Hp. unfold dead_make in Hp. cbv zeta in Hp. apply andb_true_iff in Hp as [H1 H2%negb_true_iff].
  apply wp_prefix; [done|]. unfold key_ok in Hok. cbn [k_code] in Hok.
  unfold intr_keyboard_handler. wp_steps. rewrite (proj2 (Z.eqb_neq code 0xe0)) by lia. wp_steps. cbn [ext_scancode set_ext].
  destruct ext; cbn [prefixed] in *; wp_steps; rewrite H1; cbn [negb]; rewrite H2; wp_steps; by split.
Qed.

Lemma wp_press_char k sc p :
  kinv k -> 0 <= sc < 128 -> key_chars rows sc = Some p -> plain_code sc = true -> (length (ring (ioq (kbd k))) < capacity)%nat ->
  wp (intr_keyboard_handler v2p sc) (fun _ k' => kinv k' /\ mods_of k' = mods_of k /\
    ring (ioq (kbd k')) = ring (ioq (kbd k)) ++ [meaning (mods_of k) p]) k.
Proof.
  intros [Hk Hext] Hsc Hp Hpl Hlt.
  pose proof (char_case_ok sc (ctrl_status k) (shift_status k) (caps_lock_status k) Hsc) as Hc. unfold char_case in Hc. rewrite Hp in Hc.
  unfold plain_code in Hpl. apply andb_true_iff in Hpl as [[Hp2 Hp3]%andb_true_iff Hp4%Z.eqb_eq].
  apply andb_true_iff in Hc as [Hc1 Hc2%Z.eqb_eq].
  destruct (arr_get keymap sc) as [row|] eqn:Hrow.
  2:{ exfalso. cbn in Hc1. by destruct (use_shift _ _ _). }
  change (default (0, 0) (Some row)) with row in *. unfold intr_keyboard_handler. wp_steps.
  rewrite (proj2 (Z.eqb_neq sc 0xe0)) by lia. wp_steps. rewrite Hext. wp_steps.
  rewrite Hp2, Hp3, Hp4. cbn [negb orb]. wp_steps. apply (wp_lift _ row); [by rewrite Hrow|]. wp_steps.
  rewrite Hc1. wp_steps. apply wp_on_kbd, wp_ioq_full; [done..|]. cbn [negb]. wp_steps.
  apply wp_on_kbd. eapply wp_mono; [by apply wp_ioq_putchar|]. cbn beta.
  intros _ q (_ & Hq & Hr & _). wp_steps. split; [by split|]. split; [done|].
  cbn [kbd]. rewrite Hr, Hc2. f_equal.
Qed.
End handler.

(** *** The modifiers *)
Lemma down_true m l : down m l = true <-> exists k, k ∈ l /\ modifier_of k = Some m.
Proof.
  unfold down. rewrite existsb_exists. split; intros (k & Hk & Hm); exists k.
  - apply bool_decide_eq_true in Hm. by rewrite list_elem_of_In.
  - by rewrite <- list_elem_of_In, bool_decide_eq_true.
Qed.

Lemma down_cons m k l : down m (k :: l) = bool_decide (modifier_of k = Some m) || down m l.
Proof. done. Qed.

Lemma one_each_cons k l :
  one_each l -> match modifier_of k with Some m => forallb (fun k' => bool_decide (modifier_of k' = Some m -> k' = k)) l | None => true end = true ->
  one_each (k :: l).
Proof.
  intros Hl Hk k1 k2 m H1 H2 M1 M2.
  assert (forall k', k' ∈ l -> modifier_of k' = Some m -> modifier_of k = Some m -> k' = k) as Hx.
  { intros k' Hin Hm Hkm. rewrite Hkm in Hk. rewrite forallb_forall in Hk. specialize (Hk k' ltac:(by apply list_elem_of_In)).
    apply bool_decide_eq_true in Hk. by apply Hk. }
  apply elem_of_cons in H1 as [->|H1], H2 as [->|H2]; [done|symmetry; by apply Hx|by apply Hx|by apply (Hl _ _ m)].
Qed.

Lemma one_each_release k l : one_each l -> one_each (filter (fun k' => k' <> k) l).
Proof. intros Hl k1 k2 m [_ H1]%list_elem_of_filter [_ H2]%list_elem_of_filter. by apply Hl. Qed.

(** Releasing the one key of a modifier that is down lifts it, and no other. *)
Lemma down_release m k l : one_each l -> k ∈ l ->
  down m (filter (fun k' => k' <> k) l) = down m l && negb (bool_decide (modifier_of k = Some m)).
Proof.
  intros Hl Hk. apply Bool.eq_iff_eq_true. rewrite andb_true_iff, negb_true_iff, bool_decide_eq_false, !down_true. split.
  - intros (k' & [Hne Hin]%list_elem_of_filter & Hm). split; [eauto|]. intros Hkm. apply Hne. by apply (Hl _ _ m).
  - intros [(k' & Hin & Hm) Hkm]. exists k'. split; [|done]. apply list_elem_of_filter. split; [|done]. by intros ->.
Qed.

(** The driver's state stands for the keyboard's. *)
Definition agrees (u : user) (k : kst) : Prop := kinv k /\ mods_of k = mods_held u /\ one_each (held u).

Definition with_mod (m : modifier) (b : bool) (x : mods) : mods :=
  match m with
  | Ctrl => mk_mods b (m_shift x) (m_alt x) (m_caps x)
  | Shift => mk_mods (m_ctrl x) b (m_alt x) (m_caps x)
  | Alt => mk_mods (m_ctrl x) (m_shift x) b (m_caps x)
  end.

(** The driver takes a modifier's key up or down. *)
Lemma wp_modifier v2p k key m (p : bool) :
  kinv k -> modifier_of key = Some m ->
  wp (interrupts v2p (event_bytes (if p then Press key else Release key)))
    (fun _ k' => kinv k' /\ mods_of k' = with_mod m p (mods_of k) /\ ring (ioq (kbd k')) = ring (ioq (kbd k))) k.
Proof.
  intros [Hk Hext] Hm. destruct key as [ext code]. unfold modifier_of in Hm. cbn [k_ext k_code] in Hm.
  assert (exists codes, In (ext, code, m) codes /\ codes = [(false, 0x1d, Ctrl); (true, 0x1d, Ctrl); (false, 0x38, Alt); (true, 0x38, Alt);
    (false, 0x2a, Shift); (false, 0x36, Shift)]) as (l & Hin & ->).
  { eexists. split; [|done]. destruct (code =? 0x1d) eqn:E1; [apply Z.eqb_eq in E1 as ->; injection Hm as <-; destruct ext; cbn; tauto|].
    destruct (code =? 0x38) eqn:E2; [apply Z.eqb_eq in E2 as ->; injection Hm as <-; destruct ext; cbn; tauto|].
    destruct ext; [done|]. cbn [negb andb] in Hm. destruct (code =? 0x2a) eqn:E3; [apply Z.eqb_eq in E3 as ->; injection Hm as <-; cbn; tauto|].
    destruct (code =? 0x36) eqn:E4; [apply Z.eqb_eq in E4 as ->; injection Hm as <-; cbn; tauto|done]. }
  destruct k as [ct sh al cl ex q sc]. cbn in Hext. subst ex.
  repeat destruct Hin as [Hin|Hin]; [injection Hin as <- <- <-..|destruct Hin];
    destruct p, sh, cl; exact (conj (conj Hk eq_refl) (conj eq_refl eq_refl)).
Qed.

Lemma wp_caps v2p k : kinv k ->
  wp (interrupts v2p (event_bytes (Press caps_key)))
    (fun _ k' => kinv k' /\ mods_of k' = mk_mods (ctrl_status k) (shift_status k) (alt_status k) (negb (caps_lock_status k)) /\
       ring (ioq (kbd k')) = ring (ioq (kbd k))) k.
Proof.
  intros [Hk Hext]. destruct k as [ct sh al cl ex q sc]. cbn in Hext. subst ex.
  destruct sh, cl; exact (conj (conj Hk eq_refl) (conj eq_refl eq_refl)).
Qed.

Lemma mods_press_plain u key : modifier_of key = None -> key <> caps_key -> mods_held (type_event u (Press key)) = mods_held u.
Proof.
  intros Em Hc. unfold mods_held, type_event. cbn [held caps]. rewrite !down_cons, Em, (bool_decide_eq_false_2 (key = caps_key)) by done.
  by rewrite !bool_decide_eq_false_2 by done.
Qed.

Lemma wp_event v2p u k e :
  agrees u k -> event_ok u e = true ->
  (length (ring (ioq (kbd k))) + length (event_chars u e) <= capacity)%nat ->
  wp (interrupts v2p (event_bytes e)) (fun _ k' => agrees (type_event u e) k' /\
    ring (ioq (kbd k')) = ring (ioq (kbd k)) ++ event_chars u e) k.
Proof.
  intros (Hk & Hm & Hone) Hok Hlen. destruct e as [key|key]; cbn [event_ok] in Hok; apply andb_true_iff in Hok as [Hkey Hok];
    pose proof (key_facts key Hkey) as Hf; cbn [event_chars] in *.
  - pose proof (one_each_cons key (held u) Hone Hok) as Hone'.
    destruct (carries key) as [p|] eqn:Ec, (modifier_of key) as [m|] eqn:Em; [done|..].
    + apply andb_true_iff in Hf as [[Hpl Hidle]%andb_true_iff Hcaps%negb_true_iff%bool_decide_eq_false]. cbn [length] in Hlen.
      pose proof (mods_press_plain u key Em Hcaps) as Hu. destruct key as [[] code]; [done|]. unfold carries in Ec.
      cbn [event_bytes k_ext k_code app interrupts] in *. wp_steps.
      eapply wp_mono; [apply (wp_press_char v2p k code p); [done|unfold key_ok in Hkey; cbn in Hkey; lia|done|done|lia]|].
      cbn beta. intros _ k' (Hk' & Hm' & Hr'). wp_steps. rewrite Hr', Hm. split; [|done]. split; [done|]. by rewrite Hm', Hm, Hu.
    + eapply wp_mono; [by apply (wp_modifier v2p k key m true)|]. cbn beta. intros _ k' (Hk' & Hm' & Hr'). rewrite app_nil_r.
      split; [|done]. split; [done|]. split; [|done]. rewrite Hm', Hm. unfold mods_held, type_event. cbn [held caps]. rewrite !down_cons, Em.
      rewrite (bool_decide_eq_false_2 (key = caps_key)) by (by intros ->). by destruct m.
    + rewrite app_nil_r. apply andb_true_iff in Hf as [_ Hf]. destruct (bool_decide (key = caps_key)) eqn:Eb.
      * apply bool_decide_eq_true in Eb as ->. eapply wp_mono; [by apply wp_caps|]. cbn beta. intros _ k' (Hk' & Hm' & Hr').
        split; [|done]. split; [done|]. split; [|done]. rewrite Hm'. injection Hm as -> -> -> ->. done.
      * apply bool_decide_eq_false in Eb. destruct key as [ext code]. eapply wp_mono; [by apply wp_dead_make|]. cbn beta. intros _ k' (Hk' & Hm' & Hr').
        split; [|done]. split; [done|]. split; [|done]. rewrite Hm', Hm. by rewrite mods_press_plain.
  - apply bool_decide_eq_true in Hok. rewrite app_nil_r.
    assert (mods_held (type_event u (Release key)) = match modifier_of key with Some m => with_mod m false (mods_held u) | None => mods_held u end) as Hu.
    { unfold mods_held, type_event. cbn [held caps]. rewrite !(down_release _ _ _ Hone Hok). destruct (modifier_of key) as [[]|];
        rewrite ?bool_decide_eq_true_2, ?bool_decide_eq_false_2 by done; cbn [negb]; by rewrite ?andb_true_r, ?andb_false_r. }
    pose proof (one_each_release key (held u) Hone) as Hone'.
    destruct (modifier_of key) as [m|] eqn:Em.
    + eapply wp_mono; [by apply (wp_modifier v2p k key m false)|]. cbn beta. intros _ k' (Hk' & Hm' & Hr').
      split; [|done]. split; [done|]. split; [|done]. by rewrite Hm', Hm, Hu.
    + assert (idle_break (k_ext key) (k_code key) = true) as Hi.
      { destruct (carries key); [by apply andb_true_iff in Hf as [[_ Hf]%andb_true_iff _]|by apply andb_true_iff in Hf as [Hf _]]. }
      eapply wp_mono; [apply (wp_idle_break v2p (k_ext key) (k_code key) k Hk Hi)|]. cbn beta. intros _ k' ->.
      split; [|done]. split; [done|]. by rewrite Hm, Hu.
Qed.

Lemma wp_interrupts_app v2p l1 l2 Q k :
  wp (interrupts v2p l1) (fun _ k' => wp (interrupts v2p l2) Q k') k -> wp (interrupts v2p (l1 ++ l2)) Q k.
Proof.
  revert k. induction l1 as [|b l1 IH]; intros k H; cbn [app interrupts] in *; [done|].
  apply wp_bind. unfold wp, bind in H |- *. destruct (intr_keyboard_handler v2p b k) as [[[] k']|]; [|done].
  by apply IH.
Qed.

Lemma wp_events v2p : forall es u k,
  agrees u k -> history_ok u es = true ->
  (length (ring (ioq (kbd k))) + length (typed u es).2 <= capacity)%nat ->
  wp (interrupts v2p (es ≫= event_bytes)) (fun _ k' => agrees (typed u es).1 k' /\
    ring (ioq (kbd k')) = ring (ioq (kbd k)) ++ (typed u es).2) k.
Proof.
  induction es as [|e es IH]; intros u k Hk Hok Hlen; cbn [typed history_ok] in *.
  - apply wp_ret. by rewrite app_nil_r.
  - apply andb_true_iff in Hok as [Hok1 Hok2]. specialize (IH (type_event u e)). destruct (typed (type_event u e) es) as [u2 o2].
    cbn [fst snd] in *. rewrite length_app in Hlen. rewrite bind_cons. apply wp_interrupts_app.
    eapply wp_mono; [apply (wp_event v2p u k e); [done..|lia]|]. cbn beta. intros _ k1 (Hk1 & Hr1).
    eapply wp_mono; [apply (IH k1); [done|done|rewrite Hr1, length_app; lia]|]. cbn beta.
    intros _ k2 (Hk2 & Hr2). split; [done|]. by rewrite Hr2, Hr1, <- app_assoc.
Qed.

(** C29: keyboard decoding.  For a US keyboard described on its own, and for
    any history of presses, repeats and releases of any of its keys in which a
    key that is released was held and the two keys of a modifier are not held
    down together, and whose characters fit in the keyboard buffer: the
    interrupts for the scan codes that the keys send leave in the buffer, after
    what was there, exactly the characters that the keys mean: letters in upper
    case iff one of shift and caps lock is on, the second character of the other
    keys iff a shift key is down, ctrl+l and ctrl+u as control characters, and
    nothing for modifiers, releases and all other keys; and the modifier state
    the driver keeps is that of the keys held down.  ([second_shift_lost] shows
    what happens when both shift keys are held.) *)
Theorem keyboard_decodes (v2p : Z -> Z) (es : list event) (u : user) (k : kst)
    (Hk : agrees u k) (Hok : history_ok u es = true)
    (Hfit : (length (ring (ioq (kbd k))) + length (typed u es).2 <= capacity)%nat) :
  exists k', interrupts v2p (es ≫= event_bytes) k = Done (tt, k') /\
    ring (ioq (kbd k')) = ring (ioq (kbd k)) ++ (typed u es).2 /\
    mods_of k' = mods_held (typed u es).1 /\ agrees (typed u es).1 k'.
Proof.
  pose proof (wp_events v2p es u k Hk Hok Hfit) as H.
  apply wp_done in H as ([] & k' & E' & Hk' & Hr). exists k'. split_and!; [done|done|apply Hk'|done].
Qed.

(** With both shift keys held, the release of one makes the driver forget the
    other. *)
Lemma second_shift_lost v2p k : kinv k ->
  let lshift := mk_key false 0x2a in let rshift := mk_key false 0x36 in
  let es := [Press lshift; Press rshift; Release rshift] in
  down Shift (held (typed (mk_user [] false) es).1) = true /\
  exists k', interrupts v2p (es ≫= event_bytes) k = Done (tt, k') /\ shift_status k' = false.
Proof.
  intros [Hk Hext] lshift rshift es. split; [done|]. destruct k as [ct sh al cl ex q sc]. cbn in Hext. subst ex.
  eexists. split; [destruct sh, cl; reflexivity|reflexivity].
Qed.

Definition ex_kst : kst := mk_kst false false false false false ex_ist [].

(** Shift+h, i, caps lock, x, an arrow key, right ctrl held, caps lock again, u. *)
Definition plain_key (c : Z) : key := mk_key false c.
Definition ex_events : list event :=
  [Press (plain_key 0x2a); Press (plain_key 0x23); Release (plain_key 0x23); Release (plain_key 0x2a); Press (plain_key 0x17);
   Press caps_key; Release caps_key; Press (plain_key 0x2d); Press (mk_key true 0x48); Release (mk_key true 0x48);
   Press (mk_key true 0x1d); Press caps_key; Press (plain_key 0x16)].

Lemma keyboard_decodes_witness :
  exists k', interrupts id (ex_events ≫= event_bytes) ex_kst = Done (tt, k') /\
    ring (ioq (kbd k')) = [chr "H"; chr "i"; chr "X"; 20] /\
    mods_of k' = mk_mods true false false false /\ agrees (typed (mk_user [] false) ex_events).1 k'.
Proof.
  apply (keyboard_decodes id ex_events (mk_user [] false) ex_kst).
  - split; [split; [apply ex_qinv|reflexivity]|]. split; [reflexivity|]. intros ? ? ? []%not_elem_of_nil.
  - vm_compute. reflexivity.
  - vm_compute. lia.
Defined.
