(* ===== verification/Path.v ===== *)
(** * Path: path strings ([fs/fs.c] [path_parse], [path_depth_cnt];
      [shell/buildin_cmd.c] [wash_path], [make_clear_abs_path])

    A pointer into a C string is the list of the characters from it to the
    terminator; a character array that is written is the list of its bytes, and
    a write outside it is [Out_of_bounds].  [strcmp], [strcat] and [strrchr] are
    used at the level of string values, which is what [Cstring] shows the
    implementation computes. *)

From stdpp Require Import base numbers list gmap.
From S2P Require Import Prelude Cstring.

Local Open Scope Z_scope.
Local Open Scope kernel_scope.

Definition MAX_FILE_NAME_LEN : Z := 16.
Definition MAX_PATH_LEN : Z := 512.
Definition slash : Z := 47.
Definition dot : Z := 46.

(** The C string in an array: the bytes before the first zero; none when the
    array has no terminator. *)
Fixpoint cstring (buf : list Z) : option (list Z) :=
  match buf with
  | [] => None
  | c :: buf => if c =? 0 then Some [] else match cstring buf with Some s => Some (c :: s) | None => None end
  end.

(** [while ( *(++pathname) == '/');] *)
Fixpoint skip_slashes (p : list Z) : list Z :=
  match p with c :: p' => if c =? slash then skip_slashes p' else p | [] => [] end.

(** [while ( *pathname != '/' && *pathname != 0) *name_store++ = *pathname++;] *)
Fixpoint copy_name (pathname : list Z) (name_store : list Z) (i : Z) : outcome (list Z * list Z) :=
  match pathname with
  | c :: rest =>
      if c =? slash then Done (pathname, name_store) else
      olet name_store := oget (arr_set name_store i c) Out_of_bounds in
      copy_name rest name_store (i + 1)
  | [] => Done ([], name_store)
  end.

(** The rest of the path ([None] for NULL) and the array the name went to. *)
Definition path_parse (pathname name_store : list Z) : outcome (option (list Z) * list Z) :=
  let pathname := match pathname with c :: p => if c =? slash then skip_slashes p else pathname | [] => [] end in
  olet (pathname, name_store) := copy_name pathname name_store 0 in
  match pathname with [] => Done (None, name_store) | _ => Done (Some pathname, name_store) end.

Definition name_zero : list Z := replicate 16 0.
Definition first_char (name : list Z) : Z := default 0 (arr_get name 0).

(** [path_depth_cnt]; [name] is what the uninitialised local array holds. *)
Fixpoint depth_loop (fuel : nat) (p : option (list Z)) (name : list Z) (depth : Z) : outcome Z :=
  match fuel with
  | O => Halt Out_of_fuel
  | S fuel =>
      if first_char name =? 0 then Done depth else
      olet (p, name) := (match p with
                         | Some q => path_parse q name_zero
                         | None => Done (None, name_zero)
                         end) in
      depth_loop fuel p name (u32 (depth + 1))
  end.
Definition path_fuel (pathname : list Z) : nat := length pathname + 2.
Definition path_depth_cnt (pathname name : list Z) : outcome Z :=
  olet (p, name) := path_parse pathname name in
  olet depth := depth_loop (path_fuel pathname) p name 0 in Done (i32 depth).

(** ** [wash_path] *)

(** [strcat] into [new_abs_path], an array of [MAX_PATH_LEN] bytes. *)
Definition strcat_path (dst src : list Z) : outcome (list Z) :=
  if Z.of_nat (length dst + length src) <? MAX_PATH_LEN then Done (dst ++ src) else Halt Out_of_bounds.

(** What is left of the string when its last ['/'] becomes the terminator, or,
    when that is the first character, the one after it. *)
Fixpoint last_slash (s : list Z) (i : nat) (last : option nat) : option nat :=
  match s with
  | [] => last
  | c :: s => last_slash s (S i) (if c =? slash then Some i else last)
  end.
Definition cut_last (s : list Z) : outcome (list Z) :=
  match last_slash s 0 None with
  | None => Halt Page_fault     (* a store through NULL *)
  | Some O => Done (take 1 s)
  | Some i => Done (take i s)
  end.

Fixpoint wash_loop (fuel : nat) (sub_path : option (list Z)) (name new_abs_path : list Z) : outcome (list Z) :=
  match fuel with
  | O => Halt Out_of_fuel
  | S fuel =>
      if first_char name =? 0 then Done new_abs_path else
      olet nm := oget (cstring name) Out_of_bounds in
      olet new_abs_path :=
        (if str_cmp [dot; dot] nm =? 0 then cut_last new_abs_path
         else if negb (str_cmp [dot] nm =? 0) then
           olet new_abs_path :=
             (if negb (str_cmp new_abs_path [slash] =? 0) then strcat_path new_abs_path [slash]
              else Done new_abs_path) in
           strcat_path new_abs_path nm
         else Done new_abs_path) in
      olet (sub_path, name) := (match sub_path with
                                | Some q => path_parse q name_zero
                                | None => Done (None, name_zero)
                                end) in
      wash_loop fuel sub_path name new_abs_path
  end.

Definition wash_path (old_abs_path : list Z) : outcome (list Z) :=
  ASSERT (match old_abs_path with c :: _ => c =? slash | [] => false end) in
  olet (sub_path, name) := path_parse old_abs_path name_zero in
  if first_char name =? 0 then Done [slash]
  else wash_loop (path_fuel old_abs_path) sub_path name [slash].

(** [getcwd] is the system call; [None]: it returned NULL, and [abs_path] is
    still empty. *)
Definition make_clear_abs_path (getcwd : option (list Z)) (path : list Z) : outcome (list Z) :=
  olet abs_path :=
    (if negb (default 0 (head path) =? slash) then
       match getcwd with
       | Some cwd => if bool_decide (cwd = [slash]) then Done cwd else strcat_path cwd [slash]
       | None => Done []
       end
     else Done []) in
  olet abs_path := strcat_path abs_path path in
  wash_path abs_path.

(** ** Specification: the components of a path *)
Fixpoint comps (p : list Z) : list Z * list (list Z) :=
  match p with
  | [] => ([], [])
  | c :: p =>
      let (cur, rest) := comps p in
      if c =? slash then ([], if decide (cur = []) then rest else cur :: rest) else (c :: cur, rest)
  end.
(** The non-empty names between slashes, in order. *)
Definition components (p : list Z) : list (list Z) :=
  let (cur, rest) := comps p in if decide (cur = []) then rest else cur :: rest.

Definition parent (st : list (list Z)) : list (list Z) := take (pred (length st)) st.
Definition resolve (st : list (list Z)) (c : list Z) : list (list Z) :=
  if decide (c = [dot; dot]) then parent st else if decide (c = [dot]) then st else st ++ [c].
Definition normalise (cs : list (list Z)) : list (list Z) := foldl resolve [] cs.

(** The absolute path with the given components. *)
Definition render (st : list (list Z)) : list Z :=
  match st with [] => [slash] | _ => st ≫= (fun c => slash :: c) end.

(** ** Parsing *)
Definition name_char (c : Z) : Prop := is_char c /\ c <> slash.

Lemma comps_spec p cur rest :
  comps p = (cur, rest) ->
  exists tl, p = cur ++ tl /\ Forall (fun c => c <> slash) cur /\
    (tl = [] \/ exists t, tl = slash :: t) /\ components tl = rest.
Proof.
  revert cur rest. induction p as [|c p IH]; intros cur rest E; cbn [comps] in E.
  - injection E as <- <-. exists []. eauto.
  - destruct (comps p) as [cur' rest'] eqn:E'. destruct (Z.eqb_spec c slash) as [->|Hc].
    + injection E as <- <-. exists (slash :: p). split_and!; [done|done|eauto|].
      unfold components. cbn [comps]. rewrite E', Z.eqb_refl. by rewrite decide_True.
    + injection E as <- <-. destruct (IH _ _ eq_refl) as (tl & -> & HF & Htl & Hcs).
      exists tl. split_and!; [done|by constructor|done|done].
Qed.

Lemma components_slash p : components (slash :: p) = components p.
Proof.
  unfold components. cbn [comps]. destruct (comps p) as [cur rest]. rewrite Z.eqb_refl.
  by rewrite (decide_True (P := [] = [])).
Qed.

Lemma skip_slashes_components p : components (skip_slashes p) = components p.
Proof.
  induction p as [|c p IH]; [done|]. cbn [skip_slashes].
  destruct (Z.eqb_spec c slash) as [->|]; [by rewrite components_slash|done].
Qed.

Lemma skip_slashes_head p : match skip_slashes p with c :: _ => c <> slash | [] => True end.
Proof.
  induction p as [|c p IH]; [done|]. cbn [skip_slashes]. destruct (Z.eqb_spec c slash); done.
Qed.

Lemma skip_slashes_suffix p : skip_slashes p `suffix_of` p.
Proof.
  induction p as [|c p IH]; [done|]. cbn [skip_slashes]. destruct (c =? slash); [|done].
  by apply suffix_cons_r.
Qed.

Lemma copy_name_spec : forall c tl pre suf,
  Forall (fun x => x <> slash) c -> (tl = [] \/ exists t, tl = slash :: t) -> (length c <= length suf)%nat ->
  copy_name (c ++ tl) (pre ++ suf) (Z.of_nat (length pre)) = Done (tl, pre ++ c ++ drop (length c) suf).
Proof.
  induction c as [|x c IH]; intros tl pre suf HF Htl Hlen.
  - cbn [app length]. rewrite drop_0. destruct Htl as [->|[t ->]]; [done|]. cbn [copy_name].
    by rewrite Z.eqb_refl.
  - apply Forall_cons in HF as [Hx HF]. destruct suf as [|y suf]; [cbn in Hlen; lia|]. cbn in Hlen.
    cbn [app copy_name]. rewrite (proj2 (Z.eqb_neq _ _)) by done.
    unfold arr_set. rewrite decide_True by (rewrite length_app; cbn; lia). cbn [oget obind].
    rewrite Nat2Z.id, insert_app_r_alt, Nat.sub_diag by lia. cbn [insert list_insert].
    replace (pre ++ x :: suf) with ((pre ++ [x]) ++ suf) by (by rewrite <- app_assoc).
    replace (Z.of_nat (length pre) + 1) with (Z.of_nat (length (pre ++ [x]))) by (rewrite length_app; cbn; lia).
    rewrite IH by (done || lia). by rewrite <- !app_assoc.
Qed.

(** The path after the optional leading slashes. *)
Definition parse_start (p : list Z) : list Z :=
  match p with c :: p' => if c =? slash then skip_slashes p' else p | [] => [] end.

Lemma parse_start_spec p :
  components (parse_start p) = components p /\ parse_start p `suffix_of` p /\
  match parse_start p with c :: _ => c <> slash | [] => True end.
Proof.
  destruct p as [|c p]; [done|]. cbn [parse_start]. destruct (Z.eqb_spec c slash) as [->|Hc]; [|done].
  rewrite skip_slashes_components, components_slash.
  split_and!; [done|apply suffix_cons_r, skip_slashes_suffix|apply skip_slashes_head].
Qed.

Lemma path_parse_none p name : components p = [] -> path_parse p name = Done (None, name).
Proof.
  intros H. destruct (parse_start_spec p) as (Hc & _ & Hh). unfold path_parse.
  change (match p with [] => _ | _ => _ end) with (parse_start p).
  destruct (parse_start p) as [|c q]; [done|]. exfalso. rewrite H in Hc. unfold components in Hc.
  cbn [comps] in Hc. destruct (comps q) as [cur rest]. rewrite (proj2 (Z.eqb_neq _ _)) in Hc by done.
  by rewrite decide_False in Hc.
Qed.

(** Where the first component is. *)
Lemma parse_start_some p c cs : components p = c :: cs ->
  c <> [] /\ Forall (fun x => x <> slash) c /\
  exists tl, parse_start p = c ++ tl /\ (tl = [] \/ exists t, tl = slash :: t) /\ components tl = cs.
Proof.
  intros H. destruct (parse_start_spec p) as (Hc & _ & Hh). rewrite H in Hc.
  destruct (comps (parse_start p)) as [cur rest] eqn:E. destruct (comps_spec _ _ _ E) as (tl & Hp & HF & Htl & Hcs).
  unfold components in Hc. rewrite E in Hc. case_decide as Hd.
  - subst cur. cbn in Hp. exfalso. subst rest. destruct Htl as [->|[t ->]]; [done|]. by rewrite Hp in Hh.
  - injection Hc as -> ->. eauto 6.
Qed.

(** One call of [path_parse] takes the first component. *)
Lemma path_parse_some p name c cs :
  components p = c :: cs -> (length c <= length name)%nat ->
  c <> [] /\ Forall (fun x => x <> slash) c /\
  exists rest, path_parse p name = Done (rest, c ++ drop (length c) name) /\
    match rest with Some q => components q = cs /\ q `suffix_of` p | None => cs = [] end.
Proof.
  intros H Hlen. destruct (parse_start_some p c cs H) as (Hne & HF & tl & Hp & Htl & Hcs).
  destruct (parse_start_spec p) as (_ & Hl & _). split_and!; [done|done|]. unfold path_parse.
  change (match p with [] => _ | _ => _ end) with (parse_start p).
  pose proof (copy_name_spec c tl [] name HF Htl Hlen) as Hcopy. cbn [app length] in Hcopy. change (Z.of_nat 0) with 0 in Hcopy.
  rewrite Hp, Hcopy. cbn [obind]. destruct Htl as [->|[t ->]].
  - exists None. split; [done|]. by rewrite <- Hcs.
  - exists (Some (slash :: t)). split_and!; [done|done|]. rewrite Hp in Hl.
    etrans; [|exact Hl]. by exists c.
Qed.

(** A name that is longer than the array is written past its end. *)
Lemma copy_name_long : forall c tl pre suf,
  Forall (fun x => x <> slash) c -> (length suf < length c)%nat ->
  copy_name (c ++ tl) (pre ++ suf) (Z.of_nat (length pre)) = Halt Out_of_bounds.
Proof.
  induction c as [|x c IH]; intros tl pre suf HF Hlen; [cbn in Hlen; lia|].
  apply Forall_cons in HF as [Hx HF]. cbn [app copy_name]. rewrite (proj2 (Z.eqb_neq _ _)) by done. unfold arr_set.
  destruct suf as [|y suf]; [by rewrite app_nil_r, decide_False by lia|]. cbn in Hlen.
  rewrite decide_True by (rewrite length_app; cbn; lia). cbn [oget obind].
  rewrite Nat2Z.id, insert_app_r_alt, Nat.sub_diag by lia. cbn [insert list_insert].
  replace (pre ++ x :: suf) with ((pre ++ [x]) ++ suf) by (by rewrite <- app_assoc).
  replace (Z.of_nat (length pre) + 1) with (Z.of_nat (length (pre ++ [x]))) by (rewrite length_app; cbn; lia).
  by apply IH; [|lia].
Qed.

Lemma path_parse_long p name c cs :
  components p = c :: cs -> (length name < length c)%nat -> path_parse p name = Halt Out_of_bounds.
Proof.
  intros H Hlen. destruct (parse_start_some p c cs H) as (_ & HF & tl & Hp & _). unfold path_parse.
  change (match p with [] => _ | _ => _ end) with (parse_start p).
  pose proof (copy_name_long c tl [] name HF Hlen) as Hcopy. cbn [app length] in Hcopy. change (Z.of_nat 0) with 0 in Hcopy.
  by rewrite Hp, Hcopy.
Qed.

Lemma first_char_app c name : first_char (c ++ drop (length c) name) = match c with x :: _ => x | [] => first_char name end.
Proof. by destruct c. Qed.

(** What [path_depth_cnt] and [wash_path] ask of a path: characters are
    non-zero bytes and every name fits in the [n] bytes of the array. *)
Definition path_ok (n : nat) (p : list Z) : Prop :=
  Forall is_char p /\ Forall (fun c : list Z => (length c <= n)%nat) (components p).

Lemma components_chars (P : Z -> Prop) p : Forall P p -> Forall (fun c => Forall P c) (components p).
Proof.
  intros HF. unfold components. assert (forall cur rest, comps p = (cur, rest) ->
    Forall P cur /\ Forall (fun c => Forall P c) rest) as H.
  { induction HF as [|c p Hc HF IH]; intros cur rest E; cbn [comps] in E.
    - by injection E as <- <-.
    - destruct (comps p) as [cur' rest']. destruct (IH _ _ eq_refl).
      destruct (c =? slash); injection E as <- <-; [split; [done|]; case_decide; [done|]|split; [|done]];
        by constructor. }
  destruct (comps p) as [cur rest]. destruct (H _ _ eq_refl). case_decide; [done|]. by constructor.
Qed.

Lemma components_wf p c : c ∈ components p -> c <> [] /\ Forall (fun x => x <> slash) c.
Proof.
  unfold components. assert (forall cur rest, comps p = (cur, rest) ->
    Forall (fun x => x <> slash) cur /\ forall d, d ∈ rest -> d <> [] /\ Forall (fun x => x <> slash) d) as H.
  { induction p as [|x p IH]; intros cur rest E; cbn [comps] in E.
    - injection E as <- <-. split; [done|]. intros d Hd. by apply not_elem_of_nil in Hd.
    - destruct (comps p) as [cur' rest']. destruct (IH _ _ eq_refl) as [H1 H2].
      destruct (Z.eqb_spec x slash); injection E as <- <-.
      + split; [done|]. case_decide; [done|]. intros d [->|Hd]%elem_of_cons; [done|auto].
      + split; [by constructor|done]. }
  destruct (comps p) as [cur rest]. destruct (H _ _ eq_refl) as [H1 H2].
  case_decide; [auto|]. intros [->|Hd]%elem_of_cons; [done|auto].
Qed.

Lemma depth_loop_spec : forall cs fuel p name depth,
  match p with Some q => components q = cs /\ Forall is_char q | None => cs = [] end ->
  Forall (fun c : list Z => (length c <= 16)%nat) cs -> first_char name <> 0 ->
  (length cs + 1 < fuel)%nat -> 0 <= depth -> depth + Z.of_nat (length cs) < 2147483647 ->
  depth_loop fuel p name depth = Done (depth + Z.of_nat (length cs) + 1).
Proof.
  induction cs as [|d cs IH]; intros fuel p name depth Hp Hcs Hn Hf Hd Hb;
    (destruct fuel as [|fuel]; [cbn in Hf; lia|]); cbn [depth_loop];
    rewrite (proj2 (Z.eqb_neq _ _)) by done.
  - assert ((match p with Some q => path_parse q name_zero | None => Done (None, name_zero) end)
      = Done (None, name_zero)) as ->.
    { destruct p as [q|]; [|done]. apply path_parse_none, Hp. }
    cbn [obind length]. destruct fuel as [|fuel]; [cbn in Hf; lia|]. cbn [depth_loop].
    change (first_char name_zero =? 0) with true. cbn iota. f_equal. rewrite u32_id by (unfold is_u32; lia). lia.
  - destruct p as [q|]; [|done]. destruct Hp as [Hq Hqc]. apply Forall_cons in Hcs as [Hd1 Hcs].
    destruct (path_parse_some q name_zero d cs Hq Hd1) as (Hne & _ & rest & E & Hrest).
    rewrite E. cbn [obind]. cbn [length] in *.
    pose proof (components_chars is_char q Hqc) as HF. rewrite Hq in HF. apply Forall_cons in HF as [HFd _].
    rewrite u32_id by (unfold is_u32; lia). rewrite (IH fuel rest); [f_equal; lia| |done| |lia..].
    + destruct rest as [q'|]; [|done]. destruct Hrest as [? [k Hk]]. split; [done|].
      rewrite Hk in Hqc. by apply Forall_app in Hqc as [_ ?].
    + rewrite first_char_app. destruct d as [|x d]; [done|]. apply Forall_cons in HFd as [[] _]. lia.
Qed.

Lemma comps_length p : (length (comps p).2 + (if decide ((comps p).1 = []) then 0 else 1) <= length p)%nat.
Proof.
  induction p as [|c p IH]; [done|]. cbn [comps]. destruct (comps p) as [cur rest]. cbn [fst snd] in IH.
  destruct (c =? slash); cbn [fst snd length]; repeat case_decide; cbn [length] in *; (done || lia).
Qed.

Lemma components_length p : (length (components p) <= length p)%nat.
Proof.
  pose proof (comps_length p). unfold components. destruct (comps p) as [cur rest]. cbn [fst snd] in *.
  case_decide; cbn [length]; lia.
Qed.

(** [path_depth_cnt] counts the non-empty names between slashes: for every
    path with at least one name, whatever its leading, trailing or repeated
    slashes and whatever the uninitialised name array held, provided each name
    fits in the 16 bytes of the array. *)
Theorem path_depth_cnt_correct (p name : list Z) (Hok : path_ok 16 p) (Hname : length name = 16%nat)
    (Hne : components p <> []) (Hlen : Z.of_nat (length p) <= 65535) :
  path_depth_cnt p name = Done (Z.of_nat (length (components p))).
Proof.
  destruct Hok as [Hch Hcs]. pose proof (components_length p) as Hl. unfold path_depth_cnt.
  destruct (components p) as [|c cs] eqn:E; [done|]. apply Forall_cons in Hcs as [Hc Hcs].
  destruct (path_parse_some p name c cs E ltac:(lia)) as (Hcne & _ & rest & -> & Hrest). cbn [obind].
  pose proof (components_chars is_char p Hch) as HF. rewrite E in HF. apply Forall_cons in HF as [HFc _].
  cbn [length] in *. erewrite (depth_loop_spec cs); [| |done| |unfold path_fuel; lia..].
  - cbn [obind]. f_equal. rewrite i32_id; lia.
  - destruct rest as [q|]; [|done]. destruct Hrest as [? [k Hk]]. split; [done|].
    rewrite Hk in Hch. by apply Forall_app in Hch as [_ ?].
  - rewrite first_char_app. destruct c as [|x c]; [done|]. apply Forall_cons in HFc as [[] _]. lia.
Qed.

Lemma path_depth_cnt_correct_witness :
  path_depth_cnt [47; 97; 47; 47; 98; 99; 47] (replicate 16 171) = Done 2.
Proof.
  apply (path_depth_cnt_correct [47; 97; 47; 47; 98; 99; 47] (replicate 16 171)); [|reflexivity|done|cbn; lia].
  split; [repeat constructor|]. vm_compute. repeat constructor.
Defined.

(** ** [wash_path] *)
Definition name_ok (c : list Z) : Prop := c <> [] /\ Forall name_char c /\ (length c <= 15)%nat.
Definition weight (st : list (list Z)) : nat := length (st ≫= (fun c => slash :: c)).

Lemma weight_app st st' : weight (st ++ st') = (weight st + weight st')%nat.
Proof. unfold weight. by rewrite bind_app, length_app. Qed.

Lemma render_length st : (length (render st) <= 1 + weight st)%nat.
Proof. destruct st; unfold render, weight; [done|lia]. Qed.

Lemma render_snoc st c : render (st ++ [c]) = (if decide (st = []) then [] else render st) ++ slash :: c.
Proof.
  destruct st as [|d st]; [cbn; by rewrite app_nil_r|]. rewrite decide_False by done.
  unfold render. cbn [app]. rewrite !bind_cons, bind_app, <- app_assoc. by rewrite bind_singleton.
Qed.

Lemma name_ok_chars st : Forall name_ok st -> Forall is_char (render st).
Proof.
  assert (Forall is_char [slash]) as Hs by (by repeat constructor).
  intros HF. destruct st as [|d st]; [done|]. unfold render.
  induction HF as [|c st' (_ & Hc & _) HF IH]; [done|]. rewrite bind_cons. apply Forall_app. split; [|done].
  apply Forall_cons. split; [done|]. eapply Forall_impl; [exact Hc|]. by intros x [].
Qed.

Lemma render_root st : Forall name_ok st -> (str_cmp (render st) [slash] =? 0) = bool_decide (st = []).
Proof.
  intros HF. pose proof (str_cmp_eq (render st) [slash] (name_ok_chars st HF) ltac:(by repeat constructor)) as H.
  destruct st as [|c st]; [done|]. rewrite bool_decide_eq_false_2 by done. apply Z.eqb_neq.
  intros E%H. unfold render in E. rewrite bind_cons in E. cbn [app] in E. injection E as E.
  apply Forall_cons in HF as [[Hc _] _]. apply app_nil in E as [-> _]. done.
Qed.

Lemma last_slash_app a b i l : last_slash (a ++ b) i l = last_slash b (i + length a) (last_slash a i l).
Proof.
  revert i l. induction a as [|c a IH]; intros i l; cbn [app last_slash length]; [by rewrite Nat.add_0_r|].
  rewrite IH. f_equal. lia.
Qed.

Lemma last_slash_free c i l : Forall name_char c -> last_slash c i l = l.
Proof.
  intros HF. revert i. induction HF as [|x c [_ Hx] HF IH]; intros i; [done|]. cbn [last_slash].
  rewrite (proj2 (Z.eqb_neq _ _)) by done. apply IH.
Qed.

Lemma cut_last_render st : Forall name_ok st -> cut_last (render st) = Done (render (parent st)).
Proof.
  intros HF. destruct st as [|c st _] using rev_ind; [done|].
  apply Forall_app in HF as [HF [(_ & Hc & _) _]%Forall_cons]. unfold parent.
  rewrite length_app, Nat.add_1_r, Nat.pred_succ, take_app_length.
  rewrite render_snoc. unfold cut_last.
  rewrite last_slash_app. cbn [last_slash]. rewrite Z.eqb_refl, last_slash_free by done. cbn [Nat.add].
  case_decide as Hst; [by subst|].
  destruct (length (render st)) as [|n] eqn:E.
  - exfalso. by destruct st.
  - by rewrite <- E, take_app_length.
Qed.

Lemma append_render st c :
  Forall name_ok st -> (weight st + length c + 1 < 512)%nat ->
  (olet q := (if negb (str_cmp (render st) [slash] =? 0) then strcat_path (render st) [slash]
              else Done (render st)) in strcat_path q c) = Done (render (st ++ [c])).
Proof.
  intros HF Hlen. rewrite render_root by done. rewrite render_snoc. unfold strcat_path, MAX_PATH_LEN.
  destruct (decide (st = [])) as [->|Hst].
  - cbn [bool_decide decide negb obind]. cbn. destruct (Z.ltb_spec (Z.of_nat (S (length c))) 512); [done|cbn in *; lia].
  - rewrite bool_decide_eq_false_2 by done. cbn [negb].
    assert (length (render st) = weight st) as El by (by destruct st).
    rewrite (proj2 (Z.ltb_lt _ _)) by (rewrite El; cbn [length]; lia). cbn [obind].
    rewrite (proj2 (Z.ltb_lt _ _)) by (rewrite length_app, El; cbn [length]; lia).
    by rewrite <- app_assoc.
Qed.

Lemma cstring_name c k : Forall is_char c -> (length c < k)%nat -> cstring (c ++ drop (length c) (replicate k 0)) = Some c.
Proof.
  revert k. induction c as [|x c IH]; intros k HF Hk; (destruct k as [|k]; [cbn in Hk; lia|]).
  - done.
  - apply Forall_cons in HF as [[? ?] HF]. cbn [length replicate drop app cstring].
    rewrite (proj2 (Z.eqb_neq x 0)) by lia. rewrite IH; [done|done|cbn in Hk; lia].
Qed.

Lemma resolve_ok st c : Forall name_ok st -> name_ok c -> Forall name_ok (resolve st c).
Proof.
  intros HF Hc. unfold resolve, parent. case_decide; [by apply Forall_take|]. case_decide; [done|].
  apply Forall_app. split; [done|]. by apply Forall_singleton.
Qed.

Lemma resolve_weight st c : (weight (resolve st c) <= weight st + S (length c))%nat.
Proof.
  unfold resolve, parent. case_decide.
  - pose proof (weight_app (take (pred (length st)) st) (drop (pred (length st)) st)) as E.
    rewrite take_drop in E. lia.
  - case_decide; [lia|]. rewrite weight_app. unfold weight at 2. cbn. rewrite length_app. cbn. lia.
Qed.

(** The part of the body that handles one name. *)
Lemma wash_step st c :
  Forall name_ok st -> name_ok c -> (weight st + length c + 1 < 512)%nat ->
  (if str_cmp [dot; dot] c =? 0 then cut_last (render st)
   else if negb (str_cmp [dot] c =? 0) then
     olet q := (if negb (str_cmp (render st) [slash] =? 0) then strcat_path (render st) [slash]
                else Done (render st)) in strcat_path q c
   else Done (render st)) = Done (render (resolve st c)).
Proof.
  intros HF (Hne & Hc & Hlen) Hb.
  assert (Forall is_char c) as Hch by (eapply Forall_impl; [exact Hc|]; by intros x []).
  pose proof (str_cmp_eq [dot; dot] c ltac:(by repeat constructor) Hch) as H2.
  pose proof (str_cmp_eq [dot] c ltac:(by repeat constructor) Hch) as H1.
  unfold resolve. destruct (Z.eqb_spec (str_cmp [dot; dot] c) 0) as [E|E].
  - apply H2 in E as <-. rewrite decide_True by done. by apply cut_last_render.
  - rewrite decide_False by (intros ->; apply E; done).
    destruct (Z.eqb_spec (str_cmp [dot] c) 0) as [E'|E']; cbn [negb].
    + apply H1 in E' as <-. by rewrite decide_True.
    + rewrite decide_False by (intros ->; apply E'; done). by apply append_render.
Qed.

Lemma weight_cons c cs : weight (c :: cs) = (S (length c) + weight cs)%nat.
Proof. unfold weight. rewrite bind_cons, length_app. done. Qed.

Lemma wash_loop_spec : forall cs fuel sub c st,
  match sub with Some q => components q = cs | None => cs = [] end ->
  Forall name_ok (c :: cs) -> Forall name_ok st -> (length cs + 1 < fuel)%nat ->
  (weight st + weight (c :: cs) < 512)%nat ->
  wash_loop fuel sub (c ++ drop (length c) name_zero) (render st) = Done (render (foldl resolve st (c :: cs))).
Proof.
  induction cs as [|d cs IH]; intros fuel sub c st Hsub Hcs Hst Hf Hw;
    (destruct fuel as [|fuel]; [cbn in Hf; lia|]); cbn [wash_loop]; apply Forall_cons in Hcs as [Hc Hcs];
    pose proof Hc as (Hne & Hch & Hlen); rewrite weight_cons in Hw;
    (assert (Forall is_char c) as Hch' by (eapply Forall_impl; [exact Hch|]; by intros x []));
    (assert ((first_char (c ++ drop (length c) name_zero) =? 0) = false) as ->
      by (rewrite first_char_app; destruct c; [done|]; apply Forall_cons in Hch' as [[] _]; lia));
    unfold name_zero at 1; rewrite cstring_name by (done || lia); cbn [oget obind];
    rewrite wash_step by (done || lia); cbn [obind foldl].
  - assert ((match sub with Some q => path_parse q name_zero | None => Done (None, name_zero) end)
      = Done (None, name_zero)) as ->.
    { destruct sub as [q|]; [|done]. by apply path_parse_none. }
    cbn [obind]. destruct fuel as [|fuel]; [cbn in Hf; lia|]. done.
  - destruct sub as [q|]; [|done].
    destruct (path_parse_some q name_zero d cs Hsub) as (_ & _ & rest & -> & Hrest).
    { apply Forall_cons in Hcs as [(_ & _ & ?) _]. unfold name_zero. rewrite length_replicate. lia. }
    cbn [obind]. pose proof (resolve_weight st c).
    rewrite (IH fuel rest d (resolve st c)); [done| |done|by apply resolve_ok|cbn in Hf; lia|lia].
    destruct rest as [q'|]; [apply Hrest|done].
Qed.

Lemma comps_weight p : (length (comps p).1 + weight (comps p).2 <= length p)%nat.
Proof.
  induction p as [|c p IH]; [done|]. cbn [comps]. destruct (comps p) as [cur rest]. cbn [fst snd] in IH.
  destruct (c =? slash); cbn [fst snd length]; [case_decide; [|rewrite weight_cons]|]; lia.
Qed.

Lemma components_weight p : (weight (components (slash :: p)) <= length (slash :: p))%nat.
Proof.
  pose proof (comps_weight (slash :: p)) as H. unfold components. destruct (comps (slash :: p)) as [cur rest] eqn:E.
  cbn [comps] in E. destruct (comps p). rewrite Z.eqb_refl in E. injection E as <- <-.
  rewrite (decide_True (P := [] = [])) by done. cbn [fst snd length] in *. lia.
Qed.

Lemma comps_app c p rest : Forall name_char c -> comps p = ([], rest) -> comps (c ++ p) = (c, rest).
Proof.
  intros HF Hp. induction HF as [|x c [_ Hx] HF IH]; [done|]. cbn [app comps]. rewrite IH.
  by rewrite (proj2 (Z.eqb_neq _ _)).
Qed.

Lemma components_render st : Forall name_ok st -> components (render st) = st.
Proof.
  intros HF. destruct (decide (st = [])) as [->|Hne]; [done|].
  assert (comps (st ≫= (fun c => slash :: c)) = ([], st)) as E.
  { clear Hne. induction HF as [|c st (Hc0 & Hc & _) HF IH]; [done|]. rewrite bind_cons.
    cbn [app comps]. rewrite (comps_app c _ st Hc IH), Z.eqb_refl. by rewrite decide_False. }
  unfold components, render. destruct st; [done|]. rewrite E. by rewrite decide_True.
Qed.

(** Components a canonical path has: none is [.] or [..]. *)
Definition canonical (st : list (list Z)) : Prop := Forall (fun c => c <> [dot] /\ c <> [dot; dot]) st.

Lemma normalise_spec cs : forall st, Forall name_ok cs -> Forall name_ok st -> canonical st ->
  Forall name_ok (foldl resolve st cs) /\ canonical (foldl resolve st cs) /\
  (weight (foldl resolve st cs) <= weight st + weight cs)%nat.
Proof.
  induction cs as [|c cs IH]; intros st Hcs Hst Hcan; cbn [foldl]; [split_and!; try done; lia|].
  apply Forall_cons in Hcs as [Hc Hcs].
  destruct (IH (resolve st c) Hcs (resolve_ok st c Hst Hc)) as (H1 & H2 & H3).
  - unfold resolve, parent. case_decide; [by apply Forall_take|]. case_decide; [done|].
    apply Forall_app. split; [done|]. by apply Forall_singleton.
  - rewrite weight_cons. pose proof (resolve_weight st c). split_and!; [done..|lia].
Qed.

Lemma normalise_canonical st : forall pre, canonical st -> foldl resolve pre st = pre ++ st.
Proof.
  induction st as [|c st IH]; intros pre Hc; cbn [foldl]; [by rewrite app_nil_r|].
  apply Forall_cons in Hc as [[H1 H2] Hc]. unfold resolve at 2. rewrite !decide_False by done.
  rewrite IH by done. by rewrite <- app_assoc.
Qed.

(** An absolute path whose names have at most 15 characters. *)
Definition abs_path_ok (p : list Z) : Prop :=
  head p = Some slash /\ path_ok 15 p /\ (length p < 512)%nat.

Lemma abs_path_names p : path_ok 15 p -> Forall name_ok (components p).
Proof.
  intros [Hch Hlen]. pose proof (components_chars _ _ Hch) as H. rewrite Forall_forall in H, Hlen |- *.
  intros c Hc. destruct (components_wf p c Hc) as [? ?]. split_and!; [done| |by apply Hlen].
  specialize (H c Hc). apply Forall_and. done.
Qed.

Lemma wash_path_eq p : abs_path_ok p -> wash_path p = Done (render (normalise (components p))).
Proof.
  intros (Hh & Hok & Hlen). destruct p as [|x p]; [done|]. injection Hh as ->.
  pose proof (abs_path_names _ Hok) as Hn. pose proof (components_weight p) as Hw.
  pose proof (components_length (slash :: p)) as Hcl. unfold wash_path.
  rewrite Z.eqb_refl. cbn [oassert obind].
  destruct (components (slash :: p)) as [|c cs] eqn:E.
  - by rewrite path_parse_none.
  - pose proof Hn as [(Hne & Hc & Hc15) _]%Forall_cons.
    destruct (path_parse_some (slash :: p) name_zero c cs E) as (_ & _ & rest & -> & Hrest).
    { unfold name_zero. rewrite length_replicate. lia. }
    cbn [obind]. rewrite first_char_app. destruct c as [|x c]; [done|].
    pose proof Hc as [[Hx _] _]%Forall_cons. rewrite (proj2 (Z.eqb_neq x 0)) by (destruct Hx; lia).
    cbn [length] in *. unfold normalise. change [slash] with (render []).
    apply wash_loop_spec; [|done|done|unfold path_fuel; cbn [length]; lia|change (weight []) with 0%nat; lia].
    destruct rest; [apply Hrest|done].
Qed.

(** ** Whatever is washed, the result is canonical

    For other paths the function does not return: a name of 16 characters or
    more does not fit in the array [name] with its terminator. *)
Lemma cstring_full c : Forall is_char c -> cstring c = None.
Proof.
  induction 1 as [|x c [Hx _] HF IH]; [done|]. cbn [cstring]. rewrite (proj2 (Z.eqb_neq x 0)) by lia. by rewrite IH.
Qed.

Lemma wash_loop_names : forall cs fuel sub c acc q,
  match sub with Some p => components p = cs | None => cs = [] end ->
  Forall (Forall is_char) (c :: cs) -> c <> [] -> (length c <= 16)%nat ->
  wash_loop fuel sub (c ++ drop (length c) name_zero) acc = Done q ->
  Forall (fun c : list Z => (length c <= 15)%nat) (c :: cs).
Proof.
  induction cs as [|d cs IH]; intros fuel sub c acc q Hsub Hch Hne Hlen E; apply Forall_cons in Hch as [Hc Hch];
    (destruct fuel as [|fuel]; [done|]); cbn [wash_loop] in E;
    (rewrite (proj2 (Z.eqb_neq (first_char _) 0)) in E
      by (rewrite first_char_app; destruct c; [done|]; apply Forall_cons in Hc as [[] _]; lia));
    (assert (length c <= 15)%nat as Hl by
      (destruct (decide (length c = 16%nat)) as [H16|]; [|lia]; rewrite H16 in E; unfold name_zero in E;
       rewrite drop_ge, app_nil_r, cstring_full in E by (done || (rewrite length_replicate; lia)); done));
    apply Forall_cons; (split; [done|]); [done|].
  destruct sub as [p|]; [|done]. apply Forall_cons in Hch as [Hd Hch].
  destruct (oget (cstring _) _) as [nm|]; [|done]. cbn [obind] in E.
  match type of E with obind ?o _ = _ => destruct o as [acc'|]; [|done] end. cbn [obind] in E.
  destruct (decide (length d <= 16)%nat) as [Hd16|Hd16].
  - destruct (path_parse_some p name_zero d cs Hsub ltac:(unfold name_zero; rewrite length_replicate; lia)) as (Hdne & _ & rest & Er & Hrest).
    rewrite Er in E. cbn [obind] in E. eapply IH; [|by constructor|done|done|exact E]. destruct rest; [apply Hrest|done].
  - by rewrite (path_parse_long p name_zero d cs Hsub ltac:(unfold name_zero; rewrite length_replicate; lia)) in E.
Qed.

Lemma wash_path_names p q : Forall is_char p -> wash_path p = Done q ->
  head p = Some slash /\ Forall (fun c : list Z => (length c <= 15)%nat) (components p).
Proof.
  intros Hp E. unfold wash_path in E. destruct p as [|x p]; [done|]. destruct (Z.eqb_spec x slash) as [->|]; [|done].
  cbn [oassert obind] in E. split; [done|]. pose proof (components_chars is_char _ Hp) as Hch.
  destruct (components (slash :: p)) as [|c cs] eqn:Ec; [done|].
  destruct (decide (length c <= 16)%nat) as [H16|H16].
  - destruct (path_parse_some _ name_zero c cs Ec ltac:(unfold name_zero; rewrite length_replicate; lia)) as (Hne & _ & rest & Er & Hrest).
    rewrite Er in E. cbn [obind] in E. rewrite first_char_app in E. pose proof Hch as [Hc _]%Forall_cons.
    destruct c as [|y c]; [done|]. pose proof Hc as [[Hy _] _]%Forall_cons. rewrite (proj2 (Z.eqb_neq y 0)) in E by lia.
    eapply wash_loop_names; [|exact Hch|done|done|exact E]. destruct rest; [apply Hrest|done].
  - by rewrite (path_parse_long _ name_zero c cs Ec ltac:(unfold name_zero; rewrite length_replicate; lia)) in E.
Qed.

(** An absolute path without [.] and [..] that fits in a buffer. *)
Definition canonical_path (p : list Z) : Prop :=
  exists st, p = render st /\ Forall name_ok st /\ canonical st /\ (length p < 512)%nat.

Lemma canonical_chars p : canonical_path p -> Forall is_char p /\ (length p < 512)%nat.
Proof. intros (st & -> & Hn & _ & Hl). split; [by apply name_ok_chars|done]. Qed.

Lemma canonical_root : canonical_path [slash].
Proof. exists []. split_and!; [done|constructor|constructor|cbn; lia]. Qed.

Lemma wash_path_canonical p q : Forall is_char p -> (length p < 512)%nat -> wash_path p = Done q -> canonical_path q.
Proof.
  intros Hp Hl E. destruct (wash_path_names p q Hp E) as [Hh Hn].
  rewrite wash_path_eq in E by (by split_and!). injection E as <-.
  pose proof (abs_path_names p ltac:(by split)) as Hok.
  destruct (normalise_spec (components p) [] Hok (Forall_nil_2 _) (Forall_nil_2 _)) as (H1 & H2 & H3).
  fold (normalise (components p)) in *. exists (normalise (components p)). split_and!; [done..|].
  destruct p as [|x p]; [done|]. injection Hh as ->. pose proof (components_weight p).
  destruct (normalise (components (slash :: p))) as [|c st]; [cbn; lia|]. unfold render.
  change (length _) with (weight (c :: st)). change (weight []) with 0%nat in H3. lia.
Qed.

Lemma make_clear_abs_path_canonical cwd path q : (forall d, cwd = Some d -> canonical_path d) -> Forall is_char path ->
  make_clear_abs_path cwd path = Done q -> canonical_path q.
Proof.
  intros Hcwd Hp E. unfold make_clear_abs_path in E.
  match type of E with obind ?o _ = _ => destruct o as [abs|] eqn:Eo; [|done] end. cbn [obind] in E.
  assert (Forall is_char abs) as Ha.
  { destruct (negb _); [|by injection Eo as <-]. destruct cwd as [d|]; [|by injection Eo as <-].
    destruct (canonical_chars d (Hcwd d eq_refl)) as [Hd _]. case_bool_decide; [by injection Eo as <-|].
    unfold strcat_path in Eo. destruct (_ <? _); [|done]. injection Eo as <-. apply Forall_app. split; [done|].
    by repeat constructor. }
  unfold strcat_path in E. destruct (Z.ltb_spec (Z.of_nat (length abs + length path)) MAX_PATH_LEN) as [Hlt|]; [|done].
  cbn [obind] in E. apply (wash_path_canonical (abs ++ path)); [by apply Forall_app| |exact E]. rewrite length_app. unfold MAX_PATH_LEN in Hlt. lia.
Qed.

(** C30: [wash_path] canonicalises.  For an absolute path of at most 511 bytes
    whose names have at most 15 characters it writes, within the buffer, the
    path obtained by dropping every [.] and letting every [..] remove the name
    before it (and nothing at the root); the result has no [.] and no [..], is
    again such a path, and washing it gives itself. *)
Theorem wash_path_correct (p : list Z) (Hp : abs_path_ok p) :
  let st := normalise (components p) in
  wash_path p = Done (render st) /\ components (render st) = st /\ canonical st /\
  wash_path (render st) = Done (render st).
Proof.
  intros st. pose proof Hp as (Hh & Hok & Hlen). pose proof (abs_path_names _ Hok) as Hn.
  destruct (normalise_spec (components p) [] Hn (Forall_nil_2 _) (Forall_nil_2 _)) as (H1 & H2 & H3).
  fold (normalise (components p)) in *. fold st in H1, H2, H3.
  pose proof (components_render st H1) as Hc. split; [by apply wash_path_eq|]. split; [done|]. split; [done|].
  destruct p as [|x p]; [done|]. injection Hh as ->. pose proof (components_weight p).
  rewrite wash_path_eq.
  - rewrite Hc. unfold normalise. by rewrite normalise_canonical.
  - split; [by destruct st|]. split; [split; [apply name_ok_chars, H1|]|].
    + rewrite Hc. eapply Forall_impl; [exact H1|]. by intros c (_ & _ & ?).
    + destruct st as [|c st']; [cbn; lia|]. unfold render. change (length _) with (weight (c :: st')).
      change (weight []) with 0%nat in H3. cbn [length] in *. lia.
Qed.

(** "/a/./b/../../c" becomes "/c". *)
Lemma wash_path_correct_witness :
  wash_path [47; 97; 47; 46; 47; 98; 47; 46; 46; 47; 46; 46; 47; 99] = Done [47; 99].
Proof.
  apply (wash_path_correct [47; 97; 47; 46; 47; 98; 47; 46; 46; 47; 46; 46; 47; 99]).
  split; [reflexivity|]. split; [split; [repeat constructor|vm_compute; repeat constructor; lia]|cbn; lia].
Defined.
