(* ===== verification/Disk.v ===== *)
(** * Disk: sectors, and what the driver promises to the file system

    A disk maps a sector's LBA address to its 512 bytes.  [disk_read] and
    [disk_write] are the contract of [ide_read] and [ide_write]: the file
    system is verified against them, and [Ide] shows that the driver of
    [device/ide.c] implements them.  Also the little-endian layout of the
    32-bit words of on-disk structures. *)

From stdpp Require Import base numbers list gmap.
From S2P Require Import Prelude.

Local Open Scope Z_scope.
Local Open Scope kernel_scope.

Definition SECTOR_SIZE : Z := 512.
Definition max_lba : Z := 80 * 1024 * 1024 / 512 - 1.

Abbreviation disk := (gmap Z (list Z)).

Fixpoint read_sectors (d : disk) (lba : Z) (n : nat) : option (list Z) :=
  match n with
  | O => Some []
  | S n =>
      match d !! lba, read_sectors d (lba + 1) n with
      | Some s, Some r => Some (s ++ r)
      | _, _ => None
      end
  end.
Fixpoint write_sectors (d : disk) (lba : Z) (n : nat) (bytes : list Z) : disk :=
  match n with
  | O => d
  | S n => write_sectors (<[lba := take 512 bytes]> d) (lba + 1) n (drop 512 bytes)
  end.

(** A sector that the drive does not have makes the driver panic. *)
Definition disk_read (d : disk) (lba sec_cnt : Z) : outcome (list Z) :=
  ASSERT lba <=? max_lba in
  ASSERT 0 <? sec_cnt in
  oget (read_sectors d lba (Z.to_nat sec_cnt)) Panicked.
Definition disk_write (d : disk) (lba : Z) (buf : list Z) (sec_cnt : Z) : outcome disk :=
  ASSERT lba <=? max_lba in
  ASSERT 0 <? sec_cnt in
  olet _ := oget (read_sectors d lba (Z.to_nat sec_cnt)) Panicked in
  Done (write_sectors d lba (Z.to_nat sec_cnt) buf).

(** Every sector holds 512 bytes. *)
Definition disk_ok (d : disk) : Prop := map_Forall (fun _ s => length s = 512%nat) d.

(** The sectors [lba, lba + n) exist. *)
Definition on_disk (d : disk) (lba : Z) (n : nat) : Prop := forall i, lba <= i < lba + Z.of_nat n -> is_Some (d !! i).

Lemma read_sectors_some d lba n : on_disk d lba n -> is_Some (read_sectors d lba n).
Proof.
  revert lba. induction n as [|n IH]; intros lba Hd; cbn [read_sectors]; [eauto|].
  destruct (Hd lba ltac:(lia)) as [s ->]. destruct (IH (lba + 1)) as [r ->]; [|eauto].
  intros i Hi. apply Hd. lia.
Qed.

Lemma read_sectors_on_disk d lba n l : read_sectors d lba n = Some l -> on_disk d lba n.
Proof.
  revert lba l. induction n as [|n IH]; intros lba l E i Hi; [lia|]. cbn [read_sectors] in E.
  destruct (d !! lba) eqn:E1; [|done]. destruct (read_sectors d (lba + 1) n) eqn:E2; [|done].
  destruct (decide (i = lba)) as [->|]; [eauto|]. apply (IH _ _ E2). lia.
Qed.

Lemma read_sectors_length d lba n l : disk_ok d -> read_sectors d lba n = Some l -> length l = (512 * n)%nat.
Proof.
  intros Hd. revert lba l. induction n as [|n IH]; intros lba l E; cbn [read_sectors] in E.
  - by injection E as <-.
  - destruct (d !! lba) eqn:E1; [|done]. destruct (read_sectors d (lba + 1) n) eqn:E2; [|done].
    injection E as <-. rewrite length_app, (IH _ _ E2), (Hd _ _ E1). lia.
Qed.

Lemma read_sectors_app d lba n m :
  read_sectors d lba (n + m) =
    match read_sectors d lba n, read_sectors d (lba + Z.of_nat n) m with
    | Some a, Some b => Some (a ++ b)
    | _, _ => None
    end.
Proof.
  revert lba. induction n as [|n IH]; intros lba; cbn [Nat.add read_sectors].
  - rewrite Z.add_0_r. by destruct (read_sectors d lba m).
  - rewrite IH. replace (lba + 1 + Z.of_nat n) with (lba + Z.of_nat (S n)) by lia.
    destruct (d !! lba); [|done]. destruct (read_sectors d (lba + 1) n); [|done].
    destruct (read_sectors d (lba + Z.of_nat (S n)) m); [|done]. by rewrite <- app_assoc.
Qed.

Lemma write_sectors_app d lba n m bytes :
  write_sectors d lba (n + m) bytes =
    write_sectors (write_sectors d lba n bytes) (lba + Z.of_nat n) m (drop (512 * n) bytes).
Proof.
  revert d lba bytes. induction n as [|n IH]; intros d lba bytes; cbn [Nat.add write_sectors].
  - rewrite Z.add_0_r. by rewrite Nat.mul_0_r, drop_0.
  - rewrite IH, drop_drop. replace (lba + 1 + Z.of_nat n) with (lba + Z.of_nat (S n)) by lia.
    f_equal. f_equal. lia.
Qed.

Lemma write_sectors_lookup d lba n bytes i :
  write_sectors d lba n bytes !! i =
    if decide (lba <= i < lba + Z.of_nat n)
    then Some (take 512 (drop (512 * Z.to_nat (i - lba)) bytes)) else d !! i.
Proof.
  revert d lba bytes. induction n as [|n IH]; intros d lba bytes; cbn [write_sectors].
  - by rewrite decide_False by lia.
  - rewrite IH. destruct (decide (i = lba)) as [->|Hne].
    + rewrite (decide_False (P := lba + 1 <= lba < _)) by lia. rewrite decide_True by lia.
      rewrite lookup_insert_eq.
      replace (Z.to_nat (lba - lba)) with 0%nat by lia. by rewrite Nat.mul_0_r, drop_0.
    + destruct (decide (lba + 1 <= i < lba + 1 + Z.of_nat n)).
      * rewrite decide_True by lia. rewrite drop_drop. do 3 f_equal. lia.
      * rewrite decide_False by lia. by rewrite lookup_insert_ne.
Qed.

Lemma write_sectors_ok d lba n bytes :
  disk_ok d -> (512 * n <= length bytes)%nat -> disk_ok (write_sectors d lba n bytes).
Proof.
  intros Hd Hl i s. rewrite write_sectors_lookup. case_decide as Hi; [|apply Hd].
  intros [= <-]. rewrite length_take, length_drop. lia.
Qed.

(** ** Little-endian words *)
Definition u32_bytes (x : Z) : list Z := [x mod 256; x / 256 mod 256; x / 65536 mod 256; x / 16777216 mod 256].
Fixpoint bytes_words (l : list Z) : list Z :=
  match l with
  | a :: b :: c :: e :: l => (a + 256 * b + 65536 * c + 16777216 * e) :: bytes_words l
  | _ => []
  end.
Definition words_bytes (w : list Z) : list Z := w ≫= u32_bytes.

Lemma u32_bytes_value x : is_u32 x ->
  x mod 256 + 256 * (x / 256 mod 256) + 65536 * (x / 65536 mod 256) + 16777216 * (x / 16777216 mod 256) = x.
Proof.
  intros Hx. unfold is_u32 in Hx.
  rewrite (Z.mod_small (x / 16777216)) by (split; [apply Z.div_pos; lia|apply Z.div_lt_upper_bound; lia]).
  pose proof (Z.div_mod x 256 ltac:(lia)). pose proof (Z.div_mod (x / 256) 256 ltac:(lia)).
  pose proof (Z.div_mod (x / 65536) 256 ltac:(lia)).
  rewrite Z.div_div in * by lia. change (256 * 256) with 65536 in *. change (65536 * 256) with 16777216 in *. lia.
Qed.

Lemma bytes_words_bytes w : Forall is_u32 w -> bytes_words (words_bytes w) = w.
Proof.
  induction 1 as [|x w Hx HF IH]; [done|]. unfold words_bytes. rewrite bind_cons. cbn [u32_bytes app bytes_words].
  rewrite u32_bytes_value by done. f_equal. exact IH.
Qed.

Lemma words_bytes_length w : length (words_bytes w) = (4 * length w)%nat.
Proof. unfold words_bytes. induction w as [|x w IH]; [done|]. rewrite bind_cons, length_app, IH. cbn [length u32_bytes]. lia. Qed.

Lemma bytes_words_length l n : length l = (4 * n)%nat -> length (bytes_words l) = n.
Proof.
  revert l. induction n as [|n IH]; intros l Hl.
  - by apply nil_length_inv in Hl as ->.
  - destruct l as [|a [|b [|c [|e l]]]]; cbn in Hl; try lia. cbn. f_equal. apply IH. lia.
Qed.

(** ** The disk as a sequence of bytes *)
Definition dbyte (d : disk) (k : Z) : option Z :=
  match d !! (k / 512) with Some s => s !! Z.to_nat (k mod 512) | None => None end.
Definition dbytes (d : disk) (off : Z) (len : nat) : option (list Z) :=
  mapM (fun j => dbyte d (off + Z.of_nat j)) (seq 0 len).

Lemma dbyte_sector d lba j : 0 <= j < 512 ->
  dbyte d (512 * lba + j) = match d !! lba with Some s => s !! Z.to_nat j | None => None end.
Proof.
  intros Hj. unfold dbyte. replace (512 * lba + j) with (j + lba * 512) by lia.
  rewrite Z.div_add, Z.mod_add, Z.div_small, Z.mod_small by lia. by rewrite Z.add_0_l.
Qed.

Lemma read_sectors_byte d lba n l j :
  disk_ok d -> read_sectors d lba n = Some l -> (j < 512 * n)%nat -> l !! j = dbyte d (512 * lba + Z.of_nat j).
Proof.
  intros Hd. revert lba l j. induction n as [|n IH]; intros lba l j E Hj; [lia|]. cbn [read_sectors] in E.
  destruct (d !! lba) as [s|] eqn:E1; [|done]. destruct (read_sectors d (lba + 1) n) as [r|] eqn:E2; [|done].
  injection E as <-. pose proof (Hd _ _ E1) as Hs. cbn in Hs. destruct (decide (j < 512)%nat).
  - rewrite lookup_app_l by lia. rewrite dbyte_sector, E1 by lia. by rewrite Nat2Z.id.
  - rewrite lookup_app_r by lia. rewrite (IH _ _ _ E2) by lia. f_equal. lia.
Qed.

Lemma write_sectors_byte d lba n bytes k :
  length bytes = (512 * n)%nat ->
  dbyte (write_sectors d lba n bytes) k =
    if decide (512 * lba <= k < 512 * (lba + Z.of_nat n)) then bytes !! Z.to_nat (k - 512 * lba) else dbyte d k.
Proof.
  intros Hl. unfold dbyte. rewrite write_sectors_lookup.
  pose proof (Z.div_mod k 512 ltac:(lia)). pose proof (Z.mod_pos_bound k 512 ltac:(lia)).
  destruct (decide (lba <= k / 512 < lba + Z.of_nat n)).
  - rewrite decide_True by lia. rewrite lookup_take_lt by lia. rewrite lookup_drop. f_equal. lia.
  - by rewrite decide_False by lia.
Qed.

Lemma dbytes_Some d off len l :
  dbytes d off len = Some l <-> length l = len /\ forall j, (j < len)%nat -> l !! j = dbyte d (off + Z.of_nat j).
Proof.
  unfold dbytes. rewrite mapM_Some. split.
  - intros HF. pose proof (Forall2_length _ _ _ HF) as Hl. rewrite length_seq in Hl. split; [done|].
    intros j Hj. destruct (lookup_lt_is_Some_2 l j) as [x Hx]; [lia|]. rewrite Hx.
    symmetry. eapply (Forall2_lookup_lr _ _ _ j _ _ HF); [|done].
    apply lookup_seq. lia.
  - intros [Hl H]. apply Forall2_same_length_lookup_2; [by rewrite length_seq|].
    intros j x y Hx Hy. apply lookup_seq in Hx as [-> Hj]. rewrite <- H by lia. done.
Qed.

Lemma dbytes_eq d d' off len :
  (forall j, (j < len)%nat -> dbyte d' (off + Z.of_nat j) = dbyte d (off + Z.of_nat j)) ->
  dbytes d' off len = dbytes d off len.
Proof.
  intros H. unfold dbytes. assert (forall l, Forall (fun j => (j < len)%nat) l ->
    mapM (fun j => dbyte d' (off + Z.of_nat j)) l = mapM (fun j => dbyte d (off + Z.of_nat j)) l) as Hm.
  { induction 1 as [|j l Hj HF IH]; [done|]. cbn. by rewrite H, IH. }
  apply Hm. apply Forall_forall. intros j Hj%elem_of_seq. lia.
Qed.
