(* ===== verification/Ide.v ===== *)
(** * Ide: the disk driver of [device/ide.c]

    One channel with its two drives.  The controller is modelled as the ATA
    documentation describes it, for LBA28 addressing and PIO transfers: a task
    file whose sector count 0 stands for 256; a drive that is busy for
    [latency] after a command and for [gap] between two sectors of a command;
    one block of data (DRQ) and one interrupt per sector, the interrupt before
    the block for a read and after it for a write; an interrupt line that stays
    up until the status register is read or a command is written, so that the
    edge-triggered interrupt controller sees no second interrupt while it is up.
    While the drive is busy it ignores its registers, words written to the data
    port are lost and words read from it are what floats on the bus.

    Time is counted in accesses of the driver: each poll of [busy_wait] and each
    word of a transfer lets one unit pass, and a thread that sleeps on the
    semaphore lets as many pass as it takes.  Interrupts are on, as they are when
    the driver is called: the handler runs as soon as the line goes up. *)

From stdpp Require Import base numbers list gmap.
From S2P Require Import Prelude Bitmap Seqlock Disk.

Local Open Scope Z_scope.
Local Open Scope kernel_scope.

(** How the drives of the channel behave in time, and the word on an idle bus. *)
Record hw : Type := mk_hw { latency : nat; gap : nat; bus_lo : Z; bus_hi : Z }.
Definition floating (h : hw) : list Z := [bus_lo h; bus_hi h].

(** What the drive does once it is no longer busy: nothing; it offers a block,
    with [more] sectors from [lba] on to follow; it takes the block for [lba], of
    which it has [got], with [more] more to follow. *)
Inductive phase : Type :=
  | Idle
  | Offers (dev : bool) (lba : Z) (more : nat) (block : list Z)
  | Takes (dev : bool) (lba : Z) (more : nat) (got : list Z).

Record ctl : Type := mk_ctl {
  bsy : nat;                     (** accesses for which BSY is still set *)
  due : bool;                    (** an interrupt comes when BSY ends *)
  irq : bool;                    (** the interrupt line *)
  ph : phase
}.

Record regs : Type := mk_regs { r_sect_cnt : Z; r_lba_l : Z; r_lba_m : Z; r_lba_h : Z; r_dev : Z }.

Record chan : Type := mk_chan {
  (* the driver's [struct ide_channel] *)
  ch_lock : slock;
  expecting_intr : bool;
  disk_done : Z;                 (** value of the semaphore *)
  (* the controller and the drives *)
  tf : regs;
  c_ctl : ctl;
  drive0 : disk;
  drive1 : disk
}.

Definition drive (dev : bool) (c : chan) : disk := if dev then drive1 c else drive0 c.
Definition set_drive (dev : bool) (d : disk) (c : chan) : chan :=
  mk_chan (ch_lock c) (expecting_intr c) (disk_done c) (tf c) (c_ctl c) (if dev then drive0 c else d) (if dev then d else drive1 c).
Definition set_ctl (k : ctl) (c : chan) : chan :=
  mk_chan (ch_lock c) (expecting_intr c) (disk_done c) (tf c) k (drive0 c) (drive1 c).
Definition set_tf (r : regs) (c : chan) : chan :=
  mk_chan (ch_lock c) (expecting_intr c) (disk_done c) r (c_ctl c) (drive0 c) (drive1 c).
Definition set_sync (l : slock) (e : bool) (dn : Z) (c : chan) : chan :=
  mk_chan l e dn (tf c) (c_ctl c) (drive0 c) (drive1 c).

Inductive reg : Type := REG_SECT_CNT | REG_LBA_L | REG_LBA_M | REG_LBA_H | REG_DEV.

Definition put_reg (r : reg) (v : Z) (t : regs) : regs :=
  match t with
  | mk_regs sc ll lm lh dv =>
      match r with
      | REG_SECT_CNT => mk_regs v ll lm lh dv
      | REG_LBA_L => mk_regs sc v lm lh dv
      | REG_LBA_M => mk_regs sc ll v lh dv
      | REG_LBA_H => mk_regs sc ll lm v dv
      | REG_DEV => mk_regs sc ll lm lh v
      end
  end.
Definition outb (r : reg) (v : Z) (c : chan) : chan :=
  match bsy (c_ctl c) with O => set_tf (put_reg r (u8 v) (tf c)) c | S _ => c end.

(** The addressed drive, sector and count, as the controller decodes them. *)
Definition sel_dev (r : regs) : bool := Z.testbit (r_dev r) 4.
Definition sel_lba (r : regs) : Z :=
  r_lba_l r + 256 * r_lba_m r + 65536 * r_lba_h r + 16777216 * Z.land (r_dev r) 15.
Definition sel_cnt (r : regs) : nat := if r_sect_cnt r =? 0 then 256 else Z.to_nat (r_sect_cnt r).

Definition CMD_READ_SECTOR : Z := 0x20.
Definition CMD_WRITE_SECTOR : Z := 0x30.

(** ** The status register and interrupts *)

(** BSY and DRQ; reading them takes the interrupt line down. *)
Definition read_status : M chan (bool * bool) :=
  let! k := gets c_ctl in
  modify (set_ctl (mk_ctl (bsy k) (due k) false (ph k))) ;;;
  ret (match bsy k with O => false | S _ => true end, match ph k with Idle => false | _ => true end).

(** [intr_hd_handler] for this channel's interrupt. *)
Definition intr_hd_handler : M chan unit :=
  let! e := gets expecting_intr in
  if e : bool then
    modify (fun c => set_sync (ch_lock c) false (u8 (disk_done c + 1)) c) ;;;
    let! _ := read_status in ret tt
  else ret tt.

(** The drive asks for an interrupt; it reaches the processor if the line was
    down. *)
Definition raise : M chan unit :=
  let! k := gets c_ctl in
  if irq k then ret tt else
  modify (set_ctl (mk_ctl (bsy k) (due k) true (ph k))) ;;;
  intr_hd_handler.

Definition settle : M chan unit :=
  let! k := gets c_ctl in
  match bsy k with
  | O => if due k then modify (set_ctl (mk_ctl 0 false (irq k) (ph k))) ;;; raise else ret tt
  | S _ => ret tt
  end.

(** A unit of time. *)
Definition tick : M chan unit :=
  modify (fun c => set_ctl (mk_ctl (pred (bsy (c_ctl c))) (due (c_ctl c)) (irq (c_ctl c)) (ph (c_ctl c))) c) ;;;
  settle.

Section driver.
Context (h : hw).
(** The running thread and the disk's number on the channel ([hd->dev_no]). *)
Context (cur : Z) (dev_no : Z).

(** ** The controller's commands *)

(** [more] more sectors from [lba] on; one the drive does not have ends the
    command. *)
Definition offer (dev : bool) (lba : Z) (more : nat) (c : chan) : phase :=
  match more with
  | O => Idle
  | S more => match drive dev c !! lba with Some s => Offers dev (lba + 1) more s | None => Idle end
  end.
Definition take_next (dev : bool) (lba : Z) (more : nat) (c : chan) : phase :=
  match more with
  | O => Idle
  | S more => match drive dev c !! lba with Some _ => Takes dev lba more [] | None => Idle end
  end.

(** The reaction to a write to the command register. *)
Definition dev_command (cmd : Z) : M chan unit :=
  let! c := gets id in
  match bsy (c_ctl c) with
  | S _ => ret tt
  | O =>
      let r := tf c in
      if cmd =? CMD_READ_SECTOR then
        modify (set_ctl (mk_ctl (latency h) true false (offer (sel_dev r) (sel_lba r) (sel_cnt r) c))) ;;; settle
      else if cmd =? CMD_WRITE_SECTOR then
        modify (set_ctl (mk_ctl (latency h) false false (take_next (sel_dev r) (sel_lba r) (sel_cnt r) c))) ;;; settle
      else ret tt
  end.

(** *** The data port *)

(** After the last word of a block of a read. *)
Definition next_in (dev : bool) (lba : Z) (more : nat) : M chan unit :=
  let! c := gets id in
  match more with
  | O => modify (set_ctl (mk_ctl 0 false (irq (c_ctl c)) Idle))
  | S _ => modify (set_ctl (mk_ctl (gap h) true (irq (c_ctl c)) (offer dev lba more c))) ;;; settle
  end.
Definition inw : M chan (list Z) :=
  let! k := gets c_ctl in
  match bsy k, ph k with
  | O, Offers dev lba more [a; b] => next_in dev lba more ;;; ret [a; b]
  | O, Offers dev lba more (a :: b :: rest) =>
      modify (set_ctl (mk_ctl 0 (due k) (irq k) (Offers dev lba more rest))) ;;; ret [a; b]
  | _, _ => tick ;;; ret (floating h)
  end.
(** After the last word of a block of a write. *)
Definition store (dev : bool) (lba : Z) (more : nat) (block : list Z) : M chan unit :=
  modify (fun c => set_drive dev (<[lba := block]> (drive dev c)) c) ;;;
  modify (fun c => set_ctl (mk_ctl (gap h) true (irq (c_ctl c)) (take_next dev (lba + 1) more c)) c) ;;;
  settle.
Definition outw (a b : Z) : M chan unit :=
  let! k := gets c_ctl in
  match bsy k, ph k with
  | O, Takes dev lba more got =>
      let got := got ++ [a; b] in
      if (length got <? 512)%nat then modify (set_ctl (mk_ctl 0 (due k) (irq k) (Takes dev lba more got)))
      else store dev lba more got
  | _, _ => tick
  end.

Fixpoint insw_loop (n : nat) : M chan (list Z) :=
  match n with
  | O => ret []
  | S n => let! w := inw in let! r := insw_loop n in ret (w ++ r)
  end.
Fixpoint outsw_loop (n : nat) (buf : list Z) : M chan unit :=
  match n with
  | O => ret tt
  | S n => match buf with a :: b :: buf => outw a b ;;; outsw_loop n buf | _ => halt Out_of_bounds end
  end.
(** [rep insw] and [rep outsw]: [n] 16-bit words. *)
Definition insw (n : Z) : M chan (list Z) := insw_loop (Z.to_nat n).
Definition outsw (buf : list Z) (n : Z) : M chan unit := outsw_loop (Z.to_nat n) buf.

(** ** The driver *)
Definition BIT_DEV_MBS : Z := 0xa0.
Definition BIT_DEV_LBA : Z := 0x40.
Definition BIT_DEV_DEV : Z := 0x10.

Definition select_disk : M chan unit :=
  let reg_device := Z.lor BIT_DEV_MBS BIT_DEV_LBA in
  let reg_device := if dev_no =? 1 then Z.lor reg_device BIT_DEV_DEV else reg_device in
  modify (outb REG_DEV reg_device).

Definition select_sector (lba sec_cnt : Z) : M chan unit :=
  assertM (lba <=? max_lba) ;;;
  modify (outb REG_SECT_CNT sec_cnt) ;;;
  modify (outb REG_LBA_L lba) ;;;
  modify (outb REG_LBA_M (Z.shiftr lba 8)) ;;;
  modify (outb REG_LBA_H (Z.shiftr lba 16)) ;;;
  modify (outb REG_DEV
    (Z.lor (Z.lor (Z.lor BIT_DEV_MBS BIT_DEV_LBA) (if dev_no =? 1 then BIT_DEV_DEV else 0)) (Z.shiftr lba 24))).

Definition cmd_out (cmd : Z) : M chan unit :=
  modify (fun c => set_sync (ch_lock c) true (disk_done c) c) ;;;
  dev_command cmd.

Definition read_from_sector (sec_cnt : Z) : M chan (list Z) :=
  let size_in_byte := if sec_cnt =? 0 then 256 * 512 else sec_cnt * 512 in
  insw (size_in_byte / 2).
Definition write2sector (buf : list Z) (sec_cnt : Z) : M chan unit :=
  let size_in_byte := if sec_cnt =? 0 then 256 * 512 else sec_cnt * 512 in
  outsw buf (size_in_byte / 2).

(** [sema_down(&hd->my_channel->disk_done)]: the thread sleeps until the
    interrupt handler ups the semaphore. *)
Fixpoint sleep (n : nat) : M chan unit :=
  let! d := gets disk_done in
  if negb (d =? 0) then ret tt else
  match n with O => halt Would_block | S n => tick ;;; sleep n end.
Definition sema_down_done : M chan unit :=
  let! k := gets c_ctl in
  sleep (bsy k) ;;;
  modify (fun c => set_sync (ch_lock c) (expecting_intr c) (u8 (disk_done c - 1)) c).

(** [time_limit -= 10 >= 0] subtracts [10 >= 0], that is 1: up to 29999
    polls, with [mtime_sleep(10)] between them. *)
Fixpoint busy_wait_loop (time_limit : nat) : M chan bool :=
  match time_limit with
  | O => ret false
  | S t =>
      let! (busy, _) := read_status in
      if negb busy then let! (_, drq) := read_status in ret drq
      else tick ;;; busy_wait_loop t
  end.
Definition busy_wait : M chan bool := busy_wait_loop (Z.to_nat (30 * 1000 - 1)).

Definition chan_acquire : M chan unit := fun c =>
  olet l := slock_acquire cur (ch_lock c) in Done (tt, set_sync l (expecting_intr c) (disk_done c) c).
Definition chan_release : M chan unit := fun c =>
  olet l := slock_release cur (ch_lock c) in Done (tt, set_sync l (expecting_intr c) (disk_done c) c).

Definition chunk (secs_done sec_cnt : Z) : Z := if secs_done + 256 <=? sec_cnt then 256 else sec_cnt - secs_done.

Fixpoint ide_read_loop (fuel : nat) (lba sec_cnt secs_done : Z) (buf : list Z) : M chan (list Z) :=
  match fuel with
  | O => halt Out_of_fuel
  | S fuel =>
      if secs_done <? sec_cnt then
        let secs_op := chunk secs_done sec_cnt in
        select_sector (u32 (lba + secs_done)) (u8 secs_op) ;;;
        cmd_out CMD_READ_SECTOR ;;;
        sema_down_done ;;;
        let! ok := busy_wait in
        if negb ok then halt Panicked else
        let! data := read_from_sector (u8 secs_op) in
        ide_read_loop fuel lba sec_cnt (secs_done + secs_op) (buf ++ data)
      else ret buf
  end.
Definition ide_read (lba sec_cnt : Z) : M chan (list Z) :=
  assertM (lba <=? max_lba) ;;;
  assertM (0 <? sec_cnt) ;;;
  chan_acquire ;;;
  select_disk ;;;
  let! buf := ide_read_loop (S (Z.to_nat sec_cnt)) lba sec_cnt 0 [] in
  chan_release ;;;
  ret buf.

Fixpoint ide_write_loop (fuel : nat) (lba : Z) (buf : list Z) (sec_cnt secs_done : Z) : M chan unit :=
  match fuel with
  | O => halt Out_of_fuel
  | S fuel =>
      if secs_done <? sec_cnt then
        let secs_op := chunk secs_done sec_cnt in
        select_sector (u32 (lba + secs_done)) (u8 secs_op) ;;;
        cmd_out CMD_WRITE_SECTOR ;;;
        let! ok := busy_wait in
        if negb ok then halt Panicked else
        write2sector (drop (Z.to_nat (secs_done * 512)) buf) (u8 secs_op) ;;;
        sema_down_done ;;;
        ide_write_loop fuel lba buf sec_cnt (secs_done + secs_op)
      else ret tt
  end.
Definition ide_write (lba : Z) (buf : list Z) (sec_cnt : Z) : M chan unit :=
  assertM (lba <=? max_lba) ;;;
  assertM (0 <? sec_cnt) ;;;
  chan_acquire ;;;
  select_disk ;;;
  ide_write_loop (S (Z.to_nat sec_cnt)) lba buf sec_cnt 0 ;;;
  chan_release.
End driver.

(** ** Addressing *)
Lemma u8_byte x : 0 <= x < 256 -> u8 x = x.
Proof. apply u8_id. Qed.

Lemma lba_bytes lba : 0 <= lba <= max_lba ->
  u8 lba + 256 * u8 (Z.shiftr lba 8) + 65536 * u8 (Z.shiftr lba 16) = lba /\ Z.shiftr lba 24 = 0.
Proof.
  intros Hl. assert (0 <= lba < 16777216) as Hb by (change max_lba with 163839 in Hl; lia).
  rewrite !Z.shiftr_div_pow2 by lia. unfold u8.
  change (2 ^ 8) with 256. change (2 ^ 16) with 65536. change (2 ^ 24) with 16777216.
  pose proof (u32_bytes_value lba ltac:(unfold is_u32; lia)) as H.
  rewrite (Z.div_small lba 16777216) in * by lia. change (0 mod 256) with 0 in H. lia.
Qed.

(** ** The controller between transfers and at work *)

(** A channel between transfers; the interrupt line may still be up. *)
Definition quiet (c : chan) : Prop :=
  expecting_intr c = false /\ disk_done c = 0 /\ bsy (c_ctl c) = 0%nat /\ due (c_ctl c) = false.
(** Nothing but the task file and the transfer state differ. *)
Definition same_drives (c c' : chan) : Prop :=
  ch_lock c' = ch_lock c /\ drive0 c' = drive0 c /\ drive1 c' = drive1 c.

Lemma set_ctl_id c : set_ctl (c_ctl c) c = c.
Proof. by destruct c. Qed.

(** An interrupt no one expects goes by. *)
Lemma wp_settle_unexpected i p c (Q : unit -> chan -> Prop) :
  expecting_intr c = false -> Q tt (set_ctl (mk_ctl 0 false true p) c) -> wp settle Q (set_ctl (mk_ctl 0 true i p) c).
Proof.
  intros He HQ. unfold settle, raise, intr_hd_handler. wp_steps. cbn [c_ctl set_ctl bsy due irq ph]. wp_steps. cbn [c_ctl set_ctl bsy due irq ph].
  destruct i; wp_steps; [done|]. cbn [expecting_intr set_ctl]. rewrite He. by wp_steps.
Qed.

(** One that is expected ups the semaphore. *)
Lemma wp_settle_expected p c (Q : unit -> chan -> Prop) :
  expecting_intr c = true -> disk_done c = 0 ->
  Q tt (set_sync (ch_lock c) false 1 (set_ctl (mk_ctl 0 false false p) c)) -> wp settle Q (set_ctl (mk_ctl 0 true false p) c).
Proof.
  intros He Hd HQ. unfold settle, raise, intr_hd_handler, read_status. wp_steps. cbn [c_ctl set_ctl bsy due irq ph]. wp_steps. cbn [c_ctl set_ctl bsy due irq ph].
  wp_steps. cbn [expecting_intr set_ctl]. rewrite He. wp_steps. cbn [disk_done set_ctl]. rewrite Hd. exact HQ.
Qed.

Lemma wp_sleep n p c (Q : unit -> chan -> Prop) :
  expecting_intr c = true -> disk_done c = 0 ->
  Q tt (set_sync (ch_lock c) false 1 (set_ctl (mk_ctl 0 false false p) c)) -> wp (sleep (S n)) Q (set_ctl (mk_ctl (S n) true false p) c).
Proof.
  intros He Hd HQ. induction n as [|n IH]; cbn [sleep]; wp_steps; cbn [disk_done set_ctl]; rewrite Hd; cbn [Z.eqb negb]; unfold tick at 1; wp_steps.
  - apply wp_settle_expected; [done..|]. wp_steps. cbn [disk_done set_sync Z.eqb negb]. by wp_steps.
  - cbn [c_ctl set_ctl bsy due irq ph pred]. unfold settle. wp_steps. cbn [c_ctl set_ctl bsy]. wp_steps. apply IH.
Qed.

(** A thread waits for the interrupt that is on its way, or has just come. *)
Lemma wp_wait n p c (Q : unit -> chan -> Prop) :
  expecting_intr c = true -> disk_done c = 0 ->
  Q tt (set_sync (ch_lock c) false 0 (set_ctl (mk_ctl 0 false false p) c)) ->
  wp settle (fun _ => wp sema_down_done Q) (set_ctl (mk_ctl n true false p) c).
Proof.
  intros He Hd HQ. destruct n as [|n].
  - apply wp_settle_expected; [done..|]. unfold sema_down_done. wp_steps. cbn [c_ctl set_sync set_ctl bsy sleep]. wp_steps.
    cbn [disk_done set_sync Z.eqb negb]. by wp_steps.
  - unfold settle. wp_steps. cbn [c_ctl set_ctl bsy]. wp_steps. unfold sema_down_done. wp_steps. cbn [c_ctl set_ctl bsy].
    apply wp_sleep; [done..|]. wp_steps. exact HQ.
Qed.

Lemma wp_busy_wait n i p b c (Q : bool -> chan -> Prop) : (n < b)%nat ->
  Q (match p with Idle => false | _ => true end) (set_ctl (mk_ctl 0 false false p) c) ->
  wp (busy_wait_loop b) Q (set_ctl (mk_ctl n false i p) c).
Proof.
  intros Hb HQ. induction b as [|b IH] in n, i, Hb |- *; [lia|]. cbn [busy_wait_loop]. unfold read_status. wp_steps.
  cbn [c_ctl set_ctl bsy due irq ph]. destruct n as [|n]; cbn [negb]; wp_steps; [done|].
  unfold tick, settle. wp_steps. cbn [c_ctl set_ctl bsy due irq ph pred].
  destruct n; wp_steps; apply IH; lia.
Qed.

(** ** Blocks through the data port *)
Section port.
Context (h : hw).

Lemma wp_bind_inv {S A B} (m : M S A) (f : A -> M S B) (Q : B -> S -> Prop) s :
  wp (bind m f) Q s -> wp m (fun a => wp (f a) Q) s.
Proof. unfold wp, bind. by destruct (m s) as [[a s']|]. Qed.

Lemma wp_bind3 {S T} (m1 m2 m3 : M S unit) (f : M S T) (Q : T -> S -> Prop) s :
  wp (m1 ;;; m2 ;;; m3) (fun _ => wp f Q) s -> wp (m1 ;;; m2 ;;; m3 ;;; f) Q s.
Proof.
  unfold wp, bind. destruct (m1 s) as [[[] s1]|]; [|done]. destruct (m2 s1) as [[[] s2]|]; [|done]. by destruct (m3 s2) as [[[] s3]|].
Qed.

Lemma wp_bind_after {S T} (m1 m2 : M S unit) (f : M S T) (Q : T -> S -> Prop) s :
  wp m1 (fun _ => wp m2 (fun _ => wp f Q)) s -> wp m1 (fun _ => wp (m2 ;;; f) Q) s.
Proof. intros H. eapply wp_mono; [exact H|]. cbn beta. intros [] s' H'. by apply wp_bind. Qed.

Lemma insw_S n : insw_loop h (S n) = let! w := inw h in let! r := insw_loop h n in ret (w ++ r).
Proof. done. Qed.
Lemma outsw_S n a b buf : outsw_loop h (S n) (a :: b :: buf) = (outw h a b ;;; outsw_loop h n buf).
Proof. done. Qed.

Lemma wp_insw_app n m c (Q : list Z -> chan -> Prop) :
  wp (insw_loop h n) (fun a => wp (insw_loop h m) (fun b => Q (a ++ b))) c -> wp (insw_loop h (n + m)) Q c.
Proof.
  induction n as [|n IH] in c, Q |- *; cbn [Nat.add insw_loop]; intros H; [exact H|].
  apply wp_bind_inv in H. apply wp_bind. eapply wp_mono; [exact H|]. cbn beta. intros w c' H'. apply wp_bind_inv in H'. apply wp_bind, IH.
  eapply wp_mono; [exact H'|]. cbn beta. intros r c'' H''. eapply wp_mono; [exact H''|].
  cbn beta. intros r' c3 H3. apply wp_ret. by rewrite app_assoc.
Qed.

Lemma wp_insw_block dev lba more m : forall blk i du c (Q : list Z -> chan -> Prop),
  length blk = (2 * S m)%nat ->
  (forall p, wp (next_in h dev lba more) (fun _ => Q blk) (set_ctl (mk_ctl 0 du i p) c)) ->
  wp (insw_loop h (S m)) Q (set_ctl (mk_ctl 0 du i (Offers dev lba more blk)) c).
Proof.
  induction m as [|m IH]; intros blk i du c Q Hl HQ; destruct blk as [|a [|b blk]]; cbn [length] in Hl; try lia; rewrite insw_S; unfold inw at 1.
  - destruct blk; [|cbn in Hl; lia]. wp_steps. cbn [c_ctl set_ctl bsy ph due irq]. apply wp_bind. eapply wp_mono; [apply HQ|].
    cbn beta. intros [] c' HQ'. by wp_steps.
  - destruct blk as [|x blk]; [cbn in Hl; lia|]. wp_steps. cbn [c_ctl set_ctl bsy ph due irq]. wp_steps.
    apply (IH _ i du c); [cbn [length] in *; lia|]. intros p. eapply wp_mono; [apply HQ|]. cbn beta. intros [] c' HQ'. by wp_steps.
Qed.

(** A drive that is ready for the next block at once, or only one block. *)
Lemma wp_insw_blocks dev more : forall lba s rest i c,
  gap h = 0%nat \/ more = 0%nat -> expecting_intr c = false -> length s = 512%nat -> disk_ok (drive dev c) ->
  read_sectors (drive dev c) lba more = Some rest ->
  wp (insw_loop h (256 * S more)) (fun r c' => r = s ++ rest /\ exists i', c' = set_ctl (mk_ctl 0 false i' Idle) c)
    (set_ctl (mk_ctl 0 false i (Offers dev lba more s)) c).
Proof.
  induction more as [|more IH]; intros lba s rest i c Hg He Hs Hok Hr.
  - injection Hr as <-. apply wp_insw_block; [done|]. intros p. unfold next_in. wp_steps. rewrite app_nil_r. eauto.
  - destruct Hg as [Hg|Hg]; [|lia]. cbn [read_sectors] in Hr. destruct (drive dev c !! lba) as [s1|] eqn:E1; [|done].
    destruct (read_sectors (drive dev c) (lba + 1) more) as [r1|] eqn:E2; [|done]. injection Hr as <-.
    replace (256 * S (S more))%nat with (256 + 256 * S more)%nat by lia.
    apply wp_insw_app, wp_insw_block; [done|]. intros p. unfold next_in. wp_steps. cbn [c_ctl set_ctl irq id]. rewrite Hg.
    unfold offer. change (drive dev (set_ctl _ c)) with (drive dev c). rewrite E1.
    apply (wp_settle_unexpected i _ c); [done|]. eapply wp_mono; [apply (IH (lba + 1) s1 r1 true c); [by left|done|exact (Hok _ _ E1)|done|done]|].
    cbn beta. intros r c' (-> & H). split; [by rewrite app_assoc|done].
Qed.

Lemma wp_outsw_app n m : forall buf c (Q : unit -> chan -> Prop), (2 * n <= length buf)%nat ->
  wp (outsw_loop h n buf) (fun _ => wp (outsw_loop h m (drop (2 * n) buf)) Q) c -> wp (outsw_loop h (n + m) buf) Q c.
Proof.
  induction n as [|n IH]; intros buf c Q Hl H.
  - cbn [outsw_loop] in H. by rewrite Nat.mul_0_r, drop_0 in H.
  - destruct buf as [|a [|b buf]]; cbn [length] in Hl; try lia. cbn [Nat.add outsw_loop] in *. apply wp_bind_inv in H. apply wp_bind.
    eapply wp_mono; [exact H|]. cbn beta. intros [] c' H'. apply IH; [lia|]. replace (2 * S n)%nat with (S (S (2 * n))) in H' by lia. exact H'.
Qed.

Lemma wp_outsw_block dev lba more m : forall got buf i du c (Q : unit -> chan -> Prop),
  (length got + 2 * S m = 512)%nat -> (2 * S m <= length buf)%nat ->
  (forall p, wp (store h dev lba more (got ++ take (2 * S m) buf)) Q (set_ctl (mk_ctl 0 du i p) c)) ->
  wp (outsw_loop h (S m) buf) Q (set_ctl (mk_ctl 0 du i (Takes dev lba more got)) c).
Proof.
  induction m as [|m IH]; intros got buf i du c Q Hl Hb HQ; destruct buf as [|a [|b buf]]; cbn [length] in Hb; try lia;
    rewrite outsw_S; unfold outw at 1; wp_steps; cbn [c_ctl set_ctl bsy ph due irq].
  - rewrite (proj2 (Nat.ltb_ge _ _)) by (rewrite length_app; cbn [length]; lia).
    eapply wp_mono; [apply HQ|]. intros [] c' HQ'. by wp_steps.
  - rewrite (proj2 (Nat.ltb_lt _ _)) by (rewrite length_app; cbn [length]; lia). wp_steps.
    apply (IH _ _ i du c); [rewrite length_app; cbn [length]; lia|lia|]. intros p. rewrite <- app_assoc.
    replace (2 * S (S m))%nat with (S (S (2 * S m))) in HQ by lia. apply HQ.
Qed.

(** After the first block the semaphore is up, and stays so. *)
Lemma wp_outsw_blocks dev more : forall lba buf i c,
  gap h = 0%nat -> (expecting_intr c = true /\ disk_done c = 0 /\ i = false) \/ (expecting_intr c = false /\ disk_done c = 1) ->
  on_disk (drive dev c) lba (S more) -> (512 * S more <= length buf)%nat ->
  wp (outsw_loop h (256 * S more) buf) (fun _ c' => exists i', c' = set_sync (ch_lock c) false 1
      (set_ctl (mk_ctl 0 false i' Idle) (set_drive dev (write_sectors (drive dev c) lba (S more) buf) c)))
    (set_ctl (mk_ctl 0 false i (Takes dev lba more [])) c).
Proof.
  assert (forall i p c (Q : unit -> chan -> Prop),
    (expecting_intr c = true /\ disk_done c = 0 /\ i = false) \/ (expecting_intr c = false /\ disk_done c = 1) ->
    (forall i', Q tt (set_sync (ch_lock c) false 1 (set_ctl (mk_ctl 0 false i' p) c))) -> wp settle Q (set_ctl (mk_ctl 0 true i p) c)) as Hset.
  { intros i p c Q [(He & Hd & ->)|(He & Hd)] HQ; [by apply wp_settle_expected|]. apply wp_settle_unexpected; [done|].
    specialize (HQ true). destruct c. cbn in He, Hd. by subst. }
  induction more as [|more IH]; intros lba buf i c Hg Hst Hod Hl.
  - apply wp_outsw_block; [done|lia|]. intros p. unfold store. wp_steps. rewrite Hg.
    change (set_ctl (mk_ctl 0 true (irq (c_ctl _)) _) _) with
      (set_ctl (mk_ctl 0 true i Idle) (set_drive dev (<[lba := take 512 buf]> (drive dev c)) c)).
    apply Hset; [done|]. intros i'. by exists i'.
  - replace (256 * S (S more))%nat with (256 + 256 * S more)%nat by lia.
    apply wp_outsw_app; [lia|]. apply wp_outsw_block; [done|lia|]. intros p. unfold store. wp_steps. rewrite Hg.
    set (c1 := set_drive dev (<[lba := take 512 buf]> (drive dev c)) c).
    assert (drive dev c1 = <[lba := take 512 buf]> (drive dev c)) as Hd1 by (unfold c1, drive, set_drive; by destruct dev).
    match goal with |- wp settle _ ?x => replace x with (set_ctl (mk_ctl 0 true i (Takes dev (lba + 1) more [])) c1) end.
    2: { unfold take_next. match goal with |- context [match ?a with Some _ => _ | None => _ end] => replace a with (drive dev c1 !! (lba + 1)) by (by destruct dev) end.
         rewrite Hd1, lookup_insert_ne by lia. destruct (Hod (lba + 1) ltac:(lia)) as [s1 ->]. done. }
    apply Hset; [done|]. intros i'. change (2 * 256)%nat with 512%nat.
    set (c2 := set_sync (ch_lock c1) false 1 c1).
    eapply wp_mono; [apply (IH (lba + 1) (drop 512 buf) i' c2); [done|by right| |rewrite length_drop; lia]|].
    + intros j Hj. change (drive dev c2) with (drive dev c1). rewrite Hd1. destruct (decide (j = lba)) as [->|]; [rewrite lookup_insert_eq; eauto|].
      rewrite lookup_insert_ne by done. apply Hod. lia.
    + cbn beta. intros _ c' [i2 ->]. exists i2. change (drive dev c2) with (drive dev c1). rewrite Hd1. cbn [write_sectors].
      unfold c2, c1. destruct c, dev; done.
Qed.

(** One block, however long the drive takes to store it. *)
Lemma wp_outsw_one dev lba buf c (Q : unit -> chan -> Prop) :
  expecting_intr c = true -> disk_done c = 0 -> (512 <= length buf)%nat ->
  Q tt (set_sync (ch_lock c) false 0 (set_ctl (mk_ctl 0 false false Idle) (set_drive dev (write_sectors (drive dev c) lba 1 buf) c))) ->
  wp (outsw_loop h 256 buf) (fun _ => wp sema_down_done Q) (set_ctl (mk_ctl 0 false false (Takes dev lba 0 [])) c).
Proof.
  intros He Hd Hl HQ. apply wp_outsw_block; [done|lia|]. intros p. unfold store. wp_steps.
  change (set_ctl (mk_ctl (gap h) true (irq (c_ctl _)) _) _) with
    (set_ctl (mk_ctl (gap h) true false Idle) (set_drive dev (<[lba := take 512 buf]> (drive dev c)) c)).
  by apply wp_wait.
Qed.
End port.

Section proofs.
Context (h : hw) (cur dev_no : Z).
Abbreviation dev := (dev_no =? 1).

(** After [select_sector] the controller addresses what was asked for. *)
Lemma wp_select_sector lba k c (Q : unit -> chan -> Prop) :
  bsy (c_ctl c) = 0%nat -> 0 <= lba <= max_lba -> 1 <= k <= 256 ->
  (forall r, sel_dev r = dev -> sel_lba r = lba -> sel_cnt r = Z.to_nat k -> Q tt (set_tf r c)) ->
  wp (select_sector dev_no lba (u8 k)) Q c.
Proof.
  intros Hb Hl Hk HQ. destruct (lba_bytes lba Hl) as [Hv H24]. unfold select_sector.
  wp_steps. { apply Z.leb_le. lia. } rewrite H24, Z.lor_0_r. unfold outb. rewrite Hb. cbn [c_ctl set_tf]. rewrite Hb.
  cbn [c_ctl set_tf]. rewrite Hb. cbn [c_ctl set_tf]. rewrite Hb. cbn [c_ctl set_tf]. rewrite Hb.
  cbn [tf set_tf]. destruct (tf c) as [sc ll lm lh dv] eqn:Et. cbn [put_reg].
  apply HQ.
  - unfold sel_dev. cbn [r_dev]. by destruct dev.
  - unfold sel_lba. cbn [r_lba_l r_lba_m r_lba_h r_dev].
    replace (Z.land _ 15) with 0 by (by destruct dev). lia.
  - unfold sel_cnt. cbn [r_sect_cnt]. rewrite (u8_id (u8 k)) by apply u8_range.
    destruct (decide (k = 256)) as [->|]; [done|]. rewrite u8_byte by lia.
    by rewrite (proj2 (Z.eqb_neq k 0)) by lia.
Qed.

(** The words of [k] sectors. *)
Lemma size_words k : 1 <= k <= 256 ->
  Z.to_nat ((if u8 k =? 0 then 256 * 512 else u8 k * 512) / 2) = (256 * S (pred (Z.to_nat k)))%nat.
Proof.
  intros Hk. replace (S (pred (Z.to_nat k))) with (Z.to_nat k) by lia.
  destruct (decide (k = 256)) as [->|]; [done|]. rewrite u8_byte by lia.
  rewrite (proj2 (Z.eqb_neq k 0)) by lia. replace (k * 512) with (k * 256 * 2) by lia. rewrite Z.div_mul by lia. lia.
Qed.

(** A read up to the data: the first sector is offered. *)
Lemma wp_read_start lba k s c (Q : unit -> chan -> Prop) :
  quiet c -> 0 <= lba <= max_lba -> 1 <= k <= 256 -> drive dev c !! lba = Some s ->
  (forall r, Q tt (set_ctl (mk_ctl 0 false false (Offers dev (lba + 1) (pred (Z.to_nat k)) s)) (set_tf r (set_sync (ch_lock c) false 0 c)))) ->
  wp (select_sector dev_no lba (u8 k) ;;; cmd_out h CMD_READ_SECTOR ;;; sema_down_done) Q c.
Proof.
  intros (He & Hd & Hb & Hdu) Hl Hk Hs HQ. apply wp_bind, wp_select_sector; [done..|].
  intros r Hdev Hlba Hcnt. unfold cmd_out, dev_command. wp_steps. cbn [c_ctl set_sync set_tf id ch_lock disk_done tf]. rewrite Hb.
  cbn [Z.eqb Pos.eqb CMD_READ_SECTOR]. wp_steps. rewrite Hdev, Hlba, Hcnt. unfold offer.
  replace (Z.to_nat k) with (S (pred (Z.to_nat k))) at 1 by lia.
  change (drive dev (set_sync _ _ _ _)) with (drive dev c). rewrite Hs.
  apply wp_wait; [done|exact Hd|]. exact (HQ r).
Qed.

Lemma wp_read_chunk {B} (K : list Z -> M chan B) lba k data c (Q : B -> chan -> Prop) :
  quiet c -> 0 <= lba <= max_lba -> 1 <= k <= 256 -> gap h = 0%nat \/ k = 1 -> disk_ok (drive dev c) ->
  read_sectors (drive dev c) lba (Z.to_nat k) = Some data ->
  (forall c', quiet c' -> same_drives c c' -> wp (K data) Q c') ->
  wp (select_sector dev_no lba (u8 k) ;;; cmd_out h CMD_READ_SECTOR ;;; sema_down_done ;;;
      let! ok := busy_wait in
      if negb ok then halt Panicked else
      let! data := read_from_sector h (u8 k) in K data) Q c.
Proof.
  intros Hq Hl Hk Hg Hok Hr HQ. replace (Z.to_nat k) with (S (pred (Z.to_nat k))) in Hr by lia. cbn [read_sectors] in Hr.
  destruct (drive dev c !! lba) as [s|] eqn:Es; [|done].
  destruct (read_sectors (drive dev c) (lba + 1) (pred (Z.to_nat k))) as [rest|] eqn:Er; [|done]. injection Hr as <-.
  apply wp_bind3, (wp_read_start lba k s c); [done..|]. intros r. apply wp_bind. unfold busy_wait. apply wp_busy_wait; [lia|]. cbn [negb].
  unfold read_from_sector, insw. rewrite size_words by done. apply wp_bind.
  eapply wp_mono; [apply (wp_insw_blocks h dev _ (lba + 1) s rest); [|done|exact (Hok _ _ Es)|exact Hok|exact Er]|].
  { destruct Hg as [Hg| ->]; [by left|by right]. }
  cbn beta. intros d c' (-> & i' & ->). by apply HQ.
Qed.

Lemma chunk_range done_ cnt : 0 <= done_ < cnt ->
  1 <= chunk done_ cnt <= 256 /\ done_ + chunk done_ cnt <= cnt.
Proof. intros H. unfold chunk. destruct (Z.leb_spec (done_ + 256) cnt); lia. Qed.

Lemma wp_ide_read_loop : forall fuel lba cnt done_ buf rest c,
  gap h = 0%nat \/ cnt = 1 -> quiet c -> 0 <= lba -> lba + cnt - 1 <= max_lba -> 0 <= done_ <= cnt ->
  (Z.to_nat (cnt - done_) < fuel)%nat -> disk_ok (drive dev c) ->
  read_sectors (drive dev c) (lba + done_) (Z.to_nat (cnt - done_)) = Some rest ->
  wp (ide_read_loop h dev_no fuel lba cnt done_ buf)
     (fun r c' => r = buf ++ rest /\ quiet c' /\ same_drives c c') c.
Proof.
  induction fuel as [|fuel IH]; intros lba cnt dn buf rest c Hg Hq Hl Hmax Hdn Hf Hok Hr; [lia|].
  cbn [ide_read_loop]. destruct (Z.ltb_spec dn cnt) as [Hlt|Hge].
  - destruct (chunk_range dn cnt ltac:(lia)) as [Hk Hle]. set (k := chunk dn cnt) in *.
    replace (Z.to_nat (cnt - dn)) with (Z.to_nat k + Z.to_nat (cnt - (dn + k)))%nat in Hr by lia.
    rewrite read_sectors_app in Hr.
    destruct (read_sectors (drive dev c) (lba + dn) (Z.to_nat k)) as [data|] eqn:E1; [|done].
    destruct (read_sectors (drive dev c) (lba + dn + Z.of_nat (Z.to_nat k)) _) as [rest'|] eqn:E2; [|done].
    injection Hr as <-. rewrite u32_id by (change max_lba with 163839 in *; unfold is_u32; lia).
    apply (wp_read_chunk _ _ _ data); [done|lia|lia|destruct Hg; [by left|right; lia]|done|done|].
    intros c' Hq' Hs'. assert (drive dev c' = drive dev c) as Hdr by (unfold drive; destruct Hs' as (_ & -> & ->); done).
    eapply wp_mono; [apply (IH lba cnt (dn + k) (buf ++ data) rest'); [done|done|done|done|lia|lia|by rewrite Hdr|]|].
    + rewrite Hdr, <- E2. f_equal. lia.
    + cbn beta. intros r c'' (-> & Hq'' & Hs''). split; [by rewrite app_assoc|]. split; [done|].
      destruct Hs' as (? & ? & ?), Hs'' as (? & ? & ?). split_and!; congruence.
  - apply wp_ret. assert (cnt - dn = 0) as E by lia. rewrite E in Hr. injection Hr as <-.
    rewrite app_nil_r. done.
Qed.

(** One drive written, the other and the lock untouched. *)
Definition wrote (c c' : chan) (d : disk) : Prop :=
  ch_lock c' = ch_lock c /\ drive dev c' = d /\ drive (negb dev) c' = drive (negb dev) c.

Lemma wp_write_chunk {B} (K : M chan B) lba k buf c (Q : B -> chan -> Prop) :
  quiet c -> 0 <= lba <= max_lba -> 1 <= k <= 256 -> gap h = 0%nat \/ k = 1 -> (latency h < Z.to_nat 29999)%nat ->
  on_disk (drive dev c) lba (Z.to_nat k) -> 512 * k <= Z.of_nat (length buf) ->
  (forall c', quiet c' -> wrote c c' (write_sectors (drive dev c) lba (Z.to_nat k) buf) -> wp K Q c') ->
  wp (select_sector dev_no lba (u8 k) ;;; cmd_out h CMD_WRITE_SECTOR ;;;
      let! ok := busy_wait in
      if negb ok then halt Panicked else
      write2sector h buf (u8 k) ;;; sema_down_done ;;; K) Q c.
Proof.
  intros (He & Hd & Hb & Hdu) Hl Hk Hg Hlat Hr Hlen HQ. apply wp_bind, wp_select_sector; [done..|].
  intros r Hdev Hlba Hcnt. unfold cmd_out, dev_command. wp_steps. cbn [c_ctl set_sync set_tf id ch_lock disk_done tf]. rewrite Hb.
  cbn [Z.eqb Pos.eqb CMD_READ_SECTOR CMD_WRITE_SECTOR]. wp_steps. rewrite Hdev, Hlba, Hcnt. unfold take_next.
  destruct (Hr lba ltac:(lia)) as [s0 Hs0]. set (more := pred (Z.to_nat k)). assert (Z.to_nat k = S more) as Em by lia. rewrite Em.
  change (drive dev (set_sync _ _ _ _)) with (drive dev c). rewrite Hs0.
  set (c1 := set_sync (ch_lock c) true (disk_done c) (set_tf r c)).
  apply (wp_mono _ (fun _ c' => c' = set_ctl (mk_ctl (latency h) false false (Takes dev lba more [])) c1)).
  { unfold settle. wp_steps. cbn [c_ctl set_ctl bsy due]. by destruct (latency h); wp_steps. }
  cbn beta. intros [] _ ->. wp_steps. unfold busy_wait. apply wp_busy_wait; [lia|]. cbn [negb].
  unfold write2sector, outsw. rewrite size_words by done. apply wp_bind. fold more.
  assert (forall i', wp K Q (set_sync (ch_lock c) false 0 (set_ctl (mk_ctl 0 false i' Idle)
    (set_drive dev (write_sectors (drive dev c1) lba (S more) buf) c1)))) as Hfin.
  { intros i'. apply HQ; [done|]. rewrite Em. change (drive dev c1) with (drive dev c). unfold wrote, c1. by destruct c, dev. }
  destruct (decide (gap h = 0%nat)) as [Hg0|Hg0].
  - eapply wp_mono; [apply (wp_outsw_blocks h dev more lba buf false c1); [done|by left|by rewrite <- Em|lia]|].
    cbn beta. intros _ c' [i' ->]. wp_steps. unfold sema_down_done. wp_steps. cbn [c_ctl set_sync set_ctl bsy sleep]. wp_steps.
    cbn [disk_done set_sync Z.eqb negb]. wp_steps. exact (Hfin i').
  - assert (more = 0%nat) as E0 by (destruct Hg; lia). rewrite E0 in *.
    eapply wp_mono; [apply (wp_outsw_one h dev lba buf c1 (fun _ => wp K Q)); [done|exact Hd|lia|]|].
    + cbn beta. exact (Hfin false).
    + intros [] c' H. wp_steps. exact H.
Qed.

Lemma wp_ide_write_loop : forall fuel lba cnt done_ buf c,
  gap h = 0%nat \/ cnt = 1 -> quiet c -> 0 <= lba -> lba + cnt - 1 <= max_lba -> 0 <= done_ <= cnt -> (latency h < Z.to_nat 29999)%nat ->
  (Z.to_nat (cnt - done_) < fuel)%nat -> on_disk (drive dev c) lba (Z.to_nat cnt) ->
  512 * cnt <= Z.of_nat (length buf) ->
  wp (ide_write_loop h dev_no fuel lba buf cnt done_)
     (fun _ c' => quiet c' /\ wrote c c' (write_sectors (drive dev c) (lba + done_) (Z.to_nat (cnt - done_))
                                            (drop (Z.to_nat (done_ * 512)) buf))) c.
Proof.
  induction fuel as [|fuel IH]; intros lba cnt dn buf c Hg Hq Hl Hmax Hdn Hlat Hf Hod Hlen; [lia|].
  cbn [ide_write_loop]. destruct (Z.ltb_spec dn cnt) as [Hlt|Hge].
  - destruct (chunk_range dn cnt ltac:(lia)) as [Hk Hle]. set (k := chunk dn cnt) in *.
    rewrite u32_id by (change max_lba with 163839 in *; unfold is_u32; lia).
    apply wp_write_chunk; [done|lia|lia|destruct Hg; [by left|right; lia]|done|intros i Hi; apply Hod; lia|rewrite length_drop; lia|].
    intros c' Hq' (Hlk & Hdr & Hdr').
    eapply wp_mono; [apply (IH lba cnt (dn + k) buf c'); [done|done|done|done|lia|done|lia| |done]|].
    + intros i Hi. rewrite Hdr, write_sectors_lookup. case_decide; [eauto|]. apply Hod. lia.
    + cbn beta. intros _ c'' (Hq'' & Hlk' & H1 & H2). split; [done|].
      split_and!; [congruence| |congruence]. rewrite H1, Hdr.
      replace (Z.to_nat (cnt - dn)) with (Z.to_nat k + Z.to_nat (cnt - (dn + k)))%nat by lia.
      rewrite write_sectors_app. f_equal; [lia|]. rewrite drop_drop. f_equal. lia.
  - apply wp_ret. replace (Z.to_nat (cnt - dn)) with 0%nat by lia. done.
Qed.

(** A channel no one is using. *)
Definition idle (c : chan) : Prop := ch_lock c = slock_init /\ quiet c.

Lemma wp_begin {B} (K : M chan B) c (Q : B -> chan -> Prop) :
  idle c -> cur <> 0 ->
  (forall l r, slock_release cur l = Done slock_init -> wp K Q (set_sync l false 0 (set_tf r c))) ->
  wp (chan_acquire cur ;;; select_disk dev_no ;;; K) Q c.
Proof.
  intros (Hlk & He & Hd & Hb & Hdu) Hcur HQ.
  destruct (slock_roundtrip cur slock_init Hcur (or_introl eq_refl)) as (l & Hacq & _ & _ & _ & Hrel).
  apply wp_bind. unfold wp at 1, chan_acquire. rewrite Hlk, Hacq. cbn [obind]. unfold select_disk. wp_steps.
  unfold outb. cbn [c_ctl set_sync]. rewrite Hb, He, Hd. exact (HQ l _ Hrel).
Qed.

Lemma quiet_begin l r c : quiet c -> quiet (set_sync l false 0 (set_tf r c)).
Proof. intros (He & Hd & Hb & Hdu). by split_and!. Qed.

Lemma wp_driver_read lba cnt data c :
  gap h = 0%nat \/ cnt = 1 -> idle c -> cur <> 0 -> 0 <= lba -> 0 < cnt -> lba + cnt - 1 <= max_lba -> disk_ok (drive dev c) ->
  read_sectors (drive dev c) lba (Z.to_nat cnt) = Some data ->
  wp (ide_read h cur dev_no lba cnt) (fun r c' => r = data /\ idle c' /\ same_drives c c') c.
Proof.
  intros Hg Hidle Hcur Hl Hcnt Hmax Hok Hr. unfold ide_read. apply wp_bind, wp_assert; [apply Z.leb_le; lia|].
  apply wp_bind, wp_assert; [apply Z.ltb_lt; lia|]. apply wp_begin; [done..|]. intros l r Hrel. apply wp_bind.
  eapply wp_mono; [apply (wp_ide_read_loop _ lba cnt 0 [] data); [done|by apply quiet_begin, Hidle|lia|lia|lia|lia|done|]|].
  { by rewrite Z.add_0_r, Z.sub_0_r. }
  cbn beta. intros d c2 (-> & Hq2 & Lk2 & E0 & E1). apply wp_bind. unfold wp at 1, chan_release. rewrite Lk2. cbn [ch_lock set_sync].
  rewrite Hrel. cbn [obind]. apply wp_ret. split_and!; [done| |split_and!]; [|by rewrite (proj1 Hidle)|done|done].
  split; [done|]. destruct Hq2 as (? & ? & ? & ?). by split_and!.
Qed.

Lemma wp_driver_write lba cnt buf c :
  gap h = 0%nat \/ cnt = 1 -> idle c -> cur <> 0 -> (latency h < Z.to_nat 29999)%nat -> 0 <= lba -> 0 < cnt -> lba + cnt - 1 <= max_lba ->
  on_disk (drive dev c) lba (Z.to_nat cnt) -> 512 * cnt <= Z.of_nat (length buf) ->
  wp (ide_write h cur dev_no lba buf cnt) (fun _ c' => idle c' /\
    drive dev c' = write_sectors (drive dev c) lba (Z.to_nat cnt) buf /\
    drive (negb dev) c' = drive (negb dev) c) c.
Proof.
  intros Hg Hidle Hcur Hlat Hl Hcnt Hmax Hod Hlen. unfold ide_write. apply wp_bind, wp_assert; [apply Z.leb_le; lia|].
  apply wp_bind, wp_assert; [apply Z.ltb_lt; lia|]. apply wp_begin; [done..|]. intros l r Hrel. apply wp_bind.
  eapply wp_mono; [apply (wp_ide_write_loop _ lba cnt 0 buf); [done|by apply quiet_begin, Hidle|lia|lia|lia|done|lia|done|done]|].
  cbn beta. intros _ c2 (Hq2 & Lk2 & E0 & E1). unfold wp, chan_release. rewrite Lk2. cbn [ch_lock set_sync]. rewrite Hrel. cbn [obind].
  rewrite Z.add_0_r, Z.sub_0_r in E0. change (Z.to_nat (0 * 512)) with 0%nat in E0. rewrite drop_0 in E0.
  split; [|done]. split; [done|]. destruct Hq2 as (? & ? & ? & ?). by split_and!.
Qed.
End proofs.

(** ** A drive that needs time between sectors *)
Section torn.
Context (h : hw) (cur dev_no : Z).
Abbreviation dev := (dev_no =? 1).
Abbreviation keeps_lock m := (forall c, wp m (fun _ c' => ch_lock c' = ch_lock c) c).

Lemma settle_lock : keeps_lock settle.
Proof.
  intros c. unfold settle, raise, intr_hd_handler, read_status. wp_steps. destruct (bsy (c_ctl c)), (due (c_ctl c)); wp_steps; try done.
  destruct (irq _); wp_steps; [done|]. destruct (expecting_intr _); by wp_steps.
Qed.

Lemma insw_lock n : keeps_lock (insw_loop h n).
Proof.
  assert (keeps_lock tick) as Ht. { intros c. unfold tick. wp_steps. eapply wp_mono; [apply settle_lock|]. by intros. }
  assert (forall d l m, keeps_lock (next_in h d l m)) as Hn.
  { intros d l m c. unfold next_in. wp_steps. destruct m; wp_steps; [done|]. eapply wp_mono; [apply settle_lock|]. by intros. }
  assert (keeps_lock (inw h)) as Hi.
  { intros c. unfold inw. wp_steps. set (k := c_ctl c). clearbody k.
    destruct k as [[|b] du i [|d l m [|x [|y [|z s]]]|]]; cbn [bsy ph]; apply wp_bind;
      first [by apply wp_modify | eapply wp_mono; [apply Ht || apply Hn|]; by intros]. }
  induction n as [|n IH]; intros c; cbn [insw_loop]; wp_steps; [done|]. eapply wp_mono; [apply Hi|]. cbn beta. intros w c1 E1.
  wp_steps. eapply wp_mono; [apply IH|]. cbn beta. intros r c2 E2. wp_steps. congruence.
Qed.

(** The driver transfers all sectors of a command without waiting for the drive
    between them.  With a drive that is busy for some time after a block, a
    read of two sectors returns, and the second sector is not what is on the
    disk: its first word is what floats on the bus. *)
Theorem ide_read_torn (lba : Z) (s0 s1 : list Z) (c : chan)
    (Hgap : (0 < gap h)%nat) (Hidle : idle c) (Hcur : cur <> 0) (Hlba : 0 <= lba < max_lba)
    (Hs0 : drive dev c !! lba = Some s0) (Hs1 : drive dev c !! (lba + 1) = Some s1) (Hlen : length s0 = 512%nat)
    (Hbus : take 2 s1 <> floating h) :
  exists data c', ide_read h cur dev_no lba 2 c = Done (data, c') /\
    take 514 data = s0 ++ floating h /\ disk_read (drive dev c) lba 2 = Done (s0 ++ s1) /\ data <> s0 ++ s1.
Proof.
  assert (wp (ide_read h cur dev_no lba 2) (fun data _ => exists r, data = s0 ++ floating h ++ r) c) as (data & c' & E & r & ->)%wp_done.
  { unfold ide_read. apply wp_bind, wp_assert; [apply Z.leb_le; lia|]. apply wp_bind, wp_assert; [done|].
    apply wp_begin; [done..|]. intros l r Hrel. apply wp_bind. change (Z.to_nat 2) with 2%nat.
    cbn [ide_read_loop Z.ltb Z.compare]. rewrite Z.add_0_r, u32_id by (change max_lba with 163839 in *; unfold is_u32; lia).
    change (chunk 0 2) with 2. set (c1 := set_sync l false 0 (set_tf r c)).
    apply wp_bind3, (wp_read_start h dev_no lba 2 s0 c1); [by apply quiet_begin, Hidle|lia|lia|exact Hs0|]. intros r1. apply wp_bind.
    unfold busy_wait. apply wp_busy_wait; [lia|]. cbn [negb]. unfold read_from_sector, insw. rewrite (size_words 2) by lia.
    change (256 * S (pred (Z.to_nat 2)))%nat with (256 + 256)%nat. apply wp_bind.
    apply wp_insw_app, wp_insw_block; [exact Hlen|]. intros p. unfold next_in. change (pred (Z.to_nat 2)) with 1%nat. wp_steps.
    destruct (gap h) as [|g]; [lia|]. unfold settle at 1. wp_steps. cbn [c_ctl set_ctl bsy]. wp_steps. rewrite insw_S. unfold inw at 1.
    wp_steps. cbn [c_ctl set_ctl bsy]. unfold tick at 1. wp_steps. eapply wp_mono; [apply settle_lock|]. cbn beta. intros [] c2 L2. wp_steps.
    eapply wp_mono; [apply insw_lock|]. cbn beta. intros rest c3 L3. wp_steps. change (0 + 2 <? 2) with false. cbn iota. wp_steps.
    unfold wp, chan_release. rewrite L3, L2. cbn [ch_lock set_ctl set_tf set_sync]. subst c1. cbn [ch_lock set_sync]. rewrite Hrel. cbn [obind]. by exists rest. }
  exists (s0 ++ floating h ++ r), c'. split_and!; [done|by rewrite app_assoc, take_app_length'; [|rewrite length_app, Hlen]| |].
  - unfold disk_read. rewrite (proj2 (Z.leb_le lba max_lba)) by lia. change (Z.to_nat 2) with 2%nat. cbn [read_sectors oassert Z.ltb Z.compare].
    rewrite Hs0, Hs1. cbn [oget]. by rewrite app_nil_r.
  - intros Ed%app_inv_head. apply Hbus. by rewrite <- Ed.
Qed.
End torn.

(** C18: the driver implements the disk contract where it can.  On an idle
    channel, for any range of sectors the disk has below the driver's limit,
    with a drive that is ready within the polls [busy_wait] makes: for a drive
    that is ready for the next sector of a command at once, requests of any
    length (split into commands of at most 256 sectors, 256 being sent as 0),
    and for any other drive, requests of one sector.  Then
    [ide_read] returns exactly the bytes of these sectors and changes no drive,
    [ide_write] stores the buffer in exactly these sectors of the selected
    drive and leaves the other drive alone, and both leave the channel idle and
    its lock free.  [ide_read_torn] shows that the restriction is needed: the
    driver does not wait between the sectors of a command. *)
Theorem ide_refines_disk (h : hw) (cur dev_no lba cnt : Z) (c : chan)
    (Hgap : gap h = 0%nat \/ cnt = 1) (Hidle : idle c) (Hcur : cur <> 0) (Hlat : (latency h < Z.to_nat 29999)%nat)
    (Hlba : 0 <= lba) (Hcnt : 0 < cnt) (Hmax : lba + cnt - 1 <= max_lba)
    (Hok : disk_ok (drive (dev_no =? 1) c)) (Hod : on_disk (drive (dev_no =? 1) c) lba (Z.to_nat cnt)) :
  (exists data c', ide_read h cur dev_no lba cnt c = Done (data, c') /\
     disk_read (drive (dev_no =? 1) c) lba cnt = Done data /\
     drive0 c' = drive0 c /\ drive1 c' = drive1 c /\ idle c') /\
  (forall buf, Z.of_nat (length buf) = 512 * cnt ->
     exists c' d, ide_write h cur dev_no lba buf cnt c = Done (tt, c') /\
       disk_write (drive (dev_no =? 1) c) lba buf cnt = Done d /\ drive (dev_no =? 1) c' = d /\
       drive (negb (dev_no =? 1)) c' = drive (negb (dev_no =? 1)) c /\ idle c').
Proof.
  destruct (read_sectors_some _ _ _ Hod) as [data Hdata].
  unfold disk_read, disk_write. rewrite (proj2 (Z.leb_le lba max_lba)), (proj2 (Z.ltb_lt 0 cnt)), Hdata by lia.
  cbn [oassert obind oget]. split.
  - pose proof (wp_driver_read h cur dev_no lba cnt data c Hgap Hidle Hcur Hlba Hcnt Hmax Hok Hdata) as H.
    apply wp_done in H as (r & c' & E & -> & Hi & _ & D0 & D1). eauto 10.
  - intros buf Hb.
    pose proof (wp_driver_write h cur dev_no lba cnt buf c Hgap Hidle Hcur Hlat Hlba Hcnt Hmax Hod ltac:(lia)) as H.
    apply wp_done in H as ([] & c' & E & Hi & D0 & D1). eauto 10.
Qed.

(** A drive as an emulator has it: it answers after three accesses, and has the
    next sector at once. *)
Definition ex_hw : hw := mk_hw 3 0 255 255.
Definition ex_chan : chan :=
  mk_chan slock_init false 0 (mk_regs 0 0 0 0 0) (mk_ctl 0 false true Idle) ∅
    (list_to_map ((fun i => (i, replicate 512 i)) <$> seqZ 0 8)).

Lemma ide_refines_disk_witness :
  exists data c', ide_read ex_hw 4096 1 2 5 ex_chan = Done (data, c') /\
    disk_read (drive true ex_chan) 2 5 = Done data /\ drive0 c' = drive0 ex_chan /\ drive1 c' = drive1 ex_chan /\
    idle c'.
Proof.
  apply (ide_refines_disk ex_hw 4096 1 2 5 ex_chan);
    [by left|by split|done|cbn [latency ex_hw]; lia|lia|lia|vm_compute; done| |].
  - apply map_Forall_to_list. vm_compute. repeat constructor.
  - intros i Hi. assert (i = 2 \/ i = 3 \/ i = 4 \/ i = 5 \/ i = 6) as H by lia.
    destruct H as [->|[->|[->|[->| ->]]]]; vm_compute; eauto.
Defined.
