(* ===== verification/Identify.v ===== *)
(** * Identify: the identification of a drive ([device/ide.c] [identify_disk])

    The command IDENTIFY DEVICE makes the drive offer 512 bytes about itself, in
    which the characters of the serial number and of the model are stored with
    the two bytes of every word exchanged.  [identify_disk] fetches the bytes,
    without taking the channel's lock, and prints four facts from them; the
    model returns what is printed. *)

From stdpp Require Import base numbers list gmap.
From S2P Require Import Prelude Bitmap Cstring Path Seqlock Disk.
From S2P Require Import Ide.

Local Open Scope Z_scope.
Local Open Scope kernel_scope.

Definition CMD_IDENTIFY : Z := 0xec.

(** [idx] is a [uint8_t], [len] even and small. *)
Fixpoint swap_loop (n : nat) (dst : list Z) (buf : list Z) (idx len : Z) : outcome (list Z * Z) :=
  match n with
  | O => Halt Out_of_fuel
  | S n =>
      if idx <? len then
        match dst with
        | a :: b :: dst =>
            olet buf := oget (arr_set buf (idx + 1) a) Out_of_bounds in
            olet buf := oget (arr_set buf idx b) Out_of_bounds in
            swap_loop n dst buf (u8 (idx + 2)) len
        | _ => Halt Out_of_bounds
        end
      else Done (buf, idx)
  end.
Definition swap_pairs_bytes (dst buf : list Z) (len : Z) : outcome (list Z) :=
  olet (buf, idx) := swap_loop (S (Z.to_nat len)) dst buf 0 len in
  oget (arr_set buf idx 0) Out_of_bounds.

(** What is printed: serial number, model, sectors and capacity. *)
Record disk_info : Type := mk_info { i_sn : list Z; i_module : list Z; i_sects : Z; i_mb : Z }.

Section identify.
Context (h : hw) (dev_no : Z).
(** The 512 bytes of the two drives. *)
Context (identity : bool -> list Z).

(** One block and one interrupt, as for a read of one sector. *)
Definition dev_identify : M chan unit :=
  let! c := gets id in
  match bsy (c_ctl c) with
  | S _ => ret tt
  | O => let dev := sel_dev (tf c) in modify (set_ctl (mk_ctl (latency h) true false (Offers dev 0 0 (identity dev)))) ;;; settle
  end.
Definition cmd_identify : M chan unit :=
  modify (fun c => set_sync (ch_lock c) true (disk_done c) c) ;;;
  dev_identify.

(** [junk] is the array [buf] before it is filled. *)
Definition identify_disk (junk : list Z) : M chan disk_info :=
  select_disk dev_no ;;;
  cmd_identify ;;;
  sema_down_done ;;;
  let! ok := busy_wait in
  if negb ok then halt Panicked else
  let! id_info := read_from_sector h 1 in
  let! buf := lift (swap_pairs_bytes (drop 20 id_info) junk 20) in
  let! sn := lift (oget (cstring buf) Out_of_bounds) in
  let! buf := lift (swap_pairs_bytes (drop 54 id_info) (replicate 64 0) 40) in
  let! md := lift (oget (cstring buf) Out_of_bounds) in
  let sectors := nth 0 (bytes_words (take 4 (drop 120 id_info))) 0 in
  ret (mk_info sn md sectors (u32 (sectors * 512) / 1024 / 1024)).
End identify.

(** ** Reference: the bytes of every word exchanged *)
Fixpoint swapped (l : list Z) : list Z := match l with a :: b :: l => b :: a :: swapped l | _ => [] end.
(** The characters up to the first 0. *)
Definition text (l : list Z) : list Z := default [] (cstring (l ++ [0])).

(** Twice is as it was: swapping is how the drive stored them. *)
Lemma swapped_twice n : forall l, length l = (2 * n)%nat -> swapped (swapped l) = l.
Proof. induction n as [|n IH]; intros [|a [|b l]] Hl; cbn in Hl; try lia; [done|]. cbn [swapped]. by rewrite IH by lia. Qed.

Lemma swapped_length n : forall l, length l = (2 * n)%nat -> length (swapped l) = (2 * n)%nat.
Proof. induction n as [|n IH]; intros [|a [|b l]] Hl; cbn in Hl; try lia; [done|]. cbn [swapped length]. rewrite IH; lia. Qed.

Lemma arr_set_at (l r : list Z) x v i : i = Z.of_nat (length l) -> arr_set (l ++ x :: r) i v = Some (l ++ v :: r).
Proof.
  intros ->. unfold arr_set. rewrite length_app. cbn [length]. rewrite decide_True by lia.
  rewrite Nat2Z.id. by rewrite insert_app_r_alt, Nat.sub_diag by lia.
Qed.

Lemma swap_loop_spec n : forall fuel pre l l' buf, (n < fuel)%nat -> length l = (2 * n)%nat -> (2 * n <= length buf)%nat ->
  Z.of_nat (length pre + 2 * n) < 256 ->
  swap_loop fuel (l ++ l') (pre ++ buf) (Z.of_nat (length pre)) (Z.of_nat (length pre + 2 * n)) =
    Done (pre ++ swapped l ++ drop (2 * n) buf, Z.of_nat (length pre + 2 * n)).
Proof.
  induction n as [|n IH]; intros [|fuel] pre l l' buf Hf Hl Hb Hs; try lia; cbn [swap_loop].
  - rewrite (proj2 (Z.ltb_ge _ _)) by lia. destruct l; [|cbn in Hl; lia]. rewrite Nat.mul_0_r, Nat.add_0_r. done.
  - rewrite (proj2 (Z.ltb_lt _ _)) by lia. destruct l as [|a [|b l]]; cbn [length] in Hl; try lia.
    destruct buf as [|x [|y buf]]; cbn [length] in Hb; try lia. cbn [app].
    replace (pre ++ x :: y :: buf) with ((pre ++ [x]) ++ y :: buf) by (by rewrite <- app_assoc).
    rewrite arr_set_at by (rewrite length_app; cbn; lia). cbn [oget obind]. rewrite <- app_assoc. cbn [app].
    rewrite arr_set_at by done. cbn [oget obind]. rewrite u8_id by (unfold is_u8; lia).
    specialize (IH fuel (pre ++ [b; a]) l l' buf ltac:(lia) ltac:(lia) ltac:(lia)). rewrite length_app in IH. cbn [length] in IH.
    specialize (IH ltac:(lia)). rewrite <- !app_assoc in IH. cbn [app] in IH.
    replace (Z.of_nat (length pre) + 2) with (Z.of_nat (length pre + 2)) by lia.
    replace (length pre + 2 * S n)%nat with (length pre + 2 + 2 * n)%nat by lia. rewrite IH. cbn [swapped app].
    replace (2 * S n)%nat with (S (S (2 * n))) by lia. done.
Qed.

Lemma swap_pairs_spec n l l' buf : length l = (2 * n)%nat -> (2 * n < length buf)%nat -> Z.of_nat (2 * n) < 256 ->
  exists r, swap_pairs_bytes (l ++ l') buf (Z.of_nat (2 * n)) = Done (swapped l ++ 0 :: r).
Proof.
  intros Hl Hb Hs. unfold swap_pairs_bytes.
  pose proof (swap_loop_spec n (S (Z.to_nat (Z.of_nat (2 * n)))) [] l l' buf ltac:(lia) Hl ltac:(lia) ltac:(cbn; lia)) as E.
  cbn [length app Nat.add] in E. change (Z.of_nat 0) with 0 in E. rewrite E. cbn [obind].
  destruct (drop (2 * n) buf) as [|x r] eqn:Ed; [apply (f_equal length) in Ed; rewrite length_drop in Ed; cbn in Ed; lia|].
  exists r. rewrite arr_set_at by (by rewrite (swapped_length n)). done.
Qed.

Lemma cstring_text l r : cstring (l ++ 0 :: r) = Some (text l).
Proof.
  assert (exists t, forall r, cstring (l ++ 0 :: r) = Some t) as [t Ht].
  { induction l as [|x l [t IH]]; [by exists []|]. cbn [app cstring]. destruct (x =? 0); [by exists []|]. exists (x :: t). intros r'. by rewrite IH. }
  unfold text. by rewrite !Ht.
Qed.

(** [identify_disk] reports the drive.  On a channel between transfers it
    returns, for either drive and whatever was in its buffer: the serial number
    and the model with the bytes of every word exchanged, up to a 0, the number
    of sectors, and a capacity that is computed in 32 bits; the channel is
    between transfers again, with its lock and drives as they were. *)
Theorem identify_disk_correct (h : hw) (dev_no : Z) (identity : bool -> list Z) (junk : list Z) (c : chan)
    (Hquiet : quiet c) (Hjunk : length junk = 64%nat) (Hid : length (identity (dev_no =? 1)) = 512%nat) :
  let id := identity (dev_no =? 1) in
  let sectors := nth 0 (bytes_words (take 4 (drop 120 id))) 0 in
  exists c', identify_disk h dev_no identity junk c =
      Done (mk_info (text (swapped (take 20 (drop 20 id)))) (text (swapped (take 40 (drop 54 id)))) sectors
              (u32 (sectors * 512) / 1024 / 1024), c') /\
    quiet c' /\ same_drives c c'.
Proof.
  intros id sectors. destruct Hquiet as (He & Hd & Hb & Hdu). fold id in Hid.
  assert (forall k n, (k + 2 * n <= 512)%nat -> drop k id = take (2 * n) (drop k id) ++ drop (2 * n) (drop k id) /\ length (take (2 * n) (drop k id)) = (2 * n)%nat) as Hsl.
  { intros k n Hk. split; [by rewrite take_drop|]. rewrite length_take, length_drop. lia. }
  destruct (Hsl 20%nat 10%nat ltac:(lia)) as [S1 L1]. destruct (Hsl 54%nat 20%nat ltac:(lia)) as [S2 L2].
  destruct (swap_pairs_spec 10 _ (drop (2 * 10) (drop 20 id)) junk L1 ltac:(lia) ltac:(lia)) as [r1 E1].
  destruct (swap_pairs_spec 20 _ (drop (2 * 20) (drop 54 id)) (replicate 64 0) L2 ltac:(rewrite length_replicate; lia) ltac:(lia)) as [r2 E2].
  rewrite <- S1 in E1. rewrite <- S2 in E2. change (Z.of_nat (2 * 10)) with 20 in E1. change (Z.of_nat (2 * 20)) with 40 in E2.
  assert (wp (identify_disk h dev_no identity junk) (fun x c' => x = mk_info (text (swapped (take 20 (drop 20 id))))
    (text (swapped (take 40 (drop 54 id)))) sectors (u32 (sectors * 512) / 1024 / 1024) /\ quiet c' /\ same_drives c c') c) as H.
  { unfold identify_disk, select_disk, cmd_identify, dev_identify. wp_steps. unfold outb. rewrite Hb.
    cbn [c_ctl set_sync set_tf Datatypes.id ch_lock disk_done tf]. rewrite Hb. wp_steps.
    set (r := put_reg _ _ _). assert (sel_dev r = (dev_no =? 1)) as -> by (unfold r; destruct (tf c), (dev_no =? 1); done). fold id.
    apply wp_bind_after, wp_wait; [done|exact Hd|].
    change (set_sync _ false 0 _) with (set_ctl (mk_ctl 0 false false (Offers (dev_no =? 1) 0 0 id)) (set_sync (ch_lock c) false 0 (set_tf r c))).
    cbn beta. apply wp_bind. unfold busy_wait. apply wp_busy_wait; [lia|]. cbn [negb].
    unfold read_from_sector, insw. change (Z.to_nat ((if 1 =? 0 then 256 * 512 else 1 * 512) / 2)) with 256%nat. apply wp_bind.
    eapply wp_mono; [apply (wp_insw_block h (dev_no =? 1) 0 0 255 id _ _ _
      (fun data c' => data = id /\ quiet c' /\ same_drives c c')); [exact Hid|]|].
    { intros p. unfold next_in. wp_steps. split; [done|]. by split_and!. }
    cbn beta. intros data c' (-> & Hq & Hs). wp_steps.
    apply (wp_lift _ _ _ _ E1). wp_steps. apply (wp_lift _ (text (swapped (take 20 (drop 20 id))))); [by rewrite cstring_text|]. wp_steps.
    apply (wp_lift _ _ _ _ E2). wp_steps. apply (wp_lift _ (text (swapped (take 40 (drop 54 id))))); [by rewrite cstring_text|]. wp_steps.
    done. }
  apply wp_done in H as (x & c' & E & -> & Hq & Hs). eauto.
Qed.
