(* ===== verification/Fsdata.v ===== *)
(** * Fsdata: the data of the file system ([fs/inode.h], [fs/super_block.h],
      [fs/dir.h], [fs/file.h], [fs/file.c] bitmaps and descriptors)

    The state of the file system as one thread sees it: the disk (through the
    contract of [Disk]), the mounted partition [cur_part] with its two bitmaps
    and its list of open inodes, the in-memory inodes and directories by
    address, the global file table, the descriptor table of the running thread,
    and the heap.  Locks and interrupt flags are not modelled here: the calls
    run to completion. *)

From stdpp Require Import base numbers list gmap.
From S2P Require Import Prelude Bitmap Disk.

Local Open Scope Z_scope.
Local Open Scope kernel_scope.

Definition BLOCK_SIZE : Z := 512.
Definition MAX_FILE_OPEN : Z := 32.
Definition MAX_FILES_OPEN_PER_PROC : Z := 8.

Definition FT_UNKNOWN : Z := 0.
Definition FT_REGULAR : Z := 1.
Definition FT_DIRECTORY : Z := 2.

Record super_block : Type := mk_sb {
  magic : Z;
  sb_sec_cnt : Z;
  inode_cnt : Z;
  part_lba_base : Z;
  block_bitmap_lba : Z;
  block_bitmap_sects : Z;
  inode_bitmap_lba : Z;
  inode_bitmap_sects : Z;
  inode_table_lba : Z;
  inode_table_sects : Z;
  data_start_lba : Z;
  root_inode_no : Z;
  dir_entry_size : Z
}.

(** [struct inode] less its list tag: membership of [open_inodes] is in the
    state. *)
Record inode : Type := mk_inode {
  i_no : Z;
  i_size : Z;
  i_open_cnts : Z;
  write_deny : bool;
  i_sectors : list Z
}.

(** [fd_inode] is an address, 0 for [NULL]. *)
Record file : Type := mk_file { fd_pos : Z; fd_flag : Z; fd_inode : Z }.

Record dir : Type := mk_dir { d_inode : Z; dir_pos : Z }.
(** A [struct dir*]: [&root_dir], or an address in the heap. *)
Inductive dirptr : Type := RootDir | HeapDir (a : Z).

Record dir_entry : Type := mk_de { filename : list Z; de_i_no : Z; f_type : Z }.

(** ** The heap

    What [sys_malloc] and [sys_free] promise their callers.  [live] are the
    blocks in use, each with the pool it came from ([true]: the kernel's, used
    when the running thread has no page directory).  The allocator may answer
    anything: [answers] are the addresses it will propose, and it returns
    [NULL] for a proposal that is 0 or in use.  Freeing a block to the wrong
    pool fails the assertion on its address; freeing a block that is not in use
    is a fault. *)
Record heap : Type := mk_heap { live : gmap Z bool; answers : list Z }.

Definition heap_malloc (kernel : bool) (h : heap) : Z * heap :=
  match answers h with
  | [] => (0, h)
  | a :: r =>
      if bool_decide (a = 0 \/ is_Some (live h !! a)) then (0, mk_heap (live h) r)
      else (a, mk_heap (<[a := kernel]> (live h)) r)
  end.
Definition heap_free (kernel : bool) (p : Z) (h : heap) : outcome heap :=
  ASSERT negb (p =? 0) in
  olet k := oget (live h !! p) Out_of_bounds in
  ASSERT bool_decide (k = kernel) in
  Done (mk_heap (delete p (live h)) (answers h)).

(** ** The state *)
Record fs : Type := mk_fs {
  dsk : disk;
  sb : super_block;
  p_start_lba : Z;
  p_sec_cnt : Z;
  block_bitmap : bitmap;
  inode_bitmap : bitmap;
  inodes : gmap Z inode;
  open_inodes : list Z;
  file_table : list file;
  fd_table : list Z;
  root_dir : dir;
  dirs : gmap Z dir;
  hp : heap;
  in_kernel : bool          (** the running thread's [pgdir] is [NULL] *)
}.

Definition set_dsk (d : disk) (s : fs) : fs :=
  mk_fs d (sb s) (p_start_lba s) (p_sec_cnt s) (block_bitmap s) (inode_bitmap s) (inodes s) (open_inodes s)
    (file_table s) (fd_table s) (root_dir s) (dirs s) (hp s) (in_kernel s).
Definition set_block_bitmap (b : bitmap) (s : fs) : fs :=
  mk_fs (dsk s) (sb s) (p_start_lba s) (p_sec_cnt s) b (inode_bitmap s) (inodes s) (open_inodes s)
    (file_table s) (fd_table s) (root_dir s) (dirs s) (hp s) (in_kernel s).
Definition set_inode_bitmap (b : bitmap) (s : fs) : fs :=
  mk_fs (dsk s) (sb s) (p_start_lba s) (p_sec_cnt s) (block_bitmap s) b (inodes s) (open_inodes s)
    (file_table s) (fd_table s) (root_dir s) (dirs s) (hp s) (in_kernel s).
Definition set_inodes (i : gmap Z inode) (s : fs) : fs :=
  mk_fs (dsk s) (sb s) (p_start_lba s) (p_sec_cnt s) (block_bitmap s) (inode_bitmap s) i (open_inodes s)
    (file_table s) (fd_table s) (root_dir s) (dirs s) (hp s) (in_kernel s).
Definition set_open_inodes (l : list Z) (s : fs) : fs :=
  mk_fs (dsk s) (sb s) (p_start_lba s) (p_sec_cnt s) (block_bitmap s) (inode_bitmap s) (inodes s) l
    (file_table s) (fd_table s) (root_dir s) (dirs s) (hp s) (in_kernel s).
Definition set_file_table (l : list file) (s : fs) : fs :=
  mk_fs (dsk s) (sb s) (p_start_lba s) (p_sec_cnt s) (block_bitmap s) (inode_bitmap s) (inodes s) (open_inodes s)
    l (fd_table s) (root_dir s) (dirs s) (hp s) (in_kernel s).
Definition set_fd_table (l : list Z) (s : fs) : fs :=
  mk_fs (dsk s) (sb s) (p_start_lba s) (p_sec_cnt s) (block_bitmap s) (inode_bitmap s) (inodes s) (open_inodes s)
    (file_table s) l (root_dir s) (dirs s) (hp s) (in_kernel s).
Definition set_dirs (m : gmap Z dir) (s : fs) : fs :=
  mk_fs (dsk s) (sb s) (p_start_lba s) (p_sec_cnt s) (block_bitmap s) (inode_bitmap s) (inodes s) (open_inodes s)
    (file_table s) (fd_table s) (root_dir s) m (hp s) (in_kernel s).
Definition set_root_dir (d : dir) (s : fs) : fs :=
  mk_fs (dsk s) (sb s) (p_start_lba s) (p_sec_cnt s) (block_bitmap s) (inode_bitmap s) (inodes s) (open_inodes s)
    (file_table s) (fd_table s) d (dirs s) (hp s) (in_kernel s).
Definition set_hp (h : heap) (s : fs) : fs :=
  mk_fs (dsk s) (sb s) (p_start_lba s) (p_sec_cnt s) (block_bitmap s) (inode_bitmap s) (inodes s) (open_inodes s)
    (file_table s) (fd_table s) (root_dir s) (dirs s) h (in_kernel s).

(** ** Accesses *)
Definition ide_read (lba n : Z) : M fs (list Z) := fun s =>
  olet b := disk_read (dsk s) lba n in Done (b, s).
Definition ide_write (lba : Z) (buf : list Z) (n : Z) : M fs unit := fun s =>
  olet d := disk_write (dsk s) lba buf n in Done (tt, set_dsk d s).

(** A dereference of a pointer that is not to a live inode or directory. *)
Definition get_inode (a : Z) : M fs inode := fun s => olet i := oget (inodes s !! a) Out_of_bounds in Done (i, s).
Definition put_inode (a : Z) (i : inode) : M fs unit := modify (fun s => set_inodes (<[a := i]> (inodes s)) s).
Definition get_dir (d : dirptr) : M fs dir := fun s =>
  match d with
  | RootDir => Done (root_dir s, s)
  | HeapDir a => olet x := oget (dirs s !! a) Out_of_bounds in Done (x, s)
  end.
Definition put_dir (d : dirptr) (x : dir) : M fs unit :=
  match d with
  | RootDir => modify (set_root_dir x)
  | HeapDir a => modify (fun s => set_dirs (<[a := x]> (dirs s)) s)
  end.

Definition sys_malloc (kernel : bool) : M fs Z := fun s =>
  let (p, h) := heap_malloc kernel (hp s) in Done (p, set_hp h s).
Definition sys_free (kernel : bool) (p : Z) : M fs unit := fun s =>
  olet h := heap_free kernel p (hp s) in Done (tt, set_hp h s).

(** ** Arrays of bytes *)
(** [memcpy(buf + off, bytes, len)] into a buffer that is large enough. *)
Definition splice (buf : list Z) (off : Z) (bytes : list Z) : list Z :=
  take (Z.to_nat off) buf ++ bytes ++ drop (Z.to_nat off + length bytes) buf.
(** [len] bytes at [off]. *)
Definition slice (buf : list Z) (off len : Z) : list Z := take (Z.to_nat len) (drop (Z.to_nat off) buf).

(** ** Allocation of inodes and blocks ([fs/file.c]) *)
Definition inode_bitmap_alloc : M fs Z :=
  let! b := gets inode_bitmap in
  let! bit_idx := lift (bitmap_scan b 1) in
  if bit_idx =? -1 then ret (-1) else
  let! b := lift (bitmap_set b bit_idx 1) in
  modify (set_inode_bitmap b) ;;;
  ret bit_idx.

Definition block_bitmap_alloc : M fs Z :=
  let! b := gets block_bitmap in
  let! bit_idx := lift (bitmap_scan b 1) in
  if bit_idx =? -1 then ret (-1) else
  let! b := lift (bitmap_set b bit_idx 1) in
  modify (set_block_bitmap b) ;;;
  gets (fun s => i32 (data_start_lba (sb s) + bit_idx)).

Inductive bitmap_type : Type := INODE_BITMAP | BLOCK_BITMAP.

Definition bitmap_sync (bit_idx : Z) (btmp : bitmap_type) : M fs unit :=
  let off_sec := bit_idx / 4096 in
  let off_size := u32 (off_sec * BLOCK_SIZE) in
  let! s := gets id in
  let '(sec_lba, b) := match btmp with
                       | INODE_BITMAP => (u32 (inode_bitmap_lba (sb s) + off_sec), bits (inode_bitmap s))
                       | BLOCK_BITMAP => (u32 (block_bitmap_lba (sb s) + off_sec), bits (block_bitmap s))
                       end in
  if Z.of_nat (length b) <? off_size + 512 then halt Out_of_bounds else
  ide_write sec_lba (slice b off_size 512) 1.

(** ** Descriptors ([fs/file.c]) *)
Fixpoint find_slot (n : nat) (ft : list file) (fd_idx : Z) : outcome Z :=
  match n with
  | O => Done fd_idx
  | S n =>
      olet f := oget (arr_get ft fd_idx) Out_of_bounds in
      if fd_inode f =? 0 then Done fd_idx else find_slot n ft (fd_idx + 1)
  end.
Definition get_free_slot_in_global : M fs Z :=
  let! ft := gets file_table in
  let! fd_idx := lift (find_slot 29 ft 3) in
  if fd_idx =? MAX_FILE_OPEN then ret (-1) else ret fd_idx.

Fixpoint find_fd (n : nat) (t : list Z) (local_fd_idx : Z) : outcome Z :=
  match n with
  | O => Done local_fd_idx
  | S n =>
      olet g := oget (arr_get t local_fd_idx) Out_of_bounds in
      if g =? -1 then Done local_fd_idx else find_fd n t (local_fd_idx + 1)
  end.
Definition pcb_fd_install (globa_fd_idx : Z) : M fs Z :=
  let! t := gets fd_table in
  let! local_fd_idx := lift (find_fd 5 t 3) in
  if local_fd_idx =? MAX_FILES_OPEN_PER_PROC then ret (-1) else
  let! t := lift (oget (arr_set t local_fd_idx globa_fd_idx) Out_of_bounds) in
  modify (set_fd_table t) ;;;
  ret local_fd_idx.

(** ** Lemmas *)
Lemma splice_length buf off bytes :
  0 <= off -> (Z.to_nat off + length bytes <= length buf)%nat -> length (splice buf off bytes) = length buf.
Proof. intros Ho Hl. unfold splice. rewrite !length_app, length_take, length_drop. lia. Qed.

Lemma splice_lookup buf off bytes j :
  0 <= off -> (Z.to_nat off + length bytes <= length buf)%nat ->
  splice buf off bytes !! j =
    if decide (Z.to_nat off <= j < Z.to_nat off + length bytes)%nat then bytes !! (j - Z.to_nat off)%nat else buf !! j.
Proof.
  intros Ho Hl. unfold splice. destruct (decide (j < Z.to_nat off)%nat).
  - rewrite lookup_app_l by (rewrite length_take; lia). rewrite decide_False by lia. by rewrite lookup_take_lt.
  - rewrite lookup_app_r by (rewrite length_take; lia). rewrite length_take, Nat.min_l by lia.
    case_decide.
    + by rewrite lookup_app_l by lia.
    + rewrite lookup_app_r by lia. rewrite lookup_drop. f_equal. lia.
Qed.

Lemma slice_lookup buf off len j :
  slice buf off len !! j = if decide (j < Z.to_nat len)%nat then buf !! (Z.to_nat off + j)%nat else None.
Proof.
  unfold slice. case_decide.
  - by rewrite lookup_take_lt, lookup_drop by lia.
  - by rewrite lookup_take_ge by lia.
Qed.

Lemma slice_length buf off len :
  0 <= off -> off + len <= Z.of_nat (length buf) -> length (slice buf off len) = Z.to_nat len.
Proof. intros ? ?. unfold slice. rewrite length_take, length_drop. lia. Qed.

Lemma wp_ide_read lba n l s (Q : list Z -> fs -> Prop) :
  lba <= max_lba -> 0 < n -> read_sectors (dsk s) lba (Z.to_nat n) = Some l -> Q l s -> wp (ide_read lba n) Q s.
Proof.
  intros Hl Hn E HQ. unfold wp, ide_read, disk_read. rewrite (proj2 (Z.leb_le _ _)), (proj2 (Z.ltb_lt _ _)), E by lia.
  done.
Qed.

Lemma wp_ide_write lba buf n s (Q : unit -> fs -> Prop) :
  lba <= max_lba -> 0 < n -> on_disk (dsk s) lba (Z.to_nat n) ->
  Q tt (set_dsk (write_sectors (dsk s) lba (Z.to_nat n) buf) s) -> wp (ide_write lba buf n) Q s.
Proof.
  intros Hl Hn Hod HQ. destruct (read_sectors_some _ _ _ Hod) as [l E].
  unfold wp, ide_write, disk_write. rewrite (proj2 (Z.leb_le _ _)), (proj2 (Z.ltb_lt _ _)), E by lia. done.
Qed.

(** One sector. *)
Lemma wp_ide_read1 lba l s (Q : list Z -> fs -> Prop) :
  lba <= max_lba -> dsk s !! lba = Some l -> Q l s -> wp (ide_read lba 1) Q s.
Proof.
  intros Hl E HQ. apply (wp_ide_read lba 1 l); [done|lia| |done].
  change (Z.to_nat 1) with 1%nat. cbn [read_sectors]. by rewrite E, app_nil_r.
Qed.

Lemma wp_ide_write1 lba buf s (Q : unit -> fs -> Prop) :
  lba <= max_lba -> is_Some (dsk s !! lba) ->
  Q tt (set_dsk (<[lba := take 512 buf]> (dsk s)) s) -> wp (ide_write lba buf 1) Q s.
Proof.
  intros Hl E HQ. apply wp_ide_write; [done|lia| |done].
  intros i Hi. change (Z.of_nat (Z.to_nat 1)) with 1 in Hi. by replace i with lba by lia.
Qed.

Lemma wp_get_inode a i s (Q : inode -> fs -> Prop) : inodes s !! a = Some i -> Q i s -> wp (get_inode a) Q s.
Proof. intros E HQ. unfold wp, get_inode. by rewrite E. Qed.

(** The next proposal of the allocator is a block not in use. *)
Definition fresh_head (h : heap) (a : Z) (r : list Z) : Prop := answers h = a :: r /\ a <> 0 /\ live h !! a = None.

Lemma wp_malloc k a r s (Q : Z -> fs -> Prop) :
  fresh_head (hp s) a r -> Q a (set_hp (mk_heap (<[a := k]> (live (hp s))) r) s) -> wp (sys_malloc k) Q s.
Proof.
  intros (E & Ha & Hn) HQ. unfold wp, sys_malloc, heap_malloc. rewrite E, bool_decide_eq_false_2; [done|].
  rewrite Hn. intros [?|[? ?]]; done.
Qed.

Lemma wp_free k a s (Q : unit -> fs -> Prop) :
  a <> 0 -> live (hp s) !! a = Some k -> Q tt (set_hp (mk_heap (delete a (live (hp s))) (answers (hp s))) s) ->
  wp (sys_free k a) Q s.
Proof.
  intros Ha E HQ. unfold wp, sys_free, heap_free. rewrite (proj2 (Z.eqb_neq _ _)), E by done. cbn [negb oassert obind oget].
  by rewrite bool_decide_eq_true_2.
Qed.

(** ** A small file system, for the examples

    800 sectors: the block bitmap in sector 2, the inode bitmap in 3, the inode
    table in 4 to 611, the root directory's block 612; a regular file with inode
    number 1 is open.  The data area has 188 blocks; the bits of the block bitmap
    after them are set. *)
Definition zero_disk (n : Z) : disk := gset_to_gmap (replicate 512 0) (list_to_set (seqZ 0 n) : gset Z).

Lemma zero_disk_lookup n i : zero_disk n !! i = if decide (0 <= i < n) then Some (replicate 512 0) else None.
Proof.
  unfold zero_disk. rewrite lookup_gset_to_gmap. case_decide as H.
  - rewrite option_guard_True; [done|]. apply elem_of_list_to_set, elem_of_seqZ. lia.
  - rewrite option_guard_False; [done|]. rewrite elem_of_list_to_set, elem_of_seqZ. lia.
Qed.

Definition ex_sb : super_block := mk_sb 0x19590318 800 4096 0 2 1 3 1 4 608 612 0 24.
Definition ex_root : inode := mk_inode 0 48 1 false (612 :: replicate 12 0).
Definition ex_file_inode : inode := mk_inode 1 5 1 false (613 :: replicate 12 0).
Definition ex_sector : list Z := [104; 101; 108; 108; 111] ++ replicate 507 0.
Definition ex_fs : fs :=
  mk_fs (<[613 := ex_sector]> (zero_disk 800)) ex_sb 0 800
    (mk_bitmap 512 (3 :: replicate 22 0 ++ [240] ++ replicate 488 255)) (mk_bitmap 512 (3 :: replicate 511 0))
    (<[4096 := ex_root]> (<[8192 := ex_file_inode]> ∅)) [8192; 4096]
    ([mk_file 0 0 0; mk_file 0 0 0; mk_file 0 0 0; mk_file 0 2 8192] ++ replicate 28 (mk_file 0 0 0))
    [0; 1; 2; 3; -1; -1; -1; -1] (mk_dir 4096 0) ∅
    (mk_heap (<[4096 := true]> (<[8192 := true]> ∅)) [12288; 16384; 20480; 24576]) false.

Lemma ex_disk_lookup i :
  dsk ex_fs !! i = if decide (i = 613) then Some ex_sector
                   else if decide (0 <= i < 800) then Some (replicate 512 0) else None.
Proof.
  cbn [dsk ex_fs]. destruct (decide (i = 613)) as [->|Hne].
  - apply lookup_insert_eq.
  - rewrite lookup_insert_ne by done. apply zero_disk_lookup.
Qed.

Lemma ex_disk_ok : disk_ok (dsk ex_fs).
Proof.
  intros i l. rewrite ex_disk_lookup. case_decide; [by intros [= <-]|]. case_decide; [|done].
  by intros [= <-].
Qed.

Lemma ex_on_disk lba n : 0 <= lba -> lba + Z.of_nat n <= 800 -> on_disk (dsk ex_fs) lba n.
Proof.
  intros Hl Hn i Hi. rewrite ex_disk_lookup. case_decide; [eauto|]. rewrite decide_True by lia. eauto.
Qed.
