(* ===== verification/Inode.v ===== *)
(** * Inode: [fs/inode.c]

    Inodes on disk (an array of 76-byte records that may straddle two sectors)
    and in memory (the list of open inodes). *)

From stdpp Require Import base numbers list gmap.
From S2P Require Import Prelude Bitmap Disk Fsdata.

Local Open Scope Z_scope.
Local Open Scope kernel_scope.

(** [sizeof(struct inode)]: four words, the 13 block addresses and the two
    pointers of the list tag. *)
Definition inode_size : Z := 76.

(** The bytes of an inode in memory, with the pointers of its tag. *)
Definition inode_bytes (i : inode) (prev next : Z) : list Z :=
  words_bytes ([i_no i; i_size i; i_open_cnts i; if write_deny i then 1 else 0] ++ i_sectors i ++ [prev; next]).
Definition inode_of_bytes (l : list Z) : inode :=
  let w := bytes_words l in
  mk_inode (nth 0 w 0) (nth 1 w 0) (nth 2 w 0) (negb (nth 3 w 0 =? 0)) (take 13 (drop 4 w)).

Record inode_position : Type := mk_pos { two_sec : bool; sec_lba : Z; off_size : Z }.

Definition inode_locate (inode_no : Z) : M fs inode_position :=
  assertM (inode_no <? 4096) ;;;
  let! table := gets (fun s => inode_table_lba (sb s)) in
  let off := u32 (inode_no * inode_size) in
  let off_sec := off / 512 in
  let off_size_in_sec := off mod 512 in
  let left_in_sec := 512 - off_size_in_sec in
  ret (mk_pos (left_in_sec <? inode_size) (u32 (table + off_sec)) off_size_in_sec).

(** The number of sectors an inode at [pos] takes; [io_buf] has [io_len] bytes. *)
Definition pos_sectors (pos : inode_position) : Z := if two_sec pos then 2 else 1.
Definition check_buf (pos : inode_position) (io_len : Z) : M fs unit :=
  if io_len <? 512 * pos_sectors pos then halt Out_of_bounds else ret tt.

Definition check_pos (pos : inode_position) : M fs unit :=
  let! s := gets id in assertM (sec_lba pos <=? u32 (p_start_lba s + p_sec_cnt s)).

(** The inode goes to disk without its open count, its write lock and its
    list tag. *)
Definition pure_inode (i : inode) : inode := mk_inode (i_no i) (i_size i) 0 false (i_sectors i).

Definition inode_sync (i : inode) (io_len : Z) : M fs unit :=
  let inode_no := u8 (i_no i) in
  let! pos := inode_locate inode_no in
  check_pos pos ;;;
  check_buf pos io_len ;;;
  let! inode_buf := ide_read (sec_lba pos) (pos_sectors pos) in
  let inode_buf := splice inode_buf (off_size pos) (inode_bytes (pure_inode i) 0 0) in
  ide_write (sec_lba pos) inode_buf (pos_sectors pos).

(** The search of [open_inodes]. *)
Fixpoint find_open (l : list Z) (m : gmap Z inode) (no : Z) : outcome (option Z) :=
  match l with
  | [] => Done None
  | a :: l =>
      olet i := oget (m !! a) Out_of_bounds in
      if i_no i =? no then Done (Some a) else find_open l m no
  end.

Definition inode_open (inode_no : Z) : M fs Z :=
  let! s := gets id in
  let! found := lift (find_open (open_inodes s) (inodes s) inode_no) in
  match found with
  | Some a =>
      let! i := get_inode a in
      put_inode a (mk_inode (i_no i) (i_size i) (u32 (i_open_cnts i + 1)) (write_deny i) (i_sectors i)) ;;;
      ret a
  | None =>
      let! pos := inode_locate inode_no in
      let! inode_found := sys_malloc true in
      let! k := gets in_kernel in
      let! inode_buf := sys_malloc k in
      if (inode_found =? 0) || (inode_buf =? 0) then halt Out_of_bounds else
      let! buf := ide_read (sec_lba pos) (pos_sectors pos) in
      let i := inode_of_bytes (slice buf (off_size pos) inode_size) in
      modify (fun s => set_open_inodes (inode_found :: open_inodes s) s) ;;;
      put_inode inode_found (mk_inode (i_no i) (i_size i) 1 (write_deny i) (i_sectors i)) ;;;
      sys_free k inode_buf ;;;
      ret inode_found
  end.

Definition inode_close (a : Z) : M fs unit :=
  let! i := get_inode a in
  let cnts := u32 (i_open_cnts i - 1) in
  put_inode a (mk_inode (i_no i) (i_size i) cnts (write_deny i) (i_sectors i)) ;;;
  if cnts =? 0 then
    modify (fun s => set_open_inodes (filter (fun x => x <> a) (open_inodes s)) s) ;;;
    modify (fun s => set_inodes (delete a (inodes s)) s) ;;;
    sys_free true a
  else ret tt.

Definition inode_delete (inode_no io_len : Z) : M fs unit :=
  assertM (inode_no <? 4096) ;;;
  let! pos := inode_locate inode_no in
  check_pos pos ;;;
  check_buf pos io_len ;;;
  let! inode_buf := ide_read (sec_lba pos) (pos_sectors pos) in
  let inode_buf := splice inode_buf (off_size pos) (replicate (Z.to_nat inode_size) 0) in
  ide_write (sec_lba pos) inode_buf (pos_sectors pos).

(** Clearing a block's bit, in memory and on disk. *)
Definition release_block (lba : Z) : M fs unit :=
  let! s := gets id in
  let block_bitmap_idx := u32 (lba - data_start_lba (sb s)) in
  assertM (0 <? block_bitmap_idx) ;;;
  let! b := lift (bitmap_set (block_bitmap s) block_bitmap_idx 0) in
  modify (set_block_bitmap b) ;;;
  bitmap_sync block_bitmap_idx BLOCK_BITMAP.

Fixpoint release_blocks (blocks : list Z) : M fs unit :=
  match blocks with
  | [] => ret tt
  | b :: blocks => (if negb (b =? 0) then release_block b else ret tt) ;;; release_blocks blocks
  end.

Definition inode_release (inode_no : Z) : M fs unit :=
  let! inode_to_del := inode_open inode_no in
  let! i := get_inode inode_to_del in
  assertM (i_no i =? inode_no) ;;;
  let indirect := nth 12 (i_sectors i) 0 in
  let! all_blocks :=
    (if negb (indirect =? 0) then
       let! buf := ide_read indirect 1 in
       release_block indirect ;;;
       ret (take 12 (i_sectors i) ++ bytes_words buf)
     else ret (take 12 (i_sectors i))) in
  release_blocks all_blocks ;;;
  let! s := gets id in
  let! b := lift (bitmap_set (inode_bitmap s) inode_no 0) in
  modify (set_inode_bitmap b) ;;;
  bitmap_sync inode_no INODE_BITMAP ;;;
  let! k := gets in_kernel in
  let! io_buf := sys_malloc k in
  if io_buf =? 0 then halt Out_of_bounds else
  inode_delete inode_no 1024 ;;;
  sys_free k io_buf ;;;
  inode_close inode_to_del.

Definition inode_init (inode_no : Z) : inode := mk_inode inode_no 0 0 false (replicate 13 0).

(** ** The inode table on disk *)

(** The table's 608 sectors lie on the disk, inside the partition. *)
Record table_ok (s : fs) : Prop := {
  to_disk : disk_ok (dsk s);
  to_lba : 0 <= inode_table_lba (sb s);
  to_on_disk : on_disk (dsk s) (inode_table_lba (sb s)) 608;
  to_max : inode_table_lba (sb s) + 608 <= max_lba + 1;
  to_part : inode_table_lba (sb s) + 608 <= p_start_lba s + p_sec_cnt s < 4294967296
}.

(** Byte address of slot [n], and the inode stored there. *)
Definition slot_off (s : fs) (n : Z) : Z := 512 * inode_table_lba (sb s) + inode_size * n.
Definition disk_inode (s : fs) (n : Z) : option inode :=
  match dbytes (dsk s) (slot_off s n) 76 with Some l => Some (inode_of_bytes l) | None => None end.

Definition straddles (n : Z) : bool := 512 - (inode_size * n) mod 512 <? inode_size.
Definition pos_of (s : fs) (n : Z) : inode_position :=
  mk_pos (straddles n) (inode_table_lba (sb s) + inode_size * n / 512) ((inode_size * n) mod 512).

Lemma wp_inode_locate s n (Q : inode_position -> fs -> Prop) :
  table_ok s -> 0 <= n < 4096 -> Q (pos_of s n) s -> wp (inode_locate n) Q s.
Proof.
  intros Ht Hn HQ. unfold inode_locate. wp_steps; [apply Z.ltb_lt; lia|].
  unfold pos_of, straddles, inode_size in *. destruct Ht as [_ ? _ ? _]. change max_lba with 163839 in *.
  rewrite (u32_id (n * 76)) by (unfold is_u32; lia).
  pose proof (Z.div_pos (n * 76) 512). pose proof (Z.div_lt_upper_bound (n * 76) 512 608).
  rewrite u32_id by (unfold is_u32; lia). by rewrite (Z.mul_comm n 76).
Qed.

Lemma pos_of_spec s n : 0 <= n < 4096 ->
  let p := pos_of s n in
  512 * sec_lba p + off_size p = slot_off s n /\ 0 <= off_size p < 512 /\
  off_size p + 76 <= 512 * pos_sectors p /\
  inode_table_lba (sb s) <= sec_lba p /\ sec_lba p + pos_sectors p <= inode_table_lba (sb s) + 608.
Proof.
  intros Hn p. unfold p, pos_of, pos_sectors, slot_off, inode_size. cbn [two_sec sec_lba off_size].
  unfold straddles, inode_size.
  pose proof (Z.div_mod (76 * n) 512 ltac:(lia)). pose proof (Z.mod_pos_bound (76 * n) 512 ltac:(lia)).
  destruct (Z.ltb_spec (512 - (76 * n) mod 512) 76); lia.
Qed.

(** Overwriting a slot: the read-modify-write shared by [inode_sync] and
    [inode_delete]. *)
Definition slot_write (d d' : disk) (off : Z) (bytes : list Z) : Prop :=
  disk_ok d' /\ (forall lba, is_Some (d' !! lba) <-> is_Some (d !! lba)) /\
  forall k, dbyte d' k = if decide (off <= k < off + Z.of_nat (length bytes))
                         then bytes !! Z.to_nat (k - off) else dbyte d k.

Lemma wp_slot_write s n io_len bytes :
  table_ok s -> 0 <= n < 4096 -> length bytes = 76%nat -> 512 * (if straddles n then 2 else 1) <= io_len ->
  let p := pos_of s n in
  wp (check_pos p ;;; check_buf p io_len ;;;
      let! buf := ide_read (sec_lba p) (pos_sectors p) in
      ide_write (sec_lba p) (splice buf (off_size p) bytes) (pos_sectors p))
     (fun _ s' => exists d', s' = set_dsk d' s /\ slot_write (dsk s) d' (slot_off s n) bytes) s.
Proof.
  intros Ht Hn Hb Hio p. destruct (pos_of_spec s n Hn) as (Hoff & Ho & Hend & Hlo & Hhi). fold p in Hoff, Ho, Hend, Hlo, Hhi.
  pose proof Ht as [Hdok Hlba Hod Hmax Hpart]. change (two_sec p) with (straddles n) in *.
  assert (1 <= pos_sectors p <= 2) as Hps by (unfold pos_sectors; destruct (two_sec p); lia).
  unfold check_pos. wp_steps.
  { unfold id. rewrite u32_id by (unfold is_u32; lia). apply Z.leb_le. lia. }
  unfold check_buf. rewrite (proj2 (Z.ltb_ge _ _)) by exact Hio. wp_steps.
  assert (on_disk (dsk s) (sec_lba p) (Z.to_nat (pos_sectors p))) as Hod'.
  { intros i Hi. apply Hod. lia. }
  destruct (read_sectors_some _ _ _ Hod') as [buf Hbuf].
  pose proof (read_sectors_length _ _ _ _ Hdok Hbuf) as Hlen.
  apply (wp_ide_read _ _ buf); [lia|lia|done|]. apply wp_ide_write; [lia|lia|done|].
  assert (length (splice buf (off_size p) bytes) = 512 * Z.to_nat (pos_sectors p))%nat as Hsl.
  { rewrite splice_length by lia. done. }
  eexists. split; [done|]. split; [|split].
  - apply write_sectors_ok; [done|lia].
  - intros lba. rewrite write_sectors_lookup. case_decide; [|done]. split; [intros _; apply Hod'; lia|eauto].
  - intros k. rewrite write_sectors_byte by done. rewrite Hb, <- Hoff. case_decide as Hk.
    + rewrite splice_lookup by lia. rewrite Hb. destruct (decide (512 * sec_lba p + off_size p <= k < 512 * sec_lba p + off_size p + Z.of_nat 76)).
      * rewrite decide_True by lia. f_equal. lia.
      * rewrite decide_False by lia. rewrite (read_sectors_byte _ _ _ _ _ Hdok Hbuf) by lia. f_equal. lia.
    + rewrite decide_False by lia. done.
Qed.

Lemma slot_write_same s d' n m bytes :
  slot_write (dsk s) d' (slot_off s n) bytes -> length bytes = 76%nat -> m <> n ->
  disk_inode (set_dsk d' s) m = disk_inode s m.
Proof.
  intros (_ & _ & H) Hb Hne. unfold disk_inode. change (slot_off (set_dsk d' s) m) with (slot_off s m).
  cbn [set_dsk dsk]. rewrite (dbytes_eq (dsk s)); [done|].
  intros j Hj. rewrite H, decide_False; [done|]. rewrite Hb. unfold slot_off, inode_size. lia.
Qed.

Lemma slot_write_inode s d' n bytes :
  slot_write (dsk s) d' (slot_off s n) bytes -> length bytes = 76%nat ->
  disk_inode (set_dsk d' s) n = Some (inode_of_bytes bytes).
Proof.
  intros (_ & _ & H) Hb. unfold disk_inode. change (slot_off (set_dsk d' s) n) with (slot_off s n).
  cbn [set_dsk dsk]. assert (dbytes d' (slot_off s n) 76 = Some bytes) as ->; [|done].
  apply dbytes_Some. split; [done|]. intros j Hj. rewrite H, decide_True by lia. f_equal. lia.
Qed.

(** ** Encoding *)
Record inode_ok (i : inode) : Prop := {
  io_no : is_u32 (i_no i);
  io_size : is_u32 (i_size i);
  io_cnts : is_u32 (i_open_cnts i);
  io_len : length (i_sectors i) = 13%nat;
  io_sectors : Forall is_u32 (i_sectors i)
}.

Lemma inode_bytes_length i p n : length (i_sectors i) = 13%nat -> length (inode_bytes i p n) = 76%nat.
Proof. intros H. unfold inode_bytes. rewrite words_bytes_length, !length_app, H. done. Qed.

Lemma inode_bytes_roundtrip i p n : inode_ok i -> is_u32 p -> is_u32 n -> inode_of_bytes (inode_bytes i p n) = i.
Proof.
  intros [H1 H2 H3 H4 H5] Hp Hn. unfold inode_of_bytes, inode_bytes. rewrite bytes_words_bytes.
  - cbn [app nth]. destruct i as [no sz oc wd sec]. cbn [i_no i_size i_open_cnts write_deny i_sectors] in *.
    f_equal; [by destruct wd|]. cbn [drop]. rewrite drop_0, take_app_le, firstn_all2 by lia. done.
  - assert (is_u32 (if write_deny i then 1 else 0)) by (unfold is_u32; destruct (write_deny i); lia).
    apply Forall_app. split; [|apply Forall_app; split; [done|]];
      repeat (apply Forall_cons_2; [done|]); apply Forall_nil_2.
Qed.

Lemma wp_inode_sync s i io_len (Q : unit -> fs -> Prop) :
  table_ok s -> length (i_sectors i) = 13%nat -> 512 * (if straddles (u8 (i_no i)) then 2 else 1) <= io_len ->
  (forall d', slot_write (dsk s) d' (slot_off s (u8 (i_no i))) (inode_bytes (pure_inode i) 0 0) -> Q tt (set_dsk d' s)) ->
  wp (inode_sync i io_len) Q s.
Proof.
  intros Ht Hi Hio HQ. pose proof (u8_range (i_no i)) as Hu. unfold is_u8 in Hu. unfold inode_sync.
  apply wp_bind, wp_inode_locate; [done|lia|].
  eapply wp_mono; [apply wp_slot_write; [done|lia|by apply inode_bytes_length|done]|].
  cbn beta. intros [] s' (d' & -> & Hw). by apply HQ.
Qed.

(** C20: writing an inode back.  With a buffer of the size its position needs,
    [inode_sync] writes into one slot of the on-disk inode table the inode with
    open count 0 and no write lock, also when the slot straddles two sectors;
    every other slot of the table decodes to what it was and no byte outside
    the slot changes.  The slot is [i_no] modulo 256 (the number goes through a
    [uint8_t]): for inode numbers below 256 the inode's own slot, for others
    the slot of another inode. *)
Theorem inode_sync_correct (s : fs) (i : inode) (io_len : Z)
    (Ht : table_ok s) (Hi : inode_ok i) (Hio : 512 * (if straddles (u8 (i_no i)) then 2 else 1) <= io_len) :
  let n := i_no i mod 256 in
  exists d', inode_sync i io_len s = Done (tt, set_dsk d' s) /\
    disk_inode (set_dsk d' s) n = Some (pure_inode i) /\
    (forall m, m <> n -> disk_inode (set_dsk d' s) m = disk_inode s m) /\
    (forall k, ~ (slot_off s n <= k < slot_off s n + inode_size) -> dbyte d' k = dbyte (dsk s) k).
Proof.
  intros n.
  assert (length (inode_bytes (pure_inode i) 0 0) = 76%nat) as Hlen by (apply inode_bytes_length, Hi).
  assert (wp (inode_sync i io_len) (fun _ s' => exists d', s' = set_dsk d' s /\
    slot_write (dsk s) d' (slot_off s n) (inode_bytes (pure_inode i) 0 0)) s) as H.
  { apply wp_inode_sync; [done|apply Hi|done|eauto]. }
  apply wp_done in H as ([] & s' & E & d' & -> & Hw). exists d'. split; [done|].
  split; [|split].
  - rewrite (slot_write_inode _ _ _ _ Hw Hlen). f_equal. apply inode_bytes_roundtrip; [|done|done].
    destruct Hi. by split.
  - intros m Hm. by apply (slot_write_same _ _ _ _ _ Hw Hlen).
  - intros k Hk. destruct Hw as (_ & _ & Hw). rewrite Hw, decide_False; [done|]. unfold inode_size in Hk. lia.
Qed.

Lemma ex_table_ok : table_ok ex_fs.
Proof.
  split; [apply ex_disk_ok|done|apply ex_on_disk; done|done|done].
Qed.

Lemma inode_sync_correct_witness :
  exists d', inode_sync ex_file_inode 512 ex_fs = Done (tt, set_dsk d' ex_fs) /\
    disk_inode (set_dsk d' ex_fs) 1 = Some (pure_inode ex_file_inode).
Proof.
  destruct (inode_sync_correct ex_fs ex_file_inode 512 ex_table_ok) as (d' & H1 & H2 & _).
  - split; try done. repeat (apply Forall_cons_2; [done|]); apply Forall_nil_2.
  - done.
  - exists d'. split; [exact H1|exact H2].
Defined.

(** ** Open inodes *)

(** The list of open inodes: no repetition, every element an inode in kernel
    memory that some thread has open, and every in-memory inode is in it. *)
Record open_wf (s : fs) : Prop := {
  ow_nodup : NoDup (open_inodes s);
  ow_in : forall a, a ∈ open_inodes s <-> is_Some (inodes s !! a);
  ow_live : forall a, a ∈ open_inodes s -> a <> 0 /\ live (hp s) !! a = Some true;
  ow_cnts : forall a i, inodes s !! a = Some i -> 1 <= i_open_cnts i < 4294967295
}.

Definition bump (i : inode) : inode :=
  mk_inode (i_no i) (i_size i) (i_open_cnts i + 1) (write_deny i) (i_sectors i).

Lemma find_open_spec l m no :
  (forall a, a ∈ l -> is_Some (m !! a)) ->
  exists r, find_open l m no = Done r /\
    match r with
    | Some a => a ∈ l /\ exists i, m !! a = Some i /\ i_no i = no
    | None => forall a i, a ∈ l -> m !! a = Some i -> i_no i <> no
    end.
Proof.
  induction l as [|a l IH]; intros Hl; cbn [find_open].
  - exists None. split; [done|]. intros a i Ha. by apply not_elem_of_nil in Ha.
  - destruct (Hl a ltac:(by left)) as [i Hi]. rewrite Hi. cbn [oget obind].
    destruct (Z.eqb_spec (i_no i) no) as [E|E].
    + exists (Some a). split; [done|]. split; [by left|eauto].
    + destruct IH as (r & -> & Hr); [intros b Hb; apply Hl; by right|]. exists r. split; [done|].
      destruct r as [b|].
      * destruct Hr as [? ?]. split; [by right|done].
      * intros b j [->|Hb]%elem_of_cons Hj; [congruence|eauto].
Qed.

(** What a caller of [inode_open] gets: the open inode with that number, or a
    copy of the one on disk. *)
Definition opened (s : fs) (n : Z) (i : inode) : Prop :=
  (exists a j, inodes s !! a = Some j /\ i_no j = n /\ i = bump j) \/
  ((forall a j, inodes s !! a = Some j -> i_no j <> n) /\
   exists j, disk_inode s n = Some j /\ i = mk_inode (i_no j) (i_size j) 1 (write_deny j) (i_sectors j)).

(** The allocator's next two proposals are blocks not in use. *)
Definition two_fresh (h : heap) : Prop :=
  exists a b r, answers h = a :: b :: r /\ a <> 0 /\ b <> 0 /\ a <> b /\ live h !! a = None /\ live h !! b = None.

(** Same file system, the heap's proposals aside. *)
Definition same_fs (s s' : fs) : Prop := exists r, s' = set_hp (mk_heap (live (hp s)) r) s.

Lemma slot_slice s n buf :
  table_ok s -> 0 <= n < 4096 ->
  read_sectors (dsk s) (sec_lba (pos_of s n)) (Z.to_nat (pos_sectors (pos_of s n))) = Some buf ->
  disk_inode s n = Some (inode_of_bytes (slice buf (off_size (pos_of s n)) inode_size)).
Proof.
  intros Ht Hn Hbuf. destruct (pos_of_spec s n Hn) as (Hoff & Ho & Hend & _ & _).
  pose proof (read_sectors_length _ _ _ _ (to_disk s Ht) Hbuf) as Hlen.
  unfold disk_inode. assert (dbytes (dsk s) (slot_off s n) 76 = Some (slice buf (off_size (pos_of s n)) inode_size)) as ->; [|done].
  apply dbytes_Some. split; [apply slice_length; unfold inode_size; lia|].
  intros j Hj. rewrite slice_lookup. unfold inode_size. rewrite decide_True by lia.
  rewrite (read_sectors_byte _ _ _ _ _ (to_disk s Ht) Hbuf) by lia. f_equal. lia.
Qed.

Lemma wp_inode_open_cached s n a i (Q : Z -> fs -> Prop) :
  find_open (open_inodes s) (inodes s) n = Done (Some a) -> inodes s !! a = Some i ->
  1 <= i_open_cnts i < 4294967295 ->
  Q a (set_inodes (<[a := bump i]> (inodes s)) s) -> wp (inode_open n) Q s.
Proof.
  intros E Hi Hc HQ. unfold inode_open. wp_steps. apply (wp_lift _ (Some a)); [done|]. wp_steps.
  apply (wp_get_inode _ i); [done|]. unfold put_inode. wp_steps.
  rewrite u32_id by (unfold is_u32; lia). done.
Qed.

Lemma wp_inode_open_disk s n a b r i (Q : Z -> fs -> Prop) :
  table_ok s -> 0 <= n < 4096 -> find_open (open_inodes s) (inodes s) n = Done None ->
  answers (hp s) = a :: b :: r -> a <> 0 -> b <> 0 -> a <> b -> live (hp s) !! a = None -> live (hp s) !! b = None ->
  disk_inode s n = Some i ->
  Q a (set_hp (mk_heap (<[a := true]> (live (hp s))) r)
        (set_inodes (<[a := mk_inode (i_no i) (i_size i) 1 (write_deny i) (i_sectors i)]> (inodes s))
          (set_open_inodes (a :: open_inodes s) s))) ->
  wp (inode_open n) Q s.
Proof.
  intros Ht Hn E Ea Ha Hb Hab La Lb Hd HQ. unfold inode_open. wp_steps. apply (wp_lift _ None); [done|]. wp_steps.
  apply wp_inode_locate; [done|done|]. wp_steps. apply (wp_malloc _ a (b :: r)); [done|]. wp_steps.
  apply (wp_malloc _ b r).
  { split_and!; [done|done|]. cbn [set_hp hp live]. by rewrite lookup_insert_ne. }
  rewrite !(proj2 (Z.eqb_neq _ _)) by done. cbn [orb]. wp_steps.
  destruct (pos_of_spec s n Hn) as (_ & _ & _ & Hlo & Hhi).
  assert (1 <= pos_sectors (pos_of s n) <= 2) as Hps by (unfold pos_sectors; destruct (two_sec _); lia).
  pose proof Ht as [_ _ Hod Hmax _].
  destruct (read_sectors_some (dsk s) (sec_lba (pos_of s n)) (Z.to_nat (pos_sectors (pos_of s n)))) as [buf Hbuf].
  { intros j Hj. apply Hod. lia. }
  apply (wp_ide_read _ _ buf); [lia|lia|exact Hbuf|]. unfold put_inode. wp_steps.
  pose proof (slot_slice s n buf Ht Hn Hbuf) as Hs. rewrite Hd in Hs. apply (inj Some) in Hs.
  apply wp_free; [done|cbn [set_hp set_inodes set_open_inodes hp live]; by rewrite lookup_insert_eq|]. wp_steps.
  rewrite <- Hs. cbn [set_hp hp live answers set_inodes set_open_inodes].
  replace (delete b _) with (<[a := true]> (live (hp s))); [exact HQ|].
  rewrite delete_insert_eq. rewrite delete_id; [done|]. by rewrite lookup_insert_ne.
Qed.

Lemma same_fs_of s h :
  live h = live (hp s) -> same_fs s (set_hp h s).
Proof. intros E. exists (answers h). destruct h as [l r]. cbn in E. by subst. Qed.

Lemma wp_inode_close_last s a i (Q : unit -> fs -> Prop) :
  inodes s !! a = Some i -> i_open_cnts i = 1 -> a <> 0 -> live (hp s) !! a = Some true ->
  Q tt (set_hp (mk_heap (delete a (live (hp s))) (answers (hp s)))
         (set_inodes (delete a (inodes s))
           (set_open_inodes (filter (fun x => x <> a) (open_inodes s)) s))) ->
  wp (inode_close a) Q s.
Proof.
  intros Hi Hc Ha Hl HQ. unfold inode_close. wp_steps. apply (wp_get_inode _ i); [done|]. unfold put_inode. wp_steps.
  rewrite Hc. change (u32 (1 - 1)) with 0. cbn [Z.eqb]. wp_steps.
  apply wp_free; [done|done|]. cbn [set_hp hp live answers set_inodes set_open_inodes inodes open_inodes].
  by rewrite delete_insert_eq.
Qed.

Lemma wp_inode_close_more s a i (Q : unit -> fs -> Prop) :
  inodes s !! a = Some i -> 1 < i_open_cnts i < 4294967296 ->
  Q tt (set_inodes (<[a := mk_inode (i_no i) (i_size i) (i_open_cnts i - 1) (write_deny i) (i_sectors i)]> (inodes s)) s) ->
  wp (inode_close a) Q s.
Proof.
  intros Hi Hc HQ. unfold inode_close. wp_steps. apply (wp_get_inode _ i); [done|]. unfold put_inode. wp_steps.
  rewrite u32_id by (unfold is_u32; lia). rewrite (proj2 (Z.eqb_neq _ _)) by lia. by wp_steps.
Qed.

Lemma filter_fresh (l : list Z) a : a ∉ l -> filter (fun x => x <> a) (a :: l) = l.
Proof.
  intros Ha. rewrite filter_cons_False by (by intros H). induction l as [|b l IH]; [done|].
  apply not_elem_of_cons in Ha as [? ?]. rewrite filter_cons_True by congruence. by rewrite IH.
Qed.

(** Opening and closing an inode.  When the allocator has two blocks to
    give, [inode_open] returns an inode: the open one of that number, its open
    count one higher, or, when none is open, a copy of the inode stored in the
    table with count 1; closing it puts the file system back as it was: the
    in-memory inodes and their counts, the list of open inodes, the disk and the
    blocks in use of the heap. *)
Theorem inode_open_close (s : fs) (n : Z) (Ht : table_ok s) (Ho : open_wf s) (Hn : 0 <= n < 4096)
    (Hf : two_fresh (hp s)) :
  exists a s1 i s2, inode_open n s = Done (a, s1) /\ inodes s1 !! a = Some i /\ opened s n i /\
    a ∈ open_inodes s1 /\ dsk s1 = dsk s /\
    inode_close a s1 = Done (tt, s2) /\ same_fs s s2.
Proof.
  pose proof Ho as [Hnd Hin Hlive Hcnt].
  destruct (find_open_spec (open_inodes s) (inodes s) n) as (r & Hfind & Hr).
  { intros a Ha. by apply Hin. }
  destruct r as [a|].
  - destruct Hr as (Hain & i & Hi & Hno). pose proof (Hcnt a i Hi).
    assert (wp (inode_open n) (fun x s1 => x = a /\ s1 = set_inodes (<[a := bump i]> (inodes s)) s) s) as H1.
    { by apply (wp_inode_open_cached s n a i). }
    apply wp_done in H1 as (? & s1 & E1 & -> & ->).
    assert (wp (inode_close a) (fun _ s2 => s2 = s) (set_inodes (<[a := bump i]> (inodes s)) s)) as H2.
    { apply (wp_inode_close_more _ a (bump i)); cbn [set_inodes inodes bump i_open_cnts]; [apply lookup_insert_eq|lia|].
      rewrite insert_insert_eq. destruct s, i. cbn in *. unfold set_inodes. cbn. f_equal.
      apply insert_id. rewrite Hi. f_equal. f_equal. lia. }
    apply wp_done in H2 as ([] & s2 & E2 & ->). exists a, (set_inodes (<[a := bump i]> (inodes s)) s), (bump i), s. split_and!; try done.
    + apply lookup_insert_eq.
    + left. eauto.
    + exists (answers (hp s)). by destruct s as [? ? ? ? ? ? ? ? ? ? ? ? [] ?].
  - destruct Hf as (a & b & r & Ea & Ha & Hb & Hab & La & Lb).
    assert (a ∉ open_inodes s) as Hna. { intros [_ H]%Hlive. congruence. }
    assert (inodes s !! a = None) as Hnone.
    { destruct (inodes s !! a) eqn:E; [|done]. exfalso. apply Hna, Hin. eauto. }
    destruct (pos_of_spec s n Hn) as (_ & _ & _ & Hlo & Hhi).
    destruct (read_sectors_some (dsk s) (sec_lba (pos_of s n)) (Z.to_nat (pos_sectors (pos_of s n)))) as [buf Hbuf].
    { intros j Hj. apply Ht. unfold pos_sectors in *. destruct (two_sec _); lia. }
    pose proof (slot_slice s n buf Ht Hn Hbuf) as Hd.
    set (i := inode_of_bytes (slice buf (off_size (pos_of s n)) inode_size)) in *.
    set (j := mk_inode (i_no i) (i_size i) 1 (write_deny i) (i_sectors i)).
    set (s1 := set_hp (mk_heap (<[a := true]> (live (hp s))) r)
        (set_inodes (<[a := j]> (inodes s)) (set_open_inodes (a :: open_inodes s) s))).
    assert (wp (inode_open n) (fun x s' => x = a /\ s' = s1) s) as H1.
    { by apply (wp_inode_open_disk s n a b r i). }
    apply wp_done in H1 as (? & s' & E1 & -> & ->).
    assert (wp (inode_close a) (fun _ s2 => s2 = set_hp (mk_heap (live (hp s)) r) s) s1) as H2.
    { apply (wp_inode_close_last s1 a j); [apply lookup_insert_eq|done|done|apply lookup_insert_eq|].
      unfold s1. cbn [set_hp hp live answers set_inodes set_open_inodes inodes open_inodes].
      rewrite !delete_insert_eq, !delete_id by done. rewrite filter_fresh by done. by destruct s. }
    apply wp_done in H2 as ([] & s2 & E2 & ->). exists a, s1, j, (set_hp (mk_heap (live (hp s)) r) s). split_and!; try done.
    + apply lookup_insert_eq.
    + right. split; [|eauto]. intros a' j' Hj'. eapply Hr; [by apply Hin|done].
    + by left.
    + by exists r.
Qed.

Lemma ex_open_wf : open_wf ex_fs.
Proof.
  split.
  - apply NoDup_cons. split; [set_solver|]. apply NoDup_singleton.
  - intros a. cbn [ex_fs open_inodes inodes]. destruct (decide (a = 4096)) as [->|]; [|destruct (decide (a = 8192)) as [->|]].
    + split; [intros _; vm_compute; eauto|set_solver].
    + split; [intros _; vm_compute; eauto|set_solver].
    + rewrite !lookup_insert_ne, lookup_empty by done. split; [set_solver|by intros []].
  - intros a Ha. cbn [ex_fs open_inodes] in Ha. assert (a = 8192 \/ a = 4096) as [-> | ->] by set_solver; by vm_compute.
  - intros a i. cbn [ex_fs inodes]. rewrite !lookup_insert_Some, lookup_empty.
    intros [[_ <-]|[_ [[_ <-]|[_ ?]]]]; [vm_compute; by split|vm_compute; by split|done].
Qed.

(** Inode 0 is open; inode 6 is read from disk, across two sectors. *)
Lemma inode_open_close_witness :
  straddles 6 = true /\
  exists a s1 i s2, inode_open 6 ex_fs = Done (a, s1) /\ inodes s1 !! a = Some i /\ opened ex_fs 6 i /\
    a ∈ open_inodes s1 /\ dsk s1 = dsk ex_fs /\ inode_close a s1 = Done (tt, s2) /\ same_fs ex_fs s2.
Proof.
  split; [reflexivity|]. apply (inode_open_close ex_fs 6 ex_table_ok ex_open_wf); [lia|].
  exists 12288, 16384, [20480; 24576]. split_and!; vm_compute; done.
Defined.
