(* ===== verification/Blocks.v ===== *)
(** * Blocks: the partition's invariant, and block allocation

    The layout every file operation relies on (metadata below the data area,
    every free block on the disk), and what [block_bitmap_alloc] followed by
    [bitmap_sync] does to it. *)

From stdpp Require Import base numbers list gmap.
From S2P Require Import Prelude Bitmap Disk Fsdata Inode.

Local Open Scope Z_scope.
Local Open Scope kernel_scope.

Abbreviation ds s := (data_start_lba (sb s)).
Abbreviation bb_lba s := (block_bitmap_lba (sb s)).
Definition bb_sects (s : fs) : Z := Z.of_nat (length (bits (block_bitmap s))) / 512.

Record part_wf (s : fs) : Prop := {
  pw_table : table_ok s;
  pw_bitmap : bitmap_wf (block_bitmap s);
  pw_len : btmp_bytes_len (block_bitmap s) = Z.of_nat (length (bits (block_bitmap s)));
  pw_sects : btmp_bytes_len (block_bitmap s) = 512 * bb_sects s;
  pw_bb_lba : 0 <= bb_lba s;
  pw_bb_disk : on_disk (dsk s) (bb_lba s) (Z.to_nat (bb_sects s));
  pw_bb_end : bb_lba s + bb_sects s <= ds s;
  pw_tab_end : inode_table_lba (sb s) + 608 <= ds s;
  (** the bitmap does not overlap the inode table *)
  pw_disj : bb_lba s + bb_sects s <= inode_table_lba (sb s) \/ inode_table_lba (sb s) + 608 <= bb_lba s;
  pw_ds : ds s <= max_lba;
  (** block 0 is the root directory's *)
  pw_root : used (block_bitmap s) 0 = true;
  pw_free : forall j, 0 <= j < nbits (block_bitmap s) -> used (block_bitmap s) j = false ->
              ds s + j <= max_lba /\ is_Some (dsk s !! (ds s + j))
}.

(** A block of the data area that is allocated. *)
Record dblock (s : fs) (b : Z) : Prop := {
  db_lo : ds s < b;
  db_bit : b - ds s < nbits (block_bitmap s);
  db_used : used (block_bitmap s) (b - ds s) = true;
  db_max : b <= max_lba;
  db_disk : is_Some (dsk s !! b)
}.

(** A block of the data area that is free. *)
Definition free_block (s : fs) (b : Z) : Prop :=
  0 <= b - ds s < nbits (block_bitmap s) /\ used (block_bitmap s) (b - ds s) = false.

(** At least [n] free blocks. *)
Definition has_free (s : fs) (n : nat) : Prop :=
  exists l, NoDup l /\ (n <= length l)%nat /\ Forall (free_block s) l.

(** What allocating the blocks [new], with their bitmap sectors written, does:
    only the bitmap, its sectors on disk and in-memory inodes may differ. *)
Record alloced (s s' : fs) (new : list Z) : Prop := {
  al_wf : part_wf s';
  al_rest : s' = set_inodes (inodes s') (set_dsk (dsk s') (set_block_bitmap (block_bitmap s') s));
  al_nodup : NoDup new;
  al_free : Forall (free_block s) new;
  al_bits : nbits (block_bitmap s') = nbits (block_bitmap s);
  al_used : forall j, 0 <= j -> used (block_bitmap s') j = used (block_bitmap s) j || bool_decide (ds s + j ∈ new);
  al_disk : forall lba, ~ (bb_lba s <= lba < bb_lba s + bb_sects s) -> dsk s' !! lba = dsk s !! lba;
  al_dom : forall lba, is_Some (dsk s' !! lba) <-> is_Some (dsk s !! lba);
  al_sects : bb_sects s' = bb_sects s
}.

Lemma alloced_sb s s' new : alloced s s' new -> sb s' = sb s.
Proof. intros H. by rewrite (al_rest _ _ _ H). Qed.

Lemma alloced_refl s : part_wf s -> alloced s s [].
Proof.
  intros Hs. split; try done.
  - by destruct s.
  - apply NoDup_nil_2.
  - intros j Hj. rewrite bool_decide_eq_false_2, orb_false_r; [done|]. apply not_elem_of_nil.
Qed.

Lemma alloced_trans s1 s2 s3 l1 l2 : alloced s1 s2 l1 -> alloced s2 s3 l2 -> alloced s1 s3 (l1 ++ l2).
Proof.
  intros H1 H2. pose proof (alloced_sb _ _ _ H1) as Esb. destruct H1 as [w1 r1 n1 f1 b1 u1 d1 o1 c1], H2 as [w2 r2 n2 f2 b2 u2 d2 o2 c2].
  rewrite Esb in *.
  assert (forall b, b ∈ l2 -> free_block s1 b /\ b ∉ l1) as Hl2.
  { intros b Hb. rewrite Forall_forall in f2. destruct (f2 b Hb) as [Hr Hu]. rewrite Esb, b1 in *.
    rewrite u1 in Hu by lia. apply orb_false_iff in Hu as [Hu Hn]. split; [done|].
    apply bool_decide_eq_false in Hn. by replace (ds s1 + (b - ds s1)) with b in Hn by lia. }
  split.
  - done.
  - rewrite r2, r1 at 1. done.
  - apply NoDup_app. split_and!; [done| |done]. intros b Hb1 Hb2. by destruct (Hl2 b Hb2).
  - apply Forall_app. split; [done|]. apply Forall_forall. intros b Hb. by destruct (Hl2 b Hb).
  - congruence.
  - intros j Hj. rewrite u2, u1 by done. rewrite <- orb_assoc. f_equal.
    rewrite <- bool_decide_or. apply bool_decide_ext. by rewrite elem_of_app.
  - intros lba Hlba. rewrite d2 by (by rewrite c1). by apply d1.
  - intros lba. by rewrite o2, o1.
  - congruence.
Qed.

(** ** The bitmap's sector on disk *)
Lemma bb_sects_bits s : part_wf s -> nbits (block_bitmap s) = 4096 * bb_sects s.
Proof. intros H. unfold nbits. rewrite (pw_sects s H). lia. Qed.

Lemma wp_bitmap_sync s j (Q : unit -> fs -> Prop) :
  part_wf s -> 0 <= j < nbits (block_bitmap s) ->
  (forall d', disk_ok d' -> (forall lba, is_Some (d' !! lba) <-> is_Some (dsk s !! lba)) ->
     (forall lba, lba <> bb_lba s + j / 4096 -> d' !! lba = dsk s !! lba) -> Q tt (set_dsk d' s)) ->
  wp (bitmap_sync j BLOCK_BITMAP) Q s.
Proof.
  intros Hs Hj HQ. pose proof (bb_sects_bits s Hs) as Hb. rewrite Hb in Hj.
  pose proof (pw_sects s Hs) as Hsec. pose proof (pw_len s Hs) as Hlen. pose proof (pw_bb_end s Hs). pose proof (pw_bb_lba s Hs).
  pose proof (pw_ds s Hs). change max_lba with 163839 in *.
  assert (0 <= j / 4096 < bb_sects s) as Hq.
  { split; [apply Z.div_pos; lia|]. apply Z.div_lt_upper_bound; lia. }
  unfold bitmap_sync, BLOCK_SIZE. wp_steps. unfold id.
  rewrite !u32_id by (unfold is_u32; lia).
  rewrite (proj2 (Z.ltb_ge _ _)) by lia.
  assert (is_Some (dsk s !! (bb_lba s + j / 4096))) as Hsome by (apply (pw_bb_disk s Hs); lia).
  apply wp_ide_write1; [change max_lba with 163839; lia|done|].
  assert (length (slice (bits (block_bitmap s)) (j / 4096 * 512) 512) = 512%nat) as Hl.
  { rewrite slice_length; [done|lia|lia]. }
  apply HQ.
  - intros lba l. rewrite lookup_insert_Some. intros [[_ <-]|[_ Hd]].
    + rewrite length_take, Hl. done.
    + by eapply (to_disk s (pw_table s Hs)).
  - intros lba. rewrite lookup_insert_is_Some. split; [by intros [<-|[_ ?]]|].
    destruct (decide (bb_lba s + j / 4096 = lba)); [by left|by right].
  - intros lba Hne. by rewrite lookup_insert_ne.
Qed.

(** The invariant does not look at the bitmap's sectors, nor at the inodes. *)
Lemma part_wf_step s s' :
  part_wf s -> sb s' = sb s -> p_start_lba s' = p_start_lba s -> p_sec_cnt s' = p_sec_cnt s ->
  disk_ok (dsk s') -> (forall lba, is_Some (dsk s' !! lba) <-> is_Some (dsk s !! lba)) ->
  bitmap_wf (block_bitmap s') -> same_shape (block_bitmap s) (block_bitmap s') ->
  (forall j, 0 <= j -> used (block_bitmap s) j = true -> used (block_bitmap s') j = true) ->
  part_wf s'.
Proof.
  intros [[t1 t2 t3 t4 t5] p2 p3 p4 p5 p6 p7 p8 p9 p10 p11 p12] Esb E1 E2 Hd Ho Hb [Hs1 Hs2] Hu.
  assert (bb_sects s' = bb_sects s) as Ec by (unfold bb_sects; by rewrite Hs2).
  split; rewrite ?Esb, ?Ec, ?Hs1, ?Hs2; try done.
  - split; rewrite ?Esb, ?E1, ?E2; try done. intros i Hi. apply Ho. by apply t3.
  - intros i Hi. apply Ho. by apply p6.
  - by apply Hu.
  - unfold nbits in *. rewrite Hs1. intros j Hj Hfree. rewrite Ho. apply p12; [done|].
    destruct (used (block_bitmap s) j) eqn:E; [|done]. rewrite Hu in Hfree by (done || lia). done.
Qed.

Lemma has_free_first s n : has_free s (S n) -> exists i, 0 <= i < nbits (block_bitmap s) /\ used (block_bitmap s) i = false.
Proof.
  intros ([|b l] & _ & Hl & HF); [cbn in Hl; lia|]. apply Forall_cons in HF as [[? ?] _]. eauto.
Qed.

(** [block_bitmap_alloc] marks the first free block and returns its address. *)
Lemma wp_block_alloc s n (Q : Z -> fs -> Prop) :
  part_wf s -> has_free s (S n) ->
  (forall b bm, free_block s b -> ds s < b -> b <> -1 -> bitmap_wf bm -> same_shape (block_bitmap s) bm ->
     (forall j, 0 <= j -> used bm j = used (block_bitmap s) j || bool_decide (ds s + j ∈ [b])) ->
     Q b (set_block_bitmap bm s)) ->
  wp block_bitmap_alloc Q s.
Proof.
  intros Hs Hf HQ. destruct (has_free_first s n Hf) as (i0 & Hi0 & Hfree0).
  destruct (first_free_exists (block_bitmap s) i0 Hi0 Hfree0) as (i & Hi & _).
  pose proof Hi as (Hir & Hiu & _). pose proof (pw_free s Hs i Hir Hiu) as [Hmax _].
  assert (i <> 0) as Hi00 by (intros ->; pose proof (pw_root s Hs); congruence).
  pose proof (pw_len s Hs) as Hlen. pose proof (pw_bb_end s Hs). pose proof (pw_bb_lba s Hs).
  pose proof (bb_sects_bits s Hs) as Hnb.
  assert (0 <= bb_sects s) by (rewrite Hnb in Hir; lia).
  destruct (bitmap_set_spec (block_bitmap s) i 1 (pw_bitmap s Hs)) as (bm & Hset & Hwf & Hsh & Hu); [lia| |by right|].
  { unfold nbits in Hir. rewrite Hlen in Hir. apply Z.div_lt_upper_bound; lia. }
  change max_lba with 163839 in *.
  unfold block_bitmap_alloc. wp_steps.
  apply (wp_lift _ i). { rewrite (bitmap_scan_start _ _ i) by (done || apply Hs). done. }
  rewrite (proj2 (Z.eqb_neq i (-1))) by lia. wp_steps. apply (wp_lift _ bm); [done|]. wp_steps.
  cbn [set_block_bitmap sb]. rewrite i32_id by lia.
  apply HQ; try done; try lia.
  - split; replace (ds s + i - ds s) with i by lia; done.
  - intros j Hj. rewrite Hu by done. destruct (decide (j = i)) as [->|Hne].
    + rewrite bool_decide_eq_true_2; [by rewrite orb_true_r|]. by left.
    + rewrite bool_decide_eq_false_2; [by rewrite orb_false_r|]. rewrite list_elem_of_singleton. lia.
Qed.

Lemma filter_ne_length (l : list Z) b : NoDup l -> (length l <= S (length (filter (fun x => x <> b) l)))%nat.
Proof.
  induction 1 as [|x l Hx Hnd IH]; [cbn; lia|]. destruct (decide (x = b)) as [->|Hne].
  - rewrite filter_fresh by done. done.
  - rewrite filter_cons_True by done. cbn [length]. lia.
Qed.

Lemma has_free_less s s' b n :
  has_free s (S n) -> sb s' = sb s -> nbits (block_bitmap s') = nbits (block_bitmap s) ->
  (forall j, 0 <= j -> used (block_bitmap s') j = used (block_bitmap s) j || bool_decide (ds s + j ∈ [b])) ->
  has_free s' n.
Proof.
  intros (l & Hnd & Hlen & HF) Esb Enb Hu. exists (filter (fun x => x <> b) l). split_and!.
  - by apply NoDup_filter.
  - pose proof (filter_ne_length l b Hnd). lia.
  - apply Forall_forall. intros x [Hx Hxl]%list_elem_of_filter. rewrite Forall_forall in HF.
    destruct (HF x Hxl) as [Hr Hf]. split; rewrite Esb, ?Enb; [done|]. rewrite Hu, Hf by lia.
    rewrite bool_decide_eq_false_2; [done|]. rewrite list_elem_of_singleton. lia.
Qed.

Lemma alloced_alloc s b bm :
  part_wf s -> free_block s b -> bitmap_wf bm -> same_shape (block_bitmap s) bm ->
  (forall j, 0 <= j -> used bm j = used (block_bitmap s) j || bool_decide (ds s + j ∈ [b])) ->
  alloced s (set_block_bitmap bm s) [b].
Proof.
  intros Hs Hb Hwf Hsh Hu. pose proof Hsh as [H1 H2]. split; try done.
  - apply (part_wf_step s); try done; [apply Hs|]. intros j Hj E. cbn. by rewrite Hu, E.
  - apply NoDup_singleton.
  - by apply Forall_singleton.
  - cbn. unfold nbits. by rewrite H1.
  - unfold bb_sects. cbn. by rewrite H2.
Qed.

Lemma alloced_dsk s d' :
  part_wf s -> disk_ok d' -> (forall lba, is_Some (d' !! lba) <-> is_Some (dsk s !! lba)) ->
  (forall lba, ~ (bb_lba s <= lba < bb_lba s + bb_sects s) -> d' !! lba = dsk s !! lba) ->
  alloced s (set_dsk d' s) [].
Proof.
  intros Hs Hok Hdom Hd. split; try done.
  - apply (part_wf_step s); try done. apply Hs.
  - apply NoDup_nil_2.
  - intros j Hj. rewrite bool_decide_eq_false_2, orb_false_r; [done|]. apply not_elem_of_nil.
Qed.

Lemma alloced_inodes s m : part_wf s -> alloced s (set_inodes m s) [].
Proof.
  intros Hs. split; try done.
  - apply (part_wf_step s); try done; apply Hs.
  - apply NoDup_nil_2.
  - intros j Hj. rewrite bool_decide_eq_false_2, orb_false_r; [done|]. apply not_elem_of_nil.
Qed.

(** Allocation and the write of the bitmap's sector, with a change of inodes
    between the two. *)
Lemma wp_sync_alloced s0 s b (Q : unit -> fs -> Prop) :
  alloced s0 s [b] ->
  (forall s', alloced s0 s' [b] -> inodes s' = inodes s -> Q tt s') ->
  wp (bitmap_sync (u32 (b - ds s0)) BLOCK_BITMAP) Q s.
Proof.
  intros Ha HQ. pose proof (alloced_sb _ _ _ Ha) as Esb. pose proof Ha as [Hwf _ _ HF Hnb _ _ _ Hsec].
  apply Forall_singleton in HF as [Hr _]. pose proof (bb_sects_bits s Hwf) as Hb. rewrite Hnb in Hb.
  pose proof (pw_bb_end s Hwf) as He. pose proof (pw_bb_lba s Hwf) as H0. pose proof (pw_ds s Hwf) as Hm.
  change max_lba with 163839 in Hm.
  rewrite u32_id by (unfold is_u32; lia). apply wp_bitmap_sync; [done|rewrite Hnb; lia|].
  intros d' Hok Hdom Hd. apply HQ; [|done].
  apply (alloced_trans s0 s (set_dsk d' s) [b] [] Ha), alloced_dsk; try done.
  intros lba Hl. apply Hd. intros ->. apply Hl.
  pose proof (Z.div_pos (b - ds s0) 4096). pose proof (Z.div_lt_upper_bound (b - ds s0) 4096 (bb_sects s)). lia.
Qed.

Lemma insert_splice (l : list Z) k w : 0 <= k -> k < Z.of_nat (length l) -> arr_set l k w = Some (splice l k [w]).
Proof.
  intros H0 Hk. unfold arr_set, splice. rewrite decide_True by lia. f_equal.
  rewrite insert_take_drop by lia. cbn [length app]. by rewrite Nat.add_1_r.
Qed.

Lemma splice_cons (l : list Z) k w new :
  0 <= k -> (Z.to_nat k + S (length new) <= length l)%nat ->
  splice (splice l k [w]) (k + 1) new = splice l k (w :: new).
Proof.
  intros H0 Hl. apply list_eq. intros j.
  rewrite !splice_lookup by (rewrite ?splice_length by (cbn [length]; lia); cbn [length]; lia). cbn [length].
  destruct (decide (Z.to_nat (k + 1) <= j < Z.to_nat (k + 1) + length new)%nat).
  - rewrite decide_True by lia. replace (j - Z.to_nat k)%nat with (S (j - Z.to_nat (k + 1))) by lia. done.
  - destruct (decide (Z.to_nat k <= j < Z.to_nat k + 1)%nat).
    + rewrite decide_True by lia. by replace (j - Z.to_nat k)%nat with 0%nat by lia.
    + by rewrite decide_False by lia.
Qed.

Lemma splice_nil (l : list Z) k : splice l k [] = l.
Proof. unfold splice. cbn. by rewrite Nat.add_0_r, take_drop. Qed.

Lemma alloced_has_free s s' new n :
  alloced s s' new -> has_free s (length new + n) -> has_free s' n.
Proof.
  intros Ha (l & Hnd & Hlen & HF). pose proof (alloced_sb _ _ _ Ha) as Esb. destruct Ha as [_ _ _ _ Hnb Hu _ _ _].
  exists (filter (fun x => x ∉ new) l). split_and!.
  - by apply NoDup_filter.
  - clear HF Hu. revert n Hlen. induction new as [|b new IH]; intros n Hlen.
    + cbn in Hlen. replace (filter (fun x => x ∉ []) l) with l; [done|].
      clear. induction l as [|x l IHl]; [done|]. rewrite filter_cons_True by apply not_elem_of_nil. by f_equal.
    + replace (filter (fun x => x ∉ b :: new) l) with (filter (fun x => x <> b) (filter (fun x => x ∉ new) l)).
      * pose proof (filter_ne_length (filter (fun x => x ∉ new) l) b ltac:(by apply NoDup_filter)).
        specialize (IH (S n) ltac:(cbn in Hlen; lia)). lia.
      * rewrite list_filter_filter. apply list_filter_iff. intros x. rewrite not_elem_of_cons. tauto.
  - apply Forall_forall. intros x [Hx Hxl]%list_elem_of_filter. rewrite Forall_forall in HF.
    destruct (HF x Hxl) as [Hr Hf]. split; rewrite Esb, ?Hnb; [done|]. rewrite Hu, Hf by lia.
    rewrite bool_decide_eq_false_2; [done|]. by replace (ds s + (x - ds s)) with x by lia.
Qed.

(** Allocated blocks stay allocated, with their contents; new ones become so. *)
Lemma alloced_old s s' new b : alloced s s' new -> dblock s b -> dblock s' b /\ dsk s' !! b = dsk s !! b.
Proof.
  intros Ha [H1 H2 H3 H4 H5]. pose proof (alloced_sb _ _ _ Ha) as Esb. pose proof Ha as [Hwf _ _ _ Hnb Hu Hd Ho Hsec].
  pose proof (pw_bb_end s' Hwf) as He. rewrite Esb, Hsec in He. pose proof (pw_bb_lba s' Hwf) as H0.
  split; [|apply Hd; lia]. split; rewrite ?Esb, ?Hnb; try done.
  - by rewrite Hu, H3 by lia.
  - by apply Ho.
Qed.

Lemma alloced_new s s' new b : part_wf s -> alloced s s' new -> b ∈ new -> ds s < b -> dblock s' b.
Proof.
  intros Hs Ha Hb Hlt. pose proof (alloced_sb _ _ _ Ha) as Esb. destruct Ha as [_ _ _ HF Hnb Hu _ Ho _].
  rewrite Forall_forall in HF. destruct (HF b Hb) as [Hr Hfree]. destruct (pw_free s Hs _ Hr Hfree) as [Hm Hd].
  replace (ds s + (b - ds s)) with b in * by lia. split; rewrite ?Esb, ?Hnb; try done; try lia.
  - rewrite Hu by lia. replace (ds s + (b - ds s)) with b by lia. by rewrite (bool_decide_eq_true_2 _ Hb), orb_true_r.
  - by apply Ho.
Qed.

Lemma free_not_dblock s b : free_block s b -> dblock s b -> False.
Proof. intros [_ H] [_ _ H' _ _]. congruence. Qed.

Lemma alloced_not_old s s' new b : alloced s s' new -> b ∈ new -> dblock s b -> False.
Proof.
  intros Ha Hb. apply free_not_dblock. pose proof (al_free _ _ _ Ha) as H. rewrite Forall_forall in H. auto.
Qed.

(** The same blocks, after a change of the contents of sectors. *)
Lemma dblock_dsk s d' b :
  (forall lba, is_Some (d' !! lba) <-> is_Some (dsk s !! lba)) -> dblock s b -> dblock (set_dsk d' s) b.
Proof. intros H [? ? ? ? ?]. split; try done. by apply H. Qed.
