(* ===== verification/File.v ===== *)
(** * File: reading, writing, opening and closing files ([fs/file.c])

    A [struct file*] is an index of the global file table.  The buffers that
    [sys_malloc] gives are zeroed, and local to the calls: [all_blocks] is a
    list of 140 words and [io_buf] a list of 512 bytes, while the allocations
    themselves go through the heap of [Fsdata]. *)

From stdpp Require Import base numbers list gmap.
From S2P Require Import Prelude Bitmap Disk Fsdata Inode Blocks.

Local Open Scope Z_scope.
Local Open Scope kernel_scope.

Definition get_file (f : Z) : M fs file := fun s =>
  olet x := oget (arr_get (file_table s) f) Out_of_bounds in Done (x, s).
Definition put_file (f : Z) (x : file) : M fs unit := fun s =>
  olet t := oget (arr_set (file_table s) f x) Out_of_bounds in Done (tt, set_file_table t s).

Definition set_pos (p : Z) (x : file) : file := mk_file p (fd_flag x) (fd_inode x).
Definition set_sectors (l : list Z) (i : inode) : inode :=
  mk_inode (i_no i) (i_size i) (i_open_cnts i) (write_deny i) l.
Definition set_size (n : Z) (i : inode) : inode :=
  mk_inode (i_no i) n (i_open_cnts i) (write_deny i) (i_sectors i).
Definition sector (i : inode) (k : Z) : Z := default 0 (arr_get (i_sectors i) k).
Definition set_word (l : list Z) (k w : Z) : outcome (list Z) := oget (arr_set l k w) Out_of_bounds.
(** [i_sectors[k] = w] of the inode at [a]. *)
Definition put_sector (a k w : Z) : M fs unit :=
  let! i := get_inode a in
  let! l := lift (set_word (i_sectors i) k w) in
  put_inode a (set_sectors l i).

(** Allocating a block and writing its bitmap sector. *)
Definition sync_block (block_lba : Z) : M fs unit :=
  let! ds := gets (fun s => data_start_lba (sb s)) in
  bitmap_sync (u32 (block_lba - ds)) BLOCK_BITMAP.

(** ** [file_write] *)

(** The first block of a file that has none; [false]: the call fails. *)
Definition first_block (a : Z) : M fs bool :=
  let! i := get_inode a in
  if sector i 0 =? 0 then
    let! block_lba := block_bitmap_alloc in
    if block_lba =? -1 then ret false else
    put_sector a 0 block_lba ;;;
    let! ds := gets (fun s => data_start_lba (sb s)) in
    let block_bitmap_idx := u32 (block_lba - ds) in
    assertM (negb (block_bitmap_idx =? 0)) ;;;
    bitmap_sync block_bitmap_idx BLOCK_BITMAP ;;;
    ret true
  else ret true.

(** The allocation loops of the three situations: [n] blocks from index
    [block_idx]; a direct block goes to the inode and to [all_blocks], an
    indirect one only to [all_blocks].  In situation 1 every index is below 12,
    in situation 3 none is. *)
Fixpoint alloc_blocks (n : nat) (a block_idx : Z) (all_blocks : list Z) : M fs (option (list Z)) :=
  match n with
  | O => ret (Some all_blocks)
  | S n =>
      let! block_lba := block_bitmap_alloc in
      if block_lba =? -1 then ret None else
      (if block_idx <? 12 then
         let! i := get_inode a in
         assertM (sector i block_idx =? 0) ;;;
         put_sector a block_idx block_lba
       else ret tt) ;;;
      let! all_blocks := lift (set_word all_blocks block_idx block_lba) in
      sync_block block_lba ;;;
      alloc_blocks n a (block_idx + 1) all_blocks
  end.

(** [ide_read(..., all_blocks + 12, 1)] and the write of the same words. *)
Definition read_table (lba : Z) (all_blocks : list Z) : M fs (list Z) :=
  let! buf := ide_read lba 1 in ret (take 12 all_blocks ++ bytes_words buf).
Definition write_table (lba : Z) (all_blocks : list Z) : M fs unit :=
  ide_write lba (words_bytes (drop 12 all_blocks)) 1.

(** No block is added. *)
Definition no_new_block (i : inode) (has : Z) (all_blocks : list Z) : M fs (option (list Z)) :=
  if has <=? 12 then
    let! all_blocks := lift (set_word all_blocks (has - 1) (sector i (has - 1))) in
    ret (Some all_blocks)
  else
    assertM (negb (sector i 12 =? 0)) ;;;
    let! all_blocks := read_table (sector i 12) all_blocks in
    ret (Some all_blocks).

(** Situation 1: the direct blocks are enough. *)
Definition situation1 (a : Z) (i : inode) (has : Z) (n : nat) (all_blocks : list Z) : M fs (option (list Z)) :=
  assertM (negb (sector i (has - 1) =? 0)) ;;;
  let! all_blocks := lift (set_word all_blocks (has - 1) (sector i (has - 1))) in
  alloc_blocks n a has all_blocks.

(** Situation 2: the index table is created. *)
Definition situation2 (a : Z) (i : inode) (has : Z) (n : nat) (all_blocks : list Z) : M fs (option (list Z)) :=
  let! all_blocks := lift (set_word all_blocks (has - 1) (sector i (has - 1))) in
  let! block_lba := block_bitmap_alloc in
  if block_lba =? -1 then ret None else
  assertM (sector i 12 =? 0) ;;;
  put_sector a 12 block_lba ;;;
  let! r := alloc_blocks n a has all_blocks in
  match r with
  | None => ret None
  | Some all_blocks => write_table block_lba all_blocks ;;; ret (Some all_blocks)
  end.

(** Situation 3: the index table exists. *)
Definition situation3 (a : Z) (i : inode) (has : Z) (n : nat) (all_blocks : list Z) : M fs (option (list Z)) :=
  assertM (negb (sector i 12 =? 0)) ;;;
  let! all_blocks := read_table (sector i 12) all_blocks in
  let! r := alloc_blocks n a has all_blocks in
  match r with
  | None => ret None
  | Some all_blocks => write_table (sector i 12) all_blocks ;;; ret (Some all_blocks)
  end.

(** Collecting the addresses of the blocks to be written; [None]: the disk is
    full. *)
Definition collect_blocks (a has will : Z) (all_blocks : list Z) : M fs (option (list Z)) :=
  let add_blocks := u32 (will - has) in
  let n := Z.to_nat (will - has) in
  let! i := get_inode a in
  if add_blocks =? 0 then no_new_block i has all_blocks
  else if will <=? 12 then situation1 a i has n all_blocks
  else if (has <=? 12) && (12 <? will) then situation2 a i has n all_blocks
  else situation3 a i has n all_blocks.

Definition zero_buf : list Z := replicate 512 0.

(** The loop that writes the data; the iterations are bounded by the bytes left. *)
Fixpoint write_loop (fuel : nat) (f a : Z) (all_blocks src : list Z) (first_write_block : bool) : M fs unit :=
  match fuel with
  | O => halt Out_of_fuel
  | S fuel =>
      let size_left := Z.of_nat (length src) in
      if size_left =? 0 then ret tt else
      let! i := get_inode a in
      let sec_idx := i_size i / BLOCK_SIZE in
      let! sec_lba := lift (oget (arr_get all_blocks sec_idx) Out_of_bounds) in
      let sec_off_bytes := i_size i mod BLOCK_SIZE in
      let sec_left_bytes := BLOCK_SIZE - sec_off_bytes in
      let chunk_size := if size_left <? sec_left_bytes then size_left else sec_left_bytes in
      let! io_buf := (if first_write_block then ide_read sec_lba 1 else ret zero_buf) in
      ide_write sec_lba (splice io_buf sec_off_bytes (take (Z.to_nat chunk_size) src)) 1 ;;;
      put_inode a (set_size (u32 (i_size i + chunk_size)) i) ;;;
      let! x := get_file f in
      put_file f (set_pos (u32 (fd_pos x + chunk_size)) x) ;;;
      write_loop fuel f a all_blocks (drop (Z.to_nat chunk_size) src) false
  end.

Definition file_write (f : Z) (buf : list Z) : M fs Z :=
  let count := Z.of_nat (length buf) in
  let! x := get_file f in
  let a := fd_inode x in
  let! i := get_inode a in
  if BLOCK_SIZE * 140 <? u32 (i_size i + count) then ret (-1) else
  let! k := gets in_kernel in
  let! io_buf := sys_malloc k in
  if io_buf =? 0 then ret (-1) else
  let! all_blocks_p := sys_malloc k in
  if all_blocks_p =? 0 then ret (-1) else
  let all_blocks := replicate 140 0 in
  let! ok := first_block a in
  if negb ok then ret (-1) else
  let file_has_used_blocks := i_size i / BLOCK_SIZE + 1 in
  let file_will_use_blocks := u32 (i_size i + count) / BLOCK_SIZE + 1 in
  assertM (file_will_use_blocks <=? 140) ;;;
  let! r := collect_blocks a file_has_used_blocks file_will_use_blocks all_blocks in
  match r with
  | None => ret (-1)
  | Some all_blocks =>
      let! x := get_file f in
      put_file f (set_pos (u32 (i_size i - 1)) x) ;;;
      write_loop (S (length buf)) f a all_blocks buf true ;;;
      let! i := get_inode a in
      inode_sync i BLOCK_SIZE ;;;
      sys_free k all_blocks_p ;;;
      sys_free k io_buf ;;;
      ret count
  end.

(** ** [file_read] *)
Fixpoint copy_direct (n : nat) (i : inode) (block_idx : Z) (all_blocks : list Z) : outcome (list Z) :=
  match n with
  | O => Done all_blocks
  | S n => olet all_blocks := set_word all_blocks block_idx (sector i block_idx) in
           copy_direct n i (block_idx + 1) all_blocks
  end.

Definition collect_read (i : inode) (start_idx end_idx : Z) (all_blocks : list Z) : M fs (list Z) :=
  if u32 (start_idx - end_idx) =? 0 then
    assertM (end_idx =? start_idx) ;;;
    if end_idx <? 12 then lift (set_word all_blocks end_idx (sector i end_idx))
    else read_table (sector i 12) all_blocks
  else if end_idx <? 12 then
    lift (copy_direct (Z.to_nat (end_idx - start_idx + 1)) i start_idx all_blocks)
  else if (start_idx <? 12) && (12 <=? end_idx) then
    let! all_blocks := lift (copy_direct (Z.to_nat (12 - start_idx)) i start_idx all_blocks) in
    assertM (negb (sector i 12 =? 0)) ;;;
    read_table (sector i 12) all_blocks
  else
    assertM (negb (sector i 12 =? 0)) ;;;
    read_table (sector i 12) all_blocks.

Fixpoint read_loop (fuel : nat) (f : Z) (all_blocks : list Z) (size_left : Z) (buf_dst : list Z) : M fs (list Z) :=
  match fuel with
  | O => halt Out_of_fuel
  | S fuel =>
      if size_left =? 0 then ret buf_dst else
      let! x := get_file f in
      let sec_idx := fd_pos x / BLOCK_SIZE in
      let! sec_lba := lift (oget (arr_get all_blocks sec_idx) Out_of_bounds) in
      let sec_off_bytes := fd_pos x mod BLOCK_SIZE in
      let sec_left_bytes := BLOCK_SIZE - sec_off_bytes in
      let chunk_size := if size_left <? sec_left_bytes then size_left else sec_left_bytes in
      let! io_buf := ide_read sec_lba 1 in
      put_file f (set_pos (u32 (fd_pos x + chunk_size)) x) ;;;
      read_loop fuel f all_blocks (size_left - chunk_size) (buf_dst ++ slice io_buf sec_off_bytes chunk_size)
  end.

(** The return value and the bytes stored at [buf]. *)
Definition file_read (f count : Z) : M fs (Z * list Z) :=
  let! x := get_file f in
  let! i := get_inode (fd_inode x) in
  let past_end := i_size i <? u32 (fd_pos x + count) in
  let size := if past_end then u32 (i_size i - fd_pos x) else count in
  if past_end && (size =? 0) then ret (-1, []) else
  let! k := gets in_kernel in
  let! io_buf := sys_malloc k in
  let! all_blocks_p := sys_malloc k in
  if all_blocks_p =? 0 then ret (-1, []) else
  let block_read_start_idx := fd_pos x / BLOCK_SIZE in
  let block_read_end_idx := u32 (fd_pos x + size) / BLOCK_SIZE in
  assertM ((block_read_start_idx <? 139) && (block_read_end_idx <? 139)) ;;;
  let! all_blocks := collect_read i block_read_start_idx block_read_end_idx (replicate 140 0) in
  if io_buf =? 0 then halt Assert_failed else
  let! buf := read_loop (S (Z.to_nat size)) f all_blocks size [] in
  sys_free k all_blocks_p ;;;
  sys_free k io_buf ;;;
  ret (i32 size, buf).

(** ** Opening and closing *)
Definition file_open (inode_no flag : Z) : M fs Z :=
  let! fd_idx := get_free_slot_in_global in
  if fd_idx =? -1 then ret (-1) else
  let! a := inode_open inode_no in
  put_file fd_idx (mk_file 0 flag a) ;;;
  if negb (Z.land flag 1 =? 0) || negb (Z.land flag 2 =? 0) then
    let! i := get_inode a in
    if negb (write_deny i) then
      put_inode a (mk_inode (i_no i) (i_size i) (i_open_cnts i) true (i_sectors i)) ;;;
      pcb_fd_install fd_idx
    else ret (-1)
  else pcb_fd_install fd_idx.

Definition file_close (f : Z) : M fs Z :=
  let! x := get_file f in
  let! i := get_inode (fd_inode x) in
  put_inode (fd_inode x) (mk_inode (i_no i) (i_size i) (i_open_cnts i) false (i_sectors i)) ;;;
  inode_close (fd_inode x) ;;;
  let! x := get_file f in
  put_file f (mk_file (fd_pos x) (fd_flag x) 0) ;;;
  ret 0.

(** ** Allocation *)
Lemma wp_put_sector a k w i s (Q : unit -> fs -> Prop) :
  inodes s !! a = Some i -> 0 <= k < Z.of_nat (length (i_sectors i)) ->
  Q tt (set_inodes (<[a := set_sectors (splice (i_sectors i) k [w]) i]> (inodes s)) s) ->
  wp (put_sector a k w) Q s.
Proof.
  intros Hi Hk HQ. unfold put_sector, set_word. wp_steps. apply (wp_get_inode _ i); [done|].
  apply wp_bind. apply (wp_lift _ (splice (i_sectors i) k [w])); [by rewrite insert_splice by lia|]. done.
Qed.

Lemma sector_splice i k w l j :
  i_sectors i = l -> 0 <= k < Z.of_nat (length l) -> 0 <= j ->
  sector (set_sectors (splice l k [w]) i) j = if decide (j = k) then w else sector i j.
Proof.
  intros <- Hk Hj. unfold sector, arr_get. cbn [set_sectors i_sectors]. rewrite decide_True by lia.
  rewrite splice_lookup by (cbn [length]; lia). cbn [length]. destruct (decide (j = k)) as [->|Hne].
  - rewrite decide_True by lia. by rewrite Nat.sub_diag.
  - rewrite decide_False by lia. by rewrite (decide_True (P := 0 <= j)) by lia.
Qed.

(** The inode after [new] went to its direct blocks from index [k]. *)
Definition with_direct (i : inode) (k : Z) (new : list Z) : inode :=
  set_sectors (splice (i_sectors i) k (take (Z.to_nat (12 - k)) new)) i.

Lemma wp_alloc_blocks : forall n a k all s i,
  part_wf s -> has_free s n -> inodes s !! a = Some i -> length all = 140%nat -> length (i_sectors i) = 13%nat ->
  0 <= k -> k + Z.of_nat n <= 140 -> (forall j, k <= j < 12 -> sector i j = 0) ->
  wp (alloc_blocks n a k all) (fun r s' => exists new,
    r = Some (splice all k new) /\ length new = n /\ alloced s s' new /\ Forall (fun b => ds s < b) new /\
    inodes s' = <[a := with_direct i k new]> (inodes s)) s.
Proof.
  induction n as [|n IH]; intros a k all s i Hs Hf Hi Hall Hsec Hk Hend Hz; cbn [alloc_blocks].
  - apply wp_ret. exists []. split_and!; [by rewrite splice_nil|done|by apply alloced_refl|done|].
    unfold with_direct. rewrite take_nil, splice_nil. symmetry. apply insert_id. rewrite Hi. by destruct i.
  - wp_steps. apply (wp_block_alloc s n); [done|done|]. intros b bm Hfb Hlt Hne Hbm Hsh Hu.
    rewrite (proj2 (Z.eqb_neq b (-1))) by done. wp_steps.
    pose proof (alloced_alloc s b bm Hs Hfb Hbm Hsh Hu) as Ha. set (s1 := set_block_bitmap bm s) in *.
    set (i1 := if k <? 12 then set_sectors (splice (i_sectors i) k [b]) i else i).
    assert (length (i_sectors i1) = 13%nat) as Hsec1.
    { unfold i1. destruct (Z.ltb_spec k 12); [|done]. cbn [set_sectors i_sectors].
      rewrite splice_length by (cbn [length]; lia). done. }
    set (s2 := set_inodes (<[a := i1]> (inodes s)) s1).
    assert (wp (if k <? 12 then let! i := get_inode a in assertM (sector i k =? 0) ;;; put_sector a k b else ret tt)
      (fun _ s' => s' = s2) s1) as Hput.
    { unfold s2, i1. destruct (Z.ltb_spec k 12) as [Hk12|Hk12].
      - wp_steps. apply (wp_get_inode _ i); [done|]. wp_steps; [rewrite Hz by lia; done|].
        by apply (wp_put_sector _ _ _ i); [|lia|].
      - apply wp_ret. rewrite insert_id by done. by destruct s. }
    eapply wp_mono; [exact Hput|]. cbn beta. intros _ ? ->. wp_steps.
    apply (wp_lift _ (splice all k [b])); [unfold set_word; by rewrite insert_splice by lia|].
    unfold sync_block. wp_steps. change (ds s2) with (ds s).
    apply wp_sync_alloced.
    { apply (alloced_trans s s1 s2 [b] [] Ha), alloced_inodes, (al_wf _ _ _ Ha). }
    intros s3 Ha3 Hin3. pose proof (alloced_sb _ _ _ Ha3) as Esb.
    eapply wp_mono; [apply (IH a (k + 1) (splice all k [b]) s3 i1)|].
    + apply (al_wf _ _ _ Ha3).
    + by apply (alloced_has_free s s3 [b]).
    + rewrite Hin3. apply lookup_insert_eq.
    + rewrite splice_length by (cbn [length]; lia). done.
    + done.
    + lia.
    + lia.
    + intros j Hj. unfold i1. rewrite (proj2 (Z.ltb_lt k 12)) by lia.
      rewrite (sector_splice i k b (i_sectors i) j) by (done || lia). rewrite decide_False by lia. apply Hz. lia.
    + cbn beta. intros r s4 (new & -> & Hn & Ha4 & HF & Hin4). exists (b :: new). split_and!.
      * rewrite splice_cons by lia. done.
      * cbn. by rewrite Hn.
      * by apply (alloced_trans s s3 s4 [b] new).
      * apply Forall_cons_2; [done|]. by rewrite Esb in HF.
      * rewrite Hin4, Hin3. cbn [s2 set_inodes inodes]. rewrite insert_insert_eq. f_equal.
        unfold with_direct, i1. destruct (Z.ltb_spec k 12) as [Hk12|Hk12].
        -- replace (Z.to_nat (12 - k)) with (S (Z.to_nat (12 - (k + 1)))) by lia. cbn [take set_sectors i_sectors].
           rewrite splice_cons; [done|lia|]. rewrite length_take, Hsec. lia.
        -- replace (Z.to_nat (12 - k)) with 0%nat by lia. replace (Z.to_nat (12 - (k + 1))) with 0%nat by lia.
           by rewrite !take_0, !splice_nil.
Qed.

(** ** The blocks of a file *)
Definition tab_words (s : fs) (lba : Z) : list Z := bytes_words (default [] (dsk s !! lba)).
(** The 140 block addresses of an inode, 0 where there is none. *)
Definition blocks_of (s : fs) (i : inode) : list Z :=
  take 12 (i_sectors i) ++ (if sector i 12 =? 0 then replicate 128 0 else tab_words s (sector i 12)).
(** The blocks a file of [n] data blocks occupies: these and, from the 13th on,
    the index table. *)
Definition owned (s : fs) (i : inode) (n : nat) : list Z :=
  take n (blocks_of s i) ++ (if decide (12 < n)%nat then [sector i 12] else []).

(** An inode with exactly [n] data blocks. *)
Record file_wf (s : fs) (i : inode) (n : nat) : Prop := {
  fw_ok : inode_ok i;
  fw_n : (n <= 140)%nat;
  fw_valid : Forall (dblock s) (owned s i n);
  fw_nodup : NoDup (owned s i n);
  fw_zero : forall j, (n <= j < 140)%nat -> blocks_of s i !! j = Some 0;
  fw_tab : (n <= 12)%nat -> sector i 12 = 0
}.

(** The bytes of a file. *)
Definition block_byte (d : disk) (blocks : list Z) (k : Z) : option Z :=
  match blocks !! Z.to_nat (k / 512) with
  | Some b => match d !! b with Some l => l !! Z.to_nat (k mod 512) | None => None end
  | None => None
  end.
Definition file_data (s : fs) (i : inode) : list Z :=
  (fun k => default 0 (block_byte (dsk s) (blocks_of s i) k)) <$> seqZ 0 (i_size i).

Lemma sector_lookup i j : length (i_sectors i) = 13%nat -> 0 <= j < 13 -> i_sectors i !! Z.to_nat j = Some (sector i j).
Proof.
  intros Hl Hj. unfold sector, arr_get. rewrite decide_True by lia.
  destruct (lookup_lt_is_Some_2 (i_sectors i) (Z.to_nat j)) as [x Hx]; [lia|]. by rewrite Hx.
Qed.

Lemma blocks_direct s i j : length (i_sectors i) = 13%nat -> (j < 12)%nat ->
  blocks_of s i !! j = Some (sector i (Z.of_nat j)).
Proof.
  intros Hl Hj. unfold blocks_of. rewrite lookup_app_l by (rewrite length_take; lia).
  rewrite lookup_take_lt by lia. rewrite <- (sector_lookup i (Z.of_nat j)) by (done || lia). by rewrite Nat2Z.id.
Qed.

Lemma dblock_nonzero s b : part_wf s -> dblock s b -> b <> 0 /\ is_u32 b.
Proof.
  intros Hs Hb. pose proof (db_lo s b Hb). pose proof (db_max s b Hb). pose proof (pw_tab_end s Hs).
  pose proof (to_lba s (pw_table s Hs)). change max_lba with 163839 in *. unfold is_u32. lia.
Qed.

Lemma sector_length s lba l : part_wf s -> dsk s !! lba = Some l -> length l = 512%nat.
Proof. intros Hs. apply (to_disk s (pw_table s Hs)). Qed.

Lemma tab_words_length s b : part_wf s -> dblock s b -> length (tab_words s b) = 128%nat.
Proof.
  intros Hs Hb. destruct (db_disk s b Hb) as [l Hl]. unfold tab_words. rewrite Hl. cbn.
  apply bytes_words_length. by rewrite (sector_length s b l Hs Hl).
Qed.

Lemma fw_table s i n : file_wf s i n -> (12 < n)%nat -> dblock s (sector i 12).
Proof.
  intros [_ _ HF _ _ _] Hn. unfold owned in HF. rewrite decide_True in HF by done.
  apply Forall_app in HF as [_ HF]. by rewrite Forall_singleton in HF.
Qed.

Lemma blocks_length s i n : part_wf s -> file_wf s i n -> length (blocks_of s i) = 140%nat.
Proof.
  intros Hs Hw. unfold blocks_of. rewrite length_app, length_take, (io_len i (fw_ok s i n Hw)).
  destruct (Z.eqb_spec (sector i 12) 0) as [E|E]; [by rewrite length_replicate|].
  rewrite tab_words_length; [done|done|]. apply (fw_table s i n Hw).
  destruct (decide (12 < n)%nat); [done|]. exfalso. apply E, (fw_tab s i n Hw). lia.
Qed.

Lemma fw_block s i n j : part_wf s -> file_wf s i n -> (j < n)%nat ->
  exists b, blocks_of s i !! j = Some b /\ dblock s b.
Proof.
  intros Hs Hw Hj. pose proof (blocks_length s i n Hs Hw) as Hl. pose proof (fw_n s i n Hw).
  destruct (lookup_lt_is_Some_2 (blocks_of s i) j) as [b Hb]; [lia|]. exists b. split; [done|].
  pose proof (fw_valid s i n Hw) as HF. unfold owned in HF. apply Forall_app in HF as [HF _].
  eapply Forall_lookup_1; [exact HF|]. by rewrite lookup_take_lt.
Qed.

(** ** Growing a file *)

(** The blocks of an inode that got [new] blocks after its first [has] and,
    when it had none and needs one, an index table. *)
Lemma grow_wf s s1 d' i i' has will new fresh :
  part_wf s -> file_wf s i has -> alloced s s1 fresh -> Forall (fun b => ds s < b) fresh ->
  (forall lba, is_Some (d' !! lba) <-> is_Some (dsk s1 !! lba)) ->
  inode_ok i' -> (has <= will <= 140)%nat ->
  take will (blocks_of (set_dsk d' s1) i') = take has (blocks_of s i) ++ new ->
  (forall b, b ∈ new -> b ∈ fresh) -> NoDup new ->
  (forall j, (will <= j < 140)%nat -> blocks_of (set_dsk d' s1) i' !! j = Some 0) -> ((will <= 12)%nat -> sector i' 12 = 0) ->
  ((12 < will)%nat -> (sector i' 12 = sector i 12 /\ (12 < has)%nat) \/ (sector i' 12 ∈ fresh /\ sector i' 12 ∉ new)) ->
  file_wf (set_dsk d' s1) i' will.
Proof.
  intros Hs Hw Ha HF Hdom Hok Hn Hblk Hnew Hnd Hz Ht Htab.
  assert (forall b, b ∈ owned s i has -> dblock s b) as Hown.
  { pose proof (fw_valid s i has Hw) as H. by rewrite Forall_forall in H. }
  assert (forall b, b ∈ fresh -> dblock (set_dsk d' s1) b /\ (dblock s b -> False)) as Hfr.
  { intros b Hb. rewrite Forall_forall in HF. split; [by apply dblock_dsk, (alloced_new s s1 fresh); auto|].
    apply free_not_dblock. pose proof (al_free _ _ _ Ha) as H. rewrite Forall_forall in H. auto. }
  assert (forall b, dblock s b -> dblock (set_dsk d' s1) b) as Hold.
  { intros b Hb. by apply dblock_dsk, (alloced_old s s1 fresh). }
  assert (forall b, b ∈ take has (blocks_of s i) -> b ∈ owned s i has) as Htake.
  { intros b Hb. unfold owned. apply elem_of_app. by left. }
  pose proof (fw_nodup s i has Hw) as Hndo. unfold owned in Hndo. apply NoDup_app in Hndo as (Hnd1 & Hnd2 & _).
  split; try done; [lia| |]; unfold owned; rewrite Hblk.
  - apply Forall_app. split.
    + apply Forall_app. split; apply Forall_forall; intros b Hb; [by apply Hold, Hown, Htake|by apply Hfr, Hnew].
    + destruct (decide (12 < will)%nat) as [H12|]; [|apply Forall_nil_2]. apply Forall_singleton.
      destruct (Htab H12) as [[-> Hh]|[Hb _]]; [by apply Hold, (fw_table s i has)|by apply Hfr].
  - rewrite !NoDup_app. split_and!; [done| |done| |].
    + intros b Hb Hb'. apply (Hfr b); auto.
    + intros b Hb Hb'. destruct (decide (12 < will)%nat) as [H12|]; [|by apply not_elem_of_nil in Hb']. apply list_elem_of_singleton in Hb' as ->.
      destruct (Htab H12) as [[E Hh]|[Hf Hnn]].
      * apply elem_of_app in Hb as [Hb|Hb].
        -- apply (Hnd2 _ Hb). rewrite decide_True by done. rewrite E. by left.
        -- apply (Hfr _ (Hnew _ Hb)). rewrite E. by apply (fw_table s i has).
      * apply elem_of_app in Hb as [Hb|Hb]; [|done]. apply (Hfr _ Hf). auto.
    + destruct (decide (12 < will)%nat); [apply NoDup_singleton|apply NoDup_nil_2].
Qed.

(** The blocks it occupies are old ones or were not in use. *)
Lemma grow_owned (s s' : fs) (i i' : inode) (has will : nat) (new fresh : list Z) :
  take will (blocks_of s' i') = take has (blocks_of s i) ++ new ->
  (forall b, b ∈ new -> b ∈ fresh) -> (forall b, b ∈ fresh -> dblock s b -> False) ->
  ((12 < will)%nat -> (sector i' 12 = sector i 12 /\ (12 < has)%nat) \/ (sector i' 12 ∈ fresh /\ sector i' 12 ∉ new)) ->
  forall b, b ∈ owned s' i' will -> b ∈ owned s i has \/ (dblock s b -> False).
Proof.
  intros Hblk Hsub Hfr Htab b. unfold owned. rewrite Hblk, !elem_of_app. intros [[Hb|Hb]|Hb]; [by left; left|right; by apply Hfr, Hsub|].
  destruct (decide (12 < will)%nat) as [H12|]; [|by apply not_elem_of_nil in Hb].
  apply list_elem_of_singleton in Hb as ->. destruct (Htab H12) as [[-> Hh]|[Hf _]]; [|right; by apply Hfr].
  left; right. rewrite decide_True by done. by left.
Qed.

Lemma take_grow (l l' new : list Z) (has will : nat) :
  length l = 140%nat -> length l' = 140%nat -> (has + length new = will)%nat -> (will <= 140)%nat ->
  (forall j, (j < has)%nat -> l' !! j = l !! j) ->
  (forall j, (has <= j < will)%nat -> l' !! j = new !! (j - has)%nat) ->
  take will l' = take has l ++ new.
Proof.
  intros Hl Hl' Hw Hw140 H1 H2. apply list_eq. intros j. destruct (decide (j < has)%nat).
  - rewrite lookup_take_lt, lookup_app_l, lookup_take_lt by (rewrite ?length_take; lia). by apply H1.
  - rewrite lookup_app_r by (rewrite length_take; lia). rewrite length_take, Nat.min_l by lia.
    destruct (decide (j < will)%nat).
    + rewrite lookup_take_lt by lia. apply H2. lia.
    + rewrite lookup_take_ge by lia. symmetry. apply lookup_ge_None. lia.
Qed.

Lemma with_direct_lookup i k new j :
  length (i_sectors i) = 13%nat -> 0 <= k ->
  i_sectors (with_direct i k new) !! j =
    if decide (Z.to_nat k <= j < 12 /\ j < Z.to_nat k + length new)%nat then new !! (j - Z.to_nat k)%nat
    else i_sectors i !! j.
Proof.
  intros Hl Hk. unfold with_direct. cbn [set_sectors i_sectors].
  destruct (decide (12 <= Z.to_nat k)%nat).
  - replace (Z.to_nat (12 - k)) with 0%nat by lia. rewrite take_0, splice_nil. by rewrite decide_False by lia.
  - rewrite splice_lookup by (rewrite ?length_take; lia). rewrite length_take.
    destruct (decide (Z.to_nat k <= j < 12 /\ j < Z.to_nat k + length new)%nat).
    + rewrite decide_True by lia. rewrite lookup_take_lt by lia. done.
    + by rewrite decide_False by lia.
Qed.

Lemma with_direct_length i k new :
  length (i_sectors i) = 13%nat -> 0 <= k -> length (i_sectors (with_direct i k new)) = 13%nat.
Proof.
  intros Hl Hk. unfold with_direct. cbn [set_sectors i_sectors]. destruct (decide (12 <= Z.to_nat k)%nat).
  - replace (Z.to_nat (12 - k)) with 0%nat by lia. by rewrite take_0, splice_nil.
  - rewrite splice_length; [done|lia|]. rewrite length_take. lia.
Qed.

Lemma with_direct_sector i k new j :
  length (i_sectors i) = 13%nat -> 0 <= k -> 0 <= j ->
  sector (with_direct i k new) j =
    if decide (k <= j < 12 /\ j < k + Z.of_nat (length new)) then default 0 (new !! Z.to_nat (j - k)) else sector i j.
Proof.
  intros Hl Hk Hj. unfold sector, arr_get. rewrite !(decide_True (P := 0 <= j)) by done.
  rewrite with_direct_lookup by done.
  destruct (decide (k <= j < 12 /\ j < k + Z.of_nat (length new))).
  - rewrite decide_True by lia. do 2 f_equal. lia.
  - by rewrite decide_False by lia.
Qed.

Lemma with_direct_ok i k new : inode_ok i -> 0 <= k -> Forall is_u32 new -> inode_ok (with_direct i k new).
Proof.
  intros [H1 H2 H3 H4 H5] Hk Hn. split; try done; [by apply with_direct_length|].
  apply Forall_lookup_2. intros j x. rewrite with_direct_lookup by done.
  case_decide; intros Hx; by eapply Forall_lookup_1 in Hx.
Qed.

(** ** Collecting the blocks *)
Record collected (s s' : fs) (a : Z) (i i' : inode) (has will : nat) (all : list Z) : Prop := {
  co_wf : part_wf s';
  co_file : file_wf s' i' will;
  co_inodes : inodes s' = <[a := i']> (inodes s);
  co_meta : i' = set_sectors (i_sectors i') i;
  co_len : length all = 140%nat;
  co_all : forall j, (has - 1 <= j < will)%nat -> all !! j = blocks_of s' i' !! j;
  co_old : forall j, (j < has)%nat -> blocks_of s' i' !! j = blocks_of s i !! j;
  co_keep : forall b, dblock s b -> ((12 < has)%nat -> b <> sector i 12) -> dblock s' b /\ dsk s' !! b = dsk s !! b;
  co_rest : s' = set_inodes (inodes s') (set_dsk (dsk s') (set_block_bitmap (block_bitmap s') s));
  (** the added blocks were not in use, and below the data area only the block
      bitmap is written *)
  co_own : forall b, b ∈ owned s' i' will -> b ∈ owned s i has \/ (dblock s b -> False);
  co_low : forall lba, lba <= ds s -> ~ (bb_lba s <= lba < bb_lba s + bb_sects s) -> dsk s' !! lba = dsk s !! lba;
  co_sects : bb_sects s' = bb_sects s
}.

Lemma new_u32 s s1 fresh : part_wf s -> alloced s s1 fresh -> Forall (fun b => ds s < b) fresh -> Forall is_u32 fresh.
Proof.
  intros Hs Ha HF. apply Forall_forall. intros b Hb. rewrite Forall_forall in HF.
  pose proof (alloced_new s s1 fresh b Hs Ha Hb (HF b Hb)) as Hd. by apply (dblock_nonzero s1), Hd; apply Ha.
Qed.

Lemma zeros_lookup (n j : nat) : (j < n)%nat -> replicate n 0 !! j = Some 0.
Proof. apply lookup_replicate_2. Qed.

(** [all_blocks] with one entry. *)
Definition one_block (has : nat) (w : Z) : list Z := splice (replicate 140 0) (Z.of_nat has - 1) [w].

Lemma one_block_length has w : (1 <= has <= 140)%nat -> length (one_block has w) = 140%nat.
Proof. intros H. unfold one_block. rewrite splice_length; rewrite ?length_replicate; cbn [length]; lia. Qed.

Lemma one_block_lookup has w j : (1 <= has <= 140)%nat -> (j < 140)%nat ->
  one_block has w !! j = Some (if decide (j = has - 1)%nat then w else 0).
Proof.
  intros H Hj. unfold one_block. rewrite splice_lookup by (rewrite ?length_replicate; cbn [length]; lia). cbn [length].
  destruct (decide (j = has - 1)%nat).
  - rewrite decide_True by lia. by replace (j - _)%nat with 0%nat by lia.
  - rewrite decide_False by lia. by apply zeros_lookup.
Qed.

(** No new block. *)
Lemma collect_none s a i has all :
  part_wf s -> file_wf s i has -> inodes s !! a = Some i -> length all = 140%nat ->
  (forall j, (has - 1 <= j < has)%nat -> all !! j = blocks_of s i !! j) ->
  collected s s a i i has has all.
Proof.
  intros Hs Hw Hi Hl Hall. split; try done.
  - symmetry. by apply insert_id.
  - by destruct i.
  - by destruct s.
  - by left.
Qed.

(** Situation 1: only direct blocks. *)
Lemma collect_direct s s1 a i has new all :
  part_wf s -> file_wf s i has -> alloced s s1 new -> Forall (fun b => ds s < b) new ->
  let i' := with_direct i (Z.of_nat has) new in
  inodes s1 = <[a := i']> (inodes s) -> (has + length new <= 12)%nat -> length all = 140%nat ->
  (forall j, (has - 1 <= j < has + length new)%nat -> all !! j =
     if decide (has <= j)%nat then new !! (j - has)%nat else blocks_of s i !! j) ->
  collected s s1 a i i' has (has + length new) all.
Proof.
  intros Hs Hw Ha HF i' Hin Hlen Hl Hall. pose proof (io_len i (fw_ok s i has Hw)) as H13.
  pose proof (fw_tab s i has Hw ltac:(lia)) as H12.
  assert (sector i' 12 = 0) as H12'. { unfold i'. rewrite with_direct_sector by lia. by rewrite decide_False by lia. }
  assert (length (i_sectors i') = 13%nat) as H13' by (apply with_direct_length; lia).
  assert (forall j, (j < 140)%nat -> blocks_of s1 i' !! j =
    if decide (has <= j < has + length new)%nat then new !! (j - has)%nat else blocks_of s i !! j) as Hblk.
  { intros j Hj. destruct (decide (j < 12)%nat).
    - rewrite !blocks_direct by lia. unfold i'. rewrite with_direct_sector by lia.
      destruct (decide (has <= j < has + length new)%nat).
      + rewrite decide_True by lia. replace (Z.to_nat (Z.of_nat j - Z.of_nat has)) with (j - has)%nat by lia.
        destruct (lookup_lt_is_Some_2 new (j - has)) as [x Hx]; [lia|]. by rewrite Hx.
      + by rewrite decide_False by lia.
    - rewrite decide_False by lia. unfold blocks_of. rewrite H12, H12', Z.eqb_refl.
      by rewrite !lookup_app_r, !length_take, H13, H13' by (rewrite length_take; lia). }
  pose proof (blocks_length s i has Hs Hw) as Hbl.
  assert (length (blocks_of s1 i') = 140%nat) as Hbl'.
  { unfold blocks_of. rewrite H12', Z.eqb_refl, length_app, length_take, H13'. done. }
  assert (take (has + length new) (blocks_of s1 i') = take has (blocks_of s i) ++ new) as Htk.
  { apply take_grow; [done|done|done|lia| |]; intros j Hj; rewrite Hblk by lia.
    - by rewrite decide_False by lia.
    - by rewrite decide_True by lia. }
  assert (file_wf (set_dsk (dsk s1) s1) i' (has + length new)) as Hwf.
  { apply (grow_wf s s1 (dsk s1) i i' has _ new new); try done; try lia.
    - by apply with_direct_ok; [apply Hw|lia|apply (new_u32 s s1)].
    - apply Ha.
    - intros j Hj. replace (set_dsk (dsk s1) s1) with s1 by (by destruct s1). rewrite Hblk by lia.
      rewrite decide_False by lia. apply (fw_zero s i has Hw). lia. }
  replace (set_dsk (dsk s1) s1) with s1 in Hwf by (by destruct s1).
  split; try done; try apply Ha.
  - intros j Hj. rewrite Hblk, Hall by lia. destruct (decide (has <= j)%nat).
    + by rewrite decide_True by lia.
    + by rewrite decide_False by lia.
  - intros j Hj. rewrite Hblk by lia. by rewrite decide_False by lia.
  - intros b Hb _. by apply (alloced_old s s1 new).
  - apply (grow_owned s s1 i i' has _ new new); [done|done|exact (fun b => alloced_not_old s s1 _ b Ha)|lia].
  - intros lba _ Hlba. by apply (al_disk _ _ _ Ha).
Qed.

Lemma part_wf_write s lba l :
  part_wf s -> is_Some (dsk s !! lba) -> length l = 512%nat ->
  part_wf (set_dsk (<[lba := l]> (dsk s)) s) /\
  forall x, is_Some (<[lba := l]> (dsk s) !! x) <-> is_Some (dsk s !! x).
Proof.
  intros Hs Hd Hl.
  assert (forall x, is_Some (<[lba := l]> (dsk s) !! x) <-> is_Some (dsk s !! x)) as Hdom.
  { intros x. rewrite lookup_insert_is_Some. split; [by intros [<-|[_ ?]]|].
    destruct (decide (lba = x)); [by left|by right]. }
  split; [|done]. apply (part_wf_step s); try done; try apply Hs.
  intros x y. cbn [set_dsk dsk]. rewrite lookup_insert_Some. intros [[_ <-]|[_ H]]; [done|]. by eapply (sector_length s).
Qed.

Lemma rest_dsk s s1 d :
  s1 = set_inodes (inodes s1) (set_dsk (dsk s1) (set_block_bitmap (block_bitmap s1) s)) ->
  set_dsk d s1 = set_inodes (inodes s1) (set_dsk d (set_block_bitmap (block_bitmap s1) s)).
Proof. intros E. rewrite E at 1. done. Qed.

(** Situations 2 and 3: the index table at [t] is written. *)
Lemma collect_indirect s s1 a i i' t has new fresh base all :
  part_wf s -> file_wf s i has -> (1 <= has)%nat -> alloced s s1 fresh -> Forall (fun b => ds s < b) fresh ->
  (forall b, b ∈ new -> b ∈ fresh) -> NoDup new ->
  inodes s1 = <[a := i']> (inodes s) -> i' = set_sectors (i_sectors i') i -> inode_ok i' -> sector i' 12 = t ->
  (forall j, 0 <= j < 12 -> sector i' j =
     if decide (Z.of_nat has <= j < Z.of_nat (has + length new)) then default 0 (new !! Z.to_nat (j - Z.of_nat has))
     else sector i j) ->
  (12 < has + length new <= 140)%nat ->
  ((12 < has)%nat /\ t = sector i 12) \/ ((has <= 12)%nat /\ t ∈ fresh /\ t ∉ new) ->
  length base = 140%nat -> (forall j, (j < 140)%nat -> (12 <= j)%nat \/ j = (has - 1)%nat -> base !! j = blocks_of s i !! j) ->
  all = splice base (Z.of_nat has) new ->
  let s' := set_dsk (<[t := take 512 (words_bytes (drop 12 all))]> (dsk s1)) s1 in
  collected s s' a i i' has (has + length new) all /\ is_Some (dsk s1 !! t) /\ t <= max_lba.
Proof.
  intros Hs Hw Hh Ha HF Hsub Hnd Hin Hmeta Hok Ht Hdir Hwill Htab Hbl Hbase Hall s'.
  pose proof (io_len i (fw_ok s i has Hw)) as H13. pose proof (io_len i' Hok) as H13'.
  assert (dblock s1 t) as Hdt.
  { destruct Htab as [[Hh12 ->]|(_ & Hf & _)].
    - by apply (alloced_old s s1 fresh _ Ha), (fw_table s i has).
    - apply (alloced_new s s1 fresh); auto. rewrite Forall_forall in HF. auto. }
  pose proof (al_wf _ _ _ Ha) as Hs1. destruct (dblock_nonzero s1 t Hs1 Hdt) as [Ht0 _].
  pose proof (blocks_length s i has Hs Hw) as Hb140.
  assert (length all = 140%nat) as Hlen by (subst all; rewrite splice_length; lia).
  assert (forall j, (j < 140)%nat -> (12 <= j)%nat \/ (has - 1 <= j)%nat -> all !! j =
    if decide (has <= j < has + length new)%nat then new !! (j - has)%nat else base !! j) as Hlook.
  { intros j Hj _. subst all. rewrite splice_lookup by lia. by rewrite Nat2Z.id. }
  assert (forall j x, (12 <= j < 140)%nat -> all !! j = Some x -> is_u32 x) as Hu32.
  { intros j x Hj. rewrite Hlook by lia. case_decide as Hc.
    - intros Hx. pose proof (new_u32 s s1 fresh Hs Ha HF) as HU. rewrite Forall_forall in HU.
      apply HU, Hsub. by apply list_elem_of_lookup_2 in Hx.
    - rewrite Hbase by lia. destruct (decide (j < has)%nat) as [Hj'|Hj'].
      + destruct (fw_block s i has j Hs Hw Hj') as (b & -> & Hb). intros [= <-]. by apply (dblock_nonzero s).
      + rewrite (fw_zero s i has Hw) by lia. intros [= <-]. done. }
  assert (tab_words s' t = drop 12 all) as Htw.
  { unfold tab_words, s'. cbn [set_dsk dsk]. rewrite lookup_insert_eq. cbn [default from_option id].
    rewrite firstn_all2 by (rewrite words_bytes_length, length_drop; lia).
    apply bytes_words_bytes, Forall_lookup_2. intros j x. rewrite lookup_drop. intros Hx.
    pose proof (lookup_lt_Some _ _ _ Hx). by apply (Hu32 (12 + j)%nat); [lia|]. }
  assert (forall j, (j < 140)%nat -> blocks_of s' i' !! j =
    if decide (has <= j < has + length new)%nat then new !! (j - has)%nat else blocks_of s i !! j) as Hblk.
  { intros j Hj. destruct (decide (j < 12)%nat).
    - rewrite !blocks_direct by done. rewrite Hdir by lia. destruct (decide (has <= j < has + length new)%nat).
      + rewrite decide_True by lia. replace (Z.to_nat (Z.of_nat j - Z.of_nat has)) with (j - has)%nat by lia.
        destruct (lookup_lt_is_Some_2 new (j - has)) as [x Hx]; [lia|]. by rewrite Hx.
      + by rewrite decide_False by lia.
    - unfold blocks_of at 1. rewrite Ht, (proj2 (Z.eqb_neq t 0)), Htw by done.
      rewrite lookup_app_r, length_take, H13' by (rewrite length_take; lia). rewrite lookup_drop.
      replace (12 + (j - 12 `min` 13))%nat with j by lia. rewrite Hlook by lia. case_decide; [done|].
      apply Hbase; lia. }
  assert (length (blocks_of s' i') = 140%nat) as Hb140'.
  { unfold blocks_of. rewrite Ht, (proj2 (Z.eqb_neq t 0)), Htw by done.
    rewrite length_app, length_take, length_drop, H13', Hlen. done. }
  assert (length (take 512 (words_bytes (drop 12 all))) = 512%nat) as H512.
  { rewrite length_take, words_bytes_length, length_drop, Hlen. done. }
  destruct (part_wf_write s1 t _ Hs1 (db_disk s1 t Hdt) H512) as [Hs' Hdom].
  assert (take (has + length new) (blocks_of s' i') = take has (blocks_of s i) ++ new) as Htk.
  { apply take_grow; [done|done|done|lia| |]; intros j Hj; rewrite Hblk by lia.
    - by rewrite decide_False by lia.
    - by rewrite decide_True by lia. }
  assert (file_wf s' i' (has + length new)) as Hwf.
  { apply (grow_wf s s1 _ i i' has _ new fresh); try done; try lia.
    - fold s'. intros j Hj. rewrite Hblk by lia. rewrite decide_False by lia. apply (fw_zero s i has Hw). lia.
    - intros _. rewrite Ht. destruct Htab as [[? ?]|(? & ? & ?)]; [by left|by right]. }
  split; [|split; [apply (db_disk s1 t Hdt)|apply (db_max s1 t Hdt)]].
  split; try done.
  - intros j Hj. rewrite Hblk by lia. rewrite Hlook by lia. case_decide; [done|]. apply Hbase; lia.
  - intros j Hj. rewrite Hblk by lia. by rewrite decide_False by lia.
  - intros b Hb Hne. destruct (alloced_old s s1 fresh b Ha Hb) as [Hb1 E1].
    assert (b <> t) as Hbt.
    { intros ->. destruct Htab as [[Hc ->]|(_ & Hf & _)]; [by apply Hne|].
      pose proof (al_free _ _ _ Ha) as H. rewrite Forall_forall in H. by apply (free_not_dblock s t); auto. }
    split; [by apply dblock_dsk|]. unfold s'. cbn [set_dsk dsk]. by rewrite lookup_insert_ne.
  - exact (rest_dsk s s1 _ (al_rest _ _ _ Ha)).
  - apply (grow_owned s s' i i' has _ new fresh); [done|done|exact (fun b => alloced_not_old s s1 _ b Ha)|].
    intros _. rewrite Ht. destruct Htab as [[? ?]|(? & ? & ?)]; [by left|by right].
  - intros lba Hle Hlba. unfold s'. cbn [set_dsk dsk]. rewrite lookup_insert_ne; [by apply (al_disk _ _ _ Ha)|].
    pose proof (db_lo s1 t Hdt). rewrite (alloced_sb _ _ _ Ha) in *. lia.
  - apply (al_sects _ _ _ Ha).
Qed.

Lemma wp_read_table s t all l (Q : list Z -> fs -> Prop) :
  dsk s !! t = Some l -> t <= max_lba -> Q (take 12 all ++ tab_words s t) s -> wp (read_table t all) Q s.
Proof.
  intros Hl Ht HQ. unfold read_table. wp_steps. apply (wp_ide_read1 t l); [done|done|]. wp_steps.
  unfold tab_words in HQ. by rewrite Hl in HQ.
Qed.

Lemma wp_set_word s l k w (Q : list Z -> fs -> Prop) :
  0 <= k < Z.of_nat (length l) -> Q (splice l k [w]) s -> wp (lift (set_word l k w)) Q s.
Proof. intros Hk HQ. apply (wp_lift _ (splice l k [w])); [|done]. unfold set_word. by rewrite insert_splice by lia. Qed.

Lemma sector_zero s i n j : file_wf s i n -> Z.of_nat n <= j < 12 -> sector i j = 0.
Proof.
  intros Hw Hj. pose proof (fw_zero s i n Hw (Z.to_nat j) ltac:(lia)) as H.
  rewrite blocks_direct in H by (lia || apply Hw). injection H as H. rewrite <- H. f_equal. lia.
Qed.

(** The table as read back, for a file that has one. *)
Definition table_base (s : fs) (i : inode) : list Z := take 12 (replicate 140 0) ++ tab_words s (sector i 12).

Lemma table_base_spec s i n : part_wf s -> file_wf s i n -> (12 < n)%nat ->
  length (table_base s i) = 140%nat /\
  forall j, (12 <= j < 140)%nat -> table_base s i !! j = blocks_of s i !! j.
Proof.
  intros Hs Hw Hn. pose proof (fw_table s i n Hw Hn) as Ht. pose proof (io_len i (fw_ok s i n Hw)) as H13.
  destruct (dblock_nonzero s _ Hs Ht) as [Hnz _]. unfold table_base, blocks_of. rewrite (proj2 (Z.eqb_neq _ _)) by done. split.
  - rewrite length_app, length_take, length_replicate, (tab_words_length s _ Hs Ht). done.
  - intros j Hj. rewrite !lookup_app_r by (rewrite length_take, ?length_replicate; lia).
    rewrite !length_take, length_replicate, H13. done.
Qed.

Lemma one_block_base s i has : part_wf s -> file_wf s i has -> (1 <= has <= 12)%nat ->
  forall j, (j < 140)%nat -> (12 <= j)%nat \/ j = (has - 1)%nat ->
  one_block has (sector i (Z.of_nat has - 1)) !! j = blocks_of s i !! j.
Proof.
  intros Hs Hw Hh j Hj Hc. rewrite one_block_lookup by lia. destruct (decide (j = has - 1)%nat) as [->|].
  - rewrite blocks_direct by (lia || apply Hw). do 2 f_equal. lia.
  - symmetry. apply (fw_zero s i has Hw). lia.
Qed.

Lemma wp_write_table s t all (Q : unit -> fs -> Prop) :
  is_Some (dsk s !! t) -> t <= max_lba ->
  Q tt (set_dsk (<[t := take 512 (words_bytes (drop 12 all))]> (dsk s)) s) -> wp (write_table t all) Q s.
Proof. intros Hd Hm HQ. unfold write_table. by apply wp_ide_write1. Qed.

Section collect.
Context (s : fs) (a : Z) (i : inode) (has : nat).
Context (Hs : part_wf s) (Hw : file_wf s i has) (Hh : (1 <= has)%nat) (Hi : inodes s !! a = Some i).

(** What each way of collecting the blocks establishes. *)
Abbreviation got will := (fun r s' => exists all i', r = Some all /\ collected s s' a i i' has will all).
Abbreviation block1 := (one_block has (sector i (Z.of_nat has - 1))).

Lemma wp_no_new_block : wp (no_new_block i (Z.of_nat has) (replicate 140 0)) (got has) s.
Proof.
  pose proof (fw_n s i has Hw). unfold no_new_block. destruct (Z.leb_spec (Z.of_nat has) 12) as [Hle|Hgt].
  - wp_steps. apply wp_set_word; [rewrite length_replicate; lia|]. wp_steps. exists block1, i. split; [done|].
    apply collect_none; [done|done|done|apply one_block_length; lia|].
    intros j Hj. apply one_block_base; try done; lia.
  - pose proof (fw_table s i has Hw ltac:(lia)) as Ht. destruct (db_disk s _ Ht) as [l Hl].
    destruct (dblock_nonzero s _ Hs Ht) as [Hnz _].
    wp_steps; [by rewrite (proj2 (Z.eqb_neq _ _))|]. apply (wp_read_table s _ _ l); [done|apply Ht|]. wp_steps.
    destruct (table_base_spec s i has Hs Hw ltac:(lia)) as [Hbl Hb].
    exists (table_base s i), i. split; [done|]. apply collect_none; [done..|]. intros j Hj. apply Hb. lia.
Qed.

Lemma wp_situation1 n :
  has_free s n -> (has + n <= 12)%nat ->
  wp (situation1 a i (Z.of_nat has) n (replicate 140 0)) (got (has + n)%nat) s.
Proof.
  intros Hf Hn. pose proof (io_len i (fw_ok s i has Hw)) as H13. unfold situation1. wp_steps.
  { destruct (fw_block s i has (has - 1) Hs Hw ltac:(lia)) as (b & Hb & Hdb).
    rewrite blocks_direct in Hb by lia. replace (Z.of_nat (has - 1)) with (Z.of_nat has - 1) in Hb by lia.
    injection Hb as Hb. rewrite Hb. destruct (dblock_nonzero s b Hs Hdb) as [? _]. by rewrite (proj2 (Z.eqb_neq _ _)). }
  apply wp_set_word; [rewrite length_replicate; lia|].
  eapply wp_mono; [apply (wp_alloc_blocks n a _ block1 s i); try done; try lia; [apply one_block_length; lia|]|].
  { intros j Hj. by apply (sector_zero s i has). }
  cbn beta. intros r s1 (new & -> & <- & Ha & HF & Hin). eexists _, _. split; [done|].
  apply (collect_direct s s1 a i has new); try done.
  - rewrite splice_length; rewrite ?one_block_length by lia; lia.
  - intros j Hj. rewrite splice_lookup by (rewrite ?one_block_length by lia; lia). rewrite Nat2Z.id.
    destruct (decide (has <= j)%nat).
    + by rewrite decide_True by lia.
    + rewrite decide_False by lia. apply one_block_base; try done; lia.
Qed.

Lemma wp_situation2 n :
  has_free s (S n) -> (has <= 12)%nat -> (12 < has + n <= 140)%nat ->
  wp (situation2 a i (Z.of_nat has) n (replicate 140 0)) (got (has + n)%nat) s.
Proof.
  intros Hf Hh12 Hn. pose proof (io_len i (fw_ok s i has Hw)) as H13. unfold situation2. wp_steps.
  apply wp_set_word; [rewrite length_replicate; lia|]. change (splice _ _ _) with block1. wp_steps.
  apply (wp_block_alloc s n); [done|done|]. intros t bm Hft Hlt Hne Hbm Hsh Hu.
  rewrite (proj2 (Z.eqb_neq t (-1))) by done. wp_steps; [by rewrite (fw_tab s i has Hw) by lia|].
  pose proof (alloced_alloc s t bm Hs Hft Hbm Hsh Hu) as Ha1. set (s1 := set_block_bitmap bm s) in *.
  apply (wp_put_sector _ _ _ i); [done|lia|]. wp_steps.
  set (i1 := set_sectors (splice (i_sectors i) 12 [t]) i). set (s2 := set_inodes _ s1).
  assert (alloced s s2 [t]) as Ha2 by (apply (alloced_trans s s1 s2 [t] [] Ha1), alloced_inodes, Ha1).
  assert (forall j, 0 <= j -> sector i1 j = if decide (j = 12) then t else sector i j) as Hs1.
  { intros j Hj. apply (sector_splice i 12 t (i_sectors i)); [done|lia|done]. }
  assert (length (i_sectors i1) = 13%nat) as H13'.
  { unfold i1. cbn [set_sectors i_sectors]. rewrite splice_length by (cbn [length]; lia). done. }
  eapply wp_mono; [apply (wp_alloc_blocks n a _ block1 s2 i1);
    [apply Ha2|by apply (alloced_has_free s s2 [t])|apply lookup_insert_eq|apply one_block_length; lia|done|lia|lia|]|].
  { intros j Hj. rewrite Hs1, decide_False by lia. by apply (sector_zero s i has). }
  cbn beta. intros r s3 (new & -> & Hl & Ha3 & HF & Hin). wp_steps.
  pose proof (alloced_trans s s2 s3 [t] new Ha2 Ha3) as Ha.
  assert (Forall (fun b => ds s < b) ([t] ++ new)) as HFs by (by apply Forall_cons_2).
  pose proof (al_nodup _ _ _ Ha) as Hnd. apply NoDup_cons in Hnd as [Htn Hnd].
  pose proof (new_u32 s s3 _ Hs Ha HFs) as HU. apply Forall_cons in HU as [Hut HU].
  assert (inode_ok i1) as Hok1.
  { destruct (fw_ok s i has Hw). split; try done. unfold i1. cbn [set_sectors i_sectors].
    apply Forall_lookup_2. intros j x. rewrite splice_lookup by (cbn [length]; lia). case_decide; intros Hx.
    - destruct (j - Z.to_nat 12)%nat; [by injection Hx as <-|done].
    - by eapply Forall_lookup_1 in Hx. }
  destruct (collect_indirect s s3 a i (with_direct i1 (Z.of_nat has) new) t has new ([t] ++ new) block1
    (splice block1 (Z.of_nat has) new)) as (Hc & Hd & Hm).
  all: try done; try lia.
  - intros b Hb. apply elem_of_app. by right.
  - rewrite Hin. cbn [s2 set_inodes inodes]. by rewrite insert_insert_eq.
  - by apply with_direct_ok; [|lia|].
  - rewrite with_direct_sector, decide_False, Hs1 by lia. done.
  - intros j Hj. rewrite with_direct_sector by lia. rewrite Hs1, (decide_False (P := j = 12)) by lia.
    destruct (decide (Z.of_nat has <= j < Z.of_nat (has + length new))); [by rewrite decide_True by lia|by rewrite decide_False by lia].
  - right. split_and!; [lia|by left|done].
  - apply one_block_length. lia.
  - apply one_block_base; try done; lia.
  - apply wp_write_table; [done|done|]. wp_steps. eexists _, _. split; [done|]. by rewrite <- Hl.
Qed.

Lemma wp_situation3 n :
  has_free s n -> (12 < has)%nat -> (has + n <= 140)%nat ->
  wp (situation3 a i (Z.of_nat has) n (replicate 140 0)) (got (has + n)%nat) s.
Proof.
  intros Hf Hh12 Hn. pose proof (io_len i (fw_ok s i has Hw)) as H13. unfold situation3.
  pose proof (fw_table s i has Hw Hh12) as Ht. destruct (db_disk s _ Ht) as [l Hl].
  destruct (dblock_nonzero s _ Hs Ht) as [Hnz _].
  wp_steps; [by rewrite (proj2 (Z.eqb_neq _ _))|]. apply (wp_read_table s _ _ l); [done|apply Ht|]. wp_steps.
  destruct (table_base_spec s i has Hs Hw Hh12) as [Hbl Hb].
  eapply wp_mono; [apply (wp_alloc_blocks n a _ (table_base s i) s i); try done; lia|].
  cbn beta. intros r s1 (new & -> & Hn' & Ha & HF & Hin). wp_steps.
  destruct (collect_indirect s s1 a i (with_direct i (Z.of_nat has) new) (sector i 12) has new new
    (table_base s i) (splice (table_base s i) (Z.of_nat has) new)) as (Hc & Hd & Hm).
  all: try done; try lia.
  - apply Ha.
  - apply with_direct_ok; [apply Hw|lia|by apply (new_u32 s s1)].
  - by rewrite with_direct_sector, decide_False by lia.
  - intros j Hj. rewrite with_direct_sector by lia. by rewrite !decide_False by lia.
  - intros j Hj Hc. apply Hb. lia.
  - apply wp_write_table; [done|done|]. wp_steps. eexists _, _. split; [done|]. by rewrite <- Hn'.
Qed.

Lemma wp_collect will :
  (has <= will <= 140)%nat -> has_free s (S (will - has)) ->
  wp (collect_blocks a (Z.of_nat has) (Z.of_nat will) (replicate 140 0)) (got will) s.
Proof.
  intros H140 Hf. assert (has_free s (will - has)) as Hf'.
  { destruct Hf as (l & ? & ? & ?). exists l. split_and!; [done|lia|done]. }
  unfold collect_blocks. wp_steps. apply (wp_get_inode _ i); [done|].
  rewrite u32_id by (unfold is_u32; lia). replace (Z.to_nat (Z.of_nat will - Z.of_nat has)) with (will - has)%nat by lia.
  destruct (Z.eqb_spec (Z.of_nat will - Z.of_nat has) 0) as [E|E].
  { assert (will = has) as -> by lia. apply wp_no_new_block. }
  remember (will - has)%nat as n eqn:En. assert (will = (has + n)%nat) as -> by lia.
  destruct (Z.leb_spec (Z.of_nat (has + n)) 12) as [Hle|Hgt]; [|destruct (Z.leb_spec (Z.of_nat has) 12) as [Hh12|Hh12]].
  - apply wp_situation1; [done|lia].
  - rewrite (proj2 (Z.ltb_lt 12 _)) by lia. cbn [andb].
    apply wp_situation2; [done|lia|lia].
  - cbn [andb]. apply wp_situation3; [done|lia|lia].
Qed.
End collect.

(** ** The write loop *)

(** The indices of the blocks that [len] bytes from offset [n] touch. *)
Definition touched (n len : Z) (j : nat) : Prop := 0 < len /\ n / 512 <= Z.of_nat j /\ 512 * Z.of_nat j < n + len.

(** The blocks to be written are on the disk and distinct. *)
Definition writable (d : disk) (all : list Z) (n len : Z) : Prop :=
  (forall j, touched n len j -> exists b, all !! j = Some b /\ is_Some (d !! b) /\ b <= max_lba) /\
  (forall j j' b, touched n len j -> touched n len j' -> all !! j = Some b -> all !! j' = Some b -> j = j').

(** The effect on the disk of writing [src] at offset [n]. *)
Record written (d d' : disk) (all : list Z) (n : Z) (src : list Z) : Prop := {
  wr_ok : disk_ok d';
  wr_dom : forall lba, is_Some (d' !! lba) <-> is_Some (d !! lba);
  wr_frame : forall lba, (forall j, touched n (Z.of_nat (length src)) j -> all !! j <> Some lba) -> d' !! lba = d !! lba;
  wr_data : forall t, (t < length src)%nat -> block_byte d' all (n + Z.of_nat t) = src !! t;
  wr_before : forall k, 512 * (n / 512) <= k < n -> block_byte d' all k = block_byte d all k
}.

Lemma written_nil d all n : disk_ok d -> written d d all n [].
Proof. intros Hd. split; try done. intros t Ht. cbn in Ht. lia. Qed.

Lemma div_block n : 0 <= n -> n = 512 * (n / 512) + n mod 512 /\ 0 <= n mod 512 < 512 /\ 0 <= n / 512.
Proof. intros. pose proof (Z.div_mod n 512). pose proof (Z.mod_pos_bound n 512). pose proof (Z.div_pos n 512). lia. Qed.

Lemma block_byte_at d all q off l b : 0 <= q -> 0 <= off < 512 -> all !! Z.to_nat q = Some b -> d !! b = Some l ->
  block_byte d all (512 * q + off) = l !! Z.to_nat off.
Proof.
  intros Hq Ho Hb Hl. unfold block_byte. replace (512 * q + off) with (off + q * 512) by lia.
  rewrite Z.div_add, Z.mod_add, Z.div_small, Z.mod_small by lia. by rewrite Z.add_0_l, Hb, Hl.
Qed.

(** One chunk. *)
Lemma written_chunk d all n src c b io :
  disk_ok d -> 0 <= n -> all !! Z.to_nat (n / 512) = Some b -> is_Some (d !! b) -> length io = 512%nat ->
  (forall k, (k < Z.to_nat (n mod 512))%nat -> io !! k = default [] (d !! b) !! k) ->
  1 <= c -> n mod 512 + c <= 512 -> c <= Z.of_nat (length src) ->
  written d (<[b := splice io (n mod 512) (take (Z.to_nat c) src)]> d) all n (take (Z.to_nat c) src).
Proof.
  intros Hd Hn Hb [l Hl] Hio Hkeep Hc Hle Hsrc. destruct (div_block n Hn) as (En & Hm & Hq).
  assert (length (take (Z.to_nat c) src) = Z.to_nat c) as Hlt by (rewrite length_take; lia).
  set (new := splice io (n mod 512) (take (Z.to_nat c) src)).
  assert (length new = 512%nat) as Hnew by (unfold new; rewrite splice_length; lia).
  split.
  - intros x y. rewrite lookup_insert_Some. intros [[_ <-]|[_ H]]; [done|by eapply Hd].
  - intros x. rewrite lookup_insert_is_Some. split; [intros [<-|[_ ?]]; eauto|].
    destruct (decide (b = x)); [by left|by right].
  - intros lba H. rewrite lookup_insert_ne; [done|]. intros <-. apply (H (Z.to_nat (n / 512))); [|done].
    unfold touched. rewrite Hlt. lia.
  - intros t Ht. rewrite Hlt in Ht. replace (n + Z.of_nat t) with (512 * (n / 512) + (n mod 512 + Z.of_nat t)) by lia.
    rewrite (block_byte_at _ _ _ _ new b) by (done || lia || apply lookup_insert_eq).
    unfold new. rewrite splice_lookup by lia. rewrite Hlt, decide_True by lia. f_equal. lia.
  - intros k Hk. replace k with (512 * (n / 512) + (k - 512 * (n / 512))) by lia.
    rewrite (block_byte_at _ _ _ _ new b) by (done || lia || apply lookup_insert_eq).
    rewrite (block_byte_at d _ _ _ l b) by (done || lia).
    unfold new. rewrite splice_lookup by lia. rewrite decide_False by lia. rewrite Hkeep by lia. by rewrite Hl.
Qed.

(** A chunk up to the end of its block, and the rest. *)
Lemma written_app d d1 d2 all n src1 src2 :
  0 <= n -> (1 <= length src1)%nat -> writable d all n (Z.of_nat (length (src1 ++ src2))) ->
  n mod 512 + Z.of_nat (length src1) <= 512 -> (src2 <> [] -> n mod 512 + Z.of_nat (length src1) = 512) ->
  written d d1 all n src1 -> written d1 d2 all (n + Z.of_nat (length src1)) src2 ->
  written d d2 all n (src1 ++ src2).
Proof.
  intros Hn H1 [Hv Hd] Hle Hfull [a1 a2 a3 a4 a5] [b1 b2 b3 b4 b5]. destruct (div_block n Hn) as (En & Hm & Hq).
  set (L1 := Z.of_nat (length src1)) in *. set (L2 := Z.of_nat (length src2)) in *.
  assert (Z.of_nat (length (src1 ++ src2)) = L1 + L2) as HL by (unfold L1, L2; rewrite length_app; lia). rewrite HL in *.
  assert (src2 <> [] -> (n + L1) / 512 = n / 512 + 1) as Hnext.
  { intros H. specialize (Hfull H). replace (n + L1) with (0 + (n / 512 + 1) * 512) by lia. rewrite Z.div_add by lia. done. }
  assert (src2 = [] -> L2 = 0) as Hnil by (by intros ->).
  assert (forall j, touched (n + L1) L2 j -> touched n (L1 + L2) j /\ j <> Z.to_nat (n / 512)) as Hsub.
  { intros j (Hj0 & Hj1 & Hj2). destruct (decide (src2 = [])) as [E|E].
    - rewrite (Hnil E) in Hj0. lia.
    - rewrite (Hnext E) in Hj1. unfold touched. lia. }
  assert (touched n (L1 + L2) (Z.to_nat (n / 512))) as Hfirst by (unfold touched, L1; lia).
  destruct (Hv _ Hfirst) as (b & Hb & _).
  assert (d2 !! b = d1 !! b) as Hsame.
  { apply b3. intros j Hj Hjb. destruct (Hsub j Hj) as [Ht Hne]. apply Hne. by apply (Hd _ _ b). }
  assert (forall k, 512 * (n / 512) <= k < 512 * (n / 512) + 512 -> block_byte d2 all k = block_byte d1 all k) as Hblk.
  { intros k Hk. unfold block_byte. replace (k / 512) with (n / 512); [by rewrite Hb, Hsame|].
    apply (Z.div_unique _ _ _ (k - 512 * (n / 512))); lia. }
  split; [done| | | |].
  - intros lba. by rewrite b2, a2.
  - intros lba H. rewrite HL in H. rewrite b3, a3; [done| |].
    + intros j (Hj0 & Hj1 & Hj2). apply H. fold L1 in Hj2. unfold touched. lia.
    + intros j Hj. apply H. by apply Hsub.
  - intros t Ht. rewrite length_app in Ht. destruct (decide (t < length src1)%nat).
    + rewrite lookup_app_l by done. rewrite Hblk by (unfold L1 in *; lia). by apply a4.
    + rewrite lookup_app_r by lia. rewrite <- b4 by lia. f_equal. unfold L1. lia.
  - intros k Hk. rewrite Hblk by lia. by apply a5.
Qed.

Lemma wp_get_file f x s (Q : file -> fs -> Prop) : arr_get (file_table s) f = Some x -> Q x s -> wp (get_file f) Q s.
Proof. intros E HQ. unfold wp, get_file. by rewrite E. Qed.

Lemma wp_put_file f x y s (Q : unit -> fs -> Prop) :
  arr_get (file_table s) f = Some y -> Q tt (set_file_table (<[Z.to_nat f := x]> (file_table s)) s) -> wp (put_file f x) Q s.
Proof.
  intros E HQ. unfold wp, put_file, arr_set. rewrite decide_True by eauto. done.
Qed.

Lemma arr_get_insert {A} (l : list A) f x y : arr_get l f = Some y -> arr_get (<[Z.to_nat f := x]> l) f = Some x.
Proof.
  intros H. pose proof (arr_get_Some_lt _ _ _ H). unfold arr_get. rewrite decide_True by lia.
  apply list_lookup_insert_eq. lia.
Qed.

(** Adding two numbers of bytes to a 32-bit position. *)
Lemma u32_add p c c' : u32 (u32 (p + c) + c') = u32 (p + (c + c')).
Proof. unfold u32. rewrite Z.add_mod_idemp_l by lia. f_equal. lia. Qed.

(** The state after [len] bytes went to the file: size, position and disk. *)
Definition advanced (s : fs) (a f : Z) (i : inode) (x : file) (len : Z) (d' : disk) : fs :=
  set_dsk d' (set_inodes (<[a := set_size (i_size i + len) i]> (inodes s))
    (set_file_table (<[Z.to_nat f := set_pos (u32 (fd_pos x + len)) x]> (file_table s)) s)).

Lemma advanced_trans s a f i x c c' d1 d2 :
  advanced (advanced s a f i x c d1) a f (set_size (i_size i + c) i) (set_pos (u32 (fd_pos x + c)) x) c' d2 =
  advanced s a f i x (c + c') d2.
Proof.
  unfold advanced. cbn [set_dsk set_inodes set_file_table inodes file_table dsk sb].
  rewrite insert_insert_eq, list_insert_insert_eq. cbn [set_size set_pos i_size fd_pos i_no i_open_cnts write_deny i_sectors fd_flag fd_inode].
  rewrite u32_add, <- (Z.add_assoc (i_size i)). done.
Qed.

Lemma nonnil_length {A} (l : list A) : l <> [] -> (0 < length l)%nat.
Proof. destruct l; cbn; [done|lia]. Qed.

Lemma writable_drop d d1 all n (src : list Z) c :
  0 <= n -> 1 <= c -> c <= Z.of_nat (length src) -> (forall lba, is_Some (d1 !! lba) <-> is_Some (d !! lba)) ->
  writable d all n (Z.of_nat (length src)) -> writable d1 all (n + c) (Z.of_nat (length (drop (Z.to_nat c) src))).
Proof.
  intros Hn Hc Hle Hdom [Hv Hd]. rewrite length_drop.
  assert (forall j, touched (n + c) (Z.of_nat (length src - Z.to_nat c)) j -> touched n (Z.of_nat (length src)) j) as Hsub.
  { intros j (? & ? & ?). unfold touched. pose proof (Z.div_le_mono n (n + c) 512). lia. }
  split.
  - intros j Hj. destruct (Hv j (Hsub j Hj)) as (b & ? & ? & ?). exists b. split_and!; [done|by apply Hdom|done].
  - intros j j' b Hj Hj'. apply Hd; auto.
Qed.

Lemma wp_write_loop : forall fuel f a all src first s i x,
  disk_ok (dsk s) -> inodes s !! a = Some i -> arr_get (file_table s) f = Some x -> is_u32 (fd_pos x) ->
  0 <= i_size i -> i_size i + Z.of_nat (length src) < 4294967296 ->
  (first = false -> src <> [] -> i_size i mod 512 = 0) ->
  writable (dsk s) all (i_size i) (Z.of_nat (length src)) -> (length src < fuel)%nat ->
  wp (write_loop fuel f a all src first) (fun _ s' => exists d',
    s' = advanced s a f i x (Z.of_nat (length src)) d' /\ written (dsk s) d' all (i_size i) src) s.
Proof.
  induction fuel as [|fuel IH]; intros f a all src first s i x Hd Hi Hx Hp Hn Hn32 Hfirst Hwr Hf; [lia|].
  cbn [write_loop]. set (n := i_size i) in *. destruct (Z.eqb_spec (Z.of_nat (length src)) 0) as [E|E].
  - assert (src = []) as -> by (apply nil_length_inv; lia). apply wp_ret. exists (dsk s). split; [|by apply written_nil].
    unfold advanced. cbn [length Z.of_nat]. rewrite !Z.add_0_r, u32_id by done.
    assert (set_size (i_size i) i = i) as -> by (by destruct i). assert (set_pos (fd_pos x) x = x) as -> by (by destruct x).
    rewrite insert_id by done. rewrite list_insert_id; [by destruct s|].
    unfold arr_get in Hx. by case_decide.
  - destruct (div_block n Hn) as (En & Hm & Hq). unfold BLOCK_SIZE.
    set (c := if Z.of_nat (length src) <? 512 - n mod 512 then Z.of_nat (length src) else 512 - n mod 512).
    assert (1 <= c /\ c <= Z.of_nat (length src) /\ n mod 512 + c <= 512 /\
      (c < Z.of_nat (length src) -> n mod 512 + c = 512)) as (Hc1 & Hc2 & Hc3 & Hc4).
    { unfold c. destruct (Z.ltb_spec (Z.of_nat (length src)) (512 - n mod 512)); lia. }
    assert (touched n (Z.of_nat (length src)) (Z.to_nat (n / 512))) as Ht by (unfold touched; lia).
    destruct (proj1 Hwr _ Ht) as (b & Hb & [l Hl] & Hmax).
    wp_steps. apply (wp_get_inode _ i); [done|]. fold n. wp_steps.
    apply (wp_lift _ b). { unfold arr_get. rewrite decide_True by lia. by rewrite Hb. }
    wp_steps.
    assert (wp (if first then ide_read b 1 else ret zero_buf) (fun io s' => s' = s /\ length io = 512%nat /\
      forall k, (k < Z.to_nat (n mod 512))%nat -> io !! k = default [] (dsk s !! b) !! k) s) as Hio.
    { destruct first.
      - apply (wp_ide_read1 b l); [done|done|]. rewrite Hl. split_and!; [done|by eapply Hd|done].
      - apply wp_ret. split_and!; [done|done|]. rewrite Hfirst; [|done|by intros ->]. intros k Hk. cbn in Hk. lia. }
    eapply wp_mono; [exact Hio|]. cbn beta. intros io ? (-> & Hlen & Hkeep). fold c. wp_steps.
    apply wp_ide_write1; [done|eauto|]. rewrite firstn_all2 by (rewrite splice_length; rewrite ?length_take; lia).
    set (d1 := <[b := _]> (dsk s)). unfold put_inode. wp_steps. apply (wp_get_file _ x); [done|]. wp_steps.
    apply (wp_put_file _ _ x); [done|]. rewrite (u32_id (n + c)) by (unfold is_u32; lia).
    change (wp (write_loop fuel f a all (drop (Z.to_nat c) src) false)
      (fun _ s' => exists d', s' = advanced s a f i x (Z.of_nat (length src)) d' /\ written (dsk s) d' all n src)
      (advanced s a f i x c d1)).
    assert (written (dsk s) d1 all n (take (Z.to_nat c) src)) as Hw1 by (apply written_chunk; done || lia || eauto).
    assert (length (drop (Z.to_nat c) src) = (length src - Z.to_nat c)%nat) as Hdl by apply length_drop.
    assert (length (take (Z.to_nat c) src) = Z.to_nat c) as Htl by (rewrite length_take; lia).
    eapply wp_mono; [apply (IH f a all _ false _ (set_size (n + c) i) (set_pos (u32 (fd_pos x + c)) x))|].
    + apply Hw1.
    + apply lookup_insert_eq.
    + by eapply arr_get_insert.
    + apply u32_range.
    + cbn [set_size i_size]. lia.
    + cbn [set_size i_size]. lia.
    + cbn [set_size i_size]. intros _ Hne. rewrite En.
      assert (n mod 512 + c = 512) as E' by (apply Hc4; apply nonnil_length in Hne; lia).
      replace (512 * (n / 512) + n mod 512 + c) with ((n / 512 + 1) * 512) by lia. apply Z.mod_mul. lia.
    + cbn [set_size i_size]. apply (writable_drop (dsk s)); done || lia || apply Hw1.
    + lia.
    + cbn beta. intros _ s' (d' & -> & Hw2). exists d'. rewrite advanced_trans. split; [do 2 f_equal; lia|].
      rewrite <- (take_drop (Z.to_nat c) src). apply (written_app (dsk s) d1 d'); [done|lia| |lia| |done|].
      * by rewrite take_drop.
      * intros Hne. apply nonnil_length in Hne. rewrite Htl. lia.
      * replace (n + Z.of_nat (length (take (Z.to_nat c) src))) with (n + c) by lia. exact Hw2.
Qed.

(** ** The first block *)
Lemma wp_first_block s a i n m :
  part_wf s -> file_wf s i n -> inodes s !! a = Some i -> has_free s (S m) ->
  wp (first_block a) (fun r s' => r = true /\ exists i' all,
    collected s s' a i i' n (Nat.max 1 n) all /\ has_free s' m) s.
Proof.
  intros Hs Hw Hi Hf. unfold first_block. wp_steps. apply (wp_get_inode _ i); [done|].
  pose proof (io_len i (fw_ok s i n Hw)) as H13. destruct n as [|n].
  - rewrite (sector_zero s i 0 0 Hw) by lia. cbn [Z.eqb]. wp_steps.
    apply (wp_block_alloc s m); [done|done|]. intros b bm Hfb Hlt Hne Hbm Hsh Hu.
    rewrite (proj2 (Z.eqb_neq b (-1))) by done. wp_steps.
    pose proof (alloced_alloc s b bm Hs Hfb Hbm Hsh Hu) as Ha. set (s1 := set_block_bitmap bm s) in *.
    apply (wp_put_sector _ _ _ i); [done|lia|]. set (s2 := set_inodes _ s1).
    assert (alloced s s2 [b]) as Ha2 by (apply (alloced_trans s s1 s2 [b] [] Ha), alloced_inodes, Ha).
    wp_steps; change (ds s2) with (ds s).
    { destruct Hfb as [Hr _]. pose proof (bb_sects_bits s Hs). pose proof (pw_bb_end s Hs). pose proof (pw_bb_lba s Hs).
      pose proof (pw_ds s Hs). change max_lba with 163839 in *. rewrite u32_id by (unfold is_u32; lia).
      by rewrite (proj2 (Z.eqb_neq (b - ds s) 0)) by lia. }
    apply (wp_sync_alloced s s2 b); [done|]. intros s3 Ha3 Hin3. wp_steps. split; [done|].
    eexists _, (b :: replicate 139 0). split; [|by apply (alloced_has_free s s3 [b])].
    apply (collect_direct s s3 a i 0 [b]); try done; [by apply Forall_cons_2|cbn [length]; lia|].
    intros j Hj. cbn [length] in Hj. assert (j = 0%nat) as -> by lia. done.
  - destruct (fw_block s i (S n) 0 Hs Hw ltac:(lia)) as (b & Hb & Hdb). rewrite blocks_direct in Hb by lia.
    injection Hb as Hb. change (Z.of_nat 0) with 0 in Hb. rewrite Hb.
    destruct (dblock_nonzero s b Hs Hdb) as [Hnz _]. rewrite (proj2 (Z.eqb_neq b 0)) by done. wp_steps.
    split; [done|]. exists i, (blocks_of s i). split.
    + rewrite Nat.max_r by lia. apply collect_none; [done..|by apply (blocks_length s i (S n))|done].
    + destruct Hf as (l & ? & ? & ?). exists l. split_and!; [done|lia|done].
Qed.

(** ** The effect on the file *)
Lemma block_byte_list d l l' k : l !! Z.to_nat (k / 512) = l' !! Z.to_nat (k / 512) -> block_byte d l k = block_byte d l' k.
Proof. intros E. unfold block_byte. by rewrite E. Qed.

Lemma file_data_app s i s' i' src :
  0 <= i_size i -> i_size i' = i_size i + Z.of_nat (length src) ->
  (forall k, 0 <= k < i_size i -> block_byte (dsk s') (blocks_of s' i') k = block_byte (dsk s) (blocks_of s i) k) ->
  (forall t, (t < length src)%nat -> block_byte (dsk s') (blocks_of s' i') (i_size i + Z.of_nat t) = src !! t) ->
  file_data s' i' = file_data s i ++ src.
Proof.
  intros H0 Hsz H1 H2. unfold file_data. rewrite Hsz, seqZ_app, fmap_app by lia. f_equal.
  - apply list_fmap_ext. intros j k Hk%list_elem_of_lookup_2%elem_of_seqZ. by rewrite H1 by lia.
  - apply list_eq. intros t. rewrite list_lookup_fmap. destruct (decide (t < length src)%nat) as [Ht|Ht].
    + rewrite lookup_seqZ_lt by lia. cbn. rewrite Z.add_0_l, H2 by lia.
      by destruct (lookup_lt_is_Some_2 src t Ht) as [x ->].
    + rewrite lookup_seqZ_ge by lia. symmetry. apply lookup_ge_None. lia.
Qed.

(** The same blocks in another state. *)
Lemma file_wf_same s s' i i' n :
  file_wf s i n -> sb s' = sb s -> block_bitmap s' = block_bitmap s ->
  (forall lba, is_Some (dsk s' !! lba) <-> is_Some (dsk s !! lba)) ->
  i_sectors i' = i_sectors i -> inode_ok i' -> blocks_of s' i' = blocks_of s i -> file_wf s' i' n.
Proof.
  intros [w1 w2 w3 w4 w5 w6] Esb Ebm Hdom Esec Hok Hblk.
  assert (forall j, sector i' j = sector i j) as Es by (intros j; unfold sector; by rewrite Esec).
  assert (owned s' i' n = owned s i n) as Eo by (unfold owned; by rewrite Hblk, Es).
  split; rewrite ?Eo, ?Hblk, ?Es; try done.
  eapply Forall_impl; [exact w3|]. intros b [? ? ? ? ?]. split; rewrite ?Esb, ?Ebm; try done. by apply Hdom.
Qed.

Lemma blocks_of_same s s' i i' :
  i_sectors i' = i_sectors i -> (sector i 12 <> 0 -> dsk s' !! sector i 12 = dsk s !! sector i 12) ->
  blocks_of s' i' = blocks_of s i.
Proof.
  intros E H. unfold blocks_of, tab_words. assert (sector i' 12 = sector i 12) as -> by (unfold sector; by rewrite E).
  rewrite E. destruct (Z.eqb_spec (sector i 12) 0); [done|]. by rewrite H.
Qed.

Lemma slot_write_sector d d' off bytes lba :
  disk_ok d -> slot_write d d' off bytes -> (512 * lba + 512 <= off \/ off + Z.of_nat (length bytes) <= 512 * lba) ->
  d' !! lba = d !! lba.
Proof.
  intros Hd (Hd' & Hdom & Hb) Hlba. destruct (d !! lba) as [l|] eqn:E.
  - destruct (proj2 (Hdom lba) ltac:(eauto)) as [l' E']. rewrite E'. f_equal. apply list_eq. intros j.
    pose proof (Hd _ _ E) as Hl. pose proof (Hd' _ _ E') as Hl'. cbn in Hl, Hl'.
    destruct (decide (j < 512)%nat) as [Hj|Hj].
    + pose proof (dbyte_sector d lba (Z.of_nat j) ltac:(lia)) as H1. pose proof (dbyte_sector d' lba (Z.of_nat j) ltac:(lia)) as H2.
      rewrite E in H1. rewrite E' in H2. rewrite Nat2Z.id in H1, H2. rewrite <- H1, <- H2, Hb.
      by rewrite decide_False by lia.
    + rewrite !lookup_ge_None_2 by lia. done.
  - destruct (d' !! lba) eqn:E'; [|done]. destruct (proj1 (Hdom lba) ltac:(eauto)). congruence.
Qed.

(** The data blocks [has - 1 .. will - 1] of the file, as the write loop sees
    them. *)
Lemma collected_writable s s' a i i' has will all n len :
  collected s s' a i i' has will all -> 0 <= n -> Z.of_nat has = n / 512 + 1 -> Z.of_nat will = (n + len) / 512 + 1 ->
  (forall j, touched n len j -> (has - 1 <= j < will)%nat) /\ writable (dsk s') all n len.
Proof.
  intros Hc Hn Hhas Hwill. pose proof Hc as [Hwf Hfw _ _ Hlen Hall _ _ _].
  assert (forall j, touched n len j -> (has - 1 <= j < will)%nat) as Hrange.
  { intros j (H0 & H1 & H2). split; [lia|]. pose proof (Z.div_le_lower_bound (n + len) 512 (Z.of_nat j)). lia. }
  split; [done|]. split.
  - intros j Hj. destruct (fw_block s' i' will j Hwf Hfw) as (b & Hb & Hdb); [apply Hrange in Hj; lia|].
    exists b. rewrite Hall by (by apply Hrange). split_and!; [done|apply Hdb|apply Hdb].
  - intros j j' b Hj Hj'. rewrite !Hall by (by apply Hrange). intros Hb Hb'.
    pose proof (fw_nodup s' i' will Hfw) as Hnd. unfold owned in Hnd. apply NoDup_app in Hnd as (Hnd & _ & _).
    apply Hrange in Hj, Hj'. eapply NoDup_lookup; [exact Hnd|rewrite lookup_take_lt by lia; exact Hb|rewrite lookup_take_lt by lia; exact Hb'].
Qed.

(** A block of the file that the write does not touch keeps its contents. *)
Lemma written_other s' i' has will all n src d4 j b :
  part_wf s' -> file_wf s' i' will -> (forall j, (has - 1 <= j < will)%nat -> all !! j = blocks_of s' i' !! j) ->
  (forall j, touched n (Z.of_nat (length src)) j -> (has - 1 <= j < will)%nat) ->
  written (dsk s') d4 all n src -> owned s' i' will !! j = Some b -> (j < has - 1 \/ will <= j)%nat ->
  d4 !! b = dsk s' !! b.
Proof.
  intros Hs Hfw Hall Hrange Hw Hb Hj. apply (wr_frame _ _ _ _ _ Hw). intros k Hk Hkb. pose proof (Hrange k Hk) as Hkr.
  rewrite Hall in Hkb by done. pose proof (fw_nodup s' i' will Hfw) as Hnd.
  assert (owned s' i' will !! k = Some b) as Hkb'.
  { unfold owned. rewrite lookup_app_l; [by rewrite lookup_take_lt by lia|].
    rewrite length_take, (blocks_length s' i' will Hs Hfw). pose proof (fw_n s' i' will Hfw). lia. }
  pose proof (NoDup_lookup _ _ _ _ Hnd Hb Hkb'). lia.
Qed.

(** A data block is not the index table. *)
Lemma fw_block_not_table s i n j b :
  file_wf s i n -> (j < n)%nat -> blocks_of s i !! j = Some b -> (12 < n)%nat -> b <> sector i 12.
Proof.
  intros Hfw Hj Hb H12 ->. pose proof (fw_nodup s i n Hfw) as Hnd. unfold owned in Hnd. rewrite decide_True in Hnd by done.
  apply NoDup_app in Hnd as (_ & Hnd & _). apply (Hnd (sector i 12)); [|by left].
  apply list_elem_of_lookup_2 with j. by rewrite lookup_take_lt by lia.
Qed.

(** Collecting the blocks does not change the data. *)
Lemma collected_keeps s s' a i i' has will all k :
  collected s s' a i i' has will all -> part_wf s -> file_wf s i has -> (Z.to_nat (k / 512) < has)%nat ->
  block_byte (dsk s') (blocks_of s' i') k = block_byte (dsk s) (blocks_of s i) k.
Proof.
  intros Hc Hs Hfw Hq. destruct (fw_block s i has (Z.to_nat (k / 512)) Hs Hfw Hq) as (b & Hb & Hdb).
  destruct (co_keep _ _ _ _ _ _ _ _ Hc b Hdb) as [_ E].
  { intros H12. by apply (fw_block_not_table s i has (Z.to_nat (k / 512))). }
  unfold block_byte. by rewrite (co_old _ _ _ _ _ _ _ _ Hc _ Hq), Hb, E.
Qed.

Section effect.
(** After the blocks were collected ([s2], [i2]), the data written ([d4])
    and the inode synced ([d5]). *)
Context (s1 s2 : fs) (a : Z) (i1 i2 : inode) (has will : nat) (all src : list Z) (d4 d5 : disk).
Context (Hc : collected s1 s2 a i1 i2 has will all) (Hfw1 : file_wf s1 i1 has) (Hs1 : part_wf s1).
Abbreviation n := (i_size i1).
Context (Hn : 0 <= n) (Hhas : Z.of_nat has = n / 512 + 1)
  (Hwill : Z.of_nat will = (n + Z.of_nat (length src)) / 512 + 1).
Context (Hw : written (dsk s2) d4 all n src) (Hd5 : forall lba, ds s2 < lba -> d5 !! lba = d4 !! lba).

Lemma effect_block j b : blocks_of s2 i2 !! j = Some b -> (j < will)%nat -> dblock s2 b /\ owned s2 i2 will !! j = Some b.
Proof.
  intros Hb Hj. destruct (fw_block s2 i2 will j (co_wf _ _ _ _ _ _ _ _ Hc) (co_file _ _ _ _ _ _ _ _ Hc) Hj) as (b' & Hb' & Hdb).
  rewrite Hb in Hb'. injection Hb' as <-. split; [done|].
  unfold owned. rewrite lookup_app_l; [by rewrite lookup_take_lt by lia|].
  rewrite length_take. pose proof (lookup_lt_Some _ _ _ Hb). lia.
Qed.

(** The index table is not touched. *)
Lemma effect_table : sector i2 12 <> 0 -> d5 !! sector i2 12 = dsk s2 !! sector i2 12.
Proof.
  intros Hne. pose proof (co_file _ _ _ _ _ _ _ _ Hc) as Hfw. pose proof (co_wf _ _ _ _ _ _ _ _ Hc) as Hs2.
  assert (12 < will)%nat as H12.
  { destruct (decide (12 < will)%nat); [done|]. exfalso. apply Hne, (fw_tab s2 i2 will Hfw). lia. }
  rewrite Hd5 by apply (fw_table s2 i2 will Hfw H12).
  eapply (written_other s2 i2 has will all n src d4 will); try done; [apply Hc| | |by right].
  - by eapply collected_writable.
  - unfold owned. rewrite decide_True by done. pose proof (blocks_length s2 i2 will Hs2 Hfw). pose proof (fw_n s2 i2 will Hfw).
    rewrite lookup_app_r by (rewrite length_take; lia). rewrite length_take.
    by replace (will - will `min` length (blocks_of s2 i2))%nat with 0%nat by lia.
Qed.

Lemma effect_blocks s' i' : dsk s' = d5 -> i_sectors i' = i_sectors i2 -> blocks_of s' i' = blocks_of s2 i2.
Proof. intros E1 E2. apply blocks_of_same; [done|]. rewrite E1. apply effect_table. Qed.

Lemma effect_old k : 0 <= k < n -> block_byte d5 (blocks_of s2 i2) k = block_byte (dsk s1) (blocks_of s1 i1) k.
Proof.
  intros Hk. destruct (div_block k ltac:(lia)) as (Ek & Hkm & Hkq). destruct (div_block n Hn) as (En & Hnm & Hnq).
  assert (Z.to_nat (k / 512) < has)%nat as Hq by (pose proof (Z.div_le_mono k n 512); lia).
  assert (has <= will)%nat as Hhw by (pose proof (Z.div_le_mono n (n + Z.of_nat (length src)) 512); lia).
  destruct (fw_block s1 i1 has (Z.to_nat (k / 512)) Hs1 Hfw1 Hq) as (b & Hb & Hdb).
  pose proof (co_old _ _ _ _ _ _ _ _ Hc _ Hq) as Hold.
  destruct (effect_block _ b ltac:(by rewrite Hold) ltac:(lia)) as [Hdb2 Hown].
  transitivity (block_byte (dsk s2) (blocks_of s2 i2) k).
  - destruct (decide (k / 512 < n / 512)) as [Hlt|Hge].
    + unfold block_byte. rewrite Hold, Hb, Hd5 by apply Hdb2.
      erewrite (written_other s2 i2 has will all n src d4); [done|apply Hc|apply Hc|apply Hc|by eapply collected_writable|done|exact Hown|lia].
    + assert (k / 512 = n / 512) as Eq by (pose proof (Z.div_le_mono k n 512); lia).
      assert (all !! Z.to_nat (k / 512) = blocks_of s2 i2 !! Z.to_nat (k / 512)) as Ea.
      { apply (co_all _ _ _ _ _ _ _ _ Hc). lia. }
      rewrite <- (block_byte_list (dsk s2) all) by done. rewrite <- (wr_before _ _ _ _ _ Hw k) by lia.
      unfold block_byte. rewrite Ea, Hold, Hb, Hd5 by apply Hdb2. done.
  - by apply (collected_keeps s1 s2 a i1 i2 has will all).
Qed.

Lemma effect_new t : (t < length src)%nat -> block_byte d5 (blocks_of s2 i2) (n + Z.of_nat t) = src !! t.
Proof.
  intros Ht. rewrite <- (wr_data _ _ _ _ _ Hw t Ht). set (k := n + Z.of_nat t).
  destruct (div_block k ltac:(unfold k; lia)) as (Ek & Hkm & Hkq).
  assert (has - 1 <= Z.to_nat (k / 512) < will)%nat as Hr.
  { apply (collected_writable s1 s2 a i1 i2 has will all n (Z.of_nat (length src))); try done. unfold touched. pose proof (Z.div_le_mono n k 512). unfold k in *. lia. }
  pose proof (co_all _ _ _ _ _ _ _ _ Hc _ Hr) as Ea.
  destruct (fw_block s2 i2 will (Z.to_nat (k / 512)) (co_wf _ _ _ _ _ _ _ _ Hc) (co_file _ _ _ _ _ _ _ _ Hc) ltac:(lia)) as (b & Hb & Hdb).
  unfold block_byte. rewrite Ea, Hb, Hd5 by apply Hdb. done.
Qed.

Lemma effect_data s' i' :
  dsk s' = d5 -> i_sectors i' = i_sectors i2 -> i_size i' = n + Z.of_nat (length src) ->
  file_data s' i' = file_data s1 i1 ++ src.
Proof.
  intros E1 E2 E3. pose proof (effect_blocks s' i' E1 E2) as E4. apply file_data_app; [done|done| |].
  - intros k Hk. rewrite E4, E1. by apply effect_old.
  - intros t Ht. rewrite E4, E1. by apply effect_new.
Qed.
End effect.

(** ** [file_write] *)

(** The data blocks a file of this size has: none before the first write. *)
Definition nblocks (i : inode) : nat := if sector i 0 =? 0 then 0 else Z.to_nat (i_size i / 512) + 1.
Definition file_ok (s : fs) (i : inode) : Prop :=
  file_wf s i (nblocks i) /\ (sector i 0 = 0 -> i_size i = 0).

(** Two blocks of heap for the call. *)
Lemma wp_two_mallocs s k (Q : Z -> Z -> fs -> Prop) :
  two_fresh (hp s) ->
  (forall p q r, p <> 0 -> q <> 0 -> p <> q -> live (hp s) !! p = None -> live (hp s) !! q = None ->
     Q p q (set_hp (mk_heap (<[q := k]> (<[p := k]> (live (hp s)))) r) s)) ->
  wp (sys_malloc k) (fun p s1 => p <> 0 /\ wp (sys_malloc k) (fun q s2 => q <> 0 /\ Q p q s2) s1) s.
Proof.
  intros (p & q & r & E & Hp & Hq & Hpq & Lp & Lq) HQ. apply (wp_malloc _ p (q :: r)); [done|]. split; [done|].
  apply (wp_malloc _ q r); [split_and!; [done|done|cbn; by rewrite lookup_insert_ne]|]. split; [done|]. by apply HQ.
Qed.

(** And their release. *)
Lemma wp_two_frees {A} s k p q m (K : M fs A) (Q : A -> fs -> Prop) :
  p <> 0 -> q <> 0 -> p <> q -> m !! p = None -> m !! q = None -> live (hp s) = <[q := k]> (<[p := k]> m) ->
  wp K Q (set_hp (mk_heap m (answers (hp s))) s) ->
  wp (sys_free k q ;;; sys_free k p ;;; K) Q s.
Proof.
  intros Hp Hq Hpq Mp Mq E HQ. wp_steps. apply wp_free; [done|by rewrite E, lookup_insert_eq|].
  rewrite E, delete_insert_eq, (delete_id (<[p := k]> m)) by (by rewrite lookup_insert_ne).
  wp_steps. apply wp_free; [done|by apply lookup_insert_eq|]. cbn [set_hp hp live answers].
  by rewrite delete_insert_eq, delete_id.
Qed.

Lemma part_wf_fields s s' :
  part_wf s -> sb s' = sb s -> p_start_lba s' = p_start_lba s -> p_sec_cnt s' = p_sec_cnt s ->
  dsk s' = dsk s -> block_bitmap s' = block_bitmap s -> part_wf s'.
Proof.
  intros Hs E1 E2 E3 E4 E5. apply (part_wf_step s); rewrite ?E4, ?E5; try done; apply Hs.
Qed.

Lemma file_wf_fields s s' i n :
  file_wf s i n -> sb s' = sb s -> dsk s' = dsk s -> block_bitmap s' = block_bitmap s -> file_wf s' i n.
Proof.
  intros Hw E1 E2 E3. apply (file_wf_same s s' i i n); rewrite ?E2; try done; [apply Hw|].
  apply blocks_of_same; [done|]. by rewrite E2.
Qed.

Lemma collected_meta s s' a i i' has will all : collected s s' a i i' has will all ->
  i_no i' = i_no i /\ i_size i' = i_size i /\ i_open_cnts i' = i_open_cnts i /\ write_deny i' = write_deny i /\
  inodes s' !! a = Some i' /\ file_table s' = file_table s /\ sb s' = sb s /\ hp s' = hp s /\ in_kernel s' = in_kernel s /\
  p_start_lba s' = p_start_lba s /\ p_sec_cnt s' = p_sec_cnt s.
Proof.
  intros [_ _ Hin Hm _ _ _ _ Hr]. rewrite Hm, Hin, Hr. cbn. split_and!; try done. rewrite <- Hm. apply lookup_insert_eq.
Qed.
