(* ===== verification/Filewrite.v ===== *)
(** * Appending to a file: [file_write] ([fs/file.c])

    The phases of [file_write] (first block, collecting the block addresses,
    writing the data, writing the inode back) are composed here: the file's
    bytes are the old ones followed by the buffer, the inode on disk agrees with
    the one in memory, and no block of another file changes. *)

From stdpp Require Import base numbers list gmap.
From S2P Require Import Prelude.
From S2P Require Import Bitmap.
From S2P Require Import Disk.
From S2P Require Import Fsdata.
From S2P Require Import Inode.
From S2P Require Import Blocks.
From S2P Require Import File.

Local Open Scope Z_scope.
Local Open Scope kernel_scope.

(** The first block is in place: the same data, no other block touched. *)
Record prepared (s s1 : fs) (a : Z) (i i1 : inode) (has : nat) : Prop := {
  pr_wf : part_wf s1;
  pr_file : file_wf s1 i1 has;
  pr_data : file_data s1 i1 = file_data s i;
  pr_inodes : inodes s1 = <[a := i1]> (inodes s);
  pr_meta : i1 = set_sectors (i_sectors i1) i;
  pr_own : forall b, b ∈ owned s1 i1 has -> b ∈ owned s i (nblocks i) \/ (dblock s b -> False);
  pr_keep : forall b, dblock s b -> b ∉ owned s i (nblocks i) -> dblock s1 b /\ dsk s1 !! b = dsk s !! b;
  pr_low : forall lba, lba <= ds s -> ~ (bb_lba s <= lba < bb_lba s + bb_sects s) -> dsk s1 !! lba = dsk s !! lba;
  pr_sects : bb_sects s1 = bb_sects s;
  pr_rest : s1 = set_inodes (inodes s1) (set_dsk (dsk s1) (set_block_bitmap (block_bitmap s1) s))
}.

Lemma table_owned s i n : (12 < n)%nat -> sector i 12 ∈ owned s i n.
Proof. intros H. unfold owned. rewrite decide_True by done. apply elem_of_app. right. by left. Qed.

Lemma wp_prepare s a i m :
  part_wf s -> file_ok s i -> 0 <= i_size i -> inodes s !! a = Some i -> has_free s (S m) ->
  wp (first_block a) (fun r s1 => r = true /\ exists i1,
    prepared s s1 a i i1 (Z.to_nat (i_size i / 512) + 1) /\ has_free s1 m) s.
Proof.
  intros Hs [Hw H0] Hsz Hi Hf. eapply wp_mono; [by apply (wp_first_block s a i (nblocks i) m)|].
  cbn beta. intros r s1 (-> & i1 & all & Hc & Hf1). split; [done|]. exists i1. split; [|done].
  assert (Nat.max 1 (nblocks i) = Z.to_nat (i_size i / 512) + 1)%nat as Emax.
  { unfold nblocks. destruct (Z.eqb_spec (sector i 0) 0) as [E|E]; [|lia]. by rewrite (H0 E). }
  rewrite Emax in Hc. pose proof (co_meta _ _ _ _ _ _ _ _ Hc) as Hm. split; try apply Hc.
  - rewrite <- (app_nil_r (file_data s i)). apply file_data_app; [done|rewrite Hm; cbn; lia| |cbn; lia].
    intros k Hk. eapply (collected_keeps s s1 a i i1 (nblocks i)); [exact Hc|done|done|].
    unfold nblocks. destruct (Z.eqb_spec (sector i 0) 0) as [E|E]; [rewrite (H0 E) in Hk; lia|].
    pose proof (Z.div_le_mono k (i_size i) 512). pose proof (Z.div_pos k 512). lia.
  - intros b Hb Hno. apply (co_keep _ _ _ _ _ _ _ _ Hc b Hb). intros H12 ->. apply Hno. by apply table_owned.
Qed.

(** What a write of [buf] to the file with the inode [i] at [a] does. *)
Record appended (s s' : fs) (a : Z) (i i' : inode) (buf : list Z) : Prop := {
  ap_wf : part_wf s';
  ap_file : file_ok s' i';
  ap_inodes : inodes s' = <[a := i']> (inodes s);
  ap_meta : i_no i' = i_no i /\ i_size i' = i_size i + Z.of_nat (length buf) /\
            i_open_cnts i' = i_open_cnts i /\ write_deny i' = write_deny i;
  ap_data : file_data s' i' = file_data s i ++ buf;
  (** the inode table: this inode's slot and no other *)
  ap_slot : disk_inode s' (u8 (i_no i)) = Some (pure_inode i');
  ap_slots : forall m, 0 <= m < 4096 -> m <> u8 (i_no i) -> disk_inode s' m = disk_inode s m;
  (** the data blocks of other files *)
  ap_frame : forall b, dblock s b -> b ∉ owned s i (nblocks i) -> dblock s' b /\ dsk s' !! b = dsk s !! b
}.

Lemma disk_inode_ext s s' m :
  sb s' = sb s -> (forall k, 0 <= k < 76 -> dbyte (dsk s') (slot_off s m + k) = dbyte (dsk s) (slot_off s m + k)) ->
  disk_inode s' m = disk_inode s m.
Proof.
  intros E H. unfold disk_inode, slot_off in *. rewrite E. rewrite (dbytes_eq (dsk s)); [done|].
  intros j Hj. rewrite H by lia. done.
Qed.

Lemma dbyte_lookup (d d' : disk) k : 0 <= k -> d' !! (k / 512) = d !! (k / 512) -> dbyte d' k = dbyte d k.
Proof. intros Hk E. unfold dbyte. by rewrite E. Qed.

Section finish.
Context (s s1 s2 s' : fs) (a : Z) (i i1 i2 : inode) (has will : nat) (all buf : list Z) (d4 d5 : disk).
Context (Hp : prepared s s1 a i i1 has) (Hc : collected s1 s2 a i1 i2 has will all).
Context (Hs : part_wf s) (Hn : 0 <= i_size i) (Hhas : Z.of_nat has = i_size i / 512 + 1)
  (Hwill : Z.of_nat will = (i_size i + Z.of_nat (length buf)) / 512 + 1)
  (Hmax : i_size i + Z.of_nat (length buf) < 71680).
Context (Hw : written (dsk s2) d4 all (i_size i) buf).
Let i' : inode := set_size (i_size i + Z.of_nat (length buf)) i2.
Context (Hsl : slot_write d4 d5 (slot_off s (u8 (i_no i))) (inode_bytes (pure_inode i') 0 0)).
Context (Ed : dsk s' = d5) (Esb : sb s' = sb s) (Ebm : block_bitmap s' = block_bitmap s2)
  (Ein : inodes s' = <[a := i']> (inodes s2)) (Ep : p_start_lba s' = p_start_lba s) (Ec : p_sec_cnt s' = p_sec_cnt s).

Lemma fin_sb : sb s1 = sb s /\ sb s2 = sb s.
Proof. rewrite (co_rest _ _ _ _ _ _ _ _ Hc), (pr_rest _ _ _ _ _ _ Hp). done. Qed.

Lemma fin_meta : i_size i1 = i_size i /\ i_no i2 = i_no i /\ i_open_cnts i2 = i_open_cnts i /\ write_deny i2 = write_deny i.
Proof. rewrite (co_meta _ _ _ _ _ _ _ _ Hc), (pr_meta _ _ _ _ _ _ Hp). done. Qed.

(** The inode table is below the data area. *)
Lemma fin_slot_end : 512 * inode_table_lba (sb s) <= slot_off s (u8 (i_no i)) /\
  slot_off s (u8 (i_no i)) + 76 <= 512 * ds s.
Proof.
  pose proof (u8_range (i_no i)). pose proof (pw_tab_end s Hs). unfold is_u8, slot_off, inode_size in *. lia.
Qed.

Lemma fin_len : length (inode_bytes (pure_inode i') 0 0) = 76%nat.
Proof. apply inode_bytes_length. unfold i'. cbn. apply (fw_ok s2 i2 will (co_file _ _ _ _ _ _ _ _ Hc)). Qed.

Lemma fin_high lba : ds s2 <= lba -> d5 !! lba = d4 !! lba.
Proof.
  intros Hl. pose proof fin_slot_end. destruct fin_sb as [_ E]. rewrite E in Hl.
  apply (slot_write_sector d4 d5 _ _ lba (wr_ok _ _ _ _ _ Hw) Hsl). rewrite fin_len. lia.
Qed.

Lemma fin_dom lba : is_Some (d5 !! lba) <-> is_Some (dsk s2 !! lba).
Proof. destruct Hsl as (_ & H & _). rewrite H. apply (wr_dom _ _ _ _ _ Hw). Qed.

Lemma fin_parts : p_start_lba s2 = p_start_lba s /\ p_sec_cnt s2 = p_sec_cnt s.
Proof. rewrite (co_rest _ _ _ _ _ _ _ _ Hc), (pr_rest _ _ _ _ _ _ Hp). done. Qed.

Lemma fin_wf : part_wf s'.
Proof.
  destruct fin_sb as [E1 E2]. destruct fin_parts as [P1 P2]. pose proof (co_wf _ _ _ _ _ _ _ _ Hc) as Hs2.
  apply (part_wf_step s2); rewrite ?Ebm, ?Ed; try done; try congruence; [apply Hsl|apply fin_dom|apply Hs2].
Qed.

Lemma fin_inode_ok : inode_ok i'.
Proof.
  destruct (fw_ok s2 i2 will (co_file _ _ _ _ _ _ _ _ Hc)) as [? ? ? ? ?]. split; try done.
  cbn. unfold is_u32. lia.
Qed.

Lemma fin_blocks : blocks_of s' i' = blocks_of s2 i2.
Proof.
  destruct fin_meta as (E & _). apply (effect_blocks s1 s2 a i1 i2 has will all buf d4 d5);
    rewrite ?E; try done.
  intros lba Hl. apply fin_high. lia.
Qed.

Lemma fin_file : file_ok s' i'.
Proof.
  pose proof (co_file _ _ _ _ _ _ _ _ Hc) as Hfw. pose proof (co_wf _ _ _ _ _ _ _ _ Hc) as Hs2.
  destruct fin_sb as [E1 E2].
  assert (0 < will)%nat as Hpos by (pose proof (Z.div_pos (i_size i + Z.of_nat (length buf)) 512); lia).
  assert (sector i' 0 <> 0) as Hnz.
  { destruct (fw_block s2 i2 will 0 Hs2 Hfw Hpos) as (b & Hb & Hdb).
    pose proof (io_len i2 (fw_ok s2 i2 will Hfw)) as H13. rewrite blocks_direct in Hb by lia. injection Hb as Hb.
    change (sector i' 0) with (sector i2 (Z.of_nat 0)). rewrite Hb. by apply (dblock_nonzero s2). }
  split; [|done]. unfold nblocks. rewrite (proj2 (Z.eqb_neq _ _)) by done.
  replace (Z.to_nat (i_size i' / 512) + 1)%nat with will by (cbn; lia).
  apply (file_wf_same s2 s' i2 i'); try done; [congruence|rewrite Ed; apply fin_dom|apply fin_inode_ok|apply fin_blocks].
Qed.

Lemma fin_data : file_data s' i' = file_data s i ++ buf.
Proof.
  destruct fin_meta as (E & _). rewrite <- (pr_data _ _ _ _ _ _ Hp).
  apply (effect_data s1 s2 a i1 i2 has will all buf d4 d5); rewrite ?E; try done; try apply Hp.
  intros lba Hl. apply fin_high. lia.
Qed.

(** Below the data area only the bitmap and the slot of the inode change. *)
Lemma fin_low lba : lba <= ds s -> ~ (bb_lba s <= lba < bb_lba s + bb_sects s) -> d4 !! lba = dsk s !! lba.
Proof.
  intros Hl Hb. destruct fin_sb as [E1 E2]. destruct fin_meta as (E & _).
  rewrite <- (pr_low _ _ _ _ _ _ Hp lba Hl Hb), <- (co_low _ _ _ _ _ _ _ _ Hc lba) by (rewrite ?E1, ?(pr_sects _ _ _ _ _ _ Hp); done).
  apply (wr_frame _ _ _ _ _ Hw). intros j Hj Hjb.
  destruct (collected_writable s1 s2 a i1 i2 has will all (i_size i) (Z.of_nat (length buf)) Hc) as [Hr _]; try done.
  rewrite (co_all _ _ _ _ _ _ _ _ Hc) in Hjb by auto.
  destruct (fw_block s2 i2 will j (co_wf _ _ _ _ _ _ _ _ Hc) (co_file _ _ _ _ _ _ _ _ Hc)) as (b & Hb' & Hdb).
  { apply Hr in Hj. lia. }
  rewrite Hb' in Hjb. injection Hjb as ->. pose proof (db_lo _ _ Hdb) as Hlo. rewrite E2 in Hlo. lia.
Qed.

Lemma fin_slot : disk_inode s' (u8 (i_no i)) = Some (pure_inode i').
Proof.
  assert (disk_inode (set_dsk d5 (set_dsk d4 s)) (u8 (i_no i)) = Some (inode_of_bytes (inode_bytes (pure_inode i') 0 0))) as H.
  { apply (slot_write_inode (set_dsk d4 s)); [done|apply fin_len]. }
  transitivity (disk_inode (set_dsk d5 (set_dsk d4 s)) (u8 (i_no i))).
  - apply disk_inode_ext; [done|]. intros k Hk. by rewrite Ed.
  - rewrite H. f_equal. apply inode_bytes_roundtrip; [|done|done]. destruct fin_inode_ok. by split.
Qed.

Lemma fin_slots m : 0 <= m < 4096 -> m <> u8 (i_no i) -> disk_inode s' m = disk_inode s m.
Proof.
  intros Hm Hne. pose proof (to_lba s (pw_table s Hs)) as Hl0. pose proof (pw_tab_end s Hs). pose proof (pw_disj s Hs).
  apply disk_inode_ext; [done|]. intros k Hk. rewrite Ed. destruct Hsl as (_ & _ & Hk').
  rewrite Hk', decide_False by (rewrite fin_len; unfold slot_off, inode_size; lia).
  unfold slot_off, inode_size in *. apply dbyte_lookup; [lia|].
  set (q := (512 * inode_table_lba (sb s) + 76 * m + k) / 512).
  assert (inode_table_lba (sb s) <= q < inode_table_lba (sb s) + 608) as Hq.
  { unfold q. split; [apply Z.div_le_lower_bound; lia|apply Z.div_lt_upper_bound; lia]. }
  apply fin_low; lia.
Qed.

Lemma fin_frame b : dblock s b -> b ∉ owned s i (nblocks i) -> dblock s' b /\ dsk s' !! b = dsk s !! b.
Proof.
  intros Hb Hno. destruct (pr_keep _ _ _ _ _ _ Hp b Hb Hno) as [Hb1 D1]. destruct fin_sb as [E1 E2].
  assert (b ∉ owned s1 i1 has) as Hno1.
  { intros Hin. by destruct (pr_own _ _ _ _ _ _ Hp b Hin) as [?|?]. }
  destruct (co_keep _ _ _ _ _ _ _ _ Hc b Hb1) as [Hb2 D2].
  { intros H12 ->. apply Hno1. by apply table_owned. }
  assert (b ∉ owned s2 i2 will) as Hno2.
  { intros Hin. by destruct (co_own _ _ _ _ _ _ _ _ Hc b Hin) as [?|?]. }
  split.
  - destruct Hb2 as [? ? ? ? ?]. split; rewrite ?Esb, ?Ebm, <- ?E2; try done. rewrite Ed. by apply fin_dom.
  - rewrite Ed, fin_high, <- D1, <- D2 by (pose proof (db_lo _ _ Hb2); lia).
    apply (wr_frame _ _ _ _ _ Hw). intros j Hj Hjb. apply Hno2.
    destruct (collected_writable s1 s2 a i1 i2 has will all (i_size i) (Z.of_nat (length buf)) Hc) as [Hr _]; try done.
    apply Hr in Hj. rewrite (co_all _ _ _ _ _ _ _ _ Hc) in Hjb by done.
    unfold owned. apply elem_of_app. left. apply list_elem_of_lookup_2 with j. rewrite lookup_take_lt by lia. done.
Qed.

Lemma fin_appended : appended s s' a i i' buf.
Proof.
  destruct fin_meta as (_ & M1 & M2 & M3). split.
  - apply fin_wf.
  - apply fin_file.
  - rewrite Ein, (co_inodes _ _ _ _ _ _ _ _ Hc), (pr_inodes _ _ _ _ _ _ Hp), !insert_insert_eq. done.
  - done.
  - apply fin_data.
  - apply fin_slot.
  - apply fin_slots.
  - apply fin_frame.
Qed.
End finish.

(** The fields that [file_write] leaves alone. *)
Definition same_tables (s s' : fs) : Prop :=
  live (hp s') = live (hp s) /\ open_inodes s' = open_inodes s /\ fd_table s' = fd_table s /\
  inode_bitmap s' = inode_bitmap s /\ root_dir s' = root_dir s /\ dirs s' = dirs s.

(** The result of the call, up to the release of the buffers. *)
Definition write_done (s : fs) (f : Z) (x : file) (i : inode) (buf : list Z) (s' : fs) : Prop :=
  (exists i', appended s s' (fd_inode x) i i' buf) /\ hp s' = hp s /\ same_tables s s' /\
  arr_get (file_table s') f = Some (set_pos (u32 (i_size i - 1 + Z.of_nat (length buf))) x).

(** The data and the inode. *)
Lemma wp_write_data s s1 s2 f buf x i i1 i2 has will all (K : M fs Z) Q :
  part_wf s -> arr_get (file_table s) f = Some x ->
  prepared s s1 (fd_inode x) i i1 has -> collected s1 s2 (fd_inode x) i1 i2 has will all ->
  Z.of_nat has = i_size i / 512 + 1 -> Z.of_nat will = (i_size i + Z.of_nat (length buf)) / 512 + 1 ->
  0 <= i_size i -> i_size i + Z.of_nat (length buf) < 71680 -> straddles (u8 (i_no i)) = false ->
  (forall s', write_done s f x i buf s' -> wp K Q s') ->
  wp (let! y := get_file f in
      put_file f (set_pos (u32 (i_size i - 1)) y) ;;;
      write_loop (S (length buf)) f (fd_inode x) all buf true ;;;
      let! i := get_inode (fd_inode x) in
      inode_sync i BLOCK_SIZE ;;; K) Q s2.
Proof.
  intros Hs Hx Hp Hc Hhas Hwill Hn Hmax Hstr HK. pose proof (co_wf _ _ _ _ _ _ _ _ Hc) as Hs2.
  pose proof (pr_rest _ _ _ _ _ _ Hp) as R1. pose proof (co_rest _ _ _ _ _ _ _ _ Hc) as R2.
  assert (file_table s2 = file_table s) as Eft by (rewrite R2, R1; done).
  assert (sb s2 = sb s) as Esb by (rewrite R2, R1; done).
  destruct (collected_meta _ _ _ _ _ _ _ _ Hc) as (_ & Esz & _ & _ & Hi2 & _).
  assert (i_size i2 = i_size i /\ i_no i2 = i_no i) as [Es Eno].
  { by rewrite (co_meta _ _ _ _ _ _ _ _ Hc), (pr_meta _ _ _ _ _ _ Hp). }
  wp_steps. apply (wp_get_file f x); [by rewrite Eft|]. wp_steps.
  eapply wp_put_file; [by rewrite Eft|]. wp_steps. set (s3 := set_file_table _ s2). set (y := set_pos (u32 (i_size i - 1)) x).
  eapply wp_mono; [apply (wp_write_loop (S (length buf)) f (fd_inode x) all buf true s3 i2 y)|]; rewrite ?Es; try done; try lia.
  { apply Hs2. }
  { cbn [s3 set_file_table file_table]. eapply arr_get_insert. by rewrite Eft. }
  { apply u32_range. }
  { by apply (collected_writable s1 s2 (fd_inode x) i1 i2 has will all). }
  cbn beta. intros _ s4 (d4 & -> & Hw). wp_steps.
  eapply wp_get_inode; [apply lookup_insert_eq|]. rewrite Es.
  set (i' := set_size (i_size i + Z.of_nat (length buf)) i2). set (s4 := advanced s3 (fd_inode x) f i2 y (Z.of_nat (length buf)) d4).
  assert (part_wf s4) as Hs4.
  { apply (part_wf_step s2); try done; [apply (wr_ok _ _ _ _ _ Hw)|apply (wr_dom _ _ _ _ _ Hw)|apply Hs2]. }
  wp_steps. apply wp_inode_sync; [apply Hs4| | |].
  { cbn. apply (fw_ok s2 i2 will (co_file _ _ _ _ _ _ _ _ Hc)). }
  { cbn [i' set_size i_no]. rewrite Eno, Hstr. done. }
  intros d5 Hsl. cbn [i' set_size i_no] in Hsl. rewrite Eno in Hsl.
  apply HK. split; [exists i'|split_and!].
  - apply (fin_appended s s1 s2 (set_dsk d5 s4) (fd_inode x) i i1 i2 has will all buf d4 d5); try done.
    + unfold slot_off in *. cbn in Hsl. rewrite Esb in Hsl. exact Hsl.
    + cbn. by rewrite Es.
    + change (p_start_lba s2 = p_start_lba s). by rewrite R2, R1.
    + change (p_sec_cnt s2 = p_sec_cnt s). by rewrite R2, R1.
  - change (hp s2 = hp s). by rewrite R2, R1.
  - change (same_tables s s2). by rewrite R2, R1.
  - cbn [s4 advanced set_dsk set_inodes set_file_table file_table s3]. erewrite arr_get_insert.
    + f_equal. unfold y, set_pos. f_equal. cbn [fd_pos]. unfold u32. by rewrite Z.add_mod_idemp_l.
    + eapply arr_get_insert. by rewrite Eft.
Qed.

(** The blocks that a write may need. *)
Lemma write_needs s n len : 0 <= n -> has_free s (3 + len / 512) ->
  has_free s (S (S (Z.to_nat ((n + Z.of_nat len) / 512) - Z.to_nat (n / 512)))).
Proof.
  intros Hn (l & ? & Hl & ?). exists l. split_and!; [done| |done].
  pose proof (Nat.div_mod_eq len 512). pose proof (Nat.mod_upper_bound len 512). 
  pose proof (Z.div_mod n 512). pose proof (Z.mod_pos_bound n 512).
  assert ((n + Z.of_nat len) / 512 < n / 512 + Z.of_nat (len / 512) + 2) by (apply Z.div_lt_upper_bound; lia).
  pose proof (Z.div_pos n 512). lia.
Qed.

(** The heap does not matter. *)
Lemma file_ok_hp s h i : file_ok s i -> file_ok (set_hp h s) i.
Proof. intros [H H0]. split; [|done]. by apply (file_wf_fields s). Qed.

Lemma dblock_hp s h b : dblock (set_hp h s) b <-> dblock s b.
Proof. split; intros [? ? ? ? ?]; by split. Qed.

Lemma appended_hp s s' h h' a i i' buf :
  appended (set_hp h s) s' a i i' buf -> appended s (set_hp h' s') a i i' buf.
Proof.
  intros [H1 H2 H3 H4 H5 H6 H7 H8]. split; try done.
  - by apply (part_wf_fields s').
  - by apply file_ok_hp.
  - intros b Hb Hno. rewrite dblock_hp. apply H8; [by apply dblock_hp|done].
Qed.

(** C21: [file_write] appends.  For an open file whose blocks are in order, on a
    partition with enough free blocks, a write that keeps the file below the
    maximal size (from nothing to the end of the indirect blocks: direct blocks,
    the creation of the index table and indirect blocks) returns the number of
    bytes written; the file's bytes are then the old ones followed by the
    buffer, its size is the sum, its blocks are again in order, every block
    of another file is unchanged, and the buffers are freed.  The inode is
    written to slot [i_no mod 256] of the table, and every other slot is
    unchanged: [inode_sync] keeps the number in a [uint8_t], so that a file with
    a number of 256 or more overwrites the inode of another one.  The theorem is
    about slots within one sector ([Hstr]); for a slot that straddles two,
    [file_write] overruns its buffer ([file_write_overruns]). *)
Theorem file_write_appends (s : fs) (f : Z) (buf : list Z) (x : file) (i : inode)
    (Hs : part_wf s) (Hx : arr_get (file_table s) f = Some x) (Hi : inodes s !! fd_inode x = Some i)
    (Hok : file_ok s i) (Hmax : i_size i + Z.of_nat (length buf) < 71680)
    (Hfree : has_free s (3 + length buf / 512)) (Hheap : two_fresh (hp s))
    (Hstr : straddles (u8 (i_no i)) = false) :
  exists s' i', file_write f buf s = Done (Z.of_nat (length buf), s') /\
    appended s s' (fd_inode x) i i' buf /\ same_tables s s' /\
    arr_get (file_table s') f = Some (set_pos (u32 (i_size i - 1 + Z.of_nat (length buf))) x).
Proof.
  assert (0 <= i_size i) as Hn by apply (io_size i (fw_ok s i _ (proj1 Hok))).
  pose proof (Z.div_pos (i_size i) 512 Hn ltac:(lia)).
  pose proof (Z.div_le_mono (i_size i) (i_size i + Z.of_nat (length buf)) 512 ltac:(lia) ltac:(lia)).
  assert ((i_size i + Z.of_nat (length buf)) / 512 < 140) by (apply Z.div_lt_upper_bound; lia).
  assert (wp (file_write f buf) (fun r s' => r = Z.of_nat (length buf) /\ exists i', appended s s' (fd_inode x) i i' buf /\
    same_tables s s' /\ arr_get (file_table s') f = Some (set_pos (u32 (i_size i - 1 + Z.of_nat (length buf))) x)) s) as Hwp.
  2: { apply wp_done in Hwp as (r & s' & E & -> & i' & H'). exists s', i'. by rewrite E. }
  unfold file_write. wp_steps. apply (wp_get_file f x); [done|]. wp_steps. apply (wp_get_inode _ i); [done|].
  rewrite u32_id by (unfold is_u32; lia). rewrite (proj2 (Z.ltb_ge _ _)) by (unfold BLOCK_SIZE; lia). wp_steps.
  eapply wp_mono; [apply wp_two_mallocs; [done|]|].
  2: { cbn beta. intros p sp [Hp Hq]. rewrite (proj2 (Z.eqb_neq p 0)) by done. wp_steps.
       eapply wp_mono; [exact Hq|]. cbn beta. intros q sq [Hq0 HQ]. rewrite (proj2 (Z.eqb_neq q 0)) by done. exact HQ. }
  cbn beta. intros p q r Hp Hq Hpq Lp Lq. set (sA := set_hp _ s).
  assert (part_wf sA) as HsA by (by apply (part_wf_fields s)).
  set (has := (Z.to_nat (i_size i / 512) + 1)%nat).
  set (will := (Z.to_nat ((i_size i + Z.of_nat (length buf)) / 512) + 1)%nat).
  wp_steps. eapply wp_mono; [apply (wp_prepare sA (fd_inode x) i (S (will - has))); try done|].
  { by apply file_ok_hp. }
  { unfold will, has. replace (_ + 1 - _)%nat with (Z.to_nat ((i_size i + Z.of_nat (length buf)) / 512) - Z.to_nat (i_size i / 512))%nat by lia.
    by apply (write_needs sA). }
  cbn beta. intros ok s1 (-> & i1 & Hpr & Hf1). cbn [negb]. wp_steps; [apply Z.leb_le; unfold BLOCK_SIZE; lia|].
  unfold BLOCK_SIZE. replace (i_size i / 512 + 1) with (Z.of_nat has) by lia.
  replace ((i_size i + Z.of_nat (length buf)) / 512 + 1) with (Z.of_nat will) by lia.
  eapply wp_mono; [apply (wp_collect s1 (fd_inode x) i1 has); try done; [apply Hpr|apply Hpr|lia| |lia]|].
  { rewrite (pr_inodes _ _ _ _ _ _ Hpr). apply lookup_insert_eq. }
  cbn beta. intros ? s2 (all & i2 & -> & Hc).
  apply (wp_write_data sA s1 s2 f buf x i i1 i2 has will all); try done; try lia.
  intros s' ([i' Hap] & Ehp & Hst & Hft).
  apply (wp_two_frees s' (in_kernel s) p q (live (hp s))); try done; [by rewrite Ehp|].
  apply wp_ret. split; [done|]. exists i'. split; [by eapply appended_hp|]. split; [|done].
  destruct Hst as (_ & Hst). done.
Qed.

(** ** The example partition *)
Lemma ex_free_bits : forallZ (Z.to_nat 4096) (fun j => used (block_bitmap ex_fs) j || (j <? 188)) = true.
Proof. vm_compute. done. Qed.

Lemma ex_part_wf : part_wf ex_fs.
Proof.
  split; try (vm_compute; congruence).
  - apply ex_table_ok.
  - split; [vm_compute; split; congruence| |done].
    cbn [block_bitmap ex_fs bits]. apply Forall_cons_2; [done|]. rewrite !Forall_app.
    split_and!; [apply Forall_replicate; done|by apply Forall_singleton|apply Forall_replicate; done].
  - apply ex_on_disk; vm_compute; congruence.
  - left. vm_compute. congruence.
  - intros j Hj Hu. pose proof (forallZ_spec _ _ ex_free_bits j) as H. cbv beta in H. rewrite Hu in H.
    cbn [orb] in H. assert (j < 188) by (apply Z.ltb_lt, H; exact Hj).
    change (ds ex_fs) with 612. change max_lba with 163839. split; [lia|].
    rewrite ex_disk_lookup. case_decide; [eauto|]. rewrite decide_True by lia. eauto.
Qed.

Lemma ex_dblock : dblock ex_fs 613.
Proof. split; try (vm_compute; congruence). rewrite ex_disk_lookup. by rewrite decide_True. Qed.

Lemma ex_file_ok : file_ok ex_fs ex_file_inode.
Proof.
  split; [|done]. split.
  - split; try done. apply Forall_cons_2; [done|]. apply Forall_replicate. done.
  - vm_compute. lia.
  - change (owned ex_fs ex_file_inode (nblocks ex_file_inode)) with [613]. apply Forall_singleton, ex_dblock.
  - change (owned ex_fs ex_file_inode (nblocks ex_file_inode)) with [613]. apply NoDup_singleton.
  - intros j Hj. change (nblocks ex_file_inode) with 1%nat in Hj.
    change (blocks_of ex_fs ex_file_inode) with (613 :: replicate 139 0). destruct j as [|j]; [lia|].
    cbn [lookup list_lookup]. apply lookup_replicate. lia.
  - done.
Qed.

Lemma ex_has_free : has_free ex_fs 3.
Proof.
  exists [614; 615; 616]. split_and!; [|done|].
  - by apply (bool_decide_unpack _).
  - repeat (apply Forall_cons_2; [vm_compute; split; [split|]; congruence|]). apply Forall_nil_2.
Qed.

Lemma file_write_appends_witness :
  exists s' i', file_write 3 [33; 33] ex_fs = Done (2, s') /\
    file_data s' i' = [104; 101; 108; 108; 111; 33; 33].
Proof.
  destruct (file_write_appends ex_fs 3 [33; 33] (mk_file 0 2 8192) ex_file_inode ex_part_wf) as (s' & i' & E & Hap & _).
  - done.
  - done.
  - apply ex_file_ok.
  - done.
  - apply ex_has_free.
  - exists 12288, 16384, [20480; 24576]. done.
  - done.
  - exists s', i'. split; [exact E|]. rewrite (ap_data _ _ _ _ _ _ Hap). vm_compute. done.
Defined.

(** The same file system with the open file's inode number changed to 6, whose
    slot in the table straddles two sectors. *)
Definition ex_fs6 : fs :=
  set_inodes (<[8192 := mk_inode 6 5 1 false (613 :: replicate 12 0)]> (inodes ex_fs)) ex_fs.

(** The buffer that [file_write] hands to [inode_sync] has 512 bytes, one sector;
    for an inode that straddles two sectors [inode_sync] reads two sectors into
    it, past its end. *)
Lemma file_write_overruns : straddles 6 = true /\ file_write 3 [33] ex_fs6 = Halt Out_of_bounds.
Proof. vm_compute. done. Qed.
