(* ===== verification/Fileread.v ===== *)
(** * Reading a file: [file_read] ([fs/file.c])

    Reading returns the bytes of the file from the position on, whichever mix
    of direct and indirect blocks they are in, and advances the position. *)

From stdpp Require Import base numbers list gmap.
From S2P Require Import Prelude.
From S2P Require Import Bitmap.
From S2P Require Import Disk.
From S2P Require Import Fsdata.
From S2P Require Import Inode.
From S2P Require Import Blocks.
From S2P Require Import File.
From S2P Require Import Filewrite.

Local Open Scope Z_scope.
Local Open Scope kernel_scope.

(** ** Collecting the addresses *)
Lemma copy_direct_spec : forall n i k all,
  (Z.to_nat k + n <= length all)%nat -> 0 <= k ->
  exists all', copy_direct n i k all = Done all' /\ length all' = length all /\
    forall j, all' !! j = if decide (Z.to_nat k <= j < Z.to_nat k + n)%nat then Some (sector i (Z.of_nat j)) else all !! j.
Proof.
  induction n as [|n IH]; intros i k all Hl Hk.
  - exists all. split_and!; [done|done|]. intros j. by rewrite decide_False by lia.
  - cbn [copy_direct]. unfold set_word, arr_set. rewrite decide_True by lia. cbn [oget obind].
    destruct (IH i (k + 1) (<[Z.to_nat k := sector i k]> all)) as (all' & E & El & Ej); [rewrite length_insert; lia|lia|].
    exists all'. rewrite E. split_and!; [done|by rewrite El, length_insert|]. intros j. rewrite Ej.
    destruct (decide (j = Z.to_nat k)) as [->|Hne].
    + rewrite decide_False, decide_True by lia. rewrite list_lookup_insert_eq by lia. by rewrite Z2Nat.id.
    + rewrite list_lookup_insert_ne by done. destruct (decide (Z.to_nat k <= j < Z.to_nat k + S n)%nat).
      * by rewrite decide_True by lia.
      * by rewrite decide_False by lia.
Qed.

(** The index table read into [all_blocks]. *)
Lemma wp_load_table s i n pre :
  part_wf s -> file_wf s i n -> (12 < n)%nat -> length pre = 140%nat ->
  wp (read_table (sector i 12) pre) (fun all s' => s' = s /\
    forall j, all !! j = if decide (j < 12)%nat then pre !! j else blocks_of s i !! j) s.
Proof.
  intros Hs Hw H12 Hpre. pose proof (io_len i (fw_ok s i n Hw)) as H13.
  pose proof (fw_table s i n Hw ltac:(lia)) as Ht. destruct (db_disk s _ Ht) as [l Hl].
  destruct (dblock_nonzero s _ Hs Ht) as [Hnz _]. apply (wp_read_table s _ _ l); [done|apply Ht|]. split; [done|].
  intros j. unfold blocks_of, tab_words. rewrite (proj2 (Z.eqb_neq _ _)), Hl by done. cbn [default from_option id].
  destruct (decide (j < 12)%nat).
  - rewrite lookup_app_l, lookup_take_lt by (rewrite ?length_take; lia). done.
  - rewrite !lookup_app_r by (rewrite length_take; lia). by rewrite !length_take, Hpre, H13.
Qed.

Lemma wp_read_blocks s i n start stop :
  part_wf s -> file_wf s i n -> 0 <= start <= stop -> stop < Z.of_nat n ->
  wp (collect_read i start stop (replicate 140 0)) (fun all s' => s' = s /\
    forall j, start <= j <= stop -> all !! Z.to_nat j = blocks_of s i !! Z.to_nat j) s.
Proof.
  intros Hs Hw Hss Hn. pose proof (fw_n s i n Hw) as H140. pose proof (io_len i (fw_ok s i n Hw)) as H13.
  assert (forall j, 0 <= j < 12 -> blocks_of s i !! Z.to_nat j = Some (sector i j)) as Hdir.
  { intros j Hj. rewrite blocks_direct by lia. by rewrite Z2Nat.id by lia. }
  pose proof (fun pre (H : 12 <= stop) => wp_load_table s i n pre Hs Hw ltac:(lia)) as Htab.
  unfold collect_read. destruct (Z.eqb_spec (u32 (start - stop)) 0) as [E0|E0].
  { assert (start = stop) as ->. { unfold u32 in E0. apply Z.mod_divide in E0 as [q Hq]; lia. }
    wp_steps; [apply Z.eqb_refl|]. destruct (Z.ltb_spec stop 12).
    - apply wp_set_word; [rewrite length_replicate; lia|]. split; [done|]. intros j Hj. replace j with stop by lia.
      rewrite splice_lookup by (rewrite ?length_replicate; cbn [length]; lia). rewrite decide_True by (cbn [length]; lia).
      rewrite Nat.sub_diag, Hdir by lia. done.
    - eapply wp_mono; [by apply Htab|]. cbn beta. intros all s' [-> Hall]. split; [done|]. intros j Hj.
      by rewrite Hall, decide_False by lia. }
  destruct (Z.ltb_spec stop 12).
  { destruct (copy_direct_spec (Z.to_nat (stop - start + 1)) i start (replicate 140 0)) as (all & E & El & Ej);
      [rewrite length_replicate; lia|lia|]. apply (wp_lift _ all); [done|]. split; [done|].
    intros j Hj. rewrite Ej, decide_True, Hdir by lia. by rewrite Z2Nat.id by lia. }
  pose proof (fw_table s i n Hw ltac:(lia)) as Ht. destruct (dblock_nonzero s _ Hs Ht) as [Hnz _].
  destruct (Z.ltb_spec start 12).
  - rewrite (proj2 (Z.leb_le _ _)) by done. cbn [andb]. wp_steps.
    destruct (copy_direct_spec (Z.to_nat (12 - start)) i start (replicate 140 0)) as (all & E & El & Ej);
      [rewrite length_replicate; lia|lia|]. apply (wp_lift _ all); [done|]. wp_steps; [by rewrite (proj2 (Z.eqb_neq _ _))|].
    eapply wp_mono; [by apply Htab; [|rewrite El]|]. cbn beta. intros all' s' [-> Hall]. split; [done|].
    intros j Hj. rewrite Hall. destruct (decide (Z.to_nat j < 12)%nat); [|done].
    rewrite Ej, decide_True, Hdir by lia. by rewrite Z2Nat.id by lia.
  - cbn [andb]. wp_steps; [by rewrite (proj2 (Z.eqb_neq _ _))|].
    eapply wp_mono; [by apply Htab|]. cbn beta. intros all s' [-> Hall]. split; [done|]. intros j Hj.
    by rewrite Hall, decide_False by lia.
Qed.


(** ** The read loop *)
Definition read_bytes (d : disk) (all : list Z) (n len : Z) : list Z :=
  (fun k => default 0 (block_byte d all k)) <$> seqZ n len.

Definition readable (d : disk) (all : list Z) (n len : Z) : Prop :=
  forall j, touched n len j -> exists b, all !! j = Some b /\ is_Some (d !! b) /\ b <= max_lba.

Lemma read_chunk d all n c b l :
  0 <= n -> 0 <= c -> n mod 512 + c <= 512 -> all !! Z.to_nat (n / 512) = Some b -> d !! b = Some l -> length l = 512%nat ->
  slice l (n mod 512) c = read_bytes d all n c.
Proof.
  intros Hn Hc Hoff Hb Hl H512. destruct (div_block n Hn) as (En & Hm & Hq). apply list_eq. intros j.
  unfold read_bytes. rewrite slice_lookup, list_lookup_fmap. destruct (decide (j < Z.to_nat c)%nat) as [Hj|Hj].
  - rewrite lookup_seqZ_lt by lia. cbn [fmap option_fmap option_map].
    replace (n + Z.of_nat j) with (512 * (n / 512) + (n mod 512 + Z.of_nat j)) by lia.
    rewrite (block_byte_at d all (n / 512) (n mod 512 + Z.of_nat j) l b) by (done || lia).
    replace (Z.to_nat (n mod 512) + j)%nat with (Z.to_nat (n mod 512 + Z.of_nat j)) by lia.
    destruct (lookup_lt_is_Some_2 l (Z.to_nat (n mod 512 + Z.of_nat j))) as [y ->]; [lia|done].
  - rewrite lookup_seqZ_ge by lia. done.
Qed.

Definition moved (s : fs) (f : Z) (x : file) (len : Z) : fs :=
  set_file_table (<[Z.to_nat f := set_pos (fd_pos x + len) x]> (file_table s)) s.

Lemma moved_0 s f x : arr_get (file_table s) f = Some x -> moved s f x 0 = s.
Proof.
  intros E. unfold moved, set_pos. rewrite Z.add_0_r. unfold arr_get in E. case_decide; [|done].
  rewrite list_insert_id; [by destruct s|]. by destruct x.
Qed.

Lemma moved_trans s f x c c' : moved (moved s f x c) f (set_pos (fd_pos x + c) x) c' = moved s f x (c + c').
Proof.
  unfold moved, set_pos. cbn [fd_pos fd_flag fd_inode file_table set_file_table]. rewrite list_insert_insert_eq.
  by rewrite Z.add_assoc.
Qed.

Lemma read_bytes_app d all n c c' : 0 <= c -> 0 <= c' ->
  read_bytes d all n (c + c') = read_bytes d all n c ++ read_bytes d all (n + c) c'.
Proof. intros. unfold read_bytes. by rewrite seqZ_app, fmap_app by done. Qed.

Lemma wp_read_loop : forall fuel f all left acc s x,
  disk_ok (dsk s) -> arr_get (file_table s) f = Some x -> 0 <= fd_pos x -> 0 <= left -> fd_pos x + left < 4294967296 ->
  readable (dsk s) all (fd_pos x) left -> (Z.to_nat left < fuel)%nat ->
  wp (read_loop fuel f all left acc) (fun r s' =>
    r = acc ++ read_bytes (dsk s) all (fd_pos x) left /\ s' = moved s f x left) s.
Proof.
  induction fuel as [|fuel IH]; intros f all left acc s x Hd Hx Hp Hl Hm Hr Hf; [lia|]. cbn [read_loop].
  destruct (Z.eqb_spec left 0) as [->|Hne].
  { apply wp_ret. unfold read_bytes. cbn. rewrite app_nil_r. split; [done|]. by rewrite moved_0. }
  wp_steps. apply (wp_get_file f x); [done|]. destruct (div_block (fd_pos x) Hp) as (En & Hmo & Hq). unfold BLOCK_SIZE.
  destruct (Hr (Z.to_nat (fd_pos x / 512))) as (b & Hb & [l Hlb] & Hbm); [unfold touched; lia|].
  set (c := if left <? 512 - fd_pos x mod 512 then left else 512 - fd_pos x mod 512).
  assert (0 < c <= left /\ fd_pos x mod 512 + c <= 512) as [Hc Hc5] by (unfold c; destruct (Z.ltb_spec left (512 - fd_pos x mod 512)); lia).
  wp_steps. apply (wp_lift _ b). { unfold arr_get. rewrite decide_True by lia. by rewrite Hb. }
  wp_steps. apply (wp_ide_read1 b l); [done|done|]. wp_steps. eapply wp_put_file; [done|].
  rewrite u32_id by (unfold is_u32; lia). fold (moved s f x c).
  eapply wp_mono; [apply (IH f all (left - c) _ (moved s f x c) (set_pos (fd_pos x + c) x)); try done; cbn [set_pos fd_pos]; try lia|].
  { by eapply arr_get_insert. }
  { intros j (? & ? & ?). apply Hr. unfold touched. pose proof (Z.div_le_mono (fd_pos x) (fd_pos x + c) 512). lia. }
  cbn beta. intros r s' [-> ->]. rewrite moved_trans. replace (c + (left - c)) with left by lia. split; [|done].
  rewrite <- app_assoc. f_equal. rewrite (read_chunk (dsk s) all (fd_pos x) c b l) by (done || lia || by apply (Hd b)).
  rewrite <- read_bytes_app by lia. f_equal. lia.
Qed.


(** ** [file_read] *)
Lemma file_data_slice s i n len : 0 <= n -> 0 <= len -> n + len <= i_size i ->
  take (Z.to_nat len) (drop (Z.to_nat n) (file_data s i)) = read_bytes (dsk s) (blocks_of s i) n len.
Proof.
  intros Hn Hl Hsz. unfold file_data, read_bytes. rewrite skipn_map, firstn_map. f_equal.
  replace (i_size i) with (n + (len + (i_size i - n - len))) by lia. rewrite !seqZ_app by lia.
  rewrite drop_app_length' by (rewrite length_seqZ; lia). by rewrite take_app_length' by (rewrite length_seqZ; lia).
Qed.

Lemma read_bytes_blocks d all blocks n len : 0 <= n ->
  (forall j, n / 512 <= j <= (n + len) / 512 -> all !! Z.to_nat j = blocks !! Z.to_nat j) ->
  read_bytes d all n len = read_bytes d blocks n len.
Proof.
  intros Hn H. unfold read_bytes. apply list_fmap_ext. intros j k Hk%list_elem_of_lookup_2%elem_of_seqZ. f_equal.
  apply block_byte_list, H. split; apply Z.div_le_mono; lia.
Qed.

Lemma readable_blocks s i n p len all :
  part_wf s -> file_wf s i n -> 0 <= p -> 0 <= len -> (p + len) / 512 < Z.of_nat n ->
  (forall j, p / 512 <= j <= (p + len) / 512 -> all !! Z.to_nat j = blocks_of s i !! Z.to_nat j) ->
  readable (dsk s) all p len.
Proof.
  intros Hs Hw Hp Hl Hn Hall j (H1 & H2 & H3).
  assert (Z.of_nat j <= (p + len) / 512) by (apply Z.div_le_lower_bound; lia).
  destruct (fw_block s i n j Hs Hw ltac:(lia)) as (b & Hb & Hdb). exists b. split; [|split; apply Hdb].
  rewrite <- Hb, <- (Nat2Z.id j). apply Hall. lia.
Qed.

Lemma malloc_done k a r s : fresh_head (hp s) a r ->
  sys_malloc k s = Done (a, set_hp (mk_heap (<[a := k]> (live (hp s))) r) s).
Proof.
  intros H. assert (wp (sys_malloc k) (fun v s' => v = a /\ s' = set_hp (mk_heap (<[a := k]> (live (hp s))) r) s) s) as Hw.
  { by apply (wp_malloc k a r). }
  apply wp_done in Hw as (v & s' & E & -> & ->). done.
Qed.

(** The part of [file_read] after the number of bytes is known. *)
Definition read_body (f : Z) (x : file) (i : inode) (size : Z) : M fs (Z * list Z) :=
  let! k := gets in_kernel in
  let! io_buf := sys_malloc k in
  let! all_blocks_p := sys_malloc k in
  if all_blocks_p =? 0 then ret (-1, []) else
  assertM ((fd_pos x / 512 <? 139) && ((fd_pos x + size) / 512 <? 139)) ;;;
  let! all_blocks := collect_read i (fd_pos x / 512) ((fd_pos x + size) / 512) (replicate 140 0) in
  if io_buf =? 0 then halt Assert_failed else
  let! buf := read_loop (S (Z.to_nat size)) f all_blocks size [] in
  sys_free k all_blocks_p ;;;
  sys_free k io_buf ;;;
  ret (i32 size, buf).

Lemma file_read_start s f count x i :
  arr_get (file_table s) f = Some x -> inodes s !! fd_inode x = Some i -> is_u32 (i_size i) ->
  0 <= fd_pos x <= i_size i -> 0 < count -> fd_pos x + count < 4294967296 ->
  let size := Z.min count (i_size i - fd_pos x) in
  file_read f count s =
    if size =? 0 then Done ((-1, []), s) else
    read_body f x i size s.
Proof.
  intros Hx Hi Hu Hpos Hc Hsum size. unfold is_u32 in Hu.
  unfold file_read. rewrite (bind_done _ _ s x s), (bind_done _ _ s i s).
  2: { unfold get_inode. by rewrite Hi. }
  2: { unfold get_file. by rewrite Hx. }
  rewrite (u32_id (fd_pos x + count)) by (unfold is_u32; lia).
  assert ((if i_size i <? fd_pos x + count then u32 (i_size i - fd_pos x) else count) = size) as ->.
  { unfold size. destruct (Z.ltb_spec (i_size i) (fd_pos x + count)); [rewrite u32_id by (unfold is_u32; lia)|]; lia. }
  rewrite (u32_id (fd_pos x + size)) by (unfold is_u32; lia).
  destruct (Z.eqb_spec size 0) as [E|E].
  - rewrite (proj2 (Z.ltb_lt _ _)) by lia. done.
  - by rewrite andb_false_r.
Qed.

Lemma file_ok_blocks s i : file_ok s i -> 0 < i_size i -> (0 < nblocks i)%nat /\ i_size i / 512 < Z.of_nat (nblocks i).
Proof.
  intros [_ H0] Hsz. unfold nblocks. destruct (Z.eqb_spec (sector i 0) 0) as [E|_]; [rewrite (H0 E) in Hsz; lia|].
  pose proof (Z.div_pos (i_size i) 512). lia.
Qed.

Lemma wp_read_body s f x i n size :
  part_wf s -> arr_get (file_table s) f = Some x -> file_wf s i n -> (0 < n)%nat -> i_size i / 512 < Z.of_nat n ->
  0 <= fd_pos x -> 0 < size -> fd_pos x + size <= i_size i -> fd_pos x + size < 71168 -> two_fresh (hp s) ->
  wp (read_body f x i size) (fun v s' =>
    v = (size, take (Z.to_nat size) (drop (Z.to_nat (fd_pos x)) (file_data s i))) /\
    s' = set_hp (mk_heap (live (hp s)) (answers (hp s'))) (moved s f x size)) s.
Proof.
  intros Hs Hx Hw Hn0 Hn Hp Hsz Hend Hlim Hheap. unfold read_body. wp_steps.
  eapply wp_mono; [apply wp_two_mallocs; [done|]|].
  2: { cbn beta. intros p sp [Hp0 Hq]. wp_steps. eapply wp_mono; [exact Hq|]. cbn beta. intros q sq [Hq0 HQ].
       rewrite (proj2 (Z.eqb_neq q 0)), (proj2 (Z.eqb_neq p 0)) by done. exact HQ. }
  cbn beta. intros p q r Hp0 Hq0 Hpq Lp Lq. set (sA := set_hp _ s).
  assert (part_wf sA) as HsA by (by apply (part_wf_fields s)).
  assert (file_wf sA i n) as HwA by (by apply (file_wf_fields s)).
  pose proof (Z.div_pos (fd_pos x) 512 Hp ltac:(lia)).
  pose proof (Z.div_le_mono (fd_pos x) (fd_pos x + size) 512 ltac:(lia) ltac:(lia)).
  pose proof (Z.div_le_mono (fd_pos x + size) (i_size i) 512 ltac:(lia) ltac:(lia)).
  assert ((fd_pos x + size) / 512 < 139) by (apply Z.div_lt_upper_bound; lia).
  wp_steps; [rewrite !(proj2 (Z.ltb_lt _ _)) by lia; done|].
  eapply wp_mono; [apply (wp_read_blocks sA i n); try done; lia|].
  cbn beta. intros all s1 [-> Hall]. wp_steps.
  eapply wp_mono; [apply (wp_read_loop _ f all size [] sA x); try done; try lia; [apply HsA|]|].
  { apply (readable_blocks sA i n); try done; lia. }
  cbn beta. intros buf s1 [-> ->].
  apply (wp_two_frees (moved sA f x size) (in_kernel s) p q (live (hp s))); try done. apply wp_ret. split.
  - rewrite i32_id by lia. f_equal. rewrite app_nil_l, file_data_slice by lia.
    by rewrite (read_bytes_blocks (dsk s) all (blocks_of s i)).
  - done.
Qed.

Lemma read_body_asserts s f x i size :
  0 <= fd_pos x -> 71168 <= fd_pos x + size -> two_fresh (hp s) -> read_body f x i size s = Halt Assert_failed.
Proof.
  intros Hp Hlim (p & q & r & Hans & Hp0 & Hq0 & Hpq & Lp & Lq). unfold read_body.
  rewrite (bind_done _ _ s (in_kernel s) s) by done.
  erewrite bind_done; [|by apply (malloc_done _ p (q :: r))].
  erewrite bind_done; [|apply (malloc_done _ q r); split_and!; [done|done|cbn; by rewrite lookup_insert_ne]].
  rewrite (proj2 (Z.eqb_neq q 0)) by done.
  assert (139 <= (fd_pos x + size) / 512) by (apply Z.div_le_lower_bound; lia).
  rewrite (proj2 (Z.ltb_ge ((fd_pos x + size) / 512) 139)), andb_false_r by lia. done.
Qed.

(** C22: [file_read] returns the bytes of the file from the position on: at most
    [count] of them and no more than the file has, through direct blocks, the
    index table or both; the position moves past them, the disk, the inodes and
    the other tables stay as they are and the buffers are freed.  At the end of
    the file it returns -1.  When the bytes reach into the 140th block, which
    [file_write] does fill, its assertion on the block index stops the
    machine. *)
Theorem file_read_correct (s : fs) (f count : Z) (x : file) (i : inode)
    (Hs : part_wf s) (Hx : arr_get (file_table s) f = Some x) (Hi : inodes s !! fd_inode x = Some i)
    (Hok : file_ok s i) (Hpos : 0 <= fd_pos x <= i_size i) (Hcnt : 0 < count) (Hu : fd_pos x + count < 4294967296)
    (Hheap : two_fresh (hp s)) :
  let size := Z.min count (i_size i - fd_pos x) in
  (size = 0 -> file_read f count s = Done ((-1, []), s)) /\
  (0 < size -> fd_pos x + size < 71168 ->
     exists s', file_read f count s =
         Done ((size, take (Z.to_nat size) (drop (Z.to_nat (fd_pos x)) (file_data s i))), s') /\
       dsk s' = dsk s /\ inodes s' = inodes s /\ block_bitmap s' = block_bitmap s /\ same_tables s s' /\
       arr_get (file_table s') f = Some (set_pos (fd_pos x + size) x)) /\
  (0 < size -> 71168 <= fd_pos x + size -> file_read f count s = Halt Assert_failed).
Proof.
  intros size. pose proof (fw_ok s i _ (proj1 Hok)) as Hiok.
  rewrite (file_read_start s f count x i) by (done || apply Hiok). fold size.
  split; [by intros ->|split; intros Hsz Hlim; rewrite (proj2 (Z.eqb_neq size 0)) by lia].
  - pose proof (file_ok_blocks s i Hok ltac:(lia)) as [Hn0 Hn].
    pose proof (wp_read_body s f x i (nblocks i) size Hs Hx (proj1 Hok) Hn0 Hn (proj1 Hpos) Hsz ltac:(lia) Hlim Hheap) as Hwp.
    apply wp_done in Hwp as (v & s' & E & -> & E'). exists s'. split; [done|]. rewrite E'. split_and!; try done.
    by eapply arr_get_insert.
  - by apply read_body_asserts; [lia|..].
Qed.

Lemma file_read_correct_witness :
  exists s', file_read 3 100 ex_fs = Done ((5, [104; 101; 108; 108; 111]), s') /\ dsk s' = dsk ex_fs.
Proof.
  destruct (file_read_correct ex_fs 3 100 (mk_file 0 2 8192) ex_file_inode ex_part_wf) as (_ & H & _).
  - done.
  - done.
  - apply ex_file_ok.
  - cbn. lia.
  - lia.
  - cbn. lia.
  - exists 12288, 16384, [20480; 24576]. done.
  - destruct H as (s' & E & Ed & _); [cbn; lia|cbn; lia|]. exists s'. split; [|done]. rewrite E. vm_compute. done.
Defined.
