(* ===== verification/Dir.v ===== *)
(** * Dir: directories ([fs/dir.c])

    A directory is a file of entries of 24 bytes, 21 to a sector (an entry never
    crosses a sector).  Names are lists of characters without the terminator;
    [strcmp] against a name in a sector buffer runs over the bytes of the
    buffer, past the 16 bytes of the name when it has no terminator.  The
    buffers the functions take from the heap are the heap's blocks; their
    contents are the byte lists. *)

From stdpp Require Import base numbers list gmap.
From S2P Require Import Prelude.
From S2P Require Import Bitmap.
From S2P Require Import Path.
From S2P Require Import Disk.
From S2P Require Import Fsdata.
From S2P Require Import Inode.
From S2P Require Import Blocks.
From S2P Require Import File.

Local Open Scope Z_scope.
Local Open Scope kernel_scope.

(** ** Entries *)
Definition de_size : Z := 24.   (* sizeof(struct dir_entry) *)
Definition de_bytes (e : dir_entry) : list Z := filename e ++ u32_bytes (de_i_no e) ++ u32_bytes (f_type e).
Definition word_at (l : list Z) (off : Z) : Z := nth 0 (bytes_words (slice l off 4)) 0.
Definition de_of_bytes (l : list Z) : dir_entry := mk_de (slice l 0 16) (word_at l 16) (word_at l 20).

(** [strcmp(p, name) == 0] for a pointer into a buffer. *)
Fixpoint str_eq (p name : list Z) : outcome bool :=
  match p, name with
  | [], _ => Halt Out_of_bounds
  | c :: _, [] => Done (c =? 0)
  | c :: p, x :: name => if c =? x then str_eq p name else Done false
  end.

(** ** Opening and closing *)
Definition open_root_dir : M fs unit :=
  let! no := gets (fun s => root_inode_no (sb s)) in
  let! a := inode_open no in
  modify (set_root_dir (mk_dir a 0)).

Definition dir_open (inode_no : Z) : M fs dirptr :=
  let! k := gets in_kernel in
  let! pdir := sys_malloc k in
  let! a := inode_open inode_no in
  if pdir =? 0 then halt Out_of_bounds else
  put_dir (HeapDir pdir) (mk_dir a 0) ;;;
  ret (HeapDir pdir).

Definition dir_close (d : dirptr) : M fs unit :=
  match d with
  | RootDir => ret tt
  | HeapDir p =>
      let! x := get_dir d in
      inode_close (d_inode x) ;;;
      let! k := gets in_kernel in
      sys_free k p ;;;
      modify (fun s => set_dirs (delete p (dirs s)) s)
  end.

(** ** Searching *)

(** The addresses of the 140 blocks of a directory. *)
Definition dir_all_blocks (i : inode) : M fs (list Z) :=
  let! all_blocks := lift (copy_direct 12 i 0 (replicate 140 0)) in
  if negb (sector i 12 =? 0) then read_table (sector i 12) all_blocks else ret all_blocks.

Fixpoint search_sector (n : nat) (p_de name : list Z) (size : Z) : outcome (option dir_entry) :=
  match n with
  | O => Done None
  | S n =>
      olet eq := str_eq p_de name in
      if eq : bool then Done (Some (de_of_bytes (take (Z.to_nat size) p_de)))
      else search_sector n (drop (Z.to_nat de_size) p_de) name size
  end.

Fixpoint search_blocks (all_blocks : list Z) (dir_entry_cnt : nat) (name : list Z) (size : Z) : M fs (option dir_entry) :=
  match all_blocks with
  | [] => ret None
  | b :: all_blocks =>
      if b =? 0 then search_blocks all_blocks dir_entry_cnt name size else
      let! buf := ide_read b 1 in
      let! r := lift (search_sector dir_entry_cnt buf name size) in
      match r with
      | Some e => ret (Some e)
      | None => search_blocks all_blocks dir_entry_cnt name size
      end
  end.

(** [None]: not found. *)
Definition search_dir_entry (pdir : dirptr) (name : list Z) : M fs (option dir_entry) :=
  let! k := gets in_kernel in
  let! all_blocks_p := sys_malloc k in
  if all_blocks_p =? 0 then ret None else
  let! d := get_dir pdir in
  let! i := get_inode (d_inode d) in
  let! all_blocks := dir_all_blocks i in
  let! buf := sys_malloc k in
  if buf =? 0 then halt (if forallb (Z.eqb 0) all_blocks then Assert_failed else Out_of_bounds) else
  let! size := gets (fun s => dir_entry_size (sb s)) in
  let! r := search_blocks all_blocks (Z.to_nat (512 / size)) name size in
  sys_free k buf ;;;
  sys_free k all_blocks_p ;;;
  ret r.

(** ** Creating an entry *)
Definition create_dir_entry (name : list Z) (inode_no file_type : Z) (p_de : dir_entry) : outcome dir_entry :=
  ASSERT Z.of_nat (length name) <=? MAX_FILE_NAME_LEN in
  Done (mk_de (splice (filename p_de) 0 name) (u32 inode_no) (u8 file_type)).

(** The first of [n] entries of a sector from index [idx] with type
    [FT_UNKNOWN]. *)
Fixpoint find_empty (n : nat) (idx : Z) (buf : list Z) : option Z :=
  match n with
  | O => None
  | S n => if word_at buf (de_size * idx + 20) =? FT_UNKNOWN then Some idx else find_empty n (idx + 1) buf
  end.

Definition add_size (a n : Z) : M fs unit :=
  let! i := get_inode a in put_inode a (set_size (u32 (i_size i + n)) i).

(** [ASSERT(block_bitmap_idx != -1); bitmap_sync(...)] *)
Definition sync_new_block (block_lba : Z) : M fs unit :=
  let! ds := gets (fun s => data_start_lba (sb s)) in
  assertM (negb (i32 (block_lba - ds) =? -1)) ;;;
  bitmap_sync (u32 (block_lba - ds)) BLOCK_BITMAP.

(** A block for index [block_idx] of the directory at [a], with the index table
    when it is the first indirect one; [None]: the disk is full. *)
Definition new_dir_block (a block_idx : Z) (all_blocks : list Z) : M fs (option (list Z)) :=
  let! block_lba := block_bitmap_alloc in
  if block_lba =? -1 then ret None else
  sync_new_block block_lba ;;;
  if block_idx <? 12 then
    put_sector a block_idx block_lba ;;;
    let! all_blocks := lift (set_word all_blocks block_idx block_lba) in
    ret (Some all_blocks)
  else if block_idx =? 12 then
    put_sector a 12 block_lba ;;;
    let! block_lba2 := block_bitmap_alloc in
    if block_lba2 =? -1 then
      let! s := gets id in
      let! b := lift (bitmap_set (block_bitmap s) (u32 (block_lba - data_start_lba (sb s))) 0) in
      modify (set_block_bitmap b) ;;;
      put_sector a 12 0 ;;;
      ret None
    else
      sync_new_block block_lba2 ;;;
      let! all_blocks := lift (set_word all_blocks 12 block_lba2) in
      write_table block_lba all_blocks ;;;
      ret (Some all_blocks)
  else
    let! all_blocks := lift (set_word all_blocks block_idx block_lba) in
    let! i := get_inode a in
    write_table (sector i 12) all_blocks ;;;
    ret (Some all_blocks).

(** The search for an empty entry from block [block_idx] on. *)
Fixpoint sync_blocks (n : nat) (a block_idx : Z) (all_blocks : list Z) (p_de : dir_entry) (size : Z) : M fs bool :=
  match n with
  | O => ret false
  | S n =>
      let! b := lift (oget (arr_get all_blocks block_idx) Out_of_bounds) in
      if b =? 0 then
        let! r := new_dir_block a block_idx all_blocks in
        match r with
        | None => ret false
        | Some all_blocks =>
            let! b := lift (oget (arr_get all_blocks block_idx) Out_of_bounds) in
            ide_write b (splice (replicate 512 0) 0 (take (Z.to_nat size) (de_bytes p_de))) 1 ;;;
            add_size a size ;;;
            ret true
        end
      else
        let! io_buf := ide_read b 1 in
        match find_empty (Z.to_nat (512 / size)) 0 io_buf with
        | Some k =>
            ide_write b (splice io_buf (de_size * k) (take (Z.to_nat size) (de_bytes p_de))) 1 ;;;
            add_size a size ;;;
            ret true
        | None => sync_blocks n a (block_idx + 1) all_blocks p_de size
        end
  end.

Definition sync_dir_entry (parent_dir : dirptr) (p_de : dir_entry) : M fs bool :=
  let! d := get_dir parent_dir in
  let! i := get_inode (d_inode d) in
  let! size := gets (fun s => dir_entry_size (sb s)) in
  assertM (i_size i mod size =? 0) ;;;
  let! all_blocks := lift (copy_direct 12 i 0 (replicate 140 0)) in
  sync_blocks 140 (d_inode d) 0 all_blocks p_de size.

(** ** Deleting an entry *)
(** The scan of a sector: the number of entries other than [.] and [..] (an
    [uint8_t]), whether [.] is among them, and the entry with the inode number. *)
Fixpoint scan_sector (n : nat) (idx : Z) (buf : list Z) (inode_no : Z) (cnt : Z) (first : bool) (found : option Z)
    : outcome (Z * bool * option Z) :=
  match n with
  | O => Done (cnt, first, found)
  | S n =>
      let off := de_size * idx in
      if negb (word_at buf (off + 20) =? FT_UNKNOWN) then
        olet d := str_eq (drop (Z.to_nat off) buf) [dot] in
        if d : bool then scan_sector n (idx + 1) buf inode_no cnt true found else
        olet dd := str_eq (drop (Z.to_nat off) buf) [dot; dot] in
        if dd : bool then scan_sector n (idx + 1) buf inode_no cnt first found else
        if word_at buf (off + 16) =? inode_no then
          ASSERT match found with None => true | Some _ => false end in
          scan_sector n (idx + 1) buf inode_no (u8 (cnt + 1)) first (Some idx)
        else scan_sector n (idx + 1) buf inode_no (u8 (cnt + 1)) first found
      else scan_sector n (idx + 1) buf inode_no cnt first found
  end.

(** [while (indirect_block_idx < 140)]: the index is not changed in the loop. *)
Fixpoint count_indirect (fuel : nat) (all_blocks : list Z) (indirect_block_idx indirect_blocks : Z) : outcome Z :=
  match fuel with
  | O => Halt Out_of_fuel
  | S fuel =>
      if indirect_block_idx <? 140 then
        olet b := oget (arr_get all_blocks indirect_block_idx) Out_of_bounds in
        count_indirect fuel all_blocks indirect_block_idx
          (if negb (b =? 0) then u32 (indirect_blocks + 1) else indirect_blocks)
      else Done indirect_blocks
  end.

(** [bitmap_set(..., 0); bitmap_sync(...)] for the block [lba]. *)
Definition free_block_of (lba : Z) : M fs unit :=
  let! s := gets id in
  let block_bitmap_idx := u32 (lba - data_start_lba (sb s)) in
  let! b := lift (bitmap_set (block_bitmap s) block_bitmap_idx 0) in
  modify (set_block_bitmap b) ;;;
  bitmap_sync block_bitmap_idx BLOCK_BITMAP.

(** Giving back the block that held only the deleted entry. *)
Definition recycle_block (fuel : nat) (a block_idx : Z) (all_blocks : list Z) : M fs unit :=
  let! b := lift (oget (arr_get all_blocks block_idx) Out_of_bounds) in
  free_block_of b ;;;
  if block_idx <? 12 then put_sector a block_idx 0
  else
    let! indirect_blocks := lift (count_indirect fuel all_blocks 12 0) in
    assertM (1 <=? indirect_blocks) ;;;
    let! i := get_inode a in
    if 1 <? indirect_blocks then
      let! all_blocks := lift (set_word all_blocks block_idx 0) in
      write_table (sector i 12) all_blocks
    else
      free_block_of (sector i 12) ;;;
      put_sector a 12 0.

Fixpoint delete_blocks (fuel n : nat) (a block_idx : Z) (all_blocks : list Z) (inode_no size : Z) : M fs bool :=
  match n with
  | O => ret false
  | S n =>
      let! b := lift (oget (arr_get all_blocks block_idx) Out_of_bounds) in
      if b =? 0 then delete_blocks fuel n a (block_idx + 1) all_blocks inode_no size else
      let! io_buf := ide_read b 1 in
      let! r := lift (scan_sector (Z.to_nat (512 / size)) 0 io_buf inode_no 0 false None) in
      let '(dir_entry_cnt, is_dir_first_block, found) := r in
      match found with
      | None => delete_blocks fuel n a (block_idx + 1) all_blocks inode_no size
      | Some k =>
          assertM (1 <=? dir_entry_cnt) ;;;
          (if (dir_entry_cnt =? 1) && negb is_dir_first_block then recycle_block fuel a block_idx all_blocks
           else ide_write b (splice io_buf (de_size * k) (replicate (Z.to_nat size) 0)) 1) ;;;
          let! i := get_inode a in
          assertM (size <=? i_size i) ;;;
          let i := set_size (i_size i - size) i in
          put_inode a i ;;;
          inode_sync i 1024 ;;;
          ret true
      end
  end.

Definition delete_dir_entry (fuel : nat) (pdir : dirptr) (inode_no : Z) : M fs bool :=
  let! d := get_dir pdir in
  let! i := get_inode (d_inode d) in
  let! all_blocks := dir_all_blocks i in
  let! size := gets (fun s => dir_entry_size (sb s)) in
  delete_blocks fuel 140 (d_inode d) 0 all_blocks inode_no size.

(** ** Reading a directory *)

(** The entries of a sector: [inl cur]: none to return, the position counted on
    to [cur]; [inr e]: the entry at the directory's position. *)
Fixpoint read_sector (n : nat) (idx : Z) (buf : list Z) (cur dir_pos size : Z) : outcome (Z + dir_entry) :=
  match n with
  | O => Done (inl cur)
  | S n =>
      let off := de_size * idx in
      if negb (word_at buf (off + 20) =? 0) then
        if cur <? dir_pos then read_sector n (idx + 1) buf (u32 (cur + size)) dir_pos size
        else ASSERT cur =? dir_pos in Done (inr (de_of_bytes (slice buf off de_size)))
      else read_sector n (idx + 1) buf cur dir_pos size
  end.

Fixpoint read_dir_blocks (all_blocks : list Z) (i_size dir_pos cur size : Z) : M fs (option dir_entry) :=
  match all_blocks with
  | [] => ret None
  | b :: all_blocks =>
      if i_size <=? dir_pos then ret None else
      if b =? 0 then read_dir_blocks all_blocks i_size dir_pos cur size else
      let! buf := ide_read b 1 in
      let! r := lift (read_sector (Z.to_nat (512 / size)) 0 buf cur dir_pos size) in
      match r with
      | inl cur => read_dir_blocks all_blocks i_size dir_pos cur size
      | inr e => ret (Some e)
      end
  end.

(** [None] for [NULL]. *)
Definition dir_read (d : dirptr) : M fs (option dir_entry) :=
  let! x := get_dir d in
  let! i := get_inode (d_inode x) in
  let! all_blocks := dir_all_blocks i in
  let all_blocks := if sector i 12 =? 0 then take 12 all_blocks else all_blocks in
  let! size := gets (fun s => dir_entry_size (sb s)) in
  let! r := read_dir_blocks all_blocks (i_size i) (dir_pos x) 0 size in
  match r with
  | None => ret None
  | Some e => put_dir d (mk_dir (d_inode x) (u32 (dir_pos x + size))) ;;; ret (Some e)
  end.

Definition dir_is_empty (d : dirptr) : M fs bool :=
  let! x := get_dir d in
  let! i := get_inode (d_inode x) in
  gets (fun s => i_size i =? u32 (dir_entry_size (sb s) * 2)).

Definition dir_remove (fuel : nat) (parent_dir child_dir : dirptr) : M fs Z :=
  let! x := get_dir child_dir in
  let! i := get_inode (d_inode x) in
  assertM (forallb (fun j => sector i j =? 0) (seqZ 1 12)) ;;;
  let! k := gets in_kernel in
  let! io_buf := sys_malloc k in
  if io_buf =? 0 then ret (-1) else
  let! _ := delete_dir_entry fuel parent_dir (i_no i) in
  let! i := get_inode (d_inode x) in
  inode_release (i_no i) ;;;
  sys_free k io_buf ;;;
  ret 0.
