(* ===== verification/Partscan.v ===== *)
(** * Partscan: the partitions of a drive ([device/ide.c] [partition_scan])

    A drive has up to four primary partitions in the table of its first sector,
    one of which may be extended: a chain of sectors, each with the entry of a
    logical partition and the address of the next sector relative to the start
    of the extended partition.  [partition_scan] calls itself for each link of
    the chain.  The state has the globals [ext_lba_base], [p_no] and [l_no], the
    two arrays of the drive, and the list of all partitions, whose elements are
    named by array and index. *)

From stdpp Require Import base numbers list gmap.
From S2P Require Import Prelude.
From S2P Require Import Cstring.
From S2P Require Import Stdio.
From S2P Require Import Disk.
From S2P Require Import Fsdata.
From S2P Require Import Dir.

Local Open Scope Z_scope.
Local Open Scope kernel_scope.

Record partition_table_entry : Type := mk_pte { fs_type : Z; pte_start_lba : Z; pte_sec_cnt : Z }.
(** [struct partition], as far as the scan fills it in *)
Record partition : Type := mk_partition { start_lba : Z; sec_cnt : Z; part_name : list Z }.
Inductive part_ref : Type := Prim (i : Z) | Logic (i : Z).

(** The table of a boot sector: four entries of 16 bytes at offset 446. *)
Definition table_entry (bs : list Z) (i : Z) : partition_table_entry :=
  let off := 446 + 16 * i in
  mk_pte (nth (Z.to_nat (off + 4)) bs 0) (word_at bs (off + 8)) (word_at bs (off + 12)).
Definition partition_table (bs : list Z) : list partition_table_entry := table_entry bs <$> [0; 1; 2; 3].

Record scan : Type := mk_scan {
  ext_lba_base : Z;
  p_no : Z;
  l_no : Z;
  prim_parts : list partition;
  logic_parts : list partition;
  partition_list : list part_ref;
  sc_hp : heap
}.

Definition set_ext (b : Z) (s : scan) : scan :=
  mk_scan b (p_no s) (l_no s) (prim_parts s) (logic_parts s) (partition_list s) (sc_hp s).
Definition set_heap (h : heap) (s : scan) : scan :=
  mk_scan (ext_lba_base s) (p_no s) (l_no s) (prim_parts s) (logic_parts s) (partition_list s) h.

(** The scan runs in the kernel's main thread. *)
Definition bs_malloc : M scan Z := fun s => let (p, h) := heap_malloc true (sc_hp s) in Done (p, set_heap h s).
Definition bs_free (p : Z) : M scan unit := fun s => olet h := heap_free true p (sc_hp s) in Done (tt, set_heap h s).

Section scan.
Context (d : disk) (hd_name : list Z).

(** [sprintf(name, "%s%d", hd->name, n)] *)
Definition name_part (n : Z) : list Z := hd_name ++ dec n.

Definition add_prim (ext_lba : Z) (p : partition_table_entry) : M scan unit :=
  let! s := gets id in
  let x := mk_partition (u32 (ext_lba + pte_start_lba p)) (pte_sec_cnt p) (name_part (p_no s + 1)) in
  let! l := lift (oget (arr_set (prim_parts s) (p_no s) x) Out_of_bounds) in
  modify (fun s => mk_scan (ext_lba_base s) (u8 (p_no s + 1)) (l_no s) l (logic_parts s)
                     (partition_list s ++ [Prim (p_no s)]) (sc_hp s)) ;;;
  let! n := gets p_no in
  assertM (n <? 4).

Definition add_logic (ext_lba : Z) (p : partition_table_entry) : M scan unit :=
  let! s := gets id in
  let x := mk_partition (u32 (ext_lba + pte_start_lba p)) (pte_sec_cnt p) (name_part (l_no s + 5)) in
  let! l := lift (oget (arr_set (logic_parts s) (l_no s) x) Out_of_bounds) in
  modify (fun s => mk_scan (ext_lba_base s) (p_no s) (u8 (l_no s + 1)) (prim_parts s) l
                     (partition_list s ++ [Logic (l_no s)]) (sc_hp s)).

(** The loop over the four entries; [rescan] is the recursive call.  The result
    is false when the function returns inside the loop. *)
Fixpoint scan_entries (rescan : Z -> M scan unit) (ext_lba : Z) (ps : list partition_table_entry) : M scan bool :=
  match ps with
  | [] => ret true
  | p :: ps =>
      if fs_type p =? 5 then
        let! base := gets ext_lba_base in
        (if negb (base =? 0) then rescan (u32 (pte_start_lba p + base))
         else modify (set_ext (i32 (pte_start_lba p))) ;;; rescan (pte_start_lba p)) ;;;
        scan_entries rescan ext_lba ps
      else if negb (fs_type p =? 0) then
        if ext_lba =? 0 then add_prim ext_lba p ;;; scan_entries rescan ext_lba ps
        else
          add_logic ext_lba p ;;;
          let! n := gets l_no in
          if 8 <=? n then ret false else scan_entries rescan ext_lba ps
      else scan_entries rescan ext_lba ps
  end.

Fixpoint partition_scan (fuel : nat) (ext_lba : Z) : M scan unit :=
  match fuel with
  | O => halt Out_of_fuel
  | S fuel =>
      let! bs := bs_malloc in
      let! sector := lift (disk_read d ext_lba 1) in
      if bs =? 0 then halt Page_fault else
      let! fin := scan_entries (partition_scan fuel) ext_lba (partition_table sector) in
      if fin : bool then bs_free bs else ret tt
  end.

(** ** What a drive holds *)
Definition data_entry (p : partition_table_entry) : Prop := fs_type p <> 0 /\ fs_type p <> 5.
Definition table_at (lba : Z) (ps : list partition_table_entry) : Prop :=
  lba <= max_lba /\ exists bs, d !! lba = Some bs /\ partition_table bs = ps.

(** A chain of links from the sector [lba]: the logical partitions, as absolute
    start and length. *)
Inductive ebr_chain (base : Z) : Z -> list (Z * Z) -> Prop :=
  | ebr_last lba p x y z :
      lba <> 0 -> table_at lba [p; x; y; z] -> data_entry p -> fs_type x = 0 -> fs_type y = 0 -> fs_type z = 0 ->
      ebr_chain base lba [(u32 (lba + pte_start_lba p), pte_sec_cnt p)]
  | ebr_next lba p x y z ps :
      lba <> 0 -> table_at lba [p; x; y; z] -> data_entry p -> fs_type x = 5 -> fs_type y = 0 -> fs_type z = 0 ->
      ebr_chain base (u32 (pte_start_lba x + base)) ps ->
      ebr_chain base lba ((u32 (lba + pte_start_lba p), pte_sec_cnt p) :: ps).

(** Partitions with their names, numbered from [n]; a run of an array replaced. *)
Fixpoint named (n : Z) (ps : list (Z * Z)) : list partition :=
  match ps with [] => [] | (a, c) :: ps => mk_partition a c (name_part n) :: named (n + 1) ps end.
Definition place {A} (k : Z) (new l : list A) : list A :=
  take (Z.to_nat k) l ++ new ++ drop (Z.to_nat k + length new) l.

Lemma named_length n ps : length (named n ps) = length ps.
Proof. revert n. induction ps as [|[a c] ps IH]; intros n; cbn; [done|]. by rewrite IH. Qed.

Lemma place_nil {A} k (l : list A) : place k [] l = l.
Proof. unfold place. cbn. by rewrite Nat.add_0_r, take_drop. Qed.

Lemma place_split {A} (a r new : list A) : place (Z.of_nat (length a)) new (a ++ r) = a ++ new ++ drop (length new) r.
Proof.
  unfold place. rewrite Nat2Z.id. rewrite take_app_length. by rewrite <- drop_drop, drop_app_length.
Qed.
Lemma place_one {A} k (x : A) l : 0 <= k < Z.of_nat (length l) -> arr_set l k x = Some (place k [x] l).
Proof.
  intros Hk. unfold arr_set, place. rewrite decide_True by lia. f_equal.
  rewrite insert_take_drop by lia. cbn. by rewrite Nat.add_1_r.
Qed.
Lemma place_cons {A} k (x : A) new l : 0 <= k < Z.of_nat (length l) -> place (k + 1) new (place k [x] l) = place k (x :: new) l.
Proof.
  intros Hk. destruct (lookup_lt_is_Some_2 l (Z.to_nat k)) as [y Hy]; [lia|].
  apply take_drop_middle in Hy. rewrite <- Hy.
  assert (k = Z.of_nat (length (take (Z.to_nat k) l))) as Ek by (rewrite length_take; lia).
  set (a := take (Z.to_nat k) l) in *. clearbody a. subst k. rewrite !place_split. cbn [drop length app].
  rewrite (cons_middle x a), (app_assoc a [x]).
  replace (Z.of_nat (length a) + 1) with (Z.of_nat (length (a ++ [x]))) by (rewrite length_app; cbn; lia).
  rewrite place_split, <- app_assoc. done.
Qed.
Lemma place_length {A} k (new l : list A) : 0 <= k -> k + Z.of_nat (length new) <= Z.of_nat (length l) ->
  length (place k new l) = length l.
Proof. intros. unfold place. rewrite !length_app, length_take, length_drop. lia. Qed.

(** ** Buffers *)
Definition fresh_list (h : heap) (n : nat) : Prop :=
  (n <= length (answers h))%nat /\ NoDup (take n (answers h)) /\
  forall a, a ∈ take n (answers h) -> a <> 0 /\ live h !! a = None.

Lemma fresh_list_step h n : fresh_list h (S n) ->
  exists a r, answers h = a :: r /\ a <> 0 /\ live h !! a = None /\ fresh_list (mk_heap (<[a := true]> (live h)) r) n.
Proof.
  intros (Hn & Hd & Hf). destruct (answers h) as [|a r]; [cbn in Hn; lia|]. cbn [take length] in *.
  apply NoDup_cons in Hd as [Ha Hd]. exists a, r. destruct (Hf a ltac:(by left)) as [H0 Hl].
  split; [done|]. split; [done|]. split; [done|]. split; [cbn; lia|]. split; [done|]. cbn [live answers]. intros b Hb.
  destruct (Hf b ltac:(by right)) as [Hb0 Hbl]. split; [done|]. rewrite lookup_insert_ne; [done|]. by intros ->.
Qed.

Lemma wp_bs_malloc s n (Q : Z -> scan -> Prop) : fresh_list (sc_hp s) (S n) ->
  (forall a r, answers (sc_hp s) = a :: r -> a <> 0 -> live (sc_hp s) !! a = None ->
     fresh_list (mk_heap (<[a := true]> (live (sc_hp s))) r) n ->
     Q a (set_heap (mk_heap (<[a := true]> (live (sc_hp s))) r) s)) -> wp bs_malloc Q s.
Proof.
  intros (a & r & E & H0 & Hl & Hf)%fresh_list_step HQ. unfold wp, bs_malloc, heap_malloc.
  rewrite E, bool_decide_eq_false_2; [by apply HQ|]. rewrite Hl. intros [?|[? ?]]; done.
Qed.
Lemma wp_bs_free s a (Q : unit -> scan -> Prop) : a <> 0 -> live (sc_hp s) !! a = Some true ->
  Q tt (set_heap (mk_heap (delete a (live (sc_hp s))) (answers (sc_hp s))) s) -> wp (bs_free a) Q s.
Proof.
  intros H0 Hl HQ. unfold wp, bs_free, heap_free. rewrite (proj2 (Z.eqb_neq _ _)), Hl by done. cbn [negb oassert obind oget].
  by rewrite bool_decide_eq_true_2.
Qed.
Lemma wp_read_boot s lba ps (Q : list Z -> scan -> Prop) : table_at lba ps ->
  (forall bs, partition_table bs = ps -> Q bs s) -> wp (lift (disk_read d lba 1)) Q s.
Proof.
  intros (Hm & bs & Hd & Hp) HQ. eapply wp_lift; [|by apply HQ].
  unfold disk_read. rewrite (proj2 (Z.leb_le _ _)) by done. cbn [oassert obind Z.ltb Z.compare].
  change (Z.to_nat 1) with 1%nat. cbn [read_sectors]. rewrite Hd. by rewrite app_nil_r.
Qed.

(** ** The extended partition *)
Record linked (s s' : scan) (ch : list (Z * Z)) : Prop := {
  lk_ext : ext_lba_base s' = ext_lba_base s;
  lk_p : p_no s' = p_no s;
  lk_prim : prim_parts s' = prim_parts s;
  lk_l : l_no s' = Z.min 8 (l_no s + Z.of_nat (length ch));
  lk_logic : logic_parts s' = place (l_no s) (named (l_no s + 5) (take (Z.to_nat (8 - l_no s)) ch)) (logic_parts s);
  lk_list : partition_list s' = partition_list s ++ (Logic <$> seqZ (l_no s) (l_no s' - l_no s));
  lk_keep : forall a b, live (sc_hp s) !! a = Some b -> live (sc_hp s') !! a = Some b;
  lk_heap : l_no s + Z.of_nat (length ch) < 8 -> live (sc_hp s') = live (sc_hp s)
}.

(** The state after the data entry of a link was stored. *)
Definition stored (s : scan) (a c : Z) (h : heap) : scan :=
  mk_scan (ext_lba_base s) (p_no s) (l_no s + 1) (prim_parts s)
    (place (l_no s) [mk_partition a c (name_part (l_no s + 5))] (logic_parts s)) (partition_list s ++ [Logic (l_no s)]) h.

(** The data entry of a link; then the loop goes on or the function returns. *)
Lemma wp_logic_entry s lba p ps rescan (Q : bool -> scan -> Prop) : lba <> 0 -> data_entry p ->
  length (logic_parts s) = 8%nat -> 0 <= l_no s < 8 ->
  (let s1 := stored s (u32 (lba + pte_start_lba p)) (pte_sec_cnt p) (sc_hp s) in
   if 8 <=? l_no s + 1 then Q false s1 else wp (scan_entries rescan lba ps) Q s1) ->
  wp (scan_entries rescan lba (p :: ps)) Q s.
Proof.
  intros Hl [H0 H5] Hlen Hk HQ. cbn [scan_entries]. rewrite (proj2 (Z.eqb_neq _ 5)), (proj2 (Z.eqb_neq _ 0)), (proj2 (Z.eqb_neq lba 0)) by done.
  cbn [negb]. unfold add_logic. wp_steps. unfold id. eapply wp_lift; [by rewrite place_one by lia|]. wp_steps. cbn [l_no].
  unfold u8. rewrite Z.mod_small by lia. cbn zeta in HQ. by destruct (8 <=? l_no s + 1).
Qed.
Lemma wp_scan_empty rescan lba p ps s (Q : bool -> scan -> Prop) : fs_type p = 0 ->
  wp (scan_entries rescan lba ps) Q s -> wp (scan_entries rescan lba (p :: ps)) Q s.
Proof. intros E. cbn [scan_entries]. by rewrite E. Qed.

Lemma wp_scan_ext rescan lba p ps s (Q : bool -> scan -> Prop) : fs_type p = 5 ->
  (let base := ext_lba_base s in
   let Q' := fun (_ : unit) s' => wp (scan_entries rescan lba ps) Q s' in
   if base =? 0 then wp (rescan (pte_start_lba p)) Q' (set_ext (i32 (pte_start_lba p)) s)
   else wp (rescan (u32 (pte_start_lba p + base))) Q' s) ->
  wp (scan_entries rescan lba (p :: ps)) Q s.
Proof.
  intros E HQ. cbn [scan_entries]. rewrite E. cbn [Z.eqb Pos.eqb]. cbn zeta in HQ. wp_steps.
  destruct (ext_lba_base s =? 0); cbn [negb]; [by wp_steps|done].
Qed.

Lemma stored_full s a c h ch : l_no s = 7 -> (forall x b, live (sc_hp s) !! x = Some b -> live h !! x = Some b) ->
  linked s (stored s a c h) ((a, c) :: ch).
Proof.
  intros Hk Hh. split; cbn [stored ext_lba_base p_no prim_parts l_no logic_parts partition_list sc_hp length]; try done; rewrite ?Hk; try done; lia.
Qed.
Lemma stored_last s a c : 0 <= l_no s < 7 -> linked s (stored s a c (sc_hp s)) [(a, c)].
Proof.
  intros Hk. split; cbn [stored ext_lba_base p_no prim_parts l_no logic_parts partition_list sc_hp length]; try done; [lia| |].
  - rewrite take_ge by (cbn; lia). done.
  - replace (l_no s + 1 - l_no s) with 1 by lia. done.
Qed.
Lemma stored_next s s' a c h ch : 0 <= l_no s < 7 -> length (logic_parts s) = 8%nat -> h = sc_hp s ->
  linked (stored s a c h) s' ch -> linked s s' ((a, c) :: ch).
Proof.
  intros Hk Hl -> [A1 A2 A3 A4 A5 A6 A7 A8]. split; cbn [stored ext_lba_base p_no prim_parts l_no logic_parts partition_list sc_hp length] in *; try done.
  - rewrite A4. lia.
  - rewrite A5. replace (Z.to_nat (8 - l_no s)) with (S (Z.to_nat (8 - (l_no s + 1)))) by lia. cbn [take named].
    rewrite place_cons by lia. by replace (l_no s + 5 + 1) with (l_no s + 1 + 5) by lia.
  - rewrite A6, <- app_assoc. f_equal. rewrite (seqZ_cons (l_no s)) by lia. cbn [fmap list_fmap app].
    f_equal. f_equal; f_equal; lia.
  - intros. apply A8. lia.
Qed.

(** A link's buffer is taken before and given back after. *)
Lemma linked_buffer s s' a r ch : live (sc_hp s) !! a = None ->
  linked (set_heap (mk_heap (<[a := true]> (live (sc_hp s))) r) s) s' ch ->
  linked s (set_heap (mk_heap (delete a (live (sc_hp s'))) (answers (sc_hp s'))) s') ch.
Proof.
  intros Ha [A1 A2 A3 A4 A5 A6 A7 A8]. split; cbn [set_heap ext_lba_base p_no prim_parts l_no logic_parts partition_list sc_hp live] in *; try done.
  - intros x b Hx. rewrite lookup_delete_ne by congruence. apply A7. rewrite lookup_insert_ne by congruence. done.
  - intros H. rewrite A8 by done. by rewrite delete_insert_id.
Qed.

Lemma wp_chain base lba ch : ebr_chain base lba ch -> base <> 0 -> forall fuel s,
  (length ch <= fuel)%nat -> ext_lba_base s = base -> length (logic_parts s) = 8%nat -> 0 <= l_no s < 8 ->
  fresh_list (sc_hp s) (length ch) ->
  wp (partition_scan fuel lba) (fun _ s' => linked s s' ch) s.
Proof.
  intros Hch Hb. induction Hch as [lba p x y z H0 Ht Hp Hx Hy Hz|lba p x y z ch H0 Ht Hp Hx Hy Hz Hch IH];
    intros fuel s Hf He Hl Hk Hfr; cbn [length] in Hf, Hfr; (destruct fuel as [|fuel]; [lia|]); cbn [partition_scan]; wp_steps;
    apply (wp_bs_malloc s _ _ Hfr); intros a r Er Ha0 Hal Hfr'; wp_steps; (eapply wp_read_boot; [exact Ht|]); intros bs ->;
    rewrite (proj2 (Z.eqb_neq a 0)) by done; wp_steps; (apply wp_logic_entry; [done|done|done|done|]); cbn [l_no set_heap];
    cbn zeta; destruct (Z.leb_spec 8 (l_no s + 1)) as [H8|H8].
  - wp_steps. apply (stored_full s); [lia|]. intros. cbn. rewrite lookup_insert_ne by congruence. done.
  - do 3 (apply wp_scan_empty; [done|]). cbn [scan_entries]. wp_steps. apply wp_bs_free; [done|apply lookup_insert_eq|].
    apply (linked_buffer s _ a r); [done|]. apply stored_last. cbn. lia.
  - wp_steps. apply (stored_full s); [lia|]. intros. cbn. rewrite lookup_insert_ne by congruence. done.
  - apply wp_scan_ext; [done|]. cbn [stored ext_lba_base set_heap]. cbn zeta. rewrite He.
    rewrite (proj2 (Z.eqb_neq base 0)) by done. eapply wp_mono; [apply IH|].
    { lia. } { done. } { cbn. rewrite place_length; cbn; lia. } { cbn. lia. } { done. }
    cbn beta. intros [] s' Hs'. apply (stored_next (set_heap (mk_heap (<[a:=true]> (live (sc_hp s))) r) s)) in Hs'; [|cbn; lia|done|done].
    apply (wp_scan_empty _ _ y); [done|]. apply (wp_scan_empty _ _ z); [done|]. wp_steps. apply wp_bs_free; [done| |].
    { apply (lk_keep _ _ _ Hs'). apply lookup_insert_eq. }
    by apply (linked_buffer s _ a r).
Qed.

(** ** The table of the first sector *)
#[local] Instance data_entry_dec p : Decision (data_entry p).
Proof. unfold data_entry. apply _. Defined.

Definition prims (es : list partition_table_entry) : list (Z * Z) :=
  (fun p => (u32 (pte_start_lba p), pte_sec_cnt p)) <$> filter data_entry es.
(** The order in which the partitions are found. *)
Fixpoint in_order (i : Z) (logics : list part_ref) (es : list partition_table_entry) : list part_ref :=
  match es with
  | [] => []
  | p :: es =>
      if fs_type p =? 5 then logics ++ in_order i [] es
      else if fs_type p =? 0 then in_order i logics es
      else Prim i :: in_order (i + 1) logics es
  end.
(** Entries with at most one extended partition, and its chain. *)
Inductive mbr_table : list partition_table_entry -> list (Z * Z) -> Prop :=
  | mbr_nil : mbr_table [] []
  | mbr_empty p es ch : fs_type p = 0 -> mbr_table es ch -> mbr_table (p :: es) ch
  | mbr_data p es ch : data_entry p -> mbr_table es ch -> mbr_table (p :: es) ch
  | mbr_ext p es ch : fs_type p = 5 -> 0 < pte_start_lba p < 2147483648 ->
      ebr_chain (pte_start_lba p) (pte_start_lba p) ch -> mbr_table es [] -> mbr_table (p :: es) ch.

Record scanned (s s' : scan) (es : list partition_table_entry) (ch : list (Z * Z)) : Prop := {
  sc_p : p_no s' = p_no s + Z.of_nat (length (prims es));
  sc_prim : prim_parts s' = place (p_no s) (named (p_no s + 1) (prims es)) (prim_parts s);
  sc_logic : logic_parts s' = place 0 (named 5 (take 8 ch)) (logic_parts s);
  sc_list : partition_list s' = partition_list s ++ in_order (p_no s) (Logic <$> seqZ 0 (Z.min 8 (Z.of_nat (length ch)))) es;
  sc_keep : forall a b, live (sc_hp s) !! a = Some b -> live (sc_hp s') !! a = Some b;
  sc_heap : (length ch < 8)%nat -> live (sc_hp s') = live (sc_hp s)
}.

Definition prim_stored (s : scan) (p : partition_table_entry) : scan :=
  mk_scan (ext_lba_base s) (p_no s + 1) (l_no s)
    (place (p_no s) [mk_partition (u32 (pte_start_lba p)) (pte_sec_cnt p) (name_part (p_no s + 1))] (prim_parts s))
    (logic_parts s) (partition_list s ++ [Prim (p_no s)]) (sc_hp s).

Lemma scan_prim rescan p ps s : data_entry p -> length (prim_parts s) = 4%nat -> 0 <= p_no s < 4 ->
  scan_entries rescan 0 (p :: ps) s =
    if p_no s <? 3 then scan_entries rescan 0 ps (prim_stored s p) else Halt Assert_failed.
Proof.
  intros [H0 H5] Hl Hp. cbn [scan_entries]. rewrite (proj2 (Z.eqb_neq _ 5)), (proj2 (Z.eqb_neq _ 0)) by done. cbn [negb Z.eqb].
  unfold add_prim, bind, gets, id, lift, modify. rewrite place_one by lia. cbn [oget p_no].
  unfold u8. rewrite Z.mod_small by lia. unfold assertM, lift, oassert.
  destruct (Z.ltb_spec (p_no s + 1) 4), (Z.ltb_spec (p_no s) 3); (lia || done).
Qed.

Lemma prims_cons p es : prims (p :: es) = if decide (data_entry p) then (u32 (pte_start_lba p), pte_sec_cnt p) :: prims es else prims es.
Proof. unfold prims. rewrite filter_cons. by case_decide. Qed.

Lemma scanned_prim s s' p es ch : data_entry p -> 0 <= p_no s < Z.of_nat (length (prim_parts s)) ->
  scanned (prim_stored s p) s' es ch -> scanned s s' (p :: es) ch.
Proof.
  intros Hp Hn [A1 A2 A3 A4 A5 A6]. pose proof Hp as [H0 H5].
  split; cbn [prim_stored p_no prim_parts logic_parts partition_list sc_hp in_order] in *; rewrite ?prims_cons, ?decide_True by done; try done.
  - cbn [length]. lia.
  - rewrite A2. cbn [named]. by rewrite place_cons.
  - rewrite A4, <- app_assoc. by rewrite (proj2 (Z.eqb_neq _ 5)), (proj2 (Z.eqb_neq _ 0)) by done.
Qed.

Lemma wp_mbr fuel es ch : mbr_table es ch -> (length ch <= fuel)%nat -> forall s,
  0 <= p_no s -> p_no s + Z.of_nat (length (prims es)) <= 3 -> length (prim_parts s) = 4%nat ->
  (ch <> [] -> ext_lba_base s = 0 /\ l_no s = 0 /\ length (logic_parts s) = 8%nat /\ fresh_list (sc_hp s) (length ch)) ->
  wp (scan_entries (partition_scan fuel) 0 es) (fun fin s' => fin = true /\ scanned s s' es ch) s.
Proof.
  intros Hm Hf. induction Hm as [|p es ch H0 Hm IH|p es ch Hp Hm IH|p es ch H5 Hst Hch Hm IH]; intros s Hp0 Hp3 Hl Hc.
  - cbn [scan_entries]. wp_steps. split; [done|]. split; cbn; rewrite ?app_nil_r, ?place_nil; (done || lia).
  - apply wp_scan_empty; [done|]. rewrite prims_cons in Hp3. rewrite decide_False in Hp3 by (intros []; done).
    eapply wp_mono; [by apply IH|]. cbn beta. intros fin s' [-> [A1 A2 A3 A4 A5 A6]]. split; [done|].
    split; cbn [in_order]; rewrite ?prims_cons, ?decide_False, ?H0 by (intros []; done); done.
  - rewrite prims_cons, decide_True in Hp3 by done. cbn [length] in Hp3. unfold wp. rewrite scan_prim by (done || lia).
    rewrite (proj2 (Z.ltb_lt _ _)) by lia. eapply wp_mono; [apply (IH Hf (prim_stored s p)); cbn; try done; try lia|].
    { rewrite place_length; cbn; lia. }
    cbn beta. intros fin s' [-> Hs]. split; [done|]. apply scanned_prim; [done|lia|done].
  - destruct (Hc ltac:(by destruct Hch)) as (He & Hl0 & Hl8 & Hfr).
    rewrite prims_cons in Hp3. rewrite decide_False in Hp3 by (intros []; done).
    apply wp_scan_ext; [done|]. cbn zeta. rewrite He. cbn [Z.eqb].
    eapply wp_mono; [apply (wp_chain (pte_start_lba p) (pte_start_lba p) ch Hch); cbn; try done; try lia|].
    { by apply i32_id; lia. }
    cbn beta. intros [] s1 [B1 B2 B3 B4 B5 B6 B7 B8]. cbn [set_ext p_no prim_parts l_no logic_parts partition_list sc_hp] in *.
    eapply wp_mono; [apply (IH ltac:(cbn; lia) s1); rewrite ?B2, ?B3; done|].
    cbn beta. intros fin s' [-> [A1 A2 A3 A4 A5 A6]]. split; [done|]. rewrite Hl0 in *.
    split; cbn [in_order]; rewrite ?prims_cons, ?decide_False, ?H5 by (intros []; done); rewrite ?B2, ?B3 in *; try done.
    + rewrite A3. cbn [take named]. by rewrite place_nil, B5.
    + rewrite A4, B6, <- app_assoc. cbn [Z.eqb Pos.eqb]. rewrite B4. cbn [length Z.of_nat]. do 3 f_equal. f_equal. lia.
    + eauto.
    + intros H8. rewrite A6, B8 by (cbn; lia). done.
Qed.

Lemma scanned_buffer s s' a r es ch : live (sc_hp s) !! a = None ->
  scanned (set_heap (mk_heap (<[a := true]> (live (sc_hp s))) r) s) s' es ch ->
  scanned s (set_heap (mk_heap (delete a (live (sc_hp s'))) (answers (sc_hp s'))) s') es ch.
Proof.
  intros Ha [A1 A2 A3 A4 A5 A6]. split; cbn [set_heap p_no prim_parts logic_parts partition_list sc_hp live] in *; try done.
  - intros x b Hx. rewrite lookup_delete_ne by congruence. apply A5. rewrite lookup_insert_ne by congruence. done.
  - intros H. rewrite A6 by done. by rewrite delete_insert_id.
Qed.

Lemma four_prims es : table_at 0 es -> (3 < length (prims es))%nat -> exists p1 p2 p3 p4,
  es = [p1; p2; p3; p4] /\ data_entry p1 /\ data_entry p2 /\ data_entry p3 /\ data_entry p4.
Proof.
  intros (_ & bs & _ & <-). unfold partition_table. cbn [fmap list_fmap].
  rewrite !prims_cons. unfold prims. cbn [filter list_filter fmap list_fmap].
  repeat case_decide; cbn [length]; intros; try lia. eauto 10.
Qed.

Lemma stored_prims s p : 0 <= p_no s < Z.of_nat (length (prim_parts s)) ->
  length (prim_parts (prim_stored s p)) = length (prim_parts s).
Proof. intros. cbn [prim_stored prim_parts]. rewrite place_length; cbn; lia. Qed.
Lemma scan_four rescan p1 p2 p3 p4 s : data_entry p1 -> data_entry p2 -> data_entry p3 -> data_entry p4 ->
  length (prim_parts s) = 4%nat -> p_no s = 0 -> scan_entries rescan 0 [p1; p2; p3; p4] s = Halt Assert_failed.
Proof.
  intros D1 D2 D3 D4 Hl H0.
  assert (forall t p, length (prim_parts t) = 4%nat -> 0 <= p_no t < 4 -> length (prim_parts (prim_stored t p)) = 4%nat) as Hst.
  { intros. rewrite stored_prims; lia. }
  do 4 (rewrite scan_prim; [|done|repeat apply Hst; cbn; (done || lia)|cbn; lia]; cbn [p_no prim_stored]; rewrite H0; cbn [Z.add Z.ltb Z.compare]; try done).
Qed.

(** C19: [partition_scan] finds the partitions of a drive.  For a table with at
    most three primary partitions and at most one extended one, whose chain may
    have any length, the scan of sector 0 returns; the array of primary
    partitions holds those of the table, in order, that of logical partitions
    the first eight of the chain, with their absolute addresses and their names
    (numbered from 1 and from 5), and the list of partitions has them in the
    order of the table.  Every buffer is given back when the chain has fewer
    than eight links.  A table with four primary partitions fails the assertion
    on their number. *)
Theorem partition_scan_correct (s : scan) (es : list partition_table_entry) (ch : list (Z * Z)) (fuel : nat)
    (Ht : table_at 0 es) (Hm : mbr_table es ch) (Hs : ext_lba_base s = 0 /\ p_no s = 0 /\ l_no s = 0)
    (Hp : length (prim_parts s) = 4%nat) (Hl : length (logic_parts s) = 8%nat)
    (Hh : fresh_list (sc_hp s) (S (length ch))) (Hf : (length ch < fuel)%nat) :
  ((length (prims es) <= 3)%nat -> exists s', partition_scan fuel 0 s = Done (tt, s') /\ scanned s s' es ch) /\
  ((3 < length (prims es))%nat -> partition_scan fuel 0 s = Halt Assert_failed).
Proof.
  destruct fuel as [|fuel]; [lia|]. destruct Hs as (He & Hp0 & Hl0). cbn [partition_scan]. split.
  - intros H3. assert (wp (partition_scan (S fuel) 0) (fun _ s' => scanned s s' es ch) s) as Hwp.
    2: { apply wp_done in Hwp as ([] & s' & E & H). by exists s'. }
    cbn [partition_scan]. wp_steps. apply (wp_bs_malloc s _ _ Hh). intros a r Er Ha0 Hal Hfr. wp_steps.
    eapply wp_read_boot; [exact Ht|]. intros bs ->. rewrite (proj2 (Z.eqb_neq a 0)) by done. wp_steps.
    eapply wp_mono; [apply (wp_mbr fuel es ch Hm); cbn; (done || lia)|]. cbn beta. intros fin s' [-> Hs'].
    apply wp_bs_free; [done|apply (sc_keep _ _ _ _ Hs'), lookup_insert_eq|]. by apply (scanned_buffer s _ a r).
  - intros H3. destruct (four_prims es Ht H3) as (p1 & p2 & p3 & p4 & -> & D1 & D2 & D3 & D4).
    assert (wp bs_malloc (fun a s' => a <> 0 /\ exists h, s' = set_heap h s) s) as (a & s1 & E & Ha0 & h & ->)%wp_done.
    { apply (wp_bs_malloc s _ _ Hh). eauto. }
    rewrite (bind_done _ _ _ _ _ E).
    assert (wp (lift (disk_read d 0 1)) (fun b s' => s' = set_heap h s /\ partition_table b = [p1; p2; p3; p4]) (set_heap h s))
      as (bs & s2 & E2 & -> & Hbs)%wp_done by (eapply wp_read_boot; eauto).
    rewrite (bind_done _ _ _ _ _ E2). rewrite (proj2 (Z.eqb_neq a 0)) by done. rewrite Hbs. unfold bind at 1.
    by rewrite scan_four by done.
Qed.
End scan.

(** ** A drive with a primary partition and two logical ones *)
Definition entry_bytes (p : partition_table_entry) : list Z :=
  [0; 0; 0; 0; fs_type p; 0; 0; 0] ++ u32_bytes (pte_start_lba p) ++ u32_bytes (pte_sec_cnt p).
Definition boot_sector (ps : list partition_table_entry) : list Z :=
  replicate 446 0 ++ (ps ≫= entry_bytes) ++ [0x55; 0xaa].
Definition no_entry : partition_table_entry := mk_pte 0 0 0.
Definition ex_mbr : list partition_table_entry := [mk_pte 0x83 63 2000; mk_pte 5 3000 9000; no_entry; no_entry].
Definition ex_ebr0 : list partition_table_entry := [mk_pte 0x66 10 1000; mk_pte 5 2000 3000; no_entry; no_entry].
Definition ex_ebr1 : list partition_table_entry := [mk_pte 0x66 20 700; no_entry; no_entry; no_entry].
Definition ex_drive : disk := <[0 := boot_sector ex_mbr]> (<[3000 := boot_sector ex_ebr0]> (<[5000 := boot_sector ex_ebr1]> ∅)).
Definition ex_scan : scan :=
  mk_scan 0 0 0 (replicate 4 (mk_partition 0 0 [])) (replicate 8 (mk_partition 0 0 [])) [] (mk_heap ∅ [4096; 8192; 12288]).
Definition ex_chain : list (Z * Z) := [(3010, 1000); (5020, 700)].

Lemma ex_drive_table : table_at ex_drive 0 ex_mbr /\ mbr_table ex_drive ex_mbr ex_chain.
Proof.
  split; [split; [done|]; eexists; split; [reflexivity|vm_compute; reflexivity]|].
  apply mbr_data; [done|]. apply mbr_ext; [done|done| |by repeat apply mbr_empty; try constructor].
  apply (ebr_next ex_drive 3000 3000 (mk_pte 0x66 10 1000) (mk_pte 5 2000 3000) no_entry no_entry [(5020, 700)]); try done.
  - split; [done|]. eexists. split; [reflexivity|vm_compute; reflexivity].
  - apply (ebr_last ex_drive 3000 5000 (mk_pte 0x66 20 700) no_entry no_entry no_entry); try done.
    split; [done|]. eexists. split; [reflexivity|vm_compute; reflexivity].
Qed.

Lemma partition_scan_correct_witness :
  exists s', partition_scan ex_drive [115; 100; 98] 3 0 ex_scan = Done (tt, s') /\ scanned [115; 100; 98] ex_scan s' ex_mbr ex_chain.
Proof.
  apply (partition_scan_correct ex_drive [115; 100; 98] ex_scan ex_mbr ex_chain 3).
  - apply ex_drive_table.
  - apply ex_drive_table.
  - done.
  - done.
  - done.
  - split; [cbn; lia|]. split; [by apply (bool_decide_unpack _); vm_compute|]. cbn. intros a Ha.
    repeat (apply elem_of_cons in Ha as [->|Ha]; [by vm_compute|]). by apply not_elem_of_nil in Ha.
  - cbn. lia.
  - vm_compute. lia.
Defined.

Example ex_scan_names :
  exists s', partition_scan ex_drive [115; 100; 98] 3 0 ex_scan = Done (tt, s') /\
    (part_name <$> take 1 (prim_parts s')) = [[115; 100; 98; 49]] /\
    (part_name <$> take 2 (logic_parts s')) = [[115; 100; 98; 53]; [115; 100; 98; 54]] /\
    partition_list s' = [Prim 0; Logic 0; Logic 1].
Proof. eexists. split; [vm_compute; reflexivity|]. by vm_compute. Qed.
