(* ===== verification/Dirlookup.v ===== *)
(** * Looking up directory entries

    The entries of a directory are its slots: the 21 pieces of 24 bytes of each
    of its blocks, in order.  [search_dir_entry] finds the first slot with the
    name. *)

From stdpp Require Import base numbers list gmap.
From S2P Require Import Prelude.
From S2P Require Import Bitmap.
From S2P Require Import Path.
From S2P Require Import Disk.
From S2P Require Import Fsdata.
From S2P Require Import Inode.
From S2P Require Import Blocks.
From S2P Require Import File.
From S2P Require Import Fileread.
From S2P Require Import Dir.

Local Open Scope Z_scope.
Local Open Scope kernel_scope.

(** ** Slots *)
Definition slot (l : list Z) (k : nat) : list Z := take 24 (drop (24 * k) l).
Definition slots (l : list Z) : list (list Z) := slot l <$> seq 0 21.
Definition block_slots (s : fs) (b : Z) : list (list Z) :=
  if b =? 0 then [] else slots (default [] (dsk s !! b)).
Definition dir_slots (s : fs) (i : inode) : list (list Z) := blocks_of s i ≫= block_slots s.

Definition named (name sl : list Z) : bool := bool_decide (cstring sl = Some name).
(** What a name means in a directory. *)
Definition dir_lookup (s : fs) (i : inode) (name : list Z) : option dir_entry :=
  de_of_bytes <$> List.find (named name) (dir_slots s i).

(** The blocks of a directory are on the disk and its names are terminated
    (within their entry: 16 characters, then the inode number, whose upper
    bytes are 0). *)
Definition block_ok (s : fs) (b : Z) : Prop := b = 0 \/ (b <= max_lba /\ is_Some (dsk s !! b)).
Record dir_wf (s : fs) (i : inode) : Prop := {
  dw_disk : disk_ok (dsk s);
  dw_ok : inode_ok i;
  dw_tab : block_ok s (sector i 12);
  dw_blocks : Forall (block_ok s) (blocks_of s i);
  dw_slots : Forall (fun sl => is_Some (cstring sl)) (dir_slots s i);
  dw_size : dir_entry_size (sb s) = 24
}.

Lemma str_eq_spec p rest name t :
  cstring p = Some t -> Forall (fun c => c <> 0) name -> str_eq (p ++ rest) name = Done (bool_decide (t = name)).
Proof.
  intros Hp Hn. revert p t Hp. induction Hn as [|c name Hc Hn IH]; intros [|x p] t Hp; try done; cbn [app str_eq cstring] in *.
  - destruct (Z.eqb_spec x 0); [by injection Hp as <-|]. destruct (cstring p); [|done]. by injection Hp as <-.
  - destruct (Z.eqb_spec x 0) as [->|Hx].
    + injection Hp as <-. rewrite (proj2 (Z.eqb_neq 0 c)) by lia. done.
    + destruct (cstring p) as [t'|] eqn:Et; [|done]. injection Hp as <-. destruct (Z.eqb_spec x c) as [->|Hne].
      * rewrite (IH p t') by done. f_equal. apply bool_decide_ext. split; [by intros ->|by intros [= ->]].
      * rewrite bool_decide_eq_false_2; [done|]. by intros [= -> _].
Qed.

Lemma search_sector_spec l name : length l = 512%nat -> Forall (fun c => c <> 0) name -> forall n k,
  Forall (fun sl => is_Some (cstring sl)) (slot l <$> seq k n) ->
  search_sector n (drop (24 * k) l) name 24 = Done (de_of_bytes <$> List.find (named name) (slot l <$> seq k n)).
Proof.
  intros Hl Hname. induction n as [|n IH]; intros k HF; [done|]. cbn [search_sector seq fmap list_fmap List.find].
  apply Forall_cons in HF as [[t Ht] HF]. unfold slot in Ht. fold (slot l k) in Ht.
  rewrite <- (take_drop 24 (drop (24 * k) l)) at 1. rewrite (str_eq_spec _ _ name t Ht Hname). cbn [obind].
  unfold named at 1. rewrite Ht. destruct (decide (t = name)) as [->|Hne].
  - rewrite !bool_decide_eq_true_2 by done. done.
  - rewrite !bool_decide_eq_false_2 by congruence. change (Z.to_nat de_size) with 24%nat. rewrite drop_drop.
    replace (24 * k + 24)%nat with (24 * S k)%nat by lia. by apply IH.
Qed.

Lemma find_app {A} (f : A -> bool) (l1 l2 : list A) :
  List.find f (l1 ++ l2) = match List.find f l1 with Some x => Some x | None => List.find f l2 end.
Proof. induction l1 as [|x l1 IH]; [done|]. cbn. by destruct (f x). Qed.

Lemma wp_search_blocks s name bs :
  disk_ok (dsk s) -> Forall (fun c => c <> 0) name -> Forall (block_ok s) bs ->
  Forall (fun sl => is_Some (cstring sl)) (bs ≫= block_slots s) ->
  wp (search_blocks bs 21 name 24) (fun r s' => s' = s /\ r = de_of_bytes <$> List.find (named name) (bs ≫= block_slots s)) s.
Proof.
  intros Hd Hname HF. induction HF as [|b bs Hb HF IH]; intros Hs; [done|].
  rewrite bind_cons in Hs |- *. apply Forall_app in Hs as [Hs1 Hs2]. cbn [search_blocks]. rewrite find_app.
  unfold block_slots at 1 in Hs1. unfold block_slots at 1.
  destruct (Z.eqb_spec b 0) as [E|E]; [by apply IH|].
  destruct Hb as [?|[Hm [l Hl]]]; [done|]. wp_steps. apply (wp_ide_read1 b l); [done|done|]. rewrite Hl in Hs1 |- *.
  cbn [default from_option id] in Hs1 |- *. pose proof (Hd b l Hl) as H512. wp_steps. cbn in H512.
  eapply wp_lift; [apply (search_sector_spec l name H512 Hname 21 0 Hs1)|].
  change (slot l <$> seq 0 21) with (slots l). destruct (List.find (named name) (slots l)) as [e|]; [done|]. by apply IH.
Qed.

Lemma dir_blocks_length s i : dir_wf s i -> length (blocks_of s i) = 140%nat.
Proof.
  intros Hw. unfold blocks_of. rewrite length_app, length_take, (io_len i (dw_ok s i Hw)).
  destruct (Z.eqb_spec (sector i 12) 0) as [E|E]; [done|]. destruct (dw_tab s i Hw) as [?|[_ [l Hl]]]; [done|].
  unfold tab_words. rewrite Hl. cbn [default from_option id].
  by rewrite (bytes_words_length l 128) by apply (dw_disk s i Hw _ _ Hl).
Qed.

(** The direct blocks, copied. *)
Lemma copy_direct_12 i : length (i_sectors i) = 13%nat ->
  copy_direct 12 i 0 (replicate 140 0) = Done (take 12 (i_sectors i) ++ replicate 128 0).
Proof.
  intros H13. destruct (copy_direct_spec 12 i 0 (replicate 140 0)) as (all & E & El & Ej); [rewrite length_replicate; lia|lia|].
  rewrite E. f_equal. apply list_eq. intros j. rewrite Ej. change (Z.to_nat 0) with 0%nat.
  destruct (decide (0 <= j < 0 + 12)%nat) as [Hj|Hj].
  - rewrite lookup_app_l, lookup_take_lt by (rewrite ?length_take; lia).
    rewrite <- sector_lookup, Nat2Z.id by lia. done.
  - rewrite lookup_app_r, length_take, H13 by (rewrite length_take; lia). change (12 `min` 13)%nat with 12%nat.
    destruct (decide (j < 140)%nat); [by rewrite !lookup_replicate_2 by lia|by rewrite !lookup_ge_None_2 by (rewrite length_replicate; lia)].
Qed.

Lemma wp_dir_all_blocks s i (Q : list Z -> fs -> Prop) :
  dir_wf s i -> Q (blocks_of s i) s -> wp (dir_all_blocks i) Q s.
Proof.
  intros Hw HQ. pose proof (io_len i (dw_ok s i Hw)) as H13. unfold dir_all_blocks. wp_steps.
  eapply wp_lift; [by apply copy_direct_12|]. unfold blocks_of in HQ.
  destruct (Z.eqb_spec (sector i 12) 0) as [E|E]; [done|]. cbn [negb].
  destruct (dw_tab s i Hw) as [?|[Hm [l Hl]]]; [done|]. apply (wp_read_table s _ _ l); [done|done|].
  rewrite take_app_le, take_take by (rewrite length_take; lia). done.
Qed.

(** A directory pointer and the directory it points to. *)
Definition dir_at (s : fs) (pdir : dirptr) (d : dir) : Prop :=
  match pdir with RootDir => root_dir s = d | HeapDir a => dirs s !! a = Some d end.

Lemma wp_get_dir s pdir d (Q : dir -> fs -> Prop) : dir_at s pdir d -> Q d s -> wp (get_dir pdir) Q s.
Proof.
  intros Hd HQ. destruct pdir as [|a]; cbn in Hd; unfold wp, get_dir; [by rewrite Hd|]. by rewrite Hd.
Qed.

Lemma dir_wf_hp s h i : dir_wf s i -> dir_wf (set_hp h s) i.
Proof. intros [? ? ? ? ? ?]. by split. Qed.

Lemma wp_search_dir_entry s pdir d i name (Q : option dir_entry -> fs -> Prop) :
  dir_at s pdir d -> inodes s !! d_inode d = Some i -> dir_wf s i -> Forall (fun c => c <> 0) name -> two_fresh (hp s) ->
  (forall r, answers (hp s) = take 2 (answers (hp s)) ++ r ->
     Q (dir_lookup s i name) (set_hp (mk_heap (live (hp s)) r) s)) ->
  wp (search_dir_entry pdir name) Q s.
Proof.
  intros Hd Hi Hw Hname (p & q & r & E & Hp & Hq & Hpq & Lp & Lq) HQ. unfold search_dir_entry. wp_steps.
  apply (wp_malloc _ p (q :: r)); [done|]. rewrite (proj2 (Z.eqb_neq p 0)) by done. set (sA := set_hp _ s). wp_steps.
  apply (wp_get_dir sA pdir d); [done|]. wp_steps. apply (wp_get_inode _ i); [done|]. wp_steps.
  apply wp_dir_all_blocks; [by apply dir_wf_hp|]. wp_steps.
  apply (wp_malloc _ q r); [split_and!; [done|done|cbn; by rewrite lookup_insert_ne]|].
  rewrite (proj2 (Z.eqb_neq q 0)) by done. set (sB := set_hp _ sA). wp_steps.
  change (dir_entry_size (sb sB)) with (dir_entry_size (sb s)). rewrite (dw_size s i Hw). change (Z.to_nat (512 / 24)) with 21%nat.
  eapply wp_mono; [apply (wp_search_blocks sB); [apply Hw|done|apply Hw|apply Hw]|]. cbn beta. intros res s' [-> ->].
  apply (wp_two_frees sB (in_kernel s) p q (live (hp s))); try done. apply wp_ret. apply HQ. by rewrite E.
Qed.

(** C23: [search_dir_entry] is the lookup of the name.  In a directory whose
    blocks are on the disk and whose names are terminated, with two blocks of
    heap to be had, it returns the first entry, over the direct and the indirect
    blocks, whose name is the one asked for, or reports that there is none; it
    changes neither the disk nor any structure in memory and frees its buffers. *)
Theorem search_dir_entry_correct (s : fs) (pdir : dirptr) (d : dir) (i : inode) (name : list Z)
    (Hd : dir_at s pdir d) (Hi : inodes s !! d_inode d = Some i) (Hw : dir_wf s i)
    (Hname : Forall (fun c => c <> 0) name) (Hheap : two_fresh (hp s)) :
  exists s', search_dir_entry pdir name s = Done (dir_lookup s i name, s') /\ same_fs s s'.
Proof.
  assert (wp (search_dir_entry pdir name) (fun r s' => r = dir_lookup s i name /\ same_fs s s') s) as H.
  { apply (wp_search_dir_entry s pdir d i); try done. intros r _. split; [done|]. by exists r. }
  apply wp_done in H as (r & s' & E & -> & Hs). eauto.
Qed.

(** ** Example: the root directory with the entries [.], [..] and [hello] *)
Definition name16 (n : list Z) : list Z := n ++ replicate (16 - length n) 0.
Definition hello : list Z := [104; 101; 108; 108; 111].
Definition ex_entry : dir_entry := mk_de (name16 hello) 1 FT_REGULAR.
Definition ex_dir_sector : list Z :=
  let es := de_bytes (mk_de (name16 [dot]) 0 FT_DIRECTORY) ++ de_bytes (mk_de (name16 [dot; dot]) 0 FT_DIRECTORY) ++
            de_bytes ex_entry in
  es ++ replicate (512 - length es) 0.
Definition ex_root3 : inode := mk_inode 0 72 1 false (612 :: replicate 12 0).
Definition ex_dir_fs : fs :=
  set_inodes (<[4096 := ex_root3]> (inodes ex_fs)) (set_dsk (<[612 := ex_dir_sector]> (dsk ex_fs)) ex_fs).

Lemma ex_dir_slots : dir_slots ex_dir_fs ex_root3 = slots ex_dir_sector.
Proof. vm_compute. done. Qed.

Lemma ex_dir_block : dsk ex_dir_fs !! 612 = Some ex_dir_sector.
Proof. apply lookup_insert_eq. Qed.

Lemma Forall_forallb {A} (P : A -> Prop) (f : A -> bool) (l : list A) :
  (forall x, f x = true -> P x) -> forallb f l = true -> Forall P l.
Proof. intros HP Hl. apply Forall_forall. intros x Hx. rewrite forallb_forall in Hl. by apply HP, Hl, list_elem_of_In. Qed.

Lemma ex_dir_disk_ok : disk_ok (dsk ex_dir_fs).
Proof.
  intros x l. cbn [ex_dir_fs set_inodes set_dsk dsk]. destruct (decide (x = 612)) as [->|Hne].
  - rewrite lookup_insert_eq. intros [= <-]. done.
  - rewrite lookup_insert_ne by done. apply ex_disk_ok.
Qed.

Lemma ex_dir_wf : dir_wf ex_dir_fs ex_root3.
Proof.
  split.
  - apply ex_dir_disk_ok.
  - split; try done. apply Forall_cons_2; [done|]. by apply Forall_replicate.
  - by left.
  - change (blocks_of ex_dir_fs ex_root3) with (612 :: replicate 139 0). apply Forall_cons_2.
    + right. split; [done|]. rewrite ex_dir_block. eauto.
    + apply Forall_replicate. by left.
  - rewrite ex_dir_slots. apply (Forall_forallb _ (fun sl => match cstring sl with Some _ => true | None => false end)).
    + intros x. destruct (cstring x); [eauto|done].
    + vm_compute. done.
  - done.
Qed.

Lemma search_dir_entry_correct_witness :
  exists s', search_dir_entry RootDir hello ex_dir_fs = Done (Some ex_entry, s').
Proof.
  destruct (search_dir_entry_correct ex_dir_fs RootDir (mk_dir 4096 0) ex_root3 hello) as (s' & E & _).
  - done.
  - done.
  - apply ex_dir_wf.
  - repeat (apply Forall_cons_2; [done|]). apply Forall_nil_2.
  - exists 12288, 16384, [20480; 24576]. done.
  - exists s'. rewrite E. vm_compute. done.
Defined.
