(* ===== verification/Dirinsert.v ===== *)
(** * Adding a directory entry ([sync_dir_entry]) and finding it again

    Adding an entry overwrites one empty slot of one of the direct blocks, or
    gives the directory a new block: after it [search_dir_entry] finds the new
    name and finds every other name as before. *)

From stdpp Require Import base numbers list gmap.
From S2P Require Import Prelude.
From S2P Require Import Bitmap.
From S2P Require Import Path.
From S2P Require Import Disk.
From S2P Require Import Fsdata.
From S2P Require Import Inode.
From S2P Require Import Blocks.
From S2P Require Import File.
From S2P Require Import Filewrite.
From S2P Require Import Dir.
From S2P Require Import Dirlookup.

Local Open Scope Z_scope.
Local Open Scope kernel_scope.

(** ** Entries and slots *)
Record entry_ok (e : dir_entry) (name : list Z) : Prop := {
  eo_len : length (filename e) = 16%nat;
  eo_no : is_u32 (de_i_no e);
  eo_type : is_u32 (f_type e);
  eo_used : f_type e <> 0;
  eo_name : cstring (de_bytes e) = Some name;
  eo_nonempty : name <> [];
  eo_chars : Forall (fun c => c <> 0) name
}.

Lemma de_bytes_length e name : entry_ok e name -> length (de_bytes e) = 24%nat.
Proof. intros H. unfold de_bytes. rewrite !length_app, (eo_len e name H). done. Qed.

Lemma word_of_u32 x rest : is_u32 x -> nth 0 (bytes_words (u32_bytes x ++ rest)) 0 = x.
Proof. intros Hx. cbn [u32_bytes app bytes_words nth]. by apply u32_bytes_value. Qed.

Lemma de_roundtrip e name : entry_ok e name -> de_of_bytes (de_bytes e) = e.
Proof.
  intros H. destruct e as [fn no ty]. pose proof (eo_len _ _ H) as Hl. cbn [filename] in Hl.
  unfold de_of_bytes, de_bytes, word_at, slice. cbn [filename de_i_no f_type].
  change (Z.to_nat 0) with 0%nat. change (Z.to_nat 4) with 4%nat. change (Z.to_nat 16) with 16%nat. change (Z.to_nat 20) with 20%nat.
  rewrite drop_0, take_app_length' by done. f_equal.
  - rewrite drop_app_length' by done. rewrite take_app_length' by done. rewrite <- (app_nil_r (u32_bytes no)). by apply word_of_u32, (eo_no _ _ H).
  - rewrite (app_assoc fn), drop_app_length' by (rewrite length_app, Hl; done). rewrite firstn_all2 by (cbn; lia).
    rewrite <- (app_nil_r (u32_bytes ty)). by apply word_of_u32, (eo_type _ _ H).
Qed.

Lemma slot_length l k : length l = 512%nat -> (k < 21)%nat -> length (slot l k) = 24%nat.
Proof. intros Hl Hk. unfold slot. rewrite length_take, length_drop. lia. Qed.

Lemma slot_splice l k e k' :
  length l = 512%nat -> length e = 24%nat -> (k < 21)%nat -> (k' < 21)%nat ->
  slot (splice l (24 * Z.of_nat k) e) k' = if decide (k' = k) then e else slot l k'.
Proof.
  intros Hl He Hk Hk'. apply list_eq. intros j. unfold slot.
  destruct (decide (j < 24)%nat) as [Hj|Hj].
  - rewrite lookup_take_lt, lookup_drop, splice_lookup by lia. replace (Z.to_nat (24 * Z.of_nat k)) with (24 * k)%nat by lia.
    destruct (decide (k' = k)) as [->|Hne].
    + rewrite decide_True by lia. f_equal. lia.
    + rewrite decide_False by lia. by rewrite lookup_take_lt, lookup_drop by lia.
  - rewrite lookup_take_ge by lia. destruct (decide (k' = k)).
    + by rewrite lookup_ge_None_2 by lia.
    + by rewrite lookup_take_ge by lia.
Qed.

Lemma slots_lookup l k : slots l !! k = if decide (k < 21)%nat then Some (slot l k) else None.
Proof.
  unfold slots. rewrite list_lookup_fmap. case_decide.
  - by rewrite lookup_seq_lt by lia.
  - by rewrite lookup_seq_ge by lia.
Qed.

Lemma slots_splice l k e : length l = 512%nat -> length e = 24%nat -> (k < 21)%nat ->
  slots (splice l (24 * Z.of_nat k) e) = <[k := e]> (slots l).
Proof.
  intros Hl He Hk. apply list_eq. intros j. rewrite slots_lookup.
  assert (length (slots l) = 21%nat) as Hs by (unfold slots; by rewrite length_fmap, length_seq).
  destruct (decide (j = k)) as [->|Hne].
  - rewrite list_lookup_insert_eq, decide_True by lia. by rewrite slot_splice, decide_True by done.
  - rewrite list_lookup_insert_ne, slots_lookup by done. case_decide; [|done]. by rewrite slot_splice, decide_False by done.
Qed.

(** The type of the entry in a slot. *)
Lemma slot_type l k : (k < 21)%nat -> word_at (slot l k) 20 = word_at l (de_size * Z.of_nat k + 20).
Proof.
  intros Hk. unfold word_at. f_equal. f_equal. apply list_eq. intros j. rewrite !slice_lookup. case_decide; [|done].
  unfold slot. change (Z.to_nat 4) with 4%nat in *. change (Z.to_nat 20) with 20%nat. rewrite lookup_take_lt, lookup_drop by lia.
  f_equal. unfold de_size. lia.
Qed.

Definition empty_slot (sl : list Z) : Prop := word_at sl 20 = 0.

Lemma find_empty_spec l : forall n idx, (idx + n <= 21)%nat ->
  match find_empty n (Z.of_nat idx) l with
  | Some k => exists k', k = Z.of_nat k' /\ (idx <= k' < idx + n)%nat /\ empty_slot (slot l k')
  | None => forall k, (idx <= k < idx + n)%nat -> ~ empty_slot (slot l k)
  end.
Proof.
  induction n as [|n IH]; intros idx Hn; cbn [find_empty]; [intros k Hk; lia|].
  rewrite <- slot_type by lia. destruct (Z.eqb_spec (word_at (slot l idx) 20) FT_UNKNOWN) as [E|E].
  - exists idx. split_and!; [done|lia|lia|exact E].
  - specialize (IH (S idx) ltac:(lia)). replace (Z.of_nat (S idx)) with (Z.of_nat idx + 1) in IH by lia.
    destruct (find_empty n (Z.of_nat idx + 1) l) as [k|].
    + destruct IH as (k' & ? & ? & ?). exists k'. split_and!; [done|lia|lia|done].
    + intros k Hk. destruct (decide (k = idx)) as [->|]; [exact E|]. apply IH. lia.
Qed.

(** ** Looking up after one block has changed *)
Lemma bind_concat {A B} (f : A -> list B) (l : list A) : l ≫= f = concat (f <$> l).
Proof. induction l as [|x l IH]; [done|]. rewrite bind_cons, IH. done. Qed.

Lemma find_concat_insert {A} (f : A -> bool) : forall (L : list (list A)) j old new,
  L !! j = Some old -> List.find f new = List.find f old -> List.find f (concat (<[j := new]> L)) = List.find f (concat L).
Proof.
  induction L as [|x L IH]; intros [|j] old new HL Hf; try done.
  - injection HL as ->. cbn. by rewrite !find_app, Hf.
  - change (<[S j := new]> (x :: L)) with (x :: <[j := new]> L). cbn [concat]. rewrite !find_app.
    by rewrite (IH j old new HL Hf).
Qed.

Lemma find_concat_new {A} (f : A -> bool) : forall (L : list (list A)) j old new x,
  L !! j = Some old -> List.find f (concat L) = None -> List.find f new = Some x ->
  List.find f (concat (<[j := new]> L)) = Some x.
Proof.
  induction L as [|y L IH]; intros [|j] old new x HL Hn Hf; try done; cbn [concat] in Hn; rewrite find_app in Hn.
  - cbn. by rewrite find_app, Hf.
  - change (<[S j := new]> (y :: L)) with (y :: <[j := new]> L). cbn [concat]. rewrite find_app.
    destruct (List.find f y); [done|]. by apply (IH j old).
Qed.

Lemma find_insert_other {A} (f : A -> bool) : forall (l : list A) k x y,
  l !! k = Some x -> f x = false -> f y = false -> List.find f (<[k := y]> l) = List.find f l.
Proof.
  induction l as [|z l IH]; intros [|k] x y Hl Hx Hy; try done.
  - injection Hl as ->. cbn. by rewrite Hx, Hy.
  - change (<[S k := y]> (z :: l)) with (z :: <[k := y]> l). cbn [List.find]. destruct (f z); [done|]. by apply (IH k x).
Qed.

Lemma find_insert_new {A} (f : A -> bool) : forall (l : list A) k y,
  (k < length l)%nat -> List.find f l = None -> f y = true -> List.find f (<[k := y]> l) = Some y.
Proof.
  induction l as [|z l IH]; intros [|k] y Hk Hl Hy; cbn [List.find length] in *; try lia.
  - cbn. by rewrite Hy.
  - change (<[S k := y]> (z :: l)) with (z :: <[k := y]> l). cbn [List.find].
    destruct (f z); [done|]. apply IH; [lia|done|done].
Qed.

Lemma find_none_part {A} (f : A -> bool) (L : list (list A)) j old :
  L !! j = Some old -> List.find f (concat L) = None -> List.find f old = None.
Proof.
  revert j. induction L as [|x L IH]; intros [|j] HL Hn; try done; cbn [concat] in Hn; rewrite find_app in Hn.
  - injection HL as ->. by destruct (List.find f old).
  - destruct (List.find f x); [done|]. by apply (IH j).
Qed.

(** The slots of one block before and after an entry [eb] went there. *)
Definition slot_change (old new : list (list Z)) (eb : list Z) : Prop :=
  (exists k sl, old !! k = Some sl /\ empty_slot sl /\ new = <[k := eb]> old) \/
  (old = [] /\ new = eb :: replicate 20 (replicate 24 0)).

Lemma change_other old new eb name n :
  slot_change old new eb -> Forall (fun sl => empty_slot sl -> cstring sl = Some []) old ->
  cstring eb = Some name -> n <> name -> n <> [] -> List.find (named n) new = List.find (named n) old.
Proof.
  intros Hc He Hn Hne Hn0. assert (forall x, x <> n -> bool_decide (Some x = Some n) = false) as Hb.
  { intros x Hx. apply bool_decide_eq_false. congruence. }
  destruct Hc as [(k & sl & Hk & Hem & ->)|[-> ->]].
  - apply (find_insert_other _ _ _ sl); [done| |]; unfold named.
    + eapply Forall_lookup_1 in He; [|exact Hk]. rewrite (He Hem). by apply Hb.
    + rewrite Hn. by apply Hb.
  - cbn [List.find]. unfold named at 1. rewrite Hn, Hb by done.
    assert (named n (replicate 24 0) = false) as Hz by (apply Hb; done).
    revert Hz. generalize (replicate 24 0). intros z Hz. generalize 20%nat. intros m. induction m as [|m IH]; [done|]. cbn [replicate List.find]. by rewrite Hz.
Qed.

Lemma change_new old new eb name :
  slot_change old new eb -> cstring eb = Some name -> List.find (named name) old = None ->
  List.find (named name) new = Some eb.
Proof.
  intros Hc Hn Ho. assert (named name eb = true) as He by (unfold named; rewrite Hn; by apply bool_decide_eq_true).
  destruct Hc as [(k & sl & Hk & Hem & ->)|[-> ->]].
  - apply find_insert_new; [by eapply lookup_lt_Some|done|done].
  - cbn [List.find]. by rewrite He.
Qed.

(** ** The directory and its blocks *)
Record dir_ok (s : fs) (i : inode) : Prop := {
  do_wf : dir_wf s i;
  (** its blocks and its index table are blocks in use of the data area, all
      different *)
  do_area : forall b, b ∈ sector i 12 :: blocks_of s i -> b <> 0 ->
    ds s <= b /\ b - ds s < nbits (block_bitmap s) /\ used (block_bitmap s) (b - ds s) = true;
  do_distinct : forall j j' b, b <> 0 -> (sector i 12 :: blocks_of s i) !! j = Some b ->
    (sector i 12 :: blocks_of s i) !! j' = Some b -> j = j';
  (** an empty slot has no name *)
  do_empty : Forall (fun sl => empty_slot sl -> cstring sl = Some []) (dir_slots s i)
}.

(** What adding the entry [eb] does to the directory with the inode [i] at [a]. *)
Record inserted (s s' : fs) (a : Z) (i i' : inode) (eb : list Z) : Prop := {
  in_wf : dir_wf s' i';
  in_slots : exists j old new, (block_slots s <$> blocks_of s i) !! j = Some old /\
    block_slots s' <$> blocks_of s' i' = <[j := new]> (block_slots s <$> blocks_of s i) /\ slot_change old new eb;
  in_inodes : inodes s' = <[a := i']> (inodes s);
  in_size : i_size i' = u32 (i_size i + 24);
  in_rest : root_dir s' = root_dir s /\ dirs s' = dirs s /\ hp s' = hp s
}.

(** One block changed its contents or came in. *)
Lemma block_slots_update s s' bl' bl j b l :
  bl' !! j = Some b -> length bl' = length bl -> (forall j', j' <> j -> bl' !! j' = bl !! j') ->
  b <> 0 -> dsk s' !! b = Some l ->
  (forall j' b', j' <> j -> bl' !! j' = Some b' -> b' <> 0 -> dsk s' !! b' = dsk s !! b') ->
  block_slots s' <$> bl' = <[j := slots l]> (block_slots s <$> bl).
Proof.
  intros Hj Hlen Hother Hb Hl Hsame. apply list_eq. intros j'. rewrite list_lookup_fmap.
  destruct (decide (j' = j)) as [->|Hne].
  - rewrite list_lookup_insert_eq, Hj by (rewrite length_fmap, <- Hlen; by eapply lookup_lt_Some).
    cbn. unfold block_slots. by rewrite (proj2 (Z.eqb_neq b 0)), Hl.
  - rewrite list_lookup_insert_ne, list_lookup_fmap, <- Hother by done.
    destruct (bl' !! j') as [b'|] eqn:E; [|done]. cbn. f_equal. unfold block_slots.
    destruct (Z.eqb_spec b' 0); [done|]. by rewrite (Hsame j' b').
Qed.

Lemma slots_ok_update (P : list Z -> Prop) (L : list (list (list Z))) j new :
  Forall P (concat L) -> Forall P new -> Forall P (concat (<[j := new]> L)).
Proof.
  intros HL Hnew. revert j. induction L as [|x L IH]; intros j; [done|].
  cbn [concat] in HL. apply Forall_app in HL as [Hx HL]. destruct j as [|j].
  - cbn. by apply Forall_app.
  - change (<[S j := new]> (x :: L)) with (x :: <[j := new]> L). cbn [concat]. apply Forall_app. auto.
Qed.

Lemma change_ok (P : list Z -> Prop) old new eb :
  slot_change old new eb -> Forall P old -> P eb -> P (replicate 24 0) -> Forall P new.
Proof.
  intros [(k & sl & _ & _ & ->)|[_ ->]] Ho He Hz; [by apply Forall_insert|].
  apply Forall_cons_2; [done|]. by apply Forall_replicate.
Qed.

Lemma part_of_concat {A} (P : A -> Prop) (L : list (list A)) j old : Forall P (concat L) -> L !! j = Some old -> Forall P old.
Proof.
  intros HF HL. apply Forall_forall. intros x Hx. rewrite Forall_forall in HF. apply HF.
  apply list_elem_of_In, in_concat. exists old. split; apply list_elem_of_In; [by apply list_elem_of_lookup_2 in HL|done].
Qed.

(** Collecting what is needed of the new state. *)
Lemma inserted_intro s s' a i i' eb name j old new :
  dir_wf s i -> cstring eb = Some name ->
  (block_slots s <$> blocks_of s i) !! j = Some old ->
  block_slots s' <$> blocks_of s' i' = <[j := new]> (block_slots s <$> blocks_of s i) -> slot_change old new eb ->
  disk_ok (dsk s') -> inode_ok i' -> block_ok s' (sector i' 12) -> Forall (block_ok s') (blocks_of s' i') ->
  sb s' = sb s -> inodes s' = <[a := i']> (inodes s) -> i_size i' = u32 (i_size i + 24) ->
  root_dir s' = root_dir s /\ dirs s' = dirs s /\ hp s' = hp s ->
  inserted s s' a i i' eb.
Proof.
  intros Hw Hn Hj Hup Hch Hd Hok Ht Hb Hsb Hin Hsz Hr. split; try done; [|by exists j, old, new].
  split; try done; [|by rewrite Hsb, (dw_size s i Hw)]. pose proof (dw_slots s i Hw) as Hs. unfold dir_slots in *.
  rewrite bind_concat in Hs |- *. rewrite Hup. apply slots_ok_update; [done|].
  apply (change_ok _ old new eb Hch); [by eapply part_of_concat|eauto|by eexists].
Qed.

Definition grown (i : inode) : inode := set_size (u32 (i_size i + 24)) i.

(** An empty slot of block [j] is overwritten. *)
Lemma insert_existing s a i j b l k eb name :
  dir_ok s i -> blocks_of s i !! j = Some b -> b <> 0 -> dsk s !! b = Some l -> (k < 21)%nat -> empty_slot (slot l k) ->
  length eb = 24%nat -> cstring eb = Some name ->
  inserted s (set_inodes (<[a := grown i]> (inodes s)) (set_dsk (<[b := splice l (24 * Z.of_nat k) eb]> (dsk s)) s))
    a i (grown i) eb.
Proof.
  intros Hdo Hj Hb Hl Hk He Hlen Hn. pose proof (do_wf s i Hdo) as Hw. set (s' := set_inodes _ _).
  pose proof (dw_disk s i Hw _ _ Hl) as H512. cbn in H512.
  assert (blocks_of s' (grown i) = blocks_of s i) as Hbl.
  { apply blocks_of_same; [done|]. intros Hne. cbn. rewrite lookup_insert_ne; [done|]. intros ->.
    pose proof (do_distinct s i Hdo 0 (S j) (sector i 12) Hne eq_refl Hj). done. }
  assert (forall x, is_Some (dsk s !! x) -> is_Some (dsk s' !! x)) as Hdom.
  { intros x Hx. cbn. destruct (decide (x = b)) as [->|]; [by rewrite lookup_insert_eq|by rewrite lookup_insert_ne]. }
  apply (inserted_intro s s' a i (grown i) eb name j (slots l) (slots (splice l (24 * Z.of_nat k) eb))); try done.
  - rewrite list_lookup_fmap, Hj. cbn. unfold block_slots. by rewrite (proj2 (Z.eqb_neq b 0)), Hl.
  - rewrite Hbl. apply (block_slots_update s s' (blocks_of s i) (blocks_of s i) j b); try done.
    + cbn. apply lookup_insert_eq.
    + intros j' b' Hne Hb' Hnz. cbn. rewrite lookup_insert_ne; [done|]. intros ->.
      pose proof (do_distinct s i Hdo (S j) (S j') b' Hnz Hj Hb'). congruence.
  - left. exists k, (slot l k). split_and!; [by rewrite slots_lookup, decide_True|done|by apply slots_splice].
  - intros x y. cbn. destruct (decide (x = b)) as [->|].
    + rewrite lookup_insert_eq. intros [= <-]. rewrite splice_length by lia. done.
    + rewrite lookup_insert_ne by done. apply (dw_disk s i Hw).
  - destruct (dw_ok s i Hw) as [? ? ? ? ?]. split; try done. apply u32_range.
  - destruct (dw_tab s i Hw) as [?|[? ?]]; [by left|right; auto].
  - rewrite Hbl. eapply Forall_impl; [apply (dw_blocks s i Hw)|]. intros x [?|[? ?]]; [by left|right; auto].
Qed.

Definition with_block (i : inode) (j b : Z) : inode := set_sectors (splice (i_sectors i) j [b]) i.

(** Block [j], which the directory did not have, is allocated at [b]. *)
Section new_block.
Context (s s2 : fs) (a : Z) (i : inode) (j : nat) (b : Z) (eb name : list Z).
Context (Hs : part_wf s) (Hdo : dir_ok s i) (Ha : alloced s s2 [b]) (Hlt : ds s < b) (Hj : (j < 12)%nat)
  (H0 : sector i (Z.of_nat j) = 0) (Hlen : length eb = 24%nat) (Hn : cstring eb = Some name).
Let i' : inode := grown (with_block i (Z.of_nat j) b).
Let l' : list Z := splice (replicate 512 0) 0 eb.
Let s' : fs := set_inodes (<[a := i']> (inodes s)) (set_dsk (<[b := l']> (dsk s2)) s2).

Lemma nb_13 : length (i_sectors i) = 13%nat.
Proof. apply (dw_ok s i (do_wf s i Hdo)). Qed.

Lemma nb_sector x : 0 <= x -> sector i' x = if decide (x = Z.of_nat j) then b else sector i x.
Proof. intros Hx. apply (sector_splice i (Z.of_nat j) b (i_sectors i)); [done|rewrite nb_13; lia|done]. Qed.

Lemma nb_tab : sector i' 12 = sector i 12.
Proof. rewrite nb_sector, decide_False by lia. done. Qed.

Lemma nb_old x : x ∈ sector i 12 :: blocks_of s i -> x <> 0 -> x <> b /\ dsk s' !! x = dsk s !! x.
Proof.
  intros Hx Hnz. destruct (do_area s i Hdo x Hx Hnz) as (A1 & A2 & A3).
  assert (x <> b) as Hne.
  { intros ->. pose proof (al_free _ _ _ Ha) as HF. apply Forall_singleton in HF as [_ HF]. congruence. }
  split; [done|]. cbn. rewrite lookup_insert_ne by done. apply (al_disk _ _ _ Ha).
  pose proof (pw_bb_end s Hs). lia.
Qed.

Lemma nb_blocks : blocks_of s' i' = <[j := b]> (blocks_of s i).
Proof.
  pose proof nb_13 as H13. unfold blocks_of. rewrite nb_tab.
  assert ((if sector i 12 =? 0 then replicate 128 0 else tab_words s' (sector i 12)) =
          (if sector i 12 =? 0 then replicate 128 0 else tab_words s (sector i 12))) as ->.
  { destruct (Z.eqb_spec (sector i 12) 0) as [E|E]; [done|]. unfold tab_words.
    by rewrite (proj2 (nb_old (sector i 12) ltac:(by left) E)). }
  rewrite insert_app_l by (rewrite length_take; lia). f_equal.
  rewrite <- take_insert_lt by lia. f_equal. unfold i', grown, with_block. cbn [set_size set_sectors i_sectors].
  pose proof (insert_splice (i_sectors i) (Z.of_nat j) b ltac:(lia) ltac:(lia)) as E. unfold arr_set in E.
  rewrite decide_True in E by lia. injection E as <-. by rewrite Nat2Z.id.
Qed.

Lemma nb_dblock : is_Some (dsk s2 !! b) /\ b <= max_lba.
Proof.
  destruct (alloced_new s s2 [b] b Hs Ha ltac:(by left) Hlt) as [_ _ _ ? ?]. done.
Qed.

Lemma nb_update : block_slots s' <$> blocks_of s' i' =
  <[j := eb :: replicate 20 (replicate 24 0)]> (block_slots s <$> blocks_of s i).
Proof.
  rewrite nb_blocks. pose proof (dir_blocks_length s i (do_wf s i Hdo)) as H140.
  change (eb :: replicate 20 (replicate 24 0)) with (<[0%nat := eb]> (slots (replicate 512 0))).
  rewrite <- (slots_splice (replicate 512 0) 0 eb) by (done || lia).
  apply (block_slots_update s s' _ _ j b).
  - apply list_lookup_insert_eq. lia.
  - apply length_insert.
  - intros j' Hne. by apply list_lookup_insert_ne.
  - pose proof (pw_bb_lba s Hs). pose proof (pw_bb_end s Hs). pose proof (bb_sects_bits s Hs). unfold bb_sects in *.
    pose proof (Z.div_pos (Z.of_nat (length (bits (block_bitmap s)))) 512). lia.
  - cbn. apply lookup_insert_eq.
  - intros j' b' Hne Hb' Hnz. rewrite list_lookup_insert_ne in Hb' by done.
    apply nb_old; [|done]. right. by apply list_elem_of_lookup_2 in Hb'.
Qed.

Lemma nb_ok_old x : x ∈ sector i 12 :: blocks_of s i -> block_ok s x -> block_ok s' x.
Proof.
  intros Hx [?|[? ?]]; [by left|]. destruct (decide (x = 0)) as [->|Hnz]; [by left|]. right.
  by rewrite (proj2 (nb_old x Hx Hnz)).
Qed.

Lemma nb_inserted : inserted s s' a i i' eb.
Proof.
  pose proof (do_wf s i Hdo) as Hw. destruct nb_dblock as [Hdb Hmax]. pose proof (new_u32 s s2 [b] Hs Ha) as Hu.
  apply (inserted_intro s s' a i i' eb name j [] (eb :: replicate 20 (replicate 24 0))); try done.
  - rewrite list_lookup_fmap, blocks_direct, H0 by (done || apply nb_13). done.
  - apply nb_update.
  - by right.
  - intros x y. cbn. destruct (decide (x = b)) as [->|].
    + rewrite lookup_insert_eq. intros [= <-]. unfold l'. rewrite splice_length by (rewrite ?length_replicate; lia). done.
    + rewrite lookup_insert_ne by done. apply (pw_table s2 (al_wf _ _ _ Ha)).
  - destruct (dw_ok s i Hw) as [? ? ? ? HF]. split; try done; [apply u32_range| |].
    + cbn. rewrite splice_length by (cbn [length]; lia). done.
    + cbn. apply Forall_lookup_2. intros x y. rewrite splice_lookup by (cbn [length]; lia). case_decide.
      * intros Hy. apply Forall_singleton in Hu; [|by apply Forall_singleton].
        destruct (x - Z.to_nat (Z.of_nat j))%nat; [|done]. by injection Hy as <-.
      * by apply Forall_lookup_1.
  - rewrite nb_tab. apply nb_ok_old; [by left|apply Hw].
  - rewrite nb_blocks. apply Forall_insert.
    + apply Forall_forall. intros x Hx. apply nb_ok_old; [by right|]. pose proof (dw_blocks s i Hw) as HF.
      rewrite Forall_forall in HF. auto.
    + right. cbn. by rewrite lookup_insert_eq.
  - by apply (alloced_sb s s2 [b]).
  - change (root_dir s2 = root_dir s /\ dirs s2 = dirs s /\ hp s2 = hp s). rewrite (al_rest _ _ _ Ha). done.
Qed.
End new_block.

(** ** [sync_dir_entry] *)

(** Block [j] of the directory is missing or has an empty slot. *)
Definition has_room (s : fs) (i : inode) (j : nat) : Prop :=
  sector i (Z.of_nat j) = 0 \/
  exists l k, dsk s !! sector i (Z.of_nat j) = Some l /\ (k < 21)%nat /\ empty_slot (slot l k).

Lemma wp_add_size a n i s (Q : unit -> fs -> Prop) :
  inodes s !! a = Some i -> Q tt (set_inodes (<[a := set_size (u32 (i_size i + n)) i]> (inodes s)) s) -> wp (add_size a n) Q s.
Proof. intros Hi HQ. unfold add_size. wp_steps. apply (wp_get_inode _ i); [done|]. done. Qed.

Lemma wp_new_direct s a i j all (Q : option (list Z) -> fs -> Prop) :
  part_wf s -> length (i_sectors i) = 13%nat -> inodes s !! a = Some i -> has_free s 1 -> (j < 12)%nat -> length all = 140%nat ->
  (forall b s2, alloced s s2 [b] -> ds s < b -> inodes s2 = inodes s ->
     Q (Some (splice all (Z.of_nat j) [b])) (set_inodes (<[a := with_block i (Z.of_nat j) b]> (inodes s)) s2)) ->
  wp (new_dir_block a (Z.of_nat j) all) Q s.
Proof.
  intros Hs H13 Hi Hf Hj Hall HQ. unfold new_dir_block. wp_steps.
  apply (wp_block_alloc s 0); [done|done|]. intros b bm Hfb Hlt Hne Hbm Hsh Hu.
  rewrite (proj2 (Z.eqb_neq b (-1))) by done. unfold sync_new_block.
  pose proof (alloced_alloc s b bm Hs Hfb Hbm Hsh Hu) as Ha. set (s1 := set_block_bitmap bm s) in *.
  wp_steps.
  { change (ds s1) with (ds s). destruct Hfb as [Hr Hfr]. pose proof (pw_free s Hs _ Hr Hfr) as [Hm _]. pose proof (pw_bb_lba s Hs).
    pose proof (pw_bb_end s Hs). pose proof (bb_sects_bits s Hs). change max_lba with 163839 in *.
    rewrite i32_id by lia. by rewrite (proj2 (Z.eqb_neq (b - ds s) (-1))) by lia. }
  apply (wp_sync_alloced s s1 b); [done|]. intros s2 Ha2 Hin2. change (inodes s1) with (inodes s) in Hin2.
  rewrite (proj2 (Z.ltb_lt (Z.of_nat j) 12)) by lia. wp_steps.
  apply (wp_put_sector _ _ _ i); [by rewrite Hin2|lia|]. wp_steps. apply wp_set_word; [lia|]. wp_steps.
  rewrite Hin2. by apply HQ.
Qed.

Lemma direct_lookup i k : length (i_sectors i) = 13%nat -> (k < 12)%nat ->
  arr_get (take 12 (i_sectors i) ++ replicate 128 0) (Z.of_nat k) = Some (sector i (Z.of_nat k)).
Proof.
  intros H13 Hk. unfold arr_get. rewrite decide_True, Nat2Z.id by lia.
  rewrite lookup_app_l, lookup_take_lt by (rewrite ?length_take; lia).
  rewrite <- sector_lookup, Nat2Z.id by lia. done.
Qed.

Lemma wp_sync_blocks s a i e name : 
  part_wf s -> dir_ok s i -> inodes s !! a = Some i -> has_free s 1 -> entry_ok e name -> forall n k,
  (12 <= k + n)%nat -> (exists j, (k <= j < 12)%nat /\ has_room s i j) ->
  wp (sync_blocks n a (Z.of_nat k) (take 12 (i_sectors i) ++ replicate 128 0) e 24)
    (fun r s' => r = true /\ exists i', inserted s s' a i i' (de_bytes e)) s.
Proof.
  intros Hs Hdo Hi Hf He. pose proof (dw_ok s i (do_wf s i Hdo)) as Hok. pose proof (io_len i Hok) as H13.
  pose proof (de_bytes_length e name He) as H24. pose proof (eo_name e name He) as Hname.
  assert (take (Z.to_nat 24) (de_bytes e) = de_bytes e) as Htk by (apply firstn_all2; rewrite H24; done).
  induction n as [|n IH]; intros k Hk (j & Hj & Hroom); [lia|]. cbn [sync_blocks]. rewrite Htk. wp_steps.
  apply (wp_lift _ (sector i (Z.of_nat k))); [by rewrite direct_lookup by lia|].
  assert (length (take 12 (i_sectors i) ++ replicate 128 0) = 140%nat) as Hall by (rewrite length_app, length_take, H13; done).
  destruct (Z.eqb_spec (sector i (Z.of_nat k)) 0) as [E0|E0].
  - wp_steps. apply (wp_new_direct s a i k); try done; [lia|]. intros b s2 Ha Hlt Hin2. wp_steps.
    assert (arr_get (splice (take 12 (i_sectors i) ++ replicate 128 0) (Z.of_nat k) [b]) (Z.of_nat k) = Some b) as Hb.
    { unfold arr_get. rewrite decide_True by lia. rewrite splice_lookup by (cbn [length]; lia).
      rewrite decide_True by (cbn [length]; lia). by rewrite Nat.sub_diag. }
    apply (wp_lift _ b); [by rewrite Hb|]. wp_steps.
    destruct (nb_dblock s s2 b Hs Ha Hlt) as [Hdb Hmax].
    apply wp_ide_write1; [done|done|]. wp_steps. eapply wp_add_size; [apply lookup_insert_eq|].
    wp_steps. split; [done|]. exists (grown (with_block i (Z.of_nat k) b)).
    rewrite firstn_all2 by (rewrite splice_length; rewrite ?length_replicate; lia).
    cbn [set_dsk set_inodes inodes]. rewrite insert_insert_eq.
    apply (nb_inserted s s2 a i k b (de_bytes e) name); try done. lia.
  - destruct (Forall_lookup_1 _ _ _ _ (dw_blocks s i (do_wf s i Hdo)) (blocks_direct s i k H13 ltac:(lia))) as [?|[Hm [l Hl]]]; [done|].
    wp_steps. apply (wp_ide_read1 _ l); [done|done|]. change (Z.to_nat (512 / 24)) with 21%nat.
    pose proof (find_empty_spec l 21 0 ltac:(lia)) as Hfe. change (Z.of_nat 0) with 0 in Hfe.
    destruct (find_empty 21 0 l) as [x|].
    + destruct Hfe as (k' & -> & Hk' & Hem). wp_steps. apply wp_ide_write1; [done|by rewrite Hl|]. wp_steps.
      eapply wp_add_size; [exact Hi|]. wp_steps. split; [done|]. exists (grown i).
      pose proof (dw_disk s i (do_wf s i Hdo) _ _ Hl) as H512. cbn in H512.
      rewrite firstn_all2 by (rewrite splice_length; unfold de_size; lia).
      apply (insert_existing s a i k (sector i (Z.of_nat k)) l k' (de_bytes e) name); try done; [apply blocks_direct; lia|lia].
    + replace (Z.of_nat k + 1) with (Z.of_nat (S k)) by lia. apply IH; [lia|].
      exists j. split; [|done]. destruct (decide (j = k)) as [->|]; [|lia]. exfalso.
      destruct Hroom as [?|(l' & k' & Hl' & Hk' & Hem)]; [done|]. rewrite Hl in Hl'. injection Hl' as <-.
      by apply (Hfe k'); [lia|].
Qed.

Lemma inserted_lookup s s' a i i' e name n :
  inserted s s' a i i' (de_bytes e) -> dir_ok s i -> entry_ok e name -> dir_lookup s i name = None -> n <> [] ->
  dir_lookup s' i' n = if decide (n = name) then Some e else dir_lookup s i n.
Proof.
  intros Hin Hdo He Hnone Hn. destruct (in_slots _ _ _ _ _ _ Hin) as (j & old & new & Hold & Hup & Hch).
  pose proof (eo_name e name He) as Hname. pose proof (do_empty s i Hdo) as Hem.
  unfold dir_lookup, dir_slots in *. rewrite bind_concat in Hnone, Hem |- *. rewrite bind_concat, Hup.
  destruct (decide (n = name)) as [->|Hne].
  - destruct (List.find (named name) (concat (block_slots s <$> blocks_of s i))) eqn:E; [done|].
    rewrite (find_concat_new _ _ j old new (de_bytes e) Hold E).
    + cbn. by rewrite (de_roundtrip e name).
    + apply (change_new old new); [done|done|]. by apply (find_none_part _ _ j old Hold).
  - rewrite (find_concat_insert _ _ j old new Hold); [done|].
    apply (change_other old new (de_bytes e) name); try done. by eapply part_of_concat.
Qed.

Lemma wp_sync_dir_entry s pdir d i e name :
  part_wf s -> dir_at s pdir d -> inodes s !! d_inode d = Some i -> dir_ok s i -> i_size i mod 24 = 0 -> has_free s 1 ->
  entry_ok e name -> (exists j, (j < 12)%nat /\ has_room s i j) ->
  wp (sync_dir_entry pdir e) (fun r s' => r = true /\ exists i', inserted s s' (d_inode d) i i' (de_bytes e)) s.
Proof.
  intros Hs Hd Hi Hdo Hsz Hf He (j & Hj & Hr). unfold sync_dir_entry. wp_steps. apply (wp_get_dir s pdir d); [done|]. wp_steps.
  apply (wp_get_inode _ i); [done|]. wp_steps; rewrite (dw_size s i (do_wf s i Hdo)); [by apply Z.eqb_eq|].
  pose proof (io_len i (dw_ok s i (do_wf s i Hdo))) as H13. eapply wp_lift; [by apply copy_direct_12|].
  apply (wp_sync_blocks s (d_inode d) i e name Hs Hdo Hi Hf He 140 0); [lia|]. exists j. split; [lia|done].
Qed.

(** C24: adding an entry and finding it.  In a directory in order, with room in
    its direct blocks (an empty entry, or a block still to be allocated, which
    the partition has), [sync_dir_entry] of an entry with a new name succeeds;
    afterwards [search_dir_entry] returns that entry for its name and, for any
    other name, exactly what it returned before; the size grows by one entry. *)
Theorem dir_insert_search (s : fs) (pdir : dirptr) (d : dir) (i : inode) (e : dir_entry) (name : list Z)
    (Hs : part_wf s) (Hd : dir_at s pdir d) (Hi : inodes s !! d_inode d = Some i) (Hdo : dir_ok s i)
    (Hsz : i_size i mod 24 = 0) (Hf : has_free s 1) (He : entry_ok e name)
    (Hroom : exists j, (j < 12)%nat /\ has_room s i j) (Hnew : dir_lookup s i name = None) (Hheap : two_fresh (hp s)) :
  exists s1 i1, sync_dir_entry pdir e s = Done (true, s1) /\
    inodes s1 !! d_inode d = Some i1 /\ i_size i1 = u32 (i_size i + 24) /\
    forall n, n <> [] -> Forall (fun c => c <> 0) n ->
      exists s2, search_dir_entry pdir n s1 = Done (if decide (n = name) then Some e else dir_lookup s i n, s2) /\ same_fs s1 s2.
Proof.
  pose proof (wp_sync_dir_entry s pdir d i e name Hs Hd Hi Hdo Hsz Hf He Hroom) as Hw.
  apply wp_done in Hw as (r & s1 & E & -> & i1 & Hin). exists s1, i1. split; [done|].
  assert (inodes s1 !! d_inode d = Some i1) as Hi1 by (rewrite (in_inodes _ _ _ _ _ _ Hin); apply lookup_insert_eq).
  destruct (in_rest _ _ _ _ _ _ Hin) as (Hr1 & Hr2 & Hr3).
  assert (dir_at s1 pdir d) as Hd1 by (destruct pdir; cbn in *; congruence).
  split_and!; [done|apply (in_size _ _ _ _ _ _ Hin)|]. intros n Hn Hc.
  rewrite <- (inserted_lookup s s1 (d_inode d) i i1 e name n) by done.
  assert (wp (search_dir_entry pdir n) (fun r s' => r = dir_lookup s1 i1 n /\ same_fs s1 s') s1) as H.
  { apply (wp_search_dir_entry s1 pdir d i1); try done; [apply Hin|by rewrite Hr3|]. intros r _. split; [done|]. by exists r. }
  apply wp_done in H as (r & s2 & E2 & -> & Hs2). eauto.
Qed.

Lemma part_wf_set s m d :
  part_wf s -> disk_ok d -> (forall lba, is_Some (d !! lba) <-> is_Some (dsk s !! lba)) ->
  part_wf (set_inodes m (set_dsk d s)).
Proof. intros Hs Hd Hdom. apply (part_wf_step s); try done; apply Hs. Qed.

Lemma ex_dir_part_wf : part_wf ex_dir_fs.
Proof.
  apply part_wf_set; [apply ex_part_wf|apply ex_dir_disk_ok|].
  intros lba. rewrite lookup_insert_is_Some. split.
  - intros [<-|[_ H]]; [rewrite ex_disk_lookup; eauto|done].
  - intros H. destruct (decide (612 = lba)); [by left|by right].
Qed.

Lemma ex_dir_ok : dir_ok ex_dir_fs ex_root3.
Proof.
  assert (forall j b, b <> 0 -> (sector ex_root3 12 :: blocks_of ex_dir_fs ex_root3) !! j = Some b -> j = 1%nat /\ b = 612) as Hone.
  { intros j b Hb. change (blocks_of ex_dir_fs ex_root3) with (612 :: replicate 139 0).
    destruct j as [|[|j]]; [by intros [= <-]|by intros [= <-]|]. intros Hj.
    change (replicate 139 0 !! j = Some b) in Hj. apply lookup_replicate_1 in Hj as [? _]. done. }
  split.
  - apply ex_dir_wf.
  - intros b [j Hj]%list_elem_of_lookup_1 Hb. destruct (Hone j b Hb Hj) as [_ ->]. vm_compute. split; [congruence|done].
  - intros j j' b Hb Hj Hj'. destruct (Hone j b Hb Hj) as [-> _]. by destruct (Hone j' b Hb Hj') as [-> _].
  - rewrite ex_dir_slots. apply (Forall_forallb _ (fun sl => negb (word_at sl 20 =? 0) || bool_decide (cstring sl = Some []))).
    + intros x. unfold empty_slot. intros [H|H]%orb_prop E; [by rewrite E in H|by apply bool_decide_eq_true in H].
    + vm_compute. done.
Qed.

Lemma dir_insert_search_witness :
  exists s1 s2, sync_dir_entry RootDir (mk_de (name16 [98]) 5 FT_REGULAR) ex_dir_fs = Done (true, s1) /\
    search_dir_entry RootDir [98] s1 = Done (Some (mk_de (name16 [98]) 5 FT_REGULAR), s2).
Proof.
  destruct (dir_insert_search ex_dir_fs RootDir (mk_dir 4096 0) ex_root3 (mk_de (name16 [98]) 5 FT_REGULAR) [98])
    as (s1 & i1 & E & _ & _ & Hs).
  - apply ex_dir_part_wf.
  - done.
  - done.
  - apply ex_dir_ok.
  - done.
  - exists [614]. split_and!; [apply NoDup_singleton|done|]. apply Forall_singleton. vm_compute. split; [split|]; congruence.
  - split; try done. by apply Forall_singleton.
  - exists 1%nat. split; [lia|]. left. done.
  - vm_compute. done.
  - exists 12288, 16384, [20480; 24576]. done.
  - destruct (Hs [98]) as (s2 & E2 & _); [done|by apply Forall_singleton|]. exists s1, s2. split; [exact E|exact E2].
Defined.
