(* ===== verification/Fs.v ===== *)
(** * Fs: the file-system calls ([fs/fs.c], [fs/file.c] [file_create],
      [shell/pipe.c] descriptors)

    Paths are C strings without their terminator.  [junk_name] and [junk_ino]
    are what two uninitialised locals hold: the array [name] of
    [path_depth_cnt], and [dir_e.i_no] of [search_file] for a path of slashes
    only.  The working directory [cwd_inode_nr] of the running thread is an
    argument of the calls that read it and a result of [sys_chdir].

    [sys_read] and [sys_write] dispatch on the descriptor: a regular file is
    served here, a pipe by [Ioqueue], the keyboard by [Keyboard]'s queue; the
    result says which ([io]).  [printk] is left out. *)

From stdpp Require Import base numbers list gmap.
From S2P Require Import Prelude.
From S2P Require Import Bitmap.
From S2P Require Import Cstring.
From S2P Require Import Path.
From S2P Require Import Disk.
From S2P Require Import Fsdata.
From S2P Require Import Inode.
From S2P Require Import File.
From S2P Require Import Dir.

Local Open Scope Z_scope.
Local Open Scope kernel_scope.

Definition O_RDONLY : Z := 0.
Definition O_WRONLY : Z := 1.
Definition O_RDWR : Z := 2.
Definition O_CREAT : Z := 4.
Definition SEEK_SET : Z := 1.
Definition SEEK_CUR : Z := 2.
Definition SEEK_END : Z := 3.
Definition PIPE_FLAG : Z := 0xffff.
Definition stdin_no : Z := 0.
Definition stdout_no : Z := 1.
Definition stderr_no : Z := 2.

Record path_search_record : Type := mk_psr { searched_path : list Z; parent_dir : dirptr; file_type : Z }.
Record stat : Type := mk_stat { st_ino : Z; st_size : Z; st_filetype : Z }.

Definition zero_entry : dir_entry := mk_de (replicate 16 0) 0 0.
(** [strrchr(s, '/') + 1]; without a slash, a pointer into page 0. *)
Definition after_slash (s : list Z) : outcome (list Z) :=
  match last_slash s 0 None with Some i => Done (drop (S i) s) | None => Halt Page_fault end.
Definition is_root (p : list Z) : bool :=
  (str_cmp p [slash] =? 0) || (str_cmp p [slash; dot] =? 0) || (str_cmp p [slash; dot; dot] =? 0).

(** ** Creating a file *)
Definition clear_inode_bit (inode_no : Z) : M fs unit :=
  let! b := gets inode_bitmap in
  let! b := lift (bitmap_set b inode_no 0) in
  modify (set_inode_bitmap b).

(** The rollback, from its step: 3 clears the file table slot, 2 frees the
    inode, 1 clears the bit of the inode bitmap. *)
Definition file_create_rollback (step fd_idx new_file_inode inode_no io_buf : Z) : M fs Z :=
  let! k := gets in_kernel in
  (if 3 <=? step then put_file fd_idx (mk_file 0 0 0) else ret tt) ;;;
  (if 2 <=? step then
     modify (fun s => set_inodes (delete new_file_inode (inodes s)) s) ;;;
     sys_free k new_file_inode
   else ret tt) ;;;
  (if 1 <=? step then clear_inode_bit inode_no else ret tt) ;;;
  sys_free k io_buf ;;;
  ret (-1).

Definition file_create (pdir : dirptr) (filename : list Z) (flag : Z) : M fs Z :=
  let! k := gets in_kernel in
  let! io_buf := sys_malloc k in
  if io_buf =? 0 then ret (-1) else
  let! inode_no := inode_bitmap_alloc in
  if inode_no =? -1 then ret (-1) else
  let! new_file_inode := sys_malloc k in
  if new_file_inode =? 0 then file_create_rollback 1 0 0 inode_no io_buf else
  put_inode new_file_inode (inode_init inode_no) ;;;
  let! fd_idx := get_free_slot_in_global in
  if fd_idx =? -1 then file_create_rollback 2 0 new_file_inode inode_no io_buf else
  put_file fd_idx (mk_file 0 flag new_file_inode) ;;;
  let! new_dir_entry := lift (create_dir_entry filename inode_no FT_REGULAR zero_entry) in
  let! ok := sync_dir_entry pdir new_dir_entry in
  if negb ok then file_create_rollback 3 fd_idx new_file_inode inode_no io_buf else
  let! d := get_dir pdir in
  let! pi := get_inode (d_inode d) in
  inode_sync pi 1024 ;;;
  let! i := get_inode new_file_inode in
  inode_sync i 1024 ;;;
  bitmap_sync inode_no INODE_BITMAP ;;;
  modify (fun s => set_open_inodes (new_file_inode :: open_inodes s) s) ;;;
  put_inode new_file_inode (mk_inode (i_no i) (i_size i) 1 (write_deny i) (i_sectors i)) ;;;
  sys_free k io_buf ;;;
  pcb_fd_install fd_idx.

Section calls.
Context (junk_name : list Z) (junk_ino : Z).

(** ** Searching a path *)
Definition next_name (sub_path : option (list Z)) : outcome (option (list Z) * list Z) :=
  match sub_path with
  | Some q => path_parse q name_zero
  | None => Done (None, name_zero)
  end.

(** The last component is a directory: its parent is opened again. *)
Definition search_end (path : list Z) (pd : dirptr) (parent_inode_no ino : Z) : M fs (Z * path_search_record) :=
  dir_close pd ;;;
  let! pd := dir_open parent_inode_no in
  ret (i32 ino, mk_psr path pd FT_DIRECTORY).

(** [ino] is [dir_e.i_no]. *)
Fixpoint search_loop (fuel : nat) (sub_path : option (list Z)) (name path : list Z) (pd : dirptr) (parent_inode_no ino : Z)
    : M fs (Z * path_search_record) :=
  match fuel with
  | O => halt Out_of_fuel
  | S fuel =>
      if first_char name =? 0 then search_end path pd parent_inode_no ino else
      assertM (Z.of_nat (length path) <? 512) ;;;
      let! path := lift (strcat_path path [slash]) in
      let! nm := lift (oget (cstring name) Out_of_bounds) in
      let! path := lift (strcat_path path nm) in
      let! r := search_dir_entry pd nm in
      match r with
      | None => ret (-1, mk_psr path pd FT_UNKNOWN)
      | Some dir_e =>
          let! (sub_path, name) := lift (next_name sub_path) in
          if f_type dir_e =? FT_DIRECTORY then
            let! d := get_dir pd in
            let! i := get_inode (d_inode d) in
            dir_close pd ;;;
            let! pd := dir_open (de_i_no dir_e) in
            search_loop fuel sub_path name path pd (i_no i) (de_i_no dir_e)
          else if f_type dir_e =? FT_REGULAR then ret (i32 (de_i_no dir_e), mk_psr path pd FT_REGULAR)
          else search_loop fuel sub_path name path pd parent_inode_no (de_i_no dir_e)
      end
  end.

Definition search_file (pathname : list Z) : M fs (Z * path_search_record) :=
  if is_root pathname then ret (0, mk_psr [] RootDir FT_DIRECTORY) else
  let path_len := Z.of_nat (length pathname) in
  assertM (match pathname with c :: _ => c =? slash | [] => false end && (1 <? path_len) && (path_len <? MAX_PATH_LEN)) ;;;
  let! (sub_path, name) := lift (path_parse pathname name_zero) in
  search_loop (path_fuel pathname) sub_path name [] RootDir 0 junk_ino.

(** ** Opening and closing *)
Definition sys_open (pathname : list Z) (flags : Z) : M fs Z :=
  let! c := lift (oget (last pathname) Out_of_bounds) in
  if c =? slash then ret (-1) else
  assertM (flags <=? 7) ;;;
  let! pathname_depth := lift (path_depth_cnt pathname junk_name) in
  let! (inode_no, searched_record) := search_file pathname in
  let found := negb (inode_no =? -1) in
  if file_type searched_record =? FT_DIRECTORY then dir_close (parent_dir searched_record) ;;; ret (-1) else
  let! path_searched_depth := lift (path_depth_cnt (searched_path searched_record) junk_name) in
  if negb (pathname_depth =? path_searched_depth) then dir_close (parent_dir searched_record) ;;; ret (-1) else
  let creat := negb (Z.land flags O_CREAT =? 0) in
  if negb found && negb creat then dir_close (parent_dir searched_record) ;;; ret (-1) else
  if found && creat then dir_close (parent_dir searched_record) ;;; ret (-1) else
  if creat then
    let! name := lift (after_slash pathname) in
    let! fd := file_create (parent_dir searched_record) name flags in
    dir_close (parent_dir searched_record) ;;;
    ret fd
  else file_open (u32 inode_no) flags.

Definition fd_local2global (local_fd : Z) : M fs Z :=
  let! t := gets fd_table in
  let! global_fd := lift (oget (arr_get t local_fd) Out_of_bounds) in
  assertM ((0 <=? global_fd) && (global_fd <? MAX_FILE_OPEN)) ;;;
  ret global_fd.

Definition is_pipe (local_fd : Z) : M fs bool :=
  let! global_fd := fd_local2global local_fd in
  let! x := get_file global_fd in
  ret (fd_flag x =? PIPE_FLAG).

Definition set_fd (fd v : Z) : M fs unit :=
  let! t := gets fd_table in
  let! t := lift (oget (arr_set t fd v) Out_of_bounds) in
  modify (set_fd_table t).

(** With the result, the page of a pipe's buffer that goes back to the kernel's
    pool. *)
Definition sys_close (fd : Z) : M fs (Z * option Z) :=
  if 2 <? fd then
    let! global_fd := fd_local2global fd in
    let! p := is_pipe fd in
    let! r :=
      (if p : bool then
         let! x := get_file global_fd in
         let x := set_pos (u32 (fd_pos x - 1)) x in
         put_file global_fd x ;;;
         if fd_pos x =? 0 then
           put_file global_fd (mk_file (fd_pos x) (fd_flag x) 0) ;;;
           ret (0, Some (fd_inode x))
         else ret (0, None)
       else
         let! r := file_close global_fd in ret (r, None)) in
    set_fd fd (-1) ;;;
    ret r
  else ret (-1, None).

(** ** Pipes: the descriptors

    [page] is what [get_kernel_pages(1)] returned; the queue in it is
    initialised before the test for [NULL]. *)
Definition sys_pipe (page : Z) : M fs (Z * (Z * Z)) :=
  let! global_fd := get_free_slot_in_global in
  let! x := get_file global_fd in
  put_file global_fd (mk_file (fd_pos x) (fd_flag x) page) ;;;
  if page =? 0 then halt Page_fault else
  put_file global_fd (mk_file 2 PIPE_FLAG page) ;;;
  let! fd0 := pcb_fd_install global_fd in
  let! fd1 := pcb_fd_install global_fd in
  ret (0, (fd0, fd1)).

Definition sys_fd_redirect (old_local_fd new_local_fd : Z) : M fs unit :=
  if new_local_fd <? 3 then set_fd old_local_fd new_local_fd
  else
    let! t := gets fd_table in
    let! new_global_fd := lift (oget (arr_get t new_local_fd) Out_of_bounds) in
    set_fd old_local_fd new_global_fd.

(** ** Reading, writing, seeking *)
Inductive io : Type :=
  | Io_done (r : Z) (data : list Z)   (** finished, with the bytes read *)
  | Io_pipe                           (** [pipe_read] or [pipe_write] of [Ioqueue] *)
  | Io_console (text : list Z)        (** [console_put_str] *)
  | Io_keyboard.                      (** [count] times [ioq_getchar(&kbd_buf)] *)

(** [buf] are the [count] bytes to write. *)
Definition sys_write (fd : Z) (buf : list Z) : M fs io :=
  if fd <? 0 then ret (Io_done (-1) []) else
  if fd =? stdout_no then
    let! p := is_pipe fd in
    if p : bool then ret Io_pipe else
    if 1024 <? Z.of_nat (length buf) then halt Out_of_bounds else
    let! text := lift (oget (cstring (splice (replicate 1024 0) 0 buf)) Out_of_bounds) in
    ret (Io_console text)
  else
    let! p := is_pipe fd in
    if p : bool then ret Io_pipe else
    let! _fd := fd_local2global fd in
    let! wr_file := get_file _fd in
    if negb (Z.land (fd_flag wr_file) O_WRONLY =? 0) || negb (Z.land (fd_flag wr_file) O_RDWR =? 0) then
      let! r := file_write _fd buf in ret (Io_done (i32 r) [])
    else ret (Io_done (-1) []).

Definition sys_read (fd count : Z) : M fs io :=
  if (fd <? 0) || (fd =? stdout_no) || (fd =? stderr_no) then ret (Io_done (-1) []) else
  if fd =? stdin_no then
    let! p := is_pipe fd in
    ret (if p : bool then Io_pipe else Io_keyboard)
  else
    let! p := is_pipe fd in
    if p : bool then ret Io_pipe else
    let! global_fd := fd_local2global fd in
    let! (r, data) := file_read global_fd count in
    ret (Io_done r data).

Definition sys_lseek (fd offset whence : Z) : M fs Z :=
  if fd <? 0 then ret (-1) else
  assertM ((0 <? whence) && (whence <? 4)) ;;;
  let! _fd := fd_local2global fd in
  let! pf := get_file _fd in
  let! i := get_inode (fd_inode pf) in
  let file_size := i32 (i_size i) in
  let new_pos := if whence =? SEEK_SET then offset
                 else if whence =? SEEK_CUR then i32 (i32 (fd_pos pf) + offset)
                 else i32 (file_size + offset) in
  if (new_pos <? 0) || (file_size - 1 <? new_pos) then ret (-1) else
  put_file _fd (set_pos new_pos pf) ;;;
  ret new_pos.

(** ** Removing a file *)
(** [while (file_idx < MAX_FILE_OPEN)]: an open file with this inode number? *)
Fixpoint file_in_use (n : nat) (file_idx inode_no : Z) : M fs bool :=
  match n with
  | O => ret false
  | S n =>
      let! x := get_file file_idx in
      if fd_inode x =? 0 then file_in_use n (file_idx + 1) inode_no else
      let! i := get_inode (fd_inode x) in
      if inode_no =? i_no i then ret true else file_in_use n (file_idx + 1) inode_no
  end.

Definition sys_unlink (fuel : nat) (pathname : list Z) : M fs Z :=
  assertM (Z.of_nat (length pathname) <? MAX_PATH_LEN) ;;;
  let! (inode_no, searched_record) := search_file pathname in
  assertM (negb (inode_no =? 0)) ;;;
  if inode_no =? -1 then dir_close (parent_dir searched_record) ;;; ret (-1) else
  if file_type searched_record =? FT_DIRECTORY then dir_close (parent_dir searched_record) ;;; ret (-1) else
  let! used := file_in_use 32 0 (u32 inode_no) in
  if used : bool then dir_close (parent_dir searched_record) ;;; ret (-1) else
  let! k := gets in_kernel in
  let! io_buf := sys_malloc k in
  if io_buf =? 0 then dir_close (parent_dir searched_record) ;;; ret (-1) else
  let! _ := delete_dir_entry fuel (parent_dir searched_record) (u32 inode_no) in
  inode_release (u32 inode_no) ;;;
  sys_free k io_buf ;;;
  dir_close (parent_dir searched_record) ;;;
  ret 0.

(** ** Making a directory *)
Definition mkdir_rollback (step inode_no io_buf : Z) (r : path_search_record) : M fs Z :=
  (if step =? 2 then clear_inode_bit inode_no else ret tt) ;;;
  dir_close (parent_dir r) ;;;
  let! k := gets in_kernel in
  sys_free k io_buf ;;;
  ret (-1).

(** The entries [.] and [..] of a new directory. *)
Definition dot_entries (self up : Z) : list Z :=
  de_bytes (mk_de (splice (replicate 16 0) 0 [dot]) self FT_DIRECTORY) ++
  de_bytes (mk_de (splice (replicate 16 0) 0 [dot; dot]) up FT_DIRECTORY).

Definition sys_mkdir (pathname : list Z) : M fs Z :=
  let! k := gets in_kernel in
  let! io_buf := sys_malloc k in
  if io_buf =? 0 then ret (-1) else
  let! (inode_no, searched_record) := search_file pathname in
  if negb (inode_no =? -1) then mkdir_rollback 1 inode_no io_buf searched_record else
  let! pathname_depth := lift (path_depth_cnt pathname junk_name) in
  let! path_searched_depth := lift (path_depth_cnt (searched_path searched_record) junk_name) in
  if negb (pathname_depth =? path_searched_depth) then mkdir_rollback 1 inode_no io_buf searched_record else
  let pdir := parent_dir searched_record in
  let! dirname := lift (after_slash (searched_path searched_record)) in
  let! inode_no := inode_bitmap_alloc in
  if inode_no =? -1 then mkdir_rollback 1 inode_no io_buf searched_record else
  let new_dir_inode := inode_init inode_no in
  let! block_lba := block_bitmap_alloc in
  if block_lba =? -1 then mkdir_rollback 2 inode_no io_buf searched_record else
  let new_dir_inode := set_sectors (block_lba :: drop 1 (i_sectors new_dir_inode)) new_dir_inode in
  let! s := gets id in
  let block_bitmap_idx := u32 (block_lba - data_start_lba (sb s)) in
  assertM (negb (block_bitmap_idx =? 0)) ;;;
  bitmap_sync block_bitmap_idx BLOCK_BITMAP ;;;
  let! d := get_dir pdir in
  let! pi := get_inode (d_inode d) in
  ide_write block_lba (splice (replicate 512 0) 0 (dot_entries inode_no (i_no pi))) 1 ;;;
  let new_dir_inode := set_size (u32 (2 * dir_entry_size (sb s))) new_dir_inode in
  let! new_dir_entry := lift (create_dir_entry dirname inode_no FT_DIRECTORY zero_entry) in
  let! ok := sync_dir_entry pdir new_dir_entry in
  if negb ok then mkdir_rollback 2 inode_no io_buf searched_record else
  let! pi := get_inode (d_inode d) in
  inode_sync pi 1024 ;;;
  inode_sync new_dir_inode 1024 ;;;
  bitmap_sync inode_no INODE_BITMAP ;;;
  sys_free k io_buf ;;;
  dir_close pdir ;;;
  ret 0.

(** ** Directories *)
(** [None] for [NULL].  The second test of the name is of its first character
    again. *)
Definition sys_opendir (name : list Z) : M fs (option dirptr) :=
  assertM (Z.of_nat (length name) <? MAX_PATH_LEN) ;;;
  if (default 0 (name !! 0%nat) =? slash) && ((default 0 (name !! 1%nat) =? 0) || (default 0 (name !! 0%nat) =? dot))
  then ret (Some RootDir) else
  let! (inode_no, searched_record) := search_file name in
  let! r :=
    (if inode_no =? -1 then ret None
     else if file_type searched_record =? FT_REGULAR then ret None
     else if file_type searched_record =? FT_DIRECTORY then
       let! d := dir_open (u32 inode_no) in ret (Some d)
     else ret None) in
  dir_close (parent_dir searched_record) ;;;
  ret r.

Definition sys_closedir (d : option dirptr) : M fs Z :=
  match d with Some d => dir_close d ;;; ret 0 | None => ret (-1) end.
Definition sys_readdir (d : option dirptr) : M fs (option dir_entry) :=
  match d with Some d => dir_read d | None => halt Assert_failed end.
Definition sys_rewinddir (d : dirptr) : M fs unit :=
  let! x := get_dir d in put_dir d (mk_dir (d_inode x) 0).

Definition sys_rmdir (fuel : nat) (pathname : list Z) : M fs Z :=
  let! (inode_no, searched_record) := search_file pathname in
  assertM (negb (inode_no =? 0)) ;;;
  let! retval :=
    (if inode_no =? -1 then ret (-1)
     else if file_type searched_record =? FT_REGULAR then ret (-1)
     else
       let! d := dir_open (u32 inode_no) in
       let! empty := dir_is_empty d in
       let! retval :=
         (if negb empty then ret (-1)
          else let! r := dir_remove fuel (parent_dir searched_record) d in ret (if r =? 0 then 0 else -1)) in
       dir_close d ;;;
       ret retval) in
  dir_close (parent_dir searched_record) ;;;
  ret retval.

(** ** The working directory *)
Definition get_parent_dir_inode_nr (child_inode_nr : Z) : M fs Z :=
  let! a := inode_open child_inode_nr in
  let! i := get_inode a in
  let block_lba := sector i 0 in
  let! s := gets id in
  assertM (data_start_lba (sb s) <=? block_lba) ;;;
  inode_close a ;;;
  let! io_buf := ide_read block_lba 1 in
  let e := de_of_bytes (slice io_buf de_size de_size) in
  assertM ((de_i_no e <? 4096) && (f_type e =? FT_DIRECTORY)) ;;;
  ret (de_i_no e).

(** The name of the entry with the inode number among [n] entries. *)
Fixpoint child_in_sector (n : nat) (dir_e_idx : Z) (io_buf : list Z) (c_inode_nr : Z) (path : list Z) : outcome (option (list Z)) :=
  match n with
  | O => Done None
  | S n =>
      if word_at io_buf (de_size * dir_e_idx + 16) =? c_inode_nr then
        olet path := strcat_path path [slash] in
        olet nm := oget (cstring (drop (Z.to_nat (de_size * dir_e_idx)) io_buf)) Out_of_bounds in
        olet path := strcat_path path nm in
        Done (Some path)
      else child_in_sector n (dir_e_idx + 1) io_buf c_inode_nr path
  end.
Fixpoint child_in_blocks (all_blocks : list Z) (dir_entrys_per_sec : nat) (c_inode_nr : Z) (path : list Z) : M fs (option (list Z)) :=
  match all_blocks with
  | [] => ret None
  | b :: all_blocks =>
      if b =? 0 then child_in_blocks all_blocks dir_entrys_per_sec c_inode_nr path else
      let! io_buf := ide_read b 1 in
      let! r := lift (child_in_sector dir_entrys_per_sec 0 io_buf c_inode_nr path) in
      match r with
      | Some path => ret (Some path)
      | None => child_in_blocks all_blocks dir_entrys_per_sec c_inode_nr path
      end
  end.
(** The path with the name appended; [None] for -1. *)
Definition get_child_dir_name (p_inode_nr c_inode_nr : Z) (path : list Z) : M fs (option (list Z)) :=
  let! a := inode_open p_inode_nr in
  let! i := get_inode a in
  let! all_blocks := dir_all_blocks i in
  let all_blocks := if sector i 12 =? 0 then take 12 all_blocks else all_blocks in
  inode_close a ;;;
  let! size := gets (fun s => dir_entry_size (sb s)) in
  child_in_blocks all_blocks (Z.to_nat (512 / size)) c_inode_nr path.

Fixpoint climb (fuel : nat) (child_inode_nr : Z) (full_path_reverse : list Z) : M fs (option (list Z)) :=
  match fuel with
  | O => halt Out_of_fuel
  | S fuel =>
      if child_inode_nr =? 0 then ret (Some full_path_reverse) else
      let! parent_inode_nr := get_parent_dir_inode_nr child_inode_nr in
      let! r := get_child_dir_name parent_inode_nr child_inode_nr full_path_reverse in
      match r with
      | None => ret None
      | Some path => climb fuel parent_inode_nr path
      end
  end.

(** [while ((last_slash = strrchr(...)))]: [buf] is the string in an array of
    [size] bytes. *)
Fixpoint turn_round (fuel : nat) (full_path_reverse buf : list Z) (size : Z) : outcome (list Z) :=
  match fuel with
  | O => Halt Out_of_fuel
  | S fuel =>
      match last_slash full_path_reverse 0 None with
      | None => Done buf
      | Some i =>
          let buf := buf ++ drop i full_path_reverse in
          if size <? Z.of_nat (length buf) + 1 then Halt Out_of_bounds
          else turn_round fuel (take i full_path_reverse) buf size
      end
  end.

(** The string left in [buf]; [None] for [NULL].  [buf] itself is not [NULL]. *)
Definition sys_getcwd (fuel : nat) (cwd_inode_nr size : Z) : M fs (option (list Z)) :=
  let! k := gets in_kernel in
  let! io_buf := sys_malloc k in
  if io_buf =? 0 then ret None else
  assertM ((0 <=? cwd_inode_nr) && (cwd_inode_nr <? 4096)) ;;;
  if cwd_inode_nr =? 0 then
    (if size <? 2 then halt Out_of_bounds else sys_free k io_buf ;;; ret (Some [slash]))
  else
    let! r := climb fuel cwd_inode_nr [] in
    match r with
    | None => sys_free k io_buf ;;; ret None
    | Some full_path_reverse =>
        assertM (Z.of_nat (length full_path_reverse) <=? size) ;;;
        let! buf := lift (turn_round (S (length full_path_reverse)) full_path_reverse [] size) in
        sys_free k io_buf ;;;
        ret (Some buf)
    end.

(** The result and the new working directory. *)
Definition sys_chdir (cwd_inode_nr : Z) (path : list Z) : M fs (Z * Z) :=
  let! (inode_no, searched_record) := search_file path in
  let r := if negb (inode_no =? -1) && (file_type searched_record =? FT_DIRECTORY) then (0, u32 inode_no)
           else (-1, cwd_inode_nr) in
  dir_close (parent_dir searched_record) ;;;
  ret r.

(** The result and the contents of [buf] when it is written. *)
Definition sys_stat (path : list Z) : M fs (Z * option stat) :=
  if is_root path then
    let! d := get_dir RootDir in
    let! i := get_inode (d_inode d) in
    ret (0, Some (mk_stat 0 (i_size i) FT_DIRECTORY))
  else
    let! (inode_no, searched_record) := search_file path in
    let! r :=
      (if negb (inode_no =? -1) then
         let! a := inode_open (u32 inode_no) in
         let! i := get_inode a in
         inode_close a ;;;
         ret (0, Some (mk_stat (u32 inode_no) (i_size i) (file_type searched_record)))
       else ret (-1, None)) in
    dir_close (parent_dir searched_record) ;;;
    ret r.
End calls.
