(* ===== verification/Fork.v ===== *)
(** * Fork: [fork] ([userprog/fork.c])

    The call touches the page allocator ([Memory]), the scheduler ([Sched]) and
    the file tables ([Fsdata]); the state is their product, with what else a PCB
    page holds: the address of the process's bitmap, its heap descriptors and
    the words of its kernel stack, by their offset in the page.  The parent is
    the running process: its [userprog_vaddr] is the one in the allocator's
    state, those of the other processes are in [k_vaddr]. *)

From stdpp Require Import base numbers list gmap.
From S2P Require Import Prelude.
From S2P Require Import Bitmap.
From S2P Require Import Interrupt.
From S2P Require Import Seqlock.
From S2P Require Import Paging.
From S2P Require Import Memory.
From S2P Require Import Kpages.
From S2P Require Import Procmem.
From S2P Require Import Addrspace.
From S2P Require Import Forkmem.
From S2P Require Import Arena.
From S2P Require Import Fsdata.
From S2P Require Import File.
From S2P Require Import Fs.
From S2P Require Import Sched.
From S2P Require Import Wait.

Local Open Scope Z_scope.
Local Open Scope kernel_scope.

Record uproc : Type := mk_uproc {
  u_bits : Z;                          (** [userprog_vaddr.vaddr_bitmap.bits] *)
  u_block_desc : list mem_block_desc;
  u_kstack : gmap Z Z
}.

Record kst : Type := mk_kst {
  k_mem : mst;
  k_sched : sst;
  k_fs : fs;
  k_vaddr : gmap Z virtual_addr;
  k_proc : gmap Z uproc
}.

Definition set_mem (m : mst) (k : kst) : kst := mk_kst m (k_sched k) (k_fs k) (k_vaddr k) (k_proc k).
Definition set_sched (s : sst) (k : kst) : kst := mk_kst (k_mem k) s (k_fs k) (k_vaddr k) (k_proc k).
Definition set_fs (f : fs) (k : kst) : kst := mk_kst (k_mem k) (k_sched k) f (k_vaddr k) (k_proc k).
Definition set_vaddrs (v : gmap Z virtual_addr) (k : kst) : kst := mk_kst (k_mem k) (k_sched k) (k_fs k) v (k_proc k).
Definition set_proc (p : gmap Z uproc) (k : kst) : kst := mk_kst (k_mem k) (k_sched k) (k_fs k) (k_vaddr k) p.

Definition memM {A} (m : M mst A) : M kst A := fun k => olet (a, s) := m (k_mem k) in Done (a, set_mem s k).
Definition schedM {A} (m : M sst A) : M kst A := fun k => olet (a, s) := m (k_sched k) in Done (a, set_sched s k).
Definition fsM {A} (m : M fs A) : M kst A := fun k => olet (a, s) := m (k_fs k) in Done (a, set_fs s k).

Definition proc_at (t : Z) : M kst uproc := fun k => olet u := oget (k_proc k !! t) Page_fault in Done (u, k).
Definition put_proc (t : Z) (u : uproc) : M kst unit := modify (fun k => set_proc (<[t := u]> (k_proc k)) k).

Definition with_pid (p : Z) (x : task) : task :=
  mk_task (self_kstack x) p (status x) (name x) (priority x) (ticks x) (elapsed_ticks x) (Sched.fd_table x)
    (pgdir x) (cwd_inode_nr x) (parent_pid x) (exit_status x) (stack_magic x) (saved x).
Definition with_pgdir (d : Z) (x : task) : task :=
  mk_task (self_kstack x) (pid x) (status x) (name x) (priority x) (ticks x) (elapsed_ticks x) (Sched.fd_table x)
    d (cwd_inode_nr x) (parent_pid x) (exit_status x) (stack_magic x) (saved x).

(** Pages of a process's bitmap. *)
Definition bitmap_pg_cnt : Z := DIV_ROUND_UP ((0xc0000000 - USER_VADDR_START) / PG_SIZE / 8) PG_SIZE.

(** ** The PCB, the bitmap and the kernel stack

    [memcpy(child_thread, parent_thread, PG_SIZE)] copies the PCB and the stack;
    the copied list tags are cleared: the child is in no list. *)
Definition copy_pcb_vaddrbitmap_stack0 (child_thread parent_thread : Z) : M kst Z :=
  let! x := schedM (task_at parent_thread) in
  let! u := proc_at parent_thread in
  let! v := gets (fun k => userprog_vaddr (k_mem k)) in
  schedM (modify (set_tasks (insert child_thread x))) ;;;
  put_proc child_thread u ;;;
  modify (fun k => set_vaddrs (<[child_thread := v]> (k_vaddr k)) k) ;;;
  let! p := schedM fork_pid in
  schedM (update_task child_thread (with_pid p)) ;;;
  schedM (update_task child_thread (with_elapsed 0)) ;;;
  schedM (update_task child_thread (with_status TASK_READY)) ;;;
  schedM (update_task child_thread (fun y => with_ticks (priority y) y)) ;;;
  schedM (update_task child_thread (with_parent (pid x))) ;;;
  put_proc child_thread (mk_uproc (u_bits u) block_desc_init (u_kstack u)) ;;;
  let! vaddr_btmp := memM (get_kernel_pages bitmap_pg_cnt) in
  if vaddr_btmp =? NULL then ret (-1) else
  let n := bitmap_pg_cnt * PG_SIZE in
  let b := vaddr_bitmap v in
  (if n <=? Z.of_nat (length (bits b)) then ret tt else halt Out_of_bounds) ;;;
  modify (fun k => set_vaddrs (<[child_thread :=
    mk_vaddr (mk_bitmap (btmp_bytes_len b) (take (Z.to_nat n) (bits b))) (vaddr_start v)]> (k_vaddr k)) k) ;;;
  put_proc child_thread (mk_uproc vaddr_btmp block_desc_init (u_kstack u)) ;;;
  ret 0.

(** ** The child's return to user mode

    The interrupt frame is the last 76 bytes of the page; [eax] is its ninth
    word and [eflags] its seventeenth.  [intr_exit] is the code that pops the
    frame and executes [iret], which restores the interrupt flag from it. *)
Definition INTR_STACK : Z := PG_SIZE - 76.
Definition EAX : Z := INTR_STACK + 8 * 4.
Definition EFLAGS : Z := INTR_STACK + 16 * 4.

Definition build_child_stack (intr_exit child_thread : Z) : M kst Z :=
  let! u := proc_at child_thread in
  let stack := <[EAX := 0]> (u_kstack u) in
  let stack := <[INTR_STACK - 4 := intr_exit]> stack in
  let stack := <[INTR_STACK - 5 * 4 := 0]> (<[INTR_STACK - 4 * 4 := 0]>
                 (<[INTR_STACK - 3 * 4 := 0]> (<[INTR_STACK - 2 * 4 := 0]> stack))) in
  put_proc child_thread (mk_uproc (u_bits u) (u_block_desc u) stack) ;;;
  schedM (update_task child_thread (with_kstack (u32 (child_thread + INTR_STACK - 5 * 4)))) ;;;
  schedM (update_task child_thread
    (with_saved (if Z.testbit (default 0 (stack !! EFLAGS)) 9 then INTR_ON else INTR_OFF))) ;;;
  ret 0.

(** ** Open files *)
Fixpoint update_open_cnts (n : nat) (table : list Z) (local_fd : Z) : M fs unit :=
  match n with
  | O => ret tt
  | S n =>
      let! global_fd := lift (oget (arr_get table local_fd) Out_of_bounds) in
      assertM (global_fd <? MAX_FILE_OPEN) ;;;
      (if negb (global_fd =? -1) then
         let! p := is_pipe local_fd in
         if p : bool then
           let! x := get_file global_fd in
           put_file global_fd (set_pos (u32 (fd_pos x + 1)) x)
         else
           let! x := get_file global_fd in
           let! i := get_inode (fd_inode x) in
           put_inode (fd_inode x) (mk_inode (i_no i) (i_size i) (u32 (i_open_cnts i + 1)) (write_deny i) (i_sectors i))
       else ret tt) ;;;
      update_open_cnts n table (local_fd + 1)
  end.
Definition update_inode_open_cnts (table : list Z) : M fs unit := update_open_cnts 5 table 3.

(** ** The call *)
Section fork.
(** The address of [intr_exit] ([kernel/kernel.S]). *)
Context (intr_exit : Z).

Definition copy_process (child_thread parent_thread : Z) : M kst Z :=
  let! buf_page := memM (get_kernel_pages 1) in
  if buf_page =? NULL then ret (-1) else
  let! r := copy_pcb_vaddrbitmap_stack0 child_thread parent_thread in
  if r =? -1 then ret (-1) else
  let! d := memM create_page_dir in
  schedM (update_task child_thread (with_pgdir d)) ;;;
  if d =? NULL then ret (-1) else
  memM (copy_body_stack3 d buf_page) ;;;
  let! _ := build_child_stack intr_exit child_thread in
  let! y := schedM (task_at child_thread) in
  fsM (update_inode_open_cnts (Sched.fd_table y)) ;;;
  memM (mfree_page PF_KERNEL buf_page 1) ;;;
  ret 0.

Definition sys_fork : M kst Z :=
  let! parent_thread := gets (fun k => running (k_sched k)) in
  let! child_thread := memM (get_kernel_pages 1) in
  if child_thread =? NULL then ret (-1) else
  let! status := schedM intr_get_status in
  let! x := schedM (task_at parent_thread) in
  assertM (bool_decide (status = INTR_OFF) && negb (pgdir x =? 0)) ;;;
  let! r := copy_process child_thread parent_thread in
  if r =? -1 then ret (-1) else
  let! found := schedM (elem_find_ready child_thread) in
  assertM (negb found) ;;;
  schedM (modify (set_ready (fun l => l ++ [child_thread]))) ;;;
  let! all := gets (fun k => thread_all_list (k_sched k)) in
  assertM (negb (bool_decide (child_thread ∈ all))) ;;;
  schedM (modify (set_all (fun l => l ++ [child_thread]))) ;;;
  let! y := schedM (task_at child_thread) in
  ret (pid y).
End fork.

(** ** Descriptors counted once more *)
Definition opens_inode (s : fs) (a e : Z) : bool :=
  match arr_get (file_table s) e with
  | Some x => negb (fd_flag x =? PIPE_FLAG) && (fd_inode x =? a)
  | None => false
  end.
(** How many of the descriptors [l] are on file [g], and on inode [a]. *)
Definition fd_count (l : list Z) (g : Z) : Z := Z.of_nat (length (filter (fun e => e = g) l)).
Definition open_count (s : fs) (l : list Z) (a : Z) : Z := Z.of_nat (length (filter (fun e => opens_inode s a e = true) l)).

Definition bump_file (n : Z) (x : file) : file := if fd_flag x =? PIPE_FLAG then set_pos (u32 (fd_pos x + n)) x else x.
Definition bump_inode (n : Z) (i : inode) : inode :=
  mk_inode (i_no i) (i_size i) (u32 (i_open_cnts i + n)) (write_deny i) (i_sectors i).

(** A descriptor is closed, or it is of a pipe, or of a file whose inode is open. *)
Definition fd_ok (s : fs) (e : Z) : Prop :=
  e = -1 \/ (0 <= e < MAX_FILE_OPEN /\ exists x, arr_get (file_table s) e = Some x /\ is_u32 (fd_pos x) /\
    (fd_flag x <> PIPE_FLAG -> is_Some (inodes s !! fd_inode x))).

(** The tables after the descriptors [l] have been counted. *)
Record counted (s0 s : fs) (l : list Z) : Prop := {
  ct_files : forall g, 0 <= g -> arr_get (file_table s) g = bump_file (fd_count l g) <$> arr_get (file_table s0) g;
  ct_inodes : forall a, inodes s !! a = bump_inode (open_count s0 l a) <$> inodes s0 !! a;
  ct_rest : s = set_inodes (inodes s) (set_file_table (file_table s) s0)
}.

Lemma fd_count_snoc l e g : fd_count (l ++ [e]) g = fd_count l g + (if decide (e = g) then 1 else 0).
Proof.
  unfold fd_count. rewrite filter_app, length_app, Nat2Z.inj_add, filter_cons, filter_nil. f_equal. by case_decide.
Qed.
Lemma open_count_snoc s l e a : open_count s (l ++ [e]) a = open_count s l a + (if opens_inode s a e then 1 else 0).
Proof.
  unfold open_count. rewrite filter_app, length_app, Nat2Z.inj_add, filter_cons, filter_nil. f_equal.
  by destruct (opens_inode s a e).
Qed.

Lemma bump_file_0 x : is_u32 (fd_pos x) -> bump_file 0 x = x.
Proof. intros H. unfold bump_file, set_pos. destruct (_ =? _); [|done]. rewrite Z.add_0_r, u32_id by done. by destruct x. Qed.
Lemma bump_file_add n x : fd_flag x = PIPE_FLAG ->
  set_pos (u32 (fd_pos (bump_file n x) + 1)) (bump_file n x) = bump_file (n + 1) x.
Proof.
  intros E. unfold bump_file. rewrite E, Z.eqb_refl. unfold set_pos. cbn. f_equal.
  unfold u32. by rewrite Zplus_mod_idemp_l, Z.add_assoc.
Qed.
Lemma bump_file_flag n x : fd_flag (bump_file n x) = fd_flag x /\ fd_inode (bump_file n x) = fd_inode x.
Proof. unfold bump_file. by destruct (_ =? _). Qed.
Lemma bump_file_plain n x : fd_flag x <> PIPE_FLAG -> bump_file n x = x.
Proof. intros H. unfold bump_file. by rewrite (proj2 (Z.eqb_neq _ _) H). Qed.
Lemma bump_inode_add n i : mk_inode (i_no (bump_inode n i)) (i_size (bump_inode n i)) (u32 (i_open_cnts (bump_inode n i) + 1))
    (write_deny (bump_inode n i)) (i_sectors (bump_inode n i)) = bump_inode (n + 1) i.
Proof. unfold bump_inode. cbn. f_equal. unfold u32. by rewrite Zplus_mod_idemp_l, Z.add_assoc. Qed.

Lemma counted_skip s0 s l : counted s0 s l -> counted s0 s (l ++ [-1]).
Proof.
  intros [C1 C2 C3]. split; [| |done].
  - intros g Hg. rewrite C1 by done. rewrite fd_count_snoc, decide_False by lia. by rewrite Z.add_0_r.
  - intros a. rewrite C2, open_count_snoc. unfold opens_inode. change (arr_get (file_table s0) (-1)) with (@None file).
    by rewrite Z.add_0_r.
Qed.

Lemma counted_pipe s0 s l e x t :
  counted s0 s l -> 0 <= e -> arr_get (file_table s0) e = Some x -> fd_flag x = PIPE_FLAG ->
  arr_set (file_table s) e (bump_file (fd_count l e + 1) x) = Some t -> counted s0 (set_file_table t s) (l ++ [e]).
Proof.
  intros [C1 C2 C3] He Hx Hp Ht. split.
  - intros g Hg. cbn [file_table set_file_table]. rewrite (arr_get_set _ _ _ _ _ Ht), fd_count_snoc.
    case_decide as E; [subst g; by rewrite Hx|]. rewrite C1, Z.add_0_r by done. done.
  - intros a. cbn [inodes set_file_table]. rewrite C2, open_count_snoc. unfold opens_inode. rewrite Hx, Hp, Z.eqb_refl.
    cbn [negb andb]. by rewrite Z.add_0_r.
  - rewrite C3. done.
Qed.

Lemma counted_open s0 s l e x i :
  counted s0 s l -> 0 <= e -> arr_get (file_table s0) e = Some x -> fd_flag x <> PIPE_FLAG -> inodes s0 !! fd_inode x = Some i ->
  counted s0 (set_inodes (<[fd_inode x := bump_inode (open_count s0 l (fd_inode x) + 1) i]> (inodes s)) s) (l ++ [e]).
Proof.
  intros [C1 C2 C3] He Hx Hp Hi. split.
  - intros g Hg. cbn [file_table set_inodes]. rewrite C1, fd_count_snoc by done. case_decide as E; [subst g|by rewrite Z.add_0_r].
    rewrite Hx. cbn. by rewrite !bump_file_plain.
  - intros a. cbn [inodes set_inodes]. rewrite lookup_insert, open_count_snoc. unfold opens_inode.
    rewrite Hx, (proj2 (Z.eqb_neq _ _) Hp). cbn [negb andb].
    case_decide as E; [subst a; rewrite Z.eqb_refl, Hi; done|].
    rewrite (proj2 (Z.eqb_neq _ _) E), C2, Z.add_0_r. done.
  - rewrite C3. done.
Qed.

Lemma counted_file s0 s l e x : counted s0 s l -> 0 <= e -> arr_get (file_table s0) e = Some x ->
  arr_get (file_table s) e = Some (bump_file (fd_count l e) x).
Proof. intros C He Hx. by rewrite (ct_files _ _ _ C), Hx by done. Qed.

Lemma is_pipe_counted s0 s l table j e x :
  counted s0 s l -> Fsdata.fd_table s0 = table -> arr_get table j = Some e -> 0 <= e < MAX_FILE_OPEN ->
  arr_get (file_table s0) e = Some x -> is_pipe j s = Done (fd_flag x =? PIPE_FLAG, s).
Proof.
  intros C Et Ej He Hx. unfold is_pipe, fd_local2global, bind, gets, lift, assertM, get_file.
  assert (Fsdata.fd_table s = table) as -> by (rewrite (ct_rest _ _ _ C); exact Et). rewrite Ej. cbn [oget].
  rewrite (proj2 (Z.leb_le 0 e)), (proj2 (Z.ltb_lt e MAX_FILE_OPEN)) by lia. cbn [andb oassert lift]. unfold lift, ret. cbn [oassert].
  rewrite (counted_file _ _ _ _ _ C (proj1 He) Hx). cbn [oget obind].
  by destruct (bump_file_flag (fd_count l e) x) as [-> _].
Qed.

Lemma update_one s0 s l table j e :
  counted s0 s l -> Fsdata.fd_table s0 = table -> arr_get table j = Some e -> fd_ok s0 e ->
  exists s', (if negb (e =? -1) then
         let! p := is_pipe j in
         if p : bool then
           let! x := get_file e in
           put_file e (set_pos (u32 (fd_pos x + 1)) x)
         else
           let! x := get_file e in
           let! i := get_inode (fd_inode x) in
           put_inode (fd_inode x) (mk_inode (i_no i) (i_size i) (u32 (i_open_cnts i + 1)) (write_deny i) (i_sectors i))
       else ret tt) s = Done (tt, s') /\ counted s0 s' (l ++ [e]).
Proof.
  intros C Et Ej [->|(He & x & Hx & _ & Hino)].
  { exists s. split; [done|by apply counted_skip]. }
  rewrite (proj2 (Z.eqb_neq e (-1))) by lia. cbn [negb]. unfold bind at 1. rewrite (is_pipe_counted s0 s l table j e x) by done.
  pose proof (counted_file _ _ _ _ _ C (proj1 He) Hx) as Hf.
  destruct (fd_flag x =? PIPE_FLAG) eqn:Ep.
  - apply Z.eqb_eq in Ep. pose proof (arr_get_Some_lt _ _ _ Hf) as Hlt.
    destruct (arr_set_lt (file_table s) e (bump_file (fd_count l e + 1) x) Hlt) as [t Ht].
    exists (set_file_table t s). split; [|exact (counted_pipe s0 s l e x t C (proj1 He) Hx Ep Ht)].
    unfold bind, get_file. rewrite Hf. cbn [oget obind]. unfold put_file. by rewrite bump_file_add, Ht.
  - apply Z.eqb_neq in Ep. destruct (Hino Ep) as [i Hi].
    exists (set_inodes (<[fd_inode x := bump_inode (open_count s0 l (fd_inode x) + 1) i]> (inodes s)) s).
    split; [|exact (counted_open s0 s l e x i C (proj1 He) Hx Ep Hi)].
    unfold bind, get_file. rewrite Hf. cbn [oget obind]. rewrite bump_file_plain by done.
    unfold get_inode. rewrite (ct_inodes _ _ _ C), Hi. cbn [fmap option_fmap option_map oget obind].
    unfold put_inode, modify. by rewrite bump_inode_add.
Qed.

Lemma fd_ok_lt s e : fd_ok s e -> (e <? MAX_FILE_OPEN) = true.
Proof. unfold MAX_FILE_OPEN. intros [->|[He _]]; apply Z.ltb_lt; unfold MAX_FILE_OPEN in *; lia. Qed.

Lemma update_open_cnts_spec s0 table : forall l2 l1 s j,
  table = l1 ++ l2 -> j = Z.of_nat (length l1) -> Fsdata.fd_table s0 = table ->
  Forall (fd_ok s0) l2 -> forall l, counted s0 s l ->
  exists s', update_open_cnts (length l2) table j s = Done (tt, s') /\ counted s0 s' (l ++ l2).
Proof.
  induction l2 as [|e l2 IH]; intros l1 s j Etab Ej Et Hok l C.
  { exists s. by rewrite app_nil_r. }
  apply Forall_cons in Hok as [He Hok].
  assert (arr_get table j = Some e) as Hg.
  { unfold arr_get. rewrite decide_True, Etab, Ej, Nat2Z.id by lia. by apply list_lookup_middle. }
  destruct (update_one s0 s l table j e C Et Hg He) as (s1 & E1 & C1).
  destruct (IH (l1 ++ [e]) s1 (j + 1)) with (l := l ++ [e]) as (s2 & E2 & C2); try done.
  { by rewrite Etab, <- app_assoc. }
  { rewrite length_app. cbn. lia. }
  exists s2. rewrite <- app_assoc in C2. split; [|done]. cbn [length update_open_cnts]. unfold bind at 1, lift. rewrite Hg. cbn [oget].
  unfold bind at 1, assertM, lift. rewrite (fd_ok_lt _ _ He). cbn [oassert]. unfold bind at 1. by rewrite E1.
Qed.

Lemma counted_nil s : (forall g x, arr_get (file_table s) g = Some x -> is_u32 (fd_pos x)) ->
  (forall a i, inodes s !! a = Some i -> is_u32 (i_open_cnts i)) -> counted s s [].
Proof.
  intros Hf Hi. split.
  - intros g Hg. destruct (arr_get (file_table s) g) as [x|] eqn:E; [|done]. cbn. by rewrite bump_file_0 by eauto.
  - intros a. destruct (inodes s !! a) as [i|] eqn:E; [|done]. cbn. unfold bump_inode, open_count. cbn [filter list_filter length].
    rewrite Z.add_0_r, u32_id by eauto. by destruct i.
  - by destruct s.
Qed.

(** ** The steps on the product state *)
Lemma memM_done {A} (m : M mst A) k a s : m (k_mem k) = Done (a, s) -> memM m k = Done (a, set_mem s k).
Proof. intros E. unfold memM. by rewrite E. Qed.
Lemma schedM_done {A} (m : M sst A) k a s : m (k_sched k) = Done (a, s) -> schedM m k = Done (a, set_sched s k).
Proof. intros E. unfold schedM. by rewrite E. Qed.
Lemma fsM_done {A} (m : M fs A) k a s : m (k_fs k) = Done (a, s) -> fsM m k = Done (a, set_fs s k).
Proof. intros E. unfold fsM. by rewrite E. Qed.
Lemma set_sched_id k : set_sched (k_sched k) k = k.
Proof. by destruct k. Qed.
Lemma schedM_task k t x : tasks (k_sched k) !! t = Some x -> schedM (task_at t) k = Done (x, k).
Proof. intros E. rewrite <- (set_sched_id k) at 2. apply schedM_done. unfold task_at. by rewrite E. Qed.
Lemma schedM_update k t x f : tasks (k_sched k) !! t = Some x ->
  schedM (update_task t f) k = Done (tt, set_sched (set_tasks (insert t (f x)) (k_sched k)) k).
Proof. intros E. apply schedM_done. unfold update_task, bind, task_at. by rewrite E. Qed.
Lemma proc_at_done k t u : k_proc k !! t = Some u -> proc_at t k = Done (u, k).
Proof. intros E. unfold proc_at. by rewrite E. Qed.

Lemma set_tasks_twice t x y s : set_tasks (insert t x) (set_tasks (insert t y) s) = set_tasks (insert t x) s.
Proof. unfold set_tasks. cbn. by rewrite insert_insert_eq. Qed.

Lemma set_pid_tasks b l f s : set_pid_pool b l (set_tasks f s) = set_tasks f (set_pid_pool b l s).
Proof. done. Qed.

(** The child's PCB after the first copy. *)
Definition child_pcb (x : task) (p : Z) : task :=
  mk_task (self_kstack x) p TASK_READY (name x) (priority x) (priority x) 0 (Sched.fd_table x)
    (pgdir x) (cwd_inode_nr x) (pid x) (exit_status x) (stack_magic x) (saved x).

Definition child_vaddr (v : virtual_addr) : virtual_addr :=
  mk_vaddr (mk_bitmap (btmp_bytes_len (vaddr_bitmap v)) (take (Z.to_nat (bitmap_pg_cnt * PG_SIZE)) (bits (vaddr_bitmap v))))
    (vaddr_start v).

Lemma kst_eq a b : k_mem a = k_mem b -> k_sched a = k_sched b -> k_fs a = k_fs b -> k_vaddr a = k_vaddr b ->
  k_proc a = k_proc b -> a = b.
Proof. destruct a, b. cbn. by intros -> -> -> -> ->. Qed.

Ltac kproj := cbn [k_mem k_sched k_fs k_vaddr k_proc set_mem set_sched set_fs set_vaddrs set_proc].
Ltac kstep lem := erewrite bind_done; [|lem].

Lemma copy_pcb_spec k t r x u i b btmp s3 :
  tasks (k_sched k) !! r = Some x -> k_proc k !! r = Some u ->
  (forall f, allocate_pid (set_tasks f (k_sched k)) = Done (i + 1, set_pid_pool b slock_init (set_tasks f (k_sched k)))) ->
  get_kernel_pages bitmap_pg_cnt (k_mem k) = Done (btmp, s3) -> btmp <> 0 ->
  bitmap_pg_cnt * PG_SIZE <= Z.of_nat (length (bits (vaddr_bitmap (userprog_vaddr (k_mem k))))) ->
  copy_pcb_vaddrbitmap_stack0 t r k =
    Done (0, mk_kst s3 (set_tasks (insert t (child_pcb x (i + 1))) (set_pid_pool b slock_init (k_sched k))) (k_fs k)
      (<[t := child_vaddr (userprog_vaddr (k_mem k))]> (k_vaddr k))
      (<[t := mk_uproc btmp block_desc_init (u_kstack u)]> (k_proc k))).
Proof.
  intros Hx Hu Hpid Hpg Hnz Hlen. unfold copy_pcb_vaddrbitmap_stack0.
  kstep ltac:(by apply schedM_task). kstep ltac:(by apply proc_at_done). kstep ltac:(done).
  kstep ltac:(by apply schedM_done). kstep ltac:(done). kstep ltac:(done).
  kstep ltac:(apply schedM_done; apply (Hpid (insert t x))).
  do 5 (kstep ltac:(apply schedM_update; cbn; apply lookup_insert_eq)). kstep ltac:(done).
  kstep ltac:(apply memM_done; exact Hpg).
  rewrite (proj2 (Z.eqb_neq btmp NULL)) by done. cbv zeta. rewrite (proj2 (Z.leb_le _ _) Hlen). kstep ltac:(done). kstep ltac:(done). kstep ltac:(done).
  unfold ret. do 2 f_equal. apply kst_eq; kproj; [done| |done| |].
  - by rewrite !set_tasks_twice, set_pid_tasks, set_tasks_twice.
  - by rewrite insert_insert_eq.
  - by rewrite !insert_insert_eq.
Qed.

(** The child's kernel stack: the parent's, with the return value 0 in the
    interrupt frame and below it a frame from which [switch_to] returns to
    [intr_exit]. *)
Definition child_stack (intr_exit : Z) (m : gmap Z Z) : gmap Z Z :=
  <[INTR_STACK - 5 * 4 := 0]> (<[INTR_STACK - 4 * 4 := 0]> (<[INTR_STACK - 3 * 4 := 0]> (<[INTR_STACK - 2 * 4 := 0]>
    (<[INTR_STACK - 4 := intr_exit]> (<[EAX := 0]> m))))).

Definition child_saved (intr_exit : Z) (m : gmap Z Z) : intr_status :=
  if Z.testbit (default 0 (child_stack intr_exit m !! EFLAGS)) 9 then INTR_ON else INTR_OFF.

(** The child's PCB when [fork] returns. *)
Definition child_task (intr_exit t d p : Z) (x : task) (m : gmap Z Z) : task :=
  mk_task (u32 (t + INTR_STACK - 5 * 4)) p TASK_READY (name x) (priority x) (priority x) 0 (Sched.fd_table x)
    d (cwd_inode_nr x) (pid x) (exit_status x) (stack_magic x) (child_saved intr_exit m).

Lemma build_child_stack_spec intr_exit k t y u :
  tasks (k_sched k) !! t = Some y -> k_proc k !! t = Some u ->
  build_child_stack intr_exit t k =
    Done (0, mk_kst (k_mem k)
      (set_tasks (insert t (with_saved (child_saved intr_exit (u_kstack u)) (with_kstack (u32 (t + INTR_STACK - 5 * 4)) y))) (k_sched k))
      (k_fs k) (k_vaddr k) (<[t := mk_uproc (u_bits u) (u_block_desc u) (child_stack intr_exit (u_kstack u))]> (k_proc k))).
Proof.
  intros Hy Hu. unfold build_child_stack. kstep ltac:(by apply proc_at_done). kstep ltac:(done).
  kstep ltac:(by apply schedM_update). kstep ltac:(apply schedM_update; cbn; apply lookup_insert_eq).
  unfold ret. do 2 f_equal. apply kst_eq; kproj; [done| |done|done|done].
  by rewrite set_tasks_twice.
Qed.

Section fork_spec.
Context (intr_exit : Z) (k : kst) (t r : Z) (x : task) (u : uproc).
Context (i : Z) (b : bitmap) (buf btmp d : Z) (s1 s2 s3 s4 s5 s6 : mst) (f : fs).
Context (Hx : tasks (k_sched k) !! r = Some x) (Hu : k_proc k !! r = Some u).
Context (Hpid : forall g, allocate_pid (set_tasks g (k_sched k)) = Done (i + 1, set_pid_pool b slock_init (set_tasks g (k_sched k)))).
Context (E1 : get_kernel_pages 1 (k_mem k) = Done (t, s1)) (E2 : get_kernel_pages 1 s1 = Done (buf, s2)).
Context (E3 : get_kernel_pages bitmap_pg_cnt s2 = Done (btmp, s3)) (E4 : create_page_dir s3 = Done (d, s4)).
Context (E5 : copy_body_stack3 d buf s4 = Done (tt, s5)) (E6 : mfree_page PF_KERNEL buf 1 s5 = Done (tt, s6)).
Context (Hnz : t <> 0 /\ buf <> 0 /\ btmp <> 0 /\ d <> 0).
Context (Euv : userprog_vaddr s2 = userprog_vaddr (k_mem k)).
Context (Hlen : bitmap_pg_cnt * PG_SIZE <= Z.of_nat (length (bits (vaddr_bitmap (userprog_vaddr (k_mem k)))))).
Context (Ef : update_inode_open_cnts (Sched.fd_table x) (k_fs k) = Done (tt, f)).

Let copied : kst :=
  mk_kst s6 (set_tasks (insert t (child_task intr_exit t d (i + 1) x (u_kstack u))) (set_pid_pool b slock_init (k_sched k))) f
    (<[t := child_vaddr (userprog_vaddr (k_mem k))]> (k_vaddr k))
    (<[t := mk_uproc btmp block_desc_init (child_stack intr_exit (u_kstack u))]> (k_proc k)).

Lemma copy_process_spec : copy_process intr_exit t r (set_mem s1 k) = Done (0, copied).
Proof.
  unfold copy_process. kstep ltac:(apply memM_done; exact E2).
  rewrite (proj2 (Z.eqb_neq buf NULL)) by apply Hnz.
  kstep ltac:(apply (copy_pcb_spec _ t r x u i b btmp s3); kproj; [done|done|done|exact E3|apply Hnz|by rewrite Euv]).
  change (0 =? -1) with false. cbn iota. kstep ltac:(apply memM_done; exact E4).
  kstep ltac:(apply schedM_update; kproj; cbn [tasks set_tasks]; apply lookup_insert_eq).
  rewrite (proj2 (Z.eqb_neq d NULL)) by apply Hnz. kstep ltac:(apply memM_done; exact E5).
  kstep ltac:(apply build_child_stack_spec; kproj; [cbn [tasks set_tasks]; apply lookup_insert_eq|apply lookup_insert_eq]).
  kstep ltac:(apply schedM_task; kproj; cbn [tasks set_tasks]; apply lookup_insert_eq).
  kstep ltac:(apply fsM_done; exact Ef). kstep ltac:(apply memM_done; exact E6).
  unfold ret. do 2 f_equal. apply kst_eq; unfold copied; kproj; [done| |done| |].
  - by rewrite !set_tasks_twice.
  - by rewrite Euv.
  - by rewrite insert_insert_eq.
Qed.

Context (Hr : running (k_sched k) = r) (Hoff : if_set (k_sched k) = false) (Hpg : pgdir x <> 0).
Context (Hnr : t ∉ thread_ready_list (k_sched k)) (Hna : t ∉ thread_all_list (k_sched k)).

Lemma sys_fork_spec :
  sys_fork intr_exit k = Done (i + 1, set_sched (set_all (fun l => l ++ [t]) (set_ready (fun l => l ++ [t]) (k_sched copied))) copied).
Proof.
  unfold sys_fork. kstep ltac:(done). rewrite Hr. kstep ltac:(apply memM_done; exact E1).
  rewrite (proj2 (Z.eqb_neq t NULL)) by apply Hnz.
  kstep ltac:(apply schedM_done; apply intr_get_status_eq).
  change (k_sched (set_mem s1 k)) with (k_sched k). rewrite Hoff.
  change (set_sched (k_sched k) (set_mem s1 k)) with (set_mem s1 k).
  kstep ltac:(by apply schedM_task).
  rewrite bool_decide_eq_true_2, (proj2 (Z.eqb_neq (pgdir x) 0)) by done. cbn [negb andb]. kstep ltac:(done).
  kstep ltac:(apply copy_process_spec). change (0 =? -1) with false. cbn iota.
  kstep ltac:(by apply schedM_done). change (thread_ready_list (k_sched copied)) with (thread_ready_list (k_sched k)).
  rewrite elem_find_false by done. kstep ltac:(done). kstep ltac:(by apply schedM_done). kstep ltac:(done).
  rewrite elem_find_false by done. kstep ltac:(done). kstep ltac:(by apply schedM_done).
  kstep ltac:(apply schedM_task; kproj; cbn [tasks set_all set_ready set_tasks]; apply lookup_insert_eq).
  done.
Qed.
End fork_spec.

Lemma bitmap_pg_cnt_val : bitmap_pg_cnt = 23.
Proof. done. Qed.

(** ** The contract *)

(** The caller is a process in a system call: interrupts are off, there is a
    pid left and room for the child, free kernel pages hold no PCB, and its
    descriptors are good. *)
Record fork_ready (k : kst) (x : task) (u : uproc) : Prop := {
  fr_sched : sched_wf (k_sched k);
  fr_off : if_set (k_sched k) = false;
  fr_task : tasks (k_sched k) !! running (k_sched k) = Some x;
  fr_proc : k_proc k !! running (k_sched k) = Some u;
  fr_pgdir : pgdir x = cur_pgdir (k_mem k);
  fr_mem : fork_room (bitmap_pg_cnt + 3) (k_mem k);
  fr_bits : Z.of_nat (length (bits (vaddr_bitmap (userprog_vaddr (k_mem k))))) = bitmap_pg_cnt * PG_SIZE;
  fr_pcb : forall j, 0 <= j < vsize (kernel_vaddr (k_mem k)) -> vused (kernel_vaddr (k_mem k)) j = false ->
    tasks (k_sched k) !! vpage (kernel_vaddr (k_mem k)) j = None;
  fr_pid : exists i, 0 <= i < 1024 /\ used (pid_bitmap (k_sched k)) i = false;
  fr_fds : Sched.fd_table x = Fsdata.fd_table (k_fs k) /\ length (Sched.fd_table x) = 8%nat;
  fr_files : Forall (fd_ok (k_fs k)) (drop 3 (Sched.fd_table x));
  fr_counts : (forall g y, arr_get (file_table (k_fs k)) g = Some y -> is_u32 (fd_pos y)) /\
    (forall a y, inodes (k_fs k) !! a = Some y -> is_u32 (i_open_cnts y))
}.

Record forked (intr_exit : Z) (k k' : kst) (x : task) (u : uproc) (t p c d : Z) : Prop := {
  (** the scheduler has one more thread, ready to run, the parent's child *)
  fd_new : t <> 0 /\ tasks (k_sched k) !! t = None;
  fd_tasks : tasks (k_sched k') = <[t := child_task intr_exit t d p x (u_kstack u)]> (tasks (k_sched k));
  fd_ready : thread_ready_list (k_sched k') = thread_ready_list (k_sched k) ++ [t];
  fd_all : thread_all_list (k_sched k') = thread_all_list (k_sched k) ++ [t];
  fd_running : running (k_sched k') = running (k_sched k);
  fd_sched : sched_wf (k_sched k');
  fd_pid : forall t', pidof (k_sched k) t' <> Some p;
  (** its address space is a copy *)
  fd_space : child_space c d (k_mem k) (k_mem k');
  fd_vaddr : k_vaddr k' = <[t := userprog_vaddr (k_mem k)]> (k_vaddr k);
  (** its stack returns 0 from the same system call *)
  fd_proc : exists btmp, k_proc k' = <[t := mk_uproc btmp block_desc_init (child_stack intr_exit (u_kstack u))]> (k_proc k);
  (** its descriptors are counted *)
  fd_files : counted (k_fs k) (k_fs k') (drop 3 (Sched.fd_table x))
}.

Lemma fork_pid_same s g i b :
  allocate_pid s = Done (i + 1, set_pid_pool b slock_init s) ->
  allocate_pid (set_tasks g s) = Done (i + 1, set_pid_pool b slock_init (set_tasks g s)).
Proof.
  unfold allocate_pid, bind, pid_lock_acquire, pid_lock_release, set_pid_bit, lift, gets, ret.
  cbn [running pid_lock pid_bitmap pid_start set_tasks set_pid_pool].
  destruct (slock_acquire _ _) as [l|]; [|done]. cbn [obind running pid_lock pid_bitmap pid_start set_tasks set_pid_pool].
  destruct (bitmap_scan _ _) as [j|]; [|done]. cbn [obind running pid_lock pid_bitmap pid_start set_tasks set_pid_pool].
  destruct (bitmap_set _ _ _) as [b'|]; [|done]. cbn [obind running pid_lock pid_bitmap pid_start set_tasks set_pid_pool].
  destruct (slock_release _ _) as [l'|]; [|done]. cbn [obind running pid_lock pid_bitmap pid_start set_tasks set_pid_pool].
  intros [= E1 E2 E3]. by rewrite E1, E2, E3.
Qed.

Lemma child_vaddr_copy v : Z.of_nat (length (bits (vaddr_bitmap v))) = bitmap_pg_cnt * PG_SIZE -> child_vaddr v = v.
Proof.
  intros E. unfold child_vaddr. rewrite take_ge by lia. by destruct v as [[] ?].
Qed.

(** C6: [fork] makes a second process that is a copy of the first.  When the
    system has room, [sys_fork] returns to the parent the pid of a new process,
    a pid no process had; the child is queued after all the ready threads, with
    the parent as its parent, a full time slice, and a kernel stack from which
    it returns 0 from the same system call; its address space has a copy of
    every page of the parent's, in frames that were free, and nothing else; the
    parent's pages, their contents and the allocator's invariant (seen from
    both processes) are kept; every file and pipe the child inherits is counted
    once more; and the scheduler's invariant holds. *)
Theorem sys_fork_correct (intr_exit : Z) (k : kst) (x : task) (u : uproc) (Hready : fork_ready k x u) :
  exists k' t p c d, sys_fork intr_exit k = Done (p, k') /\ 1 <= p <= 1024 /\ forked intr_exit k k' x u t p c d.
Proof.
  destruct Hready as [Hs Hoff Hx Hu Hpg Hm Hbits Hpcb Hpid [Hfd Hlen8] Hfiles [Hc1 Hc2]]. pose proof Hs as [Hi _].
  destruct (i_pidmap _ Hi) as (B1 & B2 & B3 & B4).
  destruct (allocate_pid_spec (k_sched k)) as (i & b & Ep & Hir & Hiu & Hb & Hn & Hub); try done; [by apply running_nonzero|].
  destruct (fork_memory bitmap_pg_cnt (k_mem k))
    as (t & buf & btmp & d & s1 & s2 & s3 & s4 & s5 & s6 & c & E1 & E2 & E3 & E4 & E5 & E6 & (j & Hj & Hju & Et) & T1 & T2 & T3 & T4 & Euv & CS).
  { replace (1 + (1 + (bitmap_pg_cnt + (1 + 0)))) with (bitmap_pg_cnt + 3) by lia. done. }
  { rewrite bitmap_pg_cnt_val. lia. }
  assert (tasks (k_sched k) !! t = None) as Hnone by (rewrite Et; by apply Hpcb).
  assert (t ∉ thread_ready_list (k_sched k)) as Hnr by (rewrite (i_ready _ Hi); unfold stat; by rewrite Hnone).
  assert (t ∉ thread_all_list (k_sched k)) as Hna by (rewrite (proj2 (i_all _ Hi)), Hnone; by intros []).
  destruct (update_open_cnts_spec (k_fs k) (Sched.fd_table x) (drop 3 (Sched.fd_table x)) (take 3 (Sched.fd_table x)) (k_fs k) 3)
    with (l := @nil Z) as (f & Ef & Cf); try done.
  { by rewrite take_drop. }
  { rewrite length_take, Hlen8. done. }
  { by apply counted_nil. }
  rewrite length_drop, Hlen8 in Ef.
  destruct (fo_pgdir _ _ Hm) as [Hkva _]. rewrite <- Hpg in Hkva.
  pose proof (sys_fork_spec intr_exit k t (running (k_sched k)) x u i b buf btmp d s1 s2 s3 s4 s5 s6 f Hx Hu
    (fun g => fork_pid_same _ g i b Ep) E1 E2 E3 E4 E5 E6) as Efork.
  eexists _, t, (i + 1), c, d. split; [apply Efork; try done; try lia; unfold kernel_va in Hkva; lia|]. split; [lia|].
  destruct (new_thread_wf (k_sched k) (set_all (fun l => l ++ [t]) (set_ready (fun l => l ++ [t])
    (set_tasks (insert t (child_task intr_exit t d (i + 1) x (u_kstack u))) (set_pid_pool b slock_init (k_sched k)))))
    t (child_task intr_exit t d (i + 1) x (u_kstack u)) i b) as [Hwf' Hfresh]; try done; [lia|exact (i_magic _ Hi _ _ Hx)|].
  split; kproj; try done.
  - split; [lia|done].
  - by rewrite child_vaddr_copy.
  - eauto.
Qed.

(** ** A process with one page and one open file, and the idle thread *)
Definition ex_parent : task :=
  mk_task 0xc009efb4 2 TASK_RUNNING [] 31 31 0 [0; 1; 2; 3; -1; -1; -1; -1] 0xc0100000 0 1 0 0x19870916 INTR_ON.
Definition ex_idle : task := mk_task 0xc009dfb4 1 TASK_BLOCKED [] 10 10 0 [0; 1; 2; -1; -1; -1; -1; -1] 0 0 (-1) 0 0x19870916 INTR_ON.
Definition ex_fork_sst : sst :=
  mk_sst (<[0xc009e000 := ex_parent]> (<[0xc009d000 := ex_idle]> ∅)) [] [0xc009e000; 0xc009d000]
    0xc009e000 0xc009d000 0xc009d000 0x2 (mk_bitmap 128 (3 :: replicate 127 0)) 1 slock_init 0x100000 0xc009f000 0 [].
(** The interrupt frame of the call: [eax] holds the call's number, [eflags] has IF set. *)
Definition ex_uproc : uproc := mk_uproc 0xc0101000 block_desc_init (<[EAX := 24]> (<[EFLAGS := 0x202]> ∅)).
Definition ex_kst : kst := mk_kst ex_fork_mst ex_fork_sst ex_fs ∅ (<[0xc009e000 := ex_uproc]> ∅).

Lemma ex_fork_tasks t x : tasks ex_fork_sst !! t = Some x ->
  (t = 0xc009e000 /\ x = ex_parent) \/ (t = 0xc009d000 /\ x = ex_idle).
Proof. cbn [tasks ex_fork_sst]. rewrite !lookup_insert, lookup_empty. repeat case_decide; intros [= <-]; auto. Qed.

Lemma ex_fork_sst_wf : sched_wf ex_fork_sst.
Proof.
  split; [split|done].
  - constructor.
  - intros t. split; [by intros ?%not_elem_of_nil|]. intros (x & E & Hx)%stat_lookup.
    apply ex_fork_tasks in E as [[-> ->]|[-> ->]]; done.
  - intros t (x & E & Hx)%stat_lookup. apply ex_fork_tasks in E as [[-> ->]|[-> ->]]; done.
  - by eexists.
  - split; [by apply (bool_decide_unpack _); vm_compute|]. intros t. split.
    + cbn [thread_all_list ex_fork_sst]. intros [->|[->|[]%not_elem_of_nil]%elem_of_cons]%elem_of_cons; by eexists.
    + intros [x [[-> _]|[-> _]]%ex_fork_tasks]; cbn; set_solver.
  - by eexists.
  - intros t (x & E & Hx)%stat_lookup. apply ex_fork_tasks in E as [[-> ->]|[-> ->]]; done.
  - done.
  - intros t x [[-> ->]|[-> ->]]%ex_fork_tasks; done.
  - split_and!; try done. split; cbn; [lia| |lia]. repeat constructor; unfold is_u8; lia.
  - intros t p. unfold pidof. intros (x & E & ->)%fmap_Some.
    apply ex_fork_tasks in E as [[-> ->]|[-> ->]]; cbn; by split; [lia|].
  - intros t t' p. unfold pidof. intros (x & E & ->)%fmap_Some (x' & E' & Hp)%fmap_Some.
    apply ex_fork_tasks in E as [[-> ->]|[-> ->]]; apply ex_fork_tasks in E' as [[-> ->]|[-> ->]]; done.
Qed.

Lemma ex_fork_files g y : arr_get (file_table ex_fs) g = Some y -> is_u32 (fd_pos y).
Proof.
  intros E. assert (Forall (fun y => fd_pos y = 0) (file_table ex_fs)) as HF by (repeat constructor).
  rewrite (arr_get_Forall _ _ _ _ HF E). unfold is_u32. lia.
Qed.

Lemma ex_fork_ready : fork_ready ex_kst ex_parent ex_uproc.
Proof.
  split.
  - apply ex_fork_sst_wf.
  - done.
  - done.
  - done.
  - done.
  - exact ex_fork_ok.
  - cbn [k_mem ex_kst userprog_vaddr ex_fork_mst vaddr_bitmap first_used bits length]. rewrite length_replicate.
    rewrite bitmap_pg_cnt_val. unfold PG_SIZE. lia.
  - intros j Hj _. destruct (tasks (k_sched ex_kst) !! vpage (kernel_vaddr (k_mem ex_kst)) j) as [x|] eqn:E; [|done].
    exfalso. change (tasks ex_fork_sst !! (0xc0100000 + j * 4096) = Some x) in E.
    apply ex_fork_tasks in E as [[E _]|[E _]]; lia.
  - exists 2. by vm_compute.
  - done.
  - cbn [ex_parent Sched.fd_table drop]. repeat apply Forall_cons_2; try (by left).
    right. split; [by vm_compute|]. exists (mk_file 0 2 8192). split; [done|]. split; [unfold is_u32; cbn; lia|].
    intros _. by exists ex_file_inode.
  - split; [exact ex_fork_files|]. intros a y. cbn [k_fs ex_kst inodes ex_fs]. rewrite !lookup_insert, lookup_empty.
    repeat case_decide; intros [= <-]; unfold is_u32; cbn; lia.
Qed.

Lemma sys_fork_correct_witness :
  exists k' t p c d, sys_fork 0xc0001500 ex_kst = Done (p, k') /\ 1 <= p <= 1024 /\
    forked 0xc0001500 ex_kst k' ex_parent ex_uproc t p c d.
Proof. exact (sys_fork_correct 0xc0001500 ex_kst ex_parent ex_uproc ex_fork_ready). Defined.
