(* ===== verification/Process.v ===== *)
(** * Process: the creation of a process and its first run ([userprog/process.c])

    [process_execute] makes the PCB, the empty bitmap, the page directory and
    the stack of a new process and queues it.  When the scheduler picks it,
    [process_activate] loads its directory and [switch_to] its stack, which
    leads through [kernel_thread] to [start_process]: this maps the page of the
    user stack and builds the interrupt frame from which [intr_exit] goes to
    user mode.  The state is that of [Fork]. *)

From stdpp Require Import base numbers list gmap.
From S2P Require Import Prelude.
From S2P Require Import Bitmap.
From S2P Require Import Interrupt.
From S2P Require Import Hardware.
From S2P Require Import Seqlock.
From S2P Require Import Paging.
From S2P Require Import Memory.
From S2P Require Import Kpages.
From S2P Require Import Procmem.
From S2P Require Import Bothviews.
From S2P Require Import Addrspace.
From S2P Require Import Forkmem.
From S2P Require Import Userpages.
From S2P Require Import Arena.
From S2P Require Import Sched.
From S2P Require Import Fork.

Local Open Scope Z_scope.
Local Open Scope kernel_scope.

Definition default_prio : Z := 31.
Definition USER_STACK3_VADDR : Z := 0xc0000000 - 0x1000.
Definition EFLAGS_MBS : Z := Z.shiftl 1 1.
Definition EFLAGS_IF_1 : Z := Z.shiftl 1 9.
Definition EFLAGS_IOPL_0 : Z := Z.shiftl 0 12.

(** Words of the page of thread [t], at [base] and the given offsets. *)
Definition put_words (t base : Z) (l : list (Z * Z)) : M kst unit :=
  let! u := proc_at t in
  put_proc t (mk_uproc (u_bits u) (u_block_desc u)
    (foldl (fun m '(o, w) => <[base - t + o := w]> m) (u_kstack u) l)).

(** ** Set-up of the PCB *)

(** [init_thread] clears the PCB first; the rest of the page, with the stack,
    is as [get_kernel_pages] gave it: 0. *)
Definition init_thread (pthread : Z) (name : list Z) (prio : Z) : M kst unit :=
  put_proc pthread (mk_uproc 0 (replicate DESC_CNT (mk_desc 0 0 [])) ∅) ;;;
  modify (fun k => set_vaddrs (<[pthread := mk_vaddr (mk_bitmap 0 []) 0]> (k_vaddr k)) k) ;;;
  schedM (Sched.init_thread pthread name prio).

Definition create_user_vaddr_bitmap (user_prog : Z) : M kst unit :=
  let! u := proc_at user_prog in
  let! b := memM (get_kernel_pages bitmap_pg_cnt) in
  (* the result is not tested: [bitmap_init] would clear memory from address 0 *)
  (if b =? NULL then halt Out_of_bounds else ret tt) ;;;
  let fresh := mk_bitmap ((0xc0000000 - USER_VADDR_START) / PG_SIZE / 8) (replicate (Z.to_nat (bitmap_pg_cnt * PG_SIZE)) 0) in
  let! vaddr_bitmap := lift (bitmap_init fresh) in
  put_proc user_prog (mk_uproc b (u_block_desc u) (u_kstack u)) ;;;
  modify (fun k => set_vaddrs (<[user_prog := mk_vaddr vaddr_bitmap USER_VADDR_START]> (k_vaddr k)) k).

Section process.
(** Addresses of code: [kernel_thread] and [start_process]. *)
Context (kernel_thread start_process_addr : Z).

(** [struct thread_stack]: ebp, ebx, edi, esi, eip, unused_retaddr, function, func_arg. *)
Definition thread_create (pthread function func_arg : Z) : M kst unit :=
  schedM (Sched.thread_create pthread) ;;;
  let! x := schedM (task_at pthread) in
  put_words pthread (self_kstack x)
    [(16, kernel_thread); (24, function); (28, func_arg); (8, 0); (12, 0); (4, 0); (0, 0)].

Definition process_execute (filename : Z) (name : list Z) : M kst unit :=
  let! thread := memM (get_kernel_pages 1) in
  (* not tested either: the PCB would be at address 0 *)
  (if thread =? NULL then halt Out_of_bounds else ret tt) ;;;
  init_thread thread name default_prio ;;;
  create_user_vaddr_bitmap thread ;;;
  thread_create thread start_process_addr filename ;;;
  let! d := memM create_page_dir in
  schedM (update_task thread (with_pgdir d)) ;;;
  let! u := proc_at thread in
  put_proc thread (mk_uproc (u_bits u) block_desc_init (u_kstack u)) ;;;
  let! old_status := schedM intr_disable in
  let! found := schedM (elem_find_ready thread) in
  assertM (negb found) ;;;
  schedM (modify (set_ready (fun l => l ++ [thread]))) ;;;
  let! all := gets (fun k => thread_all_list (k_sched k)) in
  assertM (negb (bool_decide (thread ∈ all))) ;;;
  schedM (modify (set_all (fun l => l ++ [thread]))) ;;;
  let! _ := schedM (intr_set_status old_status) in
  ret tt.
End process.

(** ** The first run *)
Definition process_activate (p_thread : Z) : M kst unit :=
  assertM (negb (p_thread =? 0)) ;;;
  let! x := schedM (task_at p_thread) in
  memM (Procmem.page_dir_activate (pgdir x)) ;;;
  let! c := gets (fun k => cr3 (machine (k_mem k))) in
  schedM (modify (fun s => set_cpu c (if negb (pgdir x =? 0) then u32 (p_thread + PG_SIZE) else tss_esp0 s) s)).

(** [switch_to] makes another thread's PCB the one [running_thread] finds. *)
Definition switch_to (next : Z) : M kst unit := fun k =>
  olet x := oget (tasks (k_sched k) !! next) Page_fault in
  olet v := oget (k_vaddr k !! next) Page_fault in
  Done (tt, mk_kst (entered (cr3 (machine (k_mem k))) next (pgdir x) v (k_mem k)) (set_running next (k_sched k)) (k_fs k)
              (<[running (k_sched k) := userprog_vaddr (k_mem k)]> (k_vaddr k)) (k_proc k)).

(** The result is the value loaded into [esp] before [jmp intr_exit].  The
    addition to [self_kstack], a [uint32_t*], is scaled by 4. *)
Definition start_process (filename_ : Z) : M kst Z :=
  let! cur := gets (fun k => running (k_sched k)) in
  schedM (update_task cur (fun x => with_kstack (u32 (self_kstack x + 4 * 32)) x)) ;;;
  let! x := schedM (task_at cur) in
  let proc_stack := self_kstack x in
  put_words cur proc_stack [(16, 0); (12, 0); (8, 0); (4, 0)] ;;;
  put_words cur proc_stack [(32, 0); (28, 0); (24, 0); (20, 0)] ;;;
  put_words cur proc_stack [(36, 0)] ;;;
  put_words cur proc_stack [(40, SELECTOR_U_DATA); (44, SELECTOR_U_DATA); (48, SELECTOR_U_DATA)] ;;;
  put_words cur proc_stack [(56, filename_)] ;;;
  put_words cur proc_stack [(60, SELECTOR_U_CODE)] ;;;
  put_words cur proc_stack [(64, Z.lor (Z.lor EFLAGS_IOPL_0 EFLAGS_MBS) EFLAGS_IF_1)] ;;;
  let! stack := memM (get_a_page PF_USER USER_STACK3_VADDR) in
  put_words cur proc_stack [(68, u32 (stack + PG_SIZE))] ;;;
  put_words cur proc_stack [(72, SELECTOR_U_DATA)] ;;;
  ret proc_stack.

(** What the scheduler and [kernel_thread] do before it. *)
Definition first_run (t filename_ : Z) : M kst Z :=
  process_activate t ;;;
  switch_to t ;;;
  start_process filename_.

(** ** What a created process is *)
Definition fresh_vaddr : virtual_addr :=
  mk_vaddr (mk_bitmap ((0xc0000000 - USER_VADDR_START) / PG_SIZE / 8) (replicate (Z.to_nat (bitmap_pg_cnt * PG_SIZE)) 0)) USER_VADDR_START.

(** The offset of the first frame in the page: below room for four times the
    interrupt frame, with room for four thread frames. *)
Definition KSTACK : Z := PG_SIZE - 4 * 76 - 4 * 32.

Definition first_stack (kernel_thread start filename : Z) : gmap Z Z :=
  foldl (fun m '(o, w) => <[KSTACK + o := w]> m) ∅
    [(16, kernel_thread); (24, start); (28, filename); (8, 0); (12, 0); (4, 0); (0, 0)].

Definition new_task (t p d : Z) (nm : list Z) : task :=
  mk_task (u32 (t + KSTACK)) p TASK_READY nm default_prio default_prio 0 [0; 1; 2; -1; -1; -1; -1; -1]
    d 0 (-1) 0 0x19870916 INTR_ON.

Lemma bitmap_init_fresh n m : 0 <= n -> (Z.to_nat n <= m)%nat ->
  bitmap_init (mk_bitmap n (replicate m 0)) = Done (mk_bitmap n (replicate m 0)).
Proof.
  intros Hn Hm. unfold bitmap_init. cbn [btmp_bytes_len bits]. rewrite length_replicate, decide_True by done.
  do 2 f_equal. rewrite drop_replicate, <- replicate_add. f_equal. lia.
Qed.

Lemma put_words_done t base l k u : k_proc k !! t = Some u ->
  put_words t base l k = Done (tt, set_proc (<[t := mk_uproc (u_bits u) (u_block_desc u)
    (foldl (fun m '(o, w) => <[base - t + o := w]> m) (u_kstack u) l)]> (k_proc k)) k).
Proof. intros E. unfold put_words. by rewrite (bind_done _ _ _ _ _ (proc_at_done _ _ _ E)). Qed.

(** Writes in a row are one write. *)
Lemma put_words_twice {A} t base l1 l2 (m : M kst A) k :
  (put_words t base l1 ;;; put_words t base l2 ;;; m) k = (put_words t base (l1 ++ l2) ;;; m) k.
Proof.
  destruct (k_proc k !! t) as [u|] eqn:E.
  - rewrite (bind_done _ _ _ _ _ (put_words_done _ _ _ _ _ E)), (bind_done _ _ _ _ _ (put_words_done _ _ _ _ _ E)).
    erewrite bind_done; [|apply put_words_done; kproj; apply lookup_insert_eq].
    f_equal. unfold set_proc. cbn. by rewrite insert_insert_eq, foldl_app.
  - unfold put_words, bind, proc_at. by rewrite E.
Qed.

Lemma kernel_page_range st v : mem_wf st -> (exists k, 0 <= k < vsize (kernel_vaddr st) /\ v = vpage (kernel_vaddr st) k) ->
  PG_SIZE <= v /\ v + PG_SIZE <= 0xffc00000.
Proof.
  intros Hwf (k & Hk & ->). destruct (mw_vaddr st Hwf PF_KERNEL) as [_ _ [_ ?] Hn]. cbn [vaddr_of] in *.
  specialize (Hn ltac:(lia)). unfold vpage, PG_SIZE in *. lia.
Qed.

Definition init_task (t p : Z) (nm : list Z) : task :=
  mk_task (u32 (t + PG_SIZE)) p TASK_READY nm default_prio default_prio 0 [0; 1; 2; -1; -1; -1; -1; -1]
    0 0 (-1) 0 0x19870916 INTR_ON.

Definition thread_task (t p prio : Z) (st : task_status) (nm : list Z) : task :=
  mk_task (u32 (t + PG_SIZE)) p st nm prio prio 0 [0; 1; 2; -1; -1; -1; -1; -1] 0 0 (-1) 0 0x19870916 INTR_ON.

Lemma init_thread_run t nm prio k p b : (length nm < TASK_NAME_LEN)%nat ->
  allocate_pid (k_sched k) = Done (p, set_pid_pool b slock_init (k_sched k)) -> u8 prio = prio ->
  init_thread t nm prio k =
    Done (tt, mk_kst (k_mem k) (set_tasks (insert t (thread_task t p prio (if t =? g_main_thread (k_sched k) then TASK_RUNNING else TASK_READY) nm))
        (set_pid_pool b slock_init (k_sched k))) (k_fs k)
      (<[t := mk_vaddr (mk_bitmap 0 []) 0]> (k_vaddr k)) (<[t := mk_uproc 0 (replicate DESC_CNT (mk_desc 0 0 [])) ∅]> (k_proc k))).
Proof.
  intros Hnm Hpid Hp. unfold init_thread. kstep ltac:(done). kstep ltac:(done).
  erewrite schedM_done; [done|]. unfold Sched.init_thread. kproj. kstep ltac:(exact Hpid).
  rewrite (proj2 (Nat.leb_gt _ _) Hnm). kstep ltac:(done). kstep ltac:(done).
  rewrite Hp. reflexivity.
Qed.

Lemma init_thread_done t nm k i b : (length nm < TASK_NAME_LEN)%nat ->
  allocate_pid (k_sched k) = Done (i + 1, set_pid_pool b slock_init (k_sched k)) -> t <> g_main_thread (k_sched k) ->
  init_thread t nm default_prio k =
    Done (tt, mk_kst (k_mem k) (set_tasks (insert t (init_task t (i + 1) nm)) (set_pid_pool b slock_init (k_sched k))) (k_fs k)
      (<[t := mk_vaddr (mk_bitmap 0 []) 0]> (k_vaddr k)) (<[t := mk_uproc 0 (replicate DESC_CNT (mk_desc 0 0 [])) ∅]> (k_proc k))).
Proof. intros Hnm Hpid Hm. rewrite (init_thread_run t nm default_prio k _ b Hnm Hpid eq_refl). by rewrite (proj2 (Z.eqb_neq t _)). Qed.

Lemma vaddr_bytes : (0xc0000000 - USER_VADDR_START) / PG_SIZE / 8 = 94199.
Proof. reflexivity. Qed.

Lemma create_bitmap_done t k u btmp s :
  k_proc k !! t = Some u -> get_kernel_pages bitmap_pg_cnt (k_mem k) = Done (btmp, s) -> btmp <> 0 ->
  create_user_vaddr_bitmap t k =
    Done (tt, mk_kst s (k_sched k) (k_fs k) (<[t := fresh_vaddr]> (k_vaddr k))
      (<[t := mk_uproc btmp (u_block_desc u) (u_kstack u)]> (k_proc k))).
Proof.
  intros Hu E Hb. unfold create_user_vaddr_bitmap. kstep ltac:(by apply proc_at_done). kstep ltac:(apply memM_done; exact E).
  rewrite (proj2 (Z.eqb_neq btmp NULL)) by done. kstep ltac:(done). cbv zeta.
  kstep ltac:(unfold lift; rewrite vaddr_bytes, bitmap_init_fresh; [reflexivity|lia|rewrite bitmap_pg_cnt_val; unfold PG_SIZE; lia]).
  kstep ltac:(done). reflexivity.
Qed.

Lemma thread_create_done kernel_thread t f a k x u :
  4096 <= t <= 0xffbff000 -> tasks (k_sched k) !! t = Some x -> self_kstack x = u32 (t + PG_SIZE) ->
  k_proc k !! t = Some u -> u_kstack u = ∅ ->
  thread_create kernel_thread t f a k =
    Done (tt, mk_kst (k_mem k) (set_tasks (insert t (with_kstack (u32 (t + KSTACK)) x)) (k_sched k)) (k_fs k) (k_vaddr k)
      (<[t := mk_uproc (u_bits u) (u_block_desc u) (first_stack kernel_thread f a)]> (k_proc k))).
Proof.
  intros Ht Hx Hk Hu He.
  assert (u32 (u32 (u32 (t + PG_SIZE) - 4 * 76) - 4 * 32) = t + KSTACK) as E.
  { unfold KSTACK, PG_SIZE. rewrite (u32_id (t + 4096)) by (unfold is_u32; lia).
    rewrite (u32_id (t + 4096 - _)) by (unfold is_u32; lia). rewrite u32_id by (unfold is_u32; lia). lia. }
  assert (u32 (t + KSTACK) = t + KSTACK) as E' by (apply u32_id; unfold is_u32, KSTACK, PG_SIZE; lia).
  unfold thread_create.
  kstep ltac:(apply schedM_done; unfold Sched.thread_create; kstep ltac:(unfold update_task, bind, task_at; rewrite Hx; reflexivity);
    unfold update_task, bind, task_at; cbn [tasks set_tasks modify]; rewrite lookup_insert_eq; reflexivity).
  kstep ltac:(apply schedM_task; kproj; cbn [tasks set_tasks]; apply lookup_insert_eq).
  erewrite put_words_done by (kproj; exact Hu). cbn [self_kstack with_kstack]. rewrite Hk, E.
  do 2 f_equal. apply kst_eq; kproj; [done| |done|done|].
  - rewrite set_tasks_twice. by rewrite E'.
  - replace (t + KSTACK - t) with KSTACK by lia. by rewrite He.
Qed.

Lemma intr_set_status_done (i : intr_status) (s : sst) :
  exists a, intr_set_status i s = Done (a, put_eflags (eflags_with i (cpu_eflags s)) s).
Proof.
  destruct i; cbn [intr_set_status eflags_with].
  - rewrite intr_disable_eq. eauto.
  - rewrite intr_enable_eq. eauto.
Qed.

(** Two lists extended with interrupts off, and the flag restored. *)
Lemma restored (f g : list Z -> list Z) (s : sst) :
  let s1 := set_all f (set_ready g (put_eflags (Z.clearbit (cpu_eflags s) 9) s)) in
  put_eflags (eflags_with (if if_set s then INTR_ON else INTR_OFF) (cpu_eflags s1)) s1 = set_all f (set_ready g s).
Proof. cbv zeta. cbn [cpu_eflags set_all set_ready put_eflags]. unfold if_set. cbn [eflags sst_HasIF]. by rewrite eflags_restore. Qed.

Section process_execute.
Context (kernel_thread start filename : Z) (nm : list Z) (k : kst) (t btmp d i : Z) (b : bitmap) (s1 s2 s3 : mst).
Context (Hnm : (length nm < TASK_NAME_LEN)%nat) (Hpid : allocate_pid (k_sched k) = Done (i + 1, set_pid_pool b slock_init (k_sched k))).
Context (E1 : get_kernel_pages 1 (k_mem k) = Done (t, s1)) (E2 : get_kernel_pages bitmap_pg_cnt s1 = Done (btmp, s2)).
Context (E3 : create_page_dir s2 = Done (d, s3)).
Context (Ht : 4096 <= t <= 0xffbff000) (Hb : btmp <> 0) (Hmain : t <> g_main_thread (k_sched k)).
Context (Hnr : t ∉ thread_ready_list (k_sched k)) (Hna : t ∉ thread_all_list (k_sched k)).

Let done_sched : sst :=
  set_all (fun l => l ++ [t]) (set_ready (fun l => l ++ [t])
    (set_tasks (insert t (new_task t (i + 1) d nm)) (set_pid_pool b slock_init (k_sched k)))).

Lemma process_execute_spec :
  process_execute kernel_thread start filename nm k =
    Done (tt, mk_kst s3 done_sched (k_fs k) (<[t := fresh_vaddr]> (k_vaddr k))
                (<[t := mk_uproc btmp block_desc_init (first_stack kernel_thread start filename)]> (k_proc k))).
Proof.
  unfold process_execute. kstep ltac:(apply memM_done; exact E1).
  rewrite (proj2 (Z.eqb_neq t NULL)) by (unfold NULL; lia). kstep ltac:(done).
  kstep ltac:(apply init_thread_done; [exact Hnm|exact Hpid|done]).
  kstep ltac:(apply create_bitmap_done; kproj; [apply lookup_insert_eq|exact E2|done]).
  kstep ltac:(apply thread_create_done; kproj; [done|cbn [tasks set_tasks]; apply lookup_insert_eq|done|apply lookup_insert_eq|done]).
  kstep ltac:(apply memM_done; kproj; exact E3).
  kstep ltac:(apply schedM_update; kproj; cbn [tasks set_tasks]; apply lookup_insert_eq).
  kstep ltac:(apply proc_at_done; kproj; apply lookup_insert_eq). kstep ltac:(done).
  kstep ltac:(apply schedM_done; apply intr_disable_eq).
  kstep ltac:(by apply schedM_done). kproj.
  change (thread_ready_list (set_eflags _ _)) with (thread_ready_list (k_sched k)). rewrite elem_find_false by done.
  kstep ltac:(done). kstep ltac:(by apply schedM_done). kstep ltac:(done). kproj.
  change (thread_all_list (set_ready _ _)) with (thread_all_list (k_sched k)). rewrite elem_find_false by done.
  kstep ltac:(done). kstep ltac:(by apply schedM_done).
  edestruct intr_set_status_done as [a Ea]. kstep ltac:(apply schedM_done; exact Ea).
  unfold ret. do 2 f_equal. apply kst_eq; kproj; [done| |done| |].
  - rewrite !set_tasks_twice. apply restored.
  - by rewrite insert_insert_eq.
  - by rewrite !insert_insert_eq.
Qed.
End process_execute.

(** ** What it does to memory *)
Lemma process_memory n st :
  0 <= n -> kernel_room (bitmap_pg_cnt + 2 + n) 1 st ->
  exists t btmp d c s1 s2 s3,
    get_kernel_pages 1 st = Done (t, s1) /\ get_kernel_pages bitmap_pg_cnt s1 = Done (btmp, s2) /\
    create_page_dir s2 = Done (d, s3) /\
    (exists j, 0 <= j < vsize (kernel_vaddr st) /\ vused (kernel_vaddr st) j = false /\ t = vpage (kernel_vaddr st) j /\
       vused (kernel_vaddr s3) j = true) /\
    4096 <= t <= 0xffbff000 /\ btmp <> 0 /\ kernel_va d /\ translate (machine s3) d = Done c /\
    kept st s3 /\ new_space (cr3 (machine st)) c s3 /\ kernel_room n 1 s3.
Proof.
  intros Hn R. rewrite bitmap_pg_cnt_val in *. replace (23 + 2 + n) with (1 + (23 + (1 + n))) in R by lia.
  destruct (room_page (23 + (1 + n)) 1 st R ltac:(lia)) as (t & jt & s1 & E1 & [(kt & Hkt & Et & Hktu & Hku) _ _ _] & Ht & R1 & K1 & _).
  destruct (room_alloc 23 (1 + n) 1 s1 R1 ltac:(lia) ltac:(lia)) as (r & ids & s2 & E2 & Hr & Hrc & _ & _ & R2 & K2).
  destruct (create_page_dir_spec n 1 s2 R2 ltac:(lia)) as (d & jd & s3 & E3 & [(kd & Hkd & Ed & _) _ Da _] & Hd & R3 & K3 & N3).
  pose proof (kept_trans _ _ _ K1 K2) as K12. rewrite (kt_cr3 _ _ K12) in N3.
  destruct (kernel_page_range st t (kr_wf _ _ _ R)) as [T1 T2]; [eauto|]. unfold PG_SIZE in T1, T2.
  exists t, (vpage (kernel_vaddr s1) r), d, (pframe (kernel_pool s2) jd), s1, s2, s3. split_and!; try done; try lia.
  - exists kt. split_and!; [lia..|done|done|]. pose proof (kept_trans _ _ _ K2 K3) as K23. apply (kt_kva _ _ K23); [lia|done].
  - pose proof (kr_kva _ _ _ R1). unfold vpage, PG_SIZE. lia.
  - destruct Da as (_ & Db & _). unfold kernel_va. lia.
  - destruct Da as (_ & _ & _ & Da). specialize (Da 0 ltac:(lia)). by rewrite !Z.add_0_r in Da.
  - by eapply kept_trans.
Qed.

(** ** The first run *)
Definition words_at (m : gmap Z Z) (base : Z) (n : nat) : list Z :=
  (fun i => default 0 (m !! (base + 4 * Z.of_nat i))) <$> seq 0 n.

Definition FRAME : Z := PG_SIZE - 4 * 76.

Definition STACK_PAGE : Z := vsize fresh_vaddr - 1.

Lemma fresh_vaddr_facts : vaddr_wf fresh_vaddr /\ vsize fresh_vaddr = 753592 /\
  vpage fresh_vaddr STACK_PAGE = USER_STACK3_VADDR /\ vpage fresh_vaddr (vsize fresh_vaddr) = 0xc0000000.
Proof.
  assert (vsize fresh_vaddr = 753592) as Hs by (unfold vsize, fresh_vaddr, nbits; cbn [vaddr_bitmap btmp_bytes_len]; by rewrite vaddr_bytes).
  split_and!.
  - unfold fresh_vaddr. rewrite vaddr_bytes. apply empty_vaddr_wf; [lia| |done|unfold USER_VADDR_START, PG_SIZE; lia..].
    rewrite bitmap_pg_cnt_val. unfold PG_SIZE. lia.
  - done.
  - unfold STACK_PAGE, vpage. rewrite Hs. done.
  - unfold vpage. rewrite Hs. done.
Qed.

Section first_run.
Context (k : kst) (t d c p : Z) (x : task) (u : uproc) (filename : Z).
Context (Hx : tasks (k_sched k) !! t = Some x) (Hv : k_vaddr k !! t = Some fresh_vaddr) (Hu : k_proc k !! t = Some u).
Context (Ht : 4096 <= t <= 0xffbff000) (Hd : pgdir x = d) (Hks : self_kstack x = u32 (t + KSTACK)).
Context (N : new_space p c (k_mem k)) (Hkd : kernel_va d) (Htd : translate (machine (k_mem k)) d = Done c).
Context (Hl : pool_lock (user_pool (k_mem k)) = slock_init) (Huf : (0 < ufree (k_mem k))%nat) (Hkf : (0 < kfree (k_mem k))%nat).

Let st : mst := entered c t d fresh_vaddr (k_mem k).

Lemma stack_page_spec : exists i st', get_a_page PF_USER USER_STACK3_VADDR st = Done (USER_STACK3_VADDR, st') /\
  page_taken st st' STACK_PAGE i.
Proof.
  destruct fresh_vaddr_facts as (Fw & Fs & Fp & Fe).
  rewrite <- Fp. apply (get_a_page_spec st STACK_PAGE).
  - by apply (new_space_entered p); [| |rewrite Fe].
  - change (t <> 0). lia.
  - change (d <> 0). unfold kernel_va in Hkd. lia.
  - left. exact Hl.
  - change (userprog_vaddr st) with fresh_vaddr. unfold STACK_PAGE. lia.
  - apply empty_unused.
  - exact Huf.
  - exact Hkf.
Qed.

Definition user_frame (m : gmap Z Z) : gmap Z Z :=
  foldl (fun m '(o, w) => <[FRAME + o := w]> m) m
    [(16, 0); (12, 0); (8, 0); (4, 0); (32, 0); (28, 0); (24, 0); (20, 0); (36, 0);
     (40, SELECTOR_U_DATA); (44, SELECTOR_U_DATA); (48, SELECTOR_U_DATA); (56, filename); (60, SELECTOR_U_CODE);
     (64, Z.lor (Z.lor EFLAGS_IOPL_0 EFLAGS_MBS) EFLAGS_IF_1); (68, u32 (USER_STACK3_VADDR + PG_SIZE)); (72, SELECTOR_U_DATA)].

Lemma first_run_spec : exists i st', page_taken st st' STACK_PAGE i /\
  first_run t filename k = Done (t + FRAME,
    mk_kst st' (set_tasks (insert t (with_kstack (t + FRAME) x)) (set_running t (set_cpu c (u32 (t + PG_SIZE)) (k_sched k)))) (k_fs k)
      (<[running (k_sched k) := userprog_vaddr (k_mem k)]> (k_vaddr k))
      (<[t := mk_uproc (u_bits u) (u_block_desc u) (user_frame (u_kstack u))]> (k_proc k))).
Proof.
  destruct stack_page_spec as (i & st' & E & P). exists i, st'. split; [done|].
  assert (d <> 0) as Hd0 by (unfold kernel_va in Hkd; lia).
  assert (u32 (u32 (t + KSTACK) + 4 * 32) = t + FRAME) as Ek.
  { unfold KSTACK, FRAME, PG_SIZE. rewrite (u32_id (t + _)) by (unfold is_u32; lia). rewrite u32_id by (unfold is_u32; lia). lia. }
  unfold first_run.
  kstep ltac:(unfold process_activate; rewrite (proj2 (Z.eqb_neq t 0)) by lia; kstep ltac:(done); kstep ltac:(by apply schedM_task);
    rewrite Hd; kstep ltac:(apply memM_done; apply (activate_spec _ d c); [apply (ns_wf _ _ _ N)|done|done]); kstep ltac:(done);
    apply schedM_done; rewrite (proj2 (Z.eqb_neq d 0)) by done; reflexivity).
  kstep ltac:(unfold switch_to; kproj; cbn [tasks set_cpu]; rewrite Hx, Hv; cbn [obind oget]; rewrite Hd; reflexivity).
  unfold start_process. kstep ltac:(done).
  kstep ltac:(apply schedM_update; kproj; cbn [tasks set_running set_cpu running]; exact Hx).
  kstep ltac:(apply schedM_task; kproj; cbn [tasks set_tasks running set_running]; apply lookup_insert_eq).
  cbn [self_kstack with_kstack]. rewrite Hks, Ek. cbv zeta. cbn [running set_running set_sched k_sched].
  rewrite !put_words_twice. kstep ltac:(apply put_words_done; kproj; exact Hu).
  kstep ltac:(apply memM_done; kproj; exact E).
  rewrite put_words_twice. kstep ltac:(apply put_words_done; kproj; apply lookup_insert_eq).
  unfold ret. do 2 f_equal. apply kst_eq; kproj; [done|done|done|done|].
  rewrite insert_insert_eq. cbn [u_bits u_block_desc u_kstack]. rewrite <- foldl_app.
  replace (t + FRAME - t) with FRAME by lia. done.
Qed.
End first_run.

(** ** The contract *)

(** There is room for a process: kernel pages for its PCB, bitmap and
    directory, a frame for its stack and for the stack's page table, a pid; and
    no free kernel page holds a PCB. *)
Record create_ready (k : kst) : Prop := {
  cr_sched : sched_wf (k_sched k);
  cr_mem : kernel_room (bitmap_pg_cnt + 2) 1 (k_mem k);
  cr_user : (0 < ufree (k_mem k))%nat /\ pool_lock (user_pool (k_mem k)) = slock_init;
  cr_pcb : forall j, 0 <= j < vsize (kernel_vaddr (k_mem k)) -> vused (kernel_vaddr (k_mem k)) j = false ->
    tasks (k_sched k) !! vpage (kernel_vaddr (k_mem k)) j = None /\ vpage (kernel_vaddr (k_mem k)) j <> g_main_thread (k_sched k);
  cr_pid : exists i, 0 <= i < 1024 /\ used (pid_bitmap (k_sched k)) i = false
}.

(** [t] is the new PCB, [p] its pid, [c] the frame of its directory and [d] the
    directory's address. *)
Record created (kernel_thread start filename : Z) (nm : list Z) (k k' : kst) (t p c d : Z) : Prop := {
  ce_new : 4096 <= t <= 0xffbff000 /\ tasks (k_sched k) !! t = None;
  ce_tasks : tasks (k_sched k') = <[t := new_task t p d nm]> (tasks (k_sched k));
  ce_ready : thread_ready_list (k_sched k') = thread_ready_list (k_sched k) ++ [t];
  ce_all : thread_all_list (k_sched k') = thread_all_list (k_sched k) ++ [t];
  ce_running : running (k_sched k') = running (k_sched k) /\ eflags (k_sched k') = eflags (k_sched k);
  ce_sched : sched_wf (k_sched k');
  ce_pid : 1 <= p <= 1024 /\ forall t', pidof (k_sched k) t' <> Some p;
  (** nothing of the creator changed; the new directory has the kernel's half *)
  ce_kept : kept (k_mem k) (k_mem k');
  ce_space : new_space (cr3 (machine (k_mem k))) c (k_mem k');
  ce_dir : kernel_va d /\ translate (machine (k_mem k')) d = Done c;
  ce_vaddr : k_vaddr k' = <[t := fresh_vaddr]> (k_vaddr k);
  (** [switch_to] pops four registers and returns to [kernel_thread(start_process, filename)] *)
  ce_proc : exists btmp, k_proc k' = <[t := mk_uproc btmp block_desc_init (first_stack kernel_thread start filename)]> (k_proc k);
  ce_stack : words_at (first_stack kernel_thread start filename) KSTACK 8 = [0; 0; 0; 0; kernel_thread; 0; start; filename]
}.

(** The process about to enter user mode, with [esp] at the frame that
    [intr_exit] pops. *)
Record started (filename : Z) (k k' : kst) (t c esp : Z) : Prop := {
  sd_wf : mem_wf (k_mem k') /\ cr3 (machine (k_mem k')) = c;
  sd_running : running (k_sched k') = t /\ cur (k_mem k') = t /\ tss_esp0 (k_sched k') = t + PG_SIZE;
  (** one page for the stack, in a frame that was free, and nothing else *)
  sd_stack : exists i, 0 <= i < psize (user_pool (k_mem k)) /\ pused (user_pool (k_mem k)) i = false /\
    page_at (machine (k_mem k')) 0xbffff000 (pframe (user_pool (k_mem k)) i);
  sd_only : forall va, USER_VADDR_START <= va < 0xbffff000 -> unmapped (machine (k_mem k')) va;
  sd_used : forall j, 0 <= j -> vused (userprog_vaddr (k_mem k')) j = bool_decide (vpage fresh_vaddr j = 0xbffff000);
  (** vec_no, the eight registers, gs, fs, es, ds, err_code, eip, cs, eflags
      with IF, esp at the top of the stack page, ss *)
  sd_frame : exists u, k_proc k' !! t = Some u /\
    words_at (u_kstack u) (esp - t) 19 =
      [0; 0; 0; 0; 0; 0; 0; 0; 0; 0; SELECTOR_U_DATA; SELECTOR_U_DATA; SELECTOR_U_DATA; 0;
       filename; SELECTOR_U_CODE; 0x202; 0xc0000000; SELECTOR_U_DATA]
}.

Lemma first_run_started kernel_thread start filename nm k k' t p c d :
  created kernel_thread start filename nm k k' t p c d ->
  (0 < ufree (k_mem k'))%nat -> (0 < kfree (k_mem k'))%nat -> pool_lock (user_pool (k_mem k')) = slock_init ->
  exists esp k2, first_run t filename k' = Done (esp, k2) /\ started filename k' k2 t c esp.
Proof.
  intros [[Ht _] Htasks _ _ _ _ _ _ Hsp [Hkd Htd] Hv (btmp & Hp) _] Huf Hkf Hl.
  destruct (first_run_spec k' t d c (cr3 (machine (k_mem k))) (new_task t p d nm)
    (mk_uproc btmp block_desc_init (first_stack kernel_thread start filename)) filename) as (i & st' & P & E); try done.
  { by rewrite Htasks, lookup_insert_eq. } { by rewrite Hv, lookup_insert_eq. } { by rewrite Hp, lookup_insert_eq. }
  eexists _, _. split; [exact E|].
  destruct fresh_vaddr_facts as (Fw & Fs & Fp & Fe). destruct P as [P1 P2 _ P4 P5 _ P7 P8 P9 _ _ _ _].
  change (userprog_vaddr (entered _ _ _ _ _)) with fresh_vaddr in *.
  split; kproj.
  - done.
  - split_and!; [done|apply P4|]. cbn. apply u32_id. unfold is_u32, PG_SIZE. lia.
  - exists i. rewrite Fp in P8. destruct P7 as (? & ? & _). split; [done|split; done].
  - intros va Hva. unfold unmapped. rewrite P9.
    + change (machine (entered c t d fresh_vaddr (k_mem k'))) with (view c (k_mem k')).
      assert (user_va va) as Hu by (unfold user_va, USER_VADDR_START in *; lia).
      rewrite (ns_translate _ _ _ Hsp) by auto. by rewrite decide_True.
    + exists PF_USER, ((va - USER_VADDR_START) / PG_SIZE). cbn [vaddr_of entered userprog_vaddr]. rewrite Fs.
      unfold vpage, fresh_vaddr, PG_SIZE, USER_VADDR_START in *. cbn [vaddr_start].
      pose proof (Z.div_mod (va - 134512640) 4096 ltac:(lia)). pose proof (Z.mod_pos_bound (va - 134512640) 4096 ltac:(lia)).
      split; lia.
    + rewrite Fp. unfold USER_STACK3_VADDR. lia.
  - intros j Hj. destruct P2 as (_ & _ & _ & P2). rewrite P2 by done. case_decide as Hd.
    + subst j. rewrite Fp. by rewrite bool_decide_eq_true_2.
    + rewrite bool_decide_eq_false_2; [apply empty_unused|]. intros Ej. apply Hd.
      assert (vpage fresh_vaddr j = vpage fresh_vaddr STACK_PAGE) as Ev by (by rewrite Fp).
      unfold vpage, PG_SIZE in Ev. lia.
  - eexists. split; [apply lookup_insert_eq|]. replace (t + FRAME - t) with FRAME by lia. by vm_compute.
Qed.

(** C8: a new process is created and enters user mode as it should.  When the
    system has room and the name fits [name[16]], [process_execute] returns; then a new thread is in the
    scheduler, READY and last in the queue, with a fresh pid, while the creator
    and the interrupt flag are as they were; it has an address space with the
    kernel's part and no user page, an empty bitmap, and a kernel stack that
    starts [start_process].  When it is dispatched, [start_process] returns
    with one page for the stack mapped at the top of the user space, in a frame
    that was free, that page and no other taken in its bitmap, and a frame on
    its kernel stack from which [intr_exit] goes to the program's first
    instruction in ring 3, with interrupts on and the stack pointer at the top
    of the user space. *)
Theorem process_execute_correct (kernel_thread start filename : Z) (nm : list Z) (k : kst)
  (Hname : (length nm < TASK_NAME_LEN)%nat) (Hready : create_ready k) :
  exists k' t p c d, process_execute kernel_thread start filename nm k = Done (tt, k') /\
    created kernel_thread start filename nm k k' t p c d /\
    exists esp k2, first_run t filename k' = Done (esp, k2) /\ started filename k' k2 t c esp.
Proof.
  destruct Hready as [Hs Hm [Huf Hlk] Hpcb Hpid]. pose proof Hs as [Hi _].
  destruct (i_pidmap _ Hi) as (B1 & B2 & B3 & B4).
  destruct (allocate_pid_spec (k_sched k)) as (i & b & Ep & Hir & Hiu & Hb & Hn & Hub); try done; [by apply running_nonzero|].
  rewrite <- (Z.add_0_r (bitmap_pg_cnt + 2)) in Hm. destruct (process_memory 0 (k_mem k) ltac:(lia) Hm)
    as (t & btmp & d & c & s1 & s2 & s3 & E1 & E2 & E3 & (j & Hj & Hju & Et & _) & Ht & Hbt & Hkd & Htd & K & N & R3).
  assert (0 < kfree s3)%nat as Hkf by (pose proof (kr_frames _ _ _ R3); lia).
  destruct (Hpcb j Hj Hju) as [Hnone Hmain]. rewrite <- Et in Hnone, Hmain.
  assert (t ∉ thread_ready_list (k_sched k)) as Hnr by (rewrite (i_ready _ Hi); unfold stat; by rewrite Hnone).
  assert (t ∉ thread_all_list (k_sched k)) as Hna by (rewrite (proj2 (i_all _ Hi)), Hnone; by intros []).
  eexists _, t, (i + 1), c, d.
  assert (forall A B C : Prop, A -> B -> (B -> C) -> A /\ B /\ C) as Hstep by tauto. apply Hstep; clear Hstep.
  - by apply (process_execute_spec kernel_thread start filename nm k t btmp d i b s1 s2 s3).
  - destruct (new_thread_wf (k_sched k) (set_all (fun l => l ++ [t]) (set_ready (fun l => l ++ [t])
      (set_tasks (insert t (new_task t (i + 1) d nm)) (set_pid_pool b slock_init (k_sched k)))))
      t (new_task t (i + 1) d nm) i b) as [Hwf' Hfresh]; try done; [lia|].
    split; kproj; try done.
    + split; [lia|done].
    + eauto.
  - intros Hce. apply (first_run_started _ _ _ _ _ _ _ _ _ _ Hce); kproj.
    + unfold ufree in *. by rewrite (kt_upool _ _ K).
    + done.
    + by rewrite (kt_upool _ _ K).
Qed.

(** The example of [Fork] has room for a process too. *)
Lemma kernel_room_le n m x st : kernel_room n x st -> 0 <= m <= n -> kernel_room m x st.
Proof.
  intros [R1 R2 R3 (s0 & H1 & H2 & H3) R5 R6 R7 R8 R9] Hm. split; try done.
  - exists s0. split_and!; [lia|lia|]. intros i Hi. apply H3. lia.
  - lia.
Qed.

Lemma ex_create_ready : create_ready ex_kst.
Proof.
  destruct ex_fork_ready as [F1 F2 F3 F4 F5 F6 F7 F8 F9 F10 F11 F12]. split.
  - done.
  - apply (kernel_room_le (bitmap_pg_cnt + 3)); [|rewrite bitmap_pg_cnt_val; lia].
    pose proof (fo_room _ _ F6) as R. change (k_mem ex_kst) with ex_fork_mst in *. by rewrite ex_fork_pages in R.
  - split; [|done]. pose proof (fo_ufree _ _ F6) as R. change (k_mem ex_kst) with ex_fork_mst in *. by rewrite ex_fork_pages in R.
  - intros j Hj Hju. split; [by apply F8|]. change (0xc0100000 + j * 4096 <> 0xc009d000). lia.
  - done.
Qed.

Lemma process_execute_correct_witness :
  exists k' t p c d, process_execute 0xc0001600 0xc0001700 0x8048000 [105; 110; 105; 116] ex_kst = Done (tt, k') /\
    created 0xc0001600 0xc0001700 0x8048000 [105; 110; 105; 116] ex_kst k' t p c d /\
    exists esp k2, first_run t 0x8048000 k' = Done (esp, k2) /\ started 0x8048000 k' k2 t c esp.
Proof. exact (process_execute_correct 0xc0001600 0xc0001700 0x8048000 [105; 110; 105; 116] ex_kst
  ltac:(cbn; unfold TASK_NAME_LEN; lia) ex_create_ready). Defined.
