(* ===== verification/Threadinit.v ===== *)
(** * Threadinit: the first threads ([thread/thread.c] [thread_init])

    At boot there is no thread, only the code of [main] on the stack in the page
    that becomes its PCB.  [thread_init] sets up the lists and the pids, makes
    the process [init], turns [main] into a thread and starts the idle thread.
    After it the scheduler's invariant holds: it is where the histories that
    [Sched] is about begin. *)

From stdpp Require Import base numbers list gmap.
From S2P Require Import Prelude.
From S2P Require Import Bitmap.
From S2P Require Import Interrupt.
From S2P Require Import Seqlock.
From S2P Require Import Paging.
From S2P Require Import Memory.
From S2P Require Import Kpages.
From S2P Require Import Procmem.
From S2P Require Import Bothviews.
From S2P Require Import Addrspace.
From S2P Require Import Forkmem.
From S2P Require Import Userpages.
From S2P Require Import Arena.
From S2P Require Import Sched.
From S2P Require Import Fork.
From S2P Require Import Process.

Local Open Scope Z_scope.
Local Open Scope kernel_scope.

Definition set_g_main_thread (t : Z) (s : sst) : sst :=
  mk_sst (tasks s) (thread_ready_list s) (thread_all_list s) (running s) (idle_thread s) t (cpu_eflags s) (pid_bitmap s)
    (pid_start s) (pid_lock s) (cpu_cr3 s) (tss_esp0 s) (sys_ticks s) (freed_pages s).
Definition set_idle_thread (t : Z) (s : sst) : sst :=
  mk_sst (tasks s) (thread_ready_list s) (thread_all_list s) (running s) t (g_main_thread s) (cpu_eflags s) (pid_bitmap s)
    (pid_start s) (pid_lock s) (cpu_cr3 s) (tss_esp0 s) (sys_ticks s) (freed_pages s).
Definition set_pid_start (z : Z) (s : sst) : sst :=
  mk_sst (tasks s) (thread_ready_list s) (thread_all_list s) (running s) (idle_thread s) (g_main_thread s) (cpu_eflags s) (pid_bitmap s)
    z (pid_lock s) (cpu_cr3 s) (tss_esp0 s) (sys_ticks s) (freed_pages s).

(** The bits are those of the array [pid_bitmap_bits]. *)
Definition pid_pool_init : M sst unit :=
  modify (set_pid_start 1) ;;;
  let! b := gets pid_bitmap in
  let! b := lift (bitmap_init (mk_bitmap 128 (bits b))) in
  modify (set_pid_pool b slock_init).

(** Clearing the PCB of the running thread also clears its [pgdir] and its
    [userprog_vaddr], which the memory manager uses. *)
Definition no_vaddr : virtual_addr := mk_vaddr (mk_bitmap 0 []) 0.
Definition clear_running (st : mst) : mst :=
  mk_mst (machine st) (kernel_pool st) (user_pool st) (kernel_vaddr st) (cur st) 0 no_vaddr.

Definition name_main : list Z := [109; 97; 105; 110].
Definition name_init : list Z := [105; 110; 105; 116].
Definition name_idle : list Z := [105; 100; 108; 101].

Definition make_main_thread : M kst unit :=
  let! main := gets (fun k => running (k_sched k)) in
  schedM (modify (set_g_main_thread main)) ;;;
  memM (modify clear_running) ;;;
  init_thread main name_main 31 ;;;
  let! all := gets (fun k => thread_all_list (k_sched k)) in
  assertM (negb (bool_decide (main ∈ all))) ;;;
  schedM (modify (set_all (fun l => l ++ [main]))).

Section thread_init.
(** Addresses of code. *)
Context (kernel_thread start_process_addr init idle : Z).

Definition thread_start (name : list Z) (prio function func_arg : Z) : M kst Z :=
  let! thread := memM (get_kernel_pages 1) in
  (* not tested: the PCB would be at address 0 *)
  (if thread =? NULL then halt Out_of_bounds else ret tt) ;;;
  init_thread thread name prio ;;;
  thread_create kernel_thread thread function func_arg ;;;
  let! found := schedM (elem_find_ready thread) in
  assertM (negb found) ;;;
  schedM (modify (set_ready (fun l => l ++ [thread]))) ;;;
  let! all := gets (fun k => thread_all_list (k_sched k)) in
  assertM (negb (bool_decide (thread ∈ all))) ;;;
  schedM (modify (set_all (fun l => l ++ [thread]))) ;;;
  ret thread.

Definition thread_init : M kst unit :=
  schedM (modify (set_ready (fun _ => []))) ;;;
  schedM (modify (set_all (fun _ => []))) ;;;
  schedM pid_pool_init ;;;
  process_execute kernel_thread start_process_addr init name_init ;;;
  make_main_thread ;;;
  let! t := thread_start name_idle 10 idle 0 in
  schedM (modify (set_idle_thread t)).
End thread_init.

(** ** The pids, one after the other *)
Definition pids (n : Z) : bitmap := mk_bitmap 128 (n :: replicate 127 0).

Lemma allocate_pid_run s b b' i : running s <> 0 -> pid_bitmap s = b -> pid_start s = 1 -> pid_lock s = slock_init ->
  bitmap_scan b 1 = Done i -> bitmap_set b i 1 = Done b' -> 0 <= i < 1024 ->
  allocate_pid s = Done (i + 1, set_pid_pool b' slock_init s).
Proof.
  intros Hr Hb Hst Hl Escan Eset Hi. destruct (slock_roundtrip (running s) (pid_lock s)) as (l & Ea & _ & _ & _ & Er); [done|by left|].
  unfold allocate_pid, bind, pid_lock_acquire. rewrite Ea. cbn [obind gets].
  unfold lift, gets. cbn [pid_bitmap set_pid_pool]. rewrite Hb, Escan. cbn [obind].
  unfold set_pid_bit. cbn [pid_bitmap set_pid_pool]. rewrite Eset. cbn [obind]. unfold pid_lock_release.
  cbn [running pid_lock set_pid_pool]. rewrite Er, Hl. cbn [obind ret pid_start set_pid_pool].
  rewrite Hst. unfold ret, i16. rewrite Z.mod_small by lia. by replace (i + 1 + 32768 - 32768) with (i + 1) by lia.
Qed.

Lemma first_pids s n : running s <> 0 -> pid_bitmap s = pids (2 ^ n - 1) -> pid_start s = 1 -> pid_lock s = slock_init -> 0 <= n < 3 ->
  allocate_pid s = Done (n + 1, set_pid_pool (pids (2 ^ (n + 1) - 1)) slock_init s).
Proof.
  intros Hr Hb Hst Hl Hn. assert (n = 0 \/ n = 1 \/ n = 2) as Hc by lia.
  apply (allocate_pid_run s _ _ n Hr Hb Hst Hl); [..|lia]; destruct Hc as [->|[->| ->]]; by vm_compute.
Qed.

(** ** Three threads *)
Section three.
Context (s : sst) (a m b : Z) (x y z : task).
Context (Htasks : tasks s = <[b := z]> (<[m := y]> (<[a := x]> ∅))) (Ham : a <> m) (Hab : a <> b) (Hmb : m <> b).
Context (H0 : a <> 0 /\ m <> 0 /\ b <> 0).
Context (Hst : status x = TASK_READY /\ status y = TASK_RUNNING /\ status z = TASK_READY).
Context (Hpid : pid x = 1 /\ pid y = 2 /\ pid z = 3).
Context (Hmagic : stack_magic x = 0x19870916 /\ stack_magic y = 0x19870916 /\ stack_magic z = 0x19870916).
Context (Hready : thread_ready_list s = [a; b]) (Hall : thread_all_list s = [a; m; b]).
Context (Hrun : running s = m) (Hidle : idle_thread s = b).
Context (Hbits : pid_bitmap s = pids 7) (Hstart : pid_start s = 1) (Hlock : pid_lock s = slock_init).

Lemma three_lookup t w : tasks s !! t = Some w <-> (t = a /\ w = x) \/ (t = m /\ w = y) \/ (t = b /\ w = z).
Proof.
  rewrite Htasks, !lookup_insert, lookup_empty. split.
  - repeat case_decide; subst; intros [= <-]; auto.
  - intros [[-> ->]|[[-> ->]|[-> ->]]]; repeat case_decide; congruence.
Qed.

Lemma three_threads : sched_wf s.
Proof.
  destruct Hst as (S1 & S2 & S3), Hpid as (P1 & P2 & P3), Hmagic as (M1 & M2 & M3), H0 as (A0 & B0 & C0).
  assert (tasks s !! a = Some x) as Ea by (apply three_lookup; auto).
  assert (tasks s !! m = Some y) as Em by (apply three_lookup; auto).
  assert (tasks s !! b = Some z) as Eb by (apply three_lookup; auto).
  split; [split|].
  - rewrite Hready. repeat constructor; set_solver.
  - intros t. rewrite Hready. split.
    + intros [->|[->|[]%not_elem_of_nil]%elem_of_cons]%elem_of_cons; unfold stat; rewrite ?Ea, ?Eb; cbn; congruence.
    + intros (w & [[-> ->]|[[-> ->]|[-> ->]]]%three_lookup & Hw)%stat_lookup; [set_solver|congruence|set_solver].
  - intros t (w & [[-> ->]|[[-> ->]|[-> ->]]]%three_lookup & Hw)%stat_lookup; congruence.
  - rewrite Hrun. eauto.
  - rewrite Hall. split; [repeat constructor; set_solver|]. intros t. split.
    + intros [->|[->|[->|[]%not_elem_of_nil]%elem_of_cons]%elem_of_cons]%elem_of_cons; eauto.
    + intros [w [[-> _]|[[-> _]|[-> _]]]%three_lookup]; set_solver.
  - rewrite Hidle. eauto.
  - intros t (w & [[-> ->]|[[-> ->]|[-> ->]]]%three_lookup & Hw)%stat_lookup; congruence.
  - destruct (tasks s !! 0) as [w|] eqn:E; [|done]. apply three_lookup in E as [[? _]|[[? _]|[? _]]]; congruence.
  - intros t w [[-> ->]|[[-> ->]|[-> ->]]]%three_lookup; done.
  - rewrite Hbits. split_and!; [|done..]. split; cbn; [lia| |lia]. repeat constructor; unfold is_u8; lia.
  - intros t p. rewrite Hbits. unfold pidof. intros (w & [[-> ->]|[[-> ->]|[-> ->]]]%three_lookup & ->)%fmap_Some;
      rewrite ?P1, ?P2, ?P3; by split; [lia|].
  - intros t t' p. unfold pidof. intros (w & [[-> ->]|[[-> ->]|[-> ->]]]%three_lookup & Hp)%fmap_Some
      (w' & [[-> ->]|[[-> ->]|[-> ->]]]%three_lookup & Hp')%fmap_Some; congruence.
  - rewrite Hrun. unfold stat. rewrite Em. cbn. congruence.
Qed.
End three.

(** ** Clearing the PCB of the running thread *)
Lemma clear_running_wf st : mem_wf st -> mem_wf (clear_running st).
Proof.
  intros [W1 W2 W3 W4 W5 W6 W7 W8 W9 W10].
  assert (forall pf, pool_of pf (clear_running st) = pool_of pf st) as Hp by (by intros []).
  split.
  - exact W1.
  - intros pf. rewrite Hp. apply W2.
  - exact W3.
  - intros []; [apply (W4 PF_KERNEL)|]. split; cbn; [split; cbn; [lia|by constructor|lia]|done|by vm_compute|by vm_compute].
  - by vm_compute.
  - intros pf i. rewrite Hp. apply W6.
  - intros pf i va pa. rewrite Hp. apply W7.
  - intros pf i. rewrite Hp. apply W8.
  - intros [] i va Hi; [apply (W9 PF_KERNEL); exact Hi|]. change (vsize (vaddr_of PF_USER (clear_running st))) with 0 in Hi. lia.
  - assert (forall va, managed (clear_running st) va -> managed st va) as Hm.
    { intros va ([] & i & Hi & Hr); [by exists PF_KERNEL, i|]. change (vsize (vaddr_of PF_USER (clear_running st))) with 0 in Hi. lia. }
    intros va1 va2 H1%Hm H2%Hm. by apply W10.
Qed.

Lemma clear_running_room n x st : kernel_room n x st -> kernel_room n x (clear_running st).
Proof.
  intros [R1 R2 R3 R4 R5 R6 R7 R8 R9]. split; try done.
  by apply clear_running_wf.
Qed.

(** ** The contract *)

(** Nothing was set up but memory: it has room for a process and a thread, and
    the page of [main] is not one it has to give. *)
Record boot_ready (k : kst) : Prop := {
  br_tasks : tasks (k_sched k) = ∅;
  br_main : g_main_thread (k_sched k) = 0;
  br_bits : length (bits (pid_bitmap (k_sched k))) = 128%nat;
  br_room : kernel_room (bitmap_pg_cnt + 2 + 1) 1 (k_mem k);
  br_running : running (k_sched k) <> 0;
  br_pcb : forall j, 0 <= j < vsize (kernel_vaddr (k_mem k)) -> vused (kernel_vaddr (k_mem k)) j = false ->
    vpage (kernel_vaddr (k_mem k)) j <> running (k_sched k)
}.

Definition first_state (s : sst) : sst :=
  set_pid_pool (pids 0) slock_init (set_pid_start 1 (set_all (fun _ => []) (set_ready (fun _ => []) s))).

Lemma pid_pool_init_done s : length (bits (pid_bitmap s)) = 128%nat ->
  pid_pool_init s = Done (tt, set_pid_pool (pids 0) slock_init (set_pid_start 1 s)).
Proof.
  intros Hl. unfold pid_pool_init. kstep ltac:(done). kstep ltac:(done). cbn [pid_bitmap set_pid_start].
  kstep ltac:(unfold lift, bitmap_init; cbn [btmp_bytes_len bits]; rewrite Hl, decide_True by lia; cbn [obind]; reflexivity).
  rewrite drop_ge by lia. rewrite app_nil_r. reflexivity.
Qed.

(** [n] pids were given out. *)
Definition pids_at (n : Z) (s : sst) : Prop :=
  running s <> 0 /\ pid_bitmap s = pids (2 ^ n - 1) /\ pid_start s = 1 /\ pid_lock s = slock_init.

Lemma next_pid n s : pids_at n s -> 0 <= n < 3 -> allocate_pid s = Done (n + 1, set_pid_pool (pids (2 ^ (n + 1) - 1)) slock_init s).
Proof. intros (H1 & H2 & H3 & H4) Hn. by apply first_pids. Qed.

(** [main] becomes a thread. *)
Lemma make_main_done n k : pids_at n (k_sched k) -> 0 <= n < 3 -> running (k_sched k) ∉ thread_all_list (k_sched k) ->
  let main := running (k_sched k) in
  make_main_thread k =
    Done (tt, mk_kst (clear_running (k_mem k))
      (set_all (fun l => l ++ [main]) (set_tasks (insert main (thread_task main (n + 1) 31 TASK_RUNNING name_main))
        (set_pid_pool (pids (2 ^ (n + 1) - 1)) slock_init (set_g_main_thread main (k_sched k))))) (k_fs k)
      (<[main := no_vaddr]> (k_vaddr k)) (<[main := mk_uproc 0 (replicate DESC_CNT (mk_desc 0 0 [])) ∅]> (k_proc k))).
Proof.
  intros Hp Hn Ha main. unfold make_main_thread. kstep ltac:(done). fold main. kstep ltac:(by apply schedM_done). kstep ltac:(by apply memM_done).
  kstep ltac:(apply init_thread_run; [by vm_compute; lia|apply (next_pid n); done|done]). kproj. kstep ltac:(done). kproj.
  change (thread_all_list (set_tasks _ _)) with (thread_all_list (k_sched k)). rewrite elem_find_false by done. kstep ltac:(done).
  erewrite schedM_done by done. kproj. cbn [g_main_thread set_g_main_thread]. rewrite Z.eqb_refl. reflexivity.
Qed.

(** A thread is started. *)
Lemma thread_start_done kernel_thread n k nm prio f a t st : (length nm < TASK_NAME_LEN)%nat -> pids_at n (k_sched k) -> 0 <= n < 3 ->
  get_kernel_pages 1 (k_mem k) = Done (t, st) -> 4096 <= t <= 0xffbff000 -> t <> g_main_thread (k_sched k) -> u8 prio = prio ->
  t ∉ thread_ready_list (k_sched k) -> t ∉ thread_all_list (k_sched k) ->
  thread_start kernel_thread nm prio f a k =
    Done (t, mk_kst st
      (set_all (fun l => l ++ [t]) (set_ready (fun l => l ++ [t])
        (set_tasks (insert t (with_kstack (u32 (t + KSTACK)) (thread_task t (n + 1) prio TASK_READY nm)))
          (set_pid_pool (pids (2 ^ (n + 1) - 1)) slock_init (k_sched k))))) (k_fs k)
      (<[t := no_vaddr]> (k_vaddr k))
      (<[t := mk_uproc 0 (replicate DESC_CNT (mk_desc 0 0 [])) (first_stack kernel_thread f a)]> (k_proc k))).
Proof.
  intros Hnm Hp Hn E Ht Hm Hprio Hr Ha. unfold thread_start. kstep ltac:(apply memM_done; exact E).
  rewrite (proj2 (Z.eqb_neq t NULL)) by (unfold NULL; lia). kstep ltac:(done).
  kstep ltac:(apply init_thread_run; [exact Hnm|apply (next_pid n); done|done]). kproj.
  kstep ltac:(apply thread_create_done; kproj; [done|cbn [tasks set_tasks]; apply lookup_insert_eq|done|apply lookup_insert_eq|done]).
  kstep ltac:(by apply schedM_done). kproj.
  change (thread_ready_list (set_tasks _ _)) with (thread_ready_list (k_sched k)). rewrite elem_find_false by done.
  kstep ltac:(done). kstep ltac:(by apply schedM_done). kstep ltac:(done). kproj.
  change (thread_all_list (set_ready _ _)) with (thread_all_list (k_sched k)). rewrite elem_find_false by done.
  kstep ltac:(done). kstep ltac:(by apply schedM_done).
  rewrite (proj2 (Z.eqb_neq t _)) by done. unfold ret. do 2 f_equal. apply kst_eq; kproj; [done| |done|done|].
  - by rewrite set_tasks_twice.
  - by rewrite insert_insert_eq.
Qed.

(** The state after: [t0] is init, [t1] the idle thread. *)
Record threads_up (kernel_thread start init idle : Z) (k k' : kst) (t0 t1 d : Z) : Prop := {
  tu_wf : sched_wf (k_sched k') /\ mem_wf (k_mem k');
  tu_tasks : tasks (k_sched k') =
    <[t1 := with_kstack (u32 (t1 + KSTACK)) (thread_task t1 3 10 TASK_READY name_idle)]>
      (<[running (k_sched k) := thread_task (running (k_sched k)) 2 31 TASK_RUNNING name_main]>
        (<[t0 := new_task t0 1 d name_init]> ∅));
  tu_lists : thread_ready_list (k_sched k') = [t0; t1] /\ thread_all_list (k_sched k') = [t0; running (k_sched k); t1];
  tu_globals : running (k_sched k') = running (k_sched k) /\ g_main_thread (k_sched k') = running (k_sched k) /\
    idle_thread (k_sched k') = t1;
  tu_flag : eflags (k_sched k') = eflags (k_sched k);
  tu_distinct : t0 <> running (k_sched k) /\ t1 <> running (k_sched k) /\ t0 <> t1;
  tu_space : kernel_va d /\ exists c, translate (machine (k_mem k')) d = Done c;
  (** [switch_to] to either ends in [kernel_thread] with its function and argument *)
  tu_stacks : (u_kstack <$> k_proc k' !! t0) = Some (first_stack kernel_thread start init) /\
    (u_kstack <$> k_proc k' !! t1) = Some (first_stack kernel_thread idle 0)
}.

(** C11: [thread_init] brings the scheduler up.  From the state at boot, with
    memory for a process and a thread, it returns, and then the invariant of the
    scheduler holds, on which everything about threads rests: init has pid 1,
    [main], which goes on running, pid 2 and the idle thread pid 3; init and the
    idle thread are READY, queued in this order, with stacks that start
    [start_process] and [idle]; init has an address space; the interrupt flag is
    as it was. *)
Theorem thread_init_correct (kernel_thread start init idle : Z) (k : kst) (Hboot : boot_ready k) :
  exists k' t0 t1 d, thread_init kernel_thread start init idle k = Done (tt, k') /\
    threads_up kernel_thread start init idle k k' t0 t1 d.
Proof.
  destruct Hboot as [Htasks Hmain Hbits Hroom Hrun Hpcb].
  destruct (process_memory 1 (k_mem k) ltac:(lia) Hroom)
    as (t0 & btmp & d & c & s1 & s2 & s3 & E1 & E2 & E3 & (j0 & Hj0 & Hju0 & Et0 & Hj0') & Ht0 & Hbt & Hkd & Htd & K & N & R3).
  apply clear_running_room in R3.
  destruct (room_page 0 1 (clear_running s3) R3 ltac:(lia)) as (t1 & f1 & s4 & E4 & [(j1 & Hj1 & Et1 & Hju1 & _) _ _ _] & Ht1 & R4 & K4 & _).
  destruct (kernel_page_range (clear_running s3) t1 (kr_wf _ _ _ R3)) as [T1 T2]; [eauto|]. unfold PG_SIZE in T1, T2.
  cbn [kernel_vaddr clear_running] in *. destruct (kt_kva _ _ K) as (Hvs & Hvn & Hvu).
  assert (vused (kernel_vaddr (k_mem k)) j1 = false) as Hu1.
  { destruct (vused (kernel_vaddr (k_mem k)) j1) eqn:Eu; [|done]. rewrite (Hvu j1) in Hju1 by (done || lia). done. }
  assert (t1 = vpage (kernel_vaddr (k_mem k)) j1) as Et1' by (rewrite Et1; unfold vpage; by rewrite Hvs).
  assert (t0 <> running (k_sched k)) as D0 by (rewrite Et0; by apply Hpcb).
  assert (t1 <> running (k_sched k)) as D1 by (rewrite Et1'; apply Hpcb; [lia|done]).
  assert (t0 <> t1) as D01.
  { rewrite Et0, Et1'. unfold vpage, PG_SIZE. intros E. assert (j0 = j1) as -> by lia. congruence. }
  set (main := running (k_sched k)) in *.
  eexists _, t0, t1, d. split.
  - unfold thread_init. kstep ltac:(by apply schedM_done). kstep ltac:(by apply schedM_done).
    kstep ltac:(apply schedM_done, pid_pool_init_done; exact Hbits).
    kstep ltac:(apply (process_execute_spec _ _ _ _ _ t0 btmp d 0 (pids 1) s1 s2 s3); kproj; try done;
      [vm_compute; lia|by apply (first_pids _ 0)|cbn; rewrite Hmain; lia|cbn; set_solver..]).
    kstep ltac:(apply (make_main_done 1); kproj; [done|lia|cbn; set_solver]). kproj.
    kstep ltac:(apply (thread_start_done _ 2); kproj; [vm_compute; lia|done|lia|exact E4|lia|done|done|cbn; set_solver..]).
    apply schedM_done. reflexivity.
  - split; kproj.
    + split; [|exact (kr_wf _ _ _ R4)].
      apply (three_threads _ t0 main t1 (new_task t0 1 d name_init) (thread_task main 2 31 TASK_RUNNING name_main)
        (with_kstack (u32 (t1 + KSTACK)) (thread_task t1 3 10 TASK_READY name_idle))); try done; [cbn; by rewrite Htasks|].
      split_and!; [lia|done|lia].
    + cbn. by rewrite Htasks.
    + done.
    + done.
    + done.
    + done.
    + split; [done|]. exists c. apply (kt_kept _ _ K4); [apply kernel_va_low; done|exact Htd].
    + cbn. split; [rewrite !lookup_insert_ne by done|]; by rewrite lookup_insert_eq.
Qed.

(** At boot, on the memory of [Forkmem]'s example. *)
Definition ex_boot : kst :=
  mk_kst ex_fork_mst (mk_sst ∅ [] [] 0xc009e000 0 0 2 (mk_bitmap 0 (replicate 128 0)) 0 slock_init 0x100000 0 0 []) (k_fs ex_kst) ∅ ∅.

Lemma ex_boot_ready : boot_ready ex_boot.
Proof.
  destruct ex_fork_ready as [F1 F2 F3 F4 F5 F6 F7 F8 F9 F10 F11 F12]. split; [reflexivity|reflexivity|reflexivity| |discriminate|].
  - replace (bitmap_pg_cnt + 2 + 1) with (bitmap_pg_cnt + 3) by lia.
    apply (kernel_room_le (bitmap_pg_cnt + 3)); [|rewrite bitmap_pg_cnt_val; lia].
    pose proof (fo_room _ _ F6) as R. change (k_mem ex_kst) with ex_fork_mst in *. by rewrite ex_fork_pages in R.
  - intros j Hj Hju. change (0xc0100000 + j * 4096 <> 0xc009e000). lia.
Qed.

Lemma thread_init_correct_witness :
  exists k' t0 t1 d, thread_init 0xc0001600 0xc0001700 0xc0001800 0xc0001900 ex_boot = Done (tt, k') /\
    threads_up 0xc0001600 0xc0001700 0xc0001800 0xc0001900 ex_boot k' t0 t1 d.
Proof. exact (thread_init_correct 0xc0001600 0xc0001700 0xc0001800 0xc0001900 ex_boot ex_boot_ready). Defined.
