(* ===== verification/Exit.v ===== *)
(** * Exit: the end of a process ([userprog/wait_exit.c])

    [sys_exit] with [release_prog_resource]: the scheduler's part is [Wait]'s,
    the memory's is [Release]'s, and the open descriptors are closed.  The state
    is that of [Fork]; the switch to the next thread is in the scheduler's part. *)

From stdpp Require Import base numbers list gmap.
From S2P Require Import Prelude.
From S2P Require Import Bitmap.
From S2P Require Import Interrupt.
From S2P Require Import Seqlock.
From S2P Require Import Paging.
From S2P Require Import Memory.
From S2P Require Import Procmem.
From S2P Require Import Bothviews.
From S2P Require Import Release.
From S2P Require Import Arena.
From S2P Require Import Fsdata.
From S2P Require Import File.
From S2P Require Import Fs.
From S2P Require Import Sched.
From S2P Require Import Wait.
From S2P Require Import Fork.

Local Open Scope Z_scope.
Local Open Scope kernel_scope.

(** The running process's descriptors from [local_fd] on.  A pipe whose last
    end is closed gives its page back. *)
Definition release_fd (local_fd : Z) : M kst unit :=
  let! p := fsM (is_pipe local_fd) in
  if p : bool then
    let! global_fd := fsM (fd_local2global local_fd) in
    let! x := fsM (get_file global_fd) in
    let x := set_pos (u32 (fd_pos x - 1)) x in
    fsM (put_file global_fd x) ;;;
    if fd_pos x =? 0 then
      memM (mfree_page PF_KERNEL (fd_inode x) 1) ;;;
      fsM (put_file global_fd (mk_file (fd_pos x) (fd_flag x) 0))
    else ret tt
  else let! _ := fsM (sys_close local_fd) in ret tt.

Fixpoint release_fds (n : nat) (local_fd : Z) : M kst unit :=
  match n with
  | O => ret tt
  | S n =>
      let! table := gets (fun k => Fsdata.fd_table (k_fs k)) in
      let! e := lift (oget (arr_get table local_fd) Out_of_bounds) in
      (if negb (e =? -1) then release_fd local_fd else ret tt) ;;;
      release_fds n (local_fd + 1)
  end.

Definition release_prog_resource (release_thread : Z) : M kst unit :=
  let! x := schedM (task_at release_thread) in
  let! u := proc_at release_thread in
  memM (release_memory (pgdir x) (u_bits u)) ;;;
  release_fds 5 3.

(** [sys_exit] up to the release, and from it. *)
Definition exit_pre (exit_st : Z) : M sst Z :=
  let! child_thread := gets running in
  update_task child_thread (with_exit (i8 exit_st)) ;;;
  let! x := task_at child_thread in
  (if parent_pid x =? -1 then halt Panicked else ret tt) ;;;
  adopt_children (pid x) ;;;
  ret child_thread.

Section exit.
Context (addr_v2p : Z -> Z).

Definition exit_post (child_thread : Z) : M sst unit :=
  let! x := task_at child_thread in
  let! parent_thread := pid2thread (parent_pid x) in
  let! y := task_at parent_thread in
  (if decide (status y = TASK_WAITING) then thread_unblock parent_thread else ret tt) ;;;
  thread_block addr_v2p TASK_HANGING.

Definition sys_exit (exit_st : Z) : M kst unit :=
  let! child_thread := schedM (exit_pre exit_st) in
  release_prog_resource child_thread ;;;
  schedM (exit_post child_thread).

(** Without the release it is the call of [Wait]. *)
Lemma wait_sys_exit st s : Wait.sys_exit addr_v2p st s = bind (exit_pre st) exit_post s.
Proof.
  unfold Wait.sys_exit, exit_pre, bind, gets. destruct (update_task _ _ s) as [[[] s1]|]; [|done].
  destruct (task_at _ s1) as [[x s2]|]; [|done]. destruct (parent_pid x =? -1); [done|]. unfold ret.
  destruct (adopt_children _ s2) as [[[] s3]|]; done.
Qed.

Lemma adopt_pgdir q l t x : forall m : gmap Z task, m !! t = Some x ->
  exists y, foldl (fun m t => alter (init_adopt_a_child q) t m) m l !! t = Some y /\ pgdir y = pgdir x.
Proof.
  induction l as [|t' l IH] in x |- *; intros m Hm; [by exists x|]. cbn [foldl].
  destruct (decide (t' = t)) as [->|Hne].
  - destruct (IH (init_adopt_a_child q x) (alter (init_adopt_a_child q) t m)) as (y & Hy & Ey).
    { by rewrite lookup_alter_eq, Hm. }
    exists y. split; [done|]. rewrite Ey. unfold init_adopt_a_child. by destruct (_ =? _).
  - apply IH. by rewrite lookup_alter_ne.
Qed.

Lemma exit_pre_spec st s c s1 x : tasks s !! running s = Some x -> exit_pre st s = Done (c, s1) ->
  c = running s /\ exists y, tasks s1 !! running s = Some y /\ pgdir y = pgdir x.
Proof.
  intros Hx. unfold exit_pre. erewrite bind_done; [|done].
  erewrite bind_done; [|unfold update_task, bind, task_at; rewrite Hx; reflexivity].
  erewrite bind_done; [|unfold task_at; cbn [tasks set_tasks]; rewrite lookup_insert_eq; reflexivity].
  unfold bind. destruct (_ =? -1); [done|]. unfold ret, adopt_children, modify. intros [= <- <-].
  split; [done|]. cbn [tasks set_tasks]. destruct (adopt_pgdir (pid (with_exit (i8 st) x)) (thread_all_list s) (running s) (with_exit (i8 st) x)
    (<[running s := with_exit (i8 st) x]> (tasks s))) as (y & Hy & Ey); [apply lookup_insert_eq|]. by exists y.
Qed.

(** *** The descriptors, on the file system's state alone

    What [release_fds] does when no descriptor is the last end of a pipe: a
    pipe's end is counted down, any other descriptor goes through [sys_close].
    (The last end would also free the pipe's page; a run that meets one
    halts here.) *)
Definition drop_fd (local_fd : Z) : M fs unit :=
  let! p := is_pipe local_fd in
  if p : bool then
    let! global_fd := fd_local2global local_fd in
    let! x := get_file global_fd in
    if u32 (fd_pos x - 1) =? 0 then halt Page_fault
    else put_file global_fd (set_pos (u32 (fd_pos x - 1)) x)
  else let! _ := sys_close local_fd in ret tt.

Fixpoint drop_fds (n : nat) (local_fd : Z) : M fs unit :=
  match n with
  | O => ret tt
  | S n =>
      let! table := gets Fsdata.fd_table in
      let! e := lift (oget (arr_get table local_fd) Out_of_bounds) in
      (if negb (e =? -1) then drop_fd local_fd else ret tt) ;;;
      drop_fds n (local_fd + 1)
  end.

Lemma release_fd_fs fd k f' : drop_fd fd (k_fs k) = Done (tt, f') -> release_fd fd k = Done (tt, set_fs f' k).
Proof.
  unfold drop_fd, release_fd, bind, fsM. destruct (is_pipe fd (k_fs k)) as [[[] f1]|]; cbn [obind]; [| |done].
  - cbn [k_fs set_fs]. destruct (fd_local2global fd f1) as [[g f2]|]; [|done]. cbn [obind k_fs set_fs].
    destruct (get_file g f2) as [[x f3]|]; [|done]. cbn [obind k_fs set_fs].
    destruct (u32 (fd_pos x - 1) =? 0) eqn:E0; [done|].
    destruct (put_file g _ f3) as [[[] f4]|]; [|done]. intros [= <-]. cbn [obind fd_pos set_pos]. by rewrite E0.
  - cbn [k_fs set_fs]. destruct (sys_close fd f1) as [[r f2]|]; [|done]. by intros [= <-].
Qed.

Lemma release_fds_fs n : forall fd k f', drop_fds n fd (k_fs k) = Done (tt, f') -> release_fds n fd k = Done (tt, set_fs f' k).
Proof.
  induction n as [|n IH]; intros fd k f'; cbn [drop_fds release_fds]; [intros [= <-]; by destruct k|].
  unfold bind at 1, gets at 1. cbn [obind]. unfold bind at 1. unfold lift at 1.
  destruct (oget (arr_get (Fsdata.fd_table (k_fs k)) fd) Out_of_bounds) as [e|] eqn:Ee; [|done]. cbn [obind]. intros E.
  erewrite bind_done; [|done]. erewrite bind_done; [|unfold lift; by rewrite Ee].
  destruct (negb (e =? -1)).
  - unfold bind in E. destruct (drop_fd fd (k_fs k)) as [[[] f1]|] eqn:E1; [|done].
    erewrite bind_done; [|exact (release_fd_fs _ _ _ E1)]. by rewrite (IH _ _ f').
  - unfold bind, ret in E. erewrite bind_done; [|done]. by apply IH.
Qed.

End exit.

(** ** The family of [Wait] with the memory of [Release] and an open file *)
Definition ex_leaving_fs : fs :=
  mk_fs ∅ ex_sb 0 800 (mk_bitmap 0 []) (mk_bitmap 0 []) (<[4096 := ex_root]> (<[8192 := ex_file_inode]> ∅)) [8192; 4096]
    [mk_file 0 0 0; mk_file 0 0 0; mk_file 0 0 0; mk_file 0 2 8192] [0; 1; 2; 3; -1; -1; -1; -1] (mk_dir 4096 0) ∅
    (mk_heap (<[4096 := true]> (<[8192 := true]> ∅)) []) false.
Definition ex_leaving : kst :=
  mk_kst ex_exit_mst ex_family ex_leaving_fs ∅ (<[0xc0130000 := mk_uproc 0xc0101000 block_desc_init ∅]> ∅).
Definition ex_left_fs : fs :=
  mk_fs ∅ ex_sb 0 800 (mk_bitmap 0 []) (mk_bitmap 0 []) (<[4096 := ex_root]> ∅) [4096]
    [mk_file 0 0 0; mk_file 0 0 0; mk_file 0 0 0; mk_file 0 2 0] [0; 1; 2; -1; -1; -1; -1; -1] (mk_dir 4096 0) ∅
    (mk_heap (<[4096 := true]> ∅) []) false.

Lemma ex_leaving_dropped : drop_fds 5 3 ex_leaving_fs = Done (tt, ex_left_fs).
Proof. vm_compute. reflexivity. Qed.

