(* ===== verification/Exec.v ===== *)
(** * Exec: loading a program ([userprog/exec.c])

    [load] reads an ELF file, checks its header and brings every loadable
    segment to its address ([Usermem]); [sys_execv] then rewrites the interrupt
    frame of the running process so that the return from the system call enters
    the program.  The state is that of [Fork]. *)

From stdpp Require Import base numbers list gmap.
From S2P Require Import Prelude.
From S2P Require Import Bitmap.
From S2P Require Import Interrupt.
From S2P Require Import Seqlock.
From S2P Require Import Paging.
From S2P Require Import Memory.
From S2P Require Import Kpages.
From S2P Require Import Procmem.
From S2P Require Import Bothviews.
From S2P Require Import Addrspace.
From S2P Require Import Forkmem.
From S2P Require Import Userpages.
From S2P Require Import Usermem.
From S2P Require Import Arena.
From S2P Require Import Disk.
From S2P Require Import Fsdata.
From S2P Require Import File.
From S2P Require Import Fs.
From S2P Require Import Sched.
From S2P Require Import Wait.
From S2P Require Import Fork.
From S2P Require Import Process.

Local Open Scope Z_scope.
Local Open Scope kernel_scope.

(** ** ELF structures, from the bytes of the file *)
Definition byte_at (l : list Z) (off : nat) : Z := nth off l 0.
Definition half_at (l : list Z) (off : nat) : Z := byte_at l off + 256 * byte_at l (off + 1).
Definition word_at (l : list Z) (off : nat) : Z := half_at l off + 65536 * half_at l (off + 2).

Record Elf32_Ehdr : Type := mk_ehdr {
  e_ident : list Z; e_type : Z; e_machine : Z; e_version : Z; e_entry : Z; e_phoff : Z; e_shoff : Z; e_flags : Z;
  e_ehsize : Z; e_phentsize : Z; e_phnum : Z; e_shentsize : Z; e_shnum : Z; e_shstrndx : Z
}.
Definition ehdr_of_bytes (l : list Z) : Elf32_Ehdr :=
  mk_ehdr (take 16 l) (half_at l 16) (half_at l 18) (word_at l 20) (word_at l 24) (word_at l 28) (word_at l 32) (word_at l 36)
    (half_at l 40) (half_at l 42) (half_at l 44) (half_at l 46) (half_at l 48) (half_at l 50).

Record Elf32_Phdr : Type := mk_phdr {
  p_type : Z; p_offset : Z; p_vaddr : Z; p_paddr : Z; p_filesz : Z; p_memsz : Z; p_flags : Z; p_align : Z
}.
Definition phdr_of_bytes (l : list Z) : Elf32_Phdr :=
  mk_phdr (word_at l 0) (word_at l 4) (word_at l 8) (word_at l 12) (word_at l 16) (word_at l 20) (word_at l 24) (word_at l 28).

Definition PT_LOAD : Z := 1.

(** [fd] comes from [sys_open], so it is a file and neither a pipe nor the
    keyboard. *)
Definition read_file (fd count : Z) : M kst (Z * list Z) :=
  let! r := fsM (sys_read fd count) in
  match r with Io_done n data => ret (n, data) | _ => halt Would_block end.

(** The results of [sys_lseek] and [sys_read] are not tested. *)
Definition segment_load (fd offset filesz vaddr : Z) : M kst bool :=
  let vaddr_first_page := Z.land vaddr 0xfffff000 in
  let! ok := memM (load_pages (Z.to_nat (occupy_pages filesz vaddr)) vaddr_first_page) in
  if negb ok then ret false else
  let! _ := fsM (sys_lseek fd (i32 offset) SEEK_SET) in
  let! (_, data) := read_file fd filesz in
  memM (load_bytes vaddr data) ;;;
  ret true.

(** The magic number, an executable for the 386, this version, and the sizes. *)
Definition bad_header (h : Elf32_Ehdr) : bool :=
  negb (bool_decide (take 7 (e_ident h) = [127; 69; 76; 70; 1; 1; 1])) || negb (e_type h =? 2) || negb (e_machine h =? 3)
  || negb (e_version h =? 1) || (1024 <? e_phnum h) || negb (e_phentsize h =? 32).

Fixpoint load_segments (n : nat) (fd prog_header_offset prog_header_size entry : Z) : M kst Z :=
  match n with
  | O => ret (i32 entry)
  | S n =>
      let! _ := fsM (sys_lseek fd (i32 prog_header_offset) SEEK_SET) in
      let! (r, bytes) := read_file fd prog_header_size in
      if negb (r =? prog_header_size) then ret (-1) else
      let prog_header := phdr_of_bytes bytes in
      let! ok :=
        (if PT_LOAD =? p_type prog_header
         then segment_load fd (p_offset prog_header) (p_filesz prog_header) (p_vaddr prog_header)
         else ret true) in
      if negb ok then ret (-1) else
      load_segments n fd (u32 (prog_header_offset + prog_header_size)) prog_header_size entry
  end.

Section execv.
(** What uninitialised locals hold (see [Fs]). *)
Context (junk_name : list Z) (junk_ino : Z).

Definition load (pathname : list Z) : M kst Z :=
  let! fd := fsM (sys_open junk_name junk_ino pathname O_RDONLY) in
  if fd =? -1 then ret (-1) else
  let! (r, bytes) := read_file fd 52 in
  let! result :=
    (if negb (r =? 52) then ret (-1) else
     let elf_header := ehdr_of_bytes bytes in
     if bad_header elf_header then ret (-1) else
     load_segments (Z.to_nat (e_phnum elf_header)) fd (e_phoff elf_header) (e_phentsize elf_header) (e_entry elf_header)) in
  let! _ := fsM (sys_close fd) in
  ret result.

(** [while (argv[argc]) argc++], in the memory of the running process. *)
Fixpoint count_args (fuel : nat) (m : mmu) (argv argc : Z) : outcome Z :=
  match fuel with
  | O => Halt Out_of_fuel
  | S fuel =>
      olet w := vload m (u32 (argv + 4 * argc)) in
      if w =? 0 then Done argc else count_args fuel m argv (argc + 1)
  end.

Definition with_name (n : list Z) (x : task) : task :=
  mk_task (self_kstack x) (pid x) (status x) n (priority x) (ticks x) (elapsed_ticks x) (Sched.fd_table x)
    (pgdir x) (cwd_inode_nr x) (parent_pid x) (exit_status x) (stack_magic x) (saved x).

(** [inl r]: the call returns [r]; [inr esp]: the jump to [intr_exit] with this
    stack pointer.  The name is the string in the 16 bytes of the PCB. *)
Definition sys_execv (fuel : nat) (path : list Z) (argv : Z) : M kst (Z + Z) :=
  let! st := gets k_mem in
  let! argc := lift (count_args fuel (machine st) argv 0) in
  let! entry_point := load path in
  if entry_point =? -1 then ret (inl (-1)) else
  let! cur := gets (fun k => running (k_sched k)) in
  schedM (update_task cur (with_name (take 15 path))) ;;;
  let intr_0_stack := u32 (cur + PG_SIZE - 76) in
  put_words cur intr_0_stack [(20, argv)] ;;;
  put_words cur intr_0_stack [(28, argc)] ;;;
  put_words cur intr_0_stack [(56, u32 entry_point)] ;;;
  put_words cur intr_0_stack [(68, 0xc0000000)] ;;;
  ret (inr intr_0_stack).
End execv.

(** ** What the file system gives *)

(** The segments of the file as [load] reads them: for each program header its
    fields and, when it is loadable, the bytes read for it. *)
Definition segment_read (fd : Z) (ph : Elf32_Phdr) (data : list Z) (f f' : fs) : Prop :=
  if PT_LOAD =? p_type ph
  then exists z r f1, sys_lseek fd (i32 (p_offset ph)) SEEK_SET f = Done (z, f1) /\ sys_read fd (p_filesz ph) f1 = Done (Io_done r data, f')
  else data = [] /\ f' = f.

Inductive file_gives (fd size : Z) : Z -> list (Elf32_Phdr * list Z) -> fs -> fs -> Prop :=
  | gives_nil off f : file_gives fd size off [] f f
  | gives_cons off z bytes data segs f f1 f2 f3 f' :
      sys_lseek fd (i32 off) SEEK_SET f = Done (z, f1) ->
      sys_read fd size f1 = Done (Io_done size bytes, f2) ->
      segment_read fd (phdr_of_bytes bytes) data f2 f3 ->
      file_gives fd size (u32 (off + size)) segs f3 f' ->
      file_gives fd size off ((phdr_of_bytes bytes, data) :: segs) f f'.

(** ** What memory holds afterwards *)
Definition in_segment (s : Elf32_Phdr * list Z) (va : Z) : Prop :=
  p_type s.1 = PT_LOAD /\ p_vaddr s.1 <= va < p_vaddr s.1 + Z.of_nat (length s.2).

(** Each loadable segment lies in the user space, and no two overlap. *)
Fixpoint segments_fit (v : virtual_addr) (segs : list (Elf32_Phdr * list Z)) : Prop :=
  match segs with
  | [] => True
  | s :: segs =>
      (p_type s.1 = PT_LOAD ->
         vaddr_start v <= p_vaddr s.1 < vpage v (vsize v) /\ 0 <= p_filesz s.1 /\ p_vaddr s.1 + p_filesz s.1 <= vpage v (vsize v) /\
         Z.of_nat (length s.2) <= p_filesz s.1 /\ Forall is_u8 s.2) /\
      (forall s' va, s' ∈ segs -> in_segment s va -> ~ in_segment s' va) /\
      segments_fit v segs
  end.

Fixpoint pages_needed (segs : list (Elf32_Phdr * list Z)) : nat :=
  match segs with
  | [] => 0
  | s :: segs => (if PT_LOAD =? p_type s.1 then Z.to_nat (occupy_pages (p_filesz s.1) (p_vaddr s.1)) else 0) + pages_needed segs
  end.

Record loaded (st st' : mst) (segs : list (Elf32_Phdr * list Z)) : Prop := {
  ld_order : in_order st';
  ld_uva : vaddr_start (userprog_vaddr st') = vaddr_start (userprog_vaddr st) /\ vsize (userprog_vaddr st') = vsize (userprog_vaddr st);
  ld_user : forall va, user_at st va -> user_at st' va;
  ld_bytes : forall s (j : nat) b, s ∈ segs -> p_type s.1 = PT_LOAD -> s.2 !! j = Some b ->
    get_byte (machine st') (p_vaddr s.1 + Z.of_nat j) = Done b;
  ld_others : forall va, user_at st va -> (forall s, s ∈ segs -> ~ in_segment s va) ->
    get_byte (machine st') va = get_byte (machine st) va
}.

Lemma loaded_nil st : in_order st -> loaded st st [].
Proof. intros H. split; try done. by intros s j b ?%not_elem_of_nil. Qed.

Lemma loaded_skip st st' s segs : p_type s.1 <> PT_LOAD -> loaded st st' segs -> loaded st st' (s :: segs).
Proof.
  intros Hp [A B C D E]. split; try done.
  - intros s' j b [->|Hs]%elem_of_cons; [done|]. by apply D.
  - intros va U Hn. apply E; [done|]. intros s' Hs. apply Hn. by right.
Qed.

Lemma loaded_cons st st1 st2 s segs k n :
  segment_there st st1 (p_vaddr s.1) s.2 k n -> p_type s.1 = PT_LOAD ->
  (forall s' va, s' ∈ segs -> in_segment s va -> ~ in_segment s' va) ->
  loaded st1 st2 segs -> loaded st st2 (s :: segs).
Proof.
  intros [S1 (q & m & T & S & Est) S3 S4 S5] Hp Hd [A [B B'] C D E].
  assert (forall va, user_at st va -> user_at st1 va) as Hu.
  { intros va U. rewrite Est. exact (user_at_grow _ _ _ _ _ T U). }
  destruct (th_uva _ _ _ _ T) as [V1 V2]. assert (userprog_vaddr st1 = userprog_vaddr q) as Eu by (by rewrite Est). split.
  - done.
  - rewrite B, B', Eu. done.
  - auto.
  - intros s' j b [->|Hs]%elem_of_cons Hl Hb; [|by apply (D s')].
    assert (in_segment s (p_vaddr s.1 + Z.of_nat j)) as Hin by (split; [done|]; apply lookup_lt_Some in Hb; lia).
    rewrite E; [by apply S4| |].
    + apply S3. apply lookup_lt_Some in Hb. lia.
    + intros s' Hs. by apply Hd.
  - intros va U Hn. rewrite E; [|by apply Hu|intros s' Hs; apply Hn; by right].
    apply S5; [done|]. intros Hin. apply (Hn s); [by left|]. by split.
Qed.

(** ** The loader *)
Lemma read_file_done fd count k r data f : sys_read fd count (k_fs k) = Done (Io_done r data, f) ->
  read_file fd count k = Done ((r, data), set_fs f k).
Proof. intros E. unfold read_file. by rewrite (bind_done _ _ _ _ _ (fsM_done _ _ _ _ E)). Qed.

Lemma segment_load_done fd ph data k f' :
  p_type ph = PT_LOAD -> segment_read fd ph data (k_fs k) f' -> in_order (k_mem k) ->
  segments_fit (userprog_vaddr (k_mem k)) [(ph, data)] ->
  (pages_needed [(ph, data)] <= ufree (k_mem k))%nat -> (pages_needed [(ph, data)] <= kfree (k_mem k))%nat ->
  exists st' i n, segment_load fd (p_offset ph) (p_filesz ph) (p_vaddr ph) k = Done (true, set_fs f' (set_mem st' k)) /\
    segment_there (k_mem k) st' (p_vaddr ph) data i n /\
    (ufree (k_mem k) <= pages_needed [(ph, data)] + ufree st')%nat /\ (kfree (k_mem k) <= pages_needed [(ph, data)] + kfree st')%nat.
Proof.
  intros Hp Hr Ho Hfit. unfold segment_read in Hr. cbn [pages_needed fst]. rewrite Hp in Hr |- *.
  change (PT_LOAD =? PT_LOAD) with true in *. cbn iota in *. intros Hu Hk.
  destruct Hr as (z & r & f1 & E1 & E2). destruct Hfit as [Hf _]. cbn [fst snd] in Hf.
  destruct (Hf Hp) as ([F1 F1'] & F2 & F3 & F4 & F5).
  destruct (segment_memory (k_mem k) (p_vaddr ph) (p_filesz ph) data) as (st1 & st' & L1 & L2 & T & U & K);
    [done|done|done|done|done|lia|lia|done|done|].
  exists st'. eexists _, _. split; [|split; [exact T|lia]].
  unfold segment_load. cbv zeta. rewrite (bind_done _ _ _ _ _ (memM_done _ _ _ _ L1)). cbn [negb].
  kstep ltac:(apply fsM_done; exact E1). kstep ltac:(apply read_file_done; exact E2). cbv beta iota. kstep ltac:(apply memM_done; exact L2).
  done.
Qed.

Lemma load_segments_done fd size entry segs : forall off k f',
  file_gives fd size off segs (k_fs k) f' -> in_order (k_mem k) -> segments_fit (userprog_vaddr (k_mem k)) segs ->
  (pages_needed segs <= ufree (k_mem k))%nat -> (pages_needed segs <= kfree (k_mem k))%nat ->
  exists st', load_segments (length segs) fd off size entry k = Done (i32 entry, set_fs f' (set_mem st' k)) /\ loaded (k_mem k) st' segs.
Proof.
  induction segs as [|s segs IH]; intros off k f' Hg Ho Hfit Hu Hk.
  - inversion Hg; subst. exists (k_mem k). split; [by destruct k|by apply loaded_nil].
  - inversion Hg as [|? z bytes data ? ? f1 f2 f3 ? E1 E2 Hr Hg']; subst. set (ph := phdr_of_bytes bytes) in *.
    cbn [length load_segments pages_needed segments_fit fst snd] in *. destruct Hfit as (Hf & Hd & Hrest).
    set (k2 := set_fs f2 k).
    assert (exists st', (if PT_LOAD =? p_type ph then segment_load fd (p_offset ph) (p_filesz ph) (p_vaddr ph) else ret true) k2
      = Done (true, set_fs f3 (set_mem st' k2)) /\ in_order st' /\
      vaddr_start (userprog_vaddr st') = vaddr_start (userprog_vaddr (k_mem k)) /\ vsize (userprog_vaddr st') = vsize (userprog_vaddr (k_mem k)) /\
      (pages_needed segs <= ufree st')%nat /\ (pages_needed segs <= kfree st')%nat /\
      (forall st2, loaded st' st2 segs -> loaded (k_mem k) st2 ((ph, data) :: segs))) as (st1 & Es & O1 & V1 & V2 & U1 & K1 & Hl).
    { destruct (Z.eqb_spec PT_LOAD (p_type ph)) as [Hp|Hp].
      - destruct (segment_load_done fd ph data k2 f3) as (st' & i & n & Es & T & U1 & K1); try done.
        { cbn [segments_fit fst snd]. split_and!; [done| |done]. by intros s' va ?%not_elem_of_nil. }
        { cbn [pages_needed fst]. rewrite <- Hp, Z.eqb_refl. change (k_mem k2) with (k_mem k). lia. }
        { cbn [pages_needed fst]. rewrite <- Hp, Z.eqb_refl. change (k_mem k2) with (k_mem k). lia. }
        cbn [pages_needed fst] in U1, K1. rewrite <- Hp, Z.eqb_refl in U1, K1. change (k_mem k2) with (k_mem k) in *.
        exists st'. split; [done|]. split; [apply T|]. destruct (sm_pages _ _ _ _ _ _ T) as (q & m & Tq & _ & Eq).
        destruct (th_uva _ _ _ _ Tq) as [V1 V2]. split; [by rewrite Eq|]. split; [by rewrite Eq|]. split; [lia|]. split; [lia|].
        intros st2 L. by eapply (loaded_cons _ st' st2 (ph, data)).
      - exists (k_mem k). unfold segment_read in Hr. rewrite (proj2 (Z.eqb_neq _ _) Hp) in Hr. destruct Hr as [_ ->].
        split; [by destruct k|]. split_and!; try done; try lia. intros st2 L. by apply loaded_skip. }
    destruct (IH (u32 (off + size)) (set_fs f3 (set_mem st1 k2)) f') as (st2 & E3 & L3); try done.
    { kproj. clear -Hrest V1 V2. induction segs as [|s' segs IHs]; [done|]. cbn [segments_fit] in *. destruct Hrest as (H1 & H2 & H3).
      split_and!; [|done|by apply IHs]. unfold vpage in *. by rewrite V1, V2. }
    exists st2. split; [|by apply Hl].
    kstep ltac:(apply fsM_done; exact E1). kstep ltac:(apply read_file_done; exact E2). cbv beta iota.
    rewrite Z.eqb_refl. cbn [negb]. cbv zeta. fold ph. change (set_fs f2 (set_fs f1 k)) with k2. kstep ltac:(exact Es). cbn [negb].
    rewrite E3. done.
Qed.

Section execv_spec.
Context (junk_name : list Z) (junk_ino : Z).

(** What the call needs: the file opens, its header is good, it gives the
    segments, they fit, and the argument vector ends. *)
Record can_exec (fuel : nat) (path : list Z) (argv : Z) (k : kst) (x : task) (u : uproc) (hdr : list Z)
    (segs : list (Elf32_Phdr * list Z)) (argc : Z) (f' : fs) : Prop := {
  xe_task : tasks (k_sched k) !! running (k_sched k) = Some x /\ k_proc k !! running (k_sched k) = Some u;
  xe_pcb : PG_SIZE <= running (k_sched k) <= 0xffbff000;
  xe_args : count_args fuel (machine (k_mem k)) argv 0 = Done argc;
  xe_file : exists fd f0 f1 f2 z, sys_open junk_name junk_ino path O_RDONLY (k_fs k) = Done (fd, f0) /\ fd <> -1 /\
    sys_read fd 52 f0 = Done (Io_done 52 hdr, f1) /\
    file_gives fd 32 (e_phoff (ehdr_of_bytes hdr)) segs f1 f2 /\ sys_close fd f2 = Done (z, f');
  xe_header : bad_header (ehdr_of_bytes hdr) = false /\ e_phnum (ehdr_of_bytes hdr) = Z.of_nat (length segs) /\
    is_u32 (e_entry (ehdr_of_bytes hdr)) /\ e_entry (ehdr_of_bytes hdr) <> 0xffffffff;
  xe_memory : in_order (k_mem k) /\ segments_fit (userprog_vaddr (k_mem k)) segs /\
    (pages_needed segs <= ufree (k_mem k))%nat /\ (pages_needed segs <= kfree (k_mem k))%nat
}.

(** The interrupt frame: [ebx], [ecx], [eip] and [esp] are new. *)
Definition exec_frame (argv argc entry : Z) (m : gmap Z Z) : gmap Z Z :=
  <[INTR_STACK + 68 := 0xc0000000]> (<[INTR_STACK + 56 := entry]> (<[INTR_STACK + 28 := argc]> (<[INTR_STACK + 20 := argv]> m))).

Lemma load_done fuel path argv k x u hdr segs argc f' : can_exec fuel path argv k x u hdr segs argc f' ->
  exists st', load junk_name junk_ino path k = Done (i32 (e_entry (ehdr_of_bytes hdr)), set_fs f' (set_mem st' k)) /\ loaded (k_mem k) st' segs.
Proof.
  intros [_ _ _ (fd & f0 & f1 & f2 & z & E1 & Hfd & E2 & Hg & E3) (H1 & H2 & H3 & H4) (M1 & M2 & M3 & M4)].
  assert (e_phentsize (ehdr_of_bytes hdr) = 32) as Es.
  { unfold bad_header in H1. rewrite !orb_false_iff in H1. destruct H1 as [_ H1]. by apply negb_false_iff, Z.eqb_eq in H1. }
  destruct (load_segments_done fd 32 (e_entry (ehdr_of_bytes hdr)) segs (e_phoff (ehdr_of_bytes hdr)) (set_fs f1 (set_fs f0 k)) f2)
    as (st' & El & L); try done.
  exists st'. split; [|exact L]. unfold load. kstep ltac:(apply fsM_done; exact E1). rewrite (proj2 (Z.eqb_neq fd (-1))) by done.
  kstep ltac:(apply read_file_done; exact E2). cbv beta iota. change (52 =? 52) with true. cbn [negb].
  rewrite H1. kstep ltac:(rewrite Es, H2, Nat2Z.id; exact El). kstep ltac:(apply fsM_done; exact E3). done.
Qed.

End execv_spec.

(** ** A program on a disk

    The file system of the examples with the file [/p], an ELF file with one
    segment of eight bytes for 0x8049000. *)
Definition ex_elf : list Z :=
  [127; 69; 76; 70; 1; 1; 1; 0; 0; 0; 0; 0; 0; 0; 0; 0; 2; 0; 3; 0; 1; 0; 0; 0; 0; 144; 4; 8; 52; 0; 0; 0; 0; 0; 0; 0; 0; 0; 0; 0;
   52; 0; 32; 0; 1; 0; 0; 0; 0; 0; 0; 0] ++
  [1; 0; 0; 0; 84; 0; 0; 0; 0; 144; 4; 8; 0; 144; 4; 8; 8; 0; 0; 0; 8; 0; 0; 0; 5; 0; 0; 0; 0; 16; 0; 0] ++
  [235; 254; 144; 144; 11; 22; 33; 44].
Definition ex_elf_fs : fs :=
  mk_fs (<[612 := [112] ++ replicate 15 0 ++ [1; 0; 0; 0; 1; 0; 0; 0] ++ replicate 488 0]> (<[613 := ex_elf ++ replicate 420 0]> (zero_disk 800)))
    ex_sb 0 800 (block_bitmap ex_fs) (inode_bitmap ex_fs)
    (<[4096 := ex_root]> (<[8192 := mk_inode 1 92 1 false (613 :: replicate 12 0)]> ∅)) [8192; 4096]
    ([mk_file 0 0 0; mk_file 0 0 0; mk_file 0 0 0; mk_file 0 2 8192] ++ replicate 28 (mk_file 0 0 0))
    [0; 1; 2; 3; -1; -1; -1; -1] (mk_dir 4096 0) ∅
    (mk_heap (<[4096 := true]> (<[8192 := true]> ∅)) ((fun i => 12288 + 4096 * i) <$> seqZ 0 20)) false.
Definition ex_exec_kst : kst := mk_kst ex_fork_mst ex_fork_sst ex_elf_fs ∅ (<[0xc009e000 := ex_uproc]> ∅).

Definition ex_segments : list (Elf32_Phdr * list Z) := [(phdr_of_bytes (take 32 (drop 52 ex_elf)), drop 84 ex_elf)].

(** The calls [load] makes for it, with their results. *)
Definition ex_calls : M fs (Z * io * Z * io * Z * io * (Z * option Z)) :=
  let! fd := sys_open (replicate 16 0) 0 [47; 112] O_RDONLY in
  let! header := sys_read fd 52 in
  let! pos1 := sys_lseek fd 52 SEEK_SET in
  let! phdr := sys_read fd 32 in
  let! pos2 := sys_lseek fd 84 SEEK_SET in
  let! segment := sys_read fd 8 in
  let! closed := sys_close fd in
  ret (fd, header, pos1, phdr, pos2, segment, closed).

Lemma ex_calls_run : exists f', ex_calls ex_elf_fs =
  Done ((4, Io_done 52 (take 52 ex_elf), 52, Io_done 32 (take 32 (drop 52 ex_elf)), 84, Io_done 8 (drop 84 ex_elf), (0, None)), f').
Proof. apply run_result. vm_compute. reflexivity. Qed.

Lemma ex_elf_file : exists f', exists fd f0 f1 f2 z, sys_open (replicate 16 0) 0 [47; 112] O_RDONLY ex_elf_fs = Done (fd, f0) /\ fd <> -1 /\
  sys_read fd 52 f0 = Done (Io_done 52 (take 52 ex_elf), f1) /\
  file_gives fd 32 52 ex_segments f1 f2 /\ sys_close fd f2 = Done (z, f').
Proof.
  destruct ex_calls_run as [f' E]. unfold ex_calls in E.
  apply bind_result in E as (fd & f0 & E1 & E). apply bind_result in E as (hd & f1 & E2 & E).
  apply bind_result in E as (p1 & f2 & E3 & E). apply bind_result in E as (ph & f3 & E4 & E).
  apply bind_result in E as (p2 & f4 & E5 & E). apply bind_result in E as (sg & f5 & E6 & E).
  apply bind_result in E as (cl & f6 & E7 & E). injection E as -> -> -> -> -> -> -> ->.
  exists f', 4, f0, f1, f5, (0, None). split; [exact E1|]. split; [lia|]. split; [exact E2|]. split; [|exact E7].
  apply (gives_cons 4 32 52 52 (take 32 (drop 52 ex_elf)) (drop 84 ex_elf) [] f1 f2 f3 f5); [exact E3|exact E4| |constructor].
  exists 84, 8, f4. split; [exact E5|exact E6].
Qed.

Lemma ex_fork_in_order : in_order ex_fork_mst.
Proof.
  destruct ex_fork_ok as [[] ? Hb]. split; try done.
  by left.
Qed.

Lemma ex_can_exec : exists f', can_exec (replicate 16 0) 0 5 [47; 112] 0x8048000 ex_exec_kst ex_parent ex_uproc (take 52 ex_elf) ex_segments 0 f'.
Proof.
  destruct ex_elf_file as [f' Hfile]. exists f'. split.
  - split; vm_compute; reflexivity.
  - unfold PG_SIZE. cbn [k_sched ex_exec_kst running ex_fork_sst]. lia.
  - vm_compute. reflexivity.
  - exact Hfile.
  - split; [vm_compute; reflexivity|]. split; [vm_compute; reflexivity|]. vm_compute. split; [split; [|constructor]|]; discriminate.
  - split; [exact ex_fork_in_order|]. split; [|split; apply (bool_decide_unpack _); vm_compute; reflexivity].
    split; [intros _|split; [set_solver|exact I]].
    assert (vaddr_start (userprog_vaddr (k_mem ex_exec_kst)) = 0x8048000 /\ vsize (userprog_vaddr (k_mem ex_exec_kst)) = 753592) as [E1 E2]
      by (split; vm_compute; reflexivity).
    unfold vpage. rewrite E1, E2. split; [|split; [|split; [|split]]]; [split| | | |]; try (vm_compute; first [discriminate|reflexivity]).
    repeat constructor; vm_compute; first [discriminate|reflexivity].
Qed.

