(* ===== verification/Format.v ===== *)
(** * Format: making and mounting a file system ([fs/fs.c]
      [partition_format], [mount_partition])

    The partition is [p_start_lba] and [p_sec_cnt] of the state.  [pad] is what
    the stack holds behind the fields of the local [struct super_block]. *)

From stdpp Require Import base numbers list gmap.
From S2P Require Import Prelude.
From S2P Require Import Bitmap.
From S2P Require Import Cstring.
From S2P Require Import Path.
From S2P Require Import Disk.
From S2P Require Import Fsdata.
From S2P Require Import Inode.
From S2P Require Import Dir.
From S2P Require Import Fs.

Local Open Scope Z_scope.
Local Open Scope kernel_scope.

Definition MAX_FILES_PER_PART : Z := 4096.
Definition BITS_PER_SECTOR : Z := 4096.

(** ** The super block on disk *)
Definition sb_words (b : super_block) : list Z :=
  [magic b; sb_sec_cnt b; inode_cnt b; part_lba_base b; block_bitmap_lba b; block_bitmap_sects b; inode_bitmap_lba b;
   inode_bitmap_sects b; inode_table_lba b; inode_table_sects b; data_start_lba b; root_inode_no b; dir_entry_size b].
Definition sb_of_words (w : list Z) : super_block :=
  let f k := nth k w 0 in
  mk_sb (f 0%nat) (f 1%nat) (f 2%nat) (f 3%nat) (f 4%nat) (f 5%nat) (f 6%nat) (f 7%nat) (f 8%nat) (f 9%nat) (f 10%nat) (f 11%nat) (f 12%nat).
Definition sb_bytes (b : super_block) (pad : list Z) : list Z := words_bytes (sb_words b) ++ pad.
Definition sb_of_bytes (l : list Z) : super_block := sb_of_words (bytes_words (take 52 l)).

(** ** [partition_format] *)

(** The number of blocks, which is the length of the block bitmap, and the super
    block, for a partition. *)
Definition free_blocks (sec_cnt : Z) : Z :=
  let inode_bitmap_sects := DIV_ROUND_UP MAX_FILES_PER_PART BITS_PER_SECTOR in
  let inode_table_sects := DIV_ROUND_UP (inode_size * MAX_FILES_PER_PART) SECTOR_SIZE in
  let used_sects := 1 + 1 + inode_bitmap_sects + inode_table_sects in
  let free_sects := u32 (sec_cnt - used_sects) in
  u32 (free_sects - DIV_ROUND_UP free_sects BITS_PER_SECTOR).

Definition make_sb (start_lba sec_cnt : Z) : super_block :=
  let inode_bitmap_sects := DIV_ROUND_UP MAX_FILES_PER_PART BITS_PER_SECTOR in
  let inode_table_sects := DIV_ROUND_UP (inode_size * MAX_FILES_PER_PART) SECTOR_SIZE in
  let block_bitmap_sects := DIV_ROUND_UP (free_blocks sec_cnt) BITS_PER_SECTOR in
  let block_bitmap_lba := u32 (start_lba + 2) in
  let inode_bitmap_lba := u32 (block_bitmap_lba + block_bitmap_sects) in
  let inode_table_lba := u32 (inode_bitmap_lba + inode_bitmap_sects) in
  mk_sb 0x19590318 sec_cnt MAX_FILES_PER_PART start_lba block_bitmap_lba block_bitmap_sects inode_bitmap_lba
    inode_bitmap_sects inode_table_lba inode_table_sects (u32 (inode_table_lba + inode_table_sects)) 0 de_size.

(** [memset(&buf[off], v, n)] in an array. *)
Definition buf_fill (buf : list Z) (off n v : Z) : outcome (list Z) :=
  if Z.of_nat (length buf) <? off + n then Halt Out_of_bounds else Done (splice buf off (replicate (Z.to_nat n) v)).

(** [while (bit_idx <= last_bit) byte &= ~(1 << bit_idx++);], [n] times *)
Fixpoint clear_bits (n : nat) (bit_idx byte : Z) : Z :=
  match n with
  | O => byte
  | S n => clear_bits n (bit_idx + 1) (Z.land byte (u8 (Z.lnot (Z.shiftl 1 bit_idx))))
  end.

(** The block bitmap, in a cleared buffer of [buf_size] bytes. *)
Definition format_bitmap (buf_size bit_len : Z) : outcome (list Z) :=
  let buf := replicate (Z.to_nat buf_size) 0 in
  olet buf := oget (arr_set buf 0 1) Out_of_bounds in
  let last_byte := bit_len / 8 in
  let last_bit := bit_len mod 8 in
  let last_size := SECTOR_SIZE - last_byte mod SECTOR_SIZE in
  olet buf := buf_fill buf last_byte last_size 255 in
  olet b := oget (arr_get buf last_byte) Out_of_bounds in
  oget (arr_set buf last_byte (clear_bits (Z.to_nat (last_bit + 1)) 0 b)) Out_of_bounds.

Definition partition_format (pad : list Z) : M fs unit :=
  let! s := gets id in
  let sb := make_sb (p_start_lba s) (p_sec_cnt s) in
  ide_write (u32 (p_start_lba s + 1)) (sb_bytes sb pad) 1 ;;;
  let buf_size := u32 (Z.max (Z.max (block_bitmap_sects sb) (inode_bitmap_sects sb)) (inode_table_sects sb) * SECTOR_SIZE) in
  let! k := gets in_kernel in
  let! p := sys_malloc k in
  if p =? 0 then halt Page_fault else
  let! buf := lift (format_bitmap buf_size (free_blocks (p_sec_cnt s))) in
  ide_write (block_bitmap_lba sb) buf (block_bitmap_sects sb) ;;;
  let zeros := replicate (Z.to_nat buf_size) 0 in
  let! buf := lift (oget (arr_set zeros 0 1) Out_of_bounds) in
  ide_write (inode_bitmap_lba sb) buf (inode_bitmap_sects sb) ;;;
  let root := mk_inode 0 (u32 (dir_entry_size sb * 2)) 0 false (data_start_lba sb :: replicate 12 0) in
  ide_write (inode_table_lba sb) (splice zeros 0 (inode_bytes root 0 0)) (inode_table_sects sb) ;;;
  ide_write (data_start_lba sb) (splice zeros 0 (dot_entries 0 0)) 1 ;;;
  sys_free k p.

(** ** [mount_partition] *)
Definition set_mounted (b : super_block) (bb ib : bitmap) (s : fs) : fs :=
  mk_fs (dsk s) b (p_start_lba s) (p_sec_cnt s) bb ib (inodes s) [] (file_table s) (fd_table s) (root_dir s) (dirs s)
    (hp s) (in_kernel s).

(** [name] is the partition's, [part_name] the one to mount. *)
Definition mount_partition (name part_name : list Z) : M fs bool :=
  if negb (str_cmp name part_name =? 0) then ret false else
  let! s := gets id in
  let! sb_buf := sys_malloc (in_kernel s) in
  let! sb_p := sys_malloc (in_kernel s) in
  if sb_p =? 0 then halt Panicked else
  if sb_buf =? 0 then halt Page_fault else
  let! l := ide_read (u32 (p_start_lba s + 1)) 1 in
  let sb := sb_of_bytes l in
  let! bb_p := sys_malloc (in_kernel s) in
  if bb_p =? 0 then halt Panicked else
  let! bb := ide_read (block_bitmap_lba sb) (block_bitmap_sects sb) in
  let! ib_p := sys_malloc (in_kernel s) in
  if ib_p =? 0 then halt Panicked else
  let! ib := ide_read (inode_bitmap_lba sb) (inode_bitmap_sects sb) in
  modify (set_mounted sb (mk_bitmap (u32 (block_bitmap_sects sb * SECTOR_SIZE)) bb)
            (mk_bitmap (u32 (inode_bitmap_sects sb * SECTOR_SIZE)) ib)) ;;;
  ret true.

(** ** Sectors written and read back *)
Lemma read_written d lba n bytes : (512 * n <= length bytes)%nat ->
  read_sectors (write_sectors d lba n bytes) lba n = Some (take (512 * n) bytes).
Proof.
  revert d lba bytes. induction n as [|n IH]; intros d lba bytes Hl; cbn [write_sectors read_sectors]; [by rewrite Nat.mul_0_r|].
  rewrite write_sectors_lookup, decide_False by lia. rewrite lookup_insert_eq, IH by (rewrite length_drop; lia).
  replace (512 * S n)%nat with (512 + 512 * n)%nat by lia. by rewrite take_take_drop.
Qed.

Lemma read_not_written d lba n bytes lba' n' : lba' + Z.of_nat n' <= lba \/ lba + Z.of_nat n <= lba' ->
  read_sectors (write_sectors d lba n bytes) lba' n' = read_sectors d lba' n'.
Proof.
  revert lba'. induction n' as [|n' IH]; intros lba' Hd; cbn [read_sectors]; [done|].
  rewrite write_sectors_lookup, decide_False by lia. rewrite IH by lia. done.
Qed.

Lemma on_disk_written d lba n bytes lba' n' : on_disk d lba' n' -> on_disk (write_sectors d lba n bytes) lba' n'.
Proof. intros Hd i Hi. rewrite write_sectors_lookup. case_decide; [done|]. by apply Hd. Qed.

Lemma on_disk_sub d lba n lba' n' : on_disk d lba n -> lba <= lba' -> lba' + Z.of_nat n' <= lba + Z.of_nat n -> on_disk d lba' n'.
Proof. intros Hd H1 H2 i Hi. apply Hd. lia. Qed.

Lemma sb_roundtrip b pad : Forall is_u32 (sb_words b) -> sb_of_bytes (sb_bytes b pad) = b.
Proof.
  intros Hb. unfold sb_of_bytes, sb_bytes. rewrite take_app_le by (rewrite words_bytes_length; cbn; lia).
  rewrite firstn_all2 by (rewrite words_bytes_length; cbn; lia). rewrite bytes_words_bytes by done. by destruct b.
Qed.

(** ** The layout *)
Lemma round_up_4096 x : 0 <= x < 2147483648 -> DIV_ROUND_UP x 4096 = (x + 4095) / 4096.
Proof. intros Hx. unfold DIV_ROUND_UP. rewrite (u32_id (x + 4096)), u32_id by (unfold is_u32; lia). f_equal. lia. Qed.

Lemma round_up_bounds x : x <= (x + 4095) / 4096 * 4096 < x + 4096.
Proof. pose proof (Z.div_mod (x + 4095) 4096). pose proof (Z.mod_pos_bound (x + 4095) 4096). lia. Qed.

Definition blocks_sects (n : Z) : Z := (free_blocks n + 4095) / 4096.

Record layout (start n : Z) (b : super_block) : Prop := {
  la_words : Forall is_u32 (sb_words b);
  la_bb : block_bitmap_lba b = start + 2 /\ block_bitmap_sects b = blocks_sects n;
  la_ib : inode_bitmap_lba b = start + 2 + blocks_sects n /\ inode_bitmap_sects b = 1;
  la_it : inode_table_lba b = start + 3 + blocks_sects n /\ inode_table_sects b = 608;
  la_data : data_start_lba b = start + 611 + blocks_sects n;
  la_entry : dir_entry_size b = 24;
  la_fit : data_start_lba b + free_blocks n <= start + n
}.

Lemma free_blocks_eq n : 640 <= n <= 163840 -> free_blocks n = n - 611 - (n - 611 + 4095) / 4096.
Proof.
  intros Hn. unfold free_blocks, MAX_FILES_PER_PART, BITS_PER_SECTOR, SECTOR_SIZE, inode_size.
  change (DIV_ROUND_UP 4096 4096) with 1. change (DIV_ROUND_UP (76 * 4096) 512) with 608.
  replace (n - (1 + 1 + 1 + 608)) with (n - 611) by lia.
  rewrite (u32_id (n - 611)), round_up_4096 by (unfold is_u32; lia). pose proof (round_up_bounds (n - 611)). rewrite u32_id by (unfold is_u32; lia). done.
Qed.

Lemma layout_numbers n : 640 <= n <= 163840 ->
  28 <= free_blocks n /\ 1 <= blocks_sects n <= 40 /\ free_blocks n <= blocks_sects n * 4096 < free_blocks n + 4096 /\
  free_blocks n + 611 + blocks_sects n <= n.
Proof.
  intros Hn. unfold blocks_sects. rewrite free_blocks_eq by done.
  pose proof (round_up_bounds (n - 611)). pose proof (round_up_bounds (n - 611 - (n - 611 + 4095) / 4096)).
  assert ((n - 611 - (n - 611 + 4095) / 4096 + 4095) / 4096 <= (n - 611 + 4095) / 4096) by (apply Z.div_le_mono; lia). lia.
Qed.

Lemma make_sb_layout start n : 0 <= start -> start + n <= 163840 -> 640 <= n -> layout start n (make_sb start n).
Proof.
  intros Hs Hn Hl. destruct (layout_numbers n ltac:(lia)) as (H1 & H2 & H3 & H4).
  unfold make_sb, MAX_FILES_PER_PART, BITS_PER_SECTOR, SECTOR_SIZE, inode_size, de_size.
  change (DIV_ROUND_UP 4096 4096) with 1. change (DIV_ROUND_UP (76 * 4096) 512) with 608.
  rewrite round_up_4096 by lia. fold (blocks_sects n).
  rewrite (u32_id (start + 2)), (u32_id (start + 2 + _)), (u32_id (start + 2 + _ + 1)), (u32_id (start + 2 + _ + 1 + 608)) by (unfold is_u32; lia).
  split; cbn; try lia. unfold sb_words; cbn. repeat (apply Forall_cons_2; [unfold is_u32; lia|]). apply Forall_nil_2.
Qed.

(** ** The block bitmap *)
Lemma clear_bits_spec last_bit k : 0 <= last_bit < 8 -> 0 <= k < 8 ->
  Z.testbit (clear_bits (Z.to_nat (last_bit + 1)) 0 255) k = (last_bit <? k).
Proof.
  intros Hb Hk. assert (last_bit = 0 \/ last_bit = 1 \/ last_bit = 2 \/ last_bit = 3 \/ last_bit = 4 \/ last_bit = 5 \/ last_bit = 6 \/ last_bit = 7) as Hc by lia.
  assert (k = 0 \/ k = 1 \/ k = 2 \/ k = 3 \/ k = 4 \/ k = 5 \/ k = 6 \/ k = 7) as Hd by lia.
  repeat destruct Hc as [->|Hc]; try subst last_bit; repeat destruct Hd as [->|Hd]; try subst k; reflexivity.
Qed.

Lemma testbit_one t : 0 <= t -> Z.testbit 1 t = (t =? 0).
Proof. intros Ht. change 1 with (2 ^ 0). rewrite Z.pow2_bits_eqb by lia. apply Z.eqb_sym. Qed.

Lemma format_bitmap_spec size len : 8 <= len -> (len / 8 / 512 + 1) * 512 <= size ->
  exists buf, format_bitmap size len = Done buf /\ length buf = Z.to_nat size /\
    forall j, 0 <= j < (len / 8 / 512 + 1) * 4096 ->
      Z.testbit (default 0 (buf !! Z.to_nat (j / 8))) (j mod 8) = (j =? 0) || (len <? j).
Proof.
  intros Hlen Hsize. unfold format_bitmap, SECTOR_SIZE. set (q := len / 8) in *. set (t := len mod 8).
  assert (1 <= q) as Hq by (apply Z.div_le_lower_bound; lia). assert (0 <= t < 8) as Ht by (apply Z.mod_pos_bound; lia).
  assert (len = 8 * q + t) as El by (apply Z.div_mod; lia).
  pose proof (Z.div_mod q 512 ltac:(lia)) as Eq. pose proof (Z.mod_pos_bound q 512 ltac:(lia)) as Hm.
  set (z := replicate (Z.to_nat size) 0). assert (length z = Z.to_nat size) as Hz by apply length_replicate.
  unfold arr_set at 1. rewrite decide_True by lia. cbn [oget obind]. set (b1 := <[Z.to_nat 0 := 1]> z).
  assert (length b1 = Z.to_nat size) as Hb1 by (unfold b1; by rewrite length_insert).
  unfold buf_fill. rewrite (proj2 (Z.ltb_ge _ _)) by lia. cbn [obind].
  set (b2 := splice b1 q (replicate (Z.to_nat (512 - q mod 512)) 255)).
  assert (length b2 = Z.to_nat size) as Hb2 by (unfold b2; rewrite splice_length; rewrite ?length_replicate; lia).
  assert (forall j, (j < Z.to_nat ((q / 512 + 1) * 512))%nat -> b2 !! j = Some (if decide (q <= Z.of_nat j) then 255 else if decide (j = 0%nat) then 1 else 0)) as Hb2l.
  { intros j Hj. unfold b2. rewrite splice_lookup by (rewrite ?length_replicate; lia). rewrite length_replicate. case_decide as H1.
    - rewrite decide_True by lia. apply lookup_replicate_2. lia.
    - rewrite decide_False by lia. unfold b1. case_decide as H2; [subst j; apply list_lookup_insert_eq; lia|].
      rewrite list_lookup_insert_ne by lia. apply lookup_replicate_2. lia. }
  unfold arr_get. rewrite decide_True by lia. rewrite Hb2l by lia. rewrite decide_True by lia. cbn [oget obind].
  unfold arr_set. rewrite decide_True by lia. eexists. split; [done|]. split; [by rewrite length_insert|].
  intros j Hj. pose proof (Z.div_mod j 8 ltac:(lia)) as Ej. pose proof (Z.mod_pos_bound j 8 ltac:(lia)) as Hjm.
  assert (0 <= j / 8) by (apply Z.div_pos; lia). destruct (decide (j / 8 = q)) as [E|Hne].
  - rewrite E, list_lookup_insert_eq by lia. unfold default, id; cbn [from_option]. rewrite clear_bits_spec by done.
    rewrite (proj2 (Z.eqb_neq j 0)) by lia. cbn [orb]. destruct (Z.ltb_spec t (j mod 8)), (Z.ltb_spec len j); lia || done.
  - rewrite list_lookup_insert_ne by lia. rewrite Hb2l by lia. unfold default, id; cbn [from_option]. rewrite Z2Nat.id by lia. case_decide as H1.
    + rewrite (proj2 (Z.ltb_lt len j)), orb_true_r by lia.
      change 255 with (Z.ones 8). rewrite Z.testbit_ones_nonneg by lia. apply Z.ltb_lt. lia.
    + rewrite (proj2 (Z.ltb_ge len j)), orb_false_r by lia. case_decide as H2.
      * rewrite testbit_one by lia. f_equal. lia.
      * rewrite Z.testbit_0_l. symmetry. apply Z.eqb_neq. lia.
Qed.

(** ** What a formatted partition holds *)
Definition fresh_root (b : super_block) : inode := mk_inode 0 48 0 false (data_start_lba b :: replicate 12 0).

Record formatted (start n : Z) (pad : list Z) (d d' : disk) : Prop := {
  fo_sb : read_sectors d' (start + 1) 1 = Some (sb_bytes (make_sb start n) pad);
  fo_bb : exists buf, read_sectors d' (start + 2) (Z.to_nat (blocks_sects n)) = Some buf /\
    forall j, 0 <= j < blocks_sects n * 4096 ->
      Z.testbit (default 0 (buf !! Z.to_nat (j / 8))) (j mod 8) = (j =? 0) || (free_blocks n <? j);
  fo_ib : read_sectors d' (start + 2 + blocks_sects n) 1 = Some (1 :: replicate 511 0);
  fo_it : exists l, read_sectors d' (start + 3 + blocks_sects n) 608 = Some l /\
    take 76 l = inode_bytes (fresh_root (make_sb start n)) 0 0;
  fo_root : read_sectors d' (start + 611 + blocks_sects n) 1 = Some (dot_entries 0 0 ++ replicate 464 0);
  fo_other : forall i, i < start \/ start + n <= i -> d' !! i = d !! i;
  fo_on : forall lba m, on_disk d lba m -> on_disk d' lba m;
  fo_ok : disk_ok d'
}.


Lemma zeros_take n m : (n <= m)%nat -> take n (replicate m 0) = replicate n 0.
Proof. intros H. rewrite take_replicate. by rewrite Nat.min_l. Qed.

Lemma splice_front N l n : (length l <= n)%nat -> (n <= N)%nat ->
  take n (splice (replicate N 0) 0 l) = l ++ replicate (n - length l) 0.
Proof.
  intros Hl Hn. unfold splice. change (Z.to_nat 0) with 0%nat. rewrite take_0, app_nil_l, Nat.add_0_l, take_app_ge by done. f_equal.
  rewrite drop_replicate. apply zeros_take. lia.
Qed.

(** The five writes of [partition_format], given the block bitmap. *)
Lemma five_writes start n pad d d' N bb b :
  b = make_sb start n -> layout start n b -> 0 <= start -> length pad = 460%nat -> disk_ok d ->
  640 <= n -> start + n <= 163840 -> (512 * 608 <= N)%nat ->
  length bb = N ->
  (forall j, 0 <= j < blocks_sects n * 4096 ->
     Z.testbit (default 0 (bb !! Z.to_nat (j / 8))) (j mod 8) = (j =? 0) || (free_blocks n <? j)) ->
  d' = write_sectors (write_sectors (write_sectors (write_sectors (write_sectors d (start + 1) 1 (sb_bytes b pad))
         (start + 2) (Z.to_nat (blocks_sects n)) bb)
         (start + 2 + blocks_sects n) 1 (1 :: replicate (N - 1) 0))
         (start + 3 + blocks_sects n) 608 (splice (replicate N 0) 0 (inode_bytes (fresh_root b) 0 0)))
         (start + 611 + blocks_sects n) 1 (splice (replicate N 0) 0 (dot_entries 0 0)) ->
  formatted start n pad d d'.
Proof.
  intros -> [_ _ _ _ _ _ Hfit] Hs Hpad Hok Hn1 Hn2 HN Hbb Hbits ->. destruct (layout_numbers n ltac:(lia)) as (L1 & L2 & L3 & L4).
  assert (length (inode_bytes (fresh_root (make_sb start n)) 0 0) = 76%nat) as Hi76 by done.
  assert (length (dot_entries 0 0) = 48%nat) as Hd48 by done.
  assert (length (sb_bytes (make_sb start n) pad) = 512%nat) as Hsbl by (unfold sb_bytes; rewrite length_app, words_bytes_length, Hpad; done).
  assert (length (splice (replicate N 0) 0 (inode_bytes (fresh_root (make_sb start n)) 0 0)) = N) as Hil.
  { rewrite splice_length; [apply length_replicate|lia|]. rewrite length_replicate. change (76 <= N)%nat. lia. }
  assert (length (splice (replicate N 0) 0 (dot_entries 0 0)) = N) as Hdl by (rewrite splice_length; [apply length_replicate|lia|rewrite length_replicate; change (48 <= N)%nat; lia]).
  assert (length (1 :: replicate (N - 1) 0) = N) as Hibl by (cbn; rewrite length_replicate; lia).
  split.
  - rewrite !read_not_written by lia. rewrite read_written by lia. rewrite firstn_all2 by lia. done.
  - rewrite !read_not_written by lia. rewrite read_written by lia. eexists. split; [done|]. intros j Hj.
    assert (j / 8 < blocks_sects n * 512) by (apply Z.div_lt_upper_bound; lia). assert (0 <= j / 8) by (apply Z.div_pos; lia).
    rewrite lookup_take_lt by lia. by apply Hbits.
  - do 2 rewrite read_not_written by lia. rewrite read_written by lia. f_equal. change (512 * 1)%nat with 512%nat.
    change (take 512 (1 :: replicate (N - 1) 0)) with (1 :: take 511 (replicate (N - 1) 0)). f_equal. apply zeros_take. lia.
  - rewrite read_not_written by lia. rewrite read_written by lia. eexists. split; [done|]. rewrite take_take. rewrite (Nat.min_l 76) by lia.
    rewrite splice_front by lia. rewrite Hi76. apply app_nil_r.
  - rewrite read_written by lia. f_equal. rewrite splice_front by lia. rewrite Hd48. done.
  - intros i Hi. rewrite !write_sectors_lookup. rewrite !decide_False by lia. done.
  - intros lba m Hd. by do 5 apply on_disk_written.
  - do 5 (apply write_sectors_ok; [|lia]). done.
Qed.

Lemma wp_partition_format s pad p r :
  0 <= p_start_lba s -> 640 <= p_sec_cnt s -> p_start_lba s + p_sec_cnt s <= 163840 -> length pad = 460%nat ->
  disk_ok (dsk s) -> on_disk (dsk s) (p_start_lba s) (Z.to_nat (p_sec_cnt s)) -> fresh_head (hp s) p r ->
  wp (partition_format pad) (fun _ s' => exists d', formatted (p_start_lba s) (p_sec_cnt s) pad (dsk s) d' /\
        s' = set_hp (mk_heap (live (hp s)) r) (set_dsk d' s)) s.
Proof.
  intros Hst Hn1 Hn2 Hpad Hok Hon Hfr. set (start := p_start_lba s) in *. set (n := p_sec_cnt s) in *.
  pose proof (make_sb_layout start n Hst Hn2 Hn1) as La. pose proof La as [_ [B1 B2] [I1 I2] [T1 T2] D1 E1 Hfit].
  destruct (layout_numbers n ltac:(lia)) as (L1 & L2 & L3 & L4).
  unfold partition_format. wp_steps. unfold id. fold start n. rewrite u32_id by (unfold is_u32; lia).
  rewrite B1, B2, I1, I2, T1, T2, D1, E1. replace (Z.max (Z.max (blocks_sects n) 1) 608) with 608 by lia.
  unfold SECTOR_SIZE. rewrite (u32_id (608 * 512)) by (unfold is_u32; lia). set (N := Z.to_nat (608 * 512)).
  destruct (format_bitmap_spec (608 * 512) (free_blocks n)) as (bb & Ebb & Hbbl & Hbits); [lia| |].
  { assert (free_blocks n / 8 < 40 * 512 + 1) by (apply Z.div_lt_upper_bound; lia).
    assert (free_blocks n / 8 / 512 < 41) by (apply Z.div_lt_upper_bound; lia). lia. }
  assert (blocks_sects n <= free_blocks n / 8 / 512 + 1) as Hbs.
  { rewrite Z.div_div by lia. pose proof (Z.div_mod (free_blocks n) (8 * 512) ltac:(lia)). pose proof (Z.mod_pos_bound (free_blocks n) (8 * 512)). lia. }
  assert (forall l m, start <= l -> l + Z.of_nat m <= start + n -> on_disk (dsk s) l m) as Hsub.
  { intros l m H1 H2. apply (on_disk_sub _ start (Z.to_nat n)); [done|done|lia]. }
  assert (Z.of_nat N = 311296) as HN by lia. assert (length bb = N) as Hbn by done. clearbody N.
  apply wp_ide_write; [change max_lba with 163839; lia|lia|apply Hsub; lia|]. wp_steps. cbn [set_dsk in_kernel].
  apply (wp_malloc _ p r); [exact Hfr|]. destruct Hfr as (_ & Hp & Hnone). rewrite (proj2 (Z.eqb_neq p 0)) by done. wp_steps.
  apply (wp_lift _ bb _ _ Ebb). wp_steps.
  apply wp_ide_write; [change max_lba with 163839; lia|lia|apply on_disk_written, Hsub; lia|]. wp_steps.
  apply (wp_lift _ (1 :: replicate (N - 1) 0)).
  { unfold arr_set. rewrite decide_True by (rewrite length_replicate; lia). replace N with (S (N - 1)) at 1 by lia. done. }
  wp_steps. apply wp_ide_write; [change max_lba with 163839; lia|lia|do 2 apply on_disk_written; apply Hsub; lia|].
  wp_steps. apply wp_ide_write; [change max_lba with 163839; lia|lia|do 3 apply on_disk_written; apply Hsub; lia|].
  wp_steps. apply wp_ide_write; [change max_lba with 163839; lia|lia|do 4 apply on_disk_written; apply Hsub; lia|].
  wp_steps. apply wp_free; [done|cbn; apply lookup_insert_eq|]. cbn [set_hp set_dsk hp live answers dsk].
  rewrite delete_insert_id by done. eexists. split; [|done].
  apply (five_writes start n pad _ _ N bb (make_sb start n));
    [reflexivity|exact La|exact Hst|exact Hpad|exact Hok|exact Hn1|exact Hn2|lia|exact Hbn|intros j Hj; apply Hbits; lia|].
  unfold fresh_root. rewrite D1. reflexivity.
Qed.

(** ** Mounting what was formatted *)
Definition four_fresh (h : heap) : Prop :=
  exists a b c e r, answers h = a :: b :: c :: e :: r /\ NoDup [0; a; b; c; e] /\
    live h !! a = None /\ live h !! b = None /\ live h !! c = None /\ live h !! e = None.

Record mounted (s s' : fs) : Prop := {
  mo_layout : layout (p_start_lba s) (p_sec_cnt s) (sb s');
  mo_disk : dsk s' = dsk s;
  mo_part : p_start_lba s' = p_start_lba s /\ p_sec_cnt s' = p_sec_cnt s;
  mo_blocks : nbits (block_bitmap s') = blocks_sects (p_sec_cnt s) * 4096 /\
    forall j, 0 <= j < nbits (block_bitmap s') -> used (block_bitmap s') j = (j =? 0) || (free_blocks (p_sec_cnt s) <? j);
  mo_inodes : nbits (inode_bitmap s') = 4096 /\
    forall j, 0 <= j < 4096 -> used (inode_bitmap s') j = (j =? 0);
  mo_open : open_inodes s' = [];
  mo_same : sb s' = make_sb (p_start_lba s) (p_sec_cnt s) /\ in_kernel s' = in_kernel s /\
    file_table s' = file_table s /\ inodes s' = inodes s;
  mo_heap : exists a b c e r, answers (hp s) = a :: b :: c :: e :: r /\
    hp s' = mk_heap (<[e := in_kernel s]> (<[c := in_kernel s]> (<[b := in_kernel s]> (<[a := in_kernel s]> (live (hp s)))))) r
}.

Lemma one_bit j : 0 <= j < 4096 -> used (mk_bitmap 512 (1 :: replicate 511 0)) j = (j =? 0).
Proof.
  intros Hj. unfold used. cbn [bits]. unfold arr_get. pose proof (Z.div_mod j 8 ltac:(lia)) as E. pose proof (Z.mod_pos_bound j 8 ltac:(lia)) as Hm.
  assert (0 <= j / 8 < 512) by (split; [apply Z.div_pos; lia|apply Z.div_lt_upper_bound; lia]). rewrite decide_True by lia.
  destruct (decide (j / 8 = 0)) as [E0|Hne].
  - rewrite E0. change (Z.testbit 1 (j mod 8) = (j =? 0)). rewrite testbit_one by lia. f_equal. lia.
  - replace (Z.to_nat (j / 8)) with (S (Z.to_nat (j / 8) - 1)) by lia. rewrite lookup_cons_ne_0 by lia. cbn [pred].
    rewrite lookup_replicate_2 by lia. unfold default, id; cbn [from_option]. rewrite Z.testbit_0_l. symmetry. apply Z.eqb_neq. lia.
Qed.

(** Mounting a partition whose super block describes the layout, whatever is in
    the areas. *)
Lemma wp_mount_any s l bb ib name : 0 <= p_start_lba s -> 640 <= p_sec_cnt s -> p_start_lba s + p_sec_cnt s <= 163840 ->
  read_sectors (dsk s) (p_start_lba s + 1) 1 = Some l -> layout (p_start_lba s) (p_sec_cnt s) (sb_of_bytes l) ->
  read_sectors (dsk s) (p_start_lba s + 2) (Z.to_nat (blocks_sects (p_sec_cnt s))) = Some bb ->
  read_sectors (dsk s) (p_start_lba s + 2 + blocks_sects (p_sec_cnt s)) 1 = Some ib ->
  four_fresh (hp s) -> str_cmp name name = 0 ->
  wp (mount_partition name name) (fun r s' => r = true /\ exists a b c e r, answers (hp s) = a :: b :: c :: e :: r /\
    s' = set_mounted (sb_of_bytes l) (mk_bitmap (blocks_sects (p_sec_cnt s) * 512) bb) (mk_bitmap 512 ib)
      (set_hp (mk_heap (<[e := in_kernel s]> (<[c := in_kernel s]> (<[b := in_kernel s]> (<[a := in_kernel s]> (live (hp s)))))) r) s)) s.
Proof.
  intros Hst Hn1 Hn2 F1 [Hw [B1 B2] [I1 I2] [T1 T2] D1 E1 Hfit] F2 F3 (a & b & c & e & r & Ea & Hnd & Ha & Hb & Hc & He) Hname.
  destruct (layout_numbers (p_sec_cnt s) ltac:(lia)) as (L1 & L2 & L3 & L4).
  assert (a <> 0 /\ b <> 0 /\ c <> 0 /\ e <> 0 /\ a <> b /\ a <> c /\ a <> e /\ b <> c /\ b <> e /\ c <> e) as Hne.
  { repeat (apply NoDup_cons in Hnd as [? Hnd]; rewrite ?not_elem_of_cons in *). intuition congruence. }
  destruct Hne as (N1 & N2 & N3 & N4 & N5 & N6 & N7 & N8 & N9 & N10).
  unfold mount_partition. rewrite Hname. cbn [Z.eqb negb]. wp_steps. unfold id.
  apply (wp_malloc _ a (b :: c :: e :: r)); [split_and!; [exact Ea|done|done]|]. wp_steps.
  apply (wp_malloc _ b (c :: e :: r)); [split_and!; [done|done|cbn; by rewrite lookup_insert_ne]|].
  rewrite (proj2 (Z.eqb_neq b 0)), (proj2 (Z.eqb_neq a 0)) by done. wp_steps. rewrite u32_id by (unfold is_u32; lia).
  apply (wp_ide_read _ _ l); [change max_lba with 163839; lia|lia|exact F1|].
  rewrite B1, B2, I1, I2. wp_steps.
  apply (wp_malloc _ c (e :: r)); [split_and!; [done|done|cbn; by rewrite !lookup_insert_ne]|]. rewrite (proj2 (Z.eqb_neq c 0)) by done. wp_steps.
  apply (wp_ide_read _ _ bb); [change max_lba with 163839; lia|lia|exact F2|]. wp_steps.
  apply (wp_malloc _ e r); [split_and!; [done|done|cbn; by rewrite !lookup_insert_ne]|]. rewrite (proj2 (Z.eqb_neq e 0)) by done. wp_steps.
  apply (wp_ide_read _ _ ib); [change max_lba with 163839; lia|lia|exact F3|]. wp_steps.
  split; [done|]. exists a, b, c, e, r. split; [done|]. unfold SECTOR_SIZE. rewrite (u32_id (_ * 512)), (u32_id (1 * 512)) by (unfold is_u32; lia). done.
Qed.

Lemma wp_mount s pad d name : 0 <= p_start_lba s -> 640 <= p_sec_cnt s -> p_start_lba s + p_sec_cnt s <= 163840 ->
  formatted (p_start_lba s) (p_sec_cnt s) pad d (dsk s) -> four_fresh (hp s) -> str_cmp name name = 0 ->
  wp (mount_partition name name) (fun r s' => r = true /\ mounted s s') s.
Proof.
  intros Hst Hn1 Hn2 [F1 (buf & F2 & Hbits) F3 _ _ _ _ Hok] Hfour Hname.
  pose proof (make_sb_layout _ _ Hst Hn2 Hn1) as La. pose proof La as [Hw _ _ _ _ _ _].
  destruct (layout_numbers (p_sec_cnt s) ltac:(lia)) as (L1 & L2 & L3 & L4).
  pose proof (sb_roundtrip _ pad Hw) as Esb.
  eapply wp_mono; [apply (wp_mount_any s _ buf (1 :: replicate 511 0) name Hst Hn1 Hn2 F1); rewrite ?Esb; done|]. cbn beta. rewrite Esb.
  intros r s' [-> (a & b & c & e & r' & Ea & ->)]. split; [done|]. split; try done.
  - unfold nbits. cbn [set_mounted block_bitmap btmp_bytes_len]. split; [lia|]. intros j Hj. unfold used. cbn [bits].
    unfold arr_get. assert (0 <= j / 8) by (apply Z.div_pos; lia). rewrite decide_True by lia. apply Hbits. lia.
  - split; [done|]. exact one_bit.
  - by exists a, b, c, e, r'.
Qed.

(** Inode 0 in the table. *)
Lemma formatted_root_inode start n pad d d' s : formatted start n pad d d' -> 0 <= start -> 640 <= n -> start + n <= 163840 ->
  dsk s = d' -> inode_table_lba (sb s) = start + 3 + blocks_sects n -> disk_inode s 0 = Some (fresh_root (make_sb start n)).
Proof.
  intros [_ _ _ (l & Hl & Hl76) _ _ _ Hok] Hst Hn1 Hn2 Hd Ht. destruct (layout_numbers n ltac:(lia)) as (_ & L2 & _ & _).
  pose proof (make_sb_layout _ _ Hst Hn2 Hn1) as [_ _ _ _ D _ _].
  assert (dbytes d' (512 * (start + 3 + blocks_sects n)) 76 = Some (inode_bytes (fresh_root (make_sb start n)) 0 0)) as E.
  { apply dbytes_Some. split; [done|]. intros j Hj. rewrite <- Hl76, lookup_take_lt by lia. apply (read_sectors_byte d' _ 608 l j Hok Hl). lia. }
  unfold disk_inode, slot_off. rewrite Hd, Ht, Z.mul_0_r, Z.add_0_r, E. f_equal.
  apply inode_bytes_roundtrip; [|unfold is_u32; lia..]. split; [unfold is_u32; cbn; lia..|done|].
  cbn [fresh_root i_sectors]. apply Forall_cons_2; [unfold is_u32; lia|]. apply Forall_replicate. unfold is_u32. lia.
Qed.

(** C25: a formatted partition mounts.  For a partition of at least 640
    sectors on the disk, [partition_format] returns, and [mount_partition] of the
    result reads back a super block whose areas (block bitmap, inode bitmap,
    inode table, data) follow each other and fit in the partition; inode 0 is a
    directory of two entries, [.] and [..], in the first data block; the inode
    bitmap has exactly inode 0 taken; the block bitmap has block 0 taken and
    every bit after the last block set, except one: the bit of number
    [free_blocks] is clear, although the blocks are [0 .. free_blocks - 1].
    Nothing outside the partition is written. *)
Theorem format_mount_roundtrip (s : fs) (pad name : list Z) (p : Z) (r : list Z)
    (Hstart : 0 <= p_start_lba s) (Hmin : 640 <= p_sec_cnt s) (Hmax : p_start_lba s + p_sec_cnt s <= 163840)
    (Hpad : length pad = 460%nat) (Hok : disk_ok (dsk s)) (Hon : on_disk (dsk s) (p_start_lba s) (Z.to_nat (p_sec_cnt s)))
    (Hp : fresh_head (hp s) p r) (Hfour : four_fresh (mk_heap (live (hp s)) r)) (Hname : Forall is_char name) :
  exists s1 s2, partition_format pad s = Done (tt, s1) /\ mount_partition name name s1 = Done (true, s2) /\
    layout (p_start_lba s) (p_sec_cnt s) (sb s2) /\ table_ok s2 /\
    disk_inode s2 0 = Some (fresh_root (sb s2)) /\
    dsk s2 !! data_start_lba (sb s2) = Some (dot_entries 0 0 ++ replicate 464 0) /\
    (forall j, 0 <= j < 4096 -> used (inode_bitmap s2) j = (j =? 0)) /\
    (forall j, 0 <= j < nbits (block_bitmap s2) ->
       used (block_bitmap s2) j = (j =? 0) || (free_blocks (p_sec_cnt s) <? j)) /\
    (forall i, i < p_start_lba s \/ p_start_lba s + p_sec_cnt s <= i -> dsk s2 !! i = dsk s !! i).
Proof.
  destruct (proj1 (wp_done _ _ _) (wp_partition_format s pad p r Hstart Hmin Hmax Hpad Hok Hon Hp)) as ([] & s1 & E1 & d' & Hf & ->).
  assert (str_cmp name name = 0) as Hcmp by (by apply str_cmp_eq).
  destruct (proj1 (wp_done _ _ _) (wp_mount (set_hp (mk_heap (live (hp s)) r) (set_dsk d' s)) pad (dsk s) name Hstart Hmin Hmax Hf Hfour Hcmp))
    as (b & s2 & E2 & -> & [M1 M2 [M3 M4] [_ M5] [_ M6] _ _ _]).
  cbn [set_hp set_dsk p_start_lba p_sec_cnt dsk] in *.
  pose proof Hf as [_ _ _ _ Hroot Hother Hon' Hok']. destruct (layout_numbers (p_sec_cnt s) ltac:(lia)) as (L1 & L2 & _ & L4).
  pose proof M1 as [_ _ _ [T1 _] D1 _ _].
  eexists _, s2. split; [exact E1|]. split; [exact E2|]. split; [done|].
  split; [|split; [|split; [|split; [exact M6|split; [exact M5|by rewrite M2]]]]].
  - split; rewrite ?M2, ?M3, ?M4, ?T1; change max_lba with 163839; try done; try lia.
    apply Hon'. apply (on_disk_sub _ (p_start_lba s) (Z.to_nat (p_sec_cnt s))); [done|lia|lia].
  - rewrite (formatted_root_inode _ _ _ _ _ s2 Hf) by done. f_equal. unfold fresh_root.
    pose proof (make_sb_layout _ _ Hstart Hmax Hmin) as [_ _ _ _ D2 _ _]. by rewrite D1, D2.
  - rewrite M2, D1. cbn [read_sectors] in Hroot. destruct (d' !! _) as [x|]; [|done]. by rewrite app_nil_r in Hroot.
Qed.

Definition ex_disk_fs : fs := set_hp (mk_heap ∅ [12288; 16384; 20480; 24576; 28672]) ex_fs.

Lemma format_mount_roundtrip_witness :
  exists s1 s2, partition_format (replicate 460 0) ex_disk_fs = Done (tt, s1) /\
    mount_partition [115; 100; 98; 49] [115; 100; 98; 49] s1 = Done (true, s2) /\ table_ok s2.
Proof.
  destruct (format_mount_roundtrip ex_disk_fs (replicate 460 0) [115; 100; 98; 49] 12288 [16384; 20480; 24576; 28672])
    as (s1 & s2 & E1 & E2 & _ & Ht & _).
  - cbn. lia.
  - cbn. lia.
  - cbn. lia.
  - done.
  - exact ex_disk_ok.
  - apply ex_on_disk; cbn; lia.
  - done.
  - exists 16384, 20480, 24576, 28672, []. split; [done|]. split; [|done]. by apply (bool_decide_unpack _).
  - repeat (apply Forall_cons_2; [unfold is_char; lia|]). apply Forall_nil_2.
  - exists s1, s2. split; [exact E1|]. split; [exact E2|exact Ht].
Defined.
