(* ===== verification/Fsinit.v ===== *)
(** * Fsinit: bringing the file system up ([fs/fs.c] [filesys_init])

    Every channel has one drive with file systems (the master of a channel is
    skipped); a drive is its sectors and its twelve partitions, four primary
    followed by eight logical, which [Partscan] fills in.  A partition without
    the magic number is formatted; then the first partition of the list with
    the wanted name is mounted, its root directory opened and the file table
    cleared.  The code of the file system sees one drive and one partition at a
    time: [on_part] runs it there and stores the sectors back. *)

From stdpp Require Import base numbers list gmap.
From S2P Require Import Prelude.
From S2P Require Import Bitmap.
From S2P Require Import Cstring.
From S2P Require Import Disk.
From S2P Require Import Fsdata.
From S2P Require Import Inode.
From S2P Require Import Dir.
From S2P Require Import Fs.
From S2P Require Import Format.
From S2P Require Import Partscan.

Local Open Scope Z_scope.
Local Open Scope kernel_scope.

Record drive : Type := mk_drive { dr_disk : disk; dr_parts : list partition }.
Record boot : Type := mk_boot { drives : list drive; core : fs }.

Definition set_part (d : disk) (p : partition) (s : fs) : fs :=
  mk_fs d (sb s) (start_lba p) (sec_cnt p) (block_bitmap s) (inode_bitmap s) (inodes s) (open_inodes s)
    (file_table s) (fd_table s) (root_dir s) (dirs s) (hp s) (in_kernel s).

Definition on_part {A} (i : nat) (p : partition) (m : M fs A) : M boot A := fun b =>
  match drives b !! i with
  | None => Halt Out_of_bounds
  | Some dr =>
      match m (set_part (dr_disk dr) p (core b)) with
      | Done (a, s) => Done (a, mk_boot (<[i := mk_drive (dsk s) (dr_parts dr)]> (drives b)) s)
      | Halt w => Halt w
      end
  end.
Definition on_core {A} (m : M fs A) : M boot A := fun b =>
  match m (core b) with Done (a, s) => Done (a, mk_boot (drives b) s) | Halt w => Halt w end.

Section init.
Context (pad : list Z).

(** The body of the loop over partitions *)
Definition check_part (i : nat) (p : partition) : M boot unit :=
  if sec_cnt p =? 0 then ret tt else
  let! sb_buf := on_part i p (ide_read (u32 (start_lba p + 1)) 1) in
  if magic (sb_of_bytes sb_buf) =? 0x19590318 then ret tt
  else on_part i p (partition_format pad).

(** [while (part_idx < 12)], [n] iterations at most; the value of [part_idx]
    after it.  Index 4 is where [part] moves to the logical partitions. *)
Fixpoint check_parts (n : nat) (i : nat) (part_idx : Z) : M boot Z :=
  match n with
  | O => ret part_idx
  | S n =>
      if part_idx <? 12 then
        let! dr := gets (fun b => drives b !! i) in
        let! dr := lift (oget dr Out_of_bounds) in
        let! p := lift (oget (arr_get (dr_parts dr) part_idx) Out_of_bounds) in
        check_part i p ;;;
        check_parts n i (part_idx + 1)
      else ret part_idx
  end.

(** The loop over channels; [part_idx] is not reset. *)
Fixpoint check_drives (channel_cnt i : nat) (part_idx : Z) : M boot unit :=
  match channel_cnt with
  | O => ret tt
  | S n =>
      let! part_idx := check_parts 12 i part_idx in
      check_drives n (S i) part_idx
  end.

(** [list_traversal(&partition_list, mount_partition, name)]; elements are the
    index of the drive and that of the partition. *)
Fixpoint mount_first (l : list (nat * Z)) (part : list Z) : M boot bool :=
  match l with
  | [] => ret false
  | (i, k) :: l =>
      let! dr := gets (fun b => drives b !! i) in
      let! dr := lift (oget dr Out_of_bounds) in
      let! p := lift (oget (arr_get (dr_parts dr) k) Out_of_bounds) in
      if str_cmp (part_name p) part =? 0 then on_part i p (mount_partition (part_name p) part)
      else mount_first l part
  end.

Definition sdb1 : list Z := [115; 100; 98; 49].

Definition filesys_init (channel_cnt : nat) (partition_list : list (nat * Z)) : M boot unit :=
  let! k := gets (fun b => in_kernel (core b)) in
  let! sb_buf := on_core (sys_malloc k) in
  if sb_buf =? 0 then halt Panicked else
  check_drives channel_cnt 0 0 ;;;
  on_core (sys_free k sb_buf) ;;;
  let! found := mount_first partition_list sdb1 in
  (* without sdb1 the code goes on with a [cur_part] that is [NULL] and takes what
     is in low memory for a partition: an access to no object *)
  if negb found then halt Out_of_bounds else
  on_core open_root_dir ;;;
  on_core (modify (fun s => set_file_table ((fun f => mk_file (fd_pos f) (fd_flag f) 0) <$> file_table s) s)).

(** ** Reading what a later write did not touch *)
Lemma read_sectors_ext d d' lba n : (forall i, lba <= i < lba + Z.of_nat n -> d' !! i = d !! i) ->
  read_sectors d' lba n = read_sectors d lba n.
Proof.
  revert lba. induction n as [|n IH]; intros lba H; cbn [read_sectors]; [done|].
  rewrite H, IH by (intros; (lia || (apply H; lia))). done.
Qed.

Lemma formatted_later start n d d1 d2 : 0 <= start -> 640 <= n -> start + n <= 163840 -> formatted start n pad d d1 ->
  (forall i, start <= i < start + n -> d2 !! i = d1 !! i) -> disk_ok d2 -> formatted start n pad d2 d2.
Proof.
  intros Hs Hn Hm [F1 F2 F3 F4 F5 _ _ _] He Hok. destruct (layout_numbers n ltac:(lia)) as (L1 & L2 & L3 & L4).
  assert (forall lba m, start <= lba -> lba + Z.of_nat m <= start + n -> read_sectors d2 lba m = read_sectors d1 lba m) as E.
  { intros lba m H1 H2. apply read_sectors_ext. intros i Hi. apply He. lia. }
  split; try done; rewrite ?E by lia; try done.
Qed.

(** ** One partition *)
Definition in_part (p : partition) (i : Z) : Prop := sec_cnt p <> 0 /\ start_lba p <= i < start_lba p + sec_cnt p.
Definition part_fits (d : disk) (p : partition) : Prop :=
  sec_cnt p = 0 \/ (0 <= start_lba p /\ 640 <= sec_cnt p /\ start_lba p + sec_cnt p <= 163840 /\
                    on_disk d (start_lba p) (Z.to_nat (sec_cnt p))).
Definition has_magic (d : disk) (p : partition) : bool :=
  match read_sectors d (start_lba p + 1) 1 with Some l => magic (sb_of_bytes l) =? 0x19590318 | None => false end.

(** What the loop keeps of the rest of the state. *)
Record core_kept (s s' : fs) : Prop := {
  cr_kernel : in_kernel s' = in_kernel s;
  cr_files : file_table s' = file_table s;
  cr_inodes : inodes s' = inodes s;
  cr_live : live (hp s') = live (hp s)
}.
Lemma core_kept_refl s : core_kept s s.
Proof. done. Qed.
Lemma core_kept_trans s1 s2 s3 : core_kept s1 s2 -> core_kept s2 s3 -> core_kept s1 s3.
Proof. intros [] []. split; congruence. Qed.

Lemma wp_on_part {A} i p (m : M fs A) b dr (Q : A -> boot -> Prop) : drives b !! i = Some dr ->
  wp m (fun a s => Q a (mk_boot (<[i := mk_drive (dsk s) (dr_parts dr)]> (drives b)) s)) (set_part (dr_disk dr) p (core b)) ->
  wp (on_part i p m) Q b.
Proof. intros E. unfold wp, on_part. rewrite E. by destruct (m _) as [[a s]|]. Qed.
Lemma wp_on_core {A} (m : M fs A) b (Q : A -> boot -> Prop) :
  wp m (fun a s => Q a (mk_boot (drives b) s)) (core b) -> wp (on_core m) Q b.
Proof. unfold wp, on_core. by destruct (m _) as [[a s]|]. Qed.

Lemma fresh_list_less h n : fresh_list h (S n) -> fresh_list h n.
Proof.
  intros (H1 & H2 & H3). split; [lia|]. split.
  - apply (sublist_NoDup _ _ H2). replace (take n (answers h)) with (take n (take (S n) (answers h))) by (rewrite take_take; f_equal; lia).
    apply sublist_take.
  - intros a (i & Hi & Hn)%elem_of_take. apply H3, elem_of_take. exists i. split; [done|lia].
Qed.
Lemma fresh_list_used h n : fresh_list h (S n) ->
  exists a r, fresh_head h a r /\ fresh_list (mk_heap (live h) r) n.
Proof.
  intros Hf. destruct (fresh_list_step h n Hf) as (a & r & E & H0 & Hl & H1 & H2 & H3). exists a, r. split; [done|].
  split; [done|]. split; [done|]. cbn [live answers] in *. intros b Hb. destruct (H3 b Hb) as [? Hn]. split; [done|].
  apply lookup_insert_None in Hn. by destruct Hn.
Qed.

Lemma wp_check_part b d parts p n : drives b = [mk_drive d parts] -> disk_ok d -> part_fits d p ->
  length pad = 460%nat -> fresh_list (hp (core b)) (S n) ->
  wp (check_part 0 p) (fun _ b' => exists d', drives b' = [mk_drive d' parts] /\ core_kept (core b) (core b') /\
    fresh_list (hp (core b')) n /\ disk_ok d' /\ (forall lba m, on_disk d lba m -> on_disk d' lba m) /\
    (forall i, ~ in_part p i -> d' !! i = d !! i) /\
    (sec_cnt p <> 0 -> if has_magic d p then d' = d else formatted (start_lba p) (sec_cnt p) pad d d')) b.
Proof.
  intros Hb Hok Hfit Hpad Hfr. unfold check_part. destruct (Z.eqb_spec (sec_cnt p) 0) as [H0|H0].
  { wp_steps. exists d. split; [done|]. split; [done|]. split; [by apply fresh_list_less|]. by split_and!. }
  destruct Hfit as [?|(Hs & Hn & Hm & Hon)]; [done|]. wp_steps. apply (wp_on_part _ _ _ _ (mk_drive d parts)); [by rewrite Hb|].
  destruct (read_sectors_some d (start_lba p + 1) 1) as [l Hl].
  { apply (on_disk_sub _ (start_lba p) (Z.to_nat (sec_cnt p))); [done|lia|lia]. }
  rewrite u32_id by (unfold is_u32; lia).
  apply (wp_ide_read _ _ l); [change max_lba with 163839; lia|lia|exact Hl|]. cbn [dsk set_part dr_disk dr_parts].
  unfold has_magic. rewrite Hl. destruct (magic (sb_of_bytes l) =? 0x19590318) eqn:Em.
  { wp_steps. exists d. cbn [drives core]. rewrite Hb. split; [done|]. split; [done|]. split; [by apply fresh_list_less|]. by split_and!. }
  apply (wp_on_part _ _ _ _ (mk_drive d parts)); [cbn; by rewrite Hb|]. cbn [dr_disk core].
  destruct (fresh_list_used _ _ Hfr) as (a & r & Ha & Hr).
  eapply wp_mono; [apply (wp_partition_format _ pad a r); done|]. cbn beta. intros [] s' (d' & Hf & ->).
  cbn [dsk set_part p_start_lba p_sec_cnt hp] in *. exists d'. cbn [drives core set_hp set_dsk dsk dr_parts hp]. rewrite Hb.
  split; [done|]. split; [done|]. split; [done|]. split; [apply Hf|]. split; [apply Hf|]. split; [|done].
  intros i Hi. apply (fo_other _ _ _ _ _ Hf). unfold in_part in Hi.
  destruct (decide (start_lba p <= i < start_lba p + sec_cnt p)); [tauto|lia].
Qed.

(** ** All partitions of a drive *)
Fixpoint parts_apart (ps : list partition) : Prop :=
  match ps with [] => True | p :: ps => (forall q i, q ∈ ps -> in_part p i -> in_part q i -> False) /\ parts_apart ps end.

Record checked (d d' : disk) (ps : list partition) : Prop := {
  ck_ok : disk_ok d';
  ck_on : forall lba m, on_disk d lba m -> on_disk d' lba m;
  ck_frame : forall i, (forall q, q ∈ ps -> ~ in_part q i) -> d' !! i = d !! i;
  ck_each : forall q, q ∈ ps -> sec_cnt q <> 0 ->
    if has_magic d q then forall i, in_part q i -> d' !! i = d !! i
    else formatted (start_lba q) (sec_cnt q) pad d' d'
}.

Lemma has_magic_ext d d' p : (forall i, in_part p i -> d' !! i = d !! i) -> 640 <= sec_cnt p -> has_magic d' p = has_magic d p.
Proof.
  intros H Hn. unfold has_magic. rewrite (read_sectors_ext d d'); [done|]. intros i Hi. apply H. unfold in_part. lia.
Qed.
Lemma part_fits_on d d' p : (forall lba m, on_disk d lba m -> on_disk d' lba m) -> part_fits d p -> part_fits d' p.
Proof. intros H [?|(? & ? & ? & ?)]; [by left|right]. by auto. Qed.

Lemma checked_step d d1 d2 p ps : part_fits d p -> Forall (part_fits d) ps -> parts_apart (p :: ps) -> disk_ok d1 ->
  (forall lba m, on_disk d lba m -> on_disk d1 lba m) -> (forall i, ~ in_part p i -> d1 !! i = d !! i) ->
  (sec_cnt p <> 0 -> if has_magic d p then d1 = d else formatted (start_lba p) (sec_cnt p) pad d d1) ->
  checked d1 d2 ps -> checked d d2 (p :: ps).
Proof.
  intros Hp Hps [Hap _] Hok Hon Hfr Hf [C1 C2 C3 C4]. split; [done|eauto| |].
  - intros i Hi. rewrite C3 by (intros q Hq; apply Hi; by right). apply Hfr, Hi. by left.
  - assert (forall i, in_part p i -> d2 !! i = d1 !! i) as Hsame by (intros i Hi; apply C3; eauto).
    intros q [->|Hq]%elem_of_cons H0.
    + specialize (Hf H0). destruct (has_magic d p); [by subst|]. destruct Hp as [?|(A & B & C & _)]; [done|].
      apply (formatted_later _ _ d d1); [done|done|done|done| |done]. intros i Hi. by apply Hsame.
    + assert (forall i, in_part q i -> d1 !! i = d !! i) as Hq1 by (intros i Hi; apply Hfr; eauto).
      pose proof (proj1 (Forall_forall _ _) Hps q Hq) as [?|(_ & B & _)]; [done|].
      specialize (C4 q Hq H0). rewrite (has_magic_ext d d1) in C4 by done. destruct (has_magic d q); [|done].
      intros i Hi. rewrite C4, Hq1; done.
Qed.

Lemma wp_check_parts parts n : length pad = 460%nat -> forall ps b d pre, parts = pre ++ ps -> length parts = 12%nat ->
  drives b = [mk_drive d parts] -> disk_ok d -> Forall (part_fits d) ps -> parts_apart ps ->
  fresh_list (hp (core b)) (length ps + n) ->
  wp (check_parts (length ps) 0 (Z.of_nat (length pre))) (fun r b' => r = 12 /\ exists d', drives b' = [mk_drive d' parts] /\
    core_kept (core b) (core b') /\ fresh_list (hp (core b')) n /\ checked d d' ps) b.
Proof.
  intros Hpad ps. induction ps as [|p ps IH]; intros b d pre Hparts H12 Hb Hok Hfit Hap Hfr; cbn [length check_parts Nat.add] in *.
  { wp_steps. rewrite Hparts, app_nil_r in H12. split; [lia|]. exists d. split; [done|]. split; [done|]. split; [done|].
    split; try done. by intros ? ?%not_elem_of_nil. }
  apply Forall_cons in Hfit as [Hp Hps]. pose proof H12 as Hlen. rewrite Hparts, length_app in Hlen. cbn [length] in Hlen.
  rewrite (proj2 (Z.ltb_lt _ _)) by lia. wp_steps. rewrite Hb. cbn [lookup list_lookup]. apply (wp_lift _ (mk_drive d parts)); [done|].
  wp_steps. apply (wp_lift _ p).
  { cbn [dr_parts]. unfold arr_get. rewrite decide_True by lia. rewrite Nat2Z.id, Hparts. by rewrite list_lookup_middle. }
  wp_steps. eapply wp_mono; [by apply (wp_check_part b d parts p (length ps + n))|].
  cbn beta. intros [] b1 (d1 & Hb1 & Hk1 & Hf1 & Hok1 & Hon1 & Hfr1 & Hc1).
  replace (Z.of_nat (length pre) + 1) with (Z.of_nat (length (pre ++ [p]))) by (rewrite length_app; cbn; lia).
  eapply wp_mono; [apply (IH b1 d1 (pre ++ [p])); try done|].
  { by rewrite <- app_assoc. }
  { eapply Forall_impl; [exact Hps|]. intros q. by apply part_fits_on. }
  { apply Hap. }
  cbn beta. intros r b2 [-> (d2 & Hb2 & Hk2 & Hf2 & Hc2)]. split; [done|]. exists d2. split; [done|].
  split; [by eapply core_kept_trans|]. split; [done|]. by eapply checked_step.
Qed.

(** ** Mounting *)
Lemma wp_mount_first b d parts l k p pre post part (Q : bool -> boot -> Prop) :
  drives b = [mk_drive d parts] -> l = pre ++ (0%nat, k) :: post -> Forall is_char part ->
  Forall (fun '(i, k) => i = 0%nat /\ exists q, arr_get parts k = Some q /\ Forall is_char (part_name q) /\ part_name q <> part) pre ->
  arr_get parts k = Some p -> part_name p = part ->
  wp (on_part 0 p (mount_partition part part)) Q b ->
  wp (mount_first l part) Q b.
Proof.
  intros Hb -> Hch Hpre Hk Hn HQ. induction Hpre as [|[i j] pre (-> & q & Hq & Hqc & Hne) _ IH]; cbn [app mount_first]; wp_steps;
    rewrite Hb; cbn [lookup list_lookup]; (apply (wp_lift _ (mk_drive d parts)); [done|]); wp_steps; cbn [dr_parts].
  - apply (wp_lift _ p); [by rewrite Hk|]. rewrite Hn. by rewrite (proj2 (str_cmp_eq part part Hch Hch)).
  - apply (wp_lift _ q); [by rewrite Hq|]. rewrite (proj2 (Z.eqb_neq _ _)); [exact IH|].
    intros E. by apply str_cmp_eq in E.
Qed.

Lemma fresh_list_delete h n a : fresh_list h n -> fresh_list (mk_heap (delete a (live h)) (answers h)) n.
Proof.
  intros (H1 & H2 & H3). split; [done|]. split; [done|]. cbn [live answers]. intros x Hx. destruct (H3 x Hx) as [? E].
  split; [done|]. apply lookup_delete_None. by right.
Qed.

Lemma fresh_list_four h n : fresh_list h (4 + n) -> four_fresh h /\
  forall a b c e r, answers h = a :: b :: c :: e :: r ->
    fresh_list (mk_heap (<[e := true]> (<[c := true]> (<[b := true]> (<[a := true]> (live h))))) r) n.
Proof.
  intros Hf. pose proof Hf as (H1 & H2 & H3).
  destruct (fresh_list_step _ _ Hf) as (a & r1 & E1 & _ & _ & F1). destruct (fresh_list_step _ _ F1) as (b & r2 & E2 & _ & _ & F2).
  destruct (fresh_list_step _ _ F2) as (c & r3 & E3 & _ & _ & F3). destruct (fresh_list_step _ _ F3) as (e & r4 & E4 & _ & _ & F4).
  cbn [answers live] in *. subst r1 r2 r3. split.
  - rewrite E1 in H2, H3. cbn [take Nat.add] in H2, H3. change (a :: b :: c :: e :: take n r4) with ([a; b; c; e] ++ take n r4) in *.
    apply NoDup_app in H2 as (H2 & _ & _). exists a, b, c, e, r4. split; [done|].
    assert (forall x, x ∈ [a; b; c; e] -> x <> 0 /\ live h !! x = None) as H by (intros x Hx; apply H3, elem_of_app; by left).
    split; [|split_and!; apply H; rewrite !elem_of_cons; tauto]. apply NoDup_cons. split; [|done]. intros H0. by destruct (H 0 H0).
  - intros ? ? ? ? ? E. rewrite E1 in E. injection E as -> -> -> -> ->. done.
Qed.

(** A file system from an earlier boot: the super block describes the layout of
    the partition, with inode 0 for the root. *)
Definition old_fs (d : disk) (p : partition) : Prop :=
  forall l, read_sectors d (start_lba p + 1) 1 = Some l ->
    layout (start_lba p) (sec_cnt p) (sb_of_bytes l) /\ root_inode_no (sb_of_bytes l) = 0.

(** What booting leaves: partition [p] is mounted, with the super block, the two
    bitmaps and the root inode that its sectors hold; its root directory is open
    and no file is.  The sectors are those before, or freshly formatted. *)
Record booted (b' : boot) (d : disk) (parts : list partition) (p : partition) : Prop := {
  bo_disk : exists d', drives b' = [mk_drive d' parts] /\ checked d d' parts /\ dsk (core b') = d';
  bo_super : exists l, read_sectors (dsk (core b')) (start_lba p + 1) 1 = Some l /\ sb (core b') = sb_of_bytes l;
  bo_layout : layout (start_lba p) (sec_cnt p) (sb (core b'));
  bo_blocks : exists bb, read_sectors (dsk (core b')) (block_bitmap_lba (sb (core b'))) (Z.to_nat (block_bitmap_sects (sb (core b')))) = Some bb /\
    block_bitmap (core b') = mk_bitmap (block_bitmap_sects (sb (core b')) * 512) bb;
  bo_inodes : exists ib, read_sectors (dsk (core b')) (inode_bitmap_lba (sb (core b'))) 1 = Some ib /\
    inode_bitmap (core b') = mk_bitmap 512 ib;
  bo_table : table_ok (core b');
  bo_root : exists a i, root_dir (core b') = mk_dir a 0 /\ open_inodes (core b') = [a] /\ disk_inode (core b') 0 = Some i /\
    inodes (core b') !! a = Some (mk_inode (i_no i) (i_size i) 1 (write_deny i) (i_sectors i));
  bo_fresh : has_magic d p = false -> sb (core b') = make_sb (start_lba p) (sec_cnt p) /\ disk_inode (core b') 0 = Some (fresh_root (sb (core b')));
  bo_files : Forall (fun f => fd_inode f = 0) (file_table (core b'))
}.

(** What [partition_format] leaves is such a file system: the next boot finds it. *)
Lemma formatted_old d d' p : formatted (start_lba p) (sec_cnt p) pad d d' ->
  0 <= start_lba p -> 640 <= sec_cnt p -> start_lba p + sec_cnt p <= 163840 -> has_magic d' p = true /\ old_fs d' p.
Proof.
  intros Hf Hs Hn Hm. pose proof (make_sb_layout _ _ Hs Hm Hn) as La. pose proof (sb_roundtrip _ pad (la_words _ _ _ La)) as E.
  unfold has_magic, old_fs. rewrite (fo_sb _ _ _ _ _ Hf), E. split; [done|]. intros l [= <-]. by rewrite E.
Qed.

(** Before the mount, the super block of a partition is there in either case. *)
Lemma checked_super d d' parts p : checked d d' parts -> p ∈ parts -> part_fits d p -> sec_cnt p <> 0 -> (has_magic d p = true -> old_fs d p) ->
  exists l, read_sectors d' (start_lba p + 1) 1 = Some l /\ layout (start_lba p) (sec_cnt p) (sb_of_bytes l) /\
    root_inode_no (sb_of_bytes l) = 0 /\ (has_magic d p = false -> sb_of_bytes l = make_sb (start_lba p) (sec_cnt p)).
Proof.
  intros Hck Hp [?|(Hs & Hn & Hm & Hon)] H0 Hold; [done|]. pose proof (ck_each _ _ _ Hck p Hp H0) as Hf. destruct (has_magic d p).
  - destruct (read_sectors_some d (start_lba p + 1) 1) as [l Hl].
    { apply (on_disk_sub _ (start_lba p) (Z.to_nat (sec_cnt p))); [done|lia|lia]. }
    destruct (Hold eq_refl l Hl) as [La Hr]. exists l. split_and!; [|done|done|done].
    rewrite <- Hl. apply read_sectors_ext. intros i Hi. apply Hf. split; [done|lia].
  - pose proof (make_sb_layout _ _ Hs Hm Hn) as La. pose proof (sb_roundtrip _ pad (la_words _ _ _ La)) as E.
    exists (sb_bytes (make_sb (start_lba p) (sec_cnt p)) pad). split; [apply Hf|]. by rewrite E.
Qed.

Lemma wp_mount_root b d d' parts p : drives b = [mk_drive d' parts] -> checked d d' parts -> p ∈ parts -> part_fits d p ->
  sec_cnt p <> 0 -> (has_magic d p = true -> old_fs d p) -> in_kernel (core b) = true -> fresh_list (hp (core b)) 6 -> part_name p = sdb1 ->
  wp (on_part 0 p (mount_partition sdb1 sdb1)) (fun r b' => r = true /\
    wp (on_core open_root_dir ;;;
        on_core (modify (fun s => set_file_table ((fun f => mk_file (fd_pos f) (fd_flag f) 0) <$> file_table s) s)))
      (fun _ b'' => booted b'' d parts p) b') b.
Proof.
  intros Hb Hck Hp Hfit H0 Hold Hk Hfr Hname.
  destruct (checked_super d d' parts p Hck Hp Hfit H0 Hold) as (l & Hl & La & Hr0 & Hfresh).
  pose proof La as [_ [B1 B2] [I1 I2] [T1 T2] _ _ _]. destruct Hfit as [?|(Hs & Hn & Hm & Hon)]; [done|].
  destruct (layout_numbers (sec_cnt p) ltac:(lia)) as (L1 & L2 & _ & L4).
  assert (forall lba m, start_lba p <= lba -> lba + Z.of_nat m <= start_lba p + sec_cnt p -> on_disk d' lba m) as Hon'.
  { intros lba m H1 H2. apply (ck_on _ _ _ Hck). by apply (on_disk_sub _ (start_lba p) (Z.to_nat (sec_cnt p))); [|lia|lia]. }
  destruct (read_sectors_some d' (start_lba p + 2) (Z.to_nat (blocks_sects (sec_cnt p)))) as [bb Hbb]; [apply Hon'; lia|].
  destruct (read_sectors_some d' (start_lba p + 2 + blocks_sects (sec_cnt p)) 1) as [ib Hib]; [apply Hon'; lia|].
  apply (wp_on_part _ _ _ _ (mk_drive d' parts)); [by rewrite Hb|]. destruct (fresh_list_four (hp (core b)) 2 Hfr) as [Hfour Hrest].
  eapply wp_mono; [by apply (wp_mount_any _ l bb ib)|]. cbn beta.
  intros r s' [-> (a1 & a2 & a3 & a4 & r' & Ea & ->)]. split; [done|].
  cbn [set_part p_start_lba p_sec_cnt dsk dr_disk dr_parts in_kernel hp inodes file_table] in *. rewrite Hk.
  specialize (Hrest _ _ _ _ _ Ea). destruct (fresh_list_step _ _ Hrest) as (x & r1 & E1 & X0 & Xl & F1).
  destruct (fresh_list_step _ _ F1) as (y & r2 & E2 & Y0 & Yl & _). cbn [answers live] in *. subst r' r1.
  apply lookup_insert_None in Yl as [Yl Hxy]. wp_steps. apply wp_on_core. unfold open_root_dir. cbn [core]. wp_steps.
  set (s' := set_mounted _ _ _ _). assert (root_inode_no (sb s') = 0) as -> by done.
  assert (table_ok s') as Htab.
  { split; cbn [s' dsk sb set_mounted set_hp set_part p_start_lba p_sec_cnt]; rewrite ?T1; change max_lba with 163839; try lia; [apply Hck|].
    apply Hon'; lia. }
  destruct (read_sectors_some (dsk s') (sec_lba (pos_of s' 0)) (Z.to_nat (pos_sectors (pos_of s' 0)))) as [buf Hbuf].
  { intros i Hi. destruct (pos_of_spec s' 0 ltac:(lia)) as (_ & _ & _ & Hlo & Hhi). apply (to_on_disk _ Htab).
    assert (1 <= pos_sectors (pos_of s' 0) <= 2) as Hps by (unfold pos_sectors; destruct (two_sec _); lia). lia. }
  pose proof (slot_slice s' 0 buf Htab ltac:(lia) Hbuf) as Hi.
  apply (wp_inode_open_disk s' 0 x y r2 (inode_of_bytes (slice buf (off_size (pos_of s' 0)) 76))); try done.
  wp_steps. apply wp_on_core. cbn [core drives]. wp_steps. rewrite Hb.
  assert (has_magic d p = false -> disk_inode s' 0 = Some (fresh_root (sb s'))) as Hroot.
  { intros Hmag. pose proof (ck_each _ _ _ Hck p Hp H0) as Hf. rewrite Hmag in Hf. specialize (Hfresh Hmag).
    change (sb s') with (sb_of_bytes l). rewrite Hfresh. apply (formatted_root_inode _ _ pad d' d'); try done. }
  split; cbn [core drives set_file_table set_root_dir set_hp set_inodes set_open_inodes sb dsk block_bitmap inode_bitmap].
  - by exists d'.
  - by exists l.
  - done.
  - exists bb. cbn [s' set_mounted sb]. by rewrite B1, B2.
  - exists ib. cbn [s' set_mounted sb]. by rewrite I1.
  - by destruct Htab.
  - exists x, (inode_of_bytes (slice buf (off_size (pos_of s' 0)) 76)). split_and!; [done|done|exact Hi|].
    cbn [inodes set_file_table set_root_dir set_hp set_inodes set_open_inodes]. by rewrite lookup_insert_eq.
  - intros Hmag. split; [by apply Hfresh|]. by apply Hroot.
  - cbn [file_table]. apply Forall_fmap. by apply Forall_true.
Qed.

(** C26: the file system comes up, at the first boot and at any later one.  With
    one drive (the second drive's partitions are not looked at,
    [second_drive_skipped]) whose partitions are apart, within the drive and of
    at least 640 sectors each, where the first partition named sdb1 has no file
    system yet or one with the layout [partition_format] gives it,
    [filesys_init] returns: every partition that
    had the magic number is untouched, every other one is formatted, nothing
    outside them is written; sdb1 is mounted, with the super block, the bitmaps
    and the root inode its sectors hold; inode 0 is open
    as the root directory, and the file table is clear. *)
Theorem filesys_init_correct (b : boot) (d : disk) (parts : list partition) (l pre post : list (nat * Z)) (k : Z) (p : partition)
    (Hb : drives b = [mk_drive d parts]) (H12 : length parts = 12%nat) (Hok : disk_ok d) (Hfit : Forall (part_fits d) parts)
    (Hap : parts_apart parts) (Hpad : length pad = 460%nat) (Hl : l = pre ++ (0%nat, k) :: post)
    (Hpre : Forall (fun '(i, k) => i = 0%nat /\ exists q, arr_get parts k = Some q /\
              Forall is_char (part_name q) /\ part_name q <> sdb1) pre)
    (Hk : arr_get parts k = Some p) (Hn : part_name p = sdb1) (Hex : sec_cnt p <> 0) (Hold : has_magic d p = true -> old_fs d p)
    (Hkern : in_kernel (core b) = true) (Hfr : fresh_list (hp (core b)) 19) :
  exists b', filesys_init 1 l b = Done (tt, b') /\ booted b' d parts p.
Proof.
  assert (p ∈ parts) as Hin.
  { unfold arr_get in Hk. case_decide; [|done]. by eapply list_elem_of_lookup_2. }
  assert (wp (filesys_init 1 l) (fun _ b' => booted b' d parts p) b) as ([] & b' & E & H)%wp_done.
  2: { by exists b'. }
  unfold filesys_init. wp_steps. rewrite Hkern. apply wp_on_core.
  destruct (fresh_list_step _ _ Hfr) as (a & r & Er & Ha & Hal & F1). apply (wp_malloc _ a r); [done|].
  rewrite (proj2 (Z.eqb_neq a 0)) by done. cbn [check_drives]. wp_steps.
  replace (check_parts 12 0 0) with (check_parts (length parts) 0 (Z.of_nat (length (@nil partition)))) by (by rewrite H12).
  eapply wp_mono; [apply (wp_check_parts parts 6 Hpad parts _ d []); rewrite ?H12; done|]. cbn beta.
  intros ? b1 [-> (d1 & Hb1 & [K1 K2 K3 K4] & F2 & Hck)]. cbn [core hp set_hp live in_kernel] in *. wp_steps. apply wp_on_core.
  apply wp_free; [done|rewrite K4; apply lookup_insert_eq|]. set (b2 := mk_boot _ _).
  wp_steps. eapply (wp_mount_first b2 d1 parts l k p pre post sdb1); try done.
  { repeat (apply Forall_cons_2; [unfold is_char; lia|]). apply Forall_nil_2. }
  eapply wp_mono; [apply (wp_mount_root b2 d d1 parts p); try done|].
  { by eapply (proj1 (Forall_forall _ _) Hfit). }
  { by rewrite <- Hkern. }
  { by apply fresh_list_delete. }
  cbn beta. intros ? b3 [-> H3]. exact H3.
Qed.
End init.

(** ** A blank drive with two partitions *)
Definition ex_blank : disk := zero_disk 1500.
Definition no_part : partition := mk_partition 0 0 [].
Definition ex_parts : list partition :=
  [mk_partition 40 700 sdb1; no_part; no_part; no_part; mk_partition 760 700 [115; 100; 98; 53]] ++ replicate 7 no_part.
Definition ex_boot : boot :=
  mk_boot [mk_drive ex_blank ex_parts] (set_hp (mk_heap ∅ ((fun i => 4096 * (i + 1)) <$> seqZ 0 19))
    (mk_fs (dsk ex_fs) (sb ex_fs) 0 0 (block_bitmap ex_fs) (inode_bitmap ex_fs) ∅ [] (file_table ex_fs) (fd_table ex_fs)
       (mk_dir 0 0) ∅ (hp ex_fs) true)).

Lemma ex_blank_on lba n : 0 <= lba -> lba + Z.of_nat n <= 1500 -> on_disk ex_blank lba n.
Proof. intros Hl Hn i Hi. unfold ex_blank. rewrite zero_disk_lookup, decide_True by lia. eauto. Qed.
Lemma ex_blank_ok : disk_ok ex_blank.
Proof. intros i l. unfold ex_blank. rewrite zero_disk_lookup. case_decide; [|done]. by intros [= <-]. Qed.

Lemma filesys_init_correct_witness :
  exists b', filesys_init (replicate 460 0) 1 [(0%nat, 4); (0%nat, 0)] ex_boot = Done (tt, b') /\
    booted (replicate 460 0) b' ex_blank ex_parts (mk_partition 40 700 sdb1).
Proof.
  apply (filesys_init_correct (replicate 460 0) ex_boot ex_blank ex_parts [(0%nat, 4); (0%nat, 0)] [(0%nat, 4)] [] 0 (mk_partition 40 700 sdb1)).
  - done.
  - done.
  - exact ex_blank_ok.
  - assert (part_fits ex_blank no_part) by (by left). unfold ex_parts. cbn [app replicate].
    repeat apply Forall_cons_2; try done; right; cbn; split_and!; try lia; apply ex_blank_on; lia.
  - assert (forall i, ~ in_part no_part i) as H0 by (by intros i []).
    unfold ex_parts. cbn [app replicate parts_apart].
    split_and!; try done; intros q i Hq Hp Hi; rewrite ?elem_of_cons, ?elem_of_nil in Hq;
      repeat match goal with H : _ \/ _ |- _ => destruct H | H : False |- _ => destruct H end; subst; try (by destruct (H0 i)).
    unfold in_part in *. cbn in *. lia.
  - done.
  - done.
  - apply Forall_cons_2; [|apply Forall_nil_2]. split; [done|]. eexists. split; [reflexivity|]. split; [|done].
    repeat (apply Forall_cons_2; [unfold is_char; lia|]). apply Forall_nil_2.
  - done.
  - done.
  - done.
  - intros H. exfalso. revert H. unfold has_magic. cbn [read_sectors start_lba]. unfold ex_blank. rewrite zero_disk_lookup. discriminate.
  - done.
  - split; [vm_compute; lia|]. split; [by apply (bool_decide_unpack _); vm_compute|]. apply Forall_forall.
    by apply (bool_decide_unpack _); vm_compute.
Defined.

(** Only the partitions of the first drive are looked at. *)
Lemma second_drive_skipped pad n i b : check_drives pad n i 12 b = Done (tt, b).
Proof. revert i. induction n as [|n IH]; intros i; [done|]. cbn [check_drives]. rewrite (bind_done _ _ _ 12 b) by done. apply IH. Qed.
