(* ===== verification/Fsprops.v ===== *)
(** * Fsprops: properties of the file-system calls

    Path strings turned round by [sys_getcwd], what happens to a directory with
    indirect blocks, and whole sessions run on a small file system. *)

From stdpp Require Import base numbers list gmap.
From S2P Require Import Prelude.
From S2P Require Import Bitmap.
From S2P Require Import Cstring.
From S2P Require Import Path.
From S2P Require Import Disk.
From S2P Require Import Fsdata.
From S2P Require Import Inode.
From S2P Require Import File.
From S2P Require Import Dir.
From S2P Require Import Dirlookup.
From S2P Require Import Fs.

Local Open Scope Z_scope.
Local Open Scope kernel_scope.

(** ** The last loop of [sys_getcwd] *)
Definition climbed (st : list (list Z)) : list Z := rev st ≫= (fun c => slash :: c).
Definition name_of (c : list Z) : Prop := Forall (fun x => x <> slash) c.

Lemma last_slash_skip c : name_of c -> forall i o, last_slash c i o = o.
Proof.
  induction 1 as [|x c Hx Hc IH]; intros i o; [done|]. cbn [last_slash]. rewrite (proj2 (Z.eqb_neq x slash)) by done. apply IH.
Qed.

Lemma last_slash_climb p c : name_of c -> forall i o, last_slash (p ++ slash :: c) i o = Some (i + length p)%nat.
Proof.
  intros Hc. induction p as [|x p IH]; intros i o.
  - cbn [app last_slash]. rewrite Z.eqb_refl, last_slash_skip by done. cbn. f_equal. lia.
  - cbn [app last_slash]. rewrite IH. cbn. f_equal. lia.
Qed.

Lemma climbed_cons c st : climbed (c :: st) = climbed st ++ slash :: c.
Proof. unfold climbed. cbn [rev]. rewrite bind_app. cbn [mbind list_bind]. by rewrite app_nil_r. Qed.

Lemma climbed_length st : length (climbed st) = length (st ≫= (fun c => slash :: c)).
Proof.
  induction st as [|c st IH]; [done|]. rewrite climbed_cons, length_app, bind_cons, length_app, IH. cbn. lia.
Qed.

Lemma climbed_many st : (length st <= length (climbed st))%nat.
Proof. induction st as [|c st IH]; [done|]. rewrite climbed_cons, length_app. cbn. lia. Qed.

Lemma turn_round_loop : forall st fuel buf size, Forall name_of st -> (length st < fuel)%nat ->
  Z.of_nat (length buf + length (climbed st)) < size ->
  turn_round fuel (climbed st) buf size = Done (buf ++ (st ≫= (fun c => slash :: c))).
Proof.
  induction st as [|c st IH]; intros fuel buf size Hst Hf Hs; (destruct fuel as [|fuel]; [cbn in Hf; lia|]); cbn [turn_round].
  - cbn. by rewrite app_nil_r.
  - apply Forall_cons in Hst as [Hc Hst]. rewrite climbed_cons in *. rewrite last_slash_climb by done. cbn [Nat.add].
    rewrite take_app_length, drop_app_length. rewrite length_app in Hs. cbn [length] in *.
    rewrite (proj2 (Z.ltb_ge _ _)) by (rewrite length_app; cbn [length]; lia).
    rewrite IH; [|done|lia|rewrite length_app; cbn [length]; lia]. rewrite bind_cons, <- app_assoc. done.
Qed.

(** the end of [sys_getcwd] turns the path round.  The climb from the
    working directory to the root leaves the names deepest first, each after a
    slash; the loop that cuts off the last name again and again writes the path
    from the root into the caller's buffer, when the buffer has room for it and
    the terminator.  When the path fills the buffer exactly, the assertion
    before the loop holds and the terminator is written after the buffer. *)
Theorem turn_round_correct (st : list (list Z)) (size : Z) (Hst : Forall name_of st) :
  (Z.of_nat (length (climbed st)) < size ->
     turn_round (S (length (climbed st))) (climbed st) [] size = Done (st ≫= (fun c => slash :: c))) /\
  (Z.of_nat (length (climbed st)) = size -> st <> [] ->
     Z.of_nat (length (climbed st)) <= size /\ turn_round (S (length (climbed st))) (climbed st) [] size = Halt Out_of_bounds).
Proof.
  split.
  - intros Hs. pose proof (climbed_many st). rewrite turn_round_loop; [done|done|lia|cbn; lia].
  - intros Hs Hne. split; [lia|]. pose proof (climbed_many st) as Hm.
    destruct (exists_last Hne) as (st0 & c & ->).
    assert (forall st0 fuel buf, Forall name_of (st0 ++ [c]) -> (length st0 < fuel)%nat ->
      Z.of_nat (length buf + length (climbed (st0 ++ [c]))) = size -> turn_round fuel (climbed (st0 ++ [c])) buf size = Halt Out_of_bounds) as Hgen.
    { clear. induction st0 as [|c0 st0 IH]; intros fuel buf Hn Hf Hs; (destruct fuel as [|fuel]; [lia|]); cbn [turn_round];
        cbn [app] in *; apply Forall_cons in Hn as [Hc Hn]; rewrite climbed_cons in *; rewrite last_slash_climb by done; cbn [Nat.add];
        rewrite take_app_length, drop_app_length; rewrite length_app in Hs; cbn [length] in *.
      - rewrite (proj2 (Z.ltb_lt _ _)); [done|]. rewrite length_app. cbn in *. lia.
      - rewrite (proj2 (Z.ltb_ge _ _)).
        + apply IH; [done|lia|]. rewrite length_app. cbn [length]. lia.
        + pose proof (climbed_many (st0 ++ [c])) as Hm. rewrite length_app in Hm. cbn in Hm. rewrite length_app. cbn [length]. lia. }
    apply (Hgen st0); [done| |cbn; lia]. rewrite length_app in Hm. cbn in Hm. lia.
Qed.

Lemma turn_round_correct_witness :
  turn_round 5 [slash; 98; slash; 97] [] 100 = Done [slash; 97; slash; 98].
Proof.
  destruct (turn_round_correct [[97]; [98]] 100) as [H _].
  - repeat (apply Forall_cons_2; [by (apply Forall_cons_2; [unfold slash; lia|apply Forall_nil_2])|]). apply Forall_nil_2.
  - apply H. cbn. lia.
Defined.

(** ** Deleting the only entry of an indirect block *)

Lemma count_indirect_diverges all : (12 < length all)%nat -> forall fuel n, count_indirect fuel all 12 n = Halt Out_of_fuel.
Proof.
  intros Hl. induction fuel as [|fuel IH]; intros n; [done|]. cbn [count_indirect].
  destruct (lookup_lt_is_Some_2 all 12 Hl) as [b Hb]. unfold arr_get. rewrite decide_True by lia.
  change (Z.to_nat 12) with 12%nat. rewrite Hb. cbn [oget obind Z.ltb]. apply IH.
Qed.

(** C27: [delete_dir_entry] does not return when it empties an indirect block of a
    directory.  Whatever the number of iterations allowed, at a block of index 12
    or more that holds the entry and no other, the block's bit is cleared and
    then the loop that counts the indirect blocks never ends: its index is not
    advanced. *)
Theorem delete_dir_entry_diverges (s s1 : fs) (a block_idx b k inode_no size : Z) (all buf : list Z) (n fuel : nat)
    (Hidx : 12 <= block_idx) (Hlen : length all = 140%nat) (Hb : arr_get all block_idx = Some b) (Hnz : b <> 0)
    (Hmax : b <= max_lba) (Hbuf : dsk s !! b = Some buf)
    (Hscan : scan_sector (Z.to_nat (512 / size)) 0 buf inode_no 0 false None = Done (1, false, Some k))
    (Hfree : free_block_of b s = Done (tt, s1)) :
  delete_blocks fuel (S n) a block_idx all inode_no size s = Halt Out_of_fuel.
Proof.
  assert (ide_read b 1 s = Done (buf, s)) as Hread.
  { unfold ide_read, disk_read. rewrite (proj2 (Z.leb_le _ _)) by done. change (Z.to_nat 1) with 1%nat. cbn [read_sectors].
    rewrite Hbuf. cbn. by rewrite app_nil_r. }
  cbn [delete_blocks]. rewrite (bind_done _ _ s b s) by (unfold lift; by rewrite Hb). rewrite (proj2 (Z.eqb_neq b 0)) by done.
  rewrite (bind_done _ _ s buf s Hread). rewrite (bind_done _ _ s (1, false, Some k) s) by (unfold lift; by rewrite Hscan).
  rewrite (bind_done _ _ s tt s) by done. cbn [Z.eqb Pos.eqb andb negb]. apply bind_halt. unfold recycle_block.
  rewrite (bind_done _ _ s b s) by (unfold lift; by rewrite Hb). rewrite (bind_done _ _ s tt s1 Hfree).
  rewrite (proj2 (Z.ltb_ge _ _)) by done. apply bind_halt. unfold lift. by rewrite count_indirect_diverges by lia.
Qed.

(** A directory entry alone in sector 613, at index 12. *)
Definition ex_alone : list Z := de_bytes ex_entry ++ replicate 488 0.
Definition ex_alone_fs : fs := set_dsk (<[613 := ex_alone]> (dsk ex_fs)) ex_fs.

Lemma delete_dir_entry_diverges_witness :
  delete_blocks 1000 1 4096 12 (replicate 12 0 ++ [613] ++ replicate 127 0) (de_i_no ex_entry) 24 ex_alone_fs = Halt Out_of_fuel.
Proof.
  destruct (run_result (free_block_of 613) ex_alone_fs tt) as [s1 E]; [vm_compute; reflexivity|].
  apply (delete_dir_entry_diverges ex_alone_fs s1 4096 12 613 0 (de_i_no ex_entry) 24 _ ex_alone 0 1000).
  - lia.
  - done.
  - done.
  - lia.
  - done.
  - apply lookup_insert_eq.
  - vm_compute. reflexivity.
  - exact E.
Defined.

(** ** Sessions

    The file system of [Dirlookup], with room in the heap; [kernel] tells whether
    the calls are made by a kernel thread or by a process. *)
Definition session_fs (kernel : bool) : fs :=
  mk_fs (dsk ex_dir_fs) (sb ex_dir_fs) (p_start_lba ex_dir_fs) (p_sec_cnt ex_dir_fs) (block_bitmap ex_dir_fs) (inode_bitmap ex_dir_fs)
    (inodes ex_dir_fs) (open_inodes ex_dir_fs) (file_table ex_dir_fs) (fd_table ex_dir_fs) (root_dir ex_dir_fs) (dirs ex_dir_fs)
    (mk_heap (live (hp ex_dir_fs)) ((fun i => 1048576 + 4096 * i) <$> seqZ 0 64)) kernel.

(** Create, write, seek, read and close a file; make a directory with a file in
    it, change to it, ask where one is; remove both. *)
Definition session : M fs (list Z * (list Z * option (list Z) * io)) :=
  let! fd := sys_open name_zero 0 [slash; 97] (O_CREAT + O_RDWR) in
  let! w := sys_write fd [104; 101; 108; 108; 111] in
  let! p := sys_lseek fd 1 SEEK_SET in
  let! r := sys_read fd 3 in
  let! (c, _) := sys_close fd in
  let! m := sys_mkdir name_zero 0 [slash; 100] in
  let! fd2 := sys_open name_zero 0 [slash; 100; slash; 98] (O_CREAT + O_RDWR) in
  let! (c2, _) := sys_close fd2 in
  let! (cd, cwd) := sys_chdir 0 0 [slash; 100] in
  let! path := sys_getcwd 10 cwd 64 in
  let! full := sys_rmdir 0 10 [slash; 100] in
  let! u := sys_unlink 0 10 [slash; 100; slash; 98] in
  let! rm := sys_rmdir 0 10 [slash; 100] in
  let! again := sys_open name_zero 0 [slash; 100; slash; 98] O_RDWR in
  let! blocks := gets (fun s => Z.of_nat (size (live (hp s)))) in
  ret ([fd; p; c; m; fd2; c2; cd; full; u; rm; again], ([blocks], path, r)).

(** The calls of the file system fit together.  In a session of a kernel
    thread, every call answers as it should: the descriptors, the byte read back
    from the middle of the file, 0 for success, the path of the working
    directory, -1 for removing a directory that is not empty and for opening
    what is gone; and the heap ends with the two blocks it began with. *)
Theorem session_correct :
  exists s', session (session_fs true) =
    Done (([4; 1; 0; 0; 4; 0; 0; -1; 0; 0; -1], ([2], Some [slash; 100], Io_done 3 [101; 108; 108])), s').
Proof. apply run_result. vm_compute. reflexivity. Qed.

(** A process that creates a file cannot close it.  [file_create] takes the
    in-memory inode from the heap of the calling process, and [inode_close] gives
    it back to the kernel's: the assertion on its address in [sys_free] fails and
    the machine stops.  The same two calls of a kernel thread succeed. *)
Theorem create_close_panics :
  (let! fd := sys_open name_zero 0 [slash; 97] (O_CREAT + O_RDWR) in sys_close fd) (session_fs false) = Halt Assert_failed /\
  exists s', (let! fd := sys_open name_zero 0 [slash; 97] (O_CREAT + O_RDWR) in sys_close fd) (session_fs true) = Done ((0, None), s').
Proof.
  split; [|apply run_result]; vm_compute; reflexivity.
Qed.
