(* ===== verification/Pathwalk.v ===== *)
(** * Pathwalk: what a path means

    A path names what one finds by looking its components up one after the
    other, from the root, each in the directory found before ([walk]).
    [search_file] computes that: it opens and closes a directory for every
    component and returns with the last one, the parent, open. *)

From stdpp Require Import base numbers list gmap.
From S2P Require Import Prelude.
From S2P Require Import Bitmap.
From S2P Require Import Cstring.
From S2P Require Import Path.
From S2P Require Import Disk.
From S2P Require Import Fsdata.
From S2P Require Import Inode.
From S2P Require Import Blocks.
From S2P Require Import File.
From S2P Require Import Fileread.
From S2P Require Import Dir.
From S2P Require Import Dirlookup.
From S2P Require Import Fs.

Local Open Scope Z_scope.
Local Open Scope kernel_scope.

(** ** Room in the heap: the next [k] proposals are usable *)
Definition room (k : nat) (h : heap) : Prop :=
  exists l r, answers h = l ++ r /\ length l = k /\ NoDup l /\ Forall (fun a => a <> 0 /\ live h !! a = None) l.

Lemma room_cons k h : room (S k) h -> exists a r, answers h = a :: r /\ a <> 0 /\ live h !! a = None /\
  forall b, room k (mk_heap (<[a := b]> (live h)) r).
Proof.
  intros ([|a l] & r & E & Hl & Hnd & HF); [done|]. apply NoDup_cons in Hnd as [Ha Hnd]. apply Forall_cons in HF as [[H0 Hn] HF].
  exists a, (l ++ r). split_and!; [done..|]. intros b. exists l, r. split_and!; [done|by injection Hl|done|]. cbn [live].
  rewrite Forall_forall in HF |- *. intros x Hx. destruct (HF x Hx) as [Hx0 Hxn]. split; [done|]. rewrite lookup_insert_ne by (by intros ->). done.
Qed.

Lemma room_less k h m : room k h -> m ⊆ live h -> room k (mk_heap m (answers h)).
Proof.
  intros (l & r & E & Hl & Hnd & HF) Hm. exists l, r. split_and!; [done..|]. eapply Forall_impl; [exact HF|].
  intros a [H0 Hn]. split; [done|]. cbn. destruct (m !! a) eqn:Ea; [|done]. by rewrite (lookup_weaken _ _ _ _ Ea Hm) in Hn.
Qed.

Lemma room_le k k' h : (k' <= k)%nat -> room k h -> room k' h.
Proof.
  intros Hk (l & r & E & Hl & Hnd & HF). exists (take k' l), (drop k' l ++ r). split_and!.
  - by rewrite app_assoc, take_drop.
  - rewrite length_take. lia.
  - by apply (NoDup_app (take k' l) (drop k' l)); rewrite take_drop.
  - by apply Forall_take.
Qed.

Lemma room_two k h : room (2 + k) h -> two_fresh h /\ forall r, answers h = take 2 (answers h) ++ r -> room k (mk_heap (live h) r).
Proof.
  intros ([|a [|b l]] & r & E & Hl & Hnd & HF); [done..|]. rewrite !NoDup_cons, !not_elem_of_cons in Hnd.
  destruct Hnd as ((Hab & _) & Hb & Hnd). rewrite !Forall_cons in HF. destruct HF as ((A0 & A1) & (B0 & B1) & HF). split.
  - exists a, b, (l ++ r). by split_and!.
  - intros r' Er. rewrite E in Er. cbn in Er. injection Er as <-. exists l, r. split_and!; try done. cbn in Hl. lia.
Qed.

(** ** The inode of a number: the open one, or the one in the table *)
Definition inode_of (s : fs) (n : Z) : option inode :=
  match find_open (open_inodes s) (inodes s) n with
  | Done (Some a) => inodes s !! a
  | _ => disk_inode s n
  end.

Record base_ok (s : fs) : Prop := {
  bo_table : table_ok s;
  bo_open : open_wf s;
  bo_unique : forall a b i j, inodes s !! a = Some i -> inodes s !! b = Some j -> i_no i = i_no j -> a = b;
  bo_dirs : forall p d, dirs s !! p = Some d -> is_Some (live (hp s) !! p);
  bo_root : exists i, inodes s !! d_inode (root_dir s) = Some i /\ i_no i = 0
}.

Definition first_open (j : inode) : inode := mk_inode (i_no j) (i_size j) 1 (write_deny j) (i_sectors j).

(** [t] is [s] with directory [n] opened: the structure at [p], and its inode at
    [a], which was open already or was read. *)
Inductive dir_opened (s : fs) (n p : Z) : fs -> Prop :=
  | opened_again a j r :
      inode_of s n = Some j -> inodes s !! a = Some j ->
      dir_opened s n p (set_dirs (<[p := mk_dir a 0]> (dirs s)) (set_inodes (<[a := bump j]> (inodes s))
        (set_hp (mk_heap (<[p := in_kernel s]> (live (hp s))) r) s)))
  | opened_first a j r :
      inode_of s n = Some j -> a <> 0 -> a <> p -> live (hp s) !! a = None ->
      dir_opened s n p (set_dirs (<[p := mk_dir a 0]> (dirs s)) (set_hp (mk_heap (<[a := true]> (<[p := in_kernel s]> (live (hp s)))) r)
        (set_inodes (<[a := first_open j]> (inodes s)) (set_open_inodes (a :: open_inodes s) s)))).

Definition fresh_block (s : fs) (p : Z) : Prop := p <> 0 /\ live (hp s) !! p = None.

Lemma not_live s a : open_wf s -> live (hp s) !! a = None -> (a ∉ open_inodes s) /\ inodes s !! a = None.
Proof.
  intros [_ Hin Hlive _] Hn. assert (a ∉ open_inodes s) as H by (intros [_ ?]%Hlive; congruence).
  split; [done|]. destruct (inodes s !! a) eqn:E; [|done]. exfalso. apply H, Hin. eauto.
Qed.

Lemma wp_dir_open s n k (Q : dirptr -> fs -> Prop) : base_ok s -> 0 <= n < 4096 -> room (3 + k) (hp s) ->
  (forall p t, fresh_block s p -> dir_opened s n p t -> room k (hp t) -> Q (HeapDir p) t) -> wp (dir_open n) Q s.
Proof.
  intros [Ht Ho Hu Hd Hr] Hn Hroom HQ. pose proof Ho as [Hnd Hin Hlive Hcnt].
  destruct (room_cons _ _ Hroom) as (p & r & Ea & Hp0 & Hpn & Hroom1). unfold dir_open. wp_steps.
  apply (wp_malloc _ p r); [done|]. wp_steps. set (s0 := set_hp _ s).
  destruct (find_open_spec (open_inodes s) (inodes s) n) as (x & Hfind & Hx). { intros a Ha. by apply Hin. }
  destruct x as [a|].
  - destruct Hx as (_ & j & Hj & Hno). apply (wp_inode_open_cached s0 n a j); [done|done|by apply (Hcnt a)|].
    rewrite (proj2 (Z.eqb_neq p 0)) by done. wp_steps. apply wp_ret. apply (HQ p); [done| |].
    + apply (opened_again s n p a j r); [|done]. unfold inode_of. by rewrite Hfind.
    + eapply (room_le (2 + k)); [lia|]. apply Hroom1.
  - pose proof (Hroom1 (in_kernel s)) as Hroom2. destruct (room_cons _ _ Hroom2) as (a & r1 & Ea1 & Ha0 & Han & Hroom3).
    destruct (room_cons _ _ (Hroom3 true)) as (b & r2 & Eb & Hb0 & Hbn & Hroom4). cbn [answers live] in *. subst r r1.
    assert (a <> p /\ live (hp s) !! a = None) as [Hap Hal].
    { destruct (decide (a = p)) as [->|Hne]; [by rewrite lookup_insert_eq in Han|]. by rewrite lookup_insert_ne in Han. }
    assert (exists j, disk_inode s n = Some j) as [j Hj].
    { destruct (pos_of_spec s n Hn) as (_ & _ & _ & Hlo & Hhi).
      destruct (read_sectors_some (dsk s) (sec_lba (pos_of s n)) (Z.to_nat (pos_sectors (pos_of s n)))) as [buf Hbuf].
      { intros j Hj. apply Ht. unfold pos_sectors in *. destruct (two_sec _); lia. }
      rewrite (slot_slice s n buf Ht Hn Hbuf). eauto. }
    apply (wp_inode_open_disk s0 n a b r2 j); try done.
    { destruct Ht. by split. }
    { by intros ->; rewrite lookup_insert_eq in Hbn. }
    { cbn in Hbn |- *. destruct (decide (b = a)) as [->|]; [by rewrite lookup_insert_eq in Hbn|]. by rewrite lookup_insert_ne in Hbn by done. }
    rewrite (proj2 (Z.eqb_neq p 0)) by done. wp_steps. apply wp_ret. apply (HQ p); [done| |].
    + apply (opened_first s n p a j r2); [|done..]. unfold inode_of. by rewrite Hfind.
    + apply (room_less k (mk_heap (<[b := true]> (<[a := true]> (<[p := in_kernel s]> (live (hp s))))) r2)); [apply Hroom4|].
      cbn. by apply insert_subseteq.
Qed.

Lemma fs_same s t :
  dsk s = dsk t -> sb s = sb t -> p_start_lba s = p_start_lba t -> p_sec_cnt s = p_sec_cnt t -> block_bitmap s = block_bitmap t ->
  inode_bitmap s = inode_bitmap t -> inodes s = inodes t -> open_inodes s = open_inodes t -> file_table s = file_table t ->
  fd_table s = fd_table t -> root_dir s = root_dir t -> dirs s = dirs t -> hp s = hp t -> in_kernel s = in_kernel t -> s = t.
Proof. destruct s, t. cbn. intros. by subst. Qed.

Lemma wp_dir_close s n p t (Q : unit -> fs -> Prop) : base_ok s -> fresh_block s p -> dir_opened s n p t ->
  Q tt (set_hp (mk_heap (live (hp s)) (answers (hp t))) s) -> wp (dir_close (HeapDir p)) Q t.
Proof.
  intros [Ht Ho Hu Hd Hr] [Hp0 Hpn] Hop HQ. pose proof Ho as [Hnd Hin Hlive Hcnt].
  assert (dirs s !! p = None) as Hdp by (destruct (dirs s !! p) eqn:E; [destruct (Hd _ _ E); congruence|done]).
  destruct Hop as [a j r Hj Ha|a j r Hj Ha0 Hap Hal]; unfold dir_close; wp_steps.
  - apply (wp_get_dir _ (HeapDir p) (mk_dir a 0)); [apply lookup_insert_eq|]. wp_steps. pose proof (Hcnt a j Ha).
    apply (wp_inode_close_more _ a (bump j)); [apply lookup_insert_eq|cbn; lia|]. wp_steps.
    apply (wp_free (in_kernel s)); [done|apply lookup_insert_eq|]. wp_steps.
    match goal with |- Q tt ?x => replace x with (set_hp (mk_heap (live (hp s)) r) s); [exact HQ|] end. clear HQ.
    apply fs_same; try reflexivity.
    + cbn. rewrite insert_insert_eq. symmetry. apply insert_id. rewrite Ha. destruct j. cbn. do 2 f_equal. lia.
    + cbn. symmetry. by rewrite delete_insert_eq, delete_id.
    + cbn. by rewrite delete_insert_eq, delete_id.
  - apply (wp_get_dir _ (HeapDir p) (mk_dir a 0)); [apply lookup_insert_eq|]. wp_steps.
    apply (wp_inode_close_last _ a (first_open j)); [apply lookup_insert_eq|done|done|apply lookup_insert_eq|]. wp_steps.
    apply (wp_free (in_kernel s)); [done|cbn; by rewrite delete_insert_eq, lookup_delete_ne, lookup_insert_eq by done|]. wp_steps.
    destruct (not_live s a Ho Hal) as [Hna Hnone].
    match goal with |- Q tt ?x => replace x with (set_hp (mk_heap (live (hp s)) r) s); [exact HQ|] end. clear HQ.
    apply fs_same; try reflexivity.
    + cbn. by rewrite delete_insert_eq, delete_id.
    + cbn. symmetry. by apply filter_fresh.
    + cbn. symmetry. by rewrite delete_insert_eq, delete_id.
    + cbn. rewrite delete_insert_eq, (delete_id _ a), delete_insert_eq, delete_id; [done|done|]. by rewrite lookup_insert_ne.
Qed.

(** ** Directories, in whichever state they are looked at *)
Lemma dir_same s t i i' : dsk t = dsk s -> sb t = sb s -> i_sectors i' = i_sectors i -> inode_ok i' -> dir_wf s i ->
  dir_wf t i' /\ forall c, dir_lookup t i' c = dir_lookup s i c.
Proof.
  intros Ed Es Ei Hok [D1 D2 D3 D4 D5 D6].
  assert (forall k, sector i' k = sector i k) as Hsec by (intros k; unfold sector; by rewrite Ei).
  assert (blocks_of t i' = blocks_of s i) as Hb by (unfold blocks_of, tab_words; by rewrite Hsec, Ei, Ed).
  assert (forall b, block_slots t b = block_slots s b) as Hbs by (intros b; unfold block_slots; by rewrite Ed).
  assert (dir_slots t i' = dir_slots s i) as Hsl.
  { unfold dir_slots. rewrite Hb. by apply list_bind_ext. }
  split.
  - split; rewrite ?Ed, ?Es, ?Hsec, ?Hb, ?Hsl; try done; unfold block_ok in *; by rewrite Ed.
  - intros c. unfold dir_lookup. by rewrite Hsl.
Qed.

(** Directory [n] of the tree. *)
Definition node (s : fs) (n : Z) (i : inode) : Prop :=
  inode_of s n = Some i /\ i_no i = n /\ dir_wf s i /\ 0 <= n < 4096.

(** The directories below the root. *)
Inductive in_tree (s : fs) : Z -> Prop :=
  | in_root : in_tree s 0
  | in_child n i c e : in_tree s n -> inode_of s n = Some i -> name_ok c -> dir_lookup s i c = Some e ->
      f_type e = FT_DIRECTORY -> in_tree s (de_i_no e).

Record tree_ok (s : fs) : Prop := {
  tr_base : base_ok s;
  tr_nodes : forall n, in_tree s n -> exists i, node s n i;
  tr_types : forall n i c e, in_tree s n -> inode_of s n = Some i -> name_ok c -> dir_lookup s i c = Some e ->
    0 <= de_i_no e < 4096 /\ (f_type e = FT_REGULAR \/ f_type e = FT_DIRECTORY)
}.

(** The directory [n] is open as [pd] in [t], which is otherwise as [s]. *)
Definition at_dir (s : fs) (n : Z) (pd : dirptr) (t : fs) : Prop :=
  match pd with
  | RootDir => n = 0 /\ same_fs s t
  | HeapDir p => fresh_block s p /\ dir_opened s n p t
  end.

Lemma bump_ok s a j : open_wf s -> inodes s !! a = Some j -> inode_ok j -> inode_ok (bump j).
Proof. intros Ho Ha [? ? ? ? ?]. pose proof (ow_cnts s Ho a j Ha). split; try done. unfold is_u32. cbn. lia. Qed.

Lemma inode_of_open s a j : base_ok s -> inodes s !! a = Some j -> inode_of s (i_no j) = Some j.
Proof.
  intros Hb Ha. pose proof (bo_open s Hb) as [_ Hin _ _].
  destruct (find_open_spec (open_inodes s) (inodes s) (i_no j)) as (x & Hfind & Hx). { intros b Hb'. by apply Hin. }
  unfold inode_of. rewrite Hfind. destruct x as [b|].
  - destruct Hx as (_ & j' & Hj' & Hno). by rewrite (bo_unique s Hb b a j' j Hj' Ha Hno).
  - exfalso. apply (Hx a j); [apply Hin; eauto|done|done].
Qed.

Lemma at_dir_inode s n pd t i0 : base_ok s -> node s n i0 -> at_dir s n pd t ->
  exists d i, dir_at t pd d /\ inodes t !! d_inode d = Some i /\ i_no i = n /\ dir_wf t i /\
    forall c, dir_lookup t i c = dir_lookup s i0 c.
Proof.
  intros Hb (Hi0 & Hno & Hw & Hn) Hat. pose proof (bo_open s Hb) as Ho. destruct pd as [|p].
  - destruct Hat as [-> [r ->]]. destruct (bo_root s Hb) as (i & Hi & Hz). exists (root_dir s), i.
    pose proof (inode_of_open s _ i Hb Hi) as E. rewrite Hz, Hi0 in E. injection E as ->.
    split; [done|]. split; [done|]. split; [done|]. apply dir_same; try done. apply Hw.
  - destruct Hat as [_ [a j r Hj Ha|a j r Hj Ha0 Hap Hal]]; rewrite Hi0 in Hj; injection Hj as <-.
    + exists (mk_dir a 0), (bump i0). split; [apply lookup_insert_eq|]. split; [apply lookup_insert_eq|]. split; [done|].
      apply dir_same; try done. apply (bump_ok s a); [done|done|apply Hw].
    + exists (mk_dir a 0), (first_open i0). split; [apply lookup_insert_eq|]. split; [apply lookup_insert_eq|]. split; [done|].
      apply dir_same; try done. destruct (dw_ok s i0 Hw). by split.
Qed.

(** Only the heap's proposals may change while it is open. *)
Lemma at_dir_hp s n pd t r : at_dir s n pd t -> at_dir s n pd (set_hp (mk_heap (live (hp t)) r) t).
Proof.
  destruct pd as [|p]; [intros [-> [r' ->]]; split; [done|by exists r]|].
  intros [Hf [a j r' Hj Ha|a j r' Hj Ha0 Hap Hal]]; split; [done| |done|].
  - exact (opened_again s n p a j r Hj Ha).
  - exact (opened_first s n p a j r Hj Ha0 Hap Hal).
Qed.

Lemma dir_opened_live s n p t : fresh_block s p -> dir_opened s n p t -> live (hp s) ⊆ live (hp t).
Proof.
  intros [_ Hp] [a j r _ _|a j r _ _ Hap Hal]; cbn; [by apply insert_subseteq|].
  transitivity (<[p := in_kernel s]> (live (hp s))); [by apply insert_subseteq|]. apply insert_subseteq. by rewrite lookup_insert_ne.
Qed.

(** Closing it leads back. *)
Lemma wp_at_dir_close s n pd t k (Q : unit -> fs -> Prop) : base_ok s -> at_dir s n pd t -> room k (hp t) ->
  (forall r, room k (mk_heap (live (hp s)) r) -> Q tt (set_hp (mk_heap (live (hp s)) r) s)) -> wp (dir_close pd) Q t.
Proof.
  intros Hb Hat Hroom HQ. destruct pd as [|p].
  - destruct Hat as [-> [r ->]]. cbn [dir_close]. apply wp_ret. by apply HQ.
  - destruct Hat as [Hf Hop]. apply (wp_dir_close s n p t); [done..|]. apply HQ.
    apply (room_less k (hp t)); [done|]. by eapply dir_opened_live.
Qed.

Lemma base_ok_hp s r : base_ok s -> base_ok (set_hp (mk_heap (live (hp s)) r) s).
Proof. intros [[] [] ? ? ?]. by split. Qed.

Lemma dir_opened_hp s r n p t : dir_opened (set_hp (mk_heap (live (hp s)) r) s) n p t -> dir_opened s n p t.
Proof.
  intros [a j r' Hj Ha|a j r' Hj Ha0 Hap Hal].
  - exact (opened_again s n p a j r' Hj Ha).
  - exact (opened_first s n p a j r' Hj Ha0 Hap Hal).
Qed.

Lemma wp_reopen s r n k (Q : dirptr -> fs -> Prop) : base_ok s -> 0 <= n < 4096 -> room (3 + k) (mk_heap (live (hp s)) r) ->
  (forall pd t, at_dir s n pd t -> room k (hp t) -> Q pd t) -> wp (dir_open n) Q (set_hp (mk_heap (live (hp s)) r) s).
Proof.
  intros Hb Hn Hroom HQ. apply (wp_dir_open _ n k); [by apply base_ok_hp|done|done|]. intros p t Hf Hop Hr.
  apply HQ; [|done]. split; [exact Hf|]. by eapply dir_opened_hp.
Qed.

(** ** What a path means *)
Record found : Type := mk_found { w_ino : Z; w_path : list Z; w_dir : Z; w_type : Z }.

(** The inode number, the path up to where the search ended, the directory in
    which it ended and the kind of what was found.  What is behind a regular
    file in the path is not looked at. *)
Fixpoint walk (s : fs) (n : Z) (path : list Z) (cs : list (list Z)) : found :=
  match cs with
  | [] => mk_found n path n FT_DIRECTORY
  | c :: cs =>
      let path := path ++ slash :: c in
      match inode_of s n ≫= (fun i => dir_lookup s i c) with
      | None => mk_found (-1) path n FT_UNKNOWN
      | Some e =>
          if f_type e =? FT_DIRECTORY then
            match cs with [] => mk_found (de_i_no e) path n FT_DIRECTORY | _ => walk s (de_i_no e) path cs end
          else mk_found (de_i_no e) path n FT_REGULAR
      end
  end.

Lemma next_name_some sub c cs : match sub with Some q => components q = c :: cs | None => False end -> name_ok c ->
  exists sub', next_name sub = Done (sub', c ++ drop (length c) name_zero) /\
    match sub' with Some q => components q = cs | None => cs = [] end.
Proof.
  destruct sub as [q|]; [|done]. intros Hq (_ & _ & Hl).
  destruct (path_parse_some q name_zero c cs Hq ltac:(unfold name_zero; rewrite length_replicate; lia)) as (_ & _ & rest & E & Hr).
  exists rest. split; [exact E|]. by destruct rest; [destruct Hr|].
Qed.

Lemma next_name_none sub : match sub with Some q => components q = [] | None => True end -> next_name sub = Done (None, name_zero).
Proof. destruct sub as [q|]; [|done]. apply path_parse_none. Qed.

Lemma strcat_fits p q : (length p + length q < 512)%nat -> strcat_path p q = Done (p ++ q).
Proof. intros H. unfold strcat_path. rewrite (proj2 (Z.ltb_lt _ _)); [done|]. unfold MAX_PATH_LEN. lia. Qed.

Section walk.
Context (s : fs) (Htree : tree_ok s).

(** The end of a search that found directory [m] in directory [n]. *)
Lemma wp_search_end path pd m n ino t k (Q : Z * path_search_record -> fs -> Prop) :
  at_dir s m pd t -> 0 <= n < 4096 -> room (3 + k) (hp t) ->
  (forall pd' t', at_dir s n pd' t' -> room k (hp t') -> Q (i32 ino, mk_psr path pd' FT_DIRECTORY) t') ->
  wp (search_end path pd n ino) Q t.
Proof.
  intros Hat Hn Hroom HQ. pose proof (tr_base s Htree) as Hb. unfold search_end. wp_steps.
  apply (wp_at_dir_close s m pd t (3 + k)); [done..|]. intros r Hr. wp_steps.
  apply (wp_reopen s r n k); [done..|]. intros pd' t' Hat' Hr'. wp_steps. by apply HQ.
Qed.

(** One component is looked up. *)
Lemma wp_search_step fuel sub c path pd n i parent ino t k (Q : Z * path_search_record -> fs -> Prop) :
  name_ok c -> at_dir s n pd t -> node s n i -> room (2 + k) (hp t) -> (length path + S (length c) < 512)%nat ->
  (forall t', at_dir s n pd t' -> room k (hp t') ->
     wp (match dir_lookup s i c with
         | None => ret (-1, mk_psr (path ++ slash :: c) pd FT_UNKNOWN)
         | Some dir_e =>
             let! (sub, name) := lift (next_name sub) in
             if f_type dir_e =? FT_DIRECTORY then
               let! d := get_dir pd in
               let! i := get_inode (d_inode d) in
               dir_close pd ;;;
               let! pd := dir_open (de_i_no dir_e) in
               search_loop fuel sub name (path ++ slash :: c) pd (i_no i) (de_i_no dir_e)
             else if f_type dir_e =? FT_REGULAR then ret (i32 (de_i_no dir_e), mk_psr (path ++ slash :: c) pd FT_REGULAR)
             else search_loop fuel sub name (path ++ slash :: c) pd parent (de_i_no dir_e)
         end) Q t') ->
  wp (search_loop (S fuel) sub (c ++ drop (length c) name_zero) path pd parent ino) Q t.
Proof.
  pose proof (tr_base s Htree) as Hb. intros (Hne & Hch & Hlen) Hat Hnode Hroom Hw HQ. cbn [search_loop].
  assert (Forall is_char c) as Hch' by (eapply Forall_impl; [exact Hch|]; by intros x []).
  assert ((first_char (c ++ drop (length c) name_zero) =? 0) = false) as ->
    by (rewrite first_char_app; destruct c; [done|]; apply Forall_cons in Hch' as [[] _]; lia).
  wp_steps; [apply Z.ltb_lt; lia|]. eapply wp_lift; [apply strcat_fits; cbn; lia|]. wp_steps.
  apply (wp_lift _ c); [unfold name_zero; by rewrite cstring_name by (done || lia)|]. wp_steps.
  eapply wp_lift; [apply strcat_fits; rewrite length_app; cbn; lia|]. wp_steps. rewrite <- app_assoc. cbn [app].
  destruct (at_dir_inode s n pd t i Hb Hnode Hat) as (d & i' & Hd & Hi & _ & Hdw & Hl). destruct (room_two k _ Hroom) as [H2 Hr].
  apply (wp_search_dir_entry t pd d i'); try done.
  { eapply Forall_impl; [exact Hch'|]. intros x []. lia. }
  intros r Er. rewrite Hl. apply HQ; [by apply at_dir_hp|]. by apply Hr.
Qed.

(** ... and the directory found is entered. *)
Lemma wp_enter {A} (f : dirptr -> Z -> M fs A) pd n i m t k (Q : A -> fs -> Prop) :
  at_dir s n pd t -> node s n i -> 0 <= m < 4096 -> room (3 + k) (hp t) ->
  (forall pd' t', at_dir s m pd' t' -> room k (hp t') -> wp (f pd' n) Q t') ->
  wp (let! d := get_dir pd in
      let! i := get_inode (d_inode d) in
      dir_close pd ;;;
      let! pd := dir_open m in
      f pd (i_no i)) Q t.
Proof.
  pose proof (tr_base s Htree) as Hb. intros Hat Hnode Hm Hroom HQ.
  destruct (at_dir_inode s n pd t i Hb Hnode Hat) as (d & i' & Hd & Hi & Hno & _ & _). wp_steps.
  apply (wp_get_dir t pd d); [done|]. wp_steps. apply (wp_get_inode _ i'); [done|]. wp_steps.
  apply (wp_at_dir_close s n pd t (3 + k)); [done..|]. intros r Hr. wp_steps. apply (wp_reopen s r m k); [done..|].
  intros pd' t' Hat' Hr'. rewrite Hno. by apply HQ.
Qed.

Lemma small_i32 n : 0 <= n < 4096 -> i32 n = n.
Proof. intros H. apply i32_id. lia. Qed.

Lemma wp_search_loop k : forall cs fuel sub c path pd n i parent ino t (Q : Z * path_search_record -> fs -> Prop),
  match sub with Some q => components q = cs | None => cs = [] end -> Forall name_ok (c :: cs) ->
  at_dir s n pd t -> in_tree s n -> node s n i -> room (5 * length (c :: cs) + (3 + k)) (hp t) -> (length cs + 1 < fuel)%nat ->
  (length path + weight (c :: cs) < 512)%nat ->
  (forall pd' t', at_dir s (w_dir (walk s n path (c :: cs))) pd' t' -> room k (hp t') ->
     Q (w_ino (walk s n path (c :: cs)), mk_psr (w_path (walk s n path (c :: cs))) pd' (w_type (walk s n path (c :: cs)))) t') ->
  wp (search_loop fuel sub (c ++ drop (length c) name_zero) path pd parent ino) Q t.
Proof.
  intros cs. induction cs as [|c' cs IH]; intros fuel sub c path pd n i parent ino t Q Hsub Hnames Hat Hin Hnode Hroom Hf Hw HQ;
    (destruct fuel as [|fuel]; [lia|]); apply Forall_cons in Hnames as [Hc Hnames]; rewrite weight_cons in Hw;
    pose proof Hnode as (Hi & _ & _ & Hn); cbn [walk] in HQ; rewrite Hi in HQ; cbn [mbind option_bind] in HQ.
  - apply (wp_search_step fuel sub c path pd n i parent ino t (3 + (3 + k))); [done|done|done|exact Hroom|lia|]. intros t1 Hat1 Hroom1.
    destruct (dir_lookup s i c) as [e|] eqn:El; [|apply wp_ret, HQ; [done|by eapply room_le, Hroom1; lia]]. wp_steps.
    apply (wp_lift _ (None, name_zero)); [apply next_name_none; by destruct sub|]. cbv beta iota.
    destruct (tr_types s Htree n i c e Hin Hi Hc El) as [Hm [Hreg|Hdir]].
    + rewrite Hreg in *. change (FT_REGULAR =? FT_DIRECTORY) with false in *. change (FT_REGULAR =? FT_REGULAR) with true.
      cbv iota in *. apply wp_ret. rewrite small_i32 by done. apply HQ; [done|]. eapply room_le, Hroom1. lia.
    + rewrite Hdir in *. change (FT_DIRECTORY =? FT_DIRECTORY) with true in *. cbv iota in *.
      apply (wp_enter (fun pd p => search_loop fuel None name_zero (path ++ slash :: c) pd p (de_i_no e)) pd n i (de_i_no e) t1 (3 + k)); [done..|].
      intros pd' t' Hat' Hr'. destruct fuel as [|fuel]; [cbn in Hf; lia|]. cbn [search_loop]. change (first_char name_zero =? 0) with true. cbv iota.
      apply (wp_search_end _ pd' (de_i_no e) n _ _ k); [done..|]. intros pd2 t2 Hat2. rewrite small_i32 by done. by apply HQ.
  - apply (wp_search_step fuel sub c path pd n i parent ino t (3 + (5 * length (c' :: cs) + (3 + k))));
      [done|done|done|eapply room_le; [|exact Hroom]; cbn [length]; lia|lia|]. intros t1 Hat1 Hroom1.
    destruct (dir_lookup s i c) as [e|] eqn:El; [|apply wp_ret, HQ; [done|by eapply room_le, Hroom1; lia]]. wp_steps.
    destruct (next_name_some sub c' cs) as (sub' & En & Hsub'); [by destruct sub|by apply Forall_cons in Hnames as [? _]|].
    eapply wp_lift; [exact En|]. cbv beta iota.
    destruct (tr_types s Htree n i c e Hin Hi Hc El) as [Hm [Hreg|Hdir]].
    + rewrite Hreg in *. change (FT_REGULAR =? FT_DIRECTORY) with false in *. change (FT_REGULAR =? FT_REGULAR) with true.
      cbv iota in *. apply wp_ret. rewrite small_i32 by done. apply HQ; [done|]. eapply room_le, Hroom1. lia.
    + rewrite Hdir in *. change (FT_DIRECTORY =? FT_DIRECTORY) with true in *. cbv iota in *.
      apply (wp_enter (fun pd p => search_loop fuel sub' (c' ++ drop (length c') name_zero) (path ++ slash :: c) pd p (de_i_no e))
        pd n i (de_i_no e) t1 (5 * length (c' :: cs) + (3 + k))); [done..|].
      intros pd' t' Hat' Hr'. pose proof (in_child s n i c e Hin Hi Hc El Hdir) as Hin'. destruct (tr_nodes s Htree _ Hin') as [i' Hnode'].
      apply (IH fuel sub' c' _ pd' (de_i_no e) i'); try done; [cbn [length] in Hf; lia|].
      rewrite length_app. cbn [length]. lia.
Qed.

Lemma wp_search_file junk_ino path k (Q : Z * path_search_record -> fs -> Prop) :
  abs_path_ok path -> components path <> [] -> is_root path = false -> room (5 * length (components path) + (3 + k)) (hp s) ->
  (let w := walk s 0 [] (components path) in
   forall pd t, at_dir s (w_dir w) pd t -> room k (hp t) -> Q (w_ino w, mk_psr (w_path w) pd (w_type w)) t) ->
  wp (search_file junk_ino path) Q s.
Proof.
  intros (Hh & Hok & Hlen) Hne Hroot Hroom HQ. unfold search_file. rewrite Hroot. destruct path as [|x p]; [done|]. injection Hh as ->.
  wp_steps.
  { rewrite Z.eqb_refl. cbn [andb]. apply andb_true_iff. split; apply Z.ltb_lt; [|unfold MAX_PATH_LEN; lia].
    destruct p; [done|]. cbn [length]. lia. }
  pose proof (abs_path_names _ Hok) as Hn. pose proof (components_weight p) as Hw. pose proof (components_length (slash :: p)) as Hcl.
  destruct (components (slash :: p)) as [|c cs] eqn:E; [done|]. pose proof Hn as [(_ & _ & Hc15) _]%Forall_cons.
  destruct (path_parse_some (slash :: p) name_zero c cs E) as (_ & _ & rest & Er & Hrest).
  { unfold name_zero. rewrite length_replicate. lia. }
  eapply wp_lift; [exact Er|]. cbv beta iota. destruct (tr_nodes s Htree 0 (in_root s)) as [i Hi].
  apply (wp_search_loop k cs _ rest c [] RootDir 0 i); try done.
  - destruct rest; [apply Hrest|done].
  - split; [done|]. exists (answers (hp s)). by destruct s as [? ? ? ? ? ? ? ? ? ? ? ? [] ?].
  - apply in_root.
  - unfold path_fuel. cbn [length] in *. lia.
  - cbn [length] in *. lia.
Qed.
End walk.

(** C31: a path means what its components lead to.  In a sound tree, for an
    absolute path with names of at most 15 characters other than the root, and
    with room in the heap, [search_file] returns; it has found what looking the
    components up one after the other gives, with the kind of it, the path up to
    there and the directory it is in, or would be in, left open; closing that
    directory gives back the file system as it was, with its inodes, their
    counts, the directories and the blocks of the heap. *)
Theorem search_file_correct (junk_ino : Z) (s : fs) (path : list Z) (Htree : tree_ok s) (Hpath : abs_path_ok path)
    (Hne : components path <> []) (Hroot : is_root path = false) (Hroom : room (5 * length (components path) + 3) (hp s)) :
  let w := walk s 0 [] (components path) in
  exists pd t, search_file junk_ino path s = Done ((w_ino w, mk_psr (w_path w) pd (w_type w)), t) /\
    at_dir s (w_dir w) pd t /\ exists t', dir_close pd t = Done (tt, t') /\ same_fs s t'.
Proof.
  intros w. assert (wp (search_file junk_ino path) (fun r t => exists pd, r = (w_ino w, mk_psr (w_path w) pd (w_type w)) /\ at_dir s (w_dir w) pd t) s) as H.
  { apply (wp_search_file s Htree junk_ino path 0); [done..|]. intros w' pd t Hat _. by exists pd. }
  apply wp_done in H as (r & t & E & pd & -> & Hat). exists pd, t. split; [done|]. split; [done|].
  assert (wp (dir_close pd) (fun _ t' => same_fs s t') t) as H.
  { apply (wp_at_dir_close s (w_dir w) pd t 0); [apply (tr_base s Htree)|done| |].
    - exists [], (answers (hp t)). split_and!; [done|done|constructor|constructor].
    - intros r _. by exists r. }
  apply wp_done in H as ([] & t' & E' & H). eauto.
Qed.

(** ** A tree with one directory

    The root with the directory [d] in it, both open. *)
Definition ex_tree_root : list Z :=
  de_bytes (mk_de (name16 [46]) 0 2) ++ de_bytes (mk_de (name16 [46; 46]) 0 2) ++ de_bytes (mk_de (name16 [100]) 1 2) ++ replicate 440 0.
Definition ex_tree_d : list Z := de_bytes (mk_de (name16 [46]) 1 2) ++ de_bytes (mk_de (name16 [46; 46]) 0 2) ++ replicate 464 0.
Definition ex_i0 : inode := mk_inode 0 72 1 false (612 :: replicate 12 0).
Definition ex_i1 : inode := mk_inode 1 48 1 false (613 :: replicate 12 0).
Definition ex_tree_fs : fs :=
  mk_fs (<[612 := ex_tree_root]> (<[613 := ex_tree_d]> (zero_disk 800))) ex_sb 0 800 (block_bitmap ex_fs) (inode_bitmap ex_fs)
    (<[4096 := ex_i0]> (<[8192 := ex_i1]> ∅)) [8192; 4096] (file_table ex_fs) (fd_table ex_fs) (mk_dir 4096 0) ∅
    (mk_heap (<[4096 := true]> (<[8192 := true]> ∅)) ((fun k => 12288 + 4096 * k) <$> seqZ 0 20)) false.

Lemma ex_tree_lookup x : dsk ex_tree_fs !! x =
  if decide (x = 612) then Some ex_tree_root else if decide (x = 613) then Some ex_tree_d
  else if decide (0 <= x < 800) then Some (replicate 512 0) else None.
Proof.
  cbn [dsk ex_tree_fs]. case_decide as H1; [subst; apply lookup_insert_eq|]. rewrite lookup_insert_ne by done.
  case_decide as H2; [subst; apply lookup_insert_eq|]. rewrite lookup_insert_ne by done. apply zero_disk_lookup.
Qed.

Lemma ex_tree_inodes a i : inodes ex_tree_fs !! a = Some i -> (a = 4096 /\ i = ex_i0) \/ (a = 8192 /\ i = ex_i1).
Proof. cbn [inodes ex_tree_fs]. rewrite !lookup_insert_Some, lookup_empty. intros [[<- <-]|[_ [[<- <-]|[_ ?]]]]; auto; done. Qed.

Lemma ex_tree_disk_ok : disk_ok (dsk ex_tree_fs).
Proof. intros x l. rewrite ex_tree_lookup. repeat case_decide; by intros [= <-]. Qed.

Lemma ex_tree_base : base_ok ex_tree_fs.
Proof.
  split.
  - split; try (vm_compute; done); [apply ex_tree_disk_ok|].
    intros j Hj. rewrite ex_tree_lookup. change (inode_table_lba (sb ex_tree_fs)) with 4 in *. repeat case_decide; eauto. lia.
  - split.
    + apply NoDup_cons. split; [set_solver|]. apply NoDup_singleton.
    + intros a. cbn [open_inodes ex_tree_fs]. split.
      * intros [->|[->|[]%not_elem_of_nil]%elem_of_cons]%elem_of_cons; vm_compute; eauto.
      * intros [i [[-> _]|[-> _]]%ex_tree_inodes]; set_solver.
    + intros a Ha. cbn [ex_tree_fs open_inodes] in Ha. assert (a = 8192 \/ a = 4096) as [-> | ->] by set_solver; by vm_compute.
    + intros a i [[_ ->]|[_ ->]]%ex_tree_inodes; by vm_compute.
  - intros a b i j [[-> ->]|[-> ->]]%ex_tree_inodes [[-> ->]|[-> ->]]%ex_tree_inodes; done.
  - intros p d. cbn [dirs ex_tree_fs]. by rewrite lookup_empty.
  - by exists ex_i0.
Qed.

(** What is checked of every slot holds of what is looked up. *)
Lemma lookup_slot s i c e (f : list Z -> bool) : dir_lookup s i c = Some e -> forallb f (dir_slots s i) = true ->
  exists sl, f sl = true /\ cstring sl = Some c /\ e = de_of_bytes sl.
Proof.
  unfold dir_lookup. destruct (List.find _ _) as [sl|] eqn:E; [|done]. intros [= <-] Hf. apply find_some in E as [Hin Hn].
  exists sl. rewrite forallb_forall in Hf. split; [by apply Hf|]. split; [|done]. unfold named in Hn. by apply bool_decide_eq_true in Hn.
Qed.

Lemma ex_block_slots b l i : i_sectors i = b :: replicate 12 0 -> b <> 0 -> dsk ex_tree_fs !! b = Some l -> dir_slots ex_tree_fs i = slots l.
Proof.
  intros Hi Hb E. unfold dir_slots. assert (blocks_of ex_tree_fs i = b :: replicate 139 0) as -> by (unfold blocks_of, sector; by rewrite Hi).
  assert (forall n, replicate n 0 ≫= block_slots ex_tree_fs = []) as Hz by (by induction n).
  rewrite bind_cons, Hz, app_nil_r. unfold block_slots. rewrite (proj2 (Z.eqb_neq b 0) Hb), E. done.
Qed.

Lemma ex_slots0 : dir_slots ex_tree_fs ex_i0 = slots ex_tree_root.
Proof. apply (ex_block_slots 612); [done..|]. rewrite ex_tree_lookup. by rewrite decide_True. Qed.
Lemma ex_slots1 : dir_slots ex_tree_fs ex_i1 = slots ex_tree_d.
Proof. apply (ex_block_slots 613); [done..|]. rewrite ex_tree_lookup. by rewrite decide_False, decide_True. Qed.

(** No name, or a directory with number 0 or 1. *)
Definition ex_slot_ok (sl : list Z) : bool :=
  match cstring sl with Some [] => true | _ => ((de_i_no (de_of_bytes sl) =? 0) || (de_i_no (de_of_bytes sl) =? 1)) && (f_type (de_of_bytes sl) =? 2) end.
Lemma ex_inode_of n : n = 0 \/ n = 1 -> inode_of ex_tree_fs n = Some (if n =? 0 then ex_i0 else ex_i1).
Proof. by intros [->| ->]. Qed.

Lemma ex_slots n f : n = 0 \/ n = 1 -> forallb f (slots ex_tree_root) = true -> forallb f (slots ex_tree_d) = true ->
  forallb f (dir_slots ex_tree_fs (if n =? 0 then ex_i0 else ex_i1)) = true.
Proof. intros [->| ->] H0 H1; [change (0 =? 0) with true|change (1 =? 0) with false]; cbv iota; [by rewrite ex_slots0|by rewrite ex_slots1]. Qed.

Lemma ex_entries n c e : n = 0 \/ n = 1 -> name_ok c -> dir_lookup ex_tree_fs (if n =? 0 then ex_i0 else ex_i1) c = Some e ->
  (de_i_no e = 0 \/ de_i_no e = 1) /\ f_type e = FT_DIRECTORY.
Proof.
  intros Hn (Hne & _) El. destruct (lookup_slot _ _ _ _ ex_slot_ok El) as (sl & Hsl & Hc & ->).
  { apply ex_slots; [done|vm_compute; reflexivity..]. }
  unfold ex_slot_ok in Hsl. rewrite Hc in Hsl. destruct c as [|x c]; [done|].
  apply andb_true_iff in Hsl as [H1 H2]. apply orb_true_iff in H1. rewrite !Z.eqb_eq in H1. by apply Z.eqb_eq in H2.
Qed.

Lemma ex_in_tree n : in_tree ex_tree_fs n -> n = 0 \/ n = 1.
Proof.
  induction 1 as [|n i c e R IH Hi Hc El Ed]; [by left|]. rewrite ex_inode_of in Hi by done. injection Hi as <-.
  by apply (ex_entries n c e).
Qed.

Lemma ex_node_wf b i l : dir_slots ex_tree_fs i = slots l -> i_sectors i = b :: replicate 12 0 -> 612 <= b <= 613 -> inode_ok i ->
  forallb (fun sl => match cstring sl with Some _ => true | None => false end) (slots l) = true -> dir_wf ex_tree_fs i.
Proof.
  intros Hs Hi Hb Hok Hl. assert (block_ok ex_tree_fs b) as Hbo.
  { right. split; [change max_lba with 163839; lia|]. rewrite ex_tree_lookup. repeat case_decide; eauto. lia. }
  split; [apply ex_tree_disk_ok|done| | | |done].
  - left. unfold sector. by rewrite Hi.
  - assert (blocks_of ex_tree_fs i = b :: replicate 139 0) as -> by (unfold blocks_of, sector; by rewrite Hi).
    apply Forall_cons_2; [done|]. apply Forall_replicate. by left.
  - rewrite Hs. apply (Forall_forallb _ (fun sl => match cstring sl with Some _ => true | None => false end)); [|done].
    intros x. destruct (cstring x); [eauto|done].
Qed.

Lemma ex_tree_ok : tree_ok ex_tree_fs.
Proof.
  split; [apply ex_tree_base| |].
  - intros n [->| ->]%ex_in_tree; [exists ex_i0|exists ex_i1]; (split; [reflexivity|]); (split; [reflexivity|]); (split; [|lia]).
    + apply (ex_node_wf 612 ex_i0 ex_tree_root ex_slots0); [done|lia| |vm_compute; reflexivity].
      split; try done. apply Forall_cons_2; [done|]. by apply Forall_replicate.
    + apply (ex_node_wf 613 ex_i1 ex_tree_d ex_slots1); [done|lia| |vm_compute; reflexivity].
      split; try done. apply Forall_cons_2; [done|]. by apply Forall_replicate.
  - intros n i c e Hn%ex_in_tree Hi Hc El. rewrite ex_inode_of in Hi by done. injection Hi as <-.
    destruct (ex_entries n c e Hn Hc El) as [[->| ->] ->]; (split; [lia|by right]).
Qed.

Lemma ex_tree_room k : (k <= 20)%nat -> room k (hp ex_tree_fs).
Proof.
  intros Hk. apply (room_le 20); [done|]. exists (answers (hp ex_tree_fs)), []. split_and!; [by rewrite app_nil_r|done| |].
  - cbn [hp ex_tree_fs answers]. apply NoDup_fmap_2; [intros x y; lia|]. apply NoDup_seqZ.
  - cbn [hp ex_tree_fs answers live]. apply Forall_fmap, Forall_forall. intros k0 [H0 _]%elem_of_seqZ. cbn.
    split; [lia|]. rewrite !lookup_insert_ne by lia. done.
Qed.

Lemma ex_walk : walk ex_tree_fs 0 [] [[100]] = mk_found 1 [47; 100] 0 FT_DIRECTORY.
Proof. cbn [walk]. rewrite ex_inode_of by auto. cbn [mbind option_bind Z.eqb]. unfold dir_lookup. rewrite ex_slots0. vm_compute. reflexivity. Qed.

Lemma search_file_correct_witness : exists pd t, search_file 0 [47; 100] ex_tree_fs = Done ((1, mk_psr [47; 100] pd FT_DIRECTORY), t) /\
  at_dir ex_tree_fs 0 pd t.
Proof.
  pose proof ex_walk as Hw. change [[100]] with (components [47; 100]) in Hw.
  destruct (search_file_correct 0 ex_tree_fs [47; 100] ex_tree_ok) as (pd & t & E & Hat & _).
  - split; [done|]. vm_compute. repeat constructor; done.
  - done.
  - vm_compute. reflexivity.
  - apply ex_tree_room. vm_compute. lia.
  - rewrite Hw in E, Hat. exists pd, t. split; [exact E|exact Hat].
Defined.
