(* ===== verification/Cwd.v ===== *)
(** * Cwd: the working directory ([fs/fs.c] [sys_chdir], [sys_getcwd])

    [sys_chdir] goes down a path and remembers the inode number it ends at;
    [sys_getcwd] climbs from that number back to the root over the entries
    [..], looking up in each directory the name of the one it came from.  In a
    tree whose entries agree in both directions the one undoes the other. *)

From stdpp Require Import base numbers list gmap.
From S2P Require Import Prelude.
From S2P Require Import Bitmap.
From S2P Require Import Cstring.
From S2P Require Import Path.
From S2P Require Import Disk.
From S2P Require Import Fsdata.
From S2P Require Import Inode.
From S2P Require Import Blocks.
From S2P Require Import File.
From S2P Require Import Fileread.
From S2P Require Import Dir.
From S2P Require Import Dirlookup.
From S2P Require Import Fs.
From S2P Require Import Fsprops.
From S2P Require Import Pathwalk.

Local Open Scope Z_scope.
Local Open Scope kernel_scope.

(** [s] with other proposals in its heap. *)
Definition view (s : fs) (r : list Z) : fs := set_hp (mk_heap (live (hp s)) r) s.

Lemma view_same s : view s (answers (hp s)) = s.
Proof. unfold view. by destruct s as [? ? ? ? ? ? ? ? ? ? ? ? [] ?]. Qed.

(** ** Looking at an inode: it is opened, and closing it leads back *)
Lemma wp_inode_borrow s n i0 k (Q : Z -> fs -> Prop) : base_ok s -> node s n i0 -> room (2 + k) (hp s) ->
  (forall a t i, inodes t !! a = Some i -> i_sectors i = i_sectors i0 -> dir_wf t i -> dsk t = dsk s -> sb t = sb s ->
     (forall Q' : unit -> fs -> Prop, (forall r, room k (hp (view s r)) -> Q' tt (view s r)) -> wp (inode_close a) Q' t) -> Q a t) ->
  wp (inode_open n) Q s.
Proof.
  intros Hb (Hi0 & Hno & Hw & Hn) Hroom HQ. pose proof (bo_open s Hb) as Ho. pose proof Ho as [Hnd Hin Hlive Hcnt].
  destruct (find_open_spec (open_inodes s) (inodes s) n) as (x & Hfind & Hx). { intros a Ha. by apply Hin. }
  unfold inode_of in Hi0. rewrite Hfind in Hi0. destruct x as [a|].
  - destruct Hx as (_ & j & Hj & _). rewrite Hj in Hi0. injection Hi0 as ->. pose proof (Hcnt a i0 Hj).
    apply (wp_inode_open_cached s n a i0); [done..|]. apply (HQ a _ (bump i0)); try done.
    + apply lookup_insert_eq.
    + apply (dir_same s _ i0); try done. apply (bump_ok s a); [done|done|apply Hw].
    + intros Q' HQ'. apply (wp_inode_close_more _ a (bump i0)); [apply lookup_insert_eq|cbn; lia|].
      match goal with |- Q' tt ?x => replace x with (view s (answers (hp s))) end.
      * apply HQ'. rewrite view_same. eapply room_le, Hroom. lia.
      * rewrite view_same. apply fs_same; try reflexivity. cbn. rewrite insert_insert_eq. symmetry. apply insert_id.
        rewrite Hj. destruct i0. cbn. do 2 f_equal. lia.
  - destruct (room_cons _ _ Hroom) as (a & r1 & Ea & Ha0 & Han & Hroom1). destruct (room_cons _ _ (Hroom1 true)) as (b & r & Eb & Hb0 & Hbn & Hroom2).
    cbn [answers live] in *. subst r1. destruct (not_live s a Ho Han) as [Hna Hnone].
    assert (b <> a) as Hba by (by intros ->; rewrite lookup_insert_eq in Hbn). rewrite lookup_insert_ne in Hbn by done.
    apply (wp_inode_open_disk s n a b r i0); [apply Hb|done..|]. apply (HQ a _ (first_open i0)); try done.
    + apply lookup_insert_eq.
    + apply (dir_same s _ i0); try done. destruct (dw_ok s i0 Hw). by split.
    + intros Q' HQ'. apply (wp_inode_close_last _ a (first_open i0)); [apply lookup_insert_eq|done|done|apply lookup_insert_eq|].
      match goal with |- Q' tt ?x => replace x with (view s r) end.
      * apply HQ'. apply (room_less k (mk_heap (<[b := true]> (<[a := true]> (live (hp s)))) r)); [apply Hroom2|]. cbn.
        transitivity (<[a := true]> (live (hp s))); apply insert_subseteq; [done|]. by rewrite lookup_insert_ne.
      * apply fs_same; try reflexivity; cbn.
        -- by rewrite delete_insert_eq, delete_id.
        -- symmetry. by apply filter_fresh.
        -- by rewrite delete_insert_eq, delete_id.
Qed.

(** ** Both directions of the tree *)
Definition proper (c : list Z) : Prop := name_ok c /\ c <> [dot] /\ c <> [dot; dot].

(** Directory [n] has the path [cs]. *)
Inductive reach (s : fs) : Z -> list (list Z) -> Prop :=
  | reach_root : reach s 0 []
  | reach_child n i cs c e : reach s n cs -> inode_of s n = Some i -> proper c -> dir_lookup s i c = Some e ->
      f_type e = FT_DIRECTORY -> reach s (de_i_no e) (cs ++ [c]).

Lemma reach_in_tree s n cs : reach s n cs -> in_tree s n.
Proof. induction 1 as [|n i cs c e R IH Hi [Hc _] El Ed]; [constructor|]. by eapply in_child. Qed.

Definition has_inode (m : Z) (sl : list Z) : bool := word_at sl 16 =? m.

(** A directory [m] found in [n] under a name: it is not the root, its second
    entry leads to [n], and the first entry of [n] with its number has that
    name. *)
Definition tree_up (s : fs) : Prop := forall n i cs c e i', reach s n cs -> inode_of s n = Some i -> proper c ->
  dir_lookup s i c = Some e -> f_type e = FT_DIRECTORY -> inode_of s (de_i_no e) = Some i' ->
  de_i_no e <> 0 /\
  (exists blk, 0 <= data_start_lba (sb s) <= sector i' 0 /\ sector i' 0 <= max_lba /\ dsk s !! sector i' 0 = Some blk /\
     de_i_no (de_of_bytes (slice blk 24 24)) = n /\ f_type (de_of_bytes (slice blk 24 24)) = FT_DIRECTORY) /\
  exists sl, List.find (has_inode (de_i_no e)) (dir_slots s i) = Some sl /\ cstring sl = Some c.

(** The parts of the state these facts are about do not include the heap. *)
Lemma node_view s r n i : node s n i -> node (view s r) n i.
Proof. intros (H1 & H2 & H3 & H4). split_and!; [done|done|by apply dir_wf_hp|lia|lia]. Qed.

Lemma base_view s r : base_ok s -> base_ok (view s r).
Proof. apply base_ok_hp. Qed.

(** ** One step up *)
Lemma wp_get_parent s m i' n blk k (Q : Z -> fs -> Prop) : base_ok s -> node s m i' -> room (2 + k) (hp s) ->
  0 <= n < 4096 -> 0 <= data_start_lba (sb s) <= sector i' 0 -> sector i' 0 <= max_lba -> dsk s !! sector i' 0 = Some blk ->
  de_i_no (de_of_bytes (slice blk 24 24)) = n -> f_type (de_of_bytes (slice blk 24 24)) = FT_DIRECTORY ->
  (forall r, room k (hp (view s r)) -> Q n (view s r)) -> wp (get_parent_dir_inode_nr m) Q s.
Proof.
  intros Hb Hm Hroom Hn Hlo Hhi Hblk He Ht HQ. unfold get_parent_dir_inode_nr. wp_steps.
  apply (wp_inode_borrow s m i' k); [done..|]. intros a t i Ha Hs _ _ Esb Hclose. wp_steps. apply (wp_get_inode _ i); [done|].
  assert (sector i 0 = sector i' 0) as -> by (unfold sector; by rewrite Hs).
  wp_steps; [apply Z.leb_le; change (id t) with t; rewrite Esb; lia|]. apply Hclose. intros r Hr. wp_steps.
  apply (wp_ide_read1 _ blk); [done|done|]. wp_steps.
  - change de_size with 24. rewrite He, Ht. apply andb_true_iff. split; [apply Z.ltb_lt; lia|done].
  - change de_size with 24. rewrite He. by apply HQ.
Qed.

Lemma cstring_prefix p rest c : cstring p = Some c -> cstring (p ++ rest) = Some c.
Proof.
  revert c. induction p as [|x p IH]; intros c E; cbn [app cstring] in *; [done|]. destruct (x =? 0); [done|].
  destruct (cstring p) as [t|]; [|done]. by rewrite (IH t eq_refl).
Qed.

(** The entries of a sector, from the [k]-th on, and their slots. *)
Lemma child_in_sector_spec l m path : length l = 512%nat -> forall n k, (k + n <= 21)%nat ->
  Forall (fun sl => is_Some (cstring sl)) (slot l <$> seq k n) ->
  match List.find (has_inode m) (slot l <$> seq k n) with
  | None => child_in_sector n (Z.of_nat k) l m path = Done None
  | Some sl => forall c, cstring sl = Some c -> (length path + S (length c) < 512)%nat ->
      child_in_sector n (Z.of_nat k) l m path = Done (Some (path ++ slash :: c))
  end.
Proof.
  intros Hl n. induction n as [|n IH]; intros k Hk HF; [done|]. cbn [seq fmap list_fmap List.find child_in_sector] in *.
  apply Forall_cons in HF as [_ HF]. specialize (IH (S k) ltac:(lia) HF).
  replace (Z.of_nat k + 1) with (Z.of_nat (S k)) by lia. change de_size with 24.
  assert (word_at l (24 * Z.of_nat k + 16) = word_at (slot l k) 16) as Hword.
  { unfold word_at, slice, slot. do 2 f_equal. rewrite skipn_firstn_comm, take_take, drop_drop.
    change (Z.to_nat 16) with 16%nat. change (Z.to_nat 4) with 4%nat. rewrite Nat.min_l by lia. do 2 f_equal. lia. }
  rewrite Hword. unfold has_inode at 1. destruct (word_at (slot l k) 16 =? m); [|exact IH].
  intros c Hc Hp. rewrite strcat_fits by (cbn; lia). cbn [obind].
  assert (drop (Z.to_nat (24 * Z.of_nat k)) l = slot l k ++ drop 24 (drop (24 * k) l)) as ->.
  { unfold slot. rewrite take_drop. f_equal. lia. }
  rewrite (cstring_prefix _ _ c Hc). cbn [oget obind]. rewrite strcat_fits by (rewrite length_app; cbn; lia). cbn [obind].
  by rewrite <- app_assoc.
Qed.

Lemma wp_child_in_blocks s m path bs c sl : disk_ok (dsk s) -> Forall (block_ok s) bs ->
  Forall (fun sl => is_Some (cstring sl)) (bs ≫= block_slots s) ->
  List.find (has_inode m) (bs ≫= block_slots s) = Some sl -> cstring sl = Some c -> (length path + S (length c) < 512)%nat ->
  wp (child_in_blocks bs 21 m path) (fun r s' => s' = s /\ r = Some (path ++ slash :: c)) s.
Proof.
  intros Hd HF. induction HF as [|b bs Hb HF IH]; intros Hs Hfind Hc Hp; [done|].
  rewrite bind_cons in Hs, Hfind. apply Forall_app in Hs as [Hs1 Hs2]. cbn [child_in_blocks]. rewrite find_app in Hfind.
  unfold block_slots at 1 in Hs1. unfold block_slots at 1 in Hfind.
  destruct (Z.eqb_spec b 0) as [E|E]; [by apply IH|].
  destruct Hb as [?|[Hm [l Hl]]]; [done|]. wp_steps. apply (wp_ide_read1 b l); [done|done|]. rewrite Hl in Hs1, Hfind.
  cbn [default from_option id] in Hs1, Hfind. pose proof (Hd b l Hl) as H512. wp_steps.
  pose proof (child_in_sector_spec l m path H512 21 0 ltac:(lia) Hs1) as Hsec. change (slot l <$> seq 0 21) with (slots l) in Hsec.
  destruct (List.find (has_inode m) (slots l)) as [sl'|].
  - injection Hfind as ->. eapply wp_lift; [by apply Hsec|]. by apply wp_ret.
  - eapply wp_lift; [exact Hsec|]. by apply IH.
Qed.

Lemma wp_get_child s n i m path c sl k (Q : option (list Z) -> fs -> Prop) : base_ok s -> node s n i -> room (2 + k) (hp s) ->
  List.find (has_inode m) (dir_slots s i) = Some sl -> cstring sl = Some c -> (length path + S (length c) < 512)%nat ->
  (forall r, room k (hp (view s r)) -> Q (Some (path ++ slash :: c)) (view s r)) -> wp (get_child_dir_name n m path) Q s.
Proof.
  intros Hb Hnode Hroom Hfind Hc Hp HQ. pose proof Hnode as (_ & _ & Hw & _). unfold get_child_dir_name. wp_steps.
  apply (wp_inode_borrow s n i k); [done..|]. intros a t i' Ha Hs Hw' Ed Esb Hclose. wp_steps. apply (wp_get_inode _ i'); [done|]. wp_steps.
  apply wp_dir_all_blocks; [done|]. wp_steps. apply Hclose. intros r Hr. wp_steps.
  change (dir_entry_size (sb (view s r))) with (dir_entry_size (sb s)). rewrite (dw_size s i Hw). change (Z.to_nat (512 / 24)) with 21%nat.
  assert (blocks_of t i' = blocks_of s i) as Hbl by (unfold blocks_of, tab_words, sector; by rewrite Hs, Ed).
  assert (sector i' 12 = sector i 12) as Hsec by (unfold sector; by rewrite Hs). rewrite Hbl, Hsec.
  assert (exists bs, (if sector i 12 =? 0 then take 12 (blocks_of s i) else blocks_of s i) = bs /\ Forall (block_ok (view s r)) bs /\
    bs ≫= block_slots (view s r) = dir_slots s i) as (bs & -> & Hok & Hsl).
  { destruct (Z.eqb_spec (sector i 12) 0) as [E|E]; eexists; (split; [reflexivity|]); (split; [|]).
    - apply Forall_take. apply Hw.
    - unfold dir_slots. rewrite <- (take_drop 12 (blocks_of s i)) at 2. rewrite bind_app.
      assert (drop 12 (blocks_of s i) ≫= block_slots s = []) as ->; [|by rewrite app_nil_r].
      unfold blocks_of. rewrite E. change (0 =? 0) with true. cbv iota. rewrite drop_app_ge by (rewrite length_take; lia).
      rewrite length_take, (io_len i (dw_ok s i Hw)). change (12 - 12 `min` 13)%nat with 0%nat. rewrite drop_0.
      generalize 128%nat as z. intros z. by induction z as [|z IH].
    - apply Hw.
    - done. }
  eapply wp_mono; [apply (wp_child_in_blocks (view s r) m path bs c sl); [apply Hw|done|rewrite Hsl; apply Hw|by rewrite Hsl|done|done]|].
  intros x s1 Hx. destruct Hx as [-> ->]. by apply HQ.
Qed.

(** ** The climb *)
Section climb.
Context (s : fs) (Htree : tree_ok s) (Hup : tree_up s).

Lemma wp_climb n cs : reach s n cs -> forall fuel acc r0 k (Q : option (list Z) -> fs -> Prop),
  (length cs < fuel)%nat -> (length acc + weight cs < 512)%nat -> room (4 * length cs + k) (hp (view s r0)) ->
  (forall r, room k (hp (view s r)) -> Q (Some (acc ++ climbed cs)) (view s r)) ->
  wp (climb fuel n acc) Q (view s r0).
Proof.
  pose proof (tr_base s Htree) as Hb.
  induction 1 as [|n i cs c e R IH Hi Hc El Ed]; intros fuel acc r0 k Q Hf Hacc Hroom HQ;
    (destruct fuel as [|fuel]; [lia|]); cbn [climb].
  - change (0 =? 0) with true. cbv iota. apply wp_ret. unfold climbed in HQ. cbn in HQ. rewrite app_nil_r in HQ. by apply HQ.
  - pose proof (reach_in_tree s n cs R) as Hin.
    assert (in_tree s (de_i_no e)) as Hin' by (eapply in_child; [done|done|apply Hc|done|done]).
    destruct (tr_nodes s Htree n Hin) as [i1 Hn]. pose proof Hn as (Hi1 & _ & _ & Hnb). rewrite Hi in Hi1. injection Hi1 as <-.
    destruct (tr_nodes s Htree _ Hin') as [i' Hm]. pose proof Hm as (Hi' & _ & _ & Hmb).
    destruct (Hup n i cs c e i' R Hi Hc El Ed Hi') as (H0 & (blk & Hlo & Hhi & Hblk & Hpar & Hty) & sl & Hsl & Hname).
    rewrite length_app in Hf, Hroom. cbn [length] in Hf, Hroom.
    rewrite weight_app, weight_cons in Hacc. change (weight []) with 0%nat in Hacc.
    rewrite (proj2 (Z.eqb_neq (de_i_no e) 0)) by done. wp_steps.
    apply (wp_get_parent (view s r0) (de_i_no e) i' n blk (2 + (4 * length cs + k))); try done;
      [by apply base_view|by apply node_view|eapply room_le, Hroom; lia|]. intros r1 Hr1. wp_steps.
    apply (wp_get_child (view s r1) n i (de_i_no e) acc c sl (4 * length cs + k)); try done; [by apply base_view|by apply node_view|lia|].
    intros r2 Hr2. apply (IH fuel (acc ++ slash :: c) r2 k); [lia|rewrite length_app; cbn; lia|done|]. intros r3 Hr3.
    rewrite <- app_assoc. replace ((slash :: c) ++ climbed cs) with (climbed (cs ++ [c])); [by apply HQ|].
    unfold climbed. by rewrite rev_app_distr.
Qed.

Lemma walk_reach cs : forall n path pre, reach s n pre -> Forall proper cs ->
  w_type (walk s n path cs) = FT_DIRECTORY -> reach s (w_ino (walk s n path cs)) (pre ++ cs).
Proof.
  induction cs as [|c cs IH]; intros n path pre R HF Hty; [by rewrite app_nil_r|]. apply Forall_cons in HF as [Hc HF].
  cbn [walk] in *. destruct (tr_nodes s Htree n (reach_in_tree s n pre R)) as [i (Hi & _)]. rewrite Hi in *. cbn [mbind option_bind] in *.
  destruct (dir_lookup s i c) as [e|] eqn:El; [|done]. destruct (Z.eqb_spec (f_type e) FT_DIRECTORY) as [Ed|]; [|done].
  pose proof (reach_child s n i pre c e R Hi Hc El Ed) as R'. destruct cs as [|c' cs]; [done|].
  replace (pre ++ c :: c' :: cs) with ((pre ++ [c]) ++ c' :: cs) by (by rewrite <- app_assoc). by apply IH.
Qed.

Lemma reach_names n cs : reach s n cs -> Forall name_ok cs.
Proof. induction 1 as [|n i cs c e R IH Hi Hc El Ed]; [done|]. apply Forall_app. split; [done|]. by apply Forall_singleton; destruct Hc. Qed.

Lemma cut_to_length cs : length (climbed cs) = weight cs.
Proof.
  unfold climbed, weight. induction cs as [|c cs IH]; [done|]. cbn [rev].
  rewrite bind_app, length_app, IH, bind_singleton, bind_cons, length_app. lia.
Qed.

End climb.

(** The tree does not depend on what else is in the heap. *)
Lemma in_tree_hp s h n : in_tree (set_hp h s) n -> in_tree s n.
Proof. induction 1 as [|n i c e R IH Hi Hc El Ed]; [constructor|]. exact (in_child s n i c e IH Hi Hc El Ed). Qed.
Lemma reach_hp s h n cs : reach (set_hp h s) n cs -> reach s n cs.
Proof. induction 1 as [|n i cs c e R IH Hi Hc El Ed]; [constructor|]. exact (reach_child s n i cs c e IH Hi Hc El Ed). Qed.
Lemma reach_hp_inv s h n cs : reach s n cs -> reach (set_hp h s) n cs.
Proof. induction 1 as [|n i cs c e R IH Hi Hc El Ed]; [constructor|]. exact (reach_child (set_hp h s) n i cs c e IH Hi Hc El Ed). Qed.

Lemma tree_hp s h : tree_ok s -> live (hp s) ⊆ live h -> tree_ok (set_hp h s).
Proof.
  intros [[H1 [O1 O2 O3 O4] H3 H4 H5] Hn Ht] Hl. split.
  - split; [destruct H1; by split|split; try done|done| |done].
    + intros a Ha. destruct (O3 a Ha) as [? Ha']. split; [done|]. by eapply lookup_weaken.
    + intros q d Hd. destruct (H4 q d Hd) as [b Hb]. exists b. by eapply lookup_weaken.
  - intros n (i & I1 & I2 & I3 & I4)%in_tree_hp%Hn. exists i. split_and!; [done|done|by apply dir_wf_hp|lia|lia].
  - intros n i c e I. apply Ht. by apply in_tree_hp in I.
Qed.

Lemma up_hp s h : tree_up s -> tree_up (set_hp h s).
Proof. intros H n i cs c e i' R. apply (H n i cs c e i'). by apply reach_hp in R. Qed.

(** [sys_getcwd] in the directory with path [cs]. *)
Lemma wp_getcwd s n cs fuel (Q : option (list Z) -> fs -> Prop) : tree_ok s -> tree_up s -> reach s n cs -> cs <> [] ->
  (length cs < fuel)%nat -> (weight cs < 512)%nat -> room (S (4 * length cs)) (hp s) ->
  (forall r, Q (Some (render cs)) (view s r)) -> wp (sys_getcwd fuel n MAX_PATH_LEN) Q s.
Proof.
  intros Htree Hup R Hne Hf Hw Hroom HQ. destruct (room_cons _ _ Hroom) as (p & r & Ea & Hp0 & Hpn & Hroom1).
  destruct (tr_nodes s Htree n (reach_in_tree s n cs R)) as [i (_ & _ & _ & Hn)].
  assert (n <> 0) as Hn0.
  { destruct R as [|n i' cs c e R Hi Hc El Ed]; [done|].
    destruct (tr_nodes s Htree (de_i_no e) ltac:(eapply in_child; [by eapply reach_in_tree|done|apply Hc|done|done])) as [j (Hj & _)].
    apply (Hup n i' cs c e j R Hi Hc El Ed Hj). }
  unfold sys_getcwd. wp_steps. apply (wp_malloc _ p r); [done|]. wp_steps. rewrite (proj2 (Z.eqb_neq p 0)) by done.
  wp_steps; [apply andb_true_iff; split; [apply Z.leb_le|apply Z.ltb_lt]; lia|]. rewrite (proj2 (Z.eqb_neq n 0)) by done. wp_steps.
  set (s1 := set_hp (mk_heap (<[p := in_kernel s]> (live (hp s))) r) s).
  replace s1 with (view s1 r) by (by apply (view_same s1)).
  apply (wp_climb s1 (tree_hp s _ Htree (insert_subseteq _ _ _ Hpn)) (up_hp s _ Hup) n cs (reach_hp_inv s _ n cs R) fuel [] r 0);
    [done|cbn; lia|rewrite Nat.add_0_r; apply Hroom1|].
  intros r1 _. cbn [app]. pose proof (cut_to_length cs) as Hlen. unfold MAX_PATH_LEN in *.
  wp_steps; [apply Z.leb_le; lia|].
  destruct (turn_round_correct cs 512) as [Hturn _].
  { eapply Forall_impl; [exact (reach_names s n cs R)|]. intros c (_ & Hc & _). eapply Forall_impl; [exact Hc|]. by intros x []. }
  eapply wp_lift; [apply Hturn; lia|]. wp_steps. apply wp_free; [done|apply lookup_insert_eq|]. wp_steps.
  assert (cs ≫= (fun c => slash :: c) = render cs) as -> by (by destruct cs).
  match goal with |- Q _ ?x => replace x with (view s r1) end; [done|].
  apply fs_same; try reflexivity. cbn. by rewrite delete_insert_eq, delete_id.
Qed.

Lemma wp_chdir s junk_ino cwd path k (Q : Z * Z -> fs -> Prop) : tree_ok s -> abs_path_ok path -> components path <> [] ->
  is_root path = false -> room (5 * length (components path) + (3 + k)) (hp s) ->
  w_type (walk s 0 [] (components path)) = FT_DIRECTORY -> 0 <= w_ino (walk s 0 [] (components path)) < 4096 ->
  (forall r, room k (hp (view s r)) -> Q (0, w_ino (walk s 0 [] (components path))) (view s r)) ->
  wp (sys_chdir junk_ino cwd path) Q s.
Proof.
  intros Htree Hp Hne Hroot Hroom Hty Hino HQ. unfold sys_chdir. wp_steps.
  apply (wp_search_file s Htree junk_ino path k); [done..|]. intros w pd t Hat Hr. cbv beta iota. wp_steps.
  apply (wp_at_dir_close s (w_dir w) pd t k); [apply (tr_base s Htree)|done|done|]. intros r Hr'. wp_steps.
  cbn [file_type]. unfold w. rewrite Hty. rewrite (proj2 (Z.eqb_neq _ (-1))) by lia. change (FT_DIRECTORY =? FT_DIRECTORY) with true.
  cbn [negb andb]. rewrite u32_id by (unfold is_u32; lia). by apply HQ.
Qed.

(** The path of a directory as [sys_chdir] takes it. *)
Lemma render_abs_ok cs : Forall name_ok cs -> (weight cs < 512)%nat -> abs_path_ok (render cs).
Proof.
  intros HF Hw. split; [by destruct cs|]. split; [split; [by apply name_ok_chars|]|].
  - rewrite components_render by done. eapply Forall_impl; [exact HF|]. by intros c (_ & _ & ?).
  - destruct cs; [cbn; lia|]. exact Hw.
Qed.

Lemma render_not_root cs : cs <> [] -> Forall proper cs -> is_root (render cs) = false.
Proof.
  intros Hne HF. assert (Forall name_ok cs) as Hn by (eapply Forall_impl; [exact HF|]; by intros c []).
  pose proof (name_ok_chars cs Hn) as Hch. pose proof (components_render cs Hn) as Hcr. unfold is_root.
  assert (forall q, Forall is_char q -> components q <> cs -> (str_cmp (render cs) q =? 0) = false) as H.
  { intros q Hq Hc. apply Z.eqb_neq. intros E%str_cmp_eq; [|done..]. apply Hc. by rewrite <- E. }
  destruct cs as [|c cs]; [done|]. apply Forall_cons in HF as [(_ & Hd & Hdd) _].
  rewrite !H; try done; try (by repeat constructor).
  - intros [= E]. by apply Hdd.
  - intros [= E]. by apply Hd.
Qed.

(** C32: [getcwd] undoes [chdir].  In a tree whose entries agree in both
    directions, for a canonical path that leads to a directory: [sys_chdir]
    succeeds, and [sys_getcwd] in the directory it went to returns that path;
    neither changes anything in the file system. *)
Theorem chdir_getcwd_roundtrip (junk_ino : Z) (s : fs) (cwd : Z) (cs : list (list Z)) (fuel : nat)
    (Htree : tree_ok s) (Hup : tree_up s) (Hcs : cs <> [] /\ Forall proper cs) (Hlen : (weight cs < 512)%nat)
    (Hdir : w_type (walk s 0 [] cs) = FT_DIRECTORY) (Hfuel : (length cs < fuel)%nat) (Hroom : room (9 * length cs + 4) (hp s)) :
  exists m t t', sys_chdir junk_ino cwd (render cs) s = Done ((0, m), t) /\ same_fs s t /\
    sys_getcwd fuel m MAX_PATH_LEN t = Done (Some (render cs), t') /\ same_fs s t'.
Proof.
  destruct Hcs as [Hne Hcs]. assert (Forall name_ok cs) as Hnm by (eapply Forall_impl; [exact Hcs|]; by intros c []).
  pose proof (components_render cs Hnm) as Hcr. set (m := w_ino (walk s 0 [] cs)).
  pose proof (walk_reach s Htree cs 0 [] [] (reach_root s) Hcs Hdir) as R. cbn [app] in R. fold m in R.
  destruct (tr_nodes s Htree m (reach_in_tree s m cs R)) as [i (_ & _ & _ & Hm)].
  assert (wp (sys_chdir junk_ino cwd (render cs)) (fun x t => x = (0, m) /\ exists r, t = view s r /\ room (S (4 * length cs)) (hp t)) s) as H1.
  { apply (wp_chdir s junk_ino cwd (render cs) (S (4 * length cs))); rewrite ?Hcr; try done.
    - by apply render_abs_ok.
    - by apply render_not_root.
    - eapply room_le, Hroom. lia.
    - intros r Hr. split; [done|]. by exists r. }
  apply wp_done in H1 as (x & t & E1 & -> & r & -> & Hr).
  assert (wp (sys_getcwd fuel m MAX_PATH_LEN) (fun x t' => x = Some (render cs) /\ same_fs s t') (view s r)) as H2.
  { apply (wp_getcwd (view s r) m cs fuel); try done; [by apply tree_hp|by apply up_hp|by apply reach_hp_inv|].
    intros r'. split; [done|]. by exists r'. }
  apply wp_done in H2 as (x & t' & E2 & -> & Hs). exists m, (view s r), t'. split_and!; [done|by exists r|done|done].
Qed.

(** ** The example of a tree *)
(** No name, [.] or [..], or in the root the entry of [d]. *)
Definition ex_slot_proper (n : Z) (sl : list Z) : bool :=
  match cstring sl with Some [] | Some [46] | Some [46; 46] => true | Some [100] => (n =? 0) && (de_i_no (de_of_bytes sl) =? 1) | _ => false end.

Lemma ex_tree_up : tree_up ex_tree_fs.
Proof.
  intros n i cs c e i' R Hi ((Hno & _) & Hd & Hdd) El Ed Hi'. pose proof (ex_in_tree n (reach_in_tree _ n cs R)) as Hn.
  assert (exists sl, ex_slot_proper n sl = true /\ cstring sl = Some c /\ e = de_of_bytes sl) as (sl & Hsl & Hc & ->).
  { rewrite ex_inode_of in Hi by done. injection Hi as <-. apply (lookup_slot _ _ _ _ (ex_slot_proper n) El).
    destruct Hn as [->| ->]; [change (0 =? 0) with true|change (1 =? 0) with false]; cbv iota;
      [rewrite ex_slots0|rewrite ex_slots1]; vm_compute; reflexivity. }
  unfold ex_slot_proper in Hsl. rewrite Hc in Hsl.
  assert (c = [100] /\ n = 0 /\ de_i_no (de_of_bytes sl) = 1) as (-> & -> & E1).
  { unfold dot in *. repeat (case_match; try done); subst; try (by destruct Hno); try (by destruct Hd); try (by destruct Hdd).
    all: apply andb_true_iff in Hsl as [H0%Z.eqb_eq H1%Z.eqb_eq]; auto. }
  rewrite ex_inode_of in Hi by done. injection Hi as <-. change (0 =? 0) with true in *. cbv iota in *.
  rewrite E1 in *. assert (i' = ex_i1) as -> by (by injection Hi').
  split; [done|]. rewrite ex_slots0. split.
  - exists ex_tree_d. change (sector ex_i1 0) with 613. rewrite ex_tree_lookup. rewrite decide_False, decide_True by done.
    split_and!; [by vm_compute..|reflexivity| |]; vm_compute; reflexivity.
  - exists (slot ex_tree_root 2). split; vm_compute; reflexivity.
Qed.

Lemma chdir_getcwd_roundtrip_witness : exists m t t', sys_chdir 0 0 [47; 100] ex_tree_fs = Done ((0, m), t) /\
  sys_getcwd 2 m MAX_PATH_LEN t = Done (Some [47; 100], t').
Proof.
  destruct (chdir_getcwd_roundtrip 0 ex_tree_fs 0 [[100]] 2 ex_tree_ok ex_tree_up) as (m & t & t' & E & _ & E' & _).
  - split; [done|]. repeat constructor; try done; vm_compute; lia.
  - vm_compute. lia.
  - rewrite ex_walk. reflexivity.
  - cbn. lia.
  - apply ex_tree_room. vm_compute. lia.
  - exists m, t, t'. split; [exact E|exact E'].
Defined.
