(* ===== verification/Shell.v ===== *)
(** * Shell: the command line ([shell/shell.c] [readline], [cmd_parse])

    A buffer is the list of its bytes and a pointer into it an index; the
    keyboard is the sequence of characters that [read] will return.  What is
    echoed to the screen is left out. *)

From stdpp Require Import base numbers list gmap.
From S2P Require Import Prelude.
From S2P Require Import Path.

Local Open Scope Z_scope.
Local Open Scope kernel_scope.

Definition MAX_ARG_NR : Z := 16.

(** ** [readline] *)
Definition key_enter (c : Z) : bool := (c =? 10) || (c =? 13).
Definition key_backspace : Z := 8.
Definition key_clear : Z := 11.     (* 'l' - 'a' *)
Definition key_kill : Z := 20.      (* 'u' - 'a' *)

(** [while (buf != pos) *(pos--) = 0;] *)
Fixpoint wipe (n : nat) (buf : list Z) (pos : Z) : outcome (list Z) :=
  match n with
  | O => Done buf
  | S n =>
      if pos =? 0 then Done buf else
      olet buf := oget (arr_set buf pos 0) Out_of_bounds in
      wipe n buf (pos - 1)
  end.

(** One [read] into [*pos]; the buffer and [pos] after it.  [inl]: another
    character is needed; [inr]: the function returns. *)
Definition read_char (buf : list Z) (pos count c : Z) : outcome (list Z * Z + list Z) :=
  olet buf := oget (arr_set buf pos c) Out_of_bounds in
  if negb (pos <? count) then Done (inr buf) else
  if key_enter c then
    olet buf := oget (arr_set buf pos 0) Out_of_bounds in Done (inr buf)
  else if c =? key_backspace then
    olet c0 := oget (arr_get buf 0) Out_of_bounds in
    Done (inl (buf, if negb (c0 =? key_backspace) then pos - 1 else pos))
  else if c =? key_clear then
    olet buf := oget (arr_set buf pos 0) Out_of_bounds in Done (inl (buf, pos))
  else if c =? key_kill then
    olet buf := wipe (Z.to_nat pos) buf pos in Done (inl (buf, 0))
  else Done (inl (buf, pos + 1)).

Fixpoint readline (keys buf : list Z) (pos count : Z) : outcome (list Z) :=
  match keys with
  | [] => Halt Would_block
  | c :: keys =>
      olet r := read_char buf pos count c in
      match r with
      | inl (buf, pos) => readline keys buf pos count
      | inr buf => Done buf
      end
  end.

(** ** [cmd_parse] *)
Definition at_ (buf : list Z) (i : Z) : outcome Z := oget (arr_get buf i) Out_of_bounds.

Fixpoint skip_token (fuel : nat) (buf : list Z) (next token : Z) : outcome Z :=
  match fuel with
  | O => Halt Out_of_fuel
  | S fuel => olet c := at_ buf next in if c =? token then skip_token fuel buf (next + 1) token else Done next
  end.
Fixpoint skip_word (fuel : nat) (buf : list Z) (next token : Z) : outcome Z :=
  match fuel with
  | O => Halt Out_of_fuel
  | S fuel =>
      olet c := at_ buf next in
      if negb (c =? 0) && negb (c =? token) then skip_word fuel buf (next + 1) token else Done next
  end.

(** [argv] holds indices into the buffer, [None] for [NULL].  The result, the
    array and the buffer, in which words are terminated. *)
Fixpoint parse_loop (fuel : nat) (buf : list Z) (next argc : Z) (argv : list (option Z)) (token : Z)
    : outcome (Z * list (option Z) * list Z) :=
  match fuel with
  | O => Halt Out_of_fuel
  | S fuel' =>
      olet c := at_ buf next in
      if c =? 0 then Done (argc, argv, buf) else
      olet next := skip_token (S (length buf)) buf next token in
      olet c := at_ buf next in
      if c =? 0 then Done (argc, argv, buf) else
      olet argv := oget (arr_set argv argc (Some next)) Out_of_bounds in
      olet next := skip_word (S (length buf)) buf next token in
      olet c := at_ buf next in
      olet (buf, next) := (if negb (c =? 0) then
                             olet buf := oget (arr_set buf next 0) Out_of_bounds in Done (buf, next + 1)
                           else Done (buf, next)) in
      if MAX_ARG_NR <? argc then Done (-1, argv, buf) else
      parse_loop fuel' buf next (argc + 1) argv token
  end.
Definition cmd_parse (cmd_str : list Z) (token : Z) : outcome (Z * list (option Z) * list Z) :=
  parse_loop (S (length cmd_str)) cmd_str 0 0 (replicate (Z.to_nat MAX_ARG_NR) None) token.

(** ** Specification of the line editor *)
Definition edit (line : list Z) (c : Z) : list Z :=
  if c =? key_backspace then take (length line - 1) line
  else if c =? key_clear then line
  else if c =? key_kill then []
  else line ++ [c].
Definition plain (c : Z) : Prop := 0 < c < 256 /\ key_enter c = false.

Lemma arr_set_app {A} (l r : list A) (x y : A) : arr_set (l ++ x :: r) (Z.of_nat (length l)) y = Some (l ++ y :: r).
Proof.
  unfold arr_set. rewrite length_app. cbn [length]. rewrite decide_True by lia. rewrite Nat2Z.id.
  rewrite insert_app_r_alt by lia. by rewrite Nat.sub_diag.
Qed.

Lemma arr_get_app {A} (l r : list A) (x : A) : arr_get (l ++ x :: r) (Z.of_nat (length l)) = Some x.
Proof. unfold arr_get. rewrite decide_True by lia. rewrite Nat2Z.id. by rewrite lookup_app_r, Nat.sub_diag by lia. Qed.

Lemma wipe_spec : forall n buf pos, 0 <= pos < Z.of_nat (length buf) ->
  exists buf', wipe n buf pos = Done buf' /\ length buf' = length buf.
Proof.
  induction n as [|n IH]; intros buf pos Hp; cbn [wipe]; [by exists buf|].
  destruct (Z.eqb_spec pos 0); [by exists buf|]. unfold arr_set. rewrite decide_True by lia. cbn [oget obind].
  destruct (IH (<[Z.to_nat pos := 0]> buf) (pos - 1)) as (b & -> & Hb); [rewrite length_insert; lia|].
  exists b. split; [done|]. by rewrite Hb, length_insert.
Qed.

(** A line and what is behind it in the buffer. *)
Definition holds (buf line : list Z) (count : Z) : Prop :=
  Z.of_nat (length buf) = count /\ take (length line) buf = line /\ Forall plain line /\ Forall (fun c => c <> key_backspace) line.

Lemma holds_split buf line count : holds buf line count -> Z.of_nat (length line) < count ->
  exists x r, buf = line ++ x :: r.
Proof.
  intros (Hl & Ht & _) Hlt. rewrite <- (take_drop (length line) buf), Ht. destruct (drop (length line) buf) as [|x r] eqn:E; [|eauto].
  apply (f_equal length) in E. rewrite length_drop in E. cbn in E. lia.
Qed.

Lemma read_char_edit buf line count c : holds buf line count -> Z.of_nat (length line) < count -> plain c ->
  exists buf', read_char buf (Z.of_nat (length line)) count c = Done (inl (buf', Z.of_nat (length (edit line c)))) /\
    holds buf' (edit line c) count.
Proof.
  intros Hh Hlt [Hc Hne]. destruct (holds_split _ _ _ Hh Hlt) as (x & r & ->). destruct Hh as (Hl & _ & Hp & Hb).
  rewrite length_app in Hl. cbn [length] in Hl. unfold read_char, edit. rewrite arr_set_app. cbn [oget obind].
  rewrite (proj2 (Z.ltb_lt _ _)) by done. cbn [negb]. rewrite Hne.
  destruct (Z.eqb_spec c key_backspace) as [->|Hc1]; [|destruct (Z.eqb_spec c key_clear) as [->|Hc2]; [|destruct (Z.eqb_spec c key_kill) as [->|Hc3]]].
  - destruct line as [|c0 line]; cbn [app length].
    + eexists. split; [done|]. split_and!; cbn in *; (done || lia).
    + change (arr_get (c0 :: line ++ key_backspace :: r) 0) with (Some c0). cbn [oget obind].
      apply Forall_cons in Hb as [Hb0 Hb]. rewrite (proj2 (Z.eqb_neq c0 key_backspace)) by done. cbn [negb].
      eexists. split; [do 2 f_equal; rewrite length_take; cbn [length]; f_equal; lia|].
      split_and!; [cbn in *; rewrite length_app; cbn; lia| |apply Forall_take; done|apply Forall_take, Forall_cons; done].
      rewrite length_take. cbn [length]. rewrite Nat.min_l by lia.
      change (c0 :: line ++ key_backspace :: r) with ((c0 :: line) ++ key_backspace :: r). by rewrite take_app_le by (cbn; lia).
  - rewrite arr_set_app. cbn [oget obind]. eexists. split; [done|].
    split_and!; [rewrite length_app; cbn; lia|by rewrite take_app_length|done|done].
  - destruct (wipe_spec (Z.to_nat (Z.of_nat (length line))) (line ++ key_kill :: r) (Z.of_nat (length line))) as (b & -> & Hb').
    { rewrite length_app. cbn. lia. }
    cbn [obind]. eexists. split; [done|]. split_and!; [rewrite Hb', length_app; cbn; lia|done|apply Forall_nil_2|apply Forall_nil_2].
  - eexists. split; [do 2 f_equal; rewrite length_app; cbn; f_equal; lia|].
    split_and!; [rewrite length_app; cbn; lia| | |].
    + rewrite (length_app line [c]). cbn [length]. change (c :: r) with ([c] ++ r). by rewrite (app_assoc line), take_app_le, firstn_all2 by (rewrite length_app; cbn; lia).
    + apply Forall_app. split; [done|]. by apply Forall_singleton.
    + apply Forall_app. split; [done|]. by apply Forall_singleton.
Qed.

(** [readline] is a line editor.  For characters typed up to the return
    key, the buffer ends up holding the line they make: a plain character
    extends it, backspace takes the last character away (and does nothing on an
    empty line), ctrl-l leaves it, ctrl-u empties it; provided the line always
    stays shorter than the buffer.  When it fills the buffer, the next
    character is stored after the buffer's end, before the length is tested. *)
Theorem readline_correct (keys buf : list Z) (count e : Z) (Hbuf : Z.of_nat (length buf) = count) (Hpos : 0 < count)
    (Hkeys : Forall plain keys) (He : key_enter e = true)
    (Hroom : forall n, (n < length keys)%nat -> Z.of_nat (length (foldl edit [] (take n keys))) < count) :
  let line := foldl edit [] keys in
  (Z.of_nat (length line) < count -> Forall plain line /\ exists rest, readline (keys ++ [e]) buf 0 count = Done (line ++ 0 :: rest)) /\
  (Z.of_nat (length line) = count -> readline (keys ++ [e]) buf 0 count = Halt Out_of_bounds).
Proof.
  assert (forall ks done_ b, holds b (foldl edit [] done_) count -> Forall plain ks ->
    (forall n, (n < length ks)%nat -> Z.of_nat (length (foldl edit [] (done_ ++ take n ks))) < count) ->
    exists b', readline (ks ++ [e]) b (Z.of_nat (length (foldl edit [] done_))) count =
        readline [e] b' (Z.of_nat (length (foldl edit [] (done_ ++ ks)))) count /\ holds b' (foldl edit [] (done_ ++ ks)) count) as Hrun.
  { induction ks as [|c ks IH]; intros done_ b Hh Hks Hr; [exists b; by rewrite app_nil_r|]. apply Forall_cons in Hks as [Hc Hks].
    specialize (Hr 0%nat ltac:(cbn; lia)) as Hr0. rewrite take_0, app_nil_r in Hr0.
    destruct (read_char_edit b _ count c Hh Hr0 Hc) as (b1 & E1 & Hh1).
    assert (foldl edit [] (done_ ++ [c]) = edit (foldl edit [] done_) c) as Ef by (by rewrite foldl_app).
    destruct (IH (done_ ++ [c]) b1) as (b2 & E2 & Hh2); [by rewrite Ef|done| |].
    { intros n Hn. rewrite <- app_assoc. apply (Hr (S n)). cbn. lia. }
    exists b2. rewrite <- app_assoc in E2, Hh2. split; [|done]. cbn [app readline]. rewrite E1. cbn [obind]. by rewrite <- Ef. }
  intros line. destruct (Hrun keys [] buf) as (b & E & Hh); [split_and!; done|done|done|]. cbn [app foldl length] in E, Hh. fold line in E, Hh. change (Z.of_nat 0) with 0 in E.
  split; intros Hlen; rewrite E.
  - destruct (holds_split _ _ _ Hh Hlen) as (x & r & ->). cbn [readline]. unfold read_char. rewrite arr_set_app. cbn [oget obind].
    rewrite (proj2 (Z.ltb_lt _ _)), He by done. cbn [negb]. rewrite arr_set_app. cbn [oget obind].
    split; [apply Hh|]. by eexists.
  - cbn [readline]. unfold read_char, arr_set. rewrite decide_False; [done|]. destruct Hh as (Hl & _). lia.
Qed.

(** ** Specification of [cmd_parse]: the words between separators *)
Fixpoint wsplit (t : Z) (s : list Z) : list Z * list (list Z) :=
  match s with
  | [] => ([], [])
  | c :: s =>
      let (cur, rest) := wsplit t s in
      if c =? t then ([], if decide (cur = []) then rest else cur :: rest) else (c :: cur, rest)
  end.
Definition words (t : Z) (s : list Z) : list (list Z) :=
  let (cur, rest) := wsplit t s in if decide (cur = []) then rest else cur :: rest.

Definition word (t : Z) (w : list Z) : Prop := w <> [] /\ Forall (fun c => c <> 0 /\ c <> t) w.

Section parse.
Context (t : Z) (Ht : t <> 0).

Lemma words_token s : words t (t :: s) = words t s.
Proof. unfold words. cbn [wsplit]. destruct (wsplit t s) as [cur rest]. by rewrite Z.eqb_refl. Qed.

Lemma words_tokens k s : words t (replicate k t ++ s) = words t s.
Proof. induction k as [|k IH]; [done|]. cbn [replicate app]. by rewrite words_token. Qed.

Lemma words_none k : words t (replicate k t) = [].
Proof. rewrite <- (app_nil_r (replicate k t)), words_tokens. done. Qed.

Lemma wsplit_word w s : Forall (fun c => c <> 0 /\ c <> t) w -> wsplit t (w ++ s) = (w ++ fst (wsplit t s), snd (wsplit t s)).
Proof.
  induction 1 as [|c w [_ Hc] Hw IH]; [cbn; by destruct (wsplit t s)|]. cbn [app wsplit]. rewrite IH.
  by rewrite (proj2 (Z.eqb_neq c t)).
Qed.

Lemma words_word w : word t w -> words t w = [w].
Proof.
  intros [Hne Hw]. unfold words. rewrite <- (app_nil_r w) at 1. rewrite wsplit_word by done. cbn. rewrite app_nil_r.
  by destruct (decide (w = [])).
Qed.

Lemma words_word_token w s : word t w -> words t (w ++ t :: s) = w :: words t s.
Proof.
  intros [Hne Hw]. unfold words. rewrite wsplit_word by done. cbn [wsplit]. destruct (wsplit t s) as [cur rest].
  rewrite Z.eqb_refl. cbn [fst snd]. rewrite app_nil_r. by destruct (decide (w = [])).
Qed.

(** A line is separators, then nothing, a last word, or a word and the rest. *)
Lemma line_cases s : Forall (fun c => c <> 0) s -> exists k,
  s = replicate k t \/ (exists w, word t w /\ s = replicate k t ++ w) \/ (exists w r, word t w /\ s = replicate k t ++ w ++ t :: r).
Proof.
  induction 1 as [|c s Hc Hs (k & IH)]; [exists 0%nat; by left|]. destruct (decide (c = t)) as [->|Hne].
  - exists (S k). destruct IH as [->|[(w & Hw & ->)|(w & r & Hw & ->)]]; [by left|right; left; by exists w|right; right; by exists w, r].
  - exists 0%nat. cbn [replicate app]. right.
    assert (word t [c]) as H1 by (split; [done|by apply Forall_singleton]). destruct k as [|k].
    + destruct IH as [->|[(w & [Hw0 Hw] & ->)|(w & r & [Hw0 Hw] & ->)]]; cbn [replicate app].
      * left. by exists [c].
      * left. exists (c :: w). split; [|done]. split; [done|]. by apply Forall_cons.
      * right. exists (c :: w), r. split; [|done]. split; [done|]. by apply Forall_cons.
    + right. destruct IH as [->|[(w & Hw & ->)|(w & r & Hw & ->)]]; cbn [replicate app].
      * by exists [c], (replicate k t).
      * by exists [c], (replicate k t ++ w).
      * by exists [c], (replicate k t ++ w ++ t :: r).
Qed.

Lemma at_app pre c r : at_ (pre ++ c :: r) (Z.of_nat (length pre)) = Done c.
Proof. unfold at_. by rewrite arr_get_app. Qed.

Lemma skip_token_spec : forall k fuel pre c r, c <> t -> (k < fuel)%nat ->
  skip_token fuel (pre ++ replicate k t ++ c :: r) (Z.of_nat (length pre)) t = Done (Z.of_nat (length pre + k)).
Proof.
  induction k as [|k IH]; intros fuel pre c r Hc Hf; (destruct fuel as [|fuel]; [lia|]); cbn [skip_token replicate app]; rewrite at_app; cbn [obind].
  - rewrite (proj2 (Z.eqb_neq c t)) by done. do 2 f_equal. lia.
  - rewrite Z.eqb_refl. specialize (IH fuel (pre ++ [t]) c r Hc ltac:(lia)). rewrite length_app in IH. cbn [length] in IH.
    rewrite <- app_assoc in IH. cbn [app] in IH. replace (Z.of_nat (length pre) + 1) with (Z.of_nat (length pre + 1)) by lia. rewrite IH. do 2 f_equal. lia.
Qed.

Lemma skip_word_spec : forall w fuel pre c r, Forall (fun c => c <> 0 /\ c <> t) w -> (c = 0 \/ c = t) -> (length w < fuel)%nat ->
  skip_word fuel (pre ++ w ++ c :: r) (Z.of_nat (length pre)) t = Done (Z.of_nat (length pre + length w)).
Proof.
  induction w as [|x w IH]; intros fuel pre c r Hw Hc Hf; (destruct fuel as [|fuel]; [lia|]); cbn [skip_word app]; rewrite at_app; cbn [obind].
  - assert (negb (c =? 0) && negb (c =? t) = false) as ->. { destruct Hc as [->| ->]; rewrite Z.eqb_refl; [done|by rewrite andb_false_r]. }
    do 2 f_equal. cbn. lia.
  - apply Forall_cons in Hw as [[H0 H1] Hw]. rewrite (proj2 (Z.eqb_neq x 0)), (proj2 (Z.eqb_neq x t)) by done. cbn [negb andb].
    specialize (IH fuel (pre ++ [x]) c r Hw Hc ltac:(cbn in Hf; lia)). rewrite length_app in IH. cbn [length] in *.
    rewrite <- app_assoc in IH. cbn [app] in IH. replace (Z.of_nat (length pre) + 1) with (Z.of_nat (length pre + 1)) by lia. rewrite IH. do 2 f_equal. lia.
Qed.

Lemma at_first pre k w r : word t w -> exists c, at_ (pre ++ replicate k t ++ w ++ r) (Z.of_nat (length pre)) = Done c /\ c <> 0.
Proof.
  intros [Hne Hw]. destruct k as [|k]; cbn [replicate app]; [|exists t; by rewrite at_app].
  destruct w as [|c w]; [done|]. apply Forall_cons in Hw as [[Hc _] _]. exists c. cbn [app]. by rewrite at_app.
Qed.

(** One word. *)
Lemma parse_word pre k w c r (a : nat) argv fuel : word t w -> c = 0 \/ c = t -> length argv = 16%nat -> (a <= 16)%nat ->
  let p := (length pre + k)%nat in
  let e := (p + length w)%nat in
  parse_loop (S fuel) (pre ++ replicate k t ++ w ++ c :: r) (Z.of_nat (length pre)) (Z.of_nat a) argv t =
    if decide (a < 16)%nat then
      let argv := <[a := Some (Z.of_nat p)]> argv in
      if c =? 0 then parse_loop fuel (pre ++ replicate k t ++ w ++ 0 :: r) (Z.of_nat e) (Z.of_nat (S a)) argv t
      else parse_loop fuel (pre ++ replicate k t ++ w ++ 0 :: r) (Z.of_nat (S e)) (Z.of_nat (S a)) argv t
    else Halt Out_of_bounds.
Proof.
  intros Hw Hc Hl Ha p e. cbn [parse_loop]. destruct (at_first pre k w (c :: r) Hw) as (c0 & -> & Hc0). cbn [obind].
  rewrite (proj2 (Z.eqb_neq c0 0)) by done. pose proof Hw as [Hne Hw']. destruct w as [|x w]; [done|]. set (W := x :: w) in *.
  pose proof Hw' as Hx. apply Forall_cons in Hx as [[Hx0 Hxt] _].
  change (pre ++ replicate k t ++ W ++ c :: r) with (pre ++ replicate k t ++ x :: (w ++ c :: r)) at 2.
  rewrite skip_token_spec by (done || (rewrite !length_app, length_replicate; lia)). cbn [obind]. fold p.
  assert (pre ++ replicate k t ++ W ++ c :: r = (pre ++ replicate k t) ++ W ++ c :: r) as EB by apply (app_assoc pre).
  assert (length (pre ++ replicate k t) = p) as Hp by (by rewrite length_app, length_replicate).
  rewrite EB. replace (Z.of_nat p) with (Z.of_nat (length (pre ++ replicate k t))) by lia.
  rewrite (at_app (pre ++ replicate k t) x (w ++ c :: r) : at_ ((pre ++ replicate k t) ++ W ++ c :: r) _ = _). cbn [obind].
  rewrite (proj2 (Z.eqb_neq x 0)) by done. unfold arr_set at 1. rewrite Hl. destruct (decide (a < 16)%nat) as [Ha16|Ha16].
  2: { by rewrite decide_False by lia. }
  rewrite decide_True by lia. cbn [oget obind]. rewrite Nat2Z.id, skip_word_spec by (done || (rewrite !length_app; lia)). cbn [obind].
  rewrite Hp. fold e. assert (length ((pre ++ replicate k t) ++ W) = e) as He by (rewrite length_app; lia).
  rewrite (app_assoc (pre ++ replicate k t)). replace (Z.of_nat e) with (Z.of_nat (length ((pre ++ replicate k t) ++ W))) by lia.
  rewrite at_app. cbn [obind]. rewrite arr_set_app. cbn [oget].
  replace (Z.of_nat a + 1) with (Z.of_nat (S a)) by lia.
  rewrite (proj2 (Z.ltb_ge MAX_ARG_NR _)) by (unfold MAX_ARG_NR; lia).
  destruct (Z.eqb_spec c 0) as [->|Hcz]; cbn [negb obind]; rewrite He, <- !app_assoc.
  - done.
  - by replace (Z.of_nat e + 1) with (Z.of_nat (S e)) by lia.
Qed.

Lemma parse_end pre k r (a : Z) argv fuel :
  parse_loop (S fuel) (pre ++ replicate k t ++ 0 :: r) (Z.of_nat (length pre)) a argv t = Done (a, argv, pre ++ replicate k t ++ 0 :: r).
Proof.
  cbn [parse_loop]. destruct k as [|k]; [cbn [replicate app]; by rewrite at_app|].
  change (replicate (S k) t ++ 0 :: r) with (t :: replicate k t ++ 0 :: r). rewrite at_app. cbn [obind].
  rewrite (proj2 (Z.eqb_neq t 0)) by done. change (t :: replicate k t ++ 0 :: r) with (replicate (S k) t ++ 0 :: r).
  rewrite skip_token_spec by (done || (rewrite !length_app, length_replicate; lia)). cbn [obind].
  rewrite (app_assoc pre). replace (length pre + S k)%nat with (length (pre ++ replicate (S k) t)) by (by rewrite length_app, length_replicate).
  by rewrite at_app.
Qed.

(** What [argv] says: the words, from index [a] on. *)
Definition points_to (buf : list Z) (argv : list (option Z)) (a : nat) (ws : list (list Z)) : Prop :=
  forall i w, ws !! i = Some w -> exists p, argv !! (a + i)%nat = Some (Some (Z.of_nat p)) /\ cstring (drop p buf) = Some w.

Lemma cstring_word w r : Forall (fun c => c <> 0 /\ c <> t) w -> cstring (w ++ 0 :: r) = Some w.
Proof. induction 1 as [|c w [Hc _] _ IH]; [done|]. cbn [app cstring]. rewrite (proj2 (Z.eqb_neq c 0)) by done. by rewrite IH. Qed.

Lemma parse_all : forall fuel s pre tail (a : nat) argv, Forall (fun c => c <> 0) s -> (length s < fuel)%nat ->
  length argv = 16%nat -> (a + length (words t s) <= 16)%nat ->
  exists argv' x, parse_loop fuel (pre ++ s ++ 0 :: tail) (Z.of_nat (length pre)) (Z.of_nat a) argv t =
      Done (Z.of_nat (a + length (words t s)), argv', pre ++ x) /\
    length argv' = 16%nat /\ points_to (pre ++ x) argv' a (words t s) /\
    forall j, (j < a \/ a + length (words t s) <= j)%nat -> argv' !! j = argv !! j.
Proof.
  induction fuel as [|fuel IH]; intros s pre tail a argv Hs Hf Hl Ha; [lia|].
  destruct (line_cases s Hs) as (k & [->|[(w & Hw & ->)|(w & r & Hw & ->)]]).
  - rewrite words_none in *.
    rewrite parse_end. exists argv, (replicate k t ++ 0 :: tail). cbn [length]. rewrite Nat.add_0_r. by split_and!.
  - rewrite words_tokens, words_word in * by done. rewrite <- app_assoc. cbn [length] in *.
    rewrite (parse_word pre k w 0 tail a argv fuel Hw) by (done || lia || by left). rewrite decide_True by lia. cbn zeta. cbn [Z.eqb].
    destruct fuel as [|fuel]; [destruct Hw as [Hne _]; rewrite length_app in Hf; destruct w; [done|cbn in Hf; lia]|].
    assert (pre ++ replicate k t ++ w ++ 0 :: tail = (pre ++ replicate k t ++ w) ++ replicate 0 t ++ 0 :: tail) as EB by (cbn [replicate app]; by rewrite <- !app_assoc).
    rewrite EB. replace (length pre + k + length w)%nat with (length (pre ++ replicate k t ++ w)) by (rewrite !length_app, length_replicate; lia).
    rewrite parse_end. exists (<[a := Some (Z.of_nat (length pre + k))]> argv), (replicate k t ++ w ++ 0 :: tail).
    rewrite <- EB, Nat.add_1_r. split_and!; [done|by rewrite length_insert| |].
    + intros i w' Hi. apply list_lookup_singleton_Some in Hi as [-> <-]. rewrite Nat.add_0_r. exists (length pre + k)%nat.
      split; [apply list_lookup_insert_eq; lia|]. rewrite app_assoc, drop_app_length' by (by rewrite length_app, length_replicate). apply cstring_word, Hw.
    + intros j Hj. apply list_lookup_insert_ne. lia.
  - rewrite words_tokens, words_word_token in * by done. rewrite <- !app_assoc. cbn [length app] in *.
    rewrite (parse_word pre k w t (r ++ 0 :: tail) a argv fuel Hw) by (done || lia || by right). rewrite decide_True by lia. cbn zeta.
    rewrite (proj2 (Z.eqb_neq t 0)) by done. set (pre' := pre ++ replicate k t ++ w ++ [0]).
    assert (pre ++ replicate k t ++ w ++ 0 :: r ++ 0 :: tail = pre' ++ r ++ 0 :: tail) as -> by (unfold pre'; by rewrite <- !app_assoc).
    assert (length pre' = S (length pre + k + length w)) as Hp' by (unfold pre'; rewrite !length_app, length_replicate; cbn; lia).
    rewrite <- Hp'. apply Forall_app in Hs as [_ Hs]. apply Forall_app in Hs as [_ Hs]. apply Forall_cons in Hs as [_ Hs].
    rewrite !length_app in Hf. cbn [length] in Hf.
    destruct (IH r pre' tail (S a) (<[a := Some (Z.of_nat (length pre + k))]> argv)) as (argv' & x & E & Hl' & Hpt & Hoth);
      [done|lia|by rewrite length_insert|lia|].
    exists argv', (replicate k t ++ w ++ [0] ++ x). assert (pre ++ replicate k t ++ w ++ [0] ++ x = pre' ++ x) as -> by (unfold pre'; by rewrite <- !app_assoc).
    split_and!; [rewrite E; do 4 f_equal; lia|done| |].
    + intros [|i] w' Hi; cbn in Hi.
      * injection Hi as <-. exists (length pre + k)%nat. rewrite Nat.add_0_r, Hoth by lia. split; [apply list_lookup_insert_eq; lia|].
        unfold pre'. rewrite <- !app_assoc, app_assoc, drop_app_length' by (by rewrite length_app, length_replicate). apply cstring_word, Hw.
      * destruct (Hpt i w' Hi) as (q & Hq & Hc). exists q. split; [|done]. by replace (a + S i)%nat with (S a + i)%nat by lia.
    + intros j Hj. rewrite Hoth by lia. apply list_lookup_insert_ne. lia.
Qed.

Lemma parse_overrun : forall fuel s pre tail (a : nat) argv, Forall (fun c => c <> 0) s -> (length s < fuel)%nat ->
  length argv = 16%nat -> (a <= 16)%nat -> (16 < a + length (words t s))%nat ->
  parse_loop fuel (pre ++ s ++ 0 :: tail) (Z.of_nat (length pre)) (Z.of_nat a) argv t = Halt Out_of_bounds.
Proof.
  induction fuel as [|fuel IH]; intros s pre tail a argv Hs Hf Hl Ha Hw16; [lia|].
  destruct (line_cases s Hs) as (k & [->|[(w & Hw & ->)|(w & r & Hw & ->)]]).
  - rewrite words_none in Hw16. cbn in Hw16. lia.
  - rewrite words_tokens, words_word in Hw16 by done. cbn [length] in Hw16. rewrite <- app_assoc.
    rewrite (parse_word pre k w 0 tail a argv fuel Hw) by (done || lia || by left). by rewrite decide_False by lia.
  - rewrite words_tokens, words_word_token in Hw16 by done. cbn [length] in Hw16. rewrite <- !app_assoc. cbn [app]. 
    rewrite (parse_word pre k w t (r ++ 0 :: tail) a argv fuel Hw) by (done || lia || by right).
    destruct (decide (a < 16)%nat) as [Ha16|]; [|done]. cbn zeta. rewrite (proj2 (Z.eqb_neq t 0)) by done.
    set (pre' := pre ++ replicate k t ++ w ++ [0]).
    assert (pre ++ replicate k t ++ w ++ 0 :: r ++ 0 :: tail = pre' ++ r ++ 0 :: tail) as -> by (unfold pre'; by rewrite <- !app_assoc).
    assert (length pre' = S (length pre + k + length w)) as Hp' by (unfold pre'; rewrite !length_app, length_replicate; cbn; lia).
    rewrite <- Hp'. apply Forall_app in Hs as [_ Hs]. apply Forall_app in Hs as [_ Hs]. apply Forall_cons in Hs as [_ Hs].
    rewrite !length_app in Hf. cbn [length] in Hf. apply IH; [done|lia|by rewrite length_insert|lia|lia].
Qed.
End parse.

(** [cmd_parse] splits a command line into words.  For a line in a buffer,
    when there are at most 16 words between the separators, it returns their
    number; [argv] points at them in order, each terminated in the buffer, and
    the other entries are [NULL].  With 17 words or more it stores a pointer
    after the end of [argv] before it tests the number of arguments. *)
Theorem cmd_parse_correct (s tail : list Z) (token : Z) (Htok : token <> 0) (Hs : Forall (fun c => c <> 0) s) :
  let ws := words token s in
  ((length ws <= 16)%nat -> exists argv buf, cmd_parse (s ++ 0 :: tail) token = Done (Z.of_nat (length ws), argv, buf) /\
     length argv = 16%nat /\ points_to buf argv 0 ws /\ forall j, (length ws <= j < 16)%nat -> argv !! j = Some None) /\
  ((16 < length ws)%nat -> cmd_parse (s ++ 0 :: tail) token = Halt Out_of_bounds).
Proof.
  intros ws. assert (length s < S (length (s ++ 0%Z :: tail)))%nat as Hf by (rewrite length_app; cbn; lia).
  split; intros Hw.
  - destruct (parse_all token Htok (S (length (s ++ 0 :: tail))) s [] tail 0 (replicate 16 None) Hs Hf) as (argv & x & E & Hl & Hp & Ho);
      [done|exact Hw|]. exists argv, x. split; [exact E|]. split; [exact Hl|]. split; [exact Hp|]. intros j Hj. rewrite Ho by (fold ws; lia). apply lookup_replicate_2. lia.
  - apply (parse_overrun token Htok (S (length (s ++ 0 :: tail))) s [] tail 0 (replicate 16 None) Hs Hf); [done|lia|exact Hw].
Qed.
