(* ===== verification/Uprog.v ===== *)
(** * Uprog: programs that make system calls

    User code cannot touch the kernel's state: what it does is the sequence of
    its system calls, each depending on the answers to those before.  A [prog]
    is such a program; [runs] gives its possible histories, whatever the kernel
    answers, and [guard] is the rule by which facts about all of them are
    proved.  [printf] of [lib/stdio.c] is the first such program. *)

From stdpp Require Import base numbers list gmap strings.
From S2P Require Import Prelude.
From S2P Require Import Cstring.
From S2P Require Import Path.
From S2P Require Import Stdio.
From S2P Require Import Fsdata.
From S2P Require Import Fs.

Local Open Scope Z_scope.
Local Open Scope kernel_scope.

(** The bytes of a string literal. *)
Definition str (s : string) : list Z := (fun c => Z.of_N (Ascii.N_of_ascii c)) <$> String.list_ascii_of_string s.

(** ** Calls and what they answer

    Strings are their bytes; a pointer to a directory is a number, 0 for
    [NULL].  The keys of a line are one call, though [readline] reads them one
    by one; [read] answers with its result and the bytes it stored.  [execv] is
    answered when it fails; [exit] never is. *)
Inductive call : Type :=
  | Write (fd : Z) (buf : list Z)
  | Readkeys
  | Getcwd (size : Z)
  | Chdir (path : list Z)
  | Stat (path : list Z)
  | Opendir (path : list Z)
  | Readdir (d : Z)
  | Rewinddir (d : Z)
  | Closedir (d : Z)
  | Mkdir (path : list Z)
  | Rmdir (path : list Z)
  | Unlink (path : list Z)
  | Ps
  | Clear
  | Help
  | Fork
  | Wait
  | Exit (status : Z)
  | Execv (path : list Z) (argv : list (option (list Z)))
  | Pipe
  | Fd_redirect (old_local_fd new_local_fd : Z)
  | Close (fd : Z)
  | Open (path : list Z) (flag : Z)
  | Read (fd count : Z)
  | Malloc (size : Z)
  | Free (ptr : Z)
  | Getpid.

#[export] Instance call_eq_dec : EqDecision call.
Proof. solve_decision. Defined.

Definition answer (c : call) : Type :=
  match c with
  | Readkeys => list Z
  | Getcwd _ => option (list Z)
  | Stat _ => Z * stat
  | Readdir _ => option dir_entry
  | Rewinddir _ | Ps | Clear | Help | Fd_redirect _ _ | Free _ => unit
  | Read _ _ => Z * list Z
  | Wait => Z * Z
  | Exit _ => Empty_set
  | Pipe => option (Z * Z)
  | _ => Z
  end.

Inductive prog (A : Type) : Type :=
  | Ret (a : A)
  | Stop (w : stop)
  | Call (c : call) (k : answer c -> prog A).
Arguments Ret {A} a.
Arguments Stop {A} w.
Arguments Call {A} c k.

Fixpoint pbind {A B} (p : prog A) (f : A -> prog B) : prog B :=
  match p with
  | Ret a => f a
  | Stop w => Stop w
  | Call c k => Call c (fun r => pbind (k r) f)
  end.
Notation "'plet' x ':=' p 'in' q" := (pbind p (fun x => q))
  (at level 10, x pattern, p at level 100, q at level 200) : kernel_scope.
Notation "p ';;>' q" := (pbind p (fun _ => q)) (at level 199, right associativity) : kernel_scope.

Definition do_call (c : call) : prog (answer c) := Call c Ret.
Definition of_outcome {A} (o : outcome A) : prog A := match o with Done a => Ret a | Halt w => Stop w end.

(** ** Histories *)
Definition event : Type := {c : call & answer c}.
Definition ev (c : call) (r : answer c) : event := existT c r.

Inductive runs {A} : prog A -> list event -> outcome A -> Prop :=
  | runs_ret a : runs (Ret a) [] (Done a)
  | runs_stop w : runs (Stop w) [] (Halt w)
  | runs_call c k r tr o : runs (k r) tr o -> runs (Call c k) (ev c r :: tr) o.

(** A history that may be cut off while a call is being served, with that call. *)
Inductive reaches {A} : prog A -> list event -> call -> Prop :=
  | reaches_now c k : reaches (Call c k) [] c
  | reaches_later c k r tr c' : reaches (k r) tr c' -> reaches (Call c k) (ev c r :: tr) c'.

Lemma runs_call_inv {A} c (k : answer c -> prog A) tr o : runs (Call c k) tr o -> exists r tr', tr = ev c r :: tr' /\ runs (k r) tr' o.
Proof.
  intros R. inversion R; subst. match goal with H : existT _ _ = existT _ _ |- _ => apply (Eqdep_dec.inj_pair2_eq_dec _ call_eq_dec) in H end.
  subst. eauto.
Qed.

Section guard.
(** What is assumed of the answers, and what is claimed of the calls. *)
Context (env : forall c, answer c -> Prop) (good : call -> Prop).

(** Every call the program makes is [good], and where it ends [Q] holds of the
    result and the history, [h] being what was before. *)
Fixpoint guard {A} (p : prog A) (h : list event) (Q : A -> list event -> Prop) : Prop :=
  match p with
  | Ret a => Q a h
  | Stop _ => True
  | Call c k => good c /\ forall r, env c r -> guard (k r) (h ++ [ev c r]) Q
  end.

Definition served (tr : list event) : Prop := Forall (fun e => env (projT1 e) (projT2 e)) tr.

Lemma guard_bind {A B} (p : prog A) (f : A -> prog B) h Q :
  guard p h (fun a h' => guard (f a) h' Q) -> guard (pbind p f) h Q.
Proof. revert h. induction p as [a|w|c k IH]; intros h; cbn [pbind guard]; [done..|]. intros [? H]. split; [done|]. eauto. Qed.

Lemma guard_mono {A} (p : prog A) h (Q Q' : A -> list event -> Prop) :
  guard p h Q -> (forall a h', Q a h' -> Q' a h') -> guard p h Q'.
Proof. revert h. induction p as [a|w|c k IH]; intros h; cbn [guard]; [eauto..|]. intros [? H] HQ. split; [done|]. eauto. Qed.

Lemma guard_call c h Q : good c -> (forall r, env c r -> Q r (h ++ [ev c r])) -> guard (do_call c) h Q.
Proof. done. Qed.

Lemma guard_outcome {A} (o : outcome A) h Q : (forall a, o = Done a -> Q a h) -> guard (of_outcome o) h Q.
Proof. destruct o; cbn; auto. Qed.

Lemma guard_runs {A} (p : prog A) tr o : runs p tr o -> forall h Q, guard p h Q -> served tr ->
  Forall (fun e => good (projT1 e)) tr /\ forall a, o = Done a -> Q a (h ++ tr).
Proof.
  induction 1 as [a|w|c k r tr o R IH]; intros h Q G S; cbn [guard] in G.
  - split; [done|]. intros a' [= <-]. by rewrite app_nil_r.
  - by split.
  - destruct G as [G1 G2]. apply Forall_cons in S as [S1 S2]. destruct (IH _ _ (G2 r S1) S2) as [I1 I2].
    split; [by constructor|]. intros a Ha. by rewrite (cons_middle (ev c r)), app_assoc; apply I2.
Qed.

Lemma guard_reaches {A} (p : prog A) tr c : reaches p tr c -> forall h Q, guard p h Q -> served tr -> good c.
Proof.
  induction 1 as [c k|c k r tr c' R IH]; intros h Q G S; cbn [guard] in G; [apply G|].
  apply Forall_cons in S as [S1 S2]. eapply IH; [|done]. by apply G.
Qed.
End guard.

Lemma runs_bind {A B} (p : prog A) (f : A -> prog B) tr o : runs (pbind p f) tr o ->
  (exists w, runs p tr (Halt w) /\ o = Halt w) \/
  exists tr1 a tr2, tr = tr1 ++ tr2 /\ runs p tr1 (Done a) /\ runs (f a) tr2 o.
Proof.
  revert tr. induction p as [a|w|c k IH]; intros tr; cbn [pbind].
  - intros R. right. exists [], a, tr. split; [done|]. split; [constructor|done].
  - intros R. inversion R; subst. left. exists w. split; [constructor|done].
  - intros (r & tr' & -> & R')%runs_call_inv.
    destruct (IH r _ R') as [(w & R1 & ->)|(tr1 & a & tr2 & -> & R1 & R2)].
    + left. exists w. split; [by constructor|done].
    + right. exists (ev c r :: tr1), a, tr2. split; [done|]. split; [by constructor|done].
Qed.

Lemma runs_seq {A B} (p : prog A) (f : A -> prog B) tr b : runs (pbind p f) tr (Done b) ->
  exists tr1 a tr2, tr = tr1 ++ tr2 /\ runs p tr1 (Done a) /\ runs (f a) tr2 (Done b).
Proof. intros [(w & _ & [=])|H]%runs_bind. done. Qed.

Lemma runs_append {A B} (p : prog A) (f : A -> prog B) tr1 a tr2 o :
  runs p tr1 (Done a) -> runs (f a) tr2 o -> runs (pbind p f) (tr1 ++ tr2) o.
Proof.
  intros R1 R2. revert tr1 R1. induction p as [a'|w|c k IH]; intros tr1 R1; cbn [pbind].
  - by inversion R1; subst.
  - inversion R1.
  - apply runs_call_inv in R1 as (r & t & -> & R1). cbn [app]. constructor. by apply IH.
Qed.

Lemma runs_do {B} c (f : answer c -> prog B) tr o : runs (pbind (do_call c) f) tr o ->
  exists r tr', tr = ev c r :: tr' /\ runs (f r) tr' o.
Proof. apply runs_call_inv. Qed.

Lemma runs_ret_inv {A} (a : A) tr o : runs (Ret a) tr o -> tr = [] /\ o = Done a.
Proof. by inversion 1. Qed.

Lemma runs_outcome {A} (o : outcome A) tr a : runs (of_outcome o) tr (Done a) -> tr = [] /\ o = Done a.
Proof. destruct o; inversion 1; by subst. Qed.

(** A run against a kernel that answers a call always in the same way, or not. *)
Fixpoint play {A} (h : forall c, option (answer c)) (p : prog A) : list event * outcome A :=
  match p with
  | Ret a => ([], Done a)
  | Stop w => ([], Halt w)
  | Call c k =>
      match h c with
      | Some r => let (tr, o) := play h (k r) in (ev c r :: tr, o)
      | None => ([], Halt Would_block)
      end
  end.

Lemma play_runs {A} h (p : prog A) a : snd (play h p) = Done a -> runs p (fst (play h p)) (Done a).
Proof.
  induction p as [a'|w|c k IH]; cbn [play]; [intros [= ->]; constructor|done|].
  destruct (h c) as [r|]; [|done]. specialize (IH r). destruct (play h (k r)) as [tr o]. intros E. constructor. by apply IH.
Qed.

(** ** [printf]

    The text is what [vsprintf_renders] says; the array it is put together in
    has 1024 bytes, the last of which must stay 0 for [strlen]. *)
Definition printf (format : string) (args : list fmt_arg) : prog unit :=
  match Stdio.render (str format) args with
  | None => Stop Page_fault
  | Some buf => if 1024 <=? Z.of_nat (length buf) then Stop Out_of_bounds else do_call (Write 1 buf) ;;> Ret tt
  end.

Lemma runs_printf f l tr u : runs (printf f l) tr (Done u) ->
  exists buf r, Stdio.render (str f) l = Some buf /\ tr = [ev (Write 1 buf) r].
Proof.
  unfold printf. destruct (Stdio.render _ _) as [buf|]; [|by inversion 1]. destruct (_ <=? _); [by inversion 1|].
  intros (r & tr' & -> & [-> _]%runs_ret_inv)%runs_do. by exists buf, r.
Qed.

Definition newline : string := String (Ascii.ascii_of_nat 10) EmptyString.
