(* ===== verification/Ps.v ===== *)
(** * Ps: the list of threads ([thread/thread.c] [sys_ps])

    [sys_ps] writes a title and, for every thread, four columns of fifteen
    characters and the name.  The model gives the buffers it hands to
    [sys_write], one after the other.  Numbers go through the case for ['d'] of
    [pad_print], which has no [break], so they are written in decimal and then
    over that in hexadecimal, from the 32-bit word at the same address. *)

From stdpp Require Import base numbers list gmap strings.
From S2P Require Import Prelude.
From S2P Require Import Bitmap.
From S2P Require Import Interrupt.
From S2P Require Import Seqlock.
From S2P Require Import Cstring.
From S2P Require Import Stdio.
From S2P Require Import Path.
From S2P Require Import Sched.
From S2P Require Import Fsdata.
From S2P Require Import Uprog.

Local Open Scope Z_scope.
Local Open Scope kernel_scope.

(** ** Writing into an array of characters *)
Definition put_text (buf text : list Z) : outcome (list Z) :=
  if decide (length text <= length buf)%nat then Done (text ++ drop (length text) buf) else Halt Out_of_bounds.
Definition text_len (buf : list Z) : outcome Z := olet s := oget (cstring buf) Out_of_bounds in Done (Z.of_nat (length s)).

(** [sprintf] of one conversion: a string is copied with its terminator, the
    digits of a number are not followed by one; the result is [strlen]. *)
Definition sprintf_s (buf s : list Z) : outcome (list Z * Z) :=
  olet buf := put_text buf (s ++ [0]) in olet n := text_len buf in Done (buf, n).
Definition sprintf_d (buf : list Z) (v : Z) : outcome (list Z * Z) :=
  olet buf := put_text buf (dec v) in olet n := text_len buf in Done (buf, n).
Definition sprintf_x (buf : list Z) (v : Z) : outcome (list Z * Z) :=
  olet buf := put_text buf (hex v) in olet n := text_len buf in Done (buf, n).

(** What [ptr] points to: a string; a 16-bit number and the word at its
    address; a word. *)
Inductive pad_arg : Type := PadS (s : list Z) | PadD (half word : Z) | PadX (word : Z).

(** The characters handed to [sys_write]. *)
Definition pad_print (buf_len : Z) (a : pad_arg) : outcome (list Z) :=
  let buf := replicate (Z.to_nat buf_len) 0 in
  olet (buf, n) :=
    (match a with
     | PadS s => sprintf_s buf s
     | PadD half word => olet (buf, _) := sprintf_d buf half in sprintf_x buf word
     | PadX word => sprintf_x buf word
     end) in
  let out_pad_0idx := u8 n in
  let buf := take (Z.to_nat out_pad_0idx) buf ++ replicate (Z.to_nat (buf_len - out_pad_0idx)) 32 in
  Done (take (Z.to_nat (buf_len - 1)) buf).

Definition status_name (st : task_status) : list Z :=
  match st with
  | TASK_RUNNING => str "RUNNING"
  | TASK_READY => str "READY"
  | TASK_BLOCKED => str "BLOCKED"
  | TASK_WAITING => str "WAITING"
  | TASK_HANGING => str "HANGING"
  | TASK_DIED => str "DIED"
  end.

(** The words at [&pid] and [&parent_pid]: two bytes of padding follow [pid];
    [exit_status] and a byte of padding follow [parent_pid].  The padding is 0,
    as [init_thread] left it. *)
Definition pid_word (x : task) : Z := u16 (pid x).
Definition parent_word (x : task) : Z := u16 (parent_pid x) + 65536 * u8 (exit_status x).

Definition elem2thread_info (x : task) : outcome (list (list Z)) :=
  olet c1 := pad_print 16 (PadD (pid x) (pid_word x)) in
  olet c2 := pad_print 16 (if parent_pid x =? -1 then PadS (str "NULL") else PadD (parent_pid x) (parent_word x)) in
  olet c3 := pad_print 16 (PadS (status_name (status x))) in
  olet c4 := pad_print 16 (PadX (elapsed_ticks x)) in
  if negb (Z.of_nat (length (name x)) <? 17) then Halt Assert_failed else
  olet out_pad := put_text (replicate 16 0) (name x) in
  (* [strcat]: the newline and its terminator after the name *)
  olet n := text_len out_pad in
  if 16 <? n + 2 then Halt Out_of_bounds else
  Done [c1; c2; c3; c4; name x ++ [10]].

(** [list_traversal] over all threads. *)
Fixpoint ps_rows (s : sst) (l : list Z) : outcome (list (list Z)) :=
  match l with
  | [] => Done []
  | t :: l =>
      olet x := oget (tasks s !! t) Page_fault in
      olet r := elem2thread_info x in
      olet rs := ps_rows s l in
      Done (r ++ rs)
  end.

Definition ps_title : list Z := str "PID            PPID           STAT           TICKS          COMMAND" ++ [10].

Definition sys_ps (s : sst) : outcome (list (list Z)) :=
  olet rows := ps_rows s (thread_all_list s) in Done (ps_title :: rows).

(** ** What is shown *)

(** A number: its hexadecimal digits, and behind them the decimal digits they
    did not reach. *)
Definition shown (half word : Z) : list Z := hex word ++ drop (length (hex word)) (dec half).
Definition column (text : list Z) : list Z := text ++ replicate (15 - length text) 32.
Definition row (x : task) : list (list Z) :=
  [column (shown (pid x) (pid_word x));
   column (if parent_pid x =? -1 then str "NULL" else shown (parent_pid x) (parent_word x));
   column (status_name (status x));
   column (hex (elapsed_ticks x));
   name x ++ [10]].

Lemma digits_bound base fuel : 2 <= base <= 16 -> forall k v, (0 < k)%nat -> 0 <= v < base ^ Z.of_nat k -> (length (digits fuel v base) <= k)%nat.
Proof.
  intros Hb. induction fuel as [|fuel IH]; intros k v Hk Hv; cbn [digits]; [cbn; lia|]. rewrite length_app. cbn [length].
  destruct (Z.eqb_spec (v / base) 0) as [|Hne]; [cbn; lia|]. destruct k as [|[|k]]; [lia| |].
  - change (Z.of_nat 1) with 1 in Hv. rewrite Z.pow_1_r in Hv. exfalso. apply Hne, Z.div_small. lia.
  - specialize (IH (S k) (v / base) ltac:(lia)). rewrite (Nat2Z.inj_succ (S k)), Z.pow_succ_r in Hv by lia.
    enough (0 <= v / base < base ^ Z.of_nat (S k)) as H by (specialize (IH H); lia).
    split; [apply Z.div_pos; lia|]. apply Z.div_lt_upper_bound; lia.
Qed.

Lemma hex_text w : Forall is_char (hex w) /\ (length (hex w) <= 8)%nat.
Proof.
  pose proof (u32_range w) as Hw. unfold is_u32 in Hw. split; [apply digits_chars; lia|]. apply digits_bound; [lia|lia|].
  change (16 ^ Z.of_nat 8) with 4294967296. lia.
Qed.

Lemma dec_text v : -32768 <= v < 32768 -> Forall is_char (dec v) /\ (length (dec v) <= 6)%nat.
Proof.
  intros Hv. unfold dec. rewrite i32_id by lia.
  assert (forall w, 0 <= w <= 32768 -> Forall is_char (digits itoa_fuel w 10) /\ (length (digits itoa_fuel w 10) <= 5)%nat) as H.
  { intros w Hw. split; [apply digits_chars; lia|]. apply digits_bound; [lia|lia|]. change (10 ^ Z.of_nat 5) with 100000. lia. }
  destruct (Z.ltb_spec v 0).
  - destruct (H (- v) ltac:(lia)) as [H1 H2]. split; [constructor; [unfold is_char; lia|done]|cbn [length]; lia].
  - destruct (H v ltac:(lia)) as [H1 H2]. split; [done|lia].
Qed.

Lemma text_len_text c r : Forall is_char c -> text_len (c ++ 0 :: r) = Done (Z.of_nat (length c)).
Proof.
  intros HF. unfold text_len. assert (cstring (c ++ 0 :: r) = Some c) as ->; [|done].
  induction HF as [|x c [Hx _] _ IH]; [done|]. cbn [app cstring]. rewrite (proj2 (Z.eqb_neq x 0)) by lia. by rewrite IH.
Qed.

(** A text of at most fifteen characters at the start of the array. *)
Definition padded (c : list Z) : list Z := c ++ replicate (16 - length c) 0.

Lemma padded_len c : Forall is_char c -> (length c <= 15)%nat -> text_len (padded c) = Done (Z.of_nat (length c)).
Proof.
  intros HF Hl. unfold padded. replace (16 - length c)%nat with (S (15 - length c)) by lia. cbn [replicate]. by apply text_len_text.
Qed.

Lemma put_padded c d : (length c <= 15)%nat -> (length d <= 15)%nat -> put_text (padded d) c = Done (padded (c ++ drop (length c) d)).
Proof.
  intros Hc Hd. unfold put_text, padded. rewrite length_app, length_replicate, decide_True by lia. f_equal.
  rewrite drop_app, drop_replicate, <- app_assoc. do 3 f_equal. rewrite length_app, length_drop. lia.
Qed.

Lemma filled c : (length c <= 15)%nat ->
  take (Z.to_nat (16 - 1)) (take (Z.to_nat (u8 (Z.of_nat (length c)))) (padded c) ++ replicate (Z.to_nat (16 - u8 (Z.of_nat (length c)))) 32) = column c.
Proof.
  intros Hl. rewrite u8_id by (unfold is_u8; lia). rewrite Nat2Z.id. unfold padded. rewrite take_app_length. change (Z.to_nat (16 - 1)) with 15%nat.
  rewrite take_app_ge by lia. unfold column. f_equal. rewrite take_replicate. f_equal. lia.
Qed.

Lemma pad_x w : pad_print 16 (PadX w) = Done (column (hex w)).
Proof.
  destruct (hex_text w) as [H1 H2]. unfold pad_print, sprintf_x. change (replicate (Z.to_nat 16) 0) with (padded []).
  rewrite put_padded by (cbn [length]; lia). rewrite drop_nil, app_nil_r. cbn [obind]. rewrite padded_len by (done || lia). cbn [obind].
  f_equal. apply filled. lia.
Qed.

Lemma pad_d v w : -32768 <= v < 32768 -> pad_print 16 (PadD v w) = Done (column (shown v w)).
Proof.
  intros Hv. destruct (hex_text w) as [H1 H2], (dec_text v Hv) as [D1 D2]. unfold pad_print, sprintf_d, sprintf_x.
  change (replicate (Z.to_nat 16) 0) with (padded []). rewrite put_padded by (cbn [length]; lia). rewrite drop_nil, app_nil_r. cbn [obind].
  rewrite padded_len by (done || lia). cbn [obind]. rewrite put_padded by lia. cbn [obind]. fold (shown v w).
  assert (length (shown v w) <= 15)%nat by (unfold shown; rewrite length_app, length_drop; lia).
  rewrite padded_len; [|by apply Forall_app; split; [|apply Forall_drop]|done]. cbn [obind]. f_equal. by apply filled.
Qed.

Lemma pad_s c : Forall is_char c -> (length c <= 15)%nat -> pad_print 16 (PadS c) = Done (column c).
Proof.
  intros HF Hl. unfold pad_print, sprintf_s, put_text. change (Z.to_nat 16) with 16%nat. rewrite length_app, length_replicate. cbn [length].
  rewrite decide_True by lia. cbn [obind]. rewrite drop_replicate.
  replace ((c ++ [0]) ++ replicate (16 - (length c + 1)) 0) with (padded c).
  - rewrite padded_len by done. cbn [obind]. f_equal. by apply filled.
  - unfold padded. rewrite <- app_assoc. f_equal. replace (16 - length c)%nat with (S (16 - (length c + 1))) by lia. done.
Qed.

(** ** The list *)
Record printable (x : task) : Prop := {
  pr_pid : -32768 <= pid x < 32768;
  pr_parent : -32768 <= parent_pid x < 32768;
  pr_name : Forall is_char (name x)
}.

Lemma thread_info_spec x : printable x -> elem2thread_info x =
  if decide (length (name x) <= 14)%nat then Done (row x) else
  if decide (length (name x) <= 16)%nat then Halt Out_of_bounds else Halt Assert_failed.
Proof.
  intros [H1 H2 H3]. unfold elem2thread_info, row. rewrite pad_d by done. cbn [obind].
  assert (pad_print 16 (if parent_pid x =? -1 then PadS (str "NULL") else PadD (parent_pid x) (parent_word x)) =
    Done (column (if parent_pid x =? -1 then str "NULL" else shown (parent_pid x) (parent_word x)))) as ->.
  { destruct (_ =? _); [|by apply pad_d]. by vm_compute. }
  cbn [obind]. rewrite pad_s; [|by destruct (status x); repeat constructor|by destruct (status x); cbn; lia]. cbn [obind].
  rewrite pad_x. cbn [obind]. destruct (Z.ltb_spec (Z.of_nat (length (name x))) 17); cbn [negb].
  2: { by rewrite !decide_False by lia. }
  unfold put_text. rewrite length_replicate, decide_True by lia. cbn [obind]. rewrite drop_replicate.
  destruct (decide (length (name x) = 16)%nat) as [E16|].
  - rewrite decide_False, decide_True by lia. rewrite E16. cbn [replicate Nat.sub]. rewrite app_nil_r. unfold text_len. by rewrite cstring_full.
  - fold (padded (name x)). rewrite padded_len by (done || lia). cbn [obind].
    case_decide; destruct (Z.ltb_spec 16 (Z.of_nat (length (name x)) + 2)); try lia; [done|]. by rewrite decide_True by lia.
Qed.

(** The rows of the threads, in the order of the list. *)
Definition rows (s : sst) : list (list Z) := thread_all_list s ≫= (fun t => from_option row [] (tasks s !! t)).

Lemma ps_rows_spec s l : (forall t x, tasks s !! t = Some x -> printable x /\ (length (name x) <= 14)%nat) ->
  (forall t, t ∈ l -> is_Some (tasks s !! t)) ->
  ps_rows s l = Done (l ≫= (fun t => from_option row [] (tasks s !! t))).
Proof.
  intros Hp. induction l as [|t l IH]; intros Hl; cbn [ps_rows]; [done|]. destruct (Hl t ltac:(set_solver)) as [x Ex]. rewrite Ex. cbn [oget obind].
  destruct (Hp t x Ex) as [H1 H2]. rewrite (thread_info_spec x H1), decide_True by done. cbn [obind].
  rewrite IH by (intros t' Ht'; apply Hl; set_solver). cbn [obind]. rewrite bind_cons, Ex. done.
Qed.

Lemma column_width c : (length c <= 15)%nat -> length (column c) = 15%nat.
Proof. intros Hc. unfold column. rewrite length_app, length_replicate. lia. Qed.

(** [ps] lists every thread.  In a sound state whose names have at most
    fourteen characters [sys_ps] returns; it writes the title and then, for each
    thread in the order of the list, columns of fifteen characters with its
    pid, its parent, its state and its ticks, and its name. *)
Theorem sys_ps_correct (s : sst) (Hwf : sched_wf s)
    (Hp : forall t x, tasks s !! t = Some x -> printable x /\ (length (name x) <= 14)%nat) :
  sys_ps s = Done (ps_title :: rows s).
Proof.
  destruct Hwf as [Hi _]. unfold sys_ps. rewrite ps_rows_spec; [reflexivity|exact Hp|]. intros t Ht. by apply (i_all s Hi).
Qed.

(** A pid up to 9 is shown as it is; 10 is shown as A0, 100 as 640: the case for
    decimal numbers goes on into the one for hexadecimal ones. *)
Lemma shown_digit p : 0 <= p <= 9 -> shown p p = dec p.
Proof.
  intros Hp. assert (forallZ 10 (fun p => bool_decide (shown p p = dec p)) = true) as H by (vm_compute; reflexivity).
  pose proof (forallZ_spec _ _ H p ltac:(lia)) as Hx. by apply bool_decide_eq_true in Hx.
Qed.

Theorem pid_shown_wrong : shown 10 10 = str "A0" /\ shown 100 100 = str "640".
Proof. split; vm_compute; reflexivity. Qed.

(** A name of fifteen characters fits in the PCB and not, with the newline, in
    the array. *)
Theorem long_name_overruns (x : task) (Hx : printable x) (Hn : length (name x) = 15%nat) : elem2thread_info x = Halt Out_of_bounds.
Proof. by rewrite (thread_info_spec x Hx), decide_False, decide_True by lia. Qed.
