(* ===== verification/Commands.v ===== *)
(** * Commands: the built-in commands of the shell ([shell/buildin_cmd.c])

    Each is a program over the system calls.  [argv] is the array of sixteen
    pointers, [None] for [NULL], a string being its bytes; [final_path] is a
    global buffer that every command fills before it uses it, so it appears as
    a value. *)

From stdpp Require Import base numbers list gmap strings.
From S2P Require Import Prelude.
From S2P Require Import Cstring.
From S2P Require Import Path.
From S2P Require Import Stdio.
From S2P Require Import Fsdata.
From S2P Require Import Fs.
From S2P Require Import Uprog.

Local Open Scope Z_scope.
Local Open Scope kernel_scope.

Definition args : Type := list (option (list Z)).

(** [argv[i]], and the string a pointer points to. *)
Definition arg_at (argv : args) (i : Z) : prog (option (list Z)) := of_outcome (oget (arr_get argv i) Out_of_bounds).
Definition deref (p : option (list Z)) : prog (list Z) := match p with Some s => Ret s | None => Stop Page_fault end.
(** [strcmp] asserts that its arguments are not [NULL]. *)
Definition strcmp (a : list Z) (b : option (list Z)) : prog Z := match b with Some b => Ret (str_cmp a b) | None => Stop Assert_failed end.

Definition make_clear_abs_path (path : list Z) : prog (list Z) :=
  plet cwd := (if negb (default 0 (head path) =? slash) then do_call (Getcwd MAX_PATH_LEN) else Ret None) in
  of_outcome (Path.make_clear_abs_path cwd path).

Definition buildin_pwd (argc : Z) (argv : args) : prog unit :=
  if negb (argc =? 1) then printf ("pwd: no argument support!" +:+ newline) [] else
  plet cwd := do_call (Getcwd MAX_PATH_LEN) in
  match cwd with
  | Some final_path => printf ("%s" +:+ newline) [FStr final_path]
  | None => printf ("pwd: get current work directory failed." +:+ newline) []
  end.

Definition buildin_cd (argc : Z) (argv : args) : prog (option (list Z)) :=
  if 2 <? argc then printf ("cd: only support 1 argument!" +:+ newline) [] ;;> Ret None else
  plet final_path :=
    (if argc =? 1 then Ret [slash]
     else plet a := arg_at argv 1 in plet path := deref a in make_clear_abs_path path) in
  plet r := do_call (Chdir final_path) in
  if r =? -1 then printf ("cd: no such directory %s" +:+ newline) [FStr final_path] ;;> Ret None
  else Ret (Some final_path).

(** The loop over the arguments; [None]: the command returns. *)
Fixpoint ls_args (n : nat) (argc : Z) (argv : args) (arg_idx : Z) (long_info : bool) (pathname : option (list Z))
    : prog (option (bool * option (list Z))) :=
  match n with
  | O => Stop Out_of_fuel
  | S n =>
      if negb (arg_idx <? argc) then Ret (Some (long_info, pathname)) else
      plet a := arg_at argv arg_idx in
      plet w := deref a in
      if default 0 (head w) =? 45 then
        if str_cmp (str "-l") w =? 0 then ls_args n argc argv (arg_idx + 1) true pathname
        else if str_cmp (str "-h") w =? 0 then
          printf ("usage: -l list all infomation about the file." +:+ newline +:+ "-h for help" +:+ newline +:+
                  "list all files in the current dirctory if no option" +:+ newline) [] ;;> Ret None
        else
          printf ("ls: invalid option %s" +:+ newline +:+ "Try `ls -h' for more information." +:+ newline) [FStr w] ;;> Ret None
      else
        match pathname with
        | None => ls_args n argc argv (arg_idx + 1) long_info (Some w)
        | Some _ => printf ("ls: only support one path" +:+ newline) [] ;;> Ret None
        end
  end.

(** The string in [dir_e->filename], an array of 16 bytes. *)
Definition entry_name (e : dir_entry) : outcome (list Z) := oget (cstring (filename e)) Out_of_bounds.

(** [sub_pathname]: the path with a slash at its end, in an array of 512 bytes. *)
Definition sub_prefix (pathname : list Z) : outcome (list Z) :=
  match last pathname with
  | None => Halt Out_of_bounds
  | Some c =>
      let pre := if c =? slash then pathname else pathname ++ [slash] in
      if Z.of_nat (length pre) <=? MAX_PATH_LEN then Done pre else Halt Out_of_bounds
  end.

Fixpoint ls_long (fuel : nat) (dir : Z) (pre : list Z) : prog bool :=
  match fuel with
  | O => Stop Out_of_fuel
  | S fuel =>
      plet e := do_call (Readdir dir) in
      match e with
      | None => Ret true
      | Some dir_e =>
          let ftype := if f_type dir_e =? FT_REGULAR then 45 else 100 in
          plet name := of_outcome (entry_name dir_e) in
          plet sub_pathname := of_outcome (strcat_path pre name) in
          plet (r, file_stat) := do_call (Stat sub_pathname) in
          if r =? -1 then
            printf ("ls: cannot access %s: No such file or directory" +:+ newline) [FStr name] ;;> Ret false
          else
            printf ("%c  %d  %d  %s" +:+ newline) [FInt ftype; FInt (de_i_no dir_e); FInt (st_size file_stat); FStr name] ;;>
            ls_long fuel dir pre
      end
  end.

Fixpoint ls_short (fuel : nat) (dir : Z) : prog unit :=
  match fuel with
  | O => Stop Out_of_fuel
  | S fuel =>
      plet e := do_call (Readdir dir) in
      match e with
      | None => printf newline []
      | Some dir_e =>
          plet name := of_outcome (entry_name dir_e) in
          printf "%s " [FStr name] ;;>
          ls_short fuel dir
      end
  end.

Definition buildin_ls (fuel : nat) (argc : Z) (argv : args) : prog unit :=
  plet r := ls_args 17 argc argv 1 false None in
  match r with
  | None => Ret tt
  | Some (long_info, path) =>
      plet pathname :=
        (match path with
         | None => do_call (Getcwd MAX_PATH_LEN)
         | Some p => plet final_path := make_clear_abs_path p in Ret (Some final_path)
         end) in
      match pathname with
      | None => printf ("ls: getcwd for default path failed" +:+ newline) []
      | Some pathname =>
          plet (r, file_stat) := do_call (Stat pathname) in
          if r =? -1 then printf ("ls: cannot access %s: No such file or directory" +:+ newline) [FStr pathname] else
          if st_filetype file_stat =? FT_DIRECTORY then
            plet dir := do_call (Opendir pathname) in
            plet pre := of_outcome (sub_prefix pathname) in
            do_call (Rewinddir dir) ;;>
            (if long_info : bool then
               printf ("total: %d" +:+ newline) [FInt (st_size file_stat)] ;;>
               plet finished := ls_long fuel dir pre in
               if finished : bool then do_call (Closedir dir) ;;> Ret tt else Ret tt
             else
               ls_short fuel dir ;;>
               do_call (Closedir dir) ;;> Ret tt)
          else if long_info : bool then
            printf ("-  %d  %d  %s" +:+ newline) [FInt (st_ino file_stat); FInt (st_size file_stat); FStr pathname]
          else printf ("%s" +:+ newline) [FStr pathname]
      end
  end.

Definition buildin_ps (argc : Z) (argv : args) : prog unit :=
  if negb (argc =? 1) then printf ("ps: no argument support!" +:+ newline) [] else do_call Ps ;;> Ret tt.

Definition buildin_clear (argc : Z) (argv : args) : prog unit :=
  if negb (argc =? 1) then printf ("clear: no argument support!" +:+ newline) [] else do_call Clear ;;> Ret tt.

(** The three commands that change a directory have one body. *)
Definition on_path (op : list Z -> prog Z) (usage failed : string) (argc : Z) (argv : args) : prog Z :=
  if negb (argc =? 2) then printf usage [] ;;> Ret (-1) else
  plet a := arg_at argv 1 in
  plet arg := deref a in
  plet final_path := make_clear_abs_path arg in
  if negb (str_cmp [slash] final_path =? 0) then
    plet r := op final_path in
    if r =? 0 then Ret 0 else printf failed [FStr arg] ;;> Ret (-1)
  else Ret (-1).

Definition buildin_mkdir : Z -> args -> prog Z :=
  on_path (fun p => do_call (Mkdir p)) ("mkdir: only support 1 argument!" +:+ newline) ("mkdir: create directory %s failed." +:+ newline).
Definition buildin_rmdir : Z -> args -> prog Z :=
  on_path (fun p => do_call (Rmdir p)) ("rmdir: only support 1 argument!" +:+ newline) ("rmdir: remove %s failed." +:+ newline).
Definition buildin_rm : Z -> args -> prog Z :=
  on_path (fun p => do_call (Unlink p)) ("rm: only support 1 argument!" +:+ newline) ("rm: delete %s failed." +:+ newline).

Definition buildin_help (argc : Z) (argv : args) : prog unit := do_call Help ;;> Ret tt.
