(* ===== verification/Shellrun.v ===== *)
(** * Shellrun: the execution of commands ([shell/shell.c] [cmd_execute],
      [my_shell])

    One pass of the shell's loop is a program over the system calls; the loop
    itself is the relation [my_shell].  The state that lives from one pass to
    the next is [cwd_cache]: the line, [argv] and [final_path] are cleared or
    filled before they are used. *)

From stdpp Require Import base numbers list gmap strings.
From S2P Require Import Prelude.
From S2P Require Import Cstring.
From S2P Require Import Path.
From S2P Require Import Stdio.
From S2P Require Import Shell.
From S2P Require Import Fsdata.
From S2P Require Import Fs.
From S2P Require Import Uprog.
From S2P Require Import Commands.

Local Open Scope Z_scope.
Local Open Scope kernel_scope.

Definition bar : Z := 124.

Definition print_prompt (cwd_cache : list Z) : prog unit := printf "[rabbit@localhost %s]$ " [FStr cwd_cache].

(** A command that is not built in.  The child that [fork] makes goes on as a
    shell of its own when [execv] fails. *)
Definition external (argv : args) : prog unit :=
  plet pid := do_call Fork in
  if negb (pid =? 0) then
    plet (child_pid, status) := do_call Wait in
    if child_pid =? -1 then Stop Panicked
    else printf ("child_pid %d, it's status: %d" +:+ newline) [FInt child_pid; FInt status]
  else
    plet a := arg_at argv 0 in
    plet cmd := deref a in
    plet final_path := make_clear_abs_path cmd in
    let argv := <[0%nat := Some final_path]> argv in
    plet (r, file_stat) := do_call (Stat final_path) in
    if r =? -1 then
      printf ("my_shell: cannot access %s: No such file or directory" +:+ newline) [FStr final_path] ;;>
      plet e := do_call (Exit (-1)) in
      match e : Empty_set with end
    else
      do_call (Execv final_path argv) ;;> Ret tt.

Section shell.
(** How many entries a directory has at most. *)
Context (fuel : nat).

(** The result is [cwd_cache] afterwards. *)
Definition cmd_execute (cwd_cache : list Z) (argc : Z) (argv : args) : prog (list Z) :=
  plet cmd := arg_at argv 0 in
  plet c := strcmp (str "ls") cmd in
  if c =? 0 then buildin_ls fuel argc argv ;;> Ret cwd_cache else
  plet c := strcmp (str "cd") cmd in
  if c =? 0 then (plet r := buildin_cd argc argv in Ret (default cwd_cache r)) else
  plet c := strcmp (str "pwd") cmd in
  if c =? 0 then buildin_pwd argc argv ;;> Ret cwd_cache else
  plet c := strcmp (str "ps") cmd in
  if c =? 0 then buildin_ps argc argv ;;> Ret cwd_cache else
  plet c := strcmp (str "clear") cmd in
  if c =? 0 then buildin_clear argc argv ;;> Ret cwd_cache else
  plet c := strcmp (str "mkdir") cmd in
  if c =? 0 then buildin_mkdir argc argv ;;> Ret cwd_cache else
  plet c := strcmp (str "rmdir") cmd in
  if c =? 0 then buildin_rmdir argc argv ;;> Ret cwd_cache else
  plet c := strcmp (str "rm") cmd in
  if c =? 0 then buildin_rm argc argv ;;> Ret cwd_cache else
  plet c := strcmp (str "help") cmd in
  if c =? 0 then buildin_help argc argv ;;> Ret cwd_cache else
  external argv ;;> Ret cwd_cache.

(** The words of a parsed line: [argv] holds indices into the buffer. *)
Definition word_at (buf : list Z) (p : option Z) : option (list Z) :=
  match p with Some i => cstring (drop (Z.to_nat i) buf) | None => None end.
Definition parse (cmd : list Z) : prog (Z * args) :=
  plet (argc, argv, buf) := of_outcome (cmd_parse cmd 32) in Ret (argc, word_at buf <$> argv).

Definition run_cmd (cwd_cache each_cmd : list Z) : prog (list Z) :=
  plet (argc, argv) := parse each_cmd in
  cmd_execute cwd_cache (u32 argc) argv.

(** [strchr(s, '|')], as an index. *)
Fixpoint find_bar (s : list Z) : outcome (option nat) :=
  match s with
  | [] => Halt Out_of_bounds
  | c :: s =>
      if c =? bar then Done (Some 0%nat) else
      if c =? 0 then Done None else
      olet r := find_bar s in Done (option_map S r)
  end.

(** The commands between the first and the last; the result is [cwd_cache] and
    the last command. *)
Fixpoint middle (n : nat) (cwd_cache each_cmd : list Z) : prog (list Z * list Z) :=
  match n with
  | O => Stop Out_of_fuel
  | S n =>
      plet pipe_symbol := of_outcome (find_bar each_cmd) in
      match pipe_symbol with
      | None => Ret (cwd_cache, each_cmd)
      | Some i =>
          plet cwd_cache := run_cmd cwd_cache (<[i := 0]> each_cmd) in
          middle n cwd_cache (drop (S i) each_cmd)
      end
  end.

(** [fd] is [{-1, 0}] before [pipe], whose result is not looked at. *)
Definition pipeline (cwd_cache cmd_line : list Z) (i : nat) : prog (list Z) :=
  plet r := do_call Pipe in
  let fd := default (-1, 0) r in
  do_call (Fd_redirect 1 (u32 fd.2)) ;;>
  plet cwd_cache := run_cmd cwd_cache (<[i := 0]> cmd_line) in
  do_call (Fd_redirect 0 (u32 fd.1)) ;;>
  plet (cwd_cache, each_cmd) := middle (length cmd_line) cwd_cache (drop (S i) cmd_line) in
  do_call (Fd_redirect 1 1) ;;>
  plet cwd_cache := run_cmd cwd_cache each_cmd in
  do_call (Fd_redirect 0 0) ;;>
  do_call (Close fd.1) ;;>
  do_call (Close fd.2) ;;>
  Ret cwd_cache.

(** The loop of [my_shell] from the call of [readline] on, and one pass of it. *)
Definition shell_line (cwd_cache keys : list Z) : prog (list Z) :=
  plet cmd_line := of_outcome (readline keys (replicate (Z.to_nat MAX_PATH_LEN) 0) 0 MAX_PATH_LEN) in
  if default 0 (head cmd_line) =? 0 then Ret cwd_cache else
  plet pipe_symbol := of_outcome (find_bar cmd_line) in
  match pipe_symbol with
  | Some i => pipeline cwd_cache cmd_line i
  | None =>
      plet (argc, argv) := parse cmd_line in
      if argc =? -1 then printf ("num of arguments exceed %d" +:+ newline) [FInt MAX_ARG_NR] ;;> Ret cwd_cache
      else cmd_execute cwd_cache (u32 argc) argv
  end.

Definition my_shell_pass (cwd_cache : list Z) : prog (list Z) :=
  print_prompt cwd_cache ;;>
  plet keys := do_call Readkeys in
  shell_line cwd_cache keys.

(** [my_shell] after any number of passes: what it has done, and its state. *)
Inductive my_shell : list event -> list Z -> Prop :=
  | my_shell_start : my_shell [] [slash]
  | my_shell_pass_done tr cwd tr' cwd' : my_shell tr cwd -> runs (my_shell_pass cwd) tr' (Done cwd') -> my_shell (tr ++ tr') cwd'.
End shell.
