(* ===== verification/Shellsafe.v ===== *)
(** * Shellsafe: what the shell asks of the kernel

    Facts about every call the shell makes, whatever the kernel answers.  The
    commands are gone through once, in the section [traversal], for any claim
    about calls; two instances of it give the theorems: the shell keeps its
    standard input and output, and the paths it hands out are canonical. *)

From stdpp Require Import base numbers list gmap strings.
From S2P Require Import Prelude.
From S2P Require Import Cstring.
From S2P Require Import Path.
From S2P Require Import Stdio.
From S2P Require Import Shell.
From S2P Require Import Fsdata.
From S2P Require Import Fs.
From S2P Require Import Uprog.
From S2P Require Import Commands.
From S2P Require Import Shellrun.

Local Open Scope Z_scope.
Local Open Scope kernel_scope.

(** Calls that neither take a path to act on nor touch descriptors. *)
Definition plain_call (c : call) : bool :=
  match c with
  | Stat _ | Chdir _ | Opendir _ | Mkdir _ | Rmdir _ | Unlink _ | Execv _ _ | Pipe | Fd_redirect _ _ | Close _ => false
  | _ => true
  end.

Ltac gcall := apply guard_bind, guard_call; [auto|intros ? ?].

Section traversal.
Context (env : forall c, answer c -> Prop) (good : call -> Prop).
(** [P] holds of the paths handed to the kernel and [W] of the words typed. *)
Context (P W : list Z -> Prop).
Context (Hplain : forall c, plain_call c = true -> good c).
Context (Huse : forall p, P p -> good (Stat p) /\ good (Chdir p) /\ good (Opendir p) /\ forall argv, good (Execv p argv)).
Context (Hsub : forall d pre e n p, P d -> sub_prefix d = Done pre -> entry_name e = Done n -> strcat_path pre n = Done p -> good (Stat p)).
Context (Hchange : forall p, P p -> str_cmp [slash] p <> 0 -> good (Mkdir p) /\ good (Rmdir p) /\ good (Unlink p)).
Context (Hroot : P [slash]).
Context (Hcwd : forall n r d, env (Getcwd n) r -> r = Some d -> P d).
Context (Hwash : forall cwd p q, (forall d, cwd = Some d -> P d) -> W p -> Path.make_clear_abs_path cwd p = Done q -> P q).

Definition argv_ok (argv : args) : Prop := Forall (fun o => forall s, o = Some s -> W s) argv.

Local Abbreviation guard := (guard env good).

Lemma guard_printf f l h (Q : unit -> list event -> Prop) : (forall h', Q tt h') -> guard (printf f l) h Q.
Proof.
  intros H. unfold printf. destruct (Stdio.render _ _) as [buf|]; [|done]. destruct (_ <=? _); [done|].
  gcall. apply H.
Qed.

Lemma guard_printf_then {A} f l (p : prog A) h Q : (forall h', guard p h' Q) -> guard (printf f l ;;> p) h Q.
Proof. intros H. by apply guard_bind, guard_printf. Qed.

Lemma guard_arg argv i h (Q : option (list Z) -> list event -> Prop) :
  argv_ok argv -> (forall o, (forall s, o = Some s -> W s) -> Q o h) -> guard (arg_at argv i) h Q.
Proof.
  intros Ha H. apply guard_outcome. intros o. destruct (arr_get _ i) as [o'|] eqn:E; [|done]. intros [= <-].
  apply H. exact (arr_get_Forall _ _ _ _ Ha E).
Qed.

Lemma guard_word argv i {A} (p : list Z -> prog A) h Q :
  argv_ok argv -> (forall s, W s -> guard (p s) h Q) -> guard (plet a := arg_at argv i in plet w := deref a in p w) h Q.
Proof.
  intros Ha H. apply guard_bind, guard_arg; [done|]. intros [s|] Hs; [|done]. apply guard_bind. cbn. by apply H, Hs.
Qed.

Lemma guard_clear path h (Q : list Z -> list event -> Prop) :
  W path -> (forall q h', P q -> Q q h') -> guard (make_clear_abs_path path) h Q.
Proof.
  intros Hw H. unfold make_clear_abs_path. apply guard_bind. destruct (negb _).
  - apply guard_call; [auto|]. intros r Hr. apply guard_outcome. intros q E. apply H. eapply Hwash; eauto.
  - cbn. apply guard_outcome. intros q E. apply H. by eapply Hwash; [|exact Hw|exact E].
Qed.

Lemma guard_pwd argc argv h : guard (buildin_pwd argc argv) h (fun _ _ => True).
Proof.
  unfold buildin_pwd. destruct (negb _); [by apply guard_printf|]. gcall. destruct r; by apply guard_printf.
Qed.

Lemma guard_cd argc argv h : argv_ok argv -> guard (buildin_cd argc argv) h (fun r _ => forall p, r = Some p -> P p).
Proof.
  intros Ha. unfold buildin_cd. destruct (2 <? argc); [by apply guard_printf_then|]. apply guard_bind.
  assert (forall p h', P p -> guard (plet r := do_call (Chdir p) in
    if r =? -1 then printf ("cd: no such directory %s" +:+ newline) [FStr p] ;;> Ret None else Ret (Some p)) h'
    (fun r _ => forall q, r = Some q -> P q)) as Hp.
  { intros p h' Hp. apply guard_bind, guard_call; [by apply Huse|]. intros r _.
    destruct (r =? -1); [by apply guard_printf_then|]. by intros q [= <-]. }
  destruct (argc =? 1); [by apply Hp|]. apply guard_word; [done|]. intros s Hs. apply guard_clear; [done|]. auto.
Qed.

Lemma guard_ls_args argv n : forall argc i long path h, argv_ok argv -> (forall s, path = Some s -> W s) ->
  guard (ls_args n argc argv i long path) h (fun r _ => forall l s, r = Some (l, Some s) -> W s).
Proof.
  induction n as [|n IH]; intros argc i long path h Ha Hp; cbn [ls_args]; [done|].
  destruct (negb _); [by intros l s [= _ ->]; apply Hp|]. apply guard_word; [done|]. intros w Hw.
  destruct (_ =? 45).
  - destruct (_ =? 0); [by apply IH|]. destruct (_ =? 0); by apply guard_printf_then.
  - destruct path; [by apply guard_printf_then|]. apply IH; [done|]. by intros s [= <-].
Qed.

Lemma guard_ls_long fuel dir d pre : P d -> sub_prefix d = Done pre -> forall h, guard (ls_long fuel dir pre) h (fun _ _ => True).
Proof.
  intros Hd Hpre. induction fuel as [|fuel IH]; intros h; cbn [ls_long]; [done|]. gcall. destruct r as [e|]; [|done].
  apply guard_bind, guard_outcome. intros name En. apply guard_bind, guard_outcome. intros sub Es.
  apply guard_bind, guard_call; [by eapply Hsub|]. intros [r st] _. destruct (r =? -1); by apply guard_printf_then.
Qed.

Lemma guard_ls_short fuel dir : forall h, guard (ls_short fuel dir) h (fun _ _ => True).
Proof.
  induction fuel as [|fuel IH]; intros h; cbn [ls_short]; [done|]. gcall. destruct r as [e|]; [|by apply guard_printf].
  apply guard_bind, guard_outcome. intros name _. by apply guard_printf_then.
Qed.

Lemma guard_ls fuel argc argv h : argv_ok argv -> guard (buildin_ls fuel argc argv) h (fun _ _ => True).
Proof.
  intros Ha. unfold buildin_ls. apply guard_bind. eapply guard_mono; [by apply (guard_ls_args argv 17)|].
  intros [[long path]|] h1 Hp; [|done]. apply guard_bind.
  assert (forall p h', P p -> guard (plet (r, st) := do_call (Stat p) in
    if r =? -1 then printf ("ls: cannot access %s: No such file or directory" +:+ newline) [FStr p] else
    if st_filetype st =? FT_DIRECTORY then
      plet dir := do_call (Opendir p) in
      plet pre := of_outcome (sub_prefix p) in
      do_call (Rewinddir dir) ;;>
      (if long : bool then
         printf ("total: %d" +:+ newline) [FInt (st_size st)] ;;>
         plet finished := ls_long fuel dir pre in
         if finished : bool then do_call (Closedir dir) ;;> Ret tt else Ret tt
       else ls_short fuel dir ;;> do_call (Closedir dir) ;;> Ret tt)
    else if long : bool then printf ("-  %d  %d  %s" +:+ newline) [FInt (st_ino st); FInt (st_size st); FStr p]
    else printf ("%s" +:+ newline) [FStr p]) h' (fun _ _ => True)) as Hdo.
  { intros p h' HP. apply guard_bind, guard_call; [by apply Huse|]. intros [r st] _.
    destruct (r =? -1); [by apply guard_printf|]. destruct (_ =? FT_DIRECTORY); [|destruct long; by apply guard_printf].
    apply guard_bind, guard_call; [by apply Huse|]. intros dir _. apply guard_bind, guard_outcome. intros pre Epre.
    gcall. destruct long.
    - apply guard_printf_then. intros h2. apply guard_bind. eapply guard_mono; [by apply (guard_ls_long fuel dir p)|].
      intros [] h3 _; [|done]. by gcall.
    - apply guard_bind. eapply guard_mono; [apply guard_ls_short|]. intros _ h3 _. by gcall. }
  destruct path as [p|].
  - apply guard_bind, guard_clear; [by eapply Hp|]. intros q h2 Hq. by apply Hdo.
  - apply guard_call; [auto|]. intros [d|] Hr; [|by apply guard_printf]. apply Hdo. by eapply Hcwd.
Qed.

Lemma guard_on_path op usage failed argc argv h : argv_ok argv ->
  (forall p h', P p -> str_cmp [slash] p <> 0 -> guard (op p) h' (fun _ _ => True)) ->
  guard (on_path op usage failed argc argv) h (fun _ _ => True).
Proof.
  intros Ha Hop. unfold on_path. destruct (negb _); [by apply guard_printf_then|].
  apply guard_word; [done|]. intros s Hs. apply guard_bind, guard_clear; [done|]. intros q h' Hq.
  destruct (Z.eqb_spec (str_cmp [slash] q) 0); [done|]. apply guard_bind. eapply guard_mono; [by apply Hop|].
  intros r h2 _. cbn. destruct (r =? 0); [done|]. by apply guard_printf_then.
Qed.

Lemma guard_external argv h : argv_ok argv -> guard (external argv) h (fun _ _ => True).
Proof.
  intros Ha. unfold external. gcall. destruct (negb _).
  - apply guard_bind, guard_call; [auto|]. intros [c st] _. destruct (c =? -1); [done|by apply guard_printf].
  - apply guard_word; [done|]. intros s Hs. apply guard_bind, guard_clear; [done|]. intros q h' Hq.
    apply guard_bind, guard_call; [by apply Huse|]. intros [z st] _. destruct (z =? -1).
    + apply guard_printf_then. intros h2. apply guard_bind, guard_call; [auto|]. by intros [].
    + by apply guard_bind, guard_call; [apply Huse|].
Qed.

Lemma guard_then {A B} (p : prog A) (q : prog B) h Q :
  guard p h (fun _ _ => True) -> (forall h', guard q h' Q) -> guard (p ;;> q) h Q.
Proof. intros H1 H2. apply guard_bind. eapply guard_mono; [exact H1|]. auto. Qed.

Lemma guard_cmd_execute fuel cwd argc argv h (Q : list Z -> list event -> Prop) :
  argv_ok argv -> P cwd -> (forall cwd' h', P cwd' -> Q cwd' h') -> guard (cmd_execute fuel cwd argc argv) h Q.
Proof.
  intros Ha Hc HQ. unfold cmd_execute. apply guard_bind, guard_arg; [done|]. intros [cmd|] _; [|done]. cbn [strcmp pbind].
  repeat match goal with |- guard (if ?b then _ else _) _ _ => destruct b end.
  all: try (apply guard_then; [|intros h2; by apply HQ]).
  - by apply guard_ls.
  - apply guard_bind. eapply guard_mono; [by apply guard_cd|]. intros [p|] h' Hp; apply HQ; [by apply Hp|done].
  - apply guard_pwd.
  - unfold buildin_ps. destruct (negb _); [by apply guard_printf|by gcall].
  - unfold buildin_clear. destruct (negb _); [by apply guard_printf|by gcall].
  - apply guard_on_path; [done|]. intros p h' Hp Hs. apply guard_call; [by apply Hchange|done].
  - apply guard_on_path; [done|]. intros p h' Hp Hs. apply guard_call; [by apply Hchange|done].
  - apply guard_on_path; [done|]. intros p h' Hp Hs. apply guard_call; [by apply Hchange|done].
  - unfold buildin_help. by gcall.
  - by apply guard_external.
Qed.
(** [B] holds of the buffers that are parsed. *)
Context (B : list Z -> Prop).
Context (Hparse : forall cmd argc argv buf, B cmd -> cmd_parse cmd 32 = Done (argc, argv, buf) -> argv_ok (word_at buf <$> argv)).

Lemma guard_parse cmd h (Q : Z * args -> list event -> Prop) :
  B cmd -> (forall argc argv, argv_ok argv -> Q (argc, argv) h) -> guard (parse cmd) h Q.
Proof.
  intros Hb HQ. unfold parse. apply guard_bind, guard_outcome. intros [[argc argv] buf] E. cbn. eauto.
Qed.

Lemma guard_run_cmd fuel cwd cmd h (Q : list Z -> list event -> Prop) :
  B cmd -> P cwd -> (forall cwd' h', P cwd' -> Q cwd' h') -> guard (run_cmd fuel cwd cmd) h Q.
Proof.
  intros Hb Hc HQ. unfold run_cmd. apply guard_bind, guard_parse; [done|]. intros argc argv Ha. by apply guard_cmd_execute.
Qed.

(** With the calls of the pipeline itself. *)
Context (Hpipe : good Pipe /\ (forall a b, good (Fd_redirect a b)) /\ forall fd, good (Close fd)).
Context (Hcut : forall b i, B b -> B (<[i := 0]> b) /\ B (drop i b)).

Lemma guard_middle fuel n : forall cwd cmd h (Q : list Z * list Z -> list event -> Prop),
  B cmd -> P cwd -> (forall cwd' cmd' h', P cwd' -> B cmd' -> Q (cwd', cmd') h') -> guard (middle fuel n cwd cmd) h Q.
Proof.
  induction n as [|n IH]; intros cwd cmd h Q Hb Hc HQ; cbn [middle]; [done|].
  apply guard_bind, guard_outcome. intros [i|] _; [|by apply HQ]. destruct (Hcut cmd i Hb) as [H1 _].
  apply guard_bind, guard_run_cmd; [done|done|]. intros cwd' h' Hc'. apply IH; [|done|done]. by apply Hcut.
Qed.

Lemma guard_pipeline fuel cwd cmd i h (Q : list Z -> list event -> Prop) :
  B cmd -> P cwd -> (forall cwd' h', P cwd' -> Q cwd' h') -> guard (pipeline fuel cwd cmd i) h Q.
Proof.
  destruct Hpipe as (Hp & Hr & Hcl). intros Hb Hc HQ. unfold pipeline. gcall. gcall.
  apply guard_bind, guard_run_cmd; [by apply Hcut|done|]. intros cwd1 h1 Hc1. gcall.
  apply guard_bind, guard_middle; [by apply Hcut|done|]. intros cwd2 cmd2 h2 Hc2 Hb2. gcall.
  apply guard_bind, guard_run_cmd; [done|done|]. intros cwd3 h3 Hc3. gcall. gcall. gcall. by apply HQ.
Qed.

Context (Hkeys : forall keys line, env Readkeys keys -> readline keys (replicate (Z.to_nat MAX_PATH_LEN) 0) 0 MAX_PATH_LEN = Done line -> B line).

Lemma guard_pass fuel cwd h (Q : list Z -> list event -> Prop) :
  P cwd -> (forall cwd' h', P cwd' -> Q cwd' h') -> guard (my_shell_pass fuel cwd) h Q.
Proof.
  intros Hc HQ. unfold my_shell_pass, print_prompt. apply guard_printf_then. intros h1. gcall. unfold shell_line.
  apply guard_bind, guard_outcome. intros line El. assert (B line) as Hb by eauto.
  destruct (_ =? 0); [by apply HQ|]. apply guard_bind, guard_outcome. intros [i|] _; [by apply guard_pipeline|].
  apply guard_bind, guard_parse; [done|]. intros argc argv Ha. cbn.
  destruct (argc =? -1); [apply guard_printf_then; intros; by apply HQ|]. by apply guard_cmd_execute.
Qed.
End traversal.

(** ** Words are made of the characters of the line *)
Lemma cstring_chars b s : Forall is_u8 b -> cstring b = Some s -> Forall is_char s.
Proof.
  intros Hb. revert s. induction Hb as [|c b Hc Hb IH]; intros s E; cbn [cstring] in E; [done|].
  destruct (Z.eqb_spec c 0); [by injection E as <-|]. destruct (cstring b) as [s'|]; [|done]. injection E as <-.
  constructor; [|by apply IH]. unfold is_u8, is_char in *. lia.
Qed.

Lemma arr_set_bytes b i c b' : Forall is_u8 b -> is_u8 c -> oget (arr_set b i c) Out_of_bounds = Done b' -> Forall is_u8 b'.
Proof. intros Hb Hc. unfold arr_set. case_decide; [|done]. intros [= <-]. by apply Forall_insert. Qed.

Lemma zero_u8 : is_u8 0.
Proof. unfold is_u8. lia. Qed.
#[local] Hint Resolve zero_u8 : core.

Lemma parse_loop_bytes fuel : forall buf next argc argv tok r, Forall is_u8 buf ->
  parse_loop fuel buf next argc argv tok = Done r -> Forall is_u8 r.2.
Proof.
  induction fuel as [|fuel IH]; intros buf next argc argv tok r Hb E; [done|]. cbn [parse_loop] in E.
  destruct (at_ buf next) as [c|]; [|done]. cbn [obind] in E. destruct (c =? 0); [by injection E as <-|].
  destruct (skip_token _ _ _ _) as [n1|]; [|done]. cbn [obind] in E.
  destruct (at_ buf n1) as [c1|]; [|done]. cbn [obind] in E. destruct (c1 =? 0); [by injection E as <-|].
  destruct (oget _ _) as [av|]; [|done]. cbn [obind] in E. destruct (skip_word _ _ _ _) as [n2|]; [|done]. cbn [obind] in E.
  destruct (at_ buf n2) as [c2|]; [|done]. cbn [obind] in E. destruct (negb (c2 =? 0)).
  - destruct (oget (arr_set buf n2 0) _) as [b2|] eqn:E2; [|done]. cbn [obind] in E. apply arr_set_bytes in E2; [|done..].
    destruct (_ <? _); [by injection E as <-|]. by eapply IH.
  - cbn [obind] in E. destruct (_ <? _); [by injection E as <-|]. by eapply IH.
Qed.

Lemma parse_words cmd argc argv buf : Forall is_u8 cmd -> cmd_parse cmd 32 = Done (argc, argv, buf) ->
  argv_ok (Forall is_char) (word_at buf <$> argv).
Proof.
  intros Hb E. apply parse_loop_bytes in E; [|done]. cbn [snd] in E. apply Forall_fmap, Forall_true.
  intros [i|] s Es; [|done]. eapply cstring_chars; [|exact Es]. by apply Forall_drop.
Qed.

Lemma wipe_bytes n : forall buf pos b, Forall is_u8 buf -> wipe n buf pos = Done b -> Forall is_u8 b.
Proof.
  induction n as [|n IH]; intros buf pos b Hb E; cbn [wipe] in E; [by injection E as <-|].
  destruct (pos =? 0); [by injection E as <-|]. destruct (oget _ _) as [b1|] eqn:E1; [|done]. cbn [obind] in E.
  apply arr_set_bytes in E1; [|done..]. by eapply IH.
Qed.

Lemma read_char_bytes buf pos count c r : Forall is_u8 buf -> is_u8 c -> read_char buf pos count c = Done r ->
  match r with inl (b, _) => Forall is_u8 b | inr b => Forall is_u8 b end.
Proof.
  intros Hb Hc E. unfold read_char in E. destruct (oget (arr_set buf pos c) _) as [b1|] eqn:E1; [|done]. cbn [obind] in E.
  apply arr_set_bytes in E1; [|done..].
  destruct (negb _); [by injection E as <-|]. destruct (key_enter c).
  { destruct (oget _ _) as [b2|] eqn:E2; [|done]. apply arr_set_bytes in E2; [|done..]. by injection E as <-. }
  destruct (c =? key_backspace); [destruct (oget _ _); [|done]; by injection E as <-|]. destruct (c =? key_clear).
  { destruct (oget _ _) as [b2|] eqn:E2; [|done]. apply arr_set_bytes in E2; [|done..]. by injection E as <-. }
  destruct (c =? key_kill); [|by injection E as <-]. destruct (wipe _ _ _) as [b2|] eqn:E2; [|done].
  apply wipe_bytes in E2; [|done]. by injection E as <-.
Qed.

Lemma readline_bytes keys : forall buf pos count line, Forall is_u8 keys -> Forall is_u8 buf ->
  readline keys buf pos count = Done line -> Forall is_u8 line.
Proof.
  induction keys as [|c keys IH]; intros buf pos count line Hk Hb E; [done|]. apply Forall_cons in Hk as [Hc Hk].
  cbn [readline] in E. destruct (read_char _ _ _ _) as [r|] eqn:Er; [|done]. cbn [obind] in E.
  apply read_char_bytes in Er; [|done..]. destruct r as [[b p]|b]; [by eapply IH|by injection E as <-].
Qed.

(** ** Paths *)
Definition well_served (c : call) : answer c -> Prop :=
  match c with
  | Getcwd _ => fun r => forall d, r = Some d -> canonical_path d
  | Readkeys => fun keys => Forall is_u8 keys
  | _ => fun _ => True
  end.

(** What [ls -l] asks about: a directory, a slash and the name of an entry, as
    the directory holds it ([.] and [..] are such names too). *)
Definition entry_path (p : list Z) : Prop :=
  exists d n, canonical_path d /\ p = (if decide (d = [slash]) then d else d ++ [slash]) ++ n /\
    Forall (fun c => c <> 0) n /\ Z.of_nat (length p) < MAX_PATH_LEN.

Definition path_call_ok (c : call) : Prop :=
  match c with
  | Stat p => canonical_path p \/ entry_path p
  | Chdir p | Opendir p | Execv p _ => canonical_path p
  | Mkdir p | Rmdir p | Unlink p => canonical_path p /\ p <> [slash]
  | _ => True
  end.

(** [sub_pathname] ends in one slash. *)
Lemma sub_prefix_canonical d pre : canonical_path d -> sub_prefix d = Done pre ->
  pre = if decide (d = [slash]) then d else d ++ [slash].
Proof.
  intros (st & -> & Hn & _ & _) E. unfold sub_prefix in E. destruct (last (Path.render st)) as [c|] eqn:El; [|done].
  assert (pre = if c =? slash then Path.render st else Path.render st ++ [slash]) as ->
    by (destruct (_ <=? _); [by injection E as <-|done]).
  induction st as [|n st _] using rev_ind; [by injection El as <-|]. apply Forall_app in Hn as [_ [Hn _]%Forall_cons].
  destruct Hn as (Hne & Hch & _). induction n as [|x n _] using rev_ind; [done|]. apply Forall_app in Hch as [_ [[_ Hx] _]%Forall_cons].
  assert (exists l, Path.render (st ++ [n ++ [x]]) = l ++ [x]) as [l El'].
  { replace (Path.render (st ++ [n ++ [x]])) with ((st ++ [n ++ [x]]) ≫= (fun c => slash :: c)) by (by destruct st).
    rewrite bind_app, bind_cons. change ((@nil (list Z)) ≫= _) with (@nil Z). rewrite app_nil_r, app_comm_cons, app_assoc. by eexists. }
  rewrite El' in El |- *. rewrite last_snoc in El. injection El as <-. rewrite (proj2 (Z.eqb_neq x slash)) by done.
  rewrite decide_False; [done|]. intros Ed. apply (app_inj_tail l [] x slash) in Ed as [_ Ed]. done.
Qed.

Lemma entry_name_chars e n : entry_name e = Done n -> Forall (fun c => c <> 0) n.
Proof.
  unfold entry_name. destruct (cstring (filename e)) as [s|] eqn:E; [|done]. intros [= <-].
  revert s E. induction (filename e) as [|c b IH]; intros s E; cbn [cstring] in E; [done|].
  destruct (Z.eqb_spec c 0); [by injection E as <-|]. destruct (cstring b) as [s'|]; [|done]. injection E as <-. constructor; auto.
Qed.

Lemma listed_path d pre e n p : canonical_path d -> sub_prefix d = Done pre -> entry_name e = Done n -> strcat_path pre n = Done p -> entry_path p.
Proof.
  intros Hd Hpre He E. unfold strcat_path in E. destruct (Z.ltb_spec (Z.of_nat (length pre + length n)) MAX_PATH_LEN); [|done].
  injection E as <-. exists d, n. split; [done|]. split; [by rewrite (sub_prefix_canonical d pre)|].
  split; [by eapply entry_name_chars|]. rewrite length_app. lia.
Qed.

Lemma pass_paths fuel cwd h : canonical_path cwd ->
  guard well_served path_call_ok (my_shell_pass fuel cwd) h (fun cwd' _ => canonical_path cwd').
Proof.
  intros Hc. apply (guard_pass well_served path_call_ok canonical_path (Forall is_char)) with (B := Forall is_u8); try done.
  - by intros [].
  - intros p Hp. split; [by left|done].
  - intros d pre e n p Hd Hpre He Ep. right. by eapply listed_path.
  - intros p Hp Hne. assert (p <> [slash]) by (by intros ->). done.
  - apply canonical_root.
  - intros n r d Hr. apply Hr.
  - apply make_clear_abs_path_canonical.
  - apply parse_words.
  - intros b i Hb. split; [by apply Forall_insert|by apply Forall_drop].
  - intros keys line Hk. apply readline_bytes; [done|]. by apply Forall_replicate.
Qed.

(** C34: every path the shell hands to the kernel to change to, to list, to run,
    to make or to remove is canonical: absolute, without [.] and [..], with
    names that fit in a directory entry, and within the buffer; the root is
    never made or removed; and a path it asks about is canonical or, for
    [ls -l], such a path with the name of an entry after it, [.] and [..]
    included, within the buffer.  This holds for every line that can be typed, after
    any number of commands, for calls that return and for the last call made,
    provided the kernel answers [getcwd] with such paths.  The prompt shows such
    a path too. *)
Theorem shell_paths (fuel : nat) (tr : list event) (cwd : list Z)
  (Hrun : my_shell fuel tr cwd) (Henv : served well_served tr) :
  Forall (fun e => path_call_ok (projT1 e)) tr /\ canonical_path cwd /\
  forall tr' c, reaches (my_shell_pass fuel cwd) tr' c -> served well_served tr' -> path_call_ok c.
Proof.
  assert (Forall (fun e => path_call_ok (projT1 e)) tr /\ canonical_path cwd) as [H1 H2].
  { induction Hrun as [|tr cwd tr' cwd' Hrun IH Hpass]; [by split; [|apply canonical_root]|].
    apply Forall_app in Henv as [E1 E2]. destruct (IH E1) as [I1 I2].
    destruct (guard_runs _ _ _ _ _ Hpass [] _ (pass_paths fuel cwd [] I2) E2) as [G1 G2].
    split; [by apply Forall_app|by apply G2]. }
  split; [done|]. split; [done|]. intros tr' c R E. exact (guard_reaches _ _ _ _ _ R [] _ (pass_paths fuel cwd [] H2) E).
Qed.

(** ** Standard input and output *)

(** What descriptor [fd] was made to mean last. *)
Definition redirect (fd : Z) (cur : Z) (e : event) : Z :=
  match projT1 e with Fd_redirect old new => if old =? fd then new else cur | _ => cur end.
Definition redirected (fd : Z) (tr : list event) : Z := foldl (redirect fd) fd tr.

Fixpoint remove_one (fd : Z) (l : list Z) : list Z :=
  match l with [] => [] | x :: l => if x =? fd then l else x :: remove_one fd l end.

(** The descriptors of pipes that were not closed. *)
Definition pipe_step (l : list Z) (e : event) : list Z :=
  match e with
  | existT Pipe (Some (a, b)) => a :: b :: l
  | existT (Close fd) _ => remove_one fd l
  | _ => l
  end.
Definition open_pipes (tr : list event) : list Z := foldl pipe_step [] tr.

Definition quiet (c : call) : Prop := match c with Pipe | Fd_redirect _ _ | Close _ => False | _ => True end.

Lemma run_cmd_quiet fuel cwd cmd tr o : runs (run_cmd fuel cwd cmd) tr o -> Forall (fun e => quiet (projT1 e)) tr.
Proof.
  intros R. apply (guard_runs (fun _ _ => True) quiet _ _ _ R [] (fun _ _ => True)); [|by apply Forall_true].
  apply (guard_run_cmd (fun _ _ => True) quiet (fun _ => True) (fun _ => True)) with (B := fun _ => True); try done.
  - by intros [].
  - intros. by apply Forall_true.
Qed.

Lemma quiet_redirect fd tr : Forall (fun e => quiet (projT1 e)) tr -> forall x, foldl (redirect fd) x tr = x.
Proof. induction 1 as [|[c r] tr Hc HF IH]; intros x; [done|]. cbn [foldl]. rewrite IH. by destruct c. Qed.

Lemma quiet_pipes tr : Forall (fun e => quiet (projT1 e)) tr -> forall l, foldl pipe_step l tr = l.
Proof. induction 1 as [|[c r] tr Hc HF IH]; intros l; [done|]. cbn [foldl]. rewrite IH. by destruct c. Qed.

Definition balanced (tr : list event) : Prop :=
  foldl (redirect 0) 0 tr = 0 /\ foldl (redirect 1) 1 tr = 1 /\ foldl pipe_step [] tr = [].

Lemma quiet_balanced tr : Forall (fun e => quiet (projT1 e)) tr -> balanced tr.
Proof. intros H. unfold balanced. by rewrite !quiet_redirect, quiet_pipes. Qed.

Lemma balanced_app tr tr' : balanced tr -> balanced tr' -> balanced (tr ++ tr').
Proof. intros (H1 & H2 & H3) (H4 & H5 & H6). unfold balanced. by rewrite !foldl_app, H1, H2, H3. Qed.

Lemma middle_quiet fuel n cwd cmd tr o : runs (middle fuel n cwd cmd) tr o -> Forall (fun e => quiet (projT1 e)) tr.
Proof.
  intros R. apply (guard_runs (fun _ _ => True) quiet _ _ _ R [] (fun _ _ => True)); [|by apply Forall_true].
  apply (guard_middle (fun _ _ => True) quiet (fun _ => True) (fun _ => True)) with (B := fun _ => True); try done.
  - by intros [].
  - intros. by apply Forall_true.
Qed.

(** A pipeline takes its redirections back and closes its pipe. *)
Lemma pipeline_balanced fuel cwd cmd i tr cwd' : runs (pipeline fuel cwd cmd i) tr (Done cwd') -> balanced tr.
Proof.
  unfold pipeline. intros (r & t1 & -> & R)%runs_do. apply runs_do in R as ([] & t2 & -> & R).
  apply runs_seq in R as (q1 & cwd1 & t3 & -> & Q1 & R). apply run_cmd_quiet in Q1. apply runs_do in R as ([] & t4 & -> & R).
  apply runs_seq in R as (q2 & [cwd2 cmd2] & t5 & -> & Q2 & R). apply middle_quiet in Q2. apply runs_do in R as ([] & t6 & -> & R).
  apply runs_seq in R as (q3 & cwd3 & t7 & -> & Q3 & R). apply run_cmd_quiet in Q3.
  apply runs_do in R as ([] & t8 & -> & R). apply runs_do in R as (z1 & t9 & -> & R). apply runs_do in R as (z2 & t10 & -> & R).
  apply runs_ret_inv in R as [-> _].
  unfold balanced. repeat (progress cbn [foldl] || rewrite foldl_app).
  rewrite !(quiet_redirect _ q1 Q1), !(quiet_redirect _ q2 Q2), !(quiet_redirect _ q3 Q3), (quiet_pipes q1 Q1), (quiet_pipes q2 Q2), (quiet_pipes q3 Q3).
  split; [done|]. split; [done|]. destruct r as [[a b]|]; cbn; [|done]. rewrite Z.eqb_refl. cbn. by rewrite Z.eqb_refl.
Qed.

Lemma pass_balanced fuel cwd tr cwd' : runs (my_shell_pass fuel cwd) tr (Done cwd') -> balanced tr.
Proof.
  intros R.
  assert (forall (p : prog (list Z)) t, guard (fun _ _ => True) quiet p [] (fun _ _ => True) -> runs p t (Done cwd') -> balanced t) as HG.
  { intros p t G Rp. apply quiet_balanced. eapply guard_runs; [exact Rp|exact G|by apply Forall_true]. }
  unfold my_shell_pass in R. apply runs_seq in R as (t1 & [] & t2 & -> & (buf & z & _ & ->)%runs_printf & R).
  apply balanced_app; [by apply quiet_balanced; repeat constructor|].
  apply runs_do in R as (keys & t3 & -> & R). apply (balanced_app [_]); [by apply quiet_balanced; repeat constructor|].
  unfold shell_line in R. apply runs_seq in R as (t4 & line & t5 & -> & [-> _]%runs_outcome & R). cbn [app].
  destruct (_ =? 0); [apply runs_ret_inv in R as [-> _]; by apply quiet_balanced|].
  apply runs_seq in R as (t6 & [i|] & t7 & -> & [-> _]%runs_outcome & R); cbn [app]; [by eapply pipeline_balanced|].
  eapply HG; [|exact R]. apply guard_bind.
  apply (guard_parse (fun _ _ => True) quiet (fun _ => True)) with (B := fun _ => True); [intros; by apply Forall_true|done|].
  intros argc argv Ha. destruct (argc =? -1).
  - apply (guard_printf_then (fun _ _ => True) quiet); [by intros []|done].
  - apply (guard_cmd_execute (fun _ _ => True) quiet (fun _ => True) (fun _ => True)); try done. by intros [].
Qed.

(** C35: the shell keeps its standard input and output.  Whenever it prompts,
    after any number of lines with any number of pipes, whatever the kernel
    answered, whatever the commands did and also in a child in which [execv]
    failed, descriptor 0 means the keyboard and descriptor 1 the screen, and
    every pipe it made was closed at both ends. *)
Theorem shell_balanced (fuel : nat) (tr : list event) (cwd : list Z) (Hrun : my_shell fuel tr cwd) :
  redirected 0 tr = 0 /\ redirected 1 tr = 1 /\ open_pipes tr = [].
Proof.
  enough (balanced tr) as H by exact H. induction Hrun as [|tr cwd tr' cwd' Hrun IH Hpass]; [done|].
  apply balanced_app; [done|]. by eapply pass_balanced.
Qed.

(** ** A session

    The line "mkdir a/../b | pwd", typed in the directory "/d". *)
Definition ex_answers (c : call) : option (answer c) :=
  match c with
  | Readkeys => Some (str "mkdir a/../b | pwd" ++ [13])
  | Getcwd _ => Some (Some [47; 100])
  | Stat _ | Read _ _ | Free _ => None
  | Readdir _ => Some None
  | Rewinddir _ | Ps | Clear | Help | Fd_redirect _ _ => Some tt
  | Wait => None
  | Exit _ => None
  | Pipe => Some (Some (3, 4))
  | _ => Some 0
  end.
Definition ex_history : list event := fst (play ex_answers (my_shell_pass 5 [slash])).

Lemma ex_history_runs : my_shell 5 ([] ++ ex_history) [slash].
Proof. apply (my_shell_pass_done 5 [] [slash]); [constructor|]. apply (play_runs ex_answers). vm_compute. reflexivity. Qed.

Lemma ex_cwd_canonical : canonical_path [47; 100].
Proof.
  exists [[100]]. split; [done|]. split; [|split; [|cbn; lia]].
  - apply Forall_singleton. split; [done|]. split; [|cbn; lia]. apply Forall_singleton. split; [unfold is_char; lia|done].
  - by apply Forall_singleton.
Qed.

Lemma shell_balanced_witness :
  redirected 0 ([] ++ ex_history) = 0 /\ redirected 1 ([] ++ ex_history) = 1 /\ open_pipes ([] ++ ex_history) = [].
Proof. exact (shell_balanced 5 ([] ++ ex_history) [slash] ex_history_runs). Defined.

Lemma ex_history_served : served well_served ex_history.
Proof.
  assert (forall p t, @play (list Z) ex_answers p = t -> served well_served t.1) as H.
  { intros p. induction p as [a|w|c k IH]; intros t <-; cbn [play]; [constructor..|].
    destruct (ex_answers c) as [r|] eqn:E; [|constructor]. specialize (IH r _ eq_refl). destruct (play _ _) as [tr o]. cbn [fst] in *.
    constructor; [|done]. destruct c; cbn in E |- *; try done.
    - injection E as <-. repeat constructor; vm_compute; (discriminate || reflexivity).
    - injection E as <-. intros d [= <-]. apply ex_cwd_canonical. }
  by apply (H (my_shell_pass 5 [slash])).
Qed.

Lemma shell_paths_witness :
  Forall (fun e => path_call_ok (projT1 e)) ([] ++ ex_history) /\ canonical_path [slash] /\
  forall tr' c, reaches (my_shell_pass 5 [slash]) tr' c -> served well_served tr' -> path_call_ok c.
Proof. exact (shell_paths 5 ([] ++ ex_history) [slash] ex_history_runs ex_history_served). Defined.
