(* ===== verification/Shelltext.v ===== *)
(** * Shelltext: what a line typed at the prompt does

    The line is edited, split into words and given to the command its first
    word names; [ls] prints the entries of a directory. *)

From stdpp Require Import base numbers list gmap strings.
From S2P Require Import Prelude.
From S2P Require Import Cstring.
From S2P Require Import Path.
From S2P Require Import Stdio.
From S2P Require Import Shell.
From S2P Require Import Fsdata.
From S2P Require Import Fs.
From S2P Require Import Uprog.
From S2P Require Import Commands.
From S2P Require Import Shellrun.

Local Open Scope Z_scope.
Local Open Scope kernel_scope.

(** ** From keys to a command *)

(** [argv] for the words of a line. *)
Definition word_args (ws : list (list Z)) : args := (Some <$> ws) ++ replicate (16 - length ws) None.

Lemma points_to_args buf argv ws : length argv = 16%nat -> (length ws <= 16)%nat -> points_to buf argv 0 ws ->
  (forall j, (length ws <= j < 16)%nat -> argv !! j = Some None) -> word_at buf <$> argv = word_args ws.
Proof.
  intros Hl Hw Hp Hn. unfold word_args. apply list_eq. intros i. rewrite list_lookup_fmap.
  destruct (decide (i < length ws)%nat) as [Hi|Hi].
  - rewrite lookup_app_l by (by rewrite length_fmap). rewrite list_lookup_fmap.
    destruct (lookup_lt_is_Some_2 ws i Hi) as [w Ew]. rewrite Ew. destruct (Hp i w Ew) as (p & Ep & Ec). cbn in Ep.
    rewrite Ep. cbn. by rewrite Nat2Z.id, Ec.
  - rewrite lookup_app_r by (rewrite length_fmap; lia). rewrite length_fmap. destruct (decide (i < 16)%nat).
    + rewrite Hn by lia. by rewrite lookup_replicate_2 by lia.
    + rewrite (lookup_ge_None_2 argv) by lia. symmetry. apply lookup_ge_None_2. rewrite length_replicate. lia.
Qed.

Lemma find_bar_none line rest : Forall plain line -> bar ∉ line -> find_bar (line ++ 0 :: rest) = Done None.
Proof.
  induction 1 as [|c line [Hc _] Hl IH]; intros Hb; cbn [app find_bar]; [done|].
  rewrite not_elem_of_cons in Hb. destruct Hb as [Hb1 Hb2]. rewrite (proj2 (Z.eqb_neq c bar)) by congruence.
  rewrite (proj2 (Z.eqb_neq c 0)) by lia. by rewrite IH.
Qed.

(** C33: what is typed is what is run.  For keys up to the return key whose line,
    after editing, stays shorter than the buffer and has no pipe: an empty line
    does nothing; a line of at most 16 words runs the command with these words
    as its arguments, the rest of [argv] being [NULL]; but a line of blanks
    alone stops in the assertion of [strcmp], because [argv[0]] is [NULL]; and
    with 17 words or more a pointer is stored after the end of [argv]. *)
Theorem shell_line_correct (fuel : nat) (cwd keys : list Z) (e : Z) (Hkeys : Forall plain keys) (He : key_enter e = true)
    (Hroom : forall n, (n <= length keys)%nat -> Z.of_nat (length (foldl edit [] (take n keys))) < MAX_PATH_LEN)
    (Hbar : bar ∉ foldl edit [] keys) :
  let line := foldl edit [] keys in
  let ws := words 32 line in
  shell_line fuel cwd (keys ++ [e]) =
    if decide (line = []) then Ret cwd
    else if decide (ws = []) then Stop Assert_failed
    else if decide (16 < length ws)%nat then Stop Out_of_bounds
    else cmd_execute fuel cwd (Z.of_nat (length ws)) (word_args ws).
Proof.
  intros line ws. destruct (readline_correct keys (replicate (Z.to_nat MAX_PATH_LEN) 0) MAX_PATH_LEN e) as [Hread _]; try done.
  { intros n Hn. apply Hroom. lia. }
  destruct Hread as [Hpl [rest Er]]. { specialize (Hroom (length keys) ltac:(lia)). by rewrite firstn_all in Hroom. }
  fold line in Hpl, Er, Hbar. subst ws. clearbody line. set (ws := words 32 line). unfold shell_line. rewrite Er. cbn [of_outcome pbind].
  destruct (decide (line = [])) as [->|Hline]; [done|].
  assert ((default 0 (head (line ++ 0 :: rest)) =? 0) = false) as ->.
  { destruct Hpl as [|c l [Hc _] _]; [done|]. apply Z.eqb_neq. cbn. lia. }
  rewrite find_bar_none by done. cbn [of_outcome pbind]. unfold parse.
  destruct (cmd_parse_correct line rest 32) as [Hfit Hover]; [lia|eapply Forall_impl; [exact Hpl|]; intros x [? _]; lia|].
  fold ws in Hfit, Hover. destruct (decide (16 < length ws)%nat) as [H16|H16].
  { rewrite decide_False by (intros E; rewrite E in H16; cbn in H16; lia). by rewrite (Hover H16). }
  destruct Hfit as (argv & buf & -> & Hl & Hp & Hn); [lia|]. cbn [of_outcome pbind].
  rewrite (points_to_args buf argv ws) by (done || lia). rewrite (proj2 (Z.eqb_neq _ (-1))) by lia.
  rewrite u32_id by (unfold is_u32; lia). destruct (decide (ws = [])) as [Hws|]; [|done]. by rewrite Hws.
Qed.

(** "cd x<backspace>a" typed: [cd] with the argument "a". *)
Lemma shell_line_correct_witness :
  shell_line 5 [slash] ([99; 100; 32; 120; 8; 97] ++ [13]) = cmd_execute 5 [slash] 2 (word_args [[99; 100]; [97]]).
Proof.
  apply (shell_line_correct 5 [slash] [99; 100; 32; 120; 8; 97] 13).
  - repeat (apply Forall_cons_2; [split; [lia|done]|]). apply Forall_nil_2.
  - done.
  - intros n Hn. cbn in Hn. do 7 (destruct n as [|n]; [vm_compute; done|]). lia.
  - vm_compute. intros H. repeat (apply elem_of_cons in H as [H|H]; [done|]). by apply not_elem_of_nil in H.
Defined.

(** ** [ls] *)
Lemma runs_print {A} f l buf r (p : prog A) tr o : Stdio.render (str f) l = Some buf -> (length buf < 1024)%nat ->
  runs p tr o -> runs (printf f l ;;> p) (ev (Write 1 buf) r :: tr) o.
Proof.
  intros E Hl R. unfold printf. rewrite E, (proj2 (Z.leb_gt 1024 _)) by lia. cbn. by apply (runs_call (Write 1 buf) _ r).
Qed.

Lemma digits_count fuel v base : (length (digits fuel v base) <= fuel)%nat.
Proof. revert v. induction fuel as [|fuel IH]; intros v; cbn [digits]; [done|]. destruct (_ =? 0); rewrite ?length_app; cbn; [lia|]. specialize (IH (v / base)). lia. Qed.

Lemma dec_length v : (length (dec v) <= 34)%nat.
Proof. unfold dec. destruct (_ <? _); cbn [length]; pose proof (digits_count itoa_fuel (- i32 v) 10); pose proof (digits_count itoa_fuel (i32 v) 10); unfold itoa_fuel in *; lia. Qed.

(** The text for one entry, with its status for a long listing. *)
Definition ls_line (long : bool) (name : list Z) (e : dir_entry) (st : stat) : list Z :=
  if long then
    [if f_type e =? FT_REGULAR then 45 else 100; 32; 32] ++ dec (de_i_no e) ++ [32; 32] ++ dec (st_size st) ++ [32; 32] ++ name ++ [10]
  else name ++ [32].

Definition wrote (buf : list Z) : event := ev (Write 1 buf) (Z.of_nat (length buf)).
Definition with_slash (p : list Z) : list Z := if default 0 (last p) =? slash then p else p ++ [slash].

(** Reading and printing one entry; the whole listing of directory [p], open
    as [d], with the entries [es]. *)
Definition ls_entry (long : bool) (p : list Z) (d : Z) (x : list Z * dir_entry * stat) : list event :=
  let '(name, e, st) := x in
  ev (Readdir d) (Some e) ::
  (if long then [ev (Stat (with_slash p ++ name)) (0, st)] else []) ++ [wrote (ls_line long name e st)].
Definition ls_history (long : bool) (p : list Z) (st : stat) (d : Z) (es : list (list Z * dir_entry * stat)) : list event :=
  ev (Getcwd MAX_PATH_LEN) (Some p) :: ev (Stat p) (0, st) :: ev (Opendir p) d :: ev (Rewinddir d) tt ::
  (if long then [wrote (str "total: " ++ dec (st_size st) ++ [10])] else []) ++
  (es ≫= ls_entry long p d) ++ [ev (Readdir d) None] ++ (if long then [] else [wrote [10]]) ++ [ev (Closedir d) 0].

Definition named (x : list Z * dir_entry * stat) : Prop := entry_name x.1.2 = Done x.1.1 /\ (length x.1.1 <= 15)%nat.

Lemma ls_short_run d es : forall fuel, Forall named es -> (length es < fuel)%nat ->
  runs (ls_short fuel d) ((es ≫= ls_entry false [] d) ++ [ev (Readdir d) None; wrote [10]]) (Done tt).
Proof.
  induction es as [|[[nm e] st] es IH]; intros fuel HF Hf; (destruct fuel as [|fuel]; [cbn in Hf; lia|]); cbn [ls_short].
  - cbn. apply (runs_call (Readdir d) _ None). cbn. apply (runs_call (Write 1 [10]) _ 1). constructor.
  - apply Forall_cons in HF as [[Hn Hl] HF]. cbn in Hn, Hl. rewrite bind_cons. cbn [ls_entry app].
    apply (runs_call (Readdir d) _ (Some e)). cbn [pbind]. rewrite Hn. cbn [of_outcome pbind].
    apply runs_print; [done|cbn [ls_line]; rewrite length_app; cbn; lia|]. apply IH; [done|cbn in Hf; lia].
Qed.

Lemma ls_long_run p d es : forall fuel, Forall named es -> (length p <= 495)%nat -> (length es < fuel)%nat ->
  runs (ls_long fuel d (with_slash p)) ((es ≫= ls_entry true p d) ++ [ev (Readdir d) None]) (Done true).
Proof.
  intros fuel HF Hp. revert fuel. induction es as [|[[nm e] st] es IH]; intros fuel Hf; (destruct fuel as [|fuel]; [cbn in Hf; lia|]); cbn [ls_long].
  - apply (runs_call (Readdir d) _ None). constructor.
  - apply Forall_cons in HF as [[Hn Hl] HF]. cbn [fst snd] in Hn, Hl. rewrite bind_cons. cbn [ls_entry app].
    apply (runs_call (Readdir d) _ (Some e)). cbn [pbind]. rewrite Hn. cbn [of_outcome pbind]. unfold strcat_path.
    assert (length (with_slash p) <= 496)%nat by (unfold with_slash; destruct (_ =? _); rewrite ?length_app; cbn; lia).
    rewrite (proj2 (Z.ltb_lt _ _)) by (unfold MAX_PATH_LEN; lia). cbn [of_outcome pbind].
    apply (runs_call (Stat _) _ (0, st)). cbn [pbind Z.eqb]. pose proof (dec_length (de_i_no e)). pose proof (dec_length (st_size st)).
    apply runs_print; [unfold ls_line; by destruct (f_type e =? FT_REGULAR)| |].
    + cbn [ls_line]. rewrite !length_app. cbn [length]. lia.
    + apply IH; [done|cbn in Hf; lia].
Qed.

(** C36: [ls] lists a directory.  In a working directory of path [p] whose
    entries have names, with or without [-l] and however the kernel numbers its
    directories, the command runs to its end: it opens the directory, prints for
    each entry that is read, in order, its name, or with [-l] a line with its
    type, inode number, size and name, and closes the directory. *)
Theorem ls_correct (fuel : nat) (long : bool) (p : list Z) (st : stat) (d : Z) (es : list (list Z * dir_entry * stat))
    (Hp : p <> [] /\ (length p <= 495)%nat) (Hdir : st_filetype st = FT_DIRECTORY) (Hes : Forall named es) (Hfuel : (length es < fuel)%nat) :
  runs (buildin_ls fuel (if long then 2 else 1) (word_args (str "ls" :: if long then [str "-l"] else []))) (ls_history long p st d es) (Done tt).
Proof.
  destruct Hp as [Hne Hl].
  assert (ls_args 17 (if long then 2 else 1) (word_args (str "ls" :: if long then [str "-l"] else [])) 1 false None = Ret (Some (long, None))) as Ea
    by (by destruct long; vm_compute).
  assert (sub_prefix p = Done (with_slash p)) as Es.
  { unfold sub_prefix, with_slash. destruct (last p) as [c|] eqn:El; [|by apply last_None in El]. cbn [default].
    rewrite (proj2 (Z.leb_le _ _)); [done|]. unfold MAX_PATH_LEN. destruct (_ =? _); rewrite ?length_app; cbn; lia. }
  unfold buildin_ls. rewrite Ea. cbn [pbind]. unfold ls_history.
  apply (runs_call (Getcwd _) _ (Some p)). cbn [pbind]. apply (runs_call (Stat p) _ (0, st)). cbn [pbind Z.eqb].
  rewrite Hdir. change (FT_DIRECTORY =? FT_DIRECTORY) with true. cbn iota. apply (runs_call (Opendir p) _ d). cbn [pbind].
  rewrite Es. cbn [of_outcome pbind]. apply (runs_call (Rewinddir d) _ tt). cbn [pbind]. destruct long.
  - apply runs_print; [done|cbn; rewrite length_app; cbn; pose proof (dec_length (st_size st)); lia|].
    rewrite (app_assoc _ [_]). eapply runs_append; [by apply ls_long_run|]. apply (runs_call (Closedir d) _ 0). constructor.
  - change (runs (ls_short fuel d ;;> do_call (Closedir d) ;;> Ret tt)
      ((es ≫= ls_entry false [] d) ++ [ev (Readdir d) None; wrote [10]] ++ [ev (Closedir d) 0]) (Done tt)).
    rewrite app_assoc. eapply runs_append; [by apply ls_short_run|]. apply (runs_call (Closedir d) _ 0). constructor.
Qed.

Definition ex_name (c : Z) : list Z := c :: replicate 15 0.
Definition ex_listing : list (list Z * dir_entry * stat) :=
  [([46], mk_de (ex_name 46) 0 FT_DIRECTORY, mk_stat 0 48 FT_DIRECTORY); ([97], mk_de (ex_name 97) 1 FT_REGULAR, mk_stat 1 5 FT_REGULAR)].
Lemma ls_correct_witness :
  runs (buildin_ls 3 2 (word_args [str "ls"; str "-l"])) (ls_history true [slash] (mk_stat 0 48 FT_DIRECTORY) 4096 ex_listing) (Done tt).
Proof.
  apply (ls_correct 3 true [slash] (mk_stat 0 48 FT_DIRECTORY) 4096 ex_listing).
  - split; [done|cbn; lia].
  - done.
  - repeat (apply Forall_cons_2; [split; [vm_compute; reflexivity|cbn; lia]|]). apply Forall_nil_2.
  - cbn. lia.
Defined.
