(* ===== verification/Userprogs.v ===== *)
(** * Userprogs: programs on the disk ([command/cat.c], [command/prog_pipe.c])

    [main] of each as a program over the system calls; its result is what is
    returned to the start-up code, which exits with it. *)

From stdpp Require Import base numbers list gmap strings.
From S2P Require Import Prelude.
From S2P Require Import Cstring.
From S2P Require Import Path.
From S2P Require Import Stdio.
From S2P Require Import Fsdata.
From S2P Require Import Fs.
From S2P Require Import Uprog.
From S2P Require Import Commands.
From S2P Require Import Shelltext.

Local Open Scope Z_scope.
Local Open Scope kernel_scope.

Definition exit_with {A} (status : Z) : prog A := plet e := do_call (Exit status) in match e : Empty_set with end.

(** The first [n] bytes of an array of which [data] was overwritten. *)
Definition filled_with (size : Z) (data : list Z) : list Z := data ++ replicate (Z.to_nat size - length data) 0.

(** ** [cat] *)
Definition CAT_BUF : Z := 1024.

(** The loop; the fuel is the number of reads. *)
Fixpoint cat_loop (fuel : nat) (fd : Z) (buf : list Z) : prog unit :=
  match fuel with
  | O => Stop Out_of_fuel
  | S fuel =>
      plet (read_bytes, data) := do_call (Read fd CAT_BUF) in
      if read_bytes =? -1 then Ret tt else
      let buf := data ++ drop (length data) buf in
      (* the count is unsigned *)
      if CAT_BUF <? u32 read_bytes then Stop Out_of_bounds else
      do_call (Write 1 (take (Z.to_nat read_bytes) buf)) ;;>
      cat_loop fuel fd buf
  end.

Definition cat (fuel : nat) (argc : Z) (argv : args) : prog Z :=
  (if 2 <? argc then
     printf ("cat: only support 1 argument." +:+ newline +:+ "eg: cat filename" +:+ newline) [] ;;> exit_with (-2)
   else Ret tt) ;;>
  (if argc =? 1 then
     plet (_, data) := do_call (Read 0 512) in
     plet text := of_outcome (oget (cstring (filled_with 512 data)) Out_of_bounds) in
     printf "%s" [FStr text] ;;> exit_with 0
   else Ret tt) ;;>
  plet buf := do_call (Malloc CAT_BUF) in
  if buf =? 0 then printf ("cat: malloc memory failed" +:+ newline) [] ;;> Ret (-1) else
  plet a := arg_at argv 1 in
  plet arg := deref a in
  plet abs_path :=
    (if negb (default 0 (head arg) =? slash) then
       plet cwd := do_call (Getcwd 512) in
       of_outcome (olet p := strcat_path (default [] cwd) [slash] in strcat_path p arg)
     else of_outcome (strcat_path [] arg)) in
  plet fd := do_call (Open abs_path O_RDONLY) in
  if fd =? -1 then printf ("cat: open: open %s failed" +:+ newline) [FStr arg] ;;> Ret (-1) else
  cat_loop fuel fd (replicate (Z.to_nat CAT_BUF) 0) ;;>
  do_call (Free buf) ;;>
  do_call (Close fd) ;;>
  Ret 66.

(** ** [prog_pipe] *)
Definition message : list Z := str "Hi, my son, I love you!" ++ [0].

Definition prog_pipe (argc : Z) (argv : args) : prog Z :=
  plet r := do_call Pipe in
  let fd := default (-1, 0) r in
  plet pid := do_call Fork in
  if negb (pid =? 0) then
    do_call (Close fd.1) ;;>
    do_call (Write fd.2 message) ;;>
    plet p := do_call Getpid in
    printf (newline +:+ "I`m father, my pid is %d" +:+ newline) [FInt p] ;;>
    Ret 8
  else
    do_call (Close fd.2) ;;>
    plet (_, data) := do_call (Read fd.1 24) in
    plet p := do_call Getpid in
    printf (newline +:+ "I`m child, my pid is %d" +:+ newline) [FInt p] ;;>
    plet text := of_outcome (oget (cstring (filled_with 32 data)) Out_of_bounds) in
    printf ("I`m child, my father said to me: " +:+ String (Ascii.ascii_of_nat 34) ("%s" +:+ String (Ascii.ascii_of_nat 34) newline)) [FStr text] ;;>
    Ret 9.

(** ** Reading a file to its end *)

(** What [read] answers, one call after the other, for a file with the bytes
    [data]: at most 1024 of them at a time, and -1 at the end. *)
Fixpoint chunks (n : nat) (data : list Z) : list (list Z) :=
  match n with
  | O => []
  | S n => match data with [] => [] | _ => take 1024 data :: chunks n (drop 1024 data) end
  end.

Definition copied (fd : Z) (c : list Z) : list event := [ev (Read fd CAT_BUF) (Z.of_nat (length c), c); wrote c].
Definition end_of_file (fd : Z) : event := ev (Read fd CAT_BUF) (-1, []).

(** The history of [cat] on the file at [path], which [open] gave as [fd]. *)
Definition cat_history (cwd : option (list Z)) (path : list Z) (buf fd : Z) (data : list Z) : list event :=
  ev (Malloc CAT_BUF) buf :: (match cwd with Some d => [ev (Getcwd 512) (Some d)] | None => [] end) ++
  [ev (Open path O_RDONLY) fd] ++ (chunks (length data) data ≫= copied fd) ++ [end_of_file fd; ev (Free buf) tt; ev (Close fd) 0].

(** What was written to standard output. *)
Definition output (tr : list event) : list Z :=
  tr ≫= (fun e => match projT1 e with Write 1 buf => buf | _ => [] end).

Lemma chunks_concat n : forall data, (length data <= n)%nat -> concat (chunks n data) = data.
Proof.
  induction n as [|n IH]; intros data Hl; cbn [chunks]; [by destruct data; [|cbn in Hl; lia]|].
  destruct data as [|x data]; [done|]. cbn [concat]. rewrite IH by (rewrite length_drop; cbn in *; lia). apply take_drop.
Qed.

Lemma chunks_small n : forall data, Forall (fun c => 0 < Z.of_nat (length c) <= 1024) (chunks n data).
Proof.
  induction n as [|n IH]; intros data; cbn [chunks]; [done|]. destruct data as [|x data]; [done|]. constructor; [|apply IH].
  rewrite length_take. cbn [length]. lia.
Qed.

Lemma chunks_length n : forall data, (length (chunks n data) <= length data)%nat.
Proof.
  induction n as [|n IH]; intros data; cbn [chunks]; [apply Nat.le_0_l|]. destruct data as [|x data]; [done|].
  cbn [length]. specialize (IH (drop 1024 (x :: data))). rewrite length_drop in IH. cbn [length] in IH. lia.
Qed.

Lemma output_app a b : output (a ++ b) = output a ++ output b.
Proof. apply bind_app. Qed.

Lemma output_cons e tr : output (e :: tr) = output [e] ++ output tr.
Proof. apply (output_app [e]). Qed.

Lemma output_copied fd cs : output (cs ≫= copied fd) = concat cs.
Proof.
  induction cs as [|c cs IH]; [done|]. rewrite bind_cons, output_app, IH. cbn [concat]. f_equal.
  unfold output, copied. rewrite !bind_cons. cbn. by rewrite !app_nil_r.
Qed.

Lemma cat_output cwd path buf fd data : output (cat_history cwd path buf fd data) = data.
Proof.
  unfold cat_history. rewrite output_cons, !output_app, output_copied, chunks_concat by done. destruct cwd; cbn; by rewrite app_nil_r.
Qed.

Lemma cat_loop_run fd cs : forall fuel buf, Forall (fun c => 0 < Z.of_nat (length c) <= 1024) cs -> (length cs < fuel)%nat ->
  runs (cat_loop fuel fd buf) ((cs ≫= copied fd) ++ [end_of_file fd]) (Done tt).
Proof.
  induction cs as [|c cs IH]; intros fuel buf HF Hf; (destruct fuel as [|fuel]; [cbn in Hf; lia|]); cbn [cat_loop].
  - apply (runs_call (Read fd CAT_BUF) _ (-1, [])). cbn. constructor.
  - apply Forall_cons in HF as [Hc HF]. rewrite bind_cons. cbn [copied app].
    apply (runs_call (Read fd CAT_BUF) _ (Z.of_nat (length c), c)). cbn [pbind].
    rewrite (proj2 (Z.eqb_neq _ (-1))) by lia. cbv zeta. rewrite u32_id by (unfold is_u32; lia).
    rewrite (proj2 (Z.ltb_ge _ _)) by (unfold CAT_BUF; lia). rewrite Nat2Z.id, take_app_length. cbn [pbind].
    apply (runs_call (Write 1 c) _ (Z.of_nat (length c))). cbn [pbind]. apply IH; [done|cbn in Hf; lia].
Qed.

(** C37: [cat] prints the file.  Called with one argument, absolute or relative
    to the working directory, on a file with the bytes [data], of any length,
    whose [read]s give them piece by piece and then -1: the program runs to its
    end, with status 66; it opens that path for reading, closes what it opened
    and frees what it took, and what it has written to standard output are
    exactly the bytes of the file. *)
Theorem cat_correct (fuel : nat) (arg : list Z) (cwd : option (list Z)) (buf fd : Z) (data : list Z)
    (Harg : match cwd with
            | None => head arg = Some slash /\ (length arg < 512)%nat
            | Some d => head arg <> Some slash /\ (length d + length arg < 511)%nat
            end)
    (Hbuf : buf <> 0) (Hfd : fd <> -1) (Hfuel : (length data < fuel)%nat) :
  let path := match cwd with None => arg | Some d => d ++ slash :: arg end in
  runs (cat fuel 2 (word_args [str "cat"; arg])) (cat_history cwd path buf fd data) (Done 66) /\
  output (cat_history cwd path buf fd data) = data.
Proof.
  intros path. set (cs := chunks (length data) data).
  assert (length cs < fuel)%nat as Hf. { pose proof (chunks_length (length data) data) as H. fold cs in H. lia. }
  assert (runs (cat_loop fuel fd (replicate (Z.to_nat CAT_BUF) 0) ;;> do_call (Free buf) ;;> do_call (Close fd) ;;> Ret 66)
    (((cs ≫= copied fd) ++ [end_of_file fd]) ++ [ev (Free buf) tt; ev (Close fd) 0]) (Done 66)) as Hend.
  { eapply runs_append; [apply cat_loop_run; [apply chunks_small|done]|]. cbn.
    apply (runs_call (Free buf) _ tt), (runs_call (Close fd) _ 0). constructor. }
  rewrite <- app_assoc in Hend. cbn [app] in Hend. split.
  - unfold cat, cat_history. fold cs. cbn [Z.ltb Z.eqb Z.compare Pos.compare Pos.compare_cont Pos.eqb pbind].
    apply (runs_call (Malloc CAT_BUF) _ buf). cbn [pbind]. rewrite (proj2 (Z.eqb_neq buf 0)) by done.
    change (arg_at (word_args [str "cat"; arg]) 1) with (Ret (Some arg) : prog (option (list Z))). cbn [pbind deref].
    assert (forall p, runs (plet fd := do_call (Open p O_RDONLY) in
      if fd =? -1 then printf ("cat: open: open %s failed" +:+ newline) [FStr arg] ;;> Ret (-1) else
      cat_loop fuel fd (replicate (Z.to_nat CAT_BUF) 0) ;;> do_call (Free buf) ;;> do_call (Close fd) ;;> Ret 66)
      (ev (Open p O_RDONLY) fd :: (cs ≫= copied fd) ++ [end_of_file fd; ev (Free buf) tt; ev (Close fd) 0]) (Done 66)) as Hopen.
    { intros p. apply (runs_call (Open p O_RDONLY) _ fd). cbn [pbind]. by rewrite (proj2 (Z.eqb_neq fd (-1))). }
    destruct cwd as [d|]; destruct Harg as [Hh Hl].
    + assert ((default 0 (head arg) =? slash) = false) as ->.
      { apply Z.eqb_neq. destruct arg as [|x arg]; [done|]. cbn in *. congruence. }
      cbn [negb pbind app]. apply (runs_call (Getcwd 512) _ (Some d)). cbn [pbind]. change (default [] (Some d)) with d. unfold strcat_path at 1.
      cbn [length]. rewrite (proj2 (Z.ltb_lt _ _)) by (unfold MAX_PATH_LEN; lia). cbn [obind]. unfold strcat_path. rewrite length_app. cbn [length].
      rewrite (proj2 (Z.ltb_lt _ _)) by (unfold MAX_PATH_LEN; lia). cbn [of_outcome pbind]. rewrite <- app_assoc. apply Hopen.
    + rewrite Hh. cbn [default negb Z.eqb slash Pos.eqb pbind app]. unfold strcat_path. rewrite Nat.add_0_l, app_nil_l.
      rewrite (proj2 (Z.ltb_lt _ _)) by (unfold MAX_PATH_LEN; lia). cbn [of_outcome pbind]. apply Hopen.
  - apply cat_output.
Qed.

(** A file of three bytes, named relative to the root. *)
Lemma cat_correct_witness :
  runs (cat 4 2 (word_args [str "cat"; [102]])) (cat_history (Some []) [47; 102] 4096 3 [1; 2; 3]) (Done 66) /\
  output (cat_history (Some []) [47; 102] 4096 3 [1; 2; 3]) = [1; 2; 3].
Proof. apply (cat_correct 4 [102] (Some []) 4096 3 [1; 2; 3]); [split; [done|cbn; lia]|done|done|cbn; lia]. Defined.

(** The child of [prog_pipe] prints what its father wrote, whatever the numbers
    of the descriptors. *)
Definition child_says (p : Z) : list Z := [10] ++ str "I`m child, my pid is " ++ dec p ++ [10].
Definition father_said : list Z := str "I`m child, my father said to me: " ++ [34] ++ str "Hi, my son, I love you!" ++ [34; 10].

Theorem prog_pipe_message (r : option (Z * Z)) (p : Z) (argv : args) :
  let fd := default (-1, 0) r in
  runs (prog_pipe 1 argv) [ev Pipe r; ev Fork 0; ev (Close fd.2) 0; ev (Read fd.1 24) (24, message); ev Getpid p;
    wrote (child_says p); wrote father_said] (Done 9).
Proof.
  intros fd. unfold prog_pipe. apply (runs_call Pipe _ r). cbn [pbind]. fold fd. apply (runs_call Fork _ 0). cbn [pbind Z.eqb negb].
  apply (runs_call (Close fd.2) _ 0). cbn [pbind]. apply (runs_call (Read fd.1 24) _ (24, message)). cbn [pbind].
  apply (runs_call Getpid _ p). cbn [pbind]. apply runs_print; [done| |].
  - pose proof (dec_length p). unfold child_says. rewrite !length_app. cbn [length]. change (length (str _)) with 21%nat. lia.
  - assert (cstring (filled_with 32 message) = Some (str "Hi, my son, I love you!")) as -> by (vm_compute; reflexivity).
    cbn [oget of_outcome pbind]. apply runs_print; [done|vm_compute; lia|]. constructor.
Qed.
